(* ===== verification/_CoqProject ===== *)
-Q . S2P
Prelude.v
Bytes.v
Interfaces.v
Pmm.v
PmmBitmap.v
PmmAlloc.v
PmmPhysalloc.v
PmmFree.v
PmmInit.v
PmmCheck.v
Heap.v
HeapSpec.v
HeapMalloc.v
HeapFree.v
Pipefs.v
PipefsProofs.v
PipefsCalls.v
PipefsTable.v
BlockCache.v
BlockCacheProofs.v
BlockCacheRead.v
BlockCacheTheorems.v
PmmInterface.v
Paging.v
PagingProofs.v
PagingMap.v
PagingTheorems.v
PagingOps.v
FileSystems.v
Fat32.v
Fat32Proofs.v
Fat32Chain.v
Fat32Read.v
Fat32Write.v
Fat32Theorems.v
Fat32Limits.v
CString.v
CStringProofs.v
Paths.v
PathsProofs.v
VfsFiles.v
VfsRead.v
VfsWrite.v
VfsCalls.v
VfsTable.v
VfsTableTheorems.v
Fat32Vfs.v
VfsDirs.v
VfsDirsOpen.v
Fat32Dirs.v
Fat32DirsProofs.v
Fat32DirsTheorems.v
SchedQueue.v
SchedState.v
Sched.v
SchedSwitch.v
SchedInv.v
SchedWake.v
SchedSelect.v
SchedSystem.v
SchedEvents.v
SchedTheorems.v
SchedFutex.v
Mutex.v
Nvme.v
NvmeProofs.v
NvmeTheorems.v
Sprintf.v
Elf.v
Shm.v
Gpt.v
Terminal.v
TerminalProofs.v
TerminalTheorems.v
Syscalls.v
SyscallsTheorems.v
SyscallsVfs.v
SyscallsWitness.v
Devfs.v
Memfs.v
