(* ===== verification/Prelude.v ===== *)
(** * Bincows: a verification development

    Bincows is a 64-bit hobby operating system in C: a monolithic kernel
    ([src/kernel]), a C library for its programs ([src/blibc]) and the programs
    ([src/programs]).  This library models the memory management of the kernel,
    its NVMe driver and block cache, its partition tables, its FAT32 file system, its
    directories and open files, its pipes, its string functions and formatted output,
    its terminal, its ELF loader, its shared memory, its file systems of devices and of
    shared memory, its scheduler and its system calls on files, and the mutexes of the C library, as executable definitions, and proves what makes them correct.

    ** The parts and how they interact

    The physical memory manager hands out page frames; paging builds the page
    tables out of such frames and maps frames into the address space; the kernel
    heap grows by mapping pages; the block cache maps the sectors of a device page
    by page, fetching them from the driver; the FAT32 file system stores files as
    chains of clusters on a block device; the virtual file system reads and writes
    open files byte by byte over any file system, and finds them by walking a path
    along the mount points; pipes are byte queues between threads in a buffer from
    the heap; the scheduler switches between the threads of the processes, which
    wait for each other, for time and for signals.  The NVMe driver turns requests
    for sectors into commands in a queue that the controller answers by interrupts;
    the partition table says which sectors a file system has; programs are loaded
    through paging; shared memory is one page directory that several processes map, and
    appears as files, like the devices of the drivers;
    the terminal draws what is printed; mutexes sleep on the futexes of the scheduler.

    - [Interfaces]: what the components promise to each other, as type classes.
      [PhysAllocator] (frames; used by paging, implemented by the model of
      [pmm.c] in [PmmInterface]), [PageMapper] (mapped pages; used by the heap),
      [BlockDevice] (a disk; used by the block cache and the file system), and the
      memory map of the boot loader.
    - [Pmm*] model [kernel/memory/pmm.c].  [Pmm] holds the definitions: ranges,
      the four bitmap levels of a range header, the four lists of ranges, and one
      definition per function.  [PmmBitmap], [PmmAlloc], [PmmPhysalloc],
      [PmmFree], [PmmInit], [PmmCheck] prove the loops from the inside out.
    - [Paging*] model [kernel/memory/paging.c].  [Paging] holds the definitions;
      [PagingProofs] defines what a walk of the tables finds ([node], [slot],
      [leaf]) and the invariant [vm_ok]; [PagingMap] proves the walks, the loops
      over a range and the mapping, and [PagingTheorems] (with the buffer of spare
      tables) and [PagingOps] the functions of [paging.h].
    - [Heap*] model [kernel/memory/heap.c]: [Heap] (definitions), [HeapSpec]
      (the heap as a tiling of its address range by segments),
      [HeapMalloc], [HeapFree].
    - [Pipefs*] model [kernel/fs/pipefs/pipefs.c]: [Pipefs] (definitions, with a
      call that blocks as a value), [PipefsProofs] (a pipe as a queue),
      [PipefsCalls] (calls that do not block; blocking and waking, and errors),
      [PipefsTable] (the table of pipes under any interleaving of calls).
    - [BlockCache*] model [kernel/drivers/block_cache.c]: [BlockCache]
      (definitions), [BlockCacheProofs] (a disk image, and coherence of the cached
      pages with it), [BlockCacheRead], [BlockCacheTheorems].
    - [Fat32*] model [kernel/fs/fat32/fat32.c]: [Fat32] (definitions),
      [Fat32Proofs] (the FAT as an array of entries behind the cache of its
      sectors), [Fat32Chain] (the search for a free cluster, and the chain of a
      file), [Fat32Read] and [Fat32Write] (the loops that read, append and write
      clusters), [Fat32Theorems], [Fat32Limits]; [Fat32Dirs] (long and short names,
      reading, adding and changing the entries of a directory), [Fat32DirsProofs]
      and [Fat32DirsTheorems].
    - [Nvme*] model [kernel/drivers/nvme]: [Nvme] (the queues, the commands, the
      interrupts, waiting for completion, the controller as the other party),
      [NvmeProofs] (the invariant that ties the queues of both sides together),
      [NvmeTheorems].
    - [Gpt] models [kernel/fs/gpt.c]: the scan of a partition table, and the list of
      the partitions.
    - [FileSystems]: the function pointers of [fs_t] as a class [FileSystem], and
      the contract [BlockFileSystem] of a file system that stores files in blocks.
    - [Vfs*] model [kernel/fs/vfs_files.c] over any [FileSystem]: [VfsFiles]
      (definitions), [VfsRead] (the table and the cursor of a handle, reading),
      [VfsWrite] and [VfsCalls] (reading, writing and seeking over any
      [BlockFileSystem], and the buffer of a handle after a write), [VfsTable] and [VfsTableTheorems] (opening, duplicating and closing).
      [Fat32Vfs] shows that FAT32 is a [BlockFileSystem].
    - [CString*] model [kernel/lib/string.c] on a byte-addressed memory: [CString]
      (definitions), [CStringProofs] (strings that end with a zero, and blocks).
    - [Sprintf] models [kernel/lib/sprintf.c]: numbers, and formats as sequences of
      pieces.
    - [Terminal*] model [kernel/drivers/terminal]: [Terminal] (the text buffer, the
      cursor, escape sequences, the drawing of characters, redrawing the screen),
      [TerminalProofs] (which words of the framebuffer belong to a character, and the
      screen as a picture), [TerminalTheorems].
    - [Elf] models [kernel/lib/elf], the loading of a program through a [PageMapper].
    - [Shm] models [kernel/sched/shm.c], the table of shared memory objects and the
      directories of the processes that map them.
    - [Devfs] models [kernel/fs/devfs/devfs.c]: the table of the devices, a [FileSystem]
      and a [DirectoryTree] over any drivers.
    - [Memfs] models [kernel/fs/memfs/memfs.c] and the shared memory of the processes
      ([kernel/sched/process.c]), over [Shm].
    - [Mutex] models [blibc/src/pthread_mutex.c]: the steps of any number of threads,
      interleaved at every access to the state of the mutex.
    - [Paths*] and [VfsDirs*] model [kernel/fs/vfs_dirs.c]: [Paths] and
      [PathsProofs] (the simplification of a path, byte by byte), [VfsDirs] (the
      mount points, the cache of paths, the directories, opening a file by its
      path), [VfsDirsOpen] (resolving a path).
    - [Sched*] model [kernel/sched/sched.c], the threads and signals of
      [kernel/sched/process.c] and [thread.c], [kernel/lib/time.c], and how
      interrupts and system calls enter and leave ([irq.c], [apic.c],
      [syscall.c]): [SchedQueue] (the ready queue), [SchedState] (the state, and a
      monad of computations on it, with locks and the interrupt flag), [Sched] and
      [SchedSwitch] (the functions), [SchedInv] (the invariant), [SchedWake] (what
      wakes threads), [SchedSelect] and [SchedSystem] (the parts of a switch, and
      interrupts), [SchedEvents] (all the events of the machine), [SchedTheorems]
      (with new threads), [SchedFutex] (futexes).
    - [Syscalls*] model the calls on files of [kernel/int/syscall.c] and the
      descriptors of [kernel/sched/process.c]: [Syscalls] (definitions, over the
      classes [OpenFiles] and [FileIO]), [SyscallsTheorems] (who owns a handle; what
      memory a call may write), [SyscallsVfs] (the virtual file system implements the
      two classes; the kernel with its open files).
    - Each family runs its theorems on a concrete state, with the abstract parameters
      instantiated, in a [*Witness] file or at the end of its last file.

    ** How C is modelled

    A function that can fail returns [res]: a failed [assert] or a [panic] is
    [Err (Panic _)], an access outside of the memory it belongs to is
    [Err (Fault _)], a wait for somebody who will never come is
    [Err (Deadlock _)].  Unsigned integers are [Z] with their wrap-around written
    out ([u8], [u16], [u32], [u64]).  Structures are records, updated by setters;
    pointers into an array or a pool are indices or keys.  Loops are structural
    recursion on a number of turns; a loop that runs out of it gives
    [Err NoFuel].  The bounds are counts the code itself gives (the number of
    pages, sectors or bytes that remain, the 512 entries of a table, the 16 levels
    of a bitmap byte), and every correctness theorem states [Ok], so that it also
    shows that the bound suffices.  Other fuel: 20 digits of a number of 64 bits; for
    a directory as many clusters as the FAT has; for a wait of the NVMe driver, one
    turn for each of the commands of the queue and one more; seven turns for a
    tabulator.  The fuel of [free_page_range] and of a tabulator is a parameter, since
    those loops need not end.

    ** What the theorems show

    - Physical memory: [init_pmm] establishes the invariant that ties the four
      bitmap levels, the counters and the lists together; [physalloc] hands out
      exactly the requested number of distinct free frames and [physfree] returns
      one; the self checks of the allocator accept exactly the consistent states;
      the dichotomy that finds the range of a page ends on it.
    - Paging: [map_pages], [alloc_pages] and [unmap_pages] change the translation
      of exactly the pages of their range, and the tables stay a tree whose pages
      are never handed out as data; the buffer of spare tables is big enough;
      [get_phys_addr] computes the translation.
    - Heap: [malloc], [free] and [realloc] keep the segments a tiling of the heap,
      return disjoint blocks of mapped memory, and preserve contents.
    - Pipes: reads and writes implement a queue; every interleaving of calls keeps
      the table of pipes consistent; a blocked reader is woken by the next write.
    - Block cache: reads return the sectors of the device whatever is cached;
      writes keep the cache coherent; reclaiming loses no data.
    - NVMe: whatever the order of requests, interrupts and completions, the transfers
      that are done are those of the requests, in their order, and waiting for them
      ends (at most 2^31 commands; a controller that completes in order).
    - Partition tables: scanning registers exactly the used entries.
    - FAT32: reading a file returns the sectors of its chain; writing stores them,
      appends free clusters where the chain ends, and leaves every other file alone;
      what was written is read back; allocation stays inside of the FAT; an entry that
      is added to a directory is listed, and the others stay.
    - Open files: a read returns the bytes at the position of the handle, a write
      replaces them, what was written is read back, over every file system that
      meets its contract, which FAT32 does; in every state reached by opening,
      duplicating and closing, the counts of the table are right.
    - Paths: simplifying a path writes its canonical form and nothing else; a path
      is resolved to what walking from the root along its names finds, whatever the
      cache of paths holds; string functions do what C says, but for those that the
      findings name.
    - Scheduler: whatever thread runs and whatever interrupts it, no assertion
      fails, no lock is waited for, and the queue holds exactly the ready threads;
      a ready thread runs after as many switches as it has threads in front of it;
      sleeping threads wake when their time has come; a signal handler gives the
      program back its registers; waking a futex wakes exactly the threads that wait
      for its address.
    - System calls: every open descriptor has an open handle of its own and every
      handle has a descriptor, whatever the processes call and whenever they begin and
      end; a call writes only to the memory of its process.
    - Printing: numbers read back as themselves; a format is rendered piece by piece.
    - Terminal: the framebuffer is the picture of the visible lines of the text buffer
      after every write, and text flows over the lines and scrolls.
    - Programs: a well-formed ELF file is in memory as its headers say, everything else
      is as it was.
    - Shared memory: instances are counted and mapped to the object they belong to; the
      processes that open a file of shared memory read addresses of the same memory.
    - Devices: reading and writing the file of a device is calling its driver.
    - Mutexes: at most one thread holds a mutex, however the threads interleave.
    - The theorems of kind [error] state precisely where the code does something
      else than it means to.

    ** Not modelled

    Outside of the scheduler, interrupt masking ([get_rflags], [_cli],
    [set_rflags]) and the spinlocks taken and released inside one function, since
    each modelled function is one step of the kernel; logging; the contents of heap
    blocks except in [realloc]; the payload of pages except in the block cache; the
    extended registers of threads; more than one processor.  Of modelled components:
    the installation of the NVMe driver and [nvme_sync_read]; unmounting a file system;
    the allocation of the memory of a shared memory object; the conversion of the font of
    the terminal.  Not modelled at all: the system calls on time, memory, processes and
    signals (beyond their part in the scheduler), starting a program, the rest of the C
    library (allocator, streams, threads and conditions) and the programs.  The code that
    only talks to hardware or to the boot loader (PCIe, registers, descriptor tables,
    ports, ACPI) has no state to reason about. *)

From Stdlib Require Export Lia ZifyBool.
From stdpp Require Export prelude gmap list list_numbers strings numbers.

#[global] Open Scope Z_scope.

(** ** Outcomes of kernel code

    A C function of the kernel either returns, stops the machine through
    [panic] (a failed [assert] ends there as well, [kernel/lib/assert.c]), or
    performs an access the C standard gives no meaning to (an out-of-bounds
    index, a load from unmapped memory).  [Deadlock] is a spin on a lock that
    nobody is left to release.  [NoFuel] is the outcome of a loop
    whose fuel was too small; the theorems show it does not occur. *)
Inductive failure :=
  | Panic (msg : string)
  | Fault (msg : string)
  | Deadlock (msg : string)
  | NoFuel.

Inductive res (A : Type) :=
  | Ok (a : A)
  | Err (f : failure).
Arguments Ok {A} a.
Arguments Err {A} f.

#[export] Instance res_ret : MRet res := fun A a => Ok a.
#[export] Instance res_bind : MBind res := fun A B k m =>
  match m with Ok a => k a | Err f => Err f end.

Definition panic {A} (msg : string) : res A := Err (Panic msg).

(** The kernel's [assert(EX)] macro. *)
Definition assert_ (b : bool) (msg : string) : res unit :=
  if b then Ok () else Err (Panic msg).

Definition is_ok {A} (r : res A) : bool := match r with Ok _ => true | Err _ => false end.

(** ** Machine integers: the values of an unsigned w-bit type *)
Definition wrap (w x : Z) : Z := x mod 2 ^ w.
Abbreviation u8 := (wrap 8).
Abbreviation u16 := (wrap 16).
Abbreviation u32 := (wrap 32).
Abbreviation u64 := (wrap 64).

(** A value of C's [int] obtained from a wider unsigned value. *)
Definition s32 (x : Z) : Z :=
  let y := wrap 32 x in if y <? 2 ^ 31 then y else y - 2 ^ 32.

Definition is_aligned (x align : Z) : bool := Z.land x (align - 1) =? 0.

(** ** Arrays with the bounds C code must respect *)
Definition zlen {A} (l : list A) : Z := Z.of_nat (length l).

Definition ld {A} (l : list A) (i : Z) : res A :=
  if 0 <=? i then
    match l !! Z.to_nat i with Some x => Ok x | None => Err (Fault "out of bounds") end
  else Err (Fault "out of bounds").

Definition st {A} (l : list A) (i : Z) (x : A) : res (list A) :=
  if (0 <=? i) && (i <? zlen l) then Ok (<[Z.to_nat i := x]> l)
  else Err (Fault "out of bounds").

(** Unchecked read used in specifications. *)
Definition nthZ (l : list Z) (i : Z) : Z := default 0 (l !! Z.to_nat i).

(** [a[i] = a[--n]]. *)
Definition swap_remove {A} (i : nat) (l : list A) : list A :=
  match l !! (length l - 1)%nat with Some x => take (length l - 1) (<[i := x]> l) | None => l end.

(** ** Bitmaps stored as arrays of bytes *)
Definition getbit (l : list Z) (i : Z) : bool := Z.testbit (nthZ l (i / 8)) (i mod 8).

Definition bytes_ok (l : list Z) : Prop := Forall (fun b => 0 <= b < 256) l.

(** [*(uint64_t* )p]: eight bytes, little-endian. *)
Fixpoint le_bytes (l : list Z) : Z :=
  match l with
  | [] => 0
  | b :: t => Z.lor b (Z.shiftl (le_bytes t) 8)
  end.

Definition ld64 (l : list Z) (k : Z) : res Z :=
  if (0 <=? k) && (8 * k + 8 <=? zlen l) then
    Ok (le_bytes (take 8 (drop (Z.to_nat (8 * k)) l)))
  else Err (Fault "out of bounds").

(** [__builtin_ffsll]: one plus the index of the lowest set bit, 0 for 0. *)
Fixpoint ffs_from (n : nat) (i x : Z) : Z :=
  match n with
  | O => 0
  | S n' => if Z.testbit x i then i + 1 else ffs_from n' (i + 1) x
  end.
Definition ffsll (x : Z) : Z := ffs_from 64 0 x.

(** Number of [i < n] with [f i]. *)
Fixpoint countb (f : Z -> bool) (n : nat) : Z :=
  match n with
  | O => 0
  | S m => countb f m + (if f (Z.of_nat m) then 1 else 0)
  end.

(** ** Tactics and hint databases *)

(** [lia] sees the quotients and remainders of the code. *)
Ltac Zify.zify_post_hook ::= Z.to_euclidean_division_equations.

Create HintDb bincows.
#[export] Hint Unfold mret mbind res_ret res_bind : bincows.

(** Decide the boolean tests of a goal or hypothesis by [lia]. *)
Ltac zb :=
  repeat match goal with
  | |- context [?a =? ?b] => destruct (Z.eqb_spec a b)
  | |- context [?a <? ?b] => destruct (Z.ltb_spec a b)
  | |- context [?a <=? ?b] => destruct (Z.leb_spec a b)
  end; simpl; try lia; try done.

(** Take a successful computation in hypothesis [H] apart. *)
Ltac ok_inv H :=
  repeat (simplify_eq/=;
    match type of H with
    | (mbind _ ?m) = Ok _ =>
        let E := fresh "E" in destruct m as [?|?] eqn:E; simpl in H; [|discriminate]
    | (if ?b then _ else _) = Ok _ =>
        let E := fresh "E" in destruct b eqn:E; simpl in H; try discriminate
    end).

(** ** Words *)

Lemma wrap_small w x : 0 <= w -> 0 <= x < 2 ^ w -> wrap w x = x.
Proof. intros. by apply Z.mod_small. Qed.

Lemma wrap_range w x : 0 <= w -> 0 <= wrap w x < 2 ^ w.
Proof. intros. apply Z.mod_pos_bound. lia. Qed.

Lemma u8_small x : 0 <= x < 256 -> u8 x = x.
Proof. intros. apply wrap_small; lia. Qed.
Lemma u32_small x : 0 <= x < 4294967296 -> u32 x = x.
Proof. intros. apply wrap_small; lia. Qed.
Lemma u64_small x : 0 <= x < 18446744073709551616 -> u64 x = x.
Proof. intros. apply wrap_small; lia. Qed.

Lemma s32_small x : - 2 ^ 31 <= x < 2 ^ 31 -> s32 x = x.
Proof. intros Hx. unfold s32, wrap. destruct (Z.ltb_spec (x mod 2 ^ 32) (2 ^ 31)); lia. Qed.

Ltac unwrap :=
  repeat match goal with
  | |- context [wrap 8 ?x] => rewrite (u8_small x) by lia
  | |- context [wrap 32 ?x] => rewrite (u32_small x) by lia
  | |- context [wrap 64 ?x] => rewrite (u64_small x) by lia
  end.

Lemma testbit_wrap w x i :
  0 <= w -> Z.testbit (wrap w x) i = (i <? w) && Z.testbit x i.
Proof.
  intros Hw. unfold wrap. destruct (Z.ltb_spec i w).
  - destruct (decide (0 <= i)).
    + rewrite Z.mod_pow2_bits_low by lia. done.
    + by rewrite !Z.testbit_neg_r by lia.
  - rewrite Z.mod_pow2_bits_high by lia. done.
Qed.

Lemma eqb_0_testbit x :
  (x =? 0) = true <-> forall i, 0 <= i -> Z.testbit x i = false.
Proof.
  rewrite Z.eqb_eq. split.
  - intros ->. intros. apply Z.testbit_0_l.
  - intros H. apply Z.bits_inj'. intros i Hi. by rewrite H, Z.testbit_0_l.
Qed.

Lemma testbit_shiftl_ones w s i :
  0 <= w -> 0 <= s ->
  Z.testbit (Z.shiftl (Z.ones w) s) i = (s <=? i) && (i <? s + w).
Proof.
  intros Hw Hs. destruct (Z.leb_spec s i); simpl.
  - rewrite Z.shiftl_spec by lia. rewrite Z.testbit_ones by lia. zb.
  - destruct (decide (0 <= i)).
    + by rewrite Z.shiftl_spec_low by lia.
    + by rewrite Z.testbit_neg_r by lia.
Qed.

(** A test of [w] adjacent bits of a byte with a shifted mask. *)
Lemma land_mask_eqb_0 b w s :
  0 <= w -> 0 <= s -> s + w <= 8 ->
  (Z.land b (u8 (Z.shiftl (Z.ones w) s)) =? 0) = true <->
  forall t, 0 <= t < w -> Z.testbit b (s + t) = false.
Proof.
  intros Hw Hs Hsw. rewrite eqb_0_testbit. split.
  - intros H t Ht. specialize (H (s + t) ltac:(lia)).
    rewrite Z.land_spec, testbit_wrap, testbit_shiftl_ones in H by lia.
    rewrite andb_false_iff in H. destruct H as [H|H]; [done|].
    revert H. zb.
  - intros H i Hi. rewrite Z.land_spec, testbit_wrap, testbit_shiftl_ones by lia.
    destruct (Z.leb_spec s i); [|by rewrite andb_false_r, andb_false_r].
    destruct (Z.ltb_spec i (s + w)); [|by rewrite !andb_false_r].
    specialize (H (i - s) ltac:(lia)). replace (s + (i - s)) with i in H by lia.
    by rewrite H.
Qed.

Lemma shiftl_1_mask k : Z.shiftl 1 k = Z.shiftl (Z.ones 1) k.
Proof. done. Qed.

Lemma land_bit_eqb_0 b k :
  0 <= k < 8 -> (Z.land b (u8 (Z.shiftl 1 k)) =? 0) = negb (Z.testbit b k).
Proof.
  intros Hk. rewrite shiftl_1_mask.
  destruct (Z.testbit b k) eqn:E; simpl.
  - apply not_true_is_false. rewrite land_mask_eqb_0 by lia. intros H.
    specialize (H 0 ltac:(lia)). rewrite Z.add_0_r in H. congruence.
  - apply land_mask_eqb_0; [lia..|]. intros t Ht. by replace (k + t) with k by lia.
Qed.

Lemma testbit_lor_bit b k i :
  0 <= k < 8 -> Z.testbit (Z.lor b (u8 (Z.shiftl 1 k))) i = Z.testbit b i || (i =? k).
Proof.
  intros. rewrite Z.lor_spec, testbit_wrap, shiftl_1_mask, testbit_shiftl_ones by lia.
  f_equal. zb.
Qed.

Lemma testbit_clear_bit b k i :
  0 <= k < 8 -> 0 <= i ->
  Z.testbit (Z.land b (Z.lnot (u8 (Z.shiftl 1 k)))) i = Z.testbit b i && negb (i =? k).
Proof.
  intros. rewrite Z.land_spec, Z.lnot_spec, testbit_wrap, shiftl_1_mask, testbit_shiftl_ones by lia.
  f_equal. zb.
Qed.

Lemma byte_testbit_high b i : 0 <= b < 256 -> 8 <= i -> Z.testbit b i = false.
Proof.
  intros Hb Hi. rewrite <- (Z.mod_small b (2 ^ 8)) by lia.
  by apply Z.mod_pow2_bits_high.
Qed.

Lemma byte_ext a b :
  0 <= a < 256 -> 0 <= b < 256 ->
  (forall i, 0 <= i < 8 -> Z.testbit a i = Z.testbit b i) -> a = b.
Proof.
  intros Ha Hb H. apply Z.bits_inj'. intros i Hi. destruct (decide (i < 8)); [by apply H|].
  by rewrite !byte_testbit_high by lia.
Qed.

Lemma byte_of_bits x : 0 <= x -> (forall i, 8 <= i -> Z.testbit x i = false) -> 0 <= x < 256.
Proof.
  intros Hx H. assert (x = x mod 2 ^ 8) as ->; [|apply Z.mod_pos_bound; lia].
  apply Z.bits_inj'. intros i Hi. destruct (decide (i < 8)).
  - by rewrite Z.mod_pow2_bits_low by lia.
  - rewrite Z.mod_pow2_bits_high by lia. apply H; lia.
Qed.

Lemma byte_lor_bit b k : 0 <= b < 256 -> 0 <= k < 8 -> 0 <= Z.lor b (u8 (Z.shiftl 1 k)) < 256.
Proof.
  intros Hb Hk. apply byte_of_bits.
  - apply Z.lor_nonneg. pose proof (wrap_range 8 (Z.shiftl 1 k)). lia.
  - intros i Hi. rewrite testbit_lor_bit, byte_testbit_high by lia. simpl. lia.
Qed.

Lemma byte_clear_bit b k :
  0 <= b < 256 -> 0 <= k < 8 -> 0 <= Z.land b (Z.lnot (u8 (Z.shiftl 1 k))) < 256.
Proof.
  intros Hb Hk. apply byte_of_bits.
  - apply Z.land_nonneg. lia.
  - intros i Hi. by rewrite testbit_clear_bit, byte_testbit_high by lia.
Qed.

(** ** Arrays *)

Lemma zlen_nonneg {A} (l : list A) : 0 <= zlen l.
Proof. unfold zlen. lia. Qed.

Lemma zlen_insert {A} (l : list A) i x : zlen (<[i := x]> l) = zlen l.
Proof. unfold zlen. by rewrite length_insert. Qed.

Lemma ld_Some {A} (l : list A) i x : 0 <= i -> l !! Z.to_nat i = Some x -> ld l i = Ok x.
Proof. intros Hi E. unfold ld. destruct (Z.leb_spec 0 i); [by rewrite E|lia]. Qed.

Lemma ld_nat {A} (l : list A) (i : nat) x : l !! i = Some x -> ld l (Z.of_nat i) = Ok x.
Proof. intros. apply ld_Some; [lia|]. by rewrite Nat2Z.id. Qed.

Lemma ld_Ok_inv {A} (l : list A) i x :
  ld l i = Ok x -> 0 <= i < zlen l /\ l !! Z.to_nat i = Some x.
Proof.
  unfold ld, zlen. destruct (Z.leb_spec 0 i); [|done].
  destruct (l !! Z.to_nat i) eqn:E; [|done]. intros [= ->].
  apply lookup_lt_Some in E as H'. split; [lia|done].
Qed.

Lemma lookup_nthZ l i : 0 <= i < zlen l -> l !! Z.to_nat i = Some (nthZ l i).
Proof.
  unfold nthZ, zlen. intros Hi.
  destruct (lookup_lt_is_Some_2 l (Z.to_nat i)) as [x E]; [lia|]. by rewrite E.
Qed.

Lemma ld_ok l i : 0 <= i < zlen l -> ld l i = Ok (nthZ l i).
Proof. intros. apply ld_Some; [lia|]. by apply lookup_nthZ. Qed.

Lemma st_ok {A} (l : list A) i x : 0 <= i < zlen l -> st l i x = Ok (<[Z.to_nat i := x]> l).
Proof. intros. unfold st. zb. Qed.

Lemma nthZ_insert l i j x :
  0 <= i < zlen l -> 0 <= j ->
  nthZ (<[Z.to_nat i := x]> l) j = if j =? i then x else nthZ l j.
Proof.
  intros Hi Hj. unfold nthZ, zlen in *. destruct (Z.eqb_spec j i) as [->|].
  - by rewrite list_lookup_insert_eq by lia.
  - by rewrite list_lookup_insert_ne by lia.
Qed.

Lemma nthZ_byte l i : bytes_ok l -> 0 <= nthZ l i < 256.
Proof.
  intros H. unfold nthZ. destruct (l !! Z.to_nat i) eqn:E; simpl; [|lia].
  exact (Forall_lookup_1 _ _ _ _ H E).
Qed.

Lemma bytes_ok_insert l i x : bytes_ok l -> 0 <= x < 256 -> bytes_ok (<[i := x]> l).
Proof. intros. by apply Forall_insert. Qed.

Lemma getbit_insert l i j v :
  0 <= i / 8 < zlen l -> 0 <= j ->
  getbit (<[Z.to_nat (i / 8) := v]> l) j =
    if j / 8 =? i / 8 then Z.testbit v (j mod 8) else getbit l j.
Proof.
  intros Hi Hj. unfold getbit. rewrite nthZ_insert by lia. by destruct (_ =? _).
Qed.

Lemma same_bit i j : (j / 8 =? i / 8) && (j mod 8 =? i mod 8) = (j =? i).
Proof. zb. Qed.

(** Setting, clearing a bit of a bitmap: [bm[i/8] |= mask], [bm[i/8] &= ~mask]. *)
Definition set_bit (l : list Z) (i : Z) : list Z :=
  <[Z.to_nat (i / 8) := Z.lor (nthZ l (i / 8)) (u8 (Z.shiftl 1 (i mod 8)))]> l.
Definition clear_bit (l : list Z) (i : Z) : list Z :=
  <[Z.to_nat (i / 8) := Z.land (nthZ l (i / 8)) (Z.lnot (u8 (Z.shiftl 1 (i mod 8))))]> l.

Lemma getbit_set_bit l i j :
  0 <= i < 8 * zlen l -> 0 <= j -> getbit (set_bit l i) j = getbit l j || (j =? i).
Proof.
  intros Hi Hj. unfold set_bit. rewrite getbit_insert by lia.
  rewrite <- (same_bit i j). unfold getbit.
  destruct (Z.eqb_spec (j / 8) (i / 8)) as [->|]; simpl.
  - apply testbit_lor_bit. lia.
  - by rewrite orb_false_r.
Qed.

Lemma getbit_clear_bit l i j :
  0 <= i < 8 * zlen l -> 0 <= j -> getbit (clear_bit l i) j = getbit l j && negb (j =? i).
Proof.
  intros Hi Hj. unfold clear_bit. rewrite getbit_insert by lia.
  rewrite <- (same_bit i j). unfold getbit.
  destruct (Z.eqb_spec (j / 8) (i / 8)) as [->|]; simpl.
  - apply testbit_clear_bit; lia.
  - by rewrite andb_true_r.
Qed.

Lemma bytes_ok_set_bit l i : bytes_ok l -> bytes_ok (set_bit l i).
Proof. intros. apply bytes_ok_insert; [done|]. apply byte_lor_bit; [by apply nthZ_byte|lia]. Qed.
Lemma bytes_ok_clear_bit l i : bytes_ok l -> bytes_ok (clear_bit l i).
Proof. intros. apply bytes_ok_insert; [done|]. apply byte_clear_bit; [by apply nthZ_byte|lia]. Qed.

Lemma zlen_set_bit l i : zlen (set_bit l i) = zlen l.
Proof. apply zlen_insert. Qed.
Lemma zlen_clear_bit l i : zlen (clear_bit l i) = zlen l.
Proof. apply zlen_insert. Qed.

(** Two bitmaps with the same bits are the same bytes. *)
Lemma bitmap_ext l1 l2 :
  bytes_ok l1 -> bytes_ok l2 -> zlen l1 = zlen l2 ->
  (forall j, 0 <= j < 8 * zlen l1 -> getbit l1 j = getbit l2 j) -> l1 = l2.
Proof.
  intros H1 H2 Hlen H. apply list_eq. intros k.
  destruct (decide (k < length l1)%nat) as [Hk|Hk].
  - unfold zlen in *.
    rewrite <- (Nat2Z.id k), !lookup_nthZ by (unfold zlen; lia). f_equal.
    apply byte_ext; [by apply nthZ_byte..|]. intros i Hi.
    specialize (H (8 * Z.of_nat k + i) ltac:(lia)). unfold getbit in H.
    replace ((8 * Z.of_nat k + i) / 8) with (Z.of_nat k) in H by lia.
    by replace ((8 * Z.of_nat k + i) mod 8) with i in H by lia.
  - unfold zlen in *. rewrite !lookup_ge_None_2 by lia. done.
Qed.

(** ** Removing an element by the last one *)

Lemma delete_insert_place {A} (l : list A) i x : delete i (<[i := x]> l) = delete i l.
Proof. revert i. induction l as [|y l IH]; intros [|i]; cbn; [done..|]. by rewrite IH. Qed.

Lemma swap_remove_Permutation {A} (l : list A) i x : l !! i = Some x -> swap_remove i l ≡ₚ delete i l.
Proof.
  intros Hi. unfold swap_remove. pose proof (lookup_lt_Some _ _ _ Hi).
  destruct l as [|y0 l0 _] using rev_ind; [done|]. rewrite length_app in *. cbn [length] in *.
  rewrite Nat.add_sub. rewrite lookup_app_r, Nat.sub_diag by lia. cbn.
  destruct (decide (i = length l0)) as [->|].
  - rewrite insert_app_r_alt, Nat.sub_diag by lia. cbn. rewrite take_app_length.
    rewrite delete_take_drop, take_app_length, drop_ge by (rewrite length_app; cbn; lia). by rewrite app_nil_r.
  - rewrite insert_app_l by lia. rewrite take_app_length'; [|by rewrite length_insert].
    assert (i < length l0)%nat as Hl by lia. rewrite lookup_app_l in Hi by done.
    rewrite (delete_Permutation (<[i := y0]> l0) i y0) by (by apply list_lookup_insert_eq). rewrite delete_insert_place.
    assert (delete i (l0 ++ [y0]) = delete i l0 ++ [y0]) as ->.
    { clear - Hl. revert i Hl. induction l0 as [|z l0 IH]; intros [|i] Hl; cbn in *; try lia; [done|]. by rewrite IH by lia. }
    solve_Permutation.
Qed.

(** ** Chunks of a bitmap *)

Lemma le_bytes_testbit l i :
  bytes_ok l -> 0 <= i ->
  Z.testbit (le_bytes l) i = Z.testbit (nthZ l (i / 8)) (i mod 8).
Proof.
  intros H. revert i. induction H as [|b l Hb Hl IH]; intros i Hi.
  - unfold nthZ. by rewrite lookup_nil, !Z.testbit_0_l.
  - cbn [le_bytes]. rewrite Z.lor_spec. destruct (decide (i < 8)).
    + rewrite Z.shiftl_spec_low, orb_false_r by lia. unfold nthZ.
      rewrite Z.div_small, Z.mod_small by lia. done.
    + rewrite byte_testbit_high, Z.shiftl_spec, IH by lia. cbn [orb].
      unfold nthZ. replace (Z.to_nat (i / 8)) with (S (Z.to_nat ((i - 8) / 8))) by lia.
      cbn [lookup list_lookup]. f_equal. lia.
Qed.

Lemma ld64_ok l k :
  0 <= k -> 8 * k + 8 <= zlen l -> bytes_ok l ->
  exists c, ld64 l k = Ok c /\ 0 <= c < 2 ^ 64 /\
    forall b, 0 <= b < 64 -> Z.testbit c b = getbit l (64 * k + b).
Proof.
  intros Hk Hlen Hb. unfold ld64. destruct (Z.leb_spec 0 k); [|lia].
  destruct (Z.leb_spec (8 * k + 8) (zlen l)); [|lia]. simpl.
  set (l' := take 8 (drop (Z.to_nat (8 * k)) l)).
  assert (bytes_ok l') as Hb' by (by apply Forall_take, Forall_drop).
  assert (forall b, 0 <= b -> Z.testbit (le_bytes l') b =
    if b <? 64 then getbit l (64 * k + b) else false) as Hbit.
  { intros b Hb0. rewrite le_bytes_testbit by done. unfold getbit, nthZ, l'.
    destruct (Z.ltb_spec b 64).
    - rewrite lookup_take_lt, lookup_drop by lia.
      f_equal; [do 2 f_equal; lia|lia].
    - rewrite lookup_take_ge by lia. simpl. apply Z.testbit_0_l. }
  exists (le_bytes l'). split; [done|]. split.
  - assert (le_bytes l' = le_bytes l' mod 2 ^ 64) as ->; [|apply Z.mod_pos_bound; lia].
    apply Z.bits_inj'. intros i Hi. destruct (decide (i < 64)).
    + by rewrite Z.mod_pow2_bits_low by lia.
    + rewrite Z.mod_pow2_bits_high by lia. rewrite Hbit by done. zb.
  - intros b Hb0. rewrite Hbit by lia. zb.
Qed.

(** ** [ffsll] *)

Lemma ffs_from_spec n i x :
  (ffs_from n i x = 0 /\ forall j, i <= j < i + Z.of_nat n -> Z.testbit x j = false) \/
  (exists j, ffs_from n i x = j + 1 /\ i <= j < i + Z.of_nat n /\ Z.testbit x j = true /\
     forall k, i <= k < j -> Z.testbit x k = false).
Proof.
  revert i. induction n as [|n IH]; intros i; cbn [ffs_from].
  - left. split; [done|lia].
  - destruct (Z.testbit x i) eqn:E.
    + right. exists i. split_and!; [done|lia..|done|lia].
    + destruct (IH (i + 1)) as [[-> H]|(j & -> & Hj & Hx & H)].
      * left. split; [done|]. intros j Hj. destruct (decide (j = i)) as [->|]; [done|].
        apply H. lia.
      * right. exists j. split_and!; [done|lia..|done|].
        intros k Hk. destruct (decide (k = i)) as [->|]; [done|]. apply H. lia.
Qed.

Lemma ffsll_spec x :
  (ffsll x = 0 /\ forall j, 0 <= j < 64 -> Z.testbit x j = false) \/
  (exists j, ffsll x = j + 1 /\ 0 <= j < 64 /\ Z.testbit x j = true /\
     forall k, 0 <= k < j -> Z.testbit x k = false).
Proof. apply (ffs_from_spec 64 0 x). Qed.

(** ** Counting *)

Lemma countb_bounds f n : 0 <= countb f n <= Z.of_nat n.
Proof. induction n; cbn [countb]; [lia|]. destruct (f _); lia. Qed.

Lemma countb_ext f g n :
  (forall i, 0 <= i < Z.of_nat n -> f i = g i) -> countb f n = countb g n.
Proof.
  induction n as [|n IH]; intros H; [done|]. cbn [countb].
  rewrite IH by (intros; apply H; lia). by rewrite (H (Z.of_nat n)) by lia.
Qed.

(** [g] is [f] with [x] removed. *)
Lemma countb_remove f g n x :
  0 <= x < Z.of_nat n -> f x = true -> g x = false ->
  (forall i, 0 <= i < Z.of_nat n -> i <> x -> f i = g i) ->
  countb f n = countb g n + 1.
Proof.
  induction n as [|n IH]; intros Hx Hf Hg H; [lia|]. cbn [countb].
  destruct (decide (x = Z.of_nat n)) as [->|].
  - rewrite Hf, Hg. rewrite (countb_ext f g n); [lia|]. intros. apply H; lia.
  - rewrite IH by (try done; try lia; intros; apply H; lia).
    rewrite (H (Z.of_nat n)) by lia. lia.
Qed.

Lemma countb_pos f n : 0 < countb f n -> exists i, 0 <= i < Z.of_nat n /\ f i = true.
Proof.
  induction n as [|n IH]; cbn [countb]; [lia|]. intros H.
  destruct (f (Z.of_nat n)) eqn:E.
  - exists (Z.of_nat n). split; [lia|done].
  - destruct IH as (i & Hi & Hf); [lia|]. exists i. split; [lia|done].
Qed.

Lemma countb_0 f n : countb f n = 0 <-> forall i, 0 <= i < Z.of_nat n -> f i = false.
Proof.
  split.
  - intros H i Hi. destruct (f i) eqn:E; [|done]. exfalso.
    rewrite (countb_remove f (fun k => f k && negb (k =? i)) n i) in H by
      (try done; try (by rewrite E, Z.eqb_refl); intros; zb; by rewrite andb_true_r).
    pose proof (countb_bounds (fun k => f k && negb (k =? i)) n). lia.
  - intros H. rewrite (countb_ext f (fun _ => false)) by done.
    clear. induction n; cbn [countb]; lia.
Qed.

Lemma countb_full f n :
  (forall i, 0 <= i < Z.of_nat n -> f i = true) -> countb f n = Z.of_nat n.
Proof.
  intros H. rewrite (countb_ext f (fun _ => true)) by done.
  clear. induction n; cbn [countb]; lia.
Qed.

Lemma countb_add f n m :
  countb f (n + m) = countb f n + countb (fun i => f (Z.of_nat n + i)) m.
Proof.
  induction m as [|m IH]; cbn [countb]; [rewrite Nat.add_0_r; lia|].
  rewrite Nat.add_succ_r. cbn [countb]. rewrite IH, Nat2Z.inj_add. lia.
Qed.
