(* ===== verification/Bytes.v ===== *)
(** * Blocks of bytes

    [memcpy] and [memset] on arrays: bounds-checked reads and writes of a
    contiguous part of a list, with the lemmas the file systems and caches share. *)

From S2P Require Import Prelude.





Definition slice {A} (l : list A) (off n : Z) : list A := take (Z.to_nat n) (drop (Z.to_nat off) l).

Definition blit {A} (l : list A) (off : Z) (data : list A) : list A :=
  take (Z.to_nat off) l ++ data ++ drop (Z.to_nat off + length data) l.

(** The source of a [memcpy] of [n] bytes. *)
Definition rd_bytes {A} (l : list A) (off n : Z) : res (list A) :=
  if (0 <=? off) && (0 <=? n) && (off + n <=? zlen l) then Ok (slice l off n)
  else Err (Fault "read out of bounds").

(** The destination of a [memcpy] of the bytes [data]. *)
Definition wr_bytes {A} (l : list A) (off : Z) (data : list A) : res (list A) :=
  if (0 <=? off) && (off + zlen data <=? zlen l) then Ok (blit l off data)
  else Err (Fault "write out of bounds").

Section Bytes.
Context {A : Type}.
Implicit Types l d : list A.

Lemma ld_middle l (x : A) l' : ld (l ++ x :: l') (zlen l) = Ok x.
Proof. unfold ld, zlen. rewrite (proj2 (Z.leb_le _ _)), Nat2Z.id, lookup_app_r, Nat.sub_diag by lia. done. Qed.

Lemma zlen_app l d : zlen (l ++ d) = zlen l + zlen d.
Proof. unfold zlen. rewrite length_app. lia. Qed.

Lemma zlen_take l n : 0 <= n <= zlen l -> zlen (take (Z.to_nat n) l) = n.
Proof. unfold zlen. rewrite length_take. lia. Qed.

Lemma zlen_drop l n : 0 <= n <= zlen l -> zlen (drop (Z.to_nat n) l) = zlen l - n.
Proof. unfold zlen. rewrite length_drop. lia. Qed.

Lemma zlen_slice l off n : 0 <= off -> 0 <= n -> off + n <= zlen l -> zlen (slice l off n) = n.
Proof. unfold slice, zlen. rewrite length_take, length_drop. lia. Qed.

Lemma zlen_blit l off d : 0 <= off -> off + zlen d <= zlen l -> zlen (blit l off d) = zlen l.
Proof. unfold blit, zlen. rewrite !length_app, length_take, length_drop. lia. Qed.

Lemma rd_bytes_ok l off n :
  0 <= off -> 0 <= n -> off + n <= zlen l -> rd_bytes l off n = Ok (slice l off n).
Proof. intros. unfold rd_bytes. by replace (_ && _) with true by lia. Qed.

Lemma wr_bytes_ok l off d :
  0 <= off -> off + zlen d <= zlen l -> wr_bytes l off d = Ok (blit l off d).
Proof. intros. unfold wr_bytes. by replace (_ && _) with true by lia. Qed.

(** A slice cut in two. *)
Lemma slice_split l off n m :
  0 <= off -> 0 <= n -> 0 <= m -> slice l off (n + m) = slice l off n ++ slice l (off + n) m.
Proof.
  intros. unfold slice. rewrite !Z2Nat.inj_add by lia. rewrite <- drop_drop.
  symmetry. apply take_take_drop.
Qed.

Lemma slice_nil l off : slice l off 0 = [].
Proof. done. Qed.

Lemma slice_all l : slice l 0 (zlen l) = l.
Proof. unfold slice, zlen. rewrite Nat2Z.id. apply take_ge. cbn. done. Qed.

Lemma take_slice l off n m :
  0 <= m <= n -> take (Z.to_nat m) (slice l off n) = slice l off m.
Proof. intros. unfold slice. rewrite take_take. f_equal. lia. Qed.

Lemma drop_slice l off n m :
  0 <= off -> 0 <= m <= n -> drop (Z.to_nat m) (slice l off n) = slice l (off + m) (n - m).
Proof.
  intros. unfold slice. rewrite skipn_firstn_comm, drop_drop.
  f_equal; [lia|]. f_equal. lia.
Qed.

(** What was written is read back; what lies beside is not disturbed. *)
Lemma slice_blit_same l off d :
  0 <= off -> off + zlen d <= zlen l -> slice (blit l off d) off (zlen d) = d.
Proof.
  unfold slice, blit, zlen. intros H1 H2. rewrite drop_app_length' by (rewrite length_take; lia).
  rewrite Nat2Z.id. by rewrite take_app_length.
Qed.

Lemma slice_blit_grow l off d : 0 <= off <= zlen l -> slice (blit l off d) off (zlen d) = d.
Proof.
  unfold slice, blit, zlen. intros Ho. rewrite drop_app_length' by (rewrite length_take; lia). rewrite take_app_length' by lia. done.
Qed.

Lemma slice_blit_before l off d o n :
  0 <= o -> 0 <= n -> o + n <= off -> off + zlen d <= zlen l ->
  slice (blit l off d) o n = slice l o n.
Proof.
  unfold slice, blit, zlen. intros. rewrite drop_app_le by (rewrite length_take; lia).
  rewrite take_app_le by (rewrite length_drop, length_take; lia).
  rewrite skipn_firstn_comm. rewrite take_take. f_equal. lia.
Qed.

(** A write over the whole block. *)
Lemma blit_0_all l d : zlen l = zlen d -> blit l 0 d = d.
Proof. unfold zlen, blit. intros E. cbn. rewrite drop_ge by lia. by rewrite app_nil_r. Qed.

Lemma slice_blit_after l off d o n :
  0 <= off -> 0 <= n -> off + zlen d <= o -> off + zlen d <= zlen l ->
  slice (blit l off d) o n = slice l o n.
Proof.
  unfold slice, blit, zlen. intros. f_equal.
  rewrite drop_app_ge by (rewrite length_take; lia). rewrite length_take.
  rewrite drop_app_ge by lia. rewrite drop_drop. f_equal. lia.
Qed.

(** Blocks of the same size [sz] in an array. *)
Lemma slice_blit_block l sz a b d :
  0 < sz -> zlen d = sz -> 0 <= a -> 0 <= b -> (a + 1) * sz <= zlen l ->
  slice (blit l (a * sz) d) (b * sz) sz = if decide (a = b) then d else slice l (b * sz) sz.
Proof.
  intros Hsz <- Ha Hb Hl. case_decide as Hab; [subst b; apply slice_blit_same; lia|].
  destruct (decide (b < a)).
  - assert ((b + 1) * zlen d <= a * zlen d) by (apply Z.mul_le_mono_nonneg_r; lia). apply slice_blit_before; lia.
  - assert ((a + 1) * zlen d <= b * zlen d) by (apply Z.mul_le_mono_nonneg_r; lia). apply slice_blit_after; lia.
Qed.

(** The elements after a write that may go past the end. *)
Lemma blit_lookup_grow l d off i : 0 <= off <= zlen l ->
  blit l off d !! i =
  if decide (Z.to_nat off <= i < Z.to_nat off + length d)%nat then d !! (i - Z.to_nat off)%nat else l !! i.
Proof.
  unfold zlen, blit. intros. case_decide.
  - rewrite lookup_app_r by (rewrite length_take; lia). rewrite length_take, lookup_app_l by lia. f_equal. lia.
  - destruct (decide (i < Z.to_nat off)%nat).
    + rewrite lookup_app_l by (rewrite length_take; lia). by rewrite lookup_take_lt by lia.
    + rewrite lookup_app_r by (rewrite length_take; lia). rewrite length_take, lookup_app_r by lia.
      rewrite lookup_drop. f_equal. lia.
Qed.

(** The elements after a write. *)
Lemma lookup_blit l off d i :
  0 <= off -> off + zlen d <= zlen l ->
  blit l off d !! i =
  if decide (Z.to_nat off <= i < Z.to_nat off + length d)%nat then d !! (i - Z.to_nat off)%nat else l !! i.
Proof. intros. apply blit_lookup_grow. unfold zlen in *. lia. Qed.

Lemma lookup_slice l off n i : (i < Z.to_nat n)%nat -> slice l off n !! i = l !! (Z.to_nat off + i)%nat.
Proof. intros. unfold slice. by rewrite lookup_take_lt, lookup_drop by lia. Qed.

(** A write inside of a block. *)
Lemma blit_slice l a n o d :
  0 <= a -> 0 <= o -> o + zlen d <= n -> a + n <= zlen l ->
  blit l (a + o) d = blit l a (blit (slice l a n) o d).
Proof.
  intros. pose proof (zlen_nonneg d). assert (zlen (slice l a n) = n) as Hs by (apply zlen_slice; lia).
  assert (length (blit (slice l a n) o d) = Z.to_nat n) as Hb.
  { pose proof (zlen_blit (slice l a n) o d ltac:(lia) ltac:(lia)). unfold zlen in *. lia. }
  apply list_eq. intros i.
  rewrite lookup_blit by lia. rewrite lookup_blit by (unfold zlen in *; lia). rewrite Hb.
  unfold zlen in *. destruct (decide (Z.to_nat a <= i < Z.to_nat a + Z.to_nat n)%nat) as [Hi|Hi].
  - rewrite lookup_blit by (unfold zlen in *; lia). repeat case_decide; try lia; [f_equal; lia|].
    rewrite lookup_slice by lia. f_equal. lia.
  - by rewrite decide_False by lia.
Qed.

(** A slice of a slice. *)
Lemma slice_slice l off n o m :
  0 <= off -> 0 <= o -> 0 <= m -> o + m <= n -> slice (slice l off n) o m = slice l (off + o) m.
Proof.
  intros. unfold slice. rewrite skipn_firstn_comm, take_take, drop_drop. f_equal; [lia|]. f_equal. lia.
Qed.
End Bytes.
