(* ===== verification/Interfaces.v ===== *)
(** * Interfaces between components

    What one component of the kernel promises to another, as type classes: the
    clients are verified against the class, whatever implements it. *)

From S2P Require Import Prelude Bytes.





(** ** Boot interface ([kernel/boot/boot_interface.h])

    The memory map is the list of the entries that [mmap_get_next] returns one by
    one. *)
Inductive mmape_type :=
  USABLE | KERNEL | BOOTLOADER_RECLAIMABLE | ACPI_RECLAIMABLE | ACPI_NVS.

Record mmape := Mmape { pbase : Z; elength : Z; etype : mmape_type }.

(** ** Physical memory ([kernel/memory/pmm.h])

    [physalloc] calls its callback once per page. *)
Section Callbacks.
Context {C : Type} (callback : Z -> Z -> Z -> C -> C).

(** The callback invocations for a list of physical addresses, the virtual
    address advancing by one page each time. *)
Fixpoint callbacks (vaddr : Z) (l : list Z) (c : C) : C :=
  match l with
  | [] => c
  | a :: l' => callbacks (u64 (vaddr + 0x1000)) l' (callback a vaddr 1 c)
  end.

Fixpoint vaddr_after (n : nat) (vaddr : Z) : Z :=
  match n with O => vaddr | S n' => vaddr_after n' (u64 (vaddr + 0x1000)) end.
End Callbacks.

(** [frame a p b]: the physical page at address [p] is managed by the allocator, and is
    allocated ([b = true]) or free.  [serves a n]: the allocator is consistent and
    can hand out [n] pages.  [releasable a p]: [physfree] accepts the page. *)
Class PhysAllocator (A : Type) := {
  phys_alloc : forall {C}, (Z -> Z -> Z -> C -> C) -> Z -> Z -> A -> C -> res (A * C);
  phys_free : Z -> A -> res A;
  frame : A -> Z -> bool -> Prop;
  serves : A -> Z -> Prop;
  releasable : A -> Z -> Prop;
  frame_unique : forall a n p b b', serves a n -> frame a p b -> frame a p b' -> b = b';
  frame_addr : forall a n p b, serves a n -> frame a p b -> 0 < p < 2 ^ 47 /\ p mod 0x1000 = 0;
  serves_le : forall a n m, serves a n -> m <= n -> serves a m;
  phys_alloc_serves : forall C (callback : Z -> Z -> Z -> C -> C) a n size va c,
    serves a n -> va mod 0x1000 = 0 -> 0 <= size <= n ->
    exists a' l, phys_alloc callback size va a c = Ok (a', callbacks callback va l c) /\
      zlen l = size /\ NoDup l /\ (forall p, p ∈ l -> frame a p false) /\
      (forall p b, frame a' p b <-> exists b0, frame a p b0 /\ b = b0 || bool_decide (p ∈ l)) /\
      serves a' (n - size);
  releasable_frame : forall a p, releasable a p -> frame a p true;
  phys_free_releasable : forall a n p, serves a n -> releasable a p ->
    exists a', phys_free p a = Ok a' /\ serves a' n /\
      (forall q b, frame a' q b <-> exists b0, frame a q b0 /\ b = b0 && negb (q =? p)) /\
      (forall q, releasable a q -> q <> p -> releasable a' q)
}.

(** ** Virtual memory ([kernel/memory/paging.h])

    [alloc_pages] maps [n] fresh pages at the virtual address [vaddr], or stops
    the kernel (no physical memory left, page already mapped).  [mapped p v]
    says that the virtual page number [v] is backed by memory. *)
Class PageMapper (P : Type) := {
  alloc_pages : forall (vaddr n flags : Z), P -> res P;
  mapped : P -> Z -> Prop;
  alloc_pages_mapped : forall vaddr n flags p p',
    vaddr mod 0x1000 = 0 -> 0 <= n -> alloc_pages vaddr n flags p = Ok p' ->
    forall v, mapped p' v <-> mapped p v \/ vaddr / 0x1000 <= v < vaddr / 0x1000 + n
}.

(** ** Storage devices ([kernel/drivers/storage_interface.h])

    A device is a sequence of sectors of [2 ^ lbashift] bytes.  [dev_write] writes
    [count] sectors; [dev_sync] returns when every operation has terminated.  An
    asynchronous read delivers the sectors by the time [dev_sync] returns. *)
Class BlockDevice (D : Type) := {
  dev_lbashift : Z;
  dev_capacity : Z;
  dev_sector : D -> Z -> list Z;
  dev_write : forall (lba : Z) (buf : list Z) (count : Z), D -> D;
  dev_sync : D -> D;
  dev_lbashift_range : 0 <= dev_lbashift < 12;
  dev_capacity_range : 0 <= dev_capacity < 2 ^ 32;
  dev_sector_len : forall d l, zlen (dev_sector d l) = 2 ^ dev_lbashift;
  dev_write_sector : forall lba buf count d l,
    0 <= count -> zlen buf = count * 2 ^ dev_lbashift ->
    dev_sector (dev_write lba buf count d) l =
      if decide (lba <= l < lba + count)
      then slice buf ((l - lba) * 2 ^ dev_lbashift) (2 ^ dev_lbashift) else dev_sector d l;
  dev_sync_sector : forall d l, dev_sector (dev_sync d) l = dev_sector d l
}.

(** The bytes of [count] sectors from [lba] on. *)
Definition dev_read `{BlockDevice D} (d : D) (lba count : Z) : list Z :=
  concat (dev_sector d <$> seqZ lba count).

Lemma dev_read_1 `{BlockDevice D} (d : D) lba : dev_read d lba 1 = dev_sector d lba.
Proof. unfold dev_read. rewrite seqZ_cons by lia. rewrite seqZ_nil by lia. cbn. apply app_nil_r. Qed.

Lemma zlen_dev_read `{BlockDevice D} (d : D) lba n : 0 <= n -> zlen (dev_read d lba n) = n * 2 ^ dev_lbashift (D := D).
Proof.
  intros Hn. unfold dev_read. assert (forall l, zlen (concat (dev_sector d <$> l)) = zlen l * 2 ^ dev_lbashift (D := D)) as Hl.
  { induction l as [|x l IH]; [done|]. rewrite fmap_cons. cbn [concat]. rewrite zlen_app, IH, dev_sector_len. unfold zlen. cbn [length]. lia. }
  rewrite Hl. unfold zlen. rewrite length_seqZ. f_equal. lia.
Qed.
