(* ===== verification/Pmm.v ===== *)
(** * Physical memory manager ([kernel/memory/pmm.c])

    Definitions.  The memory ranges, their in-memory headers with the four
    bitmap levels, the four linked lists of ranges and the global counters are
    kept as the C file keeps them. *)

From S2P Require Import Prelude Bytes Interfaces.





Definition MAX_SIZE : Z := 16384.
Definition MIN_SIZE : Z := 10.
Definition TRANSLATED_PHYSICAL_MEMORY_BEGIN : Z := 0xffff800000000000.

(** [struct memory_range]; a [struct memory_range*] is an index into
    [memory_ranges_buffer], [None] is [NULL]. *)
Record memory_range := MemoryRange {
  base : Z;
  mlength : Z;
  next : option nat
}.

(** [struct MR_header]: the counters and the four bitmaps of a range. *)
Record MR_header := MRHeader {
  available0 : Z; available1 : Z; available2 : Z; available3 : Z;
  bitmap_level3 : list Z;
  bitmap_level2 : list Z;
  bitmap_level1 : list Z;
  bitmap_level0 : list Z
}.

(** [header->available[i]] *)
Definition available (h : MR_header) (i : Z) : Z :=
  if i =? 0 then available0 h else if i =? 1 then available1 h
  else if i =? 2 then available2 h else available3 h.

(** The static variables of the file, and the part of physical memory it
    owns: the header page of each range and the contents of other pages. *)
Record pmm_state := PmmState {
  memory_ranges_buffer : list memory_range;
  n_ranges : Z;
  total_available_pages : Z;
  total_memory_pages : Z;
  mr_lists : list (option nat);
  headers : gmap Z MR_header;
  pages : gmap Z (list Z)
}.

Definition set_ranges (s : pmm_state) (rs : list memory_range) : pmm_state :=
  PmmState rs (n_ranges s) (total_available_pages s) (total_memory_pages s)
    (mr_lists s) (headers s) (pages s).
Definition set_lists (s : pmm_state) (ls : list (option nat)) : pmm_state :=
  PmmState (memory_ranges_buffer s) (n_ranges s) (total_available_pages s)
    (total_memory_pages s) ls (headers s) (pages s).
Definition set_headers (s : pmm_state) (hs : gmap Z MR_header) : pmm_state :=
  PmmState (memory_ranges_buffer s) (n_ranges s) (total_available_pages s)
    (total_memory_pages s) (mr_lists s) hs (pages s).
Definition set_total_available (s : pmm_state) (n : Z) : pmm_state :=
  PmmState (memory_ranges_buffer s) (n_ranges s) n
    (total_memory_pages s) (mr_lists s) (headers s) (pages s).
Definition set_pages (s : pmm_state) (ps : gmap Z (list Z)) : pmm_state :=
  PmmState (memory_ranges_buffer s) (n_ranges s) (total_available_pages s)
    (total_memory_pages s) (mr_lists s) (headers s) ps.

Definition set_next (r : memory_range) (n : option nat) : memory_range :=
  MemoryRange (base r) (mlength r) n.

(** The kernel addresses physical memory either identity mapped (early boot)
    or through the window that starts at [TRANSLATED_PHYSICAL_MEMORY_BEGIN];
    both name the same physical byte. *)
Definition window_phys (vaddr : Z) : Z := Z.land vaddr (Z.ones 47).

Definition get_header_base (range : memory_range) : Z :=
  Z.lor (base range) TRANSLATED_PHYSICAL_MEMORY_BEGIN.

Definition load_header (s : pmm_state) (p : Z) : res MR_header :=
  match headers s !! window_phys p with
  | Some h => Ok h
  | None => Err (Fault "no range header at this address")
  end.
Definition store_header (s : pmm_state) (p : Z) (h : MR_header) : pmm_state :=
  set_headers s (<[window_phys p := h]> (headers s)).

Definition load_range (s : pmm_state) (r : nat) : res memory_range :=
  ld (memory_ranges_buffer s) (Z.of_nat r).
Definition store_range (s : pmm_state) (r : nat) (v : memory_range) : res pmm_state :=
  rs ← st (memory_ranges_buffer s) (Z.of_nat r) v; Ok (set_ranges s rs).

(** ** Initialisation *)

(** The [for(int i = 3; i >= 0; i--)] loop that links a range into the list of
    its biggest free block. *)
Fixpoint insert_in_list (i : nat) (s : pmm_state) (r : nat) (h : MR_header) : res pmm_state :=
  if available h (Z.of_nat i) =? 0 then
    match i with O => Ok s | S i' => insert_in_list i' s r h end
  else
    range ← load_range s r;
    head ← ld (mr_lists s) (Z.of_nat i);
    s ← store_range s r (set_next range head);
    ls ← st (mr_lists s) (Z.of_nat i) (Some r);
    Ok (set_lists s ls).

Definition init_header (length : Z) : MR_header :=
  MRHeader
    (u32 (length - 1))
    (u32 (Z.shiftr (u64 (length - 1 + 4 - 1)) 2))
    (u32 (Z.shiftr (u64 (length - 1 + 8 - 1)) 3))
    (u32 (Z.shiftr (u64 (length - 1 + 16 - 1)) 4))
    (replicate 128 0) (replicate 256 0) (replicate 512 0) (replicate 2048 0).

Definition init_memory_range (s : pmm_state) (r : nat) (addr length : Z) : res pmm_state :=
  assert_ (is_aligned addr 0x1000) "assert_aligned(addr, 0x1000)" ;;
  range ← load_range s r;
  assert_ (1 <? length) "length > 1" ;;
  s ← store_range s r (MemoryRange addr (length - 1) (next range));
  let h := init_header length in
  insert_in_list 3 (store_header s addr h) r h.

(** The [while(size > 0)] loop of [init_pmm]: split a memory map entry into
    ranges of at most [MAX_SIZE] pages. *)
Fixpoint split_entry (fuel : nat) (s : pmm_state) (j total_pages bas size : Z)
    : res (pmm_state * Z * Z) :=
  if 0 <? size then
    match fuel with
    | O => Err NoFuel
    | S fuel' =>
        if (size <? MIN_SIZE) && negb (MAX_SIZE <? size) then Ok (s, j, total_pages)
        else
          let sz := if MAX_SIZE <? size then MAX_SIZE else size in
          s ← init_memory_range s (Z.to_nat j) bas sz;
          range ← load_range s (Z.to_nat j);
          assert_ (negb (mlength range =? 0)) "range->length" ;;
          split_entry fuel' s (u32 (j + 1)) (u32 (total_pages + sz))
            (u64 (bas + 0x1000 * sz)) (size - sz)
    end
  else Ok (s, j, total_pages).

(** One iteration of [while((e = bi->mmap_get_next()) != NULL)]. *)
Definition init_entry (e : mmape) (s : pmm_state) (j total_pages : Z)
    : res (pmm_state * Z * Z) :=
  match etype e with
  | USABLE =>
      let bas := pbase e in
      let size := elength e in
      let '(bas, size) :=
        if Z.land bas 0x0fff =? 0 then (bas, size)
        else
          let new_base := Z.land bas 0x0fff + 0x1000 in
          (new_base, u64 (size + (new_base - bas))) in
      let size := size / 4096 in
      split_entry (Z.to_nat (size / MAX_SIZE + 2)) s j total_pages bas size
  | _ => Ok (s, j, total_pages)
  end.

Fixpoint init_entries (es : list mmape) (s : pmm_state) (j total_pages : Z)
    : res (pmm_state * Z * Z) :=
  match es with
  | [] => Ok (s, j, total_pages)
  | e :: es' =>
      '(s, j, total_pages) ← init_entry e s j total_pages;
      init_entries es' s j total_pages
  end.

(** The static initialisers of the file. *)
Definition pmm_zero : pmm_state :=
  PmmState (replicate 512 (MemoryRange 0 0 None)) 0 0 0 (replicate 4 None) ∅ ∅.

(** [init_pmm]; the memory map is the sequence of entries that successive calls
    of [bi->mmap_get_next] return. *)
Definition init_pmm (mmap : list mmape) (s : pmm_state) : res pmm_state :=
  '(s, j, total_pages) ← init_entries mmap s 0 0;
  let t := u32 (total_pages - j) in
  Ok (PmmState (memory_ranges_buffer s) j t t (mr_lists s) (headers s) (pages s)).

(** ** Allocation *)

(** [getMR]: the head of the first non-empty list, from 3 down to 0. *)
Fixpoint getMR_from (i : nat) (lists : list (option nat)) : res (nat * Z) :=
  range ← ld lists (Z.of_nat i);
  match range with
  | Some r => Ok (r, Z.of_nat i)
  | None => match i with
            | O => panic "internal physical allocator error"
            | S i' => getMR_from i' lists
            end
  end.
Definition getMR (s : pmm_state) : res (nat * Z) := getMR_from 3 (mr_lists s).

(** [select_bitmap]: the bitmap of a level and its granularity in pages. *)
Definition select_bitmap (h : MR_header) (max_block_size_id : Z) : res (list Z * Z) :=
  if max_block_size_id =? 0 then Ok (bitmap_level0 h, 1)
  else if max_block_size_id =? 1 then Ok (bitmap_level1 h, 4)
  else if max_block_size_id =? 2 then Ok (bitmap_level2 h, 8)
  else if max_block_size_id =? 3 then Ok (bitmap_level3 h, 16)
  else panic "0".

Definition alloc_page_bitmaps (h : MR_header) (page : Z) : res MR_header :=
  let mask_level0 := u8 (Z.shiftl 1 (page mod 8)) in
  let mask_level1 := u8 (Z.shiftl 1 ((page / 4) mod 8)) in
  let mask_level2 := u8 (Z.shiftl 1 ((page / 8) mod 8)) in
  let mask_level3 := u8 (Z.shiftl 1 ((page / 16) mod 8)) in
  b0 ← ld (bitmap_level0 h) (page / 8);
  assert_ (Z.land b0 mask_level0 =? 0) "(bitmap_level0[page/8] & mask_level0) == 0" ;;
  let a0 := u32 (available0 h - 1) in
  b1 ← ld (bitmap_level1 h) (page / 8 / 4);
  let a1 := if Z.land b1 mask_level1 =? 0 then u32 (available1 h - 1) else available1 h in
  b2 ← ld (bitmap_level2 h) (page / 8 / 8);
  let a2 := if Z.land b2 mask_level2 =? 0 then u32 (available2 h - 1) else available2 h in
  b3 ← ld (bitmap_level3 h) (page / 8 / 16);
  let a3 := if Z.land b3 mask_level3 =? 0 then u32 (available3 h - 1) else available3 h in
  assert_ (negb (a3 =? 0xffffffff)) "available[3] != 0xffffffff" ;;
  assert_ (negb (a2 =? 0xffffffff)) "available[2] != 0xffffffff" ;;
  assert_ (negb (a1 =? 0xffffffff)) "available[1] != 0xffffffff" ;;
  assert_ (negb (a0 =? 0xffffffff)) "available[0] != 0xffffffff" ;;
  l0 ← st (bitmap_level0 h) (page / 8) (Z.lor b0 mask_level0);
  l1 ← st (bitmap_level1 h) (page / 8 / 4) (Z.lor b1 mask_level1);
  l2 ← st (bitmap_level2 h) (page / 8 / 8) (Z.lor b2 mask_level2);
  l3 ← st (bitmap_level3 h) (page / 8 / 16) (Z.lor b3 mask_level3);
  Ok (MRHeader a0 a1 a2 a3 l3 l2 l1 l0).

Definition free_page_bitmaps (h : MR_header) (page : Z) : res MR_header :=
  let mask_level0 := u8 (Z.shiftl 1 (page mod 8)) in
  let mask_level1 := u8 (Z.shiftl 1 ((page / 4) mod 8)) in
  let mask_level2 := u8 (Z.shiftl 1 ((page / 8) mod 8)) in
  let mask_level3 := u8 (Z.shiftl 1 ((page / 16) mod 8)) in
  let lv1_0_mask := u8 (Z.shiftl 0xf (4 * ((page / 4) mod 2))) in
  let lv2_1_mask := u8 (Z.shiftl 0x3 (2 * ((page / 8) mod 4))) in
  let lv3_2_mask := u8 (Z.shiftl 0x3 (2 * ((page / 16) mod 4))) in
  lv0 ← ld (bitmap_level0 h) (page / 8);
  lv1 ← ld (bitmap_level1 h) (page / 8 / 4);
  lv2 ← ld (bitmap_level2 h) (page / 8 / 8);
  lv3 ← ld (bitmap_level3 h) (page / 8 / 16);
  assert_ (negb (Z.land lv0 mask_level0 =? 0)) "*lv0 & mask_level0" ;;
  assert_ (negb (Z.land lv1 mask_level1 =? 0)) "*lv1 & mask_level1" ;;
  assert_ (negb (Z.land lv2 mask_level2 =? 0)) "*lv2 & mask_level2" ;;
  assert_ (negb (Z.land lv3 mask_level3 =? 0)) "*lv3 & mask_level3" ;;
  let lv0 := Z.land lv0 (Z.lnot mask_level0) in
  let a0 := u32 (available0 h + 1) in
  let '(lv1, a1) :=
    if Z.land lv0 lv1_0_mask =? 0
    then (Z.land lv1 (Z.lnot mask_level1), u32 (available1 h + 1))
    else (lv1, available1 h) in
  let '(lv2, a2) :=
    if Z.land lv1 lv2_1_mask =? 0
    then (Z.land lv2 (Z.lnot mask_level2), u32 (available2 h + 1))
    else (lv2, available2 h) in
  let '(lv3, a3) :=
    if Z.land lv2 lv3_2_mask =? 0
    then (Z.land lv3 (Z.lnot mask_level3), u32 (available3 h + 1))
    else (lv3, available3 h) in
  l0 ← st (bitmap_level0 h) (page / 8) lv0;
  l1 ← st (bitmap_level1 h) (page / 8 / 4) lv1;
  l2 ← st (bitmap_level2 h) (page / 8 / 8) lv2;
  l3 ← st (bitmap_level3 h) (page / 8 / 16) lv3;
  Ok (MRHeader a0 a1 a2 a3 l3 l2 l1 l0).

(** [move_region_if_full]; [list_id] decreases at each turn of the loop. *)
Fixpoint move_region_loop (list_id : nat) (s : pmm_state) (r : nat) (h : MR_header)
    (return_value : bool) : res (pmm_state * bool) :=
  if negb (available h (Z.of_nat list_id) =? 0) then Ok (s, return_value)
  else
    range ← load_range s r;
    ls ← st (mr_lists s) (Z.of_nat list_id) (next range);
    let s := set_lists s ls in
    match list_id with
    | O => Ok (s, true)
    | S list_id' =>
        head ← ld (mr_lists s) (Z.of_nat list_id');
        s ← store_range s r (set_next range head);
        ls ← st (mr_lists s) (Z.of_nat list_id') (Some r);
        move_region_loop list_id' (set_lists s ls) r h true
    end.

Definition move_region_if_full (s : pmm_state) (r : nat) (h : MR_header) (list_id : Z)
    : res (pmm_state * bool) :=
  assert_ (list_id <? 4) "list_id < 4" ;;
  move_region_loop (Z.to_nat list_id) s r h false.

Section Physalloc.
(** A [PHYSALLOC_CALLBACK] acts on the state [C] of the caller. *)
Context {C : Type} (callback : Z -> Z -> Z -> C -> C).

(** The locals of [physalloc] that its loops update. *)
Record alloc_ctx := AllocCtx {
  ac_header : MR_header;
  ac_client : C;
  ac_size : Z;
  ac_vaddr : Z;
  ac_found : bool
}.

(** [for(unsigned j = 0; j < granularity; j++)] *)
Fixpoint alloc_block (fuel : nat) (j granularity : Z) (range : memory_range)
    (curr_page : Z) (x : alloc_ctx) : res (alloc_ctx * bool) :=
  if j <? granularity then
    match fuel with
    | O => Err NoFuel
    | S fuel' =>
        let target_address := u64 (base range + u32 (u32 (curr_page + 1) * 0x1000)) in
        let c := callback target_address (ac_vaddr x) 1 (ac_client x) in
        h ← alloc_page_bitmaps (ac_header x) curr_page;
        let size := u64 (ac_size x - 1) in
        let curr_page := u32 (curr_page + 1) in
        let x := AllocCtx h c size (u64 (ac_vaddr x + 0x1000)) true in
        if (mlength range <=? curr_page) || (size =? 0) then Ok (x, true)
        else alloc_block fuel' (j + 1) granularity range curr_page x
    end
  else Ok (x, false).

(** [for(;;i++)] over the unset bits of a 64-bit chunk; returns the new
    [current_block]. *)
Fixpoint alloc_chunk (fuel : nat) (free_chunks_bitmap current_block total_blocks granularity : Z)
    (range : memory_range) (x : alloc_ctx) : res (alloc_ctx * Z) :=
  match fuel with
  | O => Err NoFuel
  | S fuel' =>
      let ffs := ffsll free_chunks_bitmap in
      if ffs =? 0 then Ok (x, u32 (current_block + 64))
      else
        let bit_pos := ffs - 1 in
        let local_current_block := u32 (current_block + bit_pos) in
        if total_blocks <=? local_current_block then Ok (x, local_current_block)
        else
          let free_chunks_bitmap :=
            Z.land free_chunks_bitmap (u64 (Z.lnot (Z.shiftl 1 bit_pos))) in
          let curr_page := u32 (local_current_block * granularity) in
          '(x, done_travelling) ←
            alloc_block (Z.to_nat granularity) 0 granularity range curr_page x;
          if (done_travelling : bool) then Ok (x, local_current_block)
          else alloc_chunk fuel' free_chunks_bitmap current_block total_blocks granularity
                 range x
  end.

(** [while(current_block < total_blocks)]; [k] counts the chunks read so far
    through [bitmap_ptr]. *)
Fixpoint scan_bitmap (fuel : nat) (k current_block total_blocks list_id : Z) (r : nat)
    (range : memory_range) (s : pmm_state) (x : alloc_ctx) : res (pmm_state * alloc_ctx) :=
  if current_block <? total_blocks then
    match fuel with
    | O => Err NoFuel
    | S fuel' =>
        '(bitmap, granularity) ← select_bitmap (ac_header x) list_id;
        bitmap_chunk ← ld64 bitmap k;
        let free_chunks_bitmap := u64 (Z.lnot bitmap_chunk) in
        if free_chunks_bitmap =? 0 then
          scan_bitmap fuel' (k + 1) (u32 (current_block + 64)) total_blocks list_id r range s x
        else
          '(x, current_block) ←
            alloc_chunk 65 free_chunks_bitmap current_block total_blocks granularity range x;
          let s := store_header s (get_header_base range) (ac_header x) in
          '(s, moved) ← move_region_if_full s r (ac_header x) list_id;
          if (moved : bool) then Ok (s, x)
          else if ac_size x =? 0 then Ok (s, x)
          else scan_bitmap fuel' (k + 1) current_block total_blocks list_id r range s x
    end
  else Ok (s, x).

(** [while(size > 0)] over the memory ranges. *)
Fixpoint physalloc_loop (fuel : nat) (s : pmm_state) (c : C) (size virtual_addr : Z)
    : res (pmm_state * C) :=
  if 0 <? size then
    match fuel with
    | O => Err NoFuel
    | S fuel' =>
        '(r, max_block_size_id) ← getMR s;
        range ← load_range s r;
        header ← load_header s (get_header_base range);
        '(_, granularity) ← select_bitmap header max_block_size_id;
        let total_blocks := u32 (u32 (mlength range) + granularity - 1) / granularity in
        '(s, x) ← scan_bitmap (Z.to_nat total_blocks) 0 0 total_blocks max_block_size_id r
                    range s (AllocCtx header c size virtual_addr false);
        assert_ (ac_found x) "found_block" ;;
        physalloc_loop fuel' s (ac_client x) (ac_size x) (ac_vaddr x)
    end
  else Ok (s, c).

Definition physalloc (size virtual_addr : Z) (s : pmm_state) (c : C) : res (pmm_state * C) :=
  assert_ (is_aligned virtual_addr 0x1000) "assert_aligned(virtual_addr, 0x1000)" ;;
  if total_available_pages s <? size then panic "OUT OF MEMORY"
  else
    physalloc_loop (Z.to_nat size)
      (set_total_available s (u32 (total_available_pages s - size))) c size virtual_addr.
End Physalloc.

(** [physalloc_single_callback] records the physical address in the static
    [physalloc_single_paddr]. *)
Definition physalloc_single_callback (physical_address virtual_address size : Z)
    (physalloc_single_paddr : Z) : Z := physical_address.

(** [physalloc_single]; the second component is the static
    [physalloc_single_paddr]. *)
Definition physalloc_single (s : pmm_state) (physalloc_single_paddr : Z)
    : res (pmm_state * Z * Z) :=
  '(s, paddr) ← physalloc physalloc_single_callback 1 0 s physalloc_single_paddr;
  assert_ (negb (paddr =? 0)) "paddr_copy != 0" ;;
  Ok (s, paddr, paddr).

(** ** Release *)

(** The dichotomy of [get_memory_range] between the indices [a] and [b]. *)
Fixpoint get_memory_range_loop (fuel : nat) (s : pmm_state) (addr a b : Z) : res Z :=
  A ← ld (memory_ranges_buffer s) a;
  if base A + mlength A * 0x1000 <? addr then
    match fuel with
    | O => Err NoFuel
    | S fuel' =>
        let c := Z.shiftr (u32 (a + b)) 1 in
        C ← ld (memory_ranges_buffer s) c;
        if addr <? base C then get_memory_range_loop fuel' s addr a c
        else get_memory_range_loop fuel' s addr c b
    end
  else
    assert_ (negb (addr =? base A)) "addr != A->base" ;; Ok a.

Definition get_memory_range (s : pmm_state) (addr : Z) : res Z :=
  let b := u32 (n_ranges s - 1) in
  A ← ld (memory_ranges_buffer s) 0;
  B ← ld (memory_ranges_buffer s) b;
  if base B <? addr then
    assert_ (addr <? base B + mlength B * 0x1000) "addr < B->base+B->length * 0x1000" ;;
    Ok b
  else
    assert_ (base A <? addr) "addr > A->base" ;;
    get_memory_range_loop (length (memory_ranges_buffer s)) s addr 0 b.

Definition physfree (physical_page_addr : Z) (s : pmm_state) : res pmm_state :=
  assert_ (is_aligned physical_page_addr 0x1000) "assert_aligned(physical_page_addr, 0x1000)" ;;
  r ← get_memory_range s physical_page_addr;
  range ← ld (memory_ranges_buffer s) r;
  let position := u32 (u64 (physical_page_addr - base range) / 0x1000 - 1) in
  h ← load_header s (get_header_base range);
  h ← free_page_bitmaps h position;
  let s := store_header s (get_header_base range) h in
  let s := set_pages s (<[physical_page_addr := replicate 0x1000 0]> (pages s)) in
  Ok (set_total_available s (u32 (total_available_pages s + 1))).

(** [pmm_data_pages]: the number of ranges, and the buffer of ranges itself. *)
Definition pmm_data_pages (s : pmm_state) : Z * list memory_range :=
  (n_ranges s, memory_ranges_buffer s).

Definition available_pages (s : pmm_state) : Z := total_available_pages s.
Definition total_pages (s : pmm_state) : Z := total_memory_pages s.

(** ** Consistency checks *)

(** [popcount8]; at most eight turns as each one shifts [x] right. *)
Fixpoint popcount8_loop (fuel : nat) (x sum : Z) : Z :=
  match fuel with
  | O => sum
  | S fuel' => if x =? 0 then sum
               else popcount8_loop fuel' (Z.shiftr x 1) (sum + Z.land x 1)
  end.
Definition popcount8 (x : Z) : Z := popcount8_loop 8 x 0.

(** [for(size_t i = 0; i < bound; i++) available += popcount8(~lv[i]);] *)
Fixpoint sum_free_bits (n : nat) (i : Z) (lv : list Z) (acc : Z) : res Z :=
  match n with
  | O => Ok acc
  | S n' =>
      b ← ld lv i;
      sum_free_bits n' (i + 1) lv (u64 (acc + popcount8 (u8 (Z.lnot b))))
  end.

Definition pmm_avail_check (s : pmm_state) (mr : memory_range) : res unit :=
  header ← load_header s (get_header_base mr);
  let len := mlength mr in
  let bound0 := u32 ((len + 7) / 8) in
  let bound1 := u32 (bound0 + 3) / 4 in
  let bound2 := u32 (bound0 + 7) / 8 in
  let bound3 := u32 (bound0 + 15) / 16 in
  let overrun0 := u32 (bound0 * 8 - len) in
  let overrun1 := u32 (bound1 * 8 - (len + 3) / 4) in
  let overrun2 := u32 (bound2 * 8 - (len + 7) / 8) in
  let overrun3 := u32 (bound3 * 8 - (len + 15) / 16) in
  let max0 := u32 (8 * bound0 - overrun0) in
  let max1 := u32 (8 * bound1 - overrun1) in
  let max2 := u32 (8 * bound2 - overrun2) in
  let max3 := u32 (8 * bound3 - overrun3) in
  av0 ← sum_free_bits (Z.to_nat bound0) 0 (bitmap_level0 header) 0;
  av1 ← sum_free_bits (Z.to_nat bound1) 0 (bitmap_level1 header) 0;
  av2 ← sum_free_bits (Z.to_nat bound2) 0 (bitmap_level2 header) 0;
  av3 ← sum_free_bits (Z.to_nat bound3) 0 (bitmap_level3 header) 0;
  let av0 := u64 (av0 - overrun0) in
  let av1 := u64 (av1 - overrun1) in
  let av2 := u64 (av2 - overrun2) in
  let av3 := u64 (av3 - overrun3) in
  (if (av0 =? available0 header) && (av1 =? available1 header)
      && (av2 =? available2 header) && (av3 =? available3 header)
   then Ok () else panic "pmm available check failed") ;;
  assert_ (av0 <=? len) "available[0] <= mr->length" ;;
  assert_ (av1 <=? (len + 4 - 1) / 4) "available[1] <= (mr->length +  4 - 1) /  4" ;;
  assert_ (av2 <=? (len + 8 - 1) / 8) "available[2] <= (mr->length +  8 - 1) /  8" ;;
  assert_ (av3 <=? (len + 16 - 1) / 16) "available[3] <= (mr->length + 16 - 1) / 16" ;;
  let alloc0 := u32 (max0 - av0) in
  let alloc1 := u32 (max1 - av1) in
  let alloc2 := u32 (max2 - av2) in
  let alloc3 := u32 (max3 - av3) in
  assert_ (alloc0 <=? u32 (4 * alloc1)) "alloc0 <= 4 * alloc1" ;;
  assert_ (alloc1 <=? u32 (2 * alloc2)) "alloc1 <= 2 * alloc2" ;;
  assert_ (alloc2 <=? u32 (2 * alloc3)) "alloc2 <= 2 * alloc3".

(** A [uint16_t] of a byte array. *)
Definition ld16 (l : list Z) (i : Z) : res Z :=
  lo ← ld l (2 * i); hi ← ld l (2 * i + 1); Ok (Z.lor lo (Z.shiftl hi 8)).

(** [assert((u0 == 0) == (u == 0))] *)
Definition check_agree (u0 u : Z) : res unit :=
  assert_ (Bool.eqb (u0 =? 0) (u =? 0)) "(u0 == 0) == (u == 0)".

(** One turn of the loop of [pmm_bitmap_check]. *)
Definition pmm_bitmap_check_step (header : MR_header) (i : Z) : res unit :=
  used_0 ← ld16 (bitmap_level0 header) i;
  b1 ← ld (bitmap_level1 header) (i / 2);
  b2 ← ld (bitmap_level2 header) (i / 4);
  b3 ← ld (bitmap_level3 header) (i / 8);
  let used_1 := Z.land (Z.shiftr b1 (4 * (i mod 2))) 0xf in
  let used_2 := Z.land (Z.shiftr b2 (2 * (i mod 4))) 0x3 in
  let used_3 := Z.land (Z.shiftr b3 (i mod 8)) 0x1 in
  let level1 j := check_agree (Z.land (Z.shiftr used_0 (4 * j)) 0xf)
                              (Z.land (Z.shiftr used_1 j) 1) in
  let level2 j := check_agree (Z.land (Z.shiftr used_0 (8 * j)) 0xff)
                              (Z.land (Z.shiftr used_2 j) 1) in
  level1 0 ;; level1 1 ;; level1 2 ;; level1 3 ;;
  level2 0 ;; level2 1 ;;
  check_agree used_0 used_3.

Fixpoint pmm_bitmap_check_loop (n : nat) (i : Z) (header : MR_header) : res unit :=
  match n with
  | O => Ok ()
  | S n' => pmm_bitmap_check_step header i ;; pmm_bitmap_check_loop n' (i + 1) header
  end.

Definition pmm_bitmap_check (s : pmm_state) (mr : memory_range) : res unit :=
  header ← load_header s (get_header_base mr);
  let checklen := ((mlength mr + 7) / 8 + 1) / 2 in
  pmm_bitmap_check_loop (Z.to_nat checklen) 0 header.

(** [while(mr)] along one of the four lists. *)
Fixpoint pmm_check_list (fuel : nat) (s : pmm_state) (mr : option nat) : res unit :=
  match mr with
  | None => Ok ()
  | Some r =>
      match fuel with
      | O => Err NoFuel
      | S fuel' =>
          range ← load_range s r;
          assert_ (mlength range <=? MAX_SIZE) "(mr->length) <= MAX_SIZE" ;;
          assert_ (0 <? mlength range) "mr->length > 0" ;;
          pmm_bitmap_check s range ;;
          pmm_avail_check s range ;;
          pmm_check_list fuel' s (next range)
      end
  end.

Definition pmm_check (s : pmm_state) : res unit :=
  let fuel := length (memory_ranges_buffer s) in
  h0 ← ld (mr_lists s) 0; pmm_check_list fuel s h0 ;;
  h1 ← ld (mr_lists s) 1; pmm_check_list fuel s h1 ;;
  h2 ← ld (mr_lists s) 2; pmm_check_list fuel s h2 ;;
  h3 ← ld (mr_lists s) 3; pmm_check_list fuel s h3.
