(* ===== verification/PmmBitmap.v ===== *)
(** * The bitmaps of a memory range

    The invariant that ties the four bitmap levels and the four counters of a
    range header to the set of allocated pages, and the operations of
    [pmm.c] that update them. *)

From S2P Require Import Prelude Bytes Interfaces Pmm.





(** Granularity, in pages, of a bitmap level. *)
Definition gran (k : Z) : Z :=
  if k =? 0 then 1 else if k =? 1 then 4 else if k =? 2 then 8 else 16.

(** The bitmap of a level. *)
Definition bm (h : MR_header) (k : Z) : list Z :=
  if k =? 0 then bitmap_level0 h else if k =? 1 then bitmap_level1 h
  else if k =? 2 then bitmap_level2 h else bitmap_level3 h.

(** Page [p] of the range is allocated. *)
Definition used (h : MR_header) (p : Z) : bool := getbit (bitmap_level0 h) p.

(** Some page of the [i]-th block of [g] pages is in [u]. *)
Definition blk (g : Z) (u : Z -> bool) (i : Z) : bool :=
  negb (countb (fun j => u (g * i + j)) (Z.to_nat g) =? 0).

Definition n_blocks (g len : Z) : Z := (len + g - 1) / g.

(** Number of blocks of [g] pages without an allocated page. *)
Definition free_blocks (g : Z) (u : Z -> bool) (len : Z) : Z :=
  countb (fun i => negb (blk g u i)) (Z.to_nat (n_blocks g len)).

(** A header describes a range of [len] pages consistently. *)
Record hdr_ok (len : Z) (h : MR_header) : Prop := {
  ho_len : 0 < len < MAX_SIZE;
  ho_zlen : forall k, 0 <= k <= 3 -> zlen (bm h k) = 2048 / gran k;
  ho_bytes : forall k, 0 <= k <= 3 -> bytes_ok (bm h k);
  ho_bits : forall k i, 0 <= k <= 3 -> 0 <= i < MAX_SIZE / gran k ->
    getbit (bm h k) i = blk (gran k) (used h) i;
  ho_tail : forall p, len <= p < MAX_SIZE -> used h p = false;
  ho_avail : forall k, 0 <= k <= 3 -> available h k = free_blocks (gran k) (used h) len
}.

Lemma gran_cases k : 0 <= k <= 3 -> gran k = 1 \/ gran k = 4 \/ gran k = 8 \/ gran k = 16.
Proof. intros. unfold gran. zb. Qed.

Ltac levels k :=
  assert (k = 0 \/ k = 1 \/ k = 2 \/ k = 3) as [-> | [-> | [-> | ->] ] ] by lia.

Lemma blk_true g u i :
  0 < g -> blk g u i = true <-> exists p, p / g = i /\ u p = true.
Proof.
  intros Hg. unfold blk. rewrite negb_true_iff, Z.eqb_neq. split.
  - intros H. destruct (countb_pos (fun j => u (g * i + j)) (Z.to_nat g)) as (j & Hj & Hu).
    { pose proof (countb_bounds (fun j => u (g * i + j)) (Z.to_nat g)). lia. }
    exists (g * i + j). split; [|done]. symmetry. apply (Z.div_unique _ _ _ j); lia.
  - intros (p & Hp & Hu) H. apply (proj1 (countb_0 _ _)) with (i := p mod g) in H.
    + cbv beta in H. rewrite <- Hp, <- Z.div_mod in H by lia. congruence.
    + pose proof (Z.mod_pos_bound p g). lia.
Qed.

Lemma blk_false g u i :
  0 < g -> blk g u i = false <-> forall p, p / g = i -> u p = false.
Proof.
  intros Hg. split.
  - intros H p Hp. destruct (u p) eqn:E; [|done].
    assert (blk g u i = true) by (apply blk_true; eauto). congruence.
  - intros H. apply not_true_is_false. rewrite blk_true by done.
    intros (p & Hp & E). rewrite H in E; done.
Qed.

Lemma blk_1 u i : blk 1 u i = u i.
Proof.
  destruct (blk 1 u i) eqn:E; symmetry.
  - apply blk_true in E as (p & Hp & H); [|lia]. rewrite Z.div_1_r in Hp. by subst.
  - apply (proj1 (blk_false 1 u i ltac:(lia)) E). by rewrite Z.div_1_r.
Qed.

Lemma blk_ext g u v i :
  0 < g -> (forall p, p / g = i -> u p = v p) -> blk g u i = blk g v i.
Proof.
  intros Hg H. destruct (blk g v i) eqn:E.
  - apply blk_true in E as (p & Hp & Hv); [|done]. apply blk_true; [done|].
    exists p. split; [done|]. by rewrite H.
  - apply blk_false; [done|]. intros p Hp. rewrite H by done.
    by apply (proj1 (blk_false g v i Hg) E).
Qed.

(** ** Marking a page allocated *)

Definition mark (u : Z -> bool) (page : Z) : Z -> bool := fun p => u p || (p =? page).
Definition unmark (u : Z -> bool) (page : Z) : Z -> bool := fun p => u p && negb (p =? page).

Lemma blk_mark g u page i :
  0 < g -> blk g (mark u page) i = blk g u i || (i =? page / g).
Proof.
  intros Hg. destruct (Z.eqb_spec i (page / g)) as [->|Hne].
  - rewrite orb_true_r. apply blk_true; [done|]. exists page. unfold mark.
    by rewrite Z.eqb_refl, orb_true_r.
  - rewrite orb_false_r. apply blk_ext; [done|]. intros p Hp. unfold mark.
    assert (p <> page) by congruence. zb. by rewrite orb_false_r.
Qed.

Lemma blk_unmark_ne g u page i :
  0 < g -> i <> page / g -> blk g (unmark u page) i = blk g u i.
Proof.
  intros Hg Hne. apply blk_ext; [done|]. intros p Hp. unfold unmark.
  assert (p <> page) by congruence. zb. by rewrite andb_true_r.
Qed.

Lemma n_blocks_lt g len page :
  0 < g -> 0 <= page < len -> 0 <= page / g < n_blocks g len.
Proof.
  intros Hg Hp. unfold n_blocks. split; [apply Z.div_pos; lia|].
  apply Z.div_lt_upper_bound; [lia|].
  pose proof (Z.div_mod (len + g - 1) g). pose proof (Z.mod_pos_bound (len + g - 1) g). lia.
Qed.

Lemma free_blocks_mark g u len page :
  0 < g -> 0 <= page < len ->
  free_blocks g (mark u page) len =
    if blk g u (page / g) then free_blocks g u len else free_blocks g u len - 1.
Proof.
  intros Hg Hp. pose proof (n_blocks_lt g len page Hg Hp). unfold free_blocks.
  destruct (blk g u (page / g)) eqn:E.
  - apply countb_ext. intros i Hi. rewrite blk_mark by done.
    destruct (Z.eqb_spec i (page / g)) as [->|]; [by rewrite E|by rewrite orb_false_r].
  - rewrite (countb_remove (fun i => negb (blk g u i))
               (fun i => negb (blk g (mark u page) i)) _ (page / g)); [lia|lia|..].
    + by rewrite E.
    + by rewrite blk_mark, Z.eqb_refl, orb_true_r by done.
    + intros i Hi Hne. rewrite blk_mark by done. zb. by rewrite orb_false_r.
Qed.

Lemma free_blocks_unmark g u len page :
  0 < g -> 0 <= page < len -> u page = true ->
  free_blocks g (unmark u page) len =
    if blk g (unmark u page) (page / g) then free_blocks g u len else free_blocks g u len + 1.
Proof.
  intros Hg Hp Hu. pose proof (n_blocks_lt g len page Hg Hp). unfold free_blocks.
  assert (blk g u (page / g) = true) as Hb by (apply blk_true; eauto).
  destruct (blk g (unmark u page) (page / g)) eqn:E.
  - apply countb_ext. intros i Hi. destruct (decide (i = page / g)) as [->|].
    + by rewrite E, Hb.
    + by rewrite blk_unmark_ne.
  - rewrite (countb_remove (fun i => negb (blk g (unmark u page) i))
               (fun i => negb (blk g u i)) _ (page / g)); [lia|lia|..].
    + by rewrite E.
    + by rewrite Hb.
    + intros i Hi Hne. by rewrite blk_unmark_ne.
Qed.

Lemma free_blocks_bounds g u len :
  0 < g -> 0 < len -> 0 <= free_blocks g u len <= n_blocks g len.
Proof.
  intros Hg Hl. unfold free_blocks.
  assert (0 <= n_blocks g len) by (apply Z.div_pos; lia).
  pose proof (countb_bounds (fun i => negb (blk g u i)) (Z.to_nat (n_blocks g len))). lia.
Qed.

Lemma free_blocks_pos g u len page :
  0 < g -> 0 <= page < len -> blk g u (page / g) = false -> 0 < free_blocks g u len.
Proof.
  intros Hg Hp E. pose proof (free_blocks_mark g u len page Hg Hp) as H. rewrite E in H.
  pose proof (free_blocks_bounds g (mark u page) len Hg ltac:(lia)). lia.
Qed.

Lemma n_blocks_max g len : 0 < g -> 0 < len < MAX_SIZE -> n_blocks g len <= MAX_SIZE.
Proof.
  intros Hg Hl. unfold n_blocks, MAX_SIZE in *. apply Z.div_le_upper_bound; [lia|]. nia.
Qed.

Lemma available_bounds len h k :
  hdr_ok len h -> 0 <= k <= 3 -> 0 <= available h k <= MAX_SIZE.
Proof.
  intros H Hk. rewrite (ho_avail _ _ H k Hk). pose proof (ho_len _ _ H).
  assert (0 < gran k) by (pose proof (gran_cases k Hk); lia).
  pose proof (free_blocks_bounds (gran k) (used h) len ltac:(lia) ltac:(lia)).
  pose proof (n_blocks_max (gran k) len ltac:(lia) ltac:(lia)). lia.
Qed.

(** The header with page [page] marked allocated. *)
Definition mark_page (h : MR_header) (page : Z) : MR_header :=
  let dec k := if getbit (bm h k) (page / gran k) then available h k else available h k - 1 in
  MRHeader (dec 0) (dec 1) (dec 2) (dec 3)
    (set_bit (bitmap_level3 h) (page / 16)) (set_bit (bitmap_level2 h) (page / 8))
    (set_bit (bitmap_level1 h) (page / 4)) (set_bit (bitmap_level0 h) page).

Lemma bm_mark_page h page k :
  0 <= k <= 3 -> bm (mark_page h page) k = set_bit (bm h k) (page / gran k).
Proof. intros. levels k; cbn; by rewrite ?Z.div_1_r. Qed.

Lemma available_mark_page h page k :
  0 <= k <= 3 -> available (mark_page h page) k =
    if getbit (bm h k) (page / gran k) then available h k else available h k - 1.
Proof. intros. by levels k. Qed.

Lemma page_index_range len h page k :
  hdr_ok len h -> 0 <= page < MAX_SIZE -> 0 <= k <= 3 ->
  0 <= page / gran k < MAX_SIZE / gran k /\ 0 <= page / gran k < 8 * zlen (bm h k).
Proof.
  intros H Hp Hk. rewrite (ho_zlen _ _ H k Hk). unfold MAX_SIZE in *.
  levels k; unfold gran; simpl; lia.
Qed.

Lemma used_mark_page len h page p :
  hdr_ok len h -> 0 <= page < MAX_SIZE -> 0 <= p ->
  used (mark_page h page) p = mark (used h) page p.
Proof.
  intros H Hp Hp'. unfold used. apply getbit_set_bit; [|done].
  pose proof (ho_zlen _ _ H 0 ltac:(lia)) as Hz. cbn in Hz. rewrite Hz.
  unfold MAX_SIZE in *. lia.
Qed.

Lemma getbit_page len h page k :
  hdr_ok len h -> 0 <= page < MAX_SIZE -> 0 <= k <= 3 ->
  getbit (bm h k) (page / gran k) = blk (gran k) (used h) (page / gran k).
Proof. intros H Hp Hk. apply (ho_bits _ _ H); [done|]. by eapply page_index_range. Qed.

(** Only the pages below [MAX_SIZE] have a bit; agreement there is enough. *)
Lemma free_blocks_ext k u v len :
  0 <= k <= 3 -> 0 < len < MAX_SIZE ->
  (forall p, 0 <= p < MAX_SIZE -> u p = v p) ->
  free_blocks (gran k) u len = free_blocks (gran k) v len.
Proof.
  intros Hk Hl H. unfold free_blocks. apply countb_ext. intros i Hi. f_equal.
  apply blk_ext; [pose proof (gran_cases k Hk); lia|]. intros p Hp. apply H.
  unfold n_blocks, MAX_SIZE in *. levels k; unfold gran in *; simpl in *; lia.
Qed.

Lemma blk_ext_max k u v i :
  0 <= k <= 3 -> 0 <= i < MAX_SIZE / gran k ->
  (forall p, 0 <= p < MAX_SIZE -> u p = v p) -> blk (gran k) u i = blk (gran k) v i.
Proof.
  intros Hk Hi H. apply blk_ext; [pose proof (gran_cases k Hk); lia|]. intros p Hp. apply H.
  unfold MAX_SIZE in *. levels k; unfold gran in *; simpl in *; lia.
Qed.

Lemma hdr_ok_mark len h page :
  hdr_ok len h -> 0 <= page < len -> hdr_ok len (mark_page h page).
Proof.
  intros H Hp. pose proof (ho_len _ _ H) as Hl.
  assert (0 <= page < MAX_SIZE) as Hpm by lia.
  assert (forall p, 0 <= p < MAX_SIZE -> used (mark_page h page) p = mark (used h) page p)
    as Hu by (intros; eapply used_mark_page; eauto; lia).
  split; [done|..].
  - intros k Hk. rewrite bm_mark_page, zlen_set_bit by done. by apply (ho_zlen _ _ H).
  - intros k Hk. rewrite bm_mark_page by done. apply bytes_ok_set_bit. by apply (ho_bytes _ _ H).
  - intros k i Hk Hi. assert (0 < gran k) by (pose proof (gran_cases k Hk); lia).
    rewrite bm_mark_page by done.
    rewrite getbit_set_bit; [|eapply page_index_range; eauto|lia].
    rewrite (blk_ext_max k _ _ i Hk Hi Hu), blk_mark by done. f_equal.
    by apply (ho_bits _ _ H).
  - intros p Hp'. rewrite Hu by lia. unfold mark. rewrite (ho_tail _ _ H) by lia. zb.
  - intros k Hk. assert (0 < gran k) by (pose proof (gran_cases k Hk); lia).
    rewrite (free_blocks_ext k _ _ len Hk Hl Hu), free_blocks_mark by done.
    rewrite available_mark_page, (getbit_page len h page k H Hpm Hk), (ho_avail _ _ H k Hk)
      by done. done.
Qed.

(** ** [alloc_page_bitmaps] *)

Lemma zlens len h :
  hdr_ok len h ->
  zlen (bitmap_level0 h) = 2048 /\ zlen (bitmap_level1 h) = 512 /\
  zlen (bitmap_level2 h) = 256 /\ zlen (bitmap_level3 h) = 128.
Proof.
  intros H. split_and!;
    [apply (ho_zlen _ _ H 0)|apply (ho_zlen _ _ H 1)|apply (ho_zlen _ _ H 2)
    |apply (ho_zlen _ _ H 3)]; lia.
Qed.

Lemma alloc_page_bitmaps_ok len h page :
  hdr_ok len h -> 0 <= page < len -> used h page = false ->
  alloc_page_bitmaps h page = Ok (mark_page h page).
Proof.
  intros H Hp Hu. pose proof (ho_len _ _ H) as Hl. unfold MAX_SIZE in Hl.
  destruct (zlens len h H) as (Z0 & Z1 & Z2 & Z3).
  assert (forall k, 0 <= k <= 3 ->
    getbit (bm h k) (page / gran k) = false -> 0 < available h k) as Hpos.
  { intros k Hk E. assert (0 < gran k) by (pose proof (gran_cases k Hk); lia).
    rewrite (ho_avail _ _ H k Hk). eapply free_blocks_pos; eauto.
    rewrite <- (getbit_page len h page k H); [done|unfold MAX_SIZE; lia|done]. }
  pose proof (available_bounds len h 0 H ltac:(lia)) as B0.
  pose proof (available_bounds len h 1 H ltac:(lia)) as B1.
  pose proof (available_bounds len h 2 H ltac:(lia)) as B2.
  pose proof (available_bounds len h 3 H ltac:(lia)) as B3.
  pose proof (Hpos 0 ltac:(lia)) as P0. pose proof (Hpos 1 ltac:(lia)) as P1.
  pose proof (Hpos 2 ltac:(lia)) as P2. pose proof (Hpos 3 ltac:(lia)) as P3.
  unfold mark_page.
  cbn in B0, B1, B2, B3, P0, P1, P2, P3 |- *. unfold used in Hu.
  rewrite !Z.div_1_r in *. specialize (P0 Hu). rewrite Hu.
  unfold alloc_page_bitmaps, set_bit.
  replace (page / 8 / 4) with (page / 4 / 8) by lia.
  replace (page / 8 / 16) with (page / 16 / 8) by lia.
  unfold MAX_SIZE in *. rewrite !ld_ok by lia.
  unfold mbind, res_bind, assert_. rewrite !land_bit_eqb_0 by lia.
  unfold getbit in *. rewrite Hu. cbv beta iota zeta. cbn [negb].
  rewrite (u32_small (available0 h - 1)) by lia.
  destruct (Z.testbit (nthZ (bitmap_level1 h) _) _);
  destruct (Z.testbit (nthZ (bitmap_level2 h) _) _);
  destruct (Z.testbit (nthZ (bitmap_level3 h) _) _);
  cbn [negb]; rewrite ?u32_small by lia;
  repeat match goal with |- context [?a =? 4294967295] =>
    destruct (Z.eqb_spec a 4294967295); [lia|] end;
  cbn [negb]; rewrite !st_ok by lia; done.
Qed.

(** ** [free_page_bitmaps] *)

(** The mask tests of [free_page_bitmaps]: from a byte of one level to the bit
    of the next level. *)
Lemma next_level_mask g w d u v page :
  (g = 1 /\ w = 4 /\ d = 2) \/ (g = 4 /\ w = 2 /\ d = 4) \/ (g = 8 /\ w = 2 /\ d = 4) ->
  0 <= page ->
  (forall i, i / 8 = page / g / 8 -> Z.testbit v (i mod 8) = blk g u i) ->
  (Z.land v (u8 (Z.shiftl (Z.ones w) (w * ((page / (g * w)) mod d)))) =? 0)
    = negb (blk (g * w) u (page / (g * w))).
Proof.
  intros Hc Hp Hv. apply eq_bool_prop_intro.
  assert (0 < g /\ 0 < w /\ 0 < d /\ w * d = 8) as (Hg & Hw & Hd & Hwd) by lia.
  pose proof (Z.mod_pos_bound (page / (g * w)) d Hd) as Hm.
  rewrite !Is_true_true, land_mask_eqb_0, negb_true_iff, blk_false by nia. split.
  - intros H p Hpp. specialize (H ((p / g) mod w) (Z.mod_pos_bound _ _ Hw)).
    apply (proj1 (blk_false g u (p / g) Hg)); [|done]. rewrite <- Hv, <- H.
    + f_equal. destruct Hc as [ (-> & -> & ->) | [ (-> & -> & ->) | (-> & -> & ->) ] ]; lia.
    + destruct Hc as [ (-> & -> & ->) | [ (-> & -> & ->) | (-> & -> & ->) ] ]; lia.
  - intros H t Ht.
    set (i := w * (page / (g * w)) + t).
    assert (w * ((page / (g * w)) mod d) + t = i mod 8 /\ i / 8 = page / g / 8
            /\ i / w = page / (g * w)) as (-> & Hi & Hiw).
    { subst i. destruct Hc as [ (-> & -> & ->) | [ (-> & -> & ->) | (-> & -> & ->) ] ]; lia. }
    rewrite Hv by done. apply blk_false; [done|]. intros p Hpi. apply H.
    rewrite <- Z.div_div by lia. by rewrite Hpi.
Qed.

(** The header with page [page] marked free. *)
Definition unmark_page (h : MR_header) (page : Z) : MR_header :=
  let still k := blk (gran k) (unmark (used h) page) (page / gran k) in
  let inc k := if still k then available h k else available h k + 1 in
  let clr k := if still k then bm h k else clear_bit (bm h k) (page / gran k) in
  MRHeader (inc 0) (inc 1) (inc 2) (inc 3) (clr 3) (clr 2) (clr 1) (clr 0).

Lemma bm_unmark_page h page k :
  0 <= k <= 3 ->
  bm (unmark_page h page) k =
    if blk (gran k) (unmark (used h) page) (page / gran k) then bm h k
    else clear_bit (bm h k) (page / gran k).
Proof. intros. by levels k. Qed.

Lemma available_unmark_page h page k :
  0 <= k <= 3 ->
  available (unmark_page h page) k =
    if blk (gran k) (unmark (used h) page) (page / gran k) then available h k
    else available h k + 1.
Proof. intros. by levels k. Qed.

Lemma blk_unmark_le g u page i :
  0 < g -> blk g (unmark u page) i = true -> blk g u i = true.
Proof.
  intros Hg (p & Hp & H)%blk_true; [|done]. apply blk_true; [done|]. exists p.
  split; [done|]. unfold unmark in H. by destruct (u p).
Qed.

(** The bits of every level after a page was freed. *)
Lemma getbit_unmark_page len h page k i :
  hdr_ok len h -> 0 <= page < len -> 0 <= k <= 3 -> 0 <= i < MAX_SIZE / gran k ->
  getbit (bm (unmark_page h page) k) i = blk (gran k) (unmark (used h) page) i.
Proof.
  intros H Hp Hk Hi. pose proof (ho_len _ _ H) as Hl.
  assert (0 < gran k) by (pose proof (gran_cases k Hk); lia).
  destruct (page_index_range len h page k H ltac:(lia) Hk) as [_ Hr].
  rewrite bm_unmark_page by done.
  destruct (blk (gran k) (unmark (used h) page) (page / gran k)) eqn:E.
  - rewrite (ho_bits _ _ H) by done. destruct (decide (i = page / gran k)) as [->|].
    + rewrite E. by apply blk_unmark_le in E.
    + by rewrite blk_unmark_ne.
  - rewrite getbit_clear_bit by lia. rewrite (ho_bits _ _ H) by done.
    destruct (Z.eqb_spec i (page / gran k)) as [->|]; simpl.
    + by rewrite andb_false_r.
    + by rewrite andb_true_r, blk_unmark_ne.
Qed.

Lemma used_unmark_page len h page p :
  hdr_ok len h -> 0 <= page < len -> 0 <= p < MAX_SIZE ->
  used (unmark_page h page) p = unmark (used h) page p.
Proof.
  intros H Hp Hp'. unfold used at 1.
  pose proof (getbit_unmark_page len h page 0 p H Hp ltac:(lia)) as E.
  cbn [gran Z.eqb] in E. rewrite blk_1 in E. apply E. by rewrite Z.div_1_r.
Qed.

Lemma hdr_ok_unmark len h page :
  hdr_ok len h -> 0 <= page < len -> used h page = true -> hdr_ok len (unmark_page h page).
Proof.
  intros H Hp Hus. pose proof (ho_len _ _ H) as Hl.
  assert (forall p, 0 <= p < MAX_SIZE -> used (unmark_page h page) p = unmark (used h) page p)
    as Hu by (intros; by eapply used_unmark_page).
  split; [done|..].
  - intros k Hk. rewrite bm_unmark_page by done.
    destruct (blk _ _ _); [|rewrite zlen_clear_bit]; by apply (ho_zlen _ _ H).
  - intros k Hk. rewrite bm_unmark_page by done.
    destruct (blk _ _ _); [|apply bytes_ok_clear_bit]; by apply (ho_bytes _ _ H).
  - intros k i Hk Hi. rewrite (getbit_unmark_page len) by done. symmetry.
    by apply blk_ext_max.
  - intros p Hp'. rewrite Hu by lia. unfold unmark. by rewrite (ho_tail _ _ H).
  - intros k Hk. assert (0 < gran k) by (pose proof (gran_cases k Hk); lia).
    rewrite (free_blocks_ext k _ _ len Hk Hl Hu), free_blocks_unmark by done.
    rewrite available_unmark_page, (ho_avail _ _ H k Hk) by done. done.
Qed.

(** The byte of level [k] that holds the bit of [page], before and after. *)
Lemma level_byte len h page k i :
  hdr_ok len h -> 0 <= page < len -> 0 <= k <= 3 -> i / 8 = page / gran k / 8 ->
  Z.testbit (nthZ (bm (unmark_page h page) k) (page / gran k / 8)) (i mod 8)
    = blk (gran k) (unmark (used h) page) i.
Proof.
  intros H Hp Hk Hi. rewrite <- Hi. pose proof (ho_len _ _ H) as Hl.
  apply (getbit_unmark_page len); [done..|]. unfold MAX_SIZE in *.
  levels k; unfold gran in *; simpl in *; lia.
Qed.

Lemma nthZ_clear_bit l i :
  0 <= i < 8 * zlen l ->
  nthZ (clear_bit l i) (i / 8) =
    Z.land (nthZ l (i / 8)) (Z.lnot (u8 (Z.shiftl 1 (i mod 8)))).
Proof. intros. unfold clear_bit. rewrite nthZ_insert by lia. zb. Qed.

Lemma insert_same l i : 0 <= i < zlen l -> <[Z.to_nat i := nthZ l i]> l = l.
Proof. intros. apply list_insert_id. by apply lookup_nthZ. Qed.

(** The byte of level [k] that [free_page_bitmaps] computes: cleared, or kept. *)
Definition freed_byte (h : MR_header) (page k : Z) : Z :=
  let b := nthZ (bm h k) (page / gran k / 8) in
  if blk (gran k) (unmark (used h) page) (page / gran k) then b
  else Z.land b (Z.lnot (u8 (Z.shiftl 1 ((page / gran k) mod 8)))).

Lemma freed_byte_eq len h page k :
  hdr_ok len h -> 0 <= page < len -> 0 <= k <= 3 ->
  nthZ (bm (unmark_page h page) k) (page / gran k / 8) = freed_byte h page k /\
  <[Z.to_nat (page / gran k / 8) := freed_byte h page k]> (bm h k)
    = bm (unmark_page h page) k.
Proof.
  intros H Hp Hk. pose proof (ho_len _ _ H) as Hl.
  destruct (page_index_range len h page k H ltac:(lia) Hk) as [_ Hr].
  rewrite bm_unmark_page by done. unfold freed_byte.
  destruct (blk _ _ _).
  - split; [done|]. apply insert_same. lia.
  - split; [by apply nthZ_clear_bit|done].
Qed.

(** The test that decides whether the bit of level [k + 1] is cleared. *)
Lemma freed_byte_test len h page k w d :
  hdr_ok len h -> 0 <= page < len ->
  (k = 0 /\ w = 4 /\ d = 2) \/ (k = 1 /\ w = 2 /\ d = 4) \/ (k = 2 /\ w = 2 /\ d = 4) ->
  (Z.land (freed_byte h page k)
     (u8 (Z.shiftl (Z.ones w) (w * ((page / gran (k + 1)) mod d)))) =? 0)
    = negb (blk (gran (k + 1)) (unmark (used h) page) (page / gran (k + 1))).
Proof.
  intros H Hp Hc. assert (gran (k + 1) = gran k * w) as Hg.
  { by destruct Hc as [ (-> & -> & ->) | [ (-> & -> & ->) | (-> & -> & ->) ] ]. }
  rewrite Hg. apply next_level_mask; [|lia|].
  - destruct Hc as [ (-> & -> & ->) | [ (-> & -> & ->) | (-> & -> & ->) ] ]; cbn; lia.
  - intros i Hi. destruct (freed_byte_eq len h page k H Hp ltac:(lia)) as [<- _].
    by apply (level_byte len); [| |lia|].
Qed.

Lemma used_blocks_set len h page k :
  hdr_ok len h -> 0 <= page < len -> used h page = true -> 0 <= k <= 3 ->
  Z.testbit (nthZ (bm h k) (page / gran k / 8)) ((page / gran k) mod 8) = true.
Proof.
  intros H Hp Hu Hk. pose proof (ho_len _ _ H) as Hl.
  change (getbit (bm h k) (page / gran k) = true).
  rewrite (getbit_page len) by (done || lia).
  apply blk_true; [pose proof (gran_cases k Hk); lia|]. eauto.
Qed.

Lemma still_0 h page : blk (gran 0) (unmark (used h) page) (page / gran 0) = false.
Proof.
  change (gran 0) with 1. rewrite blk_1, Z.div_1_r. unfold unmark.
  by rewrite Z.eqb_refl, andb_false_r.
Qed.

Lemma freed_byte_0 h page :
  freed_byte h page 0 =
    Z.land (nthZ (bitmap_level0 h) (page / 8)) (Z.lnot (u8 (Z.shiftl 1 (page mod 8)))).
Proof.
  unfold freed_byte. rewrite still_0. change (gran 0) with 1.
  by rewrite Z.div_1_r.
Qed.

(** The body of [free_page_bitmaps] with its tests and stores evaluated. *)
Lemma free_page_bitmaps_eval h page t1 t2 t3 l0 l1 l2 l3 :
  let b k := nthZ (bm h k) (page / gran k / 8) in
  let m k := u8 (Z.shiftl 1 ((page / gran k) mod 8)) in
  let f k (t : bool) := if t then Z.land (b k) (Z.lnot (m k)) else b k in
  0 <= page < 16384 ->
  zlen (bitmap_level0 h) = 2048 -> zlen (bitmap_level1 h) = 512 ->
  zlen (bitmap_level2 h) = 256 -> zlen (bitmap_level3 h) = 128 ->
  (forall k, 0 <= k <= 3 -> Z.testbit (b k) ((page / gran k) mod 8) = true) ->
  (Z.land (f 0 true) (u8 (Z.shiftl 0xf (4 * ((page / 4) mod 2)))) =? 0) = t1 ->
  (Z.land (f 1 t1) (u8 (Z.shiftl 0x3 (2 * ((page / 8) mod 4)))) =? 0) = t2 ->
  (Z.land (f 2 t2) (u8 (Z.shiftl 0x3 (2 * ((page / 16) mod 4)))) =? 0) = t3 ->
  <[Z.to_nat (page / gran 0 / 8) := f 0 true]> (bm h 0) = l0 ->
  <[Z.to_nat (page / gran 1 / 8) := f 1 t1]> (bm h 1) = l1 ->
  <[Z.to_nat (page / gran 2 / 8) := f 2 t2]> (bm h 2) = l2 ->
  <[Z.to_nat (page / gran 3 / 8) := f 3 t3]> (bm h 3) = l3 ->
  free_page_bitmaps h page = Ok (MRHeader (u32 (available0 h + 1))
    (if t1 then u32 (available1 h + 1) else available1 h)
    (if t2 then u32 (available2 h + 1) else available2 h)
    (if t3 then u32 (available3 h + 1) else available3 h) l3 l2 l1 l0).
Proof.
  intros b m f Hp Z0 Z1 Z2 Z3 Hb T1 T2 T3 L0 L1 L2 L3.
  pose proof (Hb 0 ltac:(lia)) as S0. pose proof (Hb 1 ltac:(lia)) as S1.
  pose proof (Hb 2 ltac:(lia)) as S2. pose proof (Hb 3 ltac:(lia)) as S3.
  subst b m f. cbv beta in *. clear Hb.
  change (gran 0) with 1 in *. change (gran 1) with 4 in *.
  change (gran 2) with 8 in *. change (gran 3) with 16 in *.
  change (bm h 0) with (bitmap_level0 h) in *. change (bm h 1) with (bitmap_level1 h) in *.
  change (bm h 2) with (bitmap_level2 h) in *. change (bm h 3) with (bitmap_level3 h) in *.
  rewrite !Z.div_1_r in *. unfold free_page_bitmaps.
  replace (page / 8 / 4) with (page / 4 / 8) by lia.
  replace (page / 8 / 16) with (page / 16 / 8) by lia.
  rewrite !ld_ok by lia. unfold mbind, res_bind, assert_. rewrite !land_bit_eqb_0 by lia.
  rewrite S0, S1, S2, S3. cbv beta iota zeta. cbn [negb]. rewrite T1.
  destruct t1; rewrite T2; destruct t2; rewrite T3; destruct t3;
    rewrite !st_ok by lia; rewrite L0, L1, L2, L3; done.
Qed.

Lemma free_page_bitmaps_ok len h page :
  hdr_ok len h -> 0 <= page < len -> used h page = true ->
  free_page_bitmaps h page = Ok (unmark_page h page).
Proof.
  intros H Hp Hu. pose proof (ho_len _ _ H) as Hl. unfold MAX_SIZE in Hl.
  destruct (zlens len h H) as (Z0 & Z1 & Z2 & Z3).
  assert (forall k (t : bool), t = negb (blk (gran k) (unmark (used h) page) (page / gran k)) ->
    (if t then Z.land (nthZ (bm h k) (page / gran k / 8))
                 (Z.lnot (u8 (Z.shiftl 1 ((page / gran k) mod 8))))
     else nthZ (bm h k) (page / gran k / 8)) = freed_byte h page k) as Hf.
  { intros k t ->. unfold freed_byte. by destruct (blk _ _ _). }
  assert (true = negb (blk (gran 0) (unmark (used h) page) (page / gran 0))) as H0
    by by rewrite still_0.
  erewrite (free_page_bitmaps_eval h page
    (negb (blk (gran 1) (unmark (used h) page) (page / gran 1)))
    (negb (blk (gran 2) (unmark (used h) page) (page / gran 2)))
    (negb (blk (gran 3) (unmark (used h) page) (page / gran 3)))
    (bm (unmark_page h page) 0) (bm (unmark_page h page) 1)
    (bm (unmark_page h page) 2) (bm (unmark_page h page) 3));
    [|lia|exact Z0|exact Z1|exact Z2|exact Z3| | | | | | | | ].
  - pose proof (available_bounds len h 0 H ltac:(lia)) as B0.
    pose proof (available_bounds len h 1 H ltac:(lia)) as B1.
    pose proof (available_bounds len h 2 H ltac:(lia)) as B2.
    pose proof (available_bounds len h 3 H ltac:(lia)) as B3.
    unfold MAX_SIZE in *. cbn [available Z.eqb Pos.eqb] in B0, B1, B2, B3.
    rewrite !u32_small by lia. unfold unmark_page. rewrite still_0.
    by destruct (blk (gran 1) _ _), (blk (gran 2) _ _), (blk (gran 3) _ _).
  - intros k Hk. by apply (used_blocks_set len).
  - rewrite (Hf 0 true H0). apply (freed_byte_test len h page 0 4 2 H Hp). lia.
  - rewrite (Hf 1 _ eq_refl). apply (freed_byte_test len h page 1 2 4 H Hp). lia.
  - rewrite (Hf 2 _ eq_refl). apply (freed_byte_test len h page 2 2 4 H Hp). lia.
  - rewrite (Hf 0 true H0). apply (freed_byte_eq len h page 0 H Hp). lia.
  - rewrite (Hf 1 _ eq_refl). apply (freed_byte_eq len h page 1 H Hp). lia.
  - rewrite (Hf 2 _ eq_refl). apply (freed_byte_eq len h page 2 H Hp). lia.
  - rewrite (Hf 3 _ eq_refl). apply (freed_byte_eq len h page 3 H Hp). lia.
Qed.

(** ** Properties *)

(** [alloc_page_bitmaps] on a consistent header and a free page of the range
    passes its assertions, keeps the header consistent (all four levels and all
    four counters), marks exactly that page, and takes one page off
    [available[0]]. *)
Theorem alloc_page_bitmaps_correct len h page :
  hdr_ok len h -> 0 <= page < len -> used h page = false ->
  exists h', alloc_page_bitmaps h page = Ok h' /\ hdr_ok len h' /\
    (forall p, 0 <= p -> used h' p = used h p || (p =? page)) /\
    available0 h' = available0 h - 1.
Proof.
  intros H Hp Hu. exists (mark_page h page). split_and!.
  - by eapply alloc_page_bitmaps_ok.
  - by apply hdr_ok_mark.
  - intros p Hp'. pose proof (ho_len _ _ H). apply (used_mark_page len); [done|lia|done].
  - unfold mark_page. cbn [available0]. change (bm h 0) with (bitmap_level0 h).
    change (gran 0) with 1. rewrite Z.div_1_r. unfold used in Hu. by rewrite Hu.
Qed.

(** [free_page_bitmaps] on a consistent header and an allocated page of the
    range passes its four assertions, keeps the header consistent, clears exactly
    that page, and gives one page back to [available[0]]. *)
Theorem free_page_bitmaps_correct len h page :
  hdr_ok len h -> 0 <= page < len -> used h page = true ->
  exists h', free_page_bitmaps h page = Ok h' /\ hdr_ok len h' /\
    (forall p, 0 <= p < MAX_SIZE -> used h' p = used h p && negb (p =? page)) /\
    available0 h' = available0 h + 1.
Proof.
  intros H Hp Hu. exists (unmark_page h page). split_and!.
  - by eapply free_page_bitmaps_ok.
  - by apply hdr_ok_unmark.
  - intros p Hp'. by apply (used_unmark_page len).
  - unfold unmark_page. cbn [available0]. by rewrite still_0.
Qed.

Lemma header_ext h1 h2 :
  (forall k, 0 <= k <= 3 -> bm h1 k = bm h2 k) ->
  (forall k, 0 <= k <= 3 -> available h1 k = available h2 k) -> h1 = h2.
Proof.
  intros Hb Ha. destruct h1, h2.
  pose proof (Hb 0 ltac:(lia)). pose proof (Hb 1 ltac:(lia)).
  pose proof (Hb 2 ltac:(lia)). pose proof (Hb 3 ltac:(lia)).
  pose proof (Ha 0 ltac:(lia)). pose proof (Ha 1 ltac:(lia)).
  pose proof (Ha 2 ltac:(lia)). pose proof (Ha 3 ltac:(lia)).
  cbn in *. by subst.
Qed.

Lemma unmark_mark len h page :
  hdr_ok len h -> 0 <= page < len -> used h page = false ->
  unmark_page (mark_page h page) page = h.
Proof.
  intros H Hp Hu. pose proof (ho_len _ _ H) as Hl.
  pose proof (hdr_ok_mark len h page H Hp) as Hm.
  assert (forall p, 0 <= p < MAX_SIZE ->
    unmark (used (mark_page h page)) page p = used h p) as Hun.
  { intros p Hp'. unfold unmark. rewrite (used_mark_page len) by (done || lia). unfold mark.
    destruct (Z.eqb_spec p page) as [->|]; simpl; [by rewrite Hu|].
    by rewrite orb_false_r, andb_true_r. }
  assert (forall k, 0 <= k <= 3 -> bm (unmark_page (mark_page h page) page) k = bm h k) as Hb.
  { intros k Hk. pose proof (hdr_ok_unmark len _ page Hm Hp) as Hum.
    rewrite (used_mark_page len) in Hum by (done || lia).
    unfold mark in Hum. rewrite Z.eqb_refl, orb_true_r in Hum. specialize (Hum eq_refl).
    apply bitmap_ext.
    - by apply (ho_bytes _ _ Hum).
    - by apply (ho_bytes _ _ H).
    - by rewrite (ho_zlen _ _ Hum), (ho_zlen _ _ H).
    - rewrite (ho_zlen _ _ Hum) by done. intros j Hj.
      assert (0 <= j < MAX_SIZE / gran k) by
        (unfold MAX_SIZE; levels k; unfold gran in *; simpl in *; lia).
      rewrite (getbit_unmark_page len), (ho_bits _ _ H) by done. by apply blk_ext_max. }
  assert (forall k, 0 <= k <= 3 ->
    available (unmark_page (mark_page h page) page) k = available h k) as Ha.
  { intros k Hk. rewrite available_unmark_page, available_mark_page by done.
    rewrite (getbit_page len) by (done || lia).
    rewrite (blk_ext_max k _ (used h)); [|done|eapply page_index_range; eauto; lia|done].
    destruct (blk _ _ _); lia. }
  by apply header_ext.
Qed.

(** Freeing a page right after allocating it restores the header bit for bit:
    the four bitmaps and the four counters are exactly the old ones. *)
Theorem alloc_free_page_roundtrip len h page :
  hdr_ok len h -> 0 <= page < len -> used h page = false ->
  (h' ← alloc_page_bitmaps h page; free_page_bitmaps h' page) = Ok h.
Proof.
  intros H Hp Hu. rewrite (alloc_page_bitmaps_ok len) by done. unfold mbind, res_bind.
  pose proof (ho_len _ _ H).
  rewrite (free_page_bitmaps_ok len); [by erewrite unmark_mark|by apply hdr_ok_mark|done|].
  rewrite (used_mark_page len) by (done || lia). unfold mark.
  by rewrite Z.eqb_refl, orb_true_r.
Qed.
