(* ===== verification/PmmAlloc.v ===== *)
(** * [physalloc]: correctness of the allocation loops

    The loops of [physalloc] from the inside out: the pages of one block, the
    free blocks of one 64-bit chunk, the chunks of one bitmap, and the memory
    ranges in the order of the four lists. *)

From S2P Require Import Prelude Bytes Interfaces Pmm PmmBitmap.





(** Physical address of page [p] of a range: the page at [base] itself holds the
    header. *)
Definition page_addr (range : memory_range) (p : Z) : Z := base range + (p + 1) * 0x1000.

Definition range_ok (range : memory_range) : Prop :=
  0 < base range /\ base range mod 0x1000 = 0 /\
  base range + (mlength range + 1) * 0x1000 <= 2 ^ 47.

Definition mark_pages (h : MR_header) (l : list Z) : MR_header := foldl mark_page h l.

(** Pages of a range that are free in [h], each one once. *)
Definition fresh (len : Z) (h : MR_header) (l : list Z) : Prop :=
  NoDup l /\ forall p, p ∈ l -> 0 <= p < len /\ used h p = false.

Lemma used_mark_pages len h l p :
  hdr_ok len h -> (forall q, q ∈ l -> 0 <= q < len) -> 0 <= p ->
  used (mark_pages h l) p = used h p || bool_decide (p ∈ l).
Proof.
  revert h. induction l as [|q l IH]; intros h H Hl Hp.
  - cbn. rewrite bool_decide_false by set_solver. by rewrite orb_false_r.
  - pose proof (ho_len _ _ H). assert (0 <= q < len) by (apply Hl; set_solver).
    cbn [mark_pages foldl]. fold (mark_pages (mark_page h q) l).
    rewrite IH by (try apply hdr_ok_mark; try done; intros; apply Hl; set_solver).
    rewrite (used_mark_page len) by (done || lia). unfold mark. rewrite <- orb_assoc. f_equal.
    destruct (Z.eqb_spec p q) as [->|]; cbn [orb].
    + symmetry. apply bool_decide_true. set_solver.
    + apply bool_decide_ext. set_solver.
Qed.

Lemma hdr_ok_mark_pages len h l :
  hdr_ok len h -> (forall q, q ∈ l -> 0 <= q < len) -> hdr_ok len (mark_pages h l).
Proof.
  revert h. induction l as [|q l IH]; intros h H Hl; [done|].
  apply (IH (mark_page h q)).
  - apply hdr_ok_mark; [done|]. apply Hl. set_solver.
  - intros. apply Hl. set_solver.
Qed.

Lemma available0_mark_pages len h l :
  hdr_ok len h -> fresh len h l ->
  available0 (mark_pages h l) = available0 h - zlen l.
Proof.
  revert h. induction l as [|q l IH]; intros h H [Hnd Hl].
  - unfold zlen. cbn. lia.
  - apply list.NoDup_cons in Hnd as [Hq Hnd]. destruct (Hl q) as [Hq' Hu]; [set_solver|].
    pose proof (ho_len _ _ H). cbn [mark_pages foldl]. fold (mark_pages (mark_page h q) l).
    rewrite IH.
    + change (available0 (mark_page h q)) with (available (mark_page h q) 0).
      rewrite available_mark_page by lia. change (gran 0) with 1. rewrite Z.div_1_r.
      change (getbit (bm h 0) q) with (used h q). rewrite Hu.
      change (available h 0) with (available0 h). unfold zlen. cbn [length]. lia.
    + by apply hdr_ok_mark.
    + split; [done|]. intros p Hp. destruct (Hl p) as [? Hup]; [set_solver|]. split; [done|].
      rewrite (used_mark_page len) by (done || lia). unfold mark. rewrite Hup. cbn.
      destruct (Z.eqb_spec p q) as [->|]; [done|done].
Qed.

Lemma fresh_app len h l1 l2 :
  hdr_ok len h -> fresh len h l1 -> fresh len (mark_pages h l1) l2 -> fresh len h (l1 ++ l2).
Proof.
  intros H [N1 F1] [N2 F2].
  assert (forall p, p ∈ l2 -> p ∉ l1 /\ used h p = false) as Hd.
  { intros p Hp. destruct (F2 p Hp) as [Hr Hu].
    rewrite (used_mark_pages len) in Hu by (done || lia || (intros; apply F1; done)).
    apply orb_false_iff in Hu as [? ?%bool_decide_eq_false]. done. }
  split.
  - apply list.NoDup_app. split_and!; [done| |done]. intros p Hp1 Hp2. by destruct (Hd p Hp2).
  - intros p [Hp|Hp]%elem_of_app; [by apply F1|]. split; [by apply F2|by apply Hd].
Qed.

Lemma page_addr_wrap range p :
  range_ok range -> 0 <= p < mlength range -> mlength range < MAX_SIZE ->
  u64 (base range + u32 (u32 (p + 1) * 0x1000)) = page_addr range p.
Proof. intros (? & ? & ?) Hp Hm. unfold MAX_SIZE in *. unwrap. done. Qed.

(** Blocks [lo <= i < hi] of [g] pages all contain an allocated page. *)
Definition blocks_used (g lo hi : Z) (h : MR_header) : Prop :=
  forall i, lo <= i < hi -> blk g (used h) i = true.

Lemma blk_mark_pages_mono len g h l i :
  hdr_ok len h -> (forall q, q ∈ l -> 0 <= q < len) -> 0 < g -> 0 <= i ->
  blk g (used h) i = true -> blk g (used (mark_pages h l)) i = true.
Proof.
  intros H Hl Hg Hi (p & Hp & Hu)%blk_true; [|done]. apply blk_true; [done|].
  exists p. split; [done|]. rewrite (used_mark_pages len); [by rewrite Hu|done..|].
  destruct (decide (0 <= p)); [done|].
  exfalso. assert (p / g < 0) by (apply Z.div_lt_upper_bound; lia). lia.
Qed.

Lemma blk_mark_pages_ne len g h l i :
  hdr_ok len h -> (forall q, q ∈ l -> 0 <= q < len) -> 0 < g -> 0 <= i ->
  (forall q, q ∈ l -> q / g <> i) ->
  blk g (used (mark_pages h l)) i = blk g (used h) i.
Proof.
  intros H Hl Hg Hi Hne. apply blk_ext; [done|]. intros p Hp.
  assert (0 <= p).
  { destruct (decide (0 <= p)); [done|].
    exfalso. assert (p / g < 0) by (apply Z.div_lt_upper_bound; lia). lia. }
  rewrite (used_mark_pages len) by done. rewrite bool_decide_false; [by rewrite orb_false_r|].
  intros Hin. by apply (Hne p Hin).
Qed.

Lemma div_in_block g b q : 0 < g -> b * g <= q < b * g + g -> q / g = b.
Proof. intros. symmetry. apply (Z.div_unique _ _ _ (q - b * g)); lia. Qed.

Lemma n_blocks_spec g len b : 0 < g -> b < n_blocks g len <-> b * g < len.
Proof.
  intros Hg. unfold n_blocks. split; intros H.
  - assert (g * ((len + g - 1) / g) <= len + g - 1) by (apply Z.mul_div_le; lia). nia.
  - assert ((b + 1) <= (len + g - 1) / g) by (apply Z.div_le_lower_bound; lia). lia.
Qed.

Lemma land_clear_testbit fc b i :
  0 <= b < 64 -> 0 <= i < 64 ->
  Z.testbit (Z.land fc (u64 (Z.lnot (Z.shiftl 1 b)))) i = Z.testbit fc i && negb (i =? b).
Proof.
  intros Hb Hi. rewrite Z.land_spec, testbit_wrap, Z.lnot_spec, shiftl_1_mask,
    testbit_shiftl_ones by lia. f_equal. zb.
Qed.

(** The bitmap [fc] holds the free blocks of the chunk that starts at block
    [64 * k]. *)
Definition chunk_bits (g k total fc : Z) (h : MR_header) : Prop :=
  forall b, 0 <= b < 64 -> 64 * k + b < total ->
    Z.testbit fc b = negb (blk g (used h) (64 * k + b)).

Lemma chunk_low_used g k total fc h hi :
  chunk_bits g k total fc h -> 0 <= hi <= 64 ->
  (forall b, 0 <= b < hi -> Z.testbit fc b = false) ->
  blocks_used g (64 * k) (Z.min (64 * k + hi) total) h.
Proof.
  intros Hfc Hhi Hlow i Hi. specialize (Hfc (i - 64 * k) ltac:(lia) ltac:(lia)).
  rewrite Hlow in Hfc by lia. replace (64 * k + (i - 64 * k)) with i in Hfc by lia.
  symmetry in Hfc. by apply negb_false_iff in Hfc.
Qed.

Lemma taken_block_used len g h l p :
  hdr_ok len h -> (forall q, q ∈ l -> 0 <= q < len) -> 0 < g -> p ∈ l ->
  blk g (used (mark_pages h l)) (p / g) = true.
Proof.
  intros H Hl Hg Hp. apply blk_true; [done|]. exists p. split; [done|].
  rewrite (used_mark_pages len); [|done..|by apply Hl].
  rewrite bool_decide_true by done. apply orb_true_r.
Qed.

(** The block taken by [alloc_block] leaves the chunk's bits. *)
Lemma chunk_bits_clear len g k total fc b h l :
  hdr_ok len h -> (forall q, q ∈ l -> 0 <= q < len) -> 0 < g -> 0 <= k -> 0 <= b < 64 ->
  chunk_bits g k total fc h -> (exists p, p ∈ l) ->
  (forall q, q ∈ l -> q / g = 64 * k + b) ->
  chunk_bits g k total (Z.land fc (u64 (Z.lnot (Z.shiftl 1 b)))) (mark_pages h l).
Proof.
  intros H Hl Hg Hk Hb Hfc [p Hp] Hdiv b' Hb' Hb't.
  rewrite land_clear_testbit, Hfc by lia. destruct (Z.eqb_spec b' b) as [->|Hne].
  - rewrite andb_false_r. symmetry. apply negb_false_iff. rewrite <- (Hdiv p Hp).
    by apply (taken_block_used len).
  - rewrite andb_true_r. f_equal. symmetry.
    apply (blk_mark_pages_ne len); [done..|lia|]. intros q Hq. rewrite Hdiv by done. lia.
Qed.

(** When the range ends inside block [b], block [b] is the last one. *)
Lemma last_block_used len g k b h l :
  hdr_ok len h -> (forall q, q ∈ l -> 0 <= q < len) -> 0 < g -> 0 <= k -> 0 <= b ->
  (64 * k + b) * g ∈ l -> len <= (64 * k + b) * g + g ->
  blocks_used g (64 * k) (Z.min (64 * k + b) (n_blocks g len)) h ->
  n_blocks g len <= 64 * k + b + 1 /\
  blocks_used g (64 * k) (n_blocks g len) (mark_pages h l).
Proof.
  intros H Hl Hg Hk Hb Hin Hend Hlow.
  assert (n_blocks g len <= 64 * k + b + 1) as Hlast.
  { destruct (decide (n_blocks g len <= 64 * k + b + 1)); [done|].
    assert ((64 * k + b + 1) * g < len) by (apply n_blocks_spec; lia). nia. }
  split; [done|]. intros i Hi. destruct (decide (i = 64 * k + b)) as [->|].
  - pose proof (taken_block_used len g h l _ H Hl Hg Hin) as Ht.
    by rewrite Z.div_mul in Ht by lia.
  - apply (blk_mark_pages_mono len); [done..|lia|]. apply Hlow. lia.
Qed.

Lemma fresh_nil len h : fresh len h [].
Proof. split; [constructor|set_solver]. Qed.

Section Loops.
Context {C : Type} (callback : Z -> Z -> Z -> C -> C).
Implicit Types (x : @alloc_ctx C).

(** The locals of [physalloc] after the pages [l] of [range] were taken. *)
Definition ctx_after (range : memory_range) x (l : list Z) : alloc_ctx :=
  AllocCtx (mark_pages (ac_header x) l)
    (callbacks callback (ac_vaddr x) (page_addr range <$> l) (ac_client x))
    (ac_size x - zlen l) (vaddr_after (length l) (ac_vaddr x))
    (match l with [] => ac_found x | _ => true end).

Lemma ctx_after_nil range x : ctx_after range x [] = x.
Proof. destruct x. unfold ctx_after, zlen. cbn. f_equal. lia. Qed.

Lemma vaddr_after_add n m v : vaddr_after (n + m) v = vaddr_after m (vaddr_after n v).
Proof. revert v. induction n; intros v; [done|]. apply IHn. Qed.

Lemma callbacks_app v l1 l2 c :
  callbacks callback v (l1 ++ l2) c = callbacks callback (vaddr_after (length l1) v) l2 (callbacks callback v l1 c).
Proof. revert v c. induction l1; intros v c; [done|]. apply IHl1. Qed.

Lemma ctx_after_app range x l1 l2 :
  ctx_after range (ctx_after range x l1) l2 = ctx_after range x (l1 ++ l2).
Proof.
  unfold ctx_after, mark_pages. cbn.
  rewrite foldl_app, fmap_app, callbacks_app, length_fmap, length_app, vaddr_after_add.
  unfold zlen. rewrite length_app. f_equal; [lia|].
  destruct l1, l2; done.
Qed.

(** *** The pages of one block *)

Lemma alloc_block_spec fuel j g range p x :
  range_ok range -> hdr_ok (mlength range) (ac_header x) ->
  0 <= j -> 0 < g <= 16 -> g - j <= Z.of_nat fuel ->
  0 <= p < mlength range -> 0 < ac_size x < 2 ^ 64 ->
  (forall q, p <= q < p + (g - j) -> used (ac_header x) q = false) ->
  j < g ->
  exists n : nat, let l := seqZ p (Z.of_nat n) in
    0 < Z.of_nat n <= g - j /\ Z.of_nat n <= ac_size x /\ p + Z.of_nat n <= mlength range /\
    fresh (mlength range) (ac_header x) l /\
    let x' := ctx_after range x l in
    let done := bool_decide (p + Z.of_nat n = mlength range \/ ac_size x' = 0) in
    alloc_block callback fuel j g range p x = Ok (x', done) /\
    (done = false -> Z.of_nat n = g - j).
Proof.
  revert j p x. induction fuel as [|fuel IH]; intros j p x Hr H Hj Hg Hf Hp Hs Hfree Hjg; [lia|].
  pose proof (ho_len _ _ H) as Hl. pose proof Hl as Hl'. unfold MAX_SIZE in Hl'.
  assert (used (ac_header x) p = false) as Hu by (apply Hfree; lia).
  assert (fresh (mlength range) (ac_header x) [p]) as F1.
  { split; [apply NoDup_singleton|]. intros q ->%list_elem_of_singleton. done. }
  cbn [alloc_block]. destruct (Z.ltb_spec j g); [|lia].
  rewrite page_addr_wrap by (done || lia).
  rewrite (alloc_page_bitmaps_ok (mlength range)) by done. unfold mbind, res_bind.
  rewrite (u64_small (ac_size x - 1)) by lia. rewrite (u32_small (p + 1)) by lia.
  set (x1 := AllocCtx _ _ _ _ _).
  assert (x1 = ctx_after range x [p]) as E1 by done. clearbody x1. subst x1.
  replace (ac_size x - 1) with (ac_size (ctx_after range x [p])) by (cbn; unfold zlen; cbn; lia).
  destruct (decide (p + 1 = mlength range \/ ac_size (ctx_after range x [p]) = 0)) as [Hd|Hd].
  - exists 1%nat. change (seqZ p (Z.of_nat 1)) with [p].
    split_and!; try done; try lia.
    + rewrite bool_decide_true by (cbn in Hd |- *; lia).
      replace ((mlength range <=? p + 1) || _) with true; [done|]. zb.
    + rewrite bool_decide_true by (cbn in Hd |- *; lia). done.
  - replace ((mlength range <=? p + 1) || _) with false by zb.
    assert (ac_size (ctx_after range x [p]) = ac_size x - 1) as Es
      by (cbn; unfold zlen; cbn; lia).
    destruct (decide (j + 1 < g)) as [Hlt|Hge].
    + destruct (IH (j + 1) (p + 1) (ctx_after range x [p])) as (n & Hn & Hns & Hnl & F2 & E & Hdn);
        [done| |lia|lia|lia|lia|rewrite Es in Hd |- *; lia| |lia|].
      { cbn [ctx_after ac_header]. apply hdr_ok_mark_pages; [done|].
        intros q ->%list_elem_of_singleton. done. }
      { intros q Hq. cbn [ctx_after ac_header].
        rewrite (used_mark_pages (mlength range)) by
          (done || lia || (intros ? ->%list_elem_of_singleton; done)).
        rewrite Hfree by lia. cbn [orb]. apply bool_decide_eq_false. set_solver by lia. }
      assert (seqZ p (Z.of_nat (S n)) = [p] ++ seqZ (p + 1) (Z.of_nat n)) as Eseq.
      { rewrite seqZ_cons by lia. cbn. f_equal. f_equal; lia. }
      exists (S n). rewrite Eseq. rewrite <- ctx_after_app.
      split_and!; [lia|lia|rewrite Es in Hns; lia|lia| | |].
      * apply fresh_app; done.
      * rewrite E. do 2 f_equal. apply bool_decide_ext. lia.
      * intros Hf'. rewrite Nat2Z.inj_succ, Hdn; [lia|]. rewrite <- Hf'. apply bool_decide_ext. lia.
    + exists 1%nat. change (seqZ p (Z.of_nat 1)) with [p].
      split_and!; try done; try lia.
      rewrite bool_decide_false by (cbn in Hd |- *; lia).
      destruct fuel; cbn [alloc_block]; (destruct (Z.ltb_spec (j + 1) g); [lia|done]).
Qed.

(** *** The free blocks of one chunk *)

Lemma alloc_chunk_spec fuel lo fc k g range x :
  let total := n_blocks g (mlength range) in
  range_ok range -> hdr_ok (mlength range) (ac_header x) -> 0 < g <= 16 ->
  0 <= k -> 64 * k < total -> 0 < ac_size x < 2 ^ 64 ->
  0 <= lo <= 64 -> 65 <= lo + Z.of_nat fuel ->
  chunk_bits g k total fc (ac_header x) ->
  (forall b, 0 <= b < lo -> Z.testbit fc b = false) ->
  exists l cb, let x' := ctx_after range x l in
    alloc_chunk callback fuel fc (64 * k) total g range x = Ok (x', cb) /\
    fresh (mlength range) (ac_header x) l /\ zlen l <= ac_size x /\
    (l = [] -> blocks_used g (64 * k) (Z.min (64 * k + 64) total) (ac_header x)) /\
    (ac_size x' = 0 \/
     blocks_used g (64 * k) (Z.min (64 * k + 64) total) (ac_header x') /\
     (cb = 64 * k + 64 \/ total <= 64 * k + 64)).
Proof.
  intros total. revert lo fc x. induction fuel as [|fuel IH];
    intros lo fc x Hr H Hg Hk Ht Hs Hlo Hf Hfc Hz; [lia|].
  pose proof (ho_len _ _ H) as Hl. pose proof Hl as Hl'. unfold MAX_SIZE in Hl'.
  assert (total <= 16384) as Htot by (apply n_blocks_max; lia).
  cbn [alloc_chunk].
  destruct (ffsll_spec fc) as [ [-> Hall] | (b & -> & Hb & Hbit & Hlow) ].
  { exists [], (64 * k + 64). rewrite ctx_after_nil. unwrap.
    assert (blocks_used g (64 * k) (Z.min (64 * k + 64) total) (ac_header x))
      by (eapply chunk_low_used; eauto; lia).
    split_and!; [done|apply fresh_nil|unfold zlen; cbn; lia|done|]. right. eauto. }
  destruct (Z.eqb_spec (b + 1) 0); [lia|]. replace (b + 1 - 1) with b by lia.
  rewrite (u32_small (64 * k + b)) by lia.
  assert (lo <= b) by (destruct (decide (b < lo)); [rewrite Hz in Hbit; [done|lia]|lia]).
  pose proof (chunk_low_used g k total fc _ b Hfc ltac:(lia) Hlow) as Hused.
  destruct (Z.leb_spec total (64 * k + b)) as [Hge|Hlt].
  { exists [], (64 * k + b). rewrite ctx_after_nil.
    replace (Z.min (64 * k + b) total) with (Z.min (64 * k + 64) total) in Hused by lia.
    split_and!; [done|apply fresh_nil|unfold zlen; cbn; lia|done|].
    right. split; [done|]. right. lia. }
  set (p0 := (64 * k + b) * g) in *.
  assert (0 <= p0 < mlength range) as Hp0 by
    (split; [unfold p0; nia|by apply n_blocks_spec; [lia|] ]).
  rewrite Hfc in Hbit by lia. apply negb_true_iff in Hbit.
  rewrite (u32_small p0) by lia.
  destruct (alloc_block_spec (Z.to_nat g) 0 g range p0 x) as
    (m & Hm & Hms & Hml & F1 & E & Hdn); [done|done|lia|lia|lia|lia|lia| |lia|].
  { intros q Hq. apply (proj1 (blk_false g _ _ ltac:(lia)) Hbit).
    apply div_in_block; unfold p0 in *; lia. }
  set (l0 := seqZ p0 (Z.of_nat m)) in *.
  assert (forall q, q ∈ l0 -> 0 <= q < mlength range) as Hl0 by (intros; by apply F1).
  assert (forall q, q ∈ l0 -> q / g = 64 * k + b) as Hdiv.
  { intros q Hq. apply elem_of_seqZ in Hq. apply div_in_block; unfold p0 in *; lia. }
  assert (p0 ∈ l0) as Hin by (apply elem_of_seqZ; lia).
  assert (zlen l0 = Z.of_nat m) as Hzl by (unfold zlen, l0; rewrite length_seqZ; lia).
  assert (ac_size (ctx_after range x l0) = ac_size x - Z.of_nat m) as Es by (cbn; lia).
  rewrite E. unfold mbind at 1, res_bind at 1. destruct (bool_decide _) eqn:Hdone.
  - apply bool_decide_eq_true in Hdone. exists l0, (64 * k + b).
    split_and!; [done|done|lia|by intros ->; set_solver|].
    destruct Hdone as [Hend|?]; [|by left]. right.
    destruct (last_block_used (mlength range) g k b (ac_header x) l0) as [Hlast Hall];
      [done|done|lia|lia|lia|done|unfold p0 in *; lia|done|].
    split; [|right; fold total in Hlast; lia].
    intros i Hi. apply Hall. fold total. lia.
  - specialize (Hdn eq_refl). apply bool_decide_eq_false in Hdone.
    destruct (IH (b + 1) (Z.land fc (u64 (Z.lnot (Z.shiftl 1 b)))) (ctx_after range x l0))
      as (l & cb & E' & F2 & Hz2 & _ & Hpost);
      [done|by apply hdr_ok_mark_pages|lia|lia|lia|rewrite Es in Hdone |- *; lia|lia|lia| | |].
    { apply (chunk_bits_clear (mlength range)); eauto; lia. }
    { intros b' Hb'. rewrite land_clear_testbit by lia.
      destruct (Z.eqb_spec b' b); [apply andb_false_r|]. by rewrite Hlow by lia. }
    exists (l0 ++ l), cb. rewrite <- ctx_after_app.
    split_and!; [done|by apply fresh_app|unfold zlen in *; rewrite length_app; lia| |done].
    intros [-> _]%app_eq_nil. set_solver.
Qed.
End Loops.

(** * The four lists of memory ranges

    The linked lists [mr_lists[0..3]] as chains of [next] pointers through
    [memory_ranges_buffer], and [getMR] and [move_region_if_full] on them. *)


(** The list that starts at [head] visits exactly the ranges [l]. *)
Fixpoint chain (rs : list memory_range) (head : option nat) (l : list nat) : Prop :=
  match l with
  | [] => head = None
  | r :: l' => head = Some r /\ exists range, rs !! r = Some range /\ chain rs (next range) l'
  end.

(** The four lists hold the ranges [ls], each range at most once. *)
Record lists_ok (s : pmm_state) (ls : list (list nat)) : Prop := {
  lo_len : length (mr_lists s) = 4%nat;
  lo_len' : length ls = 4%nat;
  lo_chain : forall i head l, mr_lists s !! i = Some head -> ls !! i = Some l ->
    chain (memory_ranges_buffer s) head l;
  lo_nodup : NoDup (concat ls)
}.

(** The buffer may only differ in the [next] fields. *)
Definition same_ranges (rs rs' : list memory_range) : Prop :=
  length rs = length rs' /\
  forall r range, rs !! r = Some range -> exists n, rs' !! r = Some (set_next range n).

#[export] Instance same_ranges_refl : Reflexive same_ranges.
Proof. intros rs. split; [done|]. intros r [b l n] ?. by exists n. Qed.

#[export] Instance same_ranges_trans : Transitive same_ranges.
Proof.
  intros a b c [L1 H1] [L2 H2]. split; [congruence|]. intros r range E.
  destruct (H1 _ _ E) as [n En]. destruct (H2 _ _ En) as [m Em]. by exists m.
Qed.

Lemma same_ranges_insert rs r range n :
  rs !! r = Some range -> same_ranges rs (<[r := set_next range n]> rs).
Proof.
  intros E. split; [by rewrite length_insert|]. intros q rq Eq.
  destruct (decide (q = r)) as [->|].
  - simplify_eq. exists n. apply list_lookup_insert_eq. by eapply lookup_lt_Some.
  - rewrite list_lookup_insert_ne by done. destruct rq as [b l m]. by exists m.
Qed.

Lemma chain_insert rs head l r v : r ∉ l -> chain rs head l -> chain (<[r := v]> rs) head l.
Proof.
  revert head. induction l as [|q l IH]; intros head Hr; [done|].
  intros (-> & range & E & Hc). split; [done|]. exists range. split.
  - rewrite list_lookup_insert_ne by set_solver. done.
  - apply IH; [set_solver|done].
Qed.

(** Popping the head of a list, pushing on a list: effect on the union. *)
Lemma concat_pop (ls : list (list nat)) i r l :
  ls !! i = Some (r :: l) -> concat ls ≡ₚ r :: concat (<[i := l]> ls).
Proof.
  intros E. rewrite <- (take_drop_middle ls i _ E) at 1.
  rewrite insert_take_drop by (by eapply lookup_lt_Some).
  rewrite !concat_app. cbn [concat]. rewrite <- app_comm_cons.
  symmetry. apply Permutation_middle.
Qed.

Lemma concat_push (ls : list (list nat)) i r l :
  ls !! i = Some l -> concat (<[i := r :: l]> ls) ≡ₚ r :: concat ls.
Proof.
  intros E. rewrite (concat_pop (<[i := r :: l]> ls) i r l).
  - rewrite list_insert_insert_eq, list_insert_id by done. done.
  - apply list_lookup_insert_eq. by eapply lookup_lt_Some.
Qed.

Lemma elem_of_concat_lookup (ls : list (list nat)) i l r :
  ls !! i = Some l -> r ∈ l -> r ∈ concat ls.
Proof. intros E Hr. apply list_elem_of_In, in_concat. exists l.
  split; apply list_elem_of_In; [by eapply list_elem_of_lookup_2|done]. Qed.

Section Lists.
Context (s : pmm_state) (ls : list (list nat)).

(** The state after range [r], head of list [i], was unlinked. *)
Definition popped (i : nat) (range : memory_range) : pmm_state :=
  set_lists s (<[i := next range]> (mr_lists s)).

Lemma lists_ok_pop i r l range :
  lists_ok s ls -> ls !! i = Some (r :: l) -> memory_ranges_buffer s !! r = Some range ->
  lists_ok (popped i range) (<[i := l]> ls).
Proof.
  intros H E Er. split; cbn.
  - rewrite length_insert. apply H.
  - rewrite length_insert. apply H.
  - intros j head lj Hh Hl. destruct (decide (j = i)) as [->|].
    + assert (i < 4)%nat by (apply lookup_lt_Some in E; rewrite (lo_len' _ _ H) in E; lia).
      rewrite list_lookup_insert_eq in Hh by (rewrite (lo_len _ _ H); lia).
      rewrite list_lookup_insert_eq in Hl by (rewrite (lo_len' _ _ H); lia).
      simplify_eq. destruct (lookup_lt_is_Some_2 (mr_lists s) i) as [hd Ehd].
      { rewrite (lo_len _ _ H). lia. }
      destruct (lo_chain _ _ H i hd _ Ehd E) as (_ & range' & Er' & Hc).
      by simplify_eq.
    + rewrite list_lookup_insert_ne in Hh by done. rewrite list_lookup_insert_ne in Hl by done. by eapply (lo_chain _ _ H).
  - pose proof (lo_nodup _ _ H) as Hn. rewrite (concat_pop _ _ _ _ E) in Hn.
    by apply list.NoDup_cons in Hn as [_ ?].
Qed.

(** The state after range [r] was linked in front of list [i]. *)
Definition pushed (i r : nat) (range : memory_range) (head : option nat) : pmm_state :=
  set_lists (set_ranges s (<[r := set_next range head]> (memory_ranges_buffer s)))
    (<[i := Some r]> (mr_lists s)).

Lemma lists_ok_push i r l range head :
  lists_ok s ls -> ls !! i = Some l -> r ∉ concat ls ->
  memory_ranges_buffer s !! r = Some range -> mr_lists s !! i = Some head ->
  lists_ok (pushed i r range head) (<[i := r :: l]> ls).
Proof.
  intros H E Hr Er Eh. pose proof (lookup_lt_Some _ _ _ Er) as Hlt.
  assert (i < 4)%nat by (apply lookup_lt_Some in E; rewrite (lo_len' _ _ H) in E; lia).
  split; cbn.
  - rewrite length_insert. apply H.
  - rewrite length_insert. apply H.
  - intros j hd lj Hh Hl. destruct (decide (j = i)) as [->|].
    + rewrite list_lookup_insert_eq in Hh by (rewrite (lo_len _ _ H); lia).
      rewrite list_lookup_insert_eq in Hl by (rewrite (lo_len' _ _ H); lia).
      simplify_eq. split; [done|]. eexists. split; [by apply list_lookup_insert_eq|]. cbn.
      apply chain_insert; [|by eapply (lo_chain _ _ H)].
      intros ?. apply Hr. by eapply elem_of_concat_lookup.
    + rewrite list_lookup_insert_ne in Hh by done. rewrite list_lookup_insert_ne in Hl by done.
      apply chain_insert; [|by eapply (lo_chain _ _ H)].
      intros ?. apply Hr. by eapply elem_of_concat_lookup.
  - rewrite (concat_push _ _ _ _ E). apply list.NoDup_cons. split; [done|apply H].
Qed.
End Lists.

(** ** [getMR] *)

Lemma getMR_from_spec i s ls :
  lists_ok s ls -> (i < 4)%nat -> (exists j l r, (j <= i)%nat /\ ls !! j = Some l /\ r ∈ l) ->
  exists j r l, getMR_from i (mr_lists s) = Ok (r, Z.of_nat j) /\ (j <= i)%nat /\
    ls !! j = Some (r :: l).
Proof.
  intros H. induction i as [|i IH]; intros Hi (j & l & r & Hj & El & Hr); cbn [getMR_from].
  - replace j with 0%nat in * by lia.
    destruct (lookup_lt_is_Some_2 (mr_lists s) 0) as [hd Ehd]; [by rewrite (lo_len _ _ H)|].
    rewrite (ld_nat _ _ _ Ehd). unfold mbind, res_bind.
    destruct l as [|q l]; [set_solver|].
    destruct (lo_chain _ _ H 0%nat hd _ Ehd El) as (-> & _). exists 0%nat, q, l. done.
  - destruct (lookup_lt_is_Some_2 (mr_lists s) (S i)) as [hd Ehd]; [rewrite (lo_len _ _ H); lia|].
    destruct (lookup_lt_is_Some_2 ls (S i)) as [li Eli]; [rewrite (lo_len' _ _ H); lia|].
    rewrite (ld_nat _ _ _ Ehd). unfold mbind, res_bind.
    pose proof (lo_chain _ _ H (S i) hd _ Ehd Eli) as Hc. destruct li as [|q li].
    + cbn in Hc. subst hd. assert (j <> S i) by (intros ->; simplify_eq; set_solver).
      destruct IH as (j' & r' & l' & E & Hj' & El'); [lia| |].
      { exists j, l, r. split_and!; [lia|done..]. }
      exists j', r', l'. split_and!; [done|lia|done].
    + destruct Hc as (-> & _). exists (S i), q, li. done.
Qed.

Lemma getMR_spec s ls :
  lists_ok s ls -> concat ls <> [] ->
  exists (j : nat) r l, getMR s = Ok (r, Z.of_nat j) /\ (j < 4)%nat /\ ls !! j = Some (r :: l).
Proof.
  intros H Hne. destruct (concat ls) as [|r c] eqn:Ec; [done|].
  assert (r ∈ concat ls) as Hr by (rewrite Ec; set_solver).
  apply list_elem_of_In, in_concat in Hr as (l & Hl%list_elem_of_In & Hr%list_elem_of_In).
  apply list_elem_of_lookup_1 in Hl as [j El].
  assert (j < 4)%nat by (apply lookup_lt_Some in El; rewrite (lo_len' _ _ H) in El; lia).
  destruct (getMR_from_spec 3 s ls H ltac:(lia)) as (j' & r' & l' & E & ? & ?).
  { exists j, l, r. split_and!; [lia|done..]. }
  exists j', r', l'. split_and!; [done|lia|done].
Qed.

(** ** [move_region_if_full] *)

(** What moving range [r] down from list [i] changes: nothing but the [next]
    fields and the lists; every other range stays in its list; [r] ends in a list
    whose counter is positive, or in none when it is full. *)
Record moved_ok (s s' : pmm_state) (ls ls' : list (list nat)) (r : nat) (h : MR_header) : Prop := {
  mo_lists : lists_ok s' ls';
  mo_headers : headers s' = headers s;
  mo_pages : pages s' = pages s;
  mo_total : total_available_pages s' = total_available_pages s;
  mo_mem : total_memory_pages s' = total_memory_pages s;
  mo_n : n_ranges s' = n_ranges s;
  mo_ranges : same_ranges (memory_ranges_buffer s) (memory_ranges_buffer s');
  mo_others : forall q j l', q <> r -> ls' !! j = Some l' -> q ∈ l' ->
    exists l, ls !! j = Some l /\ q ∈ l;
  mo_range : forall j l', ls' !! j = Some l' -> r ∈ l' -> available h (Z.of_nat j) <> 0;
  mo_concat : concat ls' ≡ₚ concat ls \/ available0 h = 0 /\ concat ls ≡ₚ r :: concat ls'
}.

Lemma concat_unique (ls : list (list nat)) i j r l l' :
  NoDup (concat ls) -> ls !! i = Some (r :: l) -> ls !! j = Some l' -> r ∈ l' -> j = i.
Proof.
  intros Hn Ei Ej Hr. destruct (decide (j = i)) as [|Hne]; [done|]. exfalso.
  rewrite (concat_pop _ _ _ _ Ei) in Hn. apply list.NoDup_cons in Hn as [Hnin _]. apply Hnin.
  apply (elem_of_concat_lookup _ j l'); [|done]. by rewrite list_lookup_insert_ne.
Qed.

Lemma moved_ok_refl s ls i r l h :
  lists_ok s ls -> ls !! i = Some (r :: l) -> available h (Z.of_nat i) <> 0 ->
  moved_ok s s ls ls r h.
Proof.
  intros H El Ha. split; try done; eauto.
  intros j l' Ej Hr. by rewrite (concat_unique ls i j r l l' (lo_nodup _ _ H) El Ej Hr).
Qed.

Lemma moved_ok_pop s ls r l h range :
  lists_ok s ls -> ls !! 0%nat = Some (r :: l) -> memory_ranges_buffer s !! r = Some range ->
  available0 h = 0 -> moved_ok s (popped s 0 range) ls (<[0%nat := l]> ls) r h.
Proof.
  intros H El Er Ha. pose proof (lists_ok_pop _ _ _ _ _ _ H El Er) as Hp.
  pose proof (concat_pop _ _ _ _ El) as Hc.
  pose proof (lo_nodup _ _ H) as Hn. rewrite Hc in Hn. apply list.NoDup_cons in Hn as [Hnin _].
  split; try done.
  - intros q j l' Hq El' Hin. destruct (decide (j = 0%nat)) as [->|].
    + rewrite list_lookup_insert_eq in El' by (rewrite (lo_len' _ _ H); lia). simplify_eq.
      eexists. split; [done|]. set_solver.
    + rewrite list_lookup_insert_ne in El' by done. eauto.
  - intros j l' El' Hin. exfalso. apply Hnin. by eapply elem_of_concat_lookup.
  - by right.
Qed.

(** One step down: [r] leaves list [S i] for the front of list [i]. *)
Lemma step_down s ls i r l range :
  lists_ok s ls -> (S i < 4)%nat -> ls !! S i = Some (r :: l) ->
  memory_ranges_buffer s !! r = Some range ->
  exists head l', mr_lists s !! i = Some head /\ ls !! i = Some l' /\
    let s1 := pushed (popped s (S i) range) i r range head in
    let ls1 := <[i := r :: l']> (<[S i := l]> ls) in
    lists_ok s1 ls1 /\ concat ls1 ≡ₚ concat ls /\
    (forall q j lj, q <> r -> ls1 !! j = Some lj -> q ∈ lj -> exists l0, ls !! j = Some l0 /\ q ∈ l0).
Proof.
  intros H Hi El Er.
  destruct (lookup_lt_is_Some_2 (mr_lists s) i) as [hd Ehd]; [rewrite (lo_len _ _ H); lia|].
  destruct (lookup_lt_is_Some_2 ls i) as [l' El']; [rewrite (lo_len' _ _ H); lia|].
  exists hd, l'. split_and!; [done..|].
  pose proof (lists_ok_pop _ _ _ _ _ _ H El Er) as Hp.
  pose proof (concat_pop _ _ _ _ El) as Hc.
  pose proof (lo_nodup _ _ H) as Hn. rewrite Hc in Hn. apply list.NoDup_cons in Hn as [Hnin _].
  assert (<[S i := l]> ls !! i = Some l') as El1 by (by rewrite list_lookup_insert_ne by lia).
  cbv zeta. split_and!.
  - apply lists_ok_push; try done. cbn. by rewrite list_lookup_insert_ne by lia.
  - rewrite (concat_push _ _ _ _ El1). by rewrite Hc.
  - intros q j lj Hq Ej Hin. destruct (decide (j = i)) as [->|].
    + rewrite list_lookup_insert_eq in Ej by (rewrite length_insert, (lo_len' _ _ H); lia).
      simplify_eq. eexists. split; [done|]. set_solver.
    + rewrite list_lookup_insert_ne in Ej by done. destruct (decide (j = S i)) as [->|].
      * rewrite list_lookup_insert_eq in Ej by (rewrite (lo_len' _ _ H); lia).
        simplify_eq. eexists. split; [done|]. set_solver.
      * rewrite list_lookup_insert_ne in Ej by done. eauto.
Qed.

Lemma move_region_loop_spec i s ls r l h rv :
  lists_ok s ls -> (i < 4)%nat -> ls !! i = Some (r :: l) ->
  is_Some (memory_ranges_buffer s !! r) ->
  exists s' ls' b, move_region_loop i s r h rv = Ok (s', b) /\ moved_ok s s' ls ls' r h /\
    (available h (Z.of_nat i) = 0 -> b = true) /\
    (available h (Z.of_nat i) <> 0 -> b = rv /\ s' = s /\ ls' = ls).
Proof.
  revert s ls l rv. induction i as [|i IH]; intros s ls l rv H Hi El [range Er];
    cbn [move_region_loop].
  - change (Z.of_nat 0) with 0. destruct (Z.eqb_spec (available h 0) 0) as [E|E]; cbn [negb].
    + unfold load_range. rewrite (ld_nat _ _ _ Er). unfold mbind, res_bind.
      rewrite st_ok by (unfold zlen; rewrite (lo_len _ _ H); lia).
      exists (popped s 0 range), (<[0%nat := l]> ls), true.
      split_and!; [done|by eapply moved_ok_pop|done|done].
    + exists s, ls, rv. split_and!; [done|by apply (moved_ok_refl s ls 0 r l)|done|done].
  - destruct (Z.eqb_spec (available h (Z.of_nat (S i))) 0) as [E|E]; cbn [negb].
    + unfold load_range. rewrite (ld_nat _ _ _ Er). unfold mbind, res_bind.
      rewrite st_ok by (unfold zlen; rewrite (lo_len _ _ H); lia). rewrite Nat2Z.id.
      destruct (step_down s ls i r l range H Hi El Er) as (hd & l' & Ehd & El' & H1 & Hc1 & Ho1).
      rewrite (ld_nat _ _ hd) by (cbn; by rewrite list_lookup_insert_ne by lia).
      unfold store_range, mbind, res_bind. cbn [set_lists memory_ranges_buffer].
      pose proof (lookup_lt_Some _ _ _ Er) as Hlt.
      rewrite st_ok by (unfold zlen; lia). rewrite Nat2Z.id. cbn [set_ranges mr_lists].
      rewrite st_ok by (unfold zlen; cbn; rewrite length_insert, (lo_len _ _ H); lia).
      rewrite Nat2Z.id.
      destruct (IH (pushed (popped s (S i) range) i r range hd) _ l' true H1) as
        (s' & ls' & b & Eq & Hm & Hb & Hb'); [lia| | |].
      { apply list_lookup_insert_eq. rewrite length_insert, (lo_len' _ _ H). lia. }
      { exists (set_next range hd). by apply list_lookup_insert_eq. }
      exists s', ls', b. split_and!; [done| | |done].
      * destruct Hm. split; try done.
        -- etrans; [by apply (same_ranges_insert _ r range hd)|done].
        -- intros q j l0 Hq Ej Hin. destruct (mo_others0 q j l0 Hq Ej Hin) as (l1 & ? & ?).
           by eapply Ho1.
        -- rewrite <- Hc1. done.
      * intros _. destruct (decide (available h (Z.of_nat i) = 0)) as [?|?]; [by apply Hb|].
        by destruct (Hb' n) as [-> _].
    + exists s, ls, rv. split_and!; [done|by apply (moved_ok_refl s ls (S i) r l)|done|done].
Qed.

Lemma move_region_if_full_spec i s ls r l h :
  lists_ok s ls -> (i < 4)%nat -> ls !! i = Some (r :: l) ->
  is_Some (memory_ranges_buffer s !! r) ->
  exists s' ls' b, move_region_if_full s r h (Z.of_nat i) = Ok (s', b) /\
    moved_ok s s' ls ls' r h /\ b = (available h (Z.of_nat i) =? 0) /\
    (b = false -> s' = s /\ ls' = ls).
Proof.
  intros H Hi El Er. unfold move_region_if_full, assert_.
  destruct (Z.ltb_spec (Z.of_nat i) 4); [|lia]. unfold mbind, res_bind. rewrite Nat2Z.id.
  destruct (move_region_loop_spec i s ls r l h false H Hi El Er) as (s' & ls' & b & E & Hm & Hz0 & Hz1).
  exists s', ls', b. split_and!; [done|done| |].
  - destruct (Z.eqb_spec (available h (Z.of_nat i)) 0); [by apply Hz0|]. by destruct Hz1.
  - intros ->. destruct (decide (available h (Z.of_nat i) = 0)) as [Hz|Hz].
    + by apply Hz0 in Hz.
    + by apply Hz1 in Hz as (_ & -> & ->).
Qed.
