(* ===== verification/PmmPhysalloc.v ===== *)
(** * [physalloc] over all memory ranges

    The invariant of the physical memory manager, the loop over a bitmap, the
    loop over the ranges, and the specification of [physalloc] and
    [physalloc_single] in terms of the set of free physical pages. *)

From S2P Require Import Prelude Bytes Interfaces Pmm PmmBitmap PmmAlloc.





Fixpoint sumZ (f : nat -> Z) (l : list nat) : Z :=
  match l with [] => 0 | r :: l' => f r + sumZ f l' end.

Lemma sumZ_app f l1 l2 : sumZ f (l1 ++ l2) = sumZ f l1 + sumZ f l2.
Proof. induction l1; cbn; lia. Qed.

#[export] Instance sumZ_perm f : Proper ((≡ₚ) ==> eq) (sumZ f).
Proof. intros l1 l2 H. induction H; cbn; lia. Qed.

Lemma sumZ_ext f g l : (forall r, r ∈ l -> f r = g r) -> sumZ f l = sumZ g l.
Proof.
  induction l as [|r l IH]; intros H; [done|]. cbn. rewrite H, IH by set_solver. done.
Qed.

Lemma sumZ_upd f g l r d :
  NoDup l -> r ∈ l -> g r = f r + d -> (forall q, q ∈ l -> q <> r -> g q = f q) ->
  sumZ g l = sumZ f l + d.
Proof.
  induction l as [|q l IH]; intros Hn Hr Hd H; [set_solver|].
  apply list.NoDup_cons in Hn as [Hq Hn]. cbn. destruct (decide (r = q)) as [->|].
  - rewrite (sumZ_ext g f l); [lia|]. intros p Hp. apply H; set_solver.
  - rewrite (IH Hn) by (try done; set_solver). rewrite H by set_solver. lia.
Qed.

Lemma sumZ_bounds f l b :
  (forall r, r ∈ l -> 0 <= f r <= b) -> 0 <= sumZ f l <= b * zlen l.
Proof.
  unfold zlen. induction l as [|r l IH]; intros H; cbn; [lia|].
  pose proof (H r ltac:(set_solver)). specialize (IH ltac:(set_solver)). lia.
Qed.

(** The header of range [r], and its number of free pages. *)
Definition range_at (s : pmm_state) (r : nat) (range : memory_range) (h : MR_header) : Prop :=
  memory_ranges_buffer s !! r = Some range /\ headers s !! base range = Some h.

Definition free_of (s : pmm_state) (r : nat) : Z :=
  match memory_ranges_buffer s !! r with
  | Some range => match headers s !! base range with Some h => available0 h | None => 0 end
  | None => 0
  end.

(** The structural invariant of the physical memory manager; [ls] are the four lists. *)
Record pmm_inv (s : pmm_state) (ls : list (list nat)) : Prop := {
  pk_lists : lists_ok s ls;
  pk_n : 0 <= n_ranges s <= zlen (memory_ranges_buffer s);
  pk_buf : zlen (memory_ranges_buffer s) = 512;
  pk_ranges : forall r, Z.of_nat r < n_ranges s -> exists range h,
    range_at s r range h /\ range_ok range /\ hdr_ok (mlength range) h;
  pk_sorted : forall r q range range', (r < q)%nat -> Z.of_nat q < n_ranges s ->
    memory_ranges_buffer s !! r = Some range -> memory_ranges_buffer s !! q = Some range' ->
    base range + (mlength range + 1) * 0x1000 <= base range';
  pk_listed : forall i l r, ls !! i = Some l -> r ∈ l ->
    Z.of_nat r < n_ranges s /\
    forall range h, range_at s r range h -> available h (Z.of_nat i) <> 0
}.

(** Number of free pages of all ranges. *)
Definition all_free (s : pmm_state) : Z := sumZ (free_of s) (seq 0 (Z.to_nat (n_ranges s))).

(** Between two calls [total_available_pages] is that number. *)
Definition pmm_ok (s : pmm_state) (ls : list (list nat)) : Prop :=
  pmm_inv s ls /\ total_available_pages s = all_free s.

(** Pages that [physalloc] can reach: those of the ranges in the four lists. *)
Definition listed_free (s : pmm_state) (ls : list (list nat)) : Z := sumZ (free_of s) (concat ls).

(** The physical page at [a] belongs to a range and is allocated ([true]) or free. *)
Definition managed (s : pmm_state) (a : Z) (b : bool) : Prop :=
  exists r range h p, Z.of_nat r < n_ranges s /\ range_at s r range h /\
    0 <= p < mlength range /\ a = page_addr range p /\ used h p = b.

(** ** Header addresses *)

Lemma window_header range : range_ok range -> 0 <= mlength range ->
  window_phys (get_header_base range) = base range.
Proof.
  intros (H1 & _ & H2) Hl. unfold window_phys, get_header_base.
  rewrite Z.land_ones by lia.
  assert (Z.lor (base range) TRANSLATED_PHYSICAL_MEMORY_BEGIN
          = base range + TRANSLATED_PHYSICAL_MEMORY_BEGIN) as ->.
  { rewrite Z.add_nocarry_lxor, Z.lxor_lor; [done|..].
    all: apply Z.bits_inj'; intros i Hi; rewrite Z.land_spec, Z.testbit_0_l.
    all: change TRANSLATED_PHYSICAL_MEMORY_BEGIN with (Z.shiftl (Z.ones 17) 47).
    all: rewrite testbit_shiftl_ones by lia.
    all: destruct (Z.leb_spec 47 i); [|by rewrite andb_false_r].
    all: rewrite <- (Z.mod_small (base range) (2 ^ 47)) by lia.
    all: by rewrite Z.mod_pow2_bits_high by lia. }
  change TRANSLATED_PHYSICAL_MEMORY_BEGIN with (131071 * 2 ^ 47).
  rewrite Z.mod_add by lia. apply Z.mod_small. lia.
Qed.

Lemma lists_ok_store s ls p h : lists_ok (store_header s p h) ls <-> lists_ok s ls.
Proof. split; intros []; by split. Qed.

Lemma available_zero len h k :
  hdr_ok len h -> 0 <= k <= 3 ->
  available h k = 0 <-> blocks_used (gran k) 0 (n_blocks (gran k) len) h.
Proof.
  intros H Hk. rewrite (ho_avail _ _ H k Hk). unfold free_blocks. rewrite countb_0.
  pose proof (ho_len _ _ H).
  assert (0 <= n_blocks (gran k) len) by
    (apply Z.div_pos; pose proof (gran_cases k Hk); lia).
  split.
  - intros E i Hi. specialize (E i ltac:(lia)). by apply negb_false_iff in E.
  - intros E i Hi. apply negb_false_iff, E. lia.
Qed.

Lemma select_bitmap_ok h k : 0 <= k <= 3 -> select_bitmap h k = Ok (bm h k, gran k).
Proof. intros. by levels k. Qed.

(** The chunk read by [physalloc] holds the free blocks, complemented. *)
Lemma chunk_of_bitmap len h k (i : Z) :
  hdr_ok len h -> 0 <= i <= 3 -> 0 <= k -> 64 * k < n_blocks (gran i) len ->
  exists c, ld64 (bm h i) k = Ok c /\
    chunk_bits (gran i) k (n_blocks (gran i) len) (u64 (Z.lnot c)) h.
Proof.
  intros H Hi Hk Hlt. pose proof (ho_len _ _ H) as Hl.
  assert (64 * k + 64 <= MAX_SIZE / gran i /\ 8 * k + 8 <= 2048 / gran i) as [Hk1 Hk2].
  { unfold n_blocks, MAX_SIZE in *. levels i; unfold gran in *; cbn in *; lia. }
  destruct (ld64_ok (bm h i) k) as (c & E & _ & Hc);
    [done|by rewrite (ho_zlen _ _ H)|by apply (ho_bytes _ _ H)|].
  exists c. split; [done|]. intros b Hb Hbt.
  rewrite testbit_wrap, Z.lnot_spec, Hc, (ho_bits _ _ H) by lia. zb.
Qed.

(** After the chunk of blocks [64 * k ..] was worked on: the request is served,
    or the range has no free block of this size left, or the next chunk follows. *)
Lemma chunk_progress len h l k i cb (served : Prop) :
  let g := gran i in
  let total := n_blocks g len in
  let h' := mark_pages h l in
  hdr_ok len h -> (forall q, q ∈ l -> 0 <= q < len) -> 0 <= i <= 3 -> 0 <= k ->
  blocks_used g 0 (64 * k) h ->
  served \/ blocks_used g (64 * k) (Z.min (64 * k + 64) total) h' /\
    (cb = 64 * k + 64 \/ total <= 64 * k + 64) ->
  served \/ available h' i = 0 \/
    (64 * k + 64 < total /\ blocks_used g 0 (64 * k + 64) h' /\ cb = 64 * k + 64).
Proof.
  intros g total h' H Hl Hi Hk Hlow [?|[Hu Hcb] ]; [by left|right].
  assert (0 < g) by (pose proof (gran_cases i Hi); unfold g; lia).
  assert (blocks_used g 0 (Z.min (64 * k + 64) total) h') as Hjoin.
  { intros j Hj. destruct (decide (j < 64 * k)); [|apply Hu; lia].
    apply (blk_mark_pages_mono len); [done..|lia|]. apply Hlow. lia. }
  destruct (decide (total <= 64 * k + 64)) as [Ht|Ht].
  - left. rewrite Z.min_r in Hjoin by lia.
    apply (available_zero len); [by apply hdr_ok_mark_pages|done|done].
  - right. rewrite Z.min_l in Hjoin by lia. split_and!; [lia|done|lia].
Qed.

Section Scan.
Context {C : Type} (callback : Z -> Z -> Z -> C -> C).
Implicit Types (x : @alloc_ctx C).

Lemma scan_bitmap_spec fuel k (i : nat) r l range s x ls :
  let g := gran (Z.of_nat i) in
  let total := n_blocks g (mlength range) in
  lists_ok s ls -> (i < 4)%nat -> ls !! i = Some (r :: l) ->
  memory_ranges_buffer s !! r = Some range ->
  range_ok range -> hdr_ok (mlength range) (ac_header x) ->
  0 <= k -> total - 64 * k <= 64 * Z.of_nat fuel ->
  blocks_used g 0 (Z.min (64 * k) total) (ac_header x) ->
  available (ac_header x) (Z.of_nat i) <> 0 -> 0 < ac_size x < 2 ^ 64 ->
  exists lp s' ls', let x' := ctx_after callback range x lp in
    scan_bitmap callback fuel k (64 * k) total (Z.of_nat i) r range s x = Ok (s', x') /\
    fresh (mlength range) (ac_header x) lp /\ zlen lp <= ac_size x /\ lp <> [] /\
    moved_ok (store_header s (get_header_base range) (ac_header x')) s' ls ls' r (ac_header x').
Proof.
  intros g total. revert k s x. induction fuel as [|fuel IH];
    intros k s x HL Hi El Er Hr H Hk Hf Hused Hav Hs;
    pose proof (available_zero _ _ (Z.of_nat i) H ltac:(lia)) as Hz;
    fold g total in Hz;
    (assert (64 * k < total) as Hlt by
      (destruct (decide (64 * k < total)); [done|]; exfalso; apply Hav, Hz;
       by rewrite Z.min_r in Hused by lia)); [lia|].
  pose proof (ho_len _ _ H) as Hlen. pose proof Hlen as Hl'. unfold MAX_SIZE in Hl'.
  assert (0 < g <= 16) as Hg by (pose proof (gran_cases (Z.of_nat i) ltac:(lia)); unfold g; lia).
  assert (total <= 16384) as Htot by (apply n_blocks_max; lia).
  rewrite Z.min_l in Hused by lia.
  cbn [scan_bitmap]. destruct (Z.ltb_spec (64 * k) total); [|lia].
  rewrite select_bitmap_ok by lia. unfold mbind at 1, res_bind at 1.
  destruct (chunk_of_bitmap _ _ k (Z.of_nat i) H ltac:(lia) Hk Hlt) as (c & Ec & Hc).
  fold g total in Hc |- *. rewrite Ec. unfold mbind at 1, res_bind at 1. cbv zeta.
  destruct (Z.eqb_spec (u64 (Z.lnot c)) 0) as [Hc0|Hc0].
  { rewrite (u32_small (64 * k + 64)) by lia. replace (64 * k + 64) with (64 * (k + 1)) by lia.
    rewrite Hc0 in Hc. apply IH; try done; try lia.
    intros j Hj. destruct (decide (j < 64 * k)); [by apply Hused; lia|].
    eapply chunk_low_used with (hi := 64); [exact Hc|lia|intros; apply Z.testbit_0_l|lia]. }
  destruct (alloc_chunk_spec callback 65 0 (u64 (Z.lnot c)) k g range x) as
    (l1 & cb & E1 & F1 & Hz1 & Hemp & Hpost); try done; try lia.
  fold total in E1, Hemp, Hpost. rewrite E1. unfold mbind at 1, res_bind at 1.
  set (x1 := ctx_after callback range x l1) in *.
  assert (hdr_ok (mlength range) (ac_header x1)) as H1
    by (apply hdr_ok_mark_pages; [done|]; intros; by apply F1).
  set (s1 := store_header s (get_header_base range) (ac_header x1)).
  destruct (move_region_if_full_spec i s1 ls r l (ac_header x1)) as
    (s' & ls' & b & Em & Hm & Hb & Hnm); [by apply lists_ok_store|done..|by eexists|].
  rewrite Em. unfold mbind at 1, res_bind at 1.
  pose proof (chunk_progress _ _ l1 k (Z.of_nat i) cb _ H ltac:(intros; by apply F1)
    ltac:(lia) Hk Hused Hpost) as Hcont.
  destruct b.
  { exists l1, s', ls'. split_and!; [done|done|done| |done]. intros ->.
    subst x1. rewrite ctx_after_nil in *.
    destruct (Z.eqb_spec (available (ac_header x) (Z.of_nat i)) 0); [done|done]. }
  destruct (Hnm eq_refl) as [-> ->]. destruct (Z.eqb_spec (ac_size x1) 0) as [Es|Es].
  { exists l1, s1, ls. split_and!; [done|done|done| |done]. intros ->.
    cbn in Es. unfold zlen in Es. cbn in Es. lia. }
  destruct Hcont as [?|[Hf0|(Ht & Hu & ->)] ]; [done| |].
  { change (mark_pages _ _) with (ac_header x1) in Hf0. by rewrite Hf0 in Hb. }
  replace (64 * k + 64) with (64 * (k + 1)) by lia.
  assert (0 < ac_size x1 < 2 ^ 64) as Hs1.
  { assert (ac_size x1 = ac_size x - zlen l1) as -> by done.
    pose proof (zlen_nonneg l1). assert (ac_size x - zlen l1 <> 0) by done. lia. }
  destruct (IH (k + 1) s1 x1) as (lp & s2 & ls2 & E2 & F2 & Hz2 & Hne2 & Hm2);
    try done; try lia.
  { by apply lists_ok_store. }
  { intros j Hj. apply Hu. lia. }
  exists (l1 ++ lp), s2, ls2. unfold x1 in E2, F2, Hm2. rewrite ctx_after_app in E2, Hm2.
  split_and!; [done|by apply fresh_app| | |].
  - change (ac_size x1) with (ac_size x - zlen l1) in Hz2. unfold zlen in *.
    rewrite length_app. lia.
  - intros [_ ->]%app_eq_nil. done.
  - revert Hm2. unfold s1, store_header, set_headers. cbn. by rewrite insert_insert_eq.
Qed.
End Scan.

(** ** Effect of taking pages of one range *)

Lemma ranges_disjoint s ls r q range range' h h' p p' :
  pmm_inv s ls -> Z.of_nat r < n_ranges s -> Z.of_nat q < n_ranges s ->
  range_at s r range h -> range_at s q range' h' ->
  0 <= p <= mlength range -> 0 <= p' <= mlength range' ->
  base range + p * 0x1000 = base range' + p' * 0x1000 -> r = q.
Proof.
  intros H Hr Hq [Er _] [Eq _] Hp Hp' E.
  destruct (decide (r < q)%nat); [pose proof (pk_sorted _ _ H r q _ _ ltac:(done) Hq Er Eq); lia|].
  destruct (decide (q < r)%nat); [pose proof (pk_sorted _ _ H q r _ _ ltac:(done) Hr Eq Er); lia|].
  lia.
Qed.

Lemma base_inj s ls r q range range' h h' :
  pmm_inv s ls -> Z.of_nat r < n_ranges s -> Z.of_nat q < n_ranges s ->
  range_at s r range h -> range_at s q range' h' -> base range = base range' -> r = q.
Proof.
  intros H Hr Hq Ar Aq E.
  destruct (pk_ranges _ _ H r Hr) as (rg & hr & [Er _] & _ & Hhr).
  destruct (pk_ranges _ _ H q Hq) as (qg & hq & [Eq _] & _ & Hhq).
  pose proof (ho_len _ _ Hhr). pose proof (ho_len _ _ Hhq).
  assert (rg = range) as -> by (destruct Ar; congruence).
  assert (qg = range') as -> by (destruct Aq; congruence).
  eapply (ranges_disjoint s ls r q range range' h h' 0 0); eauto; lia.
Qed.

Lemma managed_unique s ls a b b' :
  pmm_inv s ls -> managed s a b -> managed s a b' -> b = b'.
Proof.
  intros H (r & range & h & p & Hr & A & Hp & -> & <-) (q & range' & h' & p' & Hq & A' & Hp' & E & <-).
  unfold page_addr in E.
  assert (r = q) as <- by (eapply (ranges_disjoint s ls r q _ _ h h' (p + 1) (p' + 1)); eauto; lia).
  destruct A as [A1 A2], A' as [A1' A2']. simplify_eq.
  assert (p = p') as <- by lia. done.
Qed.

(** What an allocation of the physical pages [l] does to the state. *)
Record alloc_effect (s : pmm_state) (ls : list (list nat)) (s' : pmm_state)
    (ls' : list (list nat)) (l : list Z) : Prop := {
  ae_inv : pmm_inv s' ls';
  ae_nodup : NoDup l;
  ae_free : forall a, a ∈ l -> managed s a false;
  ae_managed : forall a b,
    managed s' a b <-> exists b0, managed s a b0 /\ b = b0 || bool_decide (a ∈ l);
  ae_listed : listed_free s' ls' = listed_free s ls - zlen l;
  ae_all : all_free s' = all_free s - zlen l;
  ae_total : total_available_pages s' = total_available_pages s;
  ae_mem : total_memory_pages s' = total_memory_pages s;
  ae_n : n_ranges s' = n_ranges s;
  ae_pages : pages s' = pages s
}.

Lemma alloc_effect_refl s ls : pmm_inv s ls -> alloc_effect s ls s ls [].
Proof.
  intros H. split; try done; try (unfold zlen; cbn; lia); try set_solver; [constructor|].
  intros a b. rewrite bool_decide_false by set_solver. split.
  - intros Hm. exists b. by rewrite orb_false_r.
  - intros (b0 & Hm & ->). by rewrite orb_false_r.
Qed.

Lemma alloc_effect_trans s0 l0 s1 l1 s2 l2 a1 a2 :
  pmm_inv s0 l0 -> alloc_effect s0 l0 s1 l1 a1 -> alloc_effect s1 l1 s2 l2 a2 ->
  alloc_effect s0 l0 s2 l2 (a1 ++ a2).
Proof.
  intros Hi H1 H2.
  assert (forall a, a ∈ a2 -> a ∉ a1 /\ managed s0 a false) as Hd.
  { intros a Ha. apply (ae_free _ _ _ _ _ H2), (ae_managed _ _ _ _ _ H1) in Ha
      as (b0 & Hm & E). symmetry in E. apply orb_false_iff in E as [-> ?%bool_decide_eq_false].
    done. }
  destruct H1, H2. split; try congruence.
  - apply list.NoDup_app. split_and!; [done| |done]. intros a Ha1 Ha2. by destruct (Hd a Ha2).
  - intros a [Ha|Ha]%elem_of_app; [by apply ae_free0|by apply Hd].
  - intros a b. rewrite ae_managed1. setoid_rewrite ae_managed0. split.
    + intros (b1 & (b0 & Hm & ->) & ->). exists b0. split; [done|].
      rewrite <- orb_assoc. f_equal. rewrite <- bool_decide_or. apply bool_decide_ext.
      by rewrite elem_of_app.
    + intros (b0 & Hm & ->). exists (b0 || bool_decide (a ∈ a1)). split; [eauto|].
      rewrite <- orb_assoc. f_equal. rewrite <- bool_decide_or. apply bool_decide_ext.
      by rewrite elem_of_app.
  - unfold zlen in *. rewrite length_app. lia.
  - unfold zlen in *. rewrite length_app. lia.
Qed.

(** Replacing the header of range [r] by [h']: [s'] may also differ from [s] in the
    [next] fields, the lists and the counters. *)
Section UpdateHeader.
Context (s s' : pmm_state) (ls : list (list nat)) (r : nat) (range : memory_range)
  (h h' : MR_header).
Context (Hinv : pmm_inv s ls) (Hr : Z.of_nat r < n_ranges s) (Hat : range_at s r range h)
  (Hok : hdr_ok (mlength range) h)
  (Hbuf : same_ranges (memory_ranges_buffer s) (memory_ranges_buffer s'))
  (Hn : n_ranges s' = n_ranges s)
  (Hh : headers s' = <[base range := h']> (headers s)).

Lemma range_at_upd q rq hq :
  Z.of_nat q < n_ranges s -> range_at s q rq hq ->
  exists n, range_at s' q (set_next rq n) (if decide (q = r) then h' else hq).
Proof using All.
  intros Hq [Eq Eh]. destruct Hbuf as [_ Hs].
  destruct (Hs q rq Eq) as [n En]. exists n. split; [done|]. rewrite Hh.
  cbn [set_next base]. destruct (decide (q = r)) as [->|Hne].
  - destruct Hat as [Er _]. assert (rq = range) as -> by congruence. apply lookup_insert_eq.
  - rewrite lookup_insert_ne; [done|]. intros E. apply Hne. symmetry.
    by eapply (base_inj s ls r q).
Qed.

Lemma range_at_upd_inv q rq hq :
  Z.of_nat q < n_ranges s -> range_at s' q rq hq ->
  exists rq0 hq0 n, range_at s q rq0 hq0 /\ rq = set_next rq0 n /\
    hq = if decide (q = r) then h' else hq0.
Proof using All.
  intros Hq [Eq Eh]. destruct (pk_ranges _ _ Hinv q Hq) as (rq0 & hq0 & A & _ & _).
  destruct (range_at_upd q rq0 hq0 Hq A) as (n & A1 & A2).
  exists rq0, hq0, n. by simplify_eq.
Qed.

Lemma free_of_upd q :
  Z.of_nat q < n_ranges s ->
  free_of s' q = free_of s q + (if decide (q = r) then available0 h' - available0 h else 0).
Proof using All.
  intros Hq. destruct (pk_ranges _ _ Hinv q Hq) as (rq & hq & A & _ & _).
  destruct (range_at_upd q rq hq Hq A) as (n & A1 & A2). destruct A as [E1 E2].
  unfold free_of. rewrite A1, A2, E1, E2. destruct (decide (q = r)) as [->|]; [|lia].
  destruct Hat as [E1' E2']. assert (rq = range) as -> by congruence.
  assert (hq = h) as -> by congruence. lia.
Qed.

Lemma all_free_upd : all_free s' = all_free s + (available0 h' - available0 h).
Proof using All.
  unfold all_free. rewrite Hn.
  rewrite (sumZ_upd (free_of s) (free_of s') _ r (available0 h' - available0 h)); [done|..].
  - apply NoDup_ListNoDup, seq_NoDup.
  - apply elem_of_seq. lia.
  - by rewrite free_of_upd, decide_True by done.
  - intros q Hq%elem_of_seq Hne. rewrite free_of_upd, decide_False by (done || lia). lia.
Qed.

(** A page keeps its status unless it belongs to range [r]. *)
Lemma managed_upd f :
  (forall p, 0 <= p < mlength range -> used h' p = f (used h p) (page_addr range p)) ->
  (forall a b, (forall p, 0 <= p < mlength range -> a <> page_addr range p) -> f b a = b) ->
  forall a b, managed s' a b <-> exists b0, managed s a b0 /\ b = f b0 a.
Proof using All.
  intros Hf Hid a b.
  assert (forall q rq hq p, Z.of_nat q < n_ranges s -> range_at s q rq hq ->
    0 <= p < mlength rq ->
    used (if decide (q = r) then h' else hq) p = f (used hq p) (page_addr rq p)) as Hu.
  { intros q rq hq p Hq A Hp. destruct (decide (q = r)) as [->|Hne].
    - destruct A as [E1 E2], Hat as [E1' E2'].
      assert (rq = range) as -> by congruence. assert (hq = h) as -> by congruence.
      by apply Hf.
    - symmetry. apply Hid. intros p' Hp' E. apply Hne. unfold page_addr in E.
      by eapply (ranges_disjoint s ls q r _ _ hq h (p + 1) (p' + 1)); eauto; lia. }
  split.
  - intros (q & rq & hq & p & Hq & A & Hp & -> & <-). rewrite Hn in Hq.
    destruct (range_at_upd_inv q rq hq Hq A) as (rq0 & hq0 & n & A0 & -> & ->).
    exists (used hq0 p). split.
    + by exists q, rq0, hq0, p.
    + by apply (Hu q rq0 hq0 p).
  - intros (b0 & (q & rq & hq & p & Hq & A & Hp & -> & <-) & ->).
    destruct (range_at_upd q rq hq Hq A) as [n A'].
    exists q, (set_next rq n), (if decide (q = r) then h' else hq), p.
    split_and!; [by rewrite Hn|done|lia|cbn; lia|done|]. by apply Hu.
Qed.

Lemma pmm_inv_upd ls' :
  hdr_ok (mlength range) h' -> lists_ok s' ls' ->
  (forall q j l', q <> r -> ls' !! j = Some l' -> q ∈ l' -> exists l, ls !! j = Some l /\ q ∈ l) ->
  (forall j l', ls' !! j = Some l' -> r ∈ l' -> available h' (Z.of_nat j) <> 0) ->
  pmm_inv s' ls'.
Proof using All.
  intros Hok' HL Hothers Hrange. destruct Hbuf as [Hlen Hs].
  assert (zlen (memory_ranges_buffer s') = zlen (memory_ranges_buffer s)) as Hz
    by (unfold zlen; by rewrite Hlen).
  split; [done|..].
  - rewrite Hn, Hz. apply Hinv.
  - rewrite Hz. apply Hinv.
  - intros q Hq. rewrite Hn in Hq.
    destruct (pk_ranges _ _ Hinv q Hq) as (rq & hq & A & Ho & Hhq).
    destruct (range_at_upd q rq hq Hq A) as [n A'].
    exists (set_next rq n), (if decide (q = r) then h' else hq). split_and!; [done|exact Ho|].
    destruct (decide (q = r)) as [->|]; [|done].
    destruct A as [E1 _], Hat as [E1' _]. by assert (rq = range) as -> by congruence.
  - intros q q' rq rq' Hlt Hq' Eq Eq'. rewrite Hn in Hq'.
    destruct (pk_ranges _ _ Hinv q ltac:(lia)) as (rq0 & hq0 & [A0 _] & _).
    destruct (pk_ranges _ _ Hinv q' ltac:(lia)) as (rq1 & hq1 & [A1 _] & _).
    destruct (Hs q rq0 A0) as [n0 E0]. destruct (Hs q' rq1 A1) as [n1 E1]. simplify_eq.
    apply (pk_sorted _ _ Hinv q q' rq0 rq1); [lia|lia|done|done].
  - intros i l q El Hq. rewrite Hn. destruct (decide (q = r)) as [->|Hne].
    + split; [done|]. intros rg hg A.
      destruct (range_at_upd_inv r rg hg Hr A) as (rq0 & hq0 & n & _ & _ & ->).
      rewrite decide_True by done. by eapply Hrange.
    + destruct (Hothers q i l Hne El Hq) as (l0 & El0 & Hq0).
      destruct (pk_listed _ _ Hinv i l0 q El0 Hq0) as [Hqn Ha]. split; [done|].
      intros rg hg A. destruct (range_at_upd_inv q rg hg Hqn A) as (rq0 & hq0 & n & A0 & _ & ->).
      rewrite decide_False by done. by apply (Ha rq0).
Qed.
End UpdateHeader.

Section TakePages.
Context (s s' : pmm_state) (ls ls' : list (list nat)) (r : nat) (range : memory_range)
  (h : MR_header) (lp : list Z).
Context (Hinv : pmm_inv s ls) (Hr : Z.of_nat r < n_ranges s) (Hat : range_at s r range h)
  (Hrok : range_ok range) (Hok : hdr_ok (mlength range) h)
  (Hfresh : fresh (mlength range) h lp).
Let h' := mark_pages h lp.
Context (Hmoved : moved_ok (store_header s (get_header_base range) h') s' ls ls' r h').

Lemma taken_headers : headers s' = <[base range := h']> (headers s).
Proof using All.
  rewrite (mo_headers _ _ _ _ _ _ Hmoved). unfold store_header. cbn.
  rewrite window_header; [done|done|]. pose proof (ho_len _ _ Hok). lia.
Qed.

Lemma managed_taken a b :
  managed s' a b <->
  exists b0, managed s a b0 /\ b = b0 || bool_decide (a ∈ page_addr range <$> lp).
Proof using All.
  pose proof (managed_upd s s' ls r range h h' Hinv Hr Hat Hok (mo_ranges _ _ _ _ _ _ Hmoved)
    (mo_n _ _ _ _ _ _ Hmoved) taken_headers
    (fun (b : bool) (a : Z) => b || bool_decide (a ∈ page_addr range <$> lp))) as M.
  apply M.
  - intros p Hp. unfold h'.
    rewrite (used_mark_pages (mlength range)) by (try done; try lia; intros; by apply Hfresh).
    f_equal. apply bool_decide_ext. rewrite list_elem_of_fmap. unfold page_addr. split.
    + intros ?. exists p. done.
    + intros (p' & E & ?). by replace p with p' by lia.
  - intros a' b' Hne. rewrite bool_decide_false; [by rewrite orb_false_r|].
    intros (p & -> & Hp)%list_elem_of_fmap. apply (Hne p); [by apply Hfresh|done].
Qed.

Lemma take_pages_effect i l :
  ls !! i = Some (r :: l) -> alloc_effect s ls s' ls' (page_addr range <$> lp).
Proof using All.
  intros El. assert (r ∈ concat ls) as Hrin by (eapply elem_of_concat_lookup; [done|set_solver]).
  assert (zlen (page_addr range <$> lp) = zlen lp) as Hzl by (unfold zlen; by rewrite length_fmap).
  pose proof (mo_n _ _ _ _ _ _ Hmoved) as Hn.
  pose proof (mo_ranges _ _ _ _ _ _ Hmoved) as Hbuf.
  pose proof (available0_mark_pages (mlength range) h lp Hok Hfresh) as Hav. fold h' in Hav.
  assert (sumZ (free_of s') (concat ls) = listed_free s ls - zlen lp) as Hsum.
  { rewrite (sumZ_upd (free_of s) (free_of s') _ r (- zlen lp)); [unfold listed_free; lia|..].
    - apply (lo_nodup _ _ (pk_lists _ _ Hinv)).
    - done.
    - rewrite (free_of_upd s s' ls r range h h') by (done || exact taken_headers).
      rewrite decide_True by done. lia.
    - intros q Hq Hne. apply list_elem_of_In, in_concat in Hq
        as (lq & [j Ej]%list_elem_of_In%list_elem_of_lookup_1 & Hq%list_elem_of_In).
      destruct (pk_listed _ _ Hinv j lq q Ej Hq) as [Hqn _].
      rewrite (free_of_upd s s' ls r range h h') by (done || exact taken_headers).
      rewrite decide_False by done. lia. }
  split; try (rewrite Hzl); try apply Hmoved.
  - apply (pmm_inv_upd s s' ls r range h h'); try done; try apply Hmoved; [exact taken_headers|].
    apply hdr_ok_mark_pages; [done|]. intros; by apply Hfresh.
  - apply NoDup_fmap_2; [|apply Hfresh]. intros p p'. unfold page_addr. lia.
  - intros a (p & -> & Hp)%list_elem_of_fmap. destruct Hfresh as [_ F].
    destruct (F p Hp) as [? ?]. by exists r, range, h, p.
  - exact managed_taken.
  - destruct (mo_concat _ _ _ _ _ _ Hmoved) as [Hc|[Ha Hc] ].
    + unfold listed_free at 1. by rewrite Hc.
    + rewrite <- Hsum. unfold listed_free at 1. rewrite Hc. cbn [sumZ].
      destruct (range_at_upd s s' ls r range h h' Hinv Hr Hat Hok Hbuf Hn taken_headers
        r range h Hr Hat) as (n & A1 & A2).
      rewrite decide_True in A2 by done. unfold free_of at 2. rewrite A1, A2, Ha. lia.
  - rewrite (all_free_upd s s' ls r range h h') by (done || exact taken_headers). lia.
Qed.
End TakePages.

(** ** The loop over the ranges *)

Lemma load_header_ok s r range h :
  range_at s r range h -> range_ok range -> 0 <= mlength range ->
  load_header s (get_header_base range) = Ok h.
Proof.
  intros [_ E] Hr Hl. unfold load_header. by rewrite window_header, E.
Qed.

Lemma set_total_effect s ls n s' ls' l :
  alloc_effect (set_total_available s n) ls s' ls' l ->
  total_available_pages s' = n /\ all_free s' = all_free s - zlen l /\
  listed_free s' ls' = listed_free s ls - zlen l /\
  (forall a, a ∈ l -> managed s a false) /\
  (forall a b, managed s' a b <-> exists b0, managed s a b0 /\ b = b0 || bool_decide (a ∈ l)).
Proof. intros []. done. Qed.

Lemma all_free_bounds s ls : pmm_inv s ls -> 0 <= all_free s <= 2 ^ 24.
Proof.
  intros H. unfold all_free.
  assert (0 <= sumZ (free_of s) (seq 0 (Z.to_nat (n_ranges s)))
          <= MAX_SIZE * zlen (seq 0 (Z.to_nat (n_ranges s)))) as Hb.
  { apply sumZ_bounds. intros r Hr%elem_of_seq.
    destruct (pk_ranges _ _ H r ltac:(lia)) as (range & h & [A1 A2] & _ & Hh).
    unfold free_of. rewrite A1, A2. apply (available_bounds _ _ 0 Hh). lia. }
  revert Hb. unfold zlen at 1. rewrite length_seq.
  pose proof (pk_n _ _ H). rewrite (pk_buf _ _ H) in *. unfold MAX_SIZE. lia.
Qed.

Section Physalloc.
Context {C : Type} (callback : Z -> Z -> Z -> C -> C).

(** One turn of the [while(size > 0)] loop takes at least one page. *)
Lemma physalloc_step s ls c size va (fuel : nat) :
  pmm_inv s ls -> 0 < size < 2 ^ 64 -> size <= listed_free s ls ->
  exists s' ls' l, alloc_effect s ls s' ls' l /\ l <> [] /\ zlen l <= size /\
    physalloc_loop callback (S fuel) s c size va =
    physalloc_loop callback fuel s' (callbacks callback va l c) (size - zlen l)
      (vaddr_after (length l) va).
Proof.
  intros H Hs Hf.
  destruct (getMR_spec s ls (pk_lists _ _ H)) as (i & r & l & E & Hi & El).
  { intros Hc. unfold listed_free in Hf. rewrite Hc in Hf. cbn in Hf. lia. }
  destruct (pk_listed _ _ H i _ r El ltac:(set_solver)) as [Hr Hav].
  destruct (pk_ranges _ _ H r Hr) as (range & h & A & Hro & Hh).
  specialize (Hav range h A). pose proof (ho_len _ _ Hh) as Hl. unfold MAX_SIZE in Hl.
  set (g := gran (Z.of_nat i)).
  assert (0 < g <= 16) as Hg by (pose proof (gran_cases (Z.of_nat i) ltac:(lia)); unfold g; lia).
  set (x := AllocCtx h c size va false).
  destruct (scan_bitmap_spec callback (Z.to_nat (n_blocks g (mlength range))) 0 i r l range s x ls)
    as (lp & s' & ls' & Esc & Hfr & Hzl & Hne & Hm); try done; try lia.
  { apply (pk_lists _ _ H). }
  { apply A. }
  { fold g. lia. }
  { intros j Hj. lia. }
  assert (zlen (page_addr range <$> lp) = zlen lp) as Hzf by (unfold zlen; by rewrite length_fmap).
  exists s', ls', (page_addr range <$> lp). split_and!.
  - eapply (take_pages_effect s s' ls ls' r range h lp); eauto.
  - by destruct lp.
  - by rewrite Hzf.
  - cbn [physalloc_loop]. destruct (Z.ltb_spec 0 size); [|lia]. rewrite E.
    unfold mbind, res_bind. unfold load_range. rewrite (ld_nat _ _ range) by apply A.
    rewrite (load_header_ok s r range h) by (done || lia).
    rewrite select_bitmap_ok by lia. fold g.
    rewrite (u32_small (mlength range)), (u32_small (mlength range + g - 1)) by lia.
    change ((mlength range + g - 1) / g) with (n_blocks g (mlength range)).
    change (64 * 0) with 0 in Esc. fold g in Esc. fold x. rewrite Esc.
    unfold ctx_after. cbn [ac_found ac_client ac_size ac_vaddr x].
    destruct lp as [|p lp]; [done|]. cbn [assert_].
    by rewrite Hzf, length_fmap.
Qed.

Lemma physalloc_loop_spec fuel s ls c size va :
  pmm_inv s ls -> 0 <= size < 2 ^ 64 -> size <= listed_free s ls -> size <= Z.of_nat fuel ->
  exists s' ls' l, alloc_effect s ls s' ls' l /\ zlen l = size /\
    physalloc_loop callback fuel s c size va = Ok (s', callbacks callback va l c).
Proof.
  revert s ls c size va. induction fuel as [|fuel IH]; intros s ls c size va H Hs Hf Hfu.
  - exists s, ls, []. split_and!; [by apply alloc_effect_refl|unfold zlen; cbn; lia|].
    cbn. destruct (Z.ltb_spec 0 size); [lia|done].
  - destruct (decide (size = 0)) as [->|Hne].
    { exists s, ls, []. split_and!; [by apply alloc_effect_refl|done|done]. }
    destruct (physalloc_step s ls c size va fuel) as (s1 & ls1 & l1 & H1 & Hl1 & Hz1 & E1);
      [done|lia|done|].
    assert (0 < zlen l1) by (destruct l1; [done|unfold zlen; cbn; lia]).
    destruct (IH s1 ls1 (callbacks callback va l1 c) (size - zlen l1) (vaddr_after (length l1) va))
      as (s2 & ls2 & l2 & H2 & Hz2 & E2).
    { apply H1. } { lia. } { rewrite (ae_listed _ _ _ _ _ H1). lia. } { lia. }
    exists s2, ls2, (l1 ++ l2). split_and!.
    + by eapply alloc_effect_trans.
    + unfold zlen in *. rewrite length_app. lia.
    + rewrite E1, E2. by rewrite callbacks_app.
Qed.

Lemma physalloc_ok s ls c size va :
  pmm_ok s ls -> va mod 0x1000 = 0 -> 0 <= size -> size <= listed_free s ls ->
  size <= total_available_pages s ->
  exists s' ls' l, alloc_effect (set_total_available s (total_available_pages s - size)) ls s' ls' l /\
    zlen l = size /\
    physalloc callback size va s c = Ok (s', callbacks callback va l c).
Proof.
  intros [H Ht] Hva Hs Hf Hle. pose proof (all_free_bounds s ls H) as Hb.
  destruct (physalloc_loop_spec (Z.to_nat size)
    (set_total_available s (total_available_pages s - size)) ls c size va)
    as (s' & ls' & l & He & Hz & E); [|lia|done|lia|].
  { destruct H as [HL ? ? ? ? ?]. constructor; [destruct HL; by constructor|assumption..]. }
  exists s', ls', l. split_and!; [done|done|]. unfold physalloc, is_aligned, assert_.
  change (0x1000 - 1) with (Z.ones 12). rewrite Z.land_ones by lia.
  change (2 ^ 12) with 0x1000. rewrite Hva. cbn [Z.eqb].
  unfold mbind, res_bind. destruct (Z.ltb_spec (total_available_pages s) size); [lia|].
  rewrite u32_small by lia. done.
Qed.
End Physalloc.

(** C1: [physalloc] on a consistent state, for any number of pages the listed
    ranges can serve: it returns (no assertion, no panic, no out-of-fuel); the
    callback is called once per page, in order, with the virtual address advancing
    page by page; the physical pages handed out are [size] distinct pages that
    were free; exactly those pages change status; the invariant of all four bitmap
    levels, counters and lists holds again; [available_pages] drops by [size]. *)
Theorem physalloc_correct {C} (callback : Z -> Z -> Z -> C -> C) s ls c size va :
  pmm_ok s ls -> va mod 0x1000 = 0 -> 0 <= size -> size <= listed_free s ls ->
  size <= total_available_pages s ->
  exists s' ls' l,
    physalloc callback size va s c = Ok (s', callbacks callback va l c) /\
    zlen l = size /\ NoDup l /\ (forall a, a ∈ l -> managed s a false) /\
    (forall a b, managed s' a b <-> exists b0, managed s a b0 /\ b = b0 || bool_decide (a ∈ l)) /\
    pmm_ok s' ls' /\ listed_free s' ls' = listed_free s ls - size /\
    available_pages s' = available_pages s - size.
Proof.
  intros H Hva Hs Hf Hle. destruct (physalloc_ok callback s ls c size va H Hva Hs Hf Hle)
    as (s' & ls' & l & He & Hz & E).
  destruct (set_total_effect s ls _ s' ls' l He) as (Ht & Ha & Hl & Hfr & Hm).
  exists s', ls', l. destruct H as [_ Hta].
  split_and!; [done|done|apply He|done|done| |lia|done].
  split; [apply He|]. rewrite Ht, Ha. lia.
Qed.
