(* ===== verification/PmmFree.v ===== *)
(** * [physfree], [get_memory_range] and [physalloc_single]

    The dichotomy over the sorted buffer of ranges, the release of a page, the
    single-page allocation, and the round trip between the two. *)

From S2P Require Import Prelude Bytes Interfaces Pmm PmmBitmap PmmAlloc PmmPhysalloc.





(** Page [p] of range [r] is the very last page of the last range. *)
Definition very_last (s : pmm_state) (r : nat) (range : memory_range) (p : Z) : Prop :=
  Z.of_nat r = n_ranges s - 1 /\ p = mlength range - 1.

(** ** [get_memory_range] *)

Section GetRange.
Context (s : pmm_state) (ls : list (list nat)) (r : nat) (range : memory_range) (h : MR_header)
  (p : Z).
Context (Hinv : pmm_inv s ls) (Hr : Z.of_nat r < n_ranges s) (Hat : range_at s r range h)
  (Hp : 0 <= p < mlength range).

Lemma range_lookup q : 0 <= q < n_ranges s ->
  exists rq, ld (memory_ranges_buffer s) q = Ok rq /\
    memory_ranges_buffer s !! Z.to_nat q = Some rq /\ 0 < mlength rq.
Proof using All.
  intros Hq. destruct (pk_ranges _ _ Hinv (Z.to_nat q) ltac:(lia)) as (rq & hq & [E _] & _ & Hh).
  exists rq. split_and!; [apply ld_Some; [lia|done]|done|apply (ho_len _ _ Hh)].
Qed.

Lemma range_below q rq : (q < r)%nat -> memory_ranges_buffer s !! q = Some rq ->
  base rq + mlength rq * 0x1000 < page_addr range p.
Proof using All.
  intros Hq Eq. destruct Hat as [Er _].
  pose proof (pk_sorted _ _ Hinv q r rq range Hq Hr Eq Er). unfold page_addr. lia.
Qed.

Lemma range_above q rq : (r < q)%nat -> Z.of_nat q < n_ranges s ->
  memory_ranges_buffer s !! q = Some rq -> page_addr range p < base rq.
Proof using All.
  intros Hq Hqn Eq. destruct Hat as [Er _].
  pose proof (pk_sorted _ _ Hinv r q range rq Hq Hqn Er Eq). unfold page_addr. lia.
Qed.

Lemma get_memory_range_loop_ok fuel a b :
  0 <= a <= Z.of_nat r -> Z.of_nat r < b -> b < n_ranges s -> b - a <= Z.of_nat fuel ->
  get_memory_range_loop fuel s (page_addr range p) a b = Ok (Z.of_nat r).
Proof using All.
  pose proof (pk_n _ _ Hinv) as Hn. rewrite (pk_buf _ _ Hinv) in Hn.
  revert a b. induction fuel as [|fuel IH]; intros a b Ha Hb Hbn Hf; [lia|].
  cbn [get_memory_range_loop].
  destruct (range_lookup a ltac:(lia)) as (A & EA & LA & HA). rewrite EA.
  unfold mbind, res_bind. destruct (decide (a = Z.of_nat r)) as [->|Hne].
  - rewrite Nat2Z.id in LA. destruct Hat as [Er _]. assert (A = range) as -> by congruence.
    unfold page_addr. destruct (Z.ltb_spec (base range + mlength range * 0x1000)
      (base range + (p + 1) * 0x1000)); [lia|].
    unfold assert_. destruct (Z.eqb_spec (base range + (p + 1) * 0x1000) (base range)); [lia|done].
  - pose proof (range_below (Z.to_nat a) A ltac:(lia) LA) as Hlt.
    destruct (Z.ltb_spec (base A + mlength A * 0x1000) (page_addr range p)); [|lia].
    rewrite (u32_small (a + b)), Z.shiftr_div_pow2 by lia. change (2 ^ 1) with 2.
    set (c := (a + b) / 2). assert (a < c < b) as Hc by (unfold c; lia).
    destruct (range_lookup c ltac:(lia)) as (C & EC & LC & HC). rewrite EC.
    destruct (decide (Z.of_nat r < c)) as [Hrc|Hrc].
    + pose proof (range_above (Z.to_nat c) C ltac:(lia) ltac:(lia) LC).
      destruct (Z.ltb_spec (page_addr range p) (base C)); [|lia]. apply IH; lia.
    + destruct (Z.ltb_spec (page_addr range p) (base C)) as [Hlc|?]; [exfalso|apply IH; lia].
      destruct (decide (c = Z.of_nat r)) as [Hcr|].
      * rewrite Hcr, Nat2Z.id in LC. destruct Hat as [Er _].
        assert (C = range) as -> by congruence. unfold page_addr in Hlc. lia.
      * pose proof (range_below (Z.to_nat c) C ltac:(lia) LC). lia.
Qed.

Lemma get_memory_range_ok :
  get_memory_range s (page_addr range p) =
    if bool_decide (very_last s r range p) then panic "addr < B->base+B->length * 0x1000"
    else Ok (Z.of_nat r).
Proof using All.
  pose proof (pk_n _ _ Hinv) as Hn. rewrite (pk_buf _ _ Hinv) in Hn.
  unfold get_memory_range. rewrite u32_small by lia.
  destruct (range_lookup 0 ltac:(lia)) as (A & EA & LA & HA).
  destruct (range_lookup (n_ranges s - 1) ltac:(lia)) as (B & EB & LB & HB).
  rewrite EA. unfold mbind, res_bind. rewrite EB.
  destruct (decide (Z.of_nat r = n_ranges s - 1)) as [Hlast|Hlast].
  - rewrite <- Hlast, Nat2Z.id in LB. destruct Hat as [Er _].
    assert (B = range) as -> by congruence. unfold page_addr at 1 2.
    destruct (Z.ltb_spec (base range) (base range + (p + 1) * 0x1000)); [|lia].
    unfold assert_, very_last. case_bool_decide as Hv.
    + destruct (Z.ltb_spec (base range + (p + 1) * 0x1000) (base range + mlength range * 0x1000));
        [lia|done].
    + destruct (Z.ltb_spec (base range + (p + 1) * 0x1000) (base range + mlength range * 0x1000));
        [by rewrite Hlast|]. exfalso. apply Hv. lia.
  - pose proof (range_above (Z.to_nat (n_ranges s - 1)) B ltac:(lia) ltac:(lia) LB).
    destruct (Z.ltb_spec (base B) (page_addr range p)); [lia|].
    assert (base A < page_addr range p) as HAp.
    { destruct (decide (r = 0%nat)) as [->|].
      - destruct Hat as [Er _]. assert (A = range) as -> by (change (Z.to_nat 0) with 0%nat in LA; congruence).
        unfold page_addr. lia.
      - pose proof (range_below 0 A ltac:(lia) LA). lia. }
    unfold assert_. destruct (Z.ltb_spec (base A) (page_addr range p)); [|lia].
    rewrite bool_decide_false by (intros [? _]; lia).
    apply get_memory_range_loop_ok; try lia.
    pose proof (pk_buf _ _ Hinv) as Hb. unfold zlen in Hb. lia.
Qed.
End GetRange.

(** C4: [get_memory_range], for the address of any page of any range of the
    sorted buffer, ends its dichotomy with the index of the range that contains
    the page -- except for the last page of the last range, where the assertion
    on the upper bound stops the kernel. *)
Theorem get_memory_range_correct s ls r range h p :
  pmm_inv s ls -> Z.of_nat r < n_ranges s -> range_at s r range h -> 0 <= p < mlength range ->
  get_memory_range s (page_addr range p) =
    if bool_decide (very_last s r range p) then panic "addr < B->base+B->length * 0x1000"
    else Ok (Z.of_nat r).
Proof. apply get_memory_range_ok. Qed.

(** ** [physfree] *)

Lemma page_addr_aligned range p :
  range_ok range -> is_aligned (page_addr range p) 0x1000 = true.
Proof.
  intros (_ & Ha & _). unfold is_aligned. change (0x1000 - 1) with (Z.ones 12).
  rewrite Z.land_ones by lia. change (2 ^ 12) with 0x1000. unfold page_addr.
  rewrite Z.mod_add by lia. by rewrite Ha.
Qed.

Lemma page_position range p :
  range_ok range -> 0 <= p < mlength range -> mlength range < MAX_SIZE ->
  u32 (u64 (page_addr range p - base range) / 0x1000 - 1) = p.
Proof.
  intros (Hb & _ & _) Hp Hm. unfold page_addr, MAX_SIZE in *.
  replace (base range + (p + 1) * 0x1000 - base range) with ((p + 1) * 0x1000) by lia.
  rewrite (u64_small ((p + 1) * 0x1000)), Z.div_mul by lia. rewrite u32_small by lia. lia.
Qed.

(** The state that [physfree] produces. *)
Definition freed (s : pmm_state) (range : memory_range) (h : MR_header) (p : Z) : pmm_state :=
  PmmState (memory_ranges_buffer s) (n_ranges s) (total_available_pages s + 1)
    (total_memory_pages s) (mr_lists s) (<[base range := unmark_page h p]> (headers s))
    (<[page_addr range p := replicate 0x1000 0]> (pages s)).

Section Physfree.
Context (s : pmm_state) (ls : list (list nat)) (r : nat) (range : memory_range) (h : MR_header)
  (p : Z).
Context (Hok : pmm_ok s ls) (Hr : Z.of_nat r < n_ranges s) (Hat : range_at s r range h)
  (Hp : 0 <= p < mlength range) (Hu : used h p = true).

Lemma header_of_range : range_ok range /\ hdr_ok (mlength range) h.
Proof using Hok Hr Hat.
  destruct Hok as [Hinv _]. destruct (pk_ranges _ _ Hinv r Hr) as (rg & hg & [A1 A2] & ? & ?).
  destruct Hat as [B1 B2]. assert (rg = range) as -> by congruence.
  by assert (hg = h) as -> by congruence.
Qed.

Lemma physfree_eval :
  ~ very_last s r range p -> physfree (page_addr range p) s = Ok (freed s range h p).
Proof using All.
  intros Hv. destruct header_of_range as [Hro Hh]. destruct Hok as [Hinv Ht].
  pose proof (ho_len _ _ Hh) as Hl. pose proof (all_free_bounds s ls Hinv) as Hb.
  unfold physfree, assert_. rewrite page_addr_aligned by done. unfold mbind, res_bind.
  rewrite (get_memory_range_ok s ls r range h p) by done. rewrite bool_decide_false by done.
  rewrite (ld_nat _ _ range) by apply Hat.
  rewrite (load_header_ok s r range h) by (done || lia).
  rewrite page_position by (done || lia).
  rewrite (free_page_bitmaps_ok (mlength range)) by done.
  rewrite u32_small by (cbn; lia). unfold store_header, set_headers, freed. cbn.
  by rewrite window_header by (done || lia).
Qed.

Lemma freed_ok : pmm_ok (freed s range h p) ls.
Proof using All.
  destruct header_of_range as [Hro Hh]. destruct Hok as [Hinv Ht]. split.
  - apply (pmm_inv_upd s _ ls r range h (unmark_page h p)); try done.
    + by apply hdr_ok_unmark.
    + destruct (pk_lists _ _ Hinv). by constructor.
    + eauto.
    + intros j l Hj Hin. assert (0 <= Z.of_nat j <= 3) as Hj3.
      { apply lookup_lt_Some in Hj. rewrite (lo_len' _ _ (pk_lists _ _ Hinv)) in Hj. lia. }
      destruct (pk_listed _ _ Hinv j l r Hj Hin) as [_ Ha]. specialize (Ha range h Hat).
      pose proof (available_bounds _ _ _ Hh Hj3).
      rewrite available_unmark_page by done. destruct (blk _ _ _); lia.
  - rewrite (all_free_upd s (freed s range h p) ls r range h (unmark_page h p)) by done.
    cbn [freed total_available_pages]. rewrite Ht. cbn [unmark_page available0].
    rewrite still_0. change (available h 0) with (available0 h). lia.
Qed.

Lemma freed_managed a b :
  managed (freed s range h p) a b <->
  exists b0, managed s a b0 /\ b = b0 && negb (a =? page_addr range p).
Proof using All.
  destruct header_of_range as [Hro Hh]. destruct Hok as [Hinv Ht].
  pose proof (managed_upd s (freed s range h p) ls r range h (unmark_page h p) Hinv Hr Hat Hh
    (reflexivity _) eq_refl eq_refl (fun b a => b && negb (a =? page_addr range p))) as M.
  apply M.
  - intros q Hq. pose proof (ho_len _ _ Hh). rewrite (used_unmark_page (mlength range)) by (done || lia).
    unfold unmark. do 2 f_equal. unfold page_addr. zb.
  - intros a' b' Hne. destruct (Z.eqb_spec a' (page_addr range p)) as [->|]; cbn.
    + by destruct (Hne p).
    + apply andb_true_r.
Qed.
End Physfree.


(** The bound check of [get_memory_range] is off by one for the last range:
    freeing the last page of the last range, allocated like any other, stops the
    kernel. *)
Theorem physfree_last_page_panics s ls r range h p :
  pmm_ok s ls -> Z.of_nat r < n_ranges s -> range_at s r range h ->
  0 <= p < mlength range -> used h p = true -> very_last s r range p ->
  physfree (page_addr range p) s = panic "addr < B->base+B->length * 0x1000".
Proof.
  intros Hok Hr Hat Hp Hu Hv. destruct (header_of_range s ls r range h Hok Hr Hat) as [Hro _].
  unfold physfree, assert_. rewrite page_addr_aligned by done. unfold mbind, res_bind.
  rewrite (get_memory_range_ok s ls r range h p) by (done || apply Hok).
  by rewrite bool_decide_true by done.
Qed.

(** ** [physalloc_single] *)

(** [physalloc_single], when a listed range has a free page, returns the
    non-null address of a page that was free and is now allocated, leaves the
    status of all other pages alone, and keeps the invariant. *)
Theorem physalloc_single_correct s ls paddr0 :
  pmm_ok s ls -> 1 <= listed_free s ls -> 1 <= total_available_pages s ->
  exists s' ls' a, physalloc_single s paddr0 = Ok (s', a, a) /\ a <> 0 /\
    managed s a false /\ pmm_ok s' ls' /\
    (forall a' b, managed s' a' b <-> exists b0, managed s a' b0 /\ b = b0 || (a' =? a)) /\
    available_pages s' = available_pages s - 1.
Proof.
  intros Hok Hl Ht.
  destruct (physalloc_ok physalloc_single_callback s ls paddr0 1 0 Hok eq_refl ltac:(lia) Hl Ht)
    as (s' & ls' & l & He & Hz & E).
  destruct (set_total_effect s ls _ s' ls' l He) as (Htot & Ha & Hli & Hfr & Hm).
  destruct l as [|a [|? ?]]; unfold zlen in Hz; cbn in Hz; [lia| |lia].
  assert (managed s a false) as Hma by (apply Hfr; set_solver).
  assert (a <> 0) as Hne.
  { destruct Hma as (r & range & h & p & Hr & A & Hp & -> & _).
    destruct (header_of_range s ls r range h Hok Hr A) as [(Hb & _) _]. unfold page_addr. lia. }
  exists s', ls', a. destruct Hok as [Hinv Hta]. split_and!; [|done|done| | |done].
  - unfold physalloc_single. rewrite E. unfold mbind, res_bind. cbn.
    unfold physalloc_single_callback, assert_. by destruct (Z.eqb_spec a 0).
  - split; [apply He|]. rewrite Htot, Ha, Hta. unfold zlen. cbn. lia.
  - assert (forall a', bool_decide (a' ∈ [a]) = (a' =? a)) as Hs.
    { intros a'. rewrite (bool_decide_ext _ (a' = a)) by set_solver.
      case_bool_decide; zb. }
    intros a' b. rewrite Hm. by setoid_rewrite Hs.
Qed.
