(* ===== verification/PmmInit.v ===== *)
(** * [init_pmm] establishes the invariant

    Initialisation of one range, the splitting of a memory map entry into ranges
    of at most 64 MB, and the whole memory map. *)

From S2P Require Import Prelude Bytes Interfaces Pmm PmmBitmap PmmAlloc PmmPhysalloc PmmFree.





(** ** A fresh header *)

Lemma getbit_zero n i : getbit (replicate n 0) i = false.
Proof.
  unfold getbit, nthZ. destruct (replicate n 0 !! Z.to_nat (i / 8)) as [b|] eqn:E; cbn.
  - apply lookup_replicate in E as [-> _]. apply Z.testbit_0_l.
  - apply Z.testbit_0_l.
Qed.

Lemma bytes_ok_zero n : bytes_ok (replicate n 0).
Proof. apply Forall_replicate. lia. Qed.

Lemma blk_none g i : 0 < g -> blk g (fun _ => false) i = false.
Proof. intros. by apply blk_false. Qed.

Lemma free_blocks_none k u len :
  0 <= k <= 3 -> 0 < len < MAX_SIZE -> (forall p, u p = false) ->
  free_blocks (gran k) u len = n_blocks (gran k) len.
Proof.
  intros Hk Hl Hu. assert (0 < gran k) by (pose proof (gran_cases k Hk); lia).
  unfold free_blocks. rewrite countb_full.
  - assert (0 <= n_blocks (gran k) len) by (apply Z.div_pos; lia). lia.
  - intros i _. apply negb_true_iff, blk_false; [done|]. intros; apply Hu.
Qed.

Lemma init_header_used length p : used (init_header length) p = false.
Proof. apply getbit_zero. Qed.

Lemma init_header_ok length :
  2 <= length <= MAX_SIZE -> hdr_ok (length - 1) (init_header length).
Proof.
  intros Hl. unfold MAX_SIZE in Hl.
  assert (forall k, 0 <= k <= 3 -> exists n, bm (init_header length) k = replicate n 0 /\
    Z.of_nat n = 2048 / gran k) as Hbm.
  { intros k Hk. levels k; cbn [bm init_header Z.eqb Pos.eqb bitmap_level0 bitmap_level1
      bitmap_level2 bitmap_level3]; eexists; (split; [reflexivity|done]). }
  split.
  - unfold MAX_SIZE. lia.
  - intros k Hk. destruct (Hbm k Hk) as (n & -> & <-). unfold zlen. by rewrite length_replicate.
  - intros k Hk. destruct (Hbm k Hk) as (n & -> & _). apply bytes_ok_zero.
  - intros k i Hk Hi. destruct (Hbm k Hk) as (n & -> & _). rewrite getbit_zero. symmetry.
    apply blk_false; [pose proof (gran_cases k Hk); lia|]. intros; apply init_header_used.
  - intros p _. apply init_header_used.
  - intros k Hk. rewrite free_blocks_none;
      [|done|unfold MAX_SIZE; lia|intros; apply init_header_used].
    unfold n_blocks. levels k;
      cbn [available init_header Z.eqb Pos.eqb available0 available1 available2 available3 gran];
      rewrite ?u64_small, ?u32_small, ?Z.shiftr_div_pow2 by (rewrite ?u64_small, ?Z.shiftr_div_pow2 by lia; lia);
      try lia.
Qed.

Lemma init_header_available length k :
  2 <= length <= MAX_SIZE -> 0 <= k <= 3 -> available (init_header length) k <> 0.
Proof.
  intros Hl Hk. pose proof (init_header_ok length Hl) as H.
  rewrite (ho_avail _ _ H k Hk). unfold MAX_SIZE in Hl.
  assert (0 < gran k) by (pose proof (gran_cases k Hk); lia).
  pose proof (free_blocks_pos (gran k) (used (init_header length)) (length - 1) 0 ltac:(lia) ltac:(lia)).
  enough (blk (gran k) (used (init_header length)) (0 / gran k) = false) by (specialize (H1 H2); lia).
  apply blk_false; [done|]. intros; apply init_header_used.
Qed.

(** ** One range *)

(** The buffer with [j] ranges in place: the ranges end below [top], and every
    page is free. *)
Record built (s : pmm_state) (ls : list (list nat)) (j top : Z) : Prop := {
  bu_inv : pmm_inv (PmmState (memory_ranges_buffer s) j (total_available_pages s)
                      (total_memory_pages s) (mr_lists s) (headers s) (pages s)) ls;
  bu_top : forall r range, Z.of_nat r < j -> memory_ranges_buffer s !! r = Some range ->
    base range + (mlength range + 1) * 0x1000 <= top;
  bu_free : forall r range h p, Z.of_nat r < j -> range_at s r range h -> used h p = false;
  bu_concat : concat ls ≡ₚ seq 0 (Z.to_nat j)
}.

(** The state after range [j] was initialised. *)
Definition with_range (s : pmm_state) (j : nat) (addr length : Z) (head : option nat) : pmm_state :=
  PmmState (<[j := MemoryRange addr (length - 1) head]> (memory_ranges_buffer s)) (n_ranges s)
    (total_available_pages s) (total_memory_pages s)
    (<[3%nat := Some j]> (mr_lists s))
    (<[addr := init_header length]> (headers s)) (pages s).

Lemma window_phys_low a : 0 <= a < 2 ^ 47 -> window_phys a = a.
Proof. intros. unfold window_phys. rewrite Z.land_ones by lia. by apply Z.mod_small. Qed.

Lemma init_memory_range_ok s ls (j : nat) top addr length :
  built s ls (Z.of_nat j) top -> (j < 512)%nat ->
  addr mod 0x1000 = 0 -> 0 <= addr < 2 ^ 47 -> 2 <= length <= MAX_SIZE ->
  exists head, mr_lists s !! 3%nat = Some head /\
    init_memory_range s j addr length = Ok (with_range s j addr length head).
Proof.
  intros [H _ _ _] Hj Ha Hb Hl.
  pose proof (lo_len _ _ (pk_lists _ _ H)) as Hl4. cbn in Hl4.
  destruct (lookup_lt_is_Some_2 (mr_lists s) 3) as [head Eh]; [lia|].
  exists head. split; [done|]. pose proof (pk_buf _ _ H) as Hbuf. cbn in Hbuf.
  destruct (lookup_lt_is_Some_2 (memory_ranges_buffer s) j) as [rg Er]; [unfold zlen in Hbuf; lia|].
  unfold init_memory_range, assert_, is_aligned. change (0x1000 - 1) with (Z.ones 12).
  rewrite Z.land_ones by lia. change (2 ^ 12) with 0x1000. rewrite Ha. cbn [Z.eqb].
  unfold mbind, res_bind, load_range, store_range. rewrite (ld_nat _ _ _ Er).
  destruct (Z.ltb_spec 1 length); [|lia]. unfold mbind, res_bind.
  rewrite st_ok by (unfold zlen in *; lia). rewrite Nat2Z.id. cbn [insert_in_list].
  pose proof (init_header_available length 3 Hl ltac:(lia)) as Hav.
  change (Z.of_nat 3) with 3. destruct (Z.eqb_spec (available (init_header length) 3) 0); [done|].
  unfold mbind, res_bind, load_range, store_range.
  rewrite (ld_nat _ _ (MemoryRange addr (length - 1) (next rg)))
    by (cbn; apply list_lookup_insert_eq; unfold zlen in Hbuf; lia).
  change 3 with (Z.of_nat 3). rewrite (ld_nat _ _ head) by done.
  unfold mbind, res_bind. cbn [store_header set_headers set_ranges memory_ranges_buffer mr_lists].
  rewrite st_ok by (unfold zlen in *; rewrite length_insert; lia).
  rewrite st_ok by (unfold zlen; cbn; lia). rewrite !Nat2Z.id.
  unfold with_range, set_lists, set_ranges. cbn.
  by rewrite window_phys_low, list_insert_insert_eq.
Qed.

Section WithRange.
Context (s : pmm_state) (ls : list (list nat)) (j : nat) (top addr length : Z)
  (head : option nat) (l3 : list nat).
Context (Hbu : built s ls (Z.of_nat j) top) (Hj : (j < 512)%nat)
  (Ha : addr mod 0x1000 = 0) (Hpos : 0 < addr) (Htop : top <= addr)
  (Hend : addr + length * 0x1000 <= 2 ^ 47) (Hlen : 2 <= length <= MAX_SIZE)
  (Hhead : mr_lists s !! 3%nat = Some head) (Hl3 : ls !! 3%nat = Some l3).
Let s' := with_range s j addr length head.
Let range := MemoryRange addr (length - 1) head.

Lemma with_range_old r rg h : (r < j)%nat -> range_at s r rg h -> range_at s' r rg h.
Proof using All.
  intros Hr [E1 E2]. split; cbn.
  - by rewrite list_lookup_insert_ne by lia.
  - rewrite lookup_insert_ne; [done|]. pose proof (bu_top _ _ _ _ Hbu r rg ltac:(lia) E1).
    destruct (pk_ranges _ _ (bu_inv _ _ _ _ Hbu) r ltac:(cbn; lia)) as (rg' & h' & [E1' _] & _ & Hh).
    cbn in E1'. assert (rg' = rg) as -> by congruence. pose proof (ho_len _ _ Hh). lia.
Qed.

Lemma with_range_new : range_at s' j range (init_header length).
Proof using All.
  pose proof (pk_buf _ _ (bu_inv _ _ _ _ Hbu)) as Hb. cbn in Hb. split; cbn.
  - apply list_lookup_insert_eq. unfold zlen in Hb. lia.
  - apply lookup_insert_eq.
Qed.

(** The ranges of the new state. *)
Lemma with_range_cases r : (r <= j)%nat ->
  exists rg h, range_at s' r rg h /\ range_ok rg /\ hdr_ok (mlength rg) h /\
    (r = j /\ rg = range /\ h = init_header length \/
     (r < j)%nat /\ range_at s r rg h /\ base rg + (mlength rg + 1) * 0x1000 <= top).
Proof using All.
  intros Hr. destruct (decide (r = j)) as [->|].
  - exists range, (init_header length). split_and!; [apply with_range_new| | |by left].
    + unfold range_ok, range. cbn. split_and!; lia.
    + cbn. by apply init_header_ok.
  - destruct (pk_ranges _ _ (bu_inv _ _ _ _ Hbu) r ltac:(cbn; lia)) as (rg & h & A & Ho & Hh).
    exists rg, h. split_and!; [apply with_range_old; [lia|exact A]|done|done|].
    right. split_and!; [lia|exact A|]. apply (bu_top _ _ _ _ Hbu r); [lia|apply A].
Qed.

Lemma with_range_at r rg h rg' h' :
  range_at s' r rg h -> range_at s' r rg' h' -> rg = rg' /\ h = h'.
Proof. intros [? ?] [? ?]. by simplify_eq. Qed.

Lemma built_with_range :
  built s' (<[3%nat := j :: l3]> ls) (Z.of_nat (S j)) (addr + length * 0x1000).
Proof using All.
  pose proof (bu_inv _ _ _ _ Hbu) as H. pose proof (pk_buf _ _ H) as Hb. cbn in Hb.
  assert (j ∉ concat ls) as Hnin.
  { intros Hin. apply list_elem_of_In, in_concat in Hin
      as (lq & [i Ei]%list_elem_of_In%list_elem_of_lookup_1 & Hq%list_elem_of_In).
    destruct (pk_listed _ _ H i lq j Ei Hq) as [Hlt _]. cbn in Hlt. lia. }
  split.
  - split; cbn.
    + set (s1 := set_ranges s (<[j := range]> (memory_ranges_buffer s))).
      assert (lists_ok s1 ls) as H1.
      { destruct (pk_lists _ _ H) as [? ? Hch ?]. split; try done. intros i hd l E1 E2. cbn.
        apply chain_insert; [|by eapply Hch].
        intros ?. apply Hnin. by eapply elem_of_concat_lookup. }
      pose proof (lists_ok_push s1 ls 3 j l3 range head H1 Hl3 Hnin) as Hp.
      destruct Hp as [? ? Hc ?]; [apply with_range_new|done|].
      split; try done. intros i hd l E1 E2. specialize (Hc i hd l E1 E2).
      cbn in Hc. by rewrite list_insert_insert_eq in Hc.
    + unfold zlen in *. rewrite length_insert. lia.
    + unfold zlen in *. rewrite length_insert. lia.
    + intros r Hr. destruct (with_range_cases r ltac:(lia)) as (rg & h & A & ? & ? & _).
      exists rg, h. done.
    + intros r q rg rg' Hrq Hq Er Eq.
      destruct (with_range_cases r ltac:(lia)) as (rg0 & h0 & [A0 _] & _ & _ & Hc0).
      destruct (with_range_cases q ltac:(lia)) as (rg1 & h1 & [A1 _] & _ & _ & Hc1).
      cbn in A0, A1. assert (rg0 = rg) as -> by congruence. assert (rg1 = rg') as -> by congruence.
      destruct Hc0 as [?|(Hr & [B0 _] & Ht0)]; [lia|].
      destruct Hc1 as [(-> & -> & _)|(Hq' & [B1 _] & _)]; [cbn; lia|].
      apply (pk_sorted _ _ H r q); [done|cbn; lia|done|done].
    + intros i l r Ei Hr. assert (r = j \/ exists l0, ls !! i = Some l0 /\ r ∈ l0) as Hcase.
      { destruct (decide (i = 3%nat)) as [->|].
        - rewrite list_lookup_insert_eq in Ei
            by (rewrite (lo_len' _ _ (pk_lists _ _ H)); lia).
          simplify_eq. apply elem_of_cons in Hr as [->|Hr]; [by left|right; eauto].
        - rewrite list_lookup_insert_ne in Ei by done. right. eauto. }
      assert (Z.of_nat i <= 3) by
        (apply lookup_lt_Some in Ei; rewrite length_insert, (lo_len' _ _ (pk_lists _ _ H)) in Ei; lia).
      destruct Hcase as [->|(l0 & E0 & Hr0)].
      * split; [lia|]. intros rg h A. destruct (with_range_at _ _ _ _ _ A with_range_new) as [-> ->].
        apply init_header_available; [done|lia].
      * destruct (pk_listed _ _ H i l0 r E0 Hr0) as [Hlt Hav]. cbn in Hlt. split; [lia|].
        intros rg h A. destruct (pk_ranges _ _ H r Hlt) as (rg0 & h0 & A0 & _).
        destruct (with_range_at _ _ _ _ _ A (with_range_old r rg0 h0 ltac:(lia) A0)) as [-> ->].
        by apply (Hav rg0).
  - intros r rg Hr Er. destruct (with_range_cases r ltac:(lia)) as (rg0 & h0 & [A0 _] & _ & _ & Hc).
    assert (rg0 = rg) as -> by congruence.
    destruct Hc as [(_ & -> & _)|(_ & _ & Ht)]; cbn; [lia|]. lia.
  - intros r rg h p Hr A. destruct (with_range_cases r ltac:(lia)) as (rg0 & h0 & A0 & _ & _ & Hc).
    destruct (with_range_at _ _ _ _ _ A A0) as [-> ->].
    destruct Hc as [(_ & _ & ->)|(Hr' & A' & _)]; [apply init_header_used|].
    by eapply (bu_free _ _ _ _ Hbu r); [lia|].
  - rewrite (concat_push _ _ _ _ Hl3), (bu_concat _ _ _ _ Hbu), !Nat2Z.id, seq_S.
    apply Permutation_cons_append.
Qed.
End WithRange.

(** ** The memory map *)

(** Pages of the first [j] ranges, their header pages included. *)
Definition pages_sum (s : pmm_state) (j : Z) : Z :=
  sumZ (fun r => free_of s r + 1) (seq 0 (Z.to_nat j)).

Lemma pages_sum_with_range s ls (j : nat) top addr length head l3 :
  built s ls (Z.of_nat j) top -> (j < 512)%nat -> addr mod 0x1000 = 0 -> 0 < addr -> top <= addr ->
  addr + length * 0x1000 <= 2 ^ 47 -> 2 <= length <= MAX_SIZE ->
  mr_lists s !! 3%nat = Some head -> ls !! 3%nat = Some l3 ->
  pages_sum (with_range s j addr length head) (Z.of_nat (S j)) = pages_sum s (Z.of_nat j) + length.
Proof.
  intros Hbu Hj Ha Hpos Htop Hend Hlen Hh Hl3. unfold pages_sum. rewrite !Nat2Z.id.
  rewrite seq_S, sumZ_app. cbn [sumZ Nat.add].
  destruct (with_range_new s ls j top addr length head l3) as [E1 E2]; try done.
  rewrite (sumZ_ext _ (fun r => free_of s r + 1)).
  - unfold free_of at 2. rewrite E1, E2. cbn [init_header available0].
    unfold MAX_SIZE in Hlen. rewrite u32_small by lia. lia.
  - intros r Hr%elem_of_seq. f_equal.
    destruct (pk_ranges _ _ (bu_inv _ _ _ _ Hbu) r ltac:(cbn; lia)) as (rg & h & A & _).
    destruct (with_range_old s ls j top addr length head l3) with (r := r) (rg := rg) (h := h)
      as [B1 B2]; try done; try lia.
    destruct A as [A1 A2]. unfold free_of. rewrite B1, B2. cbn in A1, A2. by rewrite A1, A2.
Qed.

(** Ranges and pages that a usable entry of [size] pages contributes: 64 MB
    pieces, and a last piece unless it is smaller than [MIN_SIZE]. *)
Definition entry_ranges (size : Z) : Z :=
  size / MAX_SIZE + (if size mod MAX_SIZE <? MIN_SIZE then 0 else 1).
Definition entry_pages (size : Z) : Z :=
  MAX_SIZE * (size / MAX_SIZE) + (if size mod MAX_SIZE <? MIN_SIZE then 0 else size mod MAX_SIZE).

(** The piece that one turn of the loop takes, and what is left. *)
Lemma entry_step size :
  MIN_SIZE <= size ->
  let sz := if MAX_SIZE <? size then MAX_SIZE else size in
  entry_ranges size = entry_ranges (size - sz) + 1 /\
  entry_pages size = entry_pages (size - sz) + sz /\ (size - sz) / MAX_SIZE <= size / MAX_SIZE /\
  (0 < size - sz -> (size - sz) / MAX_SIZE = size / MAX_SIZE - 1).
Proof.
  intros Hs. unfold entry_ranges, entry_pages, MIN_SIZE, MAX_SIZE in *.
  destruct (Z.ltb_spec 16384 size) as [Hlt|Hle].
  - replace (size - 16384) with (size + (-1) * 16384) by lia.
    rewrite !Z.div_add, !Z.mod_add by lia. destruct (size mod 16384 <? 10); lia.
  - cbv zeta. rewrite Z.sub_diag. change (0 / 16384) with 0. change (0 mod 16384) with 0.
    cbn [Z.ltb Z.compare]. destruct (decide (size = 16384)) as [->|].
    + split_and!; vm_compute; done.
    + rewrite Z.mod_small, Z.div_small by lia. destruct (Z.ltb_spec size 10); lia.
Qed.

Lemma built_weaken s ls j top top' : built s ls j top -> top <= top' -> built s ls j top'.
Proof.
  intros [H1 H2 H3 H4] Hle. split; [done| |done|done]. intros r range Hr E.
  specialize (H2 r range Hr E). lia.
Qed.

Lemma split_entry_small fuel s ls (j : Z) tp bas size top :
  built s ls j top -> tp = pages_sum s j -> top <= bas -> 0 <= size < MIN_SIZE ->
  (0 < size -> size / MAX_SIZE + 1 <= Z.of_nat fuel) -> tp <= MAX_SIZE * j ->
  exists s' ls', split_entry fuel s j tp bas size = Ok (s', j + entry_ranges size, tp + entry_pages size) /\
    built s' ls' (j + entry_ranges size) (bas + size * 0x1000) /\
    tp + entry_pages size = pages_sum s' (j + entry_ranges size) /\
    total_memory_pages s' = total_memory_pages s /\
    tp + entry_pages size <= MAX_SIZE * (j + entry_ranges size).
Proof.
  intros Hbu Htp Htop Hs Hf Htpb.
  assert (entry_ranges size = 0 /\ entry_pages size = 0) as [E1 E2].
  { unfold entry_ranges, entry_pages, MAX_SIZE, MIN_SIZE in *.
    rewrite Z.div_small, Z.mod_small by lia. zb. }
  rewrite E1, E2, !Z.add_0_r.
  assert (built s ls j (bas + size * 0x1000)) by (eapply built_weaken; eauto; lia).
  exists s, ls. split_and!; try done; try lia. unfold MAX_SIZE, MIN_SIZE in *.
  destruct fuel; cbn [split_entry]; unfold MAX_SIZE, MIN_SIZE.
  - destruct (Z.ltb_spec 0 size); [lia|done].
  - zb.
Qed.

Lemma split_entry_ok fuel s ls (j : Z) tp bas size top :
  built s ls j top -> tp = pages_sum s j -> 0 <= j -> j + entry_ranges size <= 512 ->
  bas mod 0x1000 = 0 -> 0 < bas -> top <= bas -> 0 <= size -> bas + size * 0x1000 <= 2 ^ 47 ->
  (0 < size -> size / MAX_SIZE + 1 <= Z.of_nat fuel) -> 0 <= tp <= MAX_SIZE * j ->
  exists s' ls', split_entry fuel s j tp bas size = Ok (s', j + entry_ranges size, tp + entry_pages size) /\
    built s' ls' (j + entry_ranges size) (bas + size * 0x1000) /\
    tp + entry_pages size = pages_sum s' (j + entry_ranges size) /\
    total_memory_pages s' = total_memory_pages s /\
    tp + entry_pages size <= MAX_SIZE * (j + entry_ranges size).
Proof.
  revert s ls j tp bas size top. induction fuel as [|fuel IH];
    intros s ls j tp bas size top Hbu Htp Hj Hn Ha Hpos Htop Hs Hend Hf Htpb;
    destruct (decide (size < MIN_SIZE)) as [Hmin|Hmin].
  1, 3: by eapply split_entry_small; eauto; lia.
  { assert (0 <= size / MAX_SIZE) by (unfold MAX_SIZE; lia). unfold MIN_SIZE in *. lia. }
  cbn [split_entry].
  destruct (entry_step size ltac:(lia)) as (E1 & E2 & E3 & E4).
  remember (if MAX_SIZE <? size then MAX_SIZE else size) as sz eqn:Esz.
  assert (2 <= sz <= MAX_SIZE /\ sz <= size) as [Hsz Hszs].
  { subst sz. unfold MAX_SIZE, MIN_SIZE in *. zb. }
  assert (0 <= entry_ranges (size - sz)) as Hnn.
  { clear - Hszs. unfold entry_ranges, MAX_SIZE. destruct (_ <? _); lia. }
  destruct (lookup_lt_is_Some_2 ls 3) as [l3 Hl3].
  { rewrite (lo_len' _ _ (pk_lists _ _ (bu_inv _ _ _ _ Hbu))). lia. }
  replace j with (Z.of_nat (Z.to_nat j)) in Hbu by lia.
  destruct (init_memory_range_ok s ls (Z.to_nat j) top bas sz) as (head & Eh & Einit);
    [done|lia|done|lia|done|].
  destruct (with_range_new s ls (Z.to_nat j) top bas sz head l3) as [N1 N2]; try done; try lia.
  pose proof (built_with_range s ls (Z.to_nat j) top bas sz head l3 Hbu ltac:(lia) Ha Hpos Htop
    ltac:(lia) Hsz Eh Hl3) as Hbu'.
  pose proof (pages_sum_with_range s ls (Z.to_nat j) top bas sz head l3 Hbu ltac:(lia) Ha Hpos Htop
    ltac:(lia) Hsz Eh Hl3) as Hps.
  replace (Z.of_nat (S (Z.to_nat j))) with (j + 1) in Hbu', Hps by lia.
  replace (Z.of_nat (Z.to_nat j)) with j in Hps by lia.
  destruct (Z.ltb_spec 0 size); [|unfold MIN_SIZE in *; lia].
  destruct (Z.ltb_spec size MIN_SIZE); [lia|]. cbn [andb].
  rewrite Einit. unfold mbind, res_bind, load_range. rewrite (ld_nat _ _ _ N1).
  cbn [mlength]. destruct (Z.eqb_spec (sz - 1) 0); [lia|]. cbn [negb assert_].
  unfold MAX_SIZE in *. rewrite (u32_small (j + 1)), (u32_small (tp + sz)) by lia.
  rewrite (u64_small (bas + 0x1000 * sz)) by lia.
  replace (bas + 0x1000 * sz) with (bas + sz * 0x1000) by lia.
  destruct (IH (with_range s (Z.to_nat j) bas sz head) (<[3%nat := Z.to_nat j :: l3]> ls)
    (j + 1) (tp + sz) (bas + sz * 0x1000) (size - sz) (bas + sz * 0x1000))
    as (s' & ls' & E & Hb & Ht & Hm & Hbd); try done; try lia.
  exists s', ls'. replace (j + entry_ranges size) with (j + 1 + entry_ranges (size - sz)) by lia.
  replace (tp + entry_pages size) with (tp + sz + entry_pages (size - sz)) by lia.
  split_and!; try done. by replace (bas + size * 0x1000) with
    (bas + sz * 0x1000 + (size - sz) * 0x1000) by lia.
Qed.

Definition usable_pages (e : mmape) : Z :=
  match etype e with USABLE => elength e / 4096 | _ => 0 end.
Fixpoint map_ranges (es : list mmape) : Z :=
  match es with [] => 0 | e :: es' => entry_ranges (usable_pages e) + map_ranges es' end.
Fixpoint map_pages (es : list mmape) : Z :=
  match es with [] => 0 | e :: es' => entry_pages (usable_pages e) + map_pages es' end.

(** A memory map as the boot protocol gives it: usable entries page aligned, in
    increasing order, not overlapping, within the addressable window. *)
Fixpoint mmap_wf (top : Z) (es : list mmape) : Prop :=
  match es with
  | [] => True
  | e :: es' =>
      match etype e with
      | USABLE => pbase e mod 0x1000 = 0 /\ 0 < pbase e /\ top <= pbase e /\ 0 <= elength e /\
          pbase e + elength e <= 2 ^ 47 /\ mmap_wf (pbase e + elength e) es'
      | _ => mmap_wf top es'
      end
  end.

Lemma entry_ranges_nonneg size : 0 <= size -> 0 <= entry_ranges size.
Proof. intros. unfold entry_ranges, MAX_SIZE. destruct (_ <? _); lia. Qed.

Lemma map_ranges_nonneg top es : mmap_wf top es -> 0 <= map_ranges es.
Proof.
  revert top. induction es as [|e es IH]; intros top H; cbn; [lia|].
  unfold usable_pages. cbn in H. destruct (etype e).
  2, 3, 4, 5: specialize (IH _ H); change (entry_ranges 0) with 0; lia.
  destruct H as (_ & _ & _ & Hl & _ & H). specialize (IH _ H).
  pose proof (entry_ranges_nonneg (elength e / 4096) ltac:(lia)). lia.
Qed.

Lemma init_entries_ok es s ls j tp top :
  built s ls j top -> tp = pages_sum s j -> 0 <= j -> 0 <= tp <= MAX_SIZE * j ->
  mmap_wf top es -> j + map_ranges es <= 512 ->
  exists s' ls' top', init_entries es s j tp = Ok (s', j + map_ranges es, tp + map_pages es) /\
    built s' ls' (j + map_ranges es) top' /\
    tp + map_pages es = pages_sum s' (j + map_ranges es) /\
    0 <= tp + map_pages es <= MAX_SIZE * (j + map_ranges es).
Proof.
  revert s ls j tp top. induction es as [|e es IH]; intros s ls j tp top Hbu Htp Hj Hb Hwf Hn.
  { exists s, ls, top. cbn. rewrite !Z.add_0_r. done. }
  cbn [init_entries map_ranges map_pages] in *.
  cbn [mmap_wf] in Hwf. unfold init_entry, usable_pages in *. destruct (etype e).
  1: destruct Hwf as (Ha & Hpos & Ht & Hl & Hend & Hwf);
    pose proof (map_ranges_nonneg _ _ Hwf);
    change 0x0fff with (Z.ones 12); rewrite Z.land_ones by lia; change (2 ^ 12) with 0x1000;
    rewrite Ha; cbn [Z.eqb];
    destruct (split_entry_ok (Z.to_nat (elength e / 4096 / MAX_SIZE + 2)) s ls j tp (pbase e)
      (elength e / 4096) top) as (s1 & ls1 & E1 & Hb1 & Ht1 & _ & Hbd); try done; try lia;
    rewrite E1; unfold mbind, res_bind.
  1: assert (0 <= entry_ranges (elength e / 4096)) by (apply entry_ranges_nonneg; lia).
  1: assert (0 <= entry_pages (elength e / 4096)) by (unfold entry_pages, MAX_SIZE; destruct (_ <? _); lia).
  1: destruct (IH s1 ls1 (j + entry_ranges (elength e / 4096)) (tp + entry_pages (elength e / 4096))
      (pbase e + elength e)) as (s2 & ls2 & top2 & E2 & Hb2 & Ht2 & Hbd2);
    [eapply built_weaken; [done|lia]|done|lia|lia|done|lia|].
  1: exists s2, ls2, top2; rewrite !Z.add_assoc; done.
  all: destruct (IH s ls j tp top) as (s2 & ls2 & top2 & E2 & Hb2 & Ht2 & Hbd2); try done.
  all: unfold mbind, res_bind; exists s2, ls2, top2; by cbn.
Qed.

Lemma pmm_zero_built : built pmm_zero [[]; []; []; []] 0 0.
Proof.
  split; cbn [memory_ranges_buffer pmm_zero].
  - split; cbn; try done; try lia.
    + split; try done; cbn; [|constructor].
      intros i hd l E1 E2. do 4 (destruct i as [|i]; [by simplify_eq/=|]). done.
    + intros i l r E Hr. do 4 (destruct i as [|i]; [simplify_eq/=; set_solver|]). done.
  - lia.
  - lia.
  - done.
Qed.

Lemma init_pmm_ok es :
  mmap_wf 0 es -> map_ranges es <= 512 ->
  exists s ls, init_pmm es pmm_zero = Ok s /\ pmm_ok s ls /\
    n_ranges s = map_ranges es /\ available_pages s = map_pages es - map_ranges es /\
    total_pages s = available_pages s /\ listed_free s ls = available_pages s /\
    (forall a b, managed s a b -> b = false).
Proof.
  intros Hwf Hn.
  destruct (init_entries_ok es pmm_zero [[]; []; []; []] 0 0 0) as (s & ls & top & E & Hb & Ht & Hbd);
    try done; try lia; [apply pmm_zero_built|].
  rewrite !Z.add_0_l in *. unfold MAX_SIZE in Hbd. pose proof (map_ranges_nonneg _ _ Hwf).
  set (s' := PmmState (memory_ranges_buffer s) (map_ranges es) (map_pages es - map_ranges es)
    (map_pages es - map_ranges es) (mr_lists s) (headers s) (pages s)).
  assert (pages_sum s (map_ranges es) = all_free s' + map_ranges es) as Hsum.
  { unfold pages_sum, all_free. cbn [n_ranges s']. change (free_of s') with (free_of s).
    rewrite <- (Z2Nat.id (map_ranges es)) at 3 by lia. generalize (Z.to_nat (map_ranges es)).
    intros n. induction n as [|n IH]; [done|]. rewrite seq_S, !sumZ_app, IH. cbn [sumZ]. lia. }
  assert (pmm_inv s' ls) as Hinv.
  { destruct (bu_inv _ _ _ _ Hb) as [HL ? ? ? ? ?]. constructor; [destruct HL; by constructor|assumption..]. }
  pose proof (all_free_bounds s' ls Hinv) as Hfb.
  exists s', ls. split_and!; try done.
  - unfold init_pmm. rewrite E. unfold mbind, res_bind. by rewrite u32_small by lia.
  - split; [done|]. cbn. lia.
  - unfold listed_free. rewrite (bu_concat _ _ _ _ Hb).
    change (all_free s' = map_pages es - map_ranges es). lia.
  - intros a b (r & range & h & p & Hr & A & _ & _ & <-).
    by apply (bu_free _ _ _ _ Hb r range h).
Qed.

(** C2: [init_pmm] on a memory map as the boot protocol gives it, with at most 512
    ranges, returns a state that satisfies the invariant of the allocator, in
    which every page is free and reachable by [physalloc]; the number of ranges
    and of pages are those of the map, one page per range being its header. *)
Theorem init_pmm_correct es :
  mmap_wf 0 es -> map_ranges es <= 512 ->
  exists s ls, init_pmm es pmm_zero = Ok s /\ pmm_ok s ls /\
    n_ranges s = map_ranges es /\ available_pages s = map_pages es - map_ranges es /\
    total_pages s = available_pages s /\ listed_free s ls = available_pages s /\
    (forall a b, managed s a b -> b = false).
Proof. apply init_pmm_ok. Qed.

(** ** A range that became full is never listed again *)

Lemma getMR_empty s ls : lists_ok s ls -> concat ls = [] ->
  getMR s = panic "internal physical allocator error".
Proof.
  intros H Hc. assert (forall i, (i < 4)%nat -> mr_lists s !! i = Some None) as Hn.
  { intros i Hi. destruct (lookup_lt_is_Some_2 (mr_lists s) i) as [hd E]; [rewrite (lo_len _ _ H); lia|].
    destruct (lookup_lt_is_Some_2 ls i) as [l El]; [rewrite (lo_len' _ _ H); lia|].
    pose proof (lo_chain _ _ H i hd l E El) as Hch. destruct l as [|q l].
    - cbn in Hch. by subst.
    - exfalso. assert (q ∈ concat ls) as Hq by (eapply elem_of_concat_lookup; [done|set_solver]).
      rewrite Hc in Hq. set_solver. }
  unfold getMR. cbn [getMR_from].
  rewrite (ld_nat _ 3 None), (ld_nat _ 2 None), (ld_nat _ 1 None), (ld_nat _ 0 None)
    by (apply Hn; lia). done.
Qed.

(** Once every range has left the lists (all pages were handed out), a page
    given back with [physfree] is counted by [available_pages] but can not be
    handed out again: [physfree] does not link the range back, and the next
    [physalloc] of one page stops the kernel with an internal error. *)
Theorem physfree_page_is_lost {C} (callback : Z -> Z -> Z -> C -> C) s ls r range h p c va :
  pmm_ok s ls -> concat ls = [] -> Z.of_nat r < n_ranges s -> range_at s r range h ->
  0 <= p < mlength range -> used h p = true -> ~ very_last s r range p -> va mod 0x1000 = 0 ->
  exists s', physfree (page_addr range p) s = Ok s' /\ 1 <= available_pages s' /\
    physalloc callback 1 va s' c = panic "internal physical allocator error".
Proof.
  intros Hok Hc Hr Hat Hp Hu Hv Hva. exists (freed s range h p).
  assert (1 <= total_available_pages (freed s range h p)) as Ht.
  { cbn. destruct Hok as [Hinv ->]. pose proof (all_free_bounds s ls Hinv). lia. }
  split_and!; [by eapply physfree_eval|done|].
  pose proof (freed_ok s ls r range h p Hok Hr Hat Hp Hu) as [Hinv' _].
  unfold physalloc, assert_, is_aligned. change (0x1000 - 1) with (Z.ones 12).
  rewrite Z.land_ones by lia. change (2 ^ 12) with 0x1000. rewrite Hva. cbn [Z.eqb].
  unfold mbind, res_bind. destruct (Z.ltb_spec (total_available_pages (freed s range h p)) 1); [lia|].
  change (Z.to_nat 1) with 1%nat. cbn [physalloc_loop Z.ltb Z.compare].
  rewrite (getMR_empty _ ls); [done| |done].
  destruct (pk_lists _ _ Hinv'). by constructor.
Qed.
