(* ===== verification/PmmCheck.v ===== *)
(** * The run-time consistency checks of the physical memory manager

    [pmm_bitmap_check] accepts a header exactly when the three upper bitmap levels
    agree with level 0, and [pmm_check] accepts every state that satisfies the
    invariant. *)

From S2P Require Import Prelude Bytes Interfaces Pmm PmmBitmap PmmAlloc PmmPhysalloc PmmFree PmmInit.





(** ** [popcount8] and [sum_free_bits] *)

Lemma popcount8_table :
  forallb (fun b => popcount8 b =? countb (Z.testbit b) 8) (seqZ 0 256) = true.
Proof. vm_compute. reflexivity. Qed.

Lemma popcount8_spec b : 0 <= b < 256 -> popcount8 b = countb (Z.testbit b) 8.
Proof.
  intros Hb. pose proof popcount8_table as T. rewrite forallb_forall in T.
  apply Z.eqb_eq, T. apply list_elem_of_In, elem_of_seqZ. lia.
Qed.

Lemma popcount8_lnot b :
  popcount8 (u8 (Z.lnot b)) = countb (fun i => negb (Z.testbit b i)) 8.
Proof.
  rewrite popcount8_spec by (apply wrap_range; lia). apply countb_ext. intros i Hi.
  rewrite testbit_wrap, Z.lnot_spec by lia. zb.
Qed.

(** The unset bits of bytes [i .. i + n) of a bitmap. *)
Lemma sum_free_bits_spec lv n i acc :
  0 <= i -> i + Z.of_nat n <= zlen lv -> 0 <= acc -> acc + 8 * Z.of_nat n < 2 ^ 64 ->
  sum_free_bits n i lv acc
    = Ok (acc + countb (fun j => negb (getbit lv (8 * i + j))) (8 * n)).
Proof.
  revert i acc. induction n as [|n IH]; intros i acc Hi Hl Ha Hb; cbn [sum_free_bits].
  { f_equal. change (8 * 0)%nat with 0%nat. cbn. lia. }
  rewrite ld_ok by lia. unfold mbind, res_bind. rewrite popcount8_lnot.
  pose proof (countb_bounds (fun k => negb (Z.testbit (nthZ lv i) k)) 8) as Hc.
  rewrite u64_small by lia. rewrite IH by lia. f_equal.
  replace (8 * S n)%nat with (8 + 8 * n)%nat by lia. rewrite countb_add, Z.add_assoc. f_equal.
  - f_equal. apply countb_ext. intros j Hj. unfold getbit.
    replace ((8 * i + j) / 8) with i by lia. by replace ((8 * i + j) mod 8) with j by lia.
  - apply countb_ext. intros j Hj. do 2 f_equal. lia.
Qed.

(** Free blocks of a level from the bits of its bitmap: the bits past the end of
    the range are unset and have to be taken off. *)
Lemma free_bits_level len h k bound :
  hdr_ok len h -> 0 <= k <= 3 -> 0 <= bound -> n_blocks (gran k) len <= 8 * bound ->
  8 * bound <= MAX_SIZE / gran k ->
  sum_free_bits (Z.to_nat bound) 0 (bm h k) 0
    = Ok (available h k + (8 * bound - n_blocks (gran k) len)).
Proof.
  intros H Hk Hb Hn Hm. pose proof (ho_len _ _ H) as Hl.
  assert (0 < gran k) as Hg by (pose proof (gran_cases k Hk); lia).
  assert (0 <= n_blocks (gran k) len) by (apply Z.div_pos; lia).
  assert (MAX_SIZE / gran k <= MAX_SIZE) as Hmm by
    (unfold MAX_SIZE; levels k; vm_compute; done).
  pose proof Hm as Hm'. unfold MAX_SIZE in Hmm, Hm'.
  rewrite sum_free_bits_spec; [|lia| |lia|lia].
  - f_equal. rewrite (ho_avail _ _ H k Hk). unfold free_blocks. rewrite Z.add_0_l.
    replace (8 * Z.to_nat bound)%nat with
      (Z.to_nat (n_blocks (gran k) len) + Z.to_nat (8 * bound - n_blocks (gran k) len))%nat by lia.
    rewrite countb_add. f_equal.
    + apply countb_ext. intros i Hi. cbn [Z.mul Z.add]. by rewrite (ho_bits _ _ H) by lia.
    + rewrite countb_full; [lia|]. intros i Hi. apply negb_true_iff.
      rewrite Z.mul_0_r, Z.add_0_l, (ho_bits _ _ H) by lia. apply blk_false; [done|].
      intros p Hp. destruct (decide (p < len)) as [Hlt|Hge].
      * exfalso. assert (n_blocks (gran k) len <= p / gran k) as Hle by lia.
        pose proof (n_blocks_spec (gran k) len (p / gran k) Hg) as Hs.
        assert (p / gran k * gran k <= p) by (rewrite Z.mul_comm; apply Z.mul_div_le; lia). lia.
      * apply (ho_tail _ _ H). split; [lia|].
        assert (p / gran k < MAX_SIZE / gran k) as Hlt by lia.
        unfold MAX_SIZE in *. levels k; unfold gran in *; cbn in *; lia.
  - rewrite (ho_zlen _ _ H) by done. unfold MAX_SIZE in *. levels k; unfold gran in *; cbn in *; lia.
Qed.

(** ** Used blocks of two levels *)

(** A used block of the finer level lies in a used block of the coarser one. *)
Lemma countb_coarser f F w m :
  0 < w -> (forall i, 0 <= i -> f i = true -> F (i / w) = true) ->
  countb f (Z.to_nat w * m) <= w * countb F m.
Proof.
  intros Hw H. induction m as [|m IH]; [rewrite Nat.mul_0_r; cbn; lia|].
  rewrite Nat.mul_succ_r, countb_add. cbn [countb].
  set (rest := countb _ (Z.to_nat w)).
  assert (0 <= rest <= w) as Hr by (pose proof (countb_bounds (fun i => f (Z.of_nat (Z.to_nat w * m) + i)) (Z.to_nat w)); unfold rest; lia).
  destruct (F (Z.of_nat m)) eqn:E; [lia|].
  assert (rest = 0); [|lia]. apply countb_0. intros i Hi. destruct (f _) eqn:Ef; [|done].
  apply H in Ef; [|lia]. rewrite Nat2Z.inj_mul, Z2Nat.id in Ef by lia.
  replace (w * Z.of_nat m + i) with (i + Z.of_nat m * w) in Ef by lia.
  rewrite Z.div_add, Z.div_small, Z.add_0_l in Ef by lia. congruence.
Qed.

Lemma countb_mono f n m : (n <= m)%nat -> countb f n <= countb f m.
Proof.
  intros H. replace m with (n + (m - n))%nat by lia. rewrite countb_add.
  pose proof (countb_bounds (fun i => f (Z.of_nat n + i)) (m - n)). lia.
Qed.

Lemma countb_negb f n : countb f n + countb (fun i => negb (f i)) n = Z.of_nat n.
Proof. induction n; cbn [countb]; [done|]. destruct (f _); cbn; lia. Qed.

Lemma used_blocks_coarser u len g w :
  0 < g -> 0 < w -> 0 < len ->
  n_blocks g len - free_blocks g u len
    <= w * (n_blocks (g * w) len - free_blocks (g * w) u len).
Proof.
  intros Hg Hw Hl. unfold free_blocks.
  assert (0 <= n_blocks g len) by (apply Z.div_pos; lia).
  assert (0 <= n_blocks (g * w) len) by (apply Z.div_pos; nia).
  pose proof (countb_negb (blk g u) (Z.to_nat (n_blocks g len))) as E1.
  pose proof (countb_negb (blk (g * w) u) (Z.to_nat (n_blocks (g * w) len))) as E2.
  assert (countb (blk g u) (Z.to_nat (n_blocks g len))
          <= w * countb (blk (g * w) u) (Z.to_nat (n_blocks (g * w) len))); [|lia].
  etrans; [|apply countb_coarser; [done|]].
  - apply countb_mono.
    assert (n_blocks g len <= w * n_blocks (g * w) len); [|nia].
    destruct (decide (n_blocks g len <= w * n_blocks (g * w) len)) as [|Hgt]; [done|]. exfalso.
    assert (w * n_blocks (g * w) len * g < len) as Hc by (apply n_blocks_spec; lia).
    pose proof (n_blocks_spec (g * w) len (n_blocks (g * w) len) ltac:(nia)) as Hs. nia.
  - intros i Hi (p & Hp & Hu)%blk_true; [|done]. apply blk_true; [nia|].
    exists p. split; [|done]. rewrite <- Z.div_div by lia. by rewrite Hp.
Qed.

(** ** [pmm_avail_check] *)

Lemma assert_true b msg : b = true -> assert_ b msg = Ok ().
Proof. by intros ->. Qed.

Lemma pmm_avail_check_ok s r mr h :
  range_at s r mr h -> range_ok mr -> hdr_ok (mlength mr) h -> pmm_avail_check s mr = Ok ().
Proof.
  intros A Hr H. pose proof (ho_len _ _ H) as Hl. unfold MAX_SIZE in Hl.
  unfold pmm_avail_check. rewrite (load_header_ok s r mr h) by (done || lia).
  unfold mbind at 1, res_bind at 1. cbv zeta. set (len := mlength mr) in *.
  rewrite (u32_small ((len + 7) / 8)) by lia.
  rewrite !(u32_small ((len + 7) / 8 + _)) by lia.
  set (b0 := (len + 7) / 8). set (b1 := (b0 + 3) / 4). set (b2 := (b0 + 7) / 8).
  set (b3 := (b0 + 15) / 16).
  pose proof (free_bits_level len h 0 b0 H ltac:(lia) ltac:(unfold b0; lia)) as F0.
  pose proof (free_bits_level len h 1 b1 H ltac:(lia) ltac:(unfold b1, b0; lia)) as F1.
  pose proof (free_bits_level len h 2 b2 H ltac:(lia) ltac:(unfold b2, b0; lia)) as F2.
  pose proof (free_bits_level len h 3 b3 H ltac:(lia) ltac:(unfold b3, b0; lia)) as F3.
  change (gran 0) with 1 in F0. change (gran 1) with 4 in F1.
  change (gran 2) with 8 in F2. change (gran 3) with 16 in F3.
  unfold bm, available, n_blocks, MAX_SIZE in F0, F1, F2, F3.
  cbn [Z.eqb Pos.eqb] in F0, F1, F2, F3.
  rewrite F0, F1, F2, F3 by (unfold b3, b2, b1, b0; lia). clear F0 F1 F2 F3.
  pose proof (used_blocks_coarser (used h) len 1 4 ltac:(lia) ltac:(lia) ltac:(lia)) as U0.
  pose proof (used_blocks_coarser (used h) len 4 2 ltac:(lia) ltac:(lia) ltac:(lia)) as U1.
  pose proof (used_blocks_coarser (used h) len 8 2 ltac:(lia) ltac:(lia) ltac:(lia)) as U2.
  pose proof (ho_avail _ _ H 0 ltac:(lia)) as A0. pose proof (ho_avail _ _ H 1 ltac:(lia)) as A1.
  pose proof (ho_avail _ _ H 2 ltac:(lia)) as A2. pose proof (ho_avail _ _ H 3 ltac:(lia)) as A3.
  pose proof (free_blocks_bounds 1 (used h) len ltac:(lia) ltac:(lia)) as B0.
  pose proof (free_blocks_bounds 4 (used h) len ltac:(lia) ltac:(lia)) as B1.
  pose proof (free_blocks_bounds 8 (used h) len ltac:(lia) ltac:(lia)) as B2.
  pose proof (free_blocks_bounds 16 (used h) len ltac:(lia) ltac:(lia)) as B3.
  change (4 * 2) with 8 in *. change (8 * 2) with 16 in *. change (1 * 4) with 4 in *.
  change (available h 0) with (available0 h) in *. change (available h 1) with (available1 h) in *.
  change (available h 2) with (available2 h) in *. change (available h 3) with (available3 h) in *.
  change (gran 0) with 1 in *. change (gran 1) with 4 in *.
  change (gran 2) with 8 in *. change (gran 3) with 16 in *.
  rewrite <- A0 in *. rewrite <- A1 in *. rewrite <- A2 in *. rewrite <- A3 in *.
  clear A0 A1 A2 A3 H A Hr. unfold n_blocks in *. replace ((len + 1 - 1) / 1) with len in * by lia.
  unfold mbind, res_bind.
  subst b3 b2 b1 b0. unwrap.
  replace (_ && _ && _ && _) with true by (symmetry; rewrite !andb_true_iff, !Z.eqb_eq; lia).
  by rewrite !assert_true by lia.
Qed.

(** ** [pmm_bitmap_check] *)

(** The sizes and the byte range of the four bitmaps, without their agreement. *)
Definition hdr_shape (h : MR_header) : Prop :=
  forall k, 0 <= k <= 3 -> zlen (bm h k) = 2048 / gran k /\ bytes_ok (bm h k).

Lemma land_shift_eqb_0 x s w :
  0 <= s -> 0 <= w ->
  (Z.land (Z.shiftr x s) (Z.ones w) =? 0) = true <->
  forall t, 0 <= t < w -> Z.testbit x (s + t) = false.
Proof.
  intros Hs Hw. rewrite eqb_0_testbit. split.
  - intros H t Ht. specialize (H t ltac:(lia)).
    rewrite Z.land_spec, Z.shiftr_spec, Z.ones_spec_low, andb_true_r in H by lia.
    by rewrite Z.add_comm.
  - intros H i Hi. rewrite Z.land_spec, Z.shiftr_spec by lia. destruct (decide (i < w)).
    + rewrite Z.add_comm, H by lia. done.
    + by rewrite Z.ones_spec_high, andb_false_r by lia.
Qed.

Lemma ld16_spec h i :
  hdr_shape h -> 0 <= i < 1024 ->
  exists v, ld16 (bitmap_level0 h) i = Ok v /\ 0 <= v < 2 ^ 16 /\
    forall b, 0 <= b < 16 -> Z.testbit v b = used h (16 * i + b).
Proof.
  intros H Hi. destruct (H 0 ltac:(lia)) as [Hz Hb]. change (bm h 0) with (bitmap_level0 h) in *.
  change (2048 / gran 0) with 2048 in Hz. unfold ld16. rewrite !ld_ok by lia.
  unfold mbind, res_bind. eexists. split; [done|].
  pose proof (nthZ_byte _ (2 * i) Hb) as H0. pose proof (nthZ_byte _ (2 * i + 1) Hb) as H1.
  set (lo := nthZ (bitmap_level0 h) (2 * i)) in *.
  set (hi := nthZ (bitmap_level0 h) (2 * i + 1)) in *.
  assert (forall b, 0 <= b -> Z.testbit (Z.lor lo (Z.shiftl hi 8)) b
    = if b <? 8 then Z.testbit lo b else Z.testbit hi (b - 8)) as Hbit.
  { intros b Hb0. rewrite Z.lor_spec. destruct (Z.ltb_spec b 8).
    - by rewrite Z.shiftl_spec_low, orb_false_r by lia.
    - by rewrite byte_testbit_high, Z.shiftl_spec by lia. }
  split.
  - assert (Z.lor lo (Z.shiftl hi 8) = Z.lor lo (Z.shiftl hi 8) mod 2 ^ 16) as ->;
      [|apply Z.mod_pos_bound; lia].
    apply Z.bits_inj'. intros b Hb0. destruct (decide (b < 16)).
    + by rewrite Z.mod_pow2_bits_low by lia.
    + rewrite Z.mod_pow2_bits_high, Hbit by lia. destruct (Z.ltb_spec b 8); [lia|].
      apply byte_testbit_high; lia.
  - intros b Hb0. rewrite Hbit by lia. unfold used, getbit, lo, hi.
    destruct (Z.ltb_spec b 8); do 2 f_equal; lia.
Qed.

Lemma check_agree_ok u0 u : check_agree u0 u = Ok () <-> (u0 =? 0) = (u =? 0).
Proof.
  unfold check_agree, assert_. destruct (u0 =? 0), (u =? 0); cbn; split; try done.
Qed.

(** A test on the [g] bits of block [w * i + j] of word [i]. *)
Lemma word_block v h i g w j :
  0 < g -> 0 < w -> g * w = 16 -> 0 <= j < w -> 0 <= i ->
  (forall b, 0 <= b < 16 -> Z.testbit v b = used h (16 * i + b)) ->
  (Z.land (Z.shiftr v (g * j)) (Z.ones g) =? 0) = negb (blk g (used h) (w * i + j)).
Proof.
  intros Hg Hw Hgw Hj Hi Hv. apply eq_bool_prop_intro.
  rewrite !Is_true_true, land_shift_eqb_0, negb_true_iff, blk_false by nia. split.
  - intros H p Hp.
    assert (p = g * (w * i + j) + p mod g) as Ep by (rewrite <- Hp; apply Z.div_mod; lia).
    pose proof (Z.mod_pos_bound p g Hg) as Hm. specialize (H (p mod g) Hm).
    rewrite Hv in H by nia. rewrite <- H. f_equal. nia.
  - intros H t Ht. rewrite Hv by nia. apply H. symmetry.
    apply (Z.div_unique _ _ _ t); [lia|]. nia.
Qed.

(** The bit of block [w * i + j] in the byte of the level above. *)
Lemma word_bit l i w d j :
  0 < w -> 0 < d -> w * d = 8 -> 0 <= j < w -> 0 <= i ->
  (Z.land (Z.shiftr (Z.land (Z.shiftr (nthZ l (i / d)) (w * (i mod d))) (Z.ones w)) j) 1 =? 0)
    = negb (getbit l (w * i + j)).
Proof.
  intros Hw Hd Hwd Hj Hi. change 1 with (Z.ones 1). apply eq_bool_prop_intro.
  rewrite !Is_true_true, land_shift_eqb_0, negb_true_iff by lia.
  pose proof (Z.mod_pos_bound i d Hd) as Hm. pose proof (Z.div_mod i d ltac:(lia)) as Hdm.
  assert ((w * i + j) / 8 = i / d /\ (w * i + j) mod 8 = w * (i mod d) + j) as [E1 E2].
  { assert (w * i + j = 8 * (i / d) + (w * (i mod d) + j)) as -> by (rewrite Hdm at 1; nia).
    split.
    - symmetry. apply (Z.div_unique _ _ _ (w * (i mod d) + j)); [nia|done].
    - symmetry. apply (Z.mod_unique _ _ (i / d)); [nia|done]. }
  unfold getbit. rewrite E1, E2.
  assert (forall t, 0 <= t < 1 -> Z.testbit (Z.land (Z.shiftr (nthZ l (i / d)) (w * (i mod d)))
    (Z.ones w)) (j + t) = Z.testbit (nthZ l (i / d)) (w * (i mod d) + j)) as Hb.
  { intros t Ht. replace (j + t) with j by lia.
    rewrite Z.land_spec, Z.shiftr_spec, Z.ones_spec_low, andb_true_r by lia. f_equal. lia. }
  split.
  - intros H. rewrite <- (Hb 0), H by lia. done.
  - intros H t Ht. by rewrite Hb.
Qed.

(** Level [k] agrees with level 0 on block [b]. *)
Definition agrees (h : MR_header) (k b : Z) : Prop :=
  getbit (bm h k) b = blk (gran k) (used h) b.

Lemma negb_eq (a b : bool) : negb a = negb b <-> b = a.
Proof. destruct a, b; cbn; split; done. Qed.

Lemma bind_ok_unit (m k : res unit) : (m ;; k) = Ok () <-> m = Ok () /\ k = Ok ().
Proof.
  destruct m as [[]|f]; cbn; split; [by intros ->|by intros [_ ->]|done|by intros [? _] ].
Qed.

Lemma bitmap_step_spec h i :
  hdr_shape h -> 0 <= i < 1024 ->
  pmm_bitmap_check_step h i = Ok () <->
  forall k b, 1 <= k <= 3 -> b / (16 / gran k) = i -> agrees h k b.
Proof.
  intros H Hi. unfold pmm_bitmap_check_step.
  destruct (ld16_spec h i H Hi) as (v & -> & Hv & Hbit).
  destruct (H 1 ltac:(lia)) as [Z1 _]. destruct (H 2 ltac:(lia)) as [Z2 _].
  destruct (H 3 ltac:(lia)) as [Z3 _].
  change (bm h 1) with (bitmap_level1 h) in *. change (bm h 2) with (bitmap_level2 h) in *.
  change (bm h 3) with (bitmap_level3 h) in *.
  change (2048 / gran 1) with 512 in *. change (2048 / gran 2) with 256 in *.
  change (2048 / gran 3) with 128 in *.
  unfold mbind at 1 2 3 4, res_bind at 1 2 3 4. rewrite !ld_ok by lia. cbv zeta.
  assert (forall j, 0 <= j < 4 -> check_agree (Z.land (Z.shiftr v (4 * j)) 0xf)
    (Z.land (Z.shiftr (Z.land (Z.shiftr (nthZ (bitmap_level1 h) (i / 2)) (4 * (i mod 2))) 0xf) j) 1)
    = Ok () <-> agrees h 1 (4 * i + j)) as L1.
  { intros j Hj. rewrite check_agree_ok. change 0xf with (Z.ones 4).
    rewrite (word_block v h i 4 4 j), (word_bit _ i 4 2 j) by (done || lia). apply negb_eq. }
  assert (forall j, 0 <= j < 2 -> check_agree (Z.land (Z.shiftr v (8 * j)) 0xff)
    (Z.land (Z.shiftr (Z.land (Z.shiftr (nthZ (bitmap_level2 h) (i / 4)) (2 * (i mod 4))) 0x3) j) 1)
    = Ok () <-> agrees h 2 (2 * i + j)) as L2.
  { intros j Hj. rewrite check_agree_ok. change 0xff with (Z.ones 8). change 0x3 with (Z.ones 2).
    rewrite (word_block v h i 8 2 j), (word_bit _ i 2 4 j) by (done || lia). apply negb_eq. }
  assert (check_agree v (Z.land (Z.shiftr (nthZ (bitmap_level3 h) (i / 8)) (i mod 8)) 0x1)
    = Ok () <-> agrees h 3 (1 * i + 0)) as L3.
  { rewrite check_agree_ok.
    replace (v =? 0) with (Z.land (Z.shiftr v (16 * 0)) (Z.ones 16) =? 0) by
      (rewrite Z.land_ones, Z.mul_0_r, Z.shiftr_0_r, Z.mod_small by lia; done).
    replace (Z.land (Z.shiftr (nthZ (bitmap_level3 h) (i / 8)) (i mod 8)) 0x1)
      with (Z.land (Z.shiftr (Z.land (Z.shiftr (nthZ (bitmap_level3 h) (i / 8)) (1 * (i mod 8)))
        (Z.ones 1)) 0) 1).
    2: { rewrite Z.shiftr_0_r, Z.mul_1_l. change (Z.ones 1) with 1.
         by rewrite <- Z.land_assoc. }
    rewrite (word_block v h i 16 1 0), (word_bit _ i 1 8 0) by (done || lia). apply negb_eq. }
  rewrite !bind_ok_unit, (L1 0), (L1 1), (L1 2), (L1 3), (L2 0), (L2 1), L3 by lia. split.
  - intros (A0 & A1 & A2 & A3 & B0 & B1 & C0) k b Hk Hb.
    assert (k = 1 \/ k = 2 \/ k = 3) as [-> | [-> | ->] ] by lia;
      [change (16 / gran 1) with 4 in Hb|change (16 / gran 2) with 2 in Hb
      |change (16 / gran 3) with 1 in Hb].
    + assert (b = 4 * i + 0 \/ b = 4 * i + 1 \/ b = 4 * i + 2 \/ b = 4 * i + 3)
        as [-> | [-> | [-> | ->] ] ] by lia; done.
    + assert (b = 2 * i + 0 \/ b = 2 * i + 1) as [-> | ->] by lia; done.
    + assert (b = 1 * i + 0) as -> by lia. done.
  - intros A. split_and!; apply A; try lia.
    all: change (16 / gran 1) with 4; change (16 / gran 2) with 2; change (16 / gran 3) with 1; lia.
Qed.

Lemma bitmap_loop_spec h n i :
  hdr_shape h -> 0 <= i -> i + Z.of_nat n <= 1024 ->
  pmm_bitmap_check_loop n i h = Ok () <->
  forall k b, 1 <= k <= 3 -> i <= b / (16 / gran k) < i + Z.of_nat n -> agrees h k b.
Proof.
  intros H. revert i. induction n as [|n IH]; intros i Hi Hn; cbn [pmm_bitmap_check_loop].
  - split; [intros; lia|done].
  - rewrite bind_ok_unit, IH, bitmap_step_spec by (done || lia). split.
    + intros [A B] k b Hk Hb. destruct (decide (b / (16 / gran k) = i)); [by apply A|].
      apply B; [done|lia].
    + intros A. split; intros k b Hk Hb; apply A; lia.
Qed.

(** [pmm_bitmap_check] is exact: on headers of the right shape it passes if and
    only if, for every 16-page word of the range it visits, each bit of the three
    upper levels is set exactly when one of the pages below it is allocated. *)
Theorem pmm_bitmap_check_exact s r mr h :
  range_at s r mr h -> range_ok mr -> hdr_shape h -> 0 < mlength mr < MAX_SIZE ->
  pmm_bitmap_check s mr = Ok () <->
  forall k b, 1 <= k <= 3 ->
    0 <= b / (16 / gran k) < ((mlength mr + 7) / 8 + 1) / 2 ->
    getbit (bm h k) b = blk (gran k) (used h) b.
Proof.
  intros A Hr H Hl. unfold pmm_bitmap_check. rewrite (load_header_ok s r mr h) by (done || lia).
  unfold mbind, res_bind, MAX_SIZE in *. rewrite bitmap_loop_spec by (done || lia).
  by rewrite Z.add_0_l, Z2Nat.id by lia.
Qed.

Lemma hdr_ok_shape len h : hdr_ok len h -> hdr_shape h.
Proof. intros H k Hk. split; [by apply (ho_zlen _ _ H)|by apply (ho_bytes _ _ H)]. Qed.

Lemma pmm_bitmap_check_ok s r mr h :
  range_at s r mr h -> range_ok mr -> hdr_ok (mlength mr) h -> pmm_bitmap_check s mr = Ok ().
Proof.
  intros A Hr H. pose proof (ho_len _ _ H) as Hl. unfold pmm_bitmap_check.
  rewrite (load_header_ok s r mr h) by (done || lia). unfold mbind, res_bind.
  apply bitmap_loop_spec; [by eapply hdr_ok_shape|lia|unfold MAX_SIZE in *; lia|].
  intros k b Hk Hb. apply (ho_bits _ _ H); [lia|]. unfold MAX_SIZE in *.
  assert (k = 1 \/ k = 2 \/ k = 3) as [-> | [-> | ->] ] by lia;
    change (16 / gran 1) with 4 in Hb; change (16 / gran 2) with 2 in Hb;
    change (16 / gran 3) with 1 in Hb; unfold gran; cbn [Z.eqb Pos.eqb]; lia.
Qed.

Lemma pmm_check_list_ok s ls l fuel head :
  pmm_inv s ls -> chain (memory_ranges_buffer s) head l ->
  (forall r, r ∈ l -> Z.of_nat r < n_ranges s) -> (length l <= fuel)%nat ->
  pmm_check_list fuel s head = Ok ().
Proof.
  intros H. revert fuel head. induction l as [|r l IH]; intros fuel head Hc Hl Hf; cbn in Hc.
  - subst. by destruct fuel.
  - destruct Hc as (-> & range & Er & Hc). destruct fuel as [|fuel]; [cbn in Hf; lia|].
    destruct (pk_ranges _ _ H r) as (rg & h & A & Ho & Hh); [apply Hl; set_solver|].
    assert (rg = range) as -> by (destruct A; congruence). pose proof (ho_len _ _ Hh) as Hlen.
    cbn [pmm_check_list]. unfold load_range. rewrite (ld_nat _ _ _ Er). unfold mbind, res_bind.
    rewrite !assert_true by (unfold MAX_SIZE in *; lia).
    rewrite (pmm_bitmap_check_ok s r range h), (pmm_avail_check_ok s r range h) by done.
    apply IH; [done|set_solver|cbn in Hf; lia].
Qed.

(** [pmm_check], which walks the four lists and recomputes every bitmap level
    and every counter, terminates without a failed assertion on every state that
    satisfies the invariant of the allocator. *)
Theorem pmm_check_passes s ls : pmm_ok s ls -> pmm_check s = Ok ().
Proof.
  intros [H _].
  assert (forall i, (i < 4)%nat -> exists head, mr_lists s !! i = Some head /\
    pmm_check_list (length (memory_ranges_buffer s)) s head = Ok ()) as Hi.
  { intros i Hi. pose proof (pk_lists _ _ H) as HL.
    destruct (lookup_lt_is_Some_2 (mr_lists s) i) as [hd E]; [rewrite (lo_len _ _ HL); lia|].
    destruct (lookup_lt_is_Some_2 ls i) as [l El]; [rewrite (lo_len' _ _ HL); lia|].
    exists hd. split; [done|].
    assert (forall r, r ∈ l -> Z.of_nat r < n_ranges s) as Hl
      by (intros; by apply (pk_listed _ _ H i l)).
    apply (pmm_check_list_ok s ls l); [done|by eapply (lo_chain _ _ HL)|done|].
    assert (NoDup l) as Hnd.
    { pose proof (lo_nodup _ _ HL) as Hn. rewrite <- (take_drop_middle ls i l El) in Hn.
      rewrite concat_app in Hn. apply list.NoDup_app in Hn as (_ & _ & Hn). cbn in Hn.
      by apply list.NoDup_app in Hn as (? & _). }
    assert (l ⊆+ seq 0 (length (memory_ranges_buffer s))) as Hsub.
    { apply NoDup_submseteq; [done|]. intros r Hr. apply elem_of_seq. specialize (Hl r Hr).
      pose proof (pk_n _ _ H). unfold zlen in *. lia. }
    apply submseteq_length in Hsub. by rewrite length_seq in Hsub. }
  unfold pmm_check.
  destruct (Hi 0%nat) as (h0 & E0 & C0); [lia|]. destruct (Hi 1%nat) as (h1 & E1 & C1); [lia|].
  destruct (Hi 2%nat) as (h2 & E2 & C2); [lia|]. destruct (Hi 3%nat) as (h3 & E3 & C3); [lia|].
  rewrite (ld_Some _ 0 _ ltac:(lia) E0), (ld_Some _ 1 _ ltac:(lia) E1),
    (ld_Some _ 2 _ ltac:(lia) E2), (ld_Some _ 3 _ ltac:(lia) E3).
  unfold mbind, res_bind. by rewrite C0, C1, C2, C3.
Qed.

(** * The physical memory manager on a concrete memory map

    A machine with two usable regions of 40 and 20 pages: the theorems about the
    allocator applied to it. *)




Definition ex_map : list mmape :=
  [Mmape 0x100000 (40 * 4096) USABLE; Mmape 0x180000 4096 KERNEL;
   Mmape 0x200000 (20 * 4096) USABLE].

Definition ex_pmm : pmm_state :=
  match init_pmm ex_map pmm_zero with Ok s => s | Err _ => pmm_zero end.

(** A callback that records its calls. *)
Definition ex_callback (paddr vaddr size : Z) (log : list (Z * Z)) : list (Z * Z) :=
  log ++ [(paddr, vaddr)].

Lemma ex_map_wf : mmap_wf 0 ex_map.
Proof. cbn. repeat split; lia. Qed.

Lemma ex_pmm_ok : exists ls, pmm_ok ex_pmm ls /\ listed_free ex_pmm ls = 58 /\
  total_available_pages ex_pmm = 58.
Proof.
  destruct (init_pmm_ok ex_map ex_map_wf ltac:(vm_compute; discriminate))
    as (s & ls & E & Hok & _ & Ha & _ & Hl & _).
  exists ls. unfold ex_pmm. rewrite E. unfold available_pages in *.
  split_and!; [done|by rewrite Hl, Ha|by rewrite Ha].
Qed.

(** The first range of the example and its header after a number of allocations. *)
Definition ex_range : memory_range := MemoryRange 0x100000 39 None.

(** The state after all pages, or [n] pages, were handed out. *)
Definition ex_after (n : Z) : pmm_state :=
  match physalloc ex_callback n 0 ex_pmm [] with Ok (s, _) => s | Err _ => ex_pmm end.
Definition ex_header (n : Z) (b : Z) : MR_header :=
  match headers (ex_after n) !! b with Some h => h | None => init_header 2 end.

Lemma ex_after_ok n : 0 <= n <= 58 ->
  exists ls, pmm_ok (ex_after n) ls /\ listed_free (ex_after n) ls = 58 - n.
Proof.
  intros Hn. destruct ex_pmm_ok as (ls & Hok & Hl & Ht).
  destruct (physalloc_ok ex_callback ex_pmm ls [] n 0 Hok eq_refl ltac:(lia) ltac:(lia) ltac:(lia))
    as (s' & ls' & l & He & Hz & E).
  destruct (set_total_effect _ _ _ _ _ _ He) as (Htot & Ha & Hli & _).
  exists ls'. unfold ex_after. rewrite E. destruct Hok as [_ Hta]. split; [split|].
  - apply He.
  - rewrite Htot, Ha. lia.
  - lia.
Qed.

Lemma alloc_page_bitmaps_witness :
  exists h', alloc_page_bitmaps (init_header 20) 3 = Ok h' /\ hdr_ok 19 h' /\
    (forall p, 0 <= p -> used h' p = used (init_header 20) p || (p =? 3)) /\
    available0 h' = available0 (init_header 20) - 1.
Proof.
  apply (alloc_page_bitmaps_correct 19 (init_header 20) 3);
    [apply (init_header_ok 20); unfold MAX_SIZE; lia|lia|reflexivity].
Defined.

Lemma free_page_bitmaps_witness :
  exists h', free_page_bitmaps (mark_page (init_header 20) 3) 3 = Ok h' /\ hdr_ok 19 h' /\
    (forall p, 0 <= p < MAX_SIZE ->
       used h' p = used (mark_page (init_header 20) 3) p && negb (p =? 3)) /\
    available0 h' = available0 (mark_page (init_header 20) 3) + 1.
Proof.
  apply (free_page_bitmaps_correct 19 (mark_page (init_header 20) 3) 3);
    [apply hdr_ok_mark; [apply (init_header_ok 20); unfold MAX_SIZE|]; lia|lia|reflexivity].
Defined.

Lemma alloc_free_page_witness :
  (h' ← alloc_page_bitmaps (init_header 20) 3; free_page_bitmaps h' 3) = Ok (init_header 20).
Proof.
  apply (alloc_free_page_roundtrip 19 (init_header 20) 3);
    [apply (init_header_ok 20); unfold MAX_SIZE; lia|lia|reflexivity].
Defined.

Lemma init_pmm_witness :
  exists s ls, init_pmm ex_map pmm_zero = Ok s /\ pmm_ok s ls /\
    n_ranges s = 2 /\ available_pages s = 58 /\
    total_pages s = available_pages s /\ listed_free s ls = available_pages s /\
    (forall a b, managed s a b -> b = false).
Proof. apply (init_pmm_correct ex_map); [apply ex_map_wf|vm_compute; discriminate]. Defined.

Lemma physalloc_witness :
  exists ls s' ls' l,
    physalloc ex_callback 25 0x4000 ex_pmm [] = Ok (s', callbacks ex_callback 0x4000 l []) /\
    zlen l = 25 /\ NoDup l /\ (forall a, a ∈ l -> managed ex_pmm a false) /\
    (forall a b, managed s' a b <->
       exists b0, managed ex_pmm a b0 /\ b = b0 || bool_decide (a ∈ l)) /\
    pmm_ok s' ls' /\ listed_free s' ls' = listed_free ex_pmm ls - 25 /\
    available_pages s' = available_pages ex_pmm - 25.
Proof.
  destruct ex_pmm_ok as (ls & Hok & Hl & Ht). exists ls.
  apply (physalloc_correct ex_callback ex_pmm ls [] 25 0x4000); [done|reflexivity|lia..].
Defined.

Lemma physalloc_single_witness :
  exists s' ls' a, physalloc_single ex_pmm 0 = Ok (s', a, a) /\ a <> 0 /\
    managed ex_pmm a false /\ pmm_ok s' ls' /\
    (forall a' b, managed s' a' b <-> exists b0, managed ex_pmm a' b0 /\ b = b0 || (a' =? a)) /\
    available_pages s' = available_pages ex_pmm - 1.
Proof.
  destruct ex_pmm_ok as (ls & Hok & Hl & Ht).
  apply (physalloc_single_correct ex_pmm ls 0); [done|lia..].
Defined.

Lemma ex_range_at : range_at (ex_after 58) 0 ex_range (ex_header 58 0x100000).
Proof. split; vm_compute; reflexivity. Qed.

Lemma ex_range_at2 : range_at (ex_after 58) 1 (MemoryRange 0x200000 19 None) (ex_header 58 0x200000).
Proof. split; vm_compute; reflexivity. Qed.

Lemma get_memory_range_witness :
  get_memory_range (ex_after 58) (page_addr ex_range 38) =
    (if bool_decide (very_last (ex_after 58) 0 ex_range 38)
     then panic "addr < B->base+B->length * 0x1000" else Ok 0).
Proof.
  destruct (ex_after_ok 58 ltac:(lia)) as (ls & [Hok _] & _).
  apply (get_memory_range_correct (ex_after 58) ls 0 ex_range (ex_header 58 0x100000) 38
    Hok eq_refl ex_range_at); cbn; lia.
Defined.


Lemma physfree_last_page_witness :
  physfree (page_addr (MemoryRange 0x200000 19 None) 18) (ex_after 58) =
    panic "addr < B->base+B->length * 0x1000".
Proof.
  destruct (ex_after_ok 58 ltac:(lia)) as (ls & Hok & _).
  apply (physfree_last_page_panics (ex_after 58) ls 1 (MemoryRange 0x200000 19 None)
    (ex_header 58 0x200000) 18 Hok eq_refl ex_range_at2);
    [cbn; lia|vm_compute; reflexivity|split; vm_compute; reflexivity].
Defined.

Lemma ex_after_unlisted : exists ls, pmm_ok (ex_after 58) ls /\ concat ls = [].
Proof.
  destruct (ex_after_ok 58 ltac:(lia)) as (ls & Hok & _). exists ls. split; [done|].
  destruct Hok as [Hinv _]. pose proof (pk_lists _ _ Hinv) as HL.
  assert (mr_lists (ex_after 58) = replicate 4 None) as E by (vm_compute; reflexivity).
  assert (forall l, l ∈ ls -> l = []) as Hnil.
  { intros l Hl. apply list_elem_of_lookup_1 in Hl as [i Hi].
    assert (i < 4)%nat by (rewrite <- (lo_len' _ _ HL); by eapply lookup_lt_Some).
    pose proof (lo_chain _ _ HL i None l) as Hc. rewrite E, lookup_replicate in Hc.
    specialize (Hc (conj eq_refl H) Hi). destruct l; [done|]. by destruct Hc. }
  clear -Hnil. induction ls as [|l ls IH]; [done|]. cbn.
  rewrite (Hnil l), IH by set_solver. done.
Qed.

Lemma physfree_page_is_lost_witness :
  exists s', physfree (page_addr ex_range 38) (ex_after 58) = Ok s' /\ 1 <= available_pages s' /\
    physalloc ex_callback 1 0x4000 s' [] = panic "internal physical allocator error".
Proof.
  destruct ex_after_unlisted as (ls & Hok & Hc).
  apply (physfree_page_is_lost ex_callback (ex_after 58) ls 0 ex_range (ex_header 58 0x100000) 38 []
    0x4000 Hok Hc eq_refl ex_range_at); [cbn; lia|vm_compute; reflexivity| |reflexivity].
  intros [Hl _]. vm_compute in Hl. discriminate.
Defined.

Lemma pmm_bitmap_check_witness :
  pmm_bitmap_check (ex_after 58) ex_range = Ok () <->
  forall k b, 1 <= k <= 3 ->
    0 <= b / (16 / gran k) < ((mlength ex_range + 7) / 8 + 1) / 2 ->
    getbit (bm (ex_header 58 0x100000) k) b = blk (gran k) (used (ex_header 58 0x100000)) b.
Proof.
  apply (pmm_bitmap_check_exact (ex_after 58) 0 ex_range (ex_header 58 0x100000) ex_range_at).
  - unfold range_ok. cbn. lia.
  - destruct (ex_after_ok 58 ltac:(lia)) as (ls & Hok & _).
    apply (hdr_ok_shape (mlength ex_range)).
    apply (header_of_range (ex_after 58) ls 0 ex_range _ Hok eq_refl ex_range_at).
  - unfold MAX_SIZE. cbn. lia.
Defined.

Lemma pmm_check_witness : pmm_check (ex_after 25) = Ok ().
Proof.
  destruct (ex_after_ok 25 ltac:(lia)) as (ls & Hok & _).
  apply (pmm_check_passes (ex_after 25) ls). exact Hok.
Defined.
