(* ===== verification/Heap.v ===== *)
(** * Kernel heap ([kernel/memory/heap.c])

    Definitions.  The heap is one growing region that segment headers cut into
    pieces; the headers form a list from the highest address down to the first
    byte of the heap.  Headers live in memory at the address of their segment. *)

From S2P Require Import Prelude Interfaces.





Definition KERNEL_HEAP_BEGIN : Z := 0xffffffff80300000.
Definition MIN_EXPAND_SIZE : Z := 1024.
Definition MIN_SEGMENT_SIZE : Z := 32.

(** [PRESENT_ENTRY | PL_XD | PL_RW] of [kernel/memory/paging.h]. *)
Definition HEAP_PAGE_FLAGS : Z := Z.lor 1 (Z.lor (Z.shiftl 1 63) 2).

(** [struct seg_header]; the null pointer is the address 0. *)
Record seg_header := SegHeader { seg_next : Z; seg_size : Z; seg_free : Z }.
Definition sizeof_seg_header : Z := 16.

Section Heap.
Context {P : Type} `{PageMapper P}.

(** The static variables of the file (the counter [i] of [free] included), the
    headers in memory, the other bytes of the heap, and the paging layer. *)
Record heap_state := HeapState {
  heap_size : Z;
  n_allocations : Z;
  current_segment : Z;
  free_i : Z;
  seg_mem : gmap Z seg_header;
  heap_data : gmap Z Z;
  paging : P
}.

Definition set_current (s : heap_state) (seg : Z) : heap_state :=
  HeapState (heap_size s) (n_allocations s) seg (free_i s) (seg_mem s) (heap_data s) (paging s).
Definition set_seg_mem (s : heap_state) (m : gmap Z seg_header) : heap_state :=
  HeapState (heap_size s) (n_allocations s) (current_segment s) (free_i s) m (heap_data s)
    (paging s).
Definition set_allocations (s : heap_state) (n : Z) : heap_state :=
  HeapState (heap_size s) n (current_segment s) (free_i s) (seg_mem s) (heap_data s) (paging s).
Definition set_free_i (s : heap_state) (i : Z) : heap_state :=
  HeapState (heap_size s) (n_allocations s) (current_segment s) i (seg_mem s) (heap_data s)
    (paging s).
Definition set_heap_data (s : heap_state) (d : gmap Z Z) : heap_state :=
  HeapState (heap_size s) (n_allocations s) (current_segment s) (free_i s) (seg_mem s) d
    (paging s).

Definition ld_seg (s : heap_state) (seg : Z) : res seg_header :=
  match seg_mem s !! seg with
  | Some h => Ok h
  | None => Err (Fault "no segment header at this address")
  end.
Definition st_seg (s : heap_state) (seg : Z) (h : seg_header) : heap_state :=
  set_seg_mem s (<[seg := h]> (seg_mem s)).
(** [seg->next = next] *)
Definition st_next (s : heap_state) (seg next : Z) : res heap_state :=
  h ← ld_seg s seg; Ok (st_seg s seg (SegHeader next (seg_size h) (seg_free h))).

Definition heap_get_brk (s : heap_state) : Z := u64 (KERNEL_HEAP_BEGIN + heap_size s).
Definition heap_get_size (s : heap_state) : Z := heap_size s.
Definition heap_get_n_allocation (s : heap_state) : Z := n_allocations s.

Definition heap_assert_seg (s : heap_state) (seg : Z) : res unit :=
  assert_ (negb (seg =? 0)) "seg" ;;
  if (seg <? KERNEL_HEAP_BEGIN) || (heap_get_brk s <=? seg)
  then panic "heap_assert_seg(...): arg is not in heap"
  else
    h ← ld_seg s seg;
    if heap_get_brk s <? u64 (seg + seg_size h)
    then panic "heap_assert_seg(...): arg is not in heap"
    else if negb (Z.land (seg_free h) (u32 (Z.lnot 1)) =? 0)
    then panic "heap_assert_seg(...): bad header (invalid free value)"
    else if negb (seg_next h =? 0)
            && ((seg_next h <? KERNEL_HEAP_BEGIN) || (heap_get_brk s <=? seg_next h))
    then panic "heap_assert_seg(...): bad header (invalid next value)"
    else Ok ().

(** [expand_heap]: map the missing pages, make the new space a free segment. *)
Definition expand_heap (size : Z) (s : heap_state) : res heap_state :=
  let new_heap_pages_size := Z.shiftr (u64 (heap_size s + size + 0xfff)) 12 in
  let old_heap_pages_size := Z.shiftr (u64 (heap_size s + 0xfff)) 12 in
  p ← (if negb (new_heap_pages_size =? old_heap_pages_size)
       then alloc_pages (u64 (KERNEL_HEAP_BEGIN + u64 (Z.shiftl old_heap_pages_size 12)))
              (u64 (new_heap_pages_size - old_heap_pages_size)) HEAP_PAGE_FLAGS (paging s)
       else Ok (paging s));
  let new_segment := u64 (KERNEL_HEAP_BEGIN + heap_size s) in
  let h := SegHeader (current_segment s) (u32 (size - sizeof_seg_header)) 1 in
  Ok (HeapState (u64 (heap_size s + size)) (n_allocations s) new_segment (free_i s)
        (<[new_segment := h]> (seg_mem s)) (heap_data s) p).

(** Fuel for a walk along the list: more than the segments the heap can hold. *)
Definition walk_fuel (s : heap_state) : nat := Z.to_nat (heap_size s / sizeof_seg_header).

(** The [for] loop of [defragment]; a null [pred2] means that [pred] is the head. *)
Fixpoint defragment_loop (fuel : nat) (pred2 pred seg : Z) (s : heap_state) : res heap_state :=
  if seg =? 0 then Ok s
  else
    match fuel with
    | O => Err NoFuel
    | S fuel' =>
        heap_assert_seg s seg ;;
        hs ← ld_seg s seg;
        hp ← ld_seg s pred;
        if negb (seg_free hs =? 0) && negb (seg_free hp =? 0) then
          s ← (if pred2 =? 0 then Ok (set_current s seg) else st_next s pred2 seg);
          hs ← ld_seg s seg;
          let s := st_seg s seg
            (SegHeader (seg_next hs) (u32 (seg_size hs + (sizeof_seg_header + seg_size hp)))
               (seg_free hs)) in
          defragment_loop fuel' pred2 seg (seg_next hs) s
        else defragment_loop fuel' pred seg (seg_next hs) s
    end.

Definition defragment (s : heap_state) : res heap_state :=
  assert_ (negb (current_segment s =? 0)) "current_segment != NULL" ;;
  h ← ld_seg s (current_segment s);
  defragment_loop (walk_fuel s) 0 (current_segment s) (seg_next h) s.

Definition heap_defragment (s : heap_state) : res heap_state := defragment s.

(** [find_pred] *)
Fixpoint find_pred_loop (fuel : nat) (node seg : Z) (s : heap_state) : res Z :=
  if seg =? 0 then Ok 0
  else
    match fuel with
    | O => Err NoFuel
    | S fuel' =>
        h ← ld_seg s seg;
        if seg_next h =? node then Ok node
        else find_pred_loop fuel' node (seg_next h) s
    end.
Definition find_pred (node : Z) (s : heap_state) : res Z :=
  find_pred_loop (walk_fuel s) node (current_segment s) s.

(** [try_merge] *)
Definition try_merge (free_node : Z) (s : heap_state) : res heap_state :=
  h ← ld_seg s free_node;
  assert_ (negb (seg_free h =? 0)) "free_node->free" ;;
  let next := seg_next h in
  if next =? 0 then Ok s
  else
    hn ← ld_seg s next;
    if negb (seg_free hn =? 0) then
      let s := st_seg s next
        (SegHeader (seg_next hn) (u32 (seg_size hn + seg_size h)) (seg_free hn)) in
      if free_node =? current_segment s then Ok (set_current s next)
      else
        seg ← find_pred free_node s;
        st_next s seg next
    else Ok s.

(** [split_segment]: the new segment is the upper part of [tosplit]. *)
Definition split_segment (pred tosplit size : Z) (s : heap_state) : res (heap_state * Z) :=
  let new_segment := u64 (tosplit + sizeof_seg_header + size) in
  s ← (if pred =? 0 then Ok s else st_next s pred new_segment);
  h ← ld_seg s tosplit;
  let s := st_seg s new_segment
    (SegHeader tosplit (u32 (seg_size h - size - sizeof_seg_header)) 1) in
  h ← ld_seg s tosplit;
  Ok (st_seg s tosplit (SegHeader (seg_next h) (u32 size) (seg_free h)), new_segment).

Definition heap_init (s : heap_state) : res heap_state := expand_heap MIN_EXPAND_SIZE s.

(** The end of the loop of [malloc], for a free segment that is big enough: split
    it if the rest is worth it, and take it. *)
Definition malloc_take (size seg pred : Z) (s : heap_state) : res (heap_state * Z) :=
  h ← ld_seg s seg;
  s ← (if u64 (size + sizeof_seg_header + MIN_SEGMENT_SIZE) <=? seg_size h then
         '(s, new_seg) ← split_segment pred seg size s;
         if pred =? 0 then Ok (set_current s new_seg) else st_next s pred new_seg
       else Ok s);
  h ← ld_seg s seg;
  let s := st_seg s seg (SegHeader (seg_next h) (seg_size h) 0) in
  let s := set_allocations s (u64 (n_allocations s + 1)) in
  Ok (s, u64 (seg + sizeof_seg_header)).

(** The [while(1)] of [malloc]; [None] when the list ends. *)
Fixpoint malloc_walk (fuel : nat) (size seg pred : Z) (s : heap_state)
    : res (option (heap_state * Z)) :=
  if seg =? 0 then Ok None
  else
    match fuel with
    | O => Err NoFuel
    | S fuel' =>
        heap_assert_seg s seg ;;
        h ← ld_seg s seg;
        if (seg_free h =? 0) || (seg_size h <? size)
        then malloc_walk fuel' size (seg_next h) seg s
        else r ← malloc_take size seg pred s; Ok (Some r)
    end.

(** [malloc]; the recursive call follows an expansion of the heap. *)
Fixpoint malloc_rec (depth : nat) (size : Z) (s : heap_state) : res (heap_state * Z) :=
  match depth with
  | O => Err NoFuel
  | S depth' =>
      let size := u64 (u64 (size + 7) / 8 * 8) in
      let size := if size <? MIN_SEGMENT_SIZE then MIN_SEGMENT_SIZE else size in
      found ← malloc_walk (walk_fuel s) size (current_segment s) 0 s;
      match found with
      | Some r => Ok r
      | None =>
          let x := u64 (size + sizeof_seg_header) in
          s ← expand_heap (if MIN_EXPAND_SIZE <=? x then x else MIN_EXPAND_SIZE) s;
          malloc_rec depth' size s
      end
  end.

Definition malloc (size : Z) (s : heap_state) : res (heap_state * Z) := malloc_rec 2 size s.

(** [free]; every 32nd call defragments the heap. *)
Definition free (ptr : Z) (s : heap_state) : res heap_state :=
  let header := u64 (ptr - sizeof_seg_header) in
  heap_assert_seg s header ;;
  h ← ld_seg s header;
  assert_ (seg_free h =? 0) "header->free == 0" ;;
  let s := st_seg s header (SegHeader (seg_next h) (seg_size h) 1) in
  let i := free_i s in
  let s := set_free_i s (s32 (i + 1)) in
  s ← (if Z.rem i 32 =? 0 then defragment s else Ok s);
  Ok (set_allocations s (u64 (n_allocations s - 1))).

(** [memcpy(dst, src, n)] on the bytes of the heap. *)
Fixpoint copy_bytes (n : nat) (dst src : Z) (d : gmap Z Z) : gmap Z Z :=
  match n with
  | O => d
  | S n' => copy_bytes n' (dst + 1) (src + 1) (partial_alter (fun _ => d !! src) dst d)
  end.

Definition realloc (ptr size : Z) (s : heap_state) : res (heap_state * Z) :=
  if ptr =? 0 then malloc size s
  else if size =? 0 then s ← free ptr s; Ok (s, 0)
  else
    let header := u64 (ptr - sizeof_seg_header) in
    h ← ld_seg s header;
    let header_size := seg_size h in
    if (size <? header_size)
       && ((header_size / 2 <? size) || (u64 (header_size - size) <? MIN_SEGMENT_SIZE * 2))
    then Ok (s, ptr)
    else
      let cpsize := if size <? header_size then u32 size else header_size in
      '(s, new_ptr) ← malloc size s;
      let s := set_heap_data s (copy_bytes (Z.to_nat cpsize) new_ptr ptr (heap_data s)) in
      s ← free ptr s;
      Ok (s, new_ptr).

Definition is_in_heap (p : Z) (s : heap_state) : res bool :=
  if (KERNEL_HEAP_BEGIN <? p) && (p <? heap_get_brk s) then
    let seg := u64 (p - sizeof_seg_header) in
    heap_assert_seg s seg ;;
    h ← ld_seg s seg;
    Ok (seg_free h =? 0)
  else Ok false.

(** [heap_print], without its output: the walk and its assertions. *)
Fixpoint heap_print_loop (fuel : nat) (seg : Z) (s : heap_state) : res unit :=
  if seg =? 0 then Ok ()
  else
    match fuel with
    | O => Err NoFuel
    | S fuel' =>
        heap_assert_seg s seg ;;
        h ← ld_seg s seg;
        heap_print_loop fuel' (seg_next h) s
    end.
Definition heap_print (s : heap_state) : res unit :=
  heap_print_loop (walk_fuel s) (current_segment s) s.
End Heap.
Arguments heap_state : clear implicits.
Arguments HeapState {P}.
