(* ===== verification/HeapSpec.v ===== *)
(** * The heap as a list of segments

    The invariant of [heap.c] -- the segments, followed from [current_segment],
    tile the heap downwards without gaps -- and the effect of the list
    manipulations on that view. *)

From S2P Require Import Prelude Interfaces Heap.





(** A segment: address of its header, size of its payload, free or not. *)
Record seg := Seg { sa : Z; ss : Z; sf : bool }.

(** First segment of [l], or [nxt] at its end. *)
Definition head_or (l : list seg) (nxt : Z) : Z := match l with [] => nxt | x :: _ => sa x end.

(** Last segment of [l], or the null pointer. *)
Definition last_or_null (l : list seg) : Z := match list.last l with Some x => sa x | None => 0 end.

(** The segments [l] tile the addresses from [top] down to [bot]. *)
Fixpoint tiled (top : Z) (l : list seg) (bot : Z) : Prop :=
  match l with
  | [] => top = bot
  | x :: l' => sa x + 16 + ss x = top /\ 32 <= ss x /\ ss x mod 8 = 0 /\ tiled (sa x) l' bot
  end.

(** The headers of [l] are in memory and linked in that order, up to [nxt]. *)
Fixpoint linked (m : gmap Z seg_header) (l : list seg) (nxt : Z) : Prop :=
  match l with
  | [] => True
  | x :: l' => m !! sa x = Some (SegHeader (head_or l' nxt) (ss x) (Z.b2z (sf x)))
               /\ linked m l' nxt
  end.

(** The blocks clients own: address and size of the allocated payloads. *)
Definition live (l : list seg) : list (Z * Z) :=
  (fun x => (sa x + 16, ss x)) <$> filter (fun x => sf x = false) l.

(** The addresses from the beginning of the heap to the last page of the address
    space, excluded: a bit less than 2 GB. *)
Definition HEAP_MAX : Z := 2 ^ 64 - 0x1000 - KERNEL_HEAP_BEGIN.

Record heap_inv `{PageMapper P} (s : heap_state P) (l : list seg) : Prop := {
  hk_tiled : tiled (KERNEL_HEAP_BEGIN + heap_size s) l KERNEL_HEAP_BEGIN;
  hk_linked : linked (seg_mem s) l 0;
  hk_head : current_segment s = head_or l 0;
  hk_size : heap_size s < HEAP_MAX;
  hk_pages : forall v, KERNEL_HEAP_BEGIN / 0x1000 <= v ->
    v * 0x1000 < KERNEL_HEAP_BEGIN + heap_size s -> mapped (paging s) v
}.

(** Between two calls [n_allocations] is the number of live blocks. *)
Definition heap_ok `{PageMapper P} (s : heap_state P) (l : list seg) : Prop :=
  heap_inv s l /\ l <> [] /\ n_allocations s = zlen (live l).

(** ** Tilings and linked lists *)

Lemma head_or_app a b n : head_or (a ++ b) n = head_or a (head_or b n).
Proof. by destruct a. Qed.

Lemma last_or_null_snoc a x : last_or_null (a ++ [x]) = sa x.
Proof. unfold last_or_null. by rewrite last_snoc. Qed.

Lemma tiled_app top a b bot :
  tiled top (a ++ b) bot <-> exists mid, tiled top a mid /\ tiled mid b bot.
Proof.
  revert top. induction a as [|x a IH]; intros top; cbn.
  - split; [eauto|by intros (? & <- & ?)].
  - rewrite IH. naive_solver.
Qed.

Lemma linked_app m a b n : linked m (a ++ b) n <-> linked m a (head_or b n) /\ linked m b n.
Proof.
  induction a as [|x a IH]; cbn; [tauto|]. rewrite IH, head_or_app. tauto.
Qed.

Lemma tiled_le top l bot : tiled top l bot -> bot + 48 * zlen l <= top.
Proof.
  unfold zlen. revert top. induction l as [|x l IH]; intros top; cbn [tiled length]; [lia|].
  intros (<- & ? & _ & HT). specialize (IH _ HT). lia.
Qed.

Lemma tiled_in top l bot x :
  tiled top l bot -> x ∈ l ->
  bot <= sa x /\ sa x + 16 + ss x <= top /\ 32 <= ss x /\ ss x mod 8 = 0.
Proof.
  revert top. induction l as [|y l IH]; intros top; [set_solver|].
  intros (<- & Hs & Hm & HT) [->|Hin]%elem_of_cons.
  - pose proof (tiled_le _ _ _ HT). unfold zlen in *. lia.
  - specialize (IH _ HT Hin). lia.
Qed.

Lemma tiled_aligned top l bot x :
  tiled top l bot -> bot mod 8 = 0 -> x ∈ l -> sa x mod 8 = 0.
Proof.
  intros HT Hb [i Hi]%list_elem_of_lookup_1. revert top i HT Hi.
  assert (forall top l', tiled top l' bot -> top mod 8 = 0) as Htop.
  { intros top l'. revert top. induction l' as [|y l' IH]; intros top; cbn [tiled]; [by intros ->|].
    intros (<- & _ & Hm & HT). specialize (IH _ HT). lia. }
  induction l as [|y l IH]; intros top [|i] HT Hi; [done..| |]; destruct HT as (<- & _ & _ & HT).
  - injection Hi as ->. eauto.
  - eauto.
Qed.

(** Two segments of a tiling are the same or do not overlap. *)
Lemma tiled_disjoint top a x b bot y :
  tiled top (a ++ x :: b) bot -> y ∈ a ++ b ->
  sa x + 16 + ss x <= sa y \/ sa y + 16 + ss y <= sa x.
Proof.
  intros (mid & HA & Hx & _ & _ & HB)%tiled_app [Hin|Hin]%elem_of_app.
  - left. apply (tiled_in _ _ _ _ HA) in Hin. lia.
  - right. apply (tiled_in _ _ _ _ HB) in Hin. lia.
Qed.

Lemma tiled_fresh top a x b bot :
  tiled top (a ++ x :: b) bot -> sa x ∉ sa <$> (a ++ b).
Proof.
  intros HT (y & Hy & Hin)%list_elem_of_fmap.
  assert (x ∈ a ++ x :: b) as Hx by set_solver. apply (tiled_in _ _ _ _ HT) in Hx.
  assert (y ∈ a ++ x :: b) as Hyin by set_solver. apply (tiled_in _ _ _ _ HT) in Hyin.
  pose proof (tiled_disjoint _ _ _ _ _ _ HT Hin). lia.
Qed.

(** A write to the header of another segment. *)
Lemma linked_insert m l n a h : a ∉ sa <$> l -> linked (<[a := h]> m) l n <-> linked m l n.
Proof.
  induction l as [|x l IH]; [done|]. cbn. intros Ha.
  rewrite lookup_insert_ne by set_solver. rewrite IH by set_solver. tauto.
Qed.

Lemma linked_in m a x b n :
  linked m (a ++ x :: b) n -> m !! sa x = Some (SegHeader (head_or b n) (ss x) (Z.b2z (sf x))).
Proof. rewrite linked_app. by intros (_ & ? & _). Qed.

(** The successor of the last segment of [a] is changed from [n] to [n']. *)
Definition relink (m : gmap Z seg_header) (a : list seg) (n' : Z) : gmap Z seg_header :=
  match list.last a with
  | Some x => <[sa x := SegHeader n' (ss x) (Z.b2z (sf x))]> m
  | None => m
  end.

Lemma linked_relink m a n n' top bot :
  tiled top a bot -> linked m a n -> linked (relink m a n') a n'.
Proof.
  intros HT HL. destruct a as [|x a _] using rev_ind; [done|].
  unfold relink. rewrite last_snoc. apply linked_app in HL as [HL _].
  apply tiled_fresh in HT. rewrite app_nil_r in HT.
  rewrite linked_app. cbn [head_or]. split; [by rewrite linked_insert|].
  cbn. by rewrite lookup_insert_eq.
Qed.

Lemma linked_relink_other m a n' l n :
  (forall x, x ∈ a -> sa x ∉ sa <$> l) -> linked (relink m a n') l n <-> linked m l n.
Proof.
  intros Ha. unfold relink. destruct (list.last a) as [x|] eqn:E; [|done].
  apply linked_insert, Ha. by apply last_Some_elem_of in E.
Qed.

Lemma live_app a b : live (a ++ b) = live a ++ live b.
Proof. unfold live. by rewrite list.filter_app, fmap_app. Qed.

Lemma live_cons x l : live (x :: l) = (if sf x then [] else [(sa x + 16, ss x)]) ++ live l.
Proof. unfold live. rewrite list.filter_cons. by destruct (sf x). Qed.

Lemma live_in p n l :
  (p, n) ∈ live l <-> exists x, x ∈ l /\ sf x = false /\ p = sa x + 16 /\ n = ss x.
Proof.
  unfold live. rewrite list_elem_of_fmap. setoid_rewrite list_elem_of_filter. naive_solver.
Qed.

Lemma tiled_live_NoDup top l bot : tiled top l bot -> NoDup (live l).
Proof.
  revert top. induction l as [|x l IH]; intros top; [constructor|].
  intros (_ & Hs & _ & HT). rewrite live_cons. specialize (IH _ HT).
  destruct (sf x); [done|]. apply list.NoDup_cons. split; [|done].
  intros (y & Hy & _ & Ey & _)%live_in. apply (tiled_in _ _ _ _ HT) in Hy. lia.
Qed.

(** The payloads of two live blocks do not overlap. *)
Lemma live_disjoint top l bot p n rest q k :
  tiled top l bot -> live l ≡ₚ (p, n) :: rest -> (q, k) ∈ rest -> p + n <= q \/ q + k <= p.
Proof.
  intros HT Hl Hq. pose proof (tiled_live_NoDup _ _ _ HT) as Hnd. rewrite Hl in Hnd.
  apply list.NoDup_cons in Hnd as [Hnd _].
  assert ((p, n) ∈ live l) as (x & Hx & _ & -> & ->)%live_in by (rewrite Hl; set_solver).
  assert ((q, k) ∈ live l) as (y & Hy & _ & -> & ->)%live_in by (rewrite Hl; set_solver).
  apply list_elem_of_split in Hx as (a & b & ->).
  assert (y ∈ a ++ b) as Hy'.
  { apply elem_of_app in Hy as [?|[->|?]%elem_of_cons]; set_solver. }
  destruct (tiled_disjoint _ _ _ _ _ _ HT Hy'); [left|right]; lia.
Qed.

(** ** Reading a consistent heap *)

(** Two states that differ in nothing but the headers and the two counters. *)
Definition same_heap `{PageMapper P} (s s' : heap_state P) : Prop :=
  heap_size s' = heap_size s /\ heap_data s' = heap_data s /\ paging s' = paging s.

#[export] Instance same_heap_refl `{PageMapper P} : Reflexive (same_heap (P:=P)).
Proof. done. Qed.
#[export] Instance same_heap_trans `{PageMapper P} : Transitive (same_heap (P:=P)).
Proof. unfold same_heap. intros s1 s2 s3. naive_solver congruence. Qed.

Section Read.
Context `{PageMapper P}.
Implicit Types s : heap_state P.

Lemma heap_inv_upd s s' l l' :
  heap_inv s l -> same_heap s s' ->
  tiled (KERNEL_HEAP_BEGIN + heap_size s) l' KERNEL_HEAP_BEGIN -> linked (seg_mem s') l' 0 ->
  current_segment s' = head_or l' 0 -> heap_inv s' l'.
Proof.
  intros [] (E1 & E2 & E3) ? ? ?. constructor; rewrite ?E1, ?E3; done.
Qed.

(** The counters and the payload bytes do not matter. *)
Lemma heap_inv_frame s s' l :
  heap_inv s l -> heap_size s' = heap_size s -> paging s' = paging s -> seg_mem s' = seg_mem s ->
  current_segment s' = current_segment s -> heap_inv s' l.
Proof. intros [] E1 E2 E3 E4. constructor; rewrite ?E1, ?E2, ?E3, ?E4; done. Qed.

Lemma seg_bounds s l x : heap_inv s l -> x ∈ l ->
  KERNEL_HEAP_BEGIN <= sa x /\ sa x + 16 + ss x <= KERNEL_HEAP_BEGIN + heap_size s < 2 ^ 64 /\
  32 <= ss x < 2 ^ 32 /\ ss x mod 8 = 0.
Proof.
  intros Hi Hx. pose proof (tiled_in _ _ _ _ (hk_tiled _ _ Hi) Hx) as (A & B & C & D).
  pose proof (hk_size _ _ Hi). unfold HEAP_MAX, KERNEL_HEAP_BEGIN in *. lia.
Qed.

Lemma ld_seg_ok s a x b : heap_inv s (a ++ x :: b) ->
  ld_seg s (sa x) = Ok (SegHeader (head_or b 0) (ss x) (Z.b2z (sf x))).
Proof. intros Hi. unfold ld_seg. by rewrite (linked_in _ _ _ _ _ (hk_linked _ _ Hi)). Qed.

Lemma heap_assert_seg_ok s a x b : heap_inv s (a ++ x :: b) -> heap_assert_seg s (sa x) = Ok ().
Proof.
  intros Hi. pose proof (seg_bounds s _ x Hi ltac:(set_solver)) as (A & B & C & _).
  assert (0 < KERNEL_HEAP_BEGIN) as HB by (unfold KERNEL_HEAP_BEGIN; lia).
  unfold heap_assert_seg, heap_get_brk, assert_. unfold mbind, res_bind.
  rewrite (u64_small (KERNEL_HEAP_BEGIN + _)) by lia. rewrite (ld_seg_ok s a x b) by done. cbn.
  rewrite (u64_small (sa x + ss x)) by lia.
  destruct (Z.eqb_spec (sa x) 0); [lia|]. cbn.
  destruct (Z.ltb_spec (sa x) KERNEL_HEAP_BEGIN); [lia|].
  destruct (Z.leb_spec (KERNEL_HEAP_BEGIN + heap_size s) (sa x)); [lia|]. cbn.
  destruct (Z.ltb_spec (KERNEL_HEAP_BEGIN + heap_size s) (sa x + ss x)); [lia|].
  replace (Z.land (Z.b2z (sf x)) (u32 (Z.lnot 1)) =? 0) with true by (by destruct (sf x)). cbn.
  destruct b as [|y b]; [done|]. cbn.
  pose proof (seg_bounds s _ y Hi ltac:(set_solver)).
  destruct (Z.eqb_spec (sa y) 0); [done|]. cbn.
  destruct (Z.ltb_spec (sa y) KERNEL_HEAP_BEGIN); [lia|].
  destruct (Z.leb_spec (KERNEL_HEAP_BEGIN + heap_size s) (sa y)); [lia|done].
Qed.

Lemma seg_nonnull s a x b : heap_inv s (a ++ x :: b) -> (sa x =? 0) = false.
Proof.
  intros Hi. pose proof (seg_bounds s _ x Hi ltac:(set_solver)).
  unfold KERNEL_HEAP_BEGIN in *. lia.
Qed.

Lemma walk_fuel_enough s l : heap_inv s l -> (length l <= walk_fuel s)%nat.
Proof.
  intros Hi. pose proof (tiled_le _ _ _ (hk_tiled _ _ Hi)) as A.
  unfold walk_fuel, sizeof_seg_header, zlen in *. lia.
Qed.

(** Writing the successor of the last segment of [a], as the code does when it
    has that segment at hand. *)
Lemma st_next_last s a x n b : heap_inv s ((a ++ [x]) ++ b) ->
  st_next s (last_or_null (a ++ [x])) n =
    Ok (set_seg_mem s (relink (seg_mem s) (a ++ [x]) n)).
Proof.
  intros Hi. rewrite last_or_null_snoc. unfold st_next, relink. rewrite last_snoc.
  rewrite <- app_assoc in Hi. by rewrite (ld_seg_ok s a x b).
Qed.

Lemma last_null_iff s a b : heap_inv s (a ++ b) -> (last_or_null a =? 0) = true <-> a = [].
Proof.
  intros Hi. destruct a as [|x a _] using rev_ind; [done|].
  rewrite last_or_null_snoc, <- app_assoc in *. cbn in *. rewrite (seg_nonnull s a x b Hi).
  split; [done|]. by destruct a.
Qed.
End Read.

(** * [malloc], [free], [realloc] and [defragment]

    Each operation of [heap.c] refines an operation on the list of segments. *)


(** ** Operations on the list of segments *)

(** What becomes of a free segment when [size] bytes are taken from it. *)
Definition taken (size : Z) (x : seg) : list seg :=
  if size + 48 <=? ss x
  then [Seg (sa x + 16 + size) (ss x - size - 16) true; Seg (sa x) size false]
  else [Seg (sa x) (ss x) false].

(** First fit. *)
Fixpoint take_first (size : Z) (l : list seg) : option (list seg * Z) :=
  match l with
  | [] => None
  | x :: l' =>
      if sf x && (size <=? ss x) then Some (taken size x ++ l', sa x + 16)
      else match take_first size l' with
           | Some (l'', ptr) => Some (x :: l'', ptr)
           | None => None
           end
  end.

(** Merge adjacent free segments, from the top of the heap down. *)
Fixpoint merge (p : seg) (l : list seg) : list seg :=
  match l with
  | [] => [p]
  | x :: l' => if sf x && sf p then merge (Seg (sa x) (ss x + (16 + ss p)) true) l'
               else p :: merge x l'
  end.
Definition merge_all (l : list seg) : list seg :=
  match l with [] => [] | p :: l' => merge p l' end.

(** The size [malloc] works with. *)
Definition block_size (size : Z) : Z := Z.max 32 ((size + 7) / 8 * 8).

Lemma block_size_spec size : 0 <= size ->
  32 <= block_size size /\ block_size size mod 8 = 0 /\ size <= block_size size <= size + 39.
Proof. unfold block_size. lia. Qed.

(** ** Taking a segment *)

Lemma relink_id m a n : linked m a n -> relink m a n = m.
Proof.
  destruct a as [|x a _] using rev_ind; [done|]. unfold relink. rewrite last_snoc.
  intros HL%linked_in. by apply insert_id.
Qed.

Section Take.
Context `{PageMapper P}.
Implicit Types s : heap_state P.

(** Rewriting the size and the [free] field of a segment keeps the list linked. *)
Lemma set_header_linked s a x b n f : heap_inv s (a ++ x :: b) ->
  linked (<[sa x := SegHeader (head_or b 0) n (Z.b2z f)]> (seg_mem s))
    (a ++ Seg (sa x) n f :: b) 0.
Proof.
  intros Hi. pose proof (hk_linked _ _ Hi) as HL.
  pose proof (tiled_fresh _ _ _ _ _ (hk_tiled _ _ Hi)) as Hf. rewrite fmap_app in Hf.
  rewrite linked_app in HL |- *. destruct HL as (HA & _ & HB). cbn in HA, HB |- *.
  rewrite lookup_insert_eq. rewrite !linked_insert by set_solver. done.
Qed.

(** Setting the [free] field of a segment. *)
Lemma set_flag_ok s a x b f : heap_inv s (a ++ x :: b) ->
  heap_inv (st_seg s (sa x) (SegHeader (head_or b 0) (ss x) (Z.b2z f)))
    (a ++ Seg (sa x) (ss x) f :: b).
Proof.
  intros Hi. apply (heap_inv_upd s _ _ _ Hi); [done|..].
  - pose proof (hk_tiled _ _ Hi) as (mid & HA & HB)%tiled_app. apply tiled_app. by exists mid.
  - by apply set_header_linked.
  - cbn. rewrite (hk_head _ _ Hi). by rewrite !head_or_app.
Qed.

(** A new header inside a free segment: the address is not that of a header. *)
Lemma split_fresh top a x b bot n :
  tiled top (a ++ x :: b) bot -> sa x < n < sa x + 16 + ss x -> n ∉ sa <$> (a ++ x :: b).
Proof.
  intros HT Hn (y & -> & Hin)%list_elem_of_fmap.
  assert (y = x \/ y ∈ a ++ b) as [->|Hy] by set_solver; [lia|].
  pose proof (tiled_disjoint _ _ _ _ _ _ HT Hy).
  apply (tiled_in _ _ _ _ HT) in Hin. lia.
Qed.

Lemma split_tiled top a x b bot size :
  tiled top (a ++ x :: b) bot -> 32 <= size -> size mod 8 = 0 -> size + 48 <= ss x ->
  tiled top (a ++ Seg (sa x + 16 + size) (ss x - size - 16) true :: Seg (sa x) size (sf x) :: b) bot.
Proof.
  intros (mid & HA & Hx & _ & Hm & HB)%tiled_app ? ? ?. apply tiled_app. exists mid.
  split; [done|]. cbn. split_and!; lia || done.
Qed.

(** Memory after [split_segment]. *)
Lemma split_linked m top a x b bot size :
  let n := sa x + 16 + size in
  tiled top (a ++ x :: b) bot -> linked m (a ++ x :: b) 0 -> 0 < size -> size + 48 <= ss x ->
  linked (<[sa x := SegHeader (head_or b 0) size (Z.b2z (sf x))]>
            (<[n := SegHeader (sa x) (ss x - size - 16) 1]> (relink m a n)))
    (a ++ Seg n (ss x - size - 16) true :: Seg (sa x) size (sf x) :: b) 0.
Proof.
  intros n HT HL Hs Hle.
  pose proof (tiled_fresh _ _ _ _ _ HT) as Hx.
  pose proof (split_fresh _ _ _ _ _ n HT ltac:(lia)) as Hn.
  rewrite fmap_app in Hx, Hn. cbn in Hn.
  apply linked_app in HL as [HA [_ HB]]. cbn in HA.
  assert (n <> sa x) by lia.
  apply linked_app. cbn [head_or sa linked ss sf].
  rewrite (lookup_insert_ne _ (sa x) n), !lookup_insert_eq by done.
  rewrite !linked_insert by set_solver. split_and!; [|done|done|].
  - pose proof HT as (mid & HTa & _)%tiled_app. by eapply linked_relink.
  - apply linked_relink_other; [|done]. intros y Hy Hyb.
    apply list_elem_of_fmap in Hyb as (z & Hyz & Hz).
    apply tiled_app in HT as (mid & HTa & Hx' & _ & _ & HTb).
    apply (tiled_in _ _ _ _ HTa) in Hy. apply (tiled_in _ _ _ _ HTb) in Hz. lia.
Qed.

Lemma split_segment_ok s a x b size :
  heap_inv s (a ++ x :: b) -> 32 <= size -> size mod 8 = 0 -> size + 48 <= ss x ->
  let n := sa x + 16 + size in
  exists m', split_segment (last_or_null a) (sa x) size s = Ok (set_seg_mem s m', n) /\
    linked m' (a ++ Seg n (ss x - size - 16) true :: Seg (sa x) size (sf x) :: b) 0.
Proof.
  intros Hi H1 H2 H3 n. eexists. split.
  - pose proof (seg_bounds s _ x Hi ltac:(set_solver)) as (B1 & B2 & B3 & _).
    unfold split_segment, sizeof_seg_header. fold n. rewrite u64_small by (unfold KERNEL_HEAP_BEGIN in *; lia).
    pose proof (hk_tiled _ _ Hi) as HT. pose proof (tiled_fresh _ _ _ _ _ HT) as Hf.
    assert ((if last_or_null a =? 0 then Ok s else st_next s (last_or_null a) n) =
            Ok (set_seg_mem s (relink (seg_mem s) a n))) as ->.
    { destruct a as [|p a _] using rev_ind; [by destruct s|].
      rewrite <- (st_next_last s a p n (x :: b)) by done.
      destruct (last_or_null (a ++ [p]) =? 0) eqn:E; [|done].
      apply (last_null_iff s _ (x :: b)) in E; [|done]. by destruct a. }
    assert (relink (seg_mem s) a n !! sa x = seg_mem s !! sa x) as Hx.
    { unfold relink. destruct (list.last a) as [y|] eqn:E; [|done].
      apply last_Some_elem_of in E. apply lookup_insert_ne.
      rewrite fmap_app in Hf. set_solver. }
    pose proof (ld_seg_ok s a x b Hi) as Hld. unfold ld_seg in *. unfold mbind, res_bind.
    cbn [set_seg_mem seg_mem st_seg]. rewrite Hx. destruct (seg_mem s !! sa x) as [h|] eqn:Eh; [|done].
    injection Hld as ->. cbn [seg_size seg_next seg_free].
    rewrite lookup_insert_ne, Hx by lia. cbn [seg_size seg_next seg_free].
    rewrite !u32_small by lia. done.
  - eapply split_linked; try done; [apply Hi|apply Hi|lia].
Qed.

(** The state after one more allocation on the same region. *)
Definition allocated (s s' : heap_state P) : Prop :=
  same_heap s s' /\ n_allocations s' = u64 (n_allocations s + 1) /\ free_i s' = free_i s.

Lemma malloc_split_ok s a x b size :
  heap_inv s (a ++ x :: b) -> 32 <= size -> size mod 8 = 0 -> size + 48 <= ss x ->
  exists s', ('(s, new_seg) ← split_segment (last_or_null a) (sa x) size s;
     if last_or_null a =? 0 then Ok (set_current s new_seg)
     else st_next s (last_or_null a) new_seg) = Ok s' /\
    heap_inv s' ((a ++ [Seg (sa x + 16 + size) (ss x - size - 16) true]) ++
                 Seg (sa x) size (sf x) :: b) /\
    same_heap s s' /\ n_allocations s' = n_allocations s /\ free_i s' = free_i s.
Proof.
  intros Hi H1 H2 H3.
  destruct (split_segment_ok s a x b size) as (m' & -> & HL); [done..|].
  pose proof (split_tiled _ _ _ _ _ size (hk_tiled _ _ Hi) H1 H2 H3) as HT.
  set (n := sa x + 16 + size) in *. set (l' := a ++ _) in HL, HT.
  replace ((a ++ [_]) ++ _) with l' by (unfold l'; by rewrite <- app_assoc).
  pose proof (last_null_iff s a (x :: b) Hi) as Hnull.
  unfold mbind, res_bind. destruct (last_or_null a =? 0).
  - pose proof (proj1 Hnull eq_refl) as ->. eexists. split; [done|]. split; [|done].
    by apply (heap_inv_upd s _ _ _ Hi); unfold l'.
  - assert (heap_inv (set_seg_mem s m') l') as Hi'.
    { apply (heap_inv_upd s _ _ _ Hi); try done.
      cbn. rewrite (hk_head _ _ Hi). unfold l'. destruct a; [|done]. by specialize (proj2 Hnull eq_refl). }
    destruct a as [|p a _] using rev_ind; [by specialize (proj2 Hnull eq_refl)|].
    rewrite (st_next_last _ a p n _ Hi'). eexists. split; [done|].
    rewrite relink_id; [done|]. cbn. apply linked_app in HL. apply HL.
Qed.

Lemma malloc_take_ok s a x b size :
  heap_inv s (a ++ x :: b) -> sf x = true -> 32 <= size -> size mod 8 = 0 -> size <= ss x ->
  exists s', malloc_take size (sa x) (last_or_null a) s = Ok (s', sa x + 16) /\
    heap_inv s' (a ++ taken size x ++ b) /\ allocated s s'.
Proof.
  intros Hi Hf H1 H2 H3. pose proof (seg_bounds s _ x Hi ltac:(set_solver)) as (B1 & B2 & B3 & _).
  unfold malloc_take, sizeof_seg_header, MIN_SEGMENT_SIZE.
  rewrite (ld_seg_ok s a x b Hi). unfold mbind at 1, res_bind at 1. cbn [seg_size].
  rewrite !u64_small by (unfold KERNEL_HEAP_BEGIN in *; lia). unfold taken.
  replace (size + 16 + 32) with (size + 48) by lia.
  destruct (Z.leb_spec (size + 48) (ss x)).
  - destruct (malloc_split_ok s a x b size) as (s1 & -> & Hi1 & Hs & Ha & Hfi); [done..|].
    set (N := Seg (sa x + 16 + size) _ true) in *.
    set (X := Seg (sa x) size (sf x)) in *.
    change (sa x) with (sa X). unfold mbind, res_bind. rewrite (ld_seg_ok s1 _ X b Hi1).
    eexists. split; [done|]. split; [|unfold allocated; cbn; by rewrite Ha, Hfi].
    pose proof (set_flag_ok s1 (a ++ [N]) X b false Hi1) as Hi2.
    rewrite <- app_assoc in Hi2. by apply (heap_inv_frame _ _ _ Hi2).
  - unfold mbind, res_bind. rewrite (ld_seg_ok s a x b Hi). eexists. split; [done|].
    split; [|done]. by apply (heap_inv_frame _ _ _ (set_flag_ok s a x b false Hi)).
Qed.

Lemma malloc_walk_ok fuel size a b s :
  heap_inv s (a ++ b) -> 32 <= size -> size mod 8 = 0 -> (length b <= fuel)%nat ->
  match take_first size b with
  | None => malloc_walk fuel size (head_or b 0) (last_or_null a) s = Ok None
  | Some (b', ptr) => exists s',
      malloc_walk fuel size (head_or b 0) (last_or_null a) s = Ok (Some (s', ptr)) /\
      heap_inv s' (a ++ b') /\ allocated s s'
  end.
Proof.
  revert a fuel. induction b as [|x b IH]; intros a fuel Hi H1 H2 Hf.
  - by destruct fuel.
  - destruct fuel as [|fuel]; [cbn in Hf; lia|]. cbn [take_first head_or malloc_walk].
    rewrite (seg_nonnull s a x b Hi), (heap_assert_seg_ok s a x b Hi), (ld_seg_ok s a x b Hi).
    unfold mbind, res_bind. cbn [seg_free seg_size seg_next].
    destruct (sf x && (size <=? ss x)) eqn:Efit.
    + apply andb_true_iff in Efit as [Hfr Hle]. rewrite Hfr.
      replace (ss x <? size) with false by lia. cbn.
      destruct (malloc_take_ok s a x b size) as (s' & E & Hi' & Ha); [done..|lia|].
      exists s'. rewrite E. done.
    + replace ((Z.b2z (sf x) =? 0) || (ss x <? size)) with true
        by (destruct (sf x); cbn in *; lia).
      specialize (IH (a ++ [x]) fuel). rewrite last_or_null_snoc, <- app_assoc in IH.
      specialize (IH Hi H1 H2 ltac:(cbn in Hf; lia)).
      destruct (take_first size b) as [[b' ptr]|]; [|done].
      destruct IH as (s' & E & Hi' & Ha). exists s'. rewrite <- app_assoc in Hi'. done.
Qed.
End Take.
