(* ===== verification/HeapMalloc.v ===== *)
(** * [expand_heap], [heap_init] and [malloc] *)

From S2P Require Import Prelude Interfaces Heap HeapSpec.





(** Pages the heap occupies when it has [size] bytes. *)
Definition heap_pages (size : Z) : Z := (size + 0xfff) / 0x1000.

(** The bytes by which [malloc] expands the heap for a block of [size] bytes. *)
Definition expansion (size : Z) : Z := Z.max (block_size size + 16) MIN_EXPAND_SIZE.

(** [malloc] on the list of segments of a heap that ends at [top]. *)
Definition heap_malloc (size top : Z) (l : list seg) : list seg * Z :=
  match take_first (block_size size) l with
  | Some r => r
  | None => (taken (block_size size) (Seg top (expansion size - 16) true) ++ l, top + 16)
  end.

Lemma taken_live size x l : sf x = true -> size <= ss x ->
  exists n, size <= n /\ live (taken size x ++ l) ≡ₚ (sa x + 16, n) :: live l.
Proof.
  intros Hf Hs. unfold taken. destruct (size + 48 <=? ss x).
  - exists size. done.
  - exists (ss x). done.
Qed.

Lemma take_first_live size l l' ptr : take_first size l = Some (l', ptr) ->
  exists n, size <= n /\ live l' ≡ₚ (ptr, n) :: live l.
Proof.
  revert l'. induction l as [|x l IH]; intros l'; [done|]. cbn [take_first].
  destruct (sf x && (size <=? ss x)) eqn:E.
  - intros [= <- <-]. apply andb_true_iff in E as [Hf Hs].
    destruct (taken_live size x l Hf ltac:(lia)) as (n & Hn & Hp). exists n. split; [done|].
    by rewrite Hp, live_cons, Hf.
  - destruct (take_first size l) as [[l1 p1]|]; [|done]. intros [= <- <-].
    destruct (IH l1 eq_refl) as (n & Hn & Hp). exists n. split; [done|].
    rewrite !live_cons, Hp. by rewrite Permutation_middle.
Qed.

Section Malloc.
Context `{PageMapper P}.
Implicit Types s : heap_state P.

(** The paging layer serves an expansion by [size] bytes, which leads to [p']. *)
Definition grows (size : Z) (s : heap_state P) (p' : P) : Prop :=
  let old := heap_pages (heap_size s) in
  let new := heap_pages (heap_size s + size) in
  if new =? old then p' = paging s
  else alloc_pages (KERNEL_HEAP_BEGIN + old * 0x1000) (new - old) HEAP_PAGE_FLAGS (paging s)
       = Ok p'.

Definition can_grow (size : Z) (s : heap_state P) : Prop := exists p', grows size s p'.

Lemma heap_inv_size s l : heap_inv s l -> 48 * zlen l <= heap_size s < HEAP_MAX.
Proof.
  intros Hi. pose proof (tiled_le _ _ _ (hk_tiled _ _ Hi)). pose proof (hk_size _ _ Hi). lia.
Qed.

(** All pages of the bigger heap are mapped. *)
Lemma grows_pages size s l p' : heap_inv s l -> 0 <= size -> grows size s p' ->
  forall v, KERNEL_HEAP_BEGIN / 0x1000 <= v ->
    v * 0x1000 < KERNEL_HEAP_BEGIN + (heap_size s + size) -> mapped p' v.
Proof.
  intros Hi Hs Hg v Hv Hlt. pose proof (heap_inv_size s l Hi) as Hsz.
  pose proof (zlen_nonneg l). pose proof (hk_pages _ _ Hi v Hv) as Hold.
  unfold grows, heap_pages in Hg. unfold KERNEL_HEAP_BEGIN in *.
  destruct (Z.eqb_spec ((heap_size s + size + 0xfff) / 0x1000) ((heap_size s + 0xfff) / 0x1000)).
  - subst p'. apply Hold. lia.
  - eapply alloc_pages_mapped; [|..|exact Hg|]; [lia..|].
    destruct (decide (v * 0x1000 < 0xffffffff80300000 + heap_size s)) as [Hc|Hc]; [auto|].
    right. lia.
Qed.

Lemma expand_heap_ok size s l p' :
  heap_inv s l -> 48 <= size -> size mod 8 = 0 -> heap_size s + size < HEAP_MAX ->
  grows size s p' ->
  exists s', expand_heap size s = Ok s' /\
    heap_inv s' (Seg (KERNEL_HEAP_BEGIN + heap_size s) (size - 16) true :: l) /\
    heap_size s' = heap_size s + size /\ heap_data s' = heap_data s /\
    n_allocations s' = n_allocations s /\ free_i s' = free_i s /\ paging s' = p'.
Proof.
  intros Hi H1 H2 H3 Hg. pose proof (heap_inv_size s l Hi). pose proof (zlen_nonneg l).
  unfold HEAP_MAX in *. assert (KERNEL_HEAP_BEGIN = 0xffffffff80300000) as EB by done.
  pose proof (grows_pages size s l p' Hi ltac:(lia) Hg) as Hpg.
  unfold expand_heap, sizeof_seg_header.
  rewrite (u64_small (heap_size s + size + 0xfff)), (u64_small (heap_size s + 0xfff)) by lia.
  rewrite !Z.shiftr_div_pow2 by lia. change (2 ^ 12) with 0x1000.
  fold (heap_pages (heap_size s + size)) (heap_pages (heap_size s)). unfold grows in Hg.
  assert (0 <= heap_pages (heap_size s) <= heap_pages (heap_size s + size)) as Hle
    by (unfold heap_pages; lia).
  assert (heap_pages (heap_size s + size) <= 2 ^ 31) as Hle2 by (unfold heap_pages; lia).
  rewrite Z.shiftl_mul_pow2 by lia. change (2 ^ 12) with 0x1000.
  assert (heap_pages (heap_size s) * 0x1000 < 2 ^ 31) by (unfold heap_pages; lia).
  rewrite (u64_small (heap_pages (heap_size s) * 0x1000)) by lia.
  rewrite (u64_small (KERNEL_HEAP_BEGIN + heap_pages _ * _)) by (unfold heap_pages in *; lia).
  rewrite (u64_small (heap_pages (heap_size s + size) - _)) by lia.
  assert ((if negb (heap_pages (heap_size s + size) =? heap_pages (heap_size s))
     then alloc_pages (KERNEL_HEAP_BEGIN + heap_pages (heap_size s) * 4096)
            (heap_pages (heap_size s + size) - heap_pages (heap_size s)) HEAP_PAGE_FLAGS (paging s)
     else Ok (paging s)) = Ok p') as ->
    by (destruct (heap_pages _ =? heap_pages _); cbn; congruence).
  unfold mbind, res_bind.
  rewrite (u64_small (KERNEL_HEAP_BEGIN + heap_size s)) by lia.
  rewrite (u32_small (size - 16)), (u64_small (heap_size s + size)) by lia.
  eexists. split; [done|]. split; [|done].
  pose proof (hk_tiled _ _ Hi) as HT.
  constructor; cbn [heap_size seg_mem current_segment paging].
  - cbn. split_and!; [lia..|done].
  - cbn. rewrite lookup_insert_eq. split; [by rewrite (hk_head _ _ Hi)|].
    apply linked_insert; [|apply Hi]. intros (y & Hy & Hin)%list_elem_of_fmap.
    apply (tiled_in _ _ _ _ HT) in Hin. lia.
  - done.
  - unfold HEAP_MAX. lia.
  - done.
Qed.

Lemma malloc_size size : 0 <= size < 2 ^ 32 ->
  (let sz := u64 (u64 (size + 7) / 8 * 8) in
   if sz <? MIN_SEGMENT_SIZE then MIN_SEGMENT_SIZE else sz) = block_size size.
Proof.
  intros Hs. unfold block_size, MIN_SEGMENT_SIZE. cbv zeta.
  rewrite (u64_small (size + 7)), u64_small by lia.
  destruct (Z.ltb_spec ((size + 7) / 8 * 8) 32); lia.
Qed.

Lemma block_size_idem size : 0 <= size -> block_size (block_size size) = block_size size.
Proof. intros Hs. pose proof (block_size_spec size Hs). unfold block_size at 1. lia. Qed.

(** One pass over the list: first fit, or the expansion and another pass. *)
Lemma malloc_rec_step depth size s l : heap_inv s l -> 0 <= size < 2 ^ 32 ->
  match take_first (block_size size) l with
  | Some (l', ptr) => exists s',
      malloc_rec (S depth) size s = Ok (s', ptr) /\ heap_inv s' l' /\ allocated s s'
  | None => malloc_rec (S depth) size s =
      (s ← expand_heap (expansion size) s; malloc_rec depth (block_size size) s)
  end.
Proof.
  intros Hi Hs. cbn [malloc_rec]. pose proof (block_size_spec size ltac:(lia)) as (B1 & B2 & B3).
  rewrite malloc_size by done.
  pose proof (malloc_walk_ok (walk_fuel s) (block_size size) [] l s Hi B1 B2
    (walk_fuel_enough s l Hi)) as W.
  rewrite (hk_head _ _ Hi). change (last_or_null []) with 0 in W.
  destruct (take_first (block_size size) l) as [[l' ptr]|].
  - destruct W as (s' & -> & Hi' & Ha). by exists s'.
  - rewrite W. unfold mbind, res_bind. unfold expansion, sizeof_seg_header.
    rewrite u64_small by lia.
    replace (if MIN_EXPAND_SIZE <=? block_size size + 16 then block_size size + 16
             else MIN_EXPAND_SIZE) with (Z.max (block_size size + 16) MIN_EXPAND_SIZE); [done|].
    unfold MIN_EXPAND_SIZE. zb.
Qed.

Lemma malloc_ok size s l :
  heap_inv s l -> 0 <= size -> heap_size s + expansion size < HEAP_MAX ->
  (take_first (block_size size) l = None -> can_grow (expansion size) s) ->
  let '(l', ptr) := heap_malloc size (KERNEL_HEAP_BEGIN + heap_size s) l in
  exists s', malloc size s = Ok (s', ptr) /\ heap_inv s' l' /\
    n_allocations s' = u64 (n_allocations s + 1) /\ free_i s' = free_i s /\
    heap_data s' = heap_data s /\
    heap_size s' = heap_size s +
      (if take_first (block_size size) l then 0 else expansion size).
Proof.
  intros Hi Hs Hm Hg. pose proof (block_size_spec size Hs) as (B1 & B2 & B3).
  assert (expansion size mod 8 = 0 /\ 48 <= expansion size /\ block_size size + 16 <= expansion size)
    as (E1 & E2 & E3) by (unfold expansion, MIN_EXPAND_SIZE; lia).
  pose proof (heap_inv_size s l Hi). pose proof (zlen_nonneg l).
  assert (0 <= size < 2 ^ 32) as Hs2 by (unfold HEAP_MAX, KERNEL_HEAP_BEGIN in *; lia).
  pose proof (malloc_rec_step 1 size s l Hi Hs2) as Hstep. unfold heap_malloc, malloc.
  destruct (take_first (block_size size) l) as [[l' ptr]|].
  - destruct Hstep as (s' & -> & Hi' & (S1 & S2 & S3) & A1 & A2). exists s'. split_and!; try done. lia.
  - rewrite Hstep. destruct Hg as [p' Hg]; [done|]. unfold mbind, res_bind.
    destruct (expand_heap_ok _ s l p' Hi E2 E1 Hm Hg)
      as (s1 & -> & Hi1 & F1 & F2 & F3 & F4 & _).
    pose proof (malloc_rec_step 0 (block_size size) s1 _ Hi1) as Hstep1.
    rewrite block_size_idem in Hstep1 by done. cbn [take_first sf ss andb sa] in Hstep1.
    replace (block_size size <=? expansion size - 16) with true in Hstep1 by lia.
    destruct Hstep1 as (s' & -> & Hi' & (S1 & S2 & S3) & A1 & A2);
      [unfold HEAP_MAX, KERNEL_HEAP_BEGIN in *; lia|].
    exists s'. split_and!; congruence.
Qed.

Lemma heap_malloc_live size top l l' ptr : 0 <= size -> heap_malloc size top l = (l', ptr) ->
  exists n, size <= n /\ live l' ≡ₚ (ptr, n) :: live l.
Proof.
  intros Hs. pose proof (block_size_spec size Hs) as (B1 & B2 & B3). unfold heap_malloc.
  destruct (take_first _ _) as [[l1 p1]|] eqn:E; intros [= <- <-].
  - destruct (take_first_live _ _ _ _ E) as (n & ? & ?). exists n. split; [lia|done].
  - destruct (taken_live (block_size size) (Seg top (expansion size - 16) true) l eq_refl)
      as (n & ? & ?); [unfold expansion; cbn; lia|]. exists n. split; [lia|done].
Qed.

(** What a live block of a consistent heap satisfies. *)
Lemma live_block s l ptr n : heap_inv s l -> (ptr, n) ∈ live l ->
  ptr mod 8 = 0 /\ KERNEL_HEAP_BEGIN < ptr /\ ptr + n <= KERNEL_HEAP_BEGIN + heap_size s /\
  forall a, ptr <= a < ptr + n -> mapped (paging s) (a / 0x1000).
Proof.
  intros Hi (x & Hx & _ & -> & ->)%live_in.
  pose proof (tiled_aligned _ _ _ _ (hk_tiled _ _ Hi) eq_refl Hx).
  pose proof (seg_bounds _ _ _ Hi Hx) as (A & B & C & D). split_and!; try lia.
  intros a Ha. apply (hk_pages _ _ Hi); unfold KERNEL_HEAP_BEGIN in *; lia.
Qed.

Lemma live_count s l : heap_inv s l -> zlen (live l) <= zlen l < 2 ^ 32.
Proof.
  intros Hi. pose proof (heap_inv_size s l Hi). split; [|unfold HEAP_MAX, KERNEL_HEAP_BEGIN in *; lia].
  unfold zlen, live. rewrite length_fmap. pose proof (length_filter (fun x => sf x = false) l). lia.
Qed.
End Malloc.

(** C5: [malloc] on a consistent heap returns whenever the paging layer can back the
    expansion (needed only if no free segment is big enough): after at most one
    expansion it hands out an 8-byte aligned block of at least [size] mapped bytes
    inside the heap, disjoint from every live block; all other live blocks and
    the contents of memory are unchanged, and the heap is consistent again. *)
Theorem malloc_correct `{PageMapper P} (s : heap_state P) l size :
  heap_ok s l -> 0 <= size -> heap_size s + expansion size < HEAP_MAX ->
  (take_first (block_size size) l = None -> can_grow (expansion size) s) ->
  exists s' l' ptr n, malloc size s = Ok (s', ptr) /\ heap_ok s' l' /\
    size <= n /\ live l' ≡ₚ (ptr, n) :: live l /\
    ptr mod 8 = 0 /\ KERNEL_HEAP_BEGIN < ptr /\ ptr + n <= KERNEL_HEAP_BEGIN + heap_size s' /\
    (forall a, ptr <= a < ptr + n -> mapped (paging s') (a / 0x1000)) /\
    (forall q k, (q, k) ∈ live l -> ptr + n <= q \/ q + k <= ptr) /\
    heap_data s' = heap_data s /\ heap_size s <= heap_size s' <= heap_size s + expansion size.
Proof.
  intros (Hi & Hne & Hc) Hs Hm Hg. pose proof (malloc_ok size s l Hi Hs Hm Hg) as Hok.
  destruct (heap_malloc size _ l) as [l' ptr] eqn:E.
  destruct Hok as (s' & E' & Hi' & A & B & C & D).
  destruct (heap_malloc_live _ _ _ _ _ Hs E) as (n & Hn & Hl).
  assert ((ptr, n) ∈ live l') as Hin by (rewrite Hl; set_solver).
  pose proof (live_block s' l' ptr n Hi' Hin) as (L1 & L2 & L3 & L4).
  exists s', l', ptr, n. split_and!; try done.
  - split_and!; [done|intros ->; by apply elem_of_nil in Hin|].
    rewrite A, Hc. rewrite u64_small; [unfold zlen; by rewrite Hl, length_cons, Nat2Z.inj_succ|].
    pose proof (live_count s l Hi). pose proof (zlen_nonneg (live l)). lia.
  - intros q k. by eapply live_disjoint; [apply Hi'|].
  - rewrite D. destruct (take_first _ _); unfold expansion, MIN_EXPAND_SIZE; lia.
  - rewrite D. destruct (take_first _ _); unfold expansion, MIN_EXPAND_SIZE; lia.
Qed.

(** [heap_init] on the static initial state, when a first page can be mapped,
    yields a consistent heap: one free segment of 1008 bytes, no live block. *)
Theorem heap_init_correct `{PageMapper P} (p p' : P) d :
  alloc_pages KERNEL_HEAP_BEGIN 1 HEAP_PAGE_FLAGS p = Ok p' ->
  exists s', heap_init (HeapState 0 0 0 0 ∅ d p) = Ok s' /\
    heap_ok s' [Seg KERNEL_HEAP_BEGIN 1008 true] /\ heap_get_size s' = 1024 /\
    heap_get_n_allocation s' = 0 /\ heap_get_brk s' = KERNEL_HEAP_BEGIN + 1024.
Proof.
  intros Hp.
  assert (heap_inv (HeapState 0 0 0 0 ∅ d p) []) as Hi.
  { constructor; try done. intros v Hv Hlt. cbn in Hlt. unfold KERNEL_HEAP_BEGIN in *. lia. }
  destruct (expand_heap_ok 1024 _ [] p' Hi) as (s' & E & Hi' & S & D & A & F & _); try done.
  exists s'. split; [done|]. unfold heap_get_brk, heap_get_size, heap_get_n_allocation.
  rewrite S. split_and!; done.
Qed.
