(* ===== verification/HeapFree.v ===== *)
(** * [defragment], [free], [realloc] and [is_in_heap] *)

From S2P Require Import Prelude Interfaces Heap HeapSpec HeapMalloc.





(** No two neighbours are both free. *)
Fixpoint no_adjacent_free (l : list seg) : Prop :=
  match l with
  | x :: (y :: _) as l' => sf x && sf y = false /\ no_adjacent_free l'
  | _ => True
  end.

(** ** Merging on the list of segments *)

Lemma live_merge p l : live (merge p l) = live (p :: l).
Proof.
  revert p. induction l as [|x l IH]; intros p; [done|]. cbn [merge].
  destruct (sf x && sf p) eqn:E.
  - apply andb_true_iff in E as [E1 E2]. rewrite IH, !live_cons, E1, E2. done.
  - by rewrite live_cons, IH, (live_cons p).
Qed.

Lemma merge_head p l : exists y l', merge p l = y :: l' /\ sf y = sf p.
Proof.
  revert p. induction l as [|x l IH]; intros p; [by eexists _, _|]. cbn [merge].
  destruct (sf x && sf p) eqn:E; [|by eexists _, _].
  apply andb_true_iff in E as [_ E]. rewrite E. apply (IH (Seg _ _ true)).
Qed.

Lemma merge_no_adjacent p l : no_adjacent_free (merge p l).
Proof.
  revert p. induction l as [|x l IH]; intros p; [done|]. cbn [merge].
  destruct (sf x && sf p) eqn:E; [apply IH|]. specialize (IH x).
  destruct (merge_head x l) as (y & l' & Hy & Hf). rewrite Hy in *. split; [|done].
  rewrite Hf. by rewrite andb_comm.
Qed.

(** Without live blocks one free segment is left. *)
Lemma merge_all_free p l : live (p :: l) = [] ->
  exists x, merge p l = [x] /\ sf x = true.
Proof.
  rewrite <- live_merge. pose proof (merge_no_adjacent p l) as Hn.
  destruct (merge_head p l) as (x & [|y l'] & E & _); rewrite E in *; clear E; rewrite live_cons.
  - intros E. exists x. split; [done|]. by destruct (sf x).
  - destruct Hn as [Hn _]. rewrite live_cons. by destruct (sf x), (sf y).
Qed.

Section Defragment.
Context `{PageMapper P}.
Implicit Types s : heap_state P.

(** Same region and counters. *)
Definition reorganised (s s' : heap_state P) : Prop :=
  same_heap s s' /\ n_allocations s' = n_allocations s /\ free_i s' = free_i s.

#[local] Instance reorganised_trans : Transitive reorganised.
Proof. unfold reorganised, same_heap. intros ? ? ?. naive_solver congruence. Qed.

(** One merge step, with the relinking that precedes it. *)
Lemma merge_step s a p x b :
  heap_inv s (a ++ p :: x :: b) -> sf x = true -> sf p = true ->
  exists s1, (if last_or_null a =? 0 then Ok (set_current s (sa x))
              else st_next s (last_or_null a) (sa x)) = Ok s1 /\
    ld_seg s1 (sa x) = Ok (SegHeader (head_or b 0) (ss x) 1) /\
    heap_inv (st_seg s1 (sa x) (SegHeader (head_or b 0) (ss x + (16 + ss p)) 1))
      (a ++ Seg (sa x) (ss x + (16 + ss p)) true :: b) /\
    reorganised s s1.
Proof.
  intros Hi Hx Hp. pose proof (hk_tiled _ _ Hi) as HT. pose proof (hk_linked _ _ Hi) as HL.
  pose proof (last_null_iff s a (p :: x :: b) Hi) as Hnull.
  exists (if last_or_null a =? 0 then set_current s (sa x)
          else set_seg_mem s (relink (seg_mem s) a (sa x))).
  apply tiled_app in HT as (mid & HTa & Hp1 & Hp0 & Hp2 & Hx1 & Hx0 & Hx2 & HTb).
  apply linked_app in HL as (HLa & _ & HLx & HLb).
  assert (sa x ∉ sa <$> a) as Fa.
  { intros (y & Hy & Hin)%list_elem_of_fmap. apply (tiled_in _ _ _ _ HTa) in Hin. lia. }
  assert (sa x ∉ sa <$> b) as Fb.
  { intros (y & Hy & Hin)%list_elem_of_fmap. apply (tiled_in _ _ _ _ HTb) in Hin. lia. }
  assert (forall y, y ∈ a -> sa y ∉ sa <$> x :: b) as Fab.
  { intros y Hy (z & Hz & Hin)%list_elem_of_fmap. apply (tiled_in _ _ _ _ HTa) in Hy.
    assert (sa z <= sa x); [|lia]. apply elem_of_cons in Hin as [->|Hin]; [lia|].
    apply (tiled_in _ _ _ _ HTb) in Hin. lia. }
  assert (linked (relink (seg_mem s) a (sa x)) (x :: b) 0) as HLxb
    by (by apply linked_relink_other).
  split; [|split; [|split]].
  - destruct a as [|y a _] using rev_ind; [done|].
    rewrite (st_next_last s a y _ _ Hi). by destruct (last_or_null _ =? 0).
  - unfold ld_seg. destruct HLxb as [E _]. rewrite Hx in *. cbn in E, HLx.
    destruct (last_or_null a =? 0); cbn; [by rewrite HLx|by rewrite E].
  - apply (heap_inv_upd s _ _ _ Hi).
    + by destruct (last_or_null a =? 0).
    + apply tiled_app. exists mid. split; [done|]. cbn. split_and!; [lia..|done].
    + apply linked_app. cbn. rewrite lookup_insert_eq, !linked_insert by done. cbn.
      split_and!; [|done|].
      * destruct a as [|y a _] using rev_ind; [done|].
        assert ((last_or_null (a ++ [y]) =? 0) = false) as ->.
        { apply not_true_iff_false. intros E%Hnull. by destruct a. }
        cbn [seg_mem set_seg_mem]. by eapply linked_relink.
      * destruct (last_or_null a =? 0); cbn; [done|apply HLxb].
    + destruct (last_or_null a =? 0).
      * by pose proof (proj1 Hnull eq_refl) as ->.
      * cbn. rewrite (hk_head _ _ Hi). destruct a; [by specialize (proj2 Hnull eq_refl)|done].
  - by destruct (last_or_null a =? 0).
Qed.

Lemma defragment_loop_ok fuel a p b s :
  heap_inv s (a ++ p :: b) -> (length b <= fuel)%nat ->
  exists s', defragment_loop fuel (last_or_null a) (sa p) (head_or b 0) s = Ok s' /\
    heap_inv s' (a ++ merge p b) /\ reorganised s s'.
Proof.
  revert fuel a p s. induction b as [|x b IH]; intros fuel a p s Hi Hf.
  - exists s. by destruct fuel.
  - destruct fuel as [|fuel]; [cbn in Hf; lia|]. cbn in Hf.
    assert (heap_inv s ((a ++ [p]) ++ x :: b)) as Hi1 by (by rewrite <- app_assoc).
    cbn [head_or defragment_loop merge].
    rewrite (seg_nonnull s _ x b Hi1), (heap_assert_seg_ok s _ x b Hi1), (ld_seg_ok s _ x b Hi1),
      (ld_seg_ok s a p (x :: b) Hi).
    unfold mbind, res_bind. cbn [seg_free seg_size seg_next].
    replace (negb (Z.b2z (sf x) =? 0) && negb (Z.b2z (sf p) =? 0)) with (sf x && sf p)
      by (by destruct (sf x), (sf p)).
    destruct (sf x && sf p) eqn:E.
    + apply andb_true_iff in E as [Ex Ep].
      destruct (merge_step s a p x b Hi Ex Ep) as (s1 & -> & -> & Hi2 & Hr).
      cbn [seg_free seg_size seg_next]. unfold sizeof_seg_header.
      pose proof (seg_bounds _ _ (Seg (sa x) (ss x + (16 + ss p)) true) Hi2 ltac:(set_solver)) as Hb.
      cbn in Hb. rewrite u32_small by lia.
      destruct (IH fuel a (Seg (sa x) (ss x + (16 + ss p)) true) _ Hi2 ltac:(lia))
        as (s' & E & Hi' & Hr'). exists s'. split_and!; [done..|].
      etrans; [exact Hr|exact Hr'].
    + destruct (IH fuel (a ++ [p]) x s Hi1 ltac:(lia)) as (s' & E' & Hi' & Hr').
      rewrite last_or_null_snoc in E'. rewrite <- app_assoc in Hi'. by exists s'.
Qed.

Lemma defragment_ok s l : heap_inv s l -> l <> [] ->
  exists s', defragment s = Ok s' /\ heap_inv s' (merge_all l) /\ reorganised s s'.
Proof.
  intros Hi Hne. destruct l as [|p l]; [done|]. unfold defragment, assert_.
  rewrite (hk_head _ _ Hi). cbn [head_or]. rewrite (seg_nonnull s [] p l Hi).
  unfold mbind, res_bind. cbn. rewrite (ld_seg_ok s [] p l Hi).
  apply (defragment_loop_ok _ [] p l s Hi). pose proof (walk_fuel_enough s _ Hi) as Hf. cbn in Hf. lia.
Qed.
End Defragment.

(** C8: [heap_defragment] returns on every consistent heap and leaves no two
    neighbouring free segments; the live blocks, their order and the contents of
    memory do not change. *)
Theorem heap_defragment_correct `{PageMapper P} (s : heap_state P) l :
  heap_ok s l ->
  exists s' l', heap_defragment s = Ok s' /\ heap_ok s' l' /\ no_adjacent_free l' /\
    live l' = live l /\ heap_data s' = heap_data s /\ heap_size s' = heap_size s /\
    (live l = [] -> l' = [Seg KERNEL_HEAP_BEGIN (heap_size s - 16) true]).
Proof.
  intros (Hi & Hne & Hc). destruct (defragment_ok s l Hi Hne) as (s' & E & Hi' & (S1 & S2 & S3) & Hn & _).
  exists s', (merge_all l). destruct l as [|p l]; [done|]. cbn [merge_all] in *.
  rewrite <- (live_merge p l) in Hc. destruct (merge_head p l) as (y & l' & Hy & _).
  split_and!; try done.
  - split_and!; [done|by rewrite Hy|congruence].
  - apply merge_no_adjacent.
  - apply live_merge.
  - intros (x & Hx & Hf)%merge_all_free. rewrite Hx in *.
    destruct (hk_tiled _ _ Hi') as (T1 & _ & _ & T2). cbn in T2.
    destruct x as [a n f]. cbn in *. subst. f_equal. f_equal. lia.
Qed.

(** ** [free] *)

Section Free.
Context `{PageMapper P}.
Implicit Types s : heap_state P.

Lemma live_split l p n : (p, n) ∈ live l ->
  exists a b, l = a ++ Seg (p - 16) n false :: b.
Proof.
  intros ([x n' f] & Hx & Hf & -> & ->)%live_in. cbn in *. subst f.
  replace (x + 16 - 16) with x by lia. by apply list_elem_of_split in Hx.
Qed.

Lemma header_addr s a x b : heap_inv s (a ++ x :: b) ->
  u64 (sa x + 16 - sizeof_seg_header) = sa x /\ 0 < sa x.
Proof.
  intros Hi. pose proof (seg_bounds s _ x Hi ltac:(set_solver)) as (A & B & C & _).
  unfold sizeof_seg_header, KERNEL_HEAP_BEGIN in *. rewrite u64_small by lia. lia.
Qed.

(** The list after [free]: defragmented or not. *)
Lemma free_ok s l p n : heap_inv s l -> (p, n) ∈ live l ->
  exists s' l', free p s = Ok s' /\ heap_inv s' l' /\ same_heap s s' /\ l' <> [] /\
    live l ≡ₚ (p, n) :: live l' /\ n_allocations s' = u64 (n_allocations s - 1).
Proof.
  intros Hi (a & b & ->)%live_split. set (x := Seg (p - 16) n false) in *.
  destruct (header_addr s a x b Hi) as [Hh _]. change (sa x) with (p - 16) in Hh.
  replace (p - 16 + 16) with p in Hh by lia.
  unfold free, assert_. rewrite Hh. change (p - 16) with (sa x).
  rewrite (heap_assert_seg_ok s a x b Hi), (ld_seg_ok s a x b Hi).
  unfold mbind, res_bind. cbn [seg_free x sf Z.b2z Z.eqb seg_next seg_size].
  pose proof (set_flag_ok s a x b true Hi) as Hi1. change (Z.b2z true) with 1 in Hi1.
  set (s1 := st_seg s (sa x) _) in *. set (x1 := Seg (sa x) (ss x) true) in *.
  assert (heap_inv (set_free_i s1 (s32 (free_i s1 + 1))) (a ++ x1 :: b)) as Hi2
    by (by apply (heap_inv_frame _ _ _ Hi1)).
  assert (live (a ++ x :: b) ≡ₚ (p, n) :: live (a ++ x1 :: b)) as Hl.
  { rewrite !live_app, !live_cons. cbn. replace (p - 16 + 16) with p by lia.
    by rewrite <- Permutation_middle. }
  destruct (Z.rem (free_i s1) 32 =? 0).
  - destruct (defragment_ok _ _ Hi2) as (s' & E & Hi' & (S & N & _)); [by destruct a|].
    change (match defragment _ with Ok a0 => _ | Err f => _ end) with
      (match defragment (set_free_i s1 (s32 (free_i s1 + 1))) with
       | Ok s0 => Ok (set_allocations s0 (u64 (n_allocations s0 - 1))) | Err f => Err f end).
    rewrite E. eexists _, (merge_all (a ++ x1 :: b)). split; [done|].
    assert (exists q r, a ++ x1 :: b = q :: r) as (q & r & Eq) by (destruct a; eauto).
    split_and!.
    + by apply (heap_inv_frame _ _ _ Hi').
    + done.
    + rewrite Eq. cbn. destruct (merge_head q r) as (? & ? & -> & _). done.
    + rewrite Hl, Eq. cbn [merge_all]. by rewrite live_merge.
    + cbn. by rewrite N.
  - eexists _, (a ++ x1 :: b). split; [done|]. split_and!; try done.
    + by apply (heap_inv_frame _ _ _ Hi2).
    + by destruct a.
Qed.

Lemma free_heap_ok s l p n : heap_ok s l -> (p, n) ∈ live l ->
  exists s' l', free p s = Ok s' /\ heap_ok s' l' /\ same_heap s s' /\
    live l ≡ₚ (p, n) :: live l'.
Proof.
  intros (Hi & Hne & Hc) Hin. destruct (free_ok s l p n Hi Hin) as (s' & l' & E & Hi' & S & Hne' & Hl & Hn).
  exists s', l'. split_and!; try done. split_and!; try done.
  rewrite Hn, Hc. pose proof (live_count s l Hi). unfold zlen in *. rewrite Hl in *. cbn in *.
  rewrite u64_small by lia. lia.
Qed.
End Free.

(** C6: [free] of a live block returns; that block and no other stops being live, the
    heap stays consistent and memory contents do not change. *)
Theorem free_correct `{PageMapper P} (s : heap_state P) l p n :
  heap_ok s l -> (p, n) ∈ live l ->
  exists s' l', free p s = Ok s' /\ heap_ok s' l' /\ live l ≡ₚ (p, n) :: live l' /\
    heap_data s' = heap_data s /\ heap_size s' = heap_size s.
Proof.
  intros Hok Hin. destruct (free_heap_ok s l p n Hok Hin) as (s' & l' & E & Hok' & (S1 & S2 & _) & Hl).
  exists s', l'. done.
Qed.

(** Freeing a block that is already free fails the assertion of [free], as long
    as its segment was not merged. *)
Theorem double_free_panics `{PageMapper P} (s : heap_state P) l x :
  heap_inv s l -> x ∈ l -> sf x = true ->
  free (sa x + 16) s = panic "header->free == 0".
Proof.
  intros Hi (a & b & ->)%list_elem_of_split Hf.
  destruct (header_addr s a x b Hi) as [Hh _]. unfold free, assert_. rewrite Hh.
  rewrite (heap_assert_seg_ok s a x b Hi), (ld_seg_ok s a x b Hi). by rewrite Hf.
Qed.

(** [is_in_heap], on the address of the payload of any segment, tells live blocks
    from free ones, and is false below and above the heap. *)
Theorem is_in_heap_correct `{PageMapper P} (s : heap_state P) l :
  heap_inv s l ->
  (forall x, x ∈ l -> is_in_heap (sa x + 16) s = Ok (negb (sf x))) /\
  (forall p, p <= KERNEL_HEAP_BEGIN \/ KERNEL_HEAP_BEGIN + heap_size s <= p ->
     is_in_heap p s = Ok false).
Proof.
  intros Hi. pose proof (heap_inv_size s l Hi) as Hsz. pose proof (zlen_nonneg l).
  assert (heap_get_brk s = KERNEL_HEAP_BEGIN + heap_size s) as Hbrk.
  { unfold heap_get_brk. apply u64_small. unfold HEAP_MAX, KERNEL_HEAP_BEGIN in *. lia. }
  split.
  - intros x Hx. pose proof (seg_bounds s l x Hi Hx) as (A & B & C & _).
    apply list_elem_of_split in Hx as (a & b & ->). destruct (header_addr s a x b Hi) as [Hh _].
    unfold is_in_heap. rewrite Hbrk, Hh.
    replace ((KERNEL_HEAP_BEGIN <? sa x + 16) && (sa x + 16 <? KERNEL_HEAP_BEGIN + heap_size s))
      with true by lia.
    rewrite (heap_assert_seg_ok s a x b Hi), (ld_seg_ok s a x b Hi). by destruct (sf x).
  - intros p Hp. unfold is_in_heap. rewrite Hbrk.
    by replace ((KERNEL_HEAP_BEGIN <? p) && (p <? KERNEL_HEAP_BEGIN + heap_size s))
      with false by lia.
Qed.

(** ** [find_pred] and [try_merge] *)

Lemma find_pred_loop_ok `{PageMapper P} fuel a p x b (s : heap_state P) :
  linked (seg_mem s) (a ++ p :: x :: b) 0 -> Forall (fun z => sa z <> 0) (a ++ [p]) ->
  (S (length a) <= fuel)%nat ->
  find_pred_loop fuel (sa x) (head_or (a ++ p :: x :: b) 0) s = Ok (sa x).
Proof.
  revert fuel. induction a as [|y a IH]; intros fuel HL Hnz Hf; destruct fuel as [|fuel]; try lia.
  all: cbn [app head_or find_pred_loop]; destruct HL as [E HL]; apply Forall_cons_iff in Hnz as [Hz Hnz].
  all: apply Z.eqb_neq in Hz; rewrite Hz; unfold ld_seg, mbind, res_bind; rewrite E; cbn [seg_next].
  - cbn [head_or]. by rewrite Z.eqb_refl.
  - destruct (Z.eqb_spec (head_or (a ++ p :: x :: b) 0) (sa x)); [done|].
    apply IH; [done..|cbn in Hf; lia].
Qed.

(** [find_pred], documented to return the node that precedes its argument in the
    list, returns the argument itself; so [try_merge] of a free segment that is
    not the head leaves it in the list while its neighbour already covers its
    payload: the segments overlap. *)
Theorem try_merge_overlaps `{PageMapper P} (s : heap_state P) a p x y b :
  heap_inv s (a ++ p :: x :: y :: b) -> sf x = true -> sf y = true ->
  find_pred (sa x) s = Ok (sa x) /\
  exists s', try_merge (sa x) s = Ok s' /\
    linked (seg_mem s') (a ++ p :: x :: Seg (sa y) (ss y + ss x) true :: b) 0 /\
    current_segment s' = current_segment s /\
    sa x < sa y + 16 + (ss y + ss x).
Proof.
  intros Hi Hx Hy. pose proof (hk_size _ _ Hi) as Hsz. unfold HEAP_MAX in Hsz.
  pose proof (hk_tiled _ _ Hi) as HT. pose proof (hk_linked _ _ Hi) as HL.
  assert (Forall (fun z => sa z <> 0) (a ++ [p])) as Hnz.
  { apply Forall_forall. intros z Hz%list_elem_of_In.
    pose proof (seg_bounds s _ z Hi ltac:(set_solver)). unfold KERNEL_HEAP_BEGIN in *. lia. }
  pose proof (walk_fuel_enough s _ Hi) as Hf. rewrite length_app in Hf. cbn in Hf.
  assert (heap_inv s ((a ++ [p]) ++ x :: y :: b)) as Hix by (by rewrite <- app_assoc).
  assert (heap_inv s ((a ++ [p; x]) ++ y :: b)) as Hiy by (by rewrite <- app_assoc).
  pose proof (tiled_in _ _ _ x HT ltac:(set_solver)) as (Bx & Bx' & Bx2 & _).
  pose proof (tiled_in _ _ _ y HT ltac:(set_solver)) as (By & _ & By2 & _).
  apply tiled_app in HT as (mid & _ & _ & _ & _ & _ & _ & _ & HTy & _).
  assert (current_segment s <> sa x) as Hcur.
  { pose proof (tiled_fresh _ _ _ _ _ (hk_tiled _ _ Hix)) as Fx. rewrite fmap_app in Fx.
    rewrite (hk_head _ _ Hi). destruct a; set_solver. }
  split.
  { unfold find_pred. rewrite (hk_head _ _ Hi). apply find_pred_loop_ok; [done..|lia]. }
  set (s1 := st_seg s (sa y) (SegHeader (head_or b 0) (ss y + ss x) 1)).
  set (Y := Seg (sa y) (ss y + ss x) true).
  assert (linked (seg_mem s1) (a ++ p :: x :: Y :: b) 0) as HL1.
  { pose proof (set_header_linked s _ y b (ss y + ss x) true Hiy) as HL1.
    by rewrite <- app_assoc in HL1. }
  assert (seg_mem s1 !! sa x = Some (SegHeader (sa y) (ss x) 1)) as Hldx.
  { apply linked_app in HL1 as (_ & _ & E & _). by rewrite E, Hx. }
  exists s1. split_and!; [|done|done|lia].
  unfold try_merge, assert_. rewrite (ld_seg_ok s _ x (y :: b) Hix), Hx.
  unfold mbind, res_bind. cbn [seg_free Z.b2z Z.eqb negb seg_next head_or seg_size].
  rewrite (seg_nonnull s _ y b Hiy), (ld_seg_ok s _ y b Hiy), Hy.
  cbn [seg_free Z.b2z Z.eqb negb seg_next head_or seg_size].
  rewrite u32_small by (unfold KERNEL_HEAP_BEGIN in *; lia). fold s1.
  change (current_segment s1) with (current_segment s).
  destruct (Z.eqb_spec (sa x) (current_segment s)); [congruence|].
  unfold find_pred. change (current_segment s1) with (current_segment s).
  change (walk_fuel s1) with (walk_fuel s). rewrite (hk_head _ _ Hi).
  replace (head_or (a ++ p :: x :: y :: b) 0) with (head_or (a ++ p :: x :: Y :: b) 0)
    by (by destruct a).
  rewrite find_pred_loop_ok by (done || lia).
  unfold st_next, ld_seg. rewrite Hldx. unfold mbind, res_bind. cbn [seg_size seg_free].
  unfold st_seg at 1. by rewrite insert_id.
Qed.

(** * [realloc], and the theorems about the heap on a concrete one *)


Lemma copy_bytes_lookup n dst src d a :
  dst + Z.of_nat n <= src \/ src + Z.of_nat n <= dst ->
  copy_bytes n dst src d !! a =
    if decide (dst <= a < dst + Z.of_nat n) then d !! (src + (a - dst)) else d !! a.
Proof.
  revert dst src d. induction n as [|n IH]; intros dst src d Hd; cbn [copy_bytes].
  - by rewrite decide_False by lia.
  - rewrite IH by lia. destruct (decide (dst + 1 <= a < dst + 1 + Z.of_nat n)) as [Hin|Hin].
    + rewrite decide_True by lia. rewrite lookup_partial_alter_ne by lia. f_equal. lia.
    + destruct (decide (a = dst)) as [->|Hne].
      * rewrite decide_True by lia. rewrite lookup_partial_alter_eq. f_equal. lia.
      * rewrite decide_False by lia. by rewrite lookup_partial_alter_ne.
Qed.

(** Outside of the copied range nothing changes. *)
Lemma copy_bytes_other n dst src d a :
  dst + Z.of_nat n <= src \/ src + Z.of_nat n <= dst -> ~ (dst <= a < dst + Z.of_nat n) ->
  copy_bytes n dst src d !! a = d !! a.
Proof. intros Hd Ha. rewrite copy_bytes_lookup by done. by rewrite decide_False. Qed.

Section Realloc.
Context `{PageMapper P}.
Implicit Types s : heap_state P.

(** The test that keeps the block in place. *)
Definition stays (n size : Z) : bool :=
  (size <? n) && ((n / 2 <? size) || (n - size <? 64)).

Lemma realloc_eval s l p n size :
  heap_inv s l -> (p, n) ∈ live l -> 0 < size ->
  realloc p size s =
    if stays n size then Ok (s, p)
    else '(s, q) ← malloc size s;
         s ← free p (set_heap_data s (copy_bytes (Z.to_nat (Z.min n size)) q p (heap_data s)));
         Ok (s, q).
Proof.
  intros Hi (a & b & ->)%live_split Hs. set (x := Seg (p - 16) n false) in *.
  destruct (header_addr s a x b Hi) as [Hh Hpos]. change (sa x) with (p - 16) in Hh, Hpos.
  pose proof (seg_bounds s _ x Hi ltac:(set_solver)) as (_ & _ & C & _). cbn in C.
  replace (p - 16 + 16) with p in Hh by lia. unfold realloc. rewrite Hh.
  change (p - 16) with (sa x). rewrite (ld_seg_ok s a x b Hi).
  destruct (Z.eqb_spec p 0); [lia|]. destruct (Z.eqb_spec size 0); [lia|].
  unfold mbind at 1, res_bind at 1. cbn [seg_size ss x].
  unfold stays, MIN_SEGMENT_SIZE. change (32 * 2) with 64.
  destruct (Z.ltb_spec size n) as [Hlt|Hge]; cbn [andb].
  - rewrite u64_small by lia. destruct (_ || _); [done|].
    rewrite u32_small by lia. by rewrite Z.min_r by lia.
  - by rewrite Z.min_l by lia.
Qed.
End Realloc.

(** C7: [realloc] of a live block to a non-zero size returns a live block of at least
    that size whose first bytes are those of the old block, up to the smaller of
    the two sizes; the old block is not live any more (unless it stays in place)
    and every other live block keeps its place and its contents. *)
Theorem realloc_correct `{PageMapper P} (s : heap_state P) l p n size :
  heap_ok s l -> (p, n) ∈ live l -> 0 < size -> heap_size s + expansion size < HEAP_MAX ->
  (take_first (block_size size) l = None -> can_grow (expansion size) s) ->
  exists s' l' q k rest, realloc p size s = Ok (s', q) /\ heap_ok s' l' /\ size <= k /\
    live l ≡ₚ (p, n) :: rest /\ live l' ≡ₚ (q, k) :: rest /\
    (forall i, 0 <= i < Z.min n size -> heap_data s' !! (q + i) = heap_data s !! (p + i)) /\
    (forall r m i, (r, m) ∈ rest -> 0 <= i < m -> heap_data s' !! (r + i) = heap_data s !! (r + i)).
Proof.
  intros (Hi & Hne & Hc) Hin Hs Hm Hg. rewrite (realloc_eval s l p n size Hi Hin Hs).
  apply list_elem_of_split_l in Hin as (l1 & l2 & Hl & _).
  assert (live l ≡ₚ (p, n) :: l1 ++ l2) as Hp by (by rewrite Hl, Permutation_middle).
  destruct (stays n size) eqn:Est.
  { exists s, l, p, n, (l1 ++ l2). unfold stays in Est. split_and!; try done. lia. }
  pose proof (malloc_ok size s l Hi ltac:(lia) Hm Hg) as Hok.
  destruct (heap_malloc size _ l) as [l' q] eqn:E.
  destruct Hok as (s1 & -> & Hi1 & A & _ & D & _). unfold mbind, res_bind. cbv beta iota.
  destruct (heap_malloc_live size _ _ _ _ ltac:(lia) E) as (k & Hk & Hl').
  rewrite D. set (d := copy_bytes _ q p _).
  assert (heap_ok (set_heap_data s1 d) l') as Hok1.
  { split_and!; [by apply (heap_inv_frame _ _ _ Hi1)| |].
    - intros ->. by apply Permutation_nil_cons in Hl'.
    - cbn. rewrite A, Hc. pose proof (live_count s l Hi). unfold zlen in *.
      rewrite u64_small by lia. rewrite Hl'. cbn. lia. }
  assert ((p, n) ∈ live l') as Hin1 by (rewrite Hl', Hp; set_solver).
  destruct (free_heap_ok _ l' p n Hok1 Hin1) as (s' & l'' & -> & Hok' & (_ & D' & _) & Hl'').
  cbn in D'.
  assert (live l'' ≡ₚ (q, k) :: l1 ++ l2) as Hrest.
  { rewrite Hl', Hp in Hl''. apply (Permutation_cons_inv (a := (p, n))).
    rewrite <- Hl''. apply Permutation_swap. }
  assert (forall r m, (r, m) ∈ live l -> q + k <= r \/ r + m <= q) as Hdis
    by (intros r m; by eapply live_disjoint; [apply Hi1|]).
  pose proof (Hdis p n ltac:(rewrite Hp; set_solver)) as Hdp.
  assert (0 <= n) as Hn0.
  { assert ((p, n) ∈ live l) as (x & Hx & _ & _ & ->)%live_in by (rewrite Hp; set_solver).
    pose proof (seg_bounds s l x Hi Hx). lia. }
  exists s', l'', q, k, (l1 ++ l2). split_and!; try done.
  - intros i Hi0. rewrite D'. unfold d. rewrite copy_bytes_lookup by lia.
    rewrite decide_True by lia. f_equal. lia.
  - intros r m i Hr Hi0. rewrite D'. unfold d.
    pose proof (Hdis r m ltac:(rewrite Hp; set_solver)).
    apply copy_bytes_other; lia.
Qed.

(** * The heap on a concrete machine

    A paging layer that maps every page it is asked for; the theorems about the
    heap applied to the heap of an early kernel. *)




(** Mapped pages as a finite set. *)
#[export, program] Instance page_set : PageMapper (gset Z) := {|
  alloc_pages vaddr n flags p := Ok (p ∪ list_to_set (seqZ (vaddr / 0x1000) n));
  mapped p v := v ∈ p
|}.
Next Obligation.
  intros vaddr n flags p p' _ Hn [= <-] v. cbn. rewrite elem_of_union, elem_of_list_to_set, elem_of_seqZ.
  done.
Qed.

Definition ex_boot : heap_state (gset Z) := HeapState 0 0 0 0 ∅ ∅ ∅.

(** The heap after [heap_init], and after a [malloc(100)]. *)
Definition ex_init : heap_state (gset Z) :=
  match heap_init ex_boot with Ok s => s | Err _ => ex_boot end.
Definition ex_one : heap_state (gset Z) :=
  match malloc 100 ex_init with Ok (s, _) => s | Err _ => ex_boot end.

Definition ex_init_list : list seg := [Seg KERNEL_HEAP_BEGIN 1008 true].
Definition ex_one_list : list seg :=
  [Seg (KERNEL_HEAP_BEGIN + 120) 888 true; Seg KERNEL_HEAP_BEGIN 104 false].

(** The first page of the heap is mapped in both. *)
Lemma ex_first_page (s : heap_state (gset Z)) v :
  heap_size s = 1024 -> bool_decide (KERNEL_HEAP_BEGIN / 0x1000 ∈ paging s) = true ->
  KERNEL_HEAP_BEGIN / 0x1000 <= v -> v * 0x1000 < KERNEL_HEAP_BEGIN + heap_size s ->
  mapped (paging s) v.
Proof.
  intros E Hb%bool_decide_eq_true H1 H2. rewrite E in H2.
  assert (v = KERNEL_HEAP_BEGIN / 0x1000) as -> by (unfold KERNEL_HEAP_BEGIN in *; lia). done.
Qed.

Lemma ex_init_ok : heap_ok ex_init ex_init_list.
Proof.
  split_and!; [|done|reflexivity].
  constructor; [repeat split; done|split; [vm_compute; reflexivity|done]|reflexivity|reflexivity|].
  intros v. apply ex_first_page; vm_compute; reflexivity.
Qed.

Lemma ex_one_ok : heap_ok ex_one ex_one_list.
Proof.
  split_and!; [|done|vm_compute; reflexivity].
  constructor; [repeat split; done| |reflexivity|reflexivity|].
  - split; [vm_compute; reflexivity|]. split; [vm_compute; reflexivity|done].
  - intros v. apply ex_first_page; vm_compute; reflexivity.
Qed.

Lemma ex_can_grow size s : can_grow (P := gset Z) size s.
Proof. unfold can_grow, grows. destruct (_ =? _); eauto. Qed.

Lemma heap_init_witness :
  exists s', heap_init ex_boot = Ok s' /\
    heap_ok s' [Seg KERNEL_HEAP_BEGIN 1008 true] /\ heap_get_size s' = 1024 /\
    heap_get_n_allocation s' = 0 /\ heap_get_brk s' = KERNEL_HEAP_BEGIN + 1024.
Proof.
  exact (heap_init_correct (P := gset Z) ∅
    (∅ ∪ list_to_set (seqZ (KERNEL_HEAP_BEGIN / 0x1000) 1)) ∅ eq_refl).
Defined.

Lemma malloc_witness :
  exists s' l' ptr n, malloc 5000 ex_one = Ok (s', ptr) /\ heap_ok s' l' /\
    5000 <= n /\ live l' ≡ₚ (ptr, n) :: live ex_one_list.
Proof.
  destruct (malloc_correct ex_one ex_one_list 5000) as (s' & l' & ptr & n & A & B & C & D & _);
    [apply ex_one_ok|lia|reflexivity|intros _; apply ex_can_grow|].
  exists s', l', ptr, n. exact (conj A (conj B (conj C D))).
Defined.

Lemma free_witness :
  exists s' l', free (KERNEL_HEAP_BEGIN + 16) ex_one = Ok s' /\ heap_ok s' l' /\
    live ex_one_list ≡ₚ (KERNEL_HEAP_BEGIN + 16, 104) :: live l' /\
    heap_data s' = heap_data ex_one /\ heap_size s' = heap_size ex_one.
Proof.
  apply (free_correct ex_one ex_one_list); [apply ex_one_ok|].
  apply live_in. exists (Seg KERNEL_HEAP_BEGIN 104 false). split_and!; [|done..]. set_solver.
Defined.

Lemma double_free_witness :
  free (KERNEL_HEAP_BEGIN + 16) ex_init = panic "header->free == 0".
Proof.
  apply (double_free_panics ex_init ex_init_list (Seg KERNEL_HEAP_BEGIN 1008 true));
    [apply ex_init_ok|set_solver|reflexivity].
Defined.

Lemma heap_defragment_witness :
  exists s' l', heap_defragment ex_one = Ok s' /\ heap_ok s' l' /\ no_adjacent_free l' /\
    live l' = live ex_one_list /\ heap_data s' = heap_data ex_one /\
    heap_size s' = heap_size ex_one /\
    (live ex_one_list = [] -> l' = [Seg KERNEL_HEAP_BEGIN (heap_size ex_one - 16) true]).
Proof. apply (heap_defragment_correct ex_one ex_one_list), ex_one_ok. Defined.

Lemma is_in_heap_witness :
  (forall x, x ∈ ex_one_list -> is_in_heap (sa x + 16) ex_one = Ok (negb (sf x))) /\
  (forall p, p <= KERNEL_HEAP_BEGIN \/ KERNEL_HEAP_BEGIN + heap_size ex_one <= p ->
     is_in_heap p ex_one = Ok false).
Proof. apply (is_in_heap_correct ex_one ex_one_list), ex_one_ok. Defined.

Lemma realloc_witness :
  exists s' l' q k rest, realloc (KERNEL_HEAP_BEGIN + 16) 300 ex_one = Ok (s', q) /\
    heap_ok s' l' /\ 300 <= k /\
    live ex_one_list ≡ₚ (KERNEL_HEAP_BEGIN + 16, 104) :: rest /\ live l' ≡ₚ (q, k) :: rest /\
    (forall i, 0 <= i < Z.min 104 300 ->
       heap_data s' !! (q + i) = heap_data ex_one !! (KERNEL_HEAP_BEGIN + 16 + i)) /\
    (forall r m i, (r, m) ∈ rest -> 0 <= i < m ->
       heap_data s' !! (r + i) = heap_data ex_one !! (r + i)).
Proof.
  apply (realloc_correct ex_one ex_one_list); [apply ex_one_ok| |lia|reflexivity|].
  - apply live_in. exists (Seg KERNEL_HEAP_BEGIN 104 false). split_and!; [|done..]. set_solver.
  - intros _. apply ex_can_grow.
Defined.

(** Three blocks, of which the two lowest were freed and not merged. *)
Definition ex_gap : heap_state (gset Z) :=
  match
    '(s, p1) ← malloc 100 ex_init; '(s, p2) ← malloc 100 s; '(s, p3) ← malloc 100 s;
    s ← free p1 s; free p2 s
  with Ok s => s | Err _ => ex_boot end.

Lemma ex_gap_ok : heap_inv ex_gap
  ([Seg (KERNEL_HEAP_BEGIN + 360) 648 true] ++ Seg (KERNEL_HEAP_BEGIN + 240) 104 false ::
   Seg (KERNEL_HEAP_BEGIN + 120) 104 true :: Seg KERNEL_HEAP_BEGIN 104 true :: []).
Proof.
  constructor; [repeat split; done| |reflexivity|reflexivity|].
  - repeat (split; [vm_compute; reflexivity|]). done.
  - intros v. apply ex_first_page; vm_compute; reflexivity.
Qed.

Lemma try_merge_witness :
  find_pred (KERNEL_HEAP_BEGIN + 120) ex_gap = Ok (KERNEL_HEAP_BEGIN + 120).
Proof.
  apply (try_merge_overlaps ex_gap [Seg (KERNEL_HEAP_BEGIN + 360) 648 true]
    (Seg (KERNEL_HEAP_BEGIN + 240) 104 false) (Seg (KERNEL_HEAP_BEGIN + 120) 104 true)
    (Seg KERNEL_HEAP_BEGIN 104 true) []); [apply ex_gap_ok|reflexivity..].
Defined.
