(* ===== verification/Pipefs.v ===== *)
(** * Pipes ([kernel/fs/pipefs/pipefs.c])

    Definitions.  A pipe is a circular buffer with a lock and a list of waiting
    threads.  A read or a write that has to wait releases the lock and goes to
    sleep in the middle of its loop: such a call returns [Sleeps] with what it
    needs to go on, and [read_wake] / [write_wake] are what it does next. *)

From stdpp Require Import pretty.
From S2P Require Import Prelude Bytes.




#[local] Open Scope Z_scope.

Definition PIPE_SIZE : Z := 1024.

(** [thread_id_t]: process and thread. *)
Definition thread_id : Type := Z * Z.

(** [pipefs_file_t] *)
Record pipefs_file := PipefsFile {
  p_id : Z;
  p_buffer : list Z;
  p_tail : Z;
  p_head : Z;
  p_broken : Z;
  p_waiters : list thread_id;
  p_locked : bool
}.

(** [struct pipefs_priv], the static [cur_id] of [create_file], and the threads that
    [sched_unblock] was called for, in order. *)
Record pipefs := Pipefs {
  p_files : list pipefs_file;
  cur_id : Z;
  unblocked : list thread_id
}.

Definition set_files (s : pipefs) (fs : list pipefs_file) : pipefs :=
  Pipefs fs (cur_id s) (unblocked s).
Definition upd_file (s : pipefs) (i : nat) (f : pipefs_file) : pipefs :=
  set_files s (<[i := f]> (p_files s)).
Definition set_locked (f : pipefs_file) (b : bool) : pipefs_file :=
  PipefsFile (p_id f) (p_buffer f) (p_tail f) (p_head f) (p_broken f) (p_waiters f) b.
Definition set_waiters (f : pipefs_file) (w : list thread_id) : pipefs_file :=
  PipefsFile (p_id f) (p_buffer f) (p_tail f) (p_head f) (p_broken f) w (p_locked f).
Definition set_broken (f : pipefs_file) (b : Z) : pipefs_file :=
  PipefsFile (p_id f) (p_buffer f) (p_tail f) (p_head f) b (p_waiters f) (p_locked f).
Definition set_head (f : pipefs_file) (h : Z) : pipefs_file :=
  PipefsFile (p_id f) (p_buffer f) (p_tail f) h (p_broken f) (p_waiters f) (p_locked f).
Definition set_tail (f : pipefs_file) (b : list Z) (t : Z) : pipefs_file :=
  PipefsFile (p_id f) b t (p_head f) (p_broken f) (p_waiters f) (p_locked f).

(** [create_file]; [mem] is the memory that [malloc(PIPE_SIZE)] returned. *)
Definition create_file (mem : list Z) (s : pipefs) : pipefs * Z :=
  let id := u32 (cur_id s + 1) in
  (Pipefs (p_files s ++ [PipefsFile id mem 0 0 0 [] false]) id (unblocked s), id).

(** The two directory entries that [create_pipe] opens: inode and rights. *)
Definition create_pipe (mem : list Z) (s : pipefs) : pipefs * ((Z * Z) * (Z * Z)) :=
  let '(s, id) := create_file mem s in
  (s, ((id, 1), (Z.lor id (Z.shiftl 1 63), 2))).

(** [remove_file]: the last record takes the place of the removed one. *)
Definition remove_file (i : nat) (s : pipefs) : res pipefs :=
  let last := (length (p_files s) - 1)%nat in
  f ← ld (p_files s) (Z.of_nat last);
  Ok (set_files s (take last (<[i := f]> (p_files s)))).

Fixpoint find_file (fs : list pipefs_file) (id : Z) : option nat :=
  match fs with
  | [] => None
  | f :: fs' => if p_id f =? id then Some O else S <$> find_file fs' id
  end.

(** [get_file] returns with the lock of the file held. *)
Definition get_file (id : Z) (s : pipefs) : res (pipefs * option nat) :=
  match find_file (p_files s) id with
  | None => Ok (s, None)
  | Some i =>
      f ← ld (p_files s) (Z.of_nat i);
      if p_locked f then Err (Deadlock "spinlock_acquire(&file->lock)")
      else Ok (upd_file s i (set_locked f true), Some i)
  end.

(** [spinlock_release(&file->lock)] *)
Definition release (i : nat) (s : pipefs) : res pipefs :=
  f ← ld (p_files s) (Z.of_nat i); Ok (upd_file s i (set_locked f false)).

(** [wait_for_buffer] up to [sched_block]. *)
Definition wait_for_buffer (th : thread_id) (i : nat) (s : pipefs) : res pipefs :=
  f ← ld (p_files s) (Z.of_nat i);
  release i (upd_file s i (set_waiters f (p_waiters f ++ [th]))).

Definition broadcast_waiters (i : nat) (s : pipefs) : res pipefs :=
  f ← ld (p_files s) (Z.of_nat i);
  Ok (Pipefs (<[i := set_waiters f []]> (p_files s)) (cur_id s) (unblocked s ++ p_waiters f)).

(** How a system call leaves the processor. *)
Inductive outcome (C : Type) :=
  | Returns (ret : Z)
  | Sleeps (call : C).
Arguments Returns {C} ret.
Arguments Sleeps {C} call.

(** A call in progress: pipe, size of the request, what remains, user buffer. *)
Record pipe_call := PipeCall { c_id : Z; c_n : Z; c_remaining : Z; c_buf : list Z }.

(** The end of [pipefs_read] and [write]: the value returned. *)
Definition call_result (n remaining : Z) : Z := if n =? remaining then -1 else s32 (n - remaining).

(** One turn of the loop of [pipefs_read] up to the copy: the new file, the bytes
    copied and whether the call is to block. *)
Definition read_turn (f : pipefs_file) (remaining : Z) : res (pipefs_file * list Z * bool) :=
  let batch_rd := remaining in
  let '(batch_rd, block) :=
    if (p_head f <=? p_tail f) && (p_tail f <? u32 (p_head f + batch_rd))
    then (u32 (p_tail f - p_head f), true) else (batch_rd, false) in
  '(batch_rd, wrap) ←
    (if u32 (PIPE_SIZE - p_head f) <? batch_rd
     then assert_ (negb block) "!block" ;; Ok (u32 (PIPE_SIZE - p_head f), true)
     else Ok (batch_rd, false));
  data ← rd_bytes (p_buffer f) (p_head f) batch_rd;
  Ok (set_head f (if (wrap : bool) then 0 else u32 (p_head f + batch_rd)), data, block).

(** [while(remaining)] of [pipefs_read]; every copy goes to the beginning of [buf]. *)
Fixpoint read_loop (fuel : nat) (th : thread_id) (i : nat) (n remaining : Z) (buf : list Z)
    (s : pipefs) : res (pipefs * list Z * outcome pipe_call) :=
  let finish s buf remaining :=
    s ← release i s; Ok (s, buf, Returns (call_result n remaining)) in
  if remaining =? 0 then finish s buf remaining
  else
    match fuel with
    | O => Err NoFuel
    | S fuel' =>
        f ← ld (p_files s) (Z.of_nat i);
        if negb (p_broken f =? 0) then finish s buf remaining
        else
          '(f, data, block) ← read_turn f remaining;
          buf ← wr_bytes buf 0 data;
          let s := upd_file s i f in
          s ← (if negb (zlen data =? 0) then broadcast_waiters i s else Ok s);
          let remaining := u32 (remaining - zlen data) in
          if (block : bool) then
            if n =? remaining then
              s ← wait_for_buffer th i s;
              Ok (s, buf, Sleeps (PipeCall (p_id f) n remaining buf))
            else finish s buf remaining
          else read_loop fuel' th i n remaining buf s
    end.

(** A whole turn around the buffer is at most three turns of the loop. *)
Definition READ_FUEL : nat := 3.

Definition pipefs_read (th : thread_id) (addr : Z) (buf : list Z) (n : Z) (s : pipefs)
    : res (pipefs * list Z * outcome pipe_call) :=
  assert_ (Z.shiftr addr 63 =? 0) "fd->addr >> 63 == 0" ;;
  '(s, file) ← get_file (u32 addr) s;
  match file with
  | None => Ok (s, buf, Returns (-1))
  | Some i =>
      if n =? 0 then Ok (s, buf, Returns 0)
      else read_loop READ_FUEL th i n (u32 n) buf s
  end.

(** A sleeping read goes on: after a signal, or when it was unblocked. *)
Definition read_wake (th : thread_id) (signal : bool) (c : pipe_call) (s : pipefs)
    : res (pipefs * list Z * outcome pipe_call) :=
  if signal then Ok (s, c_buf c, Returns (call_result (c_n c) (c_remaining c)))
  else
    '(s, file) ← get_file (c_id c) s;
    match file with
    | None => Ok (s, c_buf c, Returns (call_result (c_n c) (c_remaining c)))
    | Some i => read_loop READ_FUEL th i (c_n c) (c_remaining c) (c_buf c) s
    end.

(** One turn of the loop of [write] up to the copy: the new file, the number of
    bytes copied and whether the call is to block. *)
Definition write_turn (f : pipefs_file) (remaining : Z) (buf : list Z)
    : res (pipefs_file * Z * bool) :=
  let batch_wr := remaining in
  let '(batch_wr, block) :=
    if (p_tail f <? p_head f) && (p_head f <=? u32 (p_tail f + batch_wr))
    then (u32 (p_head f - p_tail f - 1), true) else (batch_wr, false) in
  '(batch_wr, wrap) ←
    (if u32 (PIPE_SIZE - p_tail f) <? batch_wr
     then assert_ (negb block) "!block" ;; Ok (u32 (PIPE_SIZE - p_tail f), true)
     else Ok (batch_wr, false));
  data ← rd_bytes buf 0 batch_wr;
  b ← wr_bytes (p_buffer f) (p_tail f) data;
  Ok (set_tail f b (if (wrap : bool) then 0 else u32 (p_tail f + batch_wr)), batch_wr, block).

(** [while(remaining)] of [write]; every copy comes from the beginning of [buf]. *)
Fixpoint write_loop (fuel : nat) (th : thread_id) (i : nat) (n remaining : Z) (buf : list Z)
    (s : pipefs) : res (pipefs * outcome pipe_call) :=
  if remaining =? 0 then s ← release i s; Ok (s, Returns (call_result n remaining))
  else
    match fuel with
    | O => Err NoFuel
    | S fuel' =>
        f ← ld (p_files s) (Z.of_nat i);
        if negb (p_broken f =? 0) then s ← release i s; Ok (s, Returns (-1))
        else
          '(f, batch_wr, block) ← write_turn f remaining buf;
          let s := upd_file s i f in
          s ← (if negb (batch_wr =? 0) then broadcast_waiters i s else Ok s);
          let remaining := u32 (remaining - batch_wr) in
          if (block : bool) then
            s ← wait_for_buffer th i s;
            Ok (s, Sleeps (PipeCall (p_id f) n remaining buf))
          else write_loop fuel' th i n remaining buf s
    end.

(** A turn that does not end the call fills the buffer up to its end. *)
Definition write_fuel (remaining : Z) : nat := Z.to_nat (remaining / PIPE_SIZE + 3).

Definition pipefs_write (th : thread_id) (addr : Z) (buf : list Z) (n : Z) (s : pipefs)
    : res (pipefs * outcome pipe_call) :=
  assert_ (Z.shiftr addr 63 =? 1) "fd->addr >> 63 == 1" ;;
  '(s, file) ← get_file (u32 addr) s;
  match file with
  | None => Ok (s, Returns (-1))
  | Some i =>
      if n =? 0 then Ok (s, Returns 0)
      else write_loop (write_fuel (u32 n)) th i n (u32 n) buf s
  end.

(** A sleeping write goes on.  The loop does not test the file it got back: with a
    null pointer its next turn reads [file->broken]. *)
Definition write_wake (th : thread_id) (signal : bool) (c : pipe_call) (s : pipefs)
    : res (pipefs * outcome pipe_call) :=
  let null s :=
    if c_remaining c =? 0 then Ok (s, Returns (call_result (c_n c) (c_remaining c)))
    else Err (Fault "file->broken of a null pointer") in
  if signal then null s
  else
    '(s, file) ← get_file (c_id c) s;
    match file with
    | None => null s
    | Some i =>
        write_loop (write_fuel (c_remaining c)) th i (c_n c) (c_remaining c) (c_buf c) s
    end.

(** [close_file]: the first close breaks the pipe, the second removes it. *)
Definition close_file (addr : Z) (s : pipefs) : res pipefs :=
  let file_id := u32 (Z.land addr (u64 (Z.lnot (Z.shiftl 1 63)))) in
  let in_end := Z.shiftr addr 63 in
  '(s, file) ← get_file file_id s;
  match file with
  | None => panic "file"
  | Some i =>
      f ← ld (p_files s) (Z.of_nat i);
      s ← (if negb (p_broken f =? 0) then
             (if in_end =? 0 then assert_ (p_broken f =? 1) "file->broken == 1" else Ok ()) ;;
             (if in_end =? 1 then assert_ (p_broken f =? 2) "file->broken == 2" else Ok ()) ;;
             remove_file i s
           else
             broadcast_waiters i (upd_file s i (set_broken f (if in_end =? 0 then 2 else 1))));
      if (Z.of_nat i <? zlen (p_files s)) then release i s else Ok s
  end.

(** A [dirent_t] of this file system. *)
Record pipe_dirent := PipeDirent {
  d_name : string; d_ino : Z; d_is_dir : bool; d_file_size : Z; d_rights : Z
}.

Definition file_dirents (is_in : bool) (fs : list pipefs_file) : list pipe_dirent :=
  (fun f => PipeDirent (pretty (p_id f)) (p_id f) false (u64 (-1)) (if is_in then 2 else 1))
    <$> filter (fun f => Z.land (p_broken f) (if is_in then 1 else 2) = 0) fs.

(** [read_dir]: the root, [in/], [out/]; [None] is the null result. *)
Definition read_dir (dir_addr : Z) (s : pipefs) : option (list pipe_dirent) :=
  if dir_addr =? 0
  then Some [PipeDirent "in" 1 true 0 1; PipeDirent "out" 2 true 0 1]
  else if 2 <? dir_addr then None
  else Some (file_dirents (dir_addr =? 1) (p_files s)).

Definition add_dirent (s : pipefs) : pipefs * Z := (s, -1).
Definition update_dirent (s : pipefs) : pipefs * Z := (s, 0).
Definition truncate_file (s : pipefs) : res pipefs := panic "tried to truncate pipe".

(** [init_priv]; [cur_id] starts at 1. *)
Definition init_priv : pipefs := Pipefs [] 1 [].

Definition unmount (s : pipefs) : res unit :=
  assert_ (zlen (p_files s) =? 0) "priv->n_files == 0".
