(* ===== verification/PipefsProofs.v ===== *)
(** * Pipes: the circular buffer as a queue *)

From S2P Require Import Prelude Bytes Pipefs.





Record file_ok (f : pipefs_file) : Prop := {
  fk_len : zlen (p_buffer f) = PIPE_SIZE;
  fk_head : 0 <= p_head f <= PIPE_SIZE;
  fk_tail : 0 <= p_tail f <= PIPE_SIZE;
  fk_broken : 0 <= p_broken f <= 2
}.

(** The bytes of a pipe, oldest first. *)
Definition contents (f : pipefs_file) : list Z :=
  if p_head f <=? p_tail f then slice (p_buffer f) (p_head f) (p_tail f - p_head f)
  else slice (p_buffer f) (p_head f) (PIPE_SIZE - p_head f) ++ slice (p_buffer f) 0 (p_tail f).

(** Bytes that can be read without going around the end of the buffer. *)
Definition contiguous (f : pipefs_file) : Z :=
  if p_head f <=? p_tail f then p_tail f - p_head f else PIPE_SIZE - p_head f.

Lemma zlen_contents f : file_ok f ->
  zlen (contents f) =
    if p_head f <=? p_tail f then p_tail f - p_head f else PIPE_SIZE - p_head f + p_tail f.
Proof.
  intros [H1 H2 H3 _]. unfold contents. destruct (Z.leb_spec (p_head f) (p_tail f)).
  - apply zlen_slice; lia.
  - rewrite zlen_app, !zlen_slice; unfold PIPE_SIZE in *; lia.
Qed.

Lemma zlen_nil_inv {A} (l : list A) : zlen l = 0 -> l = [].
Proof. by destruct l. Qed.

(** ** One turn of the reader *)

(** The position after a turn with [remaining] bytes to go. *)
Definition next_head (f : pipefs_file) (remaining : Z) : Z :=
  if contiguous f <? remaining then if p_head f <=? p_tail f then p_tail f else 0
  else p_head f + remaining.

Lemma read_turn_eval f remaining : file_ok f -> 0 <= remaining < 2 ^ 31 ->
  let b := Z.min remaining (contiguous f) in
  read_turn f remaining =
    Ok (set_head f (next_head f remaining), slice (p_buffer f) (p_head f) b,
        (p_head f <=? p_tail f) && (contiguous f <? remaining)).
Proof.
  intros [H1 H2 H3 _] Hr b. unfold read_turn, next_head, assert_. unfold b, contiguous, PIPE_SIZE in *.
  rewrite (u32_small (p_head f + remaining)), (u32_small (1024 - p_head f)) by lia.
  destruct (Z.leb_spec (p_head f) (p_tail f)) as [Hle|Hlt]; cbn [andb].
  - destruct (Z.ltb_spec (p_tail f) (p_head f + remaining)) as [Hb|Hb].
    + rewrite (u32_small (p_tail f - p_head f)) by lia.
      destruct (Z.ltb_spec (1024 - p_head f) (p_tail f - p_head f)); [lia|].
      unfold mbind, res_bind. rewrite rd_bytes_ok by lia.
      rewrite Z.min_r by lia.
      destruct (Z.ltb_spec (p_tail f - p_head f) remaining); [|lia].
      rewrite u32_small by lia. by replace (p_head f + (p_tail f - p_head f)) with (p_tail f) by lia.
    + destruct (Z.ltb_spec (1024 - p_head f) remaining); [lia|].
      unfold mbind, res_bind. rewrite rd_bytes_ok by lia. rewrite Z.min_l by lia.
      destruct (Z.ltb_spec (p_tail f - p_head f) remaining); [lia|].
      by rewrite u32_small by lia.
  - destruct (Z.ltb_spec (1024 - p_head f) remaining) as [Hb|Hb].
    + unfold mbind, res_bind. cbn [negb]. rewrite rd_bytes_ok by lia. by rewrite Z.min_r by lia.
    + unfold mbind, res_bind. rewrite rd_bytes_ok by lia. rewrite Z.min_l by lia.
      by rewrite u32_small by lia.
Qed.

(** A turn takes the oldest bytes, and keeps the rest in order. *)
Lemma read_turn_contents f remaining : file_ok f -> 0 <= remaining ->
  let b := Z.min remaining (contiguous f) in
  let f' := set_head f (next_head f remaining) in
  file_ok f' /\ contents f = slice (p_buffer f) (p_head f) b ++ contents f'.
Proof.
  intros [H1 H2 H3 H4] Hr b f'. unfold f', next_head, b, contiguous, PIPE_SIZE in *.
  split.
  { constructor; cbn; try done. unfold PIPE_SIZE. destruct (Z.leb_spec (p_head f) (p_tail f)); zb. }
  unfold contents. cbn. unfold PIPE_SIZE.
  destruct (Z.leb_spec (p_head f) (p_tail f)).
  - destruct (Z.ltb_spec (p_tail f - p_head f) remaining).
    + rewrite Z.min_r, Z.leb_refl, Z.sub_diag, slice_nil, app_nil_r by lia. done.
    + rewrite Z.min_l by lia. destruct (Z.leb_spec (p_head f + remaining) (p_tail f)); [|lia].
      rewrite <- slice_split by lia. f_equal. lia.
  - destruct (Z.ltb_spec (1024 - p_head f) remaining).
    + rewrite Z.min_r by lia. destruct (Z.leb_spec 0 (p_tail f)); [|lia]. by rewrite Z.sub_0_r.
    + rewrite Z.min_l by lia. destruct (Z.leb_spec (p_head f + remaining) (p_tail f)); [lia|].
      rewrite app_assoc, <- slice_split by lia. do 2 f_equal. lia.
Qed.

(** ** A whole read *)

(** What a turn that copied [b] bytes does to the state. *)
Definition after_turn (s : pipefs) (i : nat) (f : pipefs_file) (b : Z) : pipefs :=
  if b =? 0 then upd_file s i f
  else Pipefs (<[i := set_waiters f []]> (p_files s)) (cur_id s) (unblocked s ++ p_waiters f).

Lemma after_turn_eval s i f f0 b : p_files s !! i = Some f0 ->
  (if negb (b =? 0) then broadcast_waiters i (upd_file s i f) else Ok (upd_file s i f)) =
    Ok (after_turn s i f b).
Proof.
  intros Hi. unfold after_turn. destruct (b =? 0); [done|]. cbn [negb].
  unfold broadcast_waiters, upd_file, set_files. cbn [p_files].
  assert (i < length (p_files s))%nat by (by eapply lookup_lt_Some).
  rewrite (ld_nat _ _ f) by (by apply list_lookup_insert_eq).
  unfold mbind, res_bind. cbn. by rewrite list_insert_insert_eq.
Qed.

Lemma after_turn_lookup s i f f0 b : p_files s !! i = Some f0 ->
  p_files (after_turn s i f b) !! i = Some (if b =? 0 then f else set_waiters f []).
Proof.
  intros Hi. assert (i < length (p_files s))%nat by (by eapply lookup_lt_Some).
  unfold after_turn. destruct (b =? 0); cbn; by apply list_lookup_insert_eq.
Qed.

Lemma read_loop_turn fuel th i n remaining buf s f :
  p_files s !! i = Some f -> file_ok f -> p_broken f = 0 -> 0 < remaining < 2 ^ 31 ->
  remaining <= zlen buf ->
  let b := Z.min remaining (contiguous f) in
  let data := slice (p_buffer f) (p_head f) b in
  let f' := set_head f (next_head f remaining) in
  let s' := after_turn s i f' b in
  let buf' := blit buf 0 data in
  zlen data = b /\
  read_loop (S fuel) th i n remaining buf s =
    if (p_head f <=? p_tail f) && (contiguous f <? remaining) then
      if n =? remaining - b then
        s ← wait_for_buffer th i s';
        Ok (s, buf', Sleeps (PipeCall (p_id f) n (remaining - b) buf'))
      else s ← release i s'; Ok (s, buf', Returns (call_result n (remaining - b)))
    else read_loop fuel th i n (remaining - b) buf' s'.
Proof.
  intros Hi Hf Hb Hr Hl b data f' s' buf'.
  assert (0 <= contiguous f <= PIPE_SIZE - p_head f) as Hc
    by (destruct Hf; unfold contiguous; zb).
  assert (zlen data = b) as Hz by (destruct Hf; unfold data, b; apply zlen_slice; lia).
  split; [done|]. cbn [read_loop]. replace (remaining =? 0) with false by lia.
  rewrite (ld_nat _ _ f Hi). unfold mbind, res_bind. rewrite Hb. cbn [Z.eqb negb].
  rewrite read_turn_eval by (done || lia). fold b data f'.
  rewrite wr_bytes_ok by (unfold b in *; lia). fold buf'. rewrite Hz.
  rewrite (after_turn_eval s i f' f b Hi). fold s'.
  rewrite u32_small by (unfold b; lia).
  by destruct ((p_head f <=? p_tail f) && _).
Qed.

Lemma release_eval s i f : p_files s !! i = Some f ->
  release i s = Ok (upd_file s i (set_locked f false)).
Proof. intros Hi. unfold release. by rewrite (ld_nat _ _ f Hi). Qed.

Lemma release_after_turn s i f f0 b : p_files s !! i = Some f0 ->
  exists s', release i (after_turn s i f b) = Ok s' /\
    p_files s' = <[i := set_locked (if b =? 0 then f else set_waiters f []) false]> (p_files s) /\
    cur_id s' = cur_id s /\
    unblocked s' = unblocked s ++ (if b =? 0 then [] else p_waiters f).
Proof.
  intros Hi. rewrite (release_eval _ _ _ (after_turn_lookup s i f f0 b Hi)).
  eexists. split; [done|]. unfold after_turn.
  destruct (b =? 0); cbn; rewrite list_insert_insert_eq; split_and!; try done.
  by rewrite app_nil_r.
Qed.

(** The pipe [f'] is the pipe [f] with its first [k] bytes gone; if there were any,
    nobody waits any more. *)
Record drained (f : pipefs_file) (k : Z) (f' : pipefs_file) : Prop := {
  dr_ok : file_ok f';
  dr_contents : contents f' = drop (Z.to_nat k) (contents f);
  dr_waiters : p_waiters f' = (if k =? 0 then p_waiters f else []);
  dr_same : p_id f' = p_id f /\ p_broken f' = p_broken f /\ p_tail f' = p_tail f
            /\ p_buffer f' = p_buffer f
}.

(** A call that leaves [f'] unlocked at index [i], after it woke [f]'s waiters. *)
Definition left_file (s : pipefs) (i : nat) (f : pipefs_file) (k : Z) (f' : pipefs_file)
    (s' : pipefs) : Prop :=
  p_files s' = <[i := set_locked f' false]> (p_files s) /\ cur_id s' = cur_id s /\
  unblocked s' = unblocked s ++ (if k =? 0 then [] else p_waiters f).

Lemma drop_app_zlen {A} (a b : list A) k : zlen a = k -> drop (Z.to_nat k) (a ++ b) = b.
Proof. intros <-. unfold zlen. rewrite Nat2Z.id. apply drop_app_length. Qed.

Lemma turn_drained f remaining : file_ok f -> 0 <= remaining ->
  let b := Z.min remaining (contiguous f) in
  let f' := set_head f (next_head f remaining) in
  drained f b (if b =? 0 then f' else set_waiters f' []).
Proof.
  intros Hf Hr b f'. destruct (read_turn_contents f remaining Hf Hr) as [Hok Hc].
  fold b f' in Hok, Hc. destruct Hf as [H1 H2 H3 H4].
  assert (zlen (slice (p_buffer f) (p_head f) b) = b) as Hz.
  { apply zlen_slice; unfold b, contiguous, PIPE_SIZE in *; zb. }
  assert (file_ok (set_waiters f' [])) as Hok2 by (by destruct Hok).
  destruct (b =? 0) eqn:E; constructor; try done; try (by rewrite E).
  all: rewrite Hc; rewrite drop_app_zlen by done; done.
Qed.

(** A turn that ends the call: it does not wrap. *)
Lemma read_last_turn fuel th i n remaining buf s f :
  p_files s !! i = Some f -> file_ok f -> p_broken f = 0 -> 0 < remaining <= n -> n < 2 ^ 31 ->
  remaining <= zlen buf -> (contiguous f < remaining -> p_head f <= p_tail f) ->
  let b := Z.min remaining (contiguous f) in
  remaining - b < n ->
  exists s' f', read_loop (S (S fuel)) th i n remaining buf s =
      Ok (s', blit buf 0 (slice (p_buffer f) (p_head f) b), Returns (n - (remaining - b))) /\
    left_file s i f b f' s' /\ drained f b f'.
Proof.
  intros Hi Hf Hb Hr Hn Hl Hw b Hlt.
  destruct (read_loop_turn (S fuel) th i n remaining buf s f Hi Hf Hb ltac:(lia) Hl) as [Hz E].
  rewrite E; clear E. fold b. fold b in Hz.
  set (f' := set_head f (next_head f remaining)).
  assert (0 <= b) by (unfold b, contiguous; destruct Hf; unfold PIPE_SIZE in *; zb).
  assert (call_result n (remaining - b) = n - (remaining - b)) as Hcr.
  { unfold call_result, s32. replace (n =? remaining - b) with false by lia.
    rewrite u32_small by lia. by replace (n - (remaining - b) <? 2 ^ 31) with true by lia. }
  destruct (release_after_turn s i f' f b Hi) as (s' & Hrel & F1 & F2 & F3).
  exists s', (if b =? 0 then f' else set_waiters f' []).
  split; [|split; [done|by apply turn_drained; [|lia]]].
  destruct ((p_head f <=? p_tail f) && (contiguous f <? remaining)) eqn:Eb.
  - replace (n =? remaining - b) with false by lia. by rewrite Hrel, <- Hcr.
  - assert (remaining - b = 0) as E0 by (unfold b in *; lia). rewrite <- Hcr, E0.
    cbn [read_loop Z.eqb]. by rewrite Hrel.
Qed.

Lemma get_file_eval s id i f : find_file (p_files s) id = Some i -> p_files s !! i = Some f ->
  p_locked f = false -> get_file id s = Ok (upd_file s i (set_locked f true), Some i).
Proof.
  intros Hf Hi Hl. unfold get_file. rewrite Hf, (ld_nat _ _ f Hi). unfold mbind, res_bind.
  by rewrite Hl.
Qed.

(** The bytes that end up in the caller's buffer: the second part of a read that
    goes around the end of the pipe is copied over the first. *)
Definition read_result (f : pipefs_file) (n : Z) (buf : list Z) : list Z :=
  let first := blit buf 0 (slice (p_buffer f) (p_head f) (Z.min n (contiguous f))) in
  if (p_head f <=? p_tail f) || (n <=? contiguous f) then first
  else blit first 0 (slice (p_buffer f) 0 (Z.min (n - contiguous f) (p_tail f))).

Lemma drained_trans f g h a b : 0 <= a -> 0 <= b -> drained f a g -> drained g b h ->
  drained f (a + b) h.
Proof.
  intros Ha Hb [A1 A2 A3 A4] [B1 B2 B3 B4]. constructor; [done| | |].
  - rewrite B2, A2, drop_drop. f_equal. lia.
  - rewrite B3, A3. destruct (Z.eqb_spec b 0), (Z.eqb_spec a 0), (Z.eqb_spec (a + b) 0); done || lia.
  - destruct A4 as (-> & -> & -> & ->) || destruct A4 as (E1 & E2 & E3 & E4).
    destruct B4 as (F1 & F2 & F3 & F4). repeat split; congruence.
Qed.

Lemma left_file_trans s i f a g s1 b h s2 : 0 <= a -> 0 <= b ->
  p_files s1 = <[i := g]> (p_files s) -> cur_id s1 = cur_id s ->
  unblocked s1 = unblocked s ++ (if a =? 0 then [] else p_waiters f) ->
  drained f a g -> left_file s1 i g b h s2 -> left_file s i f (a + b) h s2.
Proof.
  intros Ha Hb F1 F2 F3 Hd (G1 & G2 & G3). unfold left_file.
  rewrite G1, G2, G3, F1, F2, F3, list_insert_insert_eq, (dr_waiters _ _ _ Hd).
  split_and!; [done..|]. rewrite <- app_assoc. f_equal.
  destruct (Z.eqb_spec b 0), (Z.eqb_spec a 0), (Z.eqb_spec (a + b) 0); try lia;
    by rewrite ?app_nil_r.
Qed.

Lemma read_locked th i n buf s f :
  p_files s !! i = Some f -> file_ok f -> p_broken f = 0 -> 0 < n < 2 ^ 31 -> n <= zlen buf ->
  contents f <> [] ->
  let k := Z.min n (zlen (contents f)) in
  exists s' f', read_loop READ_FUEL th i n n buf s = Ok (s', read_result f n buf, Returns k) /\
    left_file s i f k f' s' /\ drained f k f'.
Proof.
  intros Hi Hf Hb Hn Hl Hne k.
  assert (0 < zlen (contents f)) as Hpos by (destruct (contents f); [done|unfold zlen; cbn; lia]).
  unfold k. rewrite (zlen_contents f Hf) in *. unfold read_result, READ_FUEL. pose proof Hf as [H1 H2 H3 H4].
  assert (contiguous f = if p_head f <=? p_tail f then p_tail f - p_head f else PIPE_SIZE - p_head f)
    as Hc by done.
  destruct ((p_head f <=? p_tail f) || (n <=? contiguous f)) eqn:Ecase.
  - destruct (read_last_turn 1 th i n n buf s f Hi Hf Hb ltac:(lia) ltac:(lia) Hl)
      as (s' & f' & E & Hleft & Hd).
    + destruct (p_head f <=? p_tail f) eqn:?; lia.
    + destruct (p_head f <=? p_tail f) eqn:?; lia.
    + replace (Z.min n (if p_head f <=? p_tail f then _ else _)) with (Z.min n (contiguous f))
        by (destruct (p_head f <=? p_tail f) eqn:?; lia).
      exists s', f'. split_and!; try done. rewrite E.
      by replace (n - (n - Z.min n (contiguous f))) with (Z.min n (contiguous f)) by lia.
  - apply orb_false_iff in Ecase as [E1 E2]. rewrite E1 in Hc, Hpos |- *.
    destruct (read_loop_turn 2 th i n n buf s f Hi Hf Hb ltac:(lia) Hl) as [Hz E].
    rewrite E; clear E. rewrite E1. cbn [andb].
    pose proof (turn_drained f n Hf ltac:(lia)) as Hd1.
    assert (next_head f n = 0) as Hnh by (unfold next_head; rewrite E1; by replace (contiguous f <? n) with true by lia).
    rewrite Hnh in *. rewrite Z.min_r in * by lia. set (c := contiguous f) in *.
    set (f1 := set_head f 0) in *. set (g := if c =? 0 then f1 else set_waiters f1 []) in *.
    pose proof (after_turn_lookup s i f1 f c Hi) as Hi1. fold g in Hi1.
    assert (contiguous g = p_tail f /\ p_head g = 0 /\ p_tail g = p_tail f /\ p_buffer g = p_buffer f
      /\ p_broken g = 0) as (G1 & G2 & G3 & G4 & G5).
    { unfold g, contiguous. destruct (c =? 0); cbn; rewrite Z.sub_0_r;
        by replace (0 <=? p_tail f) with true by lia. }
    assert (zlen (blit buf 0 (slice (p_buffer f) (p_head f) c)) = zlen buf) as Hlb
      by (apply zlen_blit; lia).
    destruct (read_last_turn 0 th i n (n - c) (blit buf 0 (slice (p_buffer f) (p_head f) c))
      (after_turn s i f1 c) g Hi1 (dr_ok _ _ _ Hd1) G5) as (s' & f' & E & Hleft & Hd);
      rewrite ?G1, ?G2, ?G3 in *; try lia.
    replace (Z.min n (PIPE_SIZE - p_head f + p_tail f)) with (c + Z.min (n - c) (p_tail f)) by lia.
    exists s', f'. split_and!.
    + rewrite E, G4.
      by replace (n - (n - c - Z.min (n - c) (p_tail f))) with (c + Z.min (n - c) (p_tail f)) by lia.
    + apply (left_file_trans s i f c g (after_turn s i f1 c)); try lia; try done.
      all: unfold after_turn, g; destruct (c =? 0); cbn; by rewrite ?app_nil_r.
    + apply (drained_trans _ g); [lia..|done|done].
Qed.

Lemma pipefs_read_ok th addr buf n s i f :
  0 <= addr < 2 ^ 63 -> find_file (p_files s) (u32 addr) = Some i -> p_files s !! i = Some f ->
  p_locked f = false -> file_ok f -> p_broken f = 0 -> 0 < n < 2 ^ 31 -> n <= zlen buf ->
  contents f <> [] ->
  let k := Z.min n (zlen (contents f)) in
  exists s' f', pipefs_read th addr buf n s = Ok (s', read_result f n buf, Returns k) /\
    left_file s i f k f' s' /\ drained f k f'.
Proof.
  intros Ha Hfi Hi Hlk Hf Hb Hn Hl Hne k. unfold pipefs_read, assert_.
  rewrite Z.shiftr_div_pow2, Z.div_small by lia. unfold mbind, res_bind. cbn [Z.eqb].
  rewrite (get_file_eval s _ i f Hfi Hi Hlk). replace (n =? 0) with false by lia.
  rewrite u32_small by lia. set (f1 := set_locked f true).
  assert (i < length (p_files s))%nat by (by eapply lookup_lt_Some).
  destruct (read_locked th i n buf (upd_file s i f1) f1) as (s' & f' & E & (L1 & L2 & L3) & Hd);
    try done; [by apply list_lookup_insert_eq|by destruct Hf|].
  exists s', f'. split; [done|]. split; [|by destruct Hd].
  unfold left_file. rewrite L1, L2, L3. cbn. by rewrite list_insert_insert_eq.
Qed.

(** ** The writer *)

(** Bytes that can be written without going around the end of the buffer. *)
Definition room (f : pipefs_file) : Z :=
  if p_tail f <? p_head f then p_head f - p_tail f - 1 else PIPE_SIZE - p_tail f.

Definition wraps (f : pipefs_file) (remaining : Z) : bool :=
  negb (p_tail f <? p_head f) && (room f <? remaining).

(** The file after a turn of the writer. *)
Definition filled (f : pipefs_file) (remaining : Z) (buf : list Z) : pipefs_file :=
  let b := Z.min remaining (room f) in
  set_tail f (blit (p_buffer f) (p_tail f) (slice buf 0 b))
    (if wraps f remaining then 0 else p_tail f + b).

Lemma room_bounds f : file_ok f -> 0 <= room f <= PIPE_SIZE - p_tail f.
Proof. intros [H1 H2 H3 _]. unfold room. zb. Qed.

Lemma write_turn_eval f remaining buf :
  file_ok f -> 0 <= remaining < 2 ^ 31 -> remaining <= zlen buf ->
  write_turn f remaining buf =
    Ok (filled f remaining buf, Z.min remaining (room f),
        (p_tail f <? p_head f) && (room f <? remaining)).
Proof.
  intros Hf Hr Hl. pose proof (room_bounds f Hf) as Hroom. destruct Hf as [H1 H2 H3 _].
  unfold write_turn, filled, wraps, room, assert_ in *. unfold PIPE_SIZE in *.
  rewrite (u32_small (p_tail f + remaining)), (u32_small (1024 - p_tail f)) by lia.
  destruct (Z.ltb_spec (p_tail f) (p_head f)) as [Hlt|Hge]; cbn [andb negb].
  - destruct (Z.leb_spec (p_head f) (p_tail f + remaining)) as [Hb|Hb].
    + rewrite (u32_small (p_head f - p_tail f - 1)) by lia.
      destruct (Z.ltb_spec (1024 - p_tail f) (p_head f - p_tail f - 1)); [lia|].
      unfold mbind, res_bind. rewrite rd_bytes_ok by lia.
      rewrite wr_bytes_ok by (rewrite ?zlen_slice; lia). rewrite Z.min_r, u32_small by lia.
      by replace (p_head f - p_tail f - 1 <? remaining) with true by lia.
    + destruct (Z.ltb_spec (1024 - p_tail f) remaining); [lia|].
      unfold mbind, res_bind. rewrite rd_bytes_ok by lia.
      rewrite wr_bytes_ok by (rewrite ?zlen_slice; lia). rewrite Z.min_l, u32_small by lia.
      by replace (p_head f - p_tail f - 1 <? remaining) with false by lia.
  - destruct (Z.ltb_spec (1024 - p_tail f) remaining) as [Hb|Hb]; unfold mbind, res_bind; cbn [negb].
    + rewrite rd_bytes_ok by lia. rewrite wr_bytes_ok by (rewrite ?zlen_slice; lia).
      by rewrite Z.min_r by lia.
    + rewrite rd_bytes_ok by lia. rewrite wr_bytes_ok by (rewrite ?zlen_slice; lia).
      by rewrite Z.min_l, u32_small by lia.
Qed.

(** A turn appends the bytes it copied -- unless it wraps and nothing was read yet:
    then the full buffer looks empty. *)
Lemma filled_contents f remaining buf :
  file_ok f -> 0 <= remaining <= zlen buf ->
  file_ok (filled f remaining buf) /\
  contents (filled f remaining buf) =
    if wraps f remaining && (p_head f =? 0) then []
    else contents f ++ slice buf 0 (Z.min remaining (room f)).
Proof.
  intros Hf Hr. pose proof (room_bounds f Hf) as Hroom. destruct Hf as [H1 H2 H3 H4].
  set (b := Z.min remaining (room f)).
  assert (zlen (slice buf 0 b) = b) as Hz by (apply zlen_slice; unfold b; lia).
  unfold filled. fold b. split.
  { constructor; cbn; try done; [by rewrite zlen_blit by (unfold b in *; lia)|].
    destruct (wraps f remaining); unfold b, PIPE_SIZE in *; lia. }
  assert (forall o n, 0 <= o -> 0 <= n -> o + n <= p_tail f ->
    slice (blit (p_buffer f) (p_tail f) (slice buf 0 b)) o n = slice (p_buffer f) o n) as Hbef
    by (intros; apply slice_blit_before; unfold b in *; lia).
  assert (slice (blit (p_buffer f) (p_tail f) (slice buf 0 b)) (p_tail f) b = slice buf 0 b) as Hsame.
  { pose proof (slice_blit_same (p_buffer f) (p_tail f) (slice buf 0 b)) as E. rewrite Hz in E.
    apply E; unfold b in *; lia. }
  unfold contents, wraps, room, PIPE_SIZE in *. cbn [set_tail p_head p_tail p_buffer].
  destruct (Z.ltb_spec (p_tail f) (p_head f)) as [Hlt|Hge]; cbn [negb andb].
  - replace (p_head f <=? p_tail f) with false by lia.
    replace (p_head f <=? p_tail f + b) with false by (unfold b; lia).
    rewrite slice_blit_after by (unfold b in *; lia). rewrite (slice_split _ 0 (p_tail f)) by (unfold b; lia).
    rewrite Z.add_0_l, Hbef, Hsame by lia. by rewrite app_assoc.
  - replace (p_head f <=? p_tail f) with true by lia.
    destruct (Z.ltb_spec (1024 - p_tail f) remaining) as [Hw|Hw]; cbn [andb].
    + assert (b = 1024 - p_tail f) as Eb by (unfold b; lia).
      destruct (Z.eqb_spec (p_head f) 0) as [->|Hne].
      * done.
      * replace (p_head f <=? 0) with false by lia. rewrite slice_nil, app_nil_r.
        replace (1024 - p_head f) with ((p_tail f - p_head f) + b) by lia.
        rewrite slice_split by lia. replace (p_head f + (p_tail f - p_head f)) with (p_tail f) by lia.
        by rewrite Hbef, Hsame by lia.
    + assert (b = remaining) as Eb by (unfold b; lia).
      replace (p_head f <=? p_tail f + b) with true by lia.
      replace (p_tail f + b - p_head f) with ((p_tail f - p_head f) + b) by lia.
      rewrite slice_split by lia. replace (p_head f + (p_tail f - p_head f)) with (p_tail f) by lia.
      by rewrite Hbef, Hsame by lia.
Qed.
