(* ===== verification/PipefsCalls.v ===== *)
(** * Pipes: whole calls, wake-ups, closing *)

From S2P Require Import Prelude Bytes Pipefs PipefsProofs.





(** [f'] is [f] after the bytes [data] were appended and every waiter was woken. *)
Record appended (f : pipefs_file) (data : list Z) (f' : pipefs_file) : Prop := {
  ap_ok : file_ok f';
  ap_contents : contents f' = contents f ++ data;
  ap_waiters : p_waiters f' = [];
  ap_same : p_id f' = p_id f /\ p_broken f' = p_broken f /\ p_head f' = p_head f
}.

Lemma call_result_all n : 0 < n < 2 ^ 31 -> call_result n 0 = n.
Proof.
  intros Hn. unfold call_result, s32. replace (n =? 0) with false by lia.
  rewrite u32_small by lia. replace (n - 0 <? 2 ^ 31) with true by lia. lia.
Qed.

Lemma write_loop_turn fuel th i n remaining buf s f :
  p_files s !! i = Some f -> file_ok f -> p_broken f = 0 -> 0 < remaining < 2 ^ 31 ->
  remaining <= zlen buf ->
  let b := Z.min remaining (room f) in
  let s' := after_turn s i (filled f remaining buf) b in
  write_loop (S fuel) th i n remaining buf s =
    if (p_tail f <? p_head f) && (room f <? remaining) then
      s ← wait_for_buffer th i s';
      Ok (s, Sleeps (PipeCall (p_id f) n (remaining - b) buf))
    else write_loop fuel th i n (remaining - b) buf s'.
Proof.
  intros Hi Hf Hb Hr Hl b s'. pose proof (room_bounds f Hf). cbn [write_loop].
  replace (remaining =? 0) with false by lia. rewrite (ld_nat _ _ f Hi). unfold mbind, res_bind.
  rewrite Hb. cbn [Z.eqb negb]. rewrite write_turn_eval by (done || lia).
  rewrite (after_turn_eval s i _ f _ Hi). fold b s'. by rewrite u32_small by (unfold b; lia).
Qed.

(** The turn that ends a write. *)
Lemma write_last_turn fuel th i n remaining buf s f :
  p_files s !! i = Some f -> file_ok f -> p_broken f = 0 -> 0 < remaining <= n -> n < 2 ^ 31 ->
  remaining <= zlen buf -> remaining <= room f ->
  exists s', write_loop (S fuel) th i n remaining buf s = Ok (s', Returns n) /\
    left_file s i f remaining (set_waiters (filled f remaining buf) []) s'.
Proof.
  intros Hi Hf Hb Hr Hn Hl Hroom.
  rewrite (write_loop_turn fuel th i n remaining buf s f Hi Hf Hb ltac:(lia) Hl).
  replace (room f <? remaining) with false by lia. rewrite andb_false_r, Z.min_l, Z.sub_diag by lia.
  destruct (release_after_turn s i (filled f remaining buf) f remaining Hi)
    as (s' & Hrel & F1 & F2 & F3).
  exists s'. split.
  - destruct fuel; cbn [write_loop Z.eqb]; unfold mbind, res_bind; rewrite Hrel;
      by rewrite call_result_all by lia.
  - unfold left_file. replace (remaining =? 0) with false in * by lia. done.
Qed.

Lemma write_fuel_S remaining : 0 <= remaining ->
  exists m, write_fuel remaining = S (S (S m)).
Proof.
  intros Hr. unfold write_fuel, PIPE_SIZE. exists (Z.to_nat (remaining / 1024)). lia.
Qed.

Lemma pipefs_write_locked th addr buf n s i f :
  2 ^ 63 <= addr < 2 ^ 64 -> find_file (p_files s) (u32 addr) = Some i -> p_files s !! i = Some f ->
  p_locked f = false -> 0 < n < 2 ^ 31 ->
  pipefs_write th addr buf n s =
    write_loop (write_fuel n) th i n n buf (upd_file s i (set_locked f true)).
Proof.
  intros Ha Hfi Hi Hlk Hn. unfold pipefs_write, assert_.
  rewrite Z.shiftr_div_pow2 by lia. replace (addr / 2 ^ 63) with 1 by lia.
  unfold mbind, res_bind. cbn [Z.eqb Pos.eqb]. rewrite (get_file_eval s _ i f Hfi Hi Hlk).
  replace (n =? 0) with false by lia. by rewrite u32_small by lia.
Qed.

Lemma pipefs_write_ok th addr buf n s i f :
  2 ^ 63 <= addr < 2 ^ 64 -> find_file (p_files s) (u32 addr) = Some i -> p_files s !! i = Some f ->
  p_locked f = false -> file_ok f -> p_broken f = 0 -> 0 < n < 2 ^ 31 -> n <= zlen buf ->
  n <= room f ->
  let f' := set_waiters (set_tail f (blit (p_buffer f) (p_tail f) (take (Z.to_nat n) buf))
                           (p_tail f + n)) [] in
  exists s', pipefs_write th addr buf n s = Ok (s', Returns n) /\
    left_file s i f n f' s' /\ appended f (take (Z.to_nat n) buf) f'.
Proof.
  intros Ha Hfi Hi Hlk Hf Hb Hn Hl Hroom f'.
  assert (f' = set_waiters (filled f n buf) []) as Ef.
  { unfold f', filled, wraps. replace (room f <? n) with false by lia.
    by rewrite andb_false_r, Z.min_l by lia. }
  rewrite Ef; clear f' Ef. rewrite (pipefs_write_locked th addr buf n s i f) by done.
  destruct (write_fuel_S n ltac:(lia)) as [m ->].
  assert (i < length (p_files s))%nat by (by eapply lookup_lt_Some). set (f1 := set_locked f true).
  destruct (write_last_turn (S (S m)) th i n n buf (upd_file s i f1) f1)
    as (s' & E & L1 & L2 & L3); try done; [by apply list_lookup_insert_eq|by destruct Hf|lia..|].
  exists s'. split; [done|]. split.
  - unfold left_file. rewrite L1, L2, L3. cbn. by rewrite list_insert_insert_eq.
  - destruct (filled_contents f n buf Hf ltac:(lia)) as [Hok Hc].
    unfold wraps in Hc. replace (room f <? n) with false in Hc by lia.
    rewrite andb_false_r, Z.min_l in Hc by lia. cbn [andb] in Hc.
    constructor; [by destruct Hok|exact Hc|done|done].
Qed.

(** A write that fits before the end of the buffer (and before the reader) returns
    the whole count; exactly the first [n] bytes of the caller's buffer are
    appended to the pipe, every waiting thread is woken, the lock is released
    and no other pipe changes. *)
Theorem pipefs_write_correct th addr buf n s i f :
  2 ^ 63 <= addr < 2 ^ 64 -> find_file (p_files s) (u32 addr) = Some i -> p_files s !! i = Some f ->
  p_locked f = false -> file_ok f -> p_broken f = 0 -> 0 < n < 2 ^ 31 -> n <= zlen buf ->
  n <= room f ->
  exists s' f', pipefs_write th addr buf n s = Ok (s', Returns n) /\
    p_files s' = <[i := set_locked f' false]> (p_files s) /\
    appended f (take (Z.to_nat n) buf) f' /\ unblocked s' = unblocked s ++ p_waiters f.
Proof.
  intros. destruct (pipefs_write_ok th addr buf n s i f) as (s' & E & (L1 & L2 & L3) & Ha);
    try done.
  eexists s', _. split_and!; try done. by replace (n =? 0) with false in L3 by lia.
Qed.

(** A read from a pipe that holds data returns at once with as many bytes as there
    are, up to [n]; they leave the pipe in the order they came, writers that
    wait are woken, and, when the bytes are contiguous in the circular buffer,
    the caller's buffer starts with them. *)
Theorem pipefs_read_correct th addr buf n s i f :
  0 <= addr < 2 ^ 63 -> find_file (p_files s) (u32 addr) = Some i -> p_files s !! i = Some f ->
  p_locked f = false -> file_ok f -> p_broken f = 0 -> 0 < n < 2 ^ 31 -> n <= zlen buf ->
  contents f <> [] ->
  let k := Z.min n (zlen (contents f)) in
  exists s' f' buf', pipefs_read th addr buf n s = Ok (s', buf', Returns k) /\
    p_files s' = <[i := set_locked f' false]> (p_files s) /\
    drained f k f' /\ unblocked s' = unblocked s ++ p_waiters f /\
    (k <= contiguous f -> buf' = blit buf 0 (take (Z.to_nat k) (contents f))).
Proof.
  intros Ha Hfi Hi Hlk Hf Hb Hn Hl Hne k.
  destruct (pipefs_read_ok th addr buf n s i f Ha Hfi Hi Hlk Hf Hb Hn Hl Hne)
    as (s' & f' & E & (L1 & L2 & L3) & Hd). fold k in E, L3, Hd.
  assert (0 < zlen (contents f)) as Hpos by (destruct (contents f); [done|unfold zlen; cbn; lia]).
  exists s', f', (read_result f n buf). split_and!; try done.
  { by replace (k =? 0) with false in L3 by lia. }
  clear -Hf Hn Hpos. unfold k in *. rewrite (zlen_contents f Hf). destruct Hf as [H1 H2 H3 _].
  unfold read_result, contiguous, contents, PIPE_SIZE in *. intros Hk.
  destruct (Z.leb_spec (p_head f) (p_tail f)) as [Hle|Hgt]; cbn [orb].
  - by rewrite take_slice by lia.
  - assert (n <= 1024 - p_head f \/ p_tail f = 0) as [Hc|Hc] by lia.
    + replace (n <=? 1024 - p_head f) with true by lia.
      pose proof (zlen_slice (p_buffer f) (p_head f) (1024 - p_head f) ltac:(lia) ltac:(lia) ltac:(lia))
        as Hz. unfold zlen in Hz. rewrite take_app_le by lia.
      by rewrite take_slice, !Z.min_l by lia.
    + rewrite Hc, slice_nil, app_nil_r, Z.add_0_r. rewrite take_slice by lia.
      destruct (n <=? 1024 - p_head f) eqn:En; [done|].
      rewrite (Z.min_r (n - _)) by lia. rewrite slice_nil. unfold blit. cbn. by rewrite drop_0.
Qed.

Lemma find_file_insert fs id i f g : find_file fs id = Some i -> fs !! i = Some f ->
  p_id g = p_id f -> find_file (<[i := g]> fs) id = Some i.
Proof.
  intros Hfi Hi Hg. revert i Hfi Hi. induction fs as [|h fs IH]; intros i; cbn [find_file]; [done|].
  destruct (Z.eqb_spec (p_id h) id) as [Hh|Hh].
  - intros [= <-] [= ->]. cbn. by rewrite Hg, Hh, Z.eqb_refl.
  - destruct (find_file fs id) as [j|] eqn:Ej; [|done]. intros [= <-] Hi.
    change (<[S j := g]> (h :: fs)) with (h :: <[j := g]> fs). cbn [find_file].
    destruct (Z.eqb_spec (p_id h) id); [done|]. by rewrite (IH j).
Qed.

(** What is written to an empty pipe is what a read of the same size gets back,
    as long as it fits before the end of the circular buffer; the pipe is empty
    again afterwards. *)
Theorem pipe_roundtrip th1 th2 id data buf s i f :
  0 <= id < 2 ^ 32 -> find_file (p_files s) id = Some i -> p_files s !! i = Some f ->
  p_locked f = false -> file_ok f -> p_broken f = 0 -> p_head f = p_tail f ->
  0 < zlen data -> p_tail f + zlen data <= PIPE_SIZE -> zlen buf = zlen data ->
  exists s1 s2 f', pipefs_write th1 (id + 2 ^ 63) data (zlen data) s = Ok (s1, Returns (zlen data)) /\
    pipefs_read th2 id buf (zlen data) s1 = Ok (s2, data, Returns (zlen data)) /\
    p_files s2 = <[i := f']> (p_files s) /\ contents f' = [].
Proof.
  intros Hid Hfi Hi Hlk Hf Hb Hht Hd Hfit Hbuf. pose proof Hf as [H1 H2 H3 H4].
  assert (u32 (id + 2 ^ 63) = id /\ u32 id = id) as [U1 U2] by (unfold wrap; lia).
  assert (room f = PIPE_SIZE - p_tail f) as Hroom by (unfold room; by replace (_ <? _) with false by lia).
  unfold PIPE_SIZE in *.
  destruct (pipefs_write_ok th1 (id + 2 ^ 63) data (zlen data) s i f)
    as (s1 & E1 & (L1 & L2 & L3) & Hap); try done; try lia; [by rewrite U1|].
  assert (i < length (p_files s))%nat as Hlt by (by eapply lookup_lt_Some).
  assert (take (Z.to_nat (zlen data)) data = data) as Htake
    by (unfold zlen; rewrite Nat2Z.id; by apply take_ge).
  rewrite Htake in *. set (f1 := set_waiters _ []) in *.
  destruct Hap as [A1 A2 A3 A4].
  assert (contents f = []) as Hc.
  { unfold contents. by rewrite Hht, Z.leb_refl, Z.sub_diag. }
  rewrite Hc in A2. cbn [app] in A2.
  assert (p_files s1 !! i = Some (set_locked f1 false)) as Hi1
    by (rewrite L1; by apply list_lookup_insert_eq).
  destruct (pipefs_read_ok th2 id buf (zlen data) s1 i (set_locked f1 false))
    as (s2 & f2 & E2 & (M1 & M2 & M3) & Hdr); try done; try lia.
  - rewrite U2, L1. by eapply find_file_insert.
  - by destruct A1.
  - change (contents f1 <> []). rewrite A2. by intros ->.
  - change (contents (set_locked f1 false)) with (contents f1) in *.
    rewrite A2, Z.min_id in E2, Hdr. pose proof (dr_contents _ _ _ Hdr) as Dc.
    change (contents (set_locked f1 false)) with (contents f1) in Dc.
    exists s1, s2, (set_locked f2 false). split_and!; [done| | |].
    + rewrite E2. unfold read_result, contiguous. cbn. rewrite Hht.
      replace (p_tail f <=? p_tail f + zlen data) with true by lia. cbn [orb].
      replace (p_tail f + zlen data - p_tail f) with (zlen data) by lia. rewrite Z.min_id.
      rewrite slice_blit_same by lia. by rewrite blit_0_all.
    + rewrite M1, L1. by rewrite list_insert_insert_eq.
    + change (contents f2 = []). rewrite Dc, A2. unfold zlen. rewrite Nat2Z.id. by apply drop_ge.
Qed.

(** * Pipes: blocking, closing, and the table of pipes *)


(** ** Data that is lost *)

(** A write that reaches the end of the circular buffer goes on at its beginning
    with the first bytes of the caller's buffer again; and if the reader is still
    at position 0, everything that was in the pipe, and everything written up to
    the end, is lost although the call returns the full count. *)
Theorem pipefs_write_wrap th addr buf n s i f :
  2 ^ 63 <= addr < 2 ^ 64 -> find_file (p_files s) (u32 addr) = Some i -> p_files s !! i = Some f ->
  p_locked f = false -> file_ok f -> p_broken f = 0 -> 0 < n < 2 ^ 31 -> n <= zlen buf ->
  p_head f <= p_tail f -> 0 < n - (PIPE_SIZE - p_tail f) ->
  n - (PIPE_SIZE - p_tail f) < (if p_head f =? 0 then PIPE_SIZE + 1 else p_head f) ->
  exists s' f', pipefs_write th addr buf n s = Ok (s', Returns n) /\
    p_files s' = <[i := f']> (p_files s) /\
    contents f' =
      (if p_head f =? 0 then [] else contents f ++ slice buf 0 (PIPE_SIZE - p_tail f))
      ++ slice buf 0 (n - (PIPE_SIZE - p_tail f)).
Proof.
  intros Ha Hfi Hi Hlk Hf Hb Hn Hl Hht Hw Hw2. pose proof Hf as [H1 H2 H3 H4].
  rewrite (pipefs_write_locked th addr buf n s i f) by done.
  destruct (write_fuel_S n ltac:(lia)) as [m ->].
  assert (i < length (p_files s))%nat as Hlt by (by eapply lookup_lt_Some).
  set (f1 := set_locked f true). set (s1 := upd_file s i f1).
  assert (p_files s1 !! i = Some f1) as Hi1 by (by apply list_lookup_insert_eq).
  assert (file_ok f1) as Hf1 by (by destruct Hf).
  assert (room f1 = PIPE_SIZE - p_tail f) as Hroom
    by (unfold room; cbn; by replace (p_tail f <? p_head f) with false by lia).
  rewrite (write_loop_turn (S (S m)) th i n n buf s1 f1 Hi1 Hf1) by (done || lia).
  change (p_tail f1) with (p_tail f). change (p_head f1) with (p_head f).
  replace (p_tail f <? p_head f) with false by lia. cbn [andb]. rewrite Hroom, Z.min_r by lia.
  set (c := PIPE_SIZE - p_tail f) in *.
  destruct (filled_contents f1 n buf Hf1 ltac:(lia)) as [Hok2 Hc2]. rewrite Hroom, Z.min_r in Hc2 by lia.
  assert (wraps f1 n = true) as Hwr.
  { unfold wraps. rewrite Hroom. cbn. by replace (p_tail f <? p_head f) with false by lia; lia. }
  rewrite Hwr in Hc2. cbn [andb] in Hc2. change (p_head f1) with (p_head f) in Hc2.
  set (f2 := filled f1 n buf) in *. set (s2 := after_turn s1 i f2 c).
  set (g := if c =? 0 then f2 else set_waiters f2 []).
  assert (p_files s2 !! i = Some g) as Hi2 by (by eapply after_turn_lookup).
  assert (file_ok g /\ p_broken g = 0 /\ p_tail g = 0 /\ p_head g = p_head f /\
    contents g = contents f2) as (G1 & G2 & G3 & G4 & G5).
  { unfold g. assert (p_tail f2 = 0) by (unfold f2, filled; cbn; by rewrite Hwr).
    destruct (c =? 0); split_and!; try done; by destruct Hok2. }
  assert (room g = if p_head f =? 0 then PIPE_SIZE else p_head f - 1) as Hrg.
  { unfold room. rewrite G3, G4. destruct (Z.eqb_spec (p_head f) 0) as [->|]; [cbn; lia|].
    replace (0 <? p_head f) with true by lia. lia. }
  destruct (write_last_turn (S m) th i n (n - c) buf s2 g Hi2 G1 G2) as (s' & E & L1 & _);
    [lia|lia|lia| |].
  { rewrite Hrg. destruct (p_head f =? 0); lia. }
  exists s', (set_locked (set_waiters (filled g (n - c) buf) []) false). split_and!; [done| |].
  - rewrite L1. unfold s2, after_turn, s1. destruct (c =? 0); cbn; by rewrite !list_insert_insert_eq.
  - destruct (filled_contents g (n - c) buf G1 ltac:(lia)) as [_ Hc3].
    assert (n - c <= room g) as Hle by (rewrite Hrg; destruct (p_head f =? 0); lia).
    unfold wraps in Hc3. replace (room g <? n - c) with false in Hc3 by lia.
    rewrite andb_false_r, Z.min_l in Hc3 by lia. cbn [andb] in Hc3.
    etrans; [exact Hc3|]. rewrite G5, Hc2. by destruct (p_head f =? 0).
Qed.

(** After the write end of a pipe was closed, what is still in the pipe cannot be
    read any more: a read fails with -1 and leaves the bytes where they are. *)
Theorem pipefs_read_broken th addr buf n s i f :
  0 <= addr < 2 ^ 63 -> find_file (p_files s) (u32 addr) = Some i -> p_files s !! i = Some f ->
  p_locked f = false -> p_broken f <> 0 -> 0 < n < 2 ^ 31 ->
  exists s', pipefs_read th addr buf n s = Ok (s', buf, Returns (-1)) /\ p_files s' = p_files s.
Proof.
  intros Ha Hfi Hi Hlk Hb Hn. unfold pipefs_read, assert_.
  rewrite Z.shiftr_div_pow2, Z.div_small by lia. unfold mbind, res_bind. cbn [Z.eqb].
  rewrite (get_file_eval s _ i f Hfi Hi Hlk). replace (n =? 0) with false by lia.
  rewrite u32_small by lia. unfold READ_FUEL. cbn [read_loop].
  replace (n =? 0) with false by lia.
  assert (i < length (p_files s))%nat as Hlt by (by eapply lookup_lt_Some).
  unfold mbind, res_bind. rewrite (ld_nat _ _ (set_locked f true)) by (by apply list_lookup_insert_eq).
  cbn [p_broken set_locked]. replace (p_broken f =? 0) with false by lia. cbn [negb].
  rewrite (release_eval _ i (set_locked f true)) by (by apply list_lookup_insert_eq).
  eexists. split; [unfold call_result; by rewrite Z.eqb_refl|].
  cbn. rewrite list_insert_insert_eq. apply list_insert_id.
  by destruct f as [? ? ? ? ? ? []].
Qed.

(** A read of 0 bytes returns with the lock of the pipe still held: the next
    operation on that pipe, whatever it is, spins forever. *)
Theorem pipefs_read_zero_deadlocks th th' addr buf buf' m s i f :
  0 <= addr < 2 ^ 32 -> find_file (p_files s) addr = Some i -> p_files s !! i = Some f ->
  p_locked f = false ->
  exists s', pipefs_read th addr buf 0 s = Ok (s', buf, Returns 0) /\
    pipefs_read th' addr buf' m s' = Err (Deadlock "spinlock_acquire(&file->lock)") /\
    pipefs_write th' (addr + 2 ^ 63) buf' m s' = Err (Deadlock "spinlock_acquire(&file->lock)") /\
    close_file addr s' = Err (Deadlock "spinlock_acquire(&file->lock)").
Proof.
  intros Ha Hfi Hi Hlk. set (s' := upd_file s i (set_locked f true)).
  assert (i < length (p_files s))%nat as Hlt by (by eapply lookup_lt_Some).
  assert (get_file addr s' = Err (Deadlock "spinlock_acquire(&file->lock)")) as Hget.
  { unfold get_file. cbn. rewrite (find_file_insert _ _ _ f) by done.
    by rewrite (ld_nat _ _ (set_locked f true)) by (by apply list_lookup_insert_eq). }
  exists s'. unfold pipefs_read, pipefs_write, close_file, assert_.
  rewrite !Z.shiftr_div_pow2, (Z.div_small addr) by lia.
  replace ((addr + 2 ^ 63) / 2 ^ 63) with 1 by lia.
  assert (u32 (addr + 2 ^ 63) = addr /\ u32 addr = addr) as [U1 U2] by (unfold wrap; lia).
  assert (Z.land addr (u64 (Z.lnot (Z.shiftl 1 63))) = addr) as Hland.
  { change (u64 (Z.lnot (Z.shiftl 1 63))) with (Z.ones 63). rewrite Z.land_ones by lia.
    apply Z.mod_small. lia. }
  rewrite Hland, U1, U2. unfold mbind, res_bind. cbn [Z.eqb Pos.eqb]. rewrite Hget.
  by rewrite (get_file_eval s _ i f Hfi Hi Hlk).
Qed.

(** ** Blocking and waking *)

Lemma wait_eval th i s f : p_files s !! i = Some f ->
  wait_for_buffer th i s =
    Ok (upd_file s i (set_locked (set_waiters f (p_waiters f ++ [th])) false)).
Proof.
  intros Hi. unfold wait_for_buffer. rewrite (ld_nat _ _ f Hi). unfold mbind, res_bind.
  assert (i < length (p_files s))%nat as Hlt by (by eapply lookup_lt_Some).
  rewrite (release_eval _ i (set_waiters f (p_waiters f ++ [th])))
    by (by apply list_lookup_insert_eq).
  unfold upd_file, set_files. cbn. by rewrite list_insert_insert_eq.
Qed.

(** A reader of an empty pipe goes to sleep, registered as a waiter, the lock released. *)
Lemma read_empty_sleeps th addr buf n s i f :
  0 <= addr < 2 ^ 63 -> find_file (p_files s) (u32 addr) = Some i -> p_files s !! i = Some f ->
  p_locked f = false -> file_ok f -> p_broken f = 0 -> p_head f = p_tail f -> 0 < n < 2 ^ 31 ->
  n <= zlen buf ->
  pipefs_read th addr buf n s =
    Ok (upd_file s i (set_waiters f (p_waiters f ++ [th])), buf,
        Sleeps (PipeCall (p_id f) n n buf)).
Proof.
  intros Ha Hfi Hi Hlk Hf Hb Hht Hn Hl. unfold pipefs_read, assert_.
  rewrite Z.shiftr_div_pow2, Z.div_small by lia. unfold mbind, res_bind. cbn [Z.eqb].
  rewrite (get_file_eval s _ i f Hfi Hi Hlk). replace (n =? 0) with false by lia.
  rewrite u32_small by lia. unfold READ_FUEL.
  assert (i < length (p_files s))%nat as Hlt by (by eapply lookup_lt_Some).
  set (f1 := set_locked f true). set (s1 := upd_file s i f1).
  assert (p_files s1 !! i = Some f1) as Hi1 by (by apply list_lookup_insert_eq).
  assert (file_ok f1) as Hf1 by (by destruct Hf).
  destruct (read_loop_turn 2 th i n n buf s1 f1 Hi1 Hf1) as [_ ->]; [done|lia..|].
  assert (contiguous f1 = 0) as Hc by (unfold contiguous; cbn; rewrite Hht, Z.leb_refl; lia).
  rewrite Hc, Z.min_r, Z.sub_0_r, slice_nil by lia. cbn [p_head p_tail f1 set_locked].
  rewrite Hht, Z.leb_refl. replace (0 <? n) with true by lia. cbn [andb]. rewrite Z.eqb_refl.
  assert (set_head f1 (next_head f1 n) = f1) as ->.
  { unfold next_head. rewrite Hc. replace (0 <? n) with true by lia. cbn.
    rewrite Hht, Z.leb_refl. unfold f1, set_locked, set_head. cbn. by rewrite Hht. }
  unfold after_turn. cbn [Z.eqb].
  rewrite (wait_eval th i _ f1) by (apply list_lookup_insert_eq; by eapply lookup_lt_Some).
  unfold mbind, res_bind, blit. cbn [take drop app length Z.to_nat Nat.add].
  rewrite drop_0. do 3 f_equal. unfold upd_file, set_files, s1. cbn.
  rewrite !list_insert_insert_eq. do 2 f_equal. by destruct f as [? ? ? ? ? ? []].
Qed.


(** A write that finds too little room sleeps; if a signal ends that sleep, the loop
    goes on with the null pointer that [wait_for_buffer] returned. *)
Theorem pipefs_write_signal_faults th addr buf n s i f :
  2 ^ 63 <= addr < 2 ^ 64 -> find_file (p_files s) (u32 addr) = Some i -> p_files s !! i = Some f ->
  p_locked f = false -> file_ok f -> p_broken f = 0 -> 0 < n < 2 ^ 31 -> n <= zlen buf ->
  p_tail f < p_head f -> room f < n ->
  exists s1 c, pipefs_write th addr buf n s = Ok (s1, Sleeps c) /\
    write_wake th true c s1 = Err (Fault "file->broken of a null pointer").
Proof.
  intros Ha Hfi Hi Hlk Hf Hb Hn Hl Hth Hroom. rewrite (pipefs_write_locked th addr buf n s i f) by done.
  destruct (write_fuel_S n ltac:(lia)) as [m ->].
  assert (i < length (p_files s))%nat as Hlt by (by eapply lookup_lt_Some).
  set (f1 := set_locked f true). set (s1 := upd_file s i f1).
  assert (p_files s1 !! i = Some f1) as Hi1 by (by apply list_lookup_insert_eq).
  assert (file_ok f1) as Hf1 by (by destruct Hf). change (room f) with (room f1) in Hroom.
  pose proof (room_bounds f1 Hf1).
  rewrite (write_loop_turn (S (S m)) th i n n buf s1 f1 Hi1 Hf1) by (done || lia).
  cbn [p_tail p_head f1 set_locked]. replace (p_tail f <? p_head f) with true by lia. fold f1.
  replace (room f1 <? n) with true by lia. cbn [andb].
  rewrite (wait_eval th i _ _ (after_turn_lookup s1 i _ f1 _ Hi1)). unfold mbind, res_bind.
  eexists _, _. split; [done|]. unfold write_wake. cbn [c_remaining].
  by replace (n - Z.min n (room f1) =? 0) with false by lia.
Qed.
