(* ===== verification/PipefsTable.v ===== *)
(** * Pipes: closing, and the invariant of the table of pipes *)

From S2P Require Import Prelude Bytes Pipefs PipefsProofs PipefsCalls.





(** The two inode numbers of pipe [id]: the read ([false]) and the write end. *)
Definition end_addr (write_end : bool) (id : Z) : Z := if write_end then id + 2 ^ 63 else id.

Lemma end_addr_decode e id : 0 <= id < 2 ^ 32 ->
  u32 (Z.land (end_addr e id) (u64 (Z.lnot (Z.shiftl 1 63)))) = id /\
  Z.shiftr (end_addr e id) 63 = Z.b2z e.
Proof.
  intros Hid. change (u64 (Z.lnot (Z.shiftl 1 63))) with (Z.ones 63).
  rewrite Z.land_ones, Z.shiftr_div_pow2 by lia. unfold wrap, end_addr. destruct e; cbn [Z.b2z]; lia.
Qed.

(** Moving the last record over a removed one keeps the other records. *)
Lemma move_last_perm {A} (l : list A) z i x : (l ++ [z]) !! i = Some x ->
  take (length l) (<[i := z]> (l ++ [z])) ≡ₚ delete i (l ++ [z]).
Proof.
  intros Hi. apply list_elem_of_split_length in Hi as (a & b & E & ->).
  destruct b as [|y b _] using rev_ind.
  - apply app_inj_2 in E as [-> [= ->]]; [|done].
    rewrite delete_middle, app_nil_r. rewrite insert_app_r_alt, Nat.sub_diag by lia. cbn.
    by rewrite take_app_length.
  - change (a ++ x :: b ++ [y]) with (a ++ (x :: b) ++ [y]) in E.
    rewrite app_assoc in E. apply app_inj_2 in E as [-> [= ->]]; [|done].
    rewrite <- app_assoc. cbn. rewrite delete_middle.
    rewrite insert_app_r_alt, Nat.sub_diag by lia. cbn.
    change (a ++ y :: b ++ [y]) with (a ++ (y :: b) ++ [y]). rewrite app_assoc.
    rewrite take_app_length' by (rewrite !length_app; done).
    rewrite app_assoc, (Permutation_app_comm _ [y]). cbn. symmetry. apply Permutation_middle.
Qed.

Lemma delete_insert_same {A} (l : list A) i x : delete i (<[i := x]> l) = delete i l.
Proof. revert i. induction l as [|y l IH]; intros [|i]; try done. cbn. f_equal. apply IH. Qed.

Section Close.
Context (s : pipefs) (i : nat) (f : pipefs_file).
Context (Hid : 0 <= p_id f < 2 ^ 32) (Hfi : find_file (p_files s) (p_id f) = Some i)
  (Hi : p_files s !! i = Some f) (Hlk : p_locked f = false).

Lemma files_lt : (i < length (p_files s))%nat.
Proof using Hi. by eapply lookup_lt_Some. Qed.

(** [close_file] with the file found and locked. *)
Lemma close_eval e :
  close_file (end_addr e (p_id f)) s =
    (s' ← (if negb (p_broken f =? 0) then
             assert_ (p_broken f =? (if e then 2 else 1))
               (if e then "file->broken == 2" else "file->broken == 1") ;;
             remove_file i (upd_file s i (set_locked f true))
           else broadcast_waiters i
                  (upd_file s i (set_broken (set_locked f true) (if e then 1 else 2))));
     if Z.of_nat i <? zlen (p_files s') then release i s' else Ok s').
Proof using All.
  destruct (end_addr_decode e (p_id f) Hid) as [E1 E2]. unfold close_file. rewrite E1, E2.
  rewrite (get_file_eval s _ i f Hfi Hi Hlk). unfold mbind, res_bind.
  rewrite (ld_nat _ _ (set_locked f true)) by (apply list_lookup_insert_eq, files_lt).
  unfold upd_file, set_files. cbn [p_broken set_locked p_files cur_id unblocked].
  rewrite list_insert_insert_eq. unfold assert_.
  destruct (p_broken f =? 0); cbn [negb]; destruct e; cbn [Z.b2z Z.eqb Pos.eqb]; done.
Qed.

Lemma close_first (e : bool) : p_broken f = 0 ->
  exists s', close_file (end_addr e (p_id f)) s = Ok s' /\
    p_files s' = <[i := set_broken (set_waiters f []) (if e then 1 else 2)]> (p_files s) /\
    unblocked s' = unblocked s ++ p_waiters f.
Proof using All.
  intros Hb. rewrite close_eval, Hb. cbn [Z.eqb negb].
  pose proof files_lt as Hlt. set (g := set_broken (set_locked f true) _).
  unfold broadcast_waiters. rewrite (ld_nat _ _ g) by (by apply list_lookup_insert_eq).
  unfold mbind, res_bind. cbn [p_files].
  cbn [p_files upd_file set_files].
  replace (Z.of_nat i <? zlen (<[i := set_waiters g []]> (<[i := g]> (p_files s)))) with true
    by (unfold zlen; rewrite !length_insert; lia).
  rewrite (release_eval _ i (set_waiters g []))
    by (apply list_lookup_insert_eq; cbn; by rewrite length_insert).
  eexists. split; [done|]. split; [|done]. cbn. rewrite !list_insert_insert_eq. f_equal.
  by destruct f as [? ? ? ? ? ? []].
Qed.

Lemma close_second (e : bool) : p_broken f = (if e then 2 else 1) ->
  Forall (fun g => p_locked g = false) (p_files s) ->
  exists s', close_file (end_addr e (p_id f)) s = Ok s' /\
    p_files s' ≡ₚ delete i (p_files s) /\ unblocked s' = unblocked s.
Proof using All.
  intros Hb Hall. rewrite close_eval, Hb. replace (negb ((if e then 2 else 1) =? 0)) with true by (by destruct e).
  rewrite Z.eqb_refl. unfold assert_, remove_file, mbind, res_bind. cbn [p_files upd_file set_files].
  rewrite length_insert. destruct (p_files s) as [|z l _] eqn:El using rev_ind.
  { by rewrite lookup_nil in Hi. }
  rewrite length_app. cbn [length]. replace (length l + 1 - 1)%nat with (length l) by lia.
  assert (i < length (l ++ [z]))%nat as Hlt by (by eapply lookup_lt_Some).
  rewrite length_app in Hlt. cbn in Hlt.
  assert (exists z', (<[i := set_locked f true]> (l ++ [z])) !! length l = Some z' /\
    take (length l) (<[i := z']> (l ++ [z])) = take (length l) (<[i := z]> (l ++ [z])))
    as (z' & Ez & Et).
  { destruct (decide (i = length l)) as [->|Hne].
    - exists (set_locked f true). rewrite list_lookup_insert_eq by (rewrite length_app; cbn; lia).
      split; [done|]. by rewrite !take_insert_ge by lia.
    - exists z. rewrite list_lookup_insert_ne by done. by rewrite list_lookup_middle. }
  rewrite (ld_nat _ _ z' Ez). rewrite list_insert_insert_eq, Et. clear Et. cbn [p_files set_files].
  pose proof (move_last_perm l z i f Hi) as Hperm.
  set (l' := take (length l) _) in *.
  destruct (Z.ltb_spec (Z.of_nat i) (zlen l')) as [Hin|Hout];
    [|eexists; split; [reflexivity|]; split; [exact Hperm|done] ].
  assert (l' !! i = Some z) as Hz.
  { assert (i < length l)%nat by (unfold zlen, l' in Hin; rewrite length_take in Hin; lia).
    unfold l'. rewrite lookup_take_lt by done. apply list_lookup_insert_eq. rewrite length_app. cbn. lia. }
  rewrite (release_eval _ i z) by done. eexists. split; [done|]. split; [|done]. cbn.
  rewrite list_insert_id; [done|]. rewrite Hz. f_equal.
  apply Forall_app in Hall as [_ Hzl]. apply Forall_cons_iff in Hzl as [Hzl _].
  by destruct z as [? ? ? ? ? ? []].
Qed.
End Close.

(** Closing one end of a pipe breaks it and wakes everybody who waits on it; closing
    the same end again fails an assertion; closing the other end removes the
    pipe and keeps every other pipe as it is. *)
Theorem pipe_close_lifecycle (e : bool) s i f :
  0 <= p_id f < 2 ^ 32 -> find_file (p_files s) (p_id f) = Some i -> p_files s !! i = Some f ->
  Forall (fun g => p_locked g = false) (p_files s) -> p_broken f = 0 ->
  exists s1 s2, close_file (end_addr e (p_id f)) s = Ok s1 /\
    p_files s1 = <[i := set_broken (set_waiters f []) (if e then 1 else 2)]> (p_files s) /\
    unblocked s1 = unblocked s ++ p_waiters f /\
    is_ok (close_file (end_addr e (p_id f)) s1) = false /\
    close_file (end_addr (negb e) (p_id f)) s1 = Ok s2 /\
    p_files s2 ≡ₚ delete i (p_files s).
Proof.
  intros Hid Hfi Hi Hall Hb.
  assert (p_locked f = false) as Hlk by (by eapply (Forall_lookup_1 (fun g => p_locked g = false))).
  destruct (close_first s i f Hid Hfi Hi Hlk e Hb) as (s1 & E1 & F1 & U1).
  set (f1 := set_broken (set_waiters f []) (if e then 1 else 2)) in *.
  pose proof (files_lt s i f Hi) as Hlt.
  assert (p_files s1 !! i = Some f1) as Hi1 by (rewrite F1; by apply list_lookup_insert_eq).
  assert (find_file (p_files s1) (p_id f1) = Some i) as Hfi1
    by (rewrite F1; by eapply find_file_insert).
  destruct (close_second s1 i f1 Hid Hfi1 Hi1 Hlk (negb e)) as (s2 & E2 & F2 & U2).
  { by destruct e. }
  { rewrite F1. by apply Forall_insert. }
  exists s1, s2. split_and!; try done.
  - change (p_id f) with (p_id f1). rewrite (close_eval s1 i f1 Hid Hfi1 Hi1 Hlk). by destruct e.
  - rewrite F2, F1. by rewrite delete_insert_same.
Qed.

(** ** The invariant of all reachable states *)

Record table_ok (s : pipefs) : Prop := {
  tk_files : Forall file_ok (p_files s);
  tk_nodup : NoDup (p_id <$> p_files s);
  tk_ids : Forall (fun f => 2 <= p_id f <= cur_id s) (p_files s);
  tk_cur : 1 <= cur_id s
}.

(** One system call, or the continuation of one, by any thread. *)
Inductive pipefs_step : pipefs -> pipefs -> Prop :=
  | step_create mem s s' id :
      zlen mem = PIPE_SIZE -> cur_id s + 1 < 2 ^ 32 -> create_file mem s = (s', id) ->
      pipefs_step s s'
  | step_read th addr buf n s s' buf' o :
      pipefs_read th addr buf n s = Ok (s', buf', o) -> pipefs_step s s'
  | step_read_wake th signal c s s' buf' o :
      0 <= c_remaining c < 2 ^ 32 -> read_wake th signal c s = Ok (s', buf', o) -> pipefs_step s s'
  | step_write th addr buf n s s' o :
      pipefs_write th addr buf n s = Ok (s', o) -> pipefs_step s s'
  | step_write_wake th signal c s s' o :
      0 <= c_remaining c < 2 ^ 32 -> write_wake th signal c s = Ok (s', o) -> pipefs_step s s'
  | step_close addr s s' :
      close_file addr s = Ok s' -> pipefs_step s s'.

(** The table where the file at [i] was replaced by one with the same identity. *)
Lemma table_ok_upd s s' i f f' : table_ok s -> p_files s !! i = Some f ->
  p_files s' = <[i := f']> (p_files s) -> cur_id s' = cur_id s -> p_id f' = p_id f -> file_ok f' ->
  table_ok s'.
Proof.
  intros [T1 T2 T3 T4] Hi E1 E2 E3 Hf. constructor; rewrite ?E1, ?E2; [| | |done].
  - by apply Forall_insert.
  - rewrite list_fmap_insert, E3, list_insert_id; [done|]. by rewrite list_lookup_fmap, Hi.
  - apply Forall_insert; [done|]. rewrite E3. by apply (Forall_lookup_1 _ _ _ _ T3 Hi).
Qed.

Lemma table_file s i f : table_ok s -> p_files s !! i = Some f -> file_ok f.
Proof. intros [T1 _ _ _] Hi. by apply (Forall_lookup_1 _ _ _ _ T1 Hi). Qed.

Lemma ld_files s i f : ld (p_files s) (Z.of_nat i) = Ok f -> p_files s !! i = Some f.
Proof.
  unfold ld. replace (0 <=? Z.of_nat i) with true by lia. rewrite Nat2Z.id.
  by destruct (p_files s !! i); intros [= ->].
Qed.

Lemma release_ok i s s' : table_ok s -> release i s = Ok s' -> table_ok s'.
Proof.
  unfold release. intros T E. destruct (ld (p_files s) (Z.of_nat i)) as [f|] eqn:Hi; [|done].
  injection E as <-. apply ld_files in Hi. pose proof (table_file s i f T Hi) as Hf.
  eapply (table_ok_upd s _ i f); try done. by destruct Hf.
Qed.

Lemma wait_ok th i s s' : table_ok s -> wait_for_buffer th i s = Ok s' -> table_ok s'.
Proof.
  unfold wait_for_buffer. intros T E. destruct (ld (p_files s) (Z.of_nat i)) as [f|] eqn:Hi; [|done].
  apply ld_files in Hi. pose proof (table_file s i f T Hi) as Hf.
  eapply release_ok, E. eapply (table_ok_upd s _ i f); try done. by destruct Hf.
Qed.

Lemma broadcast_ok i s s' : table_ok s -> broadcast_waiters i s = Ok s' -> table_ok s'.
Proof.
  unfold broadcast_waiters. intros T E. destruct (ld (p_files s) (Z.of_nat i)) as [f|] eqn:Hi; [|done].
  injection E as <-. apply ld_files in Hi. pose proof (table_file s i f T Hi) as Hf.
  eapply (table_ok_upd s _ i f); try done. by destruct Hf.
Qed.

Lemma get_file_ok id s s' o : table_ok s -> get_file id s = Ok (s', o) -> table_ok s'.
Proof.
  unfold get_file. intros T E. destruct (find_file (p_files s) id) as [i|]; [|by injection E as <- _].
  destruct (ld (p_files s) (Z.of_nat i)) as [f|] eqn:Hi; [|done].
  cbn in E. destruct (p_locked f); [done|]. injection E as <- _.
  apply ld_files in Hi. pose proof (table_file s i f T Hi) as Hf.
  eapply (table_ok_upd s _ i f); try done. by destruct Hf.
Qed.

(** The turns of the two loops, for every size a caller may ask for: no assertion
    fails and no access is out of bounds. *)
Lemma read_turn_safe f remaining : file_ok f -> 0 <= remaining < 2 ^ 32 ->
  exists f' data block, read_turn f remaining = Ok (f', data, block) /\ file_ok f' /\
    p_id f' = p_id f /\ 0 <= zlen data <= remaining.
Proof.
  intros [H1 H2 H3 H4] Hr. unfold read_turn, assert_, PIPE_SIZE in *.
  rewrite (u32_small (1024 - p_head f)) by lia.
  assert (forall b (block : bool), 0 <= b <= remaining -> b <= 1024 - p_head f ->
    exists f' data bl, (data ← rd_bytes (p_buffer f) (p_head f) b;
      Ok (set_head f (u32 (p_head f + b)), data, block)) = Ok (f', data, bl) /\ file_ok f' /\
      p_id f' = p_id f /\ 0 <= zlen data <= remaining) as Hcopy.
  { intros b block Hb1 Hb2. rewrite rd_bytes_ok by lia. rewrite u32_small by lia.
    eexists _, _, _. split; [done|]. rewrite zlen_slice by lia. split_and!; try done; try lia.
    by constructor; cbn; unfold PIPE_SIZE; lia. }
  destruct ((p_head f <=? p_tail f) && _) eqn:Eb.
  - rewrite (u32_small (p_tail f - p_head f)) by lia.
    replace (1024 - p_head f <? p_tail f - p_head f) with false by lia. apply Hcopy; [|lia].
    assert (u32 (p_head f + remaining) <= p_head f + remaining) by (apply Z.mod_le; lia). lia.
  - destruct (Z.ltb_spec (1024 - p_head f) remaining).
    + unfold mbind, res_bind. cbn. rewrite rd_bytes_ok by lia. eexists _, _, _. split; [done|].
      rewrite zlen_slice by lia. split_and!; try done; try lia.
    + apply Hcopy; lia.
Qed.

Lemma write_turn_safe f remaining buf f' b block : file_ok f -> 0 <= remaining < 2 ^ 32 ->
  write_turn f remaining buf = Ok (f', b, block) ->
  file_ok f' /\ p_id f' = p_id f /\ 0 <= b <= remaining.
Proof.
  intros [H1 H2 H3 H4] Hr. unfold write_turn, assert_, PIPE_SIZE in *.
  rewrite (u32_small (1024 - p_tail f)) by lia.
  assert (forall b0 t (bl : bool), 0 <= b0 <= remaining -> b0 <= 1024 - p_tail f -> 0 <= t <= 1024 ->
    (data ← rd_bytes buf 0 b0; b1 ← wr_bytes (p_buffer f) (p_tail f) data;
     Ok (set_tail f b1 t, b0, bl)) = Ok (f', b, block) ->
    file_ok f' /\ p_id f' = p_id f /\ 0 <= b <= remaining) as Hcopy.
  { intros b0 t bl Hb1 Hb2 Ht. unfold rd_bytes. destruct (_ && _) eqn:Erd; [|done].
    unfold mbind, res_bind. rewrite wr_bytes_ok by (rewrite ?zlen_slice; lia).
    intros [= <- <- <-]. split_and!; try done; try lia.
    constructor; cbn; unfold PIPE_SIZE; try done. by rewrite zlen_blit by (rewrite ?zlen_slice; lia). }
  destruct ((p_tail f <? p_head f) && _) eqn:Eb.
  - rewrite (u32_small (p_head f - p_tail f - 1)) by lia.
    replace (1024 - p_tail f <? p_head f - p_tail f - 1) with false by lia.
    unfold mbind at 1, res_bind at 1. rewrite u32_small by lia. apply Hcopy; [|lia..].
    assert (u32 (p_tail f + remaining) <= p_tail f + remaining) by (apply Z.mod_le; lia). lia.
  - destruct (Z.ltb_spec (1024 - p_tail f) remaining); unfold mbind at 1, res_bind at 1; cbn [negb].
    + apply Hcopy; lia.
    + rewrite u32_small by lia. apply Hcopy; lia.
Qed.

Lemma read_loop_ok fuel th i n remaining buf s s' buf' o :
  table_ok s -> 0 <= remaining < 2 ^ 32 ->
  read_loop fuel th i n remaining buf s = Ok (s', buf', o) -> table_ok s'.
Proof.
  revert remaining buf s. induction fuel as [|fuel IH]; intros remaining buf s T Hr; cbn [read_loop].
  all: assert (forall s0 b0 r0, table_ok s0 ->
    (s1 ← release i s0; Ok (s1, b0, Returns (call_result n r0))) = Ok (s', buf', o) -> table_ok s')
    as Hfin by (intros s0 b0 r0 T0 E; unfold mbind, res_bind in E;
                destruct (release i s0) eqn:Er; [|done]; injection E as <- _ _; by eapply release_ok).
  all: destruct (remaining =? 0); [by apply Hfin|].
  { done. }
  unfold mbind, res_bind. destruct (ld (p_files s) (Z.of_nat i)) as [f|] eqn:Hi; [|done].
  apply ld_files in Hi. pose proof (table_file s i f T Hi) as Hf.
  destruct (negb (p_broken f =? 0)); [by apply Hfin|].
  destruct (read_turn_safe f remaining Hf Hr) as (f' & data & block & -> & Hf' & Hid & Hz).
  destruct (wr_bytes buf 0 data) as [buf1|]; [|done]. rewrite (after_turn_eval s i f' f _ Hi).
  set (s1 := after_turn s i f' (zlen data)).
  assert (table_ok s1) as T1.
  { unfold s1, after_turn. destruct (zlen data =? 0); eapply (table_ok_upd s _ i f); try done.
    by destruct Hf'. }
  rewrite u32_small by lia. destruct block; [|by apply IH; [done|lia]].
  destruct (n =? remaining - zlen data); [|by apply Hfin].
  destruct (wait_for_buffer th i s1) as [s2|] eqn:Ew; [|done]. intros [= <- _ _]. by eapply wait_ok.
Qed.

Lemma write_loop_ok fuel th i n remaining buf s s' o :
  table_ok s -> 0 <= remaining < 2 ^ 32 ->
  write_loop fuel th i n remaining buf s = Ok (s', o) -> table_ok s'.
Proof.
  revert remaining s. induction fuel as [|fuel IH]; intros remaining s T Hr; cbn [write_loop].
  all: assert (forall s0 r0, table_ok s0 ->
    (s1 ← release i s0; Ok (s1, Returns r0)) = Ok (s', o) -> table_ok s')
    as Hfin by (intros s0 r0 T0 E; unfold mbind, res_bind in E;
                destruct (release i s0) eqn:Er; [|done]; injection E as <- _; by eapply release_ok).
  all: destruct (remaining =? 0); [by apply Hfin|].
  { done. }
  unfold mbind, res_bind. destruct (ld (p_files s) (Z.of_nat i)) as [f|] eqn:Hi; [|done].
  apply ld_files in Hi. pose proof (table_file s i f T Hi) as Hf.
  destruct (negb (p_broken f =? 0)); [by apply Hfin|].
  destruct (write_turn f remaining buf) as [[[f' b] block]|] eqn:Et; [|done].
  destruct (write_turn_safe f remaining buf f' b block Hf Hr Et) as (Hf' & Hid & Hz).
  rewrite (after_turn_eval s i f' f _ Hi). set (s1 := after_turn s i f' b).
  assert (table_ok s1) as T1.
  { unfold s1, after_turn. destruct (b =? 0); eapply (table_ok_upd s _ i f); try done.
    by destruct Hf'. }
  rewrite u32_small by lia. destruct block; [|by apply IH; [done|lia]].
  destruct (wait_for_buffer th i s1) as [s2|] eqn:Ew; [|done]. intros [= <- _]. by eapply wait_ok.
Qed.

Lemma remove_file_ok i f s s' : table_ok s -> p_files s !! i = Some f ->
  remove_file i s = Ok s' -> table_ok s'.
Proof.
  intros [T1 T2 T3 T4] Hi. unfold remove_file, mbind, res_bind.
  destruct (p_files s) as [|z l _] eqn:El using rev_ind; [by rewrite lookup_nil in Hi|].
  rewrite length_app. cbn [length]. replace (length l + 1 - 1)%nat with (length l) by lia.
  rewrite (ld_nat _ _ z) by (by rewrite list_lookup_middle). intros [= <-].
  pose proof (move_last_perm l z i f Hi) as Hp.
  assert (l ++ [z] ≡ₚ f :: take (length l) (<[i := z]> (l ++ [z]))) as Hall
    by (rewrite Hp; by apply delete_Permutation).
  constructor; cbn [p_files set_files cur_id]; [| | |done].
  - rewrite Hall in T1. by apply Forall_cons_iff in T1 as [_ ?].
  - rewrite Hall in T2. by apply list.NoDup_cons in T2 as [_ ?].
  - rewrite Hall in T3. by apply Forall_cons_iff in T3 as [_ ?].
Qed.

Lemma get_file_lookup id s s' i : get_file id s = Ok (s', Some i) ->
  exists f, p_files s' !! i = Some f.
Proof.
  unfold get_file. destruct (find_file (p_files s) id) as [j|]; [|done].
  destruct (ld (p_files s) (Z.of_nat j)) as [f|] eqn:Hj; [|done].
  cbn. destruct (p_locked f); [done|]. intros [= <- <-]. apply ld_files in Hj.
  eexists. cbn. apply list_lookup_insert_eq. by eapply lookup_lt_Some.
Qed.

Lemma close_file_ok addr s s' : table_ok s -> close_file addr s = Ok s' -> table_ok s'.
Proof.
  intros T. unfold close_file, mbind, res_bind.
  destruct (get_file _ s) as [[s0 [i|]]|] eqn:Eg; [|done..].
  pose proof (get_file_ok _ _ _ _ T Eg) as T0. destruct (get_file_lookup _ _ _ _ Eg) as [f Hi].
  rewrite (ld_nat _ _ f Hi). pose proof (table_file s0 i f T0 Hi) as Hf.
  assert (forall s1, table_ok s1 ->
    (if Z.of_nat i <? zlen (p_files s1) then release i s1 else Ok s1) = Ok s' -> table_ok s') as Hend.
  { intros s1 T1. destruct (_ <? _); [by apply release_ok|by intros [= <-] ]. }
  destruct (negb (p_broken f =? 0)).
  - destruct (if Z.shiftr addr 63 =? 0 then _ else _); [|done].
    destruct (if Z.shiftr addr 63 =? 1 then _ else _); [|done].
    destruct (remove_file i s0) as [s1|] eqn:Er; [|done]. apply Hend. by eapply remove_file_ok.
  - destruct (broadcast_waiters i _) as [s1|] eqn:Eb; [|done]. apply Hend.
    eapply broadcast_ok, Eb. eapply (table_ok_upd s0 _ i f); try done.
    destruct Hf. constructor; try done. cbn. destruct (_ =? 0); lia.
Qed.

Lemma create_file_ok mem s s' id : table_ok s -> zlen mem = PIPE_SIZE ->
  cur_id s + 1 < 2 ^ 32 -> create_file mem s = (s', id) -> table_ok s'.
Proof.
  intros [T1 T2 T3 T4] Hm Hlt. unfold create_file. rewrite u32_small by lia. intros [= <- _].
  constructor; cbn [p_files cur_id]; [| | |lia].
  - apply Forall_app. split; [done|]. apply Forall_singleton.
    constructor; cbn; unfold PIPE_SIZE; lia || done.
  - rewrite fmap_app. apply list.NoDup_app. split_and!; [done| |apply NoDup_singleton].
    intros x Hx Hin. cbn in Hin. apply list_elem_of_singleton in Hin as ->.
    apply list_elem_of_fmap in Hx as (g & Hg & Hin).
    eapply Forall_forall in T3; [|by apply list_elem_of_In]. lia.
  - apply Forall_app. split; [|apply Forall_singleton; cbn; lia].
    eapply Forall_impl; [|exact T3]. cbn. lia.
Qed.

Lemma pipefs_step_ok s s' : table_ok s -> pipefs_step s s' -> table_ok s'.
Proof.
  intros T Hs. revert T. destruct Hs as [mem s0 s1 id Hm Hc E|th addr buf n s0 s1 buf' o E|th signal c s0 s1 buf' o Hr E
           |th addr buf n s0 s1 o E|th signal c s0 s1 o Hr E|addr s0 s1 E]; intros T.
  - by eapply create_file_ok.
  - revert E. unfold pipefs_read, mbind, res_bind. destruct (assert_ _ _); [|done].
    destruct (get_file _ s0) as [[s2 [i|]]|] eqn:Eg; [| |done].
    + pose proof (get_file_ok _ _ _ _ T Eg) as T0. destruct (n =? 0); [by intros [= <- _ _]|].
      apply read_loop_ok; [done|apply wrap_range; lia].
    + intros [= <- _ _]. by eapply get_file_ok.
  - revert E. unfold read_wake, mbind, res_bind. destruct signal; [by intros [= <- _ _]|].
    destruct (get_file _ s0) as [[s2 [i|]]|] eqn:Eg; [| |done].
    + apply read_loop_ok; [by eapply get_file_ok|done].
    + intros [= <- _ _]. by eapply get_file_ok.
  - revert E. unfold pipefs_write, mbind, res_bind. destruct (assert_ _ _); [|done].
    destruct (get_file _ s0) as [[s2 [i|]]|] eqn:Eg; [| |done].
    + pose proof (get_file_ok _ _ _ _ T Eg) as T0. destruct (n =? 0); [by intros [= <- _]|].
      apply write_loop_ok; [done|apply wrap_range; lia].
    + intros [= <- _]. by eapply get_file_ok.
  - revert E. unfold write_wake, mbind, res_bind.
    destruct signal; [by destruct (_ =? 0); [intros [= <- _]|]|].
    destruct (get_file _ s0) as [[s2 [i|]]|] eqn:Eg; [| |done].
    + apply write_loop_ok; [by eapply get_file_ok|done].
    + destruct (_ =? 0); [|done]. intros [= <- _]. by eapply get_file_ok.
  - by eapply close_file_ok.
Qed.

(** C9: in every state reachable from the mounted file system by any interleaving of
    the calls of any threads (opening, reading, writing, going on after a sleep,
    closing), the positions of every pipe stay inside its buffer and the pipes
    have distinct identifiers; so every turn of the copy loop of a read, of
    whatever size, passes its assertion and stays in bounds. *)
Theorem pipefs_reachable_ok s : rtc pipefs_step init_priv s ->
  NoDup (p_id <$> p_files s) /\
  forall f, f ∈ p_files s ->
    file_ok f /\ 2 <= p_id f <= cur_id s /\
    forall remaining, 0 <= remaining < 2 ^ 32 -> is_ok (read_turn f remaining) = true.
Proof.
  intros Hr. assert (table_ok init_priv) as T0 by (constructor; cbn; constructor || lia).
  assert (table_ok s) as T.
  { revert T0. induction Hr as [|s1 s2 s3 Hs _ IH]; [done|]. intros T. apply IH.
    by eapply pipefs_step_ok. }
  destruct T as [T1 T2 T3 T4]. split; [done|]. intros f Hf%list_elem_of_In.
  rewrite Forall_forall in T1, T3. split_and!; [auto|apply (T3 f Hf)..|].
  intros remaining Hrem. destruct (read_turn_safe f remaining) as (? & ? & ? & -> & _); auto.
Qed.

(** * Pipes on concrete files *)



(** A mounted file system with one fresh pipe (identifier 2), and the same pipe with
    its positions at [head] and [tail]. *)
Definition ex_pipe (head tail broken : Z) : pipefs_file :=
  PipefsFile 2 (replicate 1024 7) tail head broken [] false.
Definition ex_pipefs (head tail broken : Z) : pipefs := Pipefs [ex_pipe head tail broken] 2 [].

Definition ex_in : Z := 2 + 2 ^ 63.

Lemma ex_pipe_ok head tail broken :
  0 <= head <= 1024 -> 0 <= tail <= 1024 -> 0 <= broken <= 2 -> file_ok (ex_pipe head tail broken).
Proof. intros. constructor; cbn; try done; lia. Qed.

Lemma ex_created : create_file (replicate 1024 7) init_priv = (ex_pipefs 0 0 0, 2).
Proof. reflexivity. Qed.

Lemma pipefs_write_witness :
  exists s' f', pipefs_write (1, 1) ex_in [1; 2; 3] 3 (ex_pipefs 0 0 0) = Ok (s', Returns 3) /\
    p_files s' = <[0%nat := set_locked f' false]> (p_files (ex_pipefs 0 0 0)) /\
    appended (ex_pipe 0 0 0) [1; 2; 3] f' /\ unblocked s' = [].
Proof.
  apply (pipefs_write_correct (1, 1) ex_in [1; 2; 3] 3 (ex_pipefs 0 0 0) 0 (ex_pipe 0 0 0));
    try reflexivity; try (unfold ex_in; lia); try (vm_compute; discriminate).
  apply ex_pipe_ok; lia.
Defined.

Lemma pipefs_read_witness :
  exists s' f' buf', pipefs_read (1, 1) 2 [0; 0; 0] 3 (ex_pipefs 10 100 0) = Ok (s', buf', Returns 3) /\
    p_files s' = <[0%nat := set_locked f' false]> (p_files (ex_pipefs 10 100 0)) /\
    drained (ex_pipe 10 100 0) 3 f' /\ unblocked s' = [] /\
    (3 <= contiguous (ex_pipe 10 100 0) ->
     buf' = blit [0; 0; 0] 0 (take 3 (contents (ex_pipe 10 100 0)))).
Proof.
  apply (pipefs_read_correct (1, 1) 2 [0; 0; 0] 3 (ex_pipefs 10 100 0) 0 (ex_pipe 10 100 0));
    try reflexivity; try lia; try (vm_compute; discriminate).
  apply ex_pipe_ok; lia.
Defined.

Lemma pipe_roundtrip_witness :
  exists s1 s2 f', pipefs_write (1, 1) (2 + 2 ^ 63) [4; 5] 2 (ex_pipefs 9 9 0) = Ok (s1, Returns 2) /\
    pipefs_read (2, 1) 2 [0; 0] 2 s1 = Ok (s2, [4; 5], Returns 2) /\
    p_files s2 = <[0%nat := f']> (p_files (ex_pipefs 9 9 0)) /\ contents f' = [].
Proof.
  apply (pipe_roundtrip (1, 1) (2, 1) 2 [4; 5] [0; 0] (ex_pipefs 9 9 0) 0 (ex_pipe 9 9 0));
    try reflexivity; try lia; try (vm_compute; discriminate).
  apply ex_pipe_ok; lia.
Defined.

Lemma pipefs_write_wrap_witness :
  exists s' f', pipefs_write (1, 1) ex_in (replicate 1025 1) 1025 (ex_pipefs 0 0 0)
      = Ok (s', Returns 1025) /\
    p_files s' = <[0%nat := f']> (p_files (ex_pipefs 0 0 0)) /\ contents f' = [1].
Proof.
  apply (pipefs_write_wrap (1, 1) ex_in (replicate 1025 1) 1025 (ex_pipefs 0 0 0) 0 (ex_pipe 0 0 0));
    try reflexivity; try (unfold ex_in; lia); try (vm_compute; discriminate).
  apply ex_pipe_ok; lia.
Defined.

Lemma pipefs_read_broken_witness :
  exists s', pipefs_read (1, 1) 2 [0] 1 (ex_pipefs 0 5 1) = Ok (s', [0], Returns (-1)) /\
    p_files s' = p_files (ex_pipefs 0 5 1).
Proof.
  apply (pipefs_read_broken (1, 1) 2 [0] 1 (ex_pipefs 0 5 1) 0 (ex_pipe 0 5 1));
    try reflexivity; try lia; discriminate.
Defined.

Lemma pipefs_read_zero_witness :
  exists s', pipefs_read (1, 1) 2 [0] 0 (ex_pipefs 0 5 0) = Ok (s', [0], Returns 0) /\
    pipefs_read (2, 1) 2 [0] 1 s' = Err (Deadlock "spinlock_acquire(&file->lock)") /\
    pipefs_write (2, 1) (2 + 2 ^ 63) [0] 1 s' = Err (Deadlock "spinlock_acquire(&file->lock)") /\
    close_file 2 s' = Err (Deadlock "spinlock_acquire(&file->lock)").
Proof.
  apply (pipefs_read_zero_deadlocks (1, 1) (2, 1) 2 [0] [0] 1 (ex_pipefs 0 5 0) 0 (ex_pipe 0 5 0));
    try reflexivity; lia.
Defined.


Lemma pipefs_write_signal_witness :
  exists s1 c, pipefs_write (1, 1) ex_in [1; 2; 3] 3 (ex_pipefs 6 4 0) = Ok (s1, Sleeps c) /\
    write_wake (1, 1) true c s1 = Err (Fault "file->broken of a null pointer").
Proof.
  apply (pipefs_write_signal_faults (1, 1) ex_in [1; 2; 3] 3 (ex_pipefs 6 4 0) 0 (ex_pipe 6 4 0));
    try reflexivity; try (unfold ex_in; lia); try (vm_compute; discriminate).
  apply ex_pipe_ok; lia.
Defined.

Lemma pipe_close_witness :
  exists s1 s2, close_file (end_addr true 2) (ex_pipefs 0 5 0) = Ok s1 /\
    p_files s1 = [ex_pipe 0 5 1] /\ unblocked s1 = [] /\
    is_ok (close_file (end_addr true 2) s1) = false /\
    close_file (end_addr false 2) s1 = Ok s2 /\ p_files s2 ≡ₚ [].
Proof.
  apply (pipe_close_lifecycle true (ex_pipefs 0 5 0) 0 (ex_pipe 0 5 0));
    [cbn; lia|reflexivity|reflexivity| |reflexivity].
  by constructor.
Defined.

Lemma pipefs_reachable_witness :
  NoDup (p_id <$> p_files (ex_pipefs 0 0 0)) /\
  forall f, f ∈ p_files (ex_pipefs 0 0 0) ->
    file_ok f /\ 2 <= p_id f <= 2 /\
    forall remaining, 0 <= remaining < 2 ^ 32 -> is_ok (read_turn f remaining) = true.
Proof.
  apply (pipefs_reachable_ok (ex_pipefs 0 0 0)).
  eapply rtc_once. eapply (step_create (replicate 1024 7)); [reflexivity|cbn; lia|reflexivity].
Defined.
