(* ===== verification/BlockCache.v ===== *)
(** * Block cache ([kernel/drivers/block_cache.c])

    Definitions.  A cache maps the sectors of a device into a range of virtual
    memory, page by page: a page that is not mapped is fetched, and writes go to
    the mapped page and to the device.  The model follows one process at a time:
    a lock that another process holds makes a call wait. *)

From S2P Require Import Prelude Bytes Interfaces.





Definition MAX_PAGE_FETCHES : Z := 128 * 2.
Definition BLOCK_CACHE_BEGIN : Z := 0xffff900000000000.
Definition BLOCK_CACHE_END : Z := 0xffffd00000000000.

(** [page_fetch_t], without the physical address: the page becomes visible when
    [target_sync] maps it. *)
Record page_fetch := PageFetch { pf_lba : Z; pf_id : Z }.

Section BlockCache.
Context {D : Type} `{BlockDevice D}.

(** [block_page_cache_t], with the device behind it and the mapped pages of its range,
    by virtual address. *)
Record block_page_cache := BlockPageCache {
  c_driver : Z;
  c_interface : Z;
  vaddr_base : Z;
  virt_size : Z;
  page_fetches : list page_fetch;
  n_used_page : Z;
  c_locked : Z;
  c_pages : gmap Z (list Z);
  c_dev : D
}.

Definition set_locked (c : block_page_cache) (pid : Z) : block_page_cache :=
  BlockPageCache (c_driver c) (c_interface c) (vaddr_base c) (virt_size c) (page_fetches c)
    (n_used_page c) pid (c_pages c) (c_dev c).
Definition set_fetches (c : block_page_cache) (fs : list page_fetch) : block_page_cache :=
  BlockPageCache (c_driver c) (c_interface c) (vaddr_base c) (virt_size c) fs
    (n_used_page c) (c_locked c) (c_pages c) (c_dev c).
Definition set_pages (c : block_page_cache) (n : Z) (ps : gmap Z (list Z)) : block_page_cache :=
  BlockPageCache (c_driver c) (c_interface c) (vaddr_base c) (virt_size c) (page_fetches c)
    n (c_locked c) ps (c_dev c).
Definition set_dev (c : block_page_cache) (d : D) : block_page_cache :=
  BlockPageCache (c_driver c) (c_interface c) (vaddr_base c) (virt_size c) (page_fetches c)
    (n_used_page c) (c_locked c) (c_pages c) d.

(** The page that contains an address. *)
Definition page_of (vaddr : Z) : Z := vaddr - vaddr mod 0x1000.

Definition check_present_page (c : block_page_cache) (vaddr : Z) : bool :=
  match c_pages c !! page_of vaddr with Some _ => true | None => false end.

(** [lock_cache] by process [pid]. *)
Definition lock_cache (pid : Z) (c : block_page_cache) : res block_page_cache :=
  if c_locked c =? -1 then Ok (set_locked c pid)
  else if c_locked c =? pid then panic "cache->locked != sched_current_pid()"
  else Err (Deadlock "lock_cache: waits for another process").
Definition unlock_cache (c : block_page_cache) : block_page_cache := set_locked c (-1).

Definition sectors_per_page : Z := Z.shiftr 0x1000 dev_lbashift.

(** [lba & ~(sectors_per_page - 1)]; the mask is an [unsigned]. *)
Definition lba_begin (lba : Z) : Z := Z.land lba (u32 (Z.lnot (sectors_per_page - 1))).

Definition is_fetching (pid : Z) (c : block_page_cache) (lba : Z) : res bool :=
  assert_ (c_locked c =? pid) "cache->locked == sched_current_pid()" ;;
  Ok (existsb (fun f => pf_lba f =? lba_begin lba) (page_fetches c)).

(** [map_pages(paddr, vaddr, 1, ...)] of a fetched page; mapping a page twice stops the
    kernel. *)
Definition map_fetched (c : block_page_cache) (f : page_fetch) : res block_page_cache :=
  let vaddr := u64 (vaddr_base c
                 + Z.land (u64 (Z.shiftl (pf_lba f) dev_lbashift)) (u64 (Z.lnot 0xfff))) in
  if check_present_page c vaddr then panic "internal_map_pages: page already present"
  else Ok (set_pages c (u64 (n_used_page c + 1))
             (<[page_of vaddr := dev_read (c_dev c) (pf_lba f) sectors_per_page]> (c_pages c))).

Fixpoint map_all_fetched (fs : list page_fetch) (c : block_page_cache) : res block_page_cache :=
  match fs with
  | [] => Ok c
  | f :: fs' => c ← map_fetched c f; map_all_fetched fs' c
  end.

(** [while(i < n && page_fetches[i].pf_id <= last_id) i++] *)
Fixpoint ready_fetches (last_id : Z) (fs : list page_fetch) : nat :=
  match fs with
  | f :: fs' => if pf_id f <=? last_id then S (ready_fetches last_id fs') else O
  | [] => O
  end.

(** [target_sync] *)
Definition target_sync (pid : Z) (c : block_page_cache) : res block_page_cache :=
  c ← lock_cache pid c;
  c ← match list.last (page_fetches c) with
      | None => Ok c
      | Some f =>
          let last_id := pf_id f in
          let c := unlock_cache c in
          let c := set_dev c (dev_sync (c_dev c)) in
          c ← lock_cache pid c;
          let i := ready_fetches last_id (page_fetches c) in
          c ← map_all_fetched (take i (page_fetches c)) c;
          Ok (set_fetches c (drop i (page_fetches c)))
      end;
  Ok (unlock_cache c).

(** [while(cache->n_page_fetches >= MAX_PAGE_FETCHES)] of [fetch_page]. *)
Fixpoint wait_fetches (fuel : nat) (pid : Z) (c : block_page_cache) : res block_page_cache :=
  if MAX_PAGE_FETCHES <=? zlen (page_fetches c) then
    match fuel with
    | O => Err NoFuel
    | S fuel' =>
        c ← target_sync pid (unlock_cache c);
        c ← lock_cache pid c;
        wait_fetches fuel' pid c
    end
  else Ok c.

Definition fetch_page (pid lba : Z) (c : block_page_cache) : res block_page_cache :=
  assert_ (c_locked c =? pid) "cache->locked == sched_current_pid()" ;;
  assert_ (dev_lbashift <? 12) "lbashift < 12" ;;
  let lba := lba_begin lba in
  fetching ← is_fetching pid c lba;
  if (fetching : bool) then Ok c
  else
    c ← wait_fetches 1 pid c;
    Ok (set_fetches c (page_fetches c ++ [PageFetch lba 0])).

Definition sectors_in_iteration (lba count : Z) : Z :=
  let page_offset := Z.land lba (sectors_per_page - 1) in
  if sectors_per_page - page_offset <? count then sectors_per_page - page_offset else count.

Fixpoint prefetch_loop (fuel : nat) (pid lba base count : Z) (c : block_page_cache)
    : res block_page_cache :=
  if 0 <? count then
    match fuel with
    | O => Err NoFuel
    | S fuel' =>
        c ← lock_cache pid c;
        c ← (if check_present_page c base then Ok c else fetch_page pid lba c);
        let c := unlock_cache c in
        let it_rd := sectors_in_iteration lba count in
        prefetch_loop fuel' pid (u64 (lba + it_rd)) (u64 (base + Z.shiftl it_rd dev_lbashift))
          (count - it_rd) c
    end
  else Ok c.

(** The address of sector [lba] in the range of the cache. *)
Definition sector_base (c : block_page_cache) (lba : Z) : Z :=
  u64 (vaddr_base c + u64 (Z.shiftl lba dev_lbashift)).

Definition prefetch (pid lba count : Z) (c : block_page_cache) : res block_page_cache :=
  assert_ (dev_lbashift <? 12) "lbashift < 12" ;;
  c ← prefetch_loop (Z.to_nat count) pid lba (sector_base c lba) count c;
  target_sync pid c.

Definition blocking_read_cache (pid lba base : Z) (c : block_page_cache) : res block_page_cache :=
  assert_ (c_locked c =? pid) "cache->locked == sched_current_pid()" ;;
  if check_present_page c base then Ok c
  else
    fetching ← is_fetching pid c lba;
    c ← (if (fetching : bool) then Ok c else fetch_page pid lba c);
    c ← target_sync pid (unlock_cache c);
    lock_cache pid c.

(** The source and the destination of the [memcpy] of a turn: part of a mapped page. *)
Definition load_page (c : block_page_cache) (base n : Z) : res (list Z) :=
  match c_pages c !! page_of base with
  | Some page => rd_bytes page (base mod 0x1000) n
  | None => Err (Fault "page not mapped")
  end.
Definition store_page (c : block_page_cache) (base : Z) (data : list Z) : res block_page_cache :=
  match c_pages c !! page_of base with
  | Some page =>
      page ← wr_bytes page (base mod 0x1000) data;
      Ok (set_pages c (n_used_page c) (<[page_of base := page]> (c_pages c)))
  | None => Err (Fault "page not mapped")
  end.

(** [while(count > 0)] of [read]; [buf] is what has been copied so far. *)
Fixpoint read_loop (fuel : nat) (pid lba base count : Z) (buf : list Z) (c : block_page_cache)
    : res (block_page_cache * list Z) :=
  if 0 <? count then
    match fuel with
    | O => Err NoFuel
    | S fuel' =>
        assert_ (lba <? dev_capacity) "lba < cache->cache_interface->capacity" ;;
        assert_ (vaddr_base c <=? base) "base >= cache->vaddr_base" ;;
        assert_ (base <? u64 (vaddr_base c + virt_size c)) "base < cache->vaddr_base + virt_size" ;;
        c ← blocking_read_cache pid lba base c;
        let it_rd := sectors_in_iteration lba count in
        data ← load_page c base (Z.shiftl it_rd dev_lbashift);
        read_loop fuel' pid (u64 (lba + it_rd)) (u64 (base + Z.shiftl it_rd dev_lbashift))
          (count - it_rd) (buf ++ data) c
    end
  else Ok (c, buf).

Definition read (pid lba count : Z) (c : block_page_cache) : res (block_page_cache * list Z) :=
  c ← prefetch pid lba count c;
  assert_ (dev_lbashift <? 12) "lbashift < 12" ;;
  let base := sector_base c lba in
  c ← lock_cache pid c;
  '(c, buf) ← read_loop (Z.to_nat count) pid lba base count [] c;
  Ok (unlock_cache c, buf).

(** [while(count > 0)] of [write_cache]; [buf] is what remains to be copied.  The cache
    is unlocked at the end of every turn. *)
Fixpoint write_cache_loop (fuel : nat) (pid lba base count : Z) (buf : list Z)
    (c : block_page_cache) : res block_page_cache :=
  if 0 <? count then
    match fuel with
    | O => Err NoFuel
    | S fuel' =>
        let it_wr := sectors_in_iteration lba count in
        assert_ (vaddr_base c <=? base) "base >= cache->vaddr_base" ;;
        assert_ (base <? u64 (vaddr_base c + virt_size c)) "base < cache->vaddr_base + virt_size" ;;
        assert_ (lba <? dev_capacity) "lba < cache->cache_interface->capacity" ;;
        c ← (if it_wr <? sectors_per_page then blocking_read_cache pid lba base c
             else if check_present_page c base then Ok c
             else Ok (set_pages c (u64 (n_used_page c + 1))
                        (<[page_of base := replicate 4096 0]> (c_pages c))));
        data ← rd_bytes buf 0 (Z.shiftl it_wr dev_lbashift);
        c ← store_page c base data;
        write_cache_loop fuel' pid (u64 (lba + it_wr)) (u64 (base + Z.shiftl it_wr dev_lbashift))
          (count - it_wr) (drop (Z.to_nat (Z.shiftl it_wr dev_lbashift)) buf) (unlock_cache c)
    end
  else Ok c.

Definition write_cache (pid lba : Z) (buf : list Z) (count : Z) (c : block_page_cache)
    : res block_page_cache :=
  assert_ (dev_lbashift <? 12) "lbashift < 12" ;;
  let base := sector_base c lba in
  c ← lock_cache pid c;
  write_cache_loop (Z.to_nat count) pid lba base count buf c.

(** ** The interface functions, on the list of caches *)

Fixpoint find_cache (driver : Z) (cs : list block_page_cache) : option nat :=
  match cs with
  | [] => None
  | c :: cs' => if c_driver c =? driver then Some O else S <$> find_cache driver cs'
  end.

Definition block_cache_async_read (pid driver lba count : Z) (cs : list block_page_cache)
    : res (list block_page_cache * list Z) :=
  match find_cache driver cs with
  | None => panic "could not find block cache for driver"
  | Some i =>
      c ← ld cs (Z.of_nat i);
      '(c, buf) ← read pid lba count c;
      Ok (<[i := c]> cs, buf)
  end.

Definition block_cache_write (pid driver lba : Z) (buf : list Z) (count : Z)
    (cs : list block_page_cache) : res (list block_page_cache) :=
  match find_cache driver cs with
  | None => panic "could not find block cache for driver"
  | Some i =>
      c ← ld cs (Z.of_nat i);
      c ← write_cache pid lba buf count c;
      let c := set_dev c (dev_sync (c_dev c)) in
      let c := set_dev c (dev_write lba buf count (c_dev c)) in
      Ok (<[i := c]> cs)
  end.

Fixpoint block_cache_used_pages (cs : list block_page_cache) : Z :=
  match cs with
  | [] => 0
  | c :: cs' => u64 (n_used_page c + block_cache_used_pages cs')
  end.

(** A part of 512 GB of virtual memory has page tables when a page of it is mapped: the
    pages of a cache are only ever unmapped all together. *)
Definition region_present (c : block_page_cache) (r : Z) : bool :=
  bool_decide (map_Exists (fun va _ => va / 2 ^ 39 = r) (c_pages c)).

(** [free_page_range(cache->vaddr_base, cache->virt_size)]: a part of the range without
    page tables is skipped but not counted, so that it ends past the range. *)
Definition free_cache_range (c : block_page_cache) : res block_page_cache :=
  if forallb (region_present c) (seqZ (vaddr_base c / 2 ^ 39) (virt_size c / 2 ^ 39))
  then Ok (set_pages c (n_used_page c)
             (filter (fun '(va, _) => ~ vaddr_base c <= va < vaddr_base c + virt_size c) (c_pages c)))
  else Err (Fault "free_page_range: frees memory outside of the range").

(** [flush_cache]; with fetches in flight it waits for their owner. *)
Definition flush_cache (pid : Z) (c : block_page_cache) : res block_page_cache :=
  c ← lock_cache pid c;
  if 0 <? zlen (page_fetches c) then Err (Deadlock "flush_cache: waits for another process")
  else
    c ← free_cache_range c;
    Ok (unlock_cache (set_pages c 0 (c_pages c))).

Fixpoint map_res {A B} (f : A -> res B) (l : list A) : res (list B) :=
  match l with
  | [] => Ok []
  | x :: l' => y ← f x; ys ← map_res f l'; Ok (y :: ys)
  end.

Definition block_cache_reclaim_pages (pid : Z) (cs : list block_page_cache)
    : res (list block_page_cache) :=
  cs ← map_res (lock_cache pid) cs;
  map_res (fun c => flush_cache pid (unlock_cache c)) cs.

(** [vmap_device]: [end] is computed once. *)
Fixpoint vmap_loop (vaddr end_ : Z) (cs : list block_page_cache) : Z :=
  match cs with
  | [] => vaddr
  | c :: cs' =>
      let cache_begin := vaddr_base c in
      let cache_end := u64 (cache_begin + virt_size c) in
      vmap_loop (if (vaddr <=? cache_begin) && (cache_begin <? end_) then cache_end else vaddr)
        end_ cs'
  end.

Definition vmap_device (vsize : Z) (cs : list block_page_cache) : res Z :=
  assert_ (vsize <=? BLOCK_CACHE_END - BLOCK_CACHE_BEGIN)
    "vsize <= BLOCK_CACHE_END - BLOCK_CACHE_BEGIN" ;;
  let vaddr := vmap_loop BLOCK_CACHE_BEGIN (u64 (BLOCK_CACHE_BEGIN + vsize)) cs in
  Ok (if BLOCK_CACHE_END <? u64 (vaddr + vsize) then 0 else vaddr).

(** [block_cache_setup] for the device [d] of driver [driver]. *)
Definition block_cache_setup (driver output vsize : Z) (d : D) (cs : list block_page_cache)
    : res (list block_page_cache) :=
  assert_ (vsize mod 2 ^ 39 =? 0) "params->virt_size % (1llu << 39) == 0" ;;
  assert_ (0 <? vsize) "params->virt_size > 0llu" ;;
  vaddr ← vmap_device vsize cs;
  Ok (cs ++ [BlockPageCache driver output vaddr vsize [] 0 (-1) ∅ d]).

Fixpoint find_interface (output : Z) (cs : list block_page_cache) : option nat :=
  match cs with
  | [] => None
  | c :: cs' => if c_interface c =? output then Some O else S <$> find_interface output cs'
  end.

Definition block_cache_free (output : Z) (cs : list block_page_cache)
    : res (list block_page_cache) :=
  match find_interface output cs with
  | None => panic "tried to free a block cache that was not found"
  | Some i => Ok (delete i cs)
  end.
End BlockCache.
Arguments block_page_cache : clear implicits.
Arguments BlockPageCache {D}.
