(* ===== verification/BlockCacheProofs.v ===== *)
(** * Block cache: coherence with the device *)

From S2P Require Import Prelude Bytes Interfaces BlockCache.





(** ** Sequences of sectors *)

Lemma zlen_concat_const {A} (l : list (list A)) k :
  Forall (fun x => zlen x = k) l -> zlen (concat l) = zlen l * k.
Proof.
  induction 1 as [|x l Hx _ IH]; [done|]. cbn [concat]. rewrite zlen_app, IH, Hx.
  unfold zlen. cbn [length]. lia.
Qed.

Section Sectors.
Context `{BlockDevice D}.
Notation S := (2 ^ dev_lbashift (D := D)).
Notation spp := (sectors_per_page (D := D)).
Implicit Types σ : Z -> list Z.

(** The bytes of sectors [lba ..] of a disk image. *)
Definition image_read (σ : Z -> list Z) (lba count : Z) : list Z := concat (σ <$> seqZ lba count).
Definition image_ok (σ : Z -> list Z) : Prop := forall l, zlen (σ l) = S.

(** The image after [buf] was written at [lba]. *)
Definition overlay (σ : Z -> list Z) (lba : Z) (buf : list Z) (count : Z) (l : Z) : list Z :=
  if decide (lba <= l < lba + count) then slice buf ((l - lba) * S) S else σ l.

Lemma shift_cases : exists k, dev_lbashift (D := D) = 12 - k /\ 0 < k <= 12 /\
  spp = 2 ^ k /\ S * spp = 4096 /\ 0 < S /\ 0 < spp.
Proof.
  pose proof (dev_lbashift_range (D := D)) as Hr. exists (12 - dev_lbashift (D := D)).
  assert (spp = 2 ^ (12 - dev_lbashift (D := D))) as E.
  { unfold sectors_per_page. rewrite Z.shiftr_div_pow2 by lia. change 0x1000 with (2 ^ 12).
    rewrite <- Z.pow_sub_r by lia. done. }
  assert (S * spp = 4096) as E2.
  { rewrite E, <- Z.pow_add_r by lia. by replace (_ + _) with 12 by lia. }
  split_and!; try lia.
Qed.

Lemma shiftl_sectors n : 0 <= n -> Z.shiftl n (dev_lbashift (D := D)) = n * S.
Proof. intros. apply Z.shiftl_mul_pow2. pose proof (dev_lbashift_range (D := D)). lia. Qed.

Lemma image_read_app σ lba a b : 0 <= a -> 0 <= b ->
  image_read σ lba (a + b) = image_read σ lba a ++ image_read σ (lba + a) b.
Proof.
  intros. unfold image_read. rewrite seqZ_app by lia. by rewrite fmap_app, concat_app.
Qed.

Lemma zlen_image_read σ lba n : image_ok σ -> 0 <= n -> zlen (image_read σ lba n) = n * S.
Proof.
  intros Hi Hn. unfold image_read. rewrite (zlen_concat_const _ S).
  - unfold zlen. rewrite length_fmap, length_seqZ. lia.
  - apply Forall_fmap, Forall_true. intros l. apply Hi.
Qed.

Lemma image_read_ext σ σ' lba n :
  (forall l, lba <= l < lba + n -> σ l = σ' l) -> image_read σ lba n = image_read σ' lba n.
Proof.
  intros E. unfold image_read. f_equal. apply list_fmap_ext. intros i l Hl.
  apply E. apply list_elem_of_lookup_2, elem_of_seqZ in Hl. lia.
Qed.

Lemma slice_app_mid {A} (a b c : list A) o n :
  zlen a = o -> zlen b = n -> slice (a ++ b ++ c) o n = b.
Proof.
  unfold slice, zlen. intros <- <-. rewrite !Nat2Z.id, drop_app_length, take_app_length. done.
Qed.

Lemma slice_image_read σ b n o m : image_ok σ -> 0 <= o -> 0 <= m -> o + m <= n ->
  slice (image_read σ b n) (o * S) (m * S) = image_read σ (b + o) m.
Proof.
  intros Hi Ho Hm Hn. replace n with (o + (m + (n - o - m))) by lia.
  rewrite !image_read_app by lia. apply slice_app_mid; by apply zlen_image_read.
Qed.

(** Reading back what an overlay holds. *)
Lemma image_read_buf buf lba n : 0 <= n -> zlen buf = n * S ->
  image_read (fun l => slice buf ((l - lba) * S) S) lba n = buf.
Proof.
  intros Hn. revert buf lba. pattern n. apply natlike_ind; [| |done].
  - intros buf lba Hz. destruct buf; [done|unfold zlen in Hz; cbn in Hz; lia].
  - clear n Hn. intros n Hn IH buf lba Hz. destruct shift_cases as (k & _ & _ & _ & _ & HS & _).
    unfold Z.succ in *. rewrite Z.add_comm, image_read_app by lia.
    rewrite Z.mul_add_distr_r, Z.mul_1_l in Hz. assert (0 <= n * S) by nia.
    assert (buf = slice buf 0 S ++ drop (Z.to_nat S) buf) as Hsp
      by (unfold slice; cbn; by rewrite take_drop).
    transitivity (slice buf 0 S ++ drop (Z.to_nat S) buf); [|done]. f_equal.
    + unfold image_read. rewrite seqZ_cons, (seqZ_nil _ (Z.pred 1)) by lia. cbn [fmap list_fmap concat].
      rewrite Z.sub_diag, Z.mul_0_l. apply app_nil_r.
    + assert (zlen (drop (Z.to_nat S) buf) = n * S) as Hz1.
      { rewrite zlen_drop; [|split]; clear -Hz HS H0; nia. }
      rewrite <- (IH (drop (Z.to_nat S) buf) (lba + 1) Hz1).
      apply image_read_ext. intros l Hl. unfold slice. rewrite drop_drop. f_equal. f_equal.
      rewrite <- Z2Nat.inj_add by nia. f_equal. ring.
Qed.

Lemma overlay_ok σ lba buf count : image_ok σ -> 0 <= count -> zlen buf = count * S ->
  image_ok (overlay σ lba buf count).
Proof.
  intros Hi Hc Hz l. destruct shift_cases as (k & _ & _ & _ & _ & HS & _).
  unfold overlay. case_decide; [|apply Hi]. apply zlen_slice; nia.
Qed.

Lemma overlay_split σ lba buf a b l : 0 <= a -> 0 <= b -> zlen buf = (a + b) * S ->
  overlay (overlay σ lba (take (Z.to_nat (a * S)) buf) a) (lba + a) (drop (Z.to_nat (a * S)) buf) b l
  = overlay σ lba buf (a + b) l.
Proof.
  intros Ha Hb Hz. destruct shift_cases as (k & _ & _ & _ & _ & HS & _). unfold overlay.
  destruct (decide (lba + a <= l < lba + a + b)).
  - rewrite decide_True by lia. unfold slice. rewrite drop_drop. do 2 f_equal. nia.
  - destruct (decide (lba <= l < lba + a)).
    + rewrite decide_True by lia. unfold slice.
      rewrite skipn_firstn_comm, take_take. f_equal. nia.
    + by rewrite decide_False by lia.
Qed.

(** A page of the image in which some of its sectors are overwritten. *)
Lemma overlay_page σ b n o m data : image_ok σ -> 0 <= o -> 0 <= m -> o + m <= n ->
  zlen data = m * S ->
  image_read (overlay σ (b + o) data m) b n = blit (image_read σ b n) (o * S) data.
Proof.
  intros Hi Ho Hm Hn Hz. pose proof (overlay_ok σ (b + o) data m Hi Hm Hz) as Hok.
  destruct shift_cases as (k & _ & _ & _ & _ & HS & _).
  replace n with (o + (m + (n - o - m))) by lia. rewrite !image_read_app by lia.
  unfold blit. pose proof (zlen_image_read σ b o Hi Ho) as L1.
  pose proof (zlen_image_read σ (b + o) m Hi Hm) as L2. unfold zlen in L1, L2, Hz.
  rewrite take_app_length' by lia. f_equal.
  { apply image_read_ext. intros l Hl. unfold overlay. by rewrite decide_False by lia. }
  f_equal.
  - rewrite <- (image_read_buf data (b + o) m) at 2 by (unfold zlen; lia).
    apply image_read_ext. intros l Hl. unfold overlay. by rewrite decide_True by lia.
  - rewrite app_assoc, drop_app_length' by (rewrite length_app; lia).
    apply image_read_ext. intros l Hl. unfold overlay. by rewrite decide_False by lia.
Qed.
End Sectors.

(** * Block cache: fetching pages *)


Section Ops.
Context `{BlockDevice D}.
Notation S := (2 ^ dev_lbashift (D := D)).
Notation spp := (sectors_per_page (D := D)).
Implicit Types c : block_page_cache D.

(** The virtual address of page [p] of the device. *)
Definition vpage (c : block_page_cache D) (p : Z) : Z := vaddr_base c + p * 0x1000.

(** The disk image behind a cache. *)
Definition image (c : block_page_cache D) : Z -> list Z := dev_sector (c_dev c).

Record layout_ok (c : block_page_cache D) : Prop := {
  lk_base : 0 <= vaddr_base c /\ vaddr_base c mod 0x1000 = 0;
  lk_size : dev_capacity (D := D) * S <= virt_size c;
  lk_end : vaddr_base c + virt_size c < 2 ^ 64
}.

(** Every mapped page holds the sectors of the image [σ]. *)
Definition pages_ok (c : block_page_cache D) (σ : Z -> list Z) : Prop :=
  forall va page, c_pages c !! va = Some page ->
    exists p, 0 <= p /\ va = vpage c p /\ page = image_read σ (p * spp) spp.

(** A fetch in flight: of a page inside the device that is not mapped. *)
Definition fetch_ok (c : block_page_cache D) (f : page_fetch) : Prop :=
  pf_id f = 0 /\ exists p, 0 <= p /\ pf_lba f = p * spp /\ p * spp < dev_capacity (D := D) /\
    c_pages c !! vpage c p = None.

Record cache_ok (c : block_page_cache D) : Prop := {
  ck_layout : layout_ok c;
  ck_pages : pages_ok c (image c);
  ck_fetches : Forall (fetch_ok c) (page_fetches c);
  ck_nodup : NoDup (pf_lba <$> page_fetches c);
  ck_limit : zlen (page_fetches c) <= MAX_PAGE_FETCHES
}.

(** Two caches of the same device with the same contents. *)
Definition same_cache (c c' : block_page_cache D) : Prop :=
  c_driver c' = c_driver c /\ c_interface c' = c_interface c /\ vaddr_base c' = vaddr_base c /\
  virt_size c' = virt_size c /\ forall l, image c' l = image c l.

#[global] Instance same_cache_refl : Reflexive same_cache.
Proof. done. Qed.
#[global] Instance same_cache_trans : Transitive same_cache.
Proof.
  intros a b c (A1 & A2 & A3 & A4 & A5) (B1 & B2 & B3 & B4 & B5).
  split_and!; congruence.
Qed.

(** ** Addresses *)

Lemma image_dev_ok c : image_ok (D := D) (image c).
Proof. intros l. apply dev_sector_len. Qed.

Lemma lba_begin_eq lba : 0 <= lba < 2 ^ 32 -> lba_begin (D := D) lba = lba / spp * spp.
Proof.
  intros Hl. destruct shift_cases as (k & _ & Hk & Hspp & _). unfold lba_begin. rewrite Hspp.
  replace (2 ^ k - 1) with (Z.ones k) by (rewrite Z.ones_equiv; lia).
  rewrite <- Z.shiftr_div_pow2, <- Z.shiftl_mul_pow2 by lia.
  apply Z.bits_inj'. intros i Hi. rewrite Z.land_spec, Z.shiftl_spec by lia.
  destruct (Z.ltb_spec i 32).
  - unfold wrap. rewrite Z.mod_pow2_bits_low, Z.lnot_spec, Z.testbit_ones_nonneg by lia.
    destruct (Z.ltb_spec i k).
    + rewrite andb_false_r. symmetry. apply Z.testbit_neg_r. lia.
    + rewrite andb_true_r, Z.shiftr_spec by lia. f_equal. lia.
  - assert (Z.testbit lba i = false) as E.
    { rewrite <- (Z.mod_small lba (2 ^ 32)) by lia. apply Z.mod_pow2_bits_high. lia. }
    rewrite E, Z.shiftr_spec by lia. replace (i - k + k) with i by lia. by rewrite E.
Qed.

Lemma sectors_in_iteration_eq lba count : 0 <= lba ->
  sectors_in_iteration (D := D) lba count = Z.min count (spp - lba mod spp).
Proof.
  intros Hl. destruct shift_cases as (k & _ & Hk & Hspp & _). unfold sectors_in_iteration.
  replace (Z.land lba (spp - 1)) with (lba mod spp).
  - clear. zb.
  - rewrite Hspp. replace (2 ^ k - 1) with (Z.ones k) by (rewrite Z.ones_equiv; lia).
    symmetry. apply Z.land_ones. lia.
Qed.

(** Position of a sector: page and offset in the page. *)
Lemma sector_position lba : 0 <= lba ->
  lba = lba / spp * spp + lba mod spp /\ 0 <= lba / spp /\ 0 <= lba mod spp < spp /\
  lba * S = lba / spp * 0x1000 + lba mod spp * S /\ 0 <= lba mod spp * S < 0x1000.
Proof.
  intros Hl. destruct shift_cases as (k & _ & _ & _ & HSs & HS & Hspp).
  assert (spp <> 0) as Hnz by lia. pose proof (Z.div_mod lba spp Hnz).
  pose proof (Z.mod_pos_bound lba spp Hspp). pose proof (Z.div_pos lba spp Hl Hspp).
  generalize dependent (lba / spp). generalize dependent (lba mod spp). intros r p Hr Hp Hq.
  split_and!; nia.
Qed.

Lemma page_of_sector c lba : layout_ok c -> 0 <= lba ->
  page_of (vaddr_base c + lba * S) = vpage c (lba / spp) /\
  (vaddr_base c + lba * S) mod 0x1000 = lba mod spp * S.
Proof.
  intros [[Hb1 Hb2] _ _] Hl. destruct (sector_position lba Hl) as (_ & Hp & _ & E & Ho).
  assert ((vaddr_base c + lba * S) mod 0x1000 = lba mod spp * S) as Hm.
  { rewrite E. generalize dependent (lba mod spp * S). intros o _ Ho. lia. }
  split; [|done]. unfold page_of, vpage. rewrite Hm, E. lia.
Qed.

(** Sectors inside the device have addresses inside the range. *)
Lemma sector_addr c lba : layout_ok c -> 0 <= lba < dev_capacity (D := D) ->
  vaddr_base c <= vaddr_base c + lba * S < vaddr_base c + virt_size c /\
  u64 (lba * S) = lba * S /\ u64 (vaddr_base c + lba * S) = vaddr_base c + lba * S /\ 0 <= lba * S.
Proof.
  intros [[Hb1 Hb2] Hs He] Hl. destruct shift_cases as (k & _ & _ & _ & HSs & HS & Hspp).
  assert (0 <= lba * S /\ lba * S < virt_size c) as [? ?] by nia.
  split_and!; try lia; apply u64_small; lia.
Qed.

Lemma vpage_inj c p q : vpage c p = vpage c q -> p = q.
Proof. unfold vpage. lia. Qed.

(** ** [target_sync] *)

(** What mapping pages may change. *)
Definition grown (c c' : block_page_cache D) : Prop :=
  same_cache c c' /\ c_locked c' = c_locked c /\
  forall va page, c_pages c !! va = Some page -> c_pages c' !! va = Some page.

Lemma fetched_vaddr c p : layout_ok c -> 0 <= p -> p * spp < dev_capacity (D := D) ->
  u64 (vaddr_base c + Z.land (u64 (Z.shiftl (p * spp) (dev_lbashift (D := D)))) (u64 (Z.lnot 0xfff)))
    = vpage c p /\ page_of (vpage c p) = vpage c p.
Proof.
  intros Hl Hp Hc. destruct shift_cases as (k & _ & _ & _ & HSs & HS & Hspp).
  assert (0 <= p * spp) as Hp0 by nia.
  destruct (sector_addr c (p * spp) Hl (conj Hp0 Hc)) as (_ & U1 & U2 & _).
  assert (p * spp * S = p * 0x1000) as E by nia.
  rewrite shiftl_sectors, U1, E by done. rewrite E in U2.
  assert (Z.land (p * 0x1000) (u64 (Z.lnot 0xfff)) = p * 0x1000) as ->.
  { change (u64 (Z.lnot 0xfff)) with (Z.shiftl (Z.ones 52) 12). rewrite E in U1.
    apply Z.bits_inj'. intros i Hi. rewrite Z.land_spec, testbit_shiftl_ones by lia.
    change 0x1000 with (2 ^ 12). rewrite <- Z.shiftl_mul_pow2, Z.shiftl_spec by lia.
    destruct (Z.ltb_spec i 12).
    - by rewrite (Z.testbit_neg_r p) by lia.
    - destruct (Z.ltb_spec i 64).
      + replace (12 <=? i) with true by lia. replace (i <? 12 + 52) with true by lia.
        by rewrite andb_true_r.
      + assert (Z.testbit p (i - 12) = false) as ->; [|done].
        assert (p < 2 ^ 52) as Hlt.
        { pose proof (lk_end _ Hl). pose proof (lk_size _ Hl). pose proof (lk_base _ Hl). nia. }
        rewrite <- (Z.mod_small p (2 ^ 52)) by lia. apply Z.mod_pow2_bits_high. lia. }
  split; [done|]. unfold page_of, vpage. destruct Hl as [[? ?] _ _]. lia.
Qed.

Lemma map_all_ok fs c :
  layout_ok c -> pages_ok c (image c) -> Forall (fetch_ok c) fs -> NoDup (pf_lba <$> fs) ->
  exists n ps, map_all_fetched fs c = Ok (set_pages c n ps) /\
    pages_ok (set_pages c n ps) (image c) /\
    (forall va page, c_pages c !! va = Some page -> ps !! va = Some page) /\
    (forall va, is_Some (ps !! va) -> is_Some (c_pages c !! va) \/
       exists f p, f ∈ fs /\ pf_lba f = p * spp /\ va = vpage c p) /\
    (forall f p, f ∈ fs -> pf_lba f = p * spp -> is_Some (ps !! vpage c p)).
Proof.
  revert c. induction fs as [|f fs IH]; intros c Hl Hp Hf Hnd.
  { exists (n_used_page c), (c_pages c). destruct c. split_and!; try done; [auto|set_solver]. }
  apply Forall_cons_iff in Hf as [(Hid & p & Hp0 & Hlba & Hcap & Hnone) Hf].
  cbn [fmap list_fmap] in Hnd. apply list.NoDup_cons in Hnd as [Hnin Hnd].
  destruct (fetched_vaddr c p Hl Hp0 Hcap) as [Hva Hpo].
  cbn [map_all_fetched]. unfold map_fetched, check_present_page. rewrite Hlba, Hva, Hpo, Hnone.
  unfold mbind, res_bind.
  set (c1 := set_pages c _ (<[vpage c p := _]> (c_pages c))).
  assert (forall q, q * spp ∈ pf_lba <$> fs -> q <> p) as Hne.
  { intros q Hq ->. apply Hnin. by rewrite Hlba. }
  destruct (IH c1) as (n & ps & E & Hpg & Hmono & Honly & Hall).
  - by destruct Hl.
  - intros va page. cbn. destruct (decide (va = vpage c p)) as [->|Hv].
    + rewrite lookup_insert_eq. intros [= <-]. by exists p.
    + rewrite lookup_insert_ne by done. apply Hp.
  - apply Forall_forall. intros g Hg. eapply Forall_forall in Hf as (G1 & q & G2 & G3 & G4 & G5); [|done].
    split; [done|]. exists q. split_and!; try done. cbn. rewrite lookup_insert_ne; [done|].
    intros Eq. apply (vpage_inj c p q) in Eq. apply (Hne q); [|done]. rewrite <- G3.
    apply list_elem_of_fmap_2. by apply list_elem_of_In.
  - done.
  - exists n, ps. cbn [c_pages c1 set_pages] in *. split_and!.
    + exact E.
    + exact Hpg.
    + intros va page Hva'. apply Hmono. rewrite lookup_insert_ne; [done|]. congruence.
    + intros va Hs. destruct (Honly va Hs) as [Ho|(g & q & Hg & Hgl & ->)].
      * destruct (decide (va = vpage c p)) as [->|Hv].
        { right. exists f, p. split_and!; [set_solver|done..]. }
        rewrite lookup_insert_ne in Ho by done. by left.
      * right. exists g, q. split_and!; [set_solver|done..].
    + intros g q [->|Hg]%elem_of_cons Hgl; [|by eapply Hall].
      assert (q = p) as ->.
      { destruct shift_cases as (k & _ & _ & _ & _ & _ & Hspp). nia. }
      eexists. apply Hmono. apply lookup_insert_eq.
Qed.

Lemma ready_all fs : Forall (fun f => pf_id f = 0) fs -> ready_fetches 0 fs = length fs.
Proof. induction 1 as [|f fs Hf _ IH]; [done|]. cbn. by rewrite Hf, IH. Qed.

Lemma lock_free pid c : c_locked c = -1 -> lock_cache pid c = Ok (set_locked c pid).
Proof. intros Hlk. unfold lock_cache. by rewrite Hlk. Qed.

(** [target_sync] by a process that does not hold the lock: every fetch is mapped. *)
Lemma target_sync_ok pid c : cache_ok c -> c_locked c = -1 -> pid <> -1 ->
  exists c', target_sync pid c = Ok c' /\ cache_ok c' /\ page_fetches c' = [] /\ grown c c' /\
    (forall va, is_Some (c_pages c' !! va) -> is_Some (c_pages c !! va) \/
       exists f p, f ∈ page_fetches c /\ pf_lba f = p * spp /\ va = vpage c p) /\
    (forall f p, f ∈ page_fetches c -> pf_lba f = p * spp -> is_Some (c_pages c' !! vpage c p)).
Proof.
  intros [Hl Hp Hf Hnd Hlim] Hlk Hpid. unfold target_sync. rewrite (lock_free pid c Hlk).
  unfold mbind, res_bind. cbn [page_fetches set_locked].
  destruct (page_fetches c) as [|f0 fs0 _] eqn:Efs using rev_ind.
  - change (list.last []) with (@None page_fetch). cbv iota. eexists. split; [reflexivity|]. split_and!.
    + constructor; cbn; rewrite ?Efs; [by destruct Hl|done|constructor|constructor|done].
    + done.
    + by split_and!.
    + auto.
    + set_solver.
  - rewrite last_snoc. rewrite lock_free by done.
    assert (Forall (fun f => pf_id f = 0) (fs0 ++ [f0])) as Hids.
    { eapply Forall_impl; [|exact Hf]. by intros f [? _]. }
    assert (pf_id f0 = 0) as -> by (apply Forall_app in Hids as [_ Hx]; by apply Forall_cons_iff in Hx as [? _]).
    set (c1 := set_locked (set_dev _ _) pid).
    assert (page_fetches c1 = fs0 ++ [f0]) as Efs1 by (cbn; done).
    rewrite Efs1, (ready_all _ Hids), firstn_all.
    assert (forall l, image c1 l = image c l) as Him by (intros l; apply dev_sync_sector).
    destruct (map_all_ok (fs0 ++ [f0]) c1) as (n & ps & E & Hpg & Hmono & Honly & Hall); [by destruct Hl| |done|done|].
    { intros va page Hva. destruct (Hp va page Hva) as (p & P1 & P2 & ->). exists p.
      split_and!; try done. apply image_read_ext. intros l _. by rewrite Him. }
    rewrite E. eexists. split; [reflexivity|].
    assert (drop (length (fs0 ++ [f0])) (page_fetches (set_pages c1 n ps)) = []) as Hd
      by (cbn; rewrite Efs; apply drop_all).
    rewrite Hd. split_and!.
    + constructor; cbn; [by destruct Hl|done|constructor|constructor|done].
    + done.
    + by split_and!.
    + exact Honly.
    + exact Hall.
Qed.
End Ops.
