(* ===== verification/BlockCacheRead.v ===== *)
(** * Block cache: reading through the cache *)

From S2P Require Import Prelude Bytes Interfaces BlockCache BlockCacheProofs.





Section Read.
Context `{BlockDevice D}.
Notation S := (2 ^ dev_lbashift (D := D)).
Notation spp := (sectors_per_page (D := D)).
Notation cap := (dev_capacity (D := D)).
Implicit Types c : block_page_cache D.

(** The lock does not matter for the invariant. *)
Lemma cache_ok_locked c pid : cache_ok c -> cache_ok (set_locked c pid).
Proof. intros [[] ? ? ? ?]. by constructor. Qed.

Lemma grown_trans a b c : grown a b -> grown b c -> grown a c.
Proof.
  intros (A1 & A2 & A3) (B1 & B2 & B3). split_and!; [by etrans|congruence|auto].
Qed.

Lemma lba_page lba : 0 <= lba < cap ->
  lba_begin (D := D) lba = lba / spp * spp /\
  lba_begin (D := D) (lba / spp * spp) = lba / spp * spp /\ 0 <= lba / spp * spp <= lba.
Proof.
  intros Hl. pose proof (dev_capacity_range (D := D)). destruct shift_cases as (k & _ & _ & _ & _ & _ & Hspp).
  destruct (sector_position lba ltac:(lia)) as (E & Hp & Ho & _).
  assert (0 <= lba / spp * spp <= lba) as Hr by nia.
  split_and!; try lia; rewrite lba_begin_eq by lia; [done|]. by rewrite Z.div_mul by lia.
Qed.

Lemma existsb_fetch fs x : existsb (fun f => pf_lba f =? x) fs = true <-> x ∈ pf_lba <$> fs.
Proof.
  rewrite existsb_exists, list_elem_of_fmap. setoid_rewrite list_elem_of_In.
  setoid_rewrite Z.eqb_eq. naive_solver.
Qed.

Lemma wait_fetches_ok pid c : cache_ok c -> c_locked c = pid -> pid <> -1 ->
  exists c', wait_fetches 1 pid c = Ok c' /\ cache_ok c' /\ grown c c' /\
    zlen (page_fetches c') < MAX_PAGE_FETCHES /\
    (forall x, x ∈ pf_lba <$> page_fetches c' -> x ∈ pf_lba <$> page_fetches c) /\
    (forall p, p * spp ∉ pf_lba <$> page_fetches c -> c_pages c !! vpage c p = None ->
       c_pages c' !! vpage c p = None).
Proof.
  intros Hok Hlk Hpid. cbn [wait_fetches].
  destruct (Z.leb_spec MAX_PAGE_FETCHES (zlen (page_fetches c))); [|exists c; split_and!; done || lia].
  destruct (target_sync_ok pid (unlock_cache c)) as (c' & E & Hok' & Hf & (G1 & G2 & G3) & Honly & _);
    [by apply cache_ok_locked|done|done|].
  unfold mbind, res_bind. rewrite E, (lock_free pid c') by (by rewrite G2). cbn [page_fetches set_locked].
  rewrite Hf. change (MAX_PAGE_FETCHES <=? zlen []) with false. cbv iota.
  eexists. split; [done|]. split_and!.
  - by apply cache_ok_locked.
  - split_and!; [done|done|exact G3].
  - cbn. by rewrite Hf.
  - cbn. rewrite Hf. set_solver.
  - intros p Hp Hn. apply eq_None_not_Some. intros Hs.
    destruct (Honly (vpage c p) Hs) as [Ho|(f & q & Hin & Hlba & Hv)].
    + cbn in Ho. rewrite Hn in Ho. by destruct Ho.
    + apply (vpage_inj c p q) in Hv as ->. apply Hp. rewrite <- Hlba. by apply list_elem_of_fmap_2.
Qed.

Lemma fetch_page_ok pid lba c :
  cache_ok c -> c_locked c = pid -> pid <> -1 -> 0 <= lba < cap ->
  c_pages c !! vpage c (lba / spp) = None ->
  exists c', fetch_page pid lba c = Ok c' /\ cache_ok c' /\ grown c c' /\
    lba / spp * spp ∈ pf_lba <$> page_fetches c'.
Proof.
  intros Hok Hlk Hpid Hl Hnone. destruct (lba_page lba Hl) as (E1 & E2 & Hle).
  pose proof (dev_lbashift_range (D := D)) as Hsh.
  unfold fetch_page, is_fetching, assert_. rewrite E1, E2, Hlk, Z.eqb_refl.
  replace (dev_lbashift (D := D) <? 12) with true by lia. unfold mbind, res_bind.
  destruct (existsb _ (page_fetches c)) eqn:Ex.
  { exists c. split_and!; try done. by apply existsb_fetch. }
  assert (lba / spp * spp ∉ pf_lba <$> page_fetches c) as Hnin
    by (intros Hin%existsb_fetch; congruence).
  destruct (wait_fetches_ok pid c Hok Hlk Hpid) as (c1 & -> & Hok1 & Hg & Hlim & Hsub & Hnew).
  eexists. split; [reflexivity|]. destruct Hok1 as [L1 P1 F1 N1 M1].
  pose proof (Hnew _ Hnin Hnone) as Hnone1. destruct Hg as ((A1 & A2 & A3 & A4 & A5) & G2 & G3).
  split_and!.
  - constructor; cbn.
    + by destruct L1.
    + exact P1.
    + apply Forall_app. split; [exact F1|]. apply Forall_singleton. split; [done|].
      exists (lba / spp). destruct (sector_position lba ltac:(lia)) as (_ & Hp & _).
      split_and!; [done|done|lia|]. unfold vpage in *. cbn. by rewrite A3.
    + rewrite fmap_app. apply list.NoDup_app. split_and!; [done| |apply NoDup_singleton].
      intros x Hx Hin. cbn in Hin. apply list_elem_of_singleton in Hin as ->. by apply Hsub in Hx.
    + rewrite zlen_app. unfold zlen at 2. cbn [length]. lia.
  - by split_and!.
  - cbn. rewrite fmap_app. set_solver.
Qed.

(** One step of the sector walk shared by the loops. *)
Lemma sector_step c lba count : layout_ok c -> 0 <= lba -> 0 < count -> lba + count <= cap ->
  let it := sectors_in_iteration (D := D) lba count in
  0 < it <= count /\ it = Z.min count (spp - lba mod spp) /\
  u64 (lba + it) = lba + it /\ Z.shiftl it (dev_lbashift (D := D)) = it * S /\
  (lba + it < cap ->
   u64 (vaddr_base c + lba * S + it * S) = vaddr_base c + (lba + it) * S).
Proof.
  intros Hl Hlba Hc Hcap it. pose proof (dev_capacity_range (D := D)) as Hcr.
  destruct (sector_position lba Hlba) as (_ & _ & Ho & _).
  assert (it = Z.min count (spp - lba mod spp)) as Eit by (by apply sectors_in_iteration_eq).
  split_and!; try lia.
  - apply u64_small. lia.
  - apply shiftl_sectors. lia.
  - intros Hlt. assert (0 <= lba + it < cap) as Hr by lia.
    destruct (sector_addr c (lba + it) Hl Hr) as (_ & _ & U & _).
    rewrite <- U. f_equal. ring.
Qed.

Lemma prefetch_loop_ok fuel pid lba base count c :
  cache_ok c -> c_locked c = -1 -> pid <> -1 -> 0 <= lba -> 0 <= count -> lba + count <= cap ->
  (0 < count -> base = vaddr_base c + lba * S) -> (Z.to_nat count <= fuel)%nat ->
  exists c', prefetch_loop fuel pid lba base count c = Ok c' /\ cache_ok c' /\ grown c c'.
Proof.
  revert lba base count c.
  induction fuel as [|fuel IH]; intros lba base count c Hok Hlk Hpid Hlba Hc Hcap Hb Hfuel; cbn [prefetch_loop].
  all: destruct (Z.ltb_spec 0 count); [|by exists c]; try lia.
  destruct (sector_step c lba count (ck_layout _ Hok) Hlba ltac:(lia) Hcap) as (I1 & I2 & I3 & I4 & I5).
  rewrite (lock_free pid c Hlk). unfold mbind, res_bind.
  assert (0 <= lba < cap) as Hr by lia.
  destruct (page_of_sector c lba (ck_layout _ Hok) Hlba) as [Hpo _]. rewrite Hb in * by done.
  assert (exists c1, (if check_present_page (set_locked c pid) (vaddr_base c + lba * S)
      then Ok (set_locked c pid) else fetch_page pid lba (set_locked c pid)) = Ok c1 /\
      cache_ok c1 /\ grown (set_locked c pid) c1) as (c1 & -> & Hok1 & (G1 & G2 & G3)).
  { unfold check_present_page. rewrite Hpo. change (c_pages (set_locked c pid)) with (c_pages c).
    destruct (c_pages c !! vpage c (lba / spp)) eqn:Ep.
    - eexists. split; [done|]. split; [by apply cache_ok_locked|done].
    - destruct (fetch_page_ok pid lba (set_locked c pid)) as (c1 & E & Hok1 & Hg & _);
        [by apply cache_ok_locked|done..|eauto]. }
  rewrite I3, I4.
  destruct (IH (lba + sectors_in_iteration (D := D) lba count)
    (u64 (vaddr_base c + lba * S + sectors_in_iteration (D := D) lba count * S))
    (count - sectors_in_iteration (D := D) lba count) (unlock_cache c1))
    as (c' & E & Hok' & G1' & G2' & G3'); try lia; [by apply cache_ok_locked|done| |].
  - intros Hpos. rewrite I5 by lia. destruct G1 as (_ & _ & A3 & _). cbn in A3 |- *. by rewrite A3.
  - exists c'. split_and!; [done|done|]. split_and!.
    + etrans; [exact G1|]. exact G1'.
    + rewrite G2'. cbn. by rewrite Hlk.
    + intros va page Hva. by apply G3', G3.
Qed.

(** Writing the sector address as the code computes it. *)
Lemma sector_base_eq c lba : layout_ok c -> 0 <= lba < cap ->
  sector_base c lba = vaddr_base c + lba * S.
Proof.
  intros Hl Hlba. destruct (sector_addr c lba Hl Hlba) as (_ & U1 & U2 & _). unfold sector_base.
  rewrite shiftl_sectors by lia. by rewrite U1, U2.
Qed.

(** After [blocking_read_cache] the page is mapped. *)
Lemma blocking_read_ok pid lba c :
  cache_ok c -> c_locked c = pid -> pid <> -1 -> 0 <= lba < cap ->
  exists c', blocking_read_cache pid lba (vaddr_base c + lba * S) c = Ok c' /\ cache_ok c' /\
    grown c c' /\ is_Some (c_pages c' !! vpage c (lba / spp)) /\
    (page_fetches c = [] -> page_fetches c' = []).
Proof.
  intros Hok Hlk Hpid Hl.
  destruct (page_of_sector c lba (ck_layout _ Hok) ltac:(lia)) as [Hpo _].
  unfold blocking_read_cache, check_present_page, assert_. rewrite Hpo, Hlk, Z.eqb_refl.
  unfold mbind, res_bind. destruct (c_pages c !! vpage c (lba / spp)) eqn:Ep.
  { exists c. by split_and!. }
  destruct (lba_page lba Hl) as (E1 & E2 & Hle).
  assert (exists c1, match is_fetching pid c lba with
      | Ok fetching => match (if fetching then Ok c else fetch_page pid lba c) with
          | Ok c1 => match target_sync pid (unlock_cache c1) with
              | Ok c2 => lock_cache pid c2 | Err f => Err f end
          | Err f => Err f end
      | Err f => Err f end =
      (match target_sync pid (unlock_cache c1) with Ok c2 => lock_cache pid c2 | Err f => Err f end) /\
      cache_ok c1 /\ grown c c1 /\ lba / spp * spp ∈ pf_lba <$> page_fetches c1)
    as (c1 & -> & Hok1 & Hg1 & Hin).
  { unfold is_fetching, assert_. rewrite Hlk, Z.eqb_refl, E1. unfold mbind, res_bind.
    destruct (existsb _ (page_fetches c)) eqn:Ex.
    - exists c. split_and!; try done. by apply existsb_fetch.
    - destruct (fetch_page_ok pid lba c Hok Hlk Hpid Hl Ep) as (c1 & -> & ? & ? & ?). by exists c1. }
  destruct (target_sync_ok pid (unlock_cache c1)) as (c2 & E & Hok2 & Hf2 & Hg2 & _ & Hall);
    [by apply cache_ok_locked|done|done|].
  rewrite E, (lock_free pid c2) by apply Hg2. eexists. split; [done|].
  split; [by apply cache_ok_locked|]. destruct Hg1 as (A1 & A2 & A3), Hg2 as (B1 & B2 & B3).
  split; [|split; [|done] ].
  - split_and!; [etrans; [exact A1|exact B1]|done|]. intros va page Hva. by apply B3, A3.
  - apply list_elem_of_fmap in Hin as (f & Hlba & Hf). cbn.
    specialize (Hall f (lba / spp) Hf (eq_sym Hlba)). unfold vpage in *. cbn in Hall.
    destruct A1 as (_ & _ & A1 & _). by rewrite A1 in Hall.
Qed.

(** A turn reads the sectors of one page. *)
Lemma load_page_ok c lba it σ : layout_ok c -> pages_ok c σ -> image_ok (D := D) σ -> 0 <= lba ->
  0 <= it <= spp - lba mod spp -> is_Some (c_pages c !! vpage c (lba / spp)) ->
  load_page c (vaddr_base c + lba * S) (it * S) = Ok (image_read σ lba it).
Proof.
  intros Hl Hp Hi Hlba Hit [page Hpage]. destruct (page_of_sector c lba Hl Hlba) as [Hpo Hmod].
  destruct (sector_position lba Hlba) as (E & Hq & Ho & _).
  destruct shift_cases as (k & _ & _ & _ & HSs & HS & Hspp).
  destruct (Hp _ _ Hpage) as (p & P1 & P2 & ->). apply vpage_inj in P2 as <-.
  unfold load_page. rewrite Hpo, Hmod, Hpage.
  assert (0 <= lba mod spp * S /\ 0 <= it * S /\ lba mod spp * S + it * S <= spp * S)
    as (B1 & B2 & B3) by nia.
  rewrite rd_bytes_ok by (rewrite ?zlen_image_read; (done || lia)).
  rewrite slice_image_read by (done || lia). do 2 f_equal. lia.
Qed.

Lemma cache_read_loop_ok fuel pid lba base count buf c :
  cache_ok c -> c_locked c = pid -> pid <> -1 -> 0 <= lba -> 0 <= count -> lba + count <= cap ->
  (0 < count -> base = vaddr_base c + lba * S) -> (Z.to_nat count <= fuel)%nat ->
  exists c', read_loop fuel pid lba base count buf c = Ok (c', buf ++ image_read (image c) lba count)
    /\ cache_ok c' /\ grown c c' /\ (page_fetches c = [] -> page_fetches c' = []).
Proof.
  revert lba base count buf c.
  induction fuel as [|fuel IH]; intros lba base count buf c Hok Hlk Hpid Hlba Hc Hcap Hb Hfuel; cbn [read_loop].
  all: destruct (Z.ltb_spec 0 count);
    [|exists c; replace count with 0 by lia; unfold image_read; rewrite seqZ_nil by lia; by rewrite app_nil_r];
    try lia.
  destruct (sector_step c lba count (ck_layout _ Hok) Hlba ltac:(lia) Hcap) as (I1 & I2 & I3 & I4 & I5).
  assert (0 <= lba < cap) as Hr by lia. rewrite Hb in * by done.
  destruct (sector_addr c lba (ck_layout _ Hok) Hr) as (B1 & _).
  pose proof (lk_end _ (ck_layout _ Hok)) as He. pose proof (lk_base _ (ck_layout _ Hok)) as Hb0.
  unfold assert_. replace (lba <? cap) with true by lia.
  replace (vaddr_base c <=? vaddr_base c + lba * S) with true by lia.
  rewrite (u64_small (vaddr_base c + virt_size c)) by lia.
  replace (vaddr_base c + lba * S <? vaddr_base c + virt_size c) with true by lia.
  unfold mbind, res_bind.
  destruct (blocking_read_ok pid lba c Hok Hlk Hpid Hr) as (c1 & -> & Hok1 & (G1 & G2 & G3) & Hs & Hfe).
  pose proof G1 as (_ & _ & A3 & A4 & A5).
  rewrite I3, I4. set (it := sectors_in_iteration (D := D) lba count) in *.
  assert (load_page c1 (vaddr_base c + lba * S) (it * S) = Ok (image_read (image c) lba it)) as ->.
  { rewrite <- A3. rewrite (load_page_ok c1 lba it (image c1)); try apply Hok1; try lia; [|apply image_dev_ok|].
    - f_equal. apply image_read_ext. intros l _. apply A5.
    - unfold vpage in *. by rewrite A3. }
  destruct (IH (lba + it) (u64 (vaddr_base c + lba * S + it * S)) (count - it)
    (buf ++ image_read (image c) lba it) c1) as (c' & E & Hok' & Hg' & Hfe'); try lia; try done.
  exists c'. split_and!; [|done|by apply (grown_trans c c1)|auto].
  rewrite E, <- app_assoc. do 3 f_equal.
  replace count with (it + (count - it)) at 2 by lia. rewrite image_read_app by lia. f_equal.
  apply image_read_ext. intros l _. apply A5.
Qed.

Lemma read_ok pid lba count c :
  cache_ok c -> c_locked c = -1 -> pid <> -1 -> 0 <= lba -> 0 < count -> lba + count <= cap ->
  exists c', read pid lba count c = Ok (c', image_read (image c) lba count) /\ cache_ok c' /\
    grown c c' /\ page_fetches c' = [].
Proof.
  intros Hok Hlk Hpid Hlba Hc Hcap. assert (0 <= lba < cap) as Hr by lia.
  pose proof (dev_lbashift_range (D := D)) as Hsh.
  unfold read, prefetch, assert_. replace (dev_lbashift (D := D) <? 12) with true by lia.
  unfold mbind, res_bind. rewrite (sector_base_eq c lba (ck_layout _ Hok) Hr).
  destruct (prefetch_loop_ok (Z.to_nat count) pid lba (vaddr_base c + lba * S) count c)
    as (c1 & -> & Hok1 & G1); try done; try lia.
  destruct (target_sync_ok pid c1 Hok1) as (c2 & -> & Hok2 & Hf2 & G2 & _); [|done|].
  { destruct G1 as (_ & -> & _). done. }
  pose proof (grown_trans _ _ _ G1 G2) as (A1 & A2 & A3). pose proof A1 as (_ & _ & B3 & _ & B5).
  rewrite (lock_free pid c2) by congruence.
  destruct (cache_read_loop_ok (Z.to_nat count) pid lba (sector_base c2 lba) count [] (set_locked c2 pid))
    as (c3 & -> & Hok3 & (C1 & C2 & C3) & Hf3); try done; try lia.
  { by apply cache_ok_locked. }
  { intros _. exact (sector_base_eq c2 lba (ck_layout _ Hok2) Hr). }
  exists (unlock_cache c3). split_and!.
  - do 3 f_equal. cbn [app]. apply image_read_ext. intros l _. apply B5.
  - by apply cache_ok_locked.
  - split_and!; [etrans; [exact A1|exact C1]|done|]. intros va page Hva. by apply C3, A3.
  - by apply Hf3.
Qed.

(** Between two calls: coherent, unlocked, no fetch in flight. *)
Definition idle (c : block_page_cache D) : Prop :=
  cache_ok c /\ c_locked c = -1 /\ page_fetches c = [].
End Read.

Lemma find_cache_lookup `{BlockDevice D} driver (cs : list (block_page_cache D)) i :
  find_cache driver cs = Some i -> exists c, cs !! i = Some c /\ c_driver c = driver.
Proof.
  revert i. induction cs as [|c cs IH]; intros i; [done|]. cbn [find_cache].
  destruct (Z.eqb_spec (c_driver c) driver).
  - intros [= <-]. by exists c.
  - destruct (find_cache driver cs) as [j|]; [|done]. intros [= <-]. by apply IH.
Qed.

(** C11: a read through the cache, whatever part of it is already cached and however many
    pages it spans, returns exactly the bytes of those sectors of the device; it
    returns with the lock released, the cache coherent again, and no other cache
    touched. *)
Theorem block_cache_read_correct `{BlockDevice D} pid driver lba count
    (cs : list (block_page_cache D)) i c :
  find_cache driver cs = Some i -> cs !! i = Some c -> idle c ->
  pid <> -1 -> 0 <= lba -> 0 < count -> lba + count <= dev_capacity (D := D) ->
  exists c', block_cache_async_read pid driver lba count cs =
      Ok (<[i := c']> cs, dev_read (c_dev c) lba count) /\ idle c' /\ same_cache c c'.
Proof.
  intros Hf Hi (Hok & Hlk & Hfe) Hpid Hlba Hc Hcap. unfold block_cache_async_read.
  rewrite Hf, (ld_nat _ _ c Hi). unfold mbind, res_bind.
  destruct (read_ok pid lba count c Hok Hlk Hpid Hlba Hc Hcap) as (c' & -> & Hok' & (A & B & _) & Hfe').
  exists c'. split_and!; try done. split_and!; try done. congruence.
Qed.
