(* ===== verification/BlockCacheTheorems.v ===== *)
(** * Block cache: writing through the cache, flushing, placing caches in memory *)

From S2P Require Import Prelude Bytes Interfaces BlockCache BlockCacheProofs BlockCacheRead.





Section Write.
Context `{BlockDevice D}.
Notation S := (2 ^ dev_lbashift (D := D)).
Notation spp := (sectors_per_page (D := D)).
Notation cap := (dev_capacity (D := D)).
Implicit Types c : block_page_cache D.

Lemma pages_ok_ext c c' σ σ' : pages_ok c σ -> c_pages c' = c_pages c ->
  vaddr_base c' = vaddr_base c -> (forall l, σ' l = σ l) -> pages_ok c' σ'.
Proof.
  intros Hp E1 E2 E va page. rewrite E1. intros Hva. destruct (Hp va page Hva) as (p & P1 & P2 & ->).
  exists p. unfold vpage in *. rewrite E2. split_and!; try done. apply image_read_ext.
  intros l _. by rewrite E.
Qed.

(** The sectors of another page are not touched by a write inside page [lba / spp]. *)
Lemma other_page σ lba data it q : 0 <= lba -> 0 <= it <= spp - lba mod spp -> q <> lba / spp ->
  image_read (overlay σ lba data it) (q * spp) spp = image_read σ (q * spp) spp.
Proof.
  intros Hl Hit Hq. destruct shift_cases as (k & _ & _ & _ & _ & _ & Hspp).
  destruct (sector_position lba Hl) as (E & Hp & Ho & _). apply image_read_ext. intros l Hr.
  unfold overlay. rewrite decide_False; [done|]. intros Hin.
  generalize dependent (lba / spp). generalize dependent (lba mod spp). intros. nia.
Qed.

(** The copy of a turn, into a page that is mapped and will be right afterwards. *)
Lemma store_page_ok c lba data it σ page :
  layout_ok c -> 0 <= lba -> 0 <= it <= spp - lba mod spp -> zlen data = it * S ->
  c_pages c !! vpage c (lba / spp) = Some page -> zlen page = spp * S ->
  blit page (lba mod spp * S) data = image_read (overlay σ lba data it) (lba / spp * spp) spp ->
  (forall va pg, va <> vpage c (lba / spp) -> c_pages c !! va = Some pg ->
     exists p, 0 <= p /\ va = vpage c p /\ pg = image_read σ (p * spp) spp) ->
  exists ps, store_page c (vaddr_base c + lba * S) data = Ok (set_pages c (n_used_page c) ps) /\
    pages_ok (set_pages c (n_used_page c) ps) (overlay σ lba data it).
Proof.
  intros Hl Hlba Hit Hz Hpage Hzp Hblit Hother.
  destruct (page_of_sector c lba Hl Hlba) as [Hpo Hmod].
  destruct shift_cases as (k & _ & _ & _ & HSs & HS & Hspp).
  destruct (sector_position lba Hlba) as (E & Hp & Ho & _).
  unfold store_page. rewrite Hpo, Hmod, Hpage.
  assert (0 <= lba mod spp * S /\ lba mod spp * S + it * S <= spp * S) as [B1 B2] by nia.
  rewrite wr_bytes_ok by lia. unfold mbind, res_bind. eexists. split; [done|].
  intros va pg. cbn. destruct (decide (va = vpage c (lba / spp))) as [->|Hv].
  - rewrite lookup_insert_eq. intros [= <-]. exists (lba / spp). by rewrite Hblit.
  - rewrite lookup_insert_ne by done. intros Hva. destruct (Hother va pg Hv Hva) as (q & Q1 & Q2 & ->).
    exists q. split_and!; try done. symmetry. apply other_page; [done..|]. intros ->. by apply Hv.
Qed.

(** A turn in a mapped, coherent page. *)
Lemma store_coherent c lba data it σ :
  layout_ok c -> pages_ok c σ -> image_ok (D := D) σ -> 0 <= lba ->
  0 <= it <= spp - lba mod spp -> zlen data = it * S ->
  is_Some (c_pages c !! vpage c (lba / spp)) ->
  exists ps, store_page c (vaddr_base c + lba * S) data = Ok (set_pages c (n_used_page c) ps) /\
    pages_ok (set_pages c (n_used_page c) ps) (overlay σ lba data it).
Proof.
  intros Hl Hp Hi Hlba Hit Hz [page Hpage]. pose proof (Hp _ _ Hpage) as (p & P1 & P2 & Epg).
  apply vpage_inj in P2 as <-. destruct (sector_position lba Hlba) as (E & Hq & Ho & _).
  destruct shift_cases as (k & _ & _ & _ & _ & _ & Hspp).
  apply (store_page_ok c lba data it σ page); try done.
  - rewrite Epg. apply zlen_image_read; [done|lia].
  - assert (lba mod spp + it <= spp) as Hle by lia.
    pose proof (overlay_page σ (lba / spp * spp) spp (lba mod spp) it data Hi (proj1 Ho) (proj1 Hit)
      Hle Hz) as Eo.
    rewrite <- E in Eo. by rewrite Epg, Eo.
  - intros va pg _. apply Hp.
Qed.

(** A turn over a whole page, mapped or not. *)
Lemma store_full c lba data σ :
  layout_ok c -> pages_ok c σ -> image_ok (D := D) σ -> 0 <= lba -> lba mod spp = 0 ->
  zlen data = spp * S ->
  exists n ps, (c' ← (if check_present_page c (vaddr_base c + lba * S) then Ok c
       else Ok (set_pages c (u64 (n_used_page c + 1))
                  (<[page_of (vaddr_base c + lba * S) := replicate 4096 0]> (c_pages c))));
     store_page c' (vaddr_base c + lba * S) data) = Ok (set_pages c n ps) /\
    pages_ok (set_pages c n ps) (overlay σ lba data spp).
Proof.
  intros Hl Hp Hi Hlba Hmod Hz. destruct (page_of_sector c lba Hl Hlba) as [Hpo _].
  unfold check_present_page. rewrite Hpo. destruct shift_cases as (k & _ & _ & _ & HSs & _ & Hspp).
  destruct (c_pages c !! vpage c (lba / spp)) as [page|] eqn:Ep; unfold mbind, res_bind.
  - destruct (store_coherent c lba data spp σ) as (ps & E & Hpg); try done; [lia|].
    by exists (n_used_page c), ps.
  - set (c1 := set_pages c _ _).
    destruct (store_page_ok c1 lba data spp σ (replicate 4096 0)) as (ps & E & Hpg); try done.
    + by destruct Hl.
    + lia.
    + cbn. apply lookup_insert_eq.
    + by rewrite Z.mul_comm, HSs.
    + rewrite Hmod, Z.mul_0_l. rewrite blit_0_all by (by rewrite Hz, Z.mul_comm, HSs).
      rewrite <- (image_read_buf data lba spp) at 1 by (done || lia).
      replace (lba / spp * spp) with lba by (destruct (sector_position lba Hlba); lia).
      apply image_read_ext. intros l Hr. unfold overlay. by rewrite decide_True by lia.
    + intros va pg Hv. cbn. rewrite lookup_insert_ne by done. apply Hp.
    + exists (n_used_page c1), ps. done.
Qed.

(** What a write to the pages leaves alone. *)
Definition kept (c c' : block_page_cache D) : Prop :=
  c_driver c' = c_driver c /\ c_interface c' = c_interface c /\ vaddr_base c' = vaddr_base c /\
  virt_size c' = virt_size c /\ page_fetches c' = page_fetches c /\ c_dev c' = c_dev c.

Lemma layout_kept c c' : layout_ok c -> kept c c' -> layout_ok c'.
Proof. intros [] (_ & _ & E1 & E2 & _). constructor; by rewrite ?E1, ?E2. Qed.

(** The three assertions at the head of a turn hold inside the device. *)
Lemma write_asserts c lba : layout_ok c -> 0 <= lba < cap ->
  (vaddr_base c <=? vaddr_base c + lba * S) = true /\
  (vaddr_base c + lba * S <? u64 (vaddr_base c + virt_size c)) = true /\ (lba <? cap) = true.
Proof.
  intros Hl Hr. destruct (sector_addr c lba Hl Hr) as (B & _). destruct Hl as [? _ He].
  rewrite (u64_small (vaddr_base c + virt_size c)) by lia. split_and!; lia.
Qed.

(** From the second turn on the cache is not locked: whole pages are written, and a
    last partial page fails the assertion of [blocking_read_cache]. *)
Lemma write_aligned_ok fuel pid lba base count buf c σ :
  layout_ok c -> pages_ok c σ -> image_ok (D := D) σ -> c_locked c = -1 -> pid <> -1 ->
  0 <= lba -> 0 <= count -> lba + count <= cap -> (0 < count -> lba mod spp = 0) ->
  (0 < count -> base = vaddr_base c + lba * S) -> zlen buf = count * S ->
  (Z.to_nat count <= fuel)%nat ->
  if decide (count mod spp = 0) then
    exists c', write_cache_loop fuel pid lba base count buf c = Ok c' /\ kept c c' /\
      c_locked c' = -1 /\ pages_ok c' (overlay σ lba buf count)
  else write_cache_loop fuel pid lba base count buf c
         = panic "cache->locked == sched_current_pid()".
Proof.
  destruct shift_cases as (k & _ & _ & _ & HSs & HS & Hspp).
  revert lba base count buf c σ. induction fuel as [|fuel IH];
    intros lba base count buf c σ Hl Hp Hi Hlk Hpid Hlba Hc Hcap Hal Hb Hz Hfuel; cbn [write_cache_loop].
  all: destruct (Z.ltb_spec 0 count) as [Hpos|Hnpos]; try lia.
  1,3: assert (count = 0) as -> by lia; rewrite decide_True by (by rewrite Z.mod_0_l by lia);
    exists c; split_and!; try done; eapply pages_ok_ext; [exact Hp|done..|];
    intros l; unfold overlay; by rewrite decide_False by lia.
  destruct (sector_step c lba count Hl Hlba Hpos Hcap) as (I1 & I2 & I3 & I4 & I5).
  assert (0 <= lba < cap) as Hr by lia. rewrite Hal, Z.sub_0_r in I2 by done. rewrite Hb in * by done.
  destruct (write_asserts c lba Hl Hr) as (-> & -> & ->). unfold assert_.
  set (it := sectors_in_iteration (D := D) lba count) in *. rewrite I3, I4.
  destruct (Z.ltb_spec it spp) as [Hlt|Hge].
  - assert (it = count) as Eit by lia. rewrite decide_False by (rewrite Z.mod_small; lia).
    unfold blocking_read_cache, assert_. rewrite Hlk. replace (-1 =? pid) with false by lia. done.
  - assert (it = spp) as Eit by lia. rewrite Eit in *.
    assert (0 <= spp * S <= zlen buf) as Hzb by nia.
    pose proof (zlen_take buf (spp * S) Hzb) as Hzt. pose proof (zlen_drop buf (spp * S) Hzb) as Hzd.
    rewrite rd_bytes_ok by lia. change (slice buf 0 (spp * S)) with (take (Z.to_nat (spp * S)) buf).
    destruct (store_full c lba (take (Z.to_nat (spp * S)) buf) σ) as (n & ps & E & Hpg); try done; [by apply Hal|].
    unfold mbind, res_bind in E |- *.
    destruct (if check_present_page c _ then _ else _) as [c1|] eqn:E1; [|done]. rewrite E.
    set (c2 := unlock_cache (set_pages c n ps)).
    specialize (IH (lba + spp) (u64 (vaddr_base c + lba * S + spp * S)) (count - spp)
      (drop (Z.to_nat (spp * S)) buf) c2 (overlay σ lba (take (Z.to_nat (spp * S)) buf) spp)).
    assert ((count - spp) mod spp = count mod spp) as Hm.
    { replace count with (count - spp + 1 * spp) at 2 by lia. by rewrite Z.mod_add by lia. }
    rewrite Hm in IH.
    assert (if decide (count mod spp = 0) then
      exists c', write_cache_loop fuel pid (lba + spp) (u64 (vaddr_base c + lba * S + spp * S))
        (count - spp) (drop (Z.to_nat (spp * S)) buf) c2 = Ok c' /\ kept c2 c' /\ c_locked c' = -1 /\
        pages_ok c' (overlay (overlay σ lba (take (Z.to_nat (spp * S)) buf) spp) (lba + spp)
          (drop (Z.to_nat (spp * S)) buf) (count - spp))
      else write_cache_loop fuel pid (lba + spp) (u64 (vaddr_base c + lba * S + spp * S))
        (count - spp) (drop (Z.to_nat (spp * S)) buf) c2 = panic "cache->locked == sched_current_pid()")
      as IH2.
    { apply IH; try done; try lia.
      - by destruct Hl.
      - apply overlay_ok; [done|lia|done].
      - intros _. rewrite <- (Z.mod_add lba 1 spp) in Hal by lia. rewrite Z.mul_1_l in Hal. by apply Hal.
      - intros Hp2. rewrite I5 by lia. done. }
    case_decide; [|done]. destruct IH2 as (c' & E' & Hk & Hlk' & Hpg').
    exists c'. split_and!; try done.
    eapply pages_ok_ext; [exact Hpg'|done..|]. intros l.
    replace count with (spp + (count - spp)) at 1 by lia.
    rewrite <- (overlay_split σ lba buf spp (count - spp) l); [done|lia|lia|].
    rewrite Hz. f_equal. lia.
Qed.

(** The first turn: of a whole page or of a part of one. *)
Definition first_turn (lba count : Z) : Z := Z.min count (spp - lba mod spp).

Lemma write_first_turn pid lba count data c :
  cache_ok c -> page_fetches c = [] -> c_locked c = pid -> pid <> -1 -> 0 <= lba < cap ->
  0 < count -> let it := first_turn lba count in zlen data = it * S ->
  exists c1 c2, (if it <? spp then blocking_read_cache pid lba (vaddr_base c + lba * S) c
      else if check_present_page c (vaddr_base c + lba * S) then Ok c
      else Ok (set_pages c (u64 (n_used_page c + 1))
                 (<[page_of (vaddr_base c + lba * S) := replicate 4096 0]> (c_pages c)))) = Ok c1 /\
    store_page c1 (vaddr_base c + lba * S) data = Ok c2 /\
    same_cache c c2 /\ page_fetches c2 = [] /\ pages_ok c2 (overlay (image c) lba data it).
Proof.
  intros Hok Hfe Hlk Hpid Hr Hc it Hz. pose proof Hok as [Hl Hp _ _ _].
  destruct (sector_position lba (proj1 Hr)) as (_ & _ & Ho & _).
  assert (0 <= it <= spp - lba mod spp) as Hit by (unfold it, first_turn; lia).
  pose proof (image_dev_ok c) as Hi.
  destruct (Z.ltb_spec it spp) as [Hlt|Hge].
  - destruct (blocking_read_ok pid lba c Hok Hlk Hpid Hr)
      as (c1 & E & Hok1 & ((A1 & A2 & A3 & A4 & A5) & G2 & G3) & Hs & Hfe1).
    destruct (store_coherent c1 lba data it (image c)) as (ps & E2 & Hpg); try done; try lia.
    + apply Hok1.
    + eapply pages_ok_ext; [apply Hok1|done..|]. intros l. by rewrite A5.
    + unfold vpage in *. by rewrite A3.
    + rewrite A3 in E2. eexists c1, _. split_and!; [done|exact E2| |by apply Hfe1|done].
      by split_and!.
  - assert (it = spp /\ lba mod spp = 0) as [Eit Hm] by lia. rewrite Eit in *.
    destruct (store_full c lba data (image c)) as (n & ps & E & Hpg); try done; try lia.
    unfold mbind, res_bind in E.
    destruct (if check_present_page c _ then _ else _) as [c1|] eqn:E1; [|done].
    eexists c1, _. split_and!; [done|exact E|by split_and!|done|done].
Qed.

Lemma write_cache_ok pid lba buf count c :
  cache_ok c -> page_fetches c = [] -> c_locked c = -1 -> pid <> -1 -> 0 <= lba -> 0 < count ->
  lba + count <= cap -> zlen buf = count * S ->
  if decide ((count - first_turn lba count) mod spp = 0) then
    exists c', write_cache pid lba buf count c = Ok c' /\ same_cache c c' /\ page_fetches c' = [] /\
      c_locked c' = -1 /\ pages_ok c' (overlay (image c) lba buf count)
  else write_cache pid lba buf count c = panic "cache->locked == sched_current_pid()".
Proof.
  intros Hok Hfe Hlk Hpid Hlba Hc Hcap Hz. pose proof (ck_layout _ Hok) as Hl.
  destruct shift_cases as (k & _ & _ & _ & HSs & HS & Hspp).
  pose proof (dev_lbashift_range (D := D)) as Hsh. assert (0 <= lba < cap) as Hr by lia.
  unfold write_cache, assert_. replace (dev_lbashift (D := D) <? 12) with true by lia.
  rewrite (sector_base_eq c lba Hl Hr), (lock_free pid c Hlk). unfold mbind, res_bind.
  destruct (Z.to_nat count) as [|fuel] eqn:Efuel; [lia|]. cbn [write_cache_loop].
  replace (0 <? count) with true by lia.
  destruct (write_asserts (set_locked c pid) lba ltac:(by destruct Hl) Hr) as (W1 & W2 & W3).
  cbn [vaddr_base virt_size set_locked] in W1, W2 |- *. rewrite W1, W2, W3. unfold assert_.
  destruct (sector_step c lba count Hl Hlba Hc Hcap) as (I1 & I2 & I3 & I4 & I5).
  change (Z.min count (spp - lba mod spp)) with (first_turn lba count) in I2.
  rewrite I3, I4, I2 in *. set (it := first_turn lba count) in *.
  assert (0 <= it * S <= zlen buf) as Hzb by nia.
  pose proof (zlen_take buf (it * S) Hzb) as Hzt. pose proof (zlen_drop buf (it * S) Hzb) as Hzd.
  destruct (write_first_turn pid lba count (take (Z.to_nat (it * S)) buf) (set_locked c pid))
    as (c1 & c2 & E1 & E2 & (A1 & A2 & A3 & A4 & A5) & Hfe2 & Hpg); try done.
  { by apply cache_ok_locked. }
  unfold mbind, res_bind. fold it in E1. cbn [vaddr_base set_locked] in E1, E2. rewrite E1.
  rewrite rd_bytes_ok by lia. change (slice buf 0 (it * S)) with (take (Z.to_nat (it * S)) buf).
  rewrite E2.
  assert (pages_ok (unlock_cache c2) (overlay (image c) lba (take (Z.to_nat (it * S)) buf) it)) as Hpg2
    by (eapply pages_ok_ext; [exact Hpg|done..]).
  pose proof (write_aligned_ok fuel pid (lba + it) (u64 (vaddr_base c + lba * S + it * S))
    (count - it) (drop (Z.to_nat (it * S)) buf) (unlock_cache c2)
    (overlay (image c) lba (take (Z.to_nat (it * S)) buf) it)) as W.
  cbn [vaddr_base unlock_cache set_locked] in W, A3. rewrite A3 in W.
  assert (0 < count - it -> (lba + it) mod spp = 0) as Hal.
  { intros Hpos. destruct (sector_position lba Hlba) as (E & _).
    assert (it = spp - lba mod spp) as -> by (unfold it, first_turn in *; lia).
    replace (lba + (spp - lba mod spp)) with ((lba / spp + 1) * spp) by lia. by apply Z.mod_mul; lia. }
  assert (if decide ((count - it) mod spp = 0) then exists c', write_cache_loop fuel pid (lba + it)
      (u64 (vaddr_base c + lba * S + it * S)) (count - it) (drop (Z.to_nat (it * S)) buf)
      (unlock_cache c2) = Ok c' /\ kept (unlock_cache c2) c' /\ c_locked c' = -1 /\
      pages_ok c' (overlay (overlay (image c) lba (take (Z.to_nat (it * S)) buf) it) (lba + it)
        (drop (Z.to_nat (it * S)) buf) (count - it))
    else write_cache_loop fuel pid (lba + it) (u64 (vaddr_base c + lba * S + it * S)) (count - it)
      (drop (Z.to_nat (it * S)) buf) (unlock_cache c2) = panic "cache->locked == sched_current_pid()") as W2'.
  { apply W; try done; try lia.
    - destruct Hl. constructor; cbn; by rewrite ?A3, ?A4.
    - apply overlay_ok; [apply image_dev_ok|lia|done]. }
  case_decide; [|done]. destruct W2' as (c' & E' & (K1 & K2 & K3 & K4 & K5 & K6) & Hlk' & Hpg').
  exists c'. split_and!; try done.
  - split_and!; try (cbn in *; congruence). intros l. unfold image in *. rewrite K6. apply A5.
  - by rewrite K5.
  - eapply pages_ok_ext; [exact Hpg'|done..|]. intros l.
    replace count with (it + (count - it)) at 1 by lia. symmetry. apply overlay_split; [lia..|].
    rewrite Hz. f_equal. lia.
Qed.
End Write.

(** * Block cache: the interface functions *)


Section Interface.
Context `{BlockDevice D}.
Notation S := (2 ^ dev_lbashift (D := D)).
Notation spp := (sectors_per_page (D := D)).

(** The device after the write-through of [block_cache_write]. *)
Lemma written_idle (c c' : block_page_cache D) lba buf count :
  cache_ok c -> 0 <= count -> zlen buf = count * S -> same_cache c c' -> page_fetches c' = [] ->
  c_locked c' = -1 -> pages_ok c' (overlay (image c) lba buf count) ->
  let c2 := set_dev c' (dev_write lba buf count (dev_sync (c_dev c'))) in
  idle c2 /\ forall l, image c2 l = overlay (image c) lba buf count l.
Proof.
  intros Hok Hc Hz (A1 & A2 & A3 & A4 & A5) Hfe Hlk Hpg c2.
  assert (forall l, image c2 l = overlay (image c) lba buf count l) as Him.
  { intros l. unfold image, c2. cbn. rewrite dev_write_sector by done. unfold overlay.
    case_decide; [done|]. rewrite dev_sync_sector. apply A5. }
  split; [|done]. split_and!; [|done|done]. constructor.
  - destruct (ck_layout _ Hok). constructor; cbn; by rewrite ?A3, ?A4.
  - by eapply pages_ok_ext.
  - cbn. rewrite Hfe. constructor.
  - cbn. rewrite Hfe. constructor.
  - cbn. by rewrite Hfe.
Qed.

Lemma block_cache_write_eval pid driver lba buf count (cs : list (block_page_cache D)) i c :
  find_cache driver cs = Some i -> cs !! i = Some c -> idle c -> pid <> -1 -> 0 <= lba ->
  0 < count -> lba + count <= dev_capacity (D := D) -> zlen buf = count * S ->
  if decide ((count - first_turn (D := D) lba count) mod spp = 0) then
    exists c', block_cache_write pid driver lba buf count cs = Ok (<[i := c']> cs) /\ idle c' /\
      c_driver c' = driver /\ forall l, image c' l = overlay (image c) lba buf count l
  else block_cache_write pid driver lba buf count cs = panic "cache->locked == sched_current_pid()".
Proof.
  intros Hf Hi (Hok & Hlk & Hfe) Hpid Hlba Hc Hcap Hz. unfold block_cache_write.
  rewrite Hf, (ld_nat _ _ c Hi). unfold mbind, res_bind.
  pose proof (write_cache_ok pid lba buf count c Hok Hfe Hlk Hpid Hlba Hc Hcap Hz) as W.
  case_decide; [|by rewrite W]. destruct W as (c' & -> & Hs & Hfe' & Hlk' & Hpg).
  destruct (written_idle c c' lba buf count Hok ltac:(lia) Hz Hs Hfe' Hlk' Hpg) as [Hid Him].
  eexists. split; [done|]. split_and!; [done| |done].
  destruct (find_cache_lookup driver cs i Hf) as (c0 & Hi0 & Hd). assert (c0 = c) as -> by congruence.
  destruct Hs as (Hd' & _). cbn. congruence.
Qed.

Lemma find_cache_insert driver (cs : list (block_page_cache D)) i c c' :
  find_cache driver cs = Some i -> cs !! i = Some c -> c_driver c' = driver ->
  find_cache driver (<[i := c']> cs) = Some i.
Proof.
  intros Hf Hi Hd. revert i Hf Hi. induction cs as [|x cs IH]; intros i; cbn [find_cache]; [done|].
  destruct (Z.eqb_spec (c_driver x) driver) as [Hx|Hx].
  - intros [= <-] [= ->]. cbn. by rewrite Hd, Z.eqb_refl.
  - destruct (find_cache driver cs) as [j|] eqn:Ej; [|done]. intros [= <-] Hi.
    change (<[Datatypes.S j := c']> (x :: cs)) with (x :: <[j := c']> cs). cbn [find_cache].
    destruct (Z.eqb_spec (c_driver x) driver); [done|]. by rewrite (IH j).
Qed.
End Interface.

(** C12: a write through the cache whose pages after the first are whole pages stores the
    sectors on the device and keeps the cache coherent: a read of the same
    sectors that follows returns what was written, and all other sectors of the
    device are unchanged. *)
Theorem block_cache_write_correct `{BlockDevice D} pid driver lba buf count
    (cs : list (block_page_cache D)) i c :
  find_cache driver cs = Some i -> cs !! i = Some c -> idle c -> pid <> -1 -> 0 <= lba ->
  0 < count -> lba + count <= dev_capacity (D := D) -> zlen buf = count * 2 ^ dev_lbashift (D := D) ->
  (count - first_turn (D := D) lba count) mod sectors_per_page (D := D) = 0 ->
  exists c' c'', block_cache_write pid driver lba buf count cs = Ok (<[i := c']> cs) /\ idle c' /\
    (forall l, image c' l = overlay (image c) lba buf count l) /\
    block_cache_async_read pid driver lba count (<[i := c']> cs) = Ok (<[i := c'']> cs, buf) /\
    idle c''.
Proof.
  intros Hf Hi Hid Hpid Hlba Hc Hcap Hz Hm.
  pose proof (block_cache_write_eval pid driver lba buf count cs i c Hf Hi Hid Hpid Hlba Hc Hcap Hz) as W.
  rewrite decide_True in W by done. destruct W as (c' & E & Hid' & Hd & Him).
  pose proof Hid' as (Hok' & Hlk' & Hfe').
  destruct (read_ok pid lba count c' Hok' Hlk' Hpid Hlba Hc Hcap) as (c'' & Er & Hok2 & (A & B & _) & Hfe2).
  exists c', c''. split_and!; try done.
  - unfold block_cache_async_read. rewrite (find_cache_insert driver cs i c c') by done.
    rewrite (ld_nat _ _ c') by (apply list_lookup_insert_eq; by eapply lookup_lt_Some).
    unfold mbind, res_bind. rewrite Er, list_insert_insert_eq.
    assert (image_read (image c') lba count = buf) as ->; [|done].
    transitivity (image_read (fun l => slice buf ((l - lba) * 2 ^ dev_lbashift (D := D))
      (2 ^ dev_lbashift (D := D))) lba count); [|apply image_read_buf; done || lia].
    apply image_read_ext. intros l Hl. rewrite Him. unfold overlay. by rewrite decide_True by lia.
  - split_and!; try done. congruence.
Qed.

(** A write that continues past its first page and ends inside a page stops the
    kernel: the cache is unlocked at the end of the first turn, and the partial
    page is then read by a process that does not hold the lock. *)
Theorem block_cache_write_partial_panics `{BlockDevice D} pid driver lba buf count
    (cs : list (block_page_cache D)) i c :
  find_cache driver cs = Some i -> cs !! i = Some c -> idle c -> pid <> -1 -> 0 <= lba ->
  0 < count -> lba + count <= dev_capacity (D := D) -> zlen buf = count * 2 ^ dev_lbashift (D := D) ->
  (count - first_turn (D := D) lba count) mod sectors_per_page (D := D) <> 0 ->
  block_cache_write pid driver lba buf count cs = panic "cache->locked == sched_current_pid()".
Proof.
  intros Hf Hi Hid Hpid Hlba Hc Hcap Hz Hm.
  pose proof (block_cache_write_eval pid driver lba buf count cs i c Hf Hi Hid Hpid Hlba Hc Hcap Hz) as W.
  by rewrite decide_False in W.
Qed.

(** Every 512 GB part of the range of the cache holds a cached page. *)
Definition all_touched `{BlockDevice D} (c : block_page_cache D) : Prop :=
  forall r, vaddr_base c / 2 ^ 39 <= r < vaddr_base c / 2 ^ 39 + virt_size c / 2 ^ 39 ->
    exists va page, c_pages c !! va = Some page /\ va / 2 ^ 39 = r.

(** Flushing an idle cache. *)
Lemma flush_ok `{BlockDevice D} pid (c : block_page_cache D) : idle c -> all_touched c ->
  exists c', flush_cache pid c = Ok c' /\ idle c' /\ same_cache c c' /\ n_used_page c' = 0.
Proof.
  intros (Hok & Hlk & Hfe) Ht. unfold flush_cache. rewrite (lock_free pid c Hlk). unfold mbind, res_bind.
  cbn [page_fetches set_locked]. rewrite Hfe. change (0 <? zlen []) with false. cbv iota.
  unfold free_cache_range. cbn [vaddr_base virt_size set_locked]. replace (forallb _ _) with true; cycle 1.
  { symmetry. apply forallb_forall. intros r Hr%list_elem_of_In%elem_of_seqZ.
    apply bool_decide_eq_true_2, map_Exists_lookup.
    destruct (Ht r ltac:(lia)) as (va & page & ? & ?). by exists va, page. }
  eexists. split; [done|]. split_and!; try done.
  split_and!; [|done|done]. destruct (ck_layout _ Hok). constructor.
  - by constructor.
  - intros va page. cbn. intros [Hl _]%map_lookup_filter_Some. by apply (ck_pages _ Hok).
  - cbn. rewrite Hfe. constructor.
  - cbn. rewrite Hfe. constructor.
  - cbn. by rewrite Hfe.
Qed.

Lemma lock_all_ok `{BlockDevice D} pid (cs : list (block_page_cache D)) :
  Forall (fun c => c_locked c = -1) cs ->
  map_res (lock_cache pid) cs = Ok ((fun c => set_locked c pid) <$> cs).
Proof.
  induction 1 as [|c cs Hlk _ IH]; [done|]. cbn [map_res].
  rewrite (lock_free pid c Hlk). unfold mbind, res_bind in *. by rewrite IH.
Qed.

Lemma unlock_locked `{BlockDevice D} pid (c : block_page_cache D) :
  c_locked c = -1 -> unlock_cache (set_locked c pid) = c.
Proof. destruct c. cbn. by intros ->. Qed.

Lemma idle_unlocked `{BlockDevice D} (cs : list (block_page_cache D)) :
  Forall idle cs -> Forall (fun c => c_locked c = -1) cs.
Proof. intros H'. eapply Forall_impl; [|exact H']. by intros c (_ & ? & _). Qed.

(** [block_cache_reclaim_pages] on idle caches that hold a page in each 512 GB part of
    their range succeeds, frees every cached page ([block_cache_used_pages] is 0
    afterwards) and loses no data: all caches are idle again, in the same order, in
    front of the same device contents. *)
Theorem block_cache_reclaim_correct `{BlockDevice D} pid (cs : list (block_page_cache D)) :
  Forall idle cs -> Forall all_touched cs ->
  exists cs', block_cache_reclaim_pages pid cs = Ok cs' /\ Forall idle cs' /\
    Forall2 same_cache cs cs' /\ block_cache_used_pages cs' = 0.
Proof.
  intros Hall Ht. unfold block_cache_reclaim_pages. rewrite lock_all_ok by by apply idle_unlocked.
  unfold mbind, res_bind. induction Hall as [|c cs Hid _ IH].
  { exists []. by split_and!. }
  apply Forall_cons_iff in Ht as [Htc Ht].
  destruct (IH Ht) as (cs' & E & H1 & H2 & H3). cbn [fmap list_fmap map_res].
  rewrite unlock_locked by apply Hid.
  destruct (flush_ok pid c Hid Htc) as (c' & -> & Hid' & Hs & Hn). unfold mbind, res_bind. rewrite E.
  exists (c' :: cs'). split_and!; try done; [by constructor..|]. cbn. by rewrite Hn, H3.
Qed.

(** A cache that nothing was read through yet cannot be reclaimed:
    [free_page_range] finds no page tables in its range and goes on behind it. *)
Theorem block_cache_reclaim_empty_faults `{BlockDevice D} pid (c : block_page_cache D) cs :
  Forall idle (c :: cs) -> c_pages c = ∅ -> 0 <= vaddr_base c -> 2 ^ 39 <= virt_size c ->
  block_cache_reclaim_pages pid (c :: cs) =
    Err (Fault "free_page_range: frees memory outside of the range").
Proof.
  intros Hall He Hb Hv. unfold block_cache_reclaim_pages. rewrite lock_all_ok by by apply idle_unlocked.
  apply Forall_cons_iff in Hall as [(Hok & Hlk & Hfe) _].
  unfold mbind, res_bind. cbn [fmap list_fmap map_res]. rewrite unlock_locked by done.
  unfold flush_cache. rewrite (lock_free pid c Hlk). unfold mbind, res_bind.
  cbn [page_fetches set_locked]. rewrite Hfe. change (0 <? zlen []) with false. cbv iota.
  unfold free_cache_range. cbn [vaddr_base virt_size set_locked].
  assert (1 <= virt_size c / 2 ^ 39) by (apply Z.div_le_lower_bound; lia).
  rewrite seqZ_cons by lia. cbn [forallb]. unfold region_present at 1. cbn [c_pages set_locked].
  rewrite He, bool_decide_eq_false_2; [done|]. intros (va & page & Hl & _)%map_Exists_lookup.
  by rewrite lookup_empty in Hl.
Qed.

(** [vmap_device] does not update the end of the candidate range when it moves its
    beginning: of three devices with caches of the same size, the third gets the
    same virtual addresses as the second. *)
Theorem third_cache_overlaps `{BlockDevice D} (d1 d2 d3 : D) vsize :
  vsize mod 2 ^ 39 = 0 -> 0 < vsize -> BLOCK_CACHE_BEGIN + 3 * vsize <= BLOCK_CACHE_END ->
  exists c1 c2 c3,
    (cs ← block_cache_setup 1 1 vsize d1 []; cs ← block_cache_setup 2 2 vsize d2 cs;
     block_cache_setup 3 3 vsize d3 cs) = Ok [c1; c2; c3] /\
    vaddr_base c1 + virt_size c1 = vaddr_base c2 /\ vaddr_base c3 = vaddr_base c2.
Proof.
  intros Hm Hv He. unfold BLOCK_CACHE_BEGIN, BLOCK_CACHE_END in *.
  assert (forall (d : D) n cs, block_cache_setup n n vsize d cs =
    (vaddr ← vmap_device vsize cs; Ok (cs ++ [BlockPageCache n n vaddr vsize [] 0 (-1) ∅ d]))) as Hset.
  { intros d n cs. unfold block_cache_setup, assert_.
    replace (vsize mod 2 ^ 39 =? 0) with true by lia. by replace (0 <? vsize) with true by lia. }
  rewrite Hset. unfold mbind, res_bind.
  assert (forall cs : list (block_page_cache D), vmap_device vsize cs =
    Ok (let v := vmap_loop BLOCK_CACHE_BEGIN (BLOCK_CACHE_BEGIN + vsize) cs in
        if BLOCK_CACHE_END <? u64 (v + vsize) then 0 else v)) as Hvm.
  { intros cs. unfold vmap_device, assert_, BLOCK_CACHE_BEGIN, BLOCK_CACHE_END.
    replace (vsize <=? 0xffffd00000000000 - 0xffff900000000000) with true by lia.
    by rewrite (u64_small (0xffff900000000000 + vsize)) by lia. }
  rewrite Hvm. cbn [vmap_loop]. cbv zeta. unfold BLOCK_CACHE_BEGIN, BLOCK_CACHE_END.
  rewrite u64_small by lia. destruct (Z.ltb_spec 0xffffd00000000000 (0xffff900000000000 + vsize)); [lia|].
  rewrite Hset, Hvm. cbn [app vmap_loop vaddr_base virt_size]. cbv zeta. unfold mbind, res_bind, BLOCK_CACHE_BEGIN, BLOCK_CACHE_END.
  destruct (Z.ltb_spec 0xffff900000000000 (0xffff900000000000 + vsize)); [|lia].
  change (0xffff900000000000 <=? 0xffff900000000000) with true. cbn [andb].
  rewrite (u64_small (0xffff900000000000 + vsize)), u64_small by lia.
  destruct (Z.ltb_spec 0xffffd00000000000 (0xffff900000000000 + vsize + vsize)); [lia|].
  rewrite Hset, Hvm. cbn [app vmap_loop vaddr_base virt_size]. cbv zeta. unfold mbind, res_bind, BLOCK_CACHE_BEGIN, BLOCK_CACHE_END.
  destruct (Z.ltb_spec 0xffff900000000000 (0xffff900000000000 + vsize)); [|lia].
  change (0xffff900000000000 <=? 0xffff900000000000) with true. cbn [andb].
  rewrite (u64_small (0xffff900000000000 + vsize)) by lia. rewrite Z.leb_refl, Z.ltb_irrefl. cbn [andb].
  rewrite u64_small by lia.
  destruct (Z.ltb_spec 0xffffd00000000000 (0xffff900000000000 + vsize + vsize)); [lia|].
  eexists _, _, _. split; [done|]. done.
Qed.

(** * Block cache: a concrete device, and the theorems on it *)





(** A disk of 64 sectors of 512 bytes, byte by byte. *)
Definition disk := Z -> Z.

Definition disk_sector (d : disk) (l : Z) : list Z := (fun j => d (l * 512 + j)) <$> seqZ 0 512.

Definition disk_write (lba : Z) (buf : list Z) (count : Z) (d : disk) : disk := fun a =>
  if decide (lba * 512 <= a < (lba + count) * 512) then buf !!! Z.to_nat (a - lba * 512) else d a.

Lemma disk_write_sector lba buf count d l :
  0 <= count -> zlen buf = count * 2 ^ 9 ->
  disk_sector (disk_write lba buf count d) l =
    if decide (lba <= l < lba + count) then slice buf ((l - lba) * 2 ^ 9) (2 ^ 9) else disk_sector d l.
Proof.
  change (2 ^ 9) with 512. intros Hc Hz. unfold disk_sector. case_decide as E.
  - apply list_eq. intros i. rewrite list_lookup_fmap. unfold slice.
    destruct (decide (i < 512)%nat) as [Hi|Hi].
    + rewrite lookup_seqZ_lt by lia. cbn [fmap option_fmap option_map]. unfold disk_write.
      rewrite decide_True by lia. rewrite lookup_take_lt by lia. rewrite lookup_drop.
      assert (Z.to_nat (l * 512 + (0 + Z.of_nat i) - lba * 512) =
        (Z.to_nat ((l - lba) * 512) + i)%nat) as -> by lia.
      symmetry. apply list_lookup_lookup_total_lt. unfold zlen in Hz. lia.
    + rewrite lookup_seqZ_ge by lia. rewrite lookup_take_ge by lia. done.
  - apply list_fmap_ext. intros i j Hj. apply lookup_seqZ in Hj. unfold disk_write.
    rewrite decide_False; [done|lia].
Qed.

#[export] #[refine] Instance disk_device : BlockDevice disk := {
  dev_lbashift := 9;
  dev_capacity := 64;
  dev_sector := disk_sector;
  dev_write := disk_write;
  dev_sync d := d;
  dev_write_sector := disk_write_sector
}.
Proof.
  - done.
  - done.
  - intros. unfold zlen, disk_sector. by rewrite length_fmap, length_seqZ.
  - done.
Defined.

(** A cache as [block_cache_setup] builds it. *)
Definition disk0 : disk := fun a => a mod 251.
Definition cache0 : block_page_cache disk :=
  BlockPageCache 7 1 BLOCK_CACHE_BEGIN (2 ^ 39) [] 0 (-1) ∅ disk0.

Lemma cache0_idle : idle cache0.
Proof.
  split_and!; [|done|done]. constructor.
  - constructor; vm_compute; [split; [discriminate|reflexivity]|discriminate|reflexivity].
  - intros va page Hva. cbn in Hva. by rewrite lookup_empty in Hva.
  - constructor.
  - constructor.
  - vm_compute. discriminate.
Qed.

Lemma cache0_setup : block_cache_setup 7 1 (2 ^ 39) disk0 [] = Ok [cache0].
Proof. reflexivity. Qed.

Lemma block_cache_read_witness :
  exists c', block_cache_async_read 3 7 5 20 [cache0] = Ok ([c'], dev_read disk0 5 20) /\
    idle c' /\ same_cache cache0 c'.
Proof.
  exact (block_cache_read_correct 3 7 5 20 [cache0] 0%nat cache0 eq_refl eq_refl cache0_idle
    ltac:(lia) ltac:(lia) ltac:(lia) ltac:(cbn; lia)).
Defined.

Lemma block_cache_write_witness :
  let buf := replicate (11 * 512) 42 in
  exists c' c'', block_cache_write 3 7 5 buf 11 [cache0] = Ok [c'] /\ idle c' /\
    (forall l, image c' l = overlay (image cache0) 5 buf 11 l) /\
    block_cache_async_read 3 7 5 11 [c'] = Ok ([c''], buf) /\ idle c''.
Proof.
  exact (block_cache_write_correct 3 7 5 (replicate (11 * 512) 42) 11 [cache0] 0%nat cache0 eq_refl
    eq_refl cache0_idle ltac:(lia) ltac:(lia) ltac:(lia) ltac:(cbn; lia) eq_refl eq_refl).
Defined.

Lemma block_cache_write_partial_witness :
  block_cache_write 3 7 5 (replicate (12 * 512) 42) 12 [cache0]
  = panic "cache->locked == sched_current_pid()".
Proof.
  exact (block_cache_write_partial_panics 3 7 5 (replicate (12 * 512) 42) 12 [cache0] 0%nat cache0
    eq_refl eq_refl cache0_idle ltac:(lia) ltac:(lia) ltac:(lia) ltac:(cbn; lia) eq_refl
    ltac:(vm_compute; lia)).
Defined.

(** The same cache after the first page of the disk was read. *)
Definition cache1 : block_page_cache disk :=
  BlockPageCache 7 1 BLOCK_CACHE_BEGIN (2 ^ 39) [] 1 (-1)
    {[ BLOCK_CACHE_BEGIN := dev_read disk0 0 8 ]} disk0.

Lemma cache1_idle : idle cache1.
Proof.
  split_and!; [|done|done]. constructor.
  - constructor; vm_compute; [split; [discriminate|reflexivity]|discriminate|reflexivity].
  - intros va page Hva. unfold cache1 in Hva. cbn [c_pages] in Hva.
    apply lookup_singleton_Some in Hva as [<- <-].
    exists 0. by split_and!.
  - constructor.
  - constructor.
  - vm_compute. discriminate.
Qed.

Lemma cache1_touched : all_touched cache1.
Proof.
  intros r Hr. exists BLOCK_CACHE_BEGIN, (dev_read disk0 0 8). split; [apply lookup_singleton_eq|].
  change (vaddr_base cache1) with BLOCK_CACHE_BEGIN in Hr. change (virt_size cache1 / 2 ^ 39) with 1 in Hr. lia.
Qed.

Lemma block_cache_reclaim_witness :
  exists cs', block_cache_reclaim_pages 3 [cache1] = Ok cs' /\ Forall idle cs' /\
    Forall2 same_cache [cache1] cs' /\ block_cache_used_pages cs' = 0.
Proof.
  exact (block_cache_reclaim_correct 3 [cache1] (Forall_cons_2 _ _ _ cache1_idle (Forall_nil_2 _))
    (Forall_cons_2 _ _ _ cache1_touched (Forall_nil_2 _))).
Defined.

Lemma block_cache_reclaim_empty_witness :
  block_cache_reclaim_pages 3 [cache0; cache1] =
    Err (Fault "free_page_range: frees memory outside of the range").
Proof.
  exact (block_cache_reclaim_empty_faults 3 cache0 [cache1]
    (Forall_cons_2 _ _ _ cache0_idle (Forall_cons_2 _ _ _ cache1_idle (Forall_nil_2 _))) eq_refl
    ltac:(vm_compute; discriminate) ltac:(vm_compute; discriminate)).
Defined.

Lemma third_cache_overlaps_witness :
  exists c1 c2 c3,
    (cs ← block_cache_setup 1 1 (2 ^ 39) disk0 []; cs ← block_cache_setup 2 2 (2 ^ 39) disk0 cs;
     block_cache_setup 3 3 (2 ^ 39) disk0 cs) = Ok [c1; c2; c3] /\
    vaddr_base c1 + virt_size c1 = vaddr_base c2 /\ vaddr_base c3 = vaddr_base c2.
Proof.
  exact (third_cache_overlaps disk0 disk0 disk0 (2 ^ 39) eq_refl eq_refl ltac:(vm_compute; discriminate)).
Defined.
