(* ===== verification/PmmInterface.v ===== *)
(** * The physical memory manager implements the interface [PhysAllocator] *)

From S2P Require Import Prelude Bytes Interfaces Pmm PmmBitmap PmmAlloc PmmPhysalloc PmmFree.





(** Consistent, with at least [n] free pages in the four lists. *)
Definition pmm_serves (s : pmm_state) (n : Z) : Prop :=
  exists ls, pmm_ok s ls /\ n <= listed_free s ls /\ n <= total_available_pages s.

(** The page whose release fails the bound check of [get_memory_range]. *)
Definition last_page (s : pmm_state) (p : Z) : Prop :=
  exists r range, Z.of_nat r = n_ranges s - 1 /\ memory_ranges_buffer s !! r = Some range /\
    p = page_addr range (mlength range - 1).

Definition pmm_releasable (s : pmm_state) (p : Z) : Prop := managed s p true /\ ~ last_page s p.

Lemma managed_addr s ls p b : pmm_inv s ls -> managed s p b -> 0 < p < 2 ^ 47 /\ p mod 0x1000 = 0.
Proof.
  intros H (r & range & h & q & Hr & Hat & Hq & -> & _).
  destruct (pk_ranges _ _ H r Hr) as (range' & h' & Hat' & (Hb & Ha & He) & _).
  destruct Hat as [E1 _], Hat' as [E2 _]. assert (range' = range) as -> by congruence.
  unfold page_addr. lia.
Qed.

Lemma sumZ_le f g l : (forall r, r ∈ l -> f r <= g r) -> sumZ f l <= sumZ g l.
Proof.
  induction l as [|r l IH]; intros Hl; [done|]. cbn. pose proof (Hl r ltac:(set_solver)).
  specialize (IH ltac:(set_solver)). lia.
Qed.

Lemma listed_free_freed s ls r range h p :
  pmm_ok s ls -> Z.of_nat r < n_ranges s -> range_at s r range h -> 0 <= p < mlength range ->
  used h p = true -> listed_free s ls <= listed_free (freed s range h p) ls.
Proof.
  intros Hok Hr Hat Hp Hu. destruct (header_of_range s ls r range h Hok Hr Hat) as [Hro Hh].
  destruct Hok as [Hinv Ht]. apply sumZ_le. intros q Hq.
  apply list_elem_of_In, in_concat in Hq as (l & Hl%list_elem_of_In & Hin%list_elem_of_In).
  apply list_elem_of_lookup_1 in Hl as [i Hi].
  destruct (pk_listed _ _ Hinv i l q Hi Hin) as [Hqn _].
  rewrite (free_of_upd s (freed s range h p) ls r range h (unmark_page h p)) by done.
  destruct (decide (q = r)); [|lia]. cbn [unmark_page available0]. rewrite still_0.
  change (available h 0) with (available0 h). lia.
Qed.

#[export] #[refine] Instance pmm_allocator : PhysAllocator pmm_state := {
  phys_alloc C callback size va s c := physalloc callback size va s c;
  phys_free p s := physfree p s;
  frame := managed;
  serves := pmm_serves;
  releasable := pmm_releasable
}.
Proof.
  - intros a n p b b' (ls & [H _] & _). by apply (managed_unique a ls).
  - intros a n p b (ls & [H _] & _). by apply (managed_addr a ls).
  - intros a n m (ls & H & Hl & Ht) Hm. exists ls. split_and!; [done|lia..].
  - intros C callback a n size va c (ls & Hok & Hl & Ht) Hva Hs.
    destruct (physalloc_ok callback a ls c size va Hok Hva) as (a' & ls' & l & He & Hz & E); [lia..|].
    destruct (set_total_effect a ls _ a' ls' l He) as (Ht' & Ha & Hl' & Hfr & Hm).
    exists a', l. split_and!; [done|done|apply He|done|done|].
    exists ls'. split_and!; [|lia..]. split; [apply He|]. rewrite Ht', Ha, Hz. by destruct Hok as [_ ->].
  - by intros a p [? _].
  - intros a n p (ls & Hok & Hl & Ht) [(r & range & h & q & Hr & Hat & Hq & -> & Hu) Hlast].
    assert (~ very_last a r range q) as Hv.
    { intros [H1 ->]. apply Hlast. exists r, range. split_and!; [done|apply Hat|done]. }
    exists (freed a range h q). split_and!.
    + by apply (physfree_eval a ls r).
    + exists ls. split_and!; [by apply (freed_ok a ls r)| |cbn; lia].
      pose proof (listed_free_freed a ls r range h q Hok Hr Hat Hq Hu). lia.
    + intros p b. by apply (freed_managed a ls r).
    + intros p [Hp Hpl] Hne. split; [|done]. apply (freed_managed a ls r); try done.
      exists true. split; [done|]. by replace (p =? page_addr range q) with false by lia.
Defined.
