(* ===== verification/Paging.v ===== *)
(** * Virtual memory ([kernel/memory/paging.c])

    Definitions.  The four levels of x86-64 page tables, the buffer of zeroed pages
    from which new tables are taken, and the operations on the current address
    space.  Physical memory is seen through the window at
    [TRANSLATED_PHYSICAL_MEMORY_BEGIN], so that a table is named by its physical
    address; the pages come from any [PhysAllocator]. *)

From S2P Require Import Prelude Bytes Interfaces.





Definition MAX_ALLOC : Z := 4096.
Definition PTAAB_SIZE : Z := 64.
Definition PTAAB_REFILL : Z := 16.
Definition KERNEL_DATA_BEGIN : Z := 0xffffffff80000000.
Definition PHYSICAL_WINDOW : Z := 0xffff800000000000.

Definition PRESENT_ENTRY : Z := 1.
Definition PL_RW : Z := 2.
Definition PL_US : Z := 4.
Definition PL_XD : Z := Z.shiftl 1 63.

(** Indices of the four levels in a virtual address. *)
Definition pt_offset (virt : Z) : Z := Z.land (Z.shiftr virt 12) 0x1ff.
Definition pd_offset (virt : Z) : Z := Z.land (Z.shiftr virt 21) 0x1ff.
Definition pdpt_offset (virt : Z) : Z := Z.land (Z.shiftr virt 30) 0x1ff.
Definition pml4_offset (virt : Z) : Z := Z.land (Z.shiftr virt 39) 0x1ff.

Definition is_master_aligned (virt : Z) : bool := Z.land virt (512 * 1024 * 1024 * 1024 - 1) =? 0.

Definition create_table_entry (entry flags : Z) : res Z :=
  assert_ (is_aligned entry 0x1000) "assert_aligned(entry, 0x1000)" ;;
  Ok (Z.lor flags entry).
Definition extract_pointer (c : Z) : Z := Z.land 0x000ffffffffff000 c.
Definition present_entry (entry : Z) : bool := negb (Z.land entry PRESENT_ENTRY =? 0).

(** A pointer to a table: the static [pml4], or a page of physical memory. *)
Inductive table_ptr := Pml4 | Phys (p : Z).

#[export] Instance table_ptr_eq_dec : EqDecision table_ptr.
Proof. solve_decision. Defined.

Section Paging.
Context {A : Type} `{PhysAllocator A}.

(** The static variables of the file, the contents of the pages that hold tables, and
    the state of the physical memory manager.  [cpu_private_flags] is the slot of
    the only processor. *)
Record paging := MkPaging {
  pml4 : list Z;
  tables : gmap Z (list Z);
  page_table_allocator_buffer : list Z;
  page_table_allocator_buffer_size : Z;
  alloc_page_table_realloc : bool;
  cpu_private_flags : Z;
  pmm : A
}.

Definition set_pml4 (s : paging) (t : list Z) : paging :=
  MkPaging t (tables s) (page_table_allocator_buffer s) (page_table_allocator_buffer_size s)
    (alloc_page_table_realloc s) (cpu_private_flags s) (pmm s).
Definition set_tables (s : paging) (ts : gmap Z (list Z)) : paging :=
  MkPaging (pml4 s) ts (page_table_allocator_buffer s) (page_table_allocator_buffer_size s)
    (alloc_page_table_realloc s) (cpu_private_flags s) (pmm s).
Definition set_buffer (s : paging) (b : list Z) (n : Z) : paging :=
  MkPaging (pml4 s) (tables s) b n (alloc_page_table_realloc s) (cpu_private_flags s) (pmm s).
Definition set_realloc (s : paging) (b : bool) : paging :=
  MkPaging (pml4 s) (tables s) (page_table_allocator_buffer s) (page_table_allocator_buffer_size s)
    b (cpu_private_flags s) (pmm s).
Definition set_flags (s : paging) (flags : Z) : paging :=
  MkPaging (pml4 s) (tables s) (page_table_allocator_buffer s) (page_table_allocator_buffer_size s)
    (alloc_page_table_realloc s) flags (pmm s).
Definition set_pmm (s : paging) (a : A) : paging :=
  MkPaging (pml4 s) (tables s) (page_table_allocator_buffer s) (page_table_allocator_buffer_size s)
    (alloc_page_table_realloc s) (cpu_private_flags s) a.

(** Access to the entries of a table. *)
Definition load_entry (t : table_ptr) (i : Z) (s : paging) : res Z :=
  match t with
  | Pml4 => ld (pml4 s) i
  | Phys p => match tables s !! p with
              | Some l => ld l i
              | None => Err (Fault "not a page table")
              end
  end.
Definition store_entry (t : table_ptr) (i e : Z) (s : paging) : res paging :=
  match t with
  | Pml4 => l ← st (pml4 s) i e; Ok (set_pml4 s l)
  | Phys p => match tables s !! p with
              | Some l => l ← st l i e; Ok (set_tables s (<[p := l]> (tables s)))
              | None => Err (Fault "not a page table")
              end
  end.

(** [physalloc] with a callback that works on the state of this file.  No callback
    allocates physical pages itself, so that the allocator is replaced at the end. *)
Definition physalloc_pages (callback : Z -> Z -> Z -> paging -> res paging) (size va : Z)
    (s : paging) : res paging :=
  '(a, r) ← phys_alloc (fun p v n r => s ← r; callback p v n s) size va (pmm s) (Ok s);
  s ← r;
  Ok (set_pmm s a).

(** [physfree], which also clears the page. *)
Definition physfree_page (p : Z) (s : paging) : res paging :=
  a ← phys_free p (pmm s);
  Ok (set_tables (set_pmm s a) (delete p (tables s))).

(** ** The buffer of page tables *)

Definition page_table_allocator_callback (phys_addr virt_addr size : Z) (s : paging) : res paging :=
  let n := page_table_allocator_buffer_size s in
  b ← st (page_table_allocator_buffer s) n phys_addr;
  Ok (set_buffer s b (u64 (n + 1))).

Definition zero_page_table_page (physical_address : Z) (s : paging) : res paging :=
  assert_ (is_aligned physical_address 0x1000) "assert_aligned(physical_address, 0x1000)" ;;
  let page := replicate 512 0 in
  assert_ (forallb (Z.eqb 0) page) "v[i] == 0" ;;
  Ok (set_tables s (<[physical_address := page]> (tables s))).

(** [zero_page_table_page] of the buffered pages from index [i] on. *)
Fixpoint zero_buffered (n : nat) (i : Z) (s : paging) : res paging :=
  match n with
  | O => Ok s
  | S n' =>
      p ← ld (page_table_allocator_buffer s) i;
      s ← zero_page_table_page p s;
      zero_buffered n' (i + 1) s
  end.

Definition fill_page_table_allocator_buffer (n : Z) (s : paging) : res paging :=
  assert_ (n <=? PTAAB_SIZE) "n <= PTAAB_SIZE" ;;
  let to_alloc := s32 (n - page_table_allocator_buffer_size s) in
  if to_alloc <? 0 then Ok s
  else
    let old_size := page_table_allocator_buffer_size s in
    s ← physalloc_pages page_table_allocator_callback to_alloc 0 s;
    s ← zero_buffered (Z.to_nat (n - old_size)) old_size s;
    Ok (set_buffer s (page_table_allocator_buffer s) n).

Definition alloc_page_table (s : paging) : res (paging * Z) :=
  s ← (if page_table_allocator_buffer_size s =? 0 then
         if negb (alloc_page_table_realloc s)
         then panic "alloc_page_table(): out of buffered pages, unable to allocate page tables"
         else
           s ← physalloc_pages page_table_allocator_callback PTAAB_REFILL 0 s;
           zero_buffered (Z.to_nat PTAAB_REFILL) 0
             (set_buffer s (page_table_allocator_buffer s) PTAAB_REFILL)
       else Ok s);
  let n := page_table_allocator_buffer_size s - 1 in
  ptable ← ld (page_table_allocator_buffer s) n;
  Ok (set_buffer s (page_table_allocator_buffer s) n, ptable).

Definition free_page_table (pt : Z) (s : paging) : res paging :=
  let n := page_table_allocator_buffer_size s in
  if n =? PTAAB_SIZE then physfree_page pt s
  else
    s ← zero_page_table_page pt s;
    b ← st (page_table_allocator_buffer s) n pt;
    Ok (set_buffer s b (u64 (n + 1))).

(** ** Walking the tables *)

Definition get_entry_or_allocate (table : table_ptr) (index : Z) (s : paging)
    : res (paging * Z) :=
  assert_ (index <? 512) "index < 512" ;;
  entry ← load_entry table index s;
  if negb (present_entry entry) then
    '(s, p) ← alloc_page_table s;
    e ← create_table_entry p (Z.lor (Z.lor PRESENT_ENTRY PL_US) PL_RW);
    s ← store_entry table index e s;
    Ok (s, e)
  else Ok (s, entry).

Definition get_entry_or_panic (table : table_ptr) (index : Z) (s : paging) : res Z :=
  assert_ (index <? 512) "index < 512" ;;
  entry ← load_entry table index s;
  if negb (present_entry entry) then panic "get_entry_or_panic(): entry not present"
  else Ok entry.

Definition get_entry (table : table_ptr) (index : Z) (s : paging) : res Z :=
  assert_ (index <? 512) "index < 512" ;;
  load_entry table index s.

(** The page table of an address, created when it does not exist. *)
Definition page_table_or_allocate (virtual_addr : Z) (s : paging) : res (paging * table_ptr) :=
  '(s, e) ← get_entry_or_allocate Pml4 (pml4_offset virtual_addr) s;
  '(s, e) ← get_entry_or_allocate (Phys (extract_pointer e)) (pdpt_offset virtual_addr) s;
  '(s, e) ← get_entry_or_allocate (Phys (extract_pointer e)) (pd_offset virtual_addr) s;
  Ok (s, Phys (extract_pointer e)).

Definition get_page_table_or_panic (vaddr : Z) (s : paging) : res table_ptr :=
  e ← get_entry_or_panic Pml4 (pml4_offset vaddr) s;
  e ← get_entry_or_panic (Phys (extract_pointer e)) (pdpt_offset vaddr) s;
  e ← get_entry_or_panic (Phys (extract_pointer e)) (pd_offset vaddr) s;
  Ok (Phys (extract_pointer e)).

(** [while(count > 0 && pti < 512)] of the functions below: [body] handles one entry.
    Returns the remaining [count]. *)
Fixpoint entries_loop (fuel : nat) (body : Z -> Z -> paging -> res paging)
    (pti virtual_addr count : Z) (s : paging) : res (paging * Z * Z) :=
  if (0 <? count) && (pti <? 512) then
    match fuel with
    | O => Err NoFuel
    | S fuel' =>
        s ← body pti virtual_addr s;
        entries_loop fuel' body (pti + 1) (u64 (virtual_addr + 0x1000)) (count - 1) s
    end
  else Ok (s, virtual_addr, count).

(** [while(count > 0)]: one page table per turn, found by [find]. *)
Fixpoint range_loop (fuel : nat) (find : Z -> paging -> res (paging * table_ptr))
    (body : table_ptr -> Z -> Z -> paging -> res paging) (virtual_addr count : Z) (s : paging)
    : res paging :=
  if 0 <? count then
    match fuel with
    | O => Err NoFuel
    | S fuel' =>
        '(s, pt) ← find virtual_addr s;
        '(s, virtual_addr, count) ←
          entries_loop 512 (body pt) (pt_offset virtual_addr) virtual_addr count s;
        range_loop fuel' find body virtual_addr count s
    end
  else Ok s.

(** ** Mapping *)

(** One entry of [internal_map_pages]; the physical address advances with the virtual
    one. *)
Definition map_entry (delta flags : Z) (pt : table_ptr) (pti virtual_addr : Z) (s : paging)
    : res paging :=
  e ← create_table_entry (u64 (virtual_addr + delta)) flags;
  old ← load_entry pt pti s;
  if present_entry old then panic "internal_map_pages: page already mapped"
  else store_entry pt pti e s.

Definition internal_map_pages (physical_addr virtual_addr count flags : Z) (s : paging)
    : res paging :=
  range_loop (Z.to_nat count) page_table_or_allocate
    (map_entry (physical_addr - virtual_addr) flags) virtual_addr count s.

(** One entry of [remap_pages]. *)
Definition remap_entry (flags : Z) (pt : table_ptr) (pti virtual_addr : Z) (s : paging)
    : res paging :=
  old ← load_entry pt pti s;
  if negb (present_entry old) then panic "remap_pages: nothing was mapped there"
  else
    e ← create_table_entry 0 flags;
    store_entry pt pti e s.

Definition remap_pages (vaddr_ptr count flags : Z) (s : paging) : res paging :=
  range_loop (Z.to_nat count) page_table_or_allocate (remap_entry flags) vaddr_ptr count s.

Definition alloc_pages_callback (physical_address virtual_address c : Z) (s : paging)
    : res paging :=
  internal_map_pages physical_address virtual_address c (cpu_private_flags s) s.

Fixpoint alloc_pages_loop (fuel : nat) (virtual_addr_begin count : Z) (s : paging) : res paging :=
  if 0 <? count then
    match fuel with
    | O => Err NoFuel
    | S fuel' =>
        let size := u32 count in
        let size := if MAX_ALLOC <? size then MAX_ALLOC else size in
        s ← fill_page_table_allocator_buffer PTAAB_REFILL s;
        s ← physalloc_pages alloc_pages_callback size virtual_addr_begin s;
        alloc_pages_loop fuel' (u64 (virtual_addr_begin + u32 (size * 0x1000))) (count - size) s
    end
  else Ok s.

Definition alloc_pages (virtual_addr_begin count flags : Z) (s : paging) : res paging :=
  alloc_pages_loop (Z.to_nat count) virtual_addr_begin count (set_flags (set_realloc s false) flags).

(** [while(count > PTAAB_SIZE)] of [map_pages] and what follows it. *)
Fixpoint map_pages_loop (fuel : nat) (physical_addr virtual_addr count flags : Z) (s : paging)
    : res paging :=
  s ← fill_page_table_allocator_buffer PTAAB_SIZE s;
  if PTAAB_SIZE <? count then
    match fuel with
    | O => Err NoFuel
    | S fuel' =>
        s ← internal_map_pages physical_addr virtual_addr 64 flags s;
        map_pages_loop fuel' (u64 (physical_addr + 0x1000 * 64)) (u64 (virtual_addr + 0x1000 * 64))
          (count - 64) flags s
    end
  else internal_map_pages physical_addr virtual_addr count flags s.

Definition map_pages (physical_addr virtual_addr count flags : Z) (s : paging) : res paging :=
  assert_ (negb (physical_addr =? 0)) "physical_addr" ;;
  assert_ (negb (virtual_addr =? 0)) "virtual_addr" ;;
  map_pages_loop (Z.to_nat (count / 64)) physical_addr virtual_addr count flags s.

(** ** Unmapping *)

(** The loop of [is_table_empty] over [n] entries. *)
Fixpoint is_table_empty_loop (n : nat) (i : Z) (page_table : table_ptr) (s : paging) : res bool :=
  match n with
  | O => Ok true
  | S n' =>
      e ← load_entry page_table i s;
      if present_entry e then Ok false else is_table_empty_loop n' (i + 1) page_table s
  end.

Definition is_table_empty (page_table : table_ptr) (begin end_ : Z) (s : paging) : res bool :=
  assert_ (begin <=? end_) "begin <= end" ;;
  assert_ (end_ <=? 512) "end <= 512" ;;
  is_table_empty_loop (Z.to_nat (end_ - begin)) begin page_table s.

Definition unmap_entry (free : bool) (pt : table_ptr) (pti virtual_addr : Z) (s : paging)
    : res paging :=
  e ← load_entry pt pti s;
  if negb (present_entry e) then panic "unmap_pages(...): tried to unmap not mapped virtual memory"
  else
    s ← (if free then physfree_page (extract_pointer e) s else Ok s);
    store_entry pt pti 0 s.

Definition unmap_pages (virtual_addr count : Z) (free : bool) (s : paging) : res paging :=
  range_loop (Z.to_nat count)
    (fun virtual_addr s => pt ← get_page_table_or_panic virtual_addr s; Ok (s, pt))
    (unmap_entry free) virtual_addr count s.

(** ** Translation *)

Definition get_phys_addr (vaddr : Z) (s : paging) : res Z :=
  let page_offset := Z.land vaddr 0xfff in
  e ← get_entry Pml4 (pml4_offset vaddr) s;
  if negb (present_entry e) then Ok 0 else
  e ← get_entry (Phys (extract_pointer e)) (pdpt_offset vaddr) s;
  if negb (present_entry e) then Ok 0 else
  e ← get_entry (Phys (extract_pointer e)) (pd_offset vaddr) s;
  if negb (present_entry e) then Ok 0 else
  e ← get_entry (Phys (extract_pointer e)) (pt_offset vaddr) s;
  if negb (present_entry e) then Ok 0 else
  let ppage_base := extract_pointer e in
  assert_ (Z.land ppage_base 0xfff =? 0) "(ppage_base & 0xfff) == 0" ;;
  assert_ (page_offset <? 0x1000) "page_offset < 0x1000" ;;
  Ok (Z.lor ppage_base page_offset).

(** [get_paddr] indexes the page table through its physical address: the access goes
    through the tables like any other one. *)
Definition get_paddr (vaddr : Z) (s : paging) : res Z :=
  pt ← get_page_table_or_panic vaddr s;
  let addr := match pt with Pml4 => 0 | Phys p => p end in
  paddr ← get_phys_addr addr s;
  if paddr =? 0 then Err (Fault "page fault")
  else
    entry ← load_entry (Phys paddr) (pt_offset vaddr) s;
    assert_ (present_entry entry) "present_entry(entry)" ;;
    Ok (Z.lor (extract_pointer entry) (Z.land vaddr 0x0fff)).

(** ** Page directories *)

Definition create_empty_pd (s : paging) : res (paging * Z) :=
  '(s, p) ← alloc_page_table s;
  match tables s !! p with
  | Some v => assert_ (forallb (Z.eqb 0) v) "v[i] == 0" ;; Ok (s, p)
  | None => Err (Fault "not a page table")
  end.

(** [for(unsigned i = 0; i < 512; i++)] *)
Fixpoint for_entries (n : nat) (i : Z) (body : Z -> paging -> res paging) (s : paging)
    : res paging :=
  match n with
  | O => Ok s
  | S n' => s ← body i s; for_entries n' (i + 1) body s
  end.

Fixpoint deep_free_map (level : nat) (page_table : Z) (pfree : bool) (s : paging) : res paging :=
  match level with
  | O => if pfree then physfree_page page_table s else Ok s
  | S level' =>
      s ← (if negb (Nat.eqb level 1) || pfree then
             for_entries 512 0 (fun i s =>
               e ← load_entry (Phys page_table) i s;
               if present_entry e then
                 let page_table_addr := extract_pointer e in
                 s ← (if Nat.eqb level 1 then physfree_page page_table_addr s
                      else deep_free_map level' page_table_addr pfree s);
                 store_entry (Phys page_table) i 0 s
               else Ok s) s
           else Ok s);
      free_page_table page_table s
  end.

Definition free_master_region (pd : Z) (s : paging) : res paging := deep_free_map 3 pd true s.
Definition free_r1_region (pd : Z) (pfree : bool) (s : paging) : res paging :=
  deep_free_map 2 pd pfree s.

(** [while(count)] of [free_page_range]. *)
Fixpoint free_page_range_loop (fuel : nat) (vaddr count : Z) (s : paging) : res paging :=
  if negb (count =? 0) then
    match fuel with
    | O => Err NoFuel
    | S fuel' =>
        let pml4i := pml4_offset vaddr in
        pml4entry ← get_entry Pml4 pml4i s;
        if negb (present_entry pml4entry) then
          free_page_range_loop fuel'
            (u64 (Z.land vaddr (u64 (Z.lnot (Z.shiftl 1 39 - 1))) + Z.shiftl 1 39)) count s
        else
          assert_ (vaddr mod Z.shiftl 1 39 =? 0) "vaddr % (1llu << 39) == 0" ;;
          s ← deep_free_map 3 (extract_pointer pml4entry) true s;
          s ← store_entry Pml4 pml4i 0 s;
          free_page_range_loop fuel' (u64 (vaddr + Z.shiftl 1 39)) (u64 (count - Z.shiftl 1 39)) s
    end
  else Ok s.

(** [free_page_range]; [fuel] bounds the turns of its loop. *)
Definition free_page_range (fuel : nat) (vaddr count : Z) (s : paging) : res paging :=
  assert_ (vaddr mod Z.shiftl 1 39 =? 0) "vaddr % (1llu << 39) == 0" ;;
  assert_ (count mod Z.shiftl 1 39 =? 0) "count % (1llu << 39) == 0" ;;
  free_page_range_loop fuel vaddr count s.

(** [map_master_region]; the second component tells if the TLB was flushed. *)
Definition map_master_region (base pd flags : Z) (s : paging) : res (paging * bool) :=
  assert_ (is_master_aligned base) "is_master_aligned((uint64_t)base)" ;;
  let pml4i := pml4_offset base in
  old ← load_entry Pml4 pml4i s;
  e ← create_table_entry pd flags;
  s ← store_entry Pml4 pml4i e s;
  e0 ← load_entry Pml4 0 s;
  Ok (s, negb (e0 =? old)).

Definition unmap_master_region (base : Z) (s : paging) : res (paging * bool) :=
  map_master_region base 0 0 s.

Definition get_master_pd (base : Z) (s : paging) : res Z :=
  assert_ (is_master_aligned base) "is_master_aligned((uint64_t)base)" ;;
  e ← load_entry Pml4 (pml4_offset base) s;
  Ok (extract_pointer e).

Definition get_pd (base level : Z) (s : paging) : res Z :=
  if level <? 0 then Ok 0
  else if 2 <? level then Ok 0
  else
    let pml4i := pml4_offset base in
    let pdpti := pdpt_offset base in
    let pdi := pd_offset base in
    e ← load_entry Pml4 pml4i s;
    if negb (present_entry e) then Ok 0
    else if level =? 0 then Ok (extract_pointer e)
    else
      let vpd := Phys (extract_pointer e) in
      e ← load_entry vpd pdpti s;
      if negb (present_entry e) then Ok 0
      else if level =? 1 then Ok (extract_pointer e)
      else
        let vpd := Phys (extract_pointer e) in
        e ← load_entry vpd pdi s;
        e' ← load_entry vpd pdpti s;
        if negb (present_entry e') then Ok 0 else Ok (extract_pointer e).

(** [map_pd]: 0 on success, -1 on failure. *)
Definition map_pd (target_pd base level flags : Z) (s : paging) : res (paging * Z) :=
  if level <? 0 then Ok (s, -1)
  else if 2 <? level then Ok (s, -1)
  else
    let put t i e s := if present_entry e then Ok (s, -1)
                       else n ← create_table_entry target_pd flags; s ← store_entry t i n s; Ok (s, 0) in
    e ← load_entry Pml4 (pml4_offset base) s;
    if level =? 0 then put Pml4 (pml4_offset base) e s
    else if negb (present_entry e) then Ok (s, -1)
    else
      let vpd := Phys (extract_pointer e) in
      e ← load_entry vpd (pdpt_offset base) s;
      if level =? 1 then put vpd (pdpt_offset base) e s
      else if negb (present_entry e) then Ok (s, -1)
      else
        assert_ (level =? 2) "level == 2" ;;
        let vpd := Phys (extract_pointer e) in
        e ← load_entry vpd (pd_offset base) s;
        put vpd (pd_offset base) e s.

(** ** Initialisation *)

(** One entry of the memory map; [kernel_entry_i] counts the kernel entries. *)
Definition map_boot_entry (e : mmape) (kernel_entry_i : Z) (s : paging) : res (paging * Z) :=
  match etype e with
  | KERNEL =>
      let base := Z.land (pbase e) (u64 (Z.lnot 0x0fff)) in
      let size := u64 (u64 (elength e + (pbase e - base)) + 0x0fff) / 0x1000 in
      let '(virtual_addr, flags) :=
        if kernel_entry_i =? 0 then (Z.lor base KERNEL_DATA_BEGIN, PRESENT_ENTRY)
        else if kernel_entry_i =? 1 then (Z.lor base KERNEL_DATA_BEGIN, Z.lor PRESENT_ENTRY PL_XD)
        else if kernel_entry_i =? 2 then (Z.lor base KERNEL_DATA_BEGIN, Z.lor PRESENT_ENTRY PL_RW)
        else (Z.lor base PHYSICAL_WINDOW, Z.lor PRESENT_ENTRY PL_RW) in
      s ← internal_map_pages base virtual_addr size flags s;
      Ok (s, kernel_entry_i + 1)
  | USABLE | BOOTLOADER_RECLAIMABLE | ACPI_RECLAIMABLE | ACPI_NVS =>
      let phys_addr := pbase e / 0x1000 * 0x1000 in
      let size := u64 (elength e + (pbase e - phys_addr) + 0x0fff) / 0x1000 in
      if size =? 0 then Ok (s, kernel_entry_i)
      else
        s ← internal_map_pages phys_addr (Z.lor phys_addr PHYSICAL_WINDOW) size
              (Z.lor (Z.lor PRESENT_ENTRY PL_XD) PL_RW) s;
        Ok (s, kernel_entry_i)
  end.

Fixpoint map_physical_memory (mmap : list mmape) (kernel_entry_i : Z) (s : paging) : res paging :=
  match mmap with
  | [] => Ok s
  | e :: mmap' =>
      '(s, i) ← map_boot_entry e kernel_entry_i s;
      map_physical_memory mmap' i s
  end.

Definition init_paging (mmap : list mmape) (s : paging) : res paging :=
  let s := set_realloc s true in
  '(s, p) ← alloc_page_table s;
  e ← create_table_entry p (Z.lor PRESENT_ENTRY PL_RW);
  s ← store_entry Pml4 256 e s;
  '(s, p) ← alloc_page_table s;
  e ← create_table_entry p (Z.lor PRESENT_ENTRY PL_RW);
  s ← store_entry Pml4 511 e s;
  s ← map_physical_memory mmap 0 s;
  Ok (set_realloc s false).

End Paging.
Arguments paging : clear implicits.
Arguments MkPaging {A}.
