(* ===== verification/PagingProofs.v ===== *)
(** * Virtual memory: the tree of page tables

    What a walk of the tables finds, how it changes when one entry is written, and
    the invariant of the tree and of the buffer of spare tables. *)

From S2P Require Import Prelude Bytes Interfaces Paging.





(** ** Entries *)

Definition ADDR_MASK : Z := 0x000ffffffffff000.

(** Flags that leave the address bits of an entry alone. *)
Definition flags_ok (flags : Z) : Prop :=
  Z.land ADDR_MASK flags = 0 /\ present_entry flags = true.

Lemma mask_testbit i : 0 <= i -> Z.testbit ADDR_MASK i = (12 <=? i) && (i <? 52).
Proof.
  intros Hi. change ADDR_MASK with (Z.shiftl (Z.ones 40) 12). by rewrite testbit_shiftl_ones by lia.
Qed.

Lemma extract_addr p : 0 <= p < 2 ^ 52 -> p mod 0x1000 = 0 -> extract_pointer p = p.
Proof.
  intros Hp Hm. apply Z.bits_inj'. intros i Hi. unfold extract_pointer. change 0xffffffffff000 with ADDR_MASK.
  rewrite Z.land_spec, mask_testbit by done. destruct (Z.leb_spec 12 i), (Z.ltb_spec i 52); try done; cbn.
  - rewrite <- (Z.mod_small p (2 ^ 52)) by done. by rewrite Z.mod_pow2_bits_high by lia.
  - rewrite <- (Z.mod_pow2_bits_low p 12 i) by lia. change (2 ^ 12) with 0x1000. by rewrite Hm, Z.testbit_0_l.
  - lia.
Qed.

Lemma extract_entry flags p :
  flags_ok flags -> 0 <= p < 2 ^ 52 -> p mod 0x1000 = 0 -> extract_pointer (Z.lor flags p) = p.
Proof.
  intros [Hf _] Hp Hm. unfold extract_pointer. change 0xffffffffff000 with ADDR_MASK.
  rewrite Z.land_lor_distr_r, Hf, Z.lor_0_l. by apply extract_addr.
Qed.

Lemma present_testbit e : present_entry e = Z.testbit e 0.
Proof.
  unfold present_entry, PRESENT_ENTRY. change 1 with (u8 (Z.shiftl 1 0)).
  rewrite land_bit_eqb_0 by lia. by rewrite negb_involutive.
Qed.

Lemma present_lor flags p : flags_ok flags -> present_entry (Z.lor flags p) = true.
Proof. intros [_ Hf]. rewrite present_testbit in *. by rewrite Z.lor_spec, Hf. Qed.

Lemma extract_aligned e : extract_pointer e mod 0x1000 = 0.
Proof.
  change 0x1000 with (2 ^ 12). rewrite <- Z.land_ones by lia. unfold extract_pointer.
  rewrite <- Z.land_assoc, (Z.land_comm e), Z.land_assoc.
  change (Z.land 0xffffffffff000 (Z.ones 12)) with 0. apply Z.land_0_l.
Qed.

Lemma create_entry_ok p flags : p mod 0x1000 = 0 -> create_table_entry p flags = Ok (Z.lor flags p).
Proof.
  intros Hp. unfold create_table_entry, assert_, is_aligned.
  change (0x1000 - 1) with (Z.ones 12). rewrite Z.land_ones by lia. change (2 ^ 12) with 0x1000.
  by rewrite Hp.
Qed.

(** ** Addresses

    The virtual page number of an address, and its digits in base 512. *)
Definition vpn (virt : Z) : Z := (virt / 0x1000) mod 2 ^ 36.

Lemma offset_digit virt k : 12 <= k ->
  Z.land (Z.shiftr virt k) 0x1ff = (virt / 0x1000 / 2 ^ (k - 12)) mod 512.
Proof.
  intros Hk. change 0x1ff with (Z.ones 9). rewrite Z.land_ones, Z.shiftr_div_pow2 by lia.
  change 0x1000 with (2 ^ 12). rewrite Z.div_div by lia. rewrite <- Z.pow_add_r by lia.
  by replace (12 + (k - 12)) with k by lia.
Qed.

Lemma vpn_range virt : 0 <= vpn virt < 2 ^ 36.
Proof. apply Z.mod_pos_bound. lia. Qed.

Lemma offsets virt : let v := vpn virt in
  pt_offset virt = v mod 512 /\ pd_offset virt = v / 512 mod 512 /\
  pdpt_offset virt = v / 512 / 512 mod 512 /\ pml4_offset virt = v / 512 / 512 / 512 mod 512 /\
  v / 512 / 512 / 512 / 512 = 0.
Proof.
  unfold pt_offset, pd_offset, pdpt_offset, pml4_offset, vpn. rewrite !offset_digit by lia.
  cbn [Z.sub Z.pow_pos]. change (2 ^ (12 - 12)) with 1. change (2 ^ (21 - 12)) with 512.
  change (2 ^ (30 - 12)) with (512 * 512). change (2 ^ (39 - 12)) with (512 * 512 * 512).
  change (2 ^ 36) with (512 * 512 * 512 * 512). rewrite Z.div_1_r.
  generalize (virt / 0x1000). intros x. split_and!; lia.
Qed.

Lemma vpn_u64 x : vpn (u64 x) = vpn x.
Proof. unfold vpn, wrap. change (2 ^ 64) with (0x1000 * 2 ^ 36 * 2 ^ 16). lia. Qed.

Lemma vpn_add virt n : 0 <= n -> vpn virt + n < 2 ^ 36 -> vpn (u64 (virt + n * 0x1000)) = vpn virt + n.
Proof.
  intros Hn Hv. rewrite vpn_u64. pose proof (vpn_range virt) as Hr. unfold vpn in *.
  rewrite Z.div_add by lia. lia.
Qed.

(** ** The walk *)

(** The tables as the processor sees them. *)
Definition memory : Type := list Z * gmap Z (list Z).

Definition table_of (M : memory) (t : table_ptr) : option (list Z) :=
  match t with Pml4 => Some M.1 | Phys p => M.2 !! p end.

Definition if_present (e : Z) : option Z := if present_entry e then Some e else None.

(** A present entry of a table. *)
Definition entry_of (M : memory) (t : table_ptr) (i : Z) : option Z :=
  l ← table_of M t; if 0 <=? i then e ← l !! Z.to_nat i; if_present e else None.

(** [node n r]: the table that a walk of [n] steps reaches for the prefix [r] of a page
    number; [slot n r]: the present entry that such a walk finds in the last table,
    for a prefix with one more digit.  The entry of a page is [slot 3]. *)
Fixpoint node (M : memory) (n : nat) (r : Z) : option table_ptr :=
  match n with
  | O => if r =? 0 then Some Pml4 else None
  | S n' => t ← node M n' (r / 512); e ← entry_of M t (r mod 512); Some (Phys (extract_pointer e))
  end.

Definition slot (M : memory) (n : nat) (r : Z) : option Z :=
  t ← node M n (r / 512); entry_of M t (r mod 512).

Definition leaf (M : memory) (v : Z) : option Z := slot M 3 v.

Lemma node_S M n r : node M (S n) r = (fun e => Phys (extract_pointer e)) <$> slot M n r.
Proof.
  cbn [node]. unfold slot, mbind, option_bind. destruct (node M n (r / 512)); [|done].
  by destruct (entry_of M t (r mod 512)).
Qed.

Definition stored (M : memory) (t : table_ptr) (i x : Z) : memory :=
  match t with
  | Pml4 => (<[Z.to_nat i := x]> M.1, M.2)
  | Phys p => (M.1, match M.2 !! p with Some l => <[p := <[Z.to_nat i := x]> l]> M.2 | None => M.2 end)
  end.

Lemma entry_of_insert (l : list Z) i x j : 0 <= i < zlen l ->
  (if 0 <=? j then e ← <[Z.to_nat i := x]> l !! Z.to_nat j; if_present e else None) =
  if decide (j = i) then if_present x
  else if 0 <=? j then e ← l !! Z.to_nat j; if_present e else None.
Proof.
  unfold zlen. intros Hi. case_decide as E.
  - subst j. destruct (Z.leb_spec 0 i); [|lia]. by rewrite list_lookup_insert_eq by lia.
  - destruct (Z.leb_spec 0 j); [|done]. by rewrite list_lookup_insert_ne by lia.
Qed.

(** A table whose entries can be written. *)
Definition is_table (M : memory) (t : table_ptr) : Prop :=
  exists l, table_of M t = Some l /\ zlen l = 512.

Lemma entry_of_stored M t i x t0 j : is_table M t -> 0 <= i < 512 ->
  entry_of (stored M t i x) t0 j =
  if decide (t0 = t /\ j = i) then if_present x else entry_of M t0 j.
Proof.
  intros (l & Ht & Hl) Hi. unfold entry_of. case_decide as E.
  - destruct E as [-> ->]. destruct t as [|p]; cbn in *.
    + simplify_eq. cbn. rewrite entry_of_insert by lia. by rewrite decide_True.
    + rewrite Ht. rewrite lookup_insert_eq. cbn. rewrite entry_of_insert by lia. by rewrite decide_True.
  - destruct t as [|p], t0 as [|p0]; cbn in *.
    + simplify_eq. cbn. rewrite entry_of_insert by lia. rewrite decide_False; naive_solver.
    + done.
    + done.
    + rewrite Ht. destruct (decide (p0 = p)) as [->|].
      * rewrite lookup_insert_eq, Ht. cbn. rewrite entry_of_insert by lia. rewrite decide_False; naive_solver.
      * by rewrite lookup_insert_ne.
Qed.

(** A table without any present entry. *)
Definition blank (M : memory) (t : table_ptr) : Prop := forall j, entry_of M t j = None.

(** Writing one entry changes what the walk finds for that prefix and for nothing else,
    when there was no table below it and the new one, if any, is blank. *)
Lemma slot_stored M n r t i x :
  (forall m m' a b u, (m <= 3)%nat -> (m' <= 3)%nat ->
    node M m a = Some u -> node M m' b = Some u -> m = m' /\ a = b) ->
  (n <= 3)%nat -> node M n r = Some t -> is_table M t -> 0 <= i < 512 ->
  (n < 3)%nat /\ slot M n (r * 512 + i) = None /\ present_entry x = true /\
    blank M (Phys (extract_pointer x)) /\ t <> Phys (extract_pointer x) \/ n = 3%nat ->
  forall m q, (m <= 3)%nat ->
  slot (stored M t i x) m q =
  if decide (m = n /\ q = r * 512 + i) then if_present x else slot M m q.
Proof.
  intros Hinj Hn Hnode Ht Hi Hx. induction m as [|m IH]; intros q Hm.
  - unfold slot. cbn [node]. destruct (Z.eqb_spec (q / 512) 0) as [E|E]; cbn [mbind option_bind].
    + rewrite entry_of_stored by done. destruct (decide (Pml4 = t)) as [<-|Hne].
      * destruct (Hinj 0%nat n 0 r Pml4) as [<- <-]; [lia|lia|done|done|].
        destruct (decide (q mod 512 = i));
          [rewrite !decide_True by (split; [done|lia])|rewrite !decide_False by (intros [_ ?]; lia)]; done.
      * rewrite decide_False by naive_solver. rewrite decide_False; [done|]. intros [<- ->].
        cbn in Hnode. destruct (r =? 0) eqn:?; congruence.
    + rewrite decide_False; [done|]. intros [<- ->]. cbn in Hnode. destruct (Z.eqb_spec r 0); [lia|done].
  - unfold slot. rewrite !node_S, IH by lia.
    destruct (decide (m = n /\ q / 512 = r * 512 + i)) as [E|E].
    + destruct E as [-> Eq]. destruct Hx as [(Hn3 & Hs & Hp & Hb & Hd)|]; [|lia].
      unfold if_present. rewrite Hp. cbn [fmap option_fmap option_map mbind option_bind]. rewrite entry_of_stored by done.
      rewrite decide_False by naive_solver. rewrite Hb, decide_False by lia. by rewrite Eq, Hs.
    + destruct (slot M m (q / 512)) as [e|] eqn:Es; cbn [fmap option_fmap option_map mbind option_bind].
      * rewrite entry_of_stored by done. assert (node M (S m) (q / 512) = Some (Phys (extract_pointer e))) as Hq
          by by rewrite node_S, Es.
        destruct (decide (Phys (extract_pointer e) = t)) as [<-|Hne].
        -- destruct (Hinj (S m) n (q / 512) r (Phys (extract_pointer e))) as [<- <-]; [lia|lia|done|done|].
           destruct (decide (q mod 512 = i));
          [rewrite !decide_True by (split; [done|lia])|rewrite !decide_False by (intros [_ ?]; lia)]; done.
        -- rewrite decide_False by naive_solver. rewrite decide_False; [done|]. intros [<- ->].
           replace ((r * 512 + i) / 512) with r in Hq by lia. congruence.
      * rewrite decide_False; [done|]. intros [<- ->]. replace ((r * 512 + i) / 512) with r in Es by lia.
        by rewrite node_S, Es in Hnode.
Qed.

(** ** The invariant *)

Section Invariant.
Context {A : Type} `{PhysAllocator A}.
Implicit Types s : paging A.

Definition mem s : memory := (pml4 s, tables s).

(** The spare tables. *)
Definition spare s : list Z :=
  take (Z.to_nat (page_table_allocator_buffer_size s)) (page_table_allocator_buffer s).

(** The page [p] holds a table, in the tree or spare. *)
Definition owned s (p : Z) : Prop :=
  (exists n r, (n <= 3)%nat /\ node (mem s) n r = Some (Phys p)) \/ p ∈ spare s.

(** Every table a walk reaches is a table of 512 entries in an allocated page, and is
    reached by one prefix only. *)
Record tree_ok (M : memory) (used : Z -> Prop) : Prop := {
  tk_table : forall n r t, (n <= 3)%nat -> node M n r = Some t -> is_table M t;
  tk_inj : forall m m' a b u, (m <= 3)%nat -> (m' <= 3)%nat ->
    node M m a = Some u -> node M m' b = Some u -> m = m' /\ a = b;
  tk_used : forall n r p, (n <= 3)%nat -> node M n r = Some (Phys p) -> used p
}.

(** The spare tables are distinct, zeroed, allocated, and not in the tree. *)
Record buffer_ok s : Prop := {
  bk_len : zlen (page_table_allocator_buffer s) = PTAAB_SIZE;
  bk_size : 0 <= page_table_allocator_buffer_size s <= PTAAB_SIZE;
  bk_nodup : NoDup (spare s);
  bk_spare : forall p, p ∈ spare s -> frame (pmm s) p true /\
    tables s !! p = Some (replicate 512 0) /\
    forall n r, (n <= 3)%nat -> node (mem s) n r <> Some (Phys p)
}.

(** The state of the paging code, when the allocator can serve [N] more pages. *)
Record vm_ok s (N : Z) : Prop := {
  vk_tree : tree_ok (mem s) (fun p => frame (pmm s) p true);
  vk_buffer : buffer_ok s;
  vk_serves : serves (pmm s) N
}.

(** The variables that walks leave alone. *)
Definition same_statics s s' : Prop :=
  pmm s' = pmm s /\ cpu_private_flags s' = cpu_private_flags s /\
  alloc_page_table_realloc s' = alloc_page_table_realloc s.

(** [s] with one entry written. *)
Definition put s (t : table_ptr) (i x : Z) : paging A :=
  set_tables (set_pml4 s (stored (mem s) t i x).1) (stored (mem s) t i x).2.

Lemma mem_put s t i x : mem (put s t i x) = stored (mem s) t i x.
Proof. unfold mem. cbn. by destruct (stored _ _ _ _). Qed.

Lemma load_entry_ok s t i : is_table (mem s) t -> 0 <= i < 512 ->
  exists e, load_entry t i s = Ok e /\ entry_of (mem s) t i = if_present e.
Proof.
  intros (l & Ht & Hl) Hi. exists (nthZ l i). unfold entry_of. rewrite Ht. cbn [mbind option_bind].
  destruct (Z.leb_spec 0 i); [|lia]. rewrite lookup_nthZ by lia. split; [|done].
  destruct t as [|p]; cbn in *; [simplify_eq|rewrite Ht]; apply ld_ok; lia.
Qed.

Lemma store_entry_ok s t i x : is_table (mem s) t -> 0 <= i < 512 ->
  store_entry t i x s = Ok (put s t i x).
Proof.
  intros (l & Ht & Hl) Hi. destruct s, t as [|p]; cbn in *.
  - simplify_eq. rewrite st_ok by lia. done.
  - rewrite Ht. rewrite st_ok by lia. unfold put. cbn. by rewrite Ht.
Qed.

Lemma is_table_stored M t i x u : is_table M t -> is_table M u -> is_table (stored M t i x) u.
Proof.
  intros (l & Ht & Hl) (k & Hu & Hk). destruct t as [|p], u as [|q]; cbn in *.
  - exists (<[Z.to_nat i := x]> M.1). split; [done|]. injection Ht as ->. by rewrite zlen_insert.
  - by exists k.
  - exists k. done.
  - rewrite Ht. destruct (decide (q = p)) as [->|].
    + exists (<[Z.to_nat i := x]> l). cbn. rewrite lookup_insert_eq. by rewrite zlen_insert.
    + exists k. cbn. by rewrite lookup_insert_ne.
Qed.

(** Reading an entry below a node of the tree. *)
Lemma node_entry s N n r t i : vm_ok s N -> (n <= 3)%nat -> node (mem s) n r = Some t -> 0 <= i < 512 ->
  exists e, load_entry t i s = Ok e /\ slot (mem s) n (r * 512 + i) = if_present e.
Proof.
  intros Hvm Hn Ht Hi.
  destruct (load_entry_ok s t i) as (e & He & E); [by eapply (tk_table _ _ (vk_tree _ _ Hvm))|done|].
  exists e. split; [done|]. unfold slot. replace ((r * 512 + i) / 512) with r by lia. rewrite Ht.
  cbn [mbind option_bind]. by replace ((r * 512 + i) mod 512) with i by lia.
Qed.

Lemma if_present_Some e x : if_present e = Some x <-> e = x /\ present_entry x = true.
Proof.
  unfold if_present. destruct (present_entry e) eqn:E; split.
  - by intros [= <-].
  - by intros [-> _].
  - done.
  - intros [-> ?]. congruence.
Qed.

Lemma if_present_None e : if_present e = None <-> present_entry e = false.
Proof. unfold if_present. by destruct (present_entry e). Qed.

(** Nodes of an updated tree, from its slots. *)
Lemma node_of_slots M M' n q x m r :
  (forall m q', (m <= 3)%nat ->
    slot M' m q' = if decide (m = n /\ q' = q) then x else slot M m q') ->
  (m <= 3)%nat ->
  node M' m r = if decide (m = S n /\ r = q) then (fun e => Phys (extract_pointer e)) <$> x else node M m r.
Proof.
  intros Hs Hm. destruct m as [|m]; [by rewrite decide_False by lia|].
  rewrite !node_S, Hs by lia. destruct (decide (m = n /\ r = q)).
  - by rewrite decide_True by lia.
  - by rewrite decide_False by lia.
Qed.
End Invariant.
