(* ===== verification/PagingMap.v ===== *)
(** * Virtual memory: mapping *)

From S2P Require Import Prelude Bytes Interfaces Paging PagingProofs.





Section Map.
Context {A : Type} `{PhysAllocator A}.
Implicit Types s : paging A.

(** ** Writing an entry *)

(** A zeroed table that is neither in the tree nor spare. *)
Definition fresh_table s (p : Z) : Prop :=
  tables s !! p = Some (replicate 512 0) /\ frame (pmm s) p true /\
  (forall n r, (n <= 3)%nat -> node (mem s) n r <> Some (Phys p)) /\ p ∉ spare s.

Lemma blank_zero M p : M.2 !! p = Some (replicate 512 0) -> blank M (Phys p).
Proof.
  intros Hp j. unfold entry_of. cbn [table_of]. rewrite Hp. cbn [mbind option_bind].
  destruct (0 <=? j); [|done]. destruct (replicate 512 0 !! Z.to_nat j) as [e|] eqn:E; [|done].
  apply lookup_replicate in E as [-> _]. done.
Qed.

(** What may be written at index [i] of the table [t] of level [n]: the first entry for a
    fresh table, or anything at the last level. *)
Definition writable s (n : nat) (r i x : Z) : Prop :=
  (n < 3)%nat /\ slot (mem s) n (r * 512 + i) = None /\ present_entry x = true /\
    fresh_table s (extract_pointer x) \/ n = 3%nat.

Lemma put_slots s N n r t i x : vm_ok s N -> (n <= 3)%nat -> node (mem s) n r = Some t ->
  0 <= i < 512 -> writable s n r i x ->
  forall m q, (m <= 3)%nat -> slot (mem (put s t i x)) m q =
    if decide (m = n /\ q = r * 512 + i) then if_present x else slot (mem s) m q.
Proof.
  intros Hvm Hn Ht Hi Hw m q Hm. rewrite mem_put. destruct (vk_tree _ _ Hvm) as [Htab Hinj _].
  apply slot_stored; try done; [by apply (Htab n r)|].
  destruct Hw as [(Hn3 & Hs & Hp & Hz & _ & Hno & _)|]; [left|by right]. split_and!; try done.
  - by apply blank_zero.
  - intros ->. by apply (Hno n r).
Qed.

Lemma put_table s t i x u : is_table (mem s) t -> is_table (mem s) u -> is_table (mem (put s t i x)) u.
Proof. intros Ht Hu. rewrite mem_put. by apply is_table_stored. Qed.

Lemma put_other s N n r t i x p : vm_ok s N -> (n <= 3)%nat -> node (mem s) n r = Some t ->
  (forall n r, (n <= 3)%nat -> node (mem s) n r <> Some (Phys p)) ->
  tables (put s t i x) !! p = tables s !! p.
Proof.
  intros Hvm Hn Ht Hno. unfold put. cbn. destruct t as [|q]; [done|]. cbn.
  destruct (tables s !! q); [|done]. rewrite lookup_insert_ne; [done|]. intros ->. by apply (Hno n r).
Qed.

Lemma put_ok s N n r t i x : vm_ok s N -> (n <= 3)%nat -> node (mem s) n r = Some t ->
  0 <= i < 512 -> writable s n r i x -> vm_ok (put s t i x) N.
Proof.
  intros Hvm Hn Ht Hi Hw. pose proof (put_slots s N n r t i x Hvm Hn Ht Hi Hw) as Hs.
  pose proof (fun m q => node_of_slots _ _ n (r * 512 + i) (if_present x) m q Hs) as Hnode.
  pose proof Hvm as Hvm'. destruct Hvm' as [[Htab Hinj Hus] Hbuf Hser].
  assert (forall m q u, (m <= 3)%nat -> node (mem (put s t i x)) m q = Some u ->
    node (mem s) m q = Some u \/
    m = S n /\ q = r * 512 + i /\ u = Phys (extract_pointer x) /\ fresh_table s (extract_pointer x)) as Hcase.
  { intros m q u Hm. rewrite Hnode by done. case_decide as E; [|by left]. destruct E as [-> ->].
    destruct Hw as [(_ & _ & Hp & Hf)|]; [|lia]. unfold if_present. rewrite Hp. cbn. intros [= <-]. by right. }
  split; [split|split|done].
  - intros m q u Hm Hu. destruct (Hcase m q u Hm Hu) as [Ho|(-> & -> & -> & (Hz & _))].
    + apply put_table; [by apply (Htab n r)|by apply (Htab m q)].
    + apply put_table; [by apply (Htab n r)|]. exists (replicate 512 0). done.
  - intros m m' a b u Hm Hm' Ha Hb.
    destruct (Hcase _ _ _ Hm Ha) as [Ha'|(-> & -> & -> & Hf)], (Hcase _ _ _ Hm' Hb) as [Hb'|(-> & -> & E & Hf')]; try done.
    + by eapply Hinj.
    + subst u. exfalso. by apply (proj1 (proj2 (proj2 Hf')) m a).
    + exfalso. by apply (proj1 (proj2 (proj2 Hf)) m' b).
  - intros m q p Hm Hu. destruct (Hcase _ _ _ Hm Hu) as [Ho|(_ & _ & [= ->] & Hf)]; [by apply (Hus m q)|exact (proj1 (proj2 Hf))].
  - by destruct Hbuf.
  - by destruct Hbuf.
  - by destruct Hbuf.
  - intros p Hp. destruct Hbuf as [_ _ _ Hsp]. destruct (Hsp p Hp) as (Hfr & Hz & Hno). split_and!; [done|..].
    + rewrite (put_other s N n r t i x p); done.
    + intros m q Hm Hu. destruct (Hcase _ _ _ Hm Hu) as [Ho|(_ & _ & [= ->] & Hf)]; [by apply (Hno m q)|].
      by apply (proj2 (proj2 (proj2 Hf))).
Qed.

(** A write makes no page a table but the one it refers to. *)
Lemma put_owned s N n r t i x p : vm_ok s N -> (n <= 3)%nat -> node (mem s) n r = Some t ->
  0 <= i < 512 -> writable s n r i x -> owned (put s t i x) p ->
  owned s p \/ (n < 3)%nat /\ p = extract_pointer x.
Proof.
  intros Hvm Hn Ht Hi Hw [(m & q & Hm & Hp)|Hp]; [|by left; right].
  pose proof (put_slots s N n r t i x Hvm Hn Ht Hi Hw) as Hs.
  rewrite (node_of_slots _ _ n (r * 512 + i) (if_present x) m q Hs) in Hp by done.
  case_decide as E; [|left; left; by exists m, q]. destruct (if_present x) as [y|] eqn:Ey; [|done].
  apply if_present_Some in Ey as [-> _]. right. cbn in Hp. split; [lia|]. by injection Hp.
Qed.

(** ** Taking tables from the buffer *)

Notation size s := (page_table_allocator_buffer_size s).

Lemma alloc_page_table_ok s N : vm_ok s N -> 0 < size s ->
  let s' := set_buffer s (page_table_allocator_buffer s) (size s - 1) in
  exists p, alloc_page_table s = Ok (s', p) /\ vm_ok s' N /\ fresh_table s' p /\
    spare s = spare s' ++ [p].
Proof.
  intros Hvm Hs s'. destruct Hvm as [Htree [Hlen Hsz Hnd Hsp] Hser]. unfold PTAAB_SIZE in *.
  set (k := Z.to_nat (size s - 1)).
  destruct (lookup_lt_is_Some_2 (page_table_allocator_buffer s) k) as [p Hp]; [unfold zlen in Hlen; lia|].
  assert (spare s = spare s' ++ [p]) as Hspare.
  { unfold spare. subst s'. cbn. fold k. replace (Z.to_nat (size s)) with (S k) by lia.
    by rewrite (take_S_r _ _ p Hp). }
  exists p. pose proof Hspare as Hspare'. rewrite Hspare in Hnd, Hsp. apply list.NoDup_app in Hnd as (Hnd1 & Hnd2 & _).
  assert (forall q, q ∈ spare s' -> q ∈ spare s' ++ [p]) as Hsub by set_solver.
  split_and!.
  - unfold alloc_page_table. destruct (Z.eqb_spec (size s) 0); [lia|]. unfold mbind, res_bind.
    rewrite (ld_Some _ _ p); [done|lia|done].
  - split; [done| |done]. split; [done|cbn; unfold PTAAB_SIZE; lia|done|]. intros q Hq.
    by apply (Hsp q), Hsub.
  - destruct (Hsp p) as (Hf & Hz & Hno); [set_solver|]. split_and!; [done|done|done|].
    intros Hin. apply (Hnd2 p Hin). set_solver.
  - done.
Qed.

(** The number of tables (0 or 1) that have to be created at a prefix. *)
Definition missing s (n : nat) (q : Z) : Z := match slot (mem s) n q with Some _ => 0 | None => 1 end.

Lemma missing_range s n q : 0 <= missing s n q <= 1.
Proof. unfold missing. destruct (slot _ _ _); lia. Qed.

Lemma table_flags_ok : flags_ok (Z.lor (Z.lor PRESENT_ENTRY PL_US) PL_RW).
Proof. done. Qed.

Lemma same_statics_refl s : same_statics s s.
Proof. done. Qed.

Lemma same_statics_trans s1 s2 s3 : same_statics s1 s2 -> same_statics s2 s3 -> same_statics s1 s3.
Proof. intros (? & ? & ?) (? & ? & ?). split_and!; congruence. Qed.

Lemma get_entry_or_allocate_ok s N n r t i : vm_ok s N -> (n < 3)%nat ->
  node (mem s) n r = Some t -> 0 <= i < 512 -> missing s n (r * 512 + i) <= size s ->
  exists s' e, get_entry_or_allocate t i s = Ok (s', e) /\ vm_ok s' N /\ same_statics s s' /\
    size s' = size s - missing s n (r * 512 + i) /\ slot (mem s') n (r * 512 + i) = Some e /\
    (forall m q, (m <= 3)%nat -> ~ (m = n /\ q = r * 512 + i) -> slot (mem s') m q = slot (mem s) m q) /\
    forall p, owned s' p -> owned s p.
Proof.
  intros Hvm Hn Ht Hi Hm. unfold get_entry_or_allocate, assert_. replace (i <? 512) with true by lia.
  unfold mbind, res_bind. destruct (node_entry s N n r t i Hvm) as (e & He & Es); [lia|done|done|].
  rewrite He. destruct (present_entry e) eqn:Ep; cbn [negb].
  - unfold if_present in Es. rewrite Ep in Es. exists s, e. unfold missing. rewrite Es.
    split_and!; [done|done|done..|lia|done|done|done].
  - unfold if_present in Es. rewrite Ep in Es. unfold missing in *. rewrite Es in *.
    destruct (alloc_page_table_ok s N Hvm) as (p & -> & Hvm1 & Hf & Hsp); [lia|].
    set (s1 := set_buffer _ _ _) in *. destruct Hf as (Hz & Hfr & Hf).
    destruct (frame_addr _ _ _ _ (vk_serves _ _ Hvm1) Hfr) as [Hp Hpa].
    rewrite create_entry_ok by done. set (x := Z.lor _ p).
    assert (extract_pointer x = p) as Ex by (apply extract_entry; [apply table_flags_ok|lia|done]).
    assert (present_entry x = true) as Hpx by (apply present_lor, table_flags_ok).
    assert (node (mem s1) n r = Some t) as Ht1 by done.
    assert (writable s1 n r i x) as Hw by (left; rewrite Ex; split_and!; [done|done|done|split_and!; try done; apply Hf]).
    rewrite store_entry_ok by (done || by apply (tk_table _ _ (vk_tree _ _ Hvm1) n r t); [lia|]).
    pose proof (put_slots s1 N n r t i x Hvm1 ltac:(lia) Ht1 Hi Hw) as Hs.
    exists (put s1 t i x), x. split_and!; try done.
    + apply (put_ok s1 N n r); (done || lia).
    + rewrite Hs by lia. rewrite decide_True by done. unfold if_present. by rewrite Hpx.
    + intros m q Hm' Hne. rewrite Hs by lia. by rewrite decide_False.
    + intros p' Hp'. apply (put_owned s1 N n r t i x) in Hp' as [[Ho|Ho]|[_ ->]]; [..|done|lia|done|done|done].
      * by left.
      * right. rewrite Hsp. set_solver.
      * right. rewrite Hsp, Ex. set_solver.
Qed.

(** ** Finding the page table of an address *)

(** The prefixes of a page number. *)
Definition pfx (m : nat) (v : Z) : Z :=
  match m with O => v / 512 / 512 / 512 | 1%nat => v / 512 / 512 | _ => v / 512 end.

(** An upper bound of the number of tables that have to be created for the pages
    [v <= .. < e]. *)
Definition need_at s (m : nat) (v e : Z) : Z := pfx m (e - 1) - pfx m v + missing s m (pfx m v).
Definition need s (v e : Z) : Z := need_at s 0 v e + need_at s 1 v e + need_at s 2 v e.

(** A tree that only grew above the last level. *)
Record grown s s' : Prop := {
  gr_statics : same_statics s s';
  gr_leaf : forall u, leaf (mem s') u = leaf (mem s) u;
  gr_missing : forall m q, (m < 3)%nat -> missing s' m q <= missing s m q;
  gr_owned : forall p, owned s' p -> owned s p
}.

Lemma slot_node s n q e : slot (mem s) n q = Some e ->
  node (mem s) (S n) q = Some (Phys (extract_pointer e)).
Proof. intros E. by rewrite node_S, E. Qed.

Lemma page_table_or_allocate_ok s N va : let v := vpn va in
  vm_ok s N -> missing s 0 (pfx 0 v) + missing s 1 (pfx 1 v) + missing s 2 (pfx 2 v) <= size s ->
  exists s' t, page_table_or_allocate va s = Ok (s', t) /\ vm_ok s' N /\ grown s s' /\
    size s' = size s - (missing s 0 (pfx 0 v) + missing s 1 (pfx 1 v) + missing s 2 (pfx 2 v)) /\
    node (mem s') 3 (v / 512) = Some t /\ forall m, (m < 3)%nat -> missing s' m (pfx m v) = 0.
Proof.
  intros v Hvm Hm. cbn [pfx] in *. destruct (offsets va) as (_ & O2 & O1 & O0 & Hv). fold v in O0, O1, O2, Hv.
  pose proof (missing_range s 0 (v / 512 / 512 / 512)). pose proof (missing_range s 1 (v / 512 / 512)).
  pose proof (missing_range s 2 (v / 512)).
  unfold page_table_or_allocate. rewrite O0, O1, O2. unfold mbind, res_bind.
  assert (forall x, x / 512 * 512 + x mod 512 = x) as Ed by (intros; lia).
  destruct (get_entry_or_allocate_ok s N 0 (v / 512 / 512 / 512 / 512) Pml4 (v / 512 / 512 / 512 mod 512))
    as (s1 & e1 & -> & Hvm1 & Hst1 & Hz1 & Hs1 & Ho1 & Hw1); [done|lia|by rewrite Hv|lia|rewrite Ed; lia|].
  rewrite Ed in *.
  assert (missing s1 1 (v / 512 / 512) = missing s 1 (v / 512 / 512)) as M1 by (unfold missing; rewrite Ho1; [done|lia|lia]).
  destruct (get_entry_or_allocate_ok s1 N 1 (v / 512 / 512 / 512) (Phys (extract_pointer e1)) (v / 512 / 512 mod 512))
    as (s2 & e2 & -> & Hvm2 & Hst2 & Hz2 & Hs2 & Ho2 & Hw2); [done|lia|by apply slot_node|lia|rewrite Ed; lia|].
  rewrite Ed in *.
  assert (missing s2 2 (v / 512) = missing s 2 (v / 512)) as M2 by (unfold missing; rewrite Ho2, Ho1; [done|lia..]).
  destruct (get_entry_or_allocate_ok s2 N 2 (v / 512 / 512) (Phys (extract_pointer e2)) (v / 512 mod 512))
    as (s3 & e3 & -> & Hvm3 & Hst3 & Hz3 & Hs3 & Ho3 & Hw3); [done|lia|by apply slot_node|lia|rewrite Ed; lia|].
  rewrite Ed in *.
  assert (slot (mem s3) 0 (v / 512 / 512 / 512) = Some e1) as Z0 by (rewrite Ho3, Ho2 by lia; done).
  assert (slot (mem s3) 1 (v / 512 / 512) = Some e2) as Z1 by (rewrite Ho3 by lia; done).
  exists s3, (Phys (extract_pointer e3)). split_and!; [done|done| |lia|by apply slot_node|].
  - split.
    + by eapply same_statics_trans, same_statics_trans.
    + intros u. unfold leaf. by rewrite Ho3, Ho2, Ho1 by lia.
    + intros m q Hmq. unfold missing at 1.
      destruct (slot (mem s3) m q) eqn:E; [apply missing_range|]. unfold missing.
      destruct m as [|[|[|m]]]; [..|lia].
      * rewrite Ho3, Ho2 in E by lia. destruct (decide (q = v / 512 / 512 / 512)) as [->|]; [congruence|].
        rewrite Ho1 in E by lia. by rewrite E.
      * rewrite Ho3 in E by lia. destruct (decide (q = v / 512 / 512)) as [->|]; [congruence|].
        rewrite Ho2, Ho1 in E by lia. by rewrite E.
      * destruct (decide (q = v / 512)) as [->|]; [congruence|].
        rewrite Ho3, Ho2, Ho1 in E by lia. by rewrite E.
    + auto.
  - intros m Hm3. destruct m as [|[|[|m]]]; [..|lia]; unfold missing; cbn [pfx].
    + by rewrite Z0.
    + by rewrite Z1.
    + by rewrite Hs3.
Qed.
End Map.

(** * Virtual memory: the loops over a range of pages

    [internal_map_pages], [remap_pages] and [unmap_pages] share the shape of their two
    loops; one invariant rule serves all of them. *)


Section Loops.
Context {A : Type} `{PhysAllocator A}.
Implicit Types s : paging A.

Variables (find : Z -> paging A -> res (paging A * table_ptr))
  (body : table_ptr -> Z -> Z -> paging A -> res (paging A)).
Variables (va0 count : Z).
Hypothesis va0_range : 0 <= va0 < 2 ^ 64.
Hypothesis in_space : vpn va0 + count <= 2 ^ 36.

(** The address and the number of page [k] of the range. *)
Definition page_va (va0 k : Z) : Z := u64 (va0 + k * 0x1000).
Notation v0 := (vpn va0).
Notation va := (page_va va0).

(** [I k]: the first [k] pages are done; [J r k]: and the table [t] of prefix [r] is at
    hand. *)
Variables (I : Z -> paging A -> Prop) (J : Z -> Z -> paging A -> table_ptr -> Prop).
Hypothesis find_ok : forall k s, 0 <= k < count -> I k s ->
  exists s' t, find (va k) s = Ok (s', t) /\ J ((v0 + k) / 512) k s' t.
Hypothesis body_ok : forall r k s t, 0 <= k < count -> (v0 + k) / 512 = r -> J r k s t ->
  exists s', body t ((v0 + k) mod 512) (va k) s = Ok s' /\ J r (k + 1) s' t.
Hypothesis leave_ok : forall r k s t, 0 <= k < count -> (v0 + k) / 512 = r -> J r (k + 1) s t ->
  I (k + 1) s.

Lemma page_va_0 : va 0 = va0.
Proof. unfold page_va. rewrite u64_small; lia. Qed.

Lemma page_va_S k : u64 (va k + 0x1000) = va (k + 1).
Proof. unfold page_va, wrap. rewrite Zplus_mod_idemp_l. f_equal. lia. Qed.

Lemma page_va_offset k : 0 <= k < count -> pt_offset (va k) = (v0 + k) mod 512.
Proof.
  intros Hk. destruct (offsets (va k)) as (-> & _). unfold page_va. by rewrite vpn_add by lia.
Qed.

Lemma entries_loop_ok fuel r k s t : 0 <= k < count -> (v0 + k) / 512 = r -> J r k s t ->
  512 - (v0 + k) mod 512 <= Z.of_nat fuel ->
  exists s' k', entries_loop fuel (body t) ((v0 + k) mod 512) (va k) (count - k) s = Ok (s', va k', count - k') /\
    k < k' <= count /\ I k' s'.
Proof.
  revert k s. induction fuel as [|fuel IH]; intros k s Hk Hr HJ Hf; [lia|].
  cbn [entries_loop]. replace ((0 <? count - k) && _) with true by lia.
  destruct (body_ok r k s t Hk Hr HJ) as (s1 & -> & HJ1). unfold mbind, res_bind. rewrite page_va_S.
  destruct (decide (k + 1 < count /\ (v0 + k) mod 512 + 1 < 512)) as [[Hc Hp]|Hstop].
  - destruct (IH (k + 1) s1) as (s' & k' & E & Hk' & HI); [lia|lia|done|lia|].
    exists s', k'. split_and!; [|lia..|done]. rewrite <- E. f_equal; lia.
  - exists s1, (k + 1). split_and!; [|lia..|by eapply leave_ok].
    replace (count - k - 1) with (count - (k + 1)) by lia.
    destruct fuel; cbn [entries_loop]; by replace (_ && _) with false by lia.
Qed.

Lemma range_loop_ok fuel k s : 0 <= k <= count -> I k s -> count - k <= Z.of_nat fuel ->
  exists s', range_loop fuel find body (va k) (count - k) s = Ok s' /\ I count s'.
Proof.
  revert k s. induction fuel as [|fuel IH]; intros k s Hk HI Hf.
  - cbn. replace (0 <? count - k) with false by lia. exists s. split; [done|]. by replace count with k by lia.
  - cbn [range_loop]. destruct (Z.ltb_spec 0 (count - k)) as [Hlt|].
    + destruct (find_ok k s) as (s1 & t & -> & HJ); [lia|done|]. unfold mbind, res_bind.
      rewrite page_va_offset by lia.
      destruct (entries_loop_ok 512 ((v0 + k) / 512) k s1 t) as (s2 & k' & -> & Hk' & HI2); [lia|done|done|lia|].
      apply IH; [lia|done|lia].
    + exists s. split; [done|]. by replace count with k by lia.
Qed.

Lemma range_loop_rule s : 0 <= count -> I 0 s ->
  exists s', range_loop (Z.to_nat count) find body va0 count s = Ok s' /\ I count s'.
Proof using All.
  intros Hc HI. destruct (range_loop_ok (Z.to_nat count) 0 s) as (s' & E & HI'); [lia|done|lia|].
  exists s'. split; [|done]. rewrite page_va_0 in E. by replace (count - 0) with count in E by lia.
Qed.
End Loops.

(** * Virtual memory: [map_pages] and [alloc_pages] *)


Section Alloc.
Context {A : Type} `{PhysAllocator A}.
Implicit Types s : paging A.
Notation size s := (page_table_allocator_buffer_size s).

(** ** How many tables a range needs *)

Lemma pfx_mono m v v' : v <= v' -> pfx m v <= pfx m v'.
Proof. intros Hv. destruct m as [|[|m]]; cbn [pfx]; lia. Qed.

Lemma pfx_table m v : pfx m (v / 512 * 512) = pfx m v.
Proof. destruct m as [|[|m]]; cbn [pfx]; rewrite Z.div_mul by lia; done. Qed.

(** What remains to be created after the page [v], whose tables exist. *)
Definition later (v e : Z) : Z :=
  (pfx 0 (e - 1) - pfx 0 v) + (pfx 1 (e - 1) - pfx 1 v) + (pfx 2 (e - 1) - pfx 2 v).

Lemma need_at_advance s m v v' e : missing s m (pfx m v) = 0 -> v <= v' ->
  need_at s m v' e <= pfx m (e - 1) - pfx m v.
Proof.
  intros Hm Hv. unfold need_at. pose proof (pfx_mono m v v' Hv). pose proof (missing_range s m (pfx m v')).
  destruct (decide (pfx m v' = pfx m v)) as [->|]; lia.
Qed.

Lemma need_advance s v v' e :
  (forall m, (m < 3)%nat -> missing s m (pfx m v) = 0) -> v <= v' -> need s v' e <= later v e.
Proof.
  intros Hm Hv. unfold need, later. pose proof (need_at_advance s 0 v v' e (Hm 0%nat ltac:(lia)) Hv).
  pose proof (need_at_advance s 1 v v' e (Hm 1%nat ltac:(lia)) Hv).
  pose proof (need_at_advance s 2 v v' e (Hm 2%nat ltac:(lia)) Hv). lia.
Qed.

(** Mapping 4096 pages creates at most 2 + 2 + 9 tables. *)
Lemma need_bound s v n : 0 <= v -> 0 < n <= 4096 -> need s v (v + n) <= 13.
Proof.
  intros Hv Hn. unfold need, need_at. pose proof (missing_range s 0 (pfx 0 v)).
  pose proof (missing_range s 1 (pfx 1 v)). pose proof (missing_range s 2 (pfx 2 v)). cbn [pfx] in *. lia.
Qed.

(** ** [internal_map_pages] *)

(** The pages of a range, mapped one after the other with the frames [f]. *)
Definition mapped_range s s' (v n flags : Z) (f : Z -> Z) : Prop :=
  forall u, leaf (mem s') u =
    if decide (v <= u < v + n) then Some (Z.lor flags (f (u - v))) else leaf (mem s) u.

Section Internal.
Variables (s0 : paging A) (N pa va0 count flags e : Z).
Notation v0 := (vpn va0).
Hypothesis va0_range : 0 <= va0 < 2 ^ 64.
Hypothesis in_space : v0 + count <= 2 ^ 36.
Hypothesis pa_range : 0 <= pa /\ pa + count * 0x1000 <= 2 ^ 52.
Hypothesis pa_aligned : pa mod 0x1000 = 0.
Hypothesis flags_good : flags_ok flags.
Hypothesis unmapped : forall k, 0 <= k < count -> leaf (mem s0) (v0 + k) = None.
Hypothesis e_end : v0 + count <= e.

Definition map_done (k : Z) s : Prop :=
  vm_ok s N /\ same_statics s0 s /\ mapped_range s0 s v0 k flags (fun i => pa + i * 0x1000) /\
  forall p, owned s p -> owned s0 p.
Definition map_I (k : Z) s : Prop :=
  map_done k s /\ (v0 + k < e -> need s (v0 + k) e <= size s).
Definition map_J (r k : Z) s (t : table_ptr) : Prop :=
  map_done k s /\ node (mem s) 3 r = Some t /\ later (r * 512) e <= size s /\
  forall m, (m < 3)%nat -> missing s m (pfx m (r * 512)) = 0.

Lemma map_find_ok k s : 0 <= k < count -> map_I k s ->
  exists s' t, page_table_or_allocate (page_va va0 k) s = Ok (s', t) /\ map_J ((v0 + k) / 512) k s' t.
Proof.
  intros Hk [(Hvm & Hst & Hl & Hw) Hn]. specialize (Hn ltac:(lia)). unfold need, need_at in Hn.
  assert (vpn (page_va va0 k) = v0 + k) as Ev by (apply vpn_add; lia).
  pose proof (pfx_mono 0 (v0 + k) (e - 1) ltac:(lia)). pose proof (pfx_mono 1 (v0 + k) (e - 1) ltac:(lia)).
  pose proof (pfx_mono 2 (v0 + k) (e - 1) ltac:(lia)).
  destruct (page_table_or_allocate_ok s N (page_va va0 k) Hvm) as (s' & t & E & Hvm' & Hg & Hz & Ht & Hm);
    rewrite Ev in *; [lia|].
  exists s', t. split; [done|]. split_and!; [|done| |].
  - split_and!; [done|by eapply same_statics_trans; [|apply Hg]| |].
    + intros u. by rewrite (gr_leaf _ _ Hg).
    + intros p Hp. by apply Hw, (gr_owned _ _ Hg).
  - unfold later. rewrite !pfx_table. lia.
  - intros m Hm3. rewrite pfx_table. by apply Hm.
Qed.

Lemma map_body_ok r k s t : 0 <= k < count -> (v0 + k) / 512 = r -> map_J r k s t ->
  exists s', map_entry (pa - va0) flags t ((v0 + k) mod 512) (page_va va0 k) s = Ok s' /\ map_J r (k + 1) s' t.
Proof.
  intros Hk Hr ((Hvm & Hst & Hl & Hown) & Ht & Hlater & Hm).
  assert (u64 (page_va va0 k + (pa - va0)) = pa + k * 0x1000) as Epa.
  { unfold page_va, wrap. rewrite Zplus_mod_idemp_l.
    replace (va0 + k * 4096 + (pa - va0)) with (pa + k * 0x1000) by lia. apply Z.mod_small. lia. }
  unfold map_entry. rewrite Epa, create_entry_ok by lia. unfold mbind, res_bind.
  assert (0 <= (v0 + k) mod 512 < 512) as Hi by lia.
  assert (r * 512 + (v0 + k) mod 512 = v0 + k) as Ed by lia.
  destruct (node_entry s N 3 r t _ Hvm ltac:(lia) Ht Hi) as (old & -> & Eo). rewrite Ed in Eo.
  assert (leaf (mem s) (v0 + k) = None) as Hnone by (rewrite Hl, decide_False by lia; apply unmapped; lia).
  unfold leaf in Hnone. rewrite Hnone in Eo. symmetry in Eo. apply if_present_None in Eo. rewrite Eo.
  set (x := Z.lor flags _). assert (present_entry x = true) as Hpx by by apply present_lor.
  assert (writable s 3 r ((v0 + k) mod 512) x) as Hw by by right.
  pose proof (put_slots s N 3 r t _ x Hvm ltac:(lia) Ht Hi Hw) as Hs. rewrite Ed in Hs.
  rewrite store_entry_ok; [|by apply (tk_table _ _ (vk_tree _ _ Hvm) 3%nat r); [lia|]|done].
  set (s' := put _ _ _ _) in *. exists s'. split; [done|].
  assert (forall m q, (m < 3)%nat -> missing s' m q = missing s m q) as Hmiss
    by (intros m q Hm3; unfold missing; rewrite Hs by lia; by rewrite decide_False by lia).
  split_and!; [split_and!| |done|].
  - by apply (put_ok s N 3 r).
  - done.
  - intros u. unfold leaf. rewrite Hs by lia. destruct (decide (3%nat = 3%nat /\ u = v0 + k)) as [[_ ->]|Hne].
    + rewrite decide_True by lia. unfold if_present. rewrite Hpx. subst x. do 2 f_equal. lia.
    + change (slot (mem s) 3 u) with (leaf (mem s) u). rewrite Hl. destruct (decide (v0 <= u < v0 + k)); [rewrite decide_True by lia|rewrite decide_False by lia]; done.
  - intros p Hp. apply (put_owned s N 3 r t _ x) in Hp as [Ho|[? _]]; [by apply Hown|lia|done..].
  - rewrite (node_of_slots _ _ 3 (v0 + k) (if_present x) 3 r Hs) by lia. by rewrite decide_False by lia.
  - intros m Hm3. rewrite Hmiss by done. by apply Hm.
Qed.

Lemma map_leave_ok r k s t : 0 <= k < count -> (v0 + k) / 512 = r -> map_J r (k + 1) s t -> map_I (k + 1) s.
Proof.
  intros Hk Hr (Hd & _ & Hlater & Hm). split; [done|]. intros Hlt.
  pose proof (need_advance s (r * 512) (v0 + (k + 1)) e Hm ltac:(lia)). lia.
Qed.

Lemma internal_map_ok : 0 <= count -> vm_ok s0 N -> (v0 < e -> need s0 v0 e <= size s0) ->
  exists s', internal_map_pages pa va0 count flags s0 = Ok s' /\ map_I count s'.
Proof using All.
  intros Hc Hvm Hn. unfold internal_map_pages.
  apply (range_loop_rule _ _ va0 count va0_range in_space map_I map_J).
  - apply map_find_ok.
  - apply map_body_ok.
  - apply map_leave_ok.
  - done.
  - split; [|by rewrite Z.add_0_r]. split_and!; [done|done| |done]. intros u. by rewrite decide_False by lia.
Qed.
End Internal.
End Alloc.
