(* ===== verification/PagingTheorems.v ===== *)
(** * Virtual memory: refilling the buffer of spare tables *)

From S2P Require Import Prelude Bytes Interfaces Paging PagingProofs PagingMap.





Section Buffer.
Context {A : Type} `{PhysAllocator A}.
Implicit Types s : paging A.
Notation size s := (page_table_allocator_buffer_size s).
Notation buffer s := (page_table_allocator_buffer s).

(** ** The same tree in a bigger memory *)

Lemma node_ext M M' :
  (forall n r t, (n <= 3)%nat -> node M n r = Some t -> table_of M' t = table_of M t) ->
  forall n r, (n <= 3)%nat -> node M' n r = node M n r.
Proof.
  intros Ht n. induction n as [|n IH]; intros r Hn; [done|]. cbn [node]. rewrite IH by lia.
  destruct (node M n (r / 512)) as [t|] eqn:E; [|done]. cbn [mbind option_bind].
  unfold entry_of. by rewrite (Ht n (r / 512) t) by (lia || done).
Qed.

Lemma slot_ext M M' :
  (forall n r t, (n <= 3)%nat -> node M n r = Some t -> table_of M' t = table_of M t) ->
  forall n r, (n <= 3)%nat -> slot M' n r = slot M n r.
Proof.
  intros Ht n r Hn. unfold slot. rewrite (node_ext M M') by done.
  destruct (node M n (r / 512)) as [t|] eqn:E; [|done]. cbn [mbind option_bind].
  unfold entry_of. by rewrite (Ht n (r / 512) t) by (lia || done).
Qed.

(** [s'] has the tree of [s], the pages [l] as additional spare tables, and an allocator in
    which the pages that were allocated still are. *)
Record refilled s s' (l : list Z) : Prop := {
  rf_pml4 : pml4 s' = pml4 s;
  rf_tables : forall p, tables s' !! p = if decide (p ∈ l) then Some (replicate 512 0) else tables s !! p;
  rf_mono : forall p, frame (pmm s) p true -> frame (pmm s') p true;
  rf_new : forall p, p ∈ l -> frame (pmm s) p false /\ frame (pmm s') p true;
  rf_nodup : NoDup l;
  rf_len : zlen (buffer s') = PTAAB_SIZE;
  rf_size : size s' = size s + zlen l /\ size s' <= PTAAB_SIZE;
  rf_spare : spare s' = spare s ++ l
}.

Section Refilled.
Context (s s' : paging A) (l : list Z) (N N' : Z).
Context (Hvm : vm_ok s N) (Hrf : refilled s s' l) (Hser : serves (pmm s') N').

Lemma refilled_fresh p : p ∈ l -> ~ frame (pmm s) p true.
Proof using Hvm Hrf.
  intros Hp Ht. destruct (rf_new _ _ _ Hrf p Hp) as [Hf _].
  by pose proof (frame_unique _ _ _ _ _ (vk_serves _ _ Hvm) Ht Hf).
Qed.

Lemma refilled_tables n r t : (n <= 3)%nat -> node (mem s) n r = Some t ->
  table_of (mem s') t = table_of (mem s) t.
Proof using Hvm Hrf.
  intros Hn Ht. destruct t as [|p]; cbn; [by rewrite (rf_pml4 _ _ _ Hrf)|].
  rewrite (rf_tables _ _ _ Hrf), decide_False; [done|]. intros Hp. apply (refilled_fresh p Hp).
  by apply (tk_used _ _ (vk_tree _ _ Hvm) n r).
Qed.

Lemma refilled_node n r : (n <= 3)%nat -> node (mem s') n r = node (mem s) n r.
Proof using Hvm Hrf. intros Hn. apply node_ext; [|done]. apply refilled_tables. Qed.

Lemma refilled_slot n r : (n <= 3)%nat -> slot (mem s') n r = slot (mem s) n r.
Proof using Hvm Hrf. intros Hn. apply slot_ext; [|done]. apply refilled_tables. Qed.

Lemma refilled_owned p : owned s' p -> owned s p \/ p ∈ l.
Proof using Hvm Hrf.
  intros [(n & r & Hn & Hp)|Hp].
  - left. left. exists n, r. by rewrite <- refilled_node.
  - rewrite (rf_spare _ _ _ Hrf), elem_of_app in Hp. destruct Hp; [left; by right|by right].
Qed.

Lemma refilled_vm_ok : vm_ok s' N'.
Proof using All.
  pose proof Hvm as Hvm'. destruct Hvm' as [[Htab Hinj Hus] [Hlen Hsz Hnd Hsp] _]. split; [split|split|done].
  - intros n r t Hn. rewrite refilled_node by done. intros Ht. unfold is_table.
    rewrite (refilled_tables n r) by done. by apply (Htab n r).
  - intros m m' a b u Hm Hm'. rewrite !refilled_node by done. by apply Hinj.
  - intros n r p Hn. rewrite refilled_node by done. intros Hp. by apply (rf_mono _ _ _ Hrf), (Hus n r).
  - apply Hrf.
  - destruct (rf_size _ _ _ Hrf). pose proof (zlen_nonneg l). lia.
  - rewrite (rf_spare _ _ _ Hrf). apply list.NoDup_app. split_and!; [done| |apply Hrf].
    intros p Hp Hl. by apply (refilled_fresh p Hl), Hsp.
  - intros p. rewrite (rf_spare _ _ _ Hrf), elem_of_app. intros [Hp|Hp].
    + destruct (Hsp p Hp) as (Hf & Hz & Hno). split_and!.
      * by apply (rf_mono _ _ _ Hrf).
      * rewrite (rf_tables _ _ _ Hrf). by case_decide.
      * intros n r Hn. rewrite refilled_node by done. by apply Hno.
    + split_and!.
      * by apply (rf_new _ _ _ Hrf).
      * rewrite (rf_tables _ _ _ Hrf). by rewrite decide_True.
      * intros n r Hn. rewrite refilled_node by done. intros Hn'.
        by apply (refilled_fresh p Hp), (Hus n r).
Qed.
End Refilled.

(** Pages that hold tables are allocated. *)
Lemma owned_frame s N p : vm_ok s N -> owned s p -> frame (pmm s) p true.
Proof.
  intros [[_ _ Hus] [_ _ _ Hsp] _] [(n & r & Hn & Hp)|Hp]; [by apply (Hus n r)|by apply Hsp].
Qed.

(** ** [fill_page_table_allocator_buffer] *)

Lemma push_callbacks l : forall s va,
  zlen (buffer s) = PTAAB_SIZE -> 0 <= size s -> size s + zlen l <= PTAAB_SIZE ->
  exists b, callbacks (fun p v n r => s ← r; page_table_allocator_callback p v n s) va l (Ok s)
      = Ok (set_buffer s b (size s + zlen l)) /\
    zlen b = PTAAB_SIZE /\ take (Z.to_nat (size s + zlen l)) b = spare s ++ l.
Proof.
  induction l as [|p l IH]; intros s va Hb Hs Hl.
  - exists (buffer s). cbn [callbacks]. change (zlen []) with 0. rewrite Z.add_0_r, app_nil_r. by destruct s.
  - cbn [callbacks]. unfold mbind at 2, res_bind at 2, page_table_allocator_callback at 2.
    assert (zlen (p :: l) = zlen l + 1) as Ez by (unfold zlen; cbn [length]; lia). rewrite Ez in Hl.
    pose proof (zlen_nonneg l). unfold PTAAB_SIZE in *. rewrite st_ok by (cbn; lia).
    unfold mbind at 2, res_bind at 2. rewrite (u64_small (size s + 1)) by lia.
    set (s1 := set_buffer s _ _).
    destruct (IH s1 (u64 (va + 0x1000))) as (b & -> & Hb' & Ht);
      [subst s1; cbn; by rewrite zlen_insert|cbn; lia|cbn; lia|].
    exists b. rewrite Ez. subst s1. cbn [page_table_allocator_buffer_size set_buffer] in *.
    replace (size s + (zlen l + 1)) with (size s + 1 + zlen l) by lia. split_and!; [done|done|].
    rewrite Ht. unfold spare. cbn. replace (Z.to_nat (size s + 1)) with (S (Z.to_nat (size s))) by lia.
    rewrite (take_S_r _ _ p) by (apply list_lookup_insert_eq; unfold zlen in Hb; lia).
    rewrite take_insert_ge by lia. by rewrite <- app_assoc.
Qed.

Definition zeroed (l : list Z) (T : gmap Z (list Z)) : gmap Z (list Z) :=
  foldl (fun T p => <[p := replicate 512 0]> T) T l.

Lemma zeroed_lookup l T p :
  zeroed l T !! p = if decide (p ∈ l) then Some (replicate 512 0) else T !! p.
Proof.
  revert T. induction l as [|q l IH]; intros T; cbn [zeroed foldl]; [done|].
  change (foldl _ _ l) with (zeroed l (<[q := replicate 512 0]> T)). rewrite IH.
  destruct (decide (p = q)) as [->|].
  - rewrite lookup_insert_eq. rewrite (decide_True (P := q ∈ q :: l)) by set_solver. by case_decide.
  - rewrite lookup_insert_ne by done. destruct (decide (p ∈ l)); [rewrite decide_True by set_solver|rewrite decide_False by set_solver]; done.
Qed.

Lemma zero_buffered_ok l : forall i s, 0 <= i ->
  (forall j p, l !! j = Some p -> buffer s !! (Z.to_nat i + j)%nat = Some p /\ p mod 0x1000 = 0) ->
  zero_buffered (length l) i s = Ok (set_tables s (zeroed l (tables s))).
Proof.
  induction l as [|p l IH]; intros i s Hi Hl; cbn [zero_buffered length]; [by destruct s|].
  destruct (Hl 0%nat p) as [Hp Ha]; [done|]. rewrite Nat.add_0_r in Hp.
  rewrite (ld_Some _ _ p) by done. unfold mbind, res_bind, zero_page_table_page, assert_, is_aligned.
  change (0x1000 - 1) with (Z.ones 12). rewrite Z.land_ones by lia. change (2 ^ 12) with 0x1000. rewrite Ha.
  change (0 =? 0) with true. unfold mbind, res_bind. change (forallb (Z.eqb 0) (replicate 512 0)) with true.
  cbv iota beta. rewrite IH; [done|lia|]. intros j q Hj. destruct (Hl (S j) q Hj) as [Hq Hqa]. split; [|done].
  cbn. by replace (Z.to_nat (i + 1) + j)%nat with (Z.to_nat i + S j)%nat by lia.
Qed.

Lemma refilled_refl s : buffer_ok s -> refilled s s [].
Proof.
  intros [Hlen Hsz _ _]. split; try done.
  - intros p Hp. set_solver.
  - constructor.
  - change (zlen []) with 0. lia.
  - by rewrite app_nil_r.
Qed.

(** The pages that were free afterwards were free before. *)
Definition frees_kept s s' : Prop := forall p, frame (pmm s') p false -> frame (pmm s) p false.

Lemma fill_ok s N n : vm_ok s N -> 0 <= n <= PTAAB_SIZE -> n - size s <= N ->
  exists s' l, fill_page_table_allocator_buffer n s = Ok s' /\ refilled s s' l /\
    zlen l = Z.max 0 (n - size s) /\ serves (pmm s') (N - zlen l) /\ frees_kept s s' /\
    cpu_private_flags s' = cpu_private_flags s /\
    alloc_page_table_realloc s' = alloc_page_table_realloc s.
Proof.
  intros Hvm Hn HN. pose proof (vk_buffer _ _ Hvm) as Hbuf. pose proof (bk_size _ Hbuf) as Hsz.
  unfold PTAAB_SIZE in *. unfold fill_page_table_allocator_buffer, assert_, PTAAB_SIZE.
  replace (n <=? 64) with true by lia. unfold mbind, res_bind. rewrite s32_small by lia.
  destruct (Z.ltb_spec (n - size s) 0) as [Hlt|Hge].
  { exists s, []. change (zlen []) with 0. rewrite Z.sub_0_r.
    split_and!; [done|by apply refilled_refl|lia|apply Hvm|by intros p|done|done]. }
  unfold physalloc_pages.
  destruct (phys_alloc_serves _ (fun p v n r => s ← r; page_table_allocator_callback p v n s)
    (pmm s) N (n - size s) 0 (Ok s) (vk_serves _ _ Hvm) eq_refl ltac:(lia))
    as (a & l & -> & Hz & Hnd & Hfree & Hfr & Hser).
  unfold mbind at 1, res_bind at 1.
  destruct (push_callbacks l s 0 (bk_len _ Hbuf)) as (b & -> & Hb & Ht); [lia|unfold PTAAB_SIZE; lia|].
  unfold mbind at 1, res_bind at 1. rewrite <- Hz.
  replace (Z.to_nat (zlen l)) with (length l) by (unfold zlen; lia).
  set (s1 := set_pmm _ a).
  rewrite (zero_buffered_ok l); [|lia|].
  - unfold mbind, res_bind. eexists _, l. split; [done|]. subst s1. cbn. split_and!; try done; [|lia|by rewrite Hz|].
    + split; try done; cbn.
      * intros p. apply zeroed_lookup.
      * intros p Hp. apply Hfr. exists true. by split.
      * intros p Hp. split; [by apply Hfree|]. apply Hfr. exists false. split; [by apply Hfree|].
        cbn. by rewrite bool_decide_eq_true_2.
      * unfold PTAAB_SIZE. split; lia.
      * unfold spare at 1. cbn. rewrite <- Ht. do 2 f_equal. lia.
    + intros p [b0 [Hp Hb0]]%Hfr. cbn in Hp. by destruct b0.
  - intros j p Hj. split.
    + assert (take (Z.to_nat (size s + zlen l)) b !! (Z.to_nat (size s) + j)%nat = Some p) as Hl.
      { rewrite Ht. assert (length (spare s) = Z.to_nat (size s)) as El.
        { unfold spare. rewrite length_take. pose proof (bk_len _ Hbuf). unfold zlen, PTAAB_SIZE in *. lia. }
        rewrite lookup_app_r by lia. by replace (_ + j - _)%nat with j by lia. }
      by apply lookup_take_Some in Hl as [Hl _].
    + eapply (frame_addr _ _ _ false (vk_serves _ _ Hvm)), Hfree, list_elem_of_lookup_2, Hj.
Qed.
End Buffer.

(** * Virtual memory: the operations of [paging.h] *)


Section Theorems.
Context {A : Type} `{PhysAllocator A}.
Implicit Types s : paging A.
Notation size s := (page_table_allocator_buffer_size s).

(** ** [alloc_pages] *)

Lemma mapped_range_trans s1 s2 s3 v n m flags f g :
  0 <= n -> 0 <= m -> mapped_range s1 s2 v n flags f -> mapped_range s2 s3 (v + n) m flags g ->
  mapped_range s1 s3 v (n + m) flags (fun i => if decide (i < n) then f i else g (i - n)).
Proof.
  intros Hn Hm H1 H2 u. rewrite H2, H1.
  destruct (decide (v + n <= u < v + n + m)); [|destruct (decide (v <= u < v + n))].
  - rewrite decide_True by lia. rewrite decide_False by lia. do 3 f_equal. lia.
  - rewrite decide_True by lia. by rewrite decide_True by lia.
  - by rewrite decide_False by lia.
Qed.

Lemma mapped_range_ext s s' v n flags f g :
  (forall i, 0 <= i < n -> f i = g i) -> mapped_range s s' v n flags f -> mapped_range s s' v n flags g.
Proof.
  intros E Hm u. rewrite Hm. destruct (decide (v <= u < v + n)); [|done]. by rewrite E by lia.
Qed.

Lemma mapped_range_leaves s1 s1' s2 s2' v n flags f :
  (forall u, leaf (mem s1) u = leaf (mem s1') u) -> (forall u, leaf (mem s2) u = leaf (mem s2') u) ->
  mapped_range s1 s2 v n flags f -> mapped_range s1' s2' v n flags f.
Proof. intros E1 E2 Hm u. by rewrite <- E2, Hm, E1. Qed.

Lemma nthZ_app l k i : 0 <= i ->
  nthZ (l ++ k) i = if decide (i < zlen l) then nthZ l i else nthZ k (i - zlen l).
Proof.
  intros Hi. unfold nthZ, zlen. case_decide.
  - by rewrite lookup_app_l by lia.
  - rewrite lookup_app_r by lia. by replace (Z.to_nat (i - _)) with (Z.to_nat i - length l)%nat by lia.
Qed.

(** The callbacks of one call of [physalloc]. *)
Lemma alloc_callbacks N l : forall s va v,
  vm_ok s N -> flags_ok (cpu_private_flags s) -> 0 <= va < 2 ^ 64 -> (l <> [] -> vpn va = v) -> 0 <= v ->
  v + zlen l <= 2 ^ 36 -> (forall p, p ∈ l -> 0 <= p < 2 ^ 47 /\ p mod 0x1000 = 0) ->
  (forall k, 0 <= k < zlen l -> leaf (mem s) (v + k) = None) ->
  (l <> [] -> need s v (v + zlen l) <= size s) ->
  exists s', callbacks (fun p v n r => s ← r; alloc_pages_callback p v n s) va l (Ok s) = Ok s' /\
    vm_ok s' N /\ same_statics s s' /\ mapped_range s s' v (zlen l) (cpu_private_flags s) (nthZ l) /\
    forall p, owned s' p -> owned s p.
Proof.
  induction l as [|p l IH]; intros s va v Hvm Hf Hva Hv Hv0 Hin Hl Hno Hneed.
  { exists s. split_and!; [done|done|done..| |done]. intros u. change (zlen []) with 0. by rewrite decide_False by lia. }
  assert (zlen (p :: l) = 1 + zlen l) as Ez by (unfold zlen; cbn [length]; lia). pose proof (zlen_nonneg l).
  rewrite Ez in *. specialize (Hv ltac:(done)). specialize (Hneed ltac:(done)). destruct (Hl p) as [Hp Hpa]; [set_solver|].
  cbn [callbacks]. unfold mbind at 2, res_bind at 2, alloc_pages_callback at 2.
  destruct (internal_map_ok s N p va 1 (cpu_private_flags s) (v + (1 + zlen l))) as (s1 & -> & (Hvm1 & Hst1 & Hm1 & Hw1) & Hn1);
    rewrite ?Hv; try (done || lia).
  { intros k Hk. apply Hno. lia. }
  destruct (IH s1 (u64 (va + 0x1000)) (v + 1)) as (s2 & E & Hvm2 & Hst2 & Hm2 & Hw2); [done|by destruct Hst1 as (_ & -> & _)|..].
  - apply Z.mod_pos_bound. lia.
  - intros Hne. assert (0 < zlen l) by (destruct l; [done|unfold zlen; cbn [length]; lia]).
    replace (va + 0x1000) with (va + 1 * 0x1000) by lia. rewrite vpn_add; lia.
  - lia.
  - lia.
  - intros q Hq. apply Hl. set_solver.
  - intros k Hk. rewrite Hm1, Hv, decide_False by lia. rewrite <- Z.add_assoc. apply Hno. lia.
  - intros Hne. rewrite Hv in Hn1. replace (v + 1 + zlen l) with (v + (1 + zlen l)) by lia. apply Hn1.
    assert (0 < zlen l) by (destruct l; [done|unfold zlen; cbn [length]; lia]). lia.
  - exists s2. split_and!; [exact E|done|by eapply same_statics_trans| |auto].
    rewrite Hv in Hm1. destruct Hst1 as (_ & Ef & _). rewrite Ef in Hm2.
    eapply mapped_range_ext; [|eapply (mapped_range_trans _ _ _ v 1 (zlen l)); [lia|lia|exact Hm1|exact Hm2]].
    intros i Hi. cbn beta. destruct (decide (i < 1)) as [Hlt|Hge].
    + replace i with 0 by lia. change (nthZ (p :: l) 0) with p. lia.
    + unfold nthZ. replace (Z.to_nat i) with (S (Z.to_nat (i - 1))) by lia. done.
Qed.

(** The outcome of an allocation: fresh frames [l] at the pages [v ..]. *)
Record allocated s s' (v count flags : Z) (l : list Z) : Prop := {
  al_len : zlen l = count;
  al_nodup : NoDup l;
  al_fresh : forall p, p ∈ l -> frame (pmm s) p false /\ frame (pmm s') p true;
  al_frames : forall p, frame (pmm s) p true -> frame (pmm s') p true;
  al_frees : frees_kept s s';
  al_map : mapped_range s s' v count flags (nthZ l);
  al_data : forall p, p ∈ l -> ~ owned s' p;
  al_owned : forall p, owned s' p -> owned s p \/ frame (pmm s) p false
}.

(** One turn of [alloc_pages]. *)
Lemma alloc_chunk_ok s N va n : let v := vpn va in
  vm_ok s N -> flags_ok (cpu_private_flags s) -> 0 <= va < 2 ^ 64 -> va mod 0x1000 = 0 ->
  0 < n <= MAX_ALLOC -> v + n <= 2 ^ 36 -> n + PTAAB_REFILL <= N ->
  (forall k, 0 <= k < n -> leaf (mem s) (v + k) = None) ->
  exists s1 s' l, fill_page_table_allocator_buffer PTAAB_REFILL s = Ok s1 /\
    physalloc_pages alloc_pages_callback n va s1 = Ok s' /\
    vm_ok s' (N - PTAAB_REFILL - n) /\ allocated s s' v n (cpu_private_flags s) l /\
    cpu_private_flags s' = cpu_private_flags s.
Proof.
  intros v Hvm Hf Hva Ha Hn Hin HN Hno. unfold MAX_ALLOC, PTAAB_REFILL in *.
  pose proof (bk_size _ (vk_buffer _ _ Hvm)) as Hsz.
  destruct (fill_ok s N 16 Hvm) as (s1 & k & E1 & Hrf & Hk & Hser1 & Hfk & Hfl & _); [done|lia|].
  pose proof (refilled_vm_ok s s1 k N _ Hvm Hrf Hser1) as Hvm1.
  pose proof (refilled_slot s s1 k N Hvm Hrf) as Hslot.
  exists s1. unfold physalloc_pages.
  destruct (phys_alloc_serves _ (fun p v n r => s ← r; alloc_pages_callback p v n s)
    (pmm s1) _ n va (Ok s1) Hser1 Ha ltac:(lia)) as (a & l & -> & Hz & Hnd & Hfree & Hfr & Hser).
  unfold mbind at 1, res_bind at 1. pose proof (vpn_range va) as Hv.
  destruct (alloc_callbacks _ l s1 va v Hvm1) as (s2 & -> & Hvm2 & Hst2 & Hm2 & Hw2); try (done || lia).
  - by rewrite Hfl.
  - intros p Hp. destruct (frame_addr _ _ _ _ Hser1 (Hfree p Hp)). split; [lia|done].
  - intros j Hj. unfold leaf. rewrite Hslot by lia. apply Hno. lia.
  - intros _. destruct (rf_size _ _ _ Hrf) as [Hs1 _]. rewrite Hz.
    pose proof (need_bound s1 v n ltac:(lia) ltac:(lia)). lia.
  - destruct Hst2 as (Epm & Efl & _). unfold mbind at 1, res_bind at 1. exists (set_pmm s2 a), l.
    assert (forall p, frame (pmm s) p true -> frame a p true) as Hmono.
    { intros p Hp. apply Hfr. exists true. split; [|done]. by apply (rf_mono _ _ _ Hrf). }
    split_and!; [done|done| | |cbn; congruence].
    + eapply (refilled_vm_ok s2 (set_pmm s2 a) []); [exact Hvm2| |eapply serves_le; [exact Hser|lia]].
      pose proof (refilled_refl s2 (vk_buffer _ _ Hvm2)) as [? ? ? ? ? ? ? ?]. split; try done.
      * intros p. cbn. rewrite Epm. intros Hp. apply Hfr. by exists true.
      * intros p Hp. set_solver.
    + split; try done.
      * intros p Hp. split; [by apply Hfk, Hfree|]. cbn. apply Hfr. exists false. split; [by apply Hfree|].
        cbn. by rewrite bool_decide_eq_true_2.
      * intros p. cbn. intros (b0 & Hb & Eb)%Hfr. apply Hfk. by destruct b0.
      * rewrite Hz, Hfl in Hm2. eapply mapped_range_leaves; [| |exact Hm2]; [|done].
        intros u. unfold leaf. by rewrite Hslot by lia.
      * intros p Hp Ho. assert (owned s1 p) as Ho1 by by apply Hw2.
        by pose proof (frame_unique _ _ _ _ _ Hser1 (owned_frame _ _ _ Hvm1 Ho1) (Hfree p Hp)).
      * intros p Ho. assert (owned s1 p) as Ho1 by by apply Hw2.
        destruct (refilled_owned s s1 k N Hvm Hrf p Ho1) as [|Hk']; [by left|right]. by apply (rf_new _ _ _ Hrf).
Qed.

Lemma allocated_nil s v flags : allocated s s v 0 flags [].
Proof.
  split; [done|constructor|intros p Hp; set_solver|done|by intros p| |intros p Hp; set_solver|by left].
  intros u. by rewrite decide_False by lia.
Qed.

Lemma allocated_trans s1 s2 s3 N v n m flags l k : vm_ok s2 N ->
  allocated s1 s2 v n flags l -> allocated s2 s3 (v + n) m flags k ->
  allocated s1 s3 v (n + m) flags (l ++ k).
Proof.
  intros Hvm [L1 N1 F1 G1 K1 M1 D1 O1] [L2 N2 F2 G2 K2 M2 D2 O2]. split.
  - rewrite zlen_app. lia.
  - apply list.NoDup_app. split_and!; [done| |done]. intros p Hl Hk.
    by pose proof (frame_unique _ _ _ _ _ (vk_serves _ _ Hvm) (proj2 (F1 p Hl)) (proj1 (F2 p Hk))).
  - intros p. rewrite elem_of_app. intros [Hp|Hp].
    + split; [by apply F1|by apply G2, F1].
    + split; [by apply K1, F2|by apply F2].
  - auto.
  - intros p Hp. by apply K1, K2.
  - pose proof (zlen_nonneg l). pose proof (zlen_nonneg k).
    eapply mapped_range_ext; [|eapply (mapped_range_trans _ _ _ v n m); [lia|lia|exact M1|exact M2]].
    intros i Hi. cbn beta. rewrite nthZ_app by lia. by rewrite L1.
  - intros p. rewrite elem_of_app. intros [Hp|Hp] Ho; [|by apply (D2 p)].
    destruct (O2 p Ho) as [Ho2|Hf]; [by apply (D1 p)|].
    by pose proof (frame_unique _ _ _ _ _ (vk_serves _ _ Hvm) (proj2 (F1 p Hp)) Hf).
  - intros p Ho. destruct (O2 p Ho) as [Ho2|Hf]; [by apply O1|right; by apply K1].
Qed.

Lemma alloc_pages_loop_ok fuel : forall s N va v count,
  vm_ok s N -> flags_ok (cpu_private_flags s) -> 0 <= va < 2 ^ 64 -> va mod 0x1000 = 0 ->
  (0 < count -> vpn va = v) -> 0 <= count < 2 ^ 32 -> count <= Z.of_nat fuel -> v + count <= 2 ^ 36 ->
  count + 16 * ((count + 4095) / 4096) <= N ->
  (forall k, 0 <= k < count -> leaf (mem s) (v + k) = None) ->
  exists s' l, alloc_pages_loop fuel va count s = Ok s' /\
    vm_ok s' (N - (count + 16 * ((count + 4095) / 4096))) /\ allocated s s' v count (cpu_private_flags s) l.
Proof.
  induction fuel as [|fuel IH]; intros s N va v count Hvm Hf Hva Ha Hv Hc Hfu Hin HN Hno; cbn [alloc_pages_loop].
  all: destruct (Z.ltb_spec 0 count) as [Hpos|Hz]; [|].
  1: lia.
  2: { specialize (Hv Hpos). subst v. rewrite (wrap_small 32 count) by lia.
    set (n := if MAX_ALLOC <? count then MAX_ALLOC else count). unfold MAX_ALLOC in n.
    assert (n = Z.min 4096 count) as En by (subst n; destruct (Z.ltb_spec 4096 count); lia).
    destruct (alloc_chunk_ok s N va n) as (s1 & s2 & l & E1 & E2 & Hvm2 & Hal & Efl);
      unfold MAX_ALLOC, PTAAB_REFILL in *; try (done || lia).
    { intros k Hk. apply Hno. lia. }
    rewrite E1. unfold mbind, res_bind. rewrite E2.
    destruct (IH s2 (N - 16 - n) (u64 (va + u32 (n * 0x1000))) (vpn va + n) (count - n)) as (s3 & k & E3 & Hvm3 & Hal3); try (done || lia).
    - by rewrite Efl.
    - apply Z.mod_pos_bound. lia.
    - unfold wrap. rewrite (Z.mod_small (n * _)) by lia. change (2 ^ 64) with (0x1000 * 2 ^ 52). lia.
    - intros Hlt. rewrite (wrap_small 32 (n * _)) by lia. rewrite vpn_add; lia.
    - intros k Hk. rewrite (al_map _ _ _ _ _ _ Hal), decide_False by lia. rewrite <- Z.add_assoc. apply Hno. lia.
    - exists s3, (l ++ k). split_and!; [done| |].
      + destruct Hvm3 as [? ? Hs3]. split; [done|done|]. eapply serves_le; [exact Hs3|lia].
      + rewrite Efl in Hal3. replace count with (n + (count - n)) at 1 by lia.
        eapply allocated_trans; [exact Hvm2|exact Hal|exact Hal3]. }
  all: exists s, []; split_and!; [done|..].
  2,4: replace count with 0 by lia; apply allocated_nil.
  all: destruct Hvm as [? ? Hs]; split; [done|done|]; eapply serves_le; [exact Hs|lia].
Qed.

(** C13: [alloc_pages] on a consistent address space returns whenever the range is not
    mapped and the allocator has enough pages: every page of the range is then
    mapped, with the given flags, to a frame of its own that was free before and does
    not hold a table; all other pages translate as before, and the tree of tables and the buffer of spare
    tables are consistent again.  In particular the 16 spare tables of a refill are
    enough for each bulk of 4096 pages (at most 13 are taken). *)
Theorem alloc_pages_correct s N va count flags :
  vm_ok s N -> flags_ok flags -> 0 <= va < 2 ^ 64 -> va mod 0x1000 = 0 -> 0 <= count < 2 ^ 32 ->
  vpn va + count <= 2 ^ 36 -> count + 16 * ((count + 4095) / 4096) <= N ->
  (forall k, 0 <= k < count -> leaf (mem s) (vpn va + k) = None) ->
  exists s' l, alloc_pages va count flags s = Ok s' /\
    vm_ok s' (N - (count + 16 * ((count + 4095) / 4096))) /\ allocated s s' (vpn va) count flags l.
Proof.
  intros Hvm Hf Hva Ha Hc Hin HN Hno. unfold alloc_pages.
  destruct (alloc_pages_loop_ok (Z.to_nat count) (set_flags (set_realloc s false) flags) N va (vpn va) count)
    as (s' & l & E & Hvm' & Hal); try (done || lia).
  { destruct Hvm as [? [] ?]. by split. }
  exists s', l. split_and!; [done|done|]. by destruct Hal.
Qed.
End Theorems.
