(* ===== verification/PagingOps.v ===== *)
(** * Virtual memory: translation, mapping of given frames, unmapping *)

From S2P Require Import Prelude Bytes Interfaces Pmm PmmBitmap PmmAlloc PmmPhysalloc PmmFree PmmInit PmmInterface Paging PagingProofs PagingMap PagingTheorems.





Section Ops.
Context {A : Type} `{PhysAllocator A}.
Implicit Types s : paging A.
Notation size s := (page_table_allocator_buffer_size s).

(** ** Software walks *)

Lemma slot_below M n q : slot M n q = None -> forall i, 0 <= i < 512 -> slot M (S n) (q * 512 + i) = None.
Proof.
  intros E i Hi. unfold slot at 1. replace ((q * 512 + i) / 512) with q by lia. by rewrite node_S, E.
Qed.

(** The entry of an address at level [n], and the test every walk makes on it. *)
Lemma walk_step s N n q t : vm_ok s N -> (n <= 3)%nat -> node (mem s) n (q / 512) = Some t ->
  exists e, get_entry t (q mod 512) s = Ok e /\ load_entry t (q mod 512) s = Ok e /\
    slot (mem s) n q = if_present e.
Proof.
  intros Hvm Hn Ht. destruct (node_entry s N n (q / 512) t (q mod 512) Hvm Hn Ht) as (e & He & E); [lia|].
  replace (q / 512 * 512 + q mod 512) with q in E by lia. exists e. split_and!; [|done|done].
  unfold get_entry, assert_. by replace (q mod 512 <? 512) with true by lia.
Qed.

Lemma leaf_none s v n : (n < 3)%nat -> slot (mem s) n (pfx n v) = None -> leaf (mem s) v = None.
Proof.
  intros Hn E. assert (forall m q, slot (mem s) m (q / 512) = None -> slot (mem s) (S m) q = None) as Hd.
  { intros m q Eq. replace q with (q / 512 * 512 + q mod 512) by lia. apply slot_below; [done|lia]. }
  destruct n as [|[|[|n]]]; [..|lia]; cbn [pfx] in E; unfold leaf; eauto.
Qed.

(** [get_phys_addr] is the translation of the address: 0 when no page is mapped there,
    and otherwise the frame of the page with the offset of the address. *)
Theorem get_phys_addr_correct s N va : vm_ok s N ->
  get_phys_addr va s =
    Ok (match leaf (mem s) (vpn va) with
        | Some e => Z.lor (extract_pointer e) (Z.land va 0xfff)
        | None => 0
        end).
Proof.
  intros Hvm. destruct (offsets va) as (O3 & O2 & O1 & O0 & Hv). unfold get_phys_addr. rewrite O0, O1, O2, O3.
  set (v := vpn va) in *.
  destruct (walk_step s N 0 (v / 512 / 512 / 512) Pml4 Hvm) as (e0 & -> & _ & E0); [lia|by rewrite Hv|].
  unfold mbind, res_bind. destruct (present_entry e0) eqn:P0; unfold if_present in E0; rewrite P0 in E0;
    cbn [negb]; [|by rewrite (leaf_none s v 0 ltac:(lia) E0)].
  destruct (walk_step s N 1 (v / 512 / 512) _ Hvm ltac:(lia) (slot_node _ _ _ _ E0)) as (e1 & -> & _ & E1).
  destruct (present_entry e1) eqn:P1; unfold if_present in E1; rewrite P1 in E1;
    cbn [negb]; [|by rewrite (leaf_none s v 1 ltac:(lia) E1)].
  destruct (walk_step s N 2 (v / 512) _ Hvm ltac:(lia) (slot_node _ _ _ _ E1)) as (e2 & -> & _ & E2).
  destruct (present_entry e2) eqn:P2; unfold if_present in E2; rewrite P2 in E2;
    cbn [negb]; [|by rewrite (leaf_none s v 2 ltac:(lia) E2)].
  destruct (walk_step s N 3 v _ Hvm ltac:(lia) (slot_node _ _ _ _ E2)) as (e3 & -> & _ & E3).
  unfold leaf. rewrite E3. unfold if_present. destruct (present_entry e3); cbn [negb]; [|done].
  unfold assert_. change 0xfff with (Z.ones 12). rewrite !Z.land_ones by lia. change (2 ^ 12) with 0x1000.
  rewrite extract_aligned. change (0 =? 0) with true. by replace (va mod 0x1000 <? 0x1000) with true by lia.
Qed.

Lemma get_page_table_ok s N va e : vm_ok s N -> leaf (mem s) (vpn va) = Some e ->
  exists t, get_page_table_or_panic va s = Ok t /\ node (mem s) 3 (vpn va / 512) = Some t.
Proof.
  intros Hvm He. destruct (offsets va) as (_ & O2 & O1 & O0 & Hv).
  unfold get_page_table_or_panic, get_entry_or_panic, assert_. rewrite O0, O1, O2. set (v := vpn va) in *.
  replace (v / 512 / 512 / 512 mod 512 <? 512) with true by lia.
  replace (v / 512 / 512 mod 512 <? 512) with true by lia. replace (v / 512 mod 512 <? 512) with true by lia.
  destruct (walk_step s N 0 (v / 512 / 512 / 512) Pml4 Hvm) as (e0 & _ & -> & E0); [lia|by rewrite Hv|].
  unfold mbind, res_bind. destruct (present_entry e0) eqn:P0; unfold if_present in E0; rewrite P0 in E0;
    cbn [negb]; [|by rewrite (leaf_none s v 0 ltac:(lia) E0) in He].
  destruct (walk_step s N 1 (v / 512 / 512) _ Hvm ltac:(lia) (slot_node _ _ _ _ E0)) as (e1 & _ & -> & E1).
  destruct (present_entry e1) eqn:P1; unfold if_present in E1; rewrite P1 in E1;
    cbn [negb]; [|by rewrite (leaf_none s v 1 ltac:(lia) E1) in He].
  destruct (walk_step s N 2 (v / 512) _ Hvm ltac:(lia) (slot_node _ _ _ _ E1)) as (e2 & _ & -> & E2).
  destruct (present_entry e2) eqn:P2; unfold if_present in E2; rewrite P2 in E2;
    cbn [negb]; [|by rewrite (leaf_none s v 2 ltac:(lia) E2) in He].
  exists (Phys (extract_pointer e2)). split; [done|]. by apply slot_node.
Qed.

(** ** [map_pages] *)

(** One turn of [map_pages]: at most 64 pages after a refill of the buffer. *)
Lemma map_batch_ok s N pa va v n flags :
  vm_ok s N -> flags_ok flags -> 0 <= va < 2 ^ 64 -> (0 < n -> vpn va = v) -> v + n <= 2 ^ 36 -> 0 <= pa ->
  pa + n * 0x1000 <= 2 ^ 52 -> pa mod 0x1000 = 0 -> 0 <= n <= 64 -> 64 <= N ->
  (forall k, 0 <= k < n -> leaf (mem s) (v + k) = None) ->
  exists s1 s', fill_page_table_allocator_buffer PTAAB_SIZE s = Ok s1 /\
    internal_map_pages pa va n flags s1 = Ok s' /\ vm_ok s' (N - 64) /\
    mapped_range s s' v n flags (fun i => pa + i * 0x1000).
Proof.
  intros Hvm Hf Hva Hv Hin Hpa0 Hpa Hpm Hn HN Hno.
  pose proof (bk_size _ (vk_buffer _ _ Hvm)) as Hsz. unfold PTAAB_SIZE in *.
  destruct (fill_ok s N 64 Hvm) as (s1 & l & -> & Hrf & Hl & Hser & _); [done|lia|].
  assert (vm_ok s1 (N - 64)) as Hvm1.
  { apply (refilled_vm_ok s s1 l N); [done|done|]. eapply serves_le; [exact Hser|lia]. }
  assert (forall u, leaf (mem s1) u = leaf (mem s) u) as Hleaf
    by (intros u; by apply (refilled_slot s s1 l N Hvm Hrf)).
  destruct (rf_size _ _ _ Hrf) as [Hs1 _]. exists s1.
  destruct (decide (n = 0)) as [->|Hne].
  { exists s1. split_and!; [done|done|done|]. intros u. rewrite decide_False by lia. apply Hleaf. }
  specialize (Hv ltac:(lia)). subst v. pose proof (vpn_range va).
  destruct (internal_map_ok s1 (N - 64) pa va n flags (vpn va + n)) as (s2 & -> & (Hvm2 & _ & Hm2 & _) & _);
    try (done || lia).
  - intros k Hk. rewrite Hleaf. by apply Hno.
  - intros _. pose proof (need_bound s1 (vpn va) n ltac:(lia) ltac:(lia)). lia.
  - exists s2. split_and!; [done|done|done|]. by apply (mapped_range_leaves s1 s s2 s2).
Qed.

Lemma map_pages_loop_ok flags fuel : forall s N pa va v count,
  vm_ok s N -> flags_ok flags -> 0 <= va < 2 ^ 64 -> (0 < count -> vpn va = v) ->
  v + count <= 2 ^ 36 -> 0 <= pa -> pa + count * 0x1000 <= 2 ^ 52 -> pa mod 0x1000 = 0 ->
  0 <= count <= 64 * (Z.of_nat fuel + 1) -> 64 * (Z.of_nat fuel + 1) <= N ->
  (forall k, 0 <= k < count -> leaf (mem s) (v + k) = None) ->
  exists s', map_pages_loop fuel pa va count flags s = Ok s' /\ vm_ok s' (N - 64 * (Z.of_nat fuel + 1)) /\
    mapped_range s s' v count flags (fun i => pa + i * 0x1000).
Proof.
  induction fuel as [|fuel IH]; intros s N pa va v count Hvm Hf Hva Hv Hin Hpa0 Hpa Hpm Hc HN Hno;
    cbn [map_pages_loop].
  all: destruct (map_batch_ok s N pa va v (Z.min count 64) flags) as (s1 & s2 & -> & E2 & Hvm2 & Hm2);
    try (done || lia); [intros; apply Hno; lia|].
  all: unfold mbind, res_bind, PTAAB_SIZE; destruct (Z.ltb_spec 64 count) as [Hgt|Hle]; [try lia|].
  2: { replace (Z.min count 64) with 64 in * by lia. rewrite E2. specialize (Hv ltac:(lia)). subst v.
    destruct (IH s2 (N - 64) (u64 (pa + 0x1000 * 64)) (u64 (va + 0x1000 * 64)) (vpn va + 64) (count - 64))
      as (s3 & E & Hvm3 & Hm3); rewrite ?(u64_small (pa + _)) by lia; try (done || lia).
    - apply Z.mod_pos_bound. lia.
    - intros _. replace (0x1000 * 64) with (64 * 0x1000) by lia. apply vpn_add; lia.
    - intros k Hk. rewrite Hm2, decide_False by lia. rewrite <- Z.add_assoc. apply Hno. lia.
    - exists s3. split_and!; [by rewrite u64_small in E by lia| |].
      + by replace (N - 64 * (Z.of_nat (S fuel) + 1)) with (N - 64 - 64 * (Z.of_nat fuel + 1)) by lia.
      + rewrite u64_small in Hm3 by lia. replace count with (64 + (count - 64)) by lia.
        eapply mapped_range_ext; [|eapply (mapped_range_trans _ s2); [lia|lia|exact Hm2|exact Hm3]].
        intros i Hi. cbn beta. case_decide; lia. }
  all: replace (Z.min count 64) with count in * by lia; exists s2; split_and!; [done| |done].
  all: destruct Hvm2 as [? ? Hs2]; split; [done|done|]; eapply serves_le; [exact Hs2|lia].
Qed.

(** [map_pages] maps the given consecutive frames to the given pages, 64 at a time,
    when none of the pages was mapped: every page of the range translates to its
    frame, all others as before. *)
Theorem map_pages_correct s N pa va count flags :
  vm_ok s N -> flags_ok flags -> 0 < va < 2 ^ 64 -> vpn va + count <= 2 ^ 36 -> 0 <= count ->
  0 < pa -> pa + count * 0x1000 <= 2 ^ 52 -> pa mod 0x1000 = 0 -> 64 * (count / 64 + 1) <= N ->
  (forall k, 0 <= k < count -> leaf (mem s) (vpn va + k) = None) ->
  exists s', map_pages pa va count flags s = Ok s' /\ vm_ok s' (N - 64 * (count / 64 + 1)) /\
    mapped_range s s' (vpn va) count flags (fun i => pa + i * 0x1000).
Proof.
  intros Hvm Hf Hva Hin Hc Hpa0 Hpa Hpm HN Hno. unfold map_pages, assert_.
  replace (pa =? 0) with false by lia. replace (va =? 0) with false by lia. cbn [negb]. unfold mbind, res_bind.
  destruct (map_pages_loop_ok flags (Z.to_nat (count / 64)) s N pa va (vpn va) count) as (s' & E & Hvm' & Hm);
    try (done || lia).
  exists s'. split_and!; [done| |done]. by rewrite Z2Nat.id in Hvm' by lia.
Qed.
End Ops.

(** * Virtual memory: unmapping *)


Section Unmap.
Context {A : Type} `{PhysAllocator A}.
Implicit Types s : paging A.

(** A frame that may be released: it does not hold a table. *)
Definition data_frame s (p : Z) : Prop :=
  releasable (pmm s) p /\ ~ owned s p.

(** [s'] has the tree and the spare tables of [s]. *)
Definition same_tree s s' : Prop :=
  (forall n r, (n <= 3)%nat -> node (mem s') n r = node (mem s) n r) /\
  (forall n r, (n <= 3)%nat -> slot (mem s') n r = slot (mem s) n r) /\ spare s' = spare s.

Lemma physfree_page_ok s N p : vm_ok s N -> data_frame s p ->
  exists s', physfree_page p s = Ok s' /\ vm_ok s' N /\ same_tree s s' /\
    (forall q b, frame (pmm s') q b <-> exists b0, frame (pmm s) q b0 /\ b = b0 && negb (q =? p)) /\
    (forall q, releasable (pmm s) q -> q <> p -> releasable (pmm s') q).
Proof.
  intros Hvm (Hrel & Hown). unfold physfree_page.
  assert (forall n r, (n <= 3)%nat -> node (mem s) n r <> Some (Phys p)) as Hno
    by (intros n r Hn E; apply Hown; left; eauto).
  assert (p ∉ spare s) as Hsp by (intros Hp; apply Hown; by right).
  destruct (phys_free_releasable (pmm s) N p (vk_serves _ _ Hvm) Hrel) as (a & -> & Hser & Hfr & Hr).
  unfold mbind, res_bind. eexists. split; [done|]. set (s' := set_tables _ _).
  assert (forall n r t, (n <= 3)%nat -> node (mem s) n r = Some t -> table_of (mem s') t = table_of (mem s) t) as Htab.
  { intros n r [|q] Hn Ht; [done|]. cbn. rewrite lookup_delete_ne; [done|]. intros <-. by apply (Hno n r). }
  assert (same_tree s s') as (Hnode & Hslot & Hspare).
  { split_and!; [by apply node_ext|by apply slot_ext|done]. }
  assert (forall q, q <> p -> frame (pmm s) q true -> frame a q true) as Hkeep.
  { intros q Hq Hq'. apply Hfr. exists true. split; [done|]. by replace (q =? p) with false by lia. }
  split_and!; try done. destruct Hvm as [[Htb Hinj Hus] [Hlen Hsz Hnd Hb] _]. split; [split|split|done]; try done.
  - intros n r t Hn. rewrite Hnode by done. intros Ht. unfold is_table. rewrite (Htab n r) by done. by apply (Htb n r).
  - intros m m' x y u Hm Hm'. rewrite !Hnode by done. by apply Hinj.
  - intros n r q Hn. rewrite Hnode by done. intros Hq. apply Hkeep; [|by apply (Hus n r)]. intros ->. by apply (Hno n r).
  - intros q Hq. destruct (Hb q Hq) as (Hf & Hz & Hn). assert (q <> p) as Hne by (intros ->; by apply Hsp).
    split_and!; [by apply Hkeep| |].
    + cbn. by rewrite lookup_delete_ne.
    + intros n r Hn3. rewrite Hnode by done. by apply Hn.
Qed.

(** The conditional release in [unmap_pages]. *)
Lemma release_frame_ok s N p (free : bool) : vm_ok s N -> (free = true -> data_frame s p) ->
  exists s1, (if free then physfree_page p s else Ok s) = Ok s1 /\ vm_ok s1 N /\ same_tree s s1 /\
    (forall q b, frame (pmm s) q b -> (free = true -> q <> p) -> frame (pmm s1) q b) /\
    (free = true -> frame (pmm s1) p false) /\
    (forall q, releasable (pmm s) q -> (free = true -> q <> p) -> releasable (pmm s1) q).
Proof.
  intros Hvm Hd. destruct free; [|by exists s].
  destruct (physfree_page_ok s N p Hvm (Hd eq_refl)) as (s1 & -> & Hvm1 & Hst & Hfr & Hrel).
  exists s1. split_and!; try done.
  - intros q b Hq Hne. apply Hfr. exists b. split; [done|].
    replace (q =? p) with false; [by destruct b|]. specialize (Hne eq_refl). lia.
  - intros _. apply Hfr. exists true. rewrite Z.eqb_refl. split; [|done].
    apply releasable_frame, Hd. done.
  - intros q Hq Hne. by apply Hrel, Hne.
Qed.

Section Range.
Variables (s0 : paging A) (N va0 count : Z) (free : bool) (F : Z -> Z).
Notation v0 := (vpn va0).
Hypothesis va0_range : 0 <= va0 < 2 ^ 64.
Hypothesis in_space : v0 + count <= 2 ^ 36.
Hypothesis mapped : forall k, 0 <= k < count ->
  exists e, leaf (mem s0) (v0 + k) = Some e /\ extract_pointer e = F k.
Hypothesis distinct : free = true -> forall j k, 0 <= j < count -> 0 <= k < count -> F j = F k -> j = k.

Record unmap_I (k : Z) s : Prop := {
  ui_vm : vm_ok s N;
  ui_leaf : forall u, leaf (mem s) u = if decide (v0 <= u < v0 + k) then None else leaf (mem s0) u;
  ui_data : free = true -> forall j, k <= j < count -> data_frame s (F j);
  ui_freed : free = true -> forall j, 0 <= j < k -> frame (pmm s) (F j) false;
  ui_frame : forall q b, frame (pmm s0) q b -> (free = true -> forall j, 0 <= j < k -> q <> F j) ->
    frame (pmm s) q b
}.
Definition unmap_J (r k : Z) s (t : table_ptr) : Prop := unmap_I k s /\ node (mem s) 3 r = Some t.

Lemma unmap_find_ok k s : 0 <= k < count -> unmap_I k s ->
  exists s' t, (pt ← get_page_table_or_panic (page_va va0 k) s; Ok (s, pt)) = Ok (s', t) /\
    unmap_J ((v0 + k) / 512) k s' t.
Proof using All.
  intros Hk HI. assert (vpn (page_va va0 k) = v0 + k) as Ev by (apply vpn_add; lia).
  destruct (mapped k Hk) as (e & He & _).
  destruct (get_page_table_ok s N (page_va va0 k) e (ui_vm _ _ HI)) as (t & -> & Ht); rewrite Ev in *.
  { by rewrite (ui_leaf _ _ HI), decide_False by lia. }
  exists s, t. by split.
Qed.

(** Erasing one entry, after its frame was released or not. *)
Lemma unmap_erase_ok r k s s1 t : 0 <= k < count -> (v0 + k) / 512 = r -> unmap_J r k s t ->
  vm_ok s1 N -> same_tree s s1 ->
  (forall q b, frame (pmm s) q b -> (free = true -> q <> F k) -> frame (pmm s1) q b) ->
  (free = true -> frame (pmm s1) (F k) false) ->
  (forall q, releasable (pmm s) q -> (free = true -> q <> F k) -> releasable (pmm s1) q) ->
  exists s', store_entry t ((v0 + k) mod 512) 0 s1 = Ok s' /\ unmap_J r (k + 1) s' t.
Proof using All.
  intros Hk Hr [HI Ht] Hvm1 (Hnode & Hslot & Hspare) Hfr Hfk Hrel.
  assert (0 <= (v0 + k) mod 512 < 512) as Hi by lia.
  assert (r * 512 + (v0 + k) mod 512 = v0 + k) as Ed by lia.
  assert (node (mem s1) 3 r = Some t) as Ht1 by by rewrite Hnode by lia.
  assert (writable s1 3 r ((v0 + k) mod 512) 0) as Hw by by right.
  pose proof (put_slots s1 N 3 r t _ 0 Hvm1 ltac:(lia) Ht1 Hi Hw) as Hs. rewrite Ed in Hs.
  pose proof (fun m q => node_of_slots _ _ 3 (v0 + k) (if_present 0) m q Hs) as Hn.
  rewrite store_entry_ok; [|by apply (tk_table _ _ (vk_tree _ _ Hvm1) 3%nat r); [lia|]|done].
  set (s' := put _ _ _ _) in *. exists s'. split; [done|]. split; [|by rewrite Hn, decide_False by lia].
  split.
  - by apply (put_ok s1 N 3 r).
  - intros u. unfold leaf. rewrite Hs by lia. destruct (decide (3%nat = 3%nat /\ u = v0 + k)) as [[_ ->]|Hne].
    + by rewrite decide_True by lia.
    + rewrite Hslot by lia. change (slot (mem s) 3 u) with (leaf (mem s) u). rewrite (ui_leaf _ _ HI).
      destruct (decide (v0 <= u < v0 + k)); [rewrite decide_True by lia|rewrite decide_False by lia]; done.
  - intros Hf j Hj. destruct (ui_data _ _ HI Hf j ltac:(lia)) as (Hre & Hown). split.
    + apply Hrel; [done|]. intros _ E. apply distinct in E; [lia|done|lia|lia].
    + intros [(n & q & Hn3 & Hq)|Hq]; apply Hown; [left; exists n, q|right].
      * by rewrite Hn, decide_False, Hnode in Hq by lia.
      * change (spare s') with (spare s1) in Hq. by rewrite Hspare in Hq.
  - intros Hf j Hj. change (pmm s') with (pmm s1). destruct (decide (j = k)) as [->|]; [by apply Hfk|].
    apply Hfr; [by apply (ui_freed _ _ HI); [|lia]|]. intros _ E. apply distinct in E; [lia|done|lia|lia].
  - intros q b Hq Hne. change (pmm s') with (pmm s1). apply Hfr.
    + apply (ui_frame _ _ HI); [done|]. intros Hf j Hj. apply Hne; [done|lia].
    + intros Hf. apply Hne; [done|lia].
Qed.

Lemma unmap_body_ok r k s t : 0 <= k < count -> (v0 + k) / 512 = r -> unmap_J r k s t ->
  exists s', unmap_entry free t ((v0 + k) mod 512) (page_va va0 k) s = Ok s' /\ unmap_J r (k + 1) s' t.
Proof using All.
  intros Hk Hr HJ. pose proof HJ as [HI Ht]. pose proof (ui_vm _ _ HI) as Hvm. destruct (mapped k Hk) as (e0 & He & EF).
  destruct (node_entry s N 3 r t ((v0 + k) mod 512) Hvm) as (e & Hld & Es); [lia|done|lia|].
  replace (r * 512 + (v0 + k) mod 512) with (v0 + k) in Es by lia.
  assert (e = e0 /\ present_entry e0 = true) as [-> Hp].
  { apply if_present_Some. rewrite <- Es. change (slot (mem s) 3 (v0 + k)) with (leaf (mem s) (v0 + k)).
    by rewrite (ui_leaf _ _ HI), decide_False by lia. }
  unfold unmap_entry. rewrite Hld. unfold mbind, res_bind. rewrite Hp, EF. cbn [negb].
  destruct (release_frame_ok s N (F k) free Hvm) as (s1 & -> & Hvm1 & Hst & Hfr & Hfk & Hrel).
  { intros Hf. apply (ui_data _ _ HI); [done|lia]. }
  by apply (unmap_erase_ok r k s s1 t).
Qed.
End Range.

(** C14: [unmap_pages] on mapped pages removes exactly those translations, and with [free]
    gives their frames back to the allocator, which keeps every other frame as it
    was. *)
Theorem unmap_pages_correct s N va count (free : bool) (F : Z -> Z) :
  vm_ok s N -> 0 <= va < 2 ^ 64 -> 0 <= count -> vpn va + count <= 2 ^ 36 ->
  (forall k, 0 <= k < count -> exists e, leaf (mem s) (vpn va + k) = Some e /\ extract_pointer e = F k) ->
  (free = true -> forall j k, 0 <= j < count -> 0 <= k < count -> F j = F k -> j = k) ->
  (free = true -> forall k, 0 <= k < count -> data_frame s (F k)) ->
  exists s', unmap_pages va count free s = Ok s' /\ vm_ok s' N /\
    (forall u, leaf (mem s') u =
      if decide (vpn va <= u < vpn va + count) then None else leaf (mem s) u) /\
    (free = true -> forall k, 0 <= k < count -> frame (pmm s') (F k) false) /\
    (forall q b, frame (pmm s) q b -> (free = true -> forall k, 0 <= k < count -> q <> F k) ->
      frame (pmm s') q b).
Proof.
  intros Hvm Hva Hc Hin Hmap Hd Hdata. unfold unmap_pages.
  destruct (range_loop_rule (fun va s => pt ← get_page_table_or_panic va s; Ok (s, pt)) (unmap_entry free)
    va count Hva Hin (unmap_I s N va count free F) (unmap_J s N va count free F)) with (s := s) as (s' & E & HI); try done.
  - by apply unmap_find_ok.
  - by apply unmap_body_ok.
  - by intros r k s' t _ _ [HI _].
  - split; [done|intros u; by rewrite decide_False by lia|auto|intros _ j Hj; lia|auto].
  - exists s'. destruct HI. by split_and!.
Qed.
End Unmap.

(** * Virtual memory: page directories, and what [remap_pages] and [free_page_range] do *)


Section Dirs.
Context {A : Type} `{PhysAllocator A}.
Implicit Types s : paging A.

(** ** [remap_pages] *)

Lemma leaf_missing s v e m : leaf (mem s) v = Some e -> (m < 3)%nat -> missing s m (pfx m v) = 0.
Proof.
  intros He Hm. unfold missing. destruct (slot (mem s) m (pfx m v)) eqn:E; [done|].
  by rewrite (leaf_none s v m Hm E) in He.
Qed.

Section Remap.
Variables (s0 : paging A) (N va0 count flags : Z).
Notation v0 := (vpn va0).
Hypothesis va0_range : 0 <= va0 < 2 ^ 64.
Hypothesis in_space : v0 + count <= 2 ^ 36.
Hypothesis mapped : forall k, 0 <= k < count -> exists e, leaf (mem s0) (v0 + k) = Some e.

Definition remap_I (k : Z) s : Prop :=
  vm_ok s N /\ forall u, leaf (mem s) u =
    if decide (v0 <= u < v0 + k) then if_present flags else leaf (mem s0) u.
Definition remap_J (r k : Z) s (t : table_ptr) : Prop := remap_I k s /\ node (mem s) 3 r = Some t.

Lemma remap_find_ok k s : 0 <= k < count -> remap_I k s ->
  exists s' t, page_table_or_allocate (page_va va0 k) s = Ok (s', t) /\ remap_J ((v0 + k) / 512) k s' t.
Proof using All.
  intros Hk [Hvm Hl]. assert (vpn (page_va va0 k) = v0 + k) as Ev by (apply vpn_add; lia).
  destruct (mapped k Hk) as (e & He). rewrite <- (decide_False (P := v0 <= v0 + k < v0 + k) (if_present flags) (leaf (mem s0) (v0 + k))), <- Hl in He by lia.
  pose proof (fun m => leaf_missing s _ e m He) as Hm.
  pose proof (bk_size _ (vk_buffer _ _ Hvm)).
  destruct (page_table_or_allocate_ok s N (page_va va0 k) Hvm) as (s' & t & E & Hvm' & Hg & _ & Ht & _); rewrite Ev in *.
  { rewrite !Hm by lia. lia. }
  exists s', t. split; [done|]. split; [|done]. split; [done|]. intros u. by rewrite (gr_leaf _ _ Hg).
Qed.

Lemma remap_body_ok r k s t : 0 <= k < count -> (v0 + k) / 512 = r -> remap_J r k s t ->
  exists s', remap_entry flags t ((v0 + k) mod 512) (page_va va0 k) s = Ok s' /\ remap_J r (k + 1) s' t.
Proof using All.
  intros Hk Hr [[Hvm Hl] Ht]. destruct (mapped k Hk) as (e0 & He).
  assert (0 <= (v0 + k) mod 512 < 512) as Hi by lia.
  assert (r * 512 + (v0 + k) mod 512 = v0 + k) as Ed by lia.
  destruct (node_entry s N 3 r t ((v0 + k) mod 512) Hvm) as (e & Hld & Es); [lia|done|lia|]. rewrite Ed in Es.
  assert (e = e0 /\ present_entry e0 = true) as [-> Hp].
  { apply if_present_Some. rewrite <- Es. change (slot (mem s) 3 (v0 + k)) with (leaf (mem s) (v0 + k)).
    by rewrite Hl, decide_False by lia. }
  unfold remap_entry. rewrite Hld. unfold mbind, res_bind. rewrite Hp. cbn [negb].
  rewrite create_entry_ok by done. rewrite Z.lor_0_r.
  assert (writable s 3 r ((v0 + k) mod 512) flags) as Hw by by right.
  pose proof (put_slots s N 3 r t _ flags Hvm ltac:(lia) Ht Hi Hw) as Hs. rewrite Ed in Hs.
  rewrite store_entry_ok; [|by apply (tk_table _ _ (vk_tree _ _ Hvm) 3%nat r); [lia|]|done].
  eexists. split; [done|]. split.
  - split; [by apply (put_ok s N 3 r)|]. intros u. unfold leaf. rewrite Hs by lia.
    destruct (decide (3%nat = 3%nat /\ u = v0 + k)) as [[_ ->]|Hne].
    + by rewrite decide_True by lia.
    + change (slot (mem s) 3 u) with (leaf (mem s) u). rewrite Hl.
      destruct (decide (v0 <= u < v0 + k)); [rewrite decide_True by lia|rewrite decide_False by lia]; done.
  - rewrite (node_of_slots _ _ 3 (v0 + k) (if_present flags) 3 r Hs) by lia. by rewrite decide_False by lia.
Qed.
End Remap.

(** [remap_pages] forgets the frames: it is meant to change the flags of mapped pages,
    but each entry is rebuilt with the address 0, so that every page of the range is
    mapped to the frame 0 afterwards. *)
Theorem remap_pages_loses_frames s N va count flags :
  vm_ok s N -> flags_ok flags -> 0 <= va < 2 ^ 64 -> 0 <= count -> vpn va + count <= 2 ^ 36 ->
  (forall k, 0 <= k < count -> exists e, leaf (mem s) (vpn va + k) = Some e) ->
  exists s', remap_pages va count flags s = Ok s' /\ vm_ok s' N /\
    forall u, vpn va <= u < vpn va + count ->
      leaf (mem s') u = Some flags /\ extract_pointer flags = 0.
Proof.
  intros Hvm [Hf1 Hf2] Hva Hc Hin Hmap. unfold remap_pages.
  destruct (range_loop_rule page_table_or_allocate (remap_entry flags) va count Hva Hin
    (remap_I s N va flags) (remap_J s N va flags)) with (s := s) as (s' & E & Hvm' & Hl); try done.
  - by apply remap_find_ok.
  - by apply remap_body_ok.
  - by intros r k s' t _ _ [HI _].
  - split; [done|]. intros u. by rewrite decide_False by lia.
  - exists s'. split_and!; [done|done|]. intros u Hu. rewrite Hl, decide_True by done.
    unfold if_present. by rewrite Hf2.
Qed.

(** ** [get_pd] *)

(** The prefix that [get_pd] tests at level 2: the index of level 1 in the table of level
    2. *)
Definition tested_pfx (va : Z) : Z := pfx 1 (vpn va) * 512 + pfx 1 (vpn va) mod 512.

(** [get_pd] returns the address of the table that is mapped at the address, or 0, for
    the levels 0 and 1; for level 2 it tests the presence of the wrong entry, and its
    result is the address of the table only if that other entry is present. *)
Theorem get_pd_correct s N va : vm_ok s N ->
  let pd n := match slot (mem s) n (pfx n (vpn va)) with Some e => extract_pointer e | None => 0 end in
  get_pd va 0 s = Ok (pd 0%nat) /\ get_pd va 1 s = Ok (pd 1%nat) /\
  (slot (mem s) 2 (pfx 2 (vpn va)) <> None ->
   get_pd va 2 s = Ok (match slot (mem s) 2 (tested_pfx va) with Some _ => pd 2%nat | None => 0 end)).
Proof.
  intros Hvm. destruct (offsets va) as (_ & O2 & O1 & O0 & Hv). unfold get_pd, tested_pfx. rewrite O0, O1, O2.
  cbn [pfx]. set (v := vpn va) in *.
  destruct (walk_step s N 0 (v / 512 / 512 / 512) Pml4 Hvm) as (e0 & _ & -> & E0); [lia|by rewrite Hv|].
  unfold mbind, res_bind. rewrite E0. cbn [Z.ltb Z.compare Z.eqb].
  destruct (present_entry e0) eqn:P0; unfold if_present in *; rewrite P0 in *; cbn [negb]; cycle 1.
  { assert (slot (mem s) 1 (v / 512 / 512) = None) as En.
    { replace (v / 512 / 512) with (v / 512 / 512 / 512 * 512 + v / 512 / 512 mod 512) by lia.
      apply slot_below; [done|lia]. }
    rewrite En. split_and!; try done. intros []. replace (v / 512) with (v / 512 / 512 * 512 + v / 512 mod 512) by lia.
    apply slot_below; [done|lia]. }
  split; [done|].
  destruct (walk_step s N 1 (v / 512 / 512) _ Hvm ltac:(lia) (slot_node _ _ _ _ E0)) as (e1 & _ & -> & E1).
  rewrite E1. unfold if_present. destruct (present_entry e1) eqn:P1; unfold if_present in E1; rewrite P1 in E1; cbn [negb]; cycle 1.
  { split; [done|]. intros []. replace (v / 512) with (v / 512 / 512 * 512 + v / 512 mod 512) by lia.
    apply slot_below; [done|lia]. }
  split; [done|]. intros Hp2. pose proof (slot_node _ _ _ _ E1) as Ht.
  destruct (walk_step s N 2 (v / 512) _ Hvm ltac:(lia) Ht) as (e2 & _ & -> & E2).
  destruct (node_entry s N 2 (v / 512 / 512) _ (v / 512 / 512 mod 512) Hvm ltac:(lia) Ht ltac:(lia)) as (e3 & -> & E3).
  rewrite E2, E3 in *. unfold if_present in *. destruct (present_entry e2); [|done]. by destruct (present_entry e3).
Qed.

(** ** [free_page_range] *)

Lemma free_page_range_step fuel va count s : zlen (pml4 s) = 512 -> 0 <= va < 2 ^ 64 ->
  va mod 2 ^ 39 = 0 -> count <> 0 -> slot (mem s) 0 (pml4_offset va) = None ->
  free_page_range_loop (S fuel) va count s = free_page_range_loop fuel (u64 (va + 2 ^ 39)) count s.
Proof.
  intros Hz Hva Ha Hc Hs. cbn [free_page_range_loop]. replace (count =? 0) with false by lia. cbn [negb].
  destruct (offsets va) as (_ & _ & _ & Ho & _). assert (0 <= pml4_offset va < 512) as Hi by lia.
  unfold get_entry, assert_. replace (pml4_offset va <? 512) with true by lia. cbn [load_entry].
  rewrite ld_ok by lia. unfold mbind, res_bind.
  assert (present_entry (nthZ (pml4 s) (pml4_offset va)) = false) as ->.
  { unfold slot in Hs. rewrite Z.div_small in Hs by done. cbn [node] in Hs. change (0 =? 0) with true in Hs.
    cbn [mbind option_bind] in Hs. rewrite Z.mod_small in Hs by done. unfold entry_of in Hs.
    cbn [table_of mbind option_bind mem fst] in Hs. replace (0 <=? pml4_offset va) with true in Hs by lia.
    rewrite lookup_nthZ in Hs by lia. by apply if_present_None. }
  cbn [negb]. f_equal. f_equal. change (Z.shiftl 1 39) with (2 ^ 39). f_equal.
  change (u64 (Z.lnot (2 ^ 39 - 1))) with (Z.shiftl (Z.ones 25) 39). apply Z.bits_inj'. intros i Hi'.
  rewrite Z.land_spec, testbit_shiftl_ones by lia. destruct (Z.leb_spec 39 i), (Z.ltb_spec i (39 + 25)); cbn.
  - by rewrite andb_true_r.
  - rewrite andb_false_r. rewrite <- (Z.mod_small va (2 ^ 64)) by done. by rewrite Z.mod_pow2_bits_high by lia.
  - rewrite andb_false_r, <- (Z.mod_pow2_bits_low va 39 i) by lia. by rewrite Ha, Z.testbit_0_l.
  - lia.
Qed.

(** [free_page_range] does not count the 512 GB parts it skips because nothing is mapped
    there: asked to free one such part, it frees the next mapped part after the range
    instead, and when there is none it never returns. *)
Theorem free_page_range_overruns s va count : zlen (pml4 s) = 512 -> 0 <= va < 2 ^ 64 ->
  va mod 2 ^ 39 = 0 -> count mod 2 ^ 39 = 0 -> count <> 0 ->
  (slot (mem s) 0 (pml4_offset va) = None ->
   forall fuel, free_page_range (S fuel) va count s = free_page_range fuel (u64 (va + 2 ^ 39)) count s) /\
  ((forall i, slot (mem s) 0 i = None) -> forall fuel, free_page_range fuel va count s = Err NoFuel).
Proof.
  intros Hz Hva Ha Hc Hne. unfold free_page_range, assert_. change (Z.shiftl 1 39) with (2 ^ 39). rewrite Hc.
  assert (forall x, x mod 2 ^ 39 = 0 -> u64 (x + 2 ^ 39) mod 2 ^ 39 = 0) as Hal.
  { intros x Hx. unfold wrap. change (2 ^ 64) with (2 ^ 39 * 2 ^ 25). lia. }
  change (0 =? 0) with true. unfold mbind, res_bind. split.
  - intros Hs fuel. rewrite Ha, Hal by done. change (0 =? 0) with true. by rewrite free_page_range_step.
  - intros Hs fuel. rewrite Ha. change (0 =? 0) with true. revert va Hva Ha. induction fuel as [|fuel IH]; intros va Hva Ha.
    + cbn. by replace (count =? 0) with false by lia.
    + rewrite free_page_range_step by done. apply IH; [|by apply Hal]. apply Z.mod_pos_bound. lia.
Qed.
End Dirs.

(** * Virtual memory on a concrete machine

    200 pages of memory, managed by the physical memory manager of the kernel; an
    address space with nothing mapped, and the same one after an allocation. *)




Definition vm_map : list mmape := [Mmape 0x100000 (200 * 4096) USABLE].

Definition vm_pmm : pmm_state :=
  match init_pmm vm_map pmm_zero with Ok s => s | Err _ => pmm_zero end.

Lemma vm_pmm_serves : pmm_serves vm_pmm 199.
Proof.
  destruct (init_pmm_ok vm_map ltac:(cbn; repeat split; lia) ltac:(vm_compute; discriminate))
    as (s & ls & E & Hok & _ & Ha & _ & Hl & _).
  exists ls. unfold vm_pmm. rewrite E. unfold available_pages in *. rewrite Hl, Ha.
  split_and!; [done|vm_compute; discriminate..].
Qed.

(** No table but the [pml4], and no spare table. *)
Definition vm0 : paging pmm_state :=
  MkPaging (replicate 512 0) ∅ (replicate 64 0) 0 false 0 vm_pmm.

Lemma vm0_slot r : slot (mem vm0) 0 r = None.
Proof.
  unfold slot. cbn [node]. destruct (r / 512 =? 0); [|done]. cbn [mbind option_bind].
  unfold entry_of. cbn [table_of mem fst pml4 vm0 mbind option_bind]. destruct (0 <=? r mod 512); [|done].
  destruct (replicate 512 0 !! Z.to_nat (r mod 512)) eqn:E; [|done]. by apply lookup_replicate in E as [-> _].
Qed.

Lemma vm0_node n r t : node (mem vm0) n r = Some t -> n = 0%nat /\ r = 0 /\ t = Pml4.
Proof.
  assert (forall n r, slot (mem vm0) n r = None) as Hs.
  { intros m. induction m as [|m IH]; intros q; [apply vm0_slot|]. unfold slot. by rewrite node_S, IH. }
  destruct n as [|n]; [|by rewrite node_S, Hs]. cbn [node]. destruct (Z.eqb_spec r 0); [|done]. by intros [= <-].
Qed.

Lemma vm0_ok : vm_ok vm0 199.
Proof.
  split; [split|split|apply vm_pmm_serves].
  - intros n r t Hn (_ & _ & ->)%vm0_node. by exists (replicate 512 0).
  - by intros m m' a b u _ _ (-> & -> & _)%vm0_node (-> & -> & _)%vm0_node.
  - by intros n r p _ (_ & _ & [=])%vm0_node.
  - done.
  - done.
  - constructor.
  - intros p Hp. cbn in Hp. set_solver.
Qed.

Lemma vm0_unmapped u : leaf (mem vm0) u = None.
Proof. apply (leaf_none vm0 u 0); [lia|]. apply vm0_slot. Qed.

(** The kernel heap starts at this address. *)
Definition heap_va : Z := 0xffffffff80300000.
Definition rw : Z := Z.lor PRESENT_ENTRY PL_RW.

Lemma rw_ok : flags_ok rw.
Proof. done. Qed.

Lemma alloc_pages_witness :
  exists s' l, alloc_pages heap_va 100 rw vm0 = Ok s' /\ vm_ok s' 83 /\
    allocated vm0 s' (vpn heap_va) 100 rw l.
Proof.
  exact (alloc_pages_correct vm0 199 heap_va 100 rw vm0_ok rw_ok ltac:(split; done) eq_refl
    ltac:(split; done) ltac:(vm_compute; discriminate) ltac:(vm_compute; discriminate)
    (fun k _ => vm0_unmapped _)).
Defined.

(** Three allocated pages. *)
Lemma flags_vm_ok (s : paging pmm_state) N flags : vm_ok s N -> vm_ok (set_flags s flags) N.
Proof. intros [? [] ?]. by split. Qed.

Lemma flags_allocated (s s' : paging pmm_state) f v n flags l :
  allocated (set_flags s f) s' v n flags l -> allocated s s' v n flags l.
Proof. intros []. by split. Qed.

Definition vm3 : paging pmm_state :=
  match alloc_pages_loop 3 heap_va 3 (set_flags vm0 rw) with Ok s => s | Err _ => vm0 end.

Lemma vm3_ok : vm_ok vm3 180 /\ exists l, allocated vm0 vm3 (vpn heap_va) 3 rw l.
Proof.
  destruct (alloc_pages_loop_ok 3 (set_flags vm0 rw) 199 heap_va (vpn heap_va) 3 (flags_vm_ok _ _ _ vm0_ok) rw_ok
    ltac:(split; done) eq_refl (fun _ => eq_refl) ltac:(split; done) ltac:(done) ltac:(vm_compute; discriminate)
    ltac:(vm_compute; discriminate) (fun k _ => vm0_unmapped _)) as (s & l & E & Hvm & Hal).
  unfold vm3. rewrite E. split; [exact Hvm|]. exists l. exact (flags_allocated _ _ _ _ _ _ _ Hal).
Qed.

(** The frames of the three pages. *)
Definition vm3_frame (k : Z) : Z :=
  match leaf (mem vm3) (vpn heap_va + k) with Some e => extract_pointer e | None => 0 end.

Lemma vm3_frame_val k : 0 <= k < 3 -> vm3_frame k = 0x111000 + k * 0x1000.
Proof.
  intros Hk. assert (k = 0 \/ k = 1 \/ k = 2) as [->|[->| ->]] by lia; vm_compute; reflexivity.
Qed.

Lemma vm3_mapped k : 0 <= k < 3 ->
  (exists e, leaf (mem vm3) (vpn heap_va + k) = Some e /\ extract_pointer e = vm3_frame k) /\
  managed (pmm vm3) (vm3_frame k) true /\ ~ owned vm3 (vm3_frame k).
Proof.
  intros Hk. destruct vm3_ok as (Hvm & l & Hal).
  assert (nthZ l k ∈ l) as Hin.
  { apply (list_elem_of_lookup_2 l (Z.to_nat k)), lookup_nthZ. rewrite (al_len _ _ _ _ _ _ Hal). lia. }
  pose proof (proj2 (al_fresh _ _ _ _ _ _ Hal _ Hin)) as Hfr.
  destruct (frame_addr _ _ _ _ (vk_serves _ _ Hvm) Hfr) as [Hp Ha].
  assert (leaf (mem vm3) (vpn heap_va + k) = Some (Z.lor rw (nthZ l k))) as E.
  { rewrite (al_map _ _ _ _ _ _ Hal), decide_True by lia. do 3 f_equal. lia. }
  unfold vm3_frame. rewrite E. rewrite (extract_entry rw (nthZ l k) rw_ok ltac:(lia) Ha).
  split_and!; [|exact Hfr|by apply (al_data _ _ _ _ _ _ Hal)].
  eexists. split; [done|]. apply extract_entry; [apply rw_ok|lia|done].
Qed.

Lemma vm3_releasable k : 0 <= k < 3 -> pmm_releasable (pmm vm3) (vm3_frame k).
Proof.
  intros Hk. split; [by apply vm3_mapped|]. intros (r & range & Hr & Hl & E).
  assert (n_ranges (pmm vm3) = 1) as En by (vm_compute; reflexivity). rewrite En in Hr.
  assert (r = 0%nat) as -> by lia.
  assert ((base <$> (memory_ranges_buffer (pmm vm3) !! 0%nat)) = Some 0x100000 /\
    (mlength <$> (memory_ranges_buffer (pmm vm3) !! 0%nat)) = Some 199) as [E1 E2] by (split; vm_compute; reflexivity).
  rewrite Hl in E1, E2. cbn in E1, E2. injection E1 as E1. injection E2 as E2.
  rewrite vm3_frame_val in E by done. unfold page_addr in E. lia.
Qed.

Lemma get_phys_addr_witness :
  get_phys_addr (heap_va + 0x1abc) vm3 = Ok 0x112abc /\ get_phys_addr 0 vm0 = Ok 0.
Proof.
  rewrite (get_phys_addr_correct vm3 180 (heap_va + 0x1abc) (proj1 vm3_ok)).
  rewrite (get_phys_addr_correct vm0 199 0 vm0_ok). split; vm_compute; reflexivity.
Defined.

Lemma map_pages_witness :
  exists s', map_pages 0xfee00000 0xffffffff1ffff000 100 rw vm0 = Ok s' /\ vm_ok s' 71 /\
    mapped_range vm0 s' (vpn 0xffffffff1ffff000) 100 rw (fun i => 0xfee00000 + i * 0x1000).
Proof.
  exact (map_pages_correct vm0 199 0xfee00000 0xffffffff1ffff000 100 rw vm0_ok rw_ok ltac:(split; done)
    ltac:(vm_compute; discriminate) ltac:(done) ltac:(done) ltac:(vm_compute; discriminate) eq_refl
    ltac:(vm_compute; discriminate) (fun k _ => vm0_unmapped _)).
Defined.

Lemma unmap_pages_witness :
  exists s', unmap_pages heap_va 3 true vm3 = Ok s' /\ vm_ok s' 180 /\
    (forall u, leaf (mem s') u =
      if decide (vpn heap_va <= u < vpn heap_va + 3) then None else leaf (mem vm3) u) /\
    (true = true -> forall k, 0 <= k < 3 -> frame (pmm s') (vm3_frame k) false) /\
    (forall q b, frame (pmm vm3) q b ->
      (true = true -> forall k, 0 <= k < 3 -> q <> vm3_frame k) -> frame (pmm s') q b).
Proof.
  apply (unmap_pages_correct vm3 180 heap_va 3 true vm3_frame (proj1 vm3_ok) ltac:(split; done) ltac:(done)
    ltac:(vm_compute; discriminate)).
  - intros k Hk. by apply vm3_mapped.
  - intros _ j k Hj Hk E. rewrite !vm3_frame_val in E by done. lia.
  - intros _ k Hk. split; [by apply vm3_releasable|by apply vm3_mapped].
Defined.

Lemma remap_pages_witness :
  exists s', remap_pages heap_va 3 PRESENT_ENTRY vm3 = Ok s' /\ vm_ok s' 180 /\
    forall u, vpn heap_va <= u < vpn heap_va + 3 ->
      leaf (mem s') u = Some PRESENT_ENTRY /\ extract_pointer PRESENT_ENTRY = 0.
Proof.
  apply (remap_pages_loses_frames vm3 180 heap_va 3 PRESENT_ENTRY (proj1 vm3_ok) ltac:(by split)
    ltac:(split; done) ltac:(done) ltac:(vm_compute; discriminate)).
  intros k Hk. destruct (vm3_mapped k Hk) as [(e & He & _) _]. by exists e.
Defined.

(** The page table of the heap is mapped, and [get_pd] does not find it. *)
Lemma get_pd_witness :
  get_pd heap_va 1 vm3 <> Ok 0 /\ slot (mem vm3) 2 (pfx 2 (vpn heap_va)) <> None /\
  get_pd heap_va 2 vm3 = Ok 0.
Proof.
  destruct (get_pd_correct vm3 180 heap_va (proj1 vm3_ok)) as (_ & -> & H2).
  assert (slot (mem vm3) 2 (pfx 2 (vpn heap_va)) <> None) as Hne by (vm_compute; discriminate).
  rewrite (H2 Hne). split_and!; [vm_compute; discriminate|done|vm_compute; reflexivity].
Defined.

Lemma free_page_range_witness :
  (forall fuel, free_page_range fuel 0xffff900000000000 (2 ^ 39) vm0 = Err NoFuel) /\
  free_page_range 1 0xffffff0000000000 (2 ^ 39) vm3 = free_page_range 0 (u64 (0xffffff0000000000 + 2 ^ 39)) (2 ^ 39) vm3.
Proof.
  assert (2 ^ 39 <> 0 /\ 0 <= 0xffff900000000000 < 2 ^ 64 /\ 0 <= 0xffffff0000000000 < 2 ^ 64) as (Hc & H1 & H2) by lia.
  assert (zlen (pml4 vm3) = 512) as Hz by (vm_compute; reflexivity).
  assert (slot (mem vm3) 0 (pml4_offset 0xffffff0000000000) = None) as Hs by (vm_compute; reflexivity).
  split.
  - exact (proj2 (free_page_range_overruns vm0 _ (2 ^ 39) eq_refl H1 eq_refl eq_refl Hc) vm0_slot).
  - exact (proj1 (free_page_range_overruns vm3 _ (2 ^ 39) Hz H2 eq_refl eq_refl Hc) Hs 0%nat).
Defined.
