(* ===== verification/FileSystems.v ===== *)
(** * The interface of a file system ([kernel/fs/fs.h])

    [FileSystem]: the function pointers of [fs_t] that the open files of the virtual file
    system use; [None] is a null pointer.  [BlockFileSystem]: what the virtual file system
    may rely on when the file system stores files in blocks. *)

From S2P Require Import Prelude Bytes.





(** [file_t], the fields the file systems use. *)
Record file := File { addr : Z; file_size : Z }.

Class FileSystem (S : Type) := {
  file_access_granularity : S -> Z;
  cacheable : S -> bool;
  read_file_sectors : file -> Z -> Z -> S -> res (S * list Z * Z);
  write_file_sectors : file -> list Z -> Z -> Z -> S -> res (S * file * Z);
  truncate_file : file -> Z -> S -> res (S * file * Z);
  open_file : Z -> S -> option (res S);
  close_file : Z -> S -> option (res S);
  open_instance : Z -> Z -> S -> option (res (S * Z));
  close_instance : Z -> Z -> S -> option (res S)
}.

(** [stored s a data]: [data] is what the sectors of the file at the address [a] hold.
    [room s a n]: the file can have [n] sectors. *)
Class BlockFileSystem (S : Type) `{FileSystem S} := {
  stored : S -> Z -> list Z -> Prop;
  room : S -> Z -> Z -> Prop;
  granularity_range : forall s a data, stored s a data -> 0 < file_access_granularity s < 2 ^ 16;
  stored_range : forall s a data, stored s a data ->
    zlen data < 2 ^ 48 /\ exists k, 0 <= k /\ zlen data = k * file_access_granularity s;
  read_stored : forall s fl data begin n,
    stored s (addr fl) data -> 0 <= begin -> 0 < n < 2 ^ 31 ->
    (begin + n) * file_access_granularity s <= zlen data ->
    (begin + n - 1) * file_access_granularity s < file_size fl ->
    exists s', read_file_sectors fl begin n s =
        Ok (s', slice data (begin * file_access_granularity s) (n * file_access_granularity s), n) /\
      file_access_granularity s' = file_access_granularity s /\ cacheable s' = cacheable s /\
      (forall a d, stored s a d -> stored s' a d) /\ (forall a k, room s a k -> room s' a k);
  write_stored : forall s fl data buf begin n,
    stored s (addr fl) data -> 0 <= begin -> 0 < n < 2 ^ 31 -> zlen buf = n * file_access_granularity s ->
    begin * file_access_granularity s <= zlen data -> file_size fl <= zlen data ->
    (begin + n) * file_access_granularity s <= zlen data \/ room s (addr fl) (begin + n) ->
    exists s' r ext, write_file_sectors fl buf begin n s = Ok (s', fl, r) /\ 0 <= r /\
      file_access_granularity s' = file_access_granularity s /\ cacheable s' = cacheable s /\
      (begin + n) * file_access_granularity s <= zlen (data ++ ext) /\
      stored s' (addr fl) (blit (data ++ ext) (begin * file_access_granularity s) buf)
}.
