(* ===== verification/Fat32.v ===== *)
(** * FAT32 ([kernel/fs/fat32/fat32.c])

    Definitions: the cache of FAT sectors, cluster chains, reading, writing and
    truncating files, mounting.  The partition is on any [BlockDevice].  The buffer of
    the cache is one block of memory, in which a pointer is a byte offset. *)

From S2P Require Import Prelude Bytes Interfaces FileSystems.





Definition FAT_CACHE_SIZE : Z := 2048.

(** Little-endian integers of [n] bytes. *)
Fixpoint le_enc (n : nat) (x : Z) : list Z :=
  match n with O => [] | S n' => x mod 256 :: le_enc n' (x / 256) end.

(** [*(uint32_t* )p] and the like, in a block of bytes. *)
Definition load_le (n : Z) (mem : list Z) (p : Z) : res Z :=
  l ← rd_bytes mem p n; Ok (le_bytes l).
Definition store_le (n : nat) (mem : list Z) (p x : Z) : res (list Z) :=
  wr_bytes mem p (le_enc n x).

Section Fat32.
Context {D : Type} `{BlockDevice D}.

(** [fat32_privates_t] with its cache ([fe_tag], [fe_modified] of each entry, and [buf]),
    the bounds of the partition and the device. *)
Record fat32 := Fat {
  cluster_size : Z;
  tables_count : Z;
  fat_begin : Z;
  data_begin : Z;
  fat_size : Z;
  alloc_start : Z;
  fat_entries : list (Z * bool);
  fat_buf : list Z;
  part_begin : Z;
  part_end : Z;
  fat_dev : D
}.

Definition set_alloc_start (f : fat32) (a : Z) : fat32 :=
  Fat (cluster_size f) (tables_count f) (fat_begin f) (data_begin f) (fat_size f) a
    (fat_entries f) (fat_buf f) (part_begin f) (part_end f) (fat_dev f).
Definition set_entries (f : fat32) (es : list (Z * bool)) : fat32 :=
  Fat (cluster_size f) (tables_count f) (fat_begin f) (data_begin f) (fat_size f) (alloc_start f)
    es (fat_buf f) (part_begin f) (part_end f) (fat_dev f).
Definition set_buf (f : fat32) (b : list Z) : fat32 :=
  Fat (cluster_size f) (tables_count f) (fat_begin f) (data_begin f) (fat_size f) (alloc_start f)
    (fat_entries f) b (part_begin f) (part_end f) (fat_dev f).
Definition set_fat_dev (f : fat32) (d : D) : fat32 :=
  Fat (cluster_size f) (tables_count f) (fat_begin f) (data_begin f) (fat_size f) (alloc_start f)
    (fat_entries f) (fat_buf f) (part_begin f) (part_end f) d.

Definition block_size : Z := Z.shiftl 1 dev_lbashift.
Definition sync (f : fat32) : fat32 := set_fat_dev f (dev_sync (fat_dev f)).

(** ** The partition *)

Definition part_async_read (lba count : Z) (f : fat32) : res (list Z) :=
  let lba := u64 (lba + part_begin f) in
  assert_ (part_begin f <=? lba) "lba >= part->begin" ;;
  assert_ (lba <? part_end f) "lba < part->end" ;;
  Ok (dev_read (fat_dev f) lba count).

Definition part_read (lba count : Z) (f : fat32) : res (fat32 * list Z) :=
  data ← part_async_read lba count f;
  Ok (sync f, data).

Definition part_write (lba : Z) (buf : list Z) (count : Z) (f : fat32) : res fat32 :=
  let lba := u64 (lba + part_begin f) in
  assert_ ((part_begin f <=? lba) && (lba <=? part_end f)) "lba >= part->begin && lba <= part->end" ;;
  Ok (set_fat_dev f (dev_write lba buf count (fat_dev f))).

(** A [cluster_t] computation: 32 bits. *)
Definition cluster_begin (cluster : Z) (f : fat32) : Z :=
  u32 (u32 (u32 (cluster - 2) * cluster_size f) + data_begin f).

(** ** The cache of FAT sectors *)

Definition lba_hash (lba : Z) : Z := u16 (Z.land lba (FAT_CACHE_SIZE - 1)).

(** [cache_access]: a pointer into the buffer, [None] on a miss. *)
Definition cache_access (lba : Z) (f : fat32) : res (option Z) :=
  '(tag, _) ← ld (fat_entries f) (lba_hash lba);
  if tag =? lba then Ok (Some (Z.shiftl lba dev_lbashift)) else Ok None.

(** [for(unsigned i = 0; i < FAT_CACHE_SIZE; i++)] of [flush_fat_cache]. *)
Fixpoint flush_loop (n : nat) (i : Z) (f : fat32) : res fat32 :=
  match n with
  | O => Ok f
  | S n' =>
      '(tag, modified) ← ld (fat_entries f) i;
      f ← (if (modified : bool) then
             es ← st (fat_entries f) i (tag, false);
             data ← rd_bytes (fat_buf f) (Z.shiftl i dev_lbashift) block_size;
             part_write tag data 1 (set_entries f es)
           else Ok f);
      flush_loop n' (i + 1) f
  end.
Definition flush_fat_cache (f : fat32) : res fat32 := flush_loop (Z.to_nat FAT_CACHE_SIZE) 0 f.

Definition add_cache_entry (lba : Z) (f : fat32) : res (fat32 * Z) :=
  let h := lba_hash lba in
  let buf := Z.shiftl h dev_lbashift in
  '(tag, modified) ← ld (fat_entries f) h;
  f ← (if (modified : bool) then
         data ← rd_bytes (fat_buf f) buf block_size;
         part_write tag data 1 f
       else Ok f);
  es ← st (fat_entries f) h (lba, false);
  Ok (set_entries f es, buf).

Definition mark_modified (lba : Z) (f : fat32) : res fat32 :=
  '(tag, _) ← ld (fat_entries f) (lba_hash lba);
  assert_ (tag =? lba) "e->tag == lba" ;;
  es ← st (fat_entries f) (lba_hash lba) (tag, true);
  Ok (set_entries f es).

Definition fetch_fat_sector (lba : Z) (f : fat32) : res (fat32 * Z) :=
  assert_ (fat_begin f <=? lba) "lba >= pr->fat_begin" ;;
  assert_ (lba <? u32 (fat_begin f + fat_size f)) "lba < pr->fat_begin + pr->fat_size" ;;
  hit ← cache_access lba f;
  match hit with
  | Some buf => Ok (f, buf)
  | None =>
      '(f, buf) ← add_cache_entry lba f;
      '(f, data) ← part_read lba 1 f;
      b ← wr_bytes (fat_buf f) buf data;
      Ok (set_buf f b, buf)
  end.

(** ** The FAT *)

Definition readFAT (cluster : Z) (f : fat32) : res (fat32 * Z) :=
  let offset := u32 (cluster * 4) in
  let lba := fat_begin f + offset / block_size in
  let sector_offset := offset mod block_size in
  '(f, sector) ← fetch_fat_sector lba f;
  e ← load_le 4 (fat_buf f) (sector + sector_offset);
  let ent := Z.land e 0x0FFFFFFF in
  assert_ (negb (ent =? 0)) "ent != 0" ;;
  assert_ (negb (ent =? 1)) "ent != 1" ;;
  if 0x0FFFFFF8 <=? ent then Ok (f, 0) else Ok (f, ent).

(** [for(unsigned i = begin; i < entries_per_sector; i++)] of [allocFAT]. *)
Fixpoint scan_sector (n : nat) (i sector : Z) (f : fat32) : res (option Z) :=
  match n with
  | O => Ok None
  | S n' =>
      e ← load_le 4 (fat_buf f) (sector + 4 * i);
      if e =? 0 then Ok (Some i) else scan_sector n' (i + 1) sector f
  end.

(** [for(uint64_t lba = ...)] of [allocFAT]. *)
Fixpoint alloc_loop (fuel : nat) (lba last last_sector : Z) (f : fat32) : res (fat32 * Z) :=
  if negb (lba =? last_sector) then
    match fuel with
    | O => Err NoFuel
    | S fuel' =>
        '(f, sector) ← fetch_fat_sector lba f;
        let entries_per_sector := block_size / 4 in
        let begin := if lba =? fat_begin f then 2 else 0 in
        found ← scan_sector (Z.to_nat (entries_per_sector - begin)) begin sector f;
        match found with
        | Some i =>
            Ok (set_alloc_start f (u32 lba), u32 ((lba - fat_begin f) * entries_per_sector + i))
        | None => alloc_loop fuel' (if lba =? last then fat_begin f else lba + 1) last last_sector f
        end
    end
  else Ok (f, 0).

Definition allocFAT (f : fat32) : res (fat32 * Z) :=
  assert_ (fat_begin f <=? alloc_start f) "pr->alloc_start >= pr->fat_begin" ;;
  assert_ (alloc_start f <? u32 (fat_begin f + fat_size f)) "pr->alloc_start < pr->fat_begin + pr->fat_size" ;;
  let last := u32 (fat_begin f + fat_size f - 1) in
  let last_sector := if alloc_start f =? fat_begin f then u32 (fat_begin f + fat_size f - 1)
                     else alloc_start f - 1 in
  alloc_loop (Z.to_nat (fat_size f)) (alloc_start f) last last_sector f.

Definition linkFAT (from to : Z) (f : fat32) : res fat32 :=
  let offset := u32 (from * 4) in
  let lba := fat_begin f + offset / block_size in
  let sector_offset := offset mod block_size in
  '(f, sector) ← fetch_fat_sector lba f;
  ent ← load_le 4 (fat_buf f) (sector + sector_offset);
  assert_ ((0x0FFFFFF8 <=? Z.land ent 0x0FFFFFFF) || (ent =? 0)) "last entry of the file" ;;
  assert_ (Z.land to 0xf0000000 =? 0) "(to & 0xf0000000) == 0" ;;
  b ← store_le 4 (fat_buf f) (sector + sector_offset) (Z.lor to (Z.land ent 0xf0000000));
  mark_modified lba (set_buf f b).

Definition read_or_allocateFAT (cluster : Z) (f : fat32) : res (fat32 * Z) :=
  '(f, next) ← readFAT cluster f;
  if next =? 0 then
    '(f, next) ← allocFAT f;
    if next =? 0 then Ok (f, 0)
    else
      f ← linkFAT next 0xfffffff f;
      f ← linkFAT cluster next f;
      Ok (f, next)
  else Ok (f, next).

(** ** Files *)

(** [for(unsigned i = 0; i < off; i++)] of [fetch_cluster]; the result is the cluster and
    [*end], [None] for [~0llu]. *)
Fixpoint fetch_cluster_loop (n : nat) (i cluster : Z) (f : fat32) : res (fat32 * Z * option Z) :=
  match n with
  | O => Ok (f, cluster, None)
  | S n' =>
      '(f, next) ← readFAT cluster f;
      if negb (next =? 0) then fetch_cluster_loop n' (i + 1) next f
      else Ok (f, cluster, Some i)
  end.
Definition fetch_cluster (fd : file) (off : Z) (f : fat32) : res (fat32 * Z * option Z) :=
  fetch_cluster_loop (Z.to_nat off) 0 (u32 (addr fd)) f.

Definition alloc_file_cluster (fd : file) (f : fat32) : res (fat32 * file) :=
  assert_ (file_size fd =? 0) "fd->file_size == 0" ;;
  '(f, a) ← allocFAT f;
  f ← linkFAT a 0xfffffff f;
  Ok (f, File a (file_size fd)).

(** The inner [while(n)] of [fat32_read_file_sectors]: how much can be read at once. *)
Fixpoint contiguous (fuel : nat) (n cluster cluster_offset read_size : Z) (f : fat32)
    : res (fat32 * Z * Z * Z * Z) :=
  if negb (n =? 0) then
    match fuel with
    | O => Err NoFuel
    | S fuel' =>
        let cluster_remaining := u32 (cluster_size f - cluster_offset) in
        if n <? cluster_remaining then Ok (f, 0, cluster, cluster_offset, u32 (read_size + n))
        else
          let read_size := u32 (read_size + cluster_remaining) in
          let old := cluster in
          '(f, cluster) ← readFAT cluster f;
          let n := n - cluster_remaining in
          assert_ (negb (cluster =? 0) || (n =? 0)) "cluster || !n" ;;
          if negb (cluster =? u32 (old + 1)) then Ok (f, n, cluster, 0, read_size)
          else contiguous fuel' n cluster 0 read_size f
    end
  else Ok (f, n, cluster, cluster_offset, read_size).

(** [while(n > 0)] of [fat32_read_file_sectors]; [buf] is what was read so far. *)
Fixpoint read_sectors_loop (fuel : nat) (n cluster cluster_offset : Z) (buf : list Z) (f : fat32)
    : res (fat32 * list Z) :=
  if 0 <? n then
    match fuel with
    | O => Err NoFuel
    | S fuel' =>
        let lba := cluster_begin cluster f + cluster_offset in
        '(f, n, cluster, cluster_offset, read_size) ←
          contiguous (Z.to_nat n) n cluster cluster_offset 0 f;
        data ← part_async_read lba read_size f;
        read_sectors_loop fuel' n cluster cluster_offset (buf ++ data) f
    end
  else Ok (f, buf).

(** [fat32_read_file_sectors]: the sectors and the return value. *)
Definition fat32_read_file_sectors (fd : file) (begin n : Z) (f : fat32)
    : res (fat32 * list Z * Z) :=
  assert_ (negb (addr fd =? 0)) "fd->addr" ;;
  assert_ (u64 (u64 (begin + n - 1) * cluster_size f) <? file_size fd)
    "(begin + n - 1) * pr->cluster_size < fd->file_size" ;;
  let cluster_offset := begin mod cluster_size f in
  '(f, cluster, clusterend) ← fetch_cluster fd (begin / cluster_size f) f;
  assert_ (match clusterend with None => true | Some _ => false end) "clusterend == ~0llu" ;;
  '(f, data) ← read_sectors_loop (Z.to_nat n) n cluster cluster_offset [] f;
  Ok (sync f, data, s32 n).

(** [for(unsigned i = clusterend; i < first_cluster; i++)]: the chain grows to the first
    cluster that is written; [None] when the drive is full. *)
Fixpoint extend_chain (n : nat) (cluster : Z) (f : fat32) : res (fat32 * option Z) :=
  match n with
  | O => Ok (f, Some cluster)
  | S n' =>
      '(f, cl) ← allocFAT f;
      if cl =? 0 then Ok (f, None)
      else
        f ← linkFAT cl 0xfffffff f;
        f ← linkFAT cluster cl f;
        extend_chain n' cl f
  end.

(** [while(n > 0)] of [fat32_write_file_sectors]: [inl] for the early [return n]. *)
Fixpoint write_sectors_loop (fuel : nat) (n cluster cluster_offset written : Z) (buf : list Z)
    (f : fat32) : res (fat32 * (Z + Z)) :=
  if 0 <? n then
    match fuel with
    | O => Err NoFuel
    | S fuel' =>
        assert_ (negb (cluster =? 0)) "cluster" ;;
        let lba := cluster_begin cluster f + cluster_offset in
        let cluster_remaining := u32 (cluster_size f - cluster_offset) in
        let '(write_size, cluster_offset) :=
          if cluster_remaining <? n then (cluster_remaining, 0) else (n, cluster_offset) in
        data ← rd_bytes buf 0 (block_size * write_size);
        f ← part_write lba data write_size f;
        let buf := drop (Z.to_nat (block_size * write_size)) buf in
        let n := n - write_size in
        let written := u32 (written + 1) in
        if negb (n =? 0) then
          '(f, cluster) ← read_or_allocateFAT cluster f;
          if cluster =? 0 then Ok (f, inl n)
          else write_sectors_loop fuel' n cluster cluster_offset written buf f
        else write_sectors_loop fuel' n cluster cluster_offset written buf f
    end
  else Ok (f, inr written).

Definition fat32_write_file_sectors (fd : file) (buf : list Z) (begin n : Z) (f : fat32)
    : res (fat32 * file * Z) :=
  let first_cluster := u32 (begin / cluster_size f) in
  let cluster_offset := begin mod cluster_size f in
  '(f, fd) ← (if addr fd =? 0 then alloc_file_cluster fd f else Ok (f, fd));
  '(f, cluster, clusterend) ← fetch_cluster fd first_cluster f;
  assert_ (negb (cluster =? 0)) "cluster" ;;
  '(f, cluster) ←
    match clusterend with
    | None => Ok (f, Some cluster)
    | Some e =>
        assert_ (file_size fd <=? u64 (u64 (u64 (begin + n - 1) * cluster_size f) * block_size))
          "(begin + n - 1) * pr->cluster_size * block_size(fs->part) >= fd->file_size" ;;
        assert_ (e <? first_cluster) "clusterend < first_cluster" ;;
        extend_chain (Z.to_nat (first_cluster - e)) cluster f
    end;
  match cluster with
  | None => Ok (f, fd, 0)
  | Some cluster =>
      '(f, r) ← write_sectors_loop (Z.to_nat n) n cluster cluster_offset 0 buf f;
      match r with
      | inl n => Ok (f, fd, s32 n)
      | inr written => f ← flush_fat_cache f; Ok (f, fd, s32 written)
      end
  end.

(** ** Truncation *)

(** [while(extend)] of [extend_file]. *)
Fixpoint extend_loop (fuel : nat) (extend : Z) (fd : file) (f : fat32) : res (fat32 * file) :=
  if negb (extend =? 0) then
    match fuel with
    | O => Err NoFuel
    | S fuel' =>
        let max_buf_size := 8 * 1024 * 1024 in
        let to_write := if max_buf_size <? extend then max_buf_size else extend in
        let extend := extend - to_write in
        '(f, fd, _) ← fat32_write_file_sectors fd (replicate (Z.to_nat to_write) 0) (file_size fd) extend f;
        extend_loop fuel' extend fd f
    end
  else Ok (f, fd).

Definition extend_file (fd : file) (size : Z) (f : fat32) : res (fat32 * file * Z) :=
  assert_ (file_size fd <? size) "file_size > file->file_size" ;;
  let extend := u32 (size - file_size fd) in
  '(f, fd) ← (if addr fd =? 0 then alloc_file_cluster fd f else Ok (f, fd));
  if Z.shiftr 1 31 <? extend then Ok (f, fd, 1)
  else
    '(f, fd) ← extend_loop (Z.to_nat extend) extend fd f;
    Ok (f, fd, 0).

(** [for(int i = 0; i < trunc_clusters; i++)] of [trunc_file]. *)
Fixpoint free_chain (n : nat) (cluster : Z) (f : fat32) : res fat32 :=
  match n with
  | O => Ok f
  | S n' =>
      '(f, next) ← readFAT cluster f;
      f ← linkFAT cluster 0 f;
      (if Nat.eqb n' 0 then assert_ (next =? 0) "next == 0"
       else assert_ (negb (next =? 0)) "next != 0") ;;
      free_chain n' next f
  end.

Definition trunc_file (fd : file) (size : Z) (f : fat32) : res (fat32 * Z) :=
  assert_ (size <? file_size fd) "file_size < file->file_size" ;;
  let cluster_bsize := u32 (cluster_size f * block_size) in
  let trunc_clusters := s32 (file_size fd / cluster_bsize - size / cluster_bsize) in
  assert_ (0 <=? trunc_clusters) "trunc_clusters >= 0" ;;
  if cluster_bsize <? file_size fd - size then Ok (f, -1)
  else if trunc_clusters =? 0 then Ok (f, 0)
  else
    '(f, cluster, clusterend) ← fetch_cluster fd (size / cluster_size f) f;
    match clusterend with
    | None => panic "clusterend != ~0llu"
    | Some e =>
        assert_ (e =? size / cluster_size f) "clusterend == file_size / pr->cluster_size" ;;
        f ← linkFAT cluster 0x0fffffff f;
        f ← free_chain (Z.to_nat trunc_clusters) cluster f;
        Ok (f, 0)
    end.

Definition fat32_truncate_file (fd : file) (size : Z) (f : fat32) : res (fat32 * file * Z) :=
  if file_size fd <? size then extend_file fd size f
  else if size <? file_size fd then '(f, r) ← trunc_file fd size f; Ok (f, fd, r)
  else Ok (f, fd, 0).

(** ** Mounting *)

(** [fat32_mount] of the partition [begin .. end]; [mem] is the memory [malloc] returns for
    the buffer of the cache.  [None] when the partition is not formatted in FAT32;
    the other component is the cluster of the root directory. *)
Definition fat32_mount (begin end_ : Z) (mem : list Z) (d : D) : res (option (fat32 * Z)) :=
  let f := Fat 0 0 0 0 0 0 [] [] begin end_ d in
  '(f, buf) ← part_read 0 1 f;
  fat32_sig ← load_le 1 buf 0x42;
  bootable_sig ← load_le 2 buf 510;
  root_entries ← load_le 2 buf 0x11;
  if negb (bootable_sig =? 0xAA55) || negb (Z.lor fat32_sig 1 =? 0x29) || negb (root_entries =? 0)
  then Ok None
  else
    cluster_size ← load_le 1 buf 0x0d;
    reserved ← load_le 2 buf 0x0e;
    tables_count ← load_le 4 buf 0x10;
    fatsize ← load_le 4 buf 0x24;
    root_dir_cluster ← load_le 4 buf 0x2c;
    Ok (Some (Fat cluster_size tables_count reserved (u32 (reserved + u32 (tables_count * fatsize)))
                fatsize reserved (replicate (Z.to_nat FAT_CACHE_SIZE) (0, false)) mem begin end_ (fat_dev f),
              root_dir_cluster)).
End Fat32.
Arguments fat32 : clear implicits.
Arguments Fat {D}.
