(* ===== verification/Fat32Proofs.v ===== *)
(** * FAT32: the table as the cache and the disk hold it

    The FAT is read and written through a cache of its sectors.  [view] is the sector as
    the driver sees it, cached or not; [ent] is an entry of it.  The lemmas here show
    that the functions on the cache implement an array of entries. *)

From S2P Require Import Prelude Bytes Interfaces FileSystems Fat32.





(** ** Little-endian integers *)

Lemma lor_low b y : 0 <= b < 256 -> Z.lor b (Z.shiftl y 8) = b + 256 * y.
Proof.
  intros Hb. assert (Z.land b (Z.shiftl y 8) = 0) as Hl.
  { apply Z.bits_inj'. intros i Hi. rewrite Z.land_spec, Z.testbit_0_l. destruct (decide (i < 8)).
    - rewrite Z.shiftl_spec_low by lia. apply andb_false_r.
    - rewrite <- (Z.mod_small b (2 ^ 8)) by lia. by rewrite Z.mod_pow2_bits_high by lia. }
  rewrite <- Z.lxor_lor, <- Z.add_nocarry_lxor by done. rewrite Z.shiftl_mul_pow2 by lia. lia.
Qed.

Lemma le_bytes_enc n x : 0 <= x < 2 ^ (8 * Z.of_nat n) -> le_bytes (le_enc n x) = x.
Proof.
  revert x. induction n as [|n IH]; intros x Hx; cbn [le_enc le_bytes].
  - change (8 * Z.of_nat 0) with 0 in Hx. lia.
  - replace (8 * Z.of_nat (S n)) with (8 + 8 * Z.of_nat n) in Hx by lia. rewrite Z.pow_add_r in Hx by lia.
    rewrite lor_low by lia. rewrite IH; [lia|]. split; [lia|]. apply Z.div_lt_upper_bound; lia.
Qed.

Lemma zlen_le_enc n x : zlen (le_enc n x) = Z.of_nat n.
Proof. unfold zlen. revert x. induction n as [|n IH]; intros x; [done|]. cbn [le_enc length]. specialize (IH (x / 256)). lia. Qed.

Lemma load_le_ok n mem p : 0 <= p -> 0 <= n -> p + n <= zlen mem ->
  load_le n mem p = Ok (le_bytes (slice mem p n)).
Proof. intros. unfold load_le. by rewrite rd_bytes_ok. Qed.

Lemma store_le_ok n mem p x : 0 <= p -> p + Z.of_nat n <= zlen mem ->
  store_le n mem p x = Ok (blit mem p (le_enc n x)).
Proof. intros. unfold store_le. by rewrite wr_bytes_ok by (rewrite ?zlen_le_enc; lia). Qed.

(** ** The view of the FAT *)

Section View.
Context {D : Type} `{BlockDevice D}.
Hypothesis words : 3 <= dev_lbashift (D := D).
Notation SZ := (2 ^ dev_lbashift (D := D)).
Implicit Types f : fat32 D.

Definition view f (lba : Z) : list Z :=
  match fat_entries f !! Z.to_nat lba with
  | Some (tag, _) => if tag =? lba then slice (fat_buf f) (lba * SZ) SZ
                     else dev_sector (fat_dev f) (part_begin f + lba)
  | None => dev_sector (fat_dev f) (part_begin f + lba)
  end.

(** The number of entries of the FAT, and entry [c]. *)
Definition n_clusters f : Z := fat_size f * (SZ / 4).
Definition ent f (c : Z) : Z := le_bytes (slice (view f (fat_begin f + 4 * c / SZ)) (4 * c mod SZ) 4).

(** The geometry: all sectors of the FAT have a slot of their own in the cache, and every
    cluster of the FAT lies in the partition, behind the FAT. *)
Record geometry f : Prop := {
  ge_fat : 0 < fat_begin f /\ 0 < fat_size f /\ fat_begin f + fat_size f <= FAT_CACHE_SIZE;
  ge_data : fat_begin f + fat_size f <= data_begin f;
  ge_cluster : 0 < cluster_size f < 2 ^ 16;
  ge_part : 0 <= part_begin f /\ part_end f < 2 ^ 63;
  ge_end : data_begin f + (n_clusters f - 2) * cluster_size f <= part_end f - part_begin f;
  ge_size : part_end f - part_begin f < 2 ^ 32
}.

(** An entry of the cache: unused, or holding the sector of its index. *)
Definition slot_ok f (h : nat) (e : Z * bool) : Prop :=
  e = (0, false) \/
  e.1 = Z.of_nat h /\ fat_begin f <= e.1 < fat_begin f + fat_size f /\
  (e.2 = false -> slice (fat_buf f) (e.1 * SZ) SZ = dev_sector (fat_dev f) (part_begin f + e.1)).

Record fat_ok f : Prop := {
  fk_geometry : geometry f;
  fk_entries : zlen (fat_entries f) = FAT_CACHE_SIZE;
  fk_buf : zlen (fat_buf f) = FAT_CACHE_SIZE * SZ;
  fk_alloc : fat_begin f <= alloc_start f < fat_begin f + fat_size f;
  fk_slots : forall h e, fat_entries f !! h = Some e -> slot_ok f h e
}.

(** Two states with the same geometry; with the same table as well; and with the same
    contents of the device instead or as well. *)
Record same_geo f f' : Prop := {
  sg_cluster : cluster_size f' = cluster_size f;
  sg_fat : fat_begin f' = fat_begin f /\ fat_size f' = fat_size f;
  sg_data : data_begin f' = data_begin f;
  sg_part : part_begin f' = part_begin f /\ part_end f' = part_end f
}.
Definition same_view f f' : Prop :=
  forall l, fat_begin f <= l < fat_begin f + fat_size f -> view f' l = view f l.
Definition same_dev f f' : Prop := forall l, dev_sector (fat_dev f') l = dev_sector (fat_dev f) l.
Definition same_table f f' : Prop := same_geo f f' /\ same_view f f'.
Definition same_disk f f' : Prop := same_geo f f' /\ same_dev f f'.
Definition same_fat f f' : Prop := same_disk f f' /\ same_view f f'.

#[export] Instance same_geo_refl : Reflexive same_geo.
Proof. by constructor. Qed.
#[export] Instance same_geo_trans : Transitive same_geo.
Proof.
  intros a b c [A1 [A2 A3] A4 [A5 A6]] [B1 [B2 B3] B4 [B5 B6]]. constructor; try (split; congruence); congruence.
Qed.
#[export] Instance same_disk_refl : Reflexive same_disk.
Proof. by split. Qed.
#[export] Instance same_disk_trans : Transitive same_disk.
Proof. intros a b c [A1 A2] [B1 B2]. split; [by transitivity b|]. intros l. by rewrite B2, A2. Qed.
#[export] Instance same_fat_refl : Reflexive same_fat.
Proof. by split. Qed.
#[export] Instance same_fat_trans : Transitive same_fat.
Proof.
  intros a b c [A1 A2] [B1 B2]. split; [by transitivity b|].
  intros l Hl. rewrite B2, A2; [done|lia|]. destruct A1 as [[_ [-> ->] _ _] _]. done.
Qed.

Lemma same_fat_geo f f' : same_fat f f' -> same_geo f f'.
Proof. by intros [[? _] _]. Qed.
Lemma same_fat_table f f' : same_fat f f' -> same_table f f'.
Proof. by intros [[? _] ?]. Qed.

Lemma block_size_eq : block_size (D := D) = SZ.
Proof using. clear words. pose proof (dev_lbashift_range (D := D)). unfold block_size. rewrite Z.shiftl_mul_pow2 by lia. lia. Qed.

Lemma sector_words : exists k, SZ = 4 * k /\ 1 < k /\ SZ / 4 = k.
Proof using words.
  exists (2 ^ (dev_lbashift (D := D) - 2)).
  assert (SZ = 4 * 2 ^ (dev_lbashift (D := D) - 2)) as ->.
  { change 4 with (2 ^ 2). rewrite <- Z.pow_add_r by lia. f_equal. lia. }
  split_and!; [done|apply Z.pow_gt_1; lia|]. rewrite Z.mul_comm, Z.div_mul by lia. done.
Qed.

(** The sector and the offset of an entry. *)
Lemma ent_position f c : geometry f -> 0 <= c < n_clusters f ->
  u32 (c * 4) = 4 * c /\ fat_begin f <= fat_begin f + 4 * c / SZ < fat_begin f + fat_size f /\
  0 <= 4 * c mod SZ /\ 4 * c mod SZ + 4 <= SZ.
Proof using words.
  intros [? Hd Hc Hp He Hs] Hc'. unfold n_clusters in *. destruct sector_words as (k & Ek & Hk & Eq). rewrite Eq in *.
  assert (fat_size f * k < 2 ^ 30).
  { unfold FAT_CACHE_SIZE in *. pose proof (dev_lbashift_range (D := D)).
    assert (SZ <= 2 ^ 11) by (apply Z.pow_le_mono_r; lia). nia. }
  split_and!.
  - unfold wrap. rewrite Z.mod_small; lia.
  - rewrite Ek, Z.div_mul_cancel_l by lia. pose proof (Z.div_pos c k). lia.
  - rewrite Ek, Z.div_mul_cancel_l by lia.
    assert (c / k < fat_size f) by (apply Z.div_lt_upper_bound; lia). lia.
  - apply Z.mod_pos_bound. lia.
  - rewrite Ek, Zmult_mod_distr_l. pose proof (Z.mod_pos_bound c k). lia.
Qed.

Lemma lba_hash_small lba : 0 <= lba < FAT_CACHE_SIZE -> lba_hash lba = lba.
Proof.
  unfold FAT_CACHE_SIZE. intros Hl. unfold lba_hash, FAT_CACHE_SIZE. change (2048 - 1) with (Z.ones 11).
  rewrite Z.land_ones by lia. unfold wrap. rewrite !Z.mod_small; lia.
Qed.

(** A sector of the FAT lies in the partition. *)
Lemma fat_sector_bounds f l : geometry f -> fat_begin f <= l < fat_begin f + fat_size f ->
  u64 (l + part_begin f) = part_begin f + l /\ part_begin f + l < part_end f /\ 0 <= part_begin f.
Proof using words.
  intros [? Hd Hc Hp He Hs] Hl. unfold n_clusters in *. destruct sector_words as (k & Ek & Hk & Eq). rewrite Eq in *.
  assert (1 * 2 <= fat_size f * k) by (apply Z.mul_le_mono_nonneg; lia).
  assert (0 <= (fat_size f * k - 2) * cluster_size f) by (apply Z.mul_nonneg_nonneg; lia).
  rewrite u64_small; lia.
Qed.

Lemma slot_of_entry f l : fat_ok f -> 0 <= l < FAT_CACHE_SIZE ->
  exists e, fat_entries f !! Z.to_nat l = Some e /\ ld (fat_entries f) l = Ok e /\ slot_ok f (Z.to_nat l) e.
Proof.
  intros Hf Hl. destruct (lookup_lt_is_Some_2 (fat_entries f) (Z.to_nat l)) as [e He].
  { pose proof (fk_entries _ Hf). unfold zlen in *. lia. }
  exists e. split_and!; [done|by apply ld_Some; [lia|]|]. by apply (fk_slots _ Hf).
Qed.

(** The cache after the sector [lba] was put in its slot, and the device with it. *)
Definition put_slot f (lba : Z) (m : bool) (data : list Z) (d : D) : fat32 D :=
  set_fat_dev (set_buf (set_entries f (<[Z.to_nat lba := (lba, m)]> (fat_entries f)))
    (blit (fat_buf f) (lba * SZ) data)) d.

Section PutSlot.
Context (f : fat32 D) (lba : Z) (m : bool) (data : list Z) (d : D).
Hypothesis Hf : fat_ok f.
Hypothesis Hl : fat_begin f <= lba < fat_begin f + fat_size f.
Hypothesis Hd : zlen data = SZ.
Hypothesis Hdev : forall l, dev_sector d l = dev_sector (fat_dev f) l.

Lemma put_slot_slice l : 0 <= l ->
  slice (fat_buf (put_slot f lba m data d)) (l * SZ) SZ =
  if decide (lba = l) then data else slice (fat_buf f) (l * SZ) SZ.
Proof using Hd Hf Hl words.
  intros Hl0. pose proof (ge_fat _ (fk_geometry _ Hf)). pose proof (dev_lbashift_range (D := D)).
  assert (0 < SZ) by lia. apply slice_blit_block; [lia|done|lia|lia|].
  rewrite (fk_buf _ Hf). apply Z.mul_le_mono_nonneg_r; lia.
Qed.

Lemma put_slot_entry l : 0 <= l ->
  fat_entries (put_slot f lba m data d) !! Z.to_nat l =
  if decide (lba = l) then Some (lba, m) else fat_entries f !! Z.to_nat l.
Proof using Hf Hl words.
  intros Hl0. cbn. pose proof (ge_fat _ (fk_geometry _ Hf)). pose proof (fk_entries _ Hf). unfold zlen, FAT_CACHE_SIZE in *.
  case_decide; [subst l; by rewrite list_lookup_insert_eq by lia|]. by rewrite list_lookup_insert_ne by lia.
Qed.

Lemma put_slot_view l : fat_begin f <= l < fat_begin f + fat_size f ->
  view (put_slot f lba m data d) l = if decide (lba = l) then data else view f l.
Proof using Hd Hf Hl Hdev words.
  intros Hll. pose proof (ge_fat _ (fk_geometry _ Hf)). unfold view.
  rewrite put_slot_entry, put_slot_slice by lia.
  cbn [put_slot set_fat_dev set_buf set_entries fat_dev part_begin]. rewrite Hdev.
  case_decide; [subst l; by rewrite Z.eqb_refl|done].
Qed.

Lemma put_slot_ok :
  (m = false -> data = dev_sector (fat_dev f) (part_begin f + lba)) -> fat_ok (put_slot f lba m data d).
Proof using Hd Hf Hl Hdev words.
  intros Hm. pose proof (ge_fat _ (fk_geometry _ Hf)) as Hgf. pose proof (dev_lbashift_range (D := D)).
  constructor.
  - destruct (fk_geometry _ Hf); constructor; assumption.
  - cbn. rewrite zlen_insert. apply (fk_entries _ Hf).
  - cbn. rewrite zlen_blit; [apply (fk_buf _ Hf)|nia|]. rewrite Hd, (fk_buf _ Hf). nia.
  - apply (fk_alloc _ Hf).
  - intros h e He. rewrite <- (Nat2Z.id h) in He. rewrite put_slot_entry in He by lia. unfold slot_ok.
    case_decide as Hh.
    + injection He as <-. right. cbn [fst snd]. rewrite put_slot_slice, decide_True by lia. split_and!; [lia|apply Hl..|].
      cbn [put_slot set_fat_dev set_buf set_entries fat_dev part_begin]. intros Em. by rewrite Hdev, Hm.
    + rewrite Nat2Z.id in He. destruct (fk_slots _ Hf h e He) as [->|(He1 & He2 & He3)]; [by left|right].
      split_and!; [done|apply He2..|]. rewrite He1 in *. rewrite put_slot_slice by lia. rewrite decide_False by lia.
      cbn [put_slot set_fat_dev set_buf set_entries fat_dev part_begin]. rewrite Hdev. exact He3.
Qed.
End PutSlot.

(** [fetch_fat_sector]: afterwards the buffer holds the sector. *)
Lemma fetch_ok f lba : fat_ok f -> fat_begin f <= lba < fat_begin f + fat_size f ->
  exists f', fetch_fat_sector lba f = Ok (f', lba * SZ) /\ fat_ok f' /\ same_fat f f' /\
    alloc_start f' = alloc_start f /\
    (exists m, fat_entries f' !! Z.to_nat lba = Some (lba, m)) /\
    slice (fat_buf f') (lba * SZ) SZ = view f lba.
Proof using words.
  intros Hf Hl. pose proof (fk_geometry _ Hf) as Hg. pose proof (ge_fat _ Hg) as Hgf.
  destruct (fat_sector_bounds f lba Hg Hl) as (Eu & Hpe & Hpb).
  destruct (slot_of_entry f lba Hf) as ([tag m] & He & Eld & Hs); [lia|].
  pose proof (dev_lbashift_range (D := D)). assert (0 < SZ) by lia.
  assert (Z.shiftl lba (dev_lbashift (D := D)) = lba * SZ) as Esh by (by rewrite Z.shiftl_mul_pow2 by lia).
  pose proof (fk_buf _ Hf) as Hb. pose proof (fk_entries _ Hf) as Hn. unfold FAT_CACHE_SIZE in *.
  unfold fetch_fat_sector, cache_access, add_cache_entry. rewrite lba_hash_small by (unfold FAT_CACHE_SIZE; lia).
  unfold assert_. unwrap. rewrite !(proj2 (Z.leb_le _ _)), !(proj2 (Z.ltb_lt _ _)) by lia. cbn [mbind res_bind].
  rewrite Eld. cbn [mbind res_bind]. rewrite Esh.
  unfold view at 1. rewrite He. destruct (Z.eqb_spec tag lba) as [->|Hne]; cbn [mbind res_bind].
  - exists f. split_and!; eauto; reflexivity.
  - destruct Hs as [[= -> ->]|(Ht & _)]; [|cbn in Ht; lia]. cbn [mbind res_bind].
    rewrite st_ok by lia. unfold part_read, part_async_read, assert_; cbn. rewrite Eu.
    rewrite !(proj2 (Z.leb_le _ _)), !(proj2 (Z.ltb_lt _ _)) by lia. cbn. rewrite dev_read_1.
    rewrite wr_bytes_ok by (rewrite ?dev_sector_len; nia). cbn.
    change (set_buf _ _) with (put_slot f lba false (dev_sector (fat_dev f) (part_begin f + lba)) (dev_sync (fat_dev f))).
    pose proof (dev_sector_len (fat_dev f) (part_begin f + lba)) as Hdl.
    eexists. split; [reflexivity|]. split_and!; [|split|done|exists false|].
    + apply put_slot_ok; try done. intros. apply dev_sync_sector.
    + split; [done|]. intros l. apply dev_sync_sector.
    + intros l Hll. rewrite put_slot_view by (done || intros; apply dev_sync_sector).
      case_decide; [subst l|done]. unfold view. rewrite He. by destruct (Z.eqb_spec 0 lba).
    + rewrite put_slot_entry by (done || lia). by rewrite decide_True by done.
    + rewrite put_slot_slice by (done || lia). by rewrite decide_True by done.
Qed.

(** ** The entries of the FAT *)

Lemma view_len f l : fat_ok f -> fat_begin f <= l < fat_begin f + fat_size f -> zlen (view f l) = SZ.
Proof using words.
  intros Hf Hl. pose proof (ge_fat _ (fk_geometry _ Hf)). pose proof (dev_lbashift_range (D := D)).
  unfold view. destruct (fat_entries f !! _) as [[tag m]|]; [destruct (tag =? l)|]; try apply dev_sector_len.
  apply zlen_slice; [nia|lia|]. rewrite (fk_buf _ Hf). nia.
Qed.

Lemma ent_same f f' c : same_table f f' -> geometry f -> 0 <= c < n_clusters f -> ent f' c = ent f c.
Proof using words.
  intros Hs Hg Hc. destruct (ent_position f c Hg Hc) as (_ & Hl & _). unfold ent.
  destruct Hs as [Hsg Hs]. destruct (sg_fat _ _ Hsg) as [-> _]. by rewrite Hs by done.
Qed.

Lemma same_geometry f f' : same_geo f f' -> geometry f -> geometry f'.
Proof.
  intros [E1 [E2 E3] E4 [E5 E6]] [? ? ? ? ? ?]. constructor; unfold n_clusters; rewrite ?E1, ?E2, ?E3, ?E4, ?E5, ?E6; assumption.
Qed.

(** The part [readFAT] and [linkFAT] share: the entry in the buffer. *)
Lemma fetch_entry f c : fat_ok f -> 0 <= c < n_clusters f ->
  exists f', fetch_fat_sector (fat_begin f + u32 (c * 4) / block_size) f =
      Ok (f', (fat_begin f + 4 * c / SZ) * SZ) /\
    fat_ok f' /\ same_fat f f' /\ alloc_start f' = alloc_start f /\
    (exists m, fat_entries f' !! Z.to_nat (fat_begin f + 4 * c / SZ) = Some (fat_begin f + 4 * c / SZ, m)) /\
    slice (fat_buf f') ((fat_begin f + 4 * c / SZ) * SZ) SZ = view f (fat_begin f + 4 * c / SZ) /\
    load_le 4 (fat_buf f') ((fat_begin f + 4 * c / SZ) * SZ + u32 (c * 4) mod block_size) = Ok (ent f c).
Proof using words.
  intros Hf Hc. pose proof (fk_geometry _ Hf) as Hg. pose proof (ge_fat _ Hg) as Hgf.
  destruct (ent_position f c Hg Hc) as (-> & Hl & Ho1 & Ho2). rewrite block_size_eq.
  pose proof (dev_lbashift_range (D := D)).
  destruct (fetch_ok f _ Hf Hl) as (f' & E & Hf' & Hs & Ha & Hm & Hv).
  exists f'. split_and!; try done. rewrite load_le_ok; [|nia|lia|rewrite (fk_buf _ Hf'); nia].
  unfold ent. rewrite <- Hv, slice_slice by nia. done.
Qed.

(** [readFAT]: the next cluster, 0 at the end of a chain. *)
Definition next_of f (c : Z) : Z :=
  let e := Z.land (ent f c) 0x0FFFFFFF in if 0x0FFFFFF8 <=? e then 0 else e.

Lemma readFAT_ok f c : fat_ok f -> 0 <= c < n_clusters f -> 2 <= Z.land (ent f c) 0x0FFFFFFF ->
  exists f', readFAT c f = Ok (f', next_of f c) /\ fat_ok f' /\ same_fat f f' /\ alloc_start f' = alloc_start f.
Proof using words.
  intros Hf Hc He. destruct (fetch_entry f c Hf Hc) as (f' & E & Hf' & Hs & Ha & _ & _ & El).
  exists f'. split_and!; try done. unfold readFAT. rewrite E. cbn [mbind res_bind]. rewrite El. cbn [mbind res_bind].
  unfold assert_, next_of. destruct (Z.eqb_spec (Z.land (ent f c) 268435455) 0); [lia|].
  destruct (Z.eqb_spec (Z.land (ent f c) 268435455) 1); [lia|]. cbn. by destruct (_ <=? _).
Qed.

(** Distinct entries do not overlap. *)
Lemma ent_put f lba m data d c : fat_ok f -> fat_begin f <= lba < fat_begin f + fat_size f -> zlen data = SZ ->
  (forall l, dev_sector d l = dev_sector (fat_dev f) l) -> 0 <= c < n_clusters f ->
  ent (put_slot f lba m data d) c =
  if decide (lba = fat_begin f + 4 * c / SZ) then le_bytes (slice data (4 * c mod SZ) 4) else ent f c.
Proof using words.
  intros Hf Hl Hd Hdev Hc. destruct (ent_position f c (fk_geometry _ Hf) Hc) as (_ & Hl' & _).
  unfold ent. change (fat_begin (put_slot f lba m data d)) with (fat_begin f).
  rewrite put_slot_view by done. by case_decide.
Qed.

Lemma ent_blit f c c' x : fat_ok f -> 0 <= c < n_clusters f -> 0 <= c' < n_clusters f ->
  4 * c / SZ = 4 * c' / SZ ->
  le_bytes (slice (blit (view f (fat_begin f + 4 * c / SZ)) (4 * c mod SZ) (le_enc 4 x)) (4 * c' mod SZ) 4) =
  if decide (c = c') then le_bytes (le_enc 4 x) else ent f c'.
Proof using words.
  intros Hf Hc Hc' E. pose proof (fk_geometry _ Hf) as Hg.
  destruct (ent_position f c Hg Hc) as (_ & Hl & Ho1 & Ho2). destruct (ent_position f c' Hg Hc') as (_ & _ & Ho1' & Ho2').
  pose proof (view_len f _ Hf Hl) as Hv. pose proof (zlen_le_enc 4 x) as Hx.
  case_decide as Hcc.
  - subst c'. f_equal. apply (slice_blit_same (view f (fat_begin f + 4 * c / SZ)) (4 * c mod SZ) (le_enc 4 x)); lia.
  - unfold ent. rewrite <- E. f_equal. assert (4 * c mod SZ + 4 <= 4 * c' mod SZ \/ 4 * c' mod SZ + 4 <= 4 * c mod SZ) as [?|?].
    { pose proof (Z.div_mod (4 * c) SZ). pose proof (Z.div_mod (4 * c') SZ). destruct sector_words as (k & Ek & ? & _).
      rewrite Ek in *. rewrite !Z.div_mul_cancel_l, !Zmult_mod_distr_l in * by lia. lia. }
    + apply slice_blit_after; lia.
    + apply slice_blit_before; lia.
Qed.

(** The value [linkFAT] stores: the four high bits are kept. *)
Definition link_value (old to : Z) : Z := Z.lor to (Z.land old 0xf0000000).

Lemma link_value_low old to : 0 <= to < 2 ^ 28 -> Z.land (link_value old to) 0x0FFFFFFF = to.
Proof.
  intros Hto. unfold link_value. rewrite Z.land_lor_distr_l, <- Z.land_assoc.
  change (Z.land 4026531840 268435455) with 0. rewrite Z.land_0_r, Z.lor_0_r.
  change 268435455 with (Z.ones 28). rewrite Z.land_ones by lia. by apply Z.mod_small.
Qed.

Lemma link_value_range old to : 0 <= to < 2 ^ 28 -> 0 <= link_value old to < 2 ^ 32.
Proof.
  intros Hto. assert (Z.land old 4026531840 = Z.land (Z.land old (Z.ones 32)) 4026531840) as E.
  { by rewrite <- Z.land_assoc. }
  unfold link_value. split; [apply Z.lor_nonneg; split; [lia|apply Z.land_nonneg; lia]|].
  replace (Z.lor to (Z.land old 4026531840)) with (Z.land (Z.lor to (Z.land old 4026531840)) (Z.ones 32)).
  { rewrite Z.land_ones by lia. apply Z.mod_pos_bound. lia. }
  rewrite Z.land_lor_distr_l, (Z.land_ones to), (Z.mod_small to) by lia. f_equal. by rewrite <- Z.land_assoc.
Qed.

Lemma land_high_28 to : 0 <= to < 2 ^ 28 -> Z.land to 0xf0000000 = 0.
Proof.
  intros Hto. rewrite <- (Z.mod_small to (2 ^ 28)), <- Z.land_ones, <- Z.land_assoc by lia. apply Z.land_0_r.
Qed.

(** The FAT with one entry changed. *)
Record linked f f' (c v : Z) : Prop := {
  lk_disk : same_disk f f';
  lk_ent : forall c', 0 <= c' < n_clusters f -> ent f' c' = if decide (c = c') then v else ent f c'
}.

Lemma linkFAT_ok f c to : fat_ok f -> 0 <= c < n_clusters f -> 0 <= to < 2 ^ 28 ->
  0x0FFFFFF8 <= Z.land (ent f c) 0x0FFFFFFF \/ ent f c = 0 ->
  exists f', linkFAT c to f = Ok f' /\ fat_ok f' /\ alloc_start f' = alloc_start f /\
    linked f f' c (link_value (ent f c) to).
Proof using words.
  intros Hf Hc Hto He. destruct (fetch_entry f c Hf Hc) as (f1 & E & Hf1 & Hs & Ha & [m Hm] & Hv & El).
  unfold linkFAT. rewrite E. cbn [mbind res_bind]. rewrite El. cbn [mbind res_bind].
  unfold assert_. replace (_ || _) with true by lia. cbn [mbind res_bind].
  rewrite (land_high_28 _ Hto). cbn [mbind res_bind Z.eqb].
  pose proof (fk_geometry _ Hf) as Hg. pose proof (ge_fat _ Hg) as Hgf. pose proof (fk_buf _ Hf1) as Hb.
  destruct (ent_position f c Hg Hc) as (-> & Hl & Ho1 & Ho2). rewrite block_size_eq.
  pose proof (dev_lbashift_range (D := D)). unfold FAT_CACHE_SIZE in *.
  set (lba := fat_begin f + 4 * c / SZ) in *. set (x := Z.lor to _).
  assert (lba * SZ + SZ <= 2048 * SZ) by nia. assert (0 <= lba * SZ) by nia.
  rewrite store_le_ok by lia. cbn [mbind res_bind].
  rewrite (blit_slice _ (lba * SZ) SZ) by (rewrite ?zlen_le_enc; lia). rewrite Hv.
  unfold mark_modified. rewrite lba_hash_small by (unfold FAT_CACHE_SIZE; lia).
  cbn [fat_entries set_buf]. rewrite (ld_Some (fat_entries f1) lba (lba, m)) by (lia || exact Hm). cbn [mbind res_bind]. rewrite Z.eqb_refl.
  cbn [assert_ mbind res_bind]. rewrite st_ok by (rewrite (fk_entries _ Hf1); unfold FAT_CACHE_SIZE; lia). cbn [mbind res_bind].
  pose proof (view_len f _ Hf Hl) as Hvl. fold lba in Hvl.
  set (data := blit (view f lba) _ _). assert (zlen data = SZ) as Hdl by (unfold data; rewrite zlen_blit; rewrite ?zlen_le_enc; lia).
  exists (put_slot f1 lba true data (fat_dev f1)).
  destruct (sg_fat _ _ (same_fat_geo _ _ Hs)) as [Eb Es].
  assert (fat_begin f1 <= lba < fat_begin f1 + fat_size f1) as Hl1 by (by rewrite Eb, Es).
  split_and!; [done|by apply put_slot_ok|done|]. constructor; [split; [destruct (same_fat_geo _ _ Hs); constructor; assumption|apply Hs]|].
  intros c' Hc'. rewrite ent_put; try done; [|unfold n_clusters in *; by rewrite Es].
  rewrite Eb. destruct (decide (lba = _)) as [El'|El'].
  - unfold data, lba. rewrite ent_blit; [|done..|unfold lba in El'; lia]. case_decide; [|by symmetry; apply ent_same; [apply same_fat_table|..]].
    apply le_bytes_enc. apply (link_value_range (ent f c) to Hto).
  - rewrite decide_False by (intros ->; done). by apply ent_same; [apply same_fat_table|..].
Qed.

(** ** Changes of the device outside of the FAT *)

Lemma set_dev_ok f d : fat_ok f ->
  (forall l, fat_begin f <= l < fat_begin f + fat_size f ->
     dev_sector d (part_begin f + l) = dev_sector (fat_dev f) (part_begin f + l)) ->
  fat_ok (set_fat_dev f d) /\ same_table f (set_fat_dev f d).
Proof.
  intros Hf Hd. split_and!.
  - constructor; try apply Hf; [destruct (fk_geometry _ Hf); constructor; assumption|].
    intros h e He. destruct (fk_slots _ Hf h e He) as [->|(E & Hr & Hc)]; [by left|right].
    split_and!; [done|apply Hr..|]. cbn. intros Em. rewrite Hd by done. by apply Hc.
  - split; [by constructor|]. intros l Hl. unfold view. cbn. by rewrite Hd.
Qed.

Lemma sync_ok f : fat_ok f -> fat_ok (sync f) /\ same_fat f (sync f).
Proof.
  intros Hf. destruct (set_dev_ok f (dev_sync (fat_dev f)) Hf) as (H1 & H2 & H3); [intros; apply dev_sync_sector|].
  split; [done|]. split; [split; [done|]|done]. intros l. apply dev_sync_sector.
Qed.

(** A write behind the FAT. *)
Lemma part_write_ok f lba data count : fat_ok f -> fat_begin f + fat_size f <= lba ->
  0 <= count -> lba + count <= part_end f - part_begin f -> zlen data = count * SZ ->
  exists f', part_write lba data count f = Ok f' /\ fat_ok f' /\ same_table f f' /\
    alloc_start f' = alloc_start f /\
    forall l, dev_sector (fat_dev f') (part_begin f + l) =
      if decide (lba <= l < lba + count) then slice data ((l - lba) * SZ) SZ else dev_sector (fat_dev f) (part_begin f + l).
Proof.
  intros Hf Hl Hc He Hz. pose proof (fk_geometry _ Hf) as Hg. pose proof (ge_part _ Hg). pose proof (ge_fat _ Hg).
  assert (forall l, dev_sector (dev_write (part_begin f + lba) data count (fat_dev f)) (part_begin f + l) =
      if decide (lba <= l < lba + count) then slice data ((l - lba) * SZ) SZ else dev_sector (fat_dev f) (part_begin f + l)) as Hw.
  { intros l. rewrite dev_write_sector by done.
    replace (part_begin f + l - (part_begin f + lba)) with (l - lba) by lia. repeat case_decide; done || lia. }
  destruct (set_dev_ok f (dev_write (part_begin f + lba) data count (fat_dev f)) Hf) as [Hw1 Hw2].
  { intros l Hl'. rewrite Hw. by rewrite decide_False by lia. }
  eexists. split_and!; [|done|done|done|exact Hw]. unfold part_write, assert_. rewrite (Z.add_comm lba).
  rewrite u64_small by lia. rewrite !(proj2 (Z.leb_le _ _)) by lia. done.
Qed.
End View.
