(* ===== verification/Fat32Chain.v ===== *)
(** * FAT32: allocating clusters and following chains

    [allocFAT] finds a free entry, in every sector but one; [fetch_cluster] follows the
    chain of a file; [read_or_allocateFAT] follows it or makes it longer. *)

From S2P Require Import Prelude Bytes Interfaces FileSystems Fat32 Fat32Proofs.





Section Alloc.
Context {D : Type} `{BlockDevice D}.
Hypothesis words : 3 <= dev_lbashift (D := D).
Notation SZ := (2 ^ dev_lbashift (D := D)).
Notation PER := (SZ / 4).
Implicit Types f : fat32 D.

(** Entry [j] of the sector [s] of the FAT. *)
Lemma ent_of_sector f s j : geometry f -> 0 <= s < fat_size f -> 0 <= j < PER ->
  let c := s * PER + j in
  0 <= c < n_clusters f /\ n_clusters f < 2 ^ 27 /\ 4 * c / SZ = s /\ 4 * c mod SZ = 4 * j /\
  ent f c = le_bytes (slice (view f (fat_begin f + s)) (4 * j) 4).
Proof using words.
  intros Hg Hs Hj c. destruct (sector_words words) as (k & Ek & Hk & Eq).
  unfold ent, n_clusters. subst c. rewrite Eq in *. pose proof (ge_fat _ Hg) as Hf. unfold FAT_CACHE_SIZE in Hf.
  pose proof (dev_lbashift_range (D := D)). assert (SZ <= 2 ^ 11) by (apply Z.pow_le_mono_r; lia).
  assert (4 * (s * k + j) / SZ = s) as E1.
  { rewrite Ek, Z.div_mul_cancel_l by lia. rewrite Z.div_add_l, Z.div_small by lia. lia. }
  assert (4 * (s * k + j) mod SZ = 4 * j) as E2.
  { rewrite Ek, Zmult_mod_distr_l. rewrite Z.add_comm, Z.mod_add, Z.mod_small by lia. lia. }
  split_and!; [nia|nia|nia|done|done|]. by rewrite E1, E2.
Qed.

(** Every entry is an entry of a sector. *)
Lemma sector_of_ent f c : geometry f -> 0 <= c < n_clusters f ->
  exists s j, 0 <= s < fat_size f /\ 0 <= j < PER /\ c = s * PER + j.
Proof using words.
  intros Hg Hc. destruct (sector_words words) as (k & Ek & Hk & Eq). unfold n_clusters in Hc. rewrite Eq in *.
  exists (c / k), (c mod k). pose proof (Z.mod_pos_bound c k). pose proof (Z.div_mod c k).
  split_and!; [apply Z.div_pos; lia|apply Z.div_lt_upper_bound; lia|lia..].
Qed.

(** The scan of one sector. *)
Lemma scan_sector_ok f s n i :
  fat_ok f -> 0 <= s < fat_size f -> 0 <= i -> i + Z.of_nat n <= PER ->
  slice (fat_buf f) ((fat_begin f + s) * SZ) SZ = view f (fat_begin f + s) ->
  exists r, scan_sector n i ((fat_begin f + s) * SZ) f = Ok r /\
    match r with
    | Some j => i <= j < i + Z.of_nat n /\ ent f (s * PER + j) = 0
    | None => forall j, i <= j < i + Z.of_nat n -> ent f (s * PER + j) <> 0
    end.
Proof using words.
  intros Hf Hs Hi Hn Hv. revert i Hi Hn. induction n as [|n IH]; intros i Hi Hn; cbn [scan_sector].
  { exists None. split; [done|lia]. }
  pose proof (fk_geometry _ Hf) as Hg. pose proof (ge_fat _ Hg). pose proof (dev_lbashift_range (D := D)).
  destruct (ent_of_sector f s i Hg Hs ltac:(lia)) as (_ & _ & _ & _ & E).
  destruct (sector_words words) as (k & Ek & Hk & Eq). unfold FAT_CACHE_SIZE in *.
  assert (0 <= (fat_begin f + s) * SZ) by nia. assert ((fat_begin f + s) * SZ + SZ <= 2048 * SZ) by nia.
  rewrite load_le_ok by (rewrite ?(fk_buf _ Hf); unfold FAT_CACHE_SIZE; lia). cbn [mbind res_bind].
  rewrite <- (slice_slice (fat_buf f) ((fat_begin f + s) * SZ) SZ) by lia. rewrite Hv, <- E.
  destruct (Z.eqb_spec (ent f (s * PER + i)) 0) as [E0|E0].
  - exists (Some i). split; [done|]. split; [lia|done].
  - destruct (IH (i + 1)) as (r & Er & Hr); [lia|lia|]. exists r. split; [done|]. destruct r as [j|].
    + destruct Hr. split; [lia|done].
    + intros j Hj. destruct (decide (j = i)) as [->|]; [done|apply Hr; lia].
Qed.

(** What [allocFAT] found: a free cluster, or that the sectors [P] hold none. *)
Definition alloc_result f (P : Z -> Prop) (c : Z) : Prop :=
  (c = 0 /\ forall c', 2 <= c' < n_clusters f -> P (4 * c' / SZ) -> ent f c' <> 0) \/
  (2 <= c < n_clusters f /\ ent f c = 0).

Lemma fat_ok_alloc_start f a : fat_ok f -> fat_begin f <= a < fat_begin f + fat_size f ->
  fat_ok (set_alloc_start f a).
Proof. intros [Hg ? ? ? ?] Ha. constructor; try assumption. destruct Hg. by constructor. Qed.

(** One sector: where its free entry is, if there is one. *)
Lemma scan_fat_sector f s : fat_ok f -> 0 <= s < fat_size f ->
  exists f' r, fetch_fat_sector (fat_begin f + s) f = Ok (f', (fat_begin f + s) * SZ) /\
    fat_ok f' /\ same_fat f f' /\ alloc_start f' = alloc_start f /\
    (let begin := if fat_begin f + s =? fat_begin f' then 2 else 0 in
     scan_sector (Z.to_nat (PER - begin)) begin ((fat_begin f + s) * SZ) f' = Ok r) /\
    match r with
    | Some j => 0 <= j < PER /\ 2 <= s * PER + j < n_clusters f /\ ent f (s * PER + j) = 0
    | None => forall c, 2 <= c < n_clusters f -> 4 * c / SZ = s -> ent f c <> 0
    end.
Proof using words.
  intros Hf Hs. pose proof (fk_geometry _ Hf) as Hg. destruct (sector_words words) as (k & Ek & Hk & Eq).
  destruct (fetch_ok words f (fat_begin f + s)) as (f' & Ef & Hf' & Hsf & Ha & _ & Hv); [done|lia|].
  destruct (sg_fat _ _ (same_fat_geo _ _ Hsf)) as [Eb Es].
  assert (forall c, 0 <= c < n_clusters f -> ent f' c = ent f c) as Hent by (intros; by apply ent_same; [..|apply same_fat_table|done|done]).
  set (begin := if fat_begin f + s =? fat_begin f' then 2 else 0).
  assert ((begin = 2 /\ s = 0) \/ (begin = 0 /\ 0 < s)) as Hbegin.
  { unfold begin. destruct (Z.eqb_spec (fat_begin f + s) (fat_begin f')); [left|right]; split; lia. }
  destruct (scan_sector_ok f' s (Z.to_nat (PER - begin)) begin) as (r & Er & Hr); [done|lia|lia|lia| |].
  { rewrite Eb, Hv. symmetry. apply Hsf. lia. }
  exists f', r. rewrite Eb in Er. split_and!; [done..|]. destruct r as [j|].
  - destruct Hr as [Hj E0]. destruct (ent_of_sector f s j Hg Hs) as (Hc & _); [lia|]. rewrite Hent in E0 by done.
    split_and!; [lia|lia|nia|lia|done].
  - intros c Hc Ec. destruct (sector_of_ent f c Hg) as (s' & j & Hs' & Hj & ->); [lia|].
    destruct (ent_of_sector f s' j Hg Hs' Hj) as (Hc' & _ & E1 & _). assert (s' = s) as -> by lia.
    rewrite <- Hent by done. apply Hr. nia.
Qed.

(** How far the sector [t] is from [s], going up and around. *)
Definition dist (z s t : Z) : Z := if s <=? t then t - s else t - s + z.

(** No sector is nearer than the one where the search stops. *)
Lemma alloc_nothing f t : geometry f -> 0 <= t < fat_size f ->
  alloc_result f (fun s' => dist (fat_size f) t s' < dist (fat_size f) t t) 0.
Proof using words.
  intros Hg Ht. left. split; [done|]. intros c Hc Hlt. destruct (ent_position words f c Hg) as (_ & ? & _); [lia|].
  exfalso. revert Hlt. unfold dist. rewrite Z.leb_refl. zb.
Qed.

Lemma alloc_loop_ok fuel f s t : fat_ok f -> 0 <= s < fat_size f -> 0 <= t < fat_size f ->
  dist (fat_size f) s t <= Z.of_nat fuel ->
  exists f' c, alloc_loop fuel (fat_begin f + s) (fat_begin f + fat_size f - 1) (fat_begin f + t) f = Ok (f', c) /\
    fat_ok f' /\ same_fat f f' /\
    alloc_result f (fun s' => dist (fat_size f) s s' < dist (fat_size f) s t) c.
Proof using words.
  intros Hf Hs Ht. revert f s Hf Hs Ht. induction fuel as [|fuel IH]; intros f s Hf Hs Ht Hd; cbn [alloc_loop].
  - assert (s = t) as -> by (unfold dist in Hd; destruct (Z.leb_spec s t); lia). rewrite Z.eqb_refl. cbn.
    exists f, 0. split_and!; [done..|]. by apply alloc_nothing; [apply fk_geometry|].
  - destruct (Z.eqb_spec (fat_begin f + s) (fat_begin f + t)) as [Est|Est]; cbn [negb].
    { exists f, 0. assert (s = t) as -> by lia. split_and!; [done..|]. by apply alloc_nothing; [apply fk_geometry|]. }
    destruct (scan_fat_sector f s Hf Hs) as (f1 & r & Ef & Hf1 & Hsf & Ha & Er & Hr).
    destruct (sg_fat _ _ (same_fat_geo _ _ Hsf)) as [Eb Ez]. pose proof (fk_geometry _ Hf) as Hg. pose proof (ge_fat _ Hg) as Hgf.
    assert (n_clusters f1 = n_clusters f) as En by (unfold n_clusters; by rewrite Ez).
    rewrite Ef. cbn [mbind res_bind]. rewrite (block_size_eq (D := D)). cbv zeta in Er. rewrite Er. cbn [mbind res_bind].
    unfold FAT_CACHE_SIZE in Hgf. destruct r as [j|].
    + destruct Hr as (Hj & Hc & E0). destruct (ent_of_sector f s j Hg Hs Hj) as (_ & Hn & _).
      rewrite Eb. replace (fat_begin f + s - fat_begin f) with s by lia. unwrap.
      exists (set_alloc_start f1 (fat_begin f + s)), (s * PER + j). split_and!; [done|apply fat_ok_alloc_start; [done|lia]|..].
      * transitivity f1; [done|]. by repeat split.
      * right. done.
    + set (s1 := if fat_begin f + s =? fat_begin f + fat_size f - 1 then 0 else s + 1).
      assert (0 <= s1 < fat_size f) as Hs1 by (unfold s1; zb).
      destruct (IH f1 s1) as (f2 & c & E2 & Hf2 & Hsf2 & Hres); [done|by rewrite Ez..|rewrite Ez; revert Hd; unfold dist, s1; zb|].
      exists f2, c. split_and!; [|done|by transitivity f1|].
      * rewrite <- E2, Eb, Ez. f_equal. unfold s1. zb.
      * destruct Hres as [[-> Hfull]|[Hc E0]]; [left|right].
        -- split; [done|]. intros c Hc Hdc. destruct (decide (4 * c / SZ = s)) as [Es|Es]; [by apply Hr|].
           rewrite <- (ent_same words f f1) by (done || lia || by apply same_fat_table). apply Hfull; [by rewrite En|].
           destruct (ent_position words f c Hg) as (_ & ? & _); [lia|]. rewrite Ez. revert Hdc. unfold dist, s1. zb.
        -- rewrite En in Hc. rewrite (ent_same words f f1) in E0 by (done || lia || by apply same_fat_table). done.
Qed.

(** The sector [allocFAT] does not search: the one before the cursor. *)
Definition skipped_sector f : Z :=
  if alloc_start f =? fat_begin f then fat_size f - 1 else alloc_start f - fat_begin f - 1.

Lemma allocFAT_ok f : fat_ok f ->
  exists f' c, allocFAT f = Ok (f', c) /\ fat_ok f' /\ same_fat f f' /\
    alloc_result f (fun s => s <> skipped_sector f) c.
Proof using words.
  intros Hf. pose proof (fk_geometry _ Hf) as Hg. pose proof (ge_fat _ Hg) as Hgf. pose proof (fk_alloc _ Hf) as Ha.
  unfold FAT_CACHE_SIZE in Hgf.
  destruct (alloc_loop_ok (Z.to_nat (fat_size f)) f (alloc_start f - fat_begin f) (skipped_sector f)) as (f' & c & E & Hf' & Hs & Hr);
    [done|lia|unfold skipped_sector; zb|unfold skipped_sector, dist; zb|].
  exists f', c. split_and!; [|done..|].
  - unfold allocFAT, assert_. unwrap. rewrite !(proj2 (Z.leb_le _ _)), !(proj2 (Z.ltb_lt _ _)) by lia. cbn [mbind res_bind].
    rewrite <- E. f_equal; [lia|]. unfold skipped_sector. zb.
  - destruct Hr as [[-> Hfull]|]; [left|by right]. split; [done|]. intros c Hc Hp. apply Hfull; [done|].
    destruct (ent_position words f c Hg) as (_ & ? & _); [lia|]. revert Hp. unfold skipped_sector, dist. zb.
Qed.
End Alloc.

(** * FAT32: the cluster chain of a file

    [chain f cs]: the FAT links the clusters [cs] in this order and ends there.
    [sector_pos] is the place of a sector of the file on the partition. *)


Section Chain.
Context {D : Type} `{BlockDevice D}.
Hypothesis words : 3 <= dev_lbashift (D := D).
Notation SZ := (2 ^ dev_lbashift (D := D)).
Notation MASK := 0x0FFFFFFF.
Notation EOC := 0x0FFFFFF8.
Implicit Types f : fat32 D.

Definition in_table f (c : Z) : Prop := 2 <= c < n_clusters f.

Inductive chain f : list Z -> Prop :=
  | chain_last c : in_table f c -> EOC <= Z.land (ent f c) MASK -> chain f [c]
  | chain_cons c d cs : in_table f c -> Z.land (ent f c) MASK = d -> d < EOC -> chain f (d :: cs) ->
      chain f (c :: d :: cs).

Lemma n_clusters_bound f : geometry f -> n_clusters f < 2 ^ 27.
Proof using words.
  intros Hg. pose proof (ge_fat _ Hg). pose proof (sector_words words) as (k & Ek & ? & Eq).
  destruct (ent_of_sector words f 0 0 Hg) as (_ & ? & _); lia.
Qed.

Lemma chain_head f c cs : chain f (c :: cs) -> in_table f c.
Proof. by inversion 1. Qed.

Lemma chain_in_table f cs c : chain f cs -> c ∈ cs -> in_table f c.
Proof.
  induction 1 as [c0 ? ?|c0 d cs ? ? ? ? IH]; intros Hin.
  - apply list_elem_of_singleton in Hin. by subst.
  - apply elem_of_cons in Hin as [->|Hin]; [done|by apply IH].
Qed.

(** Every cluster of a chain has an entry that [readFAT] accepts. *)
Lemma chain_ent f c cs : geometry f -> chain f (c :: cs) ->
  2 <= Z.land (ent f c) MASK /\ next_of f c = default 0 (head cs).
Proof using words.
  intros Hg Hc. unfold next_of. inversion Hc as [? ? He|? d cs' ? He Hd Hch]; subst; cbn [head default].
  - split; [lia|]. by rewrite (proj2 (Z.leb_le _ _)) by lia.
  - pose proof (chain_head _ _ _ Hch) as [? ?]. split; [done|]. by rewrite (proj2 (Z.leb_gt _ _)) by lia.
Qed.

Lemma chain_tail f c d cs : chain f (c :: d :: cs) -> chain f (d :: cs).
Proof. by inversion 1. Qed.

(** The chain depends on the entries of its clusters only. *)
Lemma chain_ext f f' cs : n_clusters f' = n_clusters f -> (forall c, c ∈ cs -> ent f' c = ent f c) ->
  chain f cs -> chain f' cs.
Proof.
  intros Hn He Hc. induction Hc as [c ? ?|c d cs ? ? ? ? IH].
  - constructor; [unfold in_table in *; lia|]. by rewrite He by left.
  - constructor; [unfold in_table in *; lia|rewrite He by left; done|done|]. apply IH. intros. apply He. by right.
Qed.

Lemma same_geo_clusters f f' : same_geo f f' -> n_clusters f' = n_clusters f.
Proof. intros Hs. unfold n_clusters. by destruct (sg_fat _ _ Hs) as [_ ->]. Qed.

Lemma chain_same f f' cs : same_table f f' -> geometry f -> chain f cs -> chain f' cs.
Proof using words.
  intros Hs Hg Hc. apply (chain_ext f); [by apply same_geo_clusters, Hs| |done].
  intros c Hin. apply ent_same; [done..|]. pose proof (chain_in_table _ _ _ Hc Hin) as [? ?]. lia.
Qed.

(** A chain has no cycle: it is determined by its first cluster. *)
Lemma chain_det f cs cs' c : chain f (c :: cs) -> chain f (c :: cs') -> cs = cs'.
Proof.
  revert c cs'. induction cs as [|d cs IH]; intros c cs' H1 H2; inversion H1; inversion H2; subst; try done; try lia.
  f_equal. eapply IH; eassumption.
Qed.

Lemma chain_suffix f l c cs : chain f (l ++ c :: cs) -> chain f (c :: cs).
Proof.
  induction l as [|x l IH]; [done|]. intros Hc. apply IH. destruct l; cbn in *; by eapply chain_tail.
Qed.

Lemma chain_nodup f cs : chain f cs -> NoDup cs.
Proof.
  induction cs as [|c cs IH]; intros Hc; [constructor|]. apply NoDup_cons_2.
  - intros Hin. apply list_elem_of_split in Hin as (l1 & l2 & ->).
    pose proof (chain_suffix f (c :: l1) c l2 Hc) as Hc2. pose proof (chain_det _ _ _ _ Hc Hc2) as E.
    apply (f_equal length) in E. rewrite length_app in E. cbn in E. lia.
  - destruct cs as [|d cs]; [constructor|]. apply IH. by eapply chain_tail.
Qed.

(** ** [fetch_cluster] *)

Lemma fetch_cluster_loop_ok n i f c cs : fat_ok f -> chain f (c :: cs) ->
  exists f', fat_ok f' /\ same_fat f f' /\
    fetch_cluster_loop n i c f =
    match (c :: cs) !! n with
    | Some c' => Ok (f', c', None)
    | None => Ok (f', List.last (c :: cs) 0, Some (i + zlen cs))
    end.
Proof using words.
  intros Hf Hc. revert i f c cs Hf Hc. induction n as [|n IH]; intros i f c cs Hf Hc; cbn [fetch_cluster_loop].
  { by exists f. }
  pose proof (fk_geometry _ Hf) as Hg. pose proof (chain_head _ _ _ Hc) as [Hc1 Hc2].
  destruct (chain_ent f c cs Hg Hc) as [He En].
  destruct (readFAT_ok words f c) as (f1 & E1 & Hf1 & Hs1 & _); [done|lia|done|].
  rewrite E1, En. cbn [mbind res_bind]. destruct cs as [|d cs]; cbn [head default].
  - exists f1. rewrite Z.eqb_refl. cbn. split_and!; [done..|]. unfold zlen. cbn. by rewrite Z.add_0_r.
  - pose proof (chain_tail _ _ _ _ Hc) as Hd. pose proof (chain_head _ _ _ Hd) as [? ?].
    change (id d) with d. destruct (Z.eqb_spec d 0); [lia|]. cbn [negb].
    destruct (IH (i + 1) f1 d cs Hf1) as (f2 & Hf2 & Hs2 & E2).
    { eapply chain_same; [by apply same_fat_table|done|done]. }
    exists f2. split_and!; [done|by transitivity f1|]. rewrite E2.
    change ((c :: d :: cs) !! S n) with ((d :: cs) !! n). destruct ((d :: cs) !! n); [done|]. unfold zlen. cbn [length].
    replace (i + 1 + Z.of_nat (length cs)) with (i + Z.of_nat (S (length cs))) by lia. done.
Qed.

(** ** Where the sectors of a file are *)

Lemma cluster_begin_ok f c : geometry f -> in_table f c ->
  cluster_begin c f = data_begin f + (c - 2) * cluster_size f /\
  0 <= (c - 2) * cluster_size f /\
  data_begin f + (c - 2) * cluster_size f + cluster_size f <= part_end f - part_begin f.
Proof using words.
  intros Hg [Hc1 Hc2]. destruct Hg as [H1 H2 H3 H4 H5 H6].
  assert (0 <= (c - 2) * cluster_size f) by (apply Z.mul_nonneg_nonneg; lia).
  assert ((c - 2 + 1) * cluster_size f <= (n_clusters f - 2) * cluster_size f) by (apply Z.mul_le_mono_nonneg_r; lia).
  assert (n_clusters f < 2 ^ 27) by (apply n_clusters_bound; by constructor).
  split_and!; [|lia|lia]. unfold cluster_begin. rewrite (u32_small (c - 2)), (u32_small (_ * _)), u32_small by lia. lia.
Qed.

Definition sector_pos f (cs : list Z) (k : Z) : Z :=
  data_begin f + (nthZ cs (k / cluster_size f) - 2) * cluster_size f + k mod cluster_size f.
End Chain.
