(* ===== verification/Fat32Read.v ===== *)
(** * FAT32: reading a file

    [fat32_read_file_sectors] reads runs of adjacent clusters at once; the result is
    what reading sector by sector gives. *)

From S2P Require Import Prelude Bytes Interfaces FileSystems Fat32 Fat32Proofs Fat32Chain.





Section Read.
Context {D : Type} `{BlockDevice D}.
Hypothesis words : 3 <= dev_lbashift (D := D).
Notation SZ := (2 ^ dev_lbashift (D := D)).
Notation MASK := 0x0FFFFFFF.
Implicit Types f : fat32 D.

(** ** Positions in a chain *)

(** The entry of the cluster at index [i]. *)
Lemma chain_at f cs i : geometry f -> chain f cs -> 0 <= i < zlen cs ->
  in_table f (nthZ cs i) /\ 2 <= Z.land (ent f (nthZ cs i)) MASK /\
  next_of f (nthZ cs i) = (if i + 1 <? zlen cs then nthZ cs (i + 1) else 0).
Proof using words.
  intros Hg Hc Hi. pose proof (lookup_nthZ cs i Hi) as El. pose proof (take_drop_middle _ _ _ El) as E.
  assert (chain f (nthZ cs i :: drop (S (Z.to_nat i)) cs)) as Hs by (apply (chain_suffix f (take (Z.to_nat i) cs)); by rewrite E).
  destruct (chain_ent words _ _ _ Hg Hs) as [He En]. split_and!; [by apply chain_head in Hs|done|].
  rewrite En, head_lookup, lookup_drop.
  unfold zlen in *. destruct (Z.ltb_spec (i + 1) (Z.of_nat (length cs))).
  - unfold nthZ. do 2 f_equal. lia.
  - by rewrite lookup_ge_None_2 by lia.
Qed.

Lemma sector_pos_at f cs i o : 0 <= o < cluster_size f ->
  sector_pos f cs (i * cluster_size f + o) = data_begin f + (nthZ cs i - 2) * cluster_size f + o.
Proof.
  intros Ho. unfold sector_pos. rewrite Z.div_add_l, (Z.div_small o), Z.add_0_r by lia.
  by rewrite (Z.add_comm (_ * _) o), Z.mod_add, Z.mod_small by lia.
Qed.

Lemma sector_pos_same f f' cs k : same_geo f f' -> sector_pos f' cs k = sector_pos f cs k.
Proof. intros Hs. unfold sector_pos. by rewrite (sg_cluster _ _ Hs), (sg_data _ _ Hs). Qed.

(** Index and offset of a position inside of a chain. *)
Lemma position_bound (i o n len cz : Z) : 0 < n -> 0 <= o < cz -> i * cz + o + n <= len * cz -> i < len.
Proof. intros. destruct (decide (i < len)); [done|]. assert (len * cz <= i * cz) by (apply Z.mul_le_mono_nonneg_r; lia). lia. Qed.

(** The sector at a position, in the partition. *)
Lemma position_lba f cs i o : geometry f -> chain f cs -> 0 <= i < zlen cs -> 0 <= o < cluster_size f ->
  cluster_begin (nthZ cs i) f + o = sector_pos f cs (i * cluster_size f + o) /\
  data_begin f <= sector_pos f cs (i * cluster_size f + o) /\
  sector_pos f cs (i * cluster_size f + o) + (cluster_size f - o) <= part_end f - part_begin f.
Proof using words.
  intros Hg Hc Hi Ho. destruct (chain_at f cs i Hg Hc Hi) as (Hin & _ & _).
  destruct (cluster_begin_ok words f _ Hg Hin) as (-> & ? & ?). rewrite sector_pos_at by done. lia.
Qed.

(** ** The coalescing loop *)

(** At the end of a cluster, with [n] sectors behind it to read. *)
Lemma next_at f cs i n : fat_ok f -> chain f cs -> 0 <= i < zlen cs -> 0 <= n ->
  (i + 1) * cluster_size f + n <= zlen cs * cluster_size f ->
  exists f1 c1, readFAT (nthZ cs i) f = Ok (f1, c1) /\ fat_ok f1 /\ same_fat f f1 /\ chain f1 cs /\
    (0 < n -> c1 = nthZ cs (i + 1) /\ i + 1 < zlen cs) /\ negb (c1 =? 0) || (n =? 0) = true.
Proof using words.
  intros Hf Hc Hi Hn Hlen. pose proof (fk_geometry _ Hf) as Hg. pose proof (ge_cluster _ Hg) as Hcz.
  destruct (chain_at f cs i Hg Hc) as (Ht & He & En); [lia|].
  destruct (readFAT_ok words f (nthZ cs i)) as (f1 & E1 & Hf1 & Hs1 & _); [done|unfold in_table in Ht; lia|done|].
  exists f1, (next_of f (nthZ cs i)). set (c1 := next_of f (nthZ cs i)) in *.
  assert (0 < n -> c1 = nthZ cs (i + 1) /\ i + 1 < zlen cs) as Hc1.
  { intros Hp. assert (i + 1 < zlen cs) as Hi1 by (apply (position_bound (i + 1) 0 n _ (cluster_size f)); lia).
    rewrite En, (proj2 (Z.ltb_lt _ _)) by done. done. }
  split_and!; [done..|by eapply chain_same; [|apply same_fat_table|..]|done|].
  destruct (Z.eqb_spec n 0); [apply orb_true_r|]. destruct Hc1 as [-> Hi1]; [lia|].
  destruct (chain_at f cs (i + 1) Hg Hc) as ([? _] & _); [lia|]. by destruct (Z.eqb_spec (nthZ cs (i + 1)) 0); [lia|].
Qed.

(** Two clusters with adjacent numbers are adjacent. *)
Lemma sector_pos_adjacent f cs i : geometry f -> chain f cs -> 0 <= i < zlen cs ->
  nthZ cs (i + 1) = u32 (nthZ cs i + 1) ->
  sector_pos f cs ((i + 1) * cluster_size f + 0) = sector_pos f cs (i * cluster_size f + 0) + cluster_size f.
Proof using words.
  intros Hg Hc Hi E. pose proof (ge_cluster _ Hg). pose proof (n_clusters_bound words f Hg).
  destruct (chain_at f cs i Hg Hc) as ([? ?] & _); [lia|]. rewrite !sector_pos_at by lia. rewrite E, u32_small by lia. lia.
Qed.

Lemma contiguous_ok fuel f cs i o n r : fat_ok f -> chain f cs ->
  0 <= i -> 0 <= o < cluster_size f -> 0 <= n <= Z.of_nat fuel -> i * cluster_size f + o + n <= zlen cs * cluster_size f ->
  0 <= r -> r + n < 2 ^ 32 ->
  forall c, (0 < n -> c = nthZ cs i) ->
  exists f' n' c' o', contiguous fuel n c o r f = Ok (f', n', c', o', r + (n - n')) /\
    fat_ok f' /\ same_fat f f' /\ 0 <= n' <= n /\ (0 < n -> n' < n) /\
    (0 < n' -> exists i', 0 <= i' /\ c' = nthZ cs i' /\ 0 <= o' < cluster_size f /\
       i' * cluster_size f + o' = i * cluster_size f + o + (n - n')) /\
    (forall j, 0 <= j < n - n' ->
       sector_pos f cs (i * cluster_size f + o + j) = sector_pos f cs (i * cluster_size f + o) + j).
Proof using words.
  revert f i o n r. induction fuel as [|fuel IH]; intros f i o n r Hf Hc Hi Ho Hn Hlen Hr Hrn c Ec; cbn [contiguous].
  - assert (n = 0) as -> by lia. exists f, 0, c, o. replace (r + (0 - 0)) with r by lia. split_and!; done || (intros; lia).
  - destruct (Z.eqb_spec n 0) as [->|Hn0]; cbn [negb].
    { exists f, 0, c, o. replace (r + (0 - 0)) with r by lia. split_and!; done || (intros; lia). }
    pose proof (fk_geometry _ Hf) as Hg. pose proof (ge_cluster _ Hg) as Hcz. set (cz := cluster_size f) in *.
    rewrite (u32_small (cz - o)) by lia. specialize (Ec ltac:(lia)). subst c.
    assert (i < zlen cs) as Hil by (apply (position_bound i o n _ cz); lia).
    assert (forall j, 0 <= j < cz - o -> sector_pos f cs (i * cz + o + j) = sector_pos f cs (i * cz + o) + j) as Hin.
    { intros j Hj. replace (i * cz + o + j) with (i * cz + (o + j)) by lia. rewrite !sector_pos_at by lia. lia. }
    destruct (Z.ltb_spec n (cz - o)) as [Hlt|Hge].
    + exists f, 0, (nthZ cs i), o. rewrite u32_small by lia. replace (r + (n - 0)) with (r + n) by lia.
      split_and!; try (done || (intros; lia)). intros j Hj. apply Hin. lia.
    + destruct (next_at f cs i (n - (cz - o))) as (f1 & c1 & E1 & Hf1 & Hs1 & Hch1 & Hc1 & Hz); [done|done|lia|lia|fold cz; lia|].
      rewrite E1, (u32_small (r + (cz - o))) by lia. cbn [mbind res_bind]. rewrite Hz.
      cbn [assert_ mbind res_bind]. destruct (Z.eqb_spec c1 (u32 (nthZ cs i + 1))) as [Ecc|Ecc]; cbn [negb].
      * pose proof (sg_cluster _ _ (same_fat_geo _ _ Hs1)) as Ez. fold cz in Ez.
        destruct (IH f1 (i + 1) 0 (n - (cz - o)) (r + (cz - o)) Hf1 Hch1) with (c := c1)
          as (f2 & n' & c' & o' & E2 & Hf2 & Hs2 & Hn' & _ & Hpos & Hadj); try (rewrite ?Ez; lia).
        exists f2, n', c', o'. rewrite E2. replace (r + (cz - o) + (n - (cz - o) - n')) with (r + (n - n')) by lia.
        rewrite Ez in Hpos, Hadj. split_and!; try (done || (intros; lia)); [by transitivity f1|..].
        -- intros Hp. destruct (Hpos Hp) as (i' & ? & ? & ? & ?). exists i'. split_and!; done || (intros; lia).
        -- intros j Hj. destruct (decide (j < cz - o)); [apply Hin; lia|]. destruct Hc1 as [Ec1 Hi1]; [lia|].
           specialize (Hadj (j - (cz - o)) ltac:(lia)). rewrite !(sector_pos_same f f1) in Hadj by (by apply same_fat_geo).
           replace ((i + 1) * cz + 0 + (j - (cz - o))) with (i * cz + o + j) in Hadj by lia. rewrite Hadj.
           unfold cz. rewrite sector_pos_adjacent by (done || lia || congruence). rewrite !sector_pos_at by (fold cz; lia). fold cz. lia.
      * exists f1, (n - (cz - o)), c1, 0. replace (r + (n - (n - (cz - o)))) with (r + (cz - o)) by lia.
        split_and!; try (done || (intros; lia)).
        -- intros Hp. exists (i + 1). split_and!; lia.
        -- intros j Hj. apply Hin. lia.
Qed.

(** ** The whole read *)

(** Sectors [k .. k+n) of a file with clusters [cs]. *)
Definition file_sector f (cs : list Z) (k : Z) : list Z := dev_sector (fat_dev f) (part_begin f + sector_pos f cs k).
Definition file_data f (cs : list Z) (k n : Z) : list Z := concat (file_sector f cs <$> seqZ k n).

Lemma file_sector_same f f' cs k : same_disk f f' -> file_sector f' cs k = file_sector f cs k.
Proof.
  intros [Hg Hd]. unfold file_sector. rewrite Hd, (sector_pos_same f f') by done. by destruct (sg_part _ _ Hg) as [-> _].
Qed.

Lemma file_data_same f f' cs k n : same_disk f f' -> file_data f' cs k n = file_data f cs k n.
Proof. intros Hs. unfold file_data. f_equal. apply list_fmap_ext. intros. by apply file_sector_same. Qed.

Lemma file_data_app f cs k n m : 0 <= n -> 0 <= m -> file_data f cs k (n + m) = file_data f cs k n ++ file_data f cs (k + n) m.
Proof. intros. unfold file_data. rewrite seqZ_app by lia. by rewrite fmap_app, concat_app. Qed.

(** A run of adjacent sectors is read at once. *)
Lemma read_run f cs k n : (forall j, 0 <= j < n -> sector_pos f cs (k + j) = sector_pos f cs k + j) ->
  dev_read (fat_dev f) (part_begin f + sector_pos f cs k) n = file_data f cs k n.
Proof.
  intros Hp. unfold dev_read, file_data. f_equal. apply list_eq. intros j. rewrite !list_lookup_fmap.
  destruct (decide (Z.of_nat j < n)).
  - rewrite !lookup_seqZ_lt by lia. cbn. unfold file_sector. rewrite Hp by lia. do 2 f_equal. lia.
  - by rewrite !lookup_seqZ_ge by lia.
Qed.

Lemma read_sectors_loop_ok fuel f cs i o n buf c : fat_ok f -> chain f cs -> 0 <= i ->
  0 <= o < cluster_size f -> 0 <= n <= Z.of_nat fuel -> n < 2 ^ 32 ->
  i * cluster_size f + o + n <= zlen cs * cluster_size f -> (0 < n -> c = nthZ cs i) ->
  exists f', read_sectors_loop fuel n c o buf f = Ok (f', buf ++ file_data f cs (i * cluster_size f + o) n) /\
    fat_ok f' /\ same_fat f f'.
Proof using words.
  revert f i o n buf c. induction fuel as [|fuel IH]; intros f i o n buf c Hf Hc Hi Ho Hn Hn32 Hlen Ec; cbn [read_sectors_loop].
  { assert (n = 0) as -> by lia. exists f. cbn. by rewrite app_nil_r. }
  destruct (Z.ltb_spec 0 n); [|assert (n = 0) as -> by lia; exists f; cbn; by rewrite app_nil_r].
  pose proof (fk_geometry _ Hf) as Hg. set (cz := cluster_size f) in *.
  destruct (contiguous_ok (Z.to_nat n) f cs i o n 0) with (c := c)
    as (f1 & n1 & c1 & o1 & E1 & Hf1 & Hs1 & Hn1 & Hlt & Hpos & Hadj); try (done || (fold cz; lia)).
  fold cz in Hpos, Hadj. rewrite E1. cbn [mbind res_bind]. specialize (Hlt ltac:(done)).
  assert (i < zlen cs) by (apply (position_bound i o n _ cz); lia).
  rewrite (Ec ltac:(done)). destruct (position_lba f cs i o Hg Hc) as (-> & Hd & Hp); [lia|done|]. fold cz in Hd, Hp |- *.
  pose proof (ge_fat _ Hg). pose proof (ge_data _ Hg). pose proof (ge_part _ Hg). destruct (sg_part _ _ (same_fat_geo _ _ Hs1)) as [Epb Epe].
  unfold part_async_read. rewrite Epb, Epe, u64_small by lia. unfold assert_.
  rewrite !(proj2 (Z.leb_le _ _)), !(proj2 (Z.ltb_lt _ _)) by lia. cbn [mbind res_bind].
  rewrite Z.add_comm, Z.add_0_l, <- Epb, <- (sector_pos_same f f1) by (by apply same_fat_geo).
  rewrite read_run by (intros j Hj; rewrite !(sector_pos_same f f1) by (by apply same_fat_geo); by apply Hadj).
  assert (chain f1 cs) as Hc1 by (by eapply chain_same; [|apply same_fat_table|..]).
  pose proof (sg_cluster _ _ (same_fat_geo _ _ Hs1)) as Ez. fold cz in Ez.
  rewrite (file_data_same f f1) by apply Hs1.
  destruct (decide (0 < n1)) as [Hn1p|].
  - destruct (Hpos Hn1p) as (i' & Hi' & Ec' & Ho' & Ei').
    destruct (IH f1 i' o1 n1 (buf ++ file_data f cs (i * cz + o) (n - n1)) c1) as (f2 & E2 & Hf2 & Hs2); try (done || (rewrite ?Ez; lia)).
    exists f2. split_and!; [|done|by transitivity f1]. rewrite E2, Ez, Ei', (file_data_same f f1), <- app_assoc, <- file_data_app by (apply Hs1 || lia).
    repeat f_equal. lia.
  - assert (n1 = 0) as -> by lia. exists f1. rewrite Z.sub_0_r. by destruct fuel.
Qed.

Lemma read_file_sectors_ok f fd cs begin n : fat_ok f -> chain f cs -> nthZ cs 0 = addr fd ->
  0 <= begin -> 0 < n < 2 ^ 31 -> begin + n <= zlen cs * cluster_size f ->
  u64 (u64 (begin + n - 1) * cluster_size f) < file_size fd ->
  exists f', fat32_read_file_sectors fd begin n f = Ok (f', file_data f cs begin n, n) /\ fat_ok f' /\ same_fat f f'.
Proof using words.
  intros Hf Hc Ha Hb Hn Hlen Hsz. pose proof (fk_geometry _ Hf) as Hg. pose proof (ge_cluster _ Hg) as Hcz.
  set (cz := cluster_size f) in *. set (i := begin / cz). set (o := begin mod cz).
  assert (i * cz + o = begin) as Ei by (unfold i, o; pose proof (Z.div_mod begin cz); lia).
  assert (0 <= o < cz) as Ho by (apply Z.mod_pos_bound; lia). assert (0 <= i) by (apply Z.div_pos; lia).
  assert (i < zlen cs) as Hi by (apply (position_bound i o n _ cz); lia).
  destruct cs as [|c cs]; [unfold zlen in Hi; cbn in Hi; lia|]. change (nthZ (c :: cs) 0) with c in Ha. subst c.
  pose proof (chain_head _ _ _ Hc) as [Ht1 Ht2]. pose proof (n_clusters_bound words f Hg).
  destruct (fetch_cluster_loop_ok words (Z.to_nat i) 0 f (addr fd) cs Hf Hc) as (f1 & Hf1 & Hs1 & E1).
  rewrite (lookup_nthZ (addr fd :: cs) i) in E1 by lia.
  pose proof (sg_cluster _ _ (same_fat_geo _ _ Hs1)) as Ez. fold cz in Ez.
  destruct (read_sectors_loop_ok (Z.to_nat n) f1 (addr fd :: cs) i o n [] (nthZ (addr fd :: cs) i)) as (f2 & E2 & Hf2 & Hs2);
    try (done || (rewrite ?Ez; lia)); [by eapply chain_same; [|apply same_fat_table|..]|].
  exists (sync f2). split_and!.
  - unfold fat32_read_file_sectors, assert_, fetch_cluster. fold cz. rewrite (proj2 (Z.eqb_neq _ _)) by lia.
    rewrite (proj2 (Z.ltb_lt _ _)) by done. cbn [negb mbind res_bind]. rewrite (u32_small (addr fd)) by lia.
    fold i o. rewrite E1. cbn [mbind res_bind]. rewrite E2. cbn [mbind res_bind].
    by rewrite s32_small, app_nil_l, Ez, Ei, (file_data_same f f1) by (lia || apply Hs1).
  - by apply sync_ok.
  - transitivity f1; [done|]. transitivity f2; [done|]. by apply sync_ok.
Qed.
End Read.
