(* ===== verification/Fat32Write.v ===== *)
(** * FAT32: making a chain longer

    [extends]: the chain of a file got new clusters at its end, that were free before,
    and no other entry of the FAT changed. *)

From S2P Require Import Prelude Bytes Interfaces FileSystems Fat32 Fat32Proofs Fat32Chain Fat32Read.





Section Grow.
Context {D : Type} `{BlockDevice D}.
Hypothesis words : 3 <= dev_lbashift (D := D).
Notation SZ := (2 ^ dev_lbashift (D := D)).
Notation MASK := 0x0FFFFFFF.
Notation EOC := 0x0FFFFFF8.
Implicit Types f : fat32 D.

Record extends f (cs : list Z) f' (new : list Z) : Prop := {
  ex_geo : same_geo f f';
  ex_chain : chain f' (cs ++ new);
  ex_free : forall c, c ∈ new -> ent f c = 0;
  ex_kept : forall c, in_table f c -> c ∉ cs ++ new -> ent f' c = ent f c
}.

(** No cluster is free outside of the sector [allocFAT] skips. *)
Definition no_space f : Prop := forall c, in_table f c -> 4 * c / SZ <> skipped_sector f -> ent f c <> 0.

Lemma extends_same f f' cs : geometry f -> chain f cs -> same_table f f' -> extends f cs f' [].
Proof using words.
  intros Hg Hc Hs. constructor; [apply Hs|rewrite app_nil_r; by eapply chain_same|by intros ? ?%not_elem_of_nil|].
  intros c [? ?] _. apply ent_same; [done..|lia].
Qed.

Lemma extends_trans f f1 f2 cs n1 n2 :
  extends f cs f1 n1 -> extends f1 (cs ++ n1) f2 n2 -> extends f cs f2 (n1 ++ n2).
Proof using.
  clear words. intros [G1 C1 F1 K1] [G2 C2 F2 K2]. pose proof (same_geo_clusters _ _ G1) as E1. pose proof (same_geo_clusters _ _ G2) as E2.
  assert (forall c, c ∈ n2 -> ent f c = 0) as F2'.
  { intros c Hc. pose proof (chain_nodup _ _ C2) as Hnd. rewrite list.NoDup_app in Hnd. destruct Hnd as (_ & Hd & _).
    assert (in_table f c) by (pose proof (chain_in_table _ _ c C2 ltac:(set_solver)); unfold in_table in *; lia).
    rewrite <- (K1 c) by set_solver. by apply F2. }
  constructor; [by transitivity f1|by rewrite app_assoc|set_solver|].
  intros c Ht Hc. rewrite (K2 c), (K1 c); try done; [set_solver|unfold in_table in *; lia|set_solver].
Qed.

(** A free cluster is on no chain. *)
Lemma free_not_in_chain f cs c : geometry f -> chain f cs -> ent f c = 0 -> c ∉ cs.
Proof using words.
  intros Hg Hc E0 Hin. apply list_elem_of_lookup in Hin as [i Hi].
  pose proof (lookup_lt_Some _ _ _ Hi). destruct (chain_at words f cs (Z.of_nat i) Hg Hc) as (_ & He & _); [unfold zlen; lia|].
  replace (nthZ cs (Z.of_nat i)) with c in He by (unfold nthZ; by rewrite Nat2Z.id, Hi). rewrite E0, Z.land_0_l in He. lia.
Qed.

(** A chain whose last entry is linked to a new end. *)
Lemma chain_snoc f f' l x c : n_clusters f' = n_clusters f -> chain f (l ++ [x]) ->
  (forall c', c' ∈ l -> ent f' c' = ent f c') -> Z.land (ent f' x) MASK = c -> c < EOC ->
  in_table f c -> EOC <= Z.land (ent f' c) MASK -> chain f' (l ++ [x; c]).
Proof.
  intros En Hc He Ex Hc1 Ht Hend. assert (in_table f' c) by (unfold in_table in *; lia). revert Hc He.
  induction l as [|y l IH]; cbn; intros Hc He.
  - apply chain_head in Hc. constructor; [unfold in_table in *; lia|done|done|by constructor].
  - assert (ent f' y = ent f y) as Ey by (apply He; by left).
    assert (chain f' (l ++ [x; c])) as Hl.
    { apply IH; [by destruct l; apply (chain_tail f y)|]. intros. apply He. by right. }
    destruct l as [|z l]; cbn in *; inversion Hc; subst; (constructor; [unfold in_table in *; lia|by rewrite Ey|done|done]).
Qed.

Lemma chain_last_at f cs : geometry f -> chain f cs -> exists l x, cs = l ++ [x] /\ EOC <= Z.land (ent f x) MASK /\ in_table f x.
Proof using words.
  intros Hg. induction 1 as [c Ht He|c d cs Ht Ed Hd Hc IH]; [by exists [], c|].
  destruct IH as (l & x & -> & ? & ?). by exists (c :: l), x.
Qed.

(** The two links that append a free cluster. *)
Lemma append_ok f l x c : fat_ok f -> chain f (l ++ [x]) -> in_table f c -> ent f c = 0 ->
  exists f1 f2, linkFAT c 0xfffffff f = Ok f1 /\ linkFAT x c f1 = Ok f2 /\ fat_ok f2 /\ same_disk f f2 /\
    alloc_start f2 = alloc_start f /\ extends f (l ++ [x]) f2 [c].
Proof using words.
  intros Hf Hc Ht E0. pose proof (fk_geometry _ Hf) as Hg. pose proof (n_clusters_bound words f Hg) as Hn.
  destruct (chain_last_at f _ Hg Hc) as (l' & x' & El & Hx & Htx). apply app_inj_tail in El as [<- <-].
  pose proof (free_not_in_chain f _ c Hg Hc E0) as Hnin. unfold in_table in *.
  destruct (linkFAT_ok words f c 0xfffffff) as (f1 & E1 & Hf1 & Ha1 & [S1 L1]); [done|lia|lia|by right|].
  pose proof (same_geo_clusters _ _ (proj1 S1)) as En1.
  assert (ent f1 x = ent f x) as Ex by (rewrite L1 by lia; rewrite decide_False; [done|set_solver]).
  destruct (linkFAT_ok words f1 x c) as (f2 & E2 & Hf2 & Ha2 & [S2 L2]); [done|lia|lia|left; by rewrite Ex|].
  pose proof (same_geo_clusters _ _ (proj1 S2)) as En2.
  assert (forall c', 0 <= c' < n_clusters f -> c' <> c -> c' <> x -> ent f2 c' = ent f c') as Hother.
  { intros c' ? ? ?. rewrite L2 by lia. rewrite decide_False, L1, decide_False by (done || lia). done. }
  exists f1, f2. split_and!; [done..|by transitivity f1|congruence|].
  assert (same_geo f f2) by (transitivity f1; [apply S1|apply S2]). pose proof (chain_nodup _ _ Hc) as Hnd.
  rewrite list.NoDup_app in Hnd. destruct Hnd as (_ & Hnd & _).
  constructor; [done| |set_solver|].
  - rewrite <- app_assoc. apply (chain_snoc f f2); [lia|done|..].
    + intros c' Hin. pose proof (chain_in_table f _ c' Hc ltac:(set_solver)) as [? ?]. apply Hother; [lia|set_solver|].
      intros ->. apply (Hnd x Hin). by left.
    + rewrite L2, decide_True by (done || lia). apply link_value_low. lia.
    + lia.
    + unfold in_table. lia.
    + rewrite L2 by lia. rewrite decide_False by set_solver. rewrite L1, decide_True by (done || lia). rewrite E0. done.
  - intros c' Hc' Hnc. apply Hother; [unfold in_table in *; lia|set_solver|set_solver].
Qed.

Lemma nthZ_snoc l x : nthZ (l ++ [x]) (zlen l) = x.
Proof. unfold nthZ, zlen. rewrite Nat2Z.id, lookup_app_r, Nat.sub_diag by lia. done. Qed.

Lemma extends_disk f f' cs new : extends f cs f' new -> same_geo f f'.
Proof. by intros [? _ _ _]. Qed.

(** Looking for a cluster and appending it. *)
Lemma alloc_append_ok f l x : fat_ok f -> chain f (l ++ [x]) ->
  exists f1 c, allocFAT f = Ok (f1, c) /\ fat_ok f1 /\ same_fat f f1 /\
    ((c = 0 /\ no_space f) \/
     (c <> 0 /\ exists f2 f3, linkFAT c 0xfffffff f1 = Ok f2 /\ linkFAT x c f2 = Ok f3 /\ fat_ok f3 /\ same_disk f f3 /\
      extends f (l ++ [x]) f3 [c])).
Proof using words.
  intros Hf Hc. pose proof (fk_geometry _ Hf) as Hg.
  destruct (allocFAT_ok words f Hf) as (f1 & c & E1 & Hf1 & Hs1 & Hr). exists f1, c. split_and!; [done..|].
  destruct Hr as [[-> Hfull]|[Ht E0]]; [by left|right]. split; [lia|].
  pose proof (same_fat_table _ _ Hs1) as Hst. pose proof (same_geo_clusters _ _ (proj1 Hst)) as En.
  pose proof (extends_same f f1 _ Hg Hc Hst) as Hx1.
  destruct (append_ok f1 l x c Hf1) as (f2 & f3 & E2 & E3 & Hf3 & Hd3 & _ & Hx3).
  { by eapply chain_same. }
  { unfold in_table. lia. }
  { rewrite (ent_same words f f1) by (done || lia). done. }
  exists f2, f3. split_and!; [done..|transitivity f1; [apply Hs1|done]|].
  apply (extends_trans f f1 f3 _ [] [c]); [done|]. by rewrite app_nil_r.
Qed.

Lemma read_or_allocate_ok f cs i : fat_ok f -> chain f cs -> 0 <= i < zlen cs ->
  exists f' c new, read_or_allocateFAT (nthZ cs i) f = Ok (f', c) /\ fat_ok f' /\ same_disk f f' /\
    extends f cs f' new /\
    ((c <> 0 /\ i + 1 < zlen (cs ++ new) /\ c = nthZ (cs ++ new) (i + 1)) \/
     (c = 0 /\ new = [] /\ i + 1 = zlen cs /\ no_space f)).
Proof using words.
  intros Hf Hc Hi. pose proof (fk_geometry _ Hf) as Hg. destruct (chain_at words f cs i Hg Hc Hi) as (Ht & He & En).
  destruct (readFAT_ok words f (nthZ cs i)) as (f1 & E1 & Hf1 & Hs1 & Ha1); [done|unfold in_table in Ht; lia|done|].
  unfold read_or_allocateFAT. rewrite E1, En. cbn [mbind res_bind].
  pose proof (same_fat_table _ _ Hs1) as Hst. pose proof (extends_same f f1 _ Hg Hc Hst) as Hx1.
  destruct (Z.ltb_spec (i + 1) (zlen cs)) as [Hlt|Hge].
  - destruct (chain_at words f cs (i + 1) Hg Hc) as ([? ?] & _); [lia|]. rewrite (proj2 (Z.eqb_neq _ _)) by lia.
    exists f1, (nthZ cs (i + 1)), []. split_and!; [done|done|apply Hs1|done|]. left. rewrite app_nil_r. split_and!; [lia|done|done].
  - rewrite Z.eqb_refl. assert (i + 1 = zlen cs) as Ei by lia.
    destruct (chain_last_at f cs Hg Hc) as (l & x & -> & _). rewrite zlen_app in Ei. change (zlen [x]) with 1 in Ei.
    replace i with (zlen l) by lia. rewrite nthZ_snoc. assert (chain f1 (l ++ [x])) as Hc1 by (by eapply chain_same).
    destruct (alloc_append_ok f1 l x Hf1 Hc1) as (f2 & c & E2 & Hf2 & Hs2 & Hr). rewrite E2. cbn [mbind res_bind].
    destruct Hr as [[-> Hfull]|(Hc0 & f3 & f4 & E3 & E4 & Hf4 & Hd4 & Hx4)].
    + exists f2, 0, []. split_and!; [done|done|transitivity f1; [apply Hs1|apply Hs2]| |].
      * apply (extends_same f f2); [done..|]. apply same_fat_table. by transitivity f1.
      * right. rewrite zlen_app. split_and!; [done|done|done|]. intros c Hct Hsk. rewrite <- (ent_same words f f1) by (done || unfold in_table in Hct; lia).
        apply Hfull; [unfold in_table in *; by rewrite (same_geo_clusters _ _ (proj1 Hst))|].
        unfold skipped_sector in *. destruct (sg_fat _ _ (proj1 Hst)) as [-> ->]. by rewrite Ha1.
    + rewrite (proj2 (Z.eqb_neq _ _)) by done. rewrite E3. cbn [mbind res_bind]. rewrite E4. cbn [mbind res_bind].
      exists f4, c, [c]. split_and!; [done|done|transitivity f1; [apply Hs1|done]|..].
      * apply (extends_trans f f1 f4 _ [] [c]); [done|]. by rewrite app_nil_r.
      * left. split_and!; [done|rewrite !zlen_app; change (zlen [c]) with 1; change (zlen [x]) with 1; lia|].
        replace (zlen l + 1) with (zlen (l ++ [x])) by (by rewrite zlen_app). by rewrite nthZ_snoc.
Qed.

(** The drive was full after [new] was appended. *)
Definition full_after f (cs new : list Z) : Prop := exists f1, extends f cs f1 new /\ no_space f1.

Lemma full_after_trans f f1 cs n1 n2 : extends f cs f1 n1 -> full_after f1 (cs ++ n1) n2 -> full_after f cs (n1 ++ n2).
Proof using. clear words. intros Hx (f2 & Hx2 & Hn). exists f2. split; [by eapply extends_trans|done]. Qed.

Lemma extend_chain_ok n f l x : fat_ok f -> chain f (l ++ [x]) ->
  exists f' r new, extend_chain n x f = Ok (f', r) /\ fat_ok f' /\ same_disk f f' /\ extends f (l ++ [x]) f' new /\
    match r with
    | Some c => zlen new = Z.of_nat n /\ c = nthZ ((l ++ [x]) ++ new) (zlen (l ++ [x]) + Z.of_nat n - 1)
    | None => zlen new < Z.of_nat n /\ full_after f (l ++ [x]) new
    end.
Proof using words.
  revert f l x. induction n as [|n IH]; intros f l x Hf Hc; cbn [extend_chain].
  { exists f, (Some x), []. pose proof (fk_geometry _ Hf). split_and!; [done..|by apply extends_same|done|].
    rewrite app_nil_r, zlen_app. change (zlen [x]) with 1. replace (zlen l + 1 + Z.of_nat 0 - 1) with (zlen l) by lia.
    by rewrite nthZ_snoc. }
  destruct (alloc_append_ok f l x Hf Hc) as (f1 & c & E1 & Hf1 & Hs1 & Hr). rewrite E1. cbn [mbind res_bind].
  pose proof (extends_same f f1 _ (fk_geometry _ Hf) Hc (same_fat_table _ _ Hs1)) as Hx1.
  destruct Hr as [[-> Hfull]|(Hc0 & f2 & f3 & E2 & E3 & Hf3 & Hd3 & Hx3)].
  - exists f1, None, []. split_and!; [done|done|apply Hs1|done|unfold zlen; cbn; lia|]. exists f. split; [|done].
    apply extends_same; [apply (fk_geometry _ Hf)|done|done].
  - rewrite (proj2 (Z.eqb_neq _ _)) by done. rewrite E2. cbn [mbind res_bind]. rewrite E3. cbn [mbind res_bind].
    destruct (IH f3 (l ++ [x]) c Hf3 (ex_chain _ _ _ _ Hx3)) as (f4 & r & new & E4 & Hf4 & Hd4 & Hx4 & Hr4).
    exists f4, r, (c :: new). split_and!; [done|done|by transitivity f3|by apply (extends_trans f f3 f4 _ [c] new)|].
    destruct r as [c'|]; [|destruct Hr4; split; [unfold zlen in *; cbn; lia|by apply (full_after_trans f f3 _ [c] new)]].
    destruct Hr4 as [Hl ->]. rewrite <- app_assoc. unfold zlen in *. split; [cbn; lia|]. f_equal. rewrite !length_app. cbn. lia.
Qed.
End Grow.

(** * FAT32: writing a file

    [written]: exactly the given sectors of a file were replaced. *)


Section Write.
Context {D : Type} `{BlockDevice D}.
Hypothesis words : 3 <= dev_lbashift (D := D).
Notation SZ := (2 ^ dev_lbashift (D := D)).
Implicit Types f : fat32 D.

(** ** Positions *)

Lemma sector_pos_prefix f cs new k : 0 < cluster_size f -> 0 <= k < zlen cs * cluster_size f ->
  sector_pos f (cs ++ new) k = sector_pos f cs k.
Proof.
  intros Hz Hk. unfold sector_pos, nthZ. rewrite lookup_app_l; [done|].
  assert (k / cluster_size f < zlen cs) by (apply Z.div_lt_upper_bound; lia).
  assert (0 <= k / cluster_size f) by (apply Z.div_pos; lia). unfold zlen in *. lia.
Qed.

(** No two sectors of a file are the same sector of the partition. *)
Lemma sector_pos_inj f cs k k' : geometry f -> chain f cs ->
  0 <= k < zlen cs * cluster_size f -> 0 <= k' < zlen cs * cluster_size f ->
  sector_pos f cs k = sector_pos f cs k' -> k = k'.
Proof.
  intros Hg Hc Hk Hk' E. pose proof (ge_cluster _ Hg) as Hz. set (z := cluster_size f) in *.
  unfold sector_pos in E. fold z in E. pose proof (Z.mod_pos_bound k z ltac:(lia)). pose proof (Z.mod_pos_bound k' z ltac:(lia)).
  assert (nthZ cs (k / z) = nthZ cs (k' / z) /\ k mod z = k' mod z) as [E1 E2].
  { assert ((nthZ cs (k / z) - 2) = (nthZ cs (k' / z) - 2) /\ k mod z = k' mod z) as [? ?]; [|lia].
    apply (Z.div_mod_unique z); [lia|lia|]. lia. }
  assert (k / z < zlen cs) by (apply Z.div_lt_upper_bound; lia). assert (0 <= k / z) by (apply Z.div_pos; lia).
  assert (k' / z < zlen cs) by (apply Z.div_lt_upper_bound; lia). assert (0 <= k' / z) by (apply Z.div_pos; lia).
  assert (Z.to_nat (k / z) = Z.to_nat (k' / z)) as Ei.
  { eapply NoDup_lookup; [by eapply chain_nodup|apply lookup_nthZ; lia|]. rewrite E1. apply lookup_nthZ. lia. }
  rewrite (Z.div_mod k z), (Z.div_mod k' z) by lia. replace (k / z) with (k' / z) by lia. lia.
Qed.

(** Every sector of a file lies behind the FAT. *)
Lemma sector_pos_bounds f cs k : geometry f -> chain f cs -> 0 <= k < zlen cs * cluster_size f ->
  data_begin f <= sector_pos f cs k < part_end f - part_begin f.
Proof using words.
  intros Hg Hc Hk. pose proof (ge_cluster _ Hg) as Hz. set (z := cluster_size f) in *.
  pose proof (Z.mod_pos_bound k z ltac:(lia)). pose proof (Z.div_mod k z ltac:(lia)).
  assert (k / z < zlen cs) by (apply Z.div_lt_upper_bound; lia). assert (0 <= k / z) by (apply Z.div_pos; lia).
  destruct (position_lba words f cs (k / z) (k mod z) Hg Hc) as (_ & Hp1 & Hp2); [lia|done|]. fold z in Hp1, Hp2.
  replace (k / z * z + k mod z) with k in * by lia. lia.
Qed.

(** ** What a write does to the disk *)

(** The sectors of the FAT, which a write changes as the cache is flushed. *)
Definition in_fat f (l : Z) : Prop := fat_begin f <= l < fat_begin f + fat_size f.

Record written f (cs : list Z) (k m : Z) (buf : list Z) f' : Prop := {
  wr_data : forall j, 0 <= j < m -> file_sector f' cs (k + j) = slice buf (j * SZ) SZ;
  wr_rest : forall l, ~ in_fat f l -> (forall j, 0 <= j < m -> l <> sector_pos f cs (k + j)) ->
    dev_sector (fat_dev f') (part_begin f + l) = dev_sector (fat_dev f) (part_begin f + l)
}.

Lemma written_same f cs k buf f' : same_disk f f' -> written f cs k 0 buf f'.
Proof. intros [Hg Hd]. constructor; [lia|]. intros. apply Hd. Qed.

(** Two writes, the second after the chain may have grown. *)
Lemma written_trans f f1 f2 cs new k m1 m2 b1 b2 : geometry f ->
  same_geo f f1 -> same_geo f1 f2 -> chain f2 (cs ++ new) -> 0 <= k -> 0 <= m1 -> 0 <= m2 ->
  zlen b1 = m1 * SZ -> k + m1 <= zlen cs * cluster_size f -> k + m1 + m2 <= zlen (cs ++ new) * cluster_size f ->
  written f cs k m1 b1 f1 -> written f1 (cs ++ new) (k + m1) m2 b2 f2 ->
  written f (cs ++ new) k (m1 + m2) (b1 ++ b2) f2.
Proof using words.
  intros Hg G1 G2 Hc Hk Hm1 Hm2 Hb Hl1 Hl2 [D1 R1] [D2 R2]. pose proof (ge_cluster _ Hg) as Hz.
  assert (same_geo f f2) as G by (by transitivity f1). pose proof (dev_lbashift_range (D := D)).
  destruct (sg_part _ _ G1) as [P1 _]. destruct (sg_part _ _ G) as [P2 _].
  assert (forall j, 0 <= j < m1 -> sector_pos f (cs ++ new) (k + j) = sector_pos f cs (k + j)) as Hpre.
  { intros j Hj. apply sector_pos_prefix; lia. }
  assert (forall j, 0 <= j < m1 + m2 -> ~ in_fat f1 (sector_pos f (cs ++ new) (k + j))) as Hout.
  { intros j Hj. rewrite <- (sector_pos_same f f2) by done. pose proof (same_geometry _ _ G Hg) as Hg2. unfold in_fat.
    destruct (sg_fat _ _ G2) as [<- <-]. pose proof (ge_data _ Hg2).
    pose proof (sector_pos_bounds f2 (cs ++ new) (k + j) Hg2 Hc). rewrite (sg_cluster _ _ G) in *. lia. }
  assert (forall l, ~ in_fat f l -> ~ in_fat f1 l) as Hfat by (intros l; unfold in_fat; by destruct (sg_fat _ _ G1) as [-> ->]).
  constructor.
  - intros j Hj. destruct (decide (j < m1)) as [Hj1|Hj1].
    + assert (j * SZ + SZ <= zlen b1) by nia.
      replace (slice (b1 ++ b2) (j * SZ) SZ) with (slice b1 (j * SZ) SZ).
      2:{ unfold slice. unfold zlen in *. rewrite drop_app_le, take_app_le; [done|rewrite length_drop; nia|nia]. }
      rewrite <- D1 by lia. unfold file_sector. rewrite P2, P1, (sector_pos_same f f2), (sector_pos_same f f1), Hpre by (done || lia).
      rewrite <- P1. apply R2; [by rewrite <- (Hpre j) by lia; apply Hout; lia|]. intros j' Hj' E. rewrite (sector_pos_same f f1), <- Hpre in E by (done || lia).
      rewrite <- !(sector_pos_same f f2) in E by done.
      apply sector_pos_inj in E; [lia|by apply (same_geometry f)|done|..]; rewrite (sg_cluster _ _ G); lia.
    + replace (k + j) with (k + m1 + (j - m1)) by lia. rewrite D2 by lia. unfold slice. rewrite drop_app_ge by (unfold zlen in *; nia).
      f_equal. f_equal. unfold zlen in *. nia.
  - intros l Hfl Hl. rewrite <- P1, R2; [rewrite P1|by apply Hfat|].
    + apply R1; [done|]. intros j Hj. rewrite <- Hpre by lia. apply Hl. lia.
    + intros j Hj. rewrite (sector_pos_same f f1) by done. replace (k + m1 + j) with (k + (m1 + j)) by lia. apply Hl. lia.
Qed.

Lemma written_disk f f1 f2 cs k m b : same_geo f f1 -> same_disk f1 f2 -> written f cs k m b f1 -> written f cs k m b f2.
Proof.
  intros G1 [G2 Hd] [D1 R1]. destruct (sg_part _ _ G2) as [P2 _]. constructor.
  - intros j Hj. rewrite <- D1 by done. by apply file_sector_same.
  - intros l Hfl Hl. rewrite <- R1 by done. apply Hd.
Qed.

(** ** The loop *)

Lemma write_run f cs i o m data : fat_ok f -> chain f cs -> 0 <= i < zlen cs -> 0 <= o < cluster_size f ->
  0 <= m <= cluster_size f - o -> zlen data = m * SZ ->
  exists f', part_write (cluster_begin (nthZ cs i) f + o) data m f = Ok f' /\ fat_ok f' /\ same_table f f' /\
    written f cs (i * cluster_size f + o) m data f'.
Proof using words.
  intros Hf Hc Hi Ho Hm Hd. pose proof (fk_geometry _ Hf) as Hg. pose proof (ge_data _ Hg).
  destruct (position_lba words f cs i o Hg Hc Hi Ho) as (-> & Hp1 & Hp2).
  destruct (part_write_ok words f (sector_pos f cs (i * cluster_size f + o)) data m) as (f' & E & Hf' & Hs & _ & Hw); [done|lia|lia|lia|done|].
  assert (forall j, 0 <= j < m -> sector_pos f cs (i * cluster_size f + o + j) = sector_pos f cs (i * cluster_size f + o) + j) as Hin.
  { intros j Hj. replace (i * cluster_size f + o + j) with (i * cluster_size f + (o + j)) by lia. rewrite !sector_pos_at by lia. lia. }
  exists f'. split_and!; [done..|]. constructor.
  - intros j Hj. unfold file_sector. destruct (sg_part _ _ (proj1 Hs)) as [-> _]. rewrite (sector_pos_same f f') by apply Hs.
    rewrite Hin, Hw, decide_True by lia. f_equal. lia.
  - intros l _ Hl. rewrite Hw, decide_False; [done|]. intros Hr.
    apply (Hl (l - sector_pos f cs (i * cluster_size f + o))); [lia|]. rewrite Hin by lia. lia.
Qed.

(** How many clusters the [n] sectors from offset [o] of a cluster on touch. *)
Definition touched (cz o n : Z) : Z := if n =? 0 then 0 else (o + n - 1) / cz + 1.

Lemma touched_step cz o n : 0 <= o < cz -> cz - o < n -> touched cz o n = 1 + touched cz 0 (n - (cz - o)).
Proof.
  intros Ho Hn. unfold touched. rewrite !(proj2 (Z.eqb_neq _ _)) by lia.
  replace (o + n - 1) with (0 + (n - (cz - o)) - 1 + 1 * cz) by lia. rewrite Z.div_add by lia. lia.
Qed.

Lemma u32_add_l a b : u32 (u32 a + b) = u32 (a + b).
Proof. unfold wrap. apply Zplus_mod_idemp_l. Qed.

(** The result of the loop from position [(i, o)] on. *)
Definition write_result f cs i o n w buf f' (r : Z + Z) : Prop :=
  exists new m, fat_ok f' /\ extends f cs f' new /\ 0 <= m <= n /\
    i * cluster_size f + o + m <= zlen (cs ++ new) * cluster_size f /\
    written f (cs ++ new) (i * cluster_size f + o) m (slice buf 0 (m * SZ)) f' /\
    match r with
    | inr w' => m = n /\ w' = u32 (w + touched (cluster_size f) o n)
    | inl rest => 0 < rest /\ m = n - rest /\ i * cluster_size f + o + m = zlen (cs ++ new) * cluster_size f /\ full_after f cs new
    end.

Lemma write_result_nil f cs i o w buf : fat_ok f -> chain f cs -> 0 <= i < zlen cs -> 0 <= o < cluster_size f ->
  0 <= w < 2 ^ 32 -> write_result f cs i o 0 w buf f (inr w).
Proof using words.
  intros Hf Hc Hi Ho Hw. assert ((i + 1) * cluster_size f <= zlen cs * cluster_size f) by (apply Z.mul_le_mono_nonneg_r; lia).
  exists [], 0. rewrite app_nil_r. split_and!; try (done || lia).
  - apply (extends_same words); [by apply fk_geometry|done..].
  - by apply written_same.
  - cbn. rewrite Z.add_0_r. by rewrite u32_small by lia.
Qed.

(** The last cluster. *)
Lemma write_result_last f cs i o n w buf f1 : fat_ok f -> chain f cs -> 0 <= i < zlen cs -> 0 <= o < cluster_size f ->
  0 < n <= cluster_size f - o -> zlen buf = n * SZ -> fat_ok f1 -> same_table f f1 ->
  written f cs (i * cluster_size f + o) n buf f1 -> write_result f cs i o n w buf f1 (inr (u32 (w + 1))).
Proof using words.
  intros Hf Hc Hi Ho Hn Hb Hf1 Hs1 Hw1. assert ((i + 1) * cluster_size f <= zlen cs * cluster_size f) by (apply Z.mul_le_mono_nonneg_r; lia).
  exists [], n. rewrite app_nil_r, <- Hb, slice_all. split_and!; try (done || lia).
  - apply (extends_same words); [by apply fk_geometry|done..].
  - unfold touched. rewrite (proj2 (Z.eqb_neq _ _)), Z.div_small by lia. done.
Qed.

(** A full cluster, then the next one of the chain, which may be a new one. *)
Lemma write_result_next f cs i o n w buf f1 f2 new f3 r : fat_ok f -> chain f cs -> 0 <= i < zlen cs -> 0 <= o < cluster_size f ->
  cluster_size f - o < n -> zlen buf = n * SZ ->
  fat_ok f1 -> same_table f f1 -> written f cs (i * cluster_size f + o) (cluster_size f - o) (slice buf 0 (SZ * (cluster_size f - o))) f1 ->
  same_disk f1 f2 -> extends f1 cs f2 new ->
  write_result f2 (cs ++ new) (i + 1) 0 (n - (cluster_size f - o)) (u32 (w + 1)) (drop (Z.to_nat (SZ * (cluster_size f - o))) buf) f3 r ->
  write_result f cs i o n w buf f3 r.
Proof using words.
  intros Hf Hc Hi Ho Hn Hb Hf1 Hs1 Hw1 Hd2 Hx2 (new' & m & Hf3 & Hx3 & Hm & Hpos & Hw3 & Hr).
  pose proof (fk_geometry _ Hf) as Hg. pose proof (extends_same words f f1 cs Hg Hc Hs1) as Hx1.
  assert (extends f cs f2 new) as Hx02 by (apply (extends_trans f f1 f2 cs [] new); [done|by rewrite app_nil_r]).
  assert (extends f cs f3 (new ++ new')) as Hx03 by (by apply (extends_trans f f2)).
  pose proof (dev_lbashift_range (D := D)). pose proof (sg_cluster _ _ (ex_geo _ _ _ _ Hx02)) as Ez. rewrite Ez in *.
  set (cz := cluster_size f) in *. rewrite <- app_assoc in Hpos, Hw3.
  assert ((i + 1) * cz <= zlen cs * cz) by (apply Z.mul_le_mono_nonneg_r; lia).
  assert (SZ * (cz - o) <= n * SZ) by nia.
  exists (new ++ new'), (cz - o + m). split_and!; [done|done|lia|lia|lia| |].
  - replace (slice buf 0 ((cz - o + m) * SZ)) with (slice buf 0 (SZ * (cz - o)) ++ slice (drop (Z.to_nat (SZ * (cz - o))) buf) 0 (m * SZ)).
    2:{ replace ((cz - o + m) * SZ) with (SZ * (cz - o) + m * SZ) by lia. rewrite slice_split by nia. unfold slice. by rewrite drop_drop, Nat.add_0_r. }
    apply (written_trans f f2 f3); try done; try (fold cz; lia); try nia.
    + apply (ex_geo _ _ _ _ Hx02).
    + apply (ex_geo _ _ _ _ Hx3).
    + apply (ex_chain _ _ _ _ Hx03).
    + rewrite zlen_slice by nia. lia.
    + apply (written_disk f f1 f2); [apply Hs1|done|done].
    + fold cz. by replace (i * cz + o + (cz - o)) with ((i + 1) * cz + 0) by lia.
  - destruct r as [rest|w'].
    + destruct Hr as (? & ? & ? & Hfull). rewrite <- app_assoc in *. split_and!; [done|lia|fold cz; lia|]. by apply (full_after_trans f f2).
    + destruct Hr as [-> ->]. split; [lia|]. fold cz. rewrite u32_add_l, (touched_step cz o n) by lia. f_equal. lia.
Qed.

Lemma write_sectors_loop_ok fuel f cs i o n w buf : fat_ok f -> chain f cs ->
  0 <= i < zlen cs -> 0 <= o < cluster_size f -> 0 <= n <= Z.of_nat fuel -> zlen buf = n * SZ -> 0 <= w < 2 ^ 32 ->
  exists f' r, write_sectors_loop fuel n (nthZ cs i) o w buf f = Ok (f', r) /\ write_result f cs i o n w buf f' r.
Proof using words.
  revert f cs i o n w buf. induction fuel as [|fuel IH]; intros f cs i o n w buf Hf Hc Hi Ho Hn Hb Hw; cbn [write_sectors_loop].
  { assert (n = 0) as -> by lia. exists f, (inr w). split; [done|by apply write_result_nil]. }
  destruct (Z.ltb_spec 0 n); [|assert (n = 0) as -> by lia; exists f, (inr w); split; [done|by apply write_result_nil]].
  pose proof (fk_geometry _ Hf) as Hg. pose proof (ge_cluster _ Hg). destruct (chain_at words f cs i Hg Hc Hi) as ([? ?] & _).
  rewrite (proj2 (Z.eqb_neq (nthZ cs i) 0)) by lia. cbn [negb assert_ mbind res_bind].
  rewrite (u32_small (cluster_size f - o)), (block_size_eq (D := D)) by lia. pose proof (dev_lbashift_range (D := D)).
  destruct (Z.ltb_spec (cluster_size f - o) n) as [Hlt|Hge].
  - assert (SZ * (cluster_size f - o) <= n * SZ) by nia. rewrite rd_bytes_ok by nia. cbn [mbind res_bind].
    destruct (write_run f cs i o (cluster_size f - o) (slice buf 0 (SZ * (cluster_size f - o)))) as (f1 & E1 & Hf1 & Hs1 & Hw1);
      try (done || lia); [rewrite zlen_slice by nia; lia|].
    rewrite E1. cbn [mbind res_bind]. rewrite (proj2 (Z.eqb_neq (n - _) 0)) by lia. cbn [negb].
    assert (chain f1 cs) as Hc1 by (by eapply chain_same).
    destruct (read_or_allocate_ok words f1 cs i Hf1 Hc1 Hi) as (f2 & c & new & E2 & Hf2 & Hd2 & Hx2 & Hr). rewrite E2. cbn [mbind res_bind].
    destruct Hr as [(Hc0 & Hi2 & Ec)|(-> & -> & Hi2 & Hfull)].
    + rewrite (proj2 (Z.eqb_neq c 0)) by done. subst c.
      assert (cluster_size f2 = cluster_size f) as Ez by (rewrite (sg_cluster _ _ (proj1 Hd2)); apply (sg_cluster _ _ (proj1 Hs1))).
      destruct (IH f2 (cs ++ new) (i + 1) 0 (n - (cluster_size f - o)) (u32 (w + 1)) (drop (Z.to_nat (SZ * (cluster_size f - o))) buf))
        as (f3 & r & E3 & Hres); try (done || lia); [apply (ex_chain _ _ _ _ Hx2)|rewrite zlen_drop by nia; lia|apply wrap_range; lia|].
      exists f3, r. split; [done|]. by apply (write_result_next f cs i o n w buf f1 f2 new f3 r).
    + exists f2, (inl (n - (cluster_size f - o))). split; [done|].
      assert ((i + 1) * cluster_size f <= zlen cs * cluster_size f) by (apply Z.mul_le_mono_nonneg_r; lia).
      assert (extends f cs f1 []) as Hx1 by (apply (extends_same words); done).
      exists [], (cluster_size f - o). rewrite app_nil_r in *. split_and!; try (done || lia).
      * by apply (extends_trans f f1 f2 cs [] []); [|rewrite app_nil_r].
      * rewrite (Z.mul_comm (cluster_size f - o) SZ). apply (written_disk f f1 f2); [apply Hs1|done|done].
      * by exists f1.
  - rewrite rd_bytes_ok by nia. cbn [mbind res_bind].
    replace (SZ * n) with (zlen buf) by lia. rewrite slice_all.
    destruct (write_run f cs i o n buf) as (f1 & E1 & Hf1 & Hs1 & Hw1); try (done || lia).
    rewrite E1. cbn [mbind res_bind]. rewrite Z.sub_diag. cbn [Z.eqb negb].
    exists f1, (inr (u32 (w + 1))). split; [by destruct fuel|]. by apply write_result_last.
Qed.
End Write.
