(* ===== verification/Fat32Theorems.v ===== *)
(** * FAT32: flushing the cache of the FAT, and the whole write

    After [flush_fat_cache] the FAT on the disk is the FAT the driver sees. *)

From S2P Require Import Prelude Bytes Interfaces FileSystems Fat32 Fat32Proofs Fat32Chain Fat32Read Fat32Write.





Section Flush.
Context {D : Type} `{BlockDevice D}.
Hypothesis words : 3 <= dev_lbashift (D := D).
Notation SZ := (2 ^ dev_lbashift (D := D)).
Implicit Types f : fat32 D.

(** The same FAT and the same disk outside of the FAT. *)
Definition same_content f f' : Prop :=
  same_table f f' /\
  forall l, ~ in_fat f l -> dev_sector (fat_dev f') (part_begin f + l) = dev_sector (fat_dev f) (part_begin f + l).

#[export] Instance same_content_refl : Reflexive same_content.
Proof. by repeat split. Qed.
#[export] Instance same_content_trans : Transitive same_content.
Proof.
  intros a b c [[A1 A2] A3] [[B1 B2] B3]. destruct (sg_fat _ _ A1) as [Eb Es]. destruct (sg_part _ _ A1) as [Ep _].
  unfold in_fat in *. rewrite Eb, Es, Ep in B3. split_and!; [split; [by transitivity b|]|].
  - intros l Hl. rewrite B2, A2; [done|done|]. by rewrite Eb, Es.
  - intros l Hl. by rewrite B3, A3.
Qed.

(** One entry written back. *)
Definition flushed f (i : Z) : fat32 D :=
  set_fat_dev (set_entries f (<[Z.to_nat i := (i, false)]> (fat_entries f)))
    (dev_write (part_begin f + i) (slice (fat_buf f) (i * SZ) SZ) 1 (fat_dev f)).

Lemma flushed_ok f i : fat_ok f -> in_fat f i -> (exists m, fat_entries f !! Z.to_nat i = Some (i, m)) ->
  fat_ok (flushed f i) /\ same_content f (flushed f i).
Proof using words.
  intros Hf Hi [m Hm]. pose proof (fk_geometry _ Hf) as Hg. pose proof (ge_fat _ Hg) as Hgf. pose proof (dev_lbashift_range (D := D)).
  unfold in_fat, FAT_CACHE_SIZE in *. pose proof (fk_buf _ Hf) as Hb. pose proof (fk_entries _ Hf) as Hn. unfold FAT_CACHE_SIZE in *.
  assert (forall l, dev_sector (fat_dev (flushed f i)) (part_begin f + l) =
    if decide (l = i) then slice (fat_buf f) (i * SZ) SZ else dev_sector (fat_dev f) (part_begin f + l)) as Hd.
  { intros l. cbn. rewrite dev_write_sector by (rewrite ?zlen_slice; nia).
    destruct (decide (l = i)) as [->|]; [|by rewrite decide_False by lia].
    rewrite decide_True, Z.sub_diag, slice_slice, Z.add_0_r by nia. done. }
  assert (forall h, fat_entries (flushed f i) !! h = if decide (h = Z.to_nat i) then Some (i, false) else fat_entries f !! h) as He.
  { intros h. cbn. case_decide; [subst h; by rewrite list_lookup_insert_eq by (unfold zlen in *; lia)|]. by rewrite list_lookup_insert_ne. }
  split; [|split; [split|]].
  - constructor; [destruct Hg; constructor; assumption|cbn; by rewrite zlen_insert|done|apply (fk_alloc _ Hf)|].
    intros h e Hh. rewrite He in Hh. unfold slot_ok. change (part_begin (flushed f i)) with (part_begin f).
    case_decide as Hhi.
    + simplify_eq. right. cbn [fst snd]. rewrite Hd, decide_True by done. split_and!; [lia|apply Hi..|done].
    + destruct (fk_slots _ Hf h e Hh) as [->|(E1 & E2 & E3)]; [by left|right].
      split_and!; [done|apply E2..|]. intros Em. rewrite Hd, decide_False by lia. by apply E3.
  - by constructor.
  - intros l Hl. unfold view. rewrite He. change (part_begin (flushed f i)) with (part_begin f). rewrite Hd.
    destruct (decide (Z.to_nat l = Z.to_nat i)) as [El|El].
    + assert (l = i) as -> by lia. by rewrite Hm, Z.eqb_refl.
    + by rewrite decide_False by lia.
  - intros l Hl. rewrite Hd, decide_False; [done|]. intros ->. unfold in_fat in Hl. lia.
Qed.

Definition clean_below f (i : Z) : Prop := forall h e, fat_entries f !! h = Some e -> Z.of_nat h < i -> e.2 = false.

Lemma flush_loop_ok n i f : fat_ok f -> 0 <= i -> i + Z.of_nat n = FAT_CACHE_SIZE -> clean_below f i ->
  exists f', flush_loop n i f = Ok f' /\ fat_ok f' /\ same_content f f' /\ clean_below f' FAT_CACHE_SIZE.
Proof using words.
  revert i f. induction n as [|n IH]; intros i f Hf Hi Hin Hcl; cbn [flush_loop].
  { exists f. replace FAT_CACHE_SIZE with i by lia. done. }
  destruct (slot_of_entry f i Hf) as ([tag m] & He & Eld & Hs); [lia|]. rewrite Eld. cbn [mbind res_bind].
  destruct m.
  - destruct Hs as [[=]|(Et & Hr & _)]. cbn [fst] in *. rewrite Z2Nat.id in Et by lia. subst tag.
    pose proof (fk_geometry _ Hf) as Hg. destruct (fat_sector_bounds words f i Hg Hr) as (Eu & Hpe & Hpb).
    pose proof (dev_lbashift_range (D := D)). pose proof (fk_buf _ Hf) as Hb.
    rewrite st_ok by (rewrite (fk_entries _ Hf); lia). cbn [mbind res_bind].
    rewrite Z.shiftl_mul_pow2, block_size_eq, rd_bytes_ok by nia. cbn [mbind res_bind].
    unfold part_write. cbn [part_begin part_end set_entries]. rewrite Eu. unfold assert_.
    rewrite !(proj2 (Z.leb_le _ _)) by lia. cbn [andb mbind res_bind].
    destruct (flushed_ok f i Hf Hr) as [Hf1 Hs1]; [by eexists|].
    destruct (IH (i + 1) (flushed f i) Hf1) as (f' & E & Hf' & Hs' & Hc'); [lia|lia| |].
    { intros h e. cbn. destruct (decide (h = Z.to_nat i)) as [->|].
      - rewrite list_lookup_insert_eq by (pose proof (fk_entries _ Hf); unfold zlen in *; lia). by intros [= <-].
      - rewrite list_lookup_insert_ne by done. intros Hh ?. apply (Hcl h e Hh). lia. }
    exists f'. split_and!; [exact E|done|by transitivity (flushed f i)|done].
  - destruct (IH (i + 1) f Hf) as (f' & E & Hf' & Hs' & Hc'); [lia|lia| |by exists f'].
    intros h e Hh ?. destruct (decide (h = Z.to_nat i)) as [->|]; [by simplify_eq|]. apply (Hcl h e Hh). lia.
Qed.

(** The FAT on the disk is the FAT the driver sees. *)
Definition fat_on_disk f : Prop := forall l, in_fat f l -> dev_sector (fat_dev f) (part_begin f + l) = view f l.

Lemma flush_fat_cache_ok f : fat_ok f ->
  exists f', flush_fat_cache f = Ok f' /\ fat_ok f' /\ same_content f f' /\ fat_on_disk f'.
Proof using words.
  intros Hf. destruct (flush_loop_ok (Z.to_nat FAT_CACHE_SIZE) 0 f Hf) as (f' & E & Hf' & Hs & Hc); [lia|done|intros ? ? ? ?; lia|].
  exists f'. split_and!; [done..|]. intros l Hl. pose proof (ge_fat _ (fk_geometry _ Hf')). unfold in_fat in Hl.
  destruct (slot_of_entry f' l Hf') as ([tag m] & He & _ & Hsl); [lia|]. unfold view. rewrite He.
  destruct (Z.eqb_spec tag l) as [->|]; [|done]. destruct Hsl as [[= ? _]|(_ & _ & Hd)]; [lia|].
  symmetry. apply Hd. by apply (Hc _ _ He); lia.
Qed.
End Flush.

(** * FAT32: the functions the virtual file system calls *)


Section Theorems.
Context {D : Type} `{BlockDevice D}.
Hypothesis words : 3 <= dev_lbashift (D := D).
Notation SZ := (2 ^ dev_lbashift (D := D)).
Implicit Types f : fat32 D.

(** ** Writing: the parts put together *)

Lemma written_from f f1 f2 cs k m b : same_disk f f1 -> written f1 cs k m b f2 -> written f cs k m b f2.
Proof.
  intros [Hg Hd] [D1 R1]. constructor; [done|]. destruct (sg_part _ _ Hg) as [Ep _]. rewrite Ep in R1.
  unfold in_fat in *. destruct (sg_fat _ _ Hg) as [Eb Es]. rewrite Eb, Es in R1.
  intros l Hl Hp. rewrite R1; [apply Hd|done|]. intros j Hj. rewrite (sector_pos_same f f1) by done. by apply Hp.
Qed.

Lemma written_flush f f1 f2 cs k m b : fat_ok f1 -> same_geo f f1 -> chain f1 cs -> 0 <= k -> k + m <= zlen cs * cluster_size f ->
  same_content f1 f2 -> written f cs k m b f1 -> written f cs k m b f2.
Proof using words.
  intros Hf1 Hg Hc Hk Hm [[Hg2 _] Hd] [D1 R1]. pose proof (fk_geometry _ Hf1) as Hg1. destruct (sg_part _ _ Hg) as [Ep _].
  constructor.
  - intros j Hj. rewrite <- D1 by done. unfold file_sector. destruct (sg_part _ _ Hg2) as [-> _].
    rewrite (sector_pos_same f1 f2) by done. apply Hd. unfold in_fat. pose proof (ge_data _ Hg1).
    pose proof (sector_pos_bounds words f1 cs (k + j) Hg1 Hc). rewrite (sg_cluster _ _ Hg) in *. lia.
  - intros l Hl Hp. rewrite <- R1 by done. rewrite <- Ep. apply Hd. unfold in_fat in *. by destruct (sg_fat _ _ Hg) as [-> ->].
Qed.

(** The cluster where a write begins: on the chain, or behind its end. *)
Definition locate (fd : file) (begin n : Z) f : res (fat32 D * option Z) :=
  let first_cluster := u32 (begin / cluster_size f) in
  '(f, cluster, clusterend) ← fetch_cluster fd first_cluster f;
  assert_ (negb (cluster =? 0)) "cluster" ;;
  match clusterend with
  | None => Ok (f, Some cluster)
  | Some e =>
      assert_ (file_size fd <=? u64 (u64 (u64 (begin + n - 1) * cluster_size f) * block_size))
        "(begin + n - 1) * pr->cluster_size * block_size(fs->part) >= fd->file_size" ;;
      assert_ (e <? first_cluster) "clusterend < first_cluster" ;;
      extend_chain (Z.to_nat (first_cluster - e)) cluster f
  end.

(** [fat32_write_file_sectors] on a file that has clusters. *)
Lemma write_file_unfold fd buf begin n f : addr fd <> 0 ->
  fat32_write_file_sectors fd buf begin n f =
  ('(f1, r) ← locate fd begin n f;
   match r with
   | None => Ok (f1, fd, 0)
   | Some cluster =>
       '(f2, r) ← write_sectors_loop (Z.to_nat n) n cluster (begin mod cluster_size f) 0 buf f1;
       match r with
       | inl n => Ok (f2, fd, s32 n)
       | inr written => f3 ← flush_fat_cache f2; Ok (f3, fd, s32 written)
       end
   end).
Proof.
  intros Ha. unfold fat32_write_file_sectors, locate. rewrite (proj2 (Z.eqb_neq _ _)) by done. cbn [mbind res_bind].
  destruct (fetch_cluster _ _ _) as [[[f1 cluster] e]|]; cbn [mbind res_bind]; [|done].
  destruct (assert_ (negb _) _) as [?|?]; cbn [mbind res_bind]; [|done]. destruct e as [e|]; [|done].
  destruct (assert_ (_ <=? _) _) as [?|?]; cbn [mbind res_bind]; [|done]. by destruct (assert_ (_ <? _) _) as [?|?].
Qed.

Lemma locate_ok fd begin n f cs : fat_ok f -> chain f cs -> nthZ cs 0 = addr fd ->
  0 <= begin -> begin / cluster_size f < 2 ^ 32 ->
  (zlen cs <= begin / cluster_size f -> file_size fd <= u64 (u64 (u64 (begin + n - 1) * cluster_size f) * SZ)) ->
  exists f1 r new, locate fd begin n f = Ok (f1, r) /\ fat_ok f1 /\ same_disk f f1 /\ extends f cs f1 new /\
    match r with
    | Some c => begin / cluster_size f < zlen (cs ++ new) /\ c = nthZ (cs ++ new) (begin / cluster_size f)
    | None => zlen (cs ++ new) <= begin / cluster_size f /\ full_after f cs new
    end.
Proof using words.
  intros Hf Hc Ha Hb Hb32 Hgap. pose proof (fk_geometry _ Hf) as Hg. pose proof (ge_cluster _ Hg).
  assert (0 <= begin / cluster_size f) by (apply Z.div_pos; lia). unfold locate, fetch_cluster.
  set (first := begin / cluster_size f) in *. rewrite (u32_small first) by lia.
  destruct cs as [|c cs]; [by inversion Hc|]. change (nthZ (c :: cs) 0) with c in Ha. subst c.
  pose proof (chain_head _ _ _ Hc) as [? ?]. pose proof (n_clusters_bound words f Hg). rewrite (u32_small (addr fd)) by lia.
  destruct (fetch_cluster_loop_ok words (Z.to_nat first) 0 f (addr fd) cs Hf Hc) as (f1 & Hf1 & Hs1 & ->).
  assert (chain f1 (addr fd :: cs)) as Hc1 by (by eapply chain_same; [|apply same_fat_table|..]).
  pose proof (extends_same words f f1 _ Hg Hc (same_fat_table _ _ Hs1)) as Hx1.
  assert (forall c', in_table f c' -> negb (c' =? 0) = true) as Hnz.
  { intros c' [? ?]. by rewrite (proj2 (Z.eqb_neq _ _)) by lia. }
  destruct (decide (first < zlen (addr fd :: cs))) as [Hlt|Hge].
  - rewrite (lookup_nthZ (addr fd :: cs) first) by lia. cbn [mbind res_bind].
    destruct (chain_at words f (addr fd :: cs) first Hg Hc) as (Ht & _); [lia|]. rewrite (Hnz _ Ht). cbn [assert_ mbind res_bind].
    exists f1, (Some (nthZ (addr fd :: cs) first)), []. rewrite app_nil_r. split_and!; [done|done|apply Hs1|done|done|done].
  - rewrite lookup_ge_None_2 by (unfold zlen in *; lia). cbn [mbind res_bind].
    destruct (chain_last_at words f _ Hg Hc) as (l & x & El & _ & Ht). assert (zlen cs = zlen l) as Elen.
    { apply (f_equal zlen) in El. rewrite zlen_app in El. unfold zlen in *. cbn in El. lia. }
    rewrite El in *. rewrite last_last, (Hnz _ Ht). cbn [assert_ mbind res_bind].
    rewrite (sg_cluster _ _ (same_fat_geo _ _ Hs1)), block_size_eq, (proj2 (Z.leb_le _ _)) by (apply Hgap; lia).
    cbn [mbind res_bind]. rewrite zlen_app in Hge. change (zlen [x]) with 1 in Hge. rewrite (proj2 (Z.ltb_lt _ _)) by lia. cbn [mbind res_bind].
    destruct (extend_chain_ok words (Z.to_nat (first - (0 + zlen cs))) f1 l x Hf1 Hc1) as (f2 & r & new & E2 & Hf2 & Hd2 & Hx2 & Hr).
    exists f2, r, new. split_and!; [done|done|transitivity f1; [apply Hs1|done]|..].
    + apply (extends_trans f f1 f2 _ [] new); [done|]. by rewrite app_nil_r.
    + destruct r as [c'|]; destruct Hr as [Hl Hr]; rewrite !zlen_app; change (zlen [x]) with 1; (split; [lia|]).
      * rewrite Hr, zlen_app. change (zlen [x]) with 1. f_equal. lia.
      * apply (full_after_trans f f1 _ [] new); [done|by rewrite app_nil_r].
Qed.

(** What a write of [n] sectors at [begin] to the file with clusters [cs] does, with return
    value [r]: [m] sectors were written; either all of them, and the FAT is on the disk, or the
    drive was full. *)
Definition write_outcome f (cs buf : list Z) (begin n : Z) f' (r : Z) : Prop :=
  exists new m, extends f cs f' new /\ 0 <= m <= n /\ (0 < m -> begin + m <= zlen (cs ++ new) * cluster_size f) /\
    written f (cs ++ new) begin m (slice buf 0 (m * SZ)) f' /\
    ((m = n /\ fat_on_disk f' /\ r = touched (cluster_size f) (begin mod cluster_size f) n) \/
     (m < n /\ zlen (cs ++ new) * cluster_size f <= begin + m /\ full_after f cs new /\ (r = n - m \/ m = 0 /\ r = 0))).

Lemma touched_bound cz o n : 0 <= o < cz -> 0 <= n -> 0 <= touched cz o n <= n.
Proof.
  intros Ho Hn. unfold touched. destruct (Z.eqb_spec n 0); [lia|]. split.
  - assert (0 <= (o + n - 1) / cz) by (apply Z.div_pos; lia). lia.
  - assert ((o + n - 1) / cz < n) by (apply Z.div_lt_upper_bound; nia). lia.
Qed.

Lemma write_outcome_flush f cs buf begin n f1 f2 new : fat_ok f1 -> extends f cs f1 new -> 0 <= begin -> 0 < n ->
  zlen buf = n * SZ -> begin + n <= zlen (cs ++ new) * cluster_size f ->
  written f (cs ++ new) begin n buf f1 -> same_content f1 f2 -> fat_on_disk f2 ->
  write_outcome f cs buf begin n f2 (touched (cluster_size f) (begin mod cluster_size f) n).
Proof using words.
  intros Hf1 Hx Hb Hn Hz Hlen Hw Hs Hd. exists new, n. rewrite <- Hz, slice_all. split_and!; [|lia|lia|done|..].
  - rewrite <- (app_nil_r new). apply (extends_trans f f1); [done|]. apply (extends_same words).
    + by apply fk_geometry.
    + apply (ex_chain _ _ _ _ Hx).
    + apply Hs.
  - apply (written_flush f f1 f2); try done; [apply (ex_geo _ _ _ _ Hx)|apply (ex_chain _ _ _ _ Hx)].
  - by left.
Qed.

Lemma write_file_sectors_ok f fd cs buf begin n : fat_ok f -> chain f cs -> nthZ cs 0 = addr fd ->
  0 <= begin -> begin / cluster_size f < 2 ^ 32 -> 0 < n < 2 ^ 31 -> zlen buf = n * SZ ->
  (zlen cs <= begin / cluster_size f -> file_size fd <= u64 (u64 (u64 (begin + n - 1) * cluster_size f) * SZ)) ->
  exists f' r, fat32_write_file_sectors fd buf begin n f = Ok (f', fd, r) /\ fat_ok f' /\ write_outcome f cs buf begin n f' r.
Proof using words.
  intros Hf Hc Ha Hb Hb32 Hn Hz Hgap. pose proof (fk_geometry _ Hf) as Hg. pose proof (ge_cluster _ Hg) as Hcz.
  rewrite write_file_unfold.
  2:{ destruct cs as [|c cs]; [by inversion Hc|]. pose proof (chain_head _ _ _ Hc) as [? ?]. change (nthZ (c :: cs) 0) with c in Ha. lia. }
  destruct (locate_ok fd begin n f cs Hf Hc Ha Hb Hb32 Hgap) as (f1 & r & new & -> & Hf1 & Hd1 & Hx1 & Hr). cbn [mbind res_bind].
  pose proof (sg_cluster _ _ (proj1 Hd1)) as Ez. set (z := cluster_size f) in *.
  assert (0 <= begin mod z < z) as Ho by (apply Z.mod_pos_bound; lia). pose proof (Z.div_mod begin z ltac:(lia)) as Ebm.
  assert (0 <= begin / z) by (apply Z.div_pos; lia). destruct r as [c|].
  - destruct Hr as [Hlt ->].
    destruct (write_sectors_loop_ok words (Z.to_nat n) f1 (cs ++ new) (begin / z) (begin mod z) n 0 buf) as (f2 & r & -> & Hres);
      try (done || lia); [apply (ex_chain _ _ _ _ Hx1)|]. cbn [mbind res_bind].
    destruct Hres as (new' & m & Hf2 & Hx2 & Hm & Hpos & Hw & Hr). rewrite Ez in *. fold z in Hpos, Hw, Hr.
    replace (begin / z * z + begin mod z) with begin in * by lia. rewrite <- app_assoc in Hpos, Hw.
    pose proof (extends_trans _ _ _ _ _ _ Hx1 Hx2) as Hx. apply (written_from f) in Hw; [|done]. destruct r as [rest|w].
    + destruct Hr as (? & ? & ? & Hfull). exists f2, rest. rewrite s32_small by lia. split_and!; [done|done|]. exists (new ++ new'), m.
      rewrite <- app_assoc in *. split_and!; try (done || (fold z; lia)). right. split_and!; [lia|fold z; lia|by apply (full_after_trans f f1)|lia].
    + destruct Hr as [-> ->]. destruct (flush_fat_cache_ok words f2 Hf2) as (f3 & -> & Hf3 & Hs3 & Hd3). cbn [mbind res_bind].
      pose proof (touched_bound z (begin mod z) n Ho ltac:(lia)). rewrite Z.add_0_l, u32_small, s32_small by lia.
      eexists f3, _. split_and!; [done|done|]. rewrite <- Hz, slice_all in Hw.
      apply (write_outcome_flush f cs buf begin n f2 f3 (new ++ new')); try (done || lia).
  - exists f1, 0. split_and!; [done|done|]. exists new, 0. split_and!; try (done || lia); [by apply written_same|].
    right. destruct Hr as [? Hr]. assert (zlen (cs ++ new) * z <= begin / z * z) by (apply Z.mul_le_mono_nonneg_r; lia).
    split_and!; [lia|fold z; lia|done|by right].
Qed.

(** ** Other files *)

Lemma nthZ_elem (cs : list Z) i : 0 <= i < zlen cs -> nthZ cs i ∈ cs.
Proof. intros Hi. apply list_elem_of_lookup. exists (Z.to_nat i). by apply lookup_nthZ. Qed.

Lemma sector_pos_disjoint f cs cs' k k' : 0 < cluster_size f -> (forall c, c ∈ cs -> c ∉ cs') ->
  0 <= k < zlen cs * cluster_size f -> 0 <= k' < zlen cs' * cluster_size f ->
  sector_pos f cs k <> sector_pos f cs' k'.
Proof.
  intros Hz Hd Hk Hk' E. set (z := cluster_size f) in *.
  pose proof (Z.mod_pos_bound k z ltac:(lia)). pose proof (Z.mod_pos_bound k' z ltac:(lia)).
  assert (nthZ cs (k / z) - 2 = nthZ cs' (k' / z) - 2 /\ k mod z = k' mod z) as [E1 _].
  { apply (Z.div_mod_unique z); [lia|lia|]. unfold sector_pos in E. fold z in E. lia. }
  apply (Hd (nthZ cs (k / z))).
  - apply nthZ_elem. split; [apply Z.div_pos; lia|apply Z.div_lt_upper_bound; lia].
  - replace (nthZ cs (k / z)) with (nthZ cs' (k' / z)) by lia.
    apply nthZ_elem. split; [apply Z.div_pos; lia|apply Z.div_lt_upper_bound; lia].
Qed.

(** A file with no cluster in common keeps its chain and its contents. *)
Definition untouched f f' (cs : list Z) : Prop :=
  chain f' cs /\ forall k, 0 <= k < zlen cs * cluster_size f -> file_sector f' cs k = file_sector f cs k.

Lemma write_untouched f cs buf begin n f' r cs' : fat_ok f -> 0 <= begin -> write_outcome f cs buf begin n f' r ->
  chain f cs' -> (forall c, c ∈ cs' -> c ∉ cs) -> untouched f f' cs'.
Proof using words.
  intros Hf Hb (new & m & Hx & Hm & Hpos & Hw & _) Hc Hd. pose proof (fk_geometry _ Hf) as Hg. pose proof (ge_cluster _ Hg) as Hz.
  assert (forall c, c ∈ cs' -> c ∉ cs ++ new) as Hd'.
  { intros c Hin. rewrite elem_of_app. intros [?|Hn]; [by apply (Hd c)|].
    by apply (free_not_in_chain words f cs' c Hg Hc (ex_free _ _ _ _ Hx c Hn)). }
  pose proof (ex_geo _ _ _ _ Hx) as Hsg. split.
  - apply (chain_ext f); [by apply same_geo_clusters| |done]. intros c Hin. apply (ex_kept _ _ _ _ Hx); [by eapply chain_in_table|by apply Hd'].
  - intros k Hk. unfold file_sector. destruct (sg_part _ _ Hsg) as [-> _]. rewrite (sector_pos_same f f') by done.
    apply (wr_rest _ _ _ _ _ _ Hw).
    + pose proof (sector_pos_bounds words f cs' k Hg Hc Hk). pose proof (ge_data _ Hg). unfold in_fat. lia.
    + intros j Hj. apply sector_pos_disjoint; [lia|done|done|]. lia.
Qed.

(** The contents of a file, sector by sector. *)
Lemma file_data_slices f cs k n buf : 0 <= n -> zlen buf = n * SZ ->
  (forall j, 0 <= j < n -> file_sector f cs (k + j) = slice buf (j * SZ) SZ) -> file_data f cs k n = buf.
Proof using words.
  intros Hn Hz Hj. pose proof (dev_lbashift_range (D := D)).
  assert (forall m : nat, Z.of_nat m <= n -> file_data f cs k (Z.of_nat m) = slice buf 0 (Z.of_nat m * SZ)) as Hm.
  { induction m as [|m IH]; intros Hm; [done|]. replace (Z.of_nat (S m)) with (Z.of_nat m + 1) by lia.
    rewrite file_data_app, IH, Z.mul_add_distr_r, slice_split by nia. f_equal. rewrite Z.add_0_l, Z.mul_1_l, <- Hj by lia.
    unfold file_data. rewrite seqZ_cons, seqZ_nil by lia. cbn. apply app_nil_r. }
  specialize (Hm (Z.to_nat n)). rewrite Z2Nat.id in Hm by lia. rewrite Hm by lia. rewrite <- Hz. apply slice_all.
Qed.

(** ** The theorems *)



(** Unless the drive is full, what [fat32_write_file_sectors] wrote is what
    [fat32_read_file_sectors] then reads, also behind the old end of the file. *)
Theorem fat32_write_read_roundtrip f fd cs buf begin n size :
  fat_ok f -> chain f cs -> nthZ cs 0 = addr fd ->
  0 <= begin -> begin / cluster_size f < 2 ^ 32 -> 0 < n < 2 ^ 31 -> zlen buf = n * SZ ->
  (zlen cs <= begin / cluster_size f -> file_size fd <= u64 (u64 (u64 (begin + n - 1) * cluster_size f) * SZ)) ->
  u64 (u64 (begin + n - 1) * cluster_size f) < size ->
  exists f' r, fat32_write_file_sectors fd buf begin n f = Ok (f', fd, r) /\
    ((exists new, zlen (cs ++ new) * cluster_size f < begin + n /\ full_after f cs new) \/
     exists f'', fat32_read_file_sectors (File (addr fd) size) begin n f' = Ok (f'', buf, n)).
Proof using words.
  intros Hf Hc Ha Hb Hb32 Hn Hz Hgap Hsize.
  destruct (write_file_sectors_ok f fd cs buf begin n) as (f' & r & E & Hf' & new & m & Hx & Hm & Hpos & Hw & Hr); try done.
  exists f', r. split; [done|]. destruct Hr as [(-> & _)|(? & ? & Hfull & _)]; [right|left; exists new; split; [lia|done]].
  pose proof (sg_cluster _ _ (ex_geo _ _ _ _ Hx)) as Ez.
  assert (nthZ (cs ++ new) 0 = addr fd) as Ha'.
  { rewrite <- Ha. unfold nthZ. rewrite lookup_app_l; [done|]. destruct cs; [by inversion Hc|cbn; lia]. }
  destruct (read_file_sectors_ok words f' (File (addr fd) size) (cs ++ new) begin n) as (f'' & E' & _);
    try done; [apply (ex_chain _ _ _ _ Hx)|rewrite Ez; lia|by rewrite Ez|].
  exists f''. rewrite E'. do 3 f_equal. rewrite <- Hz, slice_all in Hw. apply file_data_slices; [lia|done|]. apply (wr_data _ _ _ _ _ _ Hw).
Qed.
End Theorems.
