(* ===== verification/Fat32Limits.v ===== *)
(** * FAT32: allocation, truncation and large drives *)

From S2P Require Import Prelude Bytes Interfaces BlockCacheTheorems FileSystems Fat32 Fat32Proofs Fat32Chain Fat32Read Fat32Write Fat32Theorems.





Section Limits.
Context {D : Type} `{BlockDevice D}.
Hypothesis words : 3 <= dev_lbashift (D := D).
Notation SZ := (2 ^ dev_lbashift (D := D)).
Implicit Types f : fat32 D.


(** The search for the last cluster never ends where [trunc_file] asserts that it ends. *)
Lemma trunc_file_panics f fd cs size : fat_ok f -> chain f cs -> nthZ cs 0 = addr fd ->
  0 <= size < file_size fd -> file_size fd < 2 ^ 31 ->
  file_size fd - size <= u32 (cluster_size f * SZ) ->
  size / u32 (cluster_size f * SZ) <> file_size fd / u32 (cluster_size f * SZ) ->
  exists msg, trunc_file fd size f = Err (Panic msg).
Proof using words.
  intros Hf Hc Ha Hs Hs31 Hle Hne. pose proof (fk_geometry _ Hf) as Hg. pose proof (ge_cluster _ Hg). unfold trunc_file.
  rewrite block_size_eq. set (cb := u32 (cluster_size f * SZ)) in *.
  assert (0 < cb) by lia. assert (size / cb <= file_size fd / cb) by (apply Z.div_le_mono; lia).
  assert (0 <= size / cb) by (apply Z.div_pos; lia). assert (file_size fd / cb <= file_size fd) by (apply Z.div_le_upper_bound; nia).
  assert (s32 (file_size fd / cb - size / cb) = file_size fd / cb - size / cb) as ->.
  { unfold s32. rewrite u32_small by lia. by rewrite (proj2 (Z.ltb_lt _ _)) by lia. }
  unfold assert_ at 1 2. rewrite (proj2 (Z.ltb_lt size (file_size fd))), (proj2 (Z.leb_le 0 (_ - _))) by lia. cbn [mbind res_bind].
  rewrite (proj2 (Z.ltb_ge cb (_ - _))), (proj2 (Z.eqb_neq (_ - _) 0)) by lia.
  destruct cs as [|c cs]; [by inversion Hc|]. change (nthZ (c :: cs) 0) with c in Ha. subst c.
  pose proof (chain_head _ _ _ Hc) as [? ?]. pose proof (n_clusters_bound words f Hg). unfold fetch_cluster.
  rewrite (u32_small (addr fd)) by lia.
  destruct (fetch_cluster_loop_ok words (Z.to_nat (size / cluster_size f)) 0 f (addr fd) cs Hf Hc) as (f1 & _ & Hs1 & ->).
  destruct ((addr fd :: cs) !! _) eqn:El; cbn [mbind res_bind]; [by eexists|].
  apply lookup_ge_None in El. rewrite (sg_cluster _ _ (same_fat_geo _ _ Hs1)). unfold assert_ at 1.
  rewrite (proj2 (Z.eqb_neq _ _)); [by eexists|]. unfold zlen. cbn in El. lia.
Qed.

(** [fat32_truncate_file] truncates nothing: a file is never made longer (the test for
    too large extensions is [extend > 1 >> 31], that is [extend > 0]); making it shorter
    changes nothing on the disk when no cluster is freed or the difference is more than a
    cluster, and panics when there is a cluster to free. *)
Theorem fat32_truncate_file_limits f fd cs size :
  fat_ok f -> chain f cs -> nthZ cs 0 = addr fd -> 0 <= size < 2 ^ 31 -> 0 <= file_size fd < 2 ^ 31 ->
  let cluster_bsize := u32 (cluster_size f * SZ) in
  0 < cluster_bsize ->
  (file_size fd < size -> fat32_truncate_file fd size f = Ok (f, fd, 1)) /\
  (size = file_size fd -> fat32_truncate_file fd size f = Ok (f, fd, 0)) /\
  (cluster_bsize < file_size fd - size -> fat32_truncate_file fd size f = Ok (f, fd, -1)) /\
  (0 < file_size fd - size <= cluster_bsize ->
   if size / cluster_bsize =? file_size fd / cluster_bsize
   then fat32_truncate_file fd size f = Ok (f, fd, 0)
   else exists msg, fat32_truncate_file fd size f = Err (Panic msg)).
Proof using words.
  intros Hf Hc Ha Hs Hfs cb Hcb. unfold fat32_truncate_file.
  assert (addr fd <> 0).
  { destruct cs as [|c cs]; [by inversion Hc|]. pose proof (chain_head _ _ _ Hc) as [? ?]. change (nthZ (c :: cs) 0) with c in Ha. lia. }
  assert (0 <= file_size fd / cb) by (apply Z.div_pos; lia). assert (0 <= size / cb) by (apply Z.div_pos; lia).
  assert (file_size fd / cb <= file_size fd) by (apply Z.div_le_upper_bound; nia).
  assert (size < file_size fd -> s32 (file_size fd / cb - size / cb) = file_size fd / cb - size / cb /\ size / cb <= file_size fd / cb) as Hs32.
  { intros ?. assert (size / cb <= file_size fd / cb) by (apply Z.div_le_mono; lia). unfold s32. rewrite u32_small by lia.
    by rewrite (proj2 (Z.ltb_lt _ _)) by lia. }
  split_and!.
  - intros Hlt. rewrite (proj2 (Z.ltb_lt _ _)) by lia. unfold extend_file, assert_. rewrite (proj2 (Z.ltb_lt (file_size fd) size)) by lia.
    cbn [mbind res_bind]. rewrite (proj2 (Z.eqb_neq _ _)) by done. cbn [mbind res_bind]. rewrite u32_small by lia.
    change (Z.shiftr 1 31) with 0. by rewrite (proj2 (Z.ltb_lt _ _)) by lia.
  - intros ->. by rewrite Z.ltb_irrefl.
  - intros Hlt. rewrite (proj2 (Z.ltb_ge _ _)), (proj2 (Z.ltb_lt size _)) by lia. unfold trunc_file. rewrite block_size_eq. fold cb.
    destruct Hs32 as [-> ?]; [lia|]. unfold assert_. rewrite !(proj2 (Z.ltb_lt _ _)), (proj2 (Z.leb_le _ _)) by lia. done.
  - intros Hd. rewrite (proj2 (Z.ltb_ge _ _)), (proj2 (Z.ltb_lt size _)) by lia. destruct (Z.eqb_spec (size / cb) (file_size fd / cb)) as [E|E].
    + unfold trunc_file. rewrite block_size_eq. fold cb. destruct Hs32 as [-> ?]; [lia|]. unfold assert_.
      rewrite (proj2 (Z.ltb_lt size _)), (proj2 (Z.leb_le _ _)), (proj2 (Z.ltb_ge _ _)) by lia. cbn [mbind res_bind].
      by rewrite (proj2 (Z.eqb_eq _ _)) by lia.
    + destruct (trunc_file_panics f fd cs size) as [msg ->]; try (done || lia). by eexists.
Qed.

(** On a drive whose FAT reaches past sector 2048 of its partition, an entry of such a
    sector cannot be read twice: [cache_access] computes the address of a cached sector from
    its number instead of its slot, outside of the buffer of the cache. *)
Theorem readFAT_large_faults f c m :
  zlen (fat_buf f) = FAT_CACHE_SIZE * SZ -> 0 <= c < 2 ^ 30 -> 0 < fat_begin f -> fat_begin f + fat_size f < 2 ^ 32 ->
  FAT_CACHE_SIZE <= fat_begin f + 4 * c / SZ < fat_begin f + fat_size f ->
  fat_entries f !! Z.to_nat (lba_hash (fat_begin f + 4 * c / SZ)) = Some (fat_begin f + 4 * c / SZ, m) ->
  readFAT c f = Err (Fault "read out of bounds").
Proof using words.
  intros Hb Hc Hfb Hfs Hl He. unfold FAT_CACHE_SIZE in Hb, Hl. pose proof (dev_lbashift_range (D := D)). unfold readFAT.
  rewrite (u32_small (c * 4)), (Z.mul_comm c 4), block_size_eq by lia.
  assert (0 <= 4 * c / SZ) by (apply Z.div_pos; lia).
  set (lba := fat_begin f + 4 * c / SZ) in *. pose proof (Z.mod_pos_bound (4 * c) SZ ltac:(lia)).
  unfold fetch_fat_sector, cache_access, assert_. rewrite (u32_small (fat_begin f + fat_size f)) by lia.
  rewrite (proj2 (Z.leb_le (fat_begin f) lba)), (proj2 (Z.ltb_lt lba _)) by lia.
  cbn [mbind res_bind]. assert (0 <= lba_hash lba) by (unfold lba_hash; apply wrap_range; lia).
  rewrite (ld_Some (fat_entries f) (lba_hash lba) (lba, m)) by done. cbn [mbind res_bind].
  rewrite Z.eqb_refl, Z.shiftl_mul_pow2 by lia. cbn [mbind res_bind]. unfold load_le, rd_bytes.
  rewrite (proj2 (Z.leb_gt _ (zlen _))) by nia. by rewrite andb_false_r.
Qed.
End Limits.

(** * FAT32: a small drive, and the theorems on it

    A partition of 300 sectors with one FAT of two sectors and clusters of one sector;
    two files, in the clusters 3, 4, 7 and 5, 6. *)



Definition boot_byte (a : Z) : Z :=
  match a with
  | 0x0d => 1 | 0x0e => 1 | 0x10 => 1 | 0x24 => 2 | 0x2c => 2
  | 0x42 => 0x29 | 510 => 0x55 | 511 => 0xAA | _ => 0
  end.
Definition fat_entry (c : Z) : Z :=
  match c with
  | 0 => 0x0FFFFFF8 | 1 => 0x0FFFFFFF | 2 => 0x0FFFFFFF
  | 3 => 4 | 4 => 7 | 7 => 0x0FFFFFFF | 5 => 6 | 6 => 0x0FFFFFF8 | _ => 0
  end.
Definition fat_disk : disk := fun a =>
  if a <? 512 then boot_byte a
  else if a <? 1536 then fat_entry ((a - 512) / 4) / 256 ^ ((a - 512) mod 4) mod 256
  else a mod 253.

Definition fat0 (mem : list Z) : fat32 disk :=
  Fat 1 1 1 3 2 1 (replicate (Z.to_nat FAT_CACHE_SIZE) (0, false)) mem 0 300 fat_disk.
Definition mem0 : list Z := replicate (Z.to_nat (FAT_CACHE_SIZE * 2 ^ 9)) 0.

Lemma fat0_mounted mem : fat32_mount 0 300 mem fat_disk = Ok (Some (fat0 mem, 2)).
Proof. reflexivity. Qed.

Lemma words0 : 3 <= dev_lbashift (D := disk).
Proof. vm_compute. discriminate. Qed.

Lemma fat0_ok mem : zlen mem = FAT_CACHE_SIZE * 2 ^ 9 -> fat_ok (fat0 mem).
Proof.
  intros Hm. constructor; [constructor; vm_compute; repeat split; discriminate| |exact Hm|cbn; lia|].
  - cbn [fat0 fat_entries]. unfold zlen. rewrite length_replicate. reflexivity.
  - intros h e He. cbn in He. apply lookup_replicate in He as [-> _]. by left.
Qed.

Lemma mem0_len : zlen mem0 = FAT_CACHE_SIZE * 2 ^ 9.
Proof. unfold mem0, zlen. rewrite length_replicate. apply Z2Nat.id. vm_compute. discriminate. Qed.

(** While nothing is cached, the FAT is the one on the disk. *)
Lemma fat0_ent mem c : 0 <= c ->
  ent (fat0 mem) c = le_bytes (slice (disk_sector fat_disk (1 + 4 * c / 512)) (4 * c mod 512) 4).
Proof.
  intros Hc. unfold ent, view. change (fat_begin (fat0 mem)) with 1. change (2 ^ dev_lbashift (D := disk)) with 512.
  change (fat_entries (fat0 mem)) with (replicate (Z.to_nat FAT_CACHE_SIZE) (0, false)).
  destruct (replicate _ _ !! _) as [[tag m]|] eqn:E; [|done]. apply lookup_replicate in E as [[= -> ->] _].
  assert (0 <= 4 * c / 512) by (apply Z.div_pos; lia). by destruct (Z.eqb_spec 0 (1 + 4 * c / 512)); [lia|].
Qed.

Lemma fat0_in_table mem c : 2 <= c < 256 -> in_table (fat0 mem) c.
Proof. done. Qed.

Ltac solve_chain :=
  repeat first [apply chain_last | apply chain_cons];
  [first [apply fat0_in_table; lia | lia | rewrite fat0_ent by lia; vm_compute; first [reflexivity | discriminate]]..].

Lemma chain_a mem : chain (fat0 mem) [3; 4; 7].
Proof. solve_chain. Qed.
Lemma chain_b mem : chain (fat0 mem) [5; 6].
Proof. solve_chain. Qed.

Definition file_a : file := File 3 1500.

(** The sizes of [fat0], whatever its buffer holds. *)
Lemma cluster_size0 mem : cluster_size (fat0 mem) = 1.
Proof. reflexivity. Qed.


(** Four sectors from the last one of the file on: three clusters are appended. *)
Definition buf4 : list Z := replicate 2048 65.
Lemma buf4_len : zlen buf4 = 4 * 2 ^ dev_lbashift (D := disk).
Proof. vm_compute. reflexivity. Qed.

Lemma disjoint_ab (c : Z) : c ∈ [5; 6] -> c ∉ [3; 4; 7].
Proof. intros Hc Hc'. rewrite !elem_of_cons, !elem_of_nil in Hc. rewrite !elem_of_cons, !elem_of_nil in Hc'. lia. Qed.


Lemma fat32_write_read_witness :
  exists f' r, fat32_write_file_sectors file_a buf4 2 4 (fat0 mem0) = Ok (f', file_a, r) /\
    ((exists new, zlen ([3; 4; 7] ++ new) * 1 < 2 + 4 /\ full_after (fat0 mem0) [3; 4; 7] new) \/
     exists f'', fat32_read_file_sectors (File 3 3072) 2 4 f' = Ok (f'', buf4, 4)).
Proof.
  exact (fat32_write_read_roundtrip words0 (fat0 mem0) file_a [3; 4; 7] buf4 2 4 3072 (fat0_ok mem0 mem0_len) (chain_a mem0)
    eq_refl ltac:(lia) ltac:(rewrite cluster_size0; reflexivity) ltac:(lia) buf4_len
    ltac:(rewrite cluster_size0; intros Hgap; exfalso; change (3 <= 2) in Hgap; lia) ltac:(rewrite cluster_size0; reflexivity)).
Defined.


Lemma fat32_truncate_file_witness :
  fat32_truncate_file file_a 2000 (fat0 mem0) = Ok (fat0 mem0, file_a, 1) /\
  fat32_truncate_file file_a 100 (fat0 mem0) = Ok (fat0 mem0, file_a, -1) /\
  exists msg, fat32_truncate_file file_a 1000 (fat0 mem0) = Err (Panic msg).
Proof.
  pose proof (fun size Hs => fat32_truncate_file_limits words0 (fat0 mem0) file_a [3; 4; 7] size (fat0_ok mem0 mem0_len) (chain_a mem0)
    eq_refl Hs ltac:(cbn [file_a file_size]; lia) ltac:(rewrite cluster_size0; reflexivity)) as Ht.
  rewrite cluster_size0 in Ht. change (u32 (1 * 2 ^ dev_lbashift (D := disk))) with 512 in Ht. cbn [file_a file_size] in Ht.
  split_and!; [apply (Ht 2000); lia|apply (Ht 100); lia|].
  destruct (Ht 1000 ltac:(lia)) as (_ & _ & _ & Hp). exact (Hp ltac:(lia)).
Defined.

(** A FAT from sector 2040 on whose sector 2048 is cached. *)
Definition fat_large : fat32 disk :=
  Fat 1 1 2040 2140 100 2040 (<[O := (2048, false)]> (replicate (Z.to_nat FAT_CACHE_SIZE) (0, false))) mem0 0 100000 fat_disk.

Lemma readFAT_large_witness : readFAT 1024 fat_large = Err (Fault "read out of bounds").
Proof.
  exact (readFAT_large_faults words0 fat_large 1024 false mem0_len ltac:(lia) eq_refl eq_refl
    ltac:(change (2048 <= 2048 < 2140); lia) eq_refl).
Defined.
