(* ===== verification/CString.v ===== *)
(** * Strings and blocks of memory ([kernel/lib/string.c])

    Memory is a finite map from addresses to bytes; an access to an address outside of it is a
    [Fault].  A pointer is its address, 0 is the null pointer.  [char] is signed.  The loops
    that look for the end of a string visit one address after the other, so that the number of
    addresses bounds their turns. *)

From S2P Require Import Prelude.





Abbreviation memory := (gmap Z Z).
Implicit Types m : memory.

Definition load m (p : Z) : res Z := match m !! p with Some b => Ok b | None => Err (Fault "load") end.
Definition store m (p b : Z) : res memory := match m !! p with Some _ => Ok (<[p := u8 b]> m) | None => Err (Fault "store") end.

Definition turns m : nat := S (size m).

(** The value of a [char]. *)
Definition schar (b : Z) : Z := if b <? 128 then b else b - 256.
Definition load_char m (p : Z) : res Z := b ← load m p; Ok (schar b).

(** ** Strings *)

Fixpoint strlen_loop (fuel : nat) m (ptr len : Z) : res Z :=
  match fuel with
  | O => Err NoFuel
  | S fuel => c ← load m ptr; if c =? 0 then Ok len else strlen_loop fuel m (ptr + 1) (len + 1)
  end.
Definition strlen m (str : Z) : res Z := len ← strlen_loop (turns m) m str 0; Ok (u64 (s32 len)).

(** [while( *(str++) != '\0' && n--)] *)
Fixpoint strnlen_loop (fuel : nat) m (str n len : Z) : res Z :=
  match fuel with
  | O => Err NoFuel
  | S fuel => c ← load m str;
      if (c =? 0) || (n =? 0) then Ok len else strnlen_loop fuel m (str + 1) (u64 (n - 1)) (len + 1)
  end.
Definition strnlen m (str n : Z) : res Z := len ← strnlen_loop (turns m) m str n 0; Ok (u64 (s32 len)).

Fixpoint strcpy_loop (fuel : nat) m (pdst src : Z) : res memory :=
  match fuel with
  | O => Err NoFuel
  | S fuel => c ← load m src; m ← store m pdst c; if c =? 0 then Ok m else strcpy_loop fuel m (pdst + 1) (src + 1)
  end.
Definition strcpy m (dst src : Z) : res (memory * Z) := m ← strcpy_loop (turns m) m dst src; Ok (m, dst).

Fixpoint strncpy_loop (fuel : nat) m (pdst src n : Z) : res (memory * Z * Z) :=
  match fuel with
  | O => Err NoFuel
  | S fuel => c ← load m src; m ← store m pdst c;
      let n := u64 (n - 1) in
      if negb (c =? 0) && (0 <? n) then strncpy_loop fuel m (pdst + 1) (src + 1) n else Ok (m, pdst + 1, c)
  end.
(** The local variable [dst] is set to 0 before it is returned. *)
Definition strncpy m (dst src n : Z) : res (memory * Z) :=
  '(m, pdst, c) ← strncpy_loop (turns m) m dst src n;
  m ← (if negb (c =? 0) then store m pdst 0 else Ok m);
  Ok (m, 0).

Fixpoint strcmp_loop (fuel : nat) m (str1 str2 : Z) : res Z :=
  match fuel with
  | O => Err NoFuel
  | S fuel => c1 ← load_char m str1; c2 ← load_char m str2;
      let d := c1 - c2 in
      if (c1 =? 0) || (c2 =? 0) || negb (d =? 0) then Ok d else strcmp_loop fuel m (str1 + 1) (str2 + 1)
  end.
Definition strcmp m (str1 str2 : Z) : res Z := strcmp_loop (turns m) m str1 str2.

(** [n] is the number of turns that are left. *)
Fixpoint strncmp_loop (n : nat) m (str1 str2 d : Z) : res Z :=
  match n with
  | O => Ok d
  | S n => c1 ← load_char m str1; c2 ← load_char m str2;
      let d := c1 - c2 in
      if (c1 =? 0) || (c2 =? 0) || negb (d =? 0) then Ok d else strncmp_loop n m (str1 + 1) (str2 + 1) d
  end.
Definition strncmp m (str1 str2 n : Z) : res Z := strncmp_loop (Z.to_nat n) m str1 str2 0.

Fixpoint strchr_loop (fuel : nat) m (s c : Z) : res Z :=
  match fuel with
  | O => Err NoFuel
  | S fuel => curr ← load_char m s;
      if curr =? c then Ok s else if curr =? 0 then Ok 0 else strchr_loop fuel m (s + 1) c
  end.
Definition strchr m (s c : Z) : res Z := strchr_loop (turns m) m s c.

(** With [c = 0] the loop does not stop at the end of the string. *)
Fixpoint strrchr_loop (fuel : nat) m (s c found : Z) : res Z :=
  match fuel with
  | O => Err NoFuel
  | S fuel => curr ← load_char m s;
      if curr =? c then strrchr_loop fuel m (s + 1) c s
      else if curr =? 0 then Ok found else strrchr_loop fuel m (s + 1) c found
  end.
Definition strrchr m (s c : Z) : res Z := strrchr_loop (turns m) m s c 0.

Fixpoint strstr_loop (fuel : nat) m (haystack needle i : Z) : res Z :=
  match fuel with
  | O => Err NoFuel
  | S fuel => ci ← load_char m (needle + i);
      if ci =? 0 then Ok (haystack - i - 1)
      else
        c ← load_char m haystack;
        if c =? ci then strstr_loop fuel m (haystack + 1) needle (i + 1)
        else if c =? 0 then Ok 0
        else strstr_loop fuel m (haystack + 1) needle 0
  end.
Definition strstr m (haystack needle : Z) : res Z := strstr_loop (turns m) m haystack needle 0.

(** [while( *(dest++)) ;]: the address behind the end of the string. *)
Fixpoint skip_string (fuel : nat) m (dest : Z) : res Z :=
  match fuel with
  | O => Err NoFuel
  | S fuel => c ← load m dest; if c =? 0 then Ok (dest + 1) else skip_string fuel m (dest + 1)
  end.
Definition strcat m (dest src : Z) : res (memory * Z) := dest ← skip_string (turns m) m dest; strcpy m (dest - 1) src.
Definition strncat m (dest src n : Z) : res (memory * Z) :=
  e ← skip_string (turns m) m dest; '(m, _) ← strncpy m (e - 1) src n; Ok (m, dest).

(** ** Blocks *)

(** [*(char* )(src++) = *(char* )(dst++)]: the copy goes from [dst] to [src]. *)
Fixpoint memccpy_loop (n : nat) m (dst src c : Z) : res (memory * Z) :=
  match n with
  | O => Ok (m, 0)
  | S n => d ← load_char m dst; m ← store m src d;
      if d =? c then Ok (m, dst + 1) else memccpy_loop n m (dst + 1) (src + 1) c
  end.
Definition memccpy m (dst src c n : Z) : res (memory * Z) := memccpy_loop (Z.to_nat n) m dst src c.

Fixpoint memchr_loop (n : nat) m (buf ch : Z) : res Z :=
  match n with
  | O => Ok 0
  | S n => b ← load m buf; if b =? ch then Ok buf else memchr_loop n m (buf + 1) ch
  end.
Definition memchr m (buf ch n : Z) : res Z := memchr_loop (Z.to_nat n) m buf (u8 ch).

Fixpoint memcmp_loop (n : nat) m (buf1 buf2 : Z) : res Z :=
  match n with
  | O => Ok 0
  | S n => b1 ← load m buf1; b2 ← load m buf2;
      let d := b1 - b2 in
      if negb (d =? 0) then Ok d else memcmp_loop n m (buf1 + 1) (buf2 + 1)
  end.
Definition memcmp m (buf1 buf2 n : Z) : res Z := memcmp_loop (Z.to_nat n) m buf1 buf2.

(** [memcpy] returns the end of the copy. *)
Fixpoint memcpy_loop (n : nat) m (dest src : Z) : res (memory * Z) :=
  match n with
  | O => Ok (m, dest)
  | S n => b ← load m src; m ← store m dest b; memcpy_loop n m (dest + 1) (src + 1)
  end.
Definition memcpy m (dest src n : Z) : res (memory * Z) := memcpy_loop (Z.to_nat n) m dest src.

(** [memset] returns after its first loop. *)
Fixpoint memset_loop (n : nat) m (buf ch : Z) : res (memory * Z) :=
  match n with
  | O => Ok (m, buf)
  | S n => m ← store m buf ch; memset_loop n m (buf + 1) ch
  end.
Definition memset m (buf ch n : Z) : res (memory * Z) := memset_loop (Z.to_nat n) m buf (u8 ch).

Fixpoint backward_loop (n : nat) m (dest src : Z) : res memory :=
  match n with
  | O => Ok m
  | S n => b ← load m (src - 1); m ← store m (dest - 1) b; backward_loop n m (dest - 1) (src - 1)
  end.
Definition memmove m (dest src n : Z) : res (memory * Z) :=
  if (src <? dest) && (dest <? src + n) then
    m ← backward_loop (Z.to_nat n) m (dest + n) (src + n); Ok (m, dest)
  else memcpy m dest src n.

Fixpoint memsum_loop (n : nat) m (raw sum : Z) : res Z :=
  match n with
  | O => Ok sum
  | S n => b ← load m raw; memsum_loop n m (raw + 1) (u8 (sum + b))
  end.
Definition memsum m (ptr size : Z) : res Z := memsum_loop (Z.to_nat size) m ptr 0.
Definition checksum m (table size : Z) : res Z := s ← memsum m table size; Ok (Z.lnot s).

(** ** Tokens *)

(** [for(const char* dptr = delim; *dptr; dptr++)]: the first delimiter in the string, or 0. *)
Fixpoint next_delim (fuel : nat) m (ptr dptr next : Z) : res Z :=
  match fuel with
  | O => Err NoFuel
  | S fuel => d ← load_char m dptr;
      if d =? 0 then Ok next
      else
        n ← strchr m ptr d;
        let next := if next =? 0 then n else if negb (n =? 0) && (n <? next) then n else next in
        next_delim fuel m ptr (dptr + 1) next
  end.

(** The memory, the new [*saveptr] and the token. *)
Fixpoint strtok_loop (fuel : nat) m (ptr delim : Z) : res (memory * Z * Z) :=
  match fuel with
  | O => Err NoFuel
  | S fuel => next ← next_delim (turns m) m ptr delim 0;
      if next =? 0 then c ← load m ptr; Ok (m, 0, if c =? 0 then 0 else ptr)
      else if next =? ptr then strtok_loop fuel m (ptr + 1) delim
      else
        c ← load m (next + 1);
        m ← store m next 0;
        Ok (m, if negb (c =? 0) then next + 1 else 0, ptr)
  end.
Definition strtok_r m (str delim saveptr : Z) : res (memory * Z * Z) :=
  let ptr := if str =? 0 then saveptr else str in
  if ptr =? 0 then Ok (m, saveptr, 0) else strtok_loop (turns m) m ptr delim.

(** ** Copies on the heap; [buf] is what [malloc] returns *)

Definition strdup m (s buf : Z) : res (memory * Z) :=
  len ← strlen m s;
  if buf =? 0 then Ok (m, 0) else '(m, _) ← memcpy m buf s (len + 1); Ok (m, buf).
Definition strndup m (s n buf : Z) : res (memory * Z) :=
  len ← strnlen m s n;
  if buf =? 0 then Ok (m, 0) else '(m, _) ← memcpy m buf s (len + 1); Ok (m, buf).
