(* ===== verification/CStringProofs.v ===== *)
(** * Strings in memory

    [bytes_at m p l]: the bytes [l] are in memory from the address [p] on; [cstr m p s]: the
    string [s], followed by its terminator.  The functions of [string.c] compute on the lists
    what their names say. *)

From S2P Require Import Prelude CString.





Implicit Types m : memory.

(** ** Bytes and strings at an address *)

Fixpoint bytes_at m (p : Z) (l : list Z) : Prop :=
  match l with
  | [] => True
  | b :: l => m !! p = Some b /\ bytes_at m (p + 1) l
  end.

Definition chars (s : list Z) : Prop := Forall (fun c => 0 < c < 256) s.
Definition cstr m (p : Z) (s : list Z) : Prop := chars s /\ bytes_at m p (s ++ [0]).

(** The addresses from [p] to [p + n - 1] can be written. *)
Definition mapped m (p n : Z) : Prop := forall q, p <= q < p + n -> is_Some (m !! q).

(** Only the [n] bytes from [a] on have changed. *)
Record only_changed m m' (a n : Z) : Prop := {
  oc_mapped : forall q, is_Some (m !! q) <-> is_Some (m' !! q);
  oc_same : forall q, ~ a <= q < a + n -> m' !! q = m !! q
}.

Lemma zlen_cons {A} (x : A) l : zlen (x :: l) = zlen l + 1.
Proof. unfold zlen. cbn. lia. Qed.
Lemma zlen_nil {A} : zlen (@nil A) = 0.
Proof. done. Qed.

Lemma zlen_app_cons {A} (l : list A) x l' : zlen (l ++ x :: l') = zlen l + zlen l' + 1.
Proof. unfold zlen. rewrite length_app. cbn. lia. Qed.

Lemma bytes_at_app m p l l' : bytes_at m p (l ++ l') <-> bytes_at m p l /\ bytes_at m (p + zlen l) l'.
Proof.
  revert p. induction l as [|b l IH]; intros p; cbn [app bytes_at].
  - rewrite zlen_nil, Z.add_0_r. tauto.
  - rewrite IH, zlen_cons. replace (p + 1 + zlen l) with (p + (zlen l + 1)) by lia. tauto.
Qed.

Lemma bytes_at_lookup m p l i : bytes_at m p l -> 0 <= i < zlen l -> m !! (p + i) = l !! Z.to_nat i.
Proof.
  revert p i. induction l as [|b l IH]; intros p i Hl Hi; [unfold zlen in Hi; cbn in Hi; lia|]. rewrite zlen_cons in Hi. destruct Hl as [Hb Hl].
  destruct (Z.eq_dec i 0) as [->|]; [by rewrite Z.add_0_r|]. replace (p + i) with (p + 1 + (i - 1)) by lia. rewrite IH by (done || lia).
  replace (Z.to_nat i) with (S (Z.to_nat (i - 1))) by lia. done.
Qed.

Lemma bytes_at_mapped m p l : bytes_at m p l -> mapped m p (zlen l).
Proof.
  intros Hl q Hq. replace q with (p + (q - p)) by lia. rewrite (bytes_at_lookup m p l) by (done || lia).
  apply lookup_lt_is_Some. unfold zlen in Hq. lia.
Qed.

Lemma bytes_at_ext m m' p l : (forall q, p <= q < p + zlen l -> m' !! q = m !! q) -> bytes_at m p l -> bytes_at m' p l.
Proof.
  revert p. induction l as [|b l IH]; intros p He; [done|]. rewrite zlen_cons in He. pose proof (Zle_0_nat (length l)). intros [Hb Hl]. split.
  - rewrite He by (unfold zlen; lia). done.
  - apply IH; [|done]. intros q Hq. apply He. lia.
Qed.

(** As many turns as there are addresses. *)
Lemma bytes_at_size m p l : bytes_at m p l -> (length l <= size m)%nat.
Proof.
  intros Hl. rewrite <- size_dom. assert (list_to_set (seqZ p (zlen l)) ⊆ (dom m : gset Z)) as Hsub.
  { intros q Hq%elem_of_list_to_set. apply elem_of_seqZ in Hq. apply elem_of_dom. by apply (bytes_at_mapped m p l). }
  apply subseteq_size in Hsub. pose proof (size_list_to_set (C := gset Z) (seqZ p (zlen l)) (NoDup_seqZ _ _)) as E.
  rewrite length_seqZ in E. unfold zlen in *. lia.
Qed.

Lemma cstr_turns m p s : cstr m p s -> (length s < turns m)%nat.
Proof. intros [_ Hs%bytes_at_size]. rewrite length_app in Hs. cbn in Hs. unfold turns. lia. Qed.

Lemma cstr_nil m p : cstr m p [] <-> m !! p = Some 0.
Proof. unfold cstr. cbn. split; [tauto|]. intros ->. split_and!; [constructor|done|done]. Qed.
Lemma cstr_cons m p c s : cstr m p (c :: s) <-> 0 < c < 256 /\ m !! p = Some c /\ cstr m (p + 1) s.
Proof. unfold cstr, chars. cbn. rewrite list.Forall_cons. tauto. Qed.
Lemma cstr_app m p s t : cstr m p (s ++ t) -> chars s /\ bytes_at m p s /\ cstr m (p + zlen s) t.
Proof. intros [[? ?]%list.Forall_app Hb]. rewrite <- app_assoc in Hb. apply bytes_at_app in Hb as [? ?]. done. Qed.
Lemma cstr_length m p s : cstr m p s -> mapped m p (zlen s + 1).
Proof. intros [_ Hs%bytes_at_mapped]. unfold zlen in *. rewrite length_app in Hs. cbn in Hs. by replace (Z.of_nat (length s) + 1) with (Z.of_nat (length s + 1)) by lia. Qed.

(** ** Frames *)

#[export] Instance only_changed_refl_ m a n : Reflexive (fun m m' => only_changed m m' a n).
Proof. by constructor. Qed.

Lemma only_changed_weaken m m' a n b k : b <= a -> a + n <= b + k -> only_changed m m' a n -> only_changed m m' b k.
Proof. intros ? ? [H1 H2]. constructor; [done|]. intros q Hq. apply H2. lia. Qed.

Lemma only_changed_trans m m' m'' a n : only_changed m m' a n -> only_changed m' m'' a n -> only_changed m m'' a n.
Proof. intros [A1 A2] [B1 B2]. constructor; [intros q; by rewrite A1|]. intros q Hq. rewrite B2, A2 by done. done. Qed.

Lemma only_changed_mapped m m' a n p k : only_changed m m' a n -> mapped m p k -> mapped m' p k.
Proof. intros [H1 _] Hp q Hq. apply H1. by apply Hp. Qed.

Lemma only_changed_cstr m m' a n p s : only_changed m m' a n -> p + zlen s + 1 <= a \/ a + n <= p -> cstr m p s -> cstr m' p s.
Proof.
  intros [_ H2] Hd [Hs Hb]. split; [done|]. eapply bytes_at_ext; [|done]. intros q Hq. apply H2. unfold zlen in *. rewrite length_app in Hq. cbn in Hq. lia.
Qed.

Lemma store_ok m p b : is_Some (m !! p) -> 0 <= b < 256 -> store m p b = Ok (<[p := b]> m) /\ only_changed m (<[p := b]> m) p 1.
Proof.
  intros [x Hx] Hb. unfold store. rewrite Hx, u8_small by done. split; [done|]. constructor.
  - intros q. destruct (decide (p = q)) as [<-|]; [rewrite lookup_insert_eq, Hx; split; by eexists|by rewrite lookup_insert_ne].
  - intros q Hq. rewrite lookup_insert_ne; [done|lia].
Qed.

Lemma load_ok m p b : m !! p = Some b -> load m p = Ok b.
Proof. unfold load. by intros ->. Qed.
Lemma load_char_ok m p b : m !! p = Some b -> load_char m p = Ok (schar b).
Proof. unfold load_char, load. by intros ->. Qed.

Lemma schar_eq b c : 0 <= b < 256 -> 0 <= c < 256 -> schar b = schar c <-> b = c.
Proof. intros ? ?. unfold schar. destruct (Z.ltb_spec b 128), (Z.ltb_spec c 128); lia. Qed.
Lemma schar_small b : 0 <= b < 128 -> schar b = b.
Proof. intros ?. unfold schar. destruct (Z.ltb_spec b 128); lia. Qed.
Lemma schar_0 b : 0 <= b < 256 -> (schar b =? 0) = (b =? 0).
Proof. intros Hb. pose proof (schar_eq b 0 Hb ltac:(lia)) as E. change (schar 0) with 0 in E. destruct (Z.eqb_spec (schar b) 0), (Z.eqb_spec b 0); tauto. Qed.

(** ** Searching *)

Lemma schar_other x c : 0 < c < 128 -> 0 < x < 256 -> c <> x -> (schar x =? c) = false.
Proof. intros Hc Hx Hne. apply Z.eqb_neq. intros E. apply Hne. symmetry. apply schar_eq; [lia|lia|]. rewrite E. symmetry. apply schar_small. lia. Qed.

(** The hypotheses and the first load of a turn at the character [c] of a string. *)
Ltac at_char H :=
  let Hc := fresh "Hc" in let Hm := fresh "Hm" in
  apply cstr_cons in H as (Hc & Hm & H); first [rewrite (load_ok _ _ _ Hm) | rewrite (load_char_ok _ _ _ Hm)]; cbn [mbind res_bind];
  rewrite ?schar_0, ?(proj2 (Z.eqb_neq _ 0)) by lia.
Ltac at_end H :=
  apply cstr_nil in H; first [rewrite (load_ok _ _ _ H) | rewrite (load_char_ok _ _ _ H)]; cbn [mbind res_bind].

Lemma strlen_loop_ok fuel m p s len : cstr m p s -> (length s < fuel)%nat -> strlen_loop fuel m p len = Ok (len + zlen s).
Proof.
  revert p s len. induction fuel as [|fuel IH]; intros p s len Hs Hf; [lia|]. cbn [strlen_loop]. destruct s as [|c s].
  - at_end Hs. cbn. f_equal. unfold zlen. cbn. lia.
  - at_char Hs. cbn in Hf. rewrite (IH _ s) by (done || lia). f_equal. rewrite zlen_cons. lia.
Qed.

Lemma strlen_ok m p s : cstr m p s -> zlen s < 2 ^ 31 -> strlen m p = Ok (zlen s).
Proof.
  intros Hs Hl. unfold strlen. rewrite (strlen_loop_ok _ _ _ s) by (done || by eapply cstr_turns). cbn [mbind res_bind].
  unfold zlen in *. by rewrite s32_small, u64_small by lia.
Qed.

Lemma skip_string_ok fuel m p s : cstr m p s -> (length s < fuel)%nat -> skip_string fuel m p = Ok (p + zlen s + 1).
Proof.
  revert p s. induction fuel as [|fuel IH]; intros p s Hs Hf; [lia|]. cbn [skip_string]. destruct s as [|c s].
  - at_end Hs. cbn. f_equal. unfold zlen. cbn. lia.
  - at_char Hs. cbn in Hf. rewrite (IH _ s) by (done || lia). f_equal. rewrite zlen_cons. lia.
Qed.

(** The first [c] of a string. *)
Lemma strchr_loop_some fuel m p c a b : 0 < c < 128 -> c ∉ a -> cstr m p (a ++ c :: b) -> (length a < fuel)%nat ->
  strchr_loop fuel m p c = Ok (p + zlen a).
Proof.
  intros Hc. revert p a. induction fuel as [|fuel IH]; intros p a Hn Hs Hf; [lia|]. cbn [strchr_loop]. destruct a as [|x a]; cbn [app] in Hs.
  - apply cstr_cons in Hs as (_ & Hm & _). rewrite (load_char_ok _ _ _ Hm). cbn [mbind res_bind]. rewrite schar_small, Z.eqb_refl by lia. unfold zlen. cbn. f_equal. lia.
  - apply not_elem_of_cons in Hn as [Hx Hn]. at_char Hs. rewrite schar_other by done.
    cbn in Hf. rewrite (IH _ a) by (done || lia). f_equal. rewrite zlen_cons. lia.
Qed.

Lemma strchr_loop_none fuel m p c s : 0 < c < 128 -> c ∉ s -> cstr m p s -> (length s < fuel)%nat -> strchr_loop fuel m p c = Ok 0.
Proof.
  intros Hc. revert p s. induction fuel as [|fuel IH]; intros p s Hn Hs Hf; [lia|]. cbn [strchr_loop]. destruct s as [|x s].
  - at_end Hs. change (schar 0) with 0. rewrite (proj2 (Z.eqb_neq 0 c)) by lia. done.
  - apply not_elem_of_cons in Hn as [Hx Hn]. at_char Hs. rewrite schar_other by done.
    cbn in Hf. by rewrite (IH _ s) by (done || lia).
Qed.

Lemma strchr_some m p c a b : 0 < c < 128 -> c ∉ a -> cstr m p (a ++ c :: b) -> strchr m p c = Ok (p + zlen a).
Proof.
  intros Hc Hn Hs. pose proof (cstr_turns _ _ _ Hs) as Ht. rewrite length_app in Ht. cbn in Ht. by apply (strchr_loop_some _ _ _ _ a b); [..|lia].
Qed.
Lemma strchr_none m p c s : 0 < c < 128 -> c ∉ s -> cstr m p s -> strchr m p c = Ok 0.
Proof. intros Hc Hn Hs. by apply (strchr_loop_none _ _ _ _ s); [..|by eapply cstr_turns]. Qed.

(** The last [c] of a string. *)
Lemma strrchr_loop_none fuel m p c s found : 0 < c < 128 -> c ∉ s -> cstr m p s -> (length s < fuel)%nat -> strrchr_loop fuel m p c found = Ok found.
Proof.
  intros Hc. revert p s. induction fuel as [|fuel IH]; intros p s Hn Hs Hf; [lia|]. cbn [strrchr_loop]. destruct s as [|x s].
  - at_end Hs. change (schar 0) with 0. rewrite (proj2 (Z.eqb_neq 0 c)) by lia. done.
  - apply not_elem_of_cons in Hn as [Hx Hn]. at_char Hs. rewrite schar_other by done.
    cbn in Hf. by rewrite (IH _ s) by (done || lia).
Qed.

Lemma strrchr_loop_some fuel m p c a b found : 0 < c < 128 -> c ∉ b -> cstr m p (a ++ c :: b) -> (length (a ++ c :: b) < fuel)%nat ->
  strrchr_loop fuel m p c found = Ok (p + zlen a).
Proof.
  intros Hc Hn. revert p a found. induction fuel as [|fuel IH]; intros p a found Hs Hf; [lia|]. cbn [strrchr_loop]. destruct a as [|x a]; cbn [app length] in Hs, Hf.
  - apply cstr_cons in Hs as (_ & Hm & Hs). rewrite (load_char_ok _ _ _ Hm). cbn [mbind res_bind]. rewrite schar_small, Z.eqb_refl by lia.
    rewrite (strrchr_loop_none _ _ _ _ b) by (done || lia). unfold zlen. cbn. f_equal. lia.
  - at_char Hs. rewrite zlen_cons. replace (p + (zlen a + 1)) with (p + 1 + zlen a) by lia. destruct (schar x =? c); by rewrite (IH _ a) by (done || lia).
Qed.

Lemma strrchr_some m p c a b : 0 < c < 128 -> c ∉ b -> cstr m p (a ++ c :: b) -> strrchr m p c = Ok (p + zlen a).
Proof. intros Hc Hn Hs. by apply (strrchr_loop_some _ _ _ _ a b); [..|by eapply cstr_turns]. Qed.
Lemma strrchr_none m p c s : 0 < c < 128 -> c ∉ s -> cstr m p s -> strrchr m p c = Ok 0.
Proof. intros Hc Hn Hs. by apply (strrchr_loop_none _ _ _ _ s); [..|by eapply cstr_turns]. Qed.

(** ** Comparing *)

Lemma schar_diff b c : 0 <= b < 256 -> 0 <= c < 256 -> (schar b - schar c =? 0) = (b =? c).
Proof. intros Hb Hc. pose proof (schar_eq b c Hb Hc). destruct (Z.eqb_spec (schar b - schar c) 0), (Z.eqb_spec b c); lia || tauto. Qed.

(** The first character of a string, or its terminator. *)
Lemma cstr_first m p s : cstr m p s -> exists c, m !! p = Some c /\ 0 <= c < 256 /\ (c = 0 <-> s = []) /\
  (c <> 0 -> exists s', s = c :: s' /\ cstr m (p + 1) s').
Proof.
  destruct s as [|c s]; intros Hs.
  - apply cstr_nil in Hs. exists 0. split_and!; done || lia.
  - apply cstr_cons in Hs as (Hc & Hm & Hs). exists c. split_and!; try (done || lia); [split; [lia|done]|]. intros _. by exists s.
Qed.

Lemma strcmp_loop_ok fuel m p q s t : cstr m p s -> cstr m q t -> (length s < fuel)%nat ->
  exists d, strcmp_loop fuel m p q = Ok d /\ (d = 0 <-> s = t).
Proof.
  revert p q s t. induction fuel as [|fuel IH]; intros p q s t Hs Ht Hf; [lia|]. cbn [strcmp_loop].
  destruct (cstr_first _ _ _ Hs) as (c & Hc & Rc & Zc & Nc). destruct (cstr_first _ _ _ Ht) as (d & Hd & Rd & Zd & Nd).
  rewrite (load_char_ok _ _ _ Hc). cbn [mbind res_bind]. rewrite (load_char_ok _ _ _ Hd). cbn [mbind res_bind].
  rewrite !schar_0, schar_diff by done. assert (schar c - schar d = 0 <-> c = d) as Hcd by (rewrite <- (schar_eq c d) by done; lia).
  destruct (Z.eqb_spec c 0) as [->|Hc0]; cbn [orb].
  { eexists. split; [done|]. rewrite Hcd. rewrite (proj1 Zc eq_refl). split; intros E; symmetry; apply Zd; by symmetry. }
  destruct (Z.eqb_spec d 0) as [->|Hd0]; cbn [orb].
  { eexists. split; [done|]. rewrite Hcd. rewrite (proj1 Zd eq_refl). done. }
  destruct (Nc Hc0) as (s' & -> & Hs'). destruct (Nd Hd0) as (t' & -> & Ht'). destruct (Z.eqb_spec c d) as [->|Hne]; cbn [negb].
  - cbn in Hf. destruct (IH _ _ _ _ Hs' Ht' ltac:(lia)) as (x & E & Hx). exists x. split; [done|]. rewrite Hx. split; congruence.
  - eexists. split; [done|]. rewrite Hcd. split; congruence.
Qed.

Lemma strcmp_ok m p q s t : cstr m p s -> cstr m q t -> exists d, strcmp m p q = Ok d /\ (d = 0 <-> s = t).
Proof. intros Hs Ht. apply strcmp_loop_ok; [done|done|by eapply cstr_turns]. Qed.

(** [!strncmp(path, p, strlen(p))]: does [path] begin with [p]? *)
Lemma strncmp_loop_ok m p q s t x : cstr m p s -> cstr m q t ->
  exists d, strncmp_loop (length t) m p q x = Ok d /\ (t = [] -> d = x) /\ (t <> [] -> d = 0 <-> t `prefix_of` s).
Proof.
  revert p q s x. induction t as [|e t IH]; intros p q s x Hs Ht; cbn [length strncmp_loop]; [by exists x|].
  destruct (cstr_first _ _ _ Hs) as (c & Hc & Rc & Zc & Nc). apply cstr_cons in Ht as (He & Hm & Ht).
  rewrite (load_char_ok _ _ _ Hc). cbn [mbind res_bind]. rewrite (load_char_ok _ _ _ Hm). cbn [mbind res_bind].
  rewrite !schar_0, schar_diff, (proj2 (Z.eqb_neq e 0)) by lia. assert (schar c - schar e = 0 <-> c = e) as Hce by (rewrite <- (schar_eq c e) by lia; lia).
  rewrite orb_false_r. destruct (Z.eqb_spec c 0) as [->|Hc0]; cbn [orb].
  { eexists. split_and!; [done|done|]. intros _. rewrite Hce, (proj1 Zc eq_refl). split; [lia|]. intros [k Hk]. done. }
  destruct (Nc Hc0) as (s' & -> & Hs'). destruct (Z.eqb_spec c e) as [->|Hne]; cbn [negb].
  - destruct (IH _ _ _ (schar e - schar e) Hs' Ht) as (d & -> & Hnil & Hcons). exists d. split_and!; [done|done|]. intros _. destruct t as [|e' t].
    + rewrite Hnil by done. split; [|lia]. intros _. by exists s'.
    + rewrite Hcons by done. split; [intros ?; by apply prefix_cons|by apply prefix_cons_inv_2].
  - eexists. split_and!; [done|done|]. intros _. rewrite Hce. split; [done|]. by intros ?%prefix_cons_inv_1.
Qed.

Lemma strncmp_prefix m p q s t : cstr m p s -> cstr m q t -> exists d, strncmp m p q (zlen t) = Ok d /\ (d = 0 <-> t `prefix_of` s).
Proof.
  intros Hs Ht. unfold strncmp, zlen. rewrite Nat2Z.id. destruct (strncmp_loop_ok m p q s t 0 Hs Ht) as (d & E & Hnil & Hcons). exists d. split; [done|].
  destruct t as [|e t]; [|by apply Hcons]. rewrite Hnil by done. split; [|done]. intros _. apply prefix_nil.
Qed.

(** * Copying strings and blocks, and splitting strings into tokens *)



Definition disjoint (p n q k : Z) : Prop := p + n <= q \/ q + k <= p.

Lemma mapped_weaken m p n q k : p <= q -> q + k <= p + n -> mapped m p n -> mapped m q k.
Proof. intros ? ? Hm r Hr. apply Hm. lia. Qed.

Lemma bytes_at_only_changed m m' a n p l : only_changed m m' a n -> disjoint p (zlen l) a n -> bytes_at m p l -> bytes_at m' p l.
Proof. intros Hc Hd Hl. eapply bytes_at_ext; [|done]. intros q Hq. apply Hc. unfold disjoint in Hd. lia. Qed.

(** ** Strings *)

Lemma strcpy_loop_ok fuel m dst src s : cstr m src s -> mapped m dst (zlen s + 1) -> disjoint dst (zlen s + 1) src (zlen s + 1) -> (length s < fuel)%nat ->
  exists m', strcpy_loop fuel m dst src = Ok m' /\ cstr m' dst s /\ only_changed m m' dst (zlen s + 1).
Proof.
  unfold disjoint. revert m dst src s. induction fuel as [|fuel IH]; intros m dst src s Hs Hd Hdis Hf; [lia|]. cbn [strcpy_loop]. destruct s as [|c s].
  - rewrite zlen_nil in *. apply cstr_nil in Hs. rewrite (load_ok _ _ _ Hs). cbn [mbind res_bind].
    destruct (store_ok m dst 0 (Hd dst ltac:(lia)) ltac:(lia)) as [-> Hch]. eexists. split_and!; [reflexivity|apply cstr_nil, lookup_insert_eq|done].
  - rewrite zlen_cons in *. pose proof (Zle_0_nat (length s)). fold (zlen s) in *. apply cstr_cons in Hs as (Hc & Hm & Hs). rewrite (load_ok _ _ _ Hm). cbn [mbind res_bind].
    destruct (store_ok m dst c (Hd dst ltac:(lia)) ltac:(lia)) as [-> Hch]. cbn [mbind res_bind]. rewrite (proj2 (Z.eqb_neq c 0)) by lia. set (m1 := <[dst := c]> m) in *.
    destruct (IH m1 (dst + 1) (src + 1) s) as (m' & -> & Hs' & Hch').
    + eapply only_changed_cstr; [exact Hch| |done]. lia.
    + eapply only_changed_mapped; [exact Hch|]. eapply mapped_weaken; [| |exact Hd]; lia.
    + lia.
    + cbn in Hf. lia.
    + exists m'. split_and!; [done| |].
      * apply cstr_cons. split_and!; [lia|lia| |done]. rewrite (oc_same _ _ _ _ Hch') by lia. apply lookup_insert_eq.
      * apply (only_changed_trans _ m1); (eapply only_changed_weaken; [| |done]; lia).
Qed.

Lemma strcpy_ok m dst src s : cstr m src s -> mapped m dst (zlen s + 1) -> disjoint dst (zlen s + 1) src (zlen s + 1) ->
  exists m', strcpy m dst src = Ok (m', dst) /\ cstr m' dst s /\ only_changed m m' dst (zlen s + 1).
Proof.
  intros Hs Hd Hdis. unfold strcpy. destruct (strcpy_loop_ok (turns m) m dst src s) as (m' & -> & ? & ?); try done; [by eapply cstr_turns|]. by exists m'.
Qed.

Lemma strcat_ok m dst src t s : cstr m dst t -> cstr m src s -> mapped m dst (zlen t + zlen s + 1) -> disjoint dst (zlen t + zlen s + 1) src (zlen s + 1) ->
  exists m' r, strcat m dst src = Ok (m', r) /\ cstr m' dst (t ++ s) /\ only_changed m m' dst (zlen t + zlen s + 1).
Proof.
  unfold disjoint. intros Ht Hs Hd Hdis. pose proof (Zle_0_nat (length s)). pose proof (Zle_0_nat (length t)). fold (zlen s) (zlen t) in *. unfold strcat.
  rewrite (skip_string_ok _ _ _ t) by (done || by eapply cstr_turns). cbn [mbind res_bind]. replace (dst + zlen t + 1 - 1) with (dst + zlen t) by lia.
  destruct (strcpy_ok m (dst + zlen t) src s) as (m' & -> & Hs' & Hch); [done|eapply mapped_weaken; [| |done]; lia|unfold disjoint; lia|].
  eexists _, _. split_and!; [reflexivity| |eapply only_changed_weaken; [| |done]; lia]. destruct Ht as [Ct Bt], Hs' as [Cs Bs].
  apply bytes_at_app in Bt as [Bt _]. split; [by apply list.Forall_app|]. rewrite <- app_assoc. apply bytes_at_app. split; [|done].
  eapply bytes_at_only_changed; [exact Hch|unfold disjoint; lia|done].
Qed.

(** ** Tokens *)

(** The parts of a string between the characters [c]. *)
Fixpoint split_on (c : Z) (s : list Z) : list (list Z) :=
  match s with
  | [] => [[]]
  | x :: s => if x =? c then [] :: split_on c s else match split_on c s with w :: ws => (x :: w) :: ws | [] => [[x]] end
  end.
Definition tokens (c : Z) (s : list Z) : list (list Z) := filter (fun w => w <> []) (split_on c s).

Lemma split_on_cons c s : exists w ws, split_on c s = w :: ws.
Proof. destruct s as [|x s]; cbn; [by eexists _, _|]. destruct (x =? c); [by eexists _, _|]. destruct (split_on c s); by eexists _, _. Qed.

Lemma split_on_app c w s : c ∉ w -> split_on c (w ++ c :: s) = w :: split_on c s.
Proof.
  induction w as [|x w IH]; intros Hn; cbn [app split_on]; [by rewrite Z.eqb_refl|]. apply not_elem_of_cons in Hn as [Hx Hn].
  rewrite (proj2 (Z.eqb_neq x c)) by congruence. by rewrite IH.
Qed.
Lemma split_on_none c w : c ∉ w -> split_on c w = [w].
Proof.
  induction w as [|x w IH]; intros Hn; cbn [split_on]; [done|]. apply not_elem_of_cons in Hn as [Hx Hn].
  rewrite (proj2 (Z.eqb_neq x c)) by congruence. by rewrite IH.
Qed.

Lemma tokens_skip c s : tokens c (c :: s) = tokens c s.
Proof. unfold tokens. cbn [split_on]. rewrite Z.eqb_refl. done. Qed.
Lemma tokens_nil c : tokens c [] = [].
Proof. done. Qed.
Lemma tokens_word c w : c ∉ w -> w <> [] -> tokens c w = [w].
Proof. intros Hn Hw. unfold tokens. rewrite split_on_none by done. rewrite filter_cons_True by done. done. Qed.
Lemma tokens_app c w s : c ∉ w -> w <> [] -> tokens c (w ++ c :: s) = w :: tokens c s.
Proof. intros Hn Hw. unfold tokens. rewrite split_on_app by done. by rewrite filter_cons_True by done. Qed.

(** A string is a word without [c], or such a word in front of the first [c]. *)
Lemma split_first c (s : list Z) : (c ∉ s) \/ exists w r, s = w ++ c :: r /\ c ∉ w.
Proof.
  induction s as [|x s IH]; [left; apply not_elem_of_nil|]. destruct (decide (c = x)) as [->|Hne].
  - right. exists [], s. split; [done|apply not_elem_of_nil].
  - destruct IH as [Hn|(w & r & -> & Hn)]; [left; by apply not_elem_of_cons|]. right. exists (x :: w), r. split; [done|by apply not_elem_of_cons].
Qed.

(** [strtok_r] with one delimiter [c] on the string [s] at [ptr]: the first token [w], and the
    rest [r] of the string at [save]; nothing when there are no tokens. *)
Definition strtok_post m (c ptr : Z) (s : list Z) m' (save tok : Z) : Prop :=
  match tokens c s with
  | [] => m' = m /\ tok = 0 /\ save = 0
  | w :: ws => ptr <= tok /\ tok + zlen w <= ptr + zlen s /\ cstr m' tok w /\ only_changed m m' ptr (zlen s + 1) /\
      exists r, tokens c r = ws /\
        (save = 0 /\ r = [] \/ save = tok + zlen w + 1 /\ save + zlen r = ptr + zlen s /\ cstr m' save r)
  end.

Lemma next_delim_ok m ptr delim c n : 0 < c < 128 -> cstr m delim [c] -> strchr m ptr c = Ok n -> next_delim (turns m) m ptr delim 0 = Ok n.
Proof.
  intros Hc Hd Hn. pose proof (cstr_turns _ _ _ Hd) as Ht. destruct (turns m) as [|[|k]]; cbn in Ht; [lia|lia|]. apply cstr_cons in Hd as (_ & H1 & H2%cstr_nil).
  cbn [next_delim]. rewrite (load_char_ok _ _ _ H1). cbn [mbind res_bind]. rewrite schar_small, (proj2 (Z.eqb_neq c 0)) by lia. rewrite Hn. cbn [mbind res_bind].
  rewrite (load_char_ok _ _ _ H2). done.
Qed.

(** The terminator behind a token. *)
Lemma cut_word m ptr w x r : cstr m ptr (w ++ x :: r) ->
  exists m', store m (ptr + zlen w) 0 = Ok m' /\ cstr m' ptr w /\ cstr m' (ptr + zlen w + 1) r /\ only_changed m m' (ptr + zlen w) 1.
Proof.
  intros Hs. apply cstr_app in Hs as (Cw & Bw & Hx). apply cstr_cons in Hx as (_ & Hm & Hr).
  destruct (store_ok m (ptr + zlen w) 0) as [-> Hch]; [by eexists|lia|]. eexists. split_and!; [reflexivity| | |exact Hch].
  - split; [done|]. apply bytes_at_app. split; [|split; [apply lookup_insert_eq|done]]. eapply bytes_at_only_changed; [exact Hch|unfold disjoint; lia|done].
  - eapply only_changed_cstr; [exact Hch| |done]. lia.
Qed.

Lemma strtok_loop_ok fuel m ptr delim c s : 0 < c < 128 -> cstr m delim [c] -> cstr m ptr s -> 0 < ptr -> (length s < fuel)%nat ->
  exists m' save tok, strtok_loop fuel m ptr delim = Ok (m', save, tok) /\ strtok_post m c ptr s m' save tok.
Proof.
  intros Hc Hd. revert ptr s. induction fuel as [|fuel IH]; intros ptr s Hs Hp Hf; [lia|]. cbn [strtok_loop]. pose proof (Zle_0_nat (length s)). fold (zlen s) in *.
  destruct (split_first c s) as [Hn|(w & r & -> & Hn)].
  - rewrite (next_delim_ok m ptr delim c 0) by (done || by apply (strchr_none _ _ _ s)). cbn [mbind res_bind Z.eqb].
    destruct (cstr_first _ _ _ Hs) as (x & Hx & _ & Zx & _). rewrite (load_ok _ _ _ Hx). cbn [mbind res_bind]. eexists _, _, _. split; [reflexivity|]. unfold strtok_post.
    destruct s as [|y s]; [rewrite (proj2 Zx) by done; done|]. rewrite tokens_word by done. rewrite (proj2 (Z.eqb_neq x 0)) by (by rewrite Zx). split_and!; [lia|lia|done|done|].
    exists []. split; [done|by left].
  - rewrite zlen_app_cons in *. rewrite (next_delim_ok m ptr delim c (ptr + zlen w)) by (done || by apply (strchr_some _ _ _ w r)). cbn [mbind res_bind].
    pose proof (Zle_0_nat (length w)). pose proof (Zle_0_nat (length r)). fold (zlen w) (zlen r) in *. rewrite (proj2 (Z.eqb_neq (ptr + zlen w) 0)) by lia. destruct w as [|x w].
    + rewrite zlen_nil, Z.add_0_r, Z.eqb_refl. cbn [app] in Hs. apply cstr_cons in Hs as (_ & _ & Hs). cbn in Hf.
      destruct (IH (ptr + 1) r Hs ltac:(lia) ltac:(lia)) as (m' & save & tok & E & Hpost). exists m', save, tok. split; [done|]. unfold strtok_post in *. cbn [app]. rewrite tokens_skip.
      destruct (tokens c r) as [|t ts]; [done|]. rewrite zlen_cons. destruct Hpost as (P1 & P2 & P3 & P4 & r' & P5 & P6). split_and!; [lia|lia|done|eapply only_changed_weaken; [| |done]; lia|].
      exists r'. split; [done|]. destruct P6 as [?|(? & ? & ?)]; [by left|]. right. split_and!; [done|lia|done].
    + rewrite (proj2 (Z.eqb_neq (ptr + zlen (x :: w)) ptr)) by (rewrite zlen_cons; unfold zlen; lia). destruct (cut_word m ptr (x :: w) c r Hs) as (m' & E & Hw & Hr & Hch).
      apply cstr_app in Hs as (_ & _ & Hs). apply cstr_cons in Hs as (_ & _ & Hs). destruct (cstr_first _ _ _ Hs) as (y & Hy & _ & Zy & _). rewrite (load_ok _ _ _ Hy).
      cbn [mbind res_bind]. rewrite E. cbn [mbind res_bind]. eexists _, _, _. split; [reflexivity|]. unfold strtok_post. rewrite tokens_app by done. rewrite zlen_app_cons.
      split_and!; [lia|lia|done|eapply only_changed_weaken; [| |done]; lia|]. exists r. split; [done|]. destruct (Z.eqb_spec y 0) as [->|Hy0]; cbn [negb].
      * left. split; [done|by apply Zy].
      * right. split_and!; [done|lia|done].
Qed.

Lemma strtok_r_ok m ptr delim c s save : 0 < c < 128 -> cstr m delim [c] -> cstr m ptr s -> 0 < ptr ->
  exists m' save' tok, strtok_r m ptr delim save = Ok (m', save', tok) /\ strtok_post m c ptr s m' save' tok.
Proof.
  intros Hc Hd Hs Hp. unfold strtok_r. rewrite (proj2 (Z.eqb_neq ptr 0)) by lia. cbn zeta. rewrite (proj2 (Z.eqb_neq ptr 0)) by lia.
  apply strtok_loop_ok; try done. by eapply cstr_turns.
Qed.

(** The next tokens are those of the string at [save]. *)
Lemma strtok_r_next m delim c s save : 0 < c < 128 -> cstr m delim [c] -> 0 <= save -> (save = 0 /\ s = [] \/ cstr m save s /\ save <> 0) ->
  exists m' save' tok, strtok_r m 0 delim save = Ok (m', save', tok) /\ strtok_post m c save s m' save' tok.
Proof.
  intros Hc Hd H0 [[-> ->]|[Hs Hne]]; [by exists m, 0, 0|]. unfold strtok_r. cbn [Z.eqb]. rewrite (proj2 (Z.eqb_neq save 0)) by lia.
  apply strtok_loop_ok; try (done || lia). by eapply cstr_turns.
Qed.

(** ** Blocks *)

Definition octets (l : list Z) : Prop := Forall (fun b => 0 <= b < 256) l.

Lemma memcpy_loop_ok m dest src l : bytes_at m src l -> octets l -> mapped m dest (zlen l) -> dest <= src \/ src + zlen l <= dest ->
  exists m', memcpy_loop (length l) m dest src = Ok (m', dest + zlen l) /\ bytes_at m' dest l /\ only_changed m m' dest (zlen l).
Proof.
  revert m dest src. induction l as [|b l IH]; intros m dest src Hl Ho Hd Hdir; cbn [length memcpy_loop].
  { exists m. rewrite zlen_nil, Z.add_0_r. by split_and!. }
  rewrite zlen_cons in *. pose proof (Zle_0_nat (length l)). fold (zlen l) in *. destruct Hl as [Hb Hl]. apply list.Forall_cons in Ho as [Rb Ho]. rewrite (load_ok _ _ _ Hb). cbn [mbind res_bind].
  destruct (store_ok m dest b (Hd dest ltac:(lia)) Rb) as [-> Hch]. cbn [mbind res_bind]. set (m1 := <[dest := b]> m) in *.
  destruct (IH m1 (dest + 1) (src + 1)) as (m' & -> & Hl' & Hch').
  - eapply bytes_at_only_changed; [exact Hch|unfold disjoint; lia|done].
  - done.
  - eapply only_changed_mapped; [exact Hch|]. eapply mapped_weaken; [| |exact Hd]; lia.
  - lia.
  - exists m'. split_and!; [f_equal; f_equal; lia|split; [|done]|].
    + rewrite (oc_same _ _ _ _ Hch') by lia. apply lookup_insert_eq.
    + apply (only_changed_trans _ m1); (eapply only_changed_weaken; [| |done]; lia).
Qed.

Lemma backward_loop_ok m dest src l : bytes_at m src l -> octets l -> mapped m dest (zlen l) -> src <= dest ->
  exists m', backward_loop (length l) m (dest + zlen l) (src + zlen l) = Ok m' /\ bytes_at m' dest l /\ only_changed m m' dest (zlen l).
Proof.
  revert m. induction l as [|b l IH] using rev_ind; intros m Hl Ho Hd Hdir.
  { exists m. by split_and!. }
  rewrite zlen_app_cons, zlen_nil in *. pose proof (Zle_0_nat (length l)). fold (zlen l) in *. apply bytes_at_app in Hl as [Hl [Hb _]]. apply list.Forall_app in Ho as [Ho [Rb _]%list.Forall_cons].
  rewrite length_app, Nat.add_1_r. cbn [backward_loop]. replace (src + (zlen l + 0 + 1) - 1) with (src + zlen l) by lia.
  replace (dest + (zlen l + 0 + 1) - 1) with (dest + zlen l) by lia. rewrite (load_ok _ _ _ Hb). cbn [mbind res_bind].
  destruct (store_ok m (dest + zlen l) b (Hd (dest + zlen l) ltac:(lia)) Rb) as [-> Hch]. cbn [mbind res_bind]. set (m1 := <[_ := b]> m) in *.
  destruct (IH m1) as (m' & -> & Hl' & Hch').
  - eapply bytes_at_only_changed; [exact Hch|unfold disjoint; lia|done].
  - done.
  - eapply only_changed_mapped; [exact Hch|]. eapply mapped_weaken; [| |exact Hd]; lia.
  - lia.
  - exists m'. split_and!; [done| |].
    + apply bytes_at_app. split; [done|split; [|done]]. rewrite (oc_same _ _ _ _ Hch') by lia. apply lookup_insert_eq.
    + apply (only_changed_trans _ m1); (eapply only_changed_weaken; [| |done]; lia).
Qed.

(** [memmove] moves a block to its destination whether the two overlap or not, in either
    direction, and changes nothing else. *)
Theorem memmove_correct m dest src l : bytes_at m src l -> octets l -> mapped m dest (zlen l) ->
  exists m' r, memmove m dest src (zlen l) = Ok (m', r) /\ bytes_at m' dest l /\ only_changed m m' dest (zlen l).
Proof.
  intros Hl Ho Hd. unfold memmove, memcpy. assert (Z.to_nat (zlen l) = length l) as -> by (unfold zlen; lia).
  destruct (Z.ltb_spec src dest) as [Hlt|Hge]; cbn [andb].
  - destruct (Z.ltb_spec dest (src + zlen l)) as [Hov|Hno].
    + destruct (backward_loop_ok m dest src l) as (m' & -> & ? & ?); try (done || lia). by eexists _, _.
    + destruct (memcpy_loop_ok m dest src l) as (m' & -> & ? & ?); try (done || lia). by eexists _, _.
  - destruct (memcpy_loop_ok m dest src l) as (m' & -> & ? & ?); try (done || lia). by eexists _, _.
Qed.

(** Induction over the tokens of a string. *)
Lemma tokens_ind (c : Z) (P : list Z -> Prop) : P [] -> (forall s, P s -> P (c :: s)) -> (forall w, c ∉ w -> w <> [] -> P w) ->
  (forall w r, c ∉ w -> w <> [] -> P r -> P (w ++ c :: r)) -> forall s, P s.
Proof.
  intros Hnil Hskip Hword Happ s. remember (length s) as n eqn:En. revert s En. induction (lt_wf n) as [n _ IH]. intros s ->.
  destruct (split_first c s) as [Hn|(w & r & -> & Hn)].
  - destruct s as [|x s]; [done|by apply Hword].
  - assert (P r) as Hr by (eapply IH; [|reflexivity]; rewrite length_app; cbn; lia). destruct w as [|x w]; [by apply Hskip|by apply Happ].
Qed.

Lemma tokens_length c s : (length (tokens c s) <= length s)%nat.
Proof.
  induction s as [|s IH|w Hn Hw|w r Hn Hw IH] using (tokens_ind c).
  - done.
  - rewrite tokens_skip. cbn. lia.
  - rewrite tokens_word by done. destruct w; [done|]. cbn. lia.
  - rewrite tokens_app, length_app by done. cbn. lia.
Qed.
