(* ===== verification/Paths.v ===== *)
(** * Paths ([simplify_path] of [kernel/fs/vfs_dirs.c])

    [simplify_path] works in place on strings in memory.  Its reference is [simplify]: split
    the path into names, resolve [.] and [..], and write the rest in canonical form. *)

From S2P Require Import Prelude CString CStringProofs.





Implicit Types m : memory.

Definition SLASH : Z := 47.
Definition DOT : Z := 46.

Lemma SLASH_char : 0 < SLASH < 128.
Proof. done. Qed.

(** The addresses of the literals. *)
Record literals := Literals { lit_slash : Z; lit_dot : Z; lit_dotdot : Z }.

(** [while (sub != NULL)]; [save] is the variable of [strtok]. *)
Fixpoint simplify_loop (fuel : nat) (L : literals) m (dst sub save : Z) : res memory :=
  match fuel with
  | O => Err NoFuel
  | S fuel =>
      if sub =? 0 then Ok m
      else
        d ← strcmp m sub (lit_dot L);
        m ← (if d =? 0 then Ok m
             else
               d ← strcmp m sub (lit_dotdot L);
               if d =? 0 then ptr ← strrchr m dst SLASH; if negb (ptr =? 0) then store m ptr 0 else Ok m
               else '(m, _) ← strcat m dst (lit_slash L); '(m, _) ← strcat m dst sub; Ok m);
        '(m, save, sub) ← strtok_r m 0 (lit_slash L) save;
        simplify_loop fuel L m dst sub save
  end.

(** [buf] is the copy of [src] on the heap, [save] what the last call of [strtok] left. *)
Definition simplify_path (L : literals) m (dst src buf save : Z) : res memory :=
  m ← store m dst 0;
  '(m, _) ← strcpy m buf src;
  '(m, save, sub) ← strtok_r m buf (lit_slash L) save;
  m ← simplify_loop (turns m) L m dst sub save;
  c ← load m dst;
  if c =? 0 then m ← store m dst SLASH; store m (dst + 1) 0 else Ok m.

(** ** The reference *)

Definition resolve_name (stack : list (list Z)) (w : list Z) : list (list Z) :=
  if decide (w = [DOT]) then stack
  else if decide (w = [DOT; DOT]) then take (length stack - 1) stack
  else stack ++ [w].
Definition render (names : list (list Z)) : list Z := concat (cons SLASH <$> names).
Definition simplify (s : list Z) : list Z :=
  match foldl resolve_name [] (tokens SLASH s) with [] => [SLASH] | names => render names end.

(** A name of a directory entry: not empty, no slash. *)
Definition name (w : list Z) : Prop := w <> [] /\ SLASH ∉ w /\ chars w.

Lemma render_app a b : render (a ++ b) = render a ++ render b.
Proof. unfold render. by rewrite fmap_app, concat_app. Qed.
Lemma render_snoc a w : render (a ++ [w]) = render a ++ SLASH :: w.
Proof. rewrite render_app. unfold render at 2. cbn. by rewrite app_nil_r. Qed.

(** The bytes the names of a path take with a slash in front of each. *)
Definition weight (ws : list (list Z)) : Z := zlen (render ws).

Lemma weight_cons w ws : weight (w :: ws) = 1 + zlen w + weight ws.
Proof. unfold weight, render, zlen. cbn. rewrite length_app. lia. Qed.
Lemma weight_app a b : weight (a ++ b) = weight a + weight b.
Proof. unfold weight, zlen. rewrite render_app, length_app. lia. Qed.
Lemma weight_nonneg ws : 0 <= weight ws.
Proof. unfold weight, zlen. lia. Qed.

Lemma tokens_names s : chars s -> Forall name (tokens SLASH s).
Proof.
  induction s as [|s IH|w Hn Hw|w r Hn Hw IH] using (tokens_ind SLASH); intros Hc.
  - rewrite tokens_nil. constructor.
  - rewrite tokens_skip. apply IH. by apply list.Forall_cons in Hc as [_ ?].
  - rewrite tokens_word by done. by repeat constructor.
  - rewrite tokens_app by done. apply list.Forall_app in Hc as [? [_ ?]%list.Forall_cons]. constructor; [done|by apply IH].
Qed.

(** A relative path needs one more byte for the slash in front of it. *)
Lemma tokens_weight s : weight (tokens SLASH s) <= zlen s + 1.
Proof.
  induction s as [|s IH|w Hn Hw|w r Hn Hw IH] using (tokens_ind SLASH).
  - rewrite tokens_nil. done.
  - rewrite tokens_skip, zlen_cons. lia.
  - rewrite tokens_word, weight_cons by done. change (weight []) with 0. lia.
  - rewrite tokens_app, weight_cons, zlen_app_cons by done. lia.
Qed.
Lemma tokens_weight_absolute s : weight (tokens SLASH (SLASH :: s)) <= zlen (SLASH :: s).
Proof. rewrite tokens_skip, zlen_cons. apply tokens_weight. Qed.

Lemma resolve_names stack w : Forall name stack -> name w -> Forall name (resolve_name stack w).
Proof.
  intros Hs Hw. unfold resolve_name. case_decide; [done|]. case_decide; [by apply Forall_take|]. apply list.Forall_app. split; [done|]. by apply Forall_singleton.
Qed.

Lemma weight_take k ws : weight (take k ws) <= weight ws.
Proof. rewrite <- (take_drop k ws) at 2. rewrite weight_app. pose proof (weight_nonneg (drop k ws)). lia. Qed.
Lemma resolve_weight stack w : weight (resolve_name stack w) <= weight stack + (1 + zlen w).
Proof.
  unfold resolve_name. pose proof (Zle_0_nat (length w)). fold (zlen w) in *. case_decide; [lia|]. case_decide; [pose proof (weight_take (length stack - 1) stack); lia|].
  rewrite weight_app, weight_cons. change (weight []) with 0. lia.
Qed.
