(* ===== verification/PathsProofs.v ===== *)
(** * [simplify_path] computes the canonical form of a path *)

From S2P Require Import Prelude CString CStringProofs Paths.





Implicit Types m : memory.

Section Simplify.
(** The destination has [cap] bytes from [dst] on, the copy [nbuf] bytes from [buf] on. *)
Context (L : literals) (dst cap buf nbuf : Z).

Hypothesis Hdst : 0 < dst.
Hypothesis Hbuf : 0 < buf.
Hypothesis Hsep : disjoint dst cap buf nbuf.

(** The literals are in memory and apart from both buffers. *)
Definition apart (p n : Z) : Prop := disjoint p n dst cap /\ disjoint p n buf nbuf.
Record literals_ok m : Prop := {
  lk_slash : cstr m (lit_slash L) [SLASH];
  lk_dot : cstr m (lit_dot L) [DOT];
  lk_dotdot : cstr m (lit_dotdot L) [DOT; DOT];
  lk_slash_apart : apart (lit_slash L) 2;
  lk_dot_apart : apart (lit_dot L) 2;
  lk_dotdot_apart : apart (lit_dotdot L) 3
}.

(** Only the two buffers have changed. *)
Record framed m m' : Prop := {
  fr_mapped : forall q, is_Some (m !! q) <-> is_Some (m' !! q);
  fr_same : forall q, ~ dst <= q < dst + cap -> ~ buf <= q < buf + nbuf -> m' !! q = m !! q
}.
#[local] Instance framed_refl : Reflexive framed.
Proof. by constructor. Qed.
#[local] Instance framed_trans : Transitive framed.
Proof.
  intros a b c [A1 A2] [B1 B2]. constructor; [intros q; by rewrite A1|]. intros q Hq Hq'. rewrite B2, A2 by done. done.
Qed.

Lemma framed_dst m m' a n : dst <= a -> a + n <= dst + cap -> only_changed m m' a n -> framed m m'.
Proof. intros ? ? [H1 H2]. constructor; [done|]. intros q Hq _. apply H2. lia. Qed.
Lemma framed_buf m m' a n : buf <= a -> a + n <= buf + nbuf -> only_changed m m' a n -> framed m m'.
Proof. intros ? ? [H1 H2]. constructor; [done|]. intros q _ Hq. apply H2. lia. Qed.
Lemma framed_mapped m m' p n : framed m m' -> mapped m p n -> mapped m' p n.
Proof. intros [H1 _] Hp q Hq. apply H1. by apply Hp. Qed.
Lemma framed_cstr m m' p s : framed m m' -> apart p (zlen s + 1) -> cstr m p s -> cstr m' p s.
Proof.
  unfold apart, disjoint. intros [_ H2] [A1 A2] [Hs Hb]. split; [done|]. eapply bytes_at_ext; [|done]. intros q Hq. unfold zlen in *. rewrite length_app in Hq. cbn in Hq. apply H2; lia.
Qed.
Lemma framed_literals m m' : framed m m' -> literals_ok m -> literals_ok m'.
Proof. intros Hf [H1 H2 H3 H4 H5 H6]. constructor; try done; by eapply framed_cstr. Qed.

(** What is left of the copy: the current name at [sub] and the rest at [save]. *)
Definition in_buf (p : Z) (s : list Z) : Prop := buf <= p /\ p + zlen s + 1 <= buf + nbuf.
Definition pending m (sub save : Z) (ws : list (list Z)) : Prop :=
  match ws with
  | [] => sub = 0
  | w :: ws => sub <> 0 /\ cstr m sub w /\ in_buf sub w /\
      exists r, tokens SLASH r = ws /\ (save = 0 /\ r = [] \/ save <> 0 /\ cstr m save r /\ in_buf save r)
  end.

(** A change of the destination leaves the copy alone. *)
Lemma pending_dst m m' a n sub save ws : dst <= a -> a + n <= dst + cap -> only_changed m m' a n -> pending m sub save ws -> pending m' sub save ws.
Proof.
  intros Ha Hn Hch. unfold pending, in_buf. destruct ws as [|w ws]; [done|]. unfold disjoint in Hsep. intros (H0 & Hw & Hin & r & Hr & Hsave). split_and!; try (done || lia).
  - eapply only_changed_cstr; [exact Hch|lia|done].
  - exists r. split; [done|]. destruct Hsave as [?|(? & Hs & Hin')]; [by left|]. right. split_and!; [done|eapply only_changed_cstr; [exact Hch|lia|done]|lia|lia].
Qed.

(** The result of [strtok_r] inside of the copy. *)
Lemma strtok_pending m m' p s save tok : in_buf p s -> strtok_post m SLASH p s m' save tok ->
  pending m' tok save (tokens SLASH s) /\ framed m m' /\ only_changed m m' buf nbuf.
Proof.
  unfold strtok_post, pending, in_buf. intros Hin. destruct (tokens SLASH s) as [|w ws]; [by intros (-> & -> & _)|].
  intros (P1 & P2 & P3 & P4 & r & P5 & P6). pose proof (Zle_0_nat (length w)). pose proof (Zle_0_nat (length r)). fold (zlen w) (zlen r) in *. split_and!; try (done || lia).
  - exists r. split; [done|]. destruct P6 as [?|(-> & ? & ?)]; [by left|]. right. split_and!; done || lia.
  - eapply framed_buf; [| |exact P4]; lia.
  - eapply only_changed_weaken; [| |exact P4]; lia.
Qed.

(** The next token. *)
Lemma next_pending m sub save w ws : literals_ok m -> pending m sub save (w :: ws) ->
  exists m' save' sub', strtok_r m 0 (lit_slash L) save = Ok (m', save', sub') /\ pending m' sub' save' ws /\ framed m m' /\ only_changed m m' buf nbuf.
Proof.
  intros Hlit (_ & _ & _ & r & <- & Hsave). unfold in_buf in *.
  destruct (strtok_r_next m (lit_slash L) SLASH r save) as (m' & save' & tok & E & Hpost); try (done || apply SLASH_char || apply Hlit).
  { destruct Hsave as [[-> _]|(_ & _ & ?)]; lia. }
  { destruct Hsave as [?|(? & ? & _)]; [by left|by right]. }
  exists m', save', tok. split; [done|]. destruct Hsave as [[-> ->]|(? & _ & ?)]; [|by eapply strtok_pending].
  destruct Hpost as (-> & -> & ->). split_and!; try done.
Qed.

(** [..] takes the last name away. *)
Lemma pop_ok m stack : cstr m dst (render stack) -> Forall name stack -> weight stack < cap ->
  exists m', (ptr ← strrchr m dst SLASH; if negb (ptr =? 0) then store m ptr 0 else Ok m) = Ok m' /\
    cstr m' dst (render (take (length stack - 1) stack)) /\ only_changed m m' dst cap.
Proof using Hdst.
  intros Hs Hn Hcap. destruct stack as [|v stack _] using rev_ind.
  - rewrite (strrchr_none m dst SLASH []) by (apply SLASH_char || apply not_elem_of_nil || done). by exists m.
  - rewrite render_snoc in Hs. apply list.Forall_app in Hn as [_ [(_ & Hv & _) _]%list.Forall_cons].
    rewrite (strrchr_some m dst SLASH (render stack) v) by (apply SLASH_char || done). cbn [mbind res_bind].
    assert (0 <= zlen (render stack)) by (unfold zlen; lia). rewrite (proj2 (Z.eqb_neq _ 0)) by lia. cbn [negb].
    destruct (cut_word m dst (render stack) SLASH v Hs) as (m' & E & Hd & _ & Hch). exists m'. split_and!; [done| |].
    + rewrite length_app, Nat.add_sub, take_app_length. done.
    + rewrite weight_app in Hcap. pose proof (weight_nonneg [v]). eapply only_changed_weaken; [| |exact Hch]; unfold weight in *; lia.
Qed.

(** Another name is put behind a slash. *)
Lemma push_ok m stack sub w : literals_ok m -> cstr m dst (render stack) -> mapped m dst cap -> weight stack + zlen w + 2 <= cap ->
  cstr m sub w -> in_buf sub w ->
  exists m', ('(m, _) ← strcat m dst (lit_slash L); '(m, _) ← strcat m dst sub; Ok m) = Ok m' /\
    cstr m' dst (render (stack ++ [w])) /\ only_changed m m' dst cap.
Proof using Hsep.
  intros Hlit Hs Hm Hcap Hw Hin. assert (0 <= zlen w) by (unfold zlen; lia). unfold weight in Hcap. destruct (lk_slash_apart _ Hlit) as [Hap _].
  unfold disjoint, in_buf in *. destruct (strcat_ok m dst (lit_slash L) (render stack) [SLASH]) as (m1 & r1 & -> & Hs1 & Hch1).
  { done. } { apply Hlit. } { change (zlen [SLASH]) with 1. eapply mapped_weaken; [| |exact Hm]; lia. } { change (zlen [SLASH]) with 1. unfold disjoint. lia. }
  cbn [mbind res_bind]. change (zlen [SLASH]) with 1 in Hch1. apply (only_changed_weaken _ _ _ _ dst cap) in Hch1; [|lia|lia].
  destruct (strcat_ok m1 dst sub (render stack ++ [SLASH]) w) as (m2 & r2 & -> & Hs2 & Hch2).
  { done. } { eapply only_changed_cstr; [exact Hch1|lia|done]. }
  { eapply only_changed_mapped; [exact Hch1|]. rewrite zlen_app_cons, zlen_nil. eapply mapped_weaken; [| |exact Hm]; lia. }
  { rewrite zlen_app_cons, zlen_nil. unfold disjoint. lia. }
  cbn [mbind res_bind]. exists m2. split_and!; [done|by rewrite render_snoc; rewrite <- app_assoc in Hs2|].
  eapply only_changed_trans; [exact Hch1|]. rewrite zlen_app_cons, zlen_nil in Hch2. eapply only_changed_weaken; [| |exact Hch2]; lia.
Qed.

Lemma name_ok m stack sub save w ws : literals_ok m -> cstr m dst (render stack) -> Forall name stack -> mapped m dst cap ->
  weight stack + weight (w :: ws) < cap -> pending m sub save (w :: ws) ->
  exists m', (d ← strcmp m sub (lit_dot L);
      if d =? 0 then Ok m
      else
        d ← strcmp m sub (lit_dotdot L);
        if d =? 0 then ptr ← strrchr m dst SLASH; if negb (ptr =? 0) then store m ptr 0 else Ok m
        else '(m, _) ← strcat m dst (lit_slash L); '(m, _) ← strcat m dst sub; Ok m) = Ok m' /\
    cstr m' dst (render (resolve_name stack w)) /\ only_changed m m' dst cap.
Proof using Hdst Hsep.
  intros Hlit Hs Hn Hm Hcap (_ & Hw & Hin & _). rewrite weight_cons in Hcap. pose proof (weight_nonneg ws). unfold resolve_name.
  assert (0 <= zlen w) by (unfold zlen; lia).
  destruct (strcmp_ok m sub (lit_dot L) w [DOT]) as (d & -> & Hd); [done|apply Hlit|]. cbn [mbind res_bind]. destruct (Z.eqb_spec d 0) as [E|E].
  { rewrite decide_True by (by apply Hd). by exists m. }
  rewrite decide_False by (by rewrite <- Hd).
  destruct (strcmp_ok m sub (lit_dotdot L) w [DOT; DOT]) as (d' & -> & Hd'); [done|apply Hlit|]. cbn [mbind res_bind]. destruct (Z.eqb_spec d' 0) as [E'|E'].
  - rewrite decide_True by (by apply Hd'). apply pop_ok; [done|done|lia].
  - rewrite decide_False by (by rewrite <- Hd'). apply push_ok; try done. lia.
Qed.

Lemma simplify_loop_ok fuel m stack sub save ws : literals_ok m -> cstr m dst (render stack) -> Forall name stack -> Forall name ws -> mapped m dst cap ->
  weight stack + weight ws < cap -> pending m sub save ws -> (length ws < fuel)%nat ->
  exists m', simplify_loop fuel L m dst sub save = Ok m' /\ cstr m' dst (render (foldl resolve_name stack ws)) /\ framed m m'.
Proof using Hdst Hbuf Hsep.
  revert m stack sub save ws. induction fuel as [|fuel IH]; intros m stack sub save ws Hlit Hs Hn Hws Hm Hcap Hp Hf; [lia|]. cbn [simplify_loop]. destruct ws as [|w ws].
  { cbn in Hp. subst sub. by exists m. }
  rewrite (proj2 (Z.eqb_neq sub 0)) by apply Hp. apply list.Forall_cons in Hws as [Hw Hws].
  destruct (name_ok m stack sub save w ws) as (m1 & E1 & Hs1 & Hch1); try done. revert E1.
  destruct (strcmp m sub (lit_dot L)) as [d|]; [|done]. cbn [mbind res_bind]. intros ->. cbn [mbind res_bind].
  assert (framed m m1) as Hfr1 by (eapply framed_dst; [| |exact Hch1]; lia). assert (pending m1 sub save (w :: ws)) as Hp1 by (eapply pending_dst; [| |exact Hch1|done]; lia).
  destruct (next_pending m1 sub save w ws (framed_literals _ _ Hfr1 Hlit) Hp1) as (m2 & save' & sub' & -> & Hp2 & Hfr2 & Hch2). cbn [mbind res_bind].
  assert (framed m m2) as Hfr by (by transitivity m1).
  rewrite weight_cons in Hcap. pose proof (resolve_weight stack w). pose proof (weight_nonneg ws).
  destruct (IH m2 (resolve_name stack w) sub' save' ws) as (m' & -> & Hs' & Hfr').
  - by eapply framed_literals.
  - eapply only_changed_cstr; [exact Hch2| |done]. unfold disjoint in Hsep. change (zlen (render ?x)) with (weight x). lia.
  - by apply resolve_names.
  - done.
  - by eapply framed_mapped.
  - lia.
  - done.
  - cbn in Hf. lia.
  - exists m'. split_and!; [done|done|by transitivity m2].
Qed.

Lemma framed_turns m m' : framed m m' -> turns m' = turns m.
Proof.
  intros [H1 _]. unfold turns. f_equal. rewrite <- !(size_dom (D := gset Z)). f_equal. apply set_eq. intros q. by rewrite !elem_of_dom, H1.
Qed.

Lemma simplify_path_ok m src s save : cstr m src s -> apart src (zlen s + 1) -> literals_ok m -> mapped m dst cap -> mapped m buf nbuf ->
  nbuf = zlen s + 1 -> weight (tokens SLASH s) < cap -> 2 <= cap ->
  exists m', simplify_path L m dst src buf save = Ok m' /\ cstr m' dst (simplify s) /\ framed m m'.
Proof using Hdst Hbuf Hsep.
  intros Hs Hap Hlit Hm Hb Hnb Hcap H2. unfold simplify_path. assert (0 <= zlen s) by (unfold zlen; lia).
  destruct (store_ok m dst 0 (Hm dst ltac:(lia)) ltac:(lia)) as [-> Hch1]. cbn [mbind res_bind]. set (m1 := <[dst := 0]> m) in *.
  assert (framed m m1) as Hfr1 by (eapply framed_dst; [| |exact Hch1]; lia). assert (cstr m1 dst (render [])) as Hd1 by apply cstr_nil, lookup_insert_eq.
  destruct (strcpy_ok m1 buf src s) as (m2 & -> & Hs2 & Hch2); [by eapply framed_cstr|rewrite <- Hnb; by eapply framed_mapped|unfold apart, disjoint in *; lia|].
  cbn [mbind res_bind]. assert (framed m1 m2) as Hfr2 by (eapply framed_buf; [| |exact Hch2]; lia).
  destruct (strtok_r_ok m2 buf (lit_slash L) SLASH s save) as (m3 & save3 & sub & -> & Hpost); [apply SLASH_char|by eapply lk_slash, framed_literals, framed_literals|done|done|].
  cbn [mbind res_bind]. destruct (strtok_pending m2 m3 buf s save3 sub) as (Hp3 & Hfr3 & Hch3); [unfold in_buf; lia|done|].
  assert (framed m m3) as Hfr by (transitivity m1; [done|by transitivity m2]).
  destruct (simplify_loop_ok (turns m3) m3 [] sub save3 (tokens SLASH s)) as (m4 & -> & Hd4 & Hfr4); try done.
  { by eapply framed_literals. }
  { unfold disjoint in Hsep. eapply only_changed_cstr; [exact Hch3|change (zlen (render [])) with 0; lia|]. eapply only_changed_cstr; [exact Hch2|change (zlen (render [])) with 0; lia|done]. }
  { apply tokens_names, Hs. }
  { by eapply framed_mapped. }
  { rewrite (framed_turns m2 m3 Hfr3). apply cstr_turns in Hs2. pose proof (tokens_length SLASH s). lia. }
  cbn [mbind res_bind]. assert (framed m m4) as Hfr' by (by transitivity m3). unfold simplify.
  destruct (foldl resolve_name [] (tokens SLASH s)) as [|v names].
  - apply cstr_nil in Hd4. rewrite (load_ok _ _ _ Hd4). cbn [mbind res_bind Z.eqb]. assert (mapped m4 dst cap) as Hm4 by (by eapply framed_mapped).
    destruct (store_ok m4 dst SLASH (Hm4 dst ltac:(lia)) ltac:(done)) as [-> Hch5]. cbn [mbind res_bind]. set (m5 := <[dst := SLASH]> m4) in *.
    assert (mapped m5 dst cap) as Hm5 by (by eapply only_changed_mapped). destruct (store_ok m5 (dst + 1) 0 (Hm5 (dst + 1) ltac:(lia)) ltac:(lia)) as [-> Hch6].
    eexists. split_and!; [reflexivity| |].
    + apply cstr_cons. split_and!; [done|done| |apply cstr_nil, lookup_insert_eq]. rewrite lookup_insert_ne by lia. apply lookup_insert_eq.
    + transitivity m4; [done|]. transitivity m5; eapply framed_dst; try eassumption; lia.
  - assert (m4 !! dst = Some SLASH) as Hl by (by apply cstr_cons in Hd4 as (_ & ? & _)). rewrite (load_ok _ _ _ Hl). cbn [mbind res_bind].
    change (SLASH =? 0) with false. by exists m4.
Qed.
End Simplify.

(** ** Canonical paths *)

(** C24: [simplify_path] returns the canonical form of every path, and touches nothing but its
    two buffers, when the destination has one byte more than an absolute path with its
    terminator takes, or two more than a relative one does without it. *)
Theorem simplify_path_correct L m dst cap src buf save s :
  cstr m src s -> 0 < dst -> 0 < buf -> mapped m dst cap -> mapped m buf (zlen s + 1) ->
  disjoint dst cap buf (zlen s + 1) -> apart dst cap buf (zlen s + 1) src (zlen s + 1) -> literals_ok L dst cap buf (zlen s + 1) m ->
  (exists s', s = SLASH :: s') /\ zlen s + 1 <= cap \/ zlen s + 2 <= cap ->
  exists m', simplify_path L m dst src buf save = Ok m' /\ cstr m' dst (simplify s) /\ framed dst cap buf (zlen s + 1) m m'.
Proof.
  intros Hs Hd Hb Hm Hmb Hsep Hap Hlit Hcap. assert (0 <= zlen s) by (unfold zlen; lia). apply simplify_path_ok; try done.
  - pose proof (tokens_weight s). destruct Hcap as [[[s' ->] ?]|?]; [pose proof (tokens_weight_absolute s')|]; lia.
  - destruct Hcap as [[[s' ->] Hc]|?]; [rewrite zlen_cons in Hc; assert (0 <= zlen s') by (unfold zlen; lia)|]; lia.
Qed.

(** A name that stays in a path. *)
Definition proper (w : list Z) : Prop := name w /\ w <> [DOT] /\ w <> [DOT; DOT].
Definition canonical (p : list Z) : Prop := exists names, Forall proper names /\ p = match names with [] => [SLASH] | _ => render names end.

Lemma resolve_proper stack w : Forall proper stack -> name w -> Forall proper (resolve_name stack w).
Proof.
  intros Hs Hw. unfold resolve_name. case_decide; [done|]. case_decide; [by apply Forall_take|]. apply list.Forall_app. split; [done|]. by apply Forall_singleton.
Qed.
Lemma resolve_all_proper ws stack : Forall proper stack -> Forall name ws -> Forall proper (foldl resolve_name stack ws).
Proof.
  revert stack. induction ws as [|w ws IH]; intros stack Hs Hw; [done|]. apply list.Forall_cons in Hw as [? ?]. cbn. apply IH; [by apply resolve_proper|done].
Qed.

Lemma simplify_canonical s : chars s -> canonical (simplify s).
Proof.
  intros Hs. exists (foldl resolve_name [] (tokens SLASH s)). split; [apply resolve_all_proper; [constructor|by apply tokens_names]|].
  unfold simplify. by destruct (foldl _ _ _).
Qed.

(** The names of a path in canonical form. *)
Lemma tokens_render ws : Forall name ws -> tokens SLASH (render ws) = ws.
Proof.
  induction ws as [|w ws IH]; intros Hn; [done|]. apply list.Forall_cons in Hn as [(H0 & Hs & _) Hn]. unfold render. cbn [fmap list_fmap concat].
  cbn [app]. rewrite tokens_skip. destruct ws as [|v ws]; [cbn; rewrite app_nil_r; by apply tokens_word|]. fold (render (v :: ws)). specialize (IH Hn).
  unfold render in *. cbn [fmap list_fmap concat app] in *. rewrite tokens_app by done. by rewrite tokens_skip in IH; rewrite IH.
Qed.
Lemma resolve_all_id ws stack : Forall proper ws -> foldl resolve_name stack ws = stack ++ ws.
Proof.
  revert stack. induction ws as [|w ws IH]; intros stack Hp; [cbn; by rewrite app_nil_r|]. apply list.Forall_cons in Hp as [(_ & H1 & H2) Hp]. cbn.
  unfold resolve_name at 2. rewrite !decide_False by done. rewrite IH by done. by rewrite <- app_assoc.
Qed.

(** A path in canonical form is its own canonical form, so that simplifying twice is
    simplifying once: each path of a file has exactly one form in the caches and in the table
    of mounted file systems. *)
Theorem simplify_idempotent s : chars s -> canonical (simplify s) /\ simplify (simplify s) = simplify s.
Proof.
  intros Hs. pose proof (simplify_canonical s Hs) as Hc. split; [done|]. destruct Hc as (names & Hn & ->). destruct names as [|w names]; [done|].
  unfold simplify at 1. rewrite tokens_render by (eapply list.Forall_impl; [exact Hn|]; by intros ? [? _]). by rewrite resolve_all_id.
Qed.

(** The empty path, which [vfs_create] passes for the parent of a file in the root
    directory, becomes two bytes; the callers allocate one: the second byte is written
    behind the buffer. *)
Theorem simplify_path_empty_overflows L m dst src buf save :
  cstr m src [] -> 0 < dst -> 0 < buf -> is_Some (m !! dst) -> m !! (dst + 1) = None -> mapped m buf 1 ->
  disjoint dst 1 buf 1 -> apart dst 1 buf 1 src 1 -> literals_ok L dst 1 buf 1 m ->
  simplify_path L m dst src buf save = Err (Fault "store").
Proof.
  intros Hs Hd Hb Hm Hno Hmb Hsep Hap Hlit. unfold simplify_path.
  destruct (store_ok m dst 0 Hm ltac:(lia)) as [-> Hch1]. cbn [mbind res_bind]. set (m1 := <[dst := 0]> m) in *.
  assert (framed dst 1 buf 1 m m1) as Hfr1 by (eapply framed_dst; [| |exact Hch1]; lia).
  destruct (strcpy_ok m1 buf src []) as (m2 & -> & Hs2 & Hch2); [by eapply framed_cstr|by eapply framed_mapped|unfold apart, disjoint in *; change (zlen (@nil Z)) with 0; lia|].
  change (zlen (@nil Z) + 1) with 1 in Hch2.
  cbn [mbind res_bind]. assert (framed dst 1 buf 1 m1 m2) as Hfr2 by (eapply framed_buf; [| |exact Hch2]; lia).
  destruct (strtok_r_ok m2 buf (lit_slash L) SLASH [] save) as (m3 & save3 & sub & -> & (-> & -> & ->)); [apply SLASH_char|by eapply lk_slash, framed_literals, framed_literals|done|done|].
  cbn [mbind res_bind turns simplify_loop Z.eqb].
  assert (m2 !! dst = Some 0) as H2 by (rewrite (oc_same _ _ _ _ Hch2) by (unfold disjoint in Hsep; lia); apply lookup_insert_eq).
  rewrite (load_ok _ _ _ H2). cbn [mbind res_bind Z.eqb]. destruct (store_ok m2 dst SLASH ltac:(by eexists) ltac:(done)) as [-> _]. cbn [mbind res_bind].
  unfold store. rewrite lookup_insert_ne by lia.
  assert (m2 !! (dst + 1) = None) as ->; [|done]. apply eq_None_not_Some. intros [x Hx]%(fr_mapped _ _ _ _ _ _ Hfr2)%(fr_mapped _ _ _ _ _ _ Hfr1). congruence.
Qed.
