(* ===== verification/VfsFiles.v ===== *)
(** * Open files of the virtual file system ([kernel/fs/vfs_files.c])

    The table of open files (vnodes), file handles with their one-sector buffer, and reading
    and writing with byte granularity over any [FileSystem].

    A handle is a key of the map [handles]: its number is its address.  File systems are keys
    of the map [filesystems], with their count of open files.  A function that takes
    the lock of the table when it is held, or waits for a file that is being accessed, has
    nobody to wait for, since each call is one step: [Deadlock].  The calls of
    [vfs_update_metadata_cache] and [vfs_update_metadata_disk] are recorded in the lists
    [cache_updates] and [disk_updates]. *)

From S2P Require Import Prelude Bytes FileSystems.





Definition VFS_READ : Z := 1.
Definition VFS_WRITE : Z := 2.
Definition VFS_APPEND : Z := 32.
Definition VFS_SEEKABLE : Z := 64.
Definition VFS_TRUNCATABLE : Z := 128.
Definition DT_REG : Z := 5.
Definition has_flag (flags flag : Z) : bool := negb (Z.land flags flag =? 0).

(** A value of [int64_t] obtained from an unsigned one. *)
Definition s64 (x : Z) : Z := let y := wrap 64 x in if y <? 2 ^ 63 then y else y - 2 ^ 64.

Definition CEIL_DIV (x y : Z) : Z := u32 (x + y - 1) / y.

(** [struct file_ent]; [fhs] is the array of handles, [n_insts] of which are in use. *)
Record file_ent := FileEnt {
  ent_file : file;
  ent_fs : Z;
  ent_id : Z;
  path : list Z;
  accessed : bool;
  modified : bool;
  n_insts : Z;
  fhs : list Z
}.

Record file_handle := Handle {
  handle_fs : Z;
  buffer_valid : bool;
  sector_offset : Z;
  sector_count : Z;
  file_offset : Z;
  sector_buff : list Z;
  vfile_id : Z;
  handle_id : Z;
  flags : Z
}.

(** [fast_dirent_t], with the rights of [file_rights_t] as booleans. *)
Record fast_dirent := Dirent {
  ino : Z;
  dirent_size : Z;
  dirent_type : Z;
  right_read : bool;
  right_write : bool;
  right_exec : bool;
  right_seekable : bool;
  right_truncatable : bool
}.

Section Vfs.
Context {S : Type} `{FileSystem S}.

Record vfs := Vfs {
  open_files : list file_ent;
  cur_id : Z;
  next_id : Z;
  vfile_lock : bool;
  lazy_flush_entries : list (list Z * Z * Z);
  cache_updates : list (list Z * Z * Z);
  disk_updates : list (list Z * Z * Z);
  handles : gmap Z file_handle;
  filesystems : gmap Z (S * Z)
}.

Definition set_open_files (v : vfs) (l : list file_ent) : vfs :=
  Vfs l (cur_id v) (next_id v) (vfile_lock v) (lazy_flush_entries v) (cache_updates v) (disk_updates v)
    (handles v) (filesystems v).
Definition set_lock (v : vfs) (b : bool) : vfs :=
  Vfs (open_files v) (cur_id v) (next_id v) b (lazy_flush_entries v) (cache_updates v) (disk_updates v)
    (handles v) (filesystems v).
Definition set_handles (v : vfs) (m : gmap Z file_handle) : vfs :=
  Vfs (open_files v) (cur_id v) (next_id v) (vfile_lock v) (lazy_flush_entries v) (cache_updates v)
    (disk_updates v) m (filesystems v).
Definition set_filesystems (v : vfs) (m : gmap Z (S * Z)) : vfs :=
  Vfs (open_files v) (cur_id v) (next_id v) (vfile_lock v) (lazy_flush_entries v) (cache_updates v)
    (disk_updates v) (handles v) m.
Definition set_ids (v : vfs) (c n : Z) : vfs :=
  Vfs (open_files v) c n (vfile_lock v) (lazy_flush_entries v) (cache_updates v) (disk_updates v)
    (handles v) (filesystems v).
Definition set_updates (v : vfs) (lazy cache disk : list (list Z * Z * Z)) : vfs :=
  Vfs (open_files v) (cur_id v) (next_id v) (vfile_lock v) lazy cache disk (handles v) (filesystems v).

Definition set_size (e : file_ent) (f : file) : file_ent :=
  FileEnt f (ent_fs e) (ent_id e) (path e) (accessed e) (modified e) (n_insts e) (fhs e).
Definition set_accessed (e : file_ent) (b : bool) : file_ent :=
  FileEnt (ent_file e) (ent_fs e) (ent_id e) (path e) b (modified e) (n_insts e) (fhs e).
Definition set_modified (e : file_ent) (b : bool) : file_ent :=
  FileEnt (ent_file e) (ent_fs e) (ent_id e) (path e) (accessed e) b (n_insts e) (fhs e).
Definition set_fhs (e : file_ent) (n : Z) (l : list Z) : file_ent :=
  FileEnt (ent_file e) (ent_fs e) (ent_id e) (path e) (accessed e) (modified e) n l.

Definition set_cursor (h : file_handle) (off sec cnt : Z) : file_handle :=
  Handle (handle_fs h) (buffer_valid h) sec cnt off (sector_buff h) (vfile_id h) (handle_id h) (flags h).
Definition set_buffer (h : file_handle) (valid : bool) (buf : list Z) : file_handle :=
  Handle (handle_fs h) valid (sector_offset h) (sector_count h) (file_offset h) buf (vfile_id h)
    (handle_id h) (flags h).

(** ** Pointers *)

Definition get_fs (p : Z) (v : vfs) : res (S * Z) :=
  match filesystems v !! p with Some x => Ok x | None => Err (Fault "fs") end.
Definition put_fs (p : Z) (s : S) (n : Z) (v : vfs) : vfs := set_filesystems v (<[p := (s, n)]> (filesystems v)).
Definition get_handle (p : Z) (v : vfs) : res file_handle :=
  match handles v !! p with Some h => Ok h | None => Err (Fault "handle") end.
Definition put_handle (p : Z) (h : file_handle) (v : vfs) : vfs := set_handles v (<[p := h]> (handles v)).

(** ** The table *)

Definition find_vfile (id : Z) (v : vfs) : option nat :=
  fst <$> list_find (fun e => ent_id e = id) (open_files v).

Definition lock_vfiles (v : vfs) : res vfs :=
  if vfile_lock v then Err (Deadlock "vfile_lock") else Ok (set_lock v true).
(** [acquire_vfile]: the lock is held also when nothing is found. *)
Definition acquire_vfile (id : Z) (v : vfs) : res (vfs * option nat) :=
  v ← lock_vfiles v; Ok (v, find_vfile id v).
Definition release_vfile (v : vfs) : vfs := set_lock v false.

(** An entry through a pointer, which may be null. *)
Definition deref (i : option nat) (v : vfs) : res (nat * file_ent) :=
  match i with
  | Some i => match open_files v !! i with Some e => Ok (i, e) | None => Err (Fault "vfile") end
  | None => Err (Fault "null vfile")
  end.
Definition put_ent (i : nat) (e : file_ent) (v : vfs) : vfs := set_open_files v (<[i := e]> (open_files v)).

Definition search_or_insert_file (fs a file_len : Z) (p : list Z) (v : vfs) : res (vfs * Z) :=
  v ← lock_vfiles v;
  '(s, n) ← get_fs fs v;
  let v := put_fs fs s (n + 1) v in
  match list_find (fun e => addr (ent_file e) = a /\ ent_fs e = fs) (open_files v) with
  | Some (_, e) => Ok (release_vfile v, ent_id e)
  | None =>
      let id := u64 (cur_id v + 1) in
      let e := FileEnt (File a file_len) fs id p false false 0 [] in
      let v := release_vfile (set_open_files (set_ids v id (next_id v)) (open_files v ++ [e])) in
      match open_file a s with
      | None => Ok (v, id)
      | Some r => s ← r; Ok (put_fs fs s (n + 1) v, id)
      end
  end.

(** The handle [p] is stored by the caller; its [vfile_id] is set here. *)
Definition register_handle_to_vfile (id p : Z) (h : file_handle) (v : vfs) : res vfs :=
  let h := Handle (handle_fs h) (buffer_valid h) (sector_offset h) (sector_count h) (file_offset h)
             (sector_buff h) id (handle_id h) (flags h) in
  let v := put_handle p h v in
  '(v, i) ← acquire_vfile id v;
  '(i, e) ← deref i v;
  Ok (release_vfile (put_ent i (set_fhs e (n_insts e + 1) (take (Z.to_nat (n_insts e)) (fhs e) ++ [p])) v)).

Definition handle_next_id (v : vfs) : vfs * Z := (set_ids v (cur_id v) (u64 (next_id v + 1)), next_id v).

(** [create_handler]; [mem] is the memory [malloc] returns for the buffer of the handle. *)
Definition create_handler (fs : Z) (d : fast_dirent) (p : list Z) (fl : Z) (mem : Z -> list Z) (v : vfs)
    : res (vfs * option Z) :=
  let '(v, hid) := handle_next_id v in
  '(s, n) ← get_fs fs v;
  '(v, shouldnt_open) ←
    match open_instance (ino d) hid s with
    | None => Ok (v, 0)
    | Some r => '(s, x) ← r; Ok (put_fs fs s n v, x)
    end;
  if negb (shouldnt_open =? 0) then Ok (v, None)
  else
    let h := Handle fs false 0 0 0 (mem (file_access_granularity s)) 0 hid fl in
    '(v, id) ← search_or_insert_file fs (ino d) (dirent_size d) p v;
    v ← register_handle_to_vfile id hid h v;
    Ok (v, Some hid).

(** [for(int i = 0; i < ent->n_insts; i++)] of [invalidate_handlers_buffer]. *)
Fixpoint invalidate_loop (l : list Z) (self : option Z) (v : vfs) : res vfs :=
  match l with
  | [] => Ok v
  | p :: l =>
      v ← (if decide (self = Some p) then Ok v
           else h ← get_handle p v; Ok (put_handle p (set_buffer h false (sector_buff h)) v));
      invalidate_loop l self v
  end.
Definition invalidate_handlers_buffer (e : file_ent) (self : option Z) (v : vfs) : res vfs :=
  '(s, _) ← get_fs (ent_fs e) v;
  if negb (cacheable s) then Ok v else invalidate_loop (take (Z.to_nat (n_insts e)) (fhs e)) self v.

Definition set_stream_offset (h : file_handle) (g absolute_offset : Z) : file_handle :=
  set_buffer (set_cursor h absolute_offset (u32 (absolute_offset mod g)) (absolute_offset / g)) false (sector_buff h).

Definition vfs_open_file_from (fs : Z) (d : fast_dirent) (p : list Z) (fl : Z) (mem : Z -> list Z) (v : vfs)
    : res (vfs * option Z) :=
  assert_ (fl <? 2 * VFS_TRUNCATABLE) "flags < 2*VFS_TRUNCATABLE" ;;
  if negb (dirent_type d =? DT_REG) then Ok (v, None)
  else if has_flag fl VFS_WRITE && negb (right_write d) then Ok (v, None)
  else if has_flag fl VFS_READ && negb (right_read d) then Ok (v, None)
  else
    let fl := if right_seekable d then Z.lor fl VFS_SEEKABLE else fl in
    let fl := if right_truncatable d then Z.lor fl VFS_TRUNCATABLE else fl in
    '(v, h) ← create_handler fs d p fl mem v;
    match h with
    | None => Ok (v, None)
    | Some p =>
        if has_flag fl VFS_APPEND then
          h ← get_handle p v;
          '(s, _) ← get_fs fs v;
          Ok (put_handle p (set_stream_offset h (file_access_granularity s) (dirent_size d)) v, Some p)
        else Ok (v, Some p)
    end.

Definition vfs_handle_dup (from : Z) (mem : Z -> list Z) (v : vfs) : res (vfs * option Z) :=
  h ← get_handle from v;
  let '(v, hid) := handle_next_id v in
  '(v, i) ← acquire_vfile (vfile_id h) v;
  '(i, e) ← deref i v;
  let v := release_vfile v in
  '(s, n) ← get_fs (handle_fs h) v;
  '(v, allowed) ←
    match open_instance (addr (ent_file e)) hid s with
    | None => Ok (v, 1)
    | Some r => '(s, x) ← r; Ok (put_fs (handle_fs h) s n v, x)
    end;
  if allowed =? 0 then Ok (v, None)
  else
    '(s, n) ← get_fs (handle_fs h) v;
    let new := Handle (handle_fs h) false (sector_offset h) (sector_count h) (file_offset h)
                 (mem (file_access_granularity s)) 0 hid (flags h) in
    v ← register_handle_to_vfile (vfile_id h) hid new (put_fs (handle_fs h) s (n + 1) v);
    Ok (v, Some hid).

(** ** Metadata *)

(** [for(unsigned i = 0; i < n; i++)] of [vfs_lazy_flush]; [update] is the result of
    [vfs_update_metadata_disk]. *)
Fixpoint lazy_flush_loop (update : list Z -> Z -> Z -> Z) (l : list (list Z * Z * Z)) (v : vfs) : res vfs :=
  match l with
  | [] => Ok v
  | (p, a, n) :: l =>
      let v := set_updates v (lazy_flush_entries v) (cache_updates v) (disk_updates v ++ [(p, a, n)]) in
      assert_ (update p a n =? 0) "!res" ;;
      lazy_flush_loop update l v
  end.
Definition vfs_lazy_flush (update : list Z -> Z -> Z -> Z) (v : vfs) : res vfs :=
  v ← lock_vfiles v;
  let l := lazy_flush_entries v in
  lazy_flush_loop update l (release_vfile (set_updates v [] (cache_updates v) (disk_updates v))).

Definition flush (e : file_ent) (v : vfs) : vfs :=
  if negb (modified e) then v
  else
    let u := (path e, addr (ent_file e), file_size (ent_file e)) in
    set_updates v (lazy_flush_entries v ++ [u]) (cache_updates v ++ [u]) (disk_updates v).

Definition vfs_flush_file (p : Z) (v : vfs) : res vfs :=
  h ← get_handle p v;
  '(v, i) ← acquire_vfile (vfile_id h) v;
  '(i, e) ← deref i v;
  Ok (release_vfile (flush e v)).

(** ** Exclusive access *)

(** [None] for the result -1. *)
Definition acquire_file_access (id : Z) (v : vfs) : res (vfs * option file) :=
  '(v, i) ← acquire_vfile id v;
  match i with
  | None => Ok (v, None)
  | Some _ =>
      '(i, e) ← deref i v;
      let v := release_vfile (put_ent i (set_accessed e true) v) in
      if accessed e then Err (Deadlock "accessed") else Ok (v, Some (ent_file e))
  end.

Definition release_file_access (id : Z) (v : vfs) : res vfs :=
  '(v, i) ← acquire_vfile id v;
  '(i, e) ← deref i v;
  assert_ (accessed e) "vfile->accessed" ;;
  Ok (release_vfile (put_ent i (set_accessed e false) v)).

Definition update_vfile (id : Z) (f : file) (updater : option Z) (v : vfs) : res vfs :=
  '(v, i) ← acquire_vfile id v;
  '(i, e) ← deref i v;
  v ← invalidate_handlers_buffer e updater v;
  Ok (release_vfile (put_ent i (set_size e f) v)).

Definition vfs_close_file (p : Z) (v : vfs) : res vfs :=
  h ← get_handle p v;
  '(v, r) ← acquire_file_access (vfile_id h) v;
  match r with
  | None => Ok v
  | Some _ =>
      '(v, i) ← acquire_vfile (vfile_id h) v;
      '(i, e) ← deref i v;
      '(s, n) ← get_fs (handle_fs h) v;
      v ← match close_instance (addr (ent_file e)) (handle_id h) s with
          | None => Ok v
          | Some r => s ← r; Ok (put_fs (handle_fs h) s n v)
          end;
      let e := set_fhs e (n_insts e - 1) (fhs e) in
      assert_ (0 <=? n_insts e) "open_file->n_insts >= 0" ;;
      let e := if has_flag (flags h) VFS_WRITE then set_modified e true else e in
      let v := put_ent i e v in
      v ← (if n_insts e =? 0 then
             let v := flush e v in
             let v := release_vfile (set_open_files v (take i (open_files v) ++ drop (i + 1) (open_files v))) in
             '(s, n) ← get_fs (handle_fs h) v;
             match close_file (addr (ent_file e)) s with
             | None => Ok v
             | Some r => s ← r; Ok (put_fs (handle_fs h) s n v)
             end
           else release_file_access (vfile_id h) (release_vfile v));
      let v := set_handles v (delete p (handles v)) in
      '(s, n) ← get_fs (handle_fs h) v;
      assert_ (0 <=? n - 1) "fs->n_open_files >= 0" ;;
      Ok (put_fs (handle_fs h) s (n - 1) v)
  end.

Definition vfs_truncate_file (p size : Z) (v : vfs) : res (vfs * Z) :=
  h ← get_handle p v;
  if negb (has_flag (flags h) VFS_TRUNCATABLE) || negb (has_flag (flags h) VFS_WRITE) then Ok (v, -1)
  else
    '(v, r) ← acquire_file_access (vfile_id h) v;
    match r with
    | None => Ok (v, -1)
    | Some f =>
        '(s, n) ← get_fs (handle_fs h) v;
        '(s, f, r) ← truncate_file f size s;
        let v := put_fs (handle_fs h) s n v in
        v ← (if r =? 0 then update_vfile (vfile_id h) f None v else Ok v);
        v ← release_file_access (vfile_id h) v;
        Ok (v, r)
    end.

(** ** Reading *)

(** The part of a read that comes from the buffer: the bytes, the handle and what is left. *)
Definition read_buffered (h : file_handle) (g : Z) (cachable : bool) (bsize : Z)
    : res (list Z * file_handle * Z) :=
  if buffer_valid h && cachable then
    let unaligned_size := Z.min (u32 (g - sector_offset h)) bsize in
    data ← rd_bytes (sector_buff h) (sector_offset h) unaligned_size;
    let h := set_cursor h (u64 (file_offset h + unaligned_size)) (u32 (sector_offset h + unaligned_size)) (sector_count h) in
    assert_ (sector_offset h <=? g) "stream->sector_offset <= granularity" ;;
    let h := if sector_offset h =? g
             then set_buffer (set_cursor h (file_offset h) 0 (u64 (sector_count h + 1))) false (sector_buff h)
             else h in
    let bsize := bsize - unaligned_size in
    (if negb (bsize =? 0) then
       assert_ (sector_offset h =? 0) "stream->sector_offset == 0" ;;
       assert_ (file_offset h =? u64 (g * sector_count h)) "stream->file_offset == granularity * stream->sector_count"
     else Ok ()) ;;
    Ok (data, h, bsize)
  else Ok ([], h, bsize).

(** The part that comes from the file system: the bytes, the handle and how many there are;
    [inl] for the early return. *)
Definition read_blocks (f : file) (h : file_handle) (g : Z) (cachable : bool) (bsize : Z) (s : S)
    : res (S * (Z + list Z * file_handle * Z)) :=
  let must_read := u32 (sector_offset h + bsize) in
  let read_blocks := CEIL_DIV must_read g in
  let end_offset := must_read mod g in
  let read_buf_size := u32 (read_blocks * g) in
  let unaligned := negb ((sector_offset h =? 0) && (end_offset =? 0)) in
  '(s, read_buf, rd) ← read_file_sectors f (sector_count h) read_blocks s;
  if rd <? 0 then Ok (s, inl (u64 rd))
  else
    (if rd <? s32 read_blocks then assert_ (g =? 1) "granularity == 1" else Ok ()) ;;
    let '(read_buf_size, bsize) :=
      if rd <? s32 read_blocks then (rd, u32 (bsize - (read_blocks - rd))) else (read_buf_size, bsize) in
    '(data, h) ←
      (if unaligned then
         h ← (if cachable && negb (end_offset =? 0) then
                buf ← rd_bytes read_buf (read_buf_size - g) g; Ok (set_buffer h true buf)
              else Ok h);
         data ← rd_bytes read_buf (sector_offset h) bsize;
         Ok (data, h)
       else Ok (read_buf, h));
    let off := u64 (file_offset h + bsize) in
    Ok (s, inr (data, set_cursor h off end_offset (off / g), bsize)).

(** [vfs_read_file]: the bytes stored at [ptr] and the return value. *)
Definition vfs_read_file (size p : Z) (v : vfs) : res (vfs * list Z * Z) :=
  h ← get_handle p v;
  if negb (has_flag (flags h) VFS_READ) then Ok (v, [], u64 (-1))
  else
    '(s, n) ← get_fs (handle_fs h) v;
    let g := file_access_granularity s in
    '(v, r) ← acquire_file_access (vfile_id h) v;
    match r with
    | None => Ok (v, [], u64 (-1))
    | Some f =>
        if negb (file_size f =? u64 (-1)) && (file_size f <=? file_offset h) then
          v ← release_file_access (vfile_id h) v; Ok (v, [], 0)
        else
          let bsize := u32 (Z.min size (u64 (file_size f - file_offset h))) in
          if bsize <=? 0 then v ← release_file_access (vfile_id h) v; Ok (v, [], 0)
          else
            '(data, h, rest) ← read_buffered h g (cacheable s) bsize;
            let v := put_handle p h v in
            if rest =? 0 then v ← release_file_access (vfile_id h) v; Ok (v, data, bsize)
            else
              '(s, r) ← read_blocks f h g (cacheable s) rest s;
              let v := put_fs (handle_fs h) s n v in
              match r with
              | inl rd => v ← release_file_access (vfile_id h) v; Ok (v, data, rd)
              | inr (data', h, bsize') =>
                  v ← release_file_access (vfile_id h) (put_handle p h v);
                  assert_ (bsize' <=? file_size f) "bsize <= file_size" ;;
                  Ok (v, data ++ data', if bsize' =? rest then bsize else bsize')
              end
    end.

(** ** Writing *)

(** The first sector of a write that is not aligned: [write_buf], or [None] when it could not
    be read. *)
Definition write_head (f : file) (h : file_handle) (g : Z) (cachable : bool) (size : Z) (write_buf : list Z) (s : S)
    : res (S * option (list Z)) :=
  if (negb (sector_offset h =? 0) && (u64 (file_offset h - sector_offset h) <? file_size f))
     || ((u64 (sector_offset h + size) <? g) && (u64 (file_offset h + size) <? file_size f)) then
    if negb (buffer_valid h) || negb cachable then
      '(s, data, rd) ← read_file_sectors f (sector_count h) 1 s;
      if negb (rd =? 1) then Ok (s, None)
      else write_buf ← wr_bytes write_buf 0 data; Ok (s, Some write_buf)
    else
      data ← rd_bytes (sector_buff h) 0 (sector_offset h);
      write_buf ← wr_bytes write_buf 0 data;
      let remaining := s64 (g - (size + sector_offset h)) in
      if 0 <? remaining then
        data ← rd_bytes (sector_buff h) (size + sector_offset h) remaining;
        write_buf ← wr_bytes write_buf (size + sector_offset h) data;
        Ok (s, Some write_buf)
      else Ok (s, Some write_buf)
  else Ok (s, Some write_buf).

(** The last sector of a write to several sectors. *)
Definition write_tail (f : file) (h : file_handle) (g : Z) (cachable : bool) (size write_blocks end_offset : Z)
    (write_buf : list Z) (s : S) : res (S * file_handle * list Z) :=
  let last_sector := u64 (sector_count h + write_blocks - 1) in
  if negb (last_sector =? sector_count h) then
    let h := if (cachable : bool) then set_buffer h false (sector_buff h) else h in
    if negb (end_offset =? 0) && (u64 (file_offset h + size) <? file_size f) then
      '(s, data, _) ← read_file_sectors f last_sector 1 s;
      write_buf ← wr_bytes write_buf (write_blocks * g - g) data;
      if (cachable : bool) then
        buf ← rd_bytes write_buf (write_blocks * g - g) g;
        Ok (s, set_buffer h true buf, write_buf)
      else Ok (s, h, write_buf)
    else Ok (s, h, write_buf)
  else Ok (s, h, write_buf).

(** The sectors as they are written: the file after the write and whether it failed; [None]
    for the early return. *)
Definition write_blocks (f : file) (h : file_handle) (g : Z) (cachable : bool) (ptr : list Z) (mem : Z -> list Z) (s : S)
    : res (S * file_handle * option (file * bool)) :=
  let size := zlen ptr in
  let must_write := u32 (sector_offset h + size) in
  let blocks := CEIL_DIV must_write g in
  let end_offset := must_write mod g in
  let write_buf_size := blocks * g in
  assert_ (u64 (sector_offset h + size) <=? write_buf_size) "stream->sector_offset + size <= write_buf_size" ;;
  if (sector_offset h =? 0) && (end_offset =? 0) then
    '(s, f, w) ← write_file_sectors f ptr (sector_count h) blocks s;
    Ok (s, h, Some (f, w <? 0))
  else
    '(s, r) ← write_head f h g cachable size (mem write_buf_size) s;
    match r with
    | None => Ok (s, h, None)
    | Some write_buf =>
        '(s, h, write_buf) ← write_tail f h g cachable size blocks end_offset write_buf s;
        write_buf ← wr_bytes write_buf (sector_offset h) ptr;
        '(s, f, _) ← write_file_sectors f write_buf (sector_count h) blocks s;
        Ok (s, h, Some (f, false))
    end.

(** [vfs_write_file] of the bytes [ptr]; [mem] is the memory [malloc] returns. *)
Definition vfs_write_file (ptr : list Z) (p : Z) (mem : Z -> list Z) (v : vfs) : res (vfs * Z) :=
  let size := zlen ptr in
  h ← get_handle p v;
  assert_ (flags h <? 2 * VFS_TRUNCATABLE) "stream->flags < 2*VFS_TRUNCATABLE" ;;
  if negb (has_flag (flags h) VFS_WRITE) then Ok (v, u64 (-1))
  else if size =? 0 then Ok (v, 0)
  else
    '(s, n) ← get_fs (handle_fs h) v;
    let g := file_access_granularity s in
    '(v, r) ← acquire_file_access (vfile_id h) v;
    match r with
    | None => Ok (v, u64 (-1))
    | Some f =>
        let h := if has_flag (flags h) VFS_APPEND then set_stream_offset h g (file_size f) else h in
        '(s, h, r) ← write_blocks f h g (cacheable s) ptr mem s;
        let v := put_fs (handle_fs h) s n v in
        match r with
        | None => v ← release_file_access (vfile_id h) (put_handle p h v); Ok (v, u64 (-1))
        | Some (f', error) =>
            let off := u64 (file_offset h + size) in
            let h := set_cursor h off (u32 (sector_offset h + size) mod g) (off / g) in
            let v := put_handle p h v in
            let size_update := negb (file_size f' =? u64 (-1)) && (file_size f' <? off) in
            let f'' := if size_update then File (addr f') off else f' in
            v ← (if size_update || negb (addr f =? addr f') then update_vfile (vfile_id h) f'' (Some p) v else Ok v);
            v ← release_file_access (vfile_id h) v;
            Ok (v, if (error : bool) then u64 (-1) else size)
        end
    end.

(** ** The cursor *)

Definition SEEK_SET : Z := 0.
Definition SEEK_CUR : Z := 1.
Definition SEEK_END : Z := 2.

Definition vfs_seek_file (p offset whence : Z) (v : vfs) : res (vfs * Z) :=
  h ← get_handle p v;
  if negb (has_flag (flags h) VFS_SEEKABLE) then Ok (v, u64 (-1))
  else
    r ← (if whence =? SEEK_CUR then Ok (v, Some (u64 (offset + file_offset h)))
         else if whence =? SEEK_END then
           '(v, i) ← acquire_vfile (vfile_id h) v;
           '(i, e) ← deref i v;
           Ok (release_vfile v, Some (u64 (offset + file_size (ent_file e))))
         else if whence =? SEEK_SET then Ok (v, Some offset)
         else Ok (v, None));
    match r with
    | (v, None) => Ok (v, u64 (-1))
    | (v, Some absolute_offset) =>
        '(v, _) ← acquire_vfile (vfile_id h) v;
        '(s, _) ← get_fs (handle_fs h) v;
        let v := put_handle p (set_stream_offset h (file_access_granularity s) absolute_offset) v in
        Ok (release_vfile v, absolute_offset)
    end.

Definition vfs_tell_file (p : Z) (v : vfs) : res Z := h ← get_handle p v; Ok (file_offset h).
End Vfs.
Arguments vfs : clear implicits.
Arguments Vfs {S}.
