(* ===== verification/VfsRead.v ===== *)
(** * Open files: the table, and the cursor of a handle *)

From S2P Require Import Prelude Bytes FileSystems VfsFiles.





(** ** Sizes in blocks *)

Lemma ceil_div_spec m g : 0 <= m -> 0 < g -> m + g - 1 < 2 ^ 32 ->
  CEIL_DIV m g = m / g + (if m mod g =? 0 then 0 else 1).
Proof.
  intros Hm Hg Hs. unfold CEIL_DIV. rewrite u32_small by lia.
  pose proof (Z.div_mod m g ltac:(lia)). pose proof (Z.mod_pos_bound m g Hg).
  destruct (Z.eqb_spec (m mod g) 0) as [E|E]; symmetry; [apply (Z.div_unique _ _ _ (g - 1))|apply (Z.div_unique _ _ _ (m mod g - 1))]; lia.
Qed.

(** A position of a file as a sector and an offset. *)
Lemma position_add g cnt so m : 0 < g -> 0 <= so + m ->
  (cnt * g + so + m) / g = cnt + (so + m) / g /\ (cnt * g + so + m) mod g = (so + m) mod g.
Proof.
  intros Hg Hm. replace (cnt * g + so + m) with (so + m + cnt * g) by lia. rewrite Z.div_add, Z.mod_add by lia. lia.
Qed.

Section Table.
Context {S : Type} `{FileSystem S}.
Implicit Types v : vfs S.

(** ** The table of open files *)

Lemma find_vfile_ids id v v' : ent_id <$> open_files v' = ent_id <$> open_files v -> find_vfile id v' = find_vfile id v.
Proof.
  unfold find_vfile. intros E.
  assert (forall l : list file_ent, fst <$> list_find (fun e => ent_id e = id) l = fst <$> list_find (fun x => x = id) (ent_id <$> l)) as Hl.
  { intros l. rewrite list_find_fmap. change ((fun x => x = id) ∘ ent_id) with (fun e => ent_id e = id). by destruct (list_find _ l) as [[? ?]|]. }
  by rewrite !Hl, E.
Qed.

Lemma put_ent_ids i e e' v : open_files v !! i = Some e -> ent_id e' = ent_id e ->
  ent_id <$> open_files (put_ent i e' v) = ent_id <$> open_files v.
Proof.
  intros He Hid. cbn. rewrite list_fmap_insert, Hid. apply list_insert_id. by rewrite list_lookup_fmap, He.
Qed.

(** The table holds the entry [e] for the handle's file, which nobody accesses. *)
Record idle_entry v (id : Z) (i : nat) (e : file_ent) : Prop := {
  ie_find : find_vfile id v = Some i;
  ie_ent : open_files v !! i = Some e;
  ie_accessed : accessed e = false;
  ie_lock : vfile_lock v = false
}.

Lemma release_locked v : vfile_lock v = false -> release_vfile (set_lock v true) = v.
Proof. intros E. destruct v. cbn in *. by subst. Qed.

Lemma acquire_vfile_ok v id i e : idle_entry v id i e -> acquire_vfile id v = Ok (set_lock v true, Some i).
Proof.
  intros [Hf He Ha Hl]. unfold acquire_vfile, lock_vfiles. rewrite Hl. cbn [mbind res_bind].
  by replace (find_vfile id (set_lock v true)) with (Some i) by (rewrite <- Hf; by apply find_vfile_ids).
Qed.

Definition busy v (i : nat) (e : file_ent) : vfs S := put_ent i (set_accessed e true) v.

Lemma set_lock_same v b : vfile_lock v = b -> set_lock v b = v.
Proof. intros <-. by destruct v. Qed.

Lemma acquire_file_access_ok v id i e : idle_entry v id i e ->
  acquire_file_access id v = Ok (busy v i e, Some (ent_file e)).
Proof.
  intros [Hf He Ha Hl]. unfold acquire_file_access, acquire_vfile, lock_vfiles. rewrite Hl. cbn [mbind res_bind].
  replace (find_vfile id (set_lock v true)) with (Some i) by (rewrite <- Hf; by apply find_vfile_ids).
  cbn [mbind res_bind deref]. change (open_files (set_lock v true)) with (open_files v). rewrite He. cbn [mbind res_bind].
  rewrite Ha. unfold busy, release_vfile, put_ent. cbn. rewrite <- Hl. by destruct v.
Qed.

(** The end of an access: [v'] is the busy table, whatever else changed. *)
Lemma release_file_access_ok v v' id i e : idle_entry v id i e ->
  open_files v' = <[i := set_accessed e true]> (open_files v) -> vfile_lock v' = false ->
  release_file_access id v' = Ok (set_open_files v' (open_files v)).
Proof.
  intros [Hf He Ha Hl] Ho Hl'. unfold release_file_access, acquire_vfile, lock_vfiles. rewrite Hl'. cbn [mbind res_bind].
  assert (find_vfile id (set_lock v' true) = Some i) as ->.
  { rewrite <- Hf. apply find_vfile_ids. change (open_files (set_lock v' true)) with (open_files v'). rewrite Ho.
    by apply (put_ent_ids i e (set_accessed e true) v). }
  cbn [mbind res_bind deref]. change (open_files (set_lock v' true)) with (open_files v').
  assert (i < length (open_files v))%nat by (by eapply lookup_lt_Some).
  rewrite Ho, list_lookup_insert_eq by done. cbn [mbind res_bind set_accessed accessed assert_].
  unfold release_vfile, put_ent. cbn. rewrite Ho, list_insert_insert_eq. rewrite list_insert_id; [by destruct v'; cbn in *; subst|].
  rewrite He. destruct e; cbn in *. by subst.
Qed.

(** The same for any entry that is being accessed. *)
Lemma release_entry v id i e : find_vfile id v = Some i -> open_files v !! i = Some e -> accessed e = true -> vfile_lock v = false ->
  release_file_access id v = Ok (put_ent i (set_accessed e false) v).
Proof.
  intros Hf He Ha Hl. unfold release_file_access, acquire_vfile, lock_vfiles. rewrite Hl. cbn [mbind res_bind].
  replace (find_vfile id (set_lock v true)) with (Some i) by (rewrite <- Hf; by apply find_vfile_ids).
  cbn [mbind res_bind deref]. change (open_files (set_lock v true)) with (open_files v). rewrite He. cbn [mbind res_bind].
  rewrite Ha. cbn [assert_ mbind res_bind]. unfold release_vfile, put_ent. cbn. rewrite <- Hl. by destruct v.
Qed.
End Table.

(** ** The cursor and the buffer of a handle *)

Record cursor_ok (h : file_handle) (g : Z) : Prop := {
  cu_range : 0 <= file_offset h < 2 ^ 48;
  cu_offset : sector_offset h = file_offset h mod g;
  cu_count : sector_count h = file_offset h / g
}.

(** The buffer, where it is used, holds the current sector of the file. *)
Definition coherent (h : file_handle) (g : Z) (cachable : bool) (data : list Z) : Prop :=
  buffer_valid h = true -> cachable = true ->
  sector_buff h = slice data (sector_count h * g) g /\ (sector_count h + 1) * g <= zlen data.

(** Changes of the cursor and the buffer only. *)
Record same_handle (h h' : file_handle) : Prop := {
  sh_fs : handle_fs h' = handle_fs h;
  sh_vfile : vfile_id h' = vfile_id h;
  sh_id : handle_id h' = handle_id h;
  sh_flags : flags h' = flags h
}.
#[export] Instance same_handle_refl : Reflexive same_handle.
Proof. by constructor. Qed.
#[export] Instance same_handle_trans : Transitive same_handle.
Proof. intros a b c [? ? ? ?] [? ? ? ?]. constructor; congruence. Qed.

Lemma cursor_position h g : 0 < g -> cursor_ok h g ->
  file_offset h = sector_count h * g + sector_offset h /\ 0 <= sector_offset h < g /\ 0 <= sector_count h.
Proof.
  intros Hg [Hr Ho Hc]. rewrite Ho, Hc. pose proof (Z.div_mod (file_offset h) g ltac:(lia)). pose proof (Z.mod_pos_bound (file_offset h) g Hg).
  assert (0 <= file_offset h / g) by (apply Z.div_pos; lia). lia.
Qed.

Lemma cursor_ok_intro h g cnt so : 0 < g -> 0 <= so < g -> 0 <= cnt -> file_offset h = cnt * g + so -> file_offset h < 2 ^ 48 ->
  sector_offset h = so -> sector_count h = cnt -> cursor_ok h g.
Proof.
  intros Hg Hso Hc E Hr Es Ec. constructor; [nia|..]; rewrite ?Es, ?Ec, E.
  - symmetry. rewrite Z.add_comm, Z.mod_add, Z.mod_small by lia. done.
  - symmetry. rewrite Z.div_add_l, Z.div_small by lia. lia.
Qed.

(** * Open files: reading

    A read with byte granularity, over a file system that reads whole sectors. *)


(** What is read from the buffer. *)
Lemma read_buffered_ok h g cachable data bsize : 0 < g < 2 ^ 16 -> cursor_ok h g -> coherent h g cachable data ->
  0 < bsize < 2 ^ 30 -> file_offset h + bsize <= zlen data -> zlen data < 2 ^ 48 ->
  exists h' rest, read_buffered h g cachable bsize = Ok (slice data (file_offset h) (bsize - rest), h', rest) /\
    0 <= rest <= bsize /\ file_offset h' = file_offset h + (bsize - rest) /\
    cursor_ok h' g /\ coherent h' g cachable data /\ same_handle h h' /\
    (rest <> 0 -> buffer_valid h' && cachable = false).
Proof.
  intros Hg Hc Hco Hb Hlen H48. destruct (cursor_position h g ltac:(lia) Hc) as (Eo & Hso & Hcnt). unfold read_buffered.
  destruct (buffer_valid h && cachable) eqn:Ebv.
  2:{ exists h, bsize. rewrite Z.sub_diag, slice_nil, Z.add_0_r. split_and!; done || lia. }
  apply andb_true_iff in Ebv as [Ebv Ec]. destruct (Hco Ebv Ec) as [Ebuf Hcl].
  rewrite (u32_small (g - _)) by lia. set (m := Z.min (g - sector_offset h) bsize).
  assert (zlen (sector_buff h) = g) as Hbl by (rewrite Ebuf; apply zlen_slice; nia).
  rewrite rd_bytes_ok by lia. cbn [mbind res_bind].
  assert (slice (sector_buff h) (sector_offset h) m = slice data (file_offset h) m) as ->.
  { rewrite Ebuf, slice_slice by nia. by rewrite <- Eo. }
  rewrite u64_small, u32_small by lia. cbn [set_cursor sector_offset file_offset sector_count].
  rewrite (proj2 (Z.leb_le _ _)) by lia. cbn [assert_ mbind res_bind].
  destruct (Z.eqb_spec (sector_offset h + m) g) as [Eg|Eg]; cbn [set_cursor set_buffer sector_offset file_offset sector_count].
  - assert (sector_count h < 2 ^ 48) by nia. rewrite (u64_small (sector_count h + 1)) by lia.
    set (h' := set_buffer _ _ _). exists h', (bsize - m). replace (bsize - (bsize - m)) with m by lia.
    assert (file_offset h + m = g * (sector_count h + 1)) as Eo' by lia.
    split_and!; try (done || lia).
    + rewrite Eo'. unfold assert_. rewrite Z.eqb_refl. destruct (negb (bsize - m =? 0)); [|done]. cbn [mbind res_bind].
      rewrite u64_small by nia. by rewrite Z.eqb_refl.
    + apply (cursor_ok_intro h' g (sector_count h + 1) 0); cbn; lia.
  - assert (m = bsize) as Em by lia. rewrite Em in *. rewrite Z.sub_diag. cbn [Z.eqb negb mbind res_bind].
    set (h' := set_cursor _ _ _ _). exists h', 0. rewrite Z.sub_0_r. split_and!; try (done || lia).
    + by apply (cursor_ok_intro h' g (sector_count h) (sector_offset h + bsize)); cbn; lia.
Qed.

Section Read.
Context {S : Type} `{BlockFileSystem S}.
Implicit Types (s : S) (v : vfs S).

(** What is read from the file system. *)
Lemma read_blocks_ok s f h data bsize : stored s (addr f) data -> file_size f <= zlen data ->
  cursor_ok h (file_access_granularity s) -> coherent h (file_access_granularity s) (cacheable s) data ->
  buffer_valid h && cacheable s = false -> 0 < bsize < 2 ^ 30 -> file_offset h + bsize <= file_size f ->
  exists s' h', read_blocks f h (file_access_granularity s) (cacheable s) bsize s =
      Ok (s', inr (slice data (file_offset h) bsize, h', bsize)) /\
    file_access_granularity s' = file_access_granularity s /\ cacheable s' = cacheable s /\
    (forall a d, stored s a d -> stored s' a d) /\
    file_offset h' = file_offset h + bsize /\ cursor_ok h' (file_access_granularity s) /\
    coherent h' (file_access_granularity s) (cacheable s) data /\ same_handle h h'.
Proof.
  intros Hst Hsz Hc Hco Hbv Hb Hlen. pose proof (granularity_range s _ _ Hst) as Hg. pose proof (stored_range s _ _ Hst) as (H48 & k & Hk & Ek).
  set (g := file_access_granularity s) in *. set (cachable := cacheable s) in *.
  destruct (cursor_position h g ltac:(lia) Hc) as (Eo & Hso & Hcnt). unfold read_blocks.
  rewrite (u32_small (_ + bsize)) by lia. set (m := sector_offset h + bsize).
  rewrite (ceil_div_spec m g) by lia. pose proof (Z.div_mod m g ltac:(lia)) as Em. pose proof (Z.mod_pos_bound m g ltac:(lia)) as Hmm.
  set (q := m / g) in *. set (r := m mod g) in *. assert (0 <= q) by (apply Z.div_pos; lia).
  set (blocks := q + (if r =? 0 then 0 else 1)).
  assert (blocks * g = m + (if r =? 0 then 0 else g - r) /\ 0 < blocks < 2 ^ 31) as [Ebl Hbl].
  { unfold blocks. destruct (Z.eqb_spec r 0); nia. }
  assert ((sector_count h + blocks) * g <= zlen data) as Hfit.
  { rewrite Ek. apply Z.mul_le_mono_nonneg_r; [lia|]. unfold blocks. destruct (Z.eqb_spec r 0); nia. }
  destruct (read_stored s f data (sector_count h) blocks) as (s' & E & Eg & Ecach & Hkeep & _); [done|lia|done|done| |].
  { fold g. unfold blocks. destruct (Z.eqb_spec r 0); nia. }
  fold g in E, Eg. fold cachable in Ecach.
  rewrite (u32_small (blocks * g)) by (destruct (Z.eqb_spec r 0); lia). rewrite E. cbn [mbind res_bind].
  rewrite (proj2 (Z.ltb_ge blocks 0)), s32_small, Z.ltb_irrefl by lia. cbn [mbind res_bind].
  destruct (position_add g (sector_count h) (sector_offset h) bsize) as [Ediv Emod]; [lia|lia|].
  rewrite <- Eo in Ediv, Emod. fold m q in Ediv. fold m r in Emod.
  assert (zlen (slice data (sector_count h * g) (blocks * g)) = blocks * g) as Hrl by (apply zlen_slice; nia).
  assert (slice (slice data (sector_count h * g) (blocks * g)) (sector_offset h) bsize = slice data (file_offset h) bsize) as Eslice.
  { rewrite slice_slice, <- Eo by (destruct (Z.eqb_spec r 0); nia). done. }
  assert (forall h', file_offset h' = file_offset h + bsize -> sector_offset h' = r -> sector_count h' = sector_count h + q -> cursor_ok h' g) as Hcur.
  { intros h' E1 E2 E3. apply (cursor_ok_intro h' g (sector_count h + q) r); lia. }
  assert (r <> 0 -> blocks = q + 1) as Eblocks by (intros ?; unfold blocks; by rewrite (proj2 (Z.eqb_neq r 0))).
  destruct (Z.eqb_spec r 0) as [Er|Er]; [|specialize (Eblocks Er)].
  - (* the end is aligned: the buffer is not filled *)
    rewrite andb_false_r, andb_true_r. eexists s', _. split_and!; [|done|done|done|..].
    + destruct (Z.eqb_spec (sector_offset h) 0) as [E0|E0]; cbn [negb mbind res_bind].
      * replace (blocks * g) with bsize by lia. rewrite <- (Z.add_0_r (sector_count h * g)), <- E0, <- Eo.
        rewrite (u64_small (_ + bsize)), Ediv by lia. reflexivity.
      * rewrite rd_bytes_ok, Eslice by lia. cbn [mbind res_bind]. rewrite (u64_small (_ + bsize)), Ediv by lia. reflexivity.
    + done.
    + by apply Hcur.
    + intros E1 E2. cbn in E1. by rewrite E1, E2 in Hbv.
    + by constructor.
  - rewrite andb_false_r. cbn [negb]. rewrite andb_true_r. destruct cachable eqn:Ecb.
    + set (h1 := set_buffer h true (slice data ((sector_count h + q) * g) g)).
      exists s', (set_cursor h1 (file_offset h + bsize) r (sector_count h + q)). split_and!; try done.
      * rewrite rd_bytes_ok by nia. cbn [mbind res_bind set_buffer sector_offset file_offset].
        rewrite rd_bytes_ok, Eslice by lia. cbn [mbind res_bind set_buffer file_offset]. rewrite (u64_small (_ + bsize)), Ediv by lia.
        rewrite slice_slice by nia. replace (sector_count h * g + (blocks * g - g)) with ((sector_count h + q) * g) by (rewrite Eblocks; lia). reflexivity.
      * by apply Hcur.
      * intros _ _. cbn. split; [done|]. nia.
    + exists s', (set_cursor h (file_offset h + bsize) r (sector_count h + q)). split_and!; try done.
      * cbn [mbind res_bind]. rewrite rd_bytes_ok, Eslice by lia. cbn [mbind res_bind].
        rewrite (u64_small (_ + bsize)), Ediv by lia. reflexivity.
      * by apply Hcur.
Qed.

(** The state of a handle [p] that is open on a stored file. *)
Record opened v (p : Z) (h : file_handle) (i : nat) (e : file_ent) (s : S) (n : Z) (data : list Z) : Prop := {
  op_handle : handles v !! p = Some h;
  op_entry : idle_entry v (vfile_id h) i e;
  op_fs : filesystems v !! handle_fs h = Some (s, n);
  op_ent_fs : ent_fs e = handle_fs h;
  op_stored : stored s (addr (ent_file e)) data;
  op_size : 0 <= file_size (ent_file e) <= zlen data;
  op_cursor : cursor_ok h (file_access_granularity s);
  op_coherent : coherent h (file_access_granularity s) (cacheable s) data
}.

(** What a read leaves alone. *)
Record same_vfs v v' (p fs : Z) : Prop := {
  sv_files : open_files v' = open_files v;
  sv_lock : vfile_lock v' = vfile_lock v;
  sv_handles : forall q, q <> p -> handles v' !! q = handles v !! q;
  sv_fss : forall q, q <> fs -> filesystems v' !! q = filesystems v !! q
}.

(** A handle that moved on, over a file system that keeps its files. *)
Lemma opened_moved v v' p h i e s n data h' s' : opened v p h i e s n data -> same_vfs v v' p (handle_fs h) ->
  handles v' !! p = Some h' -> filesystems v' !! handle_fs h = Some (s', n) -> same_handle h h' ->
  stored s' (addr (ent_file e)) data -> file_access_granularity s' = file_access_granularity s -> cacheable s' = cacheable s ->
  cursor_ok h' (file_access_granularity s) -> coherent h' (file_access_granularity s) (cacheable s) data ->
  opened v' p h' i e s' n data.
Proof.
  intros [Hh [Ef Ee Ea El] Hf Hef Hs Hz Hc Hco] [V1 V2 V3 V4] Hh' Hf' [E1 E2 E3 E4] Hs' Eg Ec Hc' Hco'. constructor; try done.
  - rewrite E2. constructor; [|by rewrite V1|done|by rewrite V2]. rewrite <- Ef. apply find_vfile_ids. by rewrite V1.
  - by rewrite E1.
  - by rewrite E1.
  - by rewrite Eg.
  - by rewrite Eg, Ec.
Qed.

(** The state after an access that ended with the handle [h'] and the file system [s']. *)
Definition after_access v (p : Z) (h' : file_handle) (fs : Z) (s' : S) (n : Z) v' : Prop :=
  same_vfs v v' p fs /\ handles v' !! p = Some h' /\ filesystems v' !! fs = Some (s', n).

Lemma access_ended v v1 p h i e s n data h' s' : opened v p h i e s n data ->
  open_files v1 = <[i := set_accessed e true]> (open_files v) -> vfile_lock v1 = false ->
  handles v1 !! p = Some h' -> (forall q, q <> p -> handles v1 !! q = handles v !! q) ->
  filesystems v1 !! handle_fs h = Some (s', n) -> (forall q, q <> handle_fs h -> filesystems v1 !! q = filesystems v !! q) ->
  exists v', release_file_access (vfile_id h) v1 = Ok v' /\ after_access v p h' (handle_fs h) s' n v'.
Proof.
  intros [_ Hi _ _ _ _ _ _] Ho Hl Hh Hhs Hf Hfs. exists (set_open_files v1 (open_files v)).
  split; [by eapply release_file_access_ok|]. split_and!; [|done|done]. constructor; try done. cbn. by rewrite (ie_lock _ _ _ _ Hi).
Qed.

Lemma busy_fields v i e : open_files (busy v i e) = <[i := set_accessed e true]> (open_files v) /\
  vfile_lock (busy v i e) = vfile_lock v /\ handles (busy v i e) = handles v /\ filesystems (busy v i e) = filesystems v.
Proof. done. Qed.

Lemma vfs_read_file_ok v p h i e s n data size : opened v p h i e s n data -> has_flag (flags h) VFS_READ = true ->
  0 <= size < 2 ^ 30 ->
  let k := Z.max 0 (Z.min size (file_size (ent_file e) - file_offset h)) in
  exists v' h' s', vfs_read_file size p v = Ok (v', slice data (file_offset h) k, k) /\
    opened v' p h' i e s' n data /\ file_offset h' = file_offset h + k /\ same_handle h h' /\
    same_vfs v v' p (handle_fs h) /\ (forall a d, stored s a d -> stored s' a d).
Proof.
  intros Hop Hfl Hsize k. pose proof (op_entry _ _ _ _ _ _ _ _ Hop) as Hi. pose proof (ie_lock _ _ _ _ Hi) as Hlock.
  pose proof (op_handle _ _ _ _ _ _ _ _ Hop) as Hh. pose proof (op_fs _ _ _ _ _ _ _ _ Hop) as Hfs. pose proof (op_size _ _ _ _ _ _ _ _ Hop) as Hz.
  pose proof (op_cursor _ _ _ _ _ _ _ _ Hop) as Hc. pose proof (op_coherent _ _ _ _ _ _ _ _ Hop) as Hco. pose proof (op_stored _ _ _ _ _ _ _ _ Hop) as Hst.
  pose proof (granularity_range _ _ _ Hst) as Hg. pose proof (stored_range _ _ _ Hst) as [H48 _]. pose proof (cu_range _ _ Hc) as Hoff.
  unfold vfs_read_file, get_handle, get_fs. rewrite Hh. cbn [mbind res_bind]. rewrite Hfl. cbn [negb].
  rewrite Hfs. cbn [mbind res_bind]. rewrite (acquire_file_access_ok v _ i e Hi). cbn [mbind res_bind].
  change (u64 (-1)) with (2 ^ 64 - 1). rewrite (proj2 (Z.eqb_neq (file_size _) _)) by lia. cbn [negb andb].
  assert (exists v', release_file_access (vfile_id h) (busy v i e) = Ok v' /\ after_access v p h (handle_fs h) s n v') as (v0 & E0 & Ha0).
  { by eapply access_ended. }
  assert (forall v' h' s', after_access v p h' (handle_fs h) s' n v' -> same_handle h h' -> stored s' (addr (ent_file e)) data ->
    file_access_granularity s' = file_access_granularity s -> cacheable s' = cacheable s -> cursor_ok h' (file_access_granularity s) ->
    coherent h' (file_access_granularity s) (cacheable s) data -> opened v' p h' i e s' n data) as Hfinal.
  { intros v' h' s' (A1 & A2 & A3) ? ? ? ? ? ?. by eapply opened_moved. }
  destruct (Z.leb_spec (file_size (ent_file e)) (file_offset h)) as [Heof|Heof].
  { assert (k = 0) as -> by lia. rewrite E0. cbn [mbind res_bind]. exists v0, h, s. rewrite Z.add_0_r.
    split_and!; try done; [by apply Hfinal|apply Ha0]. }
  rewrite (u64_small (_ - _)), (u32_small (Z.min _ _)) by lia. replace (Z.min size _) with k by lia.
  destruct (Z.leb_spec k 0) as [Hk|Hk].
  { assert (k = 0) as -> by lia. rewrite E0. cbn [mbind res_bind]. exists v0, h, s. rewrite Z.add_0_r.
    split_and!; try done; [by apply Hfinal|apply Ha0]. }
  destruct (read_buffered_ok h _ (cacheable s) data k Hg Hc Hco) as (h1 & rest & -> & Hr & Eo1 & Hc1 & Hco1 & Hs1 & Hbv1); [lia|lia|lia|].
  cbn [mbind res_bind]. rewrite (sh_vfile _ _ Hs1). destruct (Z.eqb_spec rest 0) as [->|Hrest].
  - rewrite Z.sub_0_r in *. destruct (access_ended v (put_handle p h1 (busy v i e)) p h i e s n data h1 s Hop) as (v' & -> & Ha); try done.
    { cbn. apply lookup_insert_eq. }
    { intros q Hq. cbn. by apply lookup_insert_ne. }
    cbn [mbind res_bind]. exists v', h1, s. split_and!; try done; [by apply Hfinal|apply Ha].
  - destruct (read_blocks_ok s (ent_file e) h1 data rest) as (s2 & h2 & -> & Eg & Ec & Hkeep & Eo2 & Hc2 & Hco2 & Hs2); try (done || lia).
    { by apply Hbv1. }
    cbn [mbind res_bind]. rewrite (sh_vfile _ _ Hs2), (sh_vfile _ _ Hs1), (sh_fs _ _ Hs1), Z.eqb_refl.
    destruct (access_ended v (put_handle p h2 (put_fs (handle_fs h) s2 n (put_handle p h1 (busy v i e)))) p h i e s n data h2 s2 Hop)
      as (v' & -> & Ha); try done.
    { cbn. apply lookup_insert_eq. }
    { intros q Hq. cbn. by rewrite !lookup_insert_ne by done. }
    { cbn. apply lookup_insert_eq. }
    { intros q Hq. cbn. by apply lookup_insert_ne. }
    cbn [mbind res_bind]. rewrite (proj2 (Z.leb_le _ _)) by lia. cbn [assert_ mbind res_bind].
    exists v', h2, s2. split_and!; try done.
    + rewrite Eo1. rewrite <- slice_split by lia. by replace (k - rest + rest) with k by lia.
    + apply Hfinal; try done; [by transitivity h1|by apply Hkeep].
    + lia.
    + by transitivity h1.
    + apply Ha.
Qed.
End Read.
