(* ===== verification/VfsWrite.v ===== *)
(** * Open files: writing

    A write with byte granularity reads the sectors it changes only in part, and then
    writes whole sectors. *)

From S2P Require Import Prelude Bytes FileSystems VfsFiles VfsRead.





Lemma s64_small x : - 2 ^ 62 <= x < 2 ^ 62 -> s64 x = x.
Proof. intros Hx. unfold s64, wrap. destruct (Z.ltb_spec (x mod 2 ^ 64) (2 ^ 63)); lia. Qed.

(** Bytes of a block that are those of the file at the same place. *)
Definition agrees (buf data : list Z) (at_ from to : Z) : Prop :=
  forall y, from <= y < to -> buf !! Z.to_nat y = data !! Z.to_nat (at_ + y).

Lemma agrees_blit buf data at_ off d from to : 0 <= at_ -> 0 <= off -> off + zlen d <= zlen buf -> 0 <= from ->
  d = slice data (at_ + off) (zlen d) ->
  (forall y, from <= y < to -> off <= y < off + zlen d \/ buf !! Z.to_nat y = data !! Z.to_nat (at_ + y)) ->
  agrees (blit buf off d) data at_ from to.
Proof.
  intros Ha Ho Hl Hf Hd Hy y Hyr. rewrite lookup_blit by lia. case_decide as Hin; unfold zlen in *.
  - rewrite Hd, lookup_slice by lia. f_equal. lia.
  - destruct (Hy y Hyr) as [?|?]; [lia|done].
Qed.

Lemma agrees_blit_out buf data at_ off d from to : 0 <= off -> off + zlen d <= zlen buf -> 0 <= from ->
  to <= off \/ off + zlen d <= from -> agrees buf data at_ from to -> agrees (blit buf off d) data at_ from to.
Proof.
  intros Ho Hl Hf Hdis Hag y Hy. rewrite lookup_blit by lia. rewrite decide_False by (unfold zlen in *; lia). by apply Hag.
Qed.

Section Write.
Context {S : Type} `{BlockFileSystem S}.
Implicit Types (s : S) (v : vfs S).

(** What reading does to a file system. *)
Record kept s s' : Prop := {
  ke_gran : file_access_granularity s' = file_access_granularity s;
  ke_cache : cacheable s' = cacheable s;
  ke_stored : forall a d, stored s a d -> stored s' a d;
  ke_room : forall a k, room s a k -> room s' a k
}.
#[local] Instance kept_refl : Reflexive kept.
Proof. by constructor. Qed.
#[local] Instance kept_trans : Transitive kept.
Proof. intros a b c [A1 A2 A3 A4] [B1 B2 B3 B4]. constructor; [congruence|congruence|auto|auto]. Qed.

(** One sector of the file. *)
Lemma read_one s f data k : stored s (addr f) data -> file_size f <= zlen data -> 0 <= k ->
  k * file_access_granularity s < file_size f ->
  exists s', read_file_sectors f k 1 s =
      Ok (s', slice data (k * file_access_granularity s) (file_access_granularity s), 1) /\ kept s s' /\
    (k + 1) * file_access_granularity s <= zlen data.
Proof.
  intros Hst Hsz Hk Hlt. pose proof (granularity_range s _ _ Hst). pose proof (stored_range s _ _ Hst) as (_ & K & HK & EK).
  set (g := file_access_granularity s) in *. assert ((k + 1) * g <= zlen data).
  { rewrite EK. apply Z.mul_le_mono_nonneg_r; [lia|]. destruct (decide (k < K)); [lia|].
    assert (K * g <= k * g) by (apply Z.mul_le_mono_nonneg_r; lia). lia. }
  destruct (read_stored s f data k 1) as (s' & E & E1 & E2 & E3 & E4); [done|done|lia|done|by replace (k + 1 - 1) with k by lia|].
  exists s'. fold g in E. rewrite Z.mul_1_l in E. by split_and!.
Qed.

Section Blocks.
Context (s : S) (f : file) (h : file_handle) (data : list Z) (size : Z).
Notation g := (file_access_granularity s).
Hypothesis Hst : stored s (addr f) data.
Hypothesis Hsz : 0 <= file_size f <= zlen data.
Hypothesis Hcu : cursor_ok h g.
Hypothesis Hco : coherent h g (cacheable s) data.
Hypothesis Hoff : file_offset h <= file_size f.
Hypothesis Hsize : 0 < size < 2 ^ 30.

Lemma write_head_ok buf : sector_offset h + size <= zlen buf -> g <= zlen buf -> 
  exists s' buf', write_head f h g (cacheable s) size buf s = Ok (s', Some buf') /\ kept s s' /\ zlen buf' = zlen buf /\
    agrees buf' data (sector_count h * g) 0 (sector_offset h) /\
    (sector_offset h + size < g -> agrees buf' data (sector_count h * g) (sector_offset h + size) (Z.min g (file_size f - sector_count h * g))).
Proof using All.
  intros Hlen Hlg. pose proof (granularity_range s _ _ Hst) as Hg. pose proof (stored_range s _ _ Hst) as [H48 _].
  destruct (cursor_position h g (proj1 Hg) Hcu) as (Eo & Hso & Hcnt). unfold write_head.
  assert (0 <= sector_count h * g) by nia. replace (file_offset h - sector_offset h) with (sector_count h * g) by lia.
  rewrite !u64_small by lia.
  set (need := _ || _). destruct need eqn:En.
  2:{ exists s, buf. apply orb_false_iff in En as [E1 E2]. split_and!; [done|reflexivity|done|..].
      - intros y Hy. exfalso. apply andb_false_iff in E1. destruct E1; lia.
      - intros Hlt y Hy. exfalso. apply andb_false_iff in E2. destruct E2; lia. }
  assert (sector_count h * g < file_size f) as Hin.
  { apply orb_true_iff in En as [E|E]; apply andb_true_iff in E; lia. }
  destruct (negb (buffer_valid h) || negb (cacheable s)) eqn:Ebv.
  - destruct (read_one s f data (sector_count h) Hst) as (s' & -> & Hk & Hfit); [lia|done|done|]. cbn [mbind res_bind].
    change (negb (1 =? 1)) with false. cbn [mbind res_bind].
    assert (zlen (slice data (sector_count h * g) g) = g) as Hdl by (apply zlen_slice; nia).
    rewrite wr_bytes_ok by lia. cbn [mbind res_bind]. eexists s', _. split_and!; [reflexivity|done|apply zlen_blit; lia|..].
    + apply agrees_blit; [nia|lia|lia|lia|by rewrite Hdl, Z.add_0_r|]. intros y Hy. lia.
    + intros Hlt. apply agrees_blit; [nia|lia|lia|lia|by rewrite Hdl, Z.add_0_r|]. intros y Hy. lia.
  - apply orb_false_iff in Ebv as [Ebv Ec]. apply negb_false_iff in Ebv. apply negb_false_iff in Ec.
    destruct (Hco Ebv Ec) as [Ebuf Hfit]. assert (zlen (sector_buff h) = g) as Hbl by (rewrite Ebuf; apply zlen_slice; nia).
    assert (forall o m, 0 <= o -> 0 <= m -> o + m <= g -> slice (sector_buff h) o m = slice data (sector_count h * g + o) m) as Esl.
    { intros o m ? ? ?. rewrite Ebuf, slice_slice by nia. done. }
    rewrite (rd_bytes_ok _ 0) by lia. cbn [mbind res_bind]. rewrite Esl by lia.
    assert (zlen (slice data (sector_count h * g + 0) (sector_offset h)) = sector_offset h) as Hdl by (apply zlen_slice; nia).
    rewrite wr_bytes_ok by lia. cbn [mbind res_bind]. rewrite s64_small by lia.
    set (b1 := blit buf 0 _). assert (zlen b1 = zlen buf) as Hb1 by (apply zlen_blit; lia).
    assert (agrees b1 data (sector_count h * g) 0 (sector_offset h)) as Hag1.
    { apply agrees_blit; [nia|lia|lia|lia|by rewrite Hdl|]. intros y Hy. lia. }
    destruct (Z.ltb_spec 0 (g - (size + sector_offset h))) as [Hrem|Hrem].
    + rewrite rd_bytes_ok, Esl by lia. cbn [mbind res_bind].
      assert (zlen (slice data (sector_count h * g + (size + sector_offset h)) (g - (size + sector_offset h))) = g - (size + sector_offset h)) as Hdl2
        by (apply zlen_slice; nia).
      rewrite wr_bytes_ok by lia. cbn [mbind res_bind]. eexists s, _. split_and!; [reflexivity|reflexivity|rewrite zlen_blit; lia|..].
      * apply agrees_blit_out; [lia|lia|lia|left; lia|done].
      * intros Hlt. apply agrees_blit; [nia|lia|lia|lia|by rewrite Hdl2|]. intros y Hy. lia.
    + exists s, b1. split_and!; [done|reflexivity|done|done|lia].
Qed.

(** The sectors that a write touches. *)
Definition n_blocks : Z := (sector_offset h + size) / g + (if (sector_offset h + size) mod g =? 0 then 0 else 1).

Lemma write_blocks_count : 0 < g -> 0 <= sector_offset h -> (n_blocks - 1) * g < sector_offset h + size <= n_blocks * g /\ 1 <= n_blocks /\
  ((sector_offset h + size) mod g = 0 -> sector_offset h + size = n_blocks * g).
Proof using Hsize.
  intros Hg Hso. unfold n_blocks. set (m := sector_offset h + size). assert (g <> 0) as Hg0 by lia. pose proof (Z.div_mod m g Hg0) as Em. pose proof (Z.mod_pos_bound m g Hg).
  assert (0 <= m / g) by (apply Z.div_pos; lia). set (q := m / g) in *. destruct (Z.eqb_spec (m mod g) 0) as [E|E]; nia.
Qed.

Definition same_cursor (h h' : file_handle) : Prop :=
  file_offset h' = file_offset h /\ sector_offset h' = sector_offset h /\ sector_count h' = sector_count h.

Lemma write_tail_ok buf : zlen buf = n_blocks * g ->
  agrees buf data (sector_count h * g) 0 (sector_offset h) ->
  (sector_offset h + size < g -> agrees buf data (sector_count h * g) (sector_offset h + size) (Z.min g (file_size f - sector_count h * g))) ->
  exists s' h' buf', write_tail f h g (cacheable s) size n_blocks ((sector_offset h + size) mod g) buf s = Ok (s', h', buf') /\
    kept s s' /\ zlen buf' = zlen buf /\ same_cursor h h' /\ same_handle h h' /\
    agrees buf' data (sector_count h * g) 0 (sector_offset h) /\
    agrees buf' data (sector_count h * g) (sector_offset h + size) (Z.min (n_blocks * g) (file_size f - sector_count h * g)).
Proof using All.
  intros Hlen Hag1 Hag2. pose proof (granularity_range s _ _ Hst) as Hg. pose proof (stored_range s _ _ Hst) as [H48 _].
  destruct (cursor_position h g (proj1 Hg) Hcu) as (Eo & Hso & Hcnt). destruct (write_blocks_count (proj1 Hg) (proj1 Hso)) as (Hnb & Hnb1 & Hal).
  set (m := sector_offset h + size) in *. assert (0 <= sector_count h * g) by (apply Z.mul_nonneg_nonneg; lia).
  assert (n_blocks <= m) by nia. assert (sector_count h <= sector_count h * g) by nia.
  unfold write_tail. rewrite (u64_small (_ - 1)) by lia.
  destruct (Z.eqb_spec (sector_count h + n_blocks - 1) (sector_count h)) as [E1|E1]; cbn [negb].
  - assert (n_blocks = 1) as E by lia. exists s, h, buf. split_and!; try done.
    intros y Hy. apply Hag2; [nia|]. rewrite E in Hy. lia.
  - set (h1 := if cacheable s then _ else h).
    assert (same_cursor h h1 /\ same_handle h h1) as [Hc1 Hs1] by (unfold h1; destruct (cacheable s); repeat split).
    assert (file_offset h1 = file_offset h) as -> by apply Hc1. rewrite (u64_small (_ + size)) by lia.
    destruct (negb (m mod g =? 0) && _) eqn:Econd.
    + apply andb_true_iff in Econd as [Er Ef]. apply Z.ltb_lt in Ef. apply negb_true_iff, Z.eqb_neq in Er.
      assert (g <= (n_blocks - 1) * g) as HB by nia. set (B := (n_blocks - 1) * g) in *.
      assert (n_blocks * g = B + g) as EB by (unfold B; lia).
      assert ((sector_count h + n_blocks - 1) * g = sector_count h * g + B) as EC by (unfold B; lia). clearbody B.
      destruct (read_one s f data (sector_count h + n_blocks - 1) Hst) as (s' & -> & Hk & Hfit); [lia|lia|lia|]. cbn [mbind res_bind].
      rewrite EC. set (last := slice data _ _). assert (zlen last = g) as Hll by (apply zlen_slice; lia).
      rewrite wr_bytes_ok by lia. cbn [mbind res_bind]. set (buf1 := blit buf _ last).
      assert (zlen buf1 = zlen buf) as Hb1 by (apply zlen_blit; lia).
      assert (agrees buf1 data (sector_count h * g) 0 (sector_offset h)) as Hag1'.
      { apply agrees_blit_out; [lia|lia|lia|left; lia|done]. }
      assert (agrees buf1 data (sector_count h * g) m (Z.min (n_blocks * g) (file_size f - sector_count h * g))) as Hag2'.
      { apply agrees_blit; [lia|lia|lia|lia| |].
        - rewrite Hll. unfold last. f_equal. lia.
        - intros y Hy. left. rewrite Hll. lia. }
      destruct (cacheable s) eqn:Ec.
      * rewrite rd_bytes_ok by lia. cbn [mbind res_bind]. eexists s', _, buf1. split_and!; try done.
      * exists s', h1, buf1. by split_and!.
    + exists s, h1, buf. split_and!; try done. intros y Hy. exfalso. apply andb_false_iff in Econd as [Er|Ef].
      * apply negb_false_iff, Z.eqb_eq in Er. specialize (Hal Er). lia.
      * apply Z.ltb_ge in Ef. lia.
Qed.
End Blocks.

(** The bytes of the file after the write. *)
Definition new_size f h size := Z.max (file_size f) (file_offset h + size).

Lemma write_result data ext h f g buf ptr n : 0 < g -> 0 <= sector_count h -> 0 <= sector_offset h ->
  file_offset h = sector_count h * g + sector_offset h -> file_offset h <= file_size f <= zlen data ->
  zlen buf = n * g -> sector_offset h + zlen ptr <= n * g -> (sector_count h + n) * g <= zlen (data ++ ext) ->
  agrees buf data (sector_count h * g) 0 (sector_offset h) ->
  agrees buf data (sector_count h * g) (sector_offset h + zlen ptr) (Z.min (n * g) (file_size f - sector_count h * g)) ->
  slice (blit (data ++ ext) (sector_count h * g) (blit buf (sector_offset h) ptr)) 0 (new_size f h (zlen ptr)) =
  blit (slice data 0 (file_size f)) (file_offset h) ptr.
Proof.
  intros Hg Hcnt Hso Eo Hsz Hb Hp Hfit Hag1 Hag2. pose proof (zlen_nonneg ptr). pose proof (zlen_app data ext) as Ha.
  assert (0 <= sector_count h * g) by (apply Z.mul_nonneg_nonneg; lia). set (P := sector_count h * g) in *.
  assert ((sector_count h + n) * g = P + n * g) as EN by (unfold P; lia). rewrite EN in Hfit. set (N := n * g) in *. clearbody P N.
  assert (zlen (blit buf (sector_offset h) ptr) = N) as Hwl by (rewrite zlen_blit; lia).
  apply list_eq. intros x. unfold new_size. destruct (decide (Z.of_nat x < Z.max (file_size f) (file_offset h + zlen ptr))) as [Hx|Hx].
  - rewrite lookup_slice by lia. change (Z.to_nat 0 + x)%nat with x. rewrite lookup_blit by lia.
    assert (forall y, 0 <= y < file_size f -> slice data 0 (file_size f) !! Z.to_nat y = data !! Z.to_nat y) as Hs.
    { intros y Hy. rewrite lookup_slice by lia. done. }
    rewrite (blit_lookup_grow (slice data 0 (file_size f))) by (rewrite zlen_slice; lia). unfold zlen in Hwl.
    destruct (decide (Z.to_nat P <= x < Z.to_nat P + length (blit buf (sector_offset h) ptr))%nat) as [Hin|Hout].
    + rewrite lookup_blit by lia. unfold zlen in *.
      destruct (decide (Z.to_nat (file_offset h) <= x < Z.to_nat (file_offset h) + length ptr)%nat) as [Hp1|Hp1].
      * rewrite decide_True by lia. f_equal. lia.
      * rewrite decide_False by lia. rewrite <- (Nat2Z.id x) at 2. rewrite Hs by lia.
        replace (x - Z.to_nat P)%nat with (Z.to_nat (Z.of_nat x - P)) by lia. unfold zlen in *.
        destruct (decide (Z.of_nat x < file_offset h)).
        -- rewrite Hag1 by lia. f_equal. lia.
        -- rewrite Hag2 by lia. f_equal. lia.
    + unfold zlen in *. rewrite decide_False by lia. rewrite lookup_app_l by lia. by rewrite <- (Nat2Z.id x), Hs by lia.
  - rewrite lookup_ge_None_2 by (unfold slice, zlen in *; rewrite length_take; lia).
    symmetry. apply lookup_ge_None_2. unfold blit, slice. unfold zlen in *. rewrite !length_app, length_drop, !length_take, drop_0. lia.
Qed.

Lemma write_blocks_ok s f h data ptr mem :
  stored s (addr f) data -> 0 <= file_size f <= zlen data -> cursor_ok h (file_access_granularity s) ->
  coherent h (file_access_granularity s) (cacheable s) data -> file_offset h <= file_size f -> 0 < zlen ptr < 2 ^ 30 ->
  (forall n, 0 <= n -> zlen (mem n) = n) ->
  (sector_count h + n_blocks s h (zlen ptr)) * file_access_granularity s <= zlen data \/
    room s (addr f) (sector_count h + n_blocks s h (zlen ptr)) ->
  exists s' h' data', write_blocks f h (file_access_granularity s) (cacheable s) ptr mem s = Ok (s', h', Some (f, false)) /\
    same_cursor h h' /\ same_handle h h' /\
    file_access_granularity s' = file_access_granularity s /\ cacheable s' = cacheable s /\
    stored s' (addr f) data' /\ new_size f h (zlen ptr) <= zlen data' /\
    slice data' 0 (new_size f h (zlen ptr)) = blit (slice data 0 (file_size f)) (file_offset h) ptr.
Proof.
  intros Hst Hsz Hcu Hco Hoff Hsize Hmem Hroom. pose proof (granularity_range s _ _ Hst) as Hg. pose proof (stored_range s _ _ Hst) as [H48 _].
  destruct (cursor_position h _ (proj1 Hg) Hcu) as (Eo & Hso & Hcnt).
  destruct (write_blocks_count s h (zlen ptr) Hsize (proj1 Hg) (proj1 Hso)) as (Hnb & Hnb1 & Hal). set (g := file_access_granularity s) in *.
  unfold write_blocks. rewrite (u32_small (_ + zlen ptr)) by lia. rewrite ceil_div_spec by lia.
  change (_ / _ + _) with (n_blocks s h (zlen ptr)). set (N := n_blocks s h (zlen ptr)) in *.
  assert (0 < N < 2 ^ 31) as HN by nia. assert (0 <= sector_count h * g) by (apply Z.mul_nonneg_nonneg; lia).
  rewrite u64_small, (proj2 (Z.leb_le _ _)) by lia. cbn [assert_ mbind res_bind].
  assert (forall s1 buf, kept s s1 -> zlen buf = N * g -> exists s' r ext, write_file_sectors f buf (sector_count h) N s1 = Ok (s', f, r) /\ 0 <= r /\
    file_access_granularity s' = g /\ cacheable s' = cacheable s /\ (sector_count h + N) * g <= zlen (data ++ ext) /\
    stored s' (addr f) (blit (data ++ ext) (sector_count h * g) buf)) as Hwrite.
  { intros s1 buf [K1 K2 K3 K4] Hb. fold g in K1. rewrite <- K1, <- K2. apply write_stored; rewrite ?K1; try (done || lia); [by apply K3|].
    destruct Hroom as [?|?]; [left; lia|right; by apply K4]. }
  assert (forall s' ext buf, zlen buf = N * g -> stored s' (addr f) (blit (data ++ ext) (sector_count h * g) buf) ->
    (sector_count h + N) * g <= zlen (data ++ ext) -> new_size f h (zlen ptr) <= zlen (blit (data ++ ext) (sector_count h * g) buf)) as Hnew.
  { intros s' ext buf Hb _ Hfit. rewrite zlen_blit by lia. unfold new_size. rewrite zlen_app in *. pose proof (zlen_nonneg ext). lia. }
  destruct ((sector_offset h =? 0) && _) eqn:Eal.
  - apply andb_true_iff in Eal as [E0%Z.eqb_eq Er%Z.eqb_eq]. specialize (Hal Er).
    destruct (Hwrite s ptr) as (s' & r & ext & -> & Hr & Eg & Ec & Hfit & Hst'); [reflexivity|lia|]. cbn [mbind res_bind].
    rewrite (proj2 (Z.ltb_ge r 0)) by lia. exists s', h, (blit (data ++ ext) (sector_count h * g) ptr).
    split_and!; try done; [apply (Hnew s'); [lia|done|done]|].
    assert (blit ptr (sector_offset h) ptr = ptr) as Ep by (rewrite E0; by apply blit_0_all). rewrite <- Ep at 1.
    apply (write_result data ext h f g ptr ptr N); try (done || lia); intros y Hy; lia.
  - destruct (write_head_ok s f h data (zlen ptr) Hst Hsz Hcu Hco Hoff Hsize (mem (N * g))) as (s1 & buf1 & E1 & Hk1 & Hl1 & Hag1 & Hag2);
      [rewrite Hmem by nia; lia|rewrite Hmem by nia; fold g; nia|]. fold g in E1, Hag1, Hag2. rewrite E1. cbn [mbind res_bind].
    rewrite Hmem in Hl1 by nia. pose proof (ke_gran _ _ Hk1) as Eg1. pose proof (ke_cache _ _ Hk1) as Ec1. fold g in Eg1.
    destruct (write_tail_ok s1 f h data (zlen ptr) (ke_stored _ _ Hk1 _ _ Hst) Hsz) with (buf := buf1)
      as (s2 & h2 & buf2 & E2 & Hk2 & Hl2 & Hc2 & Hs2 & Hag3 & Hag4); rewrite ?Eg1, ?Ec1; try done.
    { unfold n_blocks. rewrite Eg1. done. }
    assert (n_blocks s1 h (zlen ptr) = N) as En by (unfold N, n_blocks; by rewrite Eg1). rewrite En, Eg1, Ec1 in E2. rewrite En, Eg1 in Hag4. rewrite Eg1 in Hag3.
    rewrite E2. cbn [mbind res_bind]. destruct Hc2 as (C1 & C2 & C3). rewrite C2, C3, wr_bytes_ok by lia. cbn [mbind res_bind].
    assert (zlen (blit buf2 (sector_offset h) ptr) = N * g) as Hl3 by (rewrite zlen_blit; lia).
    destruct (Hwrite s2 (blit buf2 (sector_offset h) ptr)) as (s' & r & ext & -> & Hr & Eg & Ec & Hfit & Hst'); [by transitivity s1|done|].
    cbn [mbind res_bind]. eexists s', h2, _. split_and!; [reflexivity|done|done|done|done|exact Hst'|by apply (Hnew s')|].
    apply (write_result data ext h f g buf2 ptr N); try (done || lia).
Qed.
End Write.
