(* ===== verification/VfsCalls.v ===== *)
(** * Open files: the calls of the virtual file system *)

From S2P Require Import Prelude Bytes FileSystems VfsFiles VfsRead VfsWrite.





Section Theorems.
Context {S : Type} `{BlockFileSystem S}.
Implicit Types (s : S) (v : vfs S).

(** The handles of a file all exist. *)
Definition live_handles (e : file_ent) v : Prop := forall q, q ∈ take (Z.to_nat (n_insts e)) (fhs e) -> is_Some (handles v !! q).

(** Two states that differ in handles other than [p] only, whose buffers may be invalid. *)
Record handles_invalidated v v' (p : Z) : Prop := {
  hi_files : open_files v' = open_files v;
  hi_lock : vfile_lock v' = vfile_lock v;
  hi_fs : filesystems v' = filesystems v;
  hi_self : handles v' !! p = handles v !! p;
  hi_live : forall q, is_Some (handles v !! q) -> is_Some (handles v' !! q)
}.

Lemma invalidate_loop_ok l p v : (forall q, q ∈ l -> is_Some (handles v !! q)) ->
  exists v', invalidate_loop l (Some p) v = Ok v' /\ handles_invalidated v v' p.
Proof.
  revert v. induction l as [|q l IH]; intros v Hl; cbn [invalidate_loop]; [by exists v|].
  destruct (decide (Some p = Some q)) as [[= ->]|Hne]; cbn [mbind res_bind].
  { apply IH. intros r Hr. apply Hl. by right. }
  destruct (Hl q) as [h Hh]; [by left|]. unfold get_handle. rewrite Hh. cbn [mbind res_bind].
  assert (forall r, is_Some (handles v !! r) -> is_Some (handles (put_handle q (set_buffer h false (sector_buff h)) v) !! r)) as Hlive.
  { intros r Hr. cbn. destruct (decide (q = r)) as [->|]; [rewrite lookup_insert_eq; by eexists|by rewrite lookup_insert_ne]. }
  destruct (IH (put_handle q (set_buffer h false (sector_buff h)) v)) as (v' & E & [H1 H2 H3 H4 H5]).
  { intros r Hr. apply Hlive, Hl. by right. }
  exists v'. split; [done|]. constructor; try done; [|auto]. rewrite H4. cbn. apply lookup_insert_ne. congruence.
Qed.

Lemma update_vfile_ok v id i e f p s n : find_vfile id v = Some i -> open_files v !! i = Some e -> vfile_lock v = false ->
  filesystems v !! ent_fs e = Some (s, n) -> live_handles e v ->
  exists v', update_vfile id f (Some p) v = Ok v' /\ open_files v' = <[i := set_size e f]> (open_files v) /\
    vfile_lock v' = false /\ filesystems v' = filesystems v /\ handles v' !! p = handles v !! p.
Proof.
  intros Hf He Hl Hfs Hlive. unfold update_vfile, acquire_vfile, lock_vfiles. rewrite Hl. cbn [mbind res_bind].
  replace (find_vfile id (set_lock v true)) with (Some i) by (rewrite <- Hf; by apply find_vfile_ids).
  cbn [mbind res_bind deref]. change (open_files (set_lock v true)) with (open_files v). rewrite He. cbn [mbind res_bind].
  unfold invalidate_handlers_buffer, get_fs. change (filesystems (set_lock v true)) with (filesystems v). rewrite Hfs. cbn [mbind res_bind].
  destruct (negb (cacheable s)).
  { cbn [mbind res_bind]. eexists. split_and!; [reflexivity|done..]. }
  destruct (invalidate_loop_ok (take (Z.to_nat (n_insts e)) (fhs e)) p (set_lock v true)) as (v' & -> & [H1 H2 H3 H4 H5]); [done|].
  cbn [mbind res_bind]. eexists. split_and!; [reflexivity| |done|done|done]. cbn. by rewrite H1.
Qed.

(** Where a write begins: at the end of the file when it is open for appending. *)
Definition write_handle (h : file_handle) (g size : Z) : file_handle :=
  if has_flag (flags h) VFS_APPEND then set_stream_offset h g size else h.

Lemma write_handle_ok h g data cachable size : 0 < g < 2 ^ 16 -> 0 <= size < 2 ^ 48 -> cursor_ok h g -> coherent h g cachable data ->
  cursor_ok (write_handle h g size) g /\ coherent (write_handle h g size) g cachable data /\ same_handle h (write_handle h g size).
Proof.
  intros Hg Hs Hc Hco. unfold write_handle. destruct (has_flag _ _); [|done]. split_and!; [|by intros [=]|by constructor].
  pose proof (Z.mod_pos_bound size g ltac:(lia)). constructor; cbn; [lia| |done]. by rewrite u32_small by lia.
Qed.

(** The bytes of an open file. *)
Definition contents (e : file_ent) (data : list Z) : list Z := slice data 0 (file_size (ent_file e)).

(** The state after the write of [ptr] at the offset [off], with the handle [h'], the entry
    [e'] and the data [data'] in the file system [s']. *)
Record wrote v (p : Z) (h : file_handle) (i : nat) (e : file_ent) (s : S) (n : Z) (data : list Z) (off : Z) (ptr : list Z)
    v' (h' : file_handle) (e' : file_ent) (s' : S) (data' : list Z) : Prop := {
  wo_handle : handles v' !! p = Some h';
  wo_same : same_handle h h';
  wo_offset : file_offset h' = off + zlen ptr;
  wo_cursor : cursor_ok h' (file_access_granularity s);
  wo_entry : idle_entry v' (vfile_id h) i e';
  wo_ent_fs : ent_fs e' = handle_fs h;
  wo_addr : addr (ent_file e') = addr (ent_file e);
  wo_size : file_size (ent_file e') = Z.max (file_size (ent_file e)) (off + zlen ptr);
  wo_fs : filesystems v' !! handle_fs h = Some (s', n);
  wo_gran : file_access_granularity s' = file_access_granularity s;
  wo_stored : stored s' (addr (ent_file e)) data';
  wo_fits : file_size (ent_file e') <= zlen data';
  wo_contents : contents e' data' = blit (contents e data) off ptr
}.

(** The end of a write: the entry is released. *)
Lemma write_finish v v2 p h i e s s1 n data data1 off ptr f h2 : idle_entry v (vfile_id h) i e -> ent_fs e = handle_fs h ->
  open_files v2 = <[i := set_size (set_accessed e true) f]> (open_files v) -> vfile_lock v2 = false ->
  handles v2 !! p = Some h2 -> filesystems v2 !! handle_fs h = Some (s1, n) ->
  same_handle h h2 -> file_offset h2 = off + zlen ptr -> file_access_granularity s1 = file_access_granularity s -> cursor_ok h2 (file_access_granularity s) ->
  addr f = addr (ent_file e) -> file_size f = Z.max (file_size (ent_file e)) (off + zlen ptr) ->
  stored s1 (addr (ent_file e)) data1 -> 0 <= file_size f <= zlen data1 ->
  slice data1 0 (file_size f) = blit (contents e data) off ptr ->
  exists v', release_file_access (vfile_id h) v2 = Ok v' /\ wrote v p h i e s n data off ptr v' h2 (set_size e f) s1 data1.
Proof.
  intros [Hf He Ha Hl] Hefs Ho2 Hl2 Hh2 Hfs2 Hs Hoff Eg Hc Haddr Hsize Hst Hz Hdata.
  assert (i < length (open_files v))%nat by (by eapply lookup_lt_Some).
  assert (forall l, ent_id <$> <[i := set_size e l]> (open_files v) = ent_id <$> open_files v) as Hids.
  { intros l. by apply (put_ent_ids i e (set_size e l) v). }
  rewrite (release_entry v2 _ i (set_size (set_accessed e true) f)); [|rewrite <- Hf; apply find_vfile_ids; rewrite Ho2; by apply (put_ent_ids i e)
    |by rewrite Ho2, list_lookup_insert_eq|done|done].
  set (v' := put_ent _ _ _). exists v'. split; [done|].
  assert (open_files v' = <[i := set_size e f]> (open_files v)) as Ho'.
  { unfold v'. cbn. rewrite Ho2, list_insert_insert_eq. f_equal. unfold set_accessed, set_size. cbn. by rewrite <- Ha. }
  assert (idle_entry v' (vfile_id h) i (set_size e f)) as Hidle.
  { constructor; [rewrite <- Hf; apply find_vfile_ids; by rewrite Ho', Hids|by rewrite Ho', list_lookup_insert_eq|done|done]. }
  by constructor; [..|apply Hz|].
Qed.

Lemma set_size_same e : set_size e (ent_file e) = e.
Proof. by destruct e. Qed.

Lemma vfs_write_file_ok v p h i e s n data ptr mem : opened v p h i e s n data ->
  has_flag (flags h) VFS_WRITE = true -> flags h < 2 * VFS_TRUNCATABLE -> 0 < zlen ptr < 2 ^ 30 ->
  (forall k, 0 <= k -> zlen (mem k) = k) -> live_handles e v ->
  let g := file_access_granularity s in
  let h0 := write_handle h g (file_size (ent_file e)) in
  file_offset h0 <= file_size (ent_file e) ->
  (sector_count h0 + n_blocks s h0 (zlen ptr)) * g <= zlen data \/ room s (addr (ent_file e)) (sector_count h0 + n_blocks s h0 (zlen ptr)) ->
  exists v' h' e' s' data', vfs_write_file ptr p mem v = Ok (v', zlen ptr) /\
    wrote v p h i e s n data (file_offset h0) ptr v' h' e' s' data'.
Proof.
  intros Hop Hw Hfl Hsize Hmem Hlive g h0 Hoff Hroom. destruct Hop as [Hh Hi Hfs Hefs Hst Hz Hc Hco]. pose proof Hi as [Hfind Hent Hacc Hlock].
  pose proof (granularity_range _ _ _ Hst) as Hg. pose proof (stored_range _ _ _ Hst) as [H48 _]. fold g in Hg.
  destruct (write_handle_ok h g data (cacheable s) (file_size (ent_file e))) as (Hc0 & Hco0 & Hs0); [done|lia|done|done|]. fold h0 in Hc0, Hco0, Hs0.
  unfold vfs_write_file, get_handle, get_fs. rewrite Hh. cbn [mbind res_bind]. rewrite (proj2 (Z.ltb_lt _ _)) by done. cbn [assert_ mbind res_bind].
  rewrite Hw. cbn [negb]. rewrite (proj2 (Z.eqb_neq (zlen ptr) 0)) by lia. rewrite Hfs. cbn [mbind res_bind].
  rewrite (acquire_file_access_ok v _ i e Hi). cbn [mbind res_bind].
  change (if has_flag (flags h) VFS_APPEND then _ else h) with h0. fold g.
  destruct (write_blocks_ok s (ent_file e) h0 data ptr mem) as (s1 & h1 & data1 & E1 & (C1 & C2 & C3) & Hs1 & Eg & Ec & Hst1 & Hlen1 & Hdata1); try done.
  fold g in E1, Eg. rewrite E1. cbn [mbind res_bind]. unfold new_size in Hlen1, Hdata1. pose proof (stored_range _ _ _ Hst1) as [H48' _].
  pose proof (cu_range _ _ Hc0) as Hr0. rewrite C1, C2. rewrite (u64_small (_ + zlen ptr)) by lia.
  destruct (cursor_position h0 g (proj1 Hg) Hc0) as (Eo & Hso & Hcnt). rewrite (u32_small (_ + zlen ptr)) by lia.
  set (off' := file_offset h0 + zlen ptr) in *. set (h2 := set_cursor _ _ _ _).
  assert (same_handle h h2) as Hs2.
  { transitivity h0; [done|]. transitivity h1; [done|]. by constructor. }
  assert (cursor_ok h2 g) as Hc2.
  { destruct (position_add g (sector_count h0) (sector_offset h0) (zlen ptr)) as [Ed Em]; [lia|lia|]. rewrite <- Eo in Ed, Em.
    constructor; cbn; [lia|by rewrite <- Em|done]. }
  assert (vfile_id h2 = vfile_id h) as Ev by apply Hs2. assert (handle_fs h1 = handle_fs h) as Ef by (rewrite (sh_fs _ _ Hs1); apply Hs0).
  rewrite Ev, Ef, Z.eqb_refl, orb_false_r.
  change (u64 (-1)) with (2 ^ 64 - 1). rewrite (proj2 (Z.eqb_neq (file_size _) _)) by lia. cbn [negb andb].
  set (v1 := put_handle p h2 (put_fs (handle_fs h) s1 n (busy v i e))).
  assert (open_files v1 = <[i := set_accessed e true]> (open_files v)) as Ho1 by done.
  assert (i < length (open_files v))%nat by (by eapply lookup_lt_Some).
  destruct (Z.ltb_spec (file_size (ent_file e)) off') as [Hgrow|Hgrow].
  - destruct (update_vfile_ok v1 (vfile_id h) i (set_accessed e true) (File (addr (ent_file e)) off') p s1 n) as (v2 & -> & Ho2 & Hl2 & Hf2 & Hh2); try done.
    + rewrite <- Hfind. apply find_vfile_ids. by apply (put_ent_ids i e).
    + change (open_files v1) with (<[i := set_accessed e true]> (open_files v)). by rewrite list_lookup_insert_eq.
    + change (ent_fs (set_accessed e true)) with (ent_fs e). rewrite Hefs. cbn. apply lookup_insert_eq.
    + intros q Hq. cbn. destruct (decide (p = q)) as [->|]; [rewrite lookup_insert_eq; by eexists|]. rewrite lookup_insert_ne by done. by apply Hlive.
    + cbn [mbind res_bind]. rewrite Z.max_r in * by lia.
      destruct (write_finish v v2 p h i e s s1 n data data1 (file_offset h0) ptr (File (addr (ent_file e)) off') h2) as (v' & -> & Hwr); cbn; try (done || lia).
      * rewrite Ho2. change (open_files v1) with (<[i := set_accessed e true]> (open_files v)). by rewrite list_insert_insert_eq.
      * rewrite Hh2. cbn. apply lookup_insert_eq.
      * rewrite Hf2. cbn. apply lookup_insert_eq.
      * by eexists _, _, _, _, _.
  - cbn [mbind res_bind]. rewrite Z.max_l in * by lia.
    destruct (write_finish v v1 p h i e s s1 n data data1 (file_offset h0) ptr (ent_file e) h2) as (v' & -> & Hwr); try (done || lia).
    + cbn. apply lookup_insert_eq.
    + cbn. apply lookup_insert_eq.
    + by eexists _, _, _, _, _.
Qed.
End Theorems.

(** * Open files: reading, writing and seeking, end to end *)


Section Calls.
Context {S : Type} `{BlockFileSystem S}.
Implicit Types (s : S) (v : vfs S).

(** Where [lseek] goes. *)
Definition seek_target (h : file_handle) (e : file_ent) (offset whence : Z) : option Z :=
  if whence =? SEEK_SET then Some offset
  else if whence =? SEEK_CUR then Some (u64 (offset + file_offset h))
  else if whence =? SEEK_END then Some (u64 (offset + file_size (ent_file e)))
  else None.

Lemma vfs_seek_file_ok v p h i e s n offset whence : handles v !! p = Some h -> idle_entry v (vfile_id h) i e ->
  filesystems v !! handle_fs h = Some (s, n) -> has_flag (flags h) VFS_SEEKABLE = true ->
  vfs_seek_file p offset whence v = Ok (
    match seek_target h e offset whence with
    | Some t => (put_handle p (set_stream_offset h (file_access_granularity s) t) v, t)
    | None => (v, u64 (-1))
    end).
Proof.
  intros Hh Hi Hfs Hfl. unfold vfs_seek_file, get_handle. rewrite Hh. cbn [mbind res_bind]. rewrite Hfl. cbn [negb].
  assert (forall t, ('(v, _) ← acquire_vfile (vfile_id h) v; '(s, _) ← get_fs (handle_fs h) v;
    Ok (release_vfile (put_handle p (set_stream_offset h (file_access_granularity s) t) v), t)) =
    Ok (put_handle p (set_stream_offset h (file_access_granularity s) t) v, t)) as Hend.
  { intros t. rewrite (acquire_vfile_ok v _ i e Hi). cbn [mbind res_bind]. unfold get_fs. cbn [set_lock filesystems]. rewrite Hfs.
    cbn [mbind res_bind]. repeat f_equal. pose proof (ie_lock _ _ _ _ Hi) as Hl. unfold release_vfile, put_handle, set_handles, set_lock.
    cbn. by rewrite <- Hl. }
  unfold seek_target. destruct (Z.eqb_spec whence SEEK_CUR) as [->|]; [apply Hend|].
  destruct (Z.eqb_spec whence SEEK_END) as [->|].
  - rewrite (acquire_vfile_ok v _ i e Hi) at 1. cbn [mbind res_bind deref]. cbn [set_lock open_files]. rewrite (ie_ent _ _ _ _ Hi).
    cbn [mbind res_bind]. rewrite release_locked by apply Hi. apply Hend.
  - destruct (Z.eqb_spec whence SEEK_SET) as [->|]; [apply Hend|done].
Qed.

Lemma set_stream_offset_cursor h g t : 0 < g < 2 ^ 16 -> 0 <= t < 2 ^ 48 -> cursor_ok (set_stream_offset h g t) g.
Proof. intros Hg Ht. pose proof (Z.mod_pos_bound t g ltac:(lia)). constructor; cbn; [lia| |done]. by rewrite u32_small by lia. Qed.

(** A handle whose buffer is dropped is open at its new position, whatever its buffer held. *)
Lemma opened_seek v p h i e s n data t : idle_entry v (vfile_id h) i e -> filesystems v !! handle_fs h = Some (s, n) ->
  ent_fs e = handle_fs h -> stored s (addr (ent_file e)) data -> 0 <= file_size (ent_file e) <= zlen data -> 0 <= t < 2 ^ 48 ->
  opened (put_handle p (set_stream_offset h (file_access_granularity s) t) v) p (set_stream_offset h (file_access_granularity s) t) i e s n data.
Proof.
  intros [Hf He Ha Hl] Hfs Hef Hst Hz Ht. pose proof (granularity_range _ _ _ Hst) as Hg.
  constructor; try done; [cbn; apply lookup_insert_eq|by apply set_stream_offset_cursor].
Qed.


(** The sectors up to the end of a write. *)
Lemma sectors_to_end s h size : 0 < size < 2 ^ 30 -> 0 < file_access_granularity s -> cursor_ok h (file_access_granularity s) ->
  sector_count h + n_blocks s h size = (file_offset h + size + file_access_granularity s - 1) / file_access_granularity s.
Proof.
  intros Hs Hg Hc. destruct (cursor_position h _ Hg Hc) as (Eo & Hso & Hcnt). pose proof (write_blocks_count s h size Hs Hg (proj1 Hso)) as (Hb & _ & _).
  set (g := file_access_granularity s) in *. set (nb := n_blocks s h size) in *.
  apply (Z.div_unique _ _ _ (file_offset h + size + g - 1 - (sector_count h + nb) * g)); [|lia]. left. nia.
Qed.

Lemma write_handle_offset h g size : file_offset (write_handle h g size) = if has_flag (flags h) VFS_APPEND then size else file_offset h.
Proof. unfold write_handle. by destruct (has_flag _ _). Qed.

Lemma vfs_write_file_off v p h i e s n data ptr mem :
  opened v p h i e s n data -> has_flag (flags h) VFS_WRITE = true -> flags h < 2 * VFS_TRUNCATABLE -> 0 < zlen ptr < 2 ^ 30 ->
  (forall k, 0 <= k -> zlen (mem k) = k) -> live_handles e v ->
  let off := if has_flag (flags h) VFS_APPEND then file_size (ent_file e) else file_offset h in
  let sectors := (off + zlen ptr + file_access_granularity s - 1) / file_access_granularity s in
  off <= file_size (ent_file e) ->
  sectors * file_access_granularity s <= zlen data \/ room s (addr (ent_file e)) sectors ->
  exists v' h' e' s' data', vfs_write_file ptr p mem v = Ok (v', zlen ptr) /\ wrote v p h i e s n data off ptr v' h' e' s' data'.
Proof.
  intros Hop Hw Hfl Hsize Hmem Hlive off sectors Hoff Hroom. destruct Hop as [Hh Hi Hfs Hefs Hst Hz Hc Hco].
  pose proof (granularity_range _ _ _ Hst) as Hg. pose proof (stored_range _ _ _ Hst) as [H48 _].
  destruct (write_handle_ok h _ data (cacheable s) (file_size (ent_file e)) Hg ltac:(lia) Hc Hco) as (Hc0 & _ & _).
  assert (off = file_offset (write_handle h (file_access_granularity s) (file_size (ent_file e)))) as Eoff by (by rewrite write_handle_offset).
  unfold sectors in Hroom. rewrite Eoff in Hoff, Hroom |- *. apply vfs_write_file_ok; try done. by rewrite sectors_to_end by (done || lia).
Qed.


(** What is written through a handle is read back: after a write at some position, a seek
    to this position and a read of as many bytes return exactly the bytes written. *)
Theorem vfs_write_seek_read v p h i e s n data ptr mem :
  opened v p h i e s n data -> has_flag (flags h) VFS_WRITE = true -> has_flag (flags h) VFS_READ = true ->
  has_flag (flags h) VFS_SEEKABLE = true -> flags h < 2 * VFS_TRUNCATABLE -> 0 < zlen ptr < 2 ^ 30 ->
  (forall k, 0 <= k -> zlen (mem k) = k) -> live_handles e v ->
  let off := if has_flag (flags h) VFS_APPEND then file_size (ent_file e) else file_offset h in
  let sectors := (off + zlen ptr + file_access_granularity s - 1) / file_access_granularity s in
  off <= file_size (ent_file e) ->
  sectors * file_access_granularity s <= zlen data \/ room s (addr (ent_file e)) sectors ->
  exists v1 v2 v3, vfs_write_file ptr p mem v = Ok (v1, zlen ptr) /\ vfs_seek_file p off SEEK_SET v1 = Ok (v2, off) /\
    vfs_read_file (zlen ptr) p v2 = Ok (v3, ptr, zlen ptr).
Proof.
  intros Hop Hw Hr Hsk Hfl Hsize Hmem Hlive off sectors Hoff Hroom.
  destruct (vfs_write_file_off v p h i e s n data ptr mem Hop Hw Hfl Hsize Hmem Hlive Hoff Hroom) as (v1 & h1 & e1 & s1 & data1 & E1 & Hwr).
  fold off in Hwr. destruct Hwr as [W1 [S1 S2 S3 S4] W3 W4 W5 W6 W7 W8 W9 W10 W11 W12 W13]. pose proof (op_size _ _ _ _ _ _ _ _ Hop) as Hz.
  pose proof (cu_range _ _ (op_cursor _ _ _ _ _ _ _ _ Hop)) as Hr0. pose proof (stored_range _ _ _ W11) as [H48 _].
  assert (0 <= off) by (unfold off; destruct (has_flag _ VFS_APPEND); lia).
  rewrite <- S2 in W5. rewrite <- S1 in W6, W9.
  set (h2 := set_stream_offset h1 (file_access_granularity s1) off). set (v2 := put_handle p h2 v1).
  assert (opened v2 p h2 i e1 s1 n data1) as Hop2 by (apply opened_seek; try done; [by rewrite W7|lia|lia]).
  destruct (vfs_read_file_ok v2 p h2 i e1 s1 n data1 (zlen ptr) Hop2) as (v3 & _ & _ & E3 & _); [by cbn; rewrite S4|lia|].
  exists v1, v2, v3. split_and!; [done| |].
  - rewrite (vfs_seek_file_ok v1 p h1 i e1 s1 n off SEEK_SET) by (done || by rewrite S4). done.
  - rewrite E3. change (file_offset h2) with off. rewrite W8. replace (Z.max 0 _) with (zlen ptr) by lia.
    assert (slice data1 off (zlen ptr) = ptr) as ->; [|done].
    transitivity (slice (contents e1 data1) off (zlen ptr)); [unfold contents; by rewrite slice_slice by lia|]. rewrite W13.
    apply slice_blit_grow. unfold contents. rewrite zlen_slice; lia.
Qed.
End Calls.

(** * Open files: two writes after a read

    A write to a part of one sector takes the rest of the sector from the buffer of the
    handle, and does not update the buffer.  The next write then puts the old bytes back. *)



Section Stale.
Context {S : Type} `{BlockFileSystem S}.
Implicit Types (s : S) (v : vfs S).

(** The sector that is built from the buffer. *)
Lemma buffered_sector (buf mem : list Z) o ptr g : 0 <= o -> o + zlen ptr < g -> zlen buf = g -> zlen mem = g ->
  blit (blit (blit mem 0 (slice buf 0 o)) (zlen ptr + o) (slice buf (zlen ptr + o) (g - (zlen ptr + o)))) o ptr = blit buf o ptr.
Proof.
  intros Ho Hlt Hb Hm. pose proof (zlen_nonneg ptr).
  assert (zlen (slice buf 0 o) = o) as L1 by (apply zlen_slice; lia).
  assert (zlen (slice buf (zlen ptr + o) (g - (zlen ptr + o))) = g - (zlen ptr + o)) as L2 by (apply zlen_slice; lia).
  assert (zlen (blit mem 0 (slice buf 0 o)) = g) as L3 by (rewrite zlen_blit; lia).
  assert (zlen (blit (blit mem 0 (slice buf 0 o)) (zlen ptr + o) (slice buf (zlen ptr + o) (g - (zlen ptr + o)))) = g) as L4 by (rewrite zlen_blit; lia).
  apply list_eq. intros i. rewrite !lookup_blit by lia. unfold zlen in *. repeat case_decide; try lia; try done.
  - rewrite lookup_slice by lia. f_equal. lia.
  - rewrite lookup_slice by lia. f_equal. lia.
  - rewrite !lookup_ge_None_2 by lia. done.
Qed.

Section OneSector.
Context (s : S) (f : file) (h : file_handle) (ptr : list Z) (mem : Z -> list Z).
Notation g := (file_access_granularity s).
Hypothesis Hg : 0 < g < 2 ^ 16.
Hypothesis Hcu : cursor_ok h g.
Hypothesis Hbv : buffer_valid h = true.
Hypothesis Hca : cacheable s = true.
Hypothesis Hbuf : zlen (sector_buff h) = g.
Hypothesis Hmem : forall n, 0 <= n -> zlen (mem n) = n.
Hypothesis Hsize : 0 < zlen ptr.
Hypothesis Hin : sector_offset h + zlen ptr < g.
Hypothesis Hfile : file_offset h + zlen ptr < file_size f.

Lemma write_blocks_buffered s' r : 
  write_file_sectors f (blit (sector_buff h) (sector_offset h) ptr) (sector_count h) 1 s = Ok (s', f, r) ->
  write_blocks f h g (cacheable s) ptr mem s = Ok (s', h, Some (f, false)).
Proof using All.
  intros Hw. destruct (cursor_position h g (proj1 Hg) Hcu) as (Eo & Hso & Hcnt). pose proof (cu_range _ _ Hcu).
  assert (0 <= sector_count h * g) by (apply Z.mul_nonneg_nonneg; lia). assert (sector_count h < 2 ^ 48) by nia.
  unfold write_blocks. rewrite (u32_small (_ + zlen ptr)) by lia. rewrite ceil_div_spec by lia. rewrite Z.div_small, Z.mod_small by lia.
  rewrite (proj2 (Z.eqb_neq (_ + zlen ptr) 0)) by lia. change (0 + 1) with 1. rewrite Z.mul_1_l, u64_small, (proj2 (Z.leb_le _ _)) by lia.
  cbn [assert_ mbind res_bind]. rewrite andb_false_r. unfold write_head.
  rewrite !u64_small by lia. rewrite (proj2 (Z.ltb_lt (sector_offset h + _) g)), (proj2 (Z.ltb_lt (file_offset h + _) _)) by lia.
  rewrite orb_true_r. rewrite Hbv, Hca. cbn [negb orb]. rewrite (rd_bytes_ok _ 0) by lia. cbn [mbind res_bind].
  assert (zlen (slice (sector_buff h) 0 (sector_offset h)) = sector_offset h) as Hs1 by (apply zlen_slice; lia).
  rewrite wr_bytes_ok by (rewrite ?Hmem; lia). cbn [mbind res_bind]. rewrite s64_small by lia. rewrite (proj2 (Z.ltb_lt 0 _)) by lia.
  rewrite rd_bytes_ok by lia. cbn [mbind res_bind].
  assert (zlen (slice (sector_buff h) (zlen ptr + sector_offset h) (g - (zlen ptr + sector_offset h))) = g - (zlen ptr + sector_offset h)) as Hs2
    by (apply zlen_slice; lia).
  set (b1 := blit (mem g) 0 _). assert (zlen b1 = g) as Hb1 by (unfold b1; rewrite zlen_blit; rewrite ?Hmem; lia).
  rewrite wr_bytes_ok by lia. cbn [mbind res_bind]. unfold write_tail. rewrite u64_small by lia.
  replace (sector_count h + 1 - 1) with (sector_count h) by lia. rewrite Z.eqb_refl. cbn [negb mbind res_bind].
  rewrite wr_bytes_ok by (rewrite ?zlen_blit; lia). cbn [mbind res_bind]. unfold b1. rewrite (buffered_sector _ (mem g) _ _ g) by (rewrite ?Hmem; lia).
  rewrite Hw. done.
Qed.
End OneSector.

(** A handle on a file, whatever its buffer holds. *)
Record attached v (p : Z) (h : file_handle) (i : nat) (e : file_ent) (s : S) (n : Z) : Prop := {
  at_handle : handles v !! p = Some h;
  at_entry : idle_entry v (vfile_id h) i e;
  at_fs : filesystems v !! handle_fs h = Some (s, n)
}.

(** The handle after a write inside of its sector: the buffer is the old one. *)
Definition advanced (h : file_handle) (size : Z) : file_handle :=
  set_cursor h (file_offset h + size) (sector_offset h + size) (sector_count h).

Lemma vfs_write_buffered v p h i e s n ptr mem s' r : attached v p h i e s n ->
  has_flag (flags h) VFS_WRITE = true -> has_flag (flags h) VFS_APPEND = false -> flags h < 2 * VFS_TRUNCATABLE ->
  (forall k, 0 <= k -> zlen (mem k) = k) -> 0 < zlen ptr -> file_size (ent_file e) < 2 ^ 48 ->
  0 < file_access_granularity s < 2 ^ 16 -> cursor_ok h (file_access_granularity s) -> buffer_valid h = true -> cacheable s = true ->
  zlen (sector_buff h) = file_access_granularity s -> sector_offset h + zlen ptr < file_access_granularity s ->
  file_offset h + zlen ptr < file_size (ent_file e) ->
  write_file_sectors (ent_file e) (blit (sector_buff h) (sector_offset h) ptr) (sector_count h) 1 s = Ok (s', ent_file e, r) ->
  exists v', vfs_write_file ptr p mem v = Ok (v', zlen ptr) /\ attached v' p (advanced h (zlen ptr)) i e s' n.
Proof.
  intros [Hh Hi Hfs] Hw Ha Hfl Hmem Hsize Hz Hg Hcu Hbv Hca Hbuf Hin Hfile Hws. pose proof (ie_lock _ _ _ _ Hi) as Hlock.
  destruct (cursor_position h _ (proj1 Hg) Hcu) as (Eo & Hso & Hcnt). pose proof (cu_range _ _ Hcu). set (g := file_access_granularity s) in *.
  unfold vfs_write_file, get_handle, get_fs. rewrite Hh. cbn [mbind res_bind]. rewrite (proj2 (Z.ltb_lt _ _)) by done. cbn [assert_ mbind res_bind].
  rewrite Hw. cbn [negb]. rewrite (proj2 (Z.eqb_neq (zlen ptr) 0)) by lia. rewrite Hfs. cbn [mbind res_bind].
  rewrite (acquire_file_access_ok v _ i e Hi). cbn [mbind res_bind]. rewrite Ha.
  pose proof (write_blocks_buffered s (ent_file e) h ptr mem Hg Hcu Hbv Hca Hbuf Hmem Hsize Hin Hfile s' r Hws) as Eb. fold g in Eb |- *.
  rewrite Eb. cbn [mbind res_bind].
  destruct (position_add g (sector_count h) (sector_offset h) (zlen ptr)) as [Ed _]; [lia|lia|]. rewrite <- Eo, (Z.div_small (sector_offset h + zlen ptr)), Z.add_0_r in Ed by lia.
  rewrite (u64_small (file_offset h + zlen ptr)), (u32_small (_ + zlen ptr)), Ed, (Z.mod_small (sector_offset h + zlen ptr)) by lia.
  change (u64 (-1)) with (2 ^ 64 - 1). rewrite (proj2 (Z.eqb_neq (file_size _) _)), (proj2 (Z.ltb_ge (file_size _) _)), Z.eqb_refl by lia.
  cbn [negb andb orb mbind res_bind]. change (vfile_id (set_cursor h _ _ _)) with (vfile_id h).
  set (v1 := put_handle p _ _). rewrite (release_file_access_ok v v1 (vfile_id h) i e) by done. cbn [mbind res_bind].
  eexists. split; [done|]. constructor; cbn.
  - apply lookup_insert_eq.
  - destruct Hi as [Hf He Hac Hl]. by constructor.
  - apply lookup_insert_eq.
Qed.

(** The bytes of the file after a sector was written that holds the old ones but for [b]. *)
Lemma stale_result (data D b buf : list Z) g cnt o fs : 0 < g -> 0 <= cnt -> 0 <= o -> o + zlen b < g -> buf = slice data (cnt * g) g ->
  (cnt + 1) * g <= zlen D -> (cnt + 1) * g <= zlen data -> cnt * g + o + zlen b <= fs -> fs <= zlen data -> fs <= zlen D ->
  (forall x, 0 <= x < fs -> ~ cnt * g <= x < (cnt + 1) * g -> D !! Z.to_nat x = data !! Z.to_nat x) ->
  slice (blit D (cnt * g) (blit buf o b)) 0 fs = blit (slice data 0 fs) (cnt * g + o) b.
Proof.
  intros Hg Hcnt Ho Hb Ebuf HD Hdata Hfs Hfd HfD Hout. pose proof (zlen_nonneg b).
  assert (0 <= cnt * g) by (apply Z.mul_nonneg_nonneg; lia). replace ((cnt + 1) * g) with (cnt * g + g) in * by lia. set (P := cnt * g) in *. clearbody P.
  assert (zlen buf = g) as Hbl by (rewrite Ebuf; apply zlen_slice; lia). assert (zlen (blit buf o b) = g) as Hwl by (rewrite zlen_blit; lia).
  apply list_eq. intros x. destruct (decide (Z.of_nat x < fs)) as [Hx|Hx].
  - rewrite lookup_slice by lia. change (Z.to_nat 0 + x)%nat with x. rewrite lookup_blit by lia. rewrite (lookup_blit (slice data 0 fs)) by (rewrite ?zlen_slice; lia).
    assert (slice data 0 fs !! x = data !! x) as Es by (rewrite lookup_slice by lia; done).
    unfold zlen in Hwl. destruct (decide (Z.to_nat P <= x < Z.to_nat P + length (blit buf o b))%nat) as [Hin|Hn].
    + rewrite lookup_blit by lia. unfold zlen in *. destruct (decide (Z.to_nat (P + o) <= x < Z.to_nat (P + o) + length b)%nat) as [Hp|Hp].
      * rewrite decide_True by lia. f_equal. lia.
      * rewrite decide_False by lia. rewrite Es, Ebuf, lookup_slice by lia. f_equal. lia.
    + unfold zlen in *. rewrite decide_False by lia. rewrite Es, <- (Nat2Z.id x). apply Hout; lia.
  - rewrite !lookup_ge_None_2; [done| |unfold slice, zlen in *; rewrite length_take; lia].
    pose proof (zlen_blit (slice data 0 fs) (P + o) b) as L. rewrite zlen_slice in L by lia. specialize (L ltac:(lia) ltac:(lia)). unfold zlen in *. lia.
Qed.

(** After a read that left its last sector in the buffer of the handle, two writes in a row
    inside of this sector lose the first one: both return success, and the file then holds
    its old bytes where the first one wrote. *)
Theorem vfs_second_write_reverts_first v p h i e s n data a b mem :
  opened v p h i e s n data -> buffer_valid h = true -> cacheable s = true ->
  has_flag (flags h) VFS_WRITE = true -> has_flag (flags h) VFS_APPEND = false -> flags h < 2 * VFS_TRUNCATABLE ->
  (forall k, 0 <= k -> zlen (mem k) = k) -> 0 < zlen a -> 0 < zlen b ->
  sector_offset h + zlen a + zlen b < file_access_granularity s ->
  file_offset h + zlen a + zlen b < file_size (ent_file e) ->
  exists v1 v2 s2 data2, vfs_write_file a p mem v = Ok (v1, zlen a) /\ vfs_write_file b p mem v1 = Ok (v2, zlen b) /\
    filesystems v2 !! handle_fs h = Some (s2, n) /\ stored s2 (addr (ent_file e)) data2 /\
    contents e data2 = blit (contents e data) (file_offset h + zlen a) b.
Proof.
  intros [Hh Hi Hfs Hefs Hst Hz Hcu Hco] Hbv Hca Hw Ha Hfl Hmem Hla Hlb Hin Hfile.
  pose proof (granularity_range _ _ _ Hst) as Hg. pose proof (stored_range _ _ _ Hst) as [H48 _]. destruct (Hco Hbv Hca) as [Ebuf Hfit].
  destruct (cursor_position h _ (proj1 Hg) Hcu) as (Eo & Hso & Hcnt). set (g := file_access_granularity s) in *.
  assert (0 <= sector_count h * g) by (apply Z.mul_nonneg_nonneg; lia).
  assert (zlen (sector_buff h) = g) as Hbl by (rewrite Ebuf; apply zlen_slice; lia).
  assert (zlen (blit (sector_buff h) (sector_offset h) a) = 1 * g) as Hl1 by (rewrite zlen_blit; lia).
  destruct (write_stored s (ent_file e) data (blit (sector_buff h) (sector_offset h) a) (sector_count h) 1)
    as (s1 & r1 & ext1 & E1 & _ & Eg1 & Ec1 & Hf1 & Hst1); try (done || (fold g; lia) || (left; fold g; lia)). fold g in Eg1, Hf1, Hst1.
  destruct (vfs_write_buffered v p h i e s n a mem s1 r1) as (v1 & Ev1 & Hat1); try (done || (fold g; lia)).
  set (h1 := advanced h (zlen a)) in *. set (data1 := blit (data ++ ext1) _ _) in *.
  assert (zlen data1 = zlen (data ++ ext1)) as Hd1 by (apply zlen_blit; lia). rewrite zlen_app in Hd1. pose proof (zlen_nonneg ext1).
  assert (zlen (blit (sector_buff h1) (sector_offset h1) b) = 1 * g) as Hl2 by (cbn; rewrite zlen_blit; lia).
  destruct (write_stored s1 (ent_file e) data1 (blit (sector_buff h1) (sector_offset h1) b) (sector_count h1) 1)
    as (s2 & r2 & ext2 & E2 & _ & Eg2 & Ec2 & Hf2 & Hst2); rewrite ?Eg1; try (done || (cbn; lia) || (left; cbn; lia)).
  rewrite Eg1 in *. assert (cursor_ok h1 g) as Hcu1.
  { pose proof (cu_range _ _ Hcu). apply (cursor_ok_intro h1 g (sector_count h) (sector_offset h + zlen a)); cbn; lia. }
  destruct (vfs_write_buffered v1 p h1 i e s1 n b mem s2 r2 Hat1) as (v2 & Ev2 & Hat2); rewrite ?Eg1; try (done || (cbn; lia)); [congruence|].
  exists v1, v2, s2, (blit (data1 ++ ext2) (sector_count h * g) (blit (sector_buff h) (sector_offset h + zlen a) b)).
  split_and!; [done|done|apply (at_fs _ _ _ _ _ _ _ Hat2)|exact Hst2|]. unfold contents.
  rewrite (stale_result data (data1 ++ ext2) b (sector_buff h) g (sector_count h)); try (done || lia); [by rewrite Eo, Z.add_assoc|rewrite zlen_app; pose proof (zlen_nonneg ext2); lia|].
  intros x Hx Hout. rewrite lookup_app_l by (unfold zlen in *; lia). unfold data1. rewrite lookup_blit by lia.
  rewrite decide_False by (unfold zlen in *; lia). rewrite lookup_app_l by (unfold zlen in *; lia). done.
Qed.
End Stale.
