(* ===== verification/VfsTable.v ===== *)
(** * Open files: the table and the handles agree

    An entry of the table counts the handles of its file, a file system counts the handles of
    its files.  Opening, duplicating and closing keep these counts right, so that no assertion
    of [vfs_close_file] fails and a file leaves the table with its last handle. *)

From S2P Require Import Prelude Bytes FileSystems VfsFiles VfsRead.





(** ** Counting handles *)

Section Count.
Context (P : file_handle -> Prop) `{forall h, Decision (P h)}.

Definition count (m : gmap Z file_handle) : Z := Z.of_nat (size (filter (fun kv => P kv.2) m)).

Lemma count_insert m q h : m !! q = None -> count (<[q := h]> m) = count m + (if decide (P h) then 1 else 0).
Proof.
  intros Hq. unfold count. case_decide as Hp.
  - rewrite map_filter_insert_True by done. rewrite map_size_insert_None; [lia|]. apply map_lookup_filter_None. by left.
  - rewrite map_filter_insert_not'; [lia|done|]. intros y Hy. congruence.
Qed.

Lemma count_delete m q h : m !! q = Some h -> count (delete q m) = count m - (if decide (P h) then 1 else 0).
Proof.
  intros Hq. rewrite <- (insert_delete_id m q h Hq) at 2. rewrite count_insert by apply lookup_delete_eq. lia.
Qed.

Lemma count_replace m q h h' : m !! q = Some h -> (P h <-> P h') -> count (<[q := h']> m) = count m.
Proof.
  intros Hq Hp. rewrite <- insert_delete_eq, count_insert by apply lookup_delete_eq. rewrite (count_delete m q h Hq).
  destruct (decide (P h)), (decide (P h')); tauto || lia.
Qed.

Lemma count_pos m q h : m !! q = Some h -> P h -> 0 < count m.
Proof. intros Hq Hp. pose proof (count_delete m q h Hq) as E. rewrite decide_True in E by done. unfold count in *. lia. Qed.

Lemma count_zero m : (forall q h, m !! q = Some h -> ~ P h) -> count m = 0.
Proof.
  intros Hn. unfold count. assert (filter (fun kv => P kv.2) m = (∅ : gmap Z file_handle)) as ->.
  { apply map_eq. intros q. rewrite lookup_empty. apply map_lookup_filter_None. right. intros h Hq. by apply Hn with q. }
  by rewrite map_size_empty.
Qed.

Lemma count_zero_inv m q h : count m = 0 -> m !! q = Some h -> ~ P h.
Proof. intros E Hq Hp. pose proof (count_pos m q h Hq Hp). lia. Qed.
End Count.

(** ** The counts of a table *)

Notation on_file id := (fun h => vfile_id h = id).
Notation on_fs p := (fun h => handle_fs h = p).

Record counts_ok (files : list file_ent) (cur next : Z) (hs : gmap Z file_handle) (cnt : gmap Z Z) : Prop := {
  ck_ids : NoDup (ent_id <$> files);
  ck_cur : forall e, e ∈ files -> 0 <= ent_id e <= cur;
  ck_free : forall e, e ∈ files -> accessed e = false /\ is_Some (cnt !! ent_fs e);
  ck_handles : forall q h, hs !! q = Some h -> 0 <= q < next /\ handle_id h = q /\
    exists e, e ∈ files /\ ent_id e = vfile_id h /\ ent_fs e = handle_fs h;
  ck_insts : forall e, e ∈ files -> n_insts e = count (on_file (ent_id e)) hs;
  ck_fs : forall p n, cnt !! p = Some n -> n = count (on_fs p) hs
}.

(** Two entries of a table with one id are one entry. *)
Lemma same_id files i j e e' : NoDup (ent_id <$> files) -> files !! i = Some e -> files !! j = Some e' -> ent_id e = ent_id e' -> i = j.
Proof.
  intros Hnd Hi Hj E. apply (NoDup_lookup _ i j (ent_id e) Hnd); rewrite list_lookup_fmap; [by rewrite Hi|]. rewrite Hj. cbn. by rewrite E.
Qed.

(** A new entry without handles. *)
Lemma counts_ok_append files cur next hs cnt e : counts_ok files cur next hs cnt -> 0 <= cur -> ent_id e = cur + 1 ->
  accessed e = false -> n_insts e = 0 -> is_Some (cnt !! ent_fs e) -> counts_ok (files ++ [e]) (cur + 1) next hs cnt.
Proof.
  intros [H1 H2 H3 H4 H5 H6] Hc Hid Ha Hn Hf. constructor.
  - rewrite fmap_app. apply list.NoDup_app. split_and!; [done| |apply NoDup_singleton].
    intros x (e' & -> & He')%list_elem_of_fmap. intros Hx%list_elem_of_singleton. specialize (H2 e' He'). lia.
  - intros e' [He'| ->%list_elem_of_singleton]%elem_of_app; [specialize (H2 e' He')|]; lia.
  - intros e' [He'| ->%list_elem_of_singleton]%elem_of_app; auto.
  - intros q h Hq. destruct (H4 q h Hq) as (? & ? & e' & ? & ? & ?). split_and!; [lia|lia|done|]. exists e'. split_and!; [|done..].
    apply elem_of_app. by left.
  - intros e' [He'| ->%list_elem_of_singleton]%elem_of_app; [auto|]. rewrite Hn, count_zero; [done|].
    intros q h Hq E. destruct (H4 q h Hq) as (_ & _ & e' & He' & Eid & _). specialize (H2 e' He'). lia.
  - done.
Qed.

(** The entries after one of them changed. *)
Lemma insert_entries files i e e' x : NoDup (ent_id <$> files) -> files !! i = Some e ->
  x ∈ <[i := e']> files <-> x = e' \/ (x ∈ files /\ ent_id x <> ent_id e).
Proof.
  intros Hnd Hi. split.
  - intros [j Hj]%list_elem_of_lookup. apply list_lookup_insert_Some in Hj as [(-> & -> & _)|[Hne Hj]]; [by left|]. right.
    split; [by eapply list_elem_of_lookup_2|]. intros E. apply Hne. symmetry. by eapply same_id.
  - assert (i < length files)%nat by (by eapply lookup_lt_Some). intros [->|[[j Hj]%list_elem_of_lookup Hne]].
    + apply (list_elem_of_lookup_2 _ i). by apply list_lookup_insert_eq.
    + apply (list_elem_of_lookup_2 _ j). rewrite list_lookup_insert_ne; [done|]. intros ->. congruence.
Qed.

(** An entry changed so that it counts the handles [hs']. *)
Section Change.
Context (files : list file_ent) (cur next next' : Z) (hs hs' : gmap Z file_handle) (cnt : gmap Z Z) (i : nat) (e e' : file_ent) (d : Z).
Context (Hok : counts_ok files cur next hs cnt) (Hi : files !! i = Some e).
Hypothesis Eid : ent_id e' = ent_id e.
Hypothesis Efs : ent_fs e' = ent_fs e.
Hypothesis Ea : accessed e' = false.
Hypothesis En : n_insts e' = n_insts e + d.
Hypothesis Hfile : forall id, count (on_file id) hs' = count (on_file id) hs + (if decide (ent_id e = id) then d else 0).
Hypothesis Hfs : forall p, count (on_fs p) hs' = count (on_fs p) hs + (if decide (ent_fs e = p) then d else 0).
Hypothesis Hhs : forall q h, hs' !! q = Some h -> 0 <= q < next' /\ handle_id h = q /\
  (hs !! q = Some h \/ ent_id e = vfile_id h /\ ent_fs e = handle_fs h).

Lemma counts_ok_change n : cnt !! ent_fs e = Some n -> counts_ok (<[i := e']> files) cur next' hs' (<[ent_fs e := n + d]> cnt).
Proof using All.
  intros Hn. destruct Hok as [H1 H2 H3 H4 H5 H6]. assert (e ∈ files) as He by (by eapply list_elem_of_lookup_2).
  constructor.
  - rewrite list_fmap_insert, Eid, list_insert_id; [done|]. by rewrite list_lookup_fmap, Hi.
  - intros x [->|[Hx _]]%(insert_entries files i e e' x H1 Hi); [rewrite Eid|]; auto.
  - intros x [->|[Hx _]]%(insert_entries files i e e' x H1 Hi).
    + split; [done|]. rewrite Efs, lookup_insert_eq. by eexists.
    + destruct (H3 x Hx) as [? ?]. split; [done|]. apply lookup_insert_is_Some'. by right.
  - intros q h Hq. destruct (Hhs q h Hq) as (Hr & Hid & Hold). split_and!; [lia|lia|done|].
    assert (ent_id e = vfile_id h /\ ent_fs e = handle_fs h -> exists x, x ∈ <[i:=e']> files /\ ent_id x = vfile_id h /\ ent_fs x = handle_fs h) as Hthis.
    { intros [? ?]. exists e'. rewrite insert_entries, Eid, Efs by done. auto. }
    destruct Hold as [Hq0|?]; [|by apply Hthis]. destruct (H4 q h Hq0) as (_ & _ & x & Hx & Ex & Ef).
    destruct (decide (ent_id x = ent_id e)) as [E|E].
    + apply list_elem_of_lookup in Hx as [j Hj]. assert (j = i) as -> by (by eapply same_id). apply Hthis. by simplify_eq.
    + exists x. rewrite insert_entries by done. auto.
  - intros x [->|[Hx Hne]]%(insert_entries files i e e' x H1 Hi); rewrite Hfile.
    + rewrite decide_True by done. rewrite En, (H5 e He), Eid. done.
    + rewrite decide_False by done. rewrite (H5 x Hx). lia.
  - intros p m Hm. rewrite Hfs. apply lookup_insert_Some in Hm as [[<- <-]|[Hne Hm]].
    + rewrite decide_True by done. pose proof (H6 _ _ Hn). lia.
    + rewrite decide_False by done. rewrite (H6 _ _ Hm). lia.
Qed.
End Change.

Lemma counts_ok_attach files cur next hs cnt i e e' q h n : counts_ok files cur next hs cnt -> files !! i = Some e ->
  ent_id e' = ent_id e -> ent_fs e' = ent_fs e -> accessed e' = false -> n_insts e' = n_insts e + 1 ->
  hs !! q = None -> 0 <= q -> next <= q -> vfile_id h = ent_id e -> handle_fs h = ent_fs e -> handle_id h = q ->
  cnt !! ent_fs e = Some n ->
  counts_ok (<[i := e']> files) cur (q + 1) (<[q := h]> hs) (<[ent_fs e := n + 1]> cnt).
Proof.
  intros Hok Hi E1 E2 E3 E4 Hq Hq0 Hnext E5 E6 E7 Hn. eapply counts_ok_change; try done.
  - intros id. rewrite count_insert by done. by rewrite E5.
  - intros p. rewrite count_insert by done. by rewrite E6.
  - intros r g Hg. apply lookup_insert_Some in Hg as [[-> <-]|[Hne Hg]]; [split_and!; [lia|lia|done|]; by right|].
    destruct (ck_handles _ _ _ _ _ Hok r g Hg) as (? & ? & _). split_and!; [lia|lia|done|by left].
Qed.

Lemma counts_ok_detach files cur next hs cnt i e e' q h n : counts_ok files cur next hs cnt -> files !! i = Some e ->
  ent_id e' = ent_id e -> ent_fs e' = ent_fs e -> accessed e' = false -> n_insts e' = n_insts e - 1 ->
  hs !! q = Some h -> vfile_id h = ent_id e -> handle_fs h = ent_fs e -> cnt !! ent_fs e = Some n ->
  counts_ok (<[i := e']> files) cur next (delete q hs) (<[ent_fs e := n - 1]> cnt).
Proof.
  intros Hok Hi E1 E2 E3 E4 Hq E5 E6 Hn. eapply (counts_ok_change _ _ _ _ hs _ _ _ _ _ (-1)); try done.
  - intros id. rewrite (count_delete _ _ _ h) by done. rewrite E5. case_decide; lia.
  - intros p. rewrite (count_delete _ _ _ h) by done. rewrite E6. case_decide; lia.
  - intros r g Hg. apply lookup_delete_Some in Hg as [Hne Hg]. destruct (ck_handles _ _ _ _ _ Hok r g Hg) as (? & ? & _).
    split_and!; [lia|lia|done|by left].
Qed.

(** An entry without handles is taken out. *)
Lemma counts_ok_remove files cur next hs cnt i e : counts_ok files cur next hs cnt -> files !! i = Some e -> n_insts e = 0 ->
  counts_ok (take i files ++ drop (i + 1) files) cur next hs cnt.
Proof.
  intros [H1 H2 H3 H4 H5 H6] Hi Hn. pose proof (take_drop_middle files i e Hi) as Esplit. rewrite <- Nat.add_1_r in Esplit.
  set (a := take i files) in *. set (b := drop (i + 1) files) in *.
  assert (forall x, x ∈ a ++ b -> x ∈ files) as Hsub.
  { intros x. rewrite <- Esplit, !elem_of_app, elem_of_cons. tauto. }
  constructor; auto.
  - rewrite <- Esplit, fmap_app, fmap_cons in H1. rewrite fmap_app. apply list.NoDup_app in H1 as (? & Hd & [? ?]%list.NoDup_cons).
    apply list.NoDup_app. split_and!; try done. intros x Hx Hb. apply (Hd x Hx). by right.
  - intros q h Hq. destruct (H4 q h Hq) as (? & ? & x & Hx & Ex & Ef). split_and!; [lia|lia|done|]. exists x. split_and!; [|done..].
    rewrite <- Esplit in Hx. apply elem_of_app in Hx as [?|[->|?]%elem_of_cons]; apply elem_of_app; [by left| |by right].
    exfalso. assert (e ∈ files) as He by (by eapply list_elem_of_lookup_2). rewrite (H5 e He) in Hn.
    by apply (count_zero_inv _ _ _ _ Hn Hq).
Qed.

(** A handle moved. *)
Lemma counts_ok_move files cur next hs cnt q h h' : counts_ok files cur next hs cnt -> hs !! q = Some h -> same_handle h h' ->
  counts_ok files cur next (<[q := h']> hs) cnt.
Proof.
  intros [H1 H2 H3 H4 H5 H6] Hq [E1 E2 E3 E4]. constructor; try done.
  - intros r g Hg. apply lookup_insert_Some in Hg as [[<- <-]|[Hne Hg]]; [rewrite E1, E2, E3|]; by apply H4.
  - intros e He. rewrite (count_replace _ _ _ h) by (done || by rewrite E2). auto.
  - intros p n Hn. rewrite (count_replace _ _ _ h) by (done || by rewrite E1). auto.
Qed.
