(* ===== verification/VfsTableTheorems.v ===== *)
(** * Open files: opening, duplicating and closing keep the table right *)

From S2P Require Import Prelude Bytes FileSystems VfsFiles VfsRead VfsTable.





Section Ops.
Context {S : Type} `{FileSystem S}.
Implicit Types (s : S) (v : vfs S).

Notation counts v := (snd <$> filesystems v).

(** No lock is held, the counts are right, and each file in the table has a handle. *)
Record table_ok v : Prop := {
  tk_lock : vfile_lock v = false;
  tk_cur : 0 <= cur_id v;
  tk_next : 0 <= next_id v;
  tk_counts : counts_ok (open_files v) (cur_id v) (next_id v) (handles v) (counts v);
  tk_used : forall e, e ∈ open_files v -> 0 < n_insts e
}.

(** The functions of the file system that are told about open files return. *)
Record callbacks_return : Prop := {
  cb_open_instance : forall a hid s r, open_instance a hid s = Some r -> exists s' x, r = Ok (s', x);
  cb_close_instance : forall a hid s r, close_instance a hid s = Some r -> exists s', r = Ok s';
  cb_open_file : forall a s r, open_file a s = Some r -> exists s', r = Ok s';
  cb_close_file : forall a s r, close_file a s = Some r -> exists s', r = Ok s'
}.

Lemma find_entry v e : NoDup (ent_id <$> open_files v) -> e ∈ open_files v ->
  exists i, find_vfile (ent_id e) v = Some i /\ open_files v !! i = Some e.
Proof.
  intros Hnd Hin. destruct (list_find_elem_of (fun x => ent_id x = ent_id e) (open_files v) e Hin eq_refl) as [[i x] Hf].
  exists i. unfold find_vfile. rewrite Hf. split; [done|]. apply list_find_Some in Hf as (Hi & Hx & _).
  apply list_elem_of_lookup in Hin as [j Hj]. assert (i = j) as -> by (by eapply same_id). done.
Qed.

(** The entry of a handle. *)
Lemma handle_entry v p h : table_ok v -> handles v !! p = Some h ->
  exists i e s n, idle_entry v (vfile_id h) i e /\ e ∈ open_files v /\ ent_id e = vfile_id h /\ ent_fs e = handle_fs h /\
    filesystems v !! handle_fs h = Some (s, n) /\ counts v !! ent_fs e = Some n.
Proof.
  intros [Hl _ _ Hc _] Hp. destruct (ck_handles _ _ _ _ _ Hc p h Hp) as (_ & _ & e & He & Eid & Efs).
  destruct (find_entry v e (ck_ids _ _ _ _ _ Hc) He) as (i & Hf & Hi). destruct (ck_free _ _ _ _ _ Hc e He) as [Ha [n Hn]].
  pose proof Hn as Hn'. rewrite Efs, lookup_fmap in Hn'. destruct (filesystems v !! handle_fs h) as [[s n']|] eqn:Efs'; [|done].
  cbn in Hn'. injection Hn' as ->. exists i, e, s, n. rewrite <- Eid. by split_and!.
Qed.

Lemma acquire_busy v id i e : idle_entry v id i e -> acquire_vfile id (busy v i e) = Ok (set_lock (busy v i e) true, Some i).
Proof.
  intros [Hf He Ha Hl]. unfold acquire_vfile, lock_vfiles. change (vfile_lock (busy v i e)) with (vfile_lock v). rewrite Hl. cbn [mbind res_bind].
  replace (find_vfile id (set_lock (busy v i e) true)) with (Some i); [done|]. rewrite <- Hf. symmetry. apply find_vfile_ids.
  by apply (put_ent_ids i e).
Qed.

Lemma get_fs_ok v p s n : filesystems v !! p = Some (s, n) -> get_fs p v = Ok (s, n).
Proof. unfold get_fs. by intros ->. Qed.

(** A call of the file system keeps the counts. *)
Lemma put_fs_id v p s n : filesystems v !! p = Some (s, n) -> put_fs p s n v = v.
Proof. intros E. unfold put_fs, set_filesystems. rewrite insert_id by done. by destruct v. Qed.

Lemma counts_put_fs v p s s' n n' : filesystems v !! p = Some (s, n) -> counts (put_fs p s' n' v) = <[p := n']> (counts v).
Proof. intros E. cbn. by rewrite fmap_insert. Qed.

Lemma run_callback (r : option (res S)) v p s n : (forall x, r = Some x -> exists s', x = Ok s') -> filesystems v !! p = Some (s, n) ->
  exists s', match r with None => Ok v | Some x => s' ← x; Ok (put_fs p s' n v) end = Ok (put_fs p s' n v).
Proof.
  intros Hr Hf. destruct r as [x|]; [|exists s; by rewrite put_fs_id]. destruct (Hr x eq_refl) as [s' ->]. by exists s'.
Qed.

(** ** Closing *)

(** An entry that lost a handle keeps its array. *)
Definition left_open v (e : file_ent) : Prop :=
  exists e', e' ∈ open_files v /\ ent_id e' = ent_id e /\ ent_fs e' = ent_fs e /\ fhs e' = fhs e /\ n_insts e' = n_insts e - 1.

Lemma flush_fields e v : open_files (flush e v) = open_files v /\ vfile_lock (flush e v) = vfile_lock v /\ handles (flush e v) = handles v /\
  filesystems (flush e v) = filesystems v /\ cur_id (flush e v) = cur_id v /\ next_id (flush e v) = next_id v.
Proof. unfold flush. by destruct (modified e). Qed.

Lemma close_end v p fs s n : 0 < n -> filesystems v !! fs = Some (s, n) ->
  ('(s, n) ← get_fs fs (set_handles v (delete p (handles v))); assert_ (0 <=? n - 1) "fs->n_open_files >= 0" ;;
   Ok (put_fs fs s (n - 1) (set_handles v (delete p (handles v))))) =
  Ok (put_fs fs s (n - 1) (set_handles v (delete p (handles v)))).
Proof. intros Hn E. rewrite (get_fs_ok _ _ s n) by done. cbn [mbind res_bind]. by rewrite (proj2 (Z.leb_le 0 _)) by lia. Qed.

(** The table after the handle [p] is gone, and the entry with it when it was the last one. *)
Lemma table_ok_closed v v' p h i e e' n : table_ok v -> handles v !! p = Some h -> open_files v !! i = Some e ->
  ent_id e = vfile_id h -> ent_fs e = handle_fs h -> counts v !! ent_fs e = Some n ->
  ent_id e' = ent_id e -> ent_fs e' = ent_fs e -> accessed e' = false -> n_insts e' = n_insts e - 1 ->
  vfile_lock v' = false -> cur_id v' = cur_id v -> next_id v' = next_id v -> handles v' = delete p (handles v) ->
  counts v' = <[ent_fs e := n - 1]> (counts v) ->
  (n_insts e' = 0 -> open_files v' = take i (open_files v) ++ drop (i + 1) (open_files v)) ->
  (n_insts e' <> 0 -> open_files v' = <[i := e']> (open_files v)) -> table_ok v'.
Proof.
  intros [Hl Hcur Hnext Hc Hu] Hp Hi Eid Efs Hn E1 E2 E3 E4 Hl' Ecur Enext Eh Ecnt Hlast Hmore.
  assert (e ∈ open_files v) as Hin by (by eapply list_elem_of_lookup_2). pose proof (Hu e Hin). pose proof (ck_ids _ _ _ _ _ Hc) as Hnd.
  assert (i < length (open_files v))%nat by (by eapply lookup_lt_Some).
  pose proof (counts_ok_detach _ _ _ _ _ i e e' p h n Hc Hi E1 E2 E3 E4 Hp (eq_sym Eid) (eq_sym Efs) Hn) as Hd.
  constructor; try (done || lia); rewrite ?Ecur, ?Enext, ?Eh, ?Ecnt; destruct (decide (n_insts e' = 0)) as [E0|E0].
  - rewrite Hlast by done. pose proof (counts_ok_remove _ _ _ _ _ i e' Hd (list_lookup_insert_eq _ _ _ ltac:(done)) E0) as Hr.
    rewrite take_insert_ge, drop_insert_lt in Hr by lia. done.
  - by rewrite Hmore.
  - rewrite Hlast by done. intros x Hx. apply Hu. rewrite <- (take_drop_middle _ _ _ Hi), <- Nat.add_1_r, elem_of_app, elem_of_cons.
    apply elem_of_app in Hx. tauto.
  - rewrite Hmore by done. intros x [->|[Hx _]]%(insert_entries _ i e e' x Hnd Hi); [lia|auto].
Qed.

Lemma vfs_close_file_ok v p h : callbacks_return -> table_ok v -> handles v !! p = Some h ->
  exists v', vfs_close_file p v = Ok v' /\ table_ok v' /\ handles v' = delete p (handles v) /\
    forall e, e ∈ open_files v -> ent_id e = vfile_id h -> n_insts e <> 1 -> left_open v' e.
Proof.
  intros [_ Hci _ Hcf] Hok Hp. destruct (handle_entry v p h Hok Hp) as (i & e & s & n & Hi & Hin & Eid & Efs & Hfs & Hn).
  pose proof Hok as [Hl Hcur Hnext Hc Hu]. assert (i < length (open_files v))%nat by (eapply lookup_lt_Some, Hi).
  unfold vfs_close_file, get_handle. rewrite Hp. cbn [mbind res_bind]. rewrite (acquire_file_access_ok v _ i e Hi). cbn [mbind res_bind].
  rewrite (acquire_busy v _ i e Hi). cbn [mbind res_bind deref]. change (open_files (set_lock _ _)) with (<[i := set_accessed e true]> (open_files v)).
  rewrite list_lookup_insert_eq by done. cbn [mbind res_bind]. set (v1 := set_lock (busy v i e) true).
  rewrite (get_fs_ok v1 _ s n) by done. cbn [mbind res_bind].
  destruct (run_callback (close_instance (addr (ent_file (set_accessed e true))) (handle_id h) s) v1 (handle_fs h) s n) as (s1 & ->); [apply Hci|done|].
  cbn [mbind res_bind]. set (e1 := set_fhs _ _ _). specialize (Hu e Hin) as Hpos. change (n_insts e1) with (n_insts e - 1).
  rewrite (proj2 (Z.leb_le 0 _)) by lia. cbn [assert_ mbind res_bind]. set (e2 := if has_flag _ _ then _ else e1).
  assert (n_insts e2 = n_insts e - 1 /\ ent_id e2 = ent_id e /\ ent_fs e2 = ent_fs e) as (En2 & Eid2 & Efs2) by (unfold e2; by destruct (has_flag _ _)).
  assert (0 < n) as Hn0.
  { rewrite (ck_fs _ _ _ _ _ Hc _ _ Hn). by eapply (count_pos (on_fs (ent_fs e))). }
  assert (forall x, x ∈ open_files v -> ent_id x = vfile_id h -> x = e) as Hsame.
  { intros x [j Hj]%list_elem_of_lookup Ex. assert (j = i) as -> by (eapply same_id; [apply Hc|done|apply Hi|congruence]).
    pose proof (ie_ent _ _ _ _ Hi). congruence. }
  set (w := put_ent i e2 (put_fs (handle_fs h) s1 n v1)).
  assert (filesystems w !! handle_fs h = Some (s1, n)) as Hw by (cbn; apply lookup_insert_eq).
  assert (counts w = counts v) as Hcw.
  { rewrite <- (insert_id (counts v) (handle_fs h) n) by (by rewrite <- Efs). apply fmap_insert. }
  assert (open_files w = <[i := e2]> (open_files v)) as How by apply list_insert_insert_eq.
  destruct (Z.eqb_spec (n_insts e2) 0) as [E0|E0].
  - destruct (flush_fields e2 w) as (F1 & F2 & F3 & F4 & F5 & F6).
    set (u := release_vfile _). assert (filesystems u !! handle_fs h = Some (s1, n)) as Hu1 by (cbn; by rewrite F4).
    rewrite (get_fs_ok u _ s1 n Hu1). cbn [mbind res_bind].
    destruct (run_callback (close_file (addr (ent_file e2)) s1) u (handle_fs h) s1 n) as (s2 & ->); [apply Hcf|done|].
    cbn [mbind res_bind]. rewrite (close_end _ p _ s2 n) by (done || cbn; apply lookup_insert_eq). eexists. split; [reflexivity|]. split_and!; [|cbn; by rewrite F3|by intros x Hx Ex ?; rewrite (Hsame x) in * by done; lia].
    eapply (table_ok_closed v _ p h i e (set_accessed e2 false) n); try done; try apply Hi; try (cbn; congruence).
    + cbn. by rewrite F3.
    + change (filesystems (put_fs _ _ _ _)) with (<[handle_fs h := (s2, n - 1)]> (<[handle_fs h := (s2, n)]> (filesystems (flush e2 w)))).
      by rewrite insert_insert_eq, fmap_insert, F4, Hcw, Efs.
    + intros _. cbn. rewrite F1, How, take_insert_ge, drop_insert_lt by lia. done.
  - rewrite (release_entry (release_vfile w) (vfile_id h) i e2).
    2:{ rewrite <- (ie_find _ _ _ _ Hi). apply find_vfile_ids. change (open_files (release_vfile w)) with (open_files w). rewrite How.
        by apply (put_ent_ids i e); [apply Hi|]. }
    2:{ change (open_files (release_vfile w)) with (open_files w). by rewrite How, list_lookup_insert_eq. }
    2:{ unfold e2. by destruct (has_flag _ _). }
    2:{ done. }
    cbn [mbind res_bind]. rewrite (close_end _ p _ s1 n) by (done || cbn; apply lookup_insert_eq). eexists. split; [reflexivity|]. split_and!; [|done|].
    2:{ intros x Hx Ex _. rewrite (Hsame x) by done. exists (set_accessed e2 false). split_and!; try done; [|unfold e2; by destruct (has_flag _ _)].
        change (open_files (put_fs _ _ _ _)) with (<[i := set_accessed e2 false]> (open_files w)). rewrite How, list_insert_insert_eq.
        apply (insert_entries _ i e); [apply Hc|apply Hi|by left]. }
    eapply (table_ok_closed v _ p h i e (set_accessed e2 false) n); try done; try apply Hi.
    + change (filesystems (put_fs _ _ (n - 1) _)) with (<[handle_fs h := (s1, n - 1)]> (filesystems w)). by rewrite fmap_insert, Hcw, Efs.
    + intros _. change (open_files (put_fs _ _ _ _)) with (<[i := set_accessed e2 false]> (open_files w)). by rewrite How, list_insert_insert_eq.
Qed.

(** ** Opening *)

Definition set_vfile (h : file_handle) (id : Z) : file_handle :=
  Handle (handle_fs h) (buffer_valid h) (sector_offset h) (sector_count h) (file_offset h) (sector_buff h) id (handle_id h) (flags h).

(** A table in which one more handle of the file system of [e] is announced: [cnt] is the
    counts without it. *)
Record awaiting v (i : nat) (e : file_ent) (cnt : gmap Z Z) (n : Z) : Prop := {
  aw_lock : vfile_lock v = false;
  aw_cur : 0 <= cur_id v;
  aw_next : 0 < next_id v;
  aw_counts : counts_ok (open_files v) (cur_id v) (next_id v - 1) (handles v) cnt;
  aw_ent : open_files v !! i = Some e;
  aw_insts : 0 <= n_insts e;
  aw_used : forall x, x ∈ open_files v -> ent_id x <> ent_id e -> 0 < n_insts x;
  aw_cnt : cnt !! ent_fs e = Some n;
  aw_fs : counts v = <[ent_fs e := n + 1]> cnt
}.

Lemma register_ok v i e cnt n h : awaiting v i e cnt n -> handle_fs h = ent_fs e -> handle_id h = next_id v - 1 ->
  exists v' e', register_handle_to_vfile (ent_id e) (next_id v - 1) h v = Ok v' /\ table_ok v' /\
    handles v' = <[next_id v - 1 := set_vfile h (ent_id e)]> (handles v) /\ filesystems v' = filesystems v /\
    e' ∈ open_files v' /\ ent_id e' = ent_id e /\ ent_file e' = ent_file e /\ ent_fs e' = ent_fs e.
Proof.
  intros [Hl Hcur Hnext Hc Hi Hpos Hu Hn Hfs] Ef Eid. pose proof (ck_ids _ _ _ _ _ Hc) as Hnd.
  assert (e ∈ open_files v) as Hin by (by eapply list_elem_of_lookup_2). destruct (find_entry v e Hnd Hin) as (j & Hf & Hj).
  assert (j = i) as -> by (by eapply same_id). assert (i < length (open_files v))%nat by (by eapply lookup_lt_Some).
  unfold register_handle_to_vfile, acquire_vfile, lock_vfiles. change (vfile_lock (put_handle _ _ v)) with (vfile_lock v). rewrite Hl.
  cbn [mbind res_bind]. fold (set_vfile h (ent_id e)). set (w := set_lock _ true).
  replace (find_vfile (ent_id e) w) with (Some i) by (rewrite <- Hf; by apply find_vfile_ids). cbn [mbind res_bind deref].
  change (open_files w) with (open_files v). rewrite Hi. cbn [mbind res_bind]. set (e' := set_fhs _ _ _). eexists _, e'. split; [reflexivity|].
  assert (e' ∈ <[i := e']> (open_files v)) as Hin' by (apply (list_elem_of_lookup_2 _ i); by apply list_lookup_insert_eq).
  split_and!; try done. destruct (ck_free _ _ _ _ _ Hc e Hin) as [Hac _]. constructor; [done|done|cbn; lia|..].
  - change (counts_ok (<[i := e']> (open_files v)) (cur_id v) (next_id v) (<[next_id v - 1 := set_vfile h (ent_id e)]> (handles v)) (counts v)).
    rewrite Hfs. replace (next_id v) with (next_id v - 1 + 1) at 1 by lia.
    apply (counts_ok_attach (open_files v) (cur_id v) (next_id v - 1) (handles v) cnt i e e' (next_id v - 1) (set_vfile h (ent_id e)) n); try (done || lia).
    destruct (handles v !! (next_id v - 1)) eqn:E; [|done]. destruct (ck_handles _ _ _ _ _ Hc _ _ E) as [? _]. lia.
  - intros x [->|[Hx Hne]]%(insert_entries _ i e e' x Hnd Hi); [cbn; lia|auto].
Qed.

(** A table in which a number is taken for a new handle. *)
Record numbered v : Prop := {
  nu_lock : vfile_lock v = false;
  nu_cur : 0 <= cur_id v;
  nu_next : 0 < next_id v;
  nu_counts : counts_ok (open_files v) (cur_id v) (next_id v - 1) (handles v) (counts v);
  nu_used : forall e, e ∈ open_files v -> 0 < n_insts e
}.

Lemma numbered_next v : table_ok v -> next_id v + 1 < 2 ^ 64 ->
  handle_next_id v = (set_ids v (cur_id v) (next_id v + 1), next_id v) /\ numbered (set_ids v (cur_id v) (next_id v + 1)).
Proof.
  intros [Hl Hcur Hnext Hc Hu] Hb. unfold handle_next_id. rewrite u64_small by lia. split; [done|]. constructor; try done; cbn; [lia|].
  replace (next_id v + 1 - 1) with (next_id v) by lia. done.
Qed.

Lemma numbered_put_fs v p s s' n : numbered v -> filesystems v !! p = Some (s, n) -> numbered (put_fs p s' n v).
Proof.
  intros [Hl Hcur Hnext Hc Hu] E. constructor; try done. rewrite (counts_put_fs v p s s' n n E), insert_id; [done|]. by rewrite lookup_fmap, E.
Qed.

(** When nothing is opened the number is not used again. *)
Lemma numbered_table v : numbered v -> table_ok v.
Proof.
  intros [Hl Hcur Hnext [H1 H2 H3 H4 H5 H6] Hu]. constructor; try (done || lia). constructor; try done.
  intros q h Hq. destruct (H4 q h Hq) as (? & ? & ?). split_and!; [lia|lia|done|done].
Qed.

Lemma search_or_insert_ok v fs a len p s n : callbacks_return -> numbered v -> cur_id v + 1 < 2 ^ 64 -> filesystems v !! fs = Some (s, n) ->
  exists v' i e s', search_or_insert_file fs a len p v = Ok (v', ent_id e) /\ awaiting v' i e (counts v) n /\ ent_fs e = fs /\
    addr (ent_file e) = a /\ handles v' = handles v /\ next_id v' = next_id v /\ filesystems v' !! fs = Some (s', n + 1).
Proof.
  intros [_ _ Hof _] [Hl Hcur Hnext Hc Hu] Hb Hfs. assert (counts v !! fs = Some n) as Hn by (by rewrite lookup_fmap, Hfs).
  unfold search_or_insert_file, lock_vfiles. rewrite Hl. cbn [mbind res_bind]. rewrite (get_fs_ok (set_lock v true) fs s n Hfs). cbn [mbind res_bind].
  set (w := put_fs fs s (n + 1) (set_lock v true)). assert (forall s', counts (put_fs fs s' (n + 1) w) = <[fs := n + 1]> (counts v)) as Hcw.
  { intros s'. change (filesystems (put_fs fs s' (n + 1) w)) with (<[fs := (s', n + 1)]> (<[fs := (s, n + 1)]> (filesystems v))).
    by rewrite insert_insert_eq, fmap_insert. }
  assert (w = put_fs fs s (n + 1) w) as Ew by (symmetry; apply put_fs_id; cbn; apply lookup_insert_eq).
  change (open_files w) with (open_files v). change (cur_id w) with (cur_id v). change (next_id w) with (next_id v).
  destruct (list_find _ (open_files v)) as [[i e]|] eqn:Ef.
  - apply list_find_Some in Ef as (Hi & [Ha Efs] & _). assert (e ∈ open_files v) as Hin by (by eapply list_elem_of_lookup_2).
    exists (release_vfile w), i, e, s. split_and!; try done; [|cbn; apply lookup_insert_eq]. constructor; try done; [specialize (Hu e Hin); lia|auto|by rewrite Efs|].
    rewrite Efs. rewrite <- (Hcw s), <- Ew. done.
  - rewrite u64_small by lia. set (e := FileEnt _ _ _ _ _ _ _ _). set (u := release_vfile _).
    assert (exists s', match open_file a s with Some r => s0 ← r; Ok (put_fs fs s0 (n + 1) u, cur_id v + 1) | None => Ok (u, cur_id v + 1) end
      = Ok (put_fs fs s' (n + 1) u, cur_id v + 1)) as (s' & ->).
    { destruct (open_file a s) as [r|] eqn:Eo; [destruct (Hof _ _ _ Eo) as [s' ->]; by exists s'|]. exists s. by rewrite put_fs_id by (cbn; apply lookup_insert_eq). }
    exists (put_fs fs s' (n + 1) u), (length (open_files v)), e, s'. split_and!; try done; [|cbn; apply lookup_insert_eq].
    constructor; try done; [cbn; lia| |cbn; by rewrite list_lookup_middle| |exact (Hcw s')].
    + change (counts_ok (open_files v ++ [e]) (cur_id v + 1) (next_id v - 1) (handles v) (counts v)). by apply counts_ok_append.
    + intros x [Hx| ->%list_elem_of_singleton]%elem_of_app Hne; [auto|done].
Qed.

(** What an open leaves: nothing new, or the new handle [q] on the file system [fs]. *)
Definition opened_handle v v' (q fs : Z) (r : option Z) (on : file_ent -> Prop) : Prop :=
  (r = None /\ handles v' = handles v) \/
  exists h e, r = Some q /\ handles v' = <[q := h]> (handles v) /\ handle_fs h = fs /\ e ∈ open_files v' /\ ent_id e = vfile_id h /\ on e.

Lemma run_open_instance a hid v p s n k : callbacks_return -> numbered v -> filesystems v !! p = Some (s, n) ->
  exists s' x, match open_instance a hid s with None => Ok (v, k) | Some r => '(s, x) ← r; Ok (put_fs p s n v, x) end = Ok (put_fs p s' n v, x) /\
    numbered (put_fs p s' n v).
Proof.
  intros [Hoi _ _ _] Hnu Hf. destruct (open_instance a hid s) as [r|] eqn:E.
  - destruct (Hoi _ _ _ _ E) as (s' & x & ->). exists s', x. split; [done|by eapply numbered_put_fs].
  - exists s, k. by rewrite put_fs_id.
Qed.

Lemma create_handler_ok v fs d p fl mem : callbacks_return -> table_ok v -> is_Some (filesystems v !! fs) ->
  cur_id v + 1 < 2 ^ 64 -> next_id v + 1 < 2 ^ 64 ->
  exists v' r, create_handler fs d p fl mem v = Ok (v', r) /\ table_ok v' /\ is_Some (filesystems v' !! fs) /\
    opened_handle v v' (next_id v) fs r (fun e => addr (ent_file e) = ino d /\ ent_fs e = fs).
Proof.
  intros Hcb Hok [[s n] Hfs] Hb1 Hb2. destruct (numbered_next v Hok Hb2) as [E Hnu]. unfold create_handler. rewrite E. clear E.
  set (v1 := set_ids _ _ _) in *. rewrite (get_fs_ok v1 fs s n) by done. cbn [mbind res_bind].
  destruct (run_open_instance (ino d) (next_id v) v1 fs s n 0 Hcb Hnu Hfs) as (s1 & x & E & Hnu1).
  rewrite E. clear E. cbn [mbind res_bind]. set (v2 := put_fs fs s1 n v1) in *.
  assert (filesystems v2 !! fs = Some (s1, n)) as Hfs2 by (cbn; apply lookup_insert_eq). destruct (negb (x =? 0)).
  { exists v2, None. split_and!; [done|by apply numbered_table|by eexists|by left]. }
  destruct (search_or_insert_ok v2 fs (ino d) (dirent_size d) p s1 n Hcb Hnu1 Hb1 Hfs2) as (v3 & i & e & s3 & -> & Haw & Ef & Ea & Eh & En & Hfs3).
  cbn [mbind res_bind]. set (h := Handle _ _ _ _ _ _ _ _ _). assert (next_id v = next_id v3 - 1) as Enext by (rewrite En; cbn; lia). rewrite Enext.
  destruct (register_ok v3 i e _ n h Haw) as (v4 & e' & -> & Hok4 & Eh4 & Efs4 & He' & Eid & Ef' & Efs'); [by rewrite Ef|done|].
  cbn [mbind res_bind]. eexists _, _. split_and!; [reflexivity|done|rewrite Efs4; by eexists|]. right.
  exists (set_vfile h (ent_id e)), e'. split_and!; try done; [by rewrite Eh4, Eh|by rewrite Ef'|by rewrite Efs'].
Qed.

Lemma table_ok_move v q h h' : table_ok v -> handles v !! q = Some h -> same_handle h h' -> table_ok (put_handle q h' v).
Proof. intros [Hl Hcur Hnext Hc Hu] Hq Hs. constructor; try done. by eapply counts_ok_move. Qed.

Lemma vfs_open_file_from_ok v fs d p fl mem : callbacks_return -> table_ok v -> is_Some (filesystems v !! fs) -> fl < 2 * VFS_TRUNCATABLE ->
  cur_id v + 1 < 2 ^ 64 -> next_id v + 1 < 2 ^ 64 ->
  exists v' r, vfs_open_file_from fs d p fl mem v = Ok (v', r) /\ table_ok v' /\
    opened_handle v v' (next_id v) fs r (fun e => addr (ent_file e) = ino d /\ ent_fs e = fs).
Proof.
  intros Hcb Hok Hfs Hfl Hb1 Hb2. unfold vfs_open_file_from. rewrite (proj2 (Z.ltb_lt _ _)) by done. cbn [assert_ mbind res_bind].
  assert (exists v' r, Ok (v, @None Z) = Ok (v', r) /\ table_ok v' /\
    opened_handle v v' (next_id v) fs r (fun e => addr (ent_file e) = ino d /\ ent_fs e = fs)) as Hrefuse.
  { exists v, None. split_and!; [done|done|by left]. }
  destruct (negb (dirent_type d =? DT_REG)); [done|]. destruct (has_flag fl VFS_WRITE && _); [done|]. destruct (has_flag fl VFS_READ && _); [done|].
  set (fl' := if right_truncatable d then _ else _).
  destruct (create_handler_ok v fs d p fl' mem Hcb Hok Hfs Hb1 Hb2) as (v1 & r & -> & Hok1 & [[s n] Hfs1] & Ho). cbn [mbind res_bind].
  destruct r as [q|]; [|by exists v1, None]. destruct (has_flag fl' VFS_APPEND); [|by exists v1, (Some q)].
  destruct Ho as [[[=] _]|(h & e & [= ->] & Eh & Ef & He & Eid & Hon)].
  assert (handles v1 !! next_id v = Some h) as Hq by (rewrite Eh; apply lookup_insert_eq).
  unfold get_handle. rewrite Hq. cbn [mbind res_bind]. rewrite (get_fs_ok v1 fs s n Hfs1). cbn [mbind res_bind]. set (h' := set_stream_offset _ _ _).
  eexists _, _. split_and!; [reflexivity|by apply (table_ok_move v1 _ h h')|]. right. exists h', e. split_and!; try done.
  - cbn. by rewrite Eh, insert_insert_eq.
  - apply Hon.
  - apply Hon.
Qed.

Lemma vfs_handle_dup_ok v p h mem : callbacks_return -> table_ok v -> handles v !! p = Some h -> next_id v + 1 < 2 ^ 64 ->
  exists v' r, vfs_handle_dup p mem v = Ok (v', r) /\ table_ok v' /\
    opened_handle v v' (next_id v) (handle_fs h) r (fun e => ent_id e = vfile_id h).
Proof.
  intros Hcb Hok Hp Hb. destruct (handle_entry v p h Hok Hp) as (i & e & s & n & Hi & Hin & Eid & Efs & Hfs & Hn).
  destruct (numbered_next v Hok Hb) as [E Hnu]. unfold vfs_handle_dup, get_handle. rewrite Hp. cbn [mbind res_bind]. rewrite E. clear E.
  set (v1 := set_ids _ _ _) in *. assert (idle_entry v1 (vfile_id h) i e) as Hi1 by (destruct Hi; by constructor).
  rewrite (acquire_vfile_ok v1 _ i e Hi1). cbn [mbind res_bind deref]. change (open_files (set_lock v1 true)) with (open_files v). rewrite (ie_ent _ _ _ _ Hi).
  cbn [mbind res_bind]. rewrite release_locked by apply Hnu. rewrite (get_fs_ok v1 _ s n) by done. cbn [mbind res_bind].
  destruct (run_open_instance (addr (ent_file e)) (next_id v) v1 (handle_fs h) s n 1 Hcb Hnu Hfs) as (s1 & x & -> & Hnu1). cbn [mbind res_bind].
  set (v2 := put_fs _ s1 n v1) in *. assert (filesystems v2 !! handle_fs h = Some (s1, n)) as Hfs2 by (cbn; apply lookup_insert_eq).
  destruct (x =? 0).
  { exists v2, None. split_and!; [done|by apply numbered_table|by left]. }
  rewrite (get_fs_ok v2 _ s1 n Hfs2). cbn [mbind res_bind]. set (g := Handle _ _ _ _ _ _ _ _ _). set (v3 := put_fs _ s1 (n + 1) v2).
  destruct Hnu1 as [Hl Hcur Hnext Hc Hu].
  assert (counts v2 = counts v) as Ec.
  { etransitivity; [exact (counts_put_fs v1 _ s s1 n n Hfs)|]. apply insert_id. by rewrite <- Efs. }
  assert (awaiting v3 i e (counts v) n) as Haw.
  { constructor; try done; [by rewrite <- Ec|apply Hi|specialize (Hu e Hin); lia|by intros x' Hx _; apply Hu|].
    etransitivity; [exact (counts_put_fs v2 _ s1 s1 n _ Hfs2)|]. by rewrite Ec, Efs. }
  destruct (register_ok v3 i e _ n g Haw) as (v4 & e' & E4 & Hok4 & Eh4 & Efs4 & He' & Eid' & Ef' & Efs'); [by rewrite Efs|cbn; lia|].
  change (next_id v3 - 1) with (next_id v + 1 - 1) in E4, Eh4. replace (next_id v + 1 - 1) with (next_id v) in E4, Eh4 by lia.
  rewrite <- Eid, E4. cbn [mbind res_bind]. eexists _, _. split_and!; [reflexivity|done|]. right. exists (set_vfile g (ent_id e)), e'. by split_and!.
Qed.
End Ops.

(** * Open files: what holds in every state of the table *)


Section Theorems.
Context {S : Type} `{FileSystem S}.
Implicit Types (s : S) (v : vfs S).

(** A process opens a file of a mounted file system, duplicates a handle it has or closes one.
    The counters of ids do not wrap around. *)
Inductive vfs_step v : vfs S -> Prop :=
| step_open fs d p fl mem v' r : is_Some (filesystems v !! fs) -> fl < 2 * VFS_TRUNCATABLE -> cur_id v + 1 < 2 ^ 64 -> next_id v + 1 < 2 ^ 64 ->
    vfs_open_file_from fs d p fl mem v = Ok (v', r) -> vfs_step v v'
| step_dup p mem v' r : is_Some (handles v !! p) -> next_id v + 1 < 2 ^ 64 -> vfs_handle_dup p mem v = Ok (v', r) -> vfs_step v v'
| step_close p v' : is_Some (handles v !! p) -> vfs_close_file p v = Ok v' -> vfs_step v v'.

(** Nothing is open yet. *)
Definition nothing_open v : Prop :=
  open_files v = [] /\ handles v = ∅ /\ vfile_lock v = false /\ 0 <= cur_id v /\ 0 <= next_id v /\
  forall p s n, filesystems v !! p = Some (s, n) -> n = 0.

Lemma table_ok_start v : nothing_open v -> table_ok v.
Proof.
  intros (E1 & E2 & E3 & E4 & E5 & E6). constructor; try done; rewrite ?E1, ?E2; [|by intros e ?%elem_of_nil].
  constructor; try (by intros e ?%elem_of_nil).
  - apply NoDup_nil_2.
  - intros q h Hq. by rewrite lookup_empty in Hq.
  - intros p n Hn. rewrite lookup_fmap in Hn. destruct (filesystems v !! p) as [[s m]|] eqn:E; [|done]. injection Hn as <-. by apply (E6 p s).
Qed.

Lemma vfs_step_ok v v' : callbacks_return (S := S) -> table_ok v -> vfs_step v v' -> table_ok v'.
Proof.
  intros Hcb Hok Hst. destruct Hst as [fs d p fl mem v' r Hfs Hfl Hb1 Hb2 E|p mem v' r [h Hp] Hb E|p v' [h Hp] E].
  - destruct (vfs_open_file_from_ok v fs d p fl mem) as (w & r' & E' & ? & _); try done. congruence.
  - destruct (vfs_handle_dup_ok v p h mem) as (w & r' & E' & ? & _); try done. congruence.
  - destruct (vfs_close_file_ok v p h) as (w & E' & ? & _); try done. congruence.
Qed.

(** The last handle of a file. *)
Lemma entry_has_handle v e : table_ok v -> e ∈ open_files v -> exists q h, handles v !! q = Some h /\ vfile_id h = ent_id e.
Proof.
  intros [_ _ _ Hc Hu] He. specialize (Hu e He). rewrite (ck_insts _ _ _ _ _ Hc e He) in Hu.
  destruct (decide (filter (fun kv => vfile_id kv.2 = ent_id e) (handles v) = ∅)) as [E|(q & h & Hq)%map_choose].
  - unfold count in Hu. rewrite E, map_size_empty in Hu. done.
  - apply map_lookup_filter_Some in Hq as [Hq ?]. by exists q, h.
Qed.

(** C22: In every state reached from one where nothing is open, by opening, duplicating and
    closing files in any order: the lock of the table is free, no file is marked as accessed,
    the ids are distinct, an entry counts exactly the handles on its file, the count of open
    files of a file system is the number of its handles, and a handle has an entry. *)
Theorem vfs_table_invariant v0 v : callbacks_return (S := S) -> nothing_open v0 -> rtc vfs_step v0 v ->
  vfile_lock v = false /\ NoDup (ent_id <$> open_files v) /\
  (forall e, e ∈ open_files v -> accessed e = false /\ 0 < n_insts e /\ n_insts e = count (on_file (ent_id e)) (handles v)) /\
  (forall p s n, filesystems v !! p = Some (s, n) -> n = count (on_fs p) (handles v)) /\
  (forall q h, handles v !! q = Some h -> handle_id h = q /\ exists e, e ∈ open_files v /\ ent_id e = vfile_id h /\ ent_fs e = handle_fs h).
Proof.
  intros Hcb Hno Hr. assert (table_ok v) as [Hl Hcur Hnext Hc Hu].
  { apply table_ok_start in Hno. induction Hr as [|x y z Hxy _ IH]; [done|]. apply IH. by eapply vfs_step_ok. }
  split_and!; [done|apply Hc|..].
  - intros e He. split_and!; [by apply (ck_free _ _ _ _ _ Hc)|auto|by apply (ck_insts _ _ _ _ _ Hc)].
  - intros p s n E. apply (ck_fs _ _ _ _ _ Hc). by rewrite lookup_fmap, E.
  - intros q h Hq. destruct (ck_handles _ _ _ _ _ Hc q h Hq) as (_ & ? & ?). done.
Qed.

(** In such a state every handle can be closed: no assertion fails and nothing waits; the
    handle is gone, the other ones stay, and the file stays in the table exactly if another
    handle is open on it. *)
Theorem vfs_close_file_safe v p h : callbacks_return (S := S) -> table_ok v -> handles v !! p = Some h ->
  exists v', vfs_close_file p v = Ok v' /\ table_ok v' /\ handles v' = delete p (handles v) /\
    ((exists e, e ∈ open_files v' /\ ent_id e = vfile_id h) <->
     exists q h', q <> p /\ handles v !! q = Some h' /\ vfile_id h' = vfile_id h).
Proof.
  intros Hcb Hok Hp. destruct (vfs_close_file_ok v p h Hcb Hok Hp) as (v' & E & Hok' & Eh & _). exists v'. split_and!; [done|done|done|]. split.
  - intros (e & He & Eid). destruct (entry_has_handle v' e Hok' He) as (q & h' & Hq & Eq). rewrite Eh in Hq.
    apply lookup_delete_Some in Hq as [Hne Hq]. exists q, h'. split_and!; [done|done|congruence].
  - intros (q & h' & Hne & Hq & Ev). destruct (ck_handles _ _ _ _ _ (tk_counts _ Hok') q h') as (_ & _ & e & He & Eid & _).
    { rewrite Eh. by rewrite lookup_delete_ne. }
    exists e. split; [done|congruence].
Qed.

(** Closing takes the last handle out of the array of the entry, not the one that is
    closed: of two handles the first one closed leaves its freed address behind, and the
    next change of the file's size through the other handle follows it. *)
Theorem vfs_close_file_dangles v p q h e size : callbacks_return (S := S) -> (forall s, cacheable s = true) -> table_ok v ->
  p <> q -> handles v !! p = Some h -> e ∈ open_files v -> ent_id e = vfile_id h -> fhs e = [p; q] -> n_insts e = 2 ->
  exists v', vfs_close_file p v = Ok v' /\ handles v' !! p = None /\
    update_vfile (vfile_id h) (File (addr (ent_file e)) size) (Some q) v' = Err (Fault "handle").
Proof.
  intros Hcb Hca Hok Hne Hp He Eid Efhs En. destruct (vfs_close_file_ok v p h Hcb Hok Hp) as (v' & E & Hok' & Eh & Hleft).
  destruct (Hleft e He Eid ltac:(lia)) as (e' & He' & Eid' & Efs' & Efhs' & En'). pose proof Hok' as [Hl _ _ Hc _].
  assert (handles v' !! p = None) as Hp' by (rewrite Eh; apply lookup_delete_eq). exists v'. split_and!; [done|done|].
  destruct (find_entry v' e' (ck_ids _ _ _ _ _ Hc) He') as (i & Hf & Hi). destruct (ck_free _ _ _ _ _ Hc e' He') as [Ha [n Hn]].
  rewrite lookup_fmap in Hn. destruct (filesystems v' !! ent_fs e') as [[s m]|] eqn:Hfs; [|done].
  rewrite Eid', Eid in Hf. unfold update_vfile. rewrite (acquire_vfile_ok v' _ i e') by (by constructor). cbn [mbind res_bind deref].
  change (open_files (set_lock v' true)) with (open_files v'). rewrite Hi. cbn [mbind res_bind]. unfold invalidate_handlers_buffer.
  rewrite (get_fs_ok (set_lock v' true) _ s m) by done. cbn [mbind res_bind]. rewrite Hca, Efhs', Efhs, En', En. cbn [negb].
  change (take _ [p; q]) with [p]. cbn [invalidate_loop]. rewrite decide_False by congruence. unfold get_handle.
  change (handles (set_lock v' true)) with (handles v'). by rewrite Hp'.
Qed.
End Theorems.
