(* ===== verification/Fat32Vfs.v ===== *)
(** * FAT32 as a block file system

    The functions of [fat32.c] implement what the open files of the virtual file system rely
    on ([BlockFileSystem]). *)

From S2P Require Import Prelude Bytes Interfaces BlockCacheTheorems FileSystems Fat32 Fat32Proofs Fat32Chain Fat32Read Fat32Write Fat32Theorems Fat32Limits VfsFiles VfsRead VfsWrite VfsCalls VfsTable VfsTableTheorems.





Section Fs.
Context {D : Type} `{BlockDevice D}.

(** The function pointers [fat32_mount] sets. *)
#[export] Instance fat32_file_system : FileSystem (fat32 D) := {
  file_access_granularity _ := block_size (D := D);
  cacheable _ := true;
  read_file_sectors := fat32_read_file_sectors;
  write_file_sectors := fat32_write_file_sectors;
  truncate_file := fat32_truncate_file;
  open_file _ _ := None;
  close_file _ _ := None;
  open_instance _ _ _ := None;
  close_instance _ _ _ := None
}.

Hypothesis words : 3 <= dev_lbashift (D := D).
Notation SZ := (2 ^ dev_lbashift (D := D)).
Implicit Types f : fat32 D.

(** ** The data of a whole file *)

Lemma file_sector_len f cs k : zlen (file_sector f cs k) = SZ.
Proof. apply dev_sector_len. Qed.

Lemma file_data_len f cs k n : 0 <= n -> zlen (file_data f cs k n) = n * SZ.
Proof.
  intros Hn. unfold file_data. rewrite <- (Z2Nat.id n) by done. generalize (Z.to_nat n). clear n Hn. intros n. revert k.
  induction n as [|n IH]; intros k; [done|]. rewrite seqZ_cons by lia. cbn [fmap list_fmap concat].
  rewrite zlen_app, file_sector_len. replace (Z.pred (Z.of_nat (S n))) with (Z.of_nat n) by lia. rewrite IH. lia.
Qed.

Lemma file_data_slice f cs k n T : 0 <= k -> 0 <= n -> k + n <= T -> slice (file_data f cs 0 T) (k * SZ) (n * SZ) = file_data f cs k n.
Proof.
  intros Hk Hn HT. replace T with (k + (n + (T - k - n))) by lia. rewrite !file_data_app by lia. cbn [Z.add].
  pose proof (file_data_len f cs 0 k Hk) as L1. pose proof (file_data_len f cs (0 + k) n Hn) as L2. unfold slice. unfold zlen in *.
  rewrite drop_app_length' by lia. rewrite take_app_length' by lia. done.
Qed.

Lemma file_data_ext f f' cs cs' k n : (forall j, k <= j < k + n -> file_sector f' cs' j = file_sector f cs j) ->
  file_data f' cs' k n = file_data f cs k n.
Proof.
  intros Hs. unfold file_data. f_equal. apply list_fmap_ext. intros i x Hx. apply lookup_seqZ in Hx as [-> ?]. apply Hs. lia.
Qed.

(** A chain has no more clusters than the FAT. *)
Lemma chain_length f cs : chain f cs -> zlen cs <= n_clusters f - 2.
Proof.
  intros Hc. pose proof (chain_nodup _ _ Hc) as Hnd. assert (cs ⊆+ seqZ 2 (n_clusters f - 2)) as Hsub.
  { apply NoDup_submseteq; [done|]. intros c Hin. pose proof (chain_in_table _ _ _ Hc Hin) as [? ?]. apply elem_of_seqZ. lia. }
  apply submseteq_length in Hsub. rewrite length_seqZ in Hsub. unfold zlen.
  destruct cs as [|c cs]; [by inversion Hc|]. pose proof (chain_head _ _ _ Hc) as [? ?]. lia.
Qed.

Lemma chain_sectors f cs : geometry f -> chain f cs -> 0 < zlen cs /\ zlen cs * cluster_size f < 2 ^ 32.
Proof.
  intros Hg Hc. pose proof (chain_length f cs Hc) as Hl. destruct Hg as [? ? ? ? ? ?].
  assert (zlen cs * cluster_size f <= (n_clusters f - 2) * cluster_size f) by (apply Z.mul_le_mono_nonneg_r; lia).
  destruct cs; [by inversion Hc|]. unfold zlen in *. cbn [length] in *. lia.
Qed.

(** ** What is stored, and how much room there is *)

Definition fat_stored f (a : Z) (data : list Z) : Prop :=
  fat_ok f /\ cluster_size f <= SZ /\
  exists cs, chain f cs /\ nthZ cs 0 = a /\ data = file_data f cs 0 (zlen cs * cluster_size f).

(** The drive does not get full before the file has [n] sectors. *)
Definition fat_room f (a n : Z) : Prop :=
  forall cs new, chain f cs -> nthZ cs 0 = a -> full_after f cs new -> n <= zlen (cs ++ new) * cluster_size f.

Lemma same_fat_sym f f' : same_fat f f' -> same_fat f' f.
Proof.
  intros [[[E1 [E2 E3] E4 [E5 E6]] Hd] Hv]. split; [split|].
  - by constructor.
  - intros l. by rewrite Hd.
  - intros l Hl. rewrite E2, E3 in Hl. by rewrite Hv.
Qed.

Lemma fat_stored_same f f' a data : same_fat f f' -> fat_ok f' -> fat_stored f a data -> fat_stored f' a data.
Proof using words.
  intros Hs Hf' (Hf & Hcz & cs & Hc & Ha & ->). split_and!; [done|by rewrite (sg_cluster _ _ (same_fat_geo _ _ Hs))|].
  exists cs. split_and!; [|done|].
  - by eapply chain_same; [|apply same_fat_table|apply fk_geometry|].
  - rewrite (sg_cluster _ _ (same_fat_geo _ _ Hs)). symmetry. apply file_data_same, Hs.
Qed.

Lemma fat_room_same f f' a n : same_fat f f' -> fat_ok f -> fat_ok f' -> fat_room f a n -> fat_room f' a n.
Proof using words.
  intros Hs Hf Hf' Hr cs new Hc Ha (f1 & Hx & Hn). rewrite (sg_cluster _ _ (same_fat_geo _ _ Hs)).
  assert (chain f cs) as Hc0.
  { eapply chain_same; [done|apply same_fat_table, same_fat_sym, Hs|by apply fk_geometry|done]. }
  apply Hr; [done|done|]. exists f1. split; [|done]. apply (extends_trans f f' f1 cs [] new); [|by rewrite app_nil_r].
  apply (extends_same words); [by apply fk_geometry|done|by apply same_fat_table].
Qed.

Lemma fat_read_stored f fl data begin n : fat_stored f (addr fl) data -> 0 <= begin -> 0 < n < 2 ^ 31 ->
  (begin + n) * SZ <= zlen data -> (begin + n - 1) * SZ < file_size fl ->
  exists f', fat32_read_file_sectors fl begin n f = Ok (f', slice data (begin * SZ) (n * SZ), n) /\ fat_ok f' /\ same_fat f f'.
Proof using words.
  intros (Hf & Hcz & cs & Hc & Ha & ->) Hb Hn Hlen Hsz. pose proof (fk_geometry _ Hf) as Hg. pose proof (ge_cluster _ Hg).
  destruct (chain_sectors f cs Hg Hc) as [Hcs Hcs2]. pose proof (dev_lbashift_range (D := D)). assert (SZ <= 2 ^ 11) by (apply Z.pow_le_mono_r; lia).
  rewrite file_data_len in Hlen by nia. assert (begin + n <= zlen cs * cluster_size f) by nia.
  rewrite file_data_slice by lia. apply (read_file_sectors_ok words); try done.
  rewrite (u64_small (begin + n - 1)), u64_small by nia. nia.
Qed.

(** The whole file after a write. *)
Lemma file_data_written f f' cs begin n buf : geometry f -> same_geo f f' -> chain f' cs -> 0 <= begin -> 0 <= n ->
  begin + n <= zlen cs * cluster_size f -> zlen buf = n * SZ -> written f cs begin n buf f' ->
  file_data f' cs 0 (zlen cs * cluster_size f) = blit (file_data f cs 0 (zlen cs * cluster_size f)) (begin * SZ) buf.
Proof using words.
  intros Hg Hs Hc Hb Hn Hlen Hz [Hd Hr]. pose proof (same_geometry _ _ Hs Hg) as Hg'. set (T := zlen cs * cluster_size f) in *.
  assert (forall k, 0 <= k < T -> ~ begin <= k < begin + n -> file_sector f' cs k = file_sector f cs k) as Hout.
  { intros k Hk Hnk. unfold file_sector. destruct (sg_part _ _ Hs) as [-> _]. rewrite (sector_pos_same f f') by done. apply Hr.
    - rewrite <- (sector_pos_same f f') by done. pose proof (ge_data _ Hg). unfold in_fat.
      pose proof (sector_pos_bounds words f' cs k Hg' Hc) as Hpb. rewrite (sg_cluster _ _ Hs), (sg_data _ _ Hs) in Hpb. specialize (Hpb Hk). lia.
    - intros j Hj E. rewrite <- !(sector_pos_same f f') in E by done.
      apply sector_pos_inj in E; [lia|done|done|..]; rewrite (sg_cluster _ _ Hs); lia. }
  replace T with (begin + (n + (T - begin - n))) by lia. rewrite !file_data_app by lia. rewrite !Z.add_0_l.
  rewrite (file_data_ext f f' cs cs 0 begin), (file_data_ext f f' cs cs (begin + n) (T - begin - n)) by (intros; apply Hout; lia).
  rewrite (file_data_slices words f' cs begin n buf) by done. pose proof (file_data_len f cs 0 begin Hb) as L1. pose proof (file_data_len f cs begin n Hn) as L2.
  unfold blit. unfold zlen in *. rewrite take_app_length' by lia. f_equal. f_equal.
  rewrite drop_app_ge by lia. rewrite drop_app_ge by lia. replace (_ - _ - _)%nat with O by lia. done.
Qed.

Lemma fat_write_stored f fl data buf begin n : fat_stored f (addr fl) data -> 0 <= begin -> 0 < n < 2 ^ 31 -> zlen buf = n * SZ ->
  begin * SZ <= zlen data -> file_size fl <= zlen data -> (begin + n) * SZ <= zlen data \/ fat_room f (addr fl) (begin + n) ->
  exists f' r ext, fat32_write_file_sectors fl buf begin n f = Ok (f', fl, r) /\ 0 <= r /\
    (begin + n) * SZ <= zlen (data ++ ext) /\ fat_stored f' (addr fl) (blit (data ++ ext) (begin * SZ) buf).
Proof using words.
  intros (Hf & Hcz & cs & Hc & Ha & ->) Hb Hn Hz Hbeg Hfs Hroom. pose proof (fk_geometry _ Hf) as Hg. pose proof (ge_cluster _ Hg) as Hcz0.
  destruct (chain_sectors f cs Hg Hc) as [Hcs Hcs2]. pose proof (dev_lbashift_range (D := D)). assert (0 < SZ <= 2 ^ 11) by (split; [lia|apply Z.pow_le_mono_r; lia]).
  set (T := zlen cs * cluster_size f) in *. pose proof (file_data_len f cs 0 T ltac:(lia)) as HT0. rewrite HT0 in Hbeg, Hfs, Hroom. assert (begin <= T) by nia.
  assert (begin / cluster_size f <= begin) by (apply Z.div_le_upper_bound; nia).
  destruct (write_file_sectors_ok words f fl cs buf begin n) as (f' & r & E & Hf' & new & m & Hx & Hm & Hpos & Hw & Hr); try (done || lia).
  { intros Hgap. assert (T <= begin / cluster_size f * cluster_size f) by (apply Z.mul_le_mono_nonneg_r; lia).
    assert (begin / cluster_size f * cluster_size f <= begin) by (rewrite Z.mul_comm; apply Z.mul_div_le; lia). assert (begin = T) by lia.
    rewrite (u64_small (begin + n - 1)) by lia. rewrite (u64_small (_ * cluster_size f)) by nia. rewrite u64_small by nia. nia. }
  pose proof (zlen_app cs new) as Hla. pose proof (zlen_nonneg new). assert (T <= zlen (cs ++ new) * cluster_size f) as HT by (apply Z.mul_le_mono_nonneg_r; lia).
  destruct Hr as [(-> & _ & ->)|(? & ? & Hfull & _)].
  2:{ exfalso. destruct Hroom as [?|Hroom]; [nia|]. pose proof (Hroom cs new Hc Ha Hfull). lia. }
  set (T' := zlen (cs ++ new) * cluster_size f) in *. exists f', (touched (cluster_size f) (begin mod cluster_size f) n), (file_data f (cs ++ new) T (T' - T)).
  assert (file_data f cs 0 T ++ file_data f (cs ++ new) T (T' - T) = file_data f (cs ++ new) 0 T') as Eapp.
  { replace T' with (T + (T' - T)) at 2 by lia. rewrite file_data_app, Z.add_0_l by lia. f_equal. apply file_data_ext. intros j Hj.
    unfold file_sector. rewrite sector_pos_prefix by (fold T; lia). done. }
  rewrite Eapp, file_data_len by lia. rewrite <- Hz, slice_all in Hw. pose proof (ex_geo _ _ _ _ Hx) as Hsg.
  assert (0 <= begin mod cluster_size f < cluster_size f) by (apply Z.mod_pos_bound; lia).
  split_and!; [done|apply touched_bound; lia|apply Z.mul_le_mono_nonneg_r; lia|]. split_and!; [done|by rewrite (sg_cluster _ _ Hsg)|].
  exists (cs ++ new). split_and!; [apply (ex_chain _ _ _ _ Hx)| |].
  - rewrite <- Ha. unfold nthZ. rewrite lookup_app_l; [done|]. unfold zlen in Hcs. cbn. lia.
  - rewrite (sg_cluster _ _ Hsg). symmetry. apply (file_data_written f f' (cs ++ new) begin n buf); try done; [apply (ex_chain _ _ _ _ Hx)|lia|lia].
Qed.


(** FAT32 is a block file system. *)
#[refine] Definition fat32_block_file_system : BlockFileSystem (fat32 D) := {|
  stored := fat_stored;
  room f a n := fat_ok f -> fat_room f a n
|}.
Proof using words.
  - intros f a data _. cbn. rewrite block_size_eq. pose proof (dev_lbashift_range (D := D)).
    assert (SZ <= 2 ^ 11) by (apply Z.pow_le_mono_r; lia). lia.
  - intros f a data (Hf & Hcz & cs & Hc & Ha & ->). cbn. rewrite block_size_eq. pose proof (fk_geometry _ Hf) as Hg. pose proof (ge_cluster _ Hg).
    destruct (chain_sectors f cs Hg Hc) as [Hcs Hcs2]. pose proof (dev_lbashift_range (D := D)). assert (SZ <= 2 ^ 11) by (apply Z.pow_le_mono_r; lia).
    rewrite file_data_len by lia. split; [nia|]. exists (zlen cs * cluster_size f). lia.
  - cbn. rewrite block_size_eq. intros f fl data begin n Hst Hb Hn Hlen Hsz.
    destruct (fat_read_stored f fl data begin n) as (f' & E & Hf' & Hs); try done. exists f'. split_and!; [done..| |].
    + intros a d. by apply fat_stored_same.
    + intros a k Hr _. apply (fat_room_same f f'); try done; [apply Hst|]. apply Hr, Hst.
  - cbn. rewrite block_size_eq. intros f fl data buf begin n Hst Hb Hn Hz Hbeg Hfs Hroom.
    destruct (fat_write_stored f fl data buf begin n) as (f' & r & ext & E & Hr & Hl & Hst'); try done.
    { destruct Hroom as [?|Hr]; [by left|right]. apply Hr, Hst. }
    by exists f', r, ext.
Defined.
End Fs.

(** * Open files: a file of a small FAT32 drive *)




#[local] Instance fat_drive : BlockFileSystem (fat32 disk) := fat32_block_file_system words0.

(** The file in the clusters 3, 4 and 7, open once, at the offset 700. *)
Definition data_a : list Z := file_data (fat0 mem0) [3; 4; 7] 0 3.
Definition all_flags : Z := VFS_READ + VFS_WRITE + VFS_SEEKABLE.
Definition zeroes (k : Z) : list Z := replicate (Z.to_nat k) 0.
Definition handle_at (off : Z) (valid : bool) (buf : list Z) : file_handle := Handle 0 valid (off mod 512) (off / 512) off buf 1 5 all_flags.
Definition ent_a : file_ent := FileEnt (File 3 1500) 0 1 [47; 97] false false 1 [5].
Definition vfs_a (h : file_handle) : vfs (fat32 disk) := Vfs [ent_a] 1 6 false [] [] [] {[5 := h]} {[0 := (fat0 mem0, 1)]}.

Lemma zeroes_len k : 0 <= k -> zlen (zeroes k) = k.
Proof. intros Hk. unfold zeroes, zlen. rewrite length_replicate. lia. Qed.

Lemma data_a_len : zlen data_a = 1536.
Proof. unfold data_a. rewrite file_data_len by lia. reflexivity. Qed.

Lemma stored_a : stored (fat0 mem0) 3 data_a.
Proof. split_and!; [exact (fat0_ok mem0 mem0_len)|vm_compute; discriminate|]. exists [3; 4; 7]. split_and!; [exact (chain_a mem0)|reflexivity|reflexivity]. Qed.

Lemma opened_a off valid buf : 0 <= off < 2 ^ 48 ->
  (valid = true -> buf = slice data_a (off / 512 * 512) 512 /\ (off / 512 + 1) * 512 <= 1536) ->
  opened (vfs_a (handle_at off valid buf)) 5 (handle_at off valid buf) 0 ent_a (fat0 mem0) 1 data_a.
Proof.
  intros Ho Hb. constructor; [apply lookup_singleton_eq|by constructor|apply lookup_singleton_eq|done|exact stored_a| |by constructor|].
  - cbn [ent_a ent_file file_size]. rewrite data_a_len. lia.
  - intros Hv _. rewrite data_a_len. by apply Hb.
Qed.

Lemma live_a h : live_handles ent_a (vfs_a h).
Proof. intros q Hq. cbn in Hq. apply list_elem_of_singleton in Hq as ->. exists h. apply lookup_singleton_eq. Qed.


Definition hundred : list Z := replicate 100 65.

Lemma room_a : (700 + zlen hundred + 512 - 1) / 512 * 512 <= zlen data_a.
Proof. rewrite data_a_len. vm_compute. discriminate. Qed.


Lemma vfs_write_seek_read_witness : exists v1 v2 v3,
  vfs_write_file hundred 5 zeroes (vfs_a (handle_at 700 false [])) = Ok (v1, 100) /\ vfs_seek_file 5 700 SEEK_SET v1 = Ok (v2, 700) /\
  vfs_read_file 100 5 v2 = Ok (v3, hundred, 100).
Proof.
  exact (vfs_write_seek_read (vfs_a (handle_at 700 false [])) 5 (handle_at 700 false []) 0 ent_a (fat0 mem0) 1 data_a hundred zeroes
    (opened_a 700 false [] ltac:(lia) ltac:(discriminate)) eq_refl eq_refl eq_refl ltac:(vm_compute; reflexivity) ltac:(vm_compute; split; reflexivity)
    zeroes_len (live_a _) ltac:(vm_compute; discriminate) (or_introl room_a)).
Defined.

Lemma vfs_second_write_witness : exists v1 v2 s2 data2,
  vfs_write_file [1; 2] 5 zeroes (vfs_a (handle_at 700 true (slice data_a 512 512))) = Ok (v1, 2) /\ vfs_write_file [3] 5 zeroes v1 = Ok (v2, 1) /\
  filesystems v2 !! 0 = Some (s2, 1) /\ stored s2 3 data2 /\ contents ent_a data2 = blit (contents ent_a data_a) 702 [3].
Proof.
  exact (vfs_second_write_reverts_first (vfs_a (handle_at 700 true (slice data_a 512 512))) 5 (handle_at 700 true (slice data_a 512 512)) 0 ent_a (fat0 mem0) 1
    data_a [1; 2] [3] zeroes (opened_a 700 true _ ltac:(lia) ltac:(intros _; split; [reflexivity|vm_compute; discriminate])) eq_refl eq_refl eq_refl eq_refl
    ltac:(vm_compute; reflexivity) zeroes_len ltac:(vm_compute; reflexivity) ltac:(vm_compute; reflexivity) ltac:(vm_compute; reflexivity) ltac:(vm_compute; reflexivity)).
Defined.


(** ** The table *)

Lemma fat_callbacks : callbacks_return (S := fat32 disk).
Proof. by constructor. Qed.

(** Nothing is open; then the file is opened, and the handle duplicated. *)
Definition drive0 : fat32 disk := Fat 1 1 1 3 2 1 [] [] 0 300 (fun _ => 0).
Definition vfs0 : vfs (fat32 disk) := Vfs [] 0 1 false [] [] [] ∅ {[0 := (drive0, 0)]}.
Definition dirent_a : fast_dirent := Dirent 3 1500 DT_REG true true false true true.
Definition vfs1 : vfs (fat32 disk) := match vfs_open_file_from 0 dirent_a [47; 97] VFS_READ (fun _ => []) vfs0 with Ok (v, _) => v | Err _ => vfs0 end.
Definition vfs2 : vfs (fat32 disk) := match vfs_handle_dup 1 (fun _ => []) vfs1 with Ok (v, _) => v | Err _ => vfs0 end.

Lemma nothing_open0 : nothing_open vfs0.
Proof.
  split_and!; try done. intros p s n Hp. cbn in Hp. apply lookup_singleton_Some in Hp as [_ [= _ <-]]. done.
Qed.

Lemma open1 : vfs_open_file_from 0 dirent_a [47; 97] VFS_READ (fun _ => []) vfs0 = Ok (vfs1, Some 1).
Proof. vm_compute. reflexivity. Qed.
Lemma dup2 : vfs_handle_dup 1 (fun _ => []) vfs1 = Ok (vfs2, Some 2).
Proof. vm_compute. reflexivity. Qed.

Lemma step1 : vfs_step vfs0 vfs1.
Proof.
  apply (step_open vfs0 0 dirent_a [47; 97] VFS_READ (fun _ => []) vfs1 (Some 1)); [eexists; apply lookup_singleton_eq|reflexivity..|exact open1].
Qed.
Lemma step2 : vfs_step vfs1 vfs2.
Proof. apply (step_dup vfs1 1 (fun _ => []) vfs2 (Some 2)); [vm_compute; by eexists|vm_compute; reflexivity|exact dup2]. Qed.

Lemma vfs_table_witness : vfile_lock vfs2 = false /\ NoDup (ent_id <$> open_files vfs2) /\
  forall e, e ∈ open_files vfs2 -> n_insts e = count (on_file (ent_id e)) (handles vfs2).
Proof.
  destruct (vfs_table_invariant vfs0 vfs2 fat_callbacks nothing_open0 (rtc_l _ _ _ _ step1 (rtc_once _ _ step2))) as (Hl & Hnd & He & _). split_and!; [exact Hl|exact Hnd|].
  intros e Hin. apply He, Hin.
Defined.

Lemma table_ok2 : table_ok vfs2.
Proof. exact (vfs_step_ok _ _ fat_callbacks (vfs_step_ok _ _ fat_callbacks (table_ok_start vfs0 nothing_open0) step1) step2). Qed.

Definition handle1 : file_handle := Handle 0 false 0 0 0 [] 1 1 (VFS_READ + VFS_SEEKABLE + VFS_TRUNCATABLE).
Definition ent2 : file_ent := FileEnt (File 3 1500) 0 1 [47; 97] false false 2 [1; 2].

Lemma vfs_close_witness : exists v', vfs_close_file 1 vfs2 = Ok v' /\ table_ok v' /\ handles v' = delete 1 (handles vfs2).
Proof.
  destruct (vfs_close_file_safe vfs2 1 handle1 fat_callbacks table_ok2 eq_refl) as (v' & E & Hok & Eh & _).
  exists v'. split_and!; [exact E|exact Hok|exact Eh].
Defined.

Lemma vfs_close_dangles_witness : exists v', vfs_close_file 1 vfs2 = Ok v' /\ handles v' !! 1 = None /\
  update_vfile 1 (File 3 2000) (Some 2) v' = Err (Fault "handle").
Proof.
  exact (vfs_close_file_dangles vfs2 1 2 handle1 ent2 2000 fat_callbacks ltac:(done) table_ok2 ltac:(lia) eq_refl
    ltac:(apply list_elem_of_singleton; reflexivity) eq_refl eq_refl eq_refl).
Defined.
