(* ===== verification/VfsDirs.v ===== *)
(** * Directories and mounted file systems ([kernel/fs/vfs_dirs.c])

    A string is the list of its characters; [strcmp] and [strncmp] of the source decide
    equality and prefixes of such lists ([strcmp_ok], [strncmp_prefix]), and [simplify_path]
    computes [simplify] ([simplify_path_correct]).  A pointer to a virtual directory is only
    followed to read it or to put a child below it, so that the tree is a value.  A file system
    is a key of the map [mounted]; the null pointer, [FS_NO], is [None]. *)

From S2P Require Import Prelude FileSystems CString CStringProofs Paths VfsFiles.





Definition DT_DIR : Z := 3.
Definition MAX_PATH : Z := 4095.

(** [dirent_t] *)
Record dirent := DirEnt { d_name : list Z; d_fast : fast_dirent }.

(** The functions of [fs_t] on directories. *)
Class DirectoryFS (S : Type) := {
  root_addr : S -> Z;
  fs_read_dir : Z -> S -> res (S * list dirent);
  fs_add_dirent : Z -> list Z -> Z -> S -> res (S * Z);
  fs_update_dirent : Z -> list Z -> Z -> Z -> S -> res (S * Z)
}.

(** [rights.value] *)
Definition any_right (d : fast_dirent) : bool :=
  right_read d || right_write d || right_exec d || right_seekable d || right_truncatable d.

(** [vdir_t] *)
Inductive vdir := Vdir (children : list vdir) (vfs : option Z) (vpath : list Z).
Definition vdir_children (v : vdir) : list vdir := match v with Vdir c _ _ => c end.
Definition vdir_fs (v : vdir) : option Z := match v with Vdir _ f _ => f end.
Definition vdir_path (v : vdir) : list Z := match v with Vdir _ _ p => p end.

(** [dir_cache_ent_t]; [cluster], [file_size], [type] and [rights] are those of the entry. *)
Record dir_cache_ent := CacheEnt { ce_dirent : fast_dirent; ce_fs : Z; ce_path : list Z }.

(** [!strncmp(path, p, strlen(p))] *)
Definition starts_with (p path : list Z) : bool := bool_decide (p `prefix_of` path).
Definition is_absolute (path : list Z) : bool := nthZ path 0 =? SLASH.

(** ** Hashing *)

(** [for (unsigned i = 0; i < len; i++)] over pairs of characters. *)
Fixpoint path_hash_loop (s : list Z) (i r : Z) : Z :=
  match s with
  | a :: b :: s =>
      let entropy_bits := Z.lxor a (Z.shiftl b 4) in
      let entropy_bits := Z.lxor entropy_bits (u32 (Z.shiftl entropy_bits 4)) in
      path_hash_loop s (i + 1) (Z.land (Z.lxor r (u32 (entropy_bits + i))) 8191)
  | _ => r
  end.
Definition path_hash (path : list Z) : Z := path_hash_loop path 0 0.

(** ** The tree of mounted file systems *)

(** The virtual directory of the file system a path is on. *)
Fixpoint get_fs_vdir (path : list Z) (vd : vdir) : option vdir :=
  match vd with
  | Vdir children fs p =>
      (fix search l :=
         match l with
         | [] => match fs with None => None | Some _ => Some (Vdir children fs p) end
         | child :: l => if starts_with (vdir_path child) path then get_fs_vdir path child else search l
         end) children
  end.

(** [strchr] over and over: the number of slashes. *)
Definition nasted_order (path : list Z) : res Z :=
  assert_ (is_absolute path) "is_absolute(path)" ;;
  if zlen path =? 1 then Ok 0 else Ok (zlen (filter (fun c => c = SLASH) path)).

(** [insert_vdir]: [None] when something is mounted there already. *)
Fixpoint insert_vdir (new : vdir) (vd : vdir) : option vdir :=
  match vd with
  | Vdir children fs p =>
      match (fix search l : option (option (list vdir)) :=
         match l with
         | [] => None
         | child :: l =>
             if starts_with (vdir_path child) (vdir_path new) then Some ((fun c => c :: l) <$> insert_vdir new child)
             else fmap (M := option) (fmap (M := option) (cons child)) (search l)
         end) children with
      | Some r => (fun l => Vdir l fs p) <$> r
      | None => if bool_decide (p = vdir_path new) then None else Some (Vdir (children ++ [new]) fs p)
      end
  end.

(** [emplace_vdir], and then [new->fs = fs]; the directory stays when [fs] is null. *)
Definition mount_vdir (path : list Z) (fs : option Z) (root : vdir) : option vdir :=
  let p := simplify path in
  if bool_decide (p = [SLASH]) then
    match vdir_fs root with None => Some (Vdir (vdir_children root) fs (vdir_path root)) | Some _ => None end
  else insert_vdir (Vdir [] fs p) root.

(** The children of a path among the virtual directories; [exists_] and [ret] are the
    variables of the function, [None] is the count -1. *)
Fixpoint get_vchildren (path : list Z) (order : Z) (vd : vdir) (exists_ : bool) (ret : list vdir) : res (option (list vdir)) :=
  match vd with
  | Vdir children _ _ =>
      (fix search l (exists_ : bool) ret :=
         match l with
         | [] => Ok (if exists_ then Some ret else None)
         | child :: l =>
             let p := vdir_path child in
             '(exists_, ret) ←
               (if starts_with path p then
                  no ← nasted_order p;
                  Ok (true, if order + 1 =? no then ret ++ [child] else ret)
                else Ok (exists_, ret));
             if starts_with p path then get_vchildren path order child exists_ ret else search l exists_ ret
         end) children exists_ ret
  end.

Section Dirs.
Context {S : Type} `{DirectoryFS S}.

(** The tree, the cache of paths, and the file systems with their counts of open files. *)
Record vdirs := VDirs {
  vfs_root : vdir;
  cached_dir_list : list (option dir_cache_ent);
  mounted : gmap Z (S * Z)
}.
Definition set_cache (d : vdirs) (c : list (option dir_cache_ent)) : vdirs := VDirs (vfs_root d) c (mounted d).
Definition set_mounted (d : vdirs) (m : gmap Z (S * Z)) : vdirs := VDirs (vfs_root d) (cached_dir_list d) m.

Definition vfs_init (m : gmap Z (S * Z)) : vdirs := VDirs (Vdir [] None [SLASH]) (replicate 4096 None) m.

Definition vfs_mount (path : list Z) (fs : option Z) (d : vdirs) : vdirs * Z :=
  match mount_vdir path fs (vfs_root d) with
  | None => (d, 0)
  | Some root => (VDirs root (cached_dir_list d) (mounted d), match fs with None => 0 | Some _ => 1 end)
  end.

(** ** The cache *)

(** [path_hash(path) & (cache_size - 1)] *)
Definition slot (d : vdirs) (path : list Z) : Z := Z.land (path_hash path) (zlen (cached_dir_list d) - 1).

Definition add_cache_entry (path : list Z) (fs : Z) (dent : fast_dirent) (d : vdirs) : res vdirs :=
  c ← st (cached_dir_list d) (slot d path) (Some (CacheEnt dent fs path));
  Ok (set_cache d c).

Definition get_cache_entry (path : list Z) (d : vdirs) : res (option dir_cache_ent) :=
  assert_ (is_absolute path) "is_absolute(path)" ;;
  assert_ (negb (zlen (cached_dir_list d) =? 0)) "cache_size" ;;
  ent ← ld (cached_dir_list d) (slot d path);
  match ent with
  | None => Ok None
  | Some ent => Ok (if bool_decide (ce_path ent = path) then Some ent else None)
  end.

Definition get_mounted (fs : Z) (d : vdirs) : res (S * Z) :=
  match mounted d !! fs with Some x => Ok x | None => Err (Fault "fs") end.
Definition put_mounted (fs : Z) (s : S) (n : Z) (d : vdirs) : vdirs := set_mounted d (<[fs := (s, n)]> (mounted d)).

(** [for (unsigned i = 0; i < _n; i++)] of [read_dir]. *)
Fixpoint cache_entries (fs : Z) (dir_path : list Z) (ents : list dirent) (d : vdirs) : res vdirs :=
  match ents with
  | [] => Ok d
  | dent :: ents =>
      assert_ (zlen (d_name dent) + zlen dir_path + 1 <? MAX_PATH) "len < MAX_PATH" ;;
      d ← add_cache_entry (dir_path ++ SLASH :: d_name dent) fs (d_fast dent) d;
      cache_entries fs dir_path ents d
  end.
Definition read_dir (fs ino : Z) (dir_path : list Z) (d : vdirs) : res (vdirs * list dirent) :=
  assert_ (negb (zlen (cached_dir_list d) =? 0)) "cache_size" ;;
  '(s, n) ← get_mounted fs d;
  '(s, ents) ← fs_read_dir ino s;
  d ← cache_entries fs dir_path ents (put_mounted fs s n d);
  Ok (d, ents).

(** The first entry with the name. *)
Definition find_fs_child (fs : Z) (parent : fast_dirent) (name parent_path : list Z) (d : vdirs) : res (vdirs * option fast_dirent) :=
  assert_ (dirent_type parent =? DT_DIR) "parent->type == DT_DIR" ;;
  '(d, ents) ← read_dir fs (ino parent) parent_path d;
  match list_find (fun e => d_name e = name) ents with
  | Some (_, e) =>
      assert_ ((dirent_type (d_fast e) =? DT_DIR) || any_right (d_fast e)) "child->type == DT_DIR || child->rights.value != 0" ;;
      Ok (d, Some (d_fast e))
  | None => Ok (d, None)
  end.

(** ** Opening *)

(** The index of the next slash of [path] behind the index [i]. *)
Definition next_slash (path : list Z) (i : nat) : option nat :=
  (fun x => (i + 1 + fst x)%nat) <$> list_find (fun c => c = SLASH) (drop (i + 1) path).

(** [while(1)] of [vfs_open]; the buffer is restored after each turn.  The result is [None]
    for [FS_NO]. *)
Fixpoint open_loop (fuel : nat) (fs : Z) (pathbuf : list Z) (name_end : option nat) (cur : fast_dirent) (d : vdirs)
    : res (vdirs * option fast_dirent) :=
  match fuel with
  | O => Err NoFuel
  | Datatypes.S fuel =>
      match name_end with
      | None => Ok (d, Some cur)
      | Some name_sep =>
          if (length pathbuf <=? name_sep)%nat then Ok (d, Some cur)
          else
            let name_end := next_slash pathbuf name_sep in
            let sub := match name_end with Some e => take e pathbuf | None => pathbuf end in
            ent ← get_cache_entry sub d;
            match ent with
            | Some ent =>
                assert_ (ce_fs ent =? fs) "ent->fs == fs" ;;
                open_loop fuel fs pathbuf name_end (ce_dirent ent) d
            | None =>
                '(d, child) ← find_fs_child fs cur (drop (name_sep + 1) sub) (take name_sep pathbuf) d;
                match child with
                | None => Ok (d, None)
                | Some child =>
                    (if dirent_type child =? DT_REG then assert_ (any_right child) "cur.rights.value" else Ok ()) ;;
                    open_loop fuel fs pathbuf name_end child d
                end
            end
      end
  end.

(** [vfs_open]: the file system and the entry. *)
Definition vfs_open (path : list Z) (d : vdirs) : res (vdirs * option (Z * fast_dirent)) :=
  let pathbuf := simplify path in
  assert_ (is_absolute pathbuf) "is_absolute(pathbuf)" ;;
  ent ← get_cache_entry pathbuf d;
  match ent with
  | Some ent => Ok (d, Some (ce_fs ent, ce_dirent ent))
  | None =>
      match get_fs_vdir pathbuf (vfs_root d) with
      | None => Ok (d, None)
      | Some vdir =>
          match vdir_fs vdir with
          | None => Err (Fault "null fs")
          | Some fs =>
              '(s, _) ← get_mounted fs d;
              let cur := Dirent (root_addr s) 0 DT_DIR false false false false false in
              let parent_path := length (vdir_path vdir) in
              let at_slash := nthZ pathbuf (Z.of_nat parent_path) =? SLASH in
              if negb at_slash && (length pathbuf <=? parent_path)%nat then Ok (d, Some (fs, cur))
              else
                let parent_path := if (at_slash : bool) then parent_path else (parent_path - 1)%nat in
                '(d, r) ← open_loop (Datatypes.S (length pathbuf)) fs pathbuf (Some parent_path) cur d;
                match r with
                | None => Ok (d, None)
                | Some dir =>
                    assert_ ((dirent_type dir =? DT_DIR) || any_right dir) "dir->type == DT_DIR || dir->rights.value != 0" ;;
                    d ← add_cache_entry pathbuf fs dir d;
                    Ok (d, Some (fs, dir))
                end
          end
      end
  end.

(** ** Creating and listing *)

(** The part of a path before its last slash, and the part behind it. *)
Definition last_slash (path : list Z) : option nat :=
  (fun x => (length path - 1 - fst x)%nat) <$> list_find (fun c => c = SLASH) (reverse path).

(** [vfs_create]: 0 on success. *)
Definition vfs_create (path : list Z) (type : Z) (d : vdirs) : res (vdirs * Z) :=
  let pathbuf := simplify path in
  match last_slash pathbuf with
  | None => Ok (d, 1)
  | Some last_sep =>
      '(d, r) ← vfs_open (take last_sep pathbuf) d;
      let filename := drop (last_sep + 1) pathbuf in
      assert_ (0 <? zlen filename) "strlen(filename) > 0" ;;
      match r with
      | None => Ok (d, 1)
      | Some (fs, parentdir) =>
          if negb (dirent_type parentdir =? DT_DIR) then Ok (d, 1)
          else
            '(s, n) ← get_mounted fs d;
            '(s, r) ← fs_add_dirent (ino parentdir) filename type s;
            assert_ (r =? 0) "0" ;;
            Ok (put_mounted fs s n d, 0)
      end
  end.

(** A virtual directory as an entry. *)
Definition virtual_dirent (v : vdir) : res dirent :=
  match last_slash (vdir_path v) with
  | None => Err (Panic "subpath")
  | Some i => Ok (DirEnt (drop (i + 1) (vdir_path v)) (Dirent 0 0 DT_DIR false false false false false))
  end.
Fixpoint virtual_dirents (l : list vdir) : res (list dirent) :=
  match l with [] => Ok [] | v :: l => e ← virtual_dirent v; es ← virtual_dirents l; Ok (e :: es) end.

(** [struct DIR] *)
Record dir := Dir { dir_children : list dirent; dir_cur : Z }.

Definition vfs_opendir (path : list Z) (d : vdirs) : res (vdirs * option dir) :=
  let pathbuff := simplify path in
  '(d, r) ← vfs_open pathbuff d;
  match r with
  | None => Ok (d, None)
  | Some (fs, fdir) =>
      if negb (dirent_type fdir =? DT_DIR) then Ok (d, None)
      else
        '(d, ents) ← read_dir fs (ino fdir) pathbuff d;
        order ← nasted_order pathbuff;
        vents ← get_vchildren pathbuff order (vfs_root d) false [];
        extra ← match vents with Some vents => virtual_dirents vents | None => Ok [] end;
        Ok (d, Some (Dir (ents ++ extra) 0))
  end.

Definition vfs_readdir (x : dir) : dir * option dirent :=
  if dir_cur x =? zlen (dir_children x) then (x, None)
  else (Dir (dir_children x) (dir_cur x + 1), dir_children x !! Z.to_nat (dir_cur x)).

Definition vfs_dir_dup (x : dir) : dir := Dir (dir_children x) (dir_cur x).

(** ** Metadata of files *)

Definition vfs_update_metadata_cache (path : list Z) (addr file_size : Z) (d : vdirs) : res (vdirs * Z) :=
  let pathbuf := simplify path in
  assert_ (is_absolute pathbuf) "is_absolute(pathbuf)" ;;
  ent ← get_cache_entry pathbuf d;
  match ent with
  | Some (CacheEnt e fs p) =>
      assert_ (dirent_type e =? DT_REG) "ent->type == DT_REG" ;;
      let e := Dirent addr file_size (dirent_type e) (right_read e) (right_write e) (right_exec e) (right_seekable e) (right_truncatable e) in
      c ← st (cached_dir_list d) (slot d pathbuf) (Some (CacheEnt e fs p));
      Ok (set_cache d c, 0)
  | None => Ok (d, 0)
  end.

Definition vfs_update_metadata_disk (path : list Z) (addr file_size : Z) (d : vdirs) : res (vdirs * Z) :=
  let pathbuf := simplify path in
  assert_ (is_absolute pathbuf) "is_absolute(pathbuf)" ;;
  match last_slash pathbuf with
  | None => Err (Panic "file_name")
  | Some i =>
      let parent_path := if (i =? 0)%nat then [SLASH] else take i pathbuf in
      '(d, r) ← vfs_open parent_path d;
      match r with
      | None => Err (Panic "fs != FS_NO")
      | Some (fs, parent) =>
          assert_ (dirent_type parent =? DT_DIR) "parent_dirent.type == DT_DIR" ;;
          assert_ (dirent_size parent =? 0) "parent_dirent.file_size == 0" ;;
          '(s, n) ← get_mounted fs d;
          '(s, r) ← fs_update_dirent (ino parent) (drop (i + 1) pathbuf) addr file_size s;
          Ok (put_mounted fs s n d, r)
      end
  end.
End Dirs.
Arguments vdirs : clear implicits.

(** * Opening a file by its path ([vfs_open_file] of [kernel/fs/vfs_files.c])

    The directories and the open files work on the same file systems. *)


Definition VFS_CREATE : Z := 4.

Section Open.
Context {S : Type} `{FileSystem S} `{DirectoryFS S}.

Definition vfs_open_file (path : list Z) (fl : Z) (mem : Z -> list Z) (d : vdirs S) (v : vfs S) : res (vdirs S * vfs S * option Z) :=
  '(d, r) ← vfs_open path (set_mounted d (filesystems v));
  '(d, r) ←
    match r with
    | Some x => Ok (d, Some x)
    | None =>
        if negb (has_flag fl VFS_CREATE) then Ok (d, None)
        else
          '(d, e) ← vfs_create path DT_REG d;
          if negb (e =? 0) then Ok (d, None)
          else
            '(d, r) ← vfs_open path d;
            match r with None => Err (Panic "fs") | Some x => Ok (d, Some x) end
    end;
  let v := set_filesystems v (mounted d) in
  match r with
  | None => Ok (d, v, None)
  | Some (fs, dirent) =>
      '(v, h) ← vfs_open_file_from fs dirent path fl mem v;
      Ok (set_mounted d (filesystems v), v, h)
  end.
End Open.
