(* ===== verification/VfsDirsOpen.v ===== *)
(** * Directories: the tree of mounted file systems, the cache, and the walk along a path *)

From S2P Require Import Prelude FileSystems CString CStringProofs Paths PathsProofs VfsFiles VfsDirs.





(** ** The tree *)

Section VdirInd.
Context (P : vdir -> Prop) (Hind : forall children fs p, Forall P children -> P (Vdir children fs p)).

Fixpoint vdir_tree_ind (v : vdir) : P v :=
  match v with
  | Vdir children fs p =>
      Hind children fs p ((fix go l : Forall P l :=
        match l with [] => Forall_nil _ | c :: l => Forall_cons _ c l (vdir_tree_ind c) (go l) end) children)
  end.
End VdirInd.

Lemma starts_with_spec p path : starts_with p path = true <-> p `prefix_of` path.
Proof. apply bool_decide_eq_true. Qed.

(** The first child whose path begins a path. *)
Definition find_child (path : list Z) (l : list vdir) : option (nat * vdir) := list_find (fun c => starts_with (vdir_path c) path) l.

Lemma find_child_cons path c l : find_child path (c :: l) =
  if starts_with (vdir_path c) path then Some (0%nat, c) else prod_map S id <$> find_child path l.
Proof. unfold find_child. cbn. destruct (starts_with _ _); by rewrite ?decide_True, ?decide_False by (done || auto). Qed.

Lemma get_fs_vdir_eq path children fs p : get_fs_vdir path (Vdir children fs p) =
  match find_child path children with
  | Some (_, c) => get_fs_vdir path c
  | None => match fs with None => None | Some _ => Some (Vdir children fs p) end
  end.
Proof.
  cbn [get_fs_vdir]. set (v := Vdir children fs p). clearbody v. induction children as [|c l IH]; [done|]. rewrite find_child_cons. destruct (starts_with _ _); [done|].
  rewrite IH. by destruct (find_child path l) as [[? ?]|].
Qed.

Lemma insert_vdir_eq new children fs p : insert_vdir new (Vdir children fs p) =
  match find_child (vdir_path new) children with
  | Some (i, c) => (fun c' => Vdir (<[i := c']> children) fs p) <$> insert_vdir new c
  | None => if bool_decide (p = vdir_path new) then None else Some (Vdir (children ++ [new]) fs p)
  end.
Proof.
  cbn [insert_vdir]. match goal with |- match ?f children with _ => _ end = _ => set (search := f) end.
  assert (search children = match find_child (vdir_path new) children with Some (i, c) => Some ((fun c' => <[i := c']> children) <$> insert_vdir new c) | None => None end) as ->.
  { induction children as [|c l IH]; [done|]. rewrite find_child_cons.
    transitivity (if starts_with (vdir_path c) (vdir_path new) then Some ((fun c' => c' :: l) <$> insert_vdir new c)
      else fmap (M := option) (fmap (M := option) (cons c)) (search l)); [reflexivity|].
    destruct (starts_with _ _); [by destruct (insert_vdir new c)|]. rewrite IH. destruct (find_child _ l) as [[i c']|]; cbn; [|done]. by destruct (insert_vdir new c'). }
  destruct (find_child _ children) as [[i c]|]; [|done]. by destruct (insert_vdir new c).
Qed.

Lemma insert_vdir_path new vd root : insert_vdir new vd = Some root -> vdir_path root = vdir_path vd.
Proof.
  destruct vd as [children fs p]. rewrite insert_vdir_eq. destruct (find_child _ _) as [[i c]|].
  - destruct (insert_vdir new c); [|done]. by intros [= <-].
  - case_bool_decide; [done|]. by intros [= <-].
Qed.

Lemma find_child_insert path l i c c' : find_child path l = Some (i, c) -> vdir_path c' = vdir_path c -> find_child path (<[i := c']> l) = Some (i, c').
Proof.
  unfold find_child. intros (Hi & Hc & Hb)%list_find_Some Hp. apply list_find_Some. assert (i < length l)%nat by (by eapply lookup_lt_Some). split_and!.
  - by apply list_lookup_insert_eq.
  - by rewrite Hp.
  - intros j y Hj Hlt. rewrite list_lookup_insert_ne in Hj by lia. by eapply Hb.
Qed.

(** What is mounted is what is found: after a file system is mounted on a path, this path
    is on it, and nothing else can be mounted on the same path. *)
Theorem mount_then_found new vd root : vdir_children new = [] -> is_Some (vdir_fs new) -> insert_vdir new vd = Some root ->
  get_fs_vdir (vdir_path new) root = Some new /\ insert_vdir new root = None.
Proof.
  intros Hleaf Hfs. destruct new as [nc [nf|] np]; [|by destruct Hfs]. cbn in Hleaf. subst nc. clear Hfs. set (new := Vdir [] (Some nf) np).
  revert root. induction vd as [children fs p IH] using vdir_tree_ind. intros root. rewrite insert_vdir_eq.
  destruct (find_child (vdir_path new) children) as [[i c]|] eqn:E.
  - destruct (insert_vdir new c) as [c'|] eqn:Ec; [|done]. intros [= <-]. rewrite get_fs_vdir_eq, insert_vdir_eq.
    rewrite (find_child_insert _ _ _ c c') by (done || by eapply insert_vdir_path). apply list_find_Some in E as (Hi & _ & _).
    rewrite list.Forall_lookup in IH. destruct (IH i c Hi c' Ec) as [-> ->]. done.
  - case_bool_decide; [done|]. intros [= <-]. rewrite get_fs_vdir_eq, insert_vdir_eq.
    assert (find_child (vdir_path new) (children ++ [new]) = Some (length children, new)) as ->.
    { unfold find_child in *. rewrite list_find_app_r by done. cbn.
      replace (starts_with np np) with true by (symmetry; by apply starts_with_spec). rewrite decide_True by done. cbn. by do 2 f_equal. }
    split; [done|]. cbn. by rewrite bool_decide_eq_true_2.
Qed.

(** * Directories: opening a path is walking along it

    The reference is [walk]: from the root directory of the file system, name by name.  With
    one file system mounted on the root, and every entry of the cache right, [vfs_open] finds
    what the walk finds. *)


(** What a file system promises: its directories can be read, and reading changes no directory. *)
Class DirectoryTree (S : Type) `{DirectoryFS S} := {
  is_dir : S -> Z -> Prop;
  entries : S -> Z -> list dirent;
  read_entries : forall s i, is_dir s i -> exists s', fs_read_dir i s = Ok (s', entries s i) /\
    root_addr s' = root_addr s /\ (forall j, is_dir s j -> is_dir s' j) /\ (forall j, entries s' j = entries s j);
  root_is_dir : forall s, is_dir s (root_addr s);
  entry_is_dir : forall s i e, is_dir s i -> e ∈ entries s i -> dirent_type (d_fast e) = DT_DIR -> is_dir s (ino (d_fast e));
  entry_rights : forall s i e, is_dir s i -> e ∈ entries s i -> dirent_type (d_fast e) = DT_DIR \/ any_right (d_fast e) = true;
  entry_name : forall s i e, is_dir s i -> e ∈ entries s i -> name (d_name e) /\ zlen (d_name e) < 256;
  entry_unique : forall s i, is_dir s i -> NoDup (d_name <$> entries s i)
}.

Section Walk.
Context {S : Type} `{DirectoryTree S}.
Implicit Types (s : S) (d : vdirs S).

Inductive walked := Found (e : fast_dirent) | Missing | NotDir.

Fixpoint walk s (cur : fast_dirent) (names : list (list Z)) : walked :=
  match names with
  | [] => Found cur
  | w :: names =>
      if dirent_type cur =? DT_DIR then
        match list_find (fun e => d_name e = w) (entries s (ino cur)) with
        | Some (_, e) => walk s (d_fast e) names
        | None => Missing
        end
      else NotDir
  end.

Definition root_dirent s : fast_dirent := Dirent (root_addr s) 0 DT_DIR false false false false false.

(** An entry that can be walked on from. *)
Definition good s (e : fast_dirent) : Prop :=
  (dirent_type e = DT_DIR -> is_dir s (ino e)) /\ (dirent_type e = DT_DIR \/ any_right e = true).

Lemma walk_app s cur a b : walk s cur (a ++ b) = match walk s cur a with Found e => walk s e b | r => r end.
Proof.
  revert cur. induction a as [|w a IH]; intros cur; [done|]. cbn. destruct (dirent_type cur =? DT_DIR); [|done]. destruct (list_find _ _) as [[i e]|]; [apply IH|done].
Qed.

Lemma walk_good s cur names e : good s cur -> walk s cur names = Found e -> good s e.
Proof.
  revert cur. induction names as [|w names IH]; intros cur Hg; cbn [walk]; [by intros [= <-]|]. destruct (Z.eqb_spec (dirent_type cur) DT_DIR) as [Ht|]; [|done].
  destruct (list_find _ _) as [[i x]|] eqn:E; [|done]. apply IH. apply list_find_Some in E as (Hx%list_elem_of_lookup_2 & _). destruct Hg as [Hd _]. split.
  - intros. by eapply entry_is_dir; [apply Hd| |].
  - by eapply entry_rights; [apply Hd|].
Qed.

Lemma root_good s : good s (root_dirent s).
Proof. split; [intros _; apply root_is_dir|by left]. Qed.

(** Two states of a file system with the same directories. *)
Record same_tree s s' : Prop := {
  st_root : root_addr s' = root_addr s;
  st_dirs : forall i, is_dir s i -> is_dir s' i;
  st_entries : forall i, entries s' i = entries s i
}.
#[global] Instance same_tree_refl : Reflexive same_tree.
Proof. by constructor. Qed.
#[global] Instance same_tree_trans : Transitive same_tree.
Proof. intros a b c [A1 A2 A3] [B1 B2 B3]. constructor; [congruence|auto|]. intros i. by rewrite B3. Qed.

Lemma walk_same s s' cur names : same_tree s s' -> walk s' cur names = walk s cur names.
Proof. intros [_ _ He]. revert cur. induction names as [|w names IH]; intros cur; [done|]. cbn. rewrite He. destruct (dirent_type cur =? DT_DIR); [|done]. destruct (list_find _ _) as [[i e]|]; [apply IH|done]. Qed.

(** ** One file system *)

(** The only file system [fs] is mounted on the root; an entry of the cache for a path in
    canonical form is what the walk along this path finds. *)
Record dirs_ok d (fs : Z) s (n : Z) : Prop := {
  do_root : vfs_root d = Vdir [] (Some fs) [SLASH];
  do_cache : zlen (cached_dir_list d) = 4096;
  do_fs : mounted d !! fs = Some (s, n);
  do_coherent : forall i e f p names, cached_dir_list d !! i = Some (Some (CacheEnt e f p)) -> names <> [] -> Forall name names -> p = render names ->
    f = fs /\ walk s (root_dirent s) names = Found e;
  do_no_root : forall i e f p, cached_dir_list d !! i = Some (Some (CacheEnt e f p)) -> p <> [SLASH]
}.

Lemma slot_range d path : zlen (cached_dir_list d) = 4096 -> 0 <= slot d path < 4096.
Proof. intros E. unfold slot. rewrite E. change (4096 - 1) with (Z.ones 12). rewrite Z.land_ones by lia. apply Z.mod_pos_bound. lia. Qed.

Lemma render_inj a b : Forall name a -> Forall name b -> render a = render b -> a = b.
Proof. intros Ha Hb E. by rewrite <- (tokens_render a Ha), E, tokens_render. Qed.

Lemma add_cache_entry_ok d fs s n p e : dirs_ok d fs s n -> p <> [SLASH] ->
  (forall names, names <> [] -> Forall name names -> p = render names -> walk s (root_dirent s) names = Found e) ->
  exists d', add_cache_entry p fs e d = Ok d' /\ dirs_ok d' fs s n.
Proof.
  intros [Hr Hc Hf Hco Hno] Hp Hw. unfold add_cache_entry, st. pose proof (slot_range d p Hc). rewrite Hc. rewrite (proj2 (Z.leb_le _ _)), (proj2 (Z.ltb_lt _ _)) by lia. cbn [andb mbind res_bind].
  eexists. split; [reflexivity|]. constructor; cbn; try done; [unfold zlen in *; by rewrite length_insert|..].
  - intros i e' f p' names Hi Hne Hn ->. apply list_lookup_insert_Some in Hi as [(_ & [= -> -> ->] & _)|[_ Hi]]; [split; [done|by apply Hw]|by eapply Hco].
  - intros i e' f p' Hi. apply list_lookup_insert_Some in Hi as [(_ & [= -> -> ->] & _)|[_ Hi]]; [done|by eapply Hno].
Qed.

Lemma get_cache_entry_ok d fs s n p : dirs_ok d fs s n -> is_absolute p = true ->
  exists r, get_cache_entry p d = Ok r /\ forall e f q, r = Some (CacheEnt e f q) -> q = p /\ p <> [SLASH] /\
    forall names, names <> [] -> Forall name names -> p = render names -> f = fs /\ walk s (root_dirent s) names = Found e.
Proof.
  intros [Hr Hc Hf Hco Hno] Ha. unfold get_cache_entry. rewrite Ha, Hc. cbn [assert_ mbind res_bind]. unfold ld. pose proof (slot_range d p Hc).
  rewrite (proj2 (Z.leb_le _ _)) by lia. destruct (cached_dir_list d !! Z.to_nat (slot d p)) as [x|] eqn:E.
  2:{ apply lookup_ge_None in E. unfold zlen in Hc. lia. }
  cbn [mbind res_bind]. destruct x as [[e f q]|]; [|by exists None]. cbn. case_bool_decide as Hq; [|by exists None]. subst q. eexists. split; [reflexivity|].
  intros ? ? ? [= <- <- <-]. split_and!; [done|by eapply Hno|]. intros names Hne Hn Hp. by eapply Hco.
Qed.

(** ** Reading a directory *)

(** The first entry with a name is the only one. *)
Lemma find_unique (l : list dirent) e : NoDup (d_name <$> l) -> e ∈ l -> exists i, list_find (fun x => d_name x = d_name e) l = Some (i, e).
Proof.
  intros Hnd Hin. destruct (list_find_elem_of (fun x => d_name x = d_name e) l e Hin eq_refl) as [[i x] Hf]. exists i. rewrite Hf.
  apply list_find_Some in Hf as (Hi & Hx & _). apply list_elem_of_lookup in Hin as [j Hj]. assert (i = j) as ->; [|congruence].
  apply (NoDup_lookup (d_name <$> l) i j (d_name e) Hnd); rewrite list_lookup_fmap; [rewrite Hi; cbn; by rewrite Hx|by rewrite Hj].
Qed.

Lemma cache_entries_ok d fs s n done ents cur : dirs_ok d fs s n -> walk s (root_dirent s) done = Found cur -> dirent_type cur = DT_DIR -> is_dir s (ino cur) ->
  Forall name done -> (forall e, e ∈ ents -> e ∈ entries s (ino cur)) -> weight done + 257 < MAX_PATH ->
  exists d', cache_entries fs (render done) ents d = Ok d' /\ dirs_ok d' fs s n.
Proof.
  intros Hok Hw Ht Hd Hdone Hsub Hlen. revert d Hok. induction ents as [|e ents IH]; intros d Hok; [by exists d|]. cbn [cache_entries].
  assert (e ∈ entries s (ino cur)) as He by (apply Hsub; by left). destruct (entry_name s (ino cur) e Hd He) as [Hname Hn256].
  rewrite (proj2 (Z.ltb_lt _ MAX_PATH)) by (unfold weight in Hlen; lia). cbn [assert_ mbind res_bind].
  destruct (add_cache_entry_ok d fs s n (render done ++ SLASH :: d_name e) (d_fast e) Hok) as (d1 & -> & Hok1).
  - destruct Hname as [Hne _]. intros E%(f_equal length). rewrite length_app in E. cbn in E. destruct (d_name e); [done|]. cbn in E. lia.
  - intros names _ Hnames E. rewrite <- render_snoc in E. apply render_inj in E; [|by apply list.Forall_app; split; [|apply Forall_singleton]|done]. subst names.
    rewrite walk_app, Hw. cbn [walk]. rewrite Ht, Z.eqb_refl. destruct (find_unique (entries s (ino cur)) e (entry_unique _ _ Hd) He) as [i ->]. done.
  - cbn [mbind res_bind]. apply IH; [|done]. intros x Hx. apply Hsub. by right.
Qed.

Lemma read_dir_ok d fs s n done cur : dirs_ok d fs s n -> walk s (root_dirent s) done = Found cur -> dirent_type cur = DT_DIR -> Forall name done -> weight done + 257 < MAX_PATH ->
  exists d' s', read_dir fs (ino cur) (render done) d = Ok (d', entries s (ino cur)) /\ dirs_ok d' fs s' n /\ same_tree s s'.
Proof.
  intros Hok Hw Ht Hdone Hlen. assert (is_dir s (ino cur)) as Hd by (by apply (walk_good s (root_dirent s) done cur (root_good s) Hw)).
  pose proof Hok as [Hr Hc Hf Hco Hno]. unfold read_dir, get_mounted. rewrite Hc, Hf. cbn [assert_ negb Z.eqb mbind res_bind].
  destruct (read_entries s (ino cur) Hd) as (s' & -> & R1 & R2 & R3). cbn [mbind res_bind]. assert (same_tree s s') as Hs by (by constructor).
  destruct (cache_entries_ok (put_mounted fs s' n d) fs s' n done (entries s (ino cur)) cur) as (d' & -> & Hok').
  - constructor; cbn; try done; [apply lookup_insert_eq|]. intros i e f p names Hi Hne Hn Hp. destruct (Hco i e f p names Hi Hne Hn Hp) as [? Hwe]. split; [done|].
    unfold root_dirent. rewrite R1. by rewrite (walk_same s s').
  - unfold root_dirent. rewrite R1. by rewrite (walk_same s s').
  - done.
  - by apply R2.
  - done.
  - intros e. by rewrite R3.
  - done.
  - cbn [mbind res_bind]. by exists d', s'.
Qed.

Lemma find_fs_child_ok d fs s n done cur w : dirs_ok d fs s n -> walk s (root_dirent s) done = Found cur -> Forall name done -> weight done + 257 < MAX_PATH ->
  match walk s cur [w] with
  | Found e => exists d' s', find_fs_child fs cur w (render done) d = Ok (d', Some e) /\ dirs_ok d' fs s' n /\ same_tree s s'
  | Missing => exists d' s', find_fs_child fs cur w (render done) d = Ok (d', None) /\ dirs_ok d' fs s' n /\ same_tree s s'
  | NotDir => find_fs_child fs cur w (render done) d = Err (Panic "parent->type == DT_DIR")
  end.
Proof.
  intros Hok Hw Hdone Hlen. unfold find_fs_child. cbn [walk]. destruct (Z.eqb_spec (dirent_type cur) DT_DIR) as [Ht|]; [|done]. cbn [assert_ mbind res_bind].
  assert (is_dir s (ino cur)) as Hd by (by apply (walk_good s (root_dirent s) done cur (root_good s) Hw)).
  destruct (read_dir_ok d fs s n done cur) as (d' & s' & -> & Hok' & Hs); try done. cbn [mbind res_bind].
  destruct (list_find _ (entries s (ino cur))) as [[i e]|] eqn:E; [|by exists d', s'].
  apply list_find_Some in E as (He%list_elem_of_lookup_2 & _). exists d', s'. split; [|done].
  destruct (entry_rights s (ino cur) e Hd He) as [Hr|Hr]; rewrite Hr; [done|by rewrite orb_true_r].
Qed.

(** ** The walk *)

Lemma root_dirent_same s s' : same_tree s s' -> root_dirent s' = root_dirent s.
Proof. intros [E _ _]. unfold root_dirent. by rewrite E. Qed.

Lemma find_none_name w : SLASH ∉ w -> list_find (fun c => c = SLASH) w = None.
Proof. intros Hn. apply list_find_None. apply list.Forall_forall. by intros c Hc ->. Qed.

(** The next slash behind the name [w]. *)
Lemma next_slash_render done w ws : SLASH ∉ w ->
  next_slash (render (done ++ w :: ws)) (length (render done)) = match ws with [] => None | _ => Some (length (render (done ++ [w]))) end.
Proof.
  intros Hn. unfold next_slash. assert (render (done ++ w :: ws) = render done ++ SLASH :: w ++ render ws) as -> by (by rewrite render_app).
  rewrite drop_app_add'. 2:{ done. } cbn [skipn]. rewrite ?drop_0. rewrite list_find_app_r by (by apply find_none_name). destruct ws as [|v ws]; [done|].
  cbn. rewrite decide_True by done. cbn. rewrite render_snoc, length_app. cbn. f_equal. lia.
Qed.

Lemma render_absolute w ws : is_absolute (render (w :: ws)) = true.
Proof. done. Qed.
Lemma snoc_absolute done w : is_absolute (render (done ++ [w])) = true.
Proof. by destruct done. Qed.

(** What the function returns when the walk ends so. *)
Definition opens (r : walked) (fs n : Z) s (result : res (vdirs S * option fast_dirent)) : Prop :=
  match r with
  | Found e => exists d' s', result = Ok (d', Some e) /\ dirs_ok d' fs s' n /\ same_tree s s'
  | Missing => exists d' s', result = Ok (d', None) /\ dirs_ok d' fs s' n /\ same_tree s s'
  | NotDir => result = Err (Panic "parent->type == DT_DIR")
  end.

Lemma opens_trans r fs n s s' result : same_tree s s' -> opens r fs n s' result -> opens r fs n s result.
Proof. intros Hs. destruct r; cbn; [| |done]; intros (d' & s'' & ? & ? & ?); exists d', s''; split_and!; try done; by transitivity s'. Qed.

Lemma open_loop_ok todo fuel d fs s n done cur : dirs_ok d fs s n -> walk s (root_dirent s) done = Found cur -> Forall name (done ++ todo) ->
  weight (done ++ todo) + 257 < MAX_PATH -> (length todo < fuel)%nat ->
  opens (walk s cur todo) fs n s (open_loop fuel fs (render (done ++ todo)) (match todo with [] => None | _ => Some (length (render done)) end) cur d).
Proof.
  revert fuel d s done cur. induction todo as [|w ws IH]; intros fuel d s done cur Hok Hw Hn Hlen Hf; (destruct fuel as [|fuel]; [cbn in Hf; lia|]); cbn [open_loop].
  { cbn. by exists d, s. }
  pose proof Hn as [Hdone [Hname Hws]%list.Forall_cons]%list.Forall_app. cbn in Hf.
  assert (length (render (done ++ w :: ws)) <=? length (render done) = false)%nat as ->.
  { apply Nat.leb_gt. rewrite render_app, length_app. unfold render at 3. cbn. lia. }
  rewrite next_slash_render by apply Hname. cbn zeta.
  assert (match (match ws with [] => None | _ => Some (length (render (done ++ [w]))) end) with Some e => take e (render (done ++ w :: ws)) | None => render (done ++ w :: ws) end
    = render (done ++ [w])) as ->.
  { destruct ws as [|v ws]; [done|]. replace (done ++ w :: v :: ws) with ((done ++ [w]) ++ v :: ws) by (by rewrite <- app_assoc). rewrite (render_app (done ++ [w])). apply take_app_length. }
  replace (done ++ w :: ws) with ((done ++ [w]) ++ ws) in * by (by rewrite <- app_assoc).
  assert (Forall name (done ++ [w])) as Hdw by (by apply list.Forall_app in Hn as [? _]).
  destruct (get_cache_entry_ok d fs s n (render (done ++ [w])) Hok (snoc_absolute done w)) as (r & -> & Hr). cbn [mbind res_bind].
  assert (walk s cur (w :: ws) = match walk s cur [w] with Found e => walk s e ws | x => x end) as -> by apply (walk_app s cur [w] ws).
  destruct r as [[e f q]|].
  - destruct (Hr e f q eq_refl) as (_ & _ & Hc). destruct (Hc (done ++ [w])) as [-> Hwe]; [by destruct done|done|done|]. rewrite walk_app, Hw in Hwe. rewrite Hwe.
    cbn [ce_fs]. rewrite Z.eqb_refl. cbn [assert_ mbind res_bind ce_dirent]. apply IH; try (done || lia). by rewrite walk_app, Hw.
  - rewrite render_snoc. rewrite drop_app_add' by done. cbn [skipn]. rewrite ?drop_0. rewrite <- app_assoc, render_app. rewrite take_app_length. cbn [app].
    assert (weight done + 257 < MAX_PATH) as Hld by (rewrite !weight_app in Hlen; pose proof (weight_nonneg [w]); pose proof (weight_nonneg ws); lia).
    pose proof (find_fs_child_ok d fs s n done cur w Hok Hw Hdone Hld) as Hfc. destruct (walk s cur [w]) as [e| |] eqn:Ew.
    + destruct Hfc as (d' & s' & -> & Hok' & Hs). cbn [mbind res_bind].
      assert (walk s (root_dirent s) (done ++ [w]) = Found e) as Hwe by (by rewrite walk_app, Hw).
      assert ((if dirent_type e =? DT_REG then assert_ (any_right e) "cur.rights.value" else Ok ()) = Ok ()) as ->.
      { destruct (Z.eqb_spec (dirent_type e) DT_REG) as [Et|]; [|done]. destruct (walk_good s _ _ _ (root_good s) Hwe) as [_ [Ed| ->]]; [|done]. by rewrite Et in Ed. }
      cbn [mbind res_bind]. apply (opens_trans _ _ _ _ s'); [done|]. rewrite <- (walk_same s s') by done.
      replace (render done ++ render (w :: ws)) with (render ((done ++ [w]) ++ ws)) by (by rewrite <- app_assoc, render_app). rewrite <- render_snoc. apply IH; try (done || lia).
      by rewrite (root_dirent_same s s'), (walk_same s s').
    + destruct Hfc as (d' & s' & -> & Hok' & Hs). cbn [mbind res_bind]. by exists d', s'.
    + by rewrite Hfc.
Qed.

Lemma render_length ws : (length ws <= length (render ws))%nat.
Proof. induction ws as [|w ws IH]; [done|]. unfold render in *. cbn. rewrite length_app. lia. Qed.

Lemma resolve_all_weight ws stack : weight (foldl resolve_name stack ws) <= weight stack + weight ws.
Proof.
  revert stack. induction ws as [|w ws IH]; intros stack; [change (weight []) with 0; cbn; lia|]. cbn [foldl]. specialize (IH (resolve_name stack w)).
  pose proof (resolve_weight stack w). rewrite weight_cons. lia.
Qed.

End Walk.

(** * Directories: a mount point is a prefix of characters

    [get_fs_vdir] compares the path of a mount point with the first characters of the path, and
    does not ask for a slash behind them. *)


Section Limits.
Context {S : Type} `{DirectoryTree S}.
Implicit Types (s : S) (d : vdirs S).

(** The cache has its size, whatever it holds. *)
Lemma add_cache_entry_total d p fs e : zlen (cached_dir_list d) = 4096 ->
  exists d', add_cache_entry p fs e d = Ok d' /\ zlen (cached_dir_list d') = 4096 /\ vfs_root d' = vfs_root d /\ mounted d' = mounted d.
Proof.
  intros Hc. unfold add_cache_entry, st. pose proof (slot_range d p Hc). rewrite Hc, (proj2 (Z.leb_le _ _)), (proj2 (Z.ltb_lt _ _)) by lia. cbn [andb mbind res_bind].
  eexists. split_and!; [reflexivity|..]; try done. cbn. unfold zlen in *. by rewrite length_insert.
Qed.

Lemma cache_entries_total fs p ents d : zlen (cached_dir_list d) = 4096 -> (forall e, e ∈ ents -> zlen (d_name e) < 256) -> zlen p + 257 < MAX_PATH ->
  exists d', cache_entries fs p ents d = Ok d' /\ zlen (cached_dir_list d') = 4096.
Proof.
  revert d. induction ents as [|e ents IH]; intros d Hc Hn Hp; [by exists d|]. cbn [cache_entries]. pose proof (Hn e ltac:(by left)).
  rewrite (proj2 (Z.ltb_lt _ MAX_PATH)) by lia. cbn [assert_ mbind res_bind].
  destruct (add_cache_entry_total d (p ++ SLASH :: d_name e) fs (d_fast e) Hc) as (d1 & -> & Hc1 & _). cbn [mbind res_bind]. apply IH; [done| |done]. intros x Hx. apply Hn. by right.
Qed.

Lemma get_cache_entry_empty d p : (forall i x, cached_dir_list d !! i = Some x -> x = None) -> zlen (cached_dir_list d) = 4096 -> is_absolute p = true ->
  get_cache_entry p d = Ok None.
Proof.
  intros He Hc Ha. unfold get_cache_entry. rewrite Ha, Hc. cbn [assert_ negb Z.eqb mbind res_bind]. unfold ld. pose proof (slot_range d p Hc). rewrite (proj2 (Z.leb_le _ _)) by lia.
  destruct (cached_dir_list d !! Z.to_nat (slot d p)) as [x|] eqn:E; [by rewrite (He _ _ E)|]. apply lookup_ge_None in E. unfold zlen in Hc. lia.
Qed.

(** With a file system mounted below [/name], the path [/namex] is resolved on it, to its
    entry [x], although it is the path of an entry [namex] of the root directory. *)
Theorem vfs_open_prefix_confusion d f g s n m x e : vfs_root d = Vdir [Vdir [] (Some g) (SLASH :: m)] (Some f) [SLASH] ->
  zlen (cached_dir_list d) = 4096 -> (forall i c, cached_dir_list d !! i = Some c -> c = None) -> mounted d !! g = Some (s, n) ->
  proper (m ++ x) -> m <> [] -> x <> [] -> zlen m + zlen x + 300 < MAX_PATH -> walk s (root_dirent s) [x] = Found e ->
  exists d', vfs_open (SLASH :: m ++ x) d = Ok (d', Some (g, e)).
Proof.
  intros Hroot Hc He Hg Hp Hm Hx Hlen Hw. destruct Hp as [(Hne & Hsl & _) [Hd1 Hd2]]. set (path := SLASH :: m ++ x). assert (0 <= zlen m /\ 0 <= zlen x) as [? ?] by (unfold zlen; lia).
  assert (simplify path = path) as Es.
  { unfold simplify, path. rewrite tokens_skip, tokens_word by done. cbn [foldl]. unfold resolve_name. rewrite !decide_False by done. cbn. by rewrite app_nil_r. }
  unfold vfs_open. rewrite Es. cbv zeta. change (is_absolute path) with true. cbn [assert_ mbind res_bind]. rewrite get_cache_entry_empty by done. cbn [mbind res_bind].
  assert (get_fs_vdir path (vfs_root d) = Some (Vdir [] (Some g) (SLASH :: m))) as ->.
  { rewrite Hroot. cbn. replace (starts_with (SLASH :: m) path) with true; [done|]. symmetry. apply starts_with_spec. by exists x. }
  cbn [vdir_fs vdir_path]. unfold get_mounted at 1. rewrite Hg. cbn [mbind res_bind]. fold (root_dirent s). cbn [length].
  assert (0 < length x)%nat by (destruct x; [done|cbn; lia]).
  assert (length path = Datatypes.S (length m + length x)) as El by (unfold path; cbn; by rewrite length_app).
  assert (drop (length m + 1) path = x) as Edrop by (unfold path; rewrite Nat.add_1_r; cbn; apply drop_app_length).
  assert (nthZ path (Z.of_nat (Datatypes.S (length m))) =? SLASH = false) as ->.
  { apply Z.eqb_neq. unfold nthZ, path. rewrite Nat2Z.id. change (default 0 ((m ++ x) !! length m) <> SLASH). rewrite lookup_app_r, Nat.sub_diag by done. destruct x as [|c x]; [done|]. cbn. intros ->. apply Hsl, elem_of_app. right. by left. }
  assert (length path <=? Datatypes.S (length m) = false)%nat as -> by (apply Nat.leb_gt; lia).
  cbn [negb andb Nat.sub]. rewrite Nat.sub_0_r. rewrite El. cbn [open_loop]. rewrite El. rewrite (proj2 (Nat.leb_gt _ _)) by lia.
  assert (next_slash path (length m) = None) as ->.
  { unfold next_slash. rewrite Edrop, find_none_name; [done|]. intros Hin. apply Hsl, elem_of_app. by right. }
  rewrite get_cache_entry_empty by done. cbn [mbind res_bind]. rewrite Edrop. cbn [walk] in Hw. change (dirent_type (root_dirent s) =? DT_DIR) with true in Hw. cbn iota in Hw.
  destruct (list_find _ (entries s (ino (root_dirent s)))) as [[i c]|] eqn:Ef; [|done]. injection Hw as <-.
  unfold find_fs_child, read_dir, get_mounted. change (dirent_type (root_dirent s) =? DT_DIR) with true. rewrite Hc, Hg. cbn [assert_ negb Z.eqb mbind res_bind].
  destruct (read_entries s (ino (root_dirent s)) (root_is_dir s)) as (s' & -> & _). cbn [mbind res_bind].
  destruct (cache_entries_total g (take (length m) path) (entries s (ino (root_dirent s))) (put_mounted g s' n d)) as (d1 & -> & Hc1); [done| | |].
  { intros y Hy. by apply (entry_name s (ino (root_dirent s))); [apply root_is_dir|]. }
  { unfold zlen in *. rewrite length_take. lia. }
  cbn [mbind res_bind]. rewrite Ef. assert (good s (d_fast c)) as Hgd.
  { apply (walk_good s (root_dirent s) [x]); [apply root_good|]. cbn [walk]. change (dirent_type (root_dirent s) =? DT_DIR) with true. cbn iota. by rewrite Ef. }
  assert ((dirent_type (d_fast c) =? DT_DIR) || any_right (d_fast c) = true) as Hr by (by destruct Hgd as [_ [-> | ->]]; rewrite ?orb_true_r).
  rewrite Hr. cbn [assert_ mbind res_bind]. replace (if dirent_type (d_fast c) =? DT_REG then _ else _) with (Ok ()).
  2:{ destruct (Z.eqb_spec (dirent_type (d_fast c)) DT_REG) as [Et|]; [|done]. by destruct Hgd as [_ [E| ->]]; [rewrite Et in E|]. }
  cbn [mbind res_bind]. destruct (length m + length x)%nat as [|k] eqn:Ek; [lia|]. cbn [open_loop mbind res_bind]. rewrite Hr. cbn [assert_ mbind res_bind].
  destruct (add_cache_entry_total d1 path g (d_fast c) Hc1) as (d2 & -> & _). by exists d2.
Qed.
End Limits.

(** * Paths: a small memory, and a small directory tree *)



(** ** Strings *)

Definition block (p : Z) (l : list Z) : list (Z * Z) := zip (seqZ p (zlen l)) l.

(** The literals at 100, 110 and 120, the path [/a/../b] at 200, the empty path at 220, a
    destination at 300 and one of a single byte at 350, a copy at 400. *)
Definition path_a : list Z := [47; 97; 47; 46; 46; 47; 98].
Definition memory0 : memory :=
  list_to_map (block 100 [47; 0] ++ block 110 [46; 0] ++ block 120 [46; 46; 0] ++ block 200 (path_a ++ [0]) ++ block 220 [0] ++
    block 300 [1; 1; 1; 1; 1; 1; 1; 1] ++ block 350 [1] ++ block 400 [1; 1; 1; 1; 1; 1; 1; 1]).
Definition literals0 : literals := Literals 100 110 120.

Ltac solve_cstr := split; [repeat constructor; lia|vm_compute; repeat split].

Lemma literals0_ok dst cap buf nbuf : 200 <= dst -> 200 <= buf -> literals_ok literals0 dst cap buf nbuf memory0.
Proof. intros ? ?. constructor; [solve_cstr..| | |]; unfold apart, disjoint; cbn; lia. Qed.

Lemma path_a_ok : cstr memory0 200 path_a.
Proof. solve_cstr. Qed.
Lemma empty_ok : cstr memory0 220 [].
Proof. solve_cstr. Qed.
Lemma dst_ok : mapped memory0 300 8.
Proof. exact (bytes_at_mapped memory0 300 [1; 1; 1; 1; 1; 1; 1; 1] ltac:(vm_compute; repeat split)). Qed.
Lemma buf_ok : mapped memory0 400 8.
Proof. exact (bytes_at_mapped memory0 400 [1; 1; 1; 1; 1; 1; 1; 1] ltac:(vm_compute; repeat split)). Qed.
Lemma buf1_ok : mapped memory0 400 1.
Proof. exact (bytes_at_mapped memory0 400 [1] ltac:(vm_compute; repeat split)). Qed.

Lemma absolute_a : (exists s', path_a = SLASH :: s') /\ zlen path_a + 1 <= 8.
Proof. split; [by eexists|vm_compute; discriminate]. Qed.

Lemma simplify_path_witness : exists m', simplify_path literals0 memory0 300 200 400 0 = Ok m' /\ cstr m' 300 (simplify path_a) /\ framed 300 8 400 (zlen path_a + 1) memory0 m'.
Proof.
  exact (simplify_path_correct literals0 memory0 300 8 200 400 0 path_a path_a_ok ltac:(lia) ltac:(lia) dst_ok buf_ok
    ltac:(left; vm_compute; discriminate) ltac:(split; left; vm_compute; discriminate) (literals0_ok 300 8 400 8 ltac:(lia) ltac:(lia)) (or_introl absolute_a)).
Defined.
Example simplify_a : simplify path_a = [47; 98].
Proof. reflexivity. Qed.

Lemma simplify_idempotent_witness : canonical [47; 98] /\ simplify [47; 98] = [47; 98].
Proof. exact (simplify_idempotent path_a ltac:(repeat constructor; lia)). Defined.

Lemma byte_ok : is_Some (memory0 !! 350).
Proof. vm_compute. by eexists. Qed.
Lemma byte_end : memory0 !! (350 + 1) = None.
Proof. vm_compute. reflexivity. Qed.

Lemma simplify_path_empty_witness : simplify_path literals0 memory0 350 220 400 0 = Err (Fault "store").
Proof.
  exact (simplify_path_empty_overflows literals0 memory0 350 220 400 0 empty_ok ltac:(lia) ltac:(lia) byte_ok byte_end buf1_ok
    ltac:(unfold disjoint; lia) ltac:(split; unfold disjoint; lia) (literals0_ok 350 1 400 1 ltac:(lia) ltac:(lia))).
Defined.

(** [/a/..] one byte to the right, over itself. *)
Lemma memmove_witness : exists m' r, memmove memory0 201 200 6 = Ok (m', r) /\ bytes_at m' 201 [47; 97; 47; 46; 46; 47].
Proof.
  destruct (memmove_correct memory0 201 200 [47; 97; 47; 46; 46; 47] ltac:(vm_compute; repeat split) ltac:(repeat constructor; lia)
    (bytes_at_mapped memory0 201 [97; 47; 46; 46; 47; 98] ltac:(vm_compute; repeat split))) as (m' & r & E & Hb & _).
  exists m', r. split; [exact E|exact Hb].
Defined.

(** ** Directories *)

(** The root directory 2 holds the directory [a] and the file [t], the directory 5 a file [c]. *)
Definition file_ent0 (i : Z) : fast_dirent := Dirent i 100 DT_REG true true false true true.
Definition dir_ent0 (i : Z) : fast_dirent := Dirent i 0 DT_DIR false false false false false.
Definition tree_entries (i : Z) : list dirent :=
  if i =? 2 then [DirEnt [97] (dir_ent0 5); DirEnt [116] (file_ent0 9)] else if i =? 5 then [DirEnt [99] (file_ent0 11)] else [].

#[local] Instance tree_fs : DirectoryFS unit := {
  root_addr _ := 2;
  fs_read_dir i s := Ok (s, tree_entries i);
  fs_add_dirent _ _ _ s := Ok (s, 1);
  fs_update_dirent _ _ _ _ s := Ok (s, 1)
}.

Lemma tree_entry i e : e ∈ tree_entries i -> (i = 2 /\ (e = DirEnt [97] (dir_ent0 5) \/ e = DirEnt [116] (file_ent0 9))) \/ (i = 5 /\ e = DirEnt [99] (file_ent0 11)).
Proof.
  unfold tree_entries. destruct (Z.eqb_spec i 2) as [->|]; [|destruct (Z.eqb_spec i 5) as [->|]]; rewrite ?elem_of_cons, ?elem_of_nil; naive_solver.
Qed.

#[local] Instance tree_tree : DirectoryTree unit.
Proof.
  refine {| is_dir := fun _ i => i = 2 \/ i = 5; entries := fun _ i => tree_entries i |}.
  - intros s i _. by exists s.
  - by left.
  - intros s i e _ [[_ [-> | ->]]|[_ ->]]%tree_entry Ht; [by right|done|done].
  - intros s i e _ [[_ [-> | ->]]|[_ ->]]%tree_entry; [by left|by right|by right].
  - intros s i e _ [[_ [-> | ->]]|[_ ->]]%tree_entry; (split; [split_and!; [done| |repeat constructor; lia]|done]);
      cbn; rewrite elem_of_cons, elem_of_nil; intros [[=]|[]].
  - intros s i [-> | ->]; cbn; repeat constructor; rewrite ?elem_of_cons, ?elem_of_nil; naive_solver.
Defined.

Definition dirs0 : vdirs unit := VDirs (Vdir [] (Some 0) [SLASH]) (replicate 4096 None) {[0 := ((), 0)]}.

Lemma empty_cache i (x : option dir_cache_ent) : replicate 4096 None !! i = Some x -> x = None.
Proof. by intros [-> _]%lookup_replicate. Qed.

Lemma empty_size : zlen (replicate 4096 (@None dir_cache_ent)) = 4096.
Proof. unfold zlen. rewrite length_replicate. reflexivity. Qed.

Lemma dirs0_ok : dirs_ok dirs0 0 () 0.
Proof.
  constructor; [done|apply empty_size|apply lookup_singleton_eq| |].
  - intros i e f p names Hi. by apply empty_cache in Hi.
  - intros i e f p Hi. by apply empty_cache in Hi.
Qed.


(** The tree mounted on [/dev] as well. *)
Definition dirs1 : vdirs unit := VDirs (Vdir [Vdir [] (Some 1) [47; 100]] (Some 0) [SLASH]) (replicate 4096 None) {[1 := ((), 0)]}.

Lemma proper_dt : proper ([100] ++ [116]).
Proof. unfold proper, name. split_and!; [done| |repeat constructor; lia|done|done]. cbn. rewrite !elem_of_cons, elem_of_nil. unfold SLASH. lia. Qed.

Lemma prefix_confusion_witness : exists d', vfs_open [47; 100; 116] dirs1 = Ok (d', Some (1, file_ent0 9)).
Proof.
  exact (vfs_open_prefix_confusion dirs1 0 1 () 0 [100] [116] (file_ent0 9) eq_refl empty_size
    empty_cache (lookup_singleton_eq _ _) proper_dt
    ltac:(done) ltac:(done) ltac:(vm_compute; reflexivity) eq_refl).
Defined.

Lemma mount_witness : get_fs_vdir [47; 100] (Vdir [Vdir [] (Some 1) [47; 100]] (Some 0) [47]) = Some (Vdir [] (Some 1) [47; 100]).
Proof.
  exact (proj1 (mount_then_found (Vdir [] (Some 1) [47; 100]) (Vdir [] (Some 0) [47]) _ eq_refl ltac:(by eexists) eq_refl)).
Defined.
