(* ===== verification/Fat32Dirs.v ===== *)
(** * FAT32 directories ([kernel/fs/fat32/fat32.c], [kernel/lib/utf16le.c])

    Definitions: parsing the entries of a directory, listing it, adding an entry and
    updating one.  An entry is 32 bytes of the buffer of a cluster.  The memory that the
    code reads before it writes to it is a parameter: [longname0] is what the array
    [longname] of a call holds, [entry0] what the name of the local [entry] holds. *)

From S2P Require Import Prelude Bytes Interfaces FileSystems Fat32 CString Paths VfsFiles VfsDirs.




Definition FAT32_DIRECTORY : Z := 0x10.
Definition FAT32_LFN : Z := 0xf.
Definition SPACE : Z := 32.

(** ** UTF-16 *)

Fixpoint utf16le2ascii (len : nat) (utf16le ascii : list Z) (i : Z) : res (list Z) :=
  match len with
  | O => Ok ascii
  | S len' =>
      w ← ld utf16le i;
      let c := Z.land w 0xff in
      let c := if 127 <? c then 63 else c in
      ascii ← st ascii i c;
      if c =? 0 then st ascii (i + 1) 0 else utf16le2ascii len' utf16le ascii (i + 1)
  end.

(** [ascii] is a string without its last zero. *)
Fixpoint ascii2utf16le (ascii utf16le : list Z) (i : Z) : res (list Z) :=
  match ascii with
  | [] => st utf16le i 0
  | c :: ascii => utf16le ← st utf16le i c; ascii2utf16le ascii utf16le (i + 1)
  end.

(** ** Entries *)

Definition word (e : list Z) (p : Z) : Z := le_bytes (slice e p 2).
Definition entry_attr (e : list Z) : Z := nthZ e 11.

Definition fat_attr2fs_type (attr : Z) : Z := if negb (Z.land attr FAT32_DIRECTORY =? 0) then DT_DIR else DT_REG.
Definition fs_type2fat_attr (type : Z) : res Z :=
  if type =? DT_DIR then Ok FAT32_DIRECTORY else if type =? DT_REG then Ok 0 else panic "unreachable".

(** The characters of a [fat_long_filename_t]. *)
Definition long_chars (e : list Z) : list Z := (word e <$> [1; 3; 5; 7; 9; 14; 16; 18; 20; 22; 24; 28; 30]) ++ [0].

(** The bytes before the first zero. *)
Fixpoint before_zero (l : list Z) : list Z := match l with [] => [] | c :: l => if c =? 0 then [] else c :: before_zero l end.

(** [!strcmp(buf, s)]: the comparison stops at the first difference. *)
Fixpoint str_eq (buf s : list Z) : res bool :=
  match buf with
  | [] => Err (Fault "strcmp")
  | c :: buf => match s with [] => Ok (c =? 0) | d :: s => if c =? d then str_eq buf s else Ok false end
  end.

(** [strncpy(name + p, src, n)] for a [src] of [n] bytes. *)
Definition strncpy_at (name : list Z) (p : Z) (src : list Z) : res (list Z) := wr_bytes name p (before_zero src ++ [0]).

(** [while( *ptr == ' ') ptr--]. *)
Fixpoint skip_back (fuel : nat) (name : list Z) (ptr : Z) : res Z :=
  match fuel with
  | O => Err NoFuel
  | S fuel' => c ← ld name ptr; if c =? SPACE then skip_back fuel' name (ptr - 1) else Ok ptr
  end.
(** [while( *ptr == ' ') *(ptr--) = '\0']. *)
Fixpoint trim_back (fuel : nat) (name : list Z) (ptr : Z) : res (list Z) :=
  match fuel with
  | O => Err NoFuel
  | S fuel' => c ← ld name ptr; if c =? SPACE then name ← st name ptr 0; trim_back fuel' name (ptr - 1) else Ok name
  end.

Definition short_name (e name : list Z) : res (list Z) :=
  name ← strncpy_at name 0 (slice e 0 8);
  ptr ← skip_back 9 name 7;
  if negb (nthZ e 8 =? SPACE) then
    name ← st name (ptr + 1) DOT;
    name ← strncpy_at name (ptr + 2) (slice e 8 3);
    trim_back 257 name (ptr + 5)
  else st name (ptr + 1) 0.

Section Parse.
Variables longname0 : list Z.

Definition handle_long_filename_entry (e name : list Z) : res (list Z) :=
  let order := Z.land (nthZ e 0) 0x0f - 1 in
  longname ← utf16le2ascii 13 (long_chars e) longname0 0;
  wr_bytes name (13 * order) longname.

(** The results 1 (the end), 0 (no new entry) and 2 (a new one). *)
Inductive parsed := ParsedEnd | ParsedNone | ParsedEntry (d : dirent).

Definition entry_dirent (e name : list Z) : dirent :=
  DirEnt (before_zero name)
    (Dirent (Z.lor (word e 26) (Z.shiftl (word e 20) 16)) (le_bytes (slice e 28 4)) (fat_attr2fs_type (entry_attr e)) true true true true true).

(** [long_entry] and the name of the current entry are kept between the calls. *)
Definition parse_dir_entry (e : list Z) (long_entry : bool) (name : list Z) : res (parsed * bool * list Z) :=
  if nthZ e 0 =? 0 then Ok (ParsedEnd, long_entry, name)
  else if nthZ e 1 =? 0xE5 then Ok (ParsedNone, long_entry, name)
  else if entry_attr e =? FAT32_LFN then
    name ← handle_long_filename_entry e name; Ok (ParsedNone, true, name)
  else
    name ← (if negb long_entry then short_name e name else st name 255 0);
    dot ← str_eq name [DOT]; dotdot ← (if (dot : bool) then Ok true else str_eq name [DOT; DOT]);
    if (dotdot : bool) then Ok (ParsedNone, long_entry, name)
    else Ok (ParsedEntry (entry_dirent e name), false, name).

Definition no_name : list Z := replicate 256 0.

(** [for(unsigned i = 0; i < entries_per_cluster; i++)] of [fat32_read_dir]: each entry of the
    output has a name of zeros of its own.  The first result tells whether the end was found. *)
Fixpoint parse_loop (n : nat) (i : Z) (buf : list Z) (long_entry : bool) (name : list Z) (out : list dirent) : res (bool * bool * list dirent) :=
  match n with
  | O => Ok (false, long_entry, out)
  | S n' =>
      e ← rd_bytes buf (32 * i) 32;
      '(v, long_entry, name) ← parse_dir_entry e long_entry name;
      match v with
      | ParsedEnd => Ok (true, long_entry, out)
      | ParsedNone => parse_loop n' (i + 1) buf long_entry name out
      | ParsedEntry d => parse_loop n' (i + 1) buf long_entry no_name (out ++ [d])
      end
  end.

(** ** Directories *)

Context {D : Type} `{BlockDevice D}.
Implicit Types f : fat32 D.

Definition bufsize f : Z := u32 (block_size (D := D) * cluster_size f).
Definition entries_per_cluster f : Z := bufsize f / 32.

(** No chain has more clusters than the FAT has entries. *)
Definition chain_fuel f : nat := Z.to_nat (fat_size f * (block_size (D := D) / 4)).

(** [memset] clears the name of the current entry before each cluster. *)
Fixpoint read_dir_loop (fuel : nat) (cluster : Z) (long_entry : bool) (out : list dirent) f : res (fat32 D * list dirent) :=
  match fuel with
  | O => Err NoFuel
  | S fuel' =>
      '(f, buf) ← part_read (cluster_begin cluster f) (cluster_size f) f;
      '(finished, long_entry, out) ← parse_loop (Z.to_nat (entries_per_cluster f)) 0 buf long_entry no_name out;
      if (finished : bool) then Ok (f, out)
      else
        '(f, cluster) ← readFAT cluster f;
        if cluster =? 0 then Ok (f, out) else read_dir_loop fuel' cluster long_entry out f
  end.
Definition fat32_read_dir (cluster : Z) f : res (fat32 D * list dirent) := read_dir_loop (chain_fuel f) (u32 cluster) false [] f.

(** The loop of [fat32_add_dirent] over the entries of a cluster: the offset of the end. *)
Fixpoint end_loop (n : nat) (i : Z) (buf : list Z) (long_entry : bool) (name : list Z) : res (option Z * bool * list Z) :=
  match n with
  | O => Ok (None, long_entry, name)
  | S n' =>
      e ← rd_bytes buf (32 * i) 32;
      '(v, long_entry, name) ← parse_dir_entry e long_entry name;
      match v with ParsedEnd => Ok (Some i, long_entry, name) | _ => end_loop n' (i + 1) buf long_entry name end
  end.
(** The buffer, the cluster and the offset of the end of the directory. *)
Fixpoint find_end (fuel : nat) (cluster : Z) (long_entry : bool) (name : list Z) f : res (fat32 D * list Z * Z * Z) :=
  match fuel with
  | O => Err NoFuel
  | S fuel' =>
      '(f, buf) ← part_read (cluster_begin cluster f) (cluster_size f) f;
      '(v, long_entry, name) ← end_loop (Z.to_nat (entries_per_cluster f)) 0 buf long_entry name;
      match v with
      | Some off => Ok (f, buf, cluster, off)
      | None =>
          '(f, cluster) ← readFAT cluster f;
          assert_ (negb (cluster =? 0)) "0" ;;
          find_end fuel' cluster long_entry name f
      end
  end.

(** The result is the buffer, the current cluster and the next offset, -1 when the drive is full. *)
Definition emplace_dirent (buf ent : list Z) (entry_offset cluster : Z) f : res (fat32 D * list Z * Z * Z) :=
  buf ← wr_bytes buf (32 * entry_offset) ent;
  let entry_offset := entry_offset + 1 in
  if entry_offset =? entries_per_cluster f then
    f ← part_write (cluster_begin cluster f) buf (cluster_size f) f;
    '(f, cluster) ← read_or_allocateFAT cluster f;
    if cluster =? 0 then Ok (f, buf, cluster, -1)
    else Ok (f, replicate (Z.to_nat (entries_per_cluster f * 32)) 0, cluster, 0)
  else Ok (f, buf, cluster, entry_offset).

Definition lfn_entry (order : Z) (chars : list Z) : list Z :=
  [order] ++ concat (le_enc 2 <$> slice chars 0 5) ++ [FAT32_LFN; 0; 0x81] ++ concat (le_enc 2 <$> slice chars 5 6) ++ [0; 0] ++ concat (le_enc 2 <$> slice chars 11 2).

(** The name [ISSOU] and spaces; no cluster, no size. *)
Definition sfn_entry (attr : Z) : list Z := [73; 83; 83; 79; 85; 32; 32; 32; 32; 32; 32] ++ [attr] ++ replicate 20 0.

(** [for(int i = n_entries-1; i >= 0; i--)]: [chars] is what [name_ptr] points to. *)
Fixpoint lfn_loop (i : nat) (n_entries : Z) (chars buf : list Z) (off cluster : Z) f : res (fat32 D * list Z * Z * Z) :=
  match i with
  | O => Ok (f, buf, cluster, off)
  | S i' =>
      let order := u8 (Z.of_nat i) in
      let order := if order =? n_entries then Z.lor order 0x40 else order in
      '(f, buf, cluster, off) ← emplace_dirent buf (lfn_entry order (slice chars 0 13)) off cluster f;
      assert_ (negb (off =? -1)) "entry_cluster_offset != (unsigned int)-1" ;;
      lfn_loop i' n_entries (drop 13 chars) buf off cluster f
  end.

(** The entries of a new file, from the end of the directory on. *)
Definition add_entries (file_name : list Z) (type : Z) (buf : list Z) (off cluster : Z) f : res (fat32 D * list Z * Z * Z) :=
  attr ← fs_type2fat_attr type;
  let n_entries := u32 (u64 (zlen file_name + 13 - 1) / 13) in
  chars ← ascii2utf16le file_name (replicate (Z.to_nat (n_entries * 13)) 0xffff) 0;
  '(f, buf, cluster, off) ← lfn_loop (Z.to_nat n_entries) n_entries chars buf off cluster f;
  '(f, buf, cluster, off) ← emplace_dirent buf (sfn_entry attr) off cluster f;
  assert_ (negb (off =? -1)) "entry_cluster_offset != (unsigned int)-1" ;;
  Ok (f, buf, cluster, off).

Variable entry0 : list Z.

(** [*file_cluster] is 0; the result is 0. *)
Definition fat32_add_dirent (dir_cluster : Z) (file_name : list Z) (type : Z) f : res (fat32 D * Z) :=
  '(f, buf, cluster, off) ← find_end (chain_fuel f) (u32 dir_cluster) false entry0 f;
  '(f, buf, cluster, off) ← add_entries file_name type buf off cluster f;
  f ← (if negb (off =? 0) then part_write (cluster_begin cluster f) buf (cluster_size f) f else Ok f);
  Ok (f, 0).

(** The loop of [fat32_update_dirent] over the entries of a cluster: the offset of the entry. *)
Fixpoint match_loop (n : nat) (i : Z) (buf file_name : list Z) (long_entry : bool) (name : list Z) : res (option Z * bool * list Z) :=
  match n with
  | O => Ok (None, long_entry, name)
  | S n' =>
      e ← rd_bytes buf (32 * i) 32;
      '(v, long_entry, name) ← parse_dir_entry e long_entry name;
      match v with
      | ParsedEnd => panic "v != 1"
      | ParsedNone => match_loop n' (i + 1) buf file_name long_entry name
      | ParsedEntry d =>
          same ← str_eq name file_name;
          if (same : bool) then assert_ (dirent_type (d_fast d) =? DT_REG) "entry.type == DT_REG" ;; Ok (Some i, long_entry, name)
          else match_loop n' (i + 1) buf file_name long_entry name
      end
  end.

Definition update_entry (buf : list Z) (i file_cluster file_size : Z) : res (list Z) :=
  buf ← wr_bytes buf (32 * i + 28) (le_enc 4 file_size);
  buf ← wr_bytes buf (32 * i + 20) (le_enc 2 (Z.shiftr file_cluster 16));
  wr_bytes buf (32 * i + 26) (le_enc 2 (Z.land file_cluster 0xffff)).

Fixpoint update_loop (fuel : nat) (cluster : Z) (file_name : list Z) (file_cluster file_size : Z) (long_entry : bool) (name : list Z) f : res (fat32 D * Z) :=
  match fuel with
  | O => Err NoFuel
  | S fuel' =>
      let lba := cluster_begin cluster f in
      '(f, buf) ← part_read lba (cluster_size f) f;
      '(v, long_entry, name) ← match_loop (Z.to_nat (entries_per_cluster f)) 0 buf file_name long_entry name;
      match v with
      | Some i =>
          buf ← update_entry buf i file_cluster file_size;
          f ← part_write lba buf (cluster_size f) f;
          Ok (f, 0)
      | None =>
          '(f, cluster) ← readFAT cluster f;
          assert_ (negb (cluster =? 0)) "0" ;;
          update_loop fuel' cluster file_name file_cluster file_size long_entry name f
      end
  end.
Definition fat32_update_dirent (dir_cluster : Z) (file_name : list Z) (file_cluster file_size : Z) f : res (fat32 D * Z) :=
  update_loop (chain_fuel f) (u32 dir_cluster) file_name file_cluster file_size false entry0 f.

End Parse.
