(* ===== verification/Fat32DirsProofs.v ===== *)
(** * FAT32 directories: what is added is listed

    Entries and their names, the loops over the entries of a cluster as folds over a list,
    and the walk over the clusters of a directory. *)

From S2P Require Import Prelude Bytes Interfaces FileSystems Fat32 Fat32Proofs Fat32Chain Fat32Read Fat32Write CString Paths VfsFiles VfsDirs Fat32Dirs.




(** ** UTF-16 *)

Definition ascii_char (c : Z) : Prop := 1 <= c <= 127.

Lemma ascii_low c : ascii_char c -> Z.land c 0xff = c /\ (127 <? c) = false /\ (c =? 0) = false.
Proof.
  unfold ascii_char. intros Hc. change 0xff with (Z.ones 8). rewrite Z.land_ones, Z.mod_small by lia. split; [done|]. split; lia.
Qed.

Lemma insert_blit {A} (l : list A) i x : 0 <= i < zlen l -> <[Z.to_nat i := x]> l = blit l i [x].
Proof.
  intros Hi. unfold blit. cbn [length]. rewrite Nat.add_1_r. cbn. symmetry. rewrite <- (insert_take_drop l (Z.to_nat i) x); [done|]. unfold zlen in Hi. lia.
Qed.

Lemma blit_blit {A} (l : list A) p a b : 0 <= p -> p + zlen a + zlen b <= zlen l -> blit (blit l p a) (p + zlen a) b = blit l p (a ++ b).
Proof.
  intros Hp Hl. unfold blit, zlen in *. rewrite (length_app a b), (Z2Nat.inj_add p), Nat2Z.id by lia.
  set (T := take (Z.to_nat p) l). set (R := drop (Z.to_nat p + length a) l). assert (length (T ++ a) = (Z.to_nat p + length a)%nat) as Et by (unfold T; rewrite length_app, length_take; lia).
  rewrite (app_assoc T a R). rewrite take_app_length' by lia. rewrite drop_app_ge by lia. rewrite Et. unfold R. rewrite drop_drop, <- !app_assoc. do 3 f_equal. f_equal. lia.
Qed.

(** The characters of [t] are copied. *)
Lemma utf_run t : forall n w a i, Forall ascii_char t -> 0 <= i -> (forall k c, t !! k = Some c -> w !! (Z.to_nat i + k)%nat = Some c) -> (length t <= n)%nat -> i + zlen t <= zlen a ->
  utf16le2ascii n w a i = utf16le2ascii (n - length t) w (blit a i t) (i + zlen t).
Proof.
  induction t as [|c t IH]; intros n w a i Ht Hi Hw Hn Ha.
  - replace (i + zlen []) with i by (unfold zlen; cbn; lia). cbn [length]. rewrite Nat.sub_0_r. f_equal. unfold blit. cbn. by rewrite Nat.add_0_r, take_drop.
  - apply list.Forall_cons in Ht as [Hc Ht]. destruct n as [|n]; [cbn in Hn; lia|]. cbn [utf16le2ascii]. destruct (ascii_low c Hc) as (E1 & E2 & E3).
    unfold zlen in Ha. cbn [length] in Ha. rewrite (ld_Some w i c) by (done || (rewrite <- (Nat.add_0_r (Z.to_nat i)); by apply Hw)). cbn [mbind res_bind]. rewrite E1, E2.
    rewrite st_ok by (unfold zlen; lia). cbn [mbind res_bind]. rewrite E3, insert_blit by (unfold zlen; lia). cbn [length]. rewrite Nat.sub_succ.
    rewrite IH; try done; [|lia|intros k x Hk; replace (Z.to_nat (i + 1) + k)%nat with (Z.to_nat i + S k)%nat by lia; by apply Hw|cbn in Hn; lia|rewrite zlen_blit by (unfold zlen; cbn; lia); unfold zlen; lia].
    f_equal; [|unfold zlen; cbn; lia]. change (i + 1) with (i + zlen [c]). rewrite blit_blit by (unfold zlen in *; cbn; lia). done.
Qed.

(** A full part of a name, and its last part. *)
Lemma utf_full w a t : Forall ascii_char t -> length t = 13%nat -> zlen a = 13 -> t `prefix_of` w -> utf16le2ascii 13 w a 0 = Ok t.
Proof.
  intros Ht Hl Ha [w' ->]. rewrite (utf_run t); try done; [|intros k c Hk; cbn; by apply lookup_app_l_Some|lia|unfold zlen in *; lia]. rewrite Hl. cbn [Nat.sub utf16le2ascii].
  rewrite blit_0_all by (unfold zlen in *; lia). done.
Qed.

Lemma utf_last w a t rest : Forall ascii_char t -> (length t < 12)%nat -> zlen a = 13 -> w = t ++ 0 :: rest -> exists r, utf16le2ascii 13 w a 0 = Ok (t ++ 0 :: r) /\ zlen (t ++ 0 :: r) = 13.
Proof.
  intros Ht Hl Ha ->. rewrite (utf_run t); try done; [|intros k c Hk; cbn; by apply lookup_app_l_Some|lia|unfold zlen in *; lia].
  destruct (13 - length t)%nat as [|m] eqn:Em; [lia|]. cbn [utf16le2ascii]. assert (0 <= zlen t < 12) as Hz by (unfold zlen; lia).
  assert (zlen (blit a 0 t) = 13) as Hb by (rewrite zlen_blit; lia).
  rewrite (ld_Some _ _ 0) by (lia || (unfold zlen; rewrite Z.add_0_l, Nat2Z.id, lookup_app_r, Nat.sub_diag by lia; done)). cbn [mbind res_bind]. change (Z.land 0 0xff) with 0. cbn [Z.ltb Z.compare].
  rewrite st_ok by lia. cbn [mbind res_bind Z.eqb]. rewrite insert_blit by lia. assert (zlen [0] = 1) as H1 by done.
  rewrite st_ok by (rewrite zlen_blit; lia). rewrite insert_blit by (rewrite zlen_blit; lia). rewrite (blit_blit a 0 t [0]) by lia.
  replace (0 + zlen t + 1) with (0 + zlen (t ++ [0])) by (rewrite zlen_app; lia). rewrite (blit_blit a 0 (t ++ [0]) [0]) by (rewrite ?zlen_app; lia).
  exists (0 :: drop (length t + 2) a). assert (blit a 0 ((t ++ [0]) ++ [0]) = t ++ 0 :: 0 :: drop (length t + 2) a) as Eb.
  { unfold blit. rewrite <- (app_assoc t). change ([0] ++ [0]) with [0; 0]. rewrite length_app, <- app_assoc. done. }
  rewrite Eb. split; [done|]. rewrite <- Eb. rewrite zlen_blit; [done|lia|]. rewrite !zlen_app. unfold zlen in *. cbn. lia.
Qed.

(** ** Entries *)

Lemma le_word x : 0 <= x < 65536 -> le_bytes [x mod 256; x / 256 mod 256] = x.
Proof. intros Hx. exact (le_bytes_enc 2 x Hx). Qed.

Lemma lfn_entry_fields order chars : length chars = 13%nat -> Forall (fun w => 0 <= w < 65536) chars ->
  zlen (lfn_entry order chars) = 32 /\ nthZ (lfn_entry order chars) 0 = order /\ nthZ (lfn_entry order chars) 1 = nthZ chars 0 mod 256 /\
  entry_attr (lfn_entry order chars) = FAT32_LFN /\ long_chars (lfn_entry order chars) = chars ++ [0].
Proof.
  intros Hl Hw. do 13 (destruct chars as [|? chars]; [done|]). destruct chars; [|done]. repeat (apply list.Forall_cons in Hw as [? Hw]).
  repeat (split; [done|]). cbv -[le_bytes Z.modulo Z.div]. by rewrite !le_word.
Qed.

(** Entries that the parser accepts whatever was in its buffer before. *)
Record entry_ok (e : list Z) : Prop := {
  eo_used : nthZ e 0 <> 0;
  eo_long : entry_attr e = FAT32_LFN -> nthZ e 1 = 0xE5 \/ 1 <= Z.land (nthZ e 0) 0x0f /\ forall longname0, zlen longname0 = 13 -> exists l, utf16le2ascii 13 (long_chars e) longname0 0 = Ok l /\ zlen l = 13;
  eo_short : entry_attr e <> FAT32_LFN -> nthZ e 1 = 0xE5 \/ (0 ∉ slice e 0 8 /\ nthZ e 0 <> SPACE /\ zlen e = 32) }.

Lemma before_zero_app l r : 0 ∉ l -> before_zero (l ++ 0 :: r) = l.
Proof.
  induction l as [|c l IH]; intros Hn; [done|]. apply not_elem_of_cons in Hn as [Hc Hn]. cbn. rewrite (proj2 (Z.eqb_neq c 0)) by lia. by rewrite IH.
Qed.

Lemma before_zero_id l : 0 ∉ l -> before_zero l = l.
Proof.
  induction l as [|c l IH]; intros Hn; [done|]. apply not_elem_of_cons in Hn as [Hc Hn]. cbn. rewrite (proj2 (Z.eqb_neq c 0)) by lia. by rewrite IH.
Qed.

Lemma before_zero_len l : zlen (before_zero l) <= zlen l.
Proof. unfold zlen. induction l as [|c l IH]; [done|]. cbn. destruct (c =? 0); cbn; lia. Qed.

Lemma skip_back_ok n name : forall ptr, 0 <= ptr < zlen name -> ptr < Z.of_nat n -> nthZ name 0 <> SPACE -> exists p, skip_back n name ptr = Ok p /\ 0 <= p <= ptr.
Proof.
  induction n as [|n IH]; intros ptr Hp Hn H0; [lia|]. cbn. rewrite ld_ok by lia. cbn [mbind res_bind]. destruct (Z.eqb_spec (nthZ name ptr) SPACE) as [E|E].
  - destruct (Z.eq_dec ptr 0) as [->|]; [done|]. destruct (IH (ptr - 1)) as (p & -> & Hp'); [lia..|done|]. exists p. split; [done|lia].
  - exists ptr. split; [done|lia].
Qed.

Lemma nthZ_insert_0 l i x : 0 < i -> nthZ (<[Z.to_nat i := x]> l) 0 = nthZ l 0.
Proof. intros Hi. unfold nthZ. by rewrite list_lookup_insert_ne by lia. Qed.

Lemma nthZ_blit_0 l off d : 0 < off -> off <= zlen l -> nthZ (blit l off d) 0 = nthZ l 0.
Proof. intros H1 H2. unfold nthZ, blit. f_equal. unfold zlen in H2. rewrite lookup_app_l by (rewrite length_take; lia). apply lookup_take_lt. lia. Qed.

Lemma trim_back_ok n : forall name ptr, 0 <= ptr < zlen name -> ptr < Z.of_nat n -> nthZ name 0 <> SPACE -> exists name', trim_back n name ptr = Ok name' /\ zlen name' = zlen name.
Proof.
  induction n as [|n IH]; intros name ptr Hp Hn H0; [lia|]. cbn. rewrite ld_ok by lia. cbn [mbind res_bind]. destruct (Z.eqb_spec (nthZ name ptr) SPACE) as [E|E]; [|by exists name].
  destruct (Z.eq_dec ptr 0) as [->|]; [done|]. rewrite st_ok by lia. cbn [mbind res_bind]. assert (zlen (<[Z.to_nat ptr := 0]> name) = zlen name) as El by (unfold zlen; by rewrite length_insert).
  destruct (IH (<[Z.to_nat ptr := 0]> name) (ptr - 1)) as (name' & -> & Hl); [rewrite El; lia|lia|rewrite nthZ_insert_0 by lia; done|]. exists name'. split; [done|]. by rewrite Hl.
Qed.

Lemma short_name_ok e name : 0 ∉ slice e 0 8 -> nthZ e 0 <> SPACE -> zlen e = 32 -> zlen name = 256 -> exists name', short_name e name = Ok name' /\ zlen name' = 256.
Proof.
  intros Hz Hs He Hn. assert (zlen (slice e 0 8) = 8) as Hl by (apply zlen_slice; lia). assert (zlen [0] = 1) as H1 by done.
  unfold short_name, strncpy_at. rewrite (before_zero_id _ Hz). rewrite wr_bytes_ok by (rewrite ?zlen_app; lia). cbn [mbind res_bind].
  set (name1 := blit name 0 (slice e 0 8 ++ [0])). assert (zlen name1 = 256) as Hn1 by (unfold name1; rewrite zlen_blit; rewrite ?zlen_app; lia).
  assert (nthZ name1 0 <> SPACE) as H0 by (unfold name1, blit, slice; cbn; destruct e; done).
  destruct (skip_back_ok 9 name1 7) as (p & -> & Hp); [lia|lia|done|].
  cbn [mbind res_bind]. destruct (negb (nthZ e 8 =? SPACE)); [|eexists; rewrite st_ok by lia; split; [done|]; unfold zlen in *; by rewrite length_insert].
  rewrite st_ok by lia. cbn [mbind res_bind]. set (name2 := <[Z.to_nat (p + 1) := DOT]> name1). assert (zlen name2 = 256) as Hn2 by (unfold name2, zlen in *; by rewrite length_insert).
  pose proof (before_zero_len (slice e 8 3)) as Hb. rewrite zlen_slice in Hb by lia. rewrite wr_bytes_ok by (rewrite ?zlen_app; lia). cbn [mbind res_bind].
  set (name3 := blit name2 (p + 2) _). assert (zlen name3 = 256) as Hn3 by (unfold name3; rewrite zlen_blit; rewrite ?zlen_app; lia).
  destruct (trim_back_ok 257 name3 (p + 5)) as (name' & -> & Hl'); [lia|lia| |exists name'; split; [done|lia]].
  unfold name3. rewrite nthZ_blit_0 by lia. unfold name2. by rewrite nthZ_insert_0 by lia.
Qed.

Lemma str_eq_ok s : forall buf, zlen s < zlen buf -> exists b, str_eq buf s = Ok b.
Proof.
  induction s as [|d s IH]; intros [|c buf] Hl; unfold zlen in *; cbn in *; [lia|by eexists|lia|]. destruct (c =? d); [|by eexists]. apply IH. lia.
Qed.

Lemma str_eq_before buf s : 0 ∉ s -> str_eq buf s = Ok true -> before_zero buf = s.
Proof.
  revert buf. induction s as [|d s IH]; intros [|c buf] Hs; cbn; [done|by destruct (c =? 0)|done|]. apply not_elem_of_cons in Hs as [Hd Hs].
  destruct (Z.eqb_spec c d) as [->|]; [|done]. intros H. rewrite (proj2 (Z.eqb_neq d 0)) by lia. by rewrite (IH buf).
Qed.

Section Entries.
Variables longname0 : list Z.
Hypothesis longname_len : zlen longname0 = 13.
Notation parse_dir_entry := (parse_dir_entry longname0).

(** The parser accepts such entries; the buffer keeps its size. *)
Lemma parse_ok e long name : entry_ok e -> zlen name = 256 -> exists v long' name', parse_dir_entry e long name = Ok (v, long', name') /\ v <> ParsedEnd /\ zlen name' = 256.
Proof.
  intros [Hu Hl Hs] Hn. unfold Fat32Dirs.parse_dir_entry. rewrite (proj2 (Z.eqb_neq _ _) Hu). destruct (Z.eqb_spec (nthZ e 1) 0xE5) as [E|E]; [by exists ParsedNone, long, name|].
  destruct (Z.eqb_spec (entry_attr e) FAT32_LFN) as [Ea|Ea].
  - destruct (Hl Ea) as [?|[Ho Hutf]]; [done|]. destruct (Hutf longname0 longname_len) as (l & El & Hll). unfold handle_long_filename_entry. rewrite El. cbn [mbind res_bind].
    assert (0 <= Z.land (nthZ e 0) 15 < 16) as Hb by (change 15 with (Z.ones 4); rewrite Z.land_ones by lia; lia).
    rewrite wr_bytes_ok by lia. cbn [mbind res_bind]. eexists ParsedNone, true, _. split; [done|]. split; [done|]. rewrite zlen_blit; lia.
  - destruct (Hs Ea) as [?|(Hz & Hsp & He)]; [done|].
    assert (exists name', (if negb long then short_name e name else st name 255 0) = Ok name' /\ zlen name' = 256) as (name' & -> & Hn').
    { destruct long; cbn [negb]; [|by apply short_name_ok]. rewrite st_ok by lia. eexists. split; [done|]. unfold zlen in *. by rewrite length_insert. }
    cbn [mbind res_bind]. destruct (str_eq_ok [DOT] name') as (b1 & ->); [unfold zlen in *; cbn; lia|]. cbn [mbind res_bind].
    destruct (str_eq_ok [DOT; DOT] name') as (b2 & E2); [unfold zlen in *; cbn; lia|]. destruct b1; cbn [mbind res_bind]; [by exists ParsedNone, long, name'|]. rewrite E2. cbn [mbind res_bind].
    destruct b2; [by exists ParsedNone, long, name'|]. by eexists (ParsedEntry _), false, name'.
Qed.

(** ** The entries of a cluster as a list *)

Fixpoint parse_list (es : list (list Z)) (long : bool) (name : list Z) (out : list dirent) : res (bool * bool * list Z * list dirent) :=
  match es with
  | [] => Ok (false, long, name, out)
  | e :: es =>
      '(v, long, name) ← parse_dir_entry e long name;
      match v with
      | ParsedEnd => Ok (true, long, name, out)
      | ParsedNone => parse_list es long name out
      | ParsedEntry d => parse_list es long no_name (out ++ [d])
      end
  end.

Definition entry_at (buf : list Z) (i : Z) : list Z := slice buf (32 * i) 32.

Lemma parse_loop_list n buf : forall i long name out, 0 <= i -> 32 * (i + Z.of_nat n) <= zlen buf ->
  parse_loop longname0 n i buf long name out = ('(fin, long, _, out) ← parse_list (entry_at buf <$> seqZ i (Z.of_nat n)) long name out; Ok (fin, long, out)).
Proof.
  induction n as [|n IH]; intros i long name out Hi Hl; [done|]. rewrite seqZ_cons by lia. rewrite fmap_cons. cbn [parse_loop parse_list]. rewrite rd_bytes_ok by lia. cbn [mbind res_bind].
  fold (entry_at buf i). destruct (parse_dir_entry (entry_at buf i) long name) as [[[v long'] name']|]; [|done]. cbn [mbind res_bind].
  replace (Z.pred (Z.of_nat (S n))) with (Z.of_nat n) by lia. destruct v; [done|rewrite IH by lia; done..].
Qed.

Lemma parse_list_app a b long name out : parse_list (a ++ b) long name out = ('(fin, long, name, out) ← parse_list a long name out; if (fin : bool) then Ok (fin, long, name, out) else parse_list b long name out).
Proof.
  revert long name out. induction a as [|e a IH]; intros long name out; [done|]. cbn. destruct (parse_dir_entry e long name) as [[[v long'] name']|]; [|done]. cbn. destruct v; [done|apply IH..].
Qed.

Lemma parse_list_ok a : forall long name out, Forall entry_ok a -> zlen name = 256 -> exists long' name' out', parse_list a long name out = Ok (false, long', name', out') /\ zlen name' = 256.
Proof.
  induction a as [|e a IH]; intros long name out Ha Hn; [by exists long, name, out|]. apply list.Forall_cons in Ha as [He Ha]. cbn.
  destruct (parse_ok e long name He Hn) as (v & long' & name' & -> & Hv & Hn'). cbn. destruct v; [done|by apply IH..].
Qed.

Lemma end_loop_none n buf : forall i long name, 0 <= i -> 32 * (i + Z.of_nat n) <= zlen buf -> Forall entry_ok (entry_at buf <$> seqZ i (Z.of_nat n)) -> zlen name = 256 ->
  exists long' name', end_loop longname0 n i buf long name = Ok (None, long', name') /\ zlen name' = 256.
Proof.
  induction n as [|n IH]; intros i long name Hi Hl Ha Hn; [by exists long, name|]. rewrite seqZ_cons in Ha by lia. rewrite fmap_cons in Ha. apply list.Forall_cons in Ha as [He Ha].
  cbn [end_loop]. rewrite rd_bytes_ok by lia. cbn [mbind res_bind]. fold (entry_at buf i). destruct (parse_ok _ long name He Hn) as (v & long' & name' & -> & Hv & Hn'). cbn [mbind res_bind].
  replace (Z.pred (Z.of_nat (S n))) with (Z.of_nat n) in Ha by lia. destruct v; [done|apply IH; try done; lia..].
Qed.

Lemma end_loop_found k buf : forall n i long name, 0 <= i -> 32 * (i + Z.of_nat n) <= zlen buf -> (k < n)%nat -> Forall entry_ok (entry_at buf <$> seqZ i (Z.of_nat k)) ->
  nthZ (entry_at buf (i + Z.of_nat k)) 0 = 0 -> zlen name = 256 -> exists long' name', end_loop longname0 n i buf long name = Ok (Some (i + Z.of_nat k), long', name').
Proof.
  induction k as [|k IH]; intros n i long name Hi Hl Hk Ha He Hn; (destruct n as [|n]; [lia|]); cbn [end_loop]; rewrite rd_bytes_ok by lia; cbn [mbind res_bind]; fold (entry_at buf i).
  - rewrite Z.add_0_r in *. unfold Fat32Dirs.parse_dir_entry. rewrite He. by eexists _, _.
  - rewrite seqZ_cons in Ha by lia. rewrite fmap_cons in Ha. apply list.Forall_cons in Ha as [Hei Ha]. destruct (parse_ok _ long name Hei Hn) as (v & long' & name' & -> & Hv & Hn'). cbn [mbind res_bind].
    replace (Z.pred (Z.of_nat (S k))) with (Z.of_nat k) in Ha by lia. destruct (IH n (i + 1) long' name') as (l2 & n2 & E); [lia|lia|lia|done|by replace (i + 1 + Z.of_nat k) with (i + Z.of_nat (S k)) by lia|done|].
    replace (i + Z.of_nat (S k)) with (i + 1 + Z.of_nat k) by lia. exists l2, n2. destruct v; [done|exact E..].
Qed.

(** ** The entries of a new file *)

Fixpoint lfn_entries (i : nat) (n : Z) (chars : list Z) : list (list Z) :=
  match i with
  | O => []
  | S i' =>
      let order := u8 (Z.of_nat i) in
      let order := if order =? n then Z.lor order 0x40 else order in
      lfn_entry order (slice chars 0 13) :: lfn_entries i' n (drop 13 chars)
  end.

Lemma order_low i n : (i < 16)%nat -> Z.land (if u8 (Z.of_nat i) =? n then Z.lor (u8 (Z.of_nat i)) 0x40 else u8 (Z.of_nat i)) 0x0f = Z.of_nat i.
Proof. intros Hi. do 16 (destruct i as [|i]; [by case_match|]). lia. Qed.

Lemma parse_lfn order chars name long l : length chars = 13%nat -> Forall (fun w => 0 <= w < 65536) chars -> nthZ chars 0 mod 256 <> 0xE5 -> order <> 0 -> 1 <= Z.land order 0x0f ->
  utf16le2ascii 13 (chars ++ [0]) longname0 0 = Ok l -> zlen l = 13 -> zlen name = 256 ->
  parse_dir_entry (lfn_entry order chars) long name = Ok (ParsedNone, true, blit name (13 * (Z.land order 0x0f - 1)) l).
Proof.
  intros Hl Hw H5 Ho Ho1 Hu Hll Hn. destruct (lfn_entry_fields order chars Hl Hw) as (_ & E0 & E1 & Ea & Ec). unfold Fat32Dirs.parse_dir_entry, handle_long_filename_entry.
  rewrite E0, E1, Ea, Ec, Hu. rewrite (proj2 (Z.eqb_neq _ _) Ho), (proj2 (Z.eqb_neq _ _) H5). cbn [mbind res_bind]. rewrite Z.eqb_refl.
  assert (0 <= Z.land order 15 < 16) as Hb by (change 15 with (Z.ones 4); rewrite Z.land_ones by lia; lia). by rewrite wr_bytes_ok by lia.
Qed.

Lemma ascii_words t pad : Forall ascii_char t -> Forall (fun w => 0 <= w < 65536) pad -> Forall (fun w => 0 <= w < 65536) (t ++ 0 :: pad).
Proof.
  intros Ht Hp. apply list.Forall_app. split; [eapply list.Forall_impl; [exact Ht|]; unfold ascii_char; intros; lia|]. constructor; [lia|done].
Qed.

Lemma ascii_not_e5 c : ascii_char c \/ c = 0 -> c mod 256 <> 0xE5.
Proof. unfold ascii_char. intros H. rewrite Z.mod_small by lia. lia. Qed.

(** The parts of a name are written in the order of the name, with descending numbers: the last
    part is read to the front of the buffer. *)
Lemma parse_lfns i : forall n t pad long name out, (1 <= i <= 15)%nat -> Forall ascii_char t -> Forall (fun w => 0 <= w < 65536) pad ->
  length (t ++ 0 :: pad) = (13 * i)%nat -> (13 * (i - 1) <= length t < 13 * i - 1)%nat -> zlen name = 256 ->
  exists r, parse_list (lfn_entries i n (t ++ 0 :: pad)) long name out = Ok (false, true, drop (13 * (i - 1)) t ++ 0 :: r, out) /\ zlen (drop (13 * (i - 1)) t ++ 0 :: r) = 256.
Proof.
  induction i as [|i IH]; intros n t pad long name out Hi Ht Hp Hlen Htl Hn; [lia|]. cbn [lfn_entries]. set (chars := t ++ 0 :: pad) in *.
  assert (Forall (fun w => 0 <= w < 65536) chars) as Hw by (by apply ascii_words).
  assert (slice chars 0 13 = take 13 chars) as E13 by done. rewrite E13. assert (length (take 13 chars) = 13%nat) as Hc by (rewrite length_take; lia). set (order := if u8 (Z.of_nat (S i)) =? n then _ else _).
  assert (Z.land order 0x0f = Z.of_nat (S i)) as Ho by (apply order_low; lia). assert (order <> 0) as Ho0 by (intros E; rewrite E, Z.land_0_l in Ho; lia).
  assert (nthZ (take 13 chars) 0 mod 256 <> 0xE5) as H5.
  { apply ascii_not_e5. unfold chars. destruct t as [|c t']; [by right|left]. by apply list.Forall_cons in Ht as [? _]. }
  assert (Forall (fun w => 0 <= w < 65536) (take 13 chars)) as Hws by (by apply Forall_take). cbn [parse_list].
  destruct (decide (i = 0%nat)) as [->|Hi0].
  - assert (take 13 chars = chars) as Ec by (apply take_ge; lia). destruct (utf_last (chars ++ [0]) longname0 t (pad ++ [0])) as (r & Eu & Hr);
      [done|lia|done|unfold chars; by rewrite <- app_assoc|]. rewrite Ec in *. rewrite (parse_lfn _ _ _ _ _ Hc Hws H5 Ho0 ltac:(lia) Eu Hr Hn). cbn [mbind res_bind lfn_entries parse_list].
    rewrite Ho. change (13 * (Z.of_nat 1 - 1)) with 0. change (13 * (1 - 1))%nat with 0%nat. rewrite drop_0. exists (r ++ drop 13 name). assert (length (t ++ 0 :: r) = 13%nat) as Hr' by (unfold zlen in Hr; lia). unfold blit. rewrite Hr'. split.
    + by rewrite <- app_assoc.
    + unfold zlen in Hn |- *. rewrite length_app in Hr' |- *. cbn [length] in Hr' |- *. rewrite length_app, length_drop. lia.
  - assert (take 13 t `prefix_of` take 13 chars ++ [0]) as Hpre by (unfold chars; rewrite take_app_le by lia; by exists [0]).
    assert (length (take 13 t) = 13%nat) as Ht13 by (rewrite length_take; lia).
    rewrite (parse_lfn _ _ _ _ (take 13 t) Hc Hws H5 Ho0 ltac:(lia) (utf_full _ _ _ (Forall_take _ _ _ Ht) Ht13 longname_len Hpre) ltac:(unfold zlen; lia) Hn). cbn [mbind res_bind].
    assert (drop 13 chars = drop 13 t ++ 0 :: pad) as -> by (unfold chars; by rewrite drop_app_le by lia).
    destruct (IH n (drop 13 t) pad true (blit name (13 * (Z.land order 0x0f - 1)) (take 13 t)) out) as (r & E & Hr); [lia|by apply Forall_drop|done|unfold chars in Hlen; rewrite length_app in *; rewrite length_drop; lia|rewrite length_drop; lia|rewrite zlen_blit; unfold zlen in *; lia|].
    rewrite drop_drop in E, Hr. replace (13 + 13 * (i - 1))%nat with (13 * (S i - 1))%nat in E, Hr by lia. by exists r.
Qed.

Lemma sfn_fields attr : nthZ (sfn_entry attr) 0 = 73 /\ nthZ (sfn_entry attr) 1 = 83 /\ entry_attr (sfn_entry attr) = attr /\ zlen (sfn_entry attr) = 32 /\
  word (sfn_entry attr) 26 = 0 /\ word (sfn_entry attr) 20 = 0 /\ le_bytes (slice (sfn_entry attr) 28 4) = 0.
Proof. done. Qed.

Definition new_dirent (name : list Z) (type : Z) : dirent := DirEnt name (Dirent 0 0 type true true true true true).

Lemma parse_sfn attr type t r : fs_type2fat_attr type = Ok attr -> 0 ∉ t -> (length t < 255)%nat -> t <> [DOT] -> t <> [DOT; DOT] -> zlen (t ++ 0 :: r) = 256 ->
  exists name', parse_dir_entry (sfn_entry attr) true (t ++ 0 :: r) = Ok (ParsedEntry (new_dirent t type), false, name').
Proof.
  intros Ha H0 Ht H1 H2 Hl. destruct (sfn_fields attr) as (E0 & E1 & Ea & _ & W1 & W2 & W3). unfold Fat32Dirs.parse_dir_entry. rewrite E0, E1, Ea. cbn [Z.eqb Pos.eqb negb].
  assert (attr = FAT32_DIRECTORY /\ type = DT_DIR \/ attr = 0 /\ type = DT_REG) as Hat.
  { unfold fs_type2fat_attr in Ha. destruct (Z.eqb_spec type DT_DIR); [left; by injection Ha|]. destruct (Z.eqb_spec type DT_REG); [right; by injection Ha|done]. }
  rewrite (proj2 (Z.eqb_neq attr FAT32_LFN)) by (destruct Hat as [[-> _]|[-> _]]; done). rewrite st_ok by lia. cbn [mbind res_bind]. set (name' := <[_ := 0]> _).
  assert (before_zero name' = t) as Eb.
  { unfold name'. rewrite insert_app_r_alt by lia. destruct (Z.to_nat 255 - length t)%nat as [|k] eqn:Ek; [lia|]. cbn. by apply before_zero_app. }
  assert (zlen name' = 256) as Hn' by (unfold name', zlen in *; by rewrite length_insert).
  destruct (str_eq_ok [DOT] name') as ([|] & D1); [unfold zlen in *; cbn; lia|exfalso; apply H1; rewrite <- Eb; apply str_eq_before; [set_solver|done]|].
  destruct (str_eq_ok [DOT; DOT] name') as ([|] & D2); [unfold zlen in *; cbn; lia|exfalso; apply H2; rewrite <- Eb; apply str_eq_before; [set_solver|done]|].
  rewrite D1. cbn [mbind res_bind]. rewrite D2. cbn [mbind res_bind]. exists name'. do 3 f_equal. unfold entry_dirent, new_dirent. rewrite Eb, W1, W2, W3, Ea.
  f_equal. f_equal. unfold fat_attr2fs_type. by destruct Hat as [[-> ->]|[-> ->]].
Qed.

Lemma parse_new n t type attr long name out rest : (1 <= n <= 15)%nat -> Forall ascii_char t -> (13 * (n - 1) <= length t < 13 * n - 1)%nat -> fs_type2fat_attr type = Ok attr ->
  drop (13 * (n - 1)) t <> [DOT] -> drop (13 * (n - 1)) t <> [DOT; DOT] -> zlen name = 256 ->
  parse_list (lfn_entries n (Z.of_nat n) (t ++ 0 :: replicate (13 * n - length t - 1) 0xffff) ++ sfn_entry attr :: rest) long name out =
  parse_list rest false no_name (out ++ [new_dirent (drop (13 * (n - 1)) t) type]).
Proof.
  intros Hn Ht Hl Ha H1 H2 Hnm. rewrite parse_list_app. destruct (parse_lfns n (Z.of_nat n) t (replicate (13 * n - length t - 1) 0xffff) long name out Hn Ht) as (r & E & Hr); try done.
  { apply Forall_replicate. lia. }
  { rewrite length_app. cbn [length]. rewrite length_replicate. lia. }
  rewrite E. cbn [mbind res_bind parse_list]. assert (0 ∉ drop (13 * (n - 1)) t) as H0.
  { intros Hin. pose proof (Forall_drop _ (13 * (n - 1)) _ Ht) as Hd. rewrite list.Forall_forall in Hd. specialize (Hd _ Hin). unfold ascii_char in Hd. lia. }
  destruct (parse_sfn attr type (drop (13 * (n - 1)) t) r Ha H0 ltac:(rewrite length_drop; lia) H1 H2 Hr) as (name' & ->). done.
Qed.
End Entries.

(** ** Writing the entries of a new file *)

Lemma utf16_ok t : forall buf i, 0 <= i -> i + zlen t + 1 <= zlen buf -> ascii2utf16le t buf i = Ok (blit buf i (t ++ [0])).
Proof.
  induction t as [|c t IH]; intros buf i Hi Hl; cbn [ascii2utf16le app].
  - rewrite st_ok by (unfold zlen in *; cbn in *; lia). by rewrite insert_blit by (unfold zlen in *; cbn in *; lia).
  - assert (zlen (c :: t) = 1 + zlen t) as Ec by (unfold zlen; cbn; lia). pose proof (zlen_nonneg t). rewrite st_ok by lia. cbn [mbind res_bind]. rewrite insert_blit by lia.
    assert (zlen [c] = 1) as H1 by done. assert (zlen [0] = 1) as H1' by done. rewrite IH by (rewrite ?zlen_blit; lia).
    change (i + 1) with (i + zlen [c]). by rewrite blit_blit by (rewrite ?zlen_app; lia).
Qed.

Lemma utf16_name t n : (length t < n)%nat -> ascii2utf16le t (replicate n 0xffff) 0 = Ok (t ++ 0 :: replicate (n - length t - 1) 0xffff).
Proof.
  intros Hl. rewrite utf16_ok by (unfold zlen; rewrite ?length_replicate; lia). unfold blit. rewrite drop_replicate, <- app_assoc. rewrite length_app.
  replace (n - (Z.to_nat 0 + (length t + length [0%Z])))%nat with (n - length t - 1)%nat by (cbn; lia). done.
Qed.

Lemma lfn_entries_len n i : forall chars, length chars = (13 * i)%nat -> Forall (fun w => 0 <= w < 65536) chars -> Forall (fun e => zlen e = 32) (lfn_entries i n chars) /\ length (lfn_entries i n chars) = i.
Proof.
  induction i as [|i IH]; intros chars Hl Hw; [done|]. cbn [lfn_entries]. destruct (IH (drop 13 chars)) as [H1 H2]; [rewrite length_drop; lia|by apply Forall_drop|].
  split; [|cbn; lia]. constructor; [|done]. change (slice chars 0 13) with (take 13 chars). apply lfn_entry_fields; [rewrite length_take; lia|by apply Forall_take].
Qed.

Section Emplace.
Context {D : Type} `{BlockDevice D}.
Implicit Types f : fat32 D.

Lemma emplace_ok f buf e off cluster : 0 <= off -> off + 1 < entries_per_cluster f -> 32 * entries_per_cluster f <= zlen buf -> zlen e = 32 ->
  emplace_dirent buf e off cluster f = Ok (f, blit buf (32 * off) e, cluster, off + 1).
Proof.
  intros Ho Hp Hb He. unfold emplace_dirent. rewrite wr_bytes_ok by lia. cbn [mbind res_bind]. by rewrite (proj2 (Z.eqb_neq _ _)) by lia.
Qed.

Lemma zlen_concat (es : list (list Z)) : Forall (fun e => zlen e = 32) es -> zlen (concat es) = 32 * zlen es.
Proof. induction 1 as [|e es He _ IH]; [done|]. cbn [concat]. rewrite zlen_app, IH, He. unfold zlen. cbn. lia. Qed.

Lemma lfn_loop_ok i n f cluster : forall chars buf off, length chars = (13 * i)%nat -> Forall (fun w => 0 <= w < 65536) chars -> 0 <= off -> off + Z.of_nat i < entries_per_cluster f ->
  32 * entries_per_cluster f <= zlen buf -> lfn_loop i n chars buf off cluster f = Ok (f, blit buf (32 * off) (concat (lfn_entries i n chars)), cluster, off + Z.of_nat i).
Proof.
  induction i as [|i IH]; intros chars buf off Hl Hw Ho Hp Hb.
  - cbn. unfold blit. cbn. rewrite Nat.add_0_r, take_drop. do 2 f_equal. lia.
  - cbn [lfn_loop lfn_entries concat]. change (slice chars 0 13) with (take 13 chars). set (order := if u8 (Z.of_nat (S i)) =? n then _ else _).
    assert (zlen (lfn_entry order (take 13 chars)) = 32) as He by (apply lfn_entry_fields; [rewrite length_take; lia|by apply Forall_take]).
    rewrite emplace_ok by lia. cbn [mbind res_bind]. rewrite (proj2 (Z.eqb_neq (off + 1) (-1))) by lia. cbn [negb assert_ mbind res_bind].
    destruct (lfn_entries_len n i (drop 13 chars)) as [Hes Hlen]; [rewrite length_drop; lia|by apply Forall_drop|].
    assert (zlen (blit buf (32 * off) (lfn_entry order (take 13 chars))) = zlen buf) as Hzb by (apply zlen_blit; lia). pose proof (zlen_concat _ Hes) as Hzc. unfold zlen at 2 in Hzc. rewrite Hlen in Hzc.
    rewrite IH; [|rewrite length_drop; lia|by apply Forall_drop|lia|lia|lia].
    replace (32 * (off + 1)) with (32 * off + zlen (lfn_entry order (take 13 chars))) by lia. rewrite blit_blit by lia. do 2 f_equal. lia.
Qed.

(** The entries of a new file with a name of [n] parts. *)
Definition new_entries (n : nat) (t : list Z) (attr : Z) : list (list Z) :=
  lfn_entries n (Z.of_nat n) (t ++ 0 :: replicate (13 * n - length t - 1) 0xffff) ++ [sfn_entry attr].

Lemma new_entries_len n t attr : Forall ascii_char t -> (length t < 13 * n)%nat -> Forall (fun e => zlen e = 32) (new_entries n t attr) /\ length (new_entries n t attr) = S n.
Proof.
  intros Ht Hl. unfold new_entries. destruct (lfn_entries_len (Z.of_nat n) n (t ++ 0 :: replicate (13 * n - length t - 1) 0xffff)) as [H1 H2].
  { rewrite length_app. cbn [length]. rewrite length_replicate. lia. }
  { apply ascii_words; [done|]. apply Forall_replicate. lia. }
  rewrite length_app, H2. split; [|cbn; lia]. apply list.Forall_app. split; [done|by constructor].
Qed.

Lemma add_entries_ok f n t type attr buf off cluster : Forall ascii_char t -> (13 * (n - 1) < length t < 13 * n)%nat -> fs_type2fat_attr type = Ok attr -> 0 <= off ->
  off + Z.of_nat n + 1 < entries_per_cluster f -> Z.of_nat n < 65536 -> 32 * entries_per_cluster f <= zlen buf ->
  add_entries t type buf off cluster f = Ok (f, blit buf (32 * off) (concat (new_entries n t attr)), cluster, off + Z.of_nat n + 1).
Proof.
  intros Ht Hl Ha Ho Hp Hn Hb. unfold add_entries. rewrite Ha. cbn [mbind res_bind].
  assert (u32 (u64 (zlen t + 13 - 1) / 13) = Z.of_nat n) as ->.
  { unfold zlen. rewrite u64_small by lia. assert ((Z.of_nat (length t) + 13 - 1) / 13 = Z.of_nat n) as -> by (symmetry; apply (Z.div_unique_pos _ 13 _ (Z.of_nat (length t) + 12 - 13 * Z.of_nat n)); lia). apply u32_small. lia. }
  replace (Z.to_nat (Z.of_nat n * 13)) with (13 * n)%nat by lia. rewrite Nat2Z.id. rewrite utf16_name by lia. cbn [mbind res_bind].
  set (chars := t ++ 0 :: _). assert (length chars = (13 * n)%nat) as Hc by (unfold chars; rewrite length_app; cbn [length]; rewrite length_replicate; lia).
  assert (Forall (fun w => 0 <= w < 65536) chars) as Hw by (apply ascii_words; [done|]; apply Forall_replicate; lia).
  rewrite lfn_loop_ok by (done || lia). cbn [mbind res_bind]. destruct (lfn_entries_len (Z.of_nat n) n chars Hc Hw) as [Hes Hlen].
  pose proof (zlen_concat _ Hes) as Hzc. unfold zlen at 2 in Hzc. rewrite Hlen in Hzc.
  rewrite emplace_ok by (try done; rewrite ?zlen_blit; lia). cbn [mbind res_bind]. rewrite (proj2 (Z.eqb_neq (off + Z.of_nat n + 1) (-1))) by lia. cbn [negb assert_ mbind res_bind].
  do 3 f_equal. f_equal. unfold new_entries. fold chars. rewrite concat_app. cbn [concat]. rewrite app_nil_r.
  replace (32 * (off + Z.of_nat n)) with (32 * off + zlen (concat (lfn_entries n (Z.of_nat n) chars))) by lia. apply blit_blit; [lia|]. change (zlen (sfn_entry attr)) with 32. lia.
Qed.
End Emplace.
