(* ===== verification/Fat32DirsTheorems.v ===== *)
(** * FAT32 directories: adding a file and listing the directory

    Directories on the disk: the clusters of a chain, the walk to their end, and the effect
    of writing one of them back. *)

From S2P Require Import Prelude Bytes Interfaces BlockCacheTheorems FileSystems Fat32 Fat32Proofs Fat32Chain Fat32Read Fat32Write Fat32Limits CString Paths VfsFiles VfsDirs Fat32Dirs Fat32DirsProofs.




(** ** Entries inside of a buffer *)

Lemma slice_blit_in {A} (l d : list A) off x n : 0 <= off -> 0 <= x -> 0 <= n -> x + n <= zlen d -> off + zlen d <= zlen l -> slice (blit l off d) (off + x) n = slice d x n.
Proof. intros. rewrite <- (slice_slice (blit l off d) off (zlen d) x n) by lia. by rewrite slice_blit_same by lia. Qed.

Lemma concat_entries (es : list (list Z)) : Forall (fun e => zlen e = 32) es -> (fun j => slice (concat es) (32 * j) 32) <$> seqZ 0 (zlen es) = es.
Proof.
  intros Hes. induction Hes as [|e es He Hes IH]; [done|]. unfold zlen at 1. cbn [length]. rewrite Nat2Z.inj_succ. rewrite seqZ_cons by lia. rewrite Z.pred_succ, fmap_cons. f_equal.
  - cbn [concat]. unfold slice. change (Z.to_nat (32 * 0)) with 0%nat. rewrite drop_0. apply take_app_length'. unfold zlen in He. lia.
  - rewrite <- IH at 2. change (Z.succ 0) with (1 + 0). rewrite <- fmap_add_seqZ, <- list_fmap_compose. apply list_fmap_ext. intros i j Hj%lookup_seqZ. cbn [concat compose]. unfold slice. unfold zlen in He.
    rewrite drop_app_ge by lia. do 2 f_equal. lia.
Qed.

Lemma entries_blit buf off (es : list (list Z)) per : 0 <= off -> off + zlen es <= per -> 32 * per <= zlen buf -> Forall (fun e => zlen e = 32) es ->
  entry_at (blit buf (32 * off) (concat es)) <$> seqZ 0 per = (entry_at buf <$> seqZ 0 off) ++ es ++ (entry_at buf <$> seqZ (off + zlen es) (per - off - zlen es)).
Proof.
  intros Ho Hp Hb Hes. pose proof (zlen_concat es Hes) as Hc. pose proof (zlen_nonneg es). replace per with (off + (zlen es + (per - off - zlen es))) at 1 by lia.
  rewrite !seqZ_app by lia. rewrite !fmap_app. f_equal; [|f_equal].
  - apply list_fmap_ext. intros i j Hj%lookup_seqZ. unfold entry_at. apply slice_blit_before; lia.
  - rewrite <- (concat_entries es Hes) at 3. rewrite Z.add_0_l. replace (seqZ off (zlen es)) with (Z.add off <$> seqZ 0 (zlen es)) by (rewrite fmap_add_seqZ; f_equal; lia). rewrite <- list_fmap_compose.
    apply list_fmap_ext. intros i j Hj%lookup_seqZ. cbn. unfold entry_at. replace (32 * (off + j)) with (32 * off + 32 * j) by lia. apply slice_blit_in; lia.
  - rewrite Z.add_0_l. apply list_fmap_ext. intros i j Hj%lookup_seqZ. unfold entry_at. apply slice_blit_after; lia.
Qed.

Lemma concat_slices (buf : list Z) sz (n : nat) : 0 <= sz -> zlen buf = Z.of_nat n * sz -> concat ((fun j => slice buf (j * sz) sz) <$> seqZ 0 (Z.of_nat n)) = buf.
Proof.
  intros Hsz. revert buf. induction n as [|n IH]; intros buf Hb; [destruct buf; [done|unfold zlen in Hb; cbn in Hb; lia]|].
  rewrite seqZ_cons by lia. rewrite fmap_cons. cbn [concat]. replace (Z.pred (Z.of_nat (S n))) with (Z.of_nat n) by lia.
  assert (zlen (drop (Z.to_nat sz) buf) = Z.of_nat n * sz) as Hd by (rewrite zlen_drop; lia). transitivity (take (Z.to_nat sz) buf ++ drop (Z.to_nat sz) buf); [|apply take_drop]. f_equal.
  rewrite <- (IH _ Hd). f_equal. change (Z.succ 0) with (1 + 0). rewrite <- fmap_add_seqZ, <- list_fmap_compose. apply list_fmap_ext. intros i j Hj%lookup_seqZ. cbn. unfold slice. rewrite drop_drop. do 2 f_equal. lia.
Qed.

(** ** New entries are well formed *)

Lemma entry_ok_lfn order chars t : length chars = 13%nat -> Forall (fun w => 0 <= w < 65536) chars -> 1 <= Z.land order 0x0f ->
  Forall ascii_char t -> (length t = 13%nat /\ chars = t \/ (length t < 12)%nat /\ exists rest, chars = t ++ 0 :: rest) -> entry_ok (lfn_entry order chars).
Proof.
  intros Hl Hw Ho Ht Hcase. destruct (lfn_entry_fields order chars Hl Hw) as (_ & E0 & _ & Ea & Ec). constructor; rewrite ?E0, ?Ea, ?Ec; [|intros _; right|done].
  - intros ->. rewrite Z.land_0_l in Ho. lia.
  - split; [done|]. intros l0 Hl0. destruct Hcase as [[H13 ->]|[H12 [rest ->]]].
    + exists t. split; [|unfold zlen; lia]. apply utf_full; try done. by exists [0].
    + destruct (utf_last ((t ++ 0 :: rest) ++ [0]) l0 t (rest ++ [0])) as (r & E & Hr); try done; [by rewrite <- app_assoc|]. by eexists.
Qed.

Lemma entry_ok_sfn type attr : fs_type2fat_attr type = Ok attr -> entry_ok (sfn_entry attr).
Proof.
  intros Ha. destruct (sfn_fields attr) as (E0 & _ & _ & El & _). constructor; rewrite ?E0; [done| |].
  - intros Hlfn. exfalso. unfold fs_type2fat_attr in Ha. destruct (type =? DT_DIR); [injection Ha as <-; done|]. destruct (type =? DT_REG); [injection Ha as <-; done|done].
  - intros _. right. split; [|done]. change (slice (sfn_entry attr) 0 8) with [73; 83; 83; 79; 85; 32; 32; 32]. rewrite !elem_of_cons, elem_of_nil. lia.
Qed.

Lemma entry_ok_lfns i : forall n t pad, (1 <= i <= 15)%nat -> Forall ascii_char t -> Forall (fun w => 0 <= w < 65536) pad ->
  length (t ++ 0 :: pad) = (13 * i)%nat -> (13 * (i - 1) <= length t < 13 * i - 1)%nat -> Forall entry_ok (lfn_entries i n (t ++ 0 :: pad)).
Proof.
  induction i as [|i IH]; intros n t pad Hi Ht Hp Hlen Htl; [lia|]. cbn [lfn_entries]. set (chars := t ++ 0 :: pad) in *. assert (Forall (fun w => 0 <= w < 65536) chars) as Hw by (by apply ascii_words).
  change (slice chars 0 13) with (take 13 chars). assert (length (take 13 chars) = 13%nat) as Hc by (rewrite length_take; lia). assert (Forall (fun w => 0 <= w < 65536) (take 13 chars)) as Hws by (by apply Forall_take).
  destruct (decide (i = 0%nat)) as [->|Hi0].
  - constructor; [|done]. apply (entry_ok_lfn _ _ t); try done; [rewrite order_low by lia; lia|]. right. split; [lia|]. exists pad. apply (take_ge chars). lia.
  - constructor.
    + apply (entry_ok_lfn _ _ (take 13 t)); try done; [rewrite order_low by lia; lia|by apply Forall_take|]. left. split; [rewrite length_take; lia|]. unfold chars. by rewrite take_app_le by lia.
    + assert (drop 13 chars = drop 13 t ++ 0 :: pad) as -> by (unfold chars; by rewrite drop_app_le by lia). apply IH; [lia|by apply Forall_drop|done| |rewrite length_drop; lia].
      unfold chars in Hlen. rewrite length_app in *. rewrite length_drop. lia.
Qed.

(** A name of [n] parts whose last part is shorter than 12 characters. *)
Record name_ok (n : nat) (t : list Z) : Prop := {
  nk_parts : (1 <= n <= 15)%nat;
  nk_ascii : Forall ascii_char t;
  nk_len : (13 * (n - 1) < length t < 13 * n - 1)%nat;
  nk_dot : drop (13 * (n - 1)) t <> [DOT] /\ drop (13 * (n - 1)) t <> [DOT; DOT] }.

Lemma entry_ok_new n t type attr : name_ok n t -> fs_type2fat_attr type = Ok attr -> Forall entry_ok (new_entries n t attr).
Proof.
  intros [Hn Ht Hl _] Ha. apply list.Forall_app. split; [|constructor; [by eapply entry_ok_sfn|done]]. apply entry_ok_lfns; try done; [apply Forall_replicate; lia| |lia].
  rewrite length_app. cbn [length]. rewrite length_replicate. lia.
Qed.

(** ** Clusters on the disk *)

Section Dirs.
Context {D : Type} `{BlockDevice D}.
Hypothesis words : 3 <= dev_lbashift (D := D).
Variables (longname0 entry0 : list Z).
Hypothesis longname_len : zlen longname0 = 13.
Hypothesis entry_len : zlen entry0 = 256.
Notation SZ := (2 ^ dev_lbashift (D := D)).
Implicit Types f : fat32 D.

Definition cluster_data f (c : Z) : list Z := dev_read (fat_dev f) (part_begin f + cluster_begin c f) (cluster_size f).
Definition cluster_entries f (c : Z) : list (list Z) := entry_at (cluster_data f c) <$> seqZ 0 (entries_per_cluster f).

Lemma bufsize_eq f : geometry f -> bufsize f = cluster_size f * SZ /\ 32 * entries_per_cluster f <= cluster_size f * SZ /\ 0 <= entries_per_cluster f.
Proof using words.
  intros Hg. pose proof (ge_cluster _ Hg). assert (0 < SZ <= 2 ^ 11) as Hsz.
  { pose proof (dev_lbashift_range (D := D)). split; [apply Z.pow_pos_nonneg; lia|]. apply Z.pow_le_mono_r; lia. }
  assert (0 < SZ * cluster_size f < 2 ^ 11 * 2 ^ 16) as Hm by (split; [apply Z.mul_pos_pos; lia|]; apply Z.le_lt_trans with (2 ^ 11 * cluster_size f); [apply Z.mul_le_mono_nonneg_r; lia|lia]).
  assert (bufsize f = cluster_size f * SZ) as E by (unfold bufsize; rewrite block_size_eq, u32_small by lia; lia). split; [done|]. unfold entries_per_cluster. rewrite E.
  pose proof (Z.mul_div_le (cluster_size f * SZ) 32). split; [lia|]. apply Z.div_pos; lia.
Qed.

Lemma read_cluster f c : fat_ok f -> in_table f c -> part_read (cluster_begin c f) (cluster_size f) f = Ok (sync f, cluster_data f c) /\ zlen (cluster_data f c) = cluster_size f * SZ.
Proof using words.
  intros Hf Hc. pose proof (fk_geometry _ Hf) as Hg. destruct (cluster_begin_ok words f c Hg Hc) as (E & H0 & H1). pose proof (ge_cluster _ Hg). pose proof (ge_fat _ Hg). pose proof (ge_data _ Hg). pose proof (ge_part _ Hg). pose proof (ge_size _ Hg).
  split; [|by apply zlen_dev_read; lia]. unfold part_read, part_async_read, cluster_data. rewrite (Z.add_comm (cluster_begin c f)), u64_small by lia. unfold assert_.
  rewrite (proj2 (Z.leb_le _ _)), (proj2 (Z.ltb_lt _ _)) by lia. done.
Qed.

Lemma cluster_data_same f f' c : same_disk f f' -> cluster_data f' c = cluster_data f c.
Proof.
  intros [Hg Hd]. unfold cluster_data, dev_read, cluster_begin. rewrite (sg_cluster _ _ Hg), (sg_data _ _ Hg). destruct (sg_part _ _ Hg) as [-> _]. f_equal. apply list_fmap_ext. intros. apply Hd.
Qed.

Lemma cluster_entries_same f f' c : same_disk f f' -> cluster_entries f' c = cluster_entries f c.
Proof. intros Hs. unfold cluster_entries, entries_per_cluster, bufsize. rewrite (cluster_data_same _ _ _ Hs). destruct Hs as [Hg _]. by rewrite (sg_cluster _ _ Hg). Qed.

(** ** Walking over a directory *)

(** The state of the parser after the clusters of a directory. *)
Fixpoint clusters_state f (cs : list Z) (long : bool) (out : list dirent) : res (bool * list dirent) :=
  match cs with
  | [] => Ok (long, out)
  | c :: cs => '(_, long, _, out) ← parse_list longname0 (cluster_entries f c) long no_name out; clusters_state f cs long out
  end.

Lemma clusters_state_same f f' cs : same_disk f f' -> forall long out, clusters_state f' cs long out = clusters_state f cs long out.
Proof. intros Hs. induction cs as [|c cs IH]; intros long out; [done|]. cbn. rewrite (cluster_entries_same _ _ _ Hs). destruct (parse_list _ _ _ _ _) as [[[[? ?] ?] ?]|]; [apply IH|done]. Qed.

(** One step of the walk to the next cluster. *)
Lemma next_cluster_step f c d cs : fat_ok f -> chain f (c :: d :: cs) -> exists f', readFAT c (sync f) = Ok (f', d) /\ fat_ok f' /\ same_fat f f' /\ d <> 0.
Proof using words.
  intros Hf Hc. destruct (sync_ok f Hf) as [Hf1 Hs1]. pose proof (chain_same words _ _ _ (same_fat_table _ _ Hs1) (fk_geometry _ Hf) Hc) as Hc1.
  destruct (chain_ent words _ _ _ (fk_geometry _ Hf1) Hc1) as [He En]. pose proof (chain_head _ _ _ Hc1) as [? ?].
  destruct (readFAT_ok words (sync f) c Hf1 ltac:(lia) He) as (f' & E & Hf' & Hs' & _). exists f'. rewrite E, En. split; [done|]. split; [done|]. split; [by transitivity (sync f)|].
  pose proof (chain_head _ _ _ (chain_tail _ _ _ _ Hc1)) as [? _]. lia.
Qed.

Definition dir_ok f (cs1 : list Z) (c : Z) (k : Z) : Prop :=
  Forall (fun d => Forall entry_ok (cluster_entries f d)) cs1 /\ 0 <= k < entries_per_cluster f /\ Forall entry_ok (take (Z.to_nat k) (cluster_entries f c)) /\
  forall j, k <= j < entries_per_cluster f -> nthZ (entry_at (cluster_data f c) j) 0 = 0.

Lemma zlen_no_name : zlen no_name = 256.
Proof. done. Qed.

Lemma read_dir_walk cs1 : forall f fuel long out c cs2, fat_ok f -> chain f (cs1 ++ c :: cs2) -> Forall (fun d => Forall entry_ok (cluster_entries f d)) cs1 -> (length cs1 <= fuel)%nat ->
  exists f' long' out', clusters_state f cs1 long out = Ok (long', out') /\ fat_ok f' /\ same_fat f f' /\
    read_dir_loop longname0 fuel (default c (head cs1)) long out f = read_dir_loop longname0 (fuel - length cs1) c long' out' f'.
Proof using words longname_len.
  induction cs1 as [|x cs1 IH]; intros f fuel long out c cs2 Hf Hc Hok Hfu.
  { exists f, long, out. cbn. rewrite Nat.sub_0_r. done. }
  apply list.Forall_cons in Hok as [Hx Hok]. destruct fuel as [|fuel]; [cbn in Hfu; lia|]. change (default c (head (x :: cs1))) with x. cbn [read_dir_loop length].
  destruct (read_cluster f x Hf (chain_head _ _ _ Hc)) as [-> Hl]. cbn [mbind res_bind]. destruct (bufsize_eq f (fk_geometry _ Hf)) as (_ & Hp & Hp0).
  change (entries_per_cluster (sync f)) with (entries_per_cluster f). rewrite parse_loop_list by lia. rewrite Z2Nat.id by lia. fold (cluster_entries f x). cbn [clusters_state].
  destruct (parse_list_ok longname0 longname_len (cluster_entries f x) long no_name out Hx zlen_no_name) as (long1 & name1 & out1 & -> & _). cbn [mbind res_bind].
  assert (exists d cs', cs1 ++ c :: cs2 = d :: cs' /\ d = default c (head cs1)) as (d & cs' & Ed & Ed') by (destruct cs1 as [|y cs1]; [by exists c, cs2|by exists y, (cs1 ++ c :: cs2)]).
  cbn in Hc. rewrite Ed in Hc. destruct (next_cluster_step f x d cs' Hf Hc) as (f1 & -> & Hf1 & Hs1 & Hd0). cbn [mbind res_bind]. rewrite (proj2 (Z.eqb_neq _ _) Hd0).
  pose proof (chain_same words _ _ _ (same_fat_table _ _ Hs1) (fk_geometry _ Hf) (chain_tail _ _ _ _ Hc)) as Hc1. rewrite <- Ed in Hc1.
  destruct (IH f1 fuel long1 out1 c cs2 Hf1 Hc1) as (f2 & long2 & out2 & E2 & Hf2 & Hs2 & El); [|cbn in Hfu; lia|].
  { eapply list.Forall_impl; [exact Hok|]. intros z. by rewrite (cluster_entries_same _ _ _ (proj1 Hs1)). }
  rewrite (clusters_state_same _ _ _ (proj1 Hs1)) in E2. exists f2, long2, out2. split; [done|]. split; [done|]. split; [by transitivity f1|]. rewrite Ed', El. done.
Qed.

Lemma find_end_walk cs1 : forall f fuel long name c cs2, fat_ok f -> chain f (cs1 ++ c :: cs2) -> Forall (fun d => Forall entry_ok (cluster_entries f d)) cs1 -> (length cs1 <= fuel)%nat -> zlen name = 256 ->
  exists f' long' name', fat_ok f' /\ same_fat f f' /\ zlen name' = 256 /\
    find_end longname0 fuel (default c (head cs1)) long name f = find_end longname0 (fuel - length cs1) c long' name' f'.
Proof using words longname_len.
  induction cs1 as [|x cs1 IH]; intros f fuel long name c cs2 Hf Hc Hok Hfu Hn.
  { exists f, long, name. cbn. rewrite Nat.sub_0_r. done. }
  apply list.Forall_cons in Hok as [Hx Hok]. destruct fuel as [|fuel]; [cbn in Hfu; lia|]. change (default c (head (x :: cs1))) with x. cbn [find_end length].
  destruct (read_cluster f x Hf (chain_head _ _ _ Hc)) as [-> Hl]. cbn [mbind res_bind]. destruct (bufsize_eq f (fk_geometry _ Hf)) as (_ & Hp & Hp0).
  change (entries_per_cluster (sync f)) with (entries_per_cluster f).
  destruct (end_loop_none longname0 longname_len (Z.to_nat (entries_per_cluster f)) (cluster_data f x) 0 long name) as (long1 & name1 & -> & Hn1); [lia|lia|by rewrite Z2Nat.id by lia|done|]. cbn [mbind res_bind].
  assert (exists d cs', cs1 ++ c :: cs2 = d :: cs' /\ d = default c (head cs1)) as (d & cs' & Ed & Ed') by (destruct cs1 as [|y cs1]; [by exists c, cs2|by exists y, (cs1 ++ c :: cs2)]).
  cbn in Hc. rewrite Ed in Hc. destruct (next_cluster_step f x d cs' Hf Hc) as (f1 & -> & Hf1 & Hs1 & Hd0). cbn [mbind res_bind]. rewrite (proj2 (Z.eqb_neq _ _) Hd0). cbn [negb assert_ mbind res_bind].
  pose proof (chain_same words _ _ _ (same_fat_table _ _ Hs1) (fk_geometry _ Hf) (chain_tail _ _ _ _ Hc)) as Hc1. rewrite <- Ed in Hc1.
  destruct (IH f1 fuel long1 name1 c cs2 Hf1 Hc1) as (f2 & long2 & name2 & Hf2 & Hs2 & Hn2 & El); [|cbn in Hfu; lia|done|].
  { eapply list.Forall_impl; [exact Hok|]. intros z. by rewrite (cluster_entries_same _ _ _ (proj1 Hs1)). }
  exists f2, long2, name2. split; [done|]. split; [by transitivity f1|]. split; [done|]. rewrite Ed', El. done.
Qed.

Lemma chain_fits f cs : geometry f -> chain f cs -> (length cs < chain_fuel f)%nat.
Proof using words.
  intros Hg Hc. assert (cs ⊆+ seqZ 2 (n_clusters f - 2)) as Hs.
  { apply NoDup_submseteq; [by eapply chain_nodup|]. intros x Hx. destruct (chain_in_table _ _ _ Hc Hx). apply elem_of_seqZ. lia. }
  apply submseteq_length in Hs. rewrite length_seqZ in Hs. unfold chain_fuel. rewrite block_size_eq. fold (n_clusters f).
  assert (2 < n_clusters f); [|lia]. destruct cs as [|c cs]; [by inversion Hc|]. pose proof (chain_head _ _ _ Hc) as [? ?]. lia.
Qed.

Lemma entries_split f c k : 0 <= k < entries_per_cluster f ->
  cluster_entries f c = take (Z.to_nat k) (cluster_entries f c) ++ (entry_at (cluster_data f c) <$> seqZ k (entries_per_cluster f - k)) /\
  take (Z.to_nat k) (cluster_entries f c) = entry_at (cluster_data f c) <$> seqZ 0 k.
Proof.
  intros Hk. unfold cluster_entries. assert (seqZ 0 (entries_per_cluster f) = seqZ 0 k ++ seqZ k (entries_per_cluster f - k)) as E.
  { replace (entries_per_cluster f) with (k + (entries_per_cluster f - k)) at 1 by lia. rewrite seqZ_app by lia. by rewrite Z.add_0_l. }
  rewrite E, fmap_app. rewrite take_app_length' by (rewrite length_fmap, length_seqZ; lia). done.
Qed.

(** The last cluster of the walk: the entries before the end. *)
Lemma read_dir_last f c k fuel long out : fat_ok f -> in_table f c -> dir_ok f [] c k -> exists long' name' out',
  parse_list longname0 (take (Z.to_nat k) (cluster_entries f c)) long no_name out = Ok (false, long', name', out') /\ zlen name' = 256 /\
  read_dir_loop longname0 (S fuel) c long out f = Ok (sync f, out').
Proof using words longname_len.
  intros Hf Hc (_ & Hk & Hok & Hz). destruct (parse_list_ok longname0 longname_len _ long no_name out Hok zlen_no_name) as (long1 & name1 & out1 & E1 & Hn1). exists long1, name1, out1.
  split; [done|]. split; [done|]. cbn [read_dir_loop]. destruct (read_cluster f c Hf Hc) as [-> Hl]. cbn [mbind res_bind]. destruct (bufsize_eq f (fk_geometry _ Hf)) as (_ & Hp & Hp0).
  change (entries_per_cluster (sync f)) with (entries_per_cluster f). rewrite parse_loop_list by lia. rewrite Z2Nat.id by lia. fold (cluster_entries f c).
  destruct (entries_split f c k Hk) as [-> _]. rewrite parse_list_app, E1. cbn [mbind res_bind]. rewrite seqZ_cons by lia. rewrite fmap_cons. cbn [parse_list].
  unfold parse_dir_entry. rewrite (Hz k) by lia. done.
Qed.

Lemma find_end_last f c k fuel long name : fat_ok f -> in_table f c -> dir_ok f [] c k -> zlen name = 256 -> find_end longname0 (S fuel) c long name f = Ok (sync f, cluster_data f c, c, k).
Proof using words longname_len.
  intros Hf Hc (_ & Hk & Hok & Hz) Hn. cbn [find_end]. destruct (read_cluster f c Hf Hc) as [-> Hl]. cbn [mbind res_bind]. destruct (bufsize_eq f (fk_geometry _ Hf)) as (_ & Hp & Hp0).
  change (entries_per_cluster (sync f)) with (entries_per_cluster f). destruct (entries_split f c k Hk) as [_ Et].
  destruct (end_loop_found longname0 longname_len (Z.to_nat k) (cluster_data f c) (Z.to_nat (entries_per_cluster f)) 0 long name) as (long' & name' & ->);
    [lia|lia|lia|rewrite Z2Nat.id, <- Et by lia; done|rewrite Z2Nat.id by lia; apply Hz; lia|done|]. cbn [mbind res_bind]. rewrite Z2Nat.id by lia. by rewrite Z.add_0_l.
Qed.

(** ** Writing a cluster back *)

Lemma write_cluster f c buf : fat_ok f -> in_table f c -> zlen buf = cluster_size f * SZ ->
  exists f', part_write (cluster_begin c f) buf (cluster_size f) f = Ok f' /\ fat_ok f' /\ same_table f f' /\ cluster_data f' c = buf /\ forall c', in_table f c' -> c' <> c -> cluster_data f' c' = cluster_data f c'.
Proof using words.
  intros Hf Hc Hb. pose proof (fk_geometry _ Hf) as Hg. destruct (cluster_begin_ok words f c Hg Hc) as (E & H0 & H1). pose proof (ge_cluster _ Hg). pose proof (ge_data _ Hg).
  destruct (part_write_ok words f (cluster_begin c f) buf (cluster_size f)) as (f' & Ew & Hf' & Hs & _ & Hsec); [done|lia|lia|lia|done|]. exists f'. split; [done|]. split; [done|]. split; [done|].
  destruct Hs as [Hsg _]. assert (forall c', cluster_data f' c' = concat ((fun l => dev_sector (fat_dev f') (part_begin f + l)) <$> seqZ (cluster_begin c' f) (cluster_size f))) as Hcd.
  { intros c'. unfold cluster_data, dev_read, cluster_begin. rewrite (sg_cluster _ _ Hsg), (sg_data _ _ Hsg). destruct (sg_part _ _ Hsg) as [-> _]. f_equal.
    rewrite <- fmap_add_seqZ, <- list_fmap_compose. done. }
  split.
  - rewrite Hcd. rewrite <- (concat_slices buf SZ (Z.to_nat (cluster_size f))) by (pose proof (Z.pow_nonneg 2 (dev_lbashift (D := D))); lia). rewrite Z2Nat.id by lia. f_equal.
    replace (seqZ (cluster_begin c f) (cluster_size f)) with (Z.add (cluster_begin c f) <$> seqZ 0 (cluster_size f)) by (rewrite fmap_add_seqZ; f_equal; lia). rewrite <- list_fmap_compose.
    apply list_fmap_ext. intros i j Hj%lookup_seqZ. cbn. rewrite Hsec, decide_True by lia. do 2 f_equal. lia.
  - intros c' Hc' Hne. rewrite Hcd. unfold cluster_data, dev_read. f_equal. rewrite <- fmap_add_seqZ, <- list_fmap_compose. apply list_fmap_ext. intros i j Hj%lookup_seqZ. cbn. rewrite Hsec, decide_False; [done|].
    destruct (cluster_begin_ok words f c' Hg Hc') as (E' & _ & _). intros Hin. apply Hne. rewrite E, E' in *. destruct (Z.lt_trichotomy c c') as [Hlt|[?|Hlt]]; [|done|].
    + assert ((c + 1 - 2) * cluster_size f <= (c' - 2) * cluster_size f) by (apply Z.mul_le_mono_nonneg_r; lia). lia.
    + assert ((c' + 1 - 2) * cluster_size f <= (c - 2) * cluster_size f) by (apply Z.mul_le_mono_nonneg_r; lia). lia.
Qed.

(** ** Listing and adding *)

Lemma dir_ok_same f f' cs1 c k : same_disk f f' -> dir_ok f cs1 c k -> dir_ok f' cs1 c k.
Proof.
  intros Hs (H1 & H2 & H3 & H4). unfold dir_ok, entries_per_cluster, bufsize. rewrite (cluster_entries_same _ _ _ Hs), (cluster_data_same _ _ _ Hs), (sg_cluster _ _ (proj1 Hs)).
  split; [|done]. eapply list.Forall_impl; [exact H1|]. intros d. by rewrite (cluster_entries_same _ _ _ Hs).
Qed.

Lemma dir_first f cs1 c cs2 : fat_ok f -> chain f (cs1 ++ c :: cs2) -> u32 (default c (head cs1)) = default c (head cs1) /\ in_table f c /\ (length cs1 < chain_fuel f)%nat.
Proof using words.
  clear longname_len entry_len. intros Hf Hc. pose proof (fk_geometry _ Hf) as Hg. pose proof (n_clusters_bound words _ Hg). pose proof (chain_fits _ _ Hg Hc) as Hl. rewrite length_app in Hl. cbn in Hl.
  assert (in_table f c) as Hi by (eapply chain_in_table; [exact Hc|set_solver]). assert (in_table f (default c (head cs1))) as [? ?] by (destruct cs1; [done|by eapply chain_head]).
  split; [apply u32_small; lia|]. split; [done|lia].
Qed.

Lemma read_dir_listed f cs1 c cs2 k : fat_ok f -> chain f (cs1 ++ c :: cs2) -> dir_ok f cs1 c k -> exists f' long0 out0 long' name' out,
  clusters_state f cs1 false [] = Ok (long0, out0) /\ parse_list longname0 (take (Z.to_nat k) (cluster_entries f c)) long0 no_name out0 = Ok (false, long', name', out) /\ zlen name' = 256 /\
  fat32_read_dir longname0 (default c (head cs1)) f = Ok (f', out) /\ fat_ok f' /\ same_fat f f'.
Proof using words longname_len.
  intros Hf Hc Hd. destruct (dir_first f cs1 c cs2 Hf Hc) as (Eu & Hi & Hl). unfold fat32_read_dir. rewrite Eu.
  destruct (read_dir_walk cs1 f (chain_fuel f) false [] c cs2 Hf Hc (proj1 Hd) ltac:(lia)) as (f1 & long0 & out0 & E0 & Hf1 & Hs1 & ->).
  destruct (chain_fuel f - length cs1)%nat as [|fuel] eqn:Ef; [lia|].
  assert (dir_ok f1 [] c k) as Hd1 by (apply (dir_ok_same f); [apply Hs1|]; destruct Hd as (_ & Hd); by split).
  assert (in_table f1 c) as Hi1 by (unfold in_table; by rewrite (same_geo_clusters _ _ (proj1 (proj1 Hs1)))).
  destruct (read_dir_last f1 c k fuel long0 out0 Hf1 Hi1 Hd1) as (long' & name' & out & E1 & Hn & E2). destruct (sync_ok f1 Hf1) as [Hf2 Hs2].
  rewrite (cluster_entries_same f) in E1 by apply Hs1. exists (sync f1), long0, out0, long', name', out. split_and!; try done. by transitivity f1.
Qed.

Lemma find_end_ok f cs1 c cs2 k : fat_ok f -> chain f (cs1 ++ c :: cs2) -> dir_ok f cs1 c k -> exists f',
  find_end longname0 (chain_fuel f) (u32 (default c (head cs1))) false entry0 f = Ok (f', cluster_data f c, c, k) /\ fat_ok f' /\ same_fat f f'.
Proof using words longname_len entry_len.
  intros Hf Hc Hd. destruct (dir_first f cs1 c cs2 Hf Hc) as (-> & Hi & Hl).
  destruct (find_end_walk cs1 f (chain_fuel f) false entry0 c cs2 Hf Hc (proj1 Hd) ltac:(lia) entry_len) as (f1 & long1 & name1 & Hf1 & Hs1 & Hn1 & ->).
  destruct (chain_fuel f - length cs1)%nat as [|fuel] eqn:Ef; [lia|].
  assert (dir_ok f1 [] c k) as Hd1 by (apply (dir_ok_same f); [apply Hs1|]; destruct Hd as (_ & Hd); by split).
  assert (in_table f1 c) as Hi1 by (unfold in_table; by rewrite (same_geo_clusters _ _ (proj1 (proj1 Hs1)))).
  rewrite (find_end_last f1 c k fuel long1 name1 Hf1 Hi1 Hd1 Hn1). rewrite (cluster_data_same f) by apply Hs1. destruct (sync_ok f1 Hf1) as [Hf2 Hs2].
  exists (sync f1). split; [done|]. split; [done|]. by transitivity f1.
Qed.

#[export] Instance same_table_trans : Transitive (same_table (D := D)).
Proof.
  intros a b c [A1 A2] [B1 B2]. split; [by transitivity b|]. intros l Hl. destruct (sg_fat _ _ A1) as [E1 E2]. rewrite B2, A2; [done|lia|]. by rewrite E1, E2.
Qed.

(** What [fat32_add_dirent] writes. *)
Lemma add_dirent_ok f cs1 c cs2 k n t type attr : fat_ok f -> chain f (cs1 ++ c :: cs2) -> dir_ok f cs1 c k -> name_ok n t -> fs_type2fat_attr type = Ok attr -> k + Z.of_nat n + 1 < entries_per_cluster f ->
  exists f', fat32_add_dirent longname0 entry0 (default c (head cs1)) t type f = Ok (f', 0) /\ fat_ok f' /\ same_table f f' /\
    cluster_data f' c = blit (cluster_data f c) (32 * k) (concat (new_entries n t attr)) /\ forall c', in_table f c' -> c' <> c -> cluster_data f' c' = cluster_data f c'.
Proof using words longname_len entry_len.
  intros Hf Hc Hd [Hn Ht Hl _] Ha Hk. destruct (find_end_ok f cs1 c cs2 k Hf Hc Hd) as (f1 & Ef & Hf1 & Hs1). unfold fat32_add_dirent. rewrite Ef. cbn [mbind res_bind].
  destruct (dir_first f cs1 c cs2 Hf Hc) as (_ & Hi & _). destruct (bufsize_eq f (fk_geometry _ Hf)) as (_ & Hp & Hp0). destruct (read_cluster f c Hf Hi) as [_ Hlen].
  assert (entries_per_cluster f1 = entries_per_cluster f) as Ep by (unfold entries_per_cluster, bufsize; by rewrite (sg_cluster _ _ (proj1 (proj1 Hs1)))). destruct Hd as (_ & Hk0 & _).
  rewrite (add_entries_ok f1 n t type attr) by (done || lia). cbn [mbind res_bind]. rewrite (proj2 (Z.eqb_neq _ _)) by lia. cbn [negb].
  assert (in_table f1 c) as Hi1 by (unfold in_table; by rewrite (same_geo_clusters _ _ (proj1 (proj1 Hs1)))).
  destruct (new_entries_len n t attr Ht ltac:(lia)) as [Hes Hnl]. pose proof (zlen_concat _ Hes) as Hzc. unfold zlen at 2 in Hzc. rewrite Hnl in Hzc.
  destruct (write_cluster f1 c (blit (cluster_data f c) (32 * k) (concat (new_entries n t attr))) Hf1 Hi1) as (f2 & -> & Hf2 & Hs2 & E2 & Ho2);
    [rewrite (sg_cluster _ _ (proj1 (proj1 Hs1))), zlen_blit; lia|]. cbn [mbind res_bind].
  exists f2. split; [done|]. split; [done|]. split; [transitivity f1; [by apply same_fat_table|done]|]. split; [done|]. intros c' Hc' Hne.
  rewrite Ho2; [apply cluster_data_same, Hs1| |done]. unfold in_table. by rewrite (same_geo_clusters _ _ (proj1 (proj1 Hs1))).
Qed.

Lemma clusters_state_ext f f' cs : (forall c, c ∈ cs -> cluster_entries f' c = cluster_entries f c) -> forall long out, clusters_state f' cs long out = clusters_state f cs long out.
Proof.
  induction cs as [|c cs IH]; intros He long out; [done|]. cbn. rewrite He by set_solver. destruct (parse_list _ _ _ _ _) as [[[[? ?] ?] ?]|]; [|done]. apply IH. intros. apply He. set_solver.
Qed.

(** The entries of the directory after [fat32_add_dirent]. *)
Lemma new_cluster_entries f f' c k es : same_geo f f' -> dir_ok f [] c k -> 32 * entries_per_cluster f <= zlen (cluster_data f c) -> cluster_data f' c = blit (cluster_data f c) (32 * k) (concat es) ->
  Forall (fun e => zlen e = 32) es -> k + zlen es < entries_per_cluster f ->
  take (Z.to_nat (k + zlen es)) (cluster_entries f' c) = take (Z.to_nat k) (cluster_entries f c) ++ es /\ forall j, k + zlen es <= j < entries_per_cluster f -> nthZ (entry_at (cluster_data f' c) j) 0 = 0.
Proof.
  intros Hg (_ & Hk & _ & Hz) Hb Ed Hes Hp. assert (entries_per_cluster f' = entries_per_cluster f) as Ep by (unfold entries_per_cluster, bufsize; by rewrite (sg_cluster _ _ Hg)).
  pose proof (zlen_nonneg es). pose proof (zlen_concat es Hes) as Hzc. split.
  - unfold cluster_entries. rewrite Ep, Ed, entries_blit by (done || lia). fold (cluster_entries f c). destruct (entries_split f c k Hk) as [_ ->].
    rewrite app_assoc. apply take_app_length'. rewrite length_app, length_fmap, length_seqZ. unfold zlen in *. lia.
  - intros j Hj. unfold entry_at. rewrite Ed, slice_blit_after by lia. apply (Hz j). lia.
Qed.

Lemma add_dirent_list f cs1 c cs2 k n t type attr : fat_ok f -> chain f (cs1 ++ c :: cs2) -> dir_ok f cs1 c k -> name_ok n t -> fs_type2fat_attr type = Ok attr -> k + Z.of_nat n + 1 < entries_per_cluster f ->
  exists f1 old f2 f3, fat32_read_dir longname0 (default c (head cs1)) f = Ok (f1, old) /\ fat32_add_dirent longname0 entry0 (default c (head cs1)) t type f = Ok (f2, 0) /\
    fat32_read_dir longname0 (default c (head cs1)) f2 = Ok (f3, old ++ [new_dirent (drop (13 * (n - 1)) t) type]) /\
    fat_ok f2 /\ chain f2 (cs1 ++ c :: cs2) /\ dir_ok f2 cs1 c (k + Z.of_nat n + 1) /\ forall c', in_table f c' -> c' <> c -> cluster_data f2 c' = cluster_data f c'.
Proof using words longname_len entry_len.
  intros Hf Hc Hd Hn Ha Hk. destruct (add_dirent_ok f cs1 c cs2 k n t type attr Hf Hc Hd Hn Ha Hk) as (f2 & Ea & Hf2 & Hs2 & E2 & Ho). pose proof (fk_geometry _ Hf) as Hg.
  pose proof (chain_same words _ _ _ Hs2 Hg Hc) as Hc2. destruct (dir_first f cs1 c cs2 Hf Hc) as (_ & Hi & _). destruct (bufsize_eq f Hg) as (_ & Hp & Hp0). destruct (read_cluster f c Hf Hi) as [_ Hlen].
  destruct (read_dir_listed f cs1 c cs2 k Hf Hc Hd) as (f1 & long0 & out0 & long' & name' & old & Es & Eo & Hn' & Er & _). exists f1, old, f2.
  destruct (new_entries_len n t attr (nk_ascii _ _ Hn) ltac:(pose proof (nk_len _ _ Hn); lia)) as [Hes Hnl]. assert (zlen (new_entries n t attr) = Z.of_nat n + 1) as Hz by (unfold zlen; lia).
  destruct (new_cluster_entries f f2 c k (new_entries n t attr) (proj1 Hs2)) as [Et Hrest]; try done; [destruct Hd as (_ & Hd); by split|lia|lia|]. rewrite Hz, Z.add_assoc in Et, Hrest.
  assert (entries_per_cluster f2 = entries_per_cluster f) as Ep by (unfold entries_per_cluster, bufsize; by rewrite (sg_cluster _ _ (proj1 Hs2))).
  assert (forall d, d ∈ cs1 -> cluster_entries f2 d = cluster_entries f d) as Hcs.
  { intros d Hin. unfold cluster_entries. rewrite Ep, Ho; [done|eapply chain_in_table; [exact Hc|set_solver]|]. intros ->. pose proof (chain_nodup _ _ Hc) as Hnd. apply list.NoDup_app in Hnd as (_ & Hnd & _). apply (Hnd c Hin). set_solver. }
  assert (dir_ok f2 cs1 c (k + Z.of_nat n + 1)) as Hd2.
  { destruct Hd as (H1 & H2 & H3 & H4). split; [rewrite list.Forall_forall in H1 |- *; intros d Hin; rewrite (Hcs d Hin); by apply H1|]. rewrite Ep, Et. split; [lia|]. split; [|done].
    apply list.Forall_app. split; [done|by eapply entry_ok_new]. }
  destruct (read_dir_listed f2 cs1 c cs2 _ Hf2 Hc2 Hd2) as (f3 & long2 & out2 & long3 & name3 & new & Es2 & Eo2 & _ & Er2 & _). rewrite (clusters_state_ext f) in Es2 by done. rewrite Es in Es2. injection Es2 as <- <-.
  rewrite Et, parse_list_app, Eo in Eo2. cbn [mbind res_bind] in Eo2. destruct Hn as [Hn1 Ht Hl [Hdot Hdots]].
  unfold new_entries in Eo2. rewrite (parse_new longname0 longname_len n t type attr) in Eo2 by (done || lia). cbn in Eo2. injection Eo2 as _ _ <-. exists f3. done.
Qed.

(** A directory of well-formed entries: the clusters [cs1] are full, [k] entries of [c] are
    used and the rest of [c] is empty. *)
Definition dir_chain f (cs1 : list Z) (c : Z) (cs2 : list Z) (k : Z) : Prop := fat_ok f /\ chain f (cs1 ++ c :: cs2) /\ dir_ok f cs1 c k.


End Dirs.

(** * FAT32 directories on a small drive

    The drive of [Fat32Witness] with a root directory, cluster 2, that holds one file with a
    short name. *)


(** [KERNEL.ELF]: 4660 bytes from cluster 5 on. *)
Definition kernel_entry : list Z := [75; 69; 82; 78; 69; 76; 32; 32; 69; 76; 70; 0x20; 0; 0; 0; 0; 0; 0; 0; 0; 0; 0; 0; 0; 0; 0; 5; 0; 0x34; 0x12; 0; 0].
Definition dir_disk : disk := fun a => if (1536 <=? a) && (a <? 2048) then nthZ kernel_entry (a - 1536) else fat_disk a.
Definition fat1 (mem : list Z) : fat32 disk := Fat 1 1 1 3 2 1 (replicate (Z.to_nat FAT_CACHE_SIZE) (0, false)) mem 0 300 dir_disk.
Definition junk13 : list Z := replicate 13 170.
Definition junk256 : list Z := replicate 256 170.

Lemma fat1_ok mem : zlen mem = FAT_CACHE_SIZE * 2 ^ 9 -> fat_ok (fat1 mem).
Proof.
  intros Hm. constructor; [constructor; vm_compute; repeat split; discriminate| |exact Hm|cbn; lia|].
  - cbn [fat1 fat_entries]. unfold zlen. rewrite length_replicate. reflexivity.
  - intros h e He. cbn in He. apply lookup_replicate in He as [-> _]. by left.
Qed.

Lemma fat1_root mem : chain (fat1 mem) [2].
Proof.
  apply chain_last; [done|]. unfold ent, view. change (fat_begin (fat1 mem)) with 1. change (2 ^ dev_lbashift (D := disk)) with 512.
  change (fat_entries (fat1 mem)) with (replicate (Z.to_nat FAT_CACHE_SIZE) (0, false)).
  destruct (replicate _ _ !! _) as [[tag m]|] eqn:E; [|vm_compute; discriminate]. apply lookup_replicate in E as [[= -> ->] _]. vm_compute. discriminate.
Qed.

Lemma fat1_data mem : cluster_data (fat1 mem) 2 = kernel_entry ++ replicate 480 0.
Proof. vm_compute. reflexivity. Qed.

Lemma kernel_entry_ok : entry_ok kernel_entry.
Proof. constructor; [done|done|]. intros _. right. split; [|done]. apply (bool_decide_unpack _). vm_compute. done. Qed.

Lemma fat1_dir mem : dir_ok (fat1 mem) [] 2 1.
Proof.
  split; [done|]. split; [vm_compute; done|]. unfold cluster_entries. rewrite fat1_data. change (entries_per_cluster (fat1 mem)) with 16. split.
  - change (take _ _) with [kernel_entry]. constructor; [exact kernel_entry_ok|done].
  - intros j Hj. assert (j = 1 \/ j = 2 \/ j = 3 \/ j = 4 \/ j = 5 \/ j = 6 \/ j = 7 \/ j = 8 \/ j = 9 \/ j = 10 \/ j = 11 \/ j = 12 \/ j = 13 \/ j = 14 \/ j = 15) as Hcase by lia.
    repeat (destruct Hcase as [-> |Hcase]; [reflexivity|]). by rewrite Hcase.
Qed.

Lemma fat1_chain mem : zlen mem = FAT_CACHE_SIZE * 2 ^ 9 -> dir_chain (fat1 mem) [] 2 [] 1.
Proof. intros Hm. split; [by apply fat1_ok|]. split; [apply fat1_root|apply fat1_dir]. Qed.

Lemma ascii_dec (t : list Z) : forallb (fun c => (1 <=? c) && (c <=? 127)) t = true -> Forall ascii_char t.
Proof. intros Ht. induction t as [|c t IH]; [done|]. cbn in Ht. apply andb_prop in Ht as [H1 H2]. constructor; [unfold ascii_char; lia|by apply IH]. Qed.

(** [notes.txt] *)
Definition notes : list Z := [110; 111; 116; 101; 115; 46; 116; 120; 116].


(** [application-settings.txt]: what is listed is [settings.txt] without its first letter. *)
Definition name_a : list Z := [97; 112; 112; 108; 105; 99; 97; 116; 105; 111; 110; 45; 115].
Definition name_b : list Z := [101; 116; 116; 105; 110; 103; 115; 46; 116; 120; 116].


(** What the directory holds before. *)
Example fat1_listed : ('(_, l) ← fat32_read_dir junk13 2 (fat1 []); Ok l) = Ok [DirEnt [75; 69; 82; 78; 69; 76; 46; 69; 76; 70] (Dirent 5 4660 DT_REG true true true true true)].
Proof. vm_compute. reflexivity. Qed.
