(* ===== verification/SchedQueue.v ===== *)
(** * The ready queue of the scheduler ([kernel/sched/sched.c])

    A circular buffer of thread descriptors that doubles when it is full, and the proof
    that it implements a first-in first-out queue. *)

From S2P Require Import Prelude.





(** [struct thread_descriptor]. *)
Record td := Td { td_pid : Z; td_tid : Z }.

#[export] Instance td_eq_dec : EqDecision td.
Proof. solve_decision. Defined.

(** [struct priority_queue]. *)
Record priority_queue := PQueue { pq_buffer : list td; pq_head : Z; pq_tail : Z; pq_cap : Z }.

(** [mem] is what the memory that [malloc] returns holds. *)
Definition init_pqueue (mem : list td) : priority_queue := PQueue mem 0 0 3.

(** A descriptor of the bytes [0xef]. *)
Definition td_poison : td := Td (s32 0xefefefef) (s32 0xefefefef).

(** The loop that moves the descriptors of the old end, from the last one down to the head. *)
Fixpoint expand_loop (n : nat) (buffer : list td) (i exp cap : Z) : res (list td) :=
  match n with
  | O => Ok buffer
  | S n' =>
      _ ← assert_ (i + exp <? cap) "i + exp < pqueue.cap";
      x ← ld buffer i;
      buffer ← st buffer (i + exp) x;
      expand_loop n' buffer (i - 1) exp cap
  end.

Definition pqueue_expand (q : priority_queue) : res priority_queue :=
  _ ← assert_ ((pq_tail q + 1) mod pq_cap q =? pq_head q) "(pqueue.tail + 1) % pqueue.cap == pqueue.head";
  let old_cap := pq_cap q in
  let cap := s32 (pq_cap q * 2) in
  _ ← (if cap <? 0 then Err (Fault "pqueue.cap *= 2") else Ok ());
  let buffer := pq_buffer q ++ replicate (Z.to_nat (cap - old_cap)) td_poison in
  if 0 <? pq_head q then
    let exp := cap - old_cap in
    buffer ← expand_loop (Z.to_nat (old_cap - pq_head q)) buffer (old_cap - 1) exp cap;
    Ok (PQueue buffer (pq_head q + exp) (pq_tail q) cap)
  else Ok (PQueue buffer (pq_head q) (pq_tail q) cap).

Definition pqueue_push (thread : td) (q : priority_queue) : res priority_queue :=
  q ← (if (pq_tail q + 1) mod pq_cap q =? pq_head q then pqueue_expand q else Ok q);
  buffer ← st (pq_buffer q) (pq_tail q) thread;
  Ok (PQueue buffer (pq_head q) ((pq_tail q + 1) mod pq_cap q) (pq_cap q)).

Definition pqueue_pop (q : priority_queue) : res (td * priority_queue) :=
  _ ← assert_ (negb (pq_tail q =? pq_head q)) "sched queue empty";
  th ← ld (pq_buffer q) (pq_head q);
  Ok (th, PQueue (pq_buffer q) ((pq_head q + 1) mod pq_cap q) (pq_tail q) (pq_cap q)).

(** ** The queue it stands for *)

(** The place of the [i]-th descriptor after the head. *)
Definition pq_place (q : priority_queue) (i : Z) : nat :=
  Z.to_nat (if pq_head q + i <? pq_cap q then pq_head q + i else pq_head q + i - pq_cap q).

(** The descriptors of [l] are what is between the head and the tail. *)
Record pq_holds (q : priority_queue) (l : list td) : Prop := {
  pq_length : zlen (pq_buffer q) = pq_cap q;
  pq_cap_ok : 1 < pq_cap q < 2 ^ 31;
  pq_head_ok : 0 <= pq_head q < pq_cap q;
  pq_fits : zlen l < pq_cap q;
  pq_tail_ok : pq_tail q = if pq_head q + zlen l <? pq_cap q then pq_head q + zlen l else pq_head q + zlen l - pq_cap q;
  pq_entries : forall i x, l !! i = Some x -> pq_buffer q !! pq_place q (Z.of_nat i) = Some x }.

Lemma init_pqueue_holds mem : length mem = 3%nat -> pq_holds (init_pqueue mem) [].
Proof. intros Hm. split; cbn; rewrite ?Hm; (done || lia || idtac). unfold zlen. rewrite Hm. done. Qed.

Lemma expand_loop_ok n buffer i exp cap : 0 <= i - Z.of_nat n + 1 -> i < exp -> i + exp < cap -> zlen buffer = cap ->
  exists buffer', expand_loop n buffer i exp cap = Ok buffer' /\ zlen buffer' = cap /\
    (forall j, 0 <= j -> ~ (i - Z.of_nat n + exp < j <= i + exp) -> buffer' !! Z.to_nat j = buffer !! Z.to_nat j) /\
    (forall j, i - Z.of_nat n < j <= i -> buffer' !! Z.to_nat (j + exp) = buffer !! Z.to_nat j).
Proof.
  revert buffer i. induction n as [|n IH]; intros buffer i Hlo Hov Hhi Hlen; cbn [expand_loop].
  { exists buffer. repeat split; (done || lia). }
  rewrite (proj2 (Z.ltb_lt _ _) Hhi). cbn [assert_ mbind res_bind]. unfold ld. rewrite (proj2 (Z.leb_le 0 i)) by lia.
  destruct (lookup_lt_is_Some_2 buffer (Z.to_nat i)) as [x Hx]; [unfold zlen in Hlen; lia|]. rewrite Hx. cbn [mbind res_bind].
  unfold st. rewrite (proj2 (Z.leb_le 0 _)), (proj2 (Z.ltb_lt _ (zlen buffer))) by lia. cbn [andb mbind res_bind].
  destruct (IH (<[Z.to_nat (i + exp) := x]> buffer) (i - 1)) as (b' & -> & Hl & Hfr & Hmv); try lia.
  { unfold zlen. rewrite length_insert. exact Hlen. }
  exists b'. split; [done|]. split; [done|]. split.
  - intros j Hj Hout. rewrite Hfr by lia. apply list_lookup_insert_ne. lia.
  - intros j Hj. destruct (decide (j = i)) as [->|Hne].
    + rewrite Hfr by lia. rewrite list_lookup_insert_eq by (unfold zlen in Hlen; lia). done.
    + rewrite Hmv by lia. apply list_lookup_insert_ne. lia.
Qed.

(** Doubling a full queue keeps what it holds and makes room. *)
Lemma pqueue_expand_ok q l : pq_holds q l -> zlen l + 1 = pq_cap q -> pq_cap q < 2 ^ 30 ->
  exists q', pqueue_expand q = Ok q' /\ pq_holds q' l /\ zlen l + 1 < pq_cap q' /\ (pq_tail q' + 1) mod pq_cap q' <> pq_head q'.
Proof.
  intros [Hlen Hcap Hhd Hfit Htl Hent] Hfull Hb. set (c := pq_cap q) in *. set (h := pq_head q) in *.
  assert (pq_tail q = if h =? 0 then c - 1 else h - 1) as Et by (rewrite Htl; zb).
  unfold pqueue_expand. fold c h. rewrite Et. rewrite s32_small by lia.
  assert (((if h =? 0 then c - 1 else h - 1) + 1) mod c = h) as -> by (zb; [rewrite Z.sub_add, Z.mod_same by lia; lia|rewrite Z.mod_small; lia]).
  rewrite Z.eqb_refl. cbn [assert_ mbind res_bind]. rewrite (proj2 (Z.ltb_ge _ 0)) by lia. cbn [mbind res_bind].
  set (b := pq_buffer q ++ replicate (Z.to_nat (c * 2 - c)) td_poison).
  assert (zlen b = c * 2) as Hbl by (unfold b, zlen in *; rewrite length_app, length_replicate; lia).
  assert (forall j : nat, (j < Z.to_nat c)%nat -> b !! j = pq_buffer q !! j) as Hb1 by (intros j Hj; unfold b; rewrite lookup_app_l by (unfold zlen in Hlen; lia); done).
  assert (forall i x, l !! i = Some x -> Z.of_nat i < zlen l) as Hi by (intros i x Hx%lookup_lt_Some; unfold zlen; lia).
  destruct (Z.ltb_spec 0 h) as [Hpos|Hz].
  - destruct (expand_loop_ok (Z.to_nat (c - h)) b (c - 1) (c * 2 - c) (c * 2)) as (b' & -> & Hl' & Hfr & Hmv); try lia. cbn [mbind res_bind].
    eexists. split; [done|]. split; [split|]; cbn [pq_buffer pq_head pq_tail pq_cap]; try (done || lia).
    + zb.
    + intros i x Hx. specialize (Hi _ _ Hx). specialize (Hent _ _ Hx). unfold pq_place in *. cbn [pq_head pq_cap] in *. fold c h in Hent.
      destruct (Z.ltb_spec (h + Z.of_nat i) c).
      * rewrite (proj2 (Z.ltb_lt _ _)) by lia. replace (h + (c * 2 - c) + Z.of_nat i) with (h + Z.of_nat i + (c * 2 - c)) by lia.
        rewrite Hmv, Hb1 by lia. done.
      * rewrite (proj2 (Z.ltb_ge _ _)) by lia. replace (h + (c * 2 - c) + Z.of_nat i - c * 2) with (h + Z.of_nat i - c) by lia.
        rewrite Hfr, Hb1 by lia. done.
    + zb. rewrite Z.mod_small by lia. lia.
  - eexists. split; [done|]. split; [split|]; cbn [pq_buffer pq_head pq_tail pq_cap]; try (done || lia).
    + zb.
    + intros i x Hx. specialize (Hi _ _ Hx). specialize (Hent _ _ Hx). unfold pq_place in *. cbn [pq_head pq_cap] in *. fold c h in Hent.
      rewrite (proj2 (Z.ltb_lt _ _)) in Hent by lia. rewrite (proj2 (Z.ltb_lt _ _)) by lia. rewrite Hb1 by lia. done.
    + zb. rewrite Z.mod_small by lia. lia.
Qed.

(** A push appends to the queue, whether it is full or not. *)
Lemma pqueue_push_ok x q l : pq_holds q l -> zlen l < 2 ^ 30 - 1 ->
  exists q', pqueue_push x q = Ok q' /\ pq_holds q' (l ++ [x]).
Proof.
  intros Hq Hb. unfold pqueue_push.
  assert (exists q', (if (pq_tail q + 1) mod pq_cap q =? pq_head q then pqueue_expand q else Ok q) = Ok q' /\
    pq_holds q' l /\ zlen l + 1 < pq_cap q') as (q' & -> & Hq' & Hroom).
  { destruct (Z.eqb_spec ((pq_tail q + 1) mod pq_cap q) (pq_head q)) as [E|E].
    - destruct Hq as [? ? ? ? Htl ?]. assert (zlen l + 1 = pq_cap q).
      { destruct (Z.ltb_spec (pq_head q + zlen l) (pq_cap q)); rewrite Htl in E; unfold zlen in *.
        - destruct (decide (pq_head q + Z.of_nat (length l) + 1 = pq_cap q)); [|rewrite Z.mod_small in E; lia].
          rewrite e, Z.mod_same in E; lia.
        - rewrite Z.mod_small in E; lia. }
      destruct (pqueue_expand_ok q l) as (q' & -> & ? & ? & _); [by split|lia|lia|]. by eauto.
    - exists q. split; [done|]. split; [done|]. destruct Hq as [? ? ? ? Htl ?].
      destruct (decide (zlen l + 1 = pq_cap q)) as [Hf|]; [|lia]. exfalso. apply E. rewrite Htl.
      destruct (Z.ltb_spec (pq_head q + zlen l) (pq_cap q)).
      + replace (pq_head q) with 0 in * by lia. replace (0 + zlen l + 1) with (pq_cap q) by lia. apply Z.mod_same. lia.
      + rewrite Z.mod_small; lia. }
  cbn [mbind res_bind]. destruct Hq' as [Hlen Hcap Hhd Hfit Htl Hent]. assert (0 <= zlen l) by (unfold zlen; lia).
  assert (0 <= pq_tail q' < pq_cap q') as Ht by (rewrite Htl; zb).
  unfold st. rewrite (proj2 (Z.leb_le 0 _)), (proj2 (Z.ltb_lt _ (zlen (pq_buffer q')))) by lia. cbn [andb mbind res_bind].
  eexists. split; [done|]. split; cbn [pq_buffer pq_head pq_tail pq_cap]; unfold zlen in *; rewrite ?length_insert, ?length_app; cbn [length]; try (done || lia).
  - destruct (Z.ltb_spec (pq_head q' + Z.of_nat (length l)) (pq_cap q')).
    + rewrite Htl. destruct (Z.ltb_spec (pq_head q' + Z.of_nat (length l + 1)) (pq_cap q')); [rewrite Z.mod_small; lia|].
      replace (pq_head q' + Z.of_nat (length l) + 1) with (pq_cap q') by lia. rewrite Z.mod_same by lia. lia.
    + rewrite Htl, Z.mod_small by lia. zb.
  - intros i y. unfold pq_place in *. cbn [pq_head pq_cap]. intros [Hy|[Hlt Hy]]%lookup_app_Some.
    + pose proof (lookup_lt_Some _ _ _ Hy). rewrite list_lookup_insert_ne; [by apply Hent|].
      rewrite Htl. repeat case_match; lia.
    + destruct (i - length l)%nat as [|k] eqn:E; [|done]. injection Hy as ->. replace i with (length l) by lia. rewrite <- Htl. apply list_lookup_insert_eq. lia.
Qed.

(** A pop takes the oldest descriptor. *)
Lemma pqueue_pop_ok x q l : pq_holds q (x :: l) -> exists q', pqueue_pop q = Ok (x, q') /\ pq_holds q' l.
Proof.
  intros [Hlen Hcap Hhd Hfit Htl Hent]. unfold pqueue_pop. unfold zlen in *. cbn [length] in *.
  rewrite (proj2 (Z.eqb_neq (pq_tail q) (pq_head q))) by (rewrite Htl; zb). cbn [negb assert_ mbind res_bind].
  unfold ld. rewrite (proj2 (Z.leb_le 0 (pq_head q))) by lia.
  assert (pq_buffer q !! Z.to_nat (pq_head q) = Some x) as ->.
  { specialize (Hent 0%nat x eq_refl). unfold pq_place in Hent. rewrite Z.add_0_r, (proj2 (Z.ltb_lt _ _)) in Hent by lia. done. }
  cbn [mbind res_bind]. eexists. split; [done|].
  assert ((pq_head q + 1) mod pq_cap q = if pq_head q + 1 <? pq_cap q then pq_head q + 1 else 0) as Eh.
  { zb; [rewrite Z.mod_small; lia|]. replace (pq_head q + 1) with (pq_cap q) by lia. by rewrite Z.mod_same by lia. }
  split; cbn [pq_buffer pq_head pq_tail pq_cap]; unfold zlen; try (done || lia).
  - rewrite Eh, Htl. zb.
  - intros i y Hy. specialize (Hent (S i) y Hy). pose proof (lookup_lt_Some _ _ _ Hy). unfold pq_place in *. cbn [pq_head pq_cap]. rewrite Eh.
    revert Hent. repeat case_match; intros <-; f_equal; lia.
Qed.

Lemma pqueue_pop_empty q : pq_holds q [] -> pqueue_pop q = Err (Panic "sched queue empty").
Proof.
  intros [Hlen Hcap Hhd Hfit Htl Hent]. unfold pqueue_pop. change (zlen []) with 0 in *. rewrite Z.add_0_r in *.
  rewrite (proj2 (Z.ltb_lt _ _)) in Htl by lia. by rewrite Htl, Z.eqb_refl.
Qed.

(** A queue stands for one list only. *)
Lemma pq_holds_inj q l1 l2 : pq_holds q l1 -> pq_holds q l2 -> l1 = l2.
Proof.
  intros [_ _ Hh1 Hf1 Ht1 He1] [_ _ Hh2 Hf2 Ht2 He2]. assert (zlen l1 = zlen l2) as Hlen by (revert Ht1; rewrite Ht2; unfold zlen in *; zb).
  unfold zlen in Hlen. apply list_eq. intros i. destruct (l1 !! i) as [x|] eqn:E1.
  - destruct (l2 !! i) as [y|] eqn:E2; [rewrite <- (He1 _ _ E1), <- (He2 _ _ E2); done|]. apply lookup_ge_None in E2. apply lookup_lt_Some in E1. lia.
  - apply lookup_ge_None in E1. symmetry. apply lookup_ge_None. lia.
Qed.

(** ** Sequences of operations *)

Inductive queue_op := Push (x : td) | Pop.

(** The threads that a sequence of operations takes out of the circular buffer. *)
Fixpoint queue_run (ops : list queue_op) (q : priority_queue) : res (list td) :=
  match ops with
  | [] => Ok []
  | Push x :: ops => q ← pqueue_push x q; queue_run ops q
  | Pop :: ops => '(x, q) ← pqueue_pop q; out ← queue_run ops q; Ok (x :: out)
  end.

(** The same for a first-in first-out list. *)
Fixpoint fifo_run (ops : list queue_op) (l : list td) : res (list td) :=
  match ops with
  | [] => Ok []
  | Push x :: ops => fifo_run ops (l ++ [x])
  | Pop :: ops => match l with [] => Err (Panic "sched queue empty") | x :: l => out ← fifo_run ops l; Ok (x :: out) end
  end.

Lemma queue_run_ok ops q l : pq_holds q l -> zlen l + zlen ops < 2 ^ 30 -> queue_run ops q = fifo_run ops l.
Proof.
  revert q l. induction ops as [|[x|] ops IH]; intros q l Hq Hb; [done|..]; cbn [queue_run fifo_run]; unfold zlen in *; cbn [length] in Hb.
  - destruct (pqueue_push_ok x q l Hq) as (q' & -> & Hq'); [unfold zlen; lia|]. apply IH; [done|]. rewrite length_app. cbn [length]. lia.
  - destruct l as [|x l]; [by rewrite (pqueue_pop_empty _ Hq)|]. destruct (pqueue_pop_ok _ _ _ Hq) as (q' & -> & Hq'). cbn [mbind res_bind].
    rewrite (IH q' l Hq'); [done|]. cbn [length] in Hb. lia.
Qed.

(** C27: The circular buffer of the scheduler, from its three initial places on and however often
    it has to grow, behaves like a first-in first-out queue: any sequence of pushes and pops
    takes out the same threads in the same order, and panics where the queue is empty. *)
Theorem ready_queue_refines mem ops : length mem = 3%nat -> zlen ops < 2 ^ 30 -> queue_run ops (init_pqueue mem) = fifo_run ops [].
Proof. intros Hm Hb. apply queue_run_ok; [by apply init_pqueue_holds|]. exact Hb. Qed.

#[global] Arguments pqueue_push : simpl never.
#[global] Arguments pqueue_pop : simpl never.
