(* ===== verification/SchedState.v ===== *)
(** * The state of the scheduler ([kernel/sched/sched.c], [thread.h], [process.h], [kernel/lib/time.c])

    The process table, the ready queue, the sleeping threads, the killed processes, and what
    the processor holds for them: the interrupt flag, the two master entries of the mapped
    process, the stack for the next interrupt and for the next system call.

    A process pointer is the position of the process in the table.  The kernel runs on one
    processor: a function is one step of the machine up to the point where it enables the
    interrupts or switches threads, and a lock that is taken when it is acquired is a
    [Deadlock].  Saved registers are kept per thread, by their address on its stacks. *)

From S2P Require Import Prelude SchedQueue.





Definition KERNEL_PID : Z := 0.
Definition MAX_PID : Z := 0xffff.
Definition MAX_TID : Z := 0xffff.
Definition NOSIG : Z := -1.
Definition SIGCHLD : Z := 17.
Definition KERNEL_CS : Z := 0x08.
Definition KERNEL_DS : Z := 0x10.
Definition USER_CS : Z := 0x23.
Definition USER_DS : Z := 0x1b.
Definition USER_RF : Z := 0x202.
Definition KERNEL_THREAD_STACK_SIZE : Z := 1024 * 32.

(** [struct gp_regs]; [r_others] are [rsi], [rbx], [rdx], [rcx], [rax], [rbp] and [r15] to [r8]. *)
Record gp_regs := GpRegs { r_rdi : Z; r_others : list Z; r_rip : Z; r_cs : Z; r_rflags : Z; r_rsp : Z; r_ss : Z }.
Definition sizeof_gp_regs : Z := 160.

Inductive tstate := READY | RUNNING | BLOCKED.
#[export] Instance tstate_eq_dec : EqDecision tstate.
Proof. solve_decision. Defined.

(** [struct thread]: [t_frames] holds the registers saved on the stacks of the thread. *)
Record thread := Thread { t_pid : Z; t_tid : Z; stack_base : Z; stack_size : Z; kstack_base : Z; kstack_size : Z; t_rsp : Z; t_frames : gmap Z gp_regs; t_state : tstate; should_exit : bool; uninterruptible : bool; should_block : bool; exit_status : Z; sig_wait : bool; futex_signaled : bool }.
Definition set_t_rsp (v : Z) (t : thread) : thread := Thread (t_pid t) (t_tid t) (stack_base t) (stack_size t) (kstack_base t) (kstack_size t) v (t_frames t) (t_state t) (should_exit t) (uninterruptible t) (should_block t) (exit_status t) (sig_wait t) (futex_signaled t).
Definition set_t_frames (v : gmap Z gp_regs) (t : thread) : thread := Thread (t_pid t) (t_tid t) (stack_base t) (stack_size t) (kstack_base t) (kstack_size t) (t_rsp t) v (t_state t) (should_exit t) (uninterruptible t) (should_block t) (exit_status t) (sig_wait t) (futex_signaled t).
Definition set_t_state (v : tstate) (t : thread) : thread := Thread (t_pid t) (t_tid t) (stack_base t) (stack_size t) (kstack_base t) (kstack_size t) (t_rsp t) (t_frames t) v (should_exit t) (uninterruptible t) (should_block t) (exit_status t) (sig_wait t) (futex_signaled t).
Definition set_should_exit (v : bool) (t : thread) : thread := Thread (t_pid t) (t_tid t) (stack_base t) (stack_size t) (kstack_base t) (kstack_size t) (t_rsp t) (t_frames t) (t_state t) v (uninterruptible t) (should_block t) (exit_status t) (sig_wait t) (futex_signaled t).
Definition set_uninterruptible (v : bool) (t : thread) : thread := Thread (t_pid t) (t_tid t) (stack_base t) (stack_size t) (kstack_base t) (kstack_size t) (t_rsp t) (t_frames t) (t_state t) (should_exit t) v (should_block t) (exit_status t) (sig_wait t) (futex_signaled t).
Definition set_should_block (v : bool) (t : thread) : thread := Thread (t_pid t) (t_tid t) (stack_base t) (stack_size t) (kstack_base t) (kstack_size t) (t_rsp t) (t_frames t) (t_state t) (should_exit t) (uninterruptible t) v (exit_status t) (sig_wait t) (futex_signaled t).
Definition set_sig_wait (v : bool) (t : thread) : thread := Thread (t_pid t) (t_tid t) (stack_base t) (stack_size t) (kstack_base t) (kstack_size t) (t_rsp t) (t_frames t) (t_state t) (should_exit t) (uninterruptible t) (should_block t) (exit_status t) v (futex_signaled t).
Definition set_futex_signaled (v : bool) (t : thread) : thread := Thread (t_pid t) (t_tid t) (stack_base t) (stack_size t) (kstack_base t) (kstack_size t) (t_rsp t) (t_frames t) (t_state t) (should_exit t) (uninterruptible t) (should_block t) (exit_status t) (sig_wait t) v.

Record futex_waiter := FutexWaiter { fw_uaddr : Z; fw_tid : Z }.

(** [struct process], the fields the scheduler, the signals and the futexes use. *)
Record process := Process { p_pid : Z; p_ppid : Z; private_pd : Z; shared_pd : Z; threads : list thread; p_lock : bool; sighandler : Z; ign_mask : Z; blk_mask : Z; sig_pending : Z; sig_current : Z; sig_return_context : Z; futex_waiters : list futex_waiter }.
Definition set_threads (v : list thread) (p : process) : process := Process (p_pid p) (p_ppid p) (private_pd p) (shared_pd p) v (p_lock p) (sighandler p) (ign_mask p) (blk_mask p) (sig_pending p) (sig_current p) (sig_return_context p) (futex_waiters p).
Definition set_p_lock (v : bool) (p : process) : process := Process (p_pid p) (p_ppid p) (private_pd p) (shared_pd p) (threads p) v (sighandler p) (ign_mask p) (blk_mask p) (sig_pending p) (sig_current p) (sig_return_context p) (futex_waiters p).
Definition set_sighandler (v : Z) (p : process) : process := Process (p_pid p) (p_ppid p) (private_pd p) (shared_pd p) (threads p) (p_lock p) v (ign_mask p) (blk_mask p) (sig_pending p) (sig_current p) (sig_return_context p) (futex_waiters p).
Definition set_ign_mask (v : Z) (p : process) : process := Process (p_pid p) (p_ppid p) (private_pd p) (shared_pd p) (threads p) (p_lock p) (sighandler p) v (blk_mask p) (sig_pending p) (sig_current p) (sig_return_context p) (futex_waiters p).
Definition set_blk_mask (v : Z) (p : process) : process := Process (p_pid p) (p_ppid p) (private_pd p) (shared_pd p) (threads p) (p_lock p) (sighandler p) (ign_mask p) v (sig_pending p) (sig_current p) (sig_return_context p) (futex_waiters p).
Definition set_sig_pending (v : Z) (p : process) : process := Process (p_pid p) (p_ppid p) (private_pd p) (shared_pd p) (threads p) (p_lock p) (sighandler p) (ign_mask p) (blk_mask p) v (sig_current p) (sig_return_context p) (futex_waiters p).
Definition set_sig_current (v : Z) (p : process) : process := Process (p_pid p) (p_ppid p) (private_pd p) (shared_pd p) (threads p) (p_lock p) (sighandler p) (ign_mask p) (blk_mask p) (sig_pending p) v (sig_return_context p) (futex_waiters p).
Definition set_sig_return_context (v : Z) (p : process) : process := Process (p_pid p) (p_ppid p) (private_pd p) (shared_pd p) (threads p) (p_lock p) (sighandler p) (ign_mask p) (blk_mask p) (sig_pending p) (sig_current p) v (futex_waiters p).
Definition set_futex_waiters (v : list futex_waiter) (p : process) : process := Process (p_pid p) (p_ppid p) (private_pd p) (shared_pd p) (threads p) (p_lock p) (sighandler p) (ign_mask p) (blk_mask p) (sig_pending p) (sig_current p) (sig_return_context p) v.

Record sleeping_thread := SleepingThread { st_tid : Z; st_pid : Z; wakeup_time : Z }.

(** The static variables; [released_stacks] records the stacks that [thread_terminate] unmaps,
    each with the private memory mapped at this time. *)
Record sched := Sched { processes : list process; killed_processes : list process; pqueue : priority_queue; n_ready_threads : Z; sleeping_threads : list sleeping_thread; current_pid : Z; current_tid : Z; currently_in_irq : bool; currently_in_nested_irq : Z; sched_running : bool; kernel_process_running : bool; sched_lock : bool; sleep_lock : bool; interrupts : bool; master_private : Z; master_shared : Z; tss_rsp : Z; syscall_stack : Z; released_stacks : list (Z * Z); timer_count : Z }.
Definition set_processes (v : list process) (s : sched) : sched := Sched v (killed_processes s) (pqueue s) (n_ready_threads s) (sleeping_threads s) (current_pid s) (current_tid s) (currently_in_irq s) (currently_in_nested_irq s) (sched_running s) (kernel_process_running s) (sched_lock s) (sleep_lock s) (interrupts s) (master_private s) (master_shared s) (tss_rsp s) (syscall_stack s) (released_stacks s) (timer_count s).
Definition set_killed_processes (v : list process) (s : sched) : sched := Sched (processes s) v (pqueue s) (n_ready_threads s) (sleeping_threads s) (current_pid s) (current_tid s) (currently_in_irq s) (currently_in_nested_irq s) (sched_running s) (kernel_process_running s) (sched_lock s) (sleep_lock s) (interrupts s) (master_private s) (master_shared s) (tss_rsp s) (syscall_stack s) (released_stacks s) (timer_count s).
Definition set_pqueue (v : priority_queue) (s : sched) : sched := Sched (processes s) (killed_processes s) v (n_ready_threads s) (sleeping_threads s) (current_pid s) (current_tid s) (currently_in_irq s) (currently_in_nested_irq s) (sched_running s) (kernel_process_running s) (sched_lock s) (sleep_lock s) (interrupts s) (master_private s) (master_shared s) (tss_rsp s) (syscall_stack s) (released_stacks s) (timer_count s).
Definition set_n_ready_threads (v : Z) (s : sched) : sched := Sched (processes s) (killed_processes s) (pqueue s) v (sleeping_threads s) (current_pid s) (current_tid s) (currently_in_irq s) (currently_in_nested_irq s) (sched_running s) (kernel_process_running s) (sched_lock s) (sleep_lock s) (interrupts s) (master_private s) (master_shared s) (tss_rsp s) (syscall_stack s) (released_stacks s) (timer_count s).
Definition set_sleeping_threads (v : list sleeping_thread) (s : sched) : sched := Sched (processes s) (killed_processes s) (pqueue s) (n_ready_threads s) v (current_pid s) (current_tid s) (currently_in_irq s) (currently_in_nested_irq s) (sched_running s) (kernel_process_running s) (sched_lock s) (sleep_lock s) (interrupts s) (master_private s) (master_shared s) (tss_rsp s) (syscall_stack s) (released_stacks s) (timer_count s).
Definition set_current_pid (v : Z) (s : sched) : sched := Sched (processes s) (killed_processes s) (pqueue s) (n_ready_threads s) (sleeping_threads s) v (current_tid s) (currently_in_irq s) (currently_in_nested_irq s) (sched_running s) (kernel_process_running s) (sched_lock s) (sleep_lock s) (interrupts s) (master_private s) (master_shared s) (tss_rsp s) (syscall_stack s) (released_stacks s) (timer_count s).
Definition set_current_tid (v : Z) (s : sched) : sched := Sched (processes s) (killed_processes s) (pqueue s) (n_ready_threads s) (sleeping_threads s) (current_pid s) v (currently_in_irq s) (currently_in_nested_irq s) (sched_running s) (kernel_process_running s) (sched_lock s) (sleep_lock s) (interrupts s) (master_private s) (master_shared s) (tss_rsp s) (syscall_stack s) (released_stacks s) (timer_count s).
Definition set_currently_in_irq (v : bool) (s : sched) : sched := Sched (processes s) (killed_processes s) (pqueue s) (n_ready_threads s) (sleeping_threads s) (current_pid s) (current_tid s) v (currently_in_nested_irq s) (sched_running s) (kernel_process_running s) (sched_lock s) (sleep_lock s) (interrupts s) (master_private s) (master_shared s) (tss_rsp s) (syscall_stack s) (released_stacks s) (timer_count s).
Definition set_currently_in_nested_irq (v : Z) (s : sched) : sched := Sched (processes s) (killed_processes s) (pqueue s) (n_ready_threads s) (sleeping_threads s) (current_pid s) (current_tid s) (currently_in_irq s) v (sched_running s) (kernel_process_running s) (sched_lock s) (sleep_lock s) (interrupts s) (master_private s) (master_shared s) (tss_rsp s) (syscall_stack s) (released_stacks s) (timer_count s).
Definition set_sched_running (v : bool) (s : sched) : sched := Sched (processes s) (killed_processes s) (pqueue s) (n_ready_threads s) (sleeping_threads s) (current_pid s) (current_tid s) (currently_in_irq s) (currently_in_nested_irq s) v (kernel_process_running s) (sched_lock s) (sleep_lock s) (interrupts s) (master_private s) (master_shared s) (tss_rsp s) (syscall_stack s) (released_stacks s) (timer_count s).
Definition set_kernel_process_running (v : bool) (s : sched) : sched := Sched (processes s) (killed_processes s) (pqueue s) (n_ready_threads s) (sleeping_threads s) (current_pid s) (current_tid s) (currently_in_irq s) (currently_in_nested_irq s) (sched_running s) v (sched_lock s) (sleep_lock s) (interrupts s) (master_private s) (master_shared s) (tss_rsp s) (syscall_stack s) (released_stacks s) (timer_count s).
Definition set_sched_lock (v : bool) (s : sched) : sched := Sched (processes s) (killed_processes s) (pqueue s) (n_ready_threads s) (sleeping_threads s) (current_pid s) (current_tid s) (currently_in_irq s) (currently_in_nested_irq s) (sched_running s) (kernel_process_running s) v (sleep_lock s) (interrupts s) (master_private s) (master_shared s) (tss_rsp s) (syscall_stack s) (released_stacks s) (timer_count s).
Definition set_sleep_lock (v : bool) (s : sched) : sched := Sched (processes s) (killed_processes s) (pqueue s) (n_ready_threads s) (sleeping_threads s) (current_pid s) (current_tid s) (currently_in_irq s) (currently_in_nested_irq s) (sched_running s) (kernel_process_running s) (sched_lock s) v (interrupts s) (master_private s) (master_shared s) (tss_rsp s) (syscall_stack s) (released_stacks s) (timer_count s).
Definition set_interrupts (v : bool) (s : sched) : sched := Sched (processes s) (killed_processes s) (pqueue s) (n_ready_threads s) (sleeping_threads s) (current_pid s) (current_tid s) (currently_in_irq s) (currently_in_nested_irq s) (sched_running s) (kernel_process_running s) (sched_lock s) (sleep_lock s) v (master_private s) (master_shared s) (tss_rsp s) (syscall_stack s) (released_stacks s) (timer_count s).
Definition set_master_private (v : Z) (s : sched) : sched := Sched (processes s) (killed_processes s) (pqueue s) (n_ready_threads s) (sleeping_threads s) (current_pid s) (current_tid s) (currently_in_irq s) (currently_in_nested_irq s) (sched_running s) (kernel_process_running s) (sched_lock s) (sleep_lock s) (interrupts s) v (master_shared s) (tss_rsp s) (syscall_stack s) (released_stacks s) (timer_count s).
Definition set_master_shared (v : Z) (s : sched) : sched := Sched (processes s) (killed_processes s) (pqueue s) (n_ready_threads s) (sleeping_threads s) (current_pid s) (current_tid s) (currently_in_irq s) (currently_in_nested_irq s) (sched_running s) (kernel_process_running s) (sched_lock s) (sleep_lock s) (interrupts s) (master_private s) v (tss_rsp s) (syscall_stack s) (released_stacks s) (timer_count s).
Definition set_tss_rsp (v : Z) (s : sched) : sched := Sched (processes s) (killed_processes s) (pqueue s) (n_ready_threads s) (sleeping_threads s) (current_pid s) (current_tid s) (currently_in_irq s) (currently_in_nested_irq s) (sched_running s) (kernel_process_running s) (sched_lock s) (sleep_lock s) (interrupts s) (master_private s) (master_shared s) v (syscall_stack s) (released_stacks s) (timer_count s).
Definition set_syscall_stack (v : Z) (s : sched) : sched := Sched (processes s) (killed_processes s) (pqueue s) (n_ready_threads s) (sleeping_threads s) (current_pid s) (current_tid s) (currently_in_irq s) (currently_in_nested_irq s) (sched_running s) (kernel_process_running s) (sched_lock s) (sleep_lock s) (interrupts s) (master_private s) (master_shared s) (tss_rsp s) v (released_stacks s) (timer_count s).
Definition set_released_stacks (v : list (Z * Z)) (s : sched) : sched := Sched (processes s) (killed_processes s) (pqueue s) (n_ready_threads s) (sleeping_threads s) (current_pid s) (current_tid s) (currently_in_irq s) (currently_in_nested_irq s) (sched_running s) (kernel_process_running s) (sched_lock s) (sleep_lock s) (interrupts s) (master_private s) (master_shared s) (tss_rsp s) (syscall_stack s) v (timer_count s).
Definition set_timer_count (v : Z) (s : sched) : sched := Sched (processes s) (killed_processes s) (pqueue s) (n_ready_threads s) (sleeping_threads s) (current_pid s) (current_tid s) (currently_in_irq s) (currently_in_nested_irq s) (sched_running s) (kernel_process_running s) (sched_lock s) (sleep_lock s) (interrupts s) (master_private s) (master_shared s) (tss_rsp s) (syscall_stack s) (released_stacks s) v.

(** ** Computations on this state *)

Definition M (A : Type) := sched -> res (A * sched).
#[export] Instance M_ret : MRet M := fun A a s => Ok (a, s).
#[export] Instance M_bind : MBind M := fun A B k m s => match m s with Ok (a, s') => k a s' | Err f => Err f end.

Definition lift {A} (r : res A) : M A := fun s => a ← r; Ok (a, s).
Definition gets {A} (f : sched -> A) : M A := fun s => Ok (f s, s).
Definition modify (f : sched -> sched) : M () := fun s => Ok ((), f s).
Definition assertM (b : bool) (msg : string) : M () := lift (assert_ b msg).
Definition when (b : bool) (m : M ()) : M () := if b then m else mret ().

(** A loop over the elements of an array that does not change during the loop. *)
Fixpoint for_each {A} (l : list A) (body : A -> M ()) : M () :=
  match l with [] => mret () | x :: l => _ ← body x; for_each l body end.

(** [interrupt_enable], [get_rflags], [set_rflags], [_cli] and [_sti]: the interrupt flag. *)
Definition interrupt_enable : M bool := gets interrupts.
Definition get_rflags : M bool := gets interrupts.
Definition set_rflags (rf : bool) : M () := modify (set_interrupts rf).
Definition _cli : M () := modify (set_interrupts false).
Definition _sti : M () := modify (set_interrupts true).
Definition assert_disabled : M () := ie ← interrupt_enable; assertM (negb ie) "!interrupt_enable()".
Definition assert_enabled : M () := ie ← interrupt_enable; assertM ie "interrupt_enable()".

(** ** Reading and writing through pointers *)

Definition get_process (i : nat) : M process :=
  ps ← gets processes; match ps !! i with Some p => mret p | None => lift (Err (Fault "process")) end.
Definition put_process (i : nat) (p : process) : M () := modify (fun s => set_processes (<[i := p]> (processes s)) s).
Definition update_process (i : nat) (f : process -> process) : M () := p ← get_process i; put_process i (f p).

Definition get_thread (i j : nat) : M thread :=
  p ← get_process i; match threads p !! j with Some t => mret t | None => lift (Err (Fault "thread")) end.
Definition put_thread (i j : nat) (t : thread) : M () := update_process i (fun p => set_threads (<[j := t]> (threads p)) p).
Definition update_thread (i j : nat) (f : thread -> thread) : M () := t ← get_thread i j; put_thread i j (f t).

(** What a thread's memory holds at [a]: memory nobody wrote to yet reads as zeros. *)
Definition frame (t : thread) (a : Z) : gp_regs := default (GpRegs 0 [] 0 0 0 0 0) (t_frames t !! a).

(** ** Spinlocks ([kernel/sync/spinlock.h]) *)

Definition acquire_sched : M () :=
  _ ← assert_disabled;
  l ← gets sched_lock;
  if l : bool then lift (Err (Deadlock "sched_lock")) else modify (set_sched_lock true).
Definition release_sched : M () := _ ← assert_disabled; modify (set_sched_lock false).

Definition acquire_sleep : M () :=
  _ ← assert_disabled;
  l ← gets sleep_lock;
  if l : bool then lift (Err (Deadlock "sleep_lock")) else modify (set_sleep_lock true).
Definition release_sleep : M () := _ ← assert_disabled; modify (set_sleep_lock false).

Definition acquire_process (i : nat) : M () :=
  _ ← assert_disabled;
  p ← get_process i;
  if p_lock p then lift (Err (Deadlock "process->lock")) else put_process i (set_p_lock true p).
Definition release_process (i : nat) : M () :=
  _ ← assert_disabled;
  update_process i (set_p_lock false).
