(* ===== verification/Sched.v ===== *)
(** * The scheduler, sleeping and signals ([kernel/sched/sched.c], [kernel/sched/process.c],
      [kernel/sched/thread.c], [kernel/lib/time.c], [kernel/int/irq.c])

    In the order in which the functions call each other: the ready queue and the process
    table, blocking and unblocking, sleeping threads, signals, removing processes, the
    switch to the next thread, and the interrupts that lead to it. *)

From S2P Require Import Prelude SchedQueue SchedState.





(** ** The ready queue and the process table *)

Definition sched_push_ready_thread (pid tid : Z) : M () :=
  rf ← get_rflags; _ ← _cli; _ ← acquire_sched;
  _ ← assertM (0 <=? pid) "pid >= 0"; _ ← assertM (pid <=? MAX_PID) "pid <= MAX_PID";
  _ ← assertM (0 <=? tid) "tid >= 0"; _ ← assertM (tid <=? MAX_TID) "tid <= MAX_TID";
  _ ← assert_disabled;
  q ← gets pqueue;
  q ← lift (pqueue_push (Td pid tid) q);
  _ ← modify (set_pqueue q);
  _ ← modify (fun s => set_n_ready_threads (n_ready_threads s + 1) s);
  _ ← release_sched; set_rflags rf.

Definition pop_ready_thread : M td :=
  rf ← get_rflags; _ ← _cli; _ ← acquire_sched;
  _ ← assert_disabled;
  q ← gets pqueue;
  '(th, q) ← lift (pqueue_pop q);
  _ ← modify (set_pqueue q);
  _ ← modify (fun s => set_n_ready_threads (n_ready_threads s - 1) s);
  _ ← assertM (0 <=? td_pid th) "thread.pid >= 0"; _ ← assertM (td_pid th <=? MAX_PID) "thread.pid <= MAX_PID";
  _ ← assertM (0 <=? td_tid th) "thread.tid >= 0"; _ ← assertM (td_tid th <=? MAX_TID) "thread.tid <= MAX_TID";
  _ ← release_sched; _ ← set_rflags rf; mret th.

(** The first thread with a given [tid]. *)
Fixpoint find_thread (tid : Z) (ts : list thread) (j : nat) : option nat :=
  match ts with [] => None | t :: ts => if t_tid t =? tid then Some j else find_thread tid ts (S j) end.

Definition sched_get_thread_by_tid (process : option nat) (tid : Z) : M (option nat) :=
  match process with
  | None => mret None
  | Some i => p ← get_process i; _ ← assertM (p_lock p) "process->lock"; mret (find_thread tid (threads p) 0)
  end.

(** The loop of [sched_get_process] does not stop at the first process it finds. *)
Fixpoint find_process (pid : Z) (ps : list process) (i : nat) (found : option nat) : option nat :=
  match ps with [] => found | p :: ps => find_process pid ps (S i) (if p_pid p =? pid then Some i else found) end.

Definition sched_get_process (pid : Z) : M (option nat) :=
  rf ← get_rflags; _ ← _cli; _ ← acquire_sched;
  ps ← gets processes;
  match find_process pid ps 0 None with
  | None => _ ← release_sched; _ ← set_rflags rf; mret None
  | Some i => _ ← acquire_process i; _ ← release_sched; mret (Some i)
  end.

Definition sched_current_process : M nat :=
  pid ← gets current_pid;
  p ← sched_get_process pid;
  match p with Some i => mret i | None => lift (panic "process") end.

(** [*add_process() = new] of [sched_create_process], and the release of the lock after it. *)
Definition add_process (new : process) : M () :=
  _ ← acquire_sched;
  _ ← modify (fun s => set_processes (processes s ++ [new]) s);
  release_sched.

Definition sched_launch_thread (i j : nat) : M () :=
  _ ← update_thread i j (set_t_state READY);
  t ← get_thread i j;
  sched_push_ready_thread (t_pid t) (t_tid t).

(** ** Unblocking *)

Definition sched_unblock_thread (i j : nat) : M () :=
  t ← get_thread i j;
  if bool_decide (t_state t = BLOCKED) then
    _ ← put_thread i j (set_t_state READY t);
    sched_push_ready_thread (t_pid t) (t_tid t)
  else mret ().

Definition sched_unblock (pid tid : Z) : M () :=
  rf ← get_rflags; _ ← _cli;
  p ← sched_get_process pid;
  match p with
  | None => mret ()
  | Some i =>
      t ← sched_get_thread_by_tid (Some i) tid;
      _ ← match t with None => mret () | Some j => sched_unblock_thread i j end;
      _ ← release_process i; set_rflags rf
  end.

(** ** Sleeping threads ([kernel/lib/time.c]) *)

Fixpoint insert_position (wakeup : Z) (l : list sleeping_thread) : nat :=
  match l with [] => 0%nat | t :: l => if wakeup <? wakeup_time t then 0%nat else S (insert_position wakeup l) end.

Definition register_sleeping_thread (tid pid wakeup : Z) : M () :=
  rf ← get_rflags; _ ← _cli; _ ← acquire_sleep;
  l ← gets sleeping_threads;
  let i := insert_position wakeup l in
  _ ← modify (set_sleeping_threads (take i l ++ SleepingThread tid pid wakeup :: drop i l));
  _ ← release_sleep; set_rflags rf.

Definition cleanup_sleeping_threads : M () :=
  rf ← get_rflags; _ ← _cli; _ ← acquire_sleep;
  _ ← modify (set_sleeping_threads []);
  _ ← release_sleep; set_rflags rf.

(** The number of threads at the front of the array whose time has come. *)
Fixpoint expired (now : Z) (l : list sleeping_thread) : nat :=
  match l with [] => 0%nat | t :: l => if wakeup_time t <? now then S (expired now l) else 0%nat end.

Definition wakeup_threads (now : Z) : M () :=
  rf ← get_rflags; _ ← assert_disabled;
  sl ← gets sleep_lock; _ ← assertM (negb sl) "!sleep_lock.val";
  _ ← _cli; _ ← acquire_sleep;
  l ← gets sleeping_threads;
  let j := expired now l in
  _ ← when (negb (Nat.eqb j 0))
        (running ← gets sched_running;
         _ ← when running (for_each (take j l) (fun t => sched_unblock (st_pid t) (st_tid t)));
         modify (set_sleeping_threads (drop j l)));
  _ ← release_sleep; set_rflags rf.

(** The last entry of a thread: the loop of [sleep_cancel] does not stop at the first one. *)
Fixpoint find_sleeping (pid tid : Z) (l : list sleeping_thread) (i : nat) (idx : option nat) : option nat :=
  match l with
  | [] => idx
  | t :: l => find_sleeping pid tid l (S i) (if (st_pid t =? pid) && (st_tid t =? tid) then Some i else idx)
  end.

Definition sleep_cancel (pid tid : Z) : M Z :=
  rf ← get_rflags; _ ← _cli; _ ← acquire_sleep;
  l ← gets sleeping_threads;
  match find_sleeping pid tid l 0 None with
  | None => _ ← release_sleep; _ ← set_rflags rf; mret (-1)
  | Some idx =>
      _ ← modify (set_sleeping_threads (take idx l ++ drop (S idx) l));
      _ ← release_sleep; _ ← set_rflags rf;
      _ ← sched_unblock pid tid; mret 0
  end.

(** ** The memory of the processes ([kernel/sched/process.c]) *)

Definition is_process_mapped (proc : option nat) : M bool :=
  pds ← match proc with
        | None => mret (0, 0)
        | Some i => p ← get_process i; mret (private_pd p, shared_pd p)
        end;
  mp ← gets master_private; ms ← gets master_shared;
  let mapped_private := mp =? pds.1 in let mapped_shared := ms =? pds.2 in
  _ ← assertM (Bool.eqb mapped_private mapped_shared) "mapped_private == mapped_shared";
  mret (match proc with Some _ => mapped_private | None => negb mapped_private end).

Definition user_map (private shared : Z) : M () :=
  mp ← gets master_private; _ ← assertM (negb (mp =? private)) "get_master_pd(PRIVATE_BASE) != map->private_pd";
  ms ← gets master_shared; _ ← assertM (negb (ms =? shared)) "get_master_pd(SHARED_BASE) != map->shared_pd";
  _ ← modify (set_master_private private); modify (set_master_shared shared).

Definition process_map (i : nat) : M () :=
  _ ← assert_disabled; p ← get_process i; user_map (private_pd p) (shared_pd p).

Definition process_unmap : M () :=
  _ ← assert_disabled;
  mp ← gets master_private; _ ← assertM (negb (mp =? 0)) "get_master_pd(PRIVATE_BASE) != 0";
  ms ← gets master_shared; _ ← assertM (negb (ms =? 0)) "get_master_pd(SHARED_BASE) != 0";
  _ ← modify (set_master_private 0); modify (set_master_shared 0).

(** [thread_terminate] ([kernel/sched/thread.c]): no code of the kernel registers an exit
    hook; of the memory it gives back, the stack of the thread is recorded. *)
Definition thread_terminate (i j : nat) : M () :=
  t ← get_thread i j;
  _ ← assertM (negb (uninterruptible t)) "!thread->uninterruptible";
  modify (fun s => set_released_stacks (released_stacks s ++ [(stack_base t, master_private s)]) s).

(** ** Signals ([kernel/sched/process.c]) *)

Definition is_user_private (a : Z) : bool := (0 <=? a) && (a <? 0x0000008000000000).
Definition is_user_shared (a : Z) : bool := (0x0000010000000000 <=? a) && (a <? 0x0000018000000000).
Definition is_user (a : Z) : bool := is_user_private a || is_user_shared a.

Definition process_register_signal_setup (i : nat) (user_handler ign blk : Z) : M Z :=
  _ ← assert_disabled;
  if negb (is_user_private user_handler) then mret (-1)
  else _ ← update_process i (fun p => set_sighandler user_handler (set_blk_mask blk (set_ign_mask ign p))); mret 0.

Definition prepare_process_signal (i : nat) (signal : Z) : M Z :=
  _ ← assert_disabled;
  _ ← update_process i (set_sig_current signal);
  p ← get_process i;
  _ ← assertM (negb (Z.land (sig_pending p) (Z.shiftl 1 signal) =? 0)) "(process->sig_pending & (1 << signal)) != 0";
  _ ← put_process i (set_sig_pending (Z.ldiff (sig_pending p) (Z.shiftl 1 signal)) p);
  p ← get_process i;
  _ ← assertM (1 <=? zlen (threads p)) "process->n_threads >= 1";
  t ← get_thread i 0;
  _ ← assertM (bool_decide (t_state t <> RUNNING)) "process->threads[0].state != RUNNING";
  _ ← assertM (sig_return_context p =? 0) "process->sig_return_context == NULL";
  _ ← put_process i (set_sig_return_context (t_rsp t) p);
  let regs := frame t (t_rsp t) in
  let user_rsp := r_rsp regs in
  _ ← assertM (is_user user_rsp) "is_user(user_rsp)";
  _ ← assertM (r_cs regs =? USER_CS) "thread0->rsp->cs == USER_CS";
  _ ← assertM (r_ss regs =? USER_DS) "thread0->rsp->ss == USER_DS";
  let rsp := t_rsp t - sizeof_gp_regs in
  _ ← update_thread i 0 (set_t_rsp rsp);
  if rsp <? kstack_base t then mret (-1)
  else
    let junk := frame t rsp in
    _ ← update_thread i 0 (fun t => set_t_frames (<[rsp := GpRegs signal (r_others junk) (sighandler p) USER_CS USER_RF user_rsp USER_DS]> (t_frames t)) t);
    _ ← sleep_cancel (p_pid p) (t_tid t);
    t ← get_thread i 0;
    _ ← when (bool_decide (t_state t = BLOCKED)) (sched_unblock_thread i 0);
    mret 0.

Definition process_handle_signal (i : nat) : M Z :=
  _ ← assert_disabled;
  p ← get_process i;
  _ ← assertM (p_lock p) "process->lock";
  _ ← assertM (0 <? zlen (threads p)) "process->n_threads > 0";
  if sig_pending p =? 0 then mret (-1)
  else if negb (sig_current p =? NOSIG) then mret (-1)
  else
    t ← get_thread i 0;
    if uninterruptible t then mret (-1)
    else
      let bit := ffs_from 32 0 (sig_pending p) in
      _ ← assertM (negb (bit =? 0)) "bit";
      prepare_process_signal i (bit - 1).

Definition process_end_of_signal (i : nat) : M Z :=
  _ ← assert_disabled;
  mapped ← is_process_mapped (Some i);
  _ ← assertM mapped "is_process_mapped(process)";
  p ← get_process i;
  if sig_current p =? NOSIG then mret (-1)
  else
    _ ← assertM (negb (sig_return_context p =? 0)) "process->sig_return_context != NULL";
    _ ← update_thread i 0 (set_t_rsp (sig_return_context p));
    _ ← update_process i (fun p => set_sig_current NOSIG (set_sig_return_context 0 p)); mret 0.

(** The threads that wait for a signal are collected under the lock and unblocked without it. *)
Definition unblock_sigwait_threads_and_release (i : nat) (rflags : bool) : M () :=
  p ← get_process i;
  let tids := t_tid <$> filter (fun t => sig_wait t = true) (threads p) in
  _ ← put_process i (set_threads (set_sig_wait false <$> threads p) p);
  _ ← release_process i; _ ← set_rflags rflags;
  for_each tids (fun tid => sched_unblock (p_pid p) tid).

Definition process_trigger_signal (pid signal : Z) : M Z :=
  rf ← get_rflags;
  p ← sched_get_process pid;
  match p with
  | None => _ ← set_rflags rf; mret (-1)
  | Some i =>
      p ← get_process i;
      if negb (Z.land (ign_mask p) (Z.shiftl 1 signal) =? 0) then
        _ ← release_process i; _ ← set_rflags rf; mret 0
      else
        _ ← assertM (0 <? zlen (threads p)) "process->n_threads > 0";
        _ ← put_process i (set_sig_pending (Z.lor (sig_pending p) (Z.shiftl 1 signal)) p);
        _ ← unblock_sigwait_threads_and_release i rf;
        _ ← sleep_cancel pid 1;
        _ ← sched_unblock pid 1; mret 0
  end.

#[global] Arguments sched_unblock : simpl never.
#[global] Arguments sleep_cancel : simpl never.
#[global] Arguments process_trigger_signal : simpl never.
#[global] Arguments sched_get_process : simpl never.
