(* ===== verification/SchedSwitch.v ===== *)
(** * Switching threads ([kernel/sched/sched.c], [kernel/sched/process.c], [kernel/int/irq.c])

    Killing and removing processes, the choice of the next thread, the interrupts that lead
    to it, blocking the current thread, and the creation of threads. *)

From S2P Require Import Prelude SchedQueue SchedState Sched.





(** ** Killing processes *)

Definition add_killed_process (i : nat) : M () :=
  p ← get_process i;
  _ ← assertM (zlen (threads p) =? 0) "process->n_threads == 0";
  l ← gets sched_lock; _ ← assertM l "sched_lock.val == 1";
  _ ← assert_disabled;
  modify (fun s => set_killed_processes (killed_processes s ++ [p]) s).

(** The first process with a given [pid]. *)
Fixpoint first_process (pid : Z) (ps : list process) (i : nat) : option nat :=
  match ps with [] => None | p :: ps => if p_pid p =? pid then Some i else first_process pid ps (S i) end.

Definition remove_process (pid : Z) : M bool :=
  _ ← assert_disabled; _ ← acquire_sched;
  ps ← gets processes;
  '(found, ppid) ←
    match first_process pid ps 0 with
    | None => mret (false, 0)
    | Some i =>
        _ ← acquire_process i;
        p ← get_process i;
        _ ← add_killed_process i;
        _ ← modify (fun s => set_processes (swap_remove i (processes s)) s);
        mret (true, p_ppid p)
    end;
  _ ← release_sched;
  _ ← process_trigger_signal ppid SIGCHLD;
  mret found.

Definition sched_kill_process (pid : Z) : M Z :=
  _ ← assert_enabled; _ ← _cli;
  p ← sched_get_process pid;
  match p with
  | None => _ ← _sti; mret (-1)
  | Some i =>
      p ← get_process i;
      let tids := t_tid <$> threads p in
      _ ← put_process i (set_threads (set_should_exit true <$> threads p) p);
      _ ← release_process i; _ ← _sti;
      _ ← for_each tids (fun tid => _ ← sleep_cancel pid tid; sched_unblock pid tid);
      mret 0
  end.

(** The list of killed processes is emptied; [free_process] then gives back what they own. *)
Definition sched_free_killed_processes : M (list process) :=
  nested ← gets currently_in_nested_irq; _ ← assertM (nested =? 0) "!currently_in_nested_irq";
  _ ← assert_enabled;
  to_kill ← gets killed_processes;
  if zlen to_kill =? 0 then mret []
  else
    _ ← _cli; _ ← acquire_sched;
    _ ← modify (set_killed_processes []);
    _ ← release_sched; _ ← _sti;
    mret to_kill.

(** ** The next thread *)

Definition choose_next : M (nat * nat) :=
  ids ← pop_ready_thread;
  proc ← sched_get_process (td_pid ids);
  match proc with
  | None => lift (panic "proc")
  | Some i =>
      thread ← sched_get_thread_by_tid (Some i) (td_tid ids);
      match thread with
      | None => lift (panic "thread")
      | Some j =>
          t ← get_thread i j;
          _ ← assertM (bool_decide (t_state t = READY)) "thread->state == READY";
          mret (i, j)
      end
  end.

Definition irq_end : M () :=
  _ ← assert_disabled;
  irq ← gets currently_in_irq; _ ← assertM irq "currently_in_irq";
  nested ← gets currently_in_nested_irq;
  if nested =? 0 then modify (set_currently_in_irq false)
  else modify (set_currently_in_nested_irq (nested - 1)).

(** The lazy kill of the thread [j] of the process [i]: its stack is given back in the address
    space of its process. *)
Definition lazy_unmap (i j : nat) : M () :=
  mapped ← is_process_mapped (Some i);
  _ ← when (negb mapped) (process_map i);
  _ ← thread_terminate i j;
  when (negb mapped) process_unmap.

Definition lazy_kill (i j : nat) : M () :=
  _ ← lazy_unmap i j;
  _ ← update_process i (fun p => set_threads (swap_remove j (threads p)) p);
  p ← get_process i;
  _ ← release_process i;
  if zlen (threads p) =? 0 then _ ← remove_process (p_pid p); mret () else mret ().

Fixpoint select_thread (fuel : nat) : M (nat * nat) :=
  match fuel with
  | O => lift (Err NoFuel)
  | S fuel' =>
      '(i, j) ← choose_next;
      p ← get_process i; t ← get_thread i j;
      _ ← assertM (t_pid t =? p_pid p) "t->pid == p->pid";
      _ ← assertM (0 <? zlen (threads p)) "p->n_threads > 0";
      _ ← assertM (0 <? t_tid t) "t->tid > 0";
      _ ← assertM (bool_decide (t_state t = READY)) "t->state == READY";
      if should_exit t && negb (uninterruptible t) then _ ← lazy_kill i j; select_thread fuel'
      else mret (i, j)
  end.

Definition total_threads (s : sched) : nat := sum_list ((fun p => length (threads p)) <$> processes s).

(** The memory of the selected process. *)
Definition map_selected (i : nat) : M () :=
  p ← get_process i; pid ← gets current_pid;
  if negb (p_pid p =? pid) then
    mapped ← is_process_mapped None;
    _ ← when mapped process_unmap;
    when (negb (p_pid p =? 0)) (process_map i)
  else if negb (p_pid p =? KERNEL_PID) then
    mapped ← is_process_mapped (Some i);
    when (negb mapped)
      (other ← is_process_mapped None; _ ← assertM (negb other) "!is_process_mapped(NULL)"; process_map i)
  else other ← is_process_mapped None; assertM (negb other) "!is_process_mapped(NULL)".

(** [_restore_context]: the registers of the thread are loaded, with them the interrupt flag. *)
Definition restore_context (regs : gp_regs) : M () := modify (set_interrupts (Z.testbit (r_rflags regs) 9)).

(** From the selection of the thread to its execution. *)
Definition dispatch (i j : nat) : M () :=
  p ← get_process i; t ← get_thread i j;
  kernel_sp ←
    (if negb (sig_current p =? NOSIG) then
       _ ← assertM (negb (sig_return_context p =? 0)) "p->sig_return_context"; mret (sig_return_context p)
     else
       let kernel_sp := kstack_base t + kstack_size t in
       _ ← assertM (negb (kernel_sp =? 0)) "kernel_sp"; mret kernel_sp);
  pid ← gets current_pid; tid ← gets current_tid;
  _ ← when (negb (p_pid p =? pid) || negb (t_tid t =? tid)) (modify (set_tss_rsp kernel_sp));
  _ ← assertM (bool_decide (t_state t = READY)) "t->state == READY";
  _ ← put_thread i j (set_t_state RUNNING t);
  _ ← modify (set_current_pid (p_pid p)); _ ← modify (set_current_tid (t_tid t));
  let context := frame t (t_rsp t) in
  _ ← when (r_cs context =? USER_CS) (assertM (negb (uninterruptible t)) "!t->uninterruptible");
  _ ← release_process i;
  _ ← modify (set_syscall_stack kernel_sp);
  _ ← (if (r_cs context =? USER_CS) || (r_cs context =? KERNEL_CS) then mret () else lift (panic "wrong cs"));
  _ ← (if (r_ss context =? USER_DS) || (r_ss context =? KERNEL_DS) then mret () else lift (panic "wrong ss"));
  irq ← gets currently_in_irq; _ ← when irq irq_end;
  p ← get_process i; _ ← assertM (negb (p_lock p)) "p->lock == 0";
  restore_context context.

Definition schedule : M () :=
  _ ← _cli;
  kr ← gets kernel_process_running; _ ← assertM (negb kr) "!kernel_process_running";
  running ← gets sched_running; _ ← assertM running "sched_running";
  nested ← gets currently_in_nested_irq; _ ← assertM (nested =? 0) "!currently_in_nested_irq";
  fuel ← gets total_threads;
  '(i, j) ← select_thread (S fuel);
  p ← get_process i; t0 ← get_thread i 0;
  _ ← when (negb (sig_pending p =? 0) && negb (uninterruptible t0) && (sig_current p =? NOSIG))
        (_ ← process_handle_signal i; mret ());
  _ ← map_selected i;
  dispatch i j.

(** ** Interrupts *)

(** The processor and the stub of [int.s] push the registers of the current thread at [rsp]
    and disable the interrupts. *)
Definition interrupt_entry (rsp : Z) (regs : gp_regs) : M () :=
  pid ← gets current_pid; tid ← gets current_tid; ps ← gets processes;
  _ ← match find_process pid ps 0 None with
      | None => mret ()
      | Some i =>
          p ← get_process i;
          match find_thread tid (threads p) 0 with
          | None => mret ()
          | Some j => update_thread i j (fun t => set_t_frames (<[rsp := regs]> (t_frames t)) t)
          end
      end;
  _cli.

Definition sched_save (rsp : Z) : M () :=
  _ ← modify (fun s => set_currently_in_nested_irq (currently_in_nested_irq s + (if currently_in_irq s then 1 else 0)) s);
  _ ← modify (set_currently_in_irq true);
  running ← gets sched_running;
  if negb running then mret ()
  else
    pid ← gets current_pid; tid ← gets current_tid;
    p ← sched_get_process pid;
    match p with
    | None => lift (panic "p")
    | Some i =>
        th ← sched_get_thread_by_tid (Some i) tid;
        match th with
        | None => lift (panic "t")
        | Some j =>
            t ← get_thread i j;
            _ ← (if should_block t then put_thread i j (set_t_state BLOCKED (set_should_block false t))
                 else _ ← put_thread i j (set_t_state READY t); sched_push_ready_thread pid tid);
            _ ← update_thread i j (set_t_rsp rsp);
            release_process i
        end
    end.

Definition sched_irq_ack : M () :=
  irq ← gets currently_in_irq; _ ← assertM irq "currently_in_irq";
  nested ← gets currently_in_nested_irq; _ ← assertM (nested =? 0) "!currently_in_nested_irq";
  _ ← _cli;
  running ← gets sched_running;
  if running : bool then
    i ← sched_current_process;
    tid ← gets current_tid;
    t ← sched_get_thread_by_tid (Some i) tid;
    match t with
    | None => schedule
    | Some _ => _ ← release_process i; schedule
    end
  else irq_end.

(** [int_common_handler] for an interrupt; the handler tells whether it switched threads,
    after which nothing of the caller runs. *)
Definition int_common_handler (rsp : Z) (handler : M bool) : M () :=
  _ ← sched_save rsp;
  running ← gets sched_running;
  _ ← when running
        (i ← sched_current_process; p ← get_process i; pid ← gets current_pid;
         _ ← assertM (p_pid p =? pid) "p->pid == sched_current_pid()";
         release_process i);
  switched ← handler;
  if switched : bool then mret () else sched_irq_ack.

Definition yield_irq_handler : M bool := _ ← schedule; mret true.

Definition RR_TIME_SLICE_MS : Z := 10.
Definition LAPIC_IRQ_FREQ : Z := 50.

Definition timer_irq_should_schedule : M bool :=
  nested ← gets currently_in_nested_irq; _ ← assertM (nested =? 0) "!currently_in_nested_irq";
  running ← gets sched_running; kr ← gets kernel_process_running;
  if negb (nested =? 0) || negb running then mret false
  else if kr : bool then mret false
  else
    c ← gets timer_count;
    if c =? RR_TIME_SLICE_MS * LAPIC_IRQ_FREQ / 1000 then _ ← modify (set_timer_count 0); mret true
    else _ ← modify (set_timer_count (u64 (c + 1))); mret false.

Definition lapic_timer_handler (now : Z) : M bool :=
  _ ← wakeup_threads now;
  b ← timer_irq_should_schedule;
  if b : bool then _ ← schedule; mret true else mret false.

(** An interrupt of a device wakes the threads that wait for it. *)
Definition device_irq_handler (waiting : list td) : M bool :=
  _ ← for_each waiting (fun x => sched_unblock (td_pid x) (td_tid x)); mret false.

Definition interrupt (rsp : Z) (regs : gp_regs) (handler : M bool) : M () :=
  _ ← interrupt_entry rsp regs; int_common_handler rsp handler.

Definition sched_yield (rsp : Z) (regs : gp_regs) : M () :=
  _ ← assert_enabled;
  i ← sched_current_process; _ ← release_process i; _ ← _sti;
  interrupt rsp regs yield_irq_handler.

(** ** Blocking the current thread *)

(** Up to the interrupt that switches to another thread. *)
Definition sched_block (rsp : Z) (regs : gp_regs) : M () :=
  irq ← gets currently_in_irq; _ ← assertM (negb irq) "!currently_in_irq";
  running ← gets sched_running;
  if negb running then mret ()
  else
    pid ← gets current_pid; _ ← assertM (negb (pid =? KERNEL_PID)) "current_pid != KERNEL_PID";
    p ← sched_get_process pid;
    tid ← gets current_tid;
    t ← sched_get_thread_by_tid p tid;
    match p, t with
    | Some i, Some j =>
        _ ← update_thread i j (set_should_block true);
        _ ← release_process i;
        interrupt rsp regs yield_irq_handler
    | _, _ => lift (Err (Fault "t->should_block"))
    end.

(** After it, when the thread runs again: whether a signal or a futex ended the wait. *)
Definition sched_block_end (rf : bool) : M Z :=
  _ ← assert_disabled;
  pid ← gets current_pid; tid ← gets current_tid;
  p ← sched_get_process pid;
  match p with
  | None => lift (Err (Fault "p->sig_current"))
  | Some i =>
      p ← get_process i;
      let interrupted := if (tid =? 1) && (sig_current p =? NOSIG) && negb (sig_pending p =? 0) then 1 else 0 in
      t ← sched_get_thread_by_tid (Some i) tid;
      match t with
      | None => lift (Err (Fault "t->futex_signaled"))
      | Some j =>
          t ← get_thread i j;
          interrupted ← (if futex_signaled t || should_exit t then _ ← put_thread i j (set_futex_signaled false t); mret 2 else mret interrupted);
          _ ← release_process i; _ ← set_rflags rf; mret interrupted
      end
  end.

(** ** System calls ([kernel/int/syscall.c]) *)

(** Whether the system call goes on: a thread that is being killed gives the processor away
    and does not run again. *)
Definition thread_enter_syscall (i : nat) (tid : Z) : M bool :=
  _ ← assert_disabled;
  t ← sched_get_thread_by_tid (Some i) tid;
  match t with
  | None => lift (Err (Fault "t->uninterruptible"))
  | Some j =>
      t ← get_thread i j;
      _ ← assertM (negb (uninterruptible t)) "!t->uninterruptible";
      if should_exit t then _ ← release_process i; _ ← _sti; mret false
      else _ ← put_thread i j (set_uninterruptible true t); mret true
  end.

Definition thread_leave_syscall (i : nat) (tid : Z) : M () :=
  _ ← _cli; _ ← acquire_process i;
  t ← sched_get_thread_by_tid (Some i) tid;
  match t with
  | None => lift (Err (Fault "t->uninterruptible"))
  | Some j =>
      t ← get_thread i j;
      _ ← assertM (uninterruptible t) "t->uninterruptible";
      _ ← put_thread i j (set_uninterruptible false t);
      release_process i
  end.

#[global] Arguments MAX_PID : simpl never.
#[global] Arguments MAX_TID : simpl never.

(** [syscall_main] up to the call of the handler, and from its return. *)
Definition syscall_enter : M bool :=
  _ ← assert_disabled;
  i ← sched_current_process; p ← get_process i;
  _ ← assertM ((0 <? p_pid p) && (p_pid p <=? MAX_PID)) "process->pid > 0 && process->pid <= MAX_PID";
  tid ← gets current_tid;
  go ← thread_enter_syscall i tid;
  if go : bool then _ ← release_process i; _ ← _sti; mret true else mret false.

(** Whether the program is asked to yield so that a pending signal is handled. *)
Definition syscall_leave : M bool :=
  _ ← assert_enabled;
  pid ← gets current_pid; tid ← gets current_tid; ps ← gets processes;
  match find_process pid ps 0 None with
  | None => lift (Err (Fault "process"))
  | Some i =>
      process ← get_process i;
      let sig_trigger := negb (sig_pending process =? 0) && (sig_current process =? NOSIG) && (tid =? 1) in
      _ ← thread_leave_syscall i tid; mret sig_trigger
  end.
