(* ===== verification/SchedInv.v ===== *)
(** * The invariant of the scheduler

    The threads that are in the ready queue are exactly the ready threads of the process
    table, each once; pids and tids are distinct; the kernel process is always there; each
    thread that does not run has saved registers it can go on with; and the mapped memory is
    the one of a known process.  [woken] describes what all the functions that wake threads
    have in common, and the invariant is shown for it once. *)

From S2P Require Import Prelude SchedQueue SchedState Sched SchedSwitch.





(** ** Lists that are updated in one place *)

Section Bind.
Context {A B : Type} (f : A -> list B).

Lemma bind_lookup l i x : l !! i = Some x -> l ≫= f ≡ₚ f x ++ (delete i l ≫= f).
Proof. intros H. by rewrite (delete_Permutation l i x H) at 1. Qed.

Lemma bind_insert l i x x' : l !! i = Some x -> <[i := x']> l ≫= f ≡ₚ f x' ++ (delete i l ≫= f).
Proof.
  intros H. rewrite (bind_lookup (<[i := x']> l) i x'), delete_insert_place; [done|].
  apply list_lookup_insert_eq. by eapply lookup_lt_Some.
Qed.

Lemma bind_update l i x x' y : l !! i = Some x -> f x' ≡ₚ f x ++ y -> <[i := x']> l ≫= f ≡ₚ (l ≫= f) ++ y.
Proof. intros H Hx. rewrite (bind_insert _ _ _ _ H), (bind_lookup _ _ _ H), Hx. solve_Permutation. Qed.

Lemma bind_insert_eq l i x x' : l !! i = Some x -> f x' = f x -> <[i := x']> l ≫= f = l ≫= f.
Proof.
  intros Hi E. revert i Hi. induction l as [|y l IH]; intros [|i] Hi; try done.
  - injection Hi as ->. change (<[0%nat := x']> (x :: l)) with (x' :: l). rewrite !bind_cons. by rewrite E.
  - change (<[S i := x']> (y :: l)) with (y :: <[i := x']> l). rewrite !bind_cons. by rewrite IH.
Qed.

Lemma bind_same l i x x' : l !! i = Some x -> f x' = f x -> <[i := x']> l ≫= f ≡ₚ l ≫= f.
Proof. intros H Hx. by rewrite (bind_insert_eq _ _ _ _ H Hx). Qed.
End Bind.

(** ** Threads by their state *)

Definition thread_ids (st : tstate) (p : process) : list td :=
  threads p ≫= fun t => if bool_decide (t_state t = st) then [Td (p_pid p) (t_tid t)] else [].
Definition ids (st : tstate) (ps : list process) : list td := ps ≫= thread_ids st.

#[global] Arguments ids : simpl never.
#[global] Arguments thread_ids : simpl never.

Lemma elem_of_ids x st ps : x ∈ ids st ps <->
  exists i p j t, ps !! i = Some p /\ threads p !! j = Some t /\ t_state t = st /\ x = Td (p_pid p) (t_tid t).
Proof.
  unfold ids, thread_ids. rewrite list_elem_of_bind. split.
  - intros (p & Hx & [i Hp]%list_elem_of_lookup). apply list_elem_of_bind in Hx as (t & Hx & [j Ht]%list_elem_of_lookup).
    case_bool_decide; [|by apply elem_of_nil in Hx]. apply list_elem_of_singleton in Hx. by eauto 10.
  - intros (i & p & j & t & Hp & Ht & Hs & ->). exists p. split; [|by eapply list_elem_of_lookup_2].
    apply list_elem_of_bind. exists t. split; [|by eapply list_elem_of_lookup_2]. rewrite bool_decide_true by done. by apply list_elem_of_singleton.
Qed.

(** All the threads, whatever their state. *)
Definition process_alive (p : process) : list td := (fun t => Td (p_pid p) (t_tid t)) <$> threads p.
Definition alive (ps : list process) : list td := ps ≫= process_alive.
#[global] Arguments process_alive : simpl never.
#[global] Arguments alive : simpl never.

Lemma total_alive s : total_threads s = length (alive (processes s)).
Proof.
  unfold total_threads, alive. induction (processes s) as [|p ps IH]; [done|]. rewrite fmap_cons, bind_cons, length_app. cbn [sum_list_with]. rewrite IH.
  unfold process_alive at 2. by rewrite length_fmap.
Qed.

Lemma ids_alive st ps x : x ∈ ids st ps -> x ∈ alive ps.
Proof.
  intros (i & p & j & t & Hp & Ht & _ & ->)%elem_of_ids. unfold alive. apply list_elem_of_bind. exists p. split; [|by eapply list_elem_of_lookup_2].
  unfold process_alive. apply list_elem_of_fmap. exists t. split; [done|by eapply list_elem_of_lookup_2].
Qed.

(** ** The parts of the invariant *)

Definition ALL_SIGNALS : Z := 0xffffffff.

(** The saved registers of a thread: those of the kernel inside of a system call, else those
    of the user program. *)
Definition context_ok (pid : Z) (t : thread) (regs : gp_regs) : Prop :=
  if uninterruptible t || (pid =? KERNEL_PID) then r_cs regs = KERNEL_CS /\ r_ss regs = KERNEL_DS
  else r_cs regs = USER_CS /\ r_ss regs = USER_DS.

(** A signal handler needs room for another set of registers on the kernel stack, and a stack
    in the memory of the program; a thread that never ran has its registers on its own stack. *)
Definition signal_room (p : process) (t : thread) : Prop :=
  ign_mask p = ALL_SIGNALS /\ sig_pending p = 0 \/
  sig_current p <> NOSIG \/ uninterruptible t = true \/
  kstack_base t + sizeof_gp_regs <= t_rsp t /\ is_user (r_rsp (frame t (t_rsp t))) = true.

Record thread_ok (p : process) (t : thread) : Prop := {
  th_pid : t_pid t = p_pid p;
  th_tid : 0 < t_tid t <= MAX_TID;
  th_stack : 0 < kstack_base t /\ 0 < kstack_size t;
  th_rsp : t_state t <> RUNNING -> t_rsp t <> 0;
  th_noblock : should_block t = false;
  th_context : t_state t <> RUNNING -> context_ok (p_pid p) t (frame t (t_rsp t));
  th_room : t_state t <> RUNNING -> signal_room p t }.

Record process_ok (p : process) : Prop := {
  pr_pid : 0 <= p_pid p <= MAX_PID;
  pr_threads : threads p <> [];
  pr_tids : NoDup (t_tid <$> threads p);
  pr_thread : Forall (thread_ok p) (threads p);
  pr_pending : 0 <= sig_pending p < 2 ^ 32;
  pr_signal : sig_current p = NOSIG <-> sig_return_context p = 0;
  pr_user : p_pid p <> KERNEL_PID -> private_pd p <> 0 /\ shared_pd p <> 0;
  pr_kernel : p_pid p = KERNEL_PID -> private_pd p = 0 /\ shared_pd p = 0 /\ ign_mask p = ALL_SIGNALS /\ sig_pending p = 0 /\
    exists t, threads p = [t] /\ t_tid t = 1 /\ t_state t <> BLOCKED /\ should_exit t = false /\ uninterruptible t = false }.

(** The master entries that are in use are those of a process, and nobody shares them. *)
Definition known (s : sched) : list process := processes s ++ killed_processes s.
Definition maps_ok (s : sched) : Prop :=
  NoDup (private_pd <$> known s) /\ NoDup (shared_pd <$> known s) /\ Forall (fun p => p_pid p <> KERNEL_PID) (killed_processes s) /\
  (master_private s = 0 /\ master_shared s = 0 \/
   exists p, p ∈ known s /\ private_pd p <> 0 /\ shared_pd p <> 0 /\ master_private s = private_pd p /\ master_shared s = shared_pd p).

(** The lock of the process [o] and no other one is taken. *)
Definition locks (s : sched) (o : option nat) : Prop :=
  sched_lock s = false /\
  forall i p, processes s !! i = Some p -> p_lock p = bool_decide (o = Some i).

(** A thread that sleeps is in a system call. *)
Definition sleeping_ok (ps : list process) (l : list sleeping_thread) : Prop :=
  forall e i p j t, e ∈ l -> ps !! i = Some p -> threads p !! j = Some t -> p_pid p = st_pid e -> t_tid t = st_tid e -> uninterruptible t = true.

(** What memory has room for. *)
Definition MAX_THREADS : Z := 2 ^ 29.

(** [l] is what the queue holds; [h] are the ready threads that were taken out of it and do
    not run yet; the lock of the process [o] is taken. *)
Record sys_ok (h : list td) (s : sched) (l : list td) (o : option nat) : Prop := {
  sys_pids : NoDup (p_pid <$> processes s);
  sys_process : Forall process_ok (processes s);
  sys_kernel : exists i p, processes s !! i = Some p /\ p_pid p = KERNEL_PID;
  sys_queue : pq_holds (pqueue s) l;
  sys_ready : h ++ l ≡ₚ ids READY (processes s);
  sys_count : n_ready_threads s = zlen l;
  sys_total : Z.of_nat (total_threads s) < MAX_THREADS;
  sys_sleeping : sleeping_ok (processes s) (sleeping_threads s);
  sys_maps : maps_ok s;
  sys_locks : locks s o;
  sys_running : sched_running s = true /\ kernel_process_running s = false /\ currently_in_nested_irq s = 0 }.
#[global] Arguments sys_pids {h} s l o _.
#[global] Arguments sys_process {h} s l o _.
#[global] Arguments sys_kernel {h} s l o _.
#[global] Arguments sys_queue {h} s l o _.
#[global] Arguments sys_ready {h} s l o _.
#[global] Arguments sys_count {h} s l o _.
#[global] Arguments sys_total {h} s l o _.
#[global] Arguments sys_sleeping {h} s l o _.
#[global] Arguments sys_maps {h} s l o _.
#[global] Arguments sys_locks {h} s l o _.
#[global] Arguments sys_running {h} s l o _.


(** While a thread runs. *)
Record thread_mode (s : sched) (l : list td) : Prop := {
  tm_sys : sys_ok [] s l None;
  tm_current : ids RUNNING (processes s) = [Td (current_pid s) (current_tid s)];
  tm_irq : currently_in_irq s = false;
  tm_sleep_lock : sleep_lock s = false;
  tm_mapped : forall i p, processes s !! i = Some p -> p_pid p = current_pid s -> master_private s = private_pd p /\ master_shared s = shared_pd p }.

(** After [sched_save]: no thread runs. *)
Record irq_mode (h : list td) (o : option nat) (s : sched) (l : list td) : Prop := {
  im_sys : sys_ok h s l o;
  im_current : ids RUNNING (processes s) = [];
  im_irq : currently_in_irq s = true;
  im_sleep_lock : sleep_lock s = false;
  im_disabled : interrupts s = false;
  im_mapped : forall i p, processes s !! i = Some p -> p_pid p = current_pid s ->
    master_private s = 0 /\ master_shared s = 0 \/ master_private s = private_pd p /\ master_shared s = shared_pd p }.
#[global] Arguments im_sys {h o} s l _.
#[global] Arguments im_current {h o} s l _.
#[global] Arguments im_irq {h o} s l _.
#[global] Arguments im_sleep_lock {h o} s l _.
#[global] Arguments im_disabled {h o} s l _.
#[global] Arguments im_mapped {h o} s l _.

Lemma NoDup_fmap_elem {A B} (f : A -> B) (l : list A) x y : NoDup (f <$> l) -> x ∈ l -> y ∈ l -> f x = f y -> x = y.
Proof.
  intros Hn [i Hi]%list_elem_of_lookup [j Hj]%list_elem_of_lookup E.
  assert (i = j) as -> by (eapply NoDup_lookup; [exact Hn|rewrite list_lookup_fmap, Hi; done|rewrite list_lookup_fmap, Hj; by rewrite E]). congruence.
Qed.

Lemma NoDup_alive {h} s l o : sys_ok h s l o -> NoDup (alive (processes s)).
Proof.
  intros [H1 H2 _ _ _ _ _ _ _ _ _]. unfold alive. apply NoDup_bind; [|..|by eapply NoDup_fmap_1].
  - intros p q y Hp Hq (t & -> & _)%list_elem_of_fmap (u & E & _)%list_elem_of_fmap. injection E as E _. by eapply NoDup_fmap_elem.
  - intros p Hp. rewrite list.Forall_forall in H2. pose proof (pr_tids _ (H2 _ Hp)) as Ht. unfold process_alive.
    assert ((fun t => Td (p_pid p) (t_tid t)) <$> threads p = Td (p_pid p) <$> (t_tid <$> threads p)) as -> by (by rewrite <- list_fmap_compose).
    apply NoDup_fmap_2; [|done]. by intros ? ? [= ->].
Qed.
