(* ===== verification/SchedWake.v ===== *)
(** * The functions that wake threads

    Each of them changes the states of blocked threads to ready and appends these threads to
    the ready queue, and changes nothing else that the invariant depends on. *)

From S2P Require Import Prelude SchedQueue SchedState Sched SchedSwitch SchedInv.





(** ** The basic steps as equations *)

(** Run the steps of a computation. *)
Ltac mrun := unfold acquire_sched, release_sched, acquire_sleep, release_sleep, assert_disabled, assert_enabled, interrupt_enable, get_rflags, set_rflags, _cli, _sti, when, assertM, lift, gets, modify, mbind, M_bind, mret, M_ret; cbn -[pqueue_push pqueue_pop Z.leb Z.ltb Z.eqb lookup insert].

Lemma bind_Ok {A B} (m : M A) (k : A -> M B) s a s' : m s = Ok (a, s') -> (m ≫= k) s = k a s'.
Proof. intros H. unfold mbind, M_bind. by rewrite H. Qed.

Lemma set_interrupts_same s : set_interrupts (interrupts s) s = s.
Proof. by destruct s. Qed.

Lemma get_process_ok s i p : processes s !! i = Some p -> get_process i s = Ok (p, s).
Proof. intros H. unfold get_process, mbind, M_bind, gets. by rewrite H. Qed.

Lemma update_process_ok s i p f : processes s !! i = Some p -> update_process i f s = Ok ((), set_processes (<[i := f p]> (processes s)) s).
Proof. intros H. unfold update_process. erewrite bind_Ok by by apply get_process_ok. done. Qed.

Lemma get_thread_ok s i p j t : processes s !! i = Some p -> threads p !! j = Some t -> get_thread i j s = Ok (t, s).
Proof. intros H Hj. unfold get_thread. erewrite bind_Ok by by apply get_process_ok. by rewrite Hj. Qed.

Lemma put_thread_ok s i p j t : processes s !! i = Some p ->
  put_thread i j t s = Ok ((), set_processes (<[i := set_threads (<[j := t]> (threads p)) p]> (processes s)) s).
Proof. intros H. unfold put_thread. by erewrite update_process_ok. Qed.

Lemma update_thread_ok s i p j t f : processes s !! i = Some p -> threads p !! j = Some t ->
  update_thread i j f s = Ok ((), set_processes (<[i := set_threads (<[j := f t]> (threads p)) p]> (processes s)) s).
Proof. intros H Hj. unfold update_thread. erewrite bind_Ok by by eapply get_thread_ok. by apply put_thread_ok. Qed.

Lemma release_process_ok s i p : interrupts s = false -> processes s !! i = Some p ->
  release_process i s = Ok ((), set_processes (<[i := set_p_lock false p]> (processes s)) s).
Proof. intros Hi H. unfold release_process. mrun. rewrite Hi. cbn -[update_process]. by erewrite update_process_ok. Qed.

Lemma push_ready_ok s l pid tid : sched_lock s = false -> pq_holds (pqueue s) l -> 0 <= pid <= MAX_PID -> 0 <= tid <= MAX_TID -> zlen l < 2 ^ 30 - 1 ->
  exists q, sched_push_ready_thread pid tid s = Ok ((), set_n_ready_threads (n_ready_threads s + 1) (set_pqueue q s)) /\ pq_holds q (l ++ [Td pid tid]).
Proof.
  intros Hl Hq Hp Ht Hb. destruct (pqueue_push_ok (Td pid tid) _ _ Hq Hb) as (q & Eq & Hq'). exists q. split; [|done].
  destruct s; cbn in *. subst. unfold sched_push_ready_thread. mrun.
  rewrite (proj2 (Z.leb_le 0 pid)), (proj2 (Z.leb_le pid MAX_PID)), (proj2 (Z.leb_le 0 tid)), (proj2 (Z.leb_le tid MAX_TID)) by lia. cbn -[pqueue_push]. rewrite Eq. done.
Qed.

Lemma find_process_shift pid ps i found :
  find_process pid ps i found = match find_process pid ps 0 None with Some k => Some (i + k)%nat | None => found end.
Proof.
  revert i found. induction ps as [|p ps IH]; intros i found; cbn; [done|]. rewrite IH, (IH 1%nat).
  destruct (find_process pid ps 0 None); [f_equal; lia|]. destruct (p_pid p =? pid); [f_equal; lia|done].
Qed.

Lemma find_process_Some ps i p : NoDup (p_pid <$> ps) -> ps !! i = Some p -> find_process (p_pid p) ps 0 None = Some i.
Proof.
  revert i. induction ps as [|q ps IH]; intros i Hn Hi; [done|]. cbn in *. apply list.NoDup_cons in Hn as [Hni Hn]. rewrite find_process_shift.
  destruct i as [|i]; cbn in Hi.
  - injection Hi as ->. rewrite Z.eqb_refl. destruct (find_process (p_pid p) ps 0 None) as [k|] eqn:E; [|done].
    exfalso. apply Hni. clear - E. revert k E. induction ps as [|q ps IH]; intros k E; [done|]. cbn in *. rewrite find_process_shift in E.
    destruct (find_process (p_pid p) ps 0 None) as [k'|] eqn:E'; [right; by eapply IH|].
    destruct (Z.eqb_spec (p_pid q) (p_pid p)) as [->|]; [left|done].
  - rewrite (IH _ Hn Hi). done.
Qed.

Lemma find_process_None ps pid : find_process pid ps 0 None = None <-> pid ∉ p_pid <$> ps.
Proof.
  induction ps as [|q ps IH]; cbn; [split; [intros _; apply not_elem_of_nil|done]|]. rewrite find_process_shift, not_elem_of_cons, <- IH.
  destruct (find_process pid ps 0 None); [split; [done|by intros [_ ?]]|]. destruct (Z.eqb_spec (p_pid q) pid); split; try done; by intros [? _].
Qed.

Lemma find_process_lookup ps pid i : find_process pid ps 0 None = Some i -> exists p, ps !! i = Some p /\ p_pid p = pid.
Proof.
  revert i. induction ps as [|q ps IH]; intros i; cbn; [done|]. rewrite find_process_shift.
  destruct (find_process pid ps 0 None) as [k|] eqn:E; [intros [= <-]; exact (IH k eq_refl)|].
  destruct (Z.eqb_spec (p_pid q) pid); [|done]. intros [= <-]. by exists q.
Qed.

Lemma find_thread_shift tid ts j : find_thread tid ts j = (fun k => (j + k)%nat) <$> find_thread tid ts 0.
Proof.
  revert j. induction ts as [|t ts IH]; intros j; cbn; [done|]. destruct (t_tid t =? tid); cbn; [f_equal; lia|].
  rewrite IH, (IH 1%nat). destruct (find_thread tid ts 0); cbn; [f_equal; lia|done].
Qed.

Lemma find_thread_lookup tid ts j : find_thread tid ts 0 = Some j -> exists t, ts !! j = Some t /\ t_tid t = tid.
Proof.
  revert j. induction ts as [|t ts IH]; intros j; cbn; [done|]. destruct (Z.eqb_spec (t_tid t) tid); [intros [= <-]; by exists t|].
  rewrite find_thread_shift. destruct (find_thread tid ts 0) as [k|]; [|done]. intros [= <-]. exact (IH k eq_refl).
Qed.

Lemma find_thread_Some ts j t : NoDup (t_tid <$> ts) -> ts !! j = Some t -> find_thread (t_tid t) ts 0 = Some j.
Proof.
  revert j. induction ts as [|u ts IH]; intros j Hn Hj; [done|]. cbn in *. apply list.NoDup_cons in Hn as [Hni Hn]. destruct j as [|j]; cbn in Hj.
  - injection Hj as ->. by rewrite Z.eqb_refl.
  - rewrite (proj2 (Z.eqb_neq _ _)); [by rewrite find_thread_shift, (IH _ Hn Hj)|]. intros E. apply Hni. rewrite E. apply list_elem_of_fmap. exists t. split; [done|]. by eapply list_elem_of_lookup_2.
Qed.

(** [sched_get_process] locks the process it finds and leaves the interrupts disabled. *)
Definition locked (i : nat) (p : process) (s : sched) : sched := set_processes (<[i := set_p_lock true p]> (processes s)) (set_interrupts false s).

Lemma sched_get_process_found s i p : sched_lock s = false -> NoDup (p_pid <$> processes s) -> processes s !! i = Some p -> p_lock p = false ->
  sched_get_process (p_pid p) s = Ok (Some i, locked i p s).
Proof.
  intros Hl Hn Hi Hp. unfold sched_get_process, locked. destruct s; cbn in *. subst. mrun.
  rewrite (find_process_Some _ _ _ Hn Hi). unfold acquire_process, get_process, put_process. mrun. rewrite Hi. mrun. rewrite Hp. done.
Qed.

Lemma sched_get_process_missing s pid : sched_lock s = false -> pid ∉ p_pid <$> processes s -> sched_get_process pid s = Ok (None, s).
Proof.
  intros Hl Hn. unfold sched_get_process. destruct s; cbn in *. subst. mrun. by rewrite (proj2 (find_process_None _ _)) by done.
Qed.

Lemma sched_get_thread_by_tid_ok s i p tid : processes s !! i = Some p -> p_lock p = true ->
  sched_get_thread_by_tid (Some i) tid s = Ok (find_thread tid (threads p) 0, s).
Proof. intros Hi Hp. unfold sched_get_thread_by_tid. erewrite bind_Ok by by apply get_process_ok. rewrite Hp. done. Qed.

(** ** What waking threads changes *)

Definition upd (ps : list process) (q : priority_queue) (n : Z) (sl : list sleeping_thread) (ie : bool) (s : sched) : sched :=
  set_processes ps (set_pqueue q (set_n_ready_threads n (set_sleeping_threads sl (set_interrupts ie s)))).

Lemma upd_same s : s = upd (processes s) (pqueue s) (n_ready_threads s) (sleeping_threads s) (interrupts s) s.
Proof. by destruct s. Qed.

Definition thread_woken (t t' : thread) : Prop := exists st w e,
  t' = set_should_exit e (set_sig_wait w (set_t_state st t)) /\
  (st = t_state t \/ t_state t = BLOCKED /\ st = READY) /\ (e = should_exit t \/ e = true /\ t_pid t <> KERNEL_PID).

Definition process_woken (p p' : process) : Prop := exists ts m,
  p' = set_sig_pending m (set_threads ts p) /\ Forall2 thread_woken (threads p) ts /\
  (ign_mask p = ALL_SIGNALS -> m = sig_pending p) /\ (0 <= sig_pending p < 2 ^ 32 -> 0 <= m < 2 ^ 32).

Record woken (s : sched) (x : list td) (s' : sched) : Prop := {
  wk_upd : s' = upd (processes s') (pqueue s') (n_ready_threads s') (sleeping_threads s') (interrupts s') s;
  wk_interrupts : interrupts s = false -> interrupts s' = false;
  wk_processes : Forall2 process_woken (processes s) (processes s');
  wk_queue : forall l, pq_holds (pqueue s) l -> pq_holds (pqueue s') (l ++ x);
  wk_ready : ids READY (processes s') ≡ₚ ids READY (processes s) ++ x;
  wk_count : n_ready_threads s' = n_ready_threads s + zlen x;
  wk_sleeping : forall e, e ∈ sleeping_threads s' -> e ∈ sleeping_threads s }.

#[export] Instance thread_woken_preorder : PreOrder thread_woken.
Proof.
  split.
  - intros t. exists (t_state t), (sig_wait t), (should_exit t). split; [by destruct t|]. auto.
  - intros t1 t2 t3 (st1 & w1 & e1 & -> & Hs1 & He1) (st2 & w2 & e2 & -> & Hs2 & He2). cbn in *. exists st2, w2, e2. split; [done|].
    split; destruct_or?; destruct_and?; subst; eauto; congruence.
Qed.

#[export] Instance process_woken_preorder : PreOrder process_woken.
Proof.
  split.
  - intros p. exists (threads p), (sig_pending p). split; [by destruct p|]. done.
  - intros p1 p2 p3 (ts1 & m1 & -> & Ht1 & Hm1 & Hb1) (ts2 & m2 & -> & Ht2 & Hm2 & Hb2). cbn in *. exists ts2, m2. split; [done|]. split; [by etrans|].
    split; [intros ?; rewrite Hm2, Hm1; done|auto].
Qed.

Lemma woken_refl s : woken s [] s.
Proof.
  split; rewrite ?app_nil_r; [by apply upd_same|done|done|intros l; by rewrite app_nil_r|done|cbn; change (zlen []) with 0; lia|done].
Qed.

Lemma woken_trans s1 x s2 y s3 : woken s1 x s2 -> woken s2 y s3 -> woken s1 (x ++ y) s3.
Proof.
  intros [U1 I1 P1 Q1 R1 C1 S1] [U2 I2 P2 Q2 R2 C2 S2]. split.
  - rewrite U2 at 1. rewrite U1. done.
  - auto.
  - by etrans.
  - intros l Hl. rewrite app_assoc. auto.
  - by rewrite R2, R1, app_assoc.
  - rewrite C2, C1. unfold zlen. rewrite length_app. lia.
  - auto.
Qed.

Lemma process_woken_ids p p' st : process_woken p p' -> st <> READY -> forall x, x ∈ thread_ids st p' -> x ∈ thread_ids st p.
Proof.
  intros (ts & m & -> & Ht & _) Hst x. unfold thread_ids. cbn. induction Ht as [|t t' ? ? (s1 & w & e & -> & Hs & _) _ IH]; cbn; [done|].
  intros [Hx|Hx]%elem_of_app; apply elem_of_app; [left|right; by apply IH]. cbn in Hx.
  destruct Hs as [->|[? ->]]; [done|]. rewrite (bool_decide_false (READY = st)) in Hx by done. by apply elem_of_nil in Hx.
Qed.

Lemma process_woken_same p p' : process_woken p p' ->
  p_pid p' = p_pid p /\ p_lock p' = p_lock p /\ private_pd p' = private_pd p /\ shared_pd p' = shared_pd p /\ length (threads p') = length (threads p).
Proof. intros (ts & m & -> & Ht & _). cbn. by rewrite (list.Forall2_length _ _ _ Ht). Qed.

Lemma process_woken_running p p' : process_woken p p' -> thread_ids RUNNING p' = thread_ids RUNNING p.
Proof.
  intros (ts & m & -> & Ht & _). unfold thread_ids. cbn. induction Ht as [|t t' ? ? (st & w & e & -> & Hs & _) _ IH]; cbn; [done|]. f_equal; [|done].
  destruct Hs as [->|[Hb ->]]; [done|]. by rewrite Hb.
Qed.

Lemma thread_woken_ok p t ts m : thread_ok p t -> (ign_mask p = ALL_SIGNALS -> m = sig_pending p) -> forall t', thread_woken t t' ->
  thread_ok (set_sig_pending m (set_threads ts p)) t'.
Proof.
  intros [H1 H2 H3 H4 H5 H6 H7] Hm t' (st & w & e & -> & Hs & _). split; cbn; try done.
  - intros Hr. apply H4. destruct Hs as [->|[-> _]]; done.
  - intros Hr. apply H6. destruct Hs as [->|[-> _]]; done.
  - intros Hr. assert (t_state t <> RUNNING) as Ht by (destruct Hs as [->|[-> _]]; done).
    destruct (H7 Ht) as [[? ?]|?]; [left; cbn; rewrite Hm by done; done|by right].
Qed.

Lemma process_woken_ok p p' : process_ok p -> process_woken p p' -> process_ok p'.
Proof.
  intros [H1 H2 H3 H4 H5 H6 H7 H8] (ts & m & -> & Ht & Hm & Hb). split; cbn; try done; auto.
  - destruct Ht; done.
  - assert (t_tid <$> ts = t_tid <$> threads p) as ->; [|done]. clear - Ht. induction Ht as [|? ? ? ? (? & ? & ? & -> & _)]; cbn; [done|]. by f_equal.
  - clear - H4 Ht Hm. assert (forall ts0, Forall (thread_ok (set_sig_pending m (set_threads ts0 p))) ts); [|done]. intros ts0.
    induction Ht as [|t t' ? ? Hw _ IH]; [done|]. apply list.Forall_cons in H4 as [Hok H4]. constructor; [|by apply IH]. by eapply thread_woken_ok.
  - intros Hk. destruct (H8 Hk) as (? & ? & Hg & Hp & t & Et & ? & ? & ? & ?). rewrite Hm by done. repeat (split; [done|]).
    rewrite Et in Ht, H4. inversion Ht as [|? t' ? ts' (st & w & e & -> & Hs & He) Hr]; subst. inversion Hr; subst. eexists. split; [done|]. cbn. split; [done|].
    apply list.Forall_cons in H4 as [[Hpid _ _ _ _ _ _] _]. rewrite Hk in Hpid.
    split; [destruct Hs as [->|[? ->]]; done|]. split; [destruct He as [->|[_ ?]]; done|done].
Qed.

Lemma processes_woken_fmap {A} (f : process -> A) ps ps' : (forall p p', process_woken p p' -> f p' = f p) -> Forall2 process_woken ps ps' -> f <$> ps' = f <$> ps.
Proof. intros Hf H. induction H as [|p p' ? ? Hp]; cbn; [done|]. f_equal; auto. Qed.

Lemma processes_woken_lookup ps ps' i p' : Forall2 process_woken ps ps' -> ps' !! i = Some p' -> exists p, ps !! i = Some p /\ process_woken p p'.
Proof. intros H Hi. destruct (Forall2_lookup_r _ _ _ _ _ H Hi) as (p & ? & ?). eauto. Qed.

Lemma woken_running s x s' : woken s x s' -> ids RUNNING (processes s') = ids RUNNING (processes s).
Proof. intros H. pose proof (wk_processes _ _ _ H) as Hp. unfold ids. clear H. induction Hp as [|p p' ? ? Hp]; cbn; [done|]. f_equal; [|done]. by apply process_woken_running. Qed.

(** ** The invariant is kept *)

Lemma woken_sys {h} s l o x s' : sys_ok h s l o -> woken s x s' -> sys_ok h s' (l ++ x) o.
Proof.
  intros [H1 H2 H3 H4 H5 H6 H7 H8 H9 H10 H11] [U I P Q R C S]. 
  pose proof (processes_woken_fmap p_pid _ _ (fun _ _ H => proj1 (process_woken_same _ _ H)) P) as Epid.
  split.
  - by rewrite Epid.
  - apply list.Forall_lookup. intros i p' Hi. destruct (processes_woken_lookup _ _ _ _ P Hi) as (p & Hp & Hw).
    eapply process_woken_ok; [|exact Hw]. by eapply (Forall_lookup_1 _ _ _ _ H2).
  - destruct H3 as (i & p & Hi & Hk). destruct (Forall2_lookup_l _ _ _ _ _ P Hi) as (p' & Hi' & Hw). exists i, p'. split; [done|]. by rewrite (proj1 (process_woken_same _ _ Hw)).
  - by apply Q.
  - by rewrite app_assoc, H5, R.
  - rewrite C, H6. unfold zlen. rewrite length_app. lia.
  - unfold total_threads in *. rewrite (processes_woken_fmap (fun p => length (threads p)) _ _ (fun _ _ H => proj2 (proj2 (proj2 (proj2 (process_woken_same _ _ H))))) P). done.
  - intros e i p' j t' He Hi Hj Ep Et. apply S in He. destruct (processes_woken_lookup _ _ _ _ P Hi) as (p & Hp & ts & m & -> & Ht & _). cbn in *.
    destruct (Forall2_lookup_r _ _ _ _ _ Ht Hj) as (t & Hjt & st & w & x' & -> & _). cbn in *. by eapply H8.
  - unfold maps_ok, known in *. rewrite U. cbn. rewrite !fmap_app in *.
    rewrite (processes_woken_fmap private_pd _ _ (fun _ _ H => proj1 (proj2 (proj2 (process_woken_same _ _ H)))) P).
    rewrite (processes_woken_fmap shared_pd _ _ (fun _ _ H => proj1 (proj2 (proj2 (proj2 (process_woken_same _ _ H))))) P).
    destruct H9 as (? & ? & ? & Hm). split; [done|]. split; [done|]. split; [done|]. destruct Hm as [?|(p & Hp & Hm)]; [by left|right].
    apply elem_of_app in Hp as [[i Hi]%list_elem_of_lookup|Hp]; [|exists p; split; [by apply elem_of_app; right|done]].
    destruct (Forall2_lookup_l _ _ _ _ _ P Hi) as (p' & Hi' & Hw). exists p'. split; [apply elem_of_app; left; by eapply list_elem_of_lookup_2|].
    destruct (process_woken_same _ _ Hw) as (_ & _ & -> & -> & _). done.
  - destruct H10 as (? & Hl). split; [by rewrite U|]. intros i p' Hi. destruct (processes_woken_lookup _ _ _ _ P Hi) as (p & Hp & Hw).
    rewrite (proj1 (proj2 (process_woken_same _ _ Hw))). by apply Hl.
  - by rewrite U.
Qed.

Lemma woken_thread_mode s l x s' : thread_mode s l -> woken s x s' -> thread_mode s' (l ++ x).
Proof.
  intros [H1 H2 H3 Hsl H4] Hw. pose proof (wk_upd _ _ _ Hw) as U. split.
  - by eapply woken_sys.
  - rewrite (woken_running _ _ _ Hw), H2. by rewrite U.
  - by rewrite U.
  - by rewrite U.
  - intros i p' Hi Hp. destruct (processes_woken_lookup _ _ _ _ (wk_processes _ _ _ Hw) Hi) as (p & Hpi & Hpw).
    destruct (process_woken_same _ _ Hpw) as (Ep & _ & -> & -> & _). rewrite U. cbn. apply (H4 i p Hpi). rewrite <- Ep, Hp. by rewrite U.
Qed.

Lemma woken_irq_mode {h o} s l x s' : irq_mode h o s l -> woken s x s' -> irq_mode h o s' (l ++ x).
Proof.
  intros [H1 H2 H3 Hsl H4 H5] Hw. pose proof (wk_upd _ _ _ Hw) as U. split.
  - by eapply woken_sys.
  - by rewrite (woken_running _ _ _ Hw).
  - by rewrite U.
  - by rewrite U.
  - by apply (wk_interrupts _ _ _ Hw).
  - intros i p' Hi Hp. destruct (processes_woken_lookup _ _ _ _ (wk_processes _ _ _ Hw) Hi) as (p & Hpi & Hpw).
    destruct (process_woken_same _ _ Hpw) as (Ep & _ & -> & -> & _). rewrite U. cbn. apply (H5 i p Hpi). rewrite <- Ep, Hp. by rewrite U.
Qed.

(** ** Locking and unlocking *)

Lemma process_ok_lock p b : process_ok p -> process_ok (set_p_lock b p).
Proof.
  intros [H1 H2 H3 H4 H5 H6 H7 H8]. split; cbn; try done. eapply list.Forall_impl; [exact H4|]. intros t [? ? ? ? ? ? ?]. by split.
Qed.

Lemma woken_locked i p s x s' p' : processes s !! i = Some p -> p_lock p = false ->
  woken (locked i p s) x s' -> processes s' !! i = Some p' -> forall ie, (interrupts s = false -> ie = false) ->
  woken s x (set_interrupts ie (set_processes (<[i := set_p_lock false p']> (processes s')) s')).
Proof.
  intros Hi Hl [U I P Q R C S] Hi' ie Hie. split.
  - rewrite U at 1 2. done.
  - done.
  - cbn. cbn in P. pose proof (Forall2_insert _ _ _ p (set_p_lock false p') i P) as Hf. rewrite list_insert_insert_eq, list_insert_id in Hf by done.
    apply Hf. destruct (processes_woken_lookup _ _ _ _ P Hi') as (q & Hq & Hw). rewrite list_lookup_insert_eq in Hq by (by eapply lookup_lt_Some). injection Hq as <-.
    destruct Hw as (ts & m & -> & Ht & Hm & Hb). cbn in *. exists ts, m. split; [|done]. destruct p; cbn in *; by subst.
  - done.
  - cbn. cbn in R. unfold ids in *. rewrite (bind_same (thread_ids READY) _ _ _ _ Hi') by done. unfold ids in *. rewrite R. by rewrite (bind_same (thread_ids READY) _ _ _ _ Hi) by done.
  - done.
  - done.
Qed.

(** * Unblocking, sleeping, signals and kills keep the invariant *)


(** ** Replacing one process of the table *)

(** The new process stands for the old one. *)
Record replaces (p p' : process) : Prop := {
  rp_pid : p_pid p' = p_pid p;
  rp_pds : private_pd p' = private_pd p /\ shared_pd p' = shared_pd p;
  rp_ok : process_ok p';
  rp_len : (length (threads p') <= length (threads p))%nat;
  rp_threads : forall j t', threads p' !! j = Some t' -> exists k t, threads p !! k = Some t /\ t_tid t' = t_tid t /\ (uninterruptible t = true -> uninterruptible t' = true) }.

Lemma fmap_insert_same {A B} (f : A -> B) (l : list A) i x x' : l !! i = Some x -> f x' = f x -> f <$> <[i := x']> l = f <$> l.
Proof. intros H E. rewrite list_fmap_insert, E. apply list_insert_id. by rewrite list_lookup_fmap, H. Qed.

Lemma sum_list_insert {A} (f : A -> nat) (l : list A) i x x' : l !! i = Some x -> (sum_list (f <$> <[i := x']> l) + f x = sum_list (f <$> l) + f x')%nat.
Proof.
  revert i. induction l as [|y l IH]; intros [|i] H; try done.
  - injection H as ->. change (<[0%nat := x']> (x :: l)) with (x' :: l). rewrite !fmap_cons. cbn [sum_list_with]. unfold id at 1 3. lia.
  - change (<[S i := x']> (y :: l)) with (y :: <[i := x']> l). rewrite !fmap_cons. cbn [sum_list_with]. specialize (IH i H). lia.
Qed.

Lemma sys_replace_gen {h} h' s l o i p p' q n sl ie l' o' : sys_ok h s l o -> processes s !! i = Some p ->
  p_pid p' = p_pid p -> private_pd p' = private_pd p /\ shared_pd p' = shared_pd p -> process_ok p' -> (length (threads p') <= length (threads p))%nat ->
  pq_holds q l' -> h' ++ l' ≡ₚ ids READY (<[i := p']> (processes s)) -> n = zlen l' -> sleeping_ok (<[i := p']> (processes s)) sl ->
  locks (upd (<[i := p']> (processes s)) q n sl ie s) o' -> sys_ok h' (upd (<[i := p']> (processes s)) q n sl ie s) l' o'.
Proof.
  intros [H1 H2 H3 H4 H5 H6 H7 H8 H9 H10 H11] Hi Ep [Epr Esh] Hok Hlen Hq Hr Hn Hsl Hlk. split; cbn; try done.
  - by rewrite (fmap_insert_same p_pid _ _ _ _ Hi Ep).
  - by apply Forall_insert.
  - destruct H3 as (k & pk & Hk & Ek). destruct (decide (i = k)) as [<-|Hne].
    + exists i, p'. rewrite list_lookup_insert_eq by (by eapply lookup_lt_Some). split; [done|]. congruence.
    + exists k, pk. by rewrite list_lookup_insert_ne.
  - unfold total_threads in *. cbn. pose proof (sum_list_insert (fun p => length (threads p)) _ _ _ p' Hi). cbn in *. lia.
  - unfold maps_ok, known in *. cbn. rewrite !fmap_app in *. rewrite (fmap_insert_same private_pd _ _ _ _ Hi Epr), (fmap_insert_same shared_pd _ _ _ _ Hi Esh).
    destruct H9 as (? & ? & ? & Hm). split; [done|]. split; [done|]. split; [done|]. destruct Hm as [?|(m & Hm & Hpd)]; [by left|right].
    apply elem_of_app in Hm as [[k Hk]%list_elem_of_lookup|Hm]; [|exists m; split; [by apply elem_of_app; right|done]].
    destruct (decide (i = k)) as [<-|Hne].
    + exists p'. assert (m = p) as -> by congruence. split; [|by rewrite Epr, Esh]. apply elem_of_app. left. eapply (list_elem_of_lookup_2 _ i). apply list_lookup_insert_eq. by eapply lookup_lt_Some.
    + exists m. split; [|done]. apply elem_of_app. left. eapply (list_elem_of_lookup_2 _ k). by rewrite list_lookup_insert_ne.
Qed.

Lemma sys_replace {h} h' s l o i p p' q n sl ie l' o' : sys_ok h s l o -> processes s !! i = Some p -> replaces p p' ->
  pq_holds q l' -> h' ++ l' ≡ₚ ids READY (<[i := p']> (processes s)) -> n = zlen l' -> (forall e, e ∈ sl -> e ∈ sleeping_threads s) ->
  locks (upd (<[i := p']> (processes s)) q n sl ie s) o' -> sys_ok h' (upd (<[i := p']> (processes s)) q n sl ie s) l' o'.
Proof.
  intros H Hi [Ep Epd Hok Hlen Hth] Hq Hr Hn Hsl Hlk. eapply sys_replace_gen; try done.
  intros e k pk j t He Hk Hj E1 E2. apply Hsl in He. pose proof (sys_sleeping _ _ _ H) as H8. destruct (decide (i = k)) as [<-|Hne].
  - rewrite list_lookup_insert_eq in Hk by (by eapply lookup_lt_Some). injection Hk as <-.
    destruct (Hth _ _ Hj) as (k & t0 & Ht0 & Et & Hu). apply Hu. eapply (H8 e i p k t0); congruence.
  - rewrite list_lookup_insert_ne in Hk by done. by eapply H8.
Qed.

Lemma locks_insert s o i p s' p' o' : locks s o -> processes s !! i = Some p -> sched_lock s' = sched_lock s -> processes s' = <[i := p']> (processes s) ->
  p_lock p' = bool_decide (o' = Some i) -> (forall k, k <> i -> o <> Some k /\ o' <> Some k) -> locks s' o'.
Proof.
  intros [Hl Hp] Hi Es Ep Hb Ho. split; [by rewrite Es|]. intros k pk. rewrite Ep. destruct (decide (i = k)) as [<-|Hne].
  - rewrite list_lookup_insert_eq by (by eapply lookup_lt_Some). by intros [= <-].
  - rewrite list_lookup_insert_ne by done. intros Hk. destruct (Ho k ltac:(done)) as [H1 H2]. rewrite (Hp _ _ Hk). by rewrite !bool_decide_false.
Qed.

Lemma replaces_lock p b : process_ok p -> replaces p (set_p_lock b p).
Proof. intros H. split; cbn; try done; [by apply process_ok_lock|eauto 10]. Qed.

Lemma sys_lookup {h} s l o i p : sys_ok h s l o -> processes s !! i = Some p -> process_ok p.
Proof. intros H Hi. by eapply (Forall_lookup_1 _ _ _ _ (sys_process _ _ _ H)). Qed.

Lemma sys_set_lock {h} s l o i p (b : bool) ie o' : sys_ok h s l o -> processes s !! i = Some p -> o' = (if b then Some i else None) -> (b = true -> o = None) -> (b = false -> o = Some i) ->
  sys_ok h (set_processes (<[i := set_p_lock b p]> (processes s)) (set_interrupts ie s)) l o'.
Proof.
  intros H Hi -> Hb1 Hb2. pose proof (sys_lookup _ _ _ _ _ H Hi) as Hp.
  assert (set_processes (<[i := set_p_lock b p]> (processes s)) (set_interrupts ie s) = upd (<[i := set_p_lock b p]> (processes s)) (pqueue s) (n_ready_threads s) (sleeping_threads s) ie s) as -> by (by destruct s).
  eapply sys_replace; try done; [by apply replaces_lock|apply H|..|apply H|].
  - rewrite (sys_ready _ _ _ H). symmetry. unfold ids. by apply (bind_same _ _ _ _ _ Hi).
  - eapply locks_insert; [apply H|exact Hi|done|done|cbn; destruct b; [by rewrite bool_decide_true|by rewrite bool_decide_false]|].
    intros k Hk. destruct b; [rewrite (Hb1 eq_refl)|rewrite (Hb2 eq_refl)]; split; congruence.
Qed.

Lemma sys_locked {h} s l i p : sys_ok h s l None -> processes s !! i = Some p -> sys_ok h (locked i p s) l (Some i).
Proof. intros H Hi. by eapply (sys_set_lock s l None i p true false). Qed.

Lemma locked_lookup s i p : processes s !! i = Some p -> processes (locked i p s) !! i = Some (set_p_lock true p).
Proof. intros H. cbn. apply list_lookup_insert_eq. by eapply lookup_lt_Some. Qed.

Lemma sys_unlocked {h} s l o i p : sys_ok h s l o -> processes s !! i = Some p -> o <> Some i -> p_lock p = false.
Proof. intros H Hi Ho. destruct (sys_locks _ _ _ H) as (_ & Hl). rewrite (Hl _ _ Hi). by apply bool_decide_false. Qed.

Lemma ids_length st ps : (length (ids st ps) <= sum_list ((fun p => length (threads p)) <$> ps))%nat.
Proof.
  induction ps as [|p ps IH]; [done|]. change (ids st (p :: ps)) with (thread_ids st p ++ ids st ps). rewrite length_app, fmap_cons. cbn [sum_list_with]. change (id (length (threads p))) with (length (threads p)). enough (length (thread_ids st p) <= length (threads p))%nat by lia.
  unfold thread_ids. induction (threads p) as [|t ts IHt]; [done|]. rewrite bind_cons, length_app. case_bool_decide; cbn [length]; lia.
Qed.

Lemma sys_queue_length {h} s l o : sys_ok h s l o -> zlen l < 2 ^ 30 - 1.
Proof.
  intros H. pose proof (sys_total _ _ _ H) as Ht. pose proof (ids_length READY (processes s)) as Hl. unfold total_threads, MAX_THREADS in *.
  pose proof (Permutation_length (sys_ready _ _ _ H)) as Hp. rewrite length_app in Hp. unfold zlen. lia.
Qed.

(** ** Unblocking a thread *)

Lemma set_thread_ids st p j t t' y : threads p !! j = Some t -> t_tid t' = t_tid t ->
  (if bool_decide (t_state t' = st) then [Td (p_pid p) (t_tid t)] else []) ≡ₚ (if bool_decide (t_state t = st) then [Td (p_pid p) (t_tid t)] else []) ++ y ->
  thread_ids st (set_threads (<[j := t']> (threads p)) p) ≡ₚ thread_ids st p ++ y.
Proof. intros Hj Et H. unfold thread_ids. cbn. eapply bind_update; [exact Hj|]. by rewrite Et. Qed.

Lemma sched_unblock_thread_ok {h} s l o i p j t : sys_ok h s l o -> processes s !! i = Some p -> threads p !! j = Some t ->
  exists s', sched_unblock_thread i j s = Ok ((), s') /\ woken s (if bool_decide (t_state t = BLOCKED) then [Td (p_pid p) (t_tid t)] else []) s' /\ interrupts s' = interrupts s /\
    (t_state t = BLOCKED -> processes s' = <[i := set_threads (<[j := set_t_state READY t]> (threads p)) p]> (processes s)).
Proof.
  intros H Hi Hj. unfold sched_unblock_thread. erewrite bind_Ok by by eapply get_thread_ok. case_bool_decide as Hb.
  2:{ exists s. split; [done|]. split; [apply woken_refl|]. done. }
  erewrite bind_Ok by by apply put_thread_ok. set (p' := set_threads (<[j := set_t_state READY t]> (threads p)) p).
  pose proof (sys_lookup _ _ _ _ _ H Hi) as Hok. pose proof (Forall_lookup_1 _ _ _ _ (pr_thread _ Hok) Hj) as Hth.
  rewrite (th_pid _ _ Hth).
  destruct (push_ready_ok (set_processes (<[i := p']> (processes s)) s) l (p_pid p) (t_tid t)) as (q & -> & Hq); cbn.
  { apply H. } { apply H. } { apply Hok. } { pose proof (th_tid _ _ Hth). lia. } { by eapply sys_queue_length. }
  eexists. split; [done|]. split; [|done]. split; cbn.
  - by destruct s.
  - done.
  - rewrite <- (list_insert_id (processes s) i p) at 1 by done. apply Forall2_insert; [done|]. exists (<[j := set_t_state READY t]> (threads p)), (sig_pending p).
    split; [by destruct p|]. split; [|done]. rewrite <- (list_insert_id (threads p) j t) at 1 by done. apply Forall2_insert; [done|].
    exists READY, (sig_wait t), (should_exit t). split; [by destruct t|]. eauto.
  - intros l0 Hl0. assert (l0 = l) as ->; [|done]. eapply pq_holds_inj; [done|apply H].
  - unfold ids. eapply bind_update; [exact Hi|]. eapply set_thread_ids; [done..|]. cbn. by rewrite Hb.
  - done.
  - done.
Qed.

Ltac mpure := repeat (erewrite bind_Ok by reflexivity; cbv beta).

Lemma table_cases s pid : (exists i p, processes s !! i = Some p /\ p_pid p = pid) \/ pid ∉ p_pid <$> processes s.
Proof.
  destruct (decide (pid ∈ p_pid <$> processes s)) as [(p & -> & [i Hi]%list_elem_of_lookup)%list_elem_of_fmap|]; [left; eauto|by right].
Qed.

Lemma sched_unblock_found {h} s l i p tid : sys_ok h s l None -> processes s !! i = Some p ->
  exists s' x, sched_unblock (p_pid p) tid s = Ok ((), s') /\ woken s x s' /\ interrupts s' = interrupts s.
Proof.
  intros H Hi. unfold sched_unblock. mpure. pose proof (sys_unlocked _ _ _ _ _ H Hi ltac:(done)) as Hpl. pose proof (sys_locked _ _ _ _ H Hi) as Hlk.
  erewrite bind_Ok by (eapply (sched_get_process_found (set_interrupts false s)); [apply H|apply H|done|done]).
  change (locked i p (set_interrupts false s)) with (locked i p s). cbv beta iota.
  erewrite bind_Ok by (eapply sched_get_thread_by_tid_ok; [by apply locked_lookup|done]). cbn [threads set_p_lock].
  assert (exists s1 x, (match find_thread tid (threads p) 0 with Some j => sched_unblock_thread i j | None => mret () end) (locked i p s) = Ok ((), s1) /\ woken (locked i p s) x s1 /\ interrupts s1 = false) as (s1 & x & E & Hw & Hie).
  { destruct (find_thread tid (threads p) 0) as [j|] eqn:Ej.
    - apply find_thread_lookup in Ej as (t & Hj & _). destruct (sched_unblock_thread_ok _ _ _ _ _ _ _ Hlk (locked_lookup _ _ _ Hi) Hj) as (s1 & -> & Hw & Hie & _). eauto.
    - exists (locked i p s), []. split; [done|]. split; [apply woken_refl|done]. }
  erewrite bind_Ok by exact E. destruct (Forall2_lookup_l _ _ _ _ _ (wk_processes _ _ _ Hw) (locked_lookup _ _ _ Hi)) as (p1 & Hi1 & _).
  erewrite bind_Ok by (by apply release_process_ok). unfold set_rflags, modify. eexists _, x. split; [done|]. split; [|done].
  by eapply woken_locked.
Qed.

Lemma sched_unblock_ok {h} s l pid tid : sys_ok h s l None -> exists s' x, sched_unblock pid tid s = Ok ((), s') /\ woken s x s'.
Proof.
  intros H. destruct (table_cases s pid) as [(i & p & Hi & <-)|Hno].
  - destruct (sched_unblock_found _ _ _ _ tid H Hi) as (s' & x & ? & ? & _). eauto.
  - unfold sched_unblock. mpure. erewrite bind_Ok by (apply (sched_get_process_missing (set_interrupts false s)); [apply H|done]).
    exists (set_interrupts false s), []. split; [done|]. destruct (woken_refl s) as [? ? ? ? ? ? ?]. split; done.
Qed.

(** ** Sleeping threads *)

Lemma woken_sleeping s sl : (forall e, e ∈ sl -> e ∈ sleeping_threads s) -> woken s [] (set_sleeping_threads sl s).
Proof. intros H. destruct (woken_refl s) as [? ? ? ? ? ? ?]. split; done. Qed.

Lemma sleep_cancel_ok {h} s l pid tid : sys_ok h s l None -> sleep_lock s = false -> exists r s' x, sleep_cancel pid tid s = Ok (r, s') /\ woken s x s'.
Proof.
  intros H Hsl. unfold sleep_cancel. destruct (find_sleeping pid tid (sleeping_threads s) 0 None) as [idx|] eqn:E.
  - assert (woken s [] (set_sleeping_threads (take idx (sleeping_threads s) ++ drop (S idx) (sleeping_threads s)) s)) as Hw.
    { apply woken_sleeping. intros e [He|He]%elem_of_app; eapply elem_of_submseteq; [exact He|apply submseteq_take|exact He|apply submseteq_drop]. }
    destruct (sched_unblock_ok _ _ pid tid (woken_sys _ _ _ _ _ H Hw)) as (s' & x & Hu & Hw'). exists 0, s', x. split; [|by eapply (woken_trans _ [])].
    destruct s; cbn in *. subst. mrun. rewrite E. unfold set_sleeping_threads, set_interrupts, set_sleep_lock in *. cbn in *. by rewrite Hu.
  - exists (-1), s, []. split; [|apply woken_refl]. destruct s; cbn in *. subst. mrun. by rewrite E.
Qed.

Lemma sleep_cancel_missing s pid tid : sleep_lock s = false -> find_sleeping pid tid (sleeping_threads s) 0 None = None -> sleep_cancel pid tid s = Ok (-1, s).
Proof. intros Hl E. destruct s; cbn in *. subst. unfold sleep_cancel. mrun. by rewrite E. Qed.

Lemma woken_sleep_lock s x s' : woken s x s' -> sleep_lock s' = sleep_lock s.
Proof. intros H. by rewrite (wk_upd _ _ _ H). Qed.

Lemma for_each_woken {h} {A} (body : A -> M ()) xs s l : sys_ok h s l None ->
  (forall a s1 l1, sys_ok h s1 l1 None -> sleep_lock s1 = sleep_lock s -> exists s' x, body a s1 = Ok ((), s') /\ woken s1 x s') ->
  exists s' x, for_each xs body s = Ok ((), s') /\ woken s x s'.
Proof.
  intros H Hb. revert s l H Hb. induction xs as [|a xs IH]; intros s l H Hb; cbn [for_each]; [exists s, []; split; [done|apply woken_refl]|].
  destruct (Hb a s l H eq_refl) as (s1 & x & E & Hw). erewrite bind_Ok by exact E.
  destruct (IH _ _ (woken_sys _ _ _ _ _ H Hw)) as (s2 & y & -> & Hw2).
  { intros a' s2 l2 H2 Hl2. apply (Hb a' s2 l2 H2). by rewrite Hl2, (woken_sleep_lock _ _ _ Hw). }
  exists s2, (x ++ y). split; [done|]. by eapply woken_trans.
Qed.

Lemma sys_sleep_lock {h} s l o b ie : sys_ok h s l o -> sys_ok h (set_sleep_lock b (set_interrupts ie s)) l o.
Proof. intros [? ? ? ? ? ? ? ? ? ? ?]. by split. Qed.

Lemma woken_sleep_locked s x s' sl ie : woken (set_sleep_lock true (set_interrupts false s)) x s' -> sleep_lock s = false -> (interrupts s = false -> ie = false) ->
  (forall e, e ∈ sl -> e ∈ sleeping_threads s) -> woken s x (set_interrupts ie (set_sleep_lock false (set_sleeping_threads sl s'))).
Proof. intros [U I P Q R C S] Hsl Hie Hs. split; try done. cbn. rewrite U at 1. destruct s; cbn in *. by subst. Qed.

(** The timer wakes the threads whose time has come. *)
Lemma wakeup_threads_ok {h} s l now : sys_ok h s l None -> sleep_lock s = false -> interrupts s = false ->
  exists s' x, wakeup_threads now s = Ok ((), s') /\ woken s x s'.
Proof.
  intros H Hsl Hie. unfold wakeup_threads. mrun. rewrite Hie. cbn. rewrite Hsl. cbn. rewrite Hsl. cbn. set (s0 := set_sleep_lock true (set_interrupts false s)).
  set (j := expired now (sleeping_threads s)). destruct (Nat.eqb_spec j 0) as [Ej|Ej]; cbn [negb].
  { cbn. eexists _, []. split; [done|]. destruct (woken_refl s). split; try done. destruct s; cbn in *. by subst. }
  rewrite (proj1 (sys_running _ _ _ H) : sched_running s0 = true).
  destruct (for_each_woken (h := h) (fun t => sched_unblock (st_pid t) (st_tid t)) (take j (sleeping_threads s)) s0 l) as (s1 & x & -> & Hw).
  { by apply sys_sleep_lock. } { intros a s1 l1 H1 _. by eapply sched_unblock_ok. }
  cbn. rewrite (wk_interrupts _ _ _ Hw eq_refl). cbn. eexists _, x. split; [done|]. apply woken_sleep_locked; try done.
  intros e He. eapply elem_of_submseteq; [exact He|apply submseteq_drop].
Qed.

(** ** Signals *)

Lemma land_all_signals k : 0 <= k < 32 -> Z.land ALL_SIGNALS (Z.shiftl 1 k) <> 0.
Proof. intros Hk E. apply (f_equal (fun z => Z.testbit z k)) in E. rewrite Z.land_spec, Z.testbit_0_l, Z.shiftl_1_l, Z.pow2_bits_true in E by lia. change ALL_SIGNALS with (Z.ones 32) in E. rewrite Z.ones_spec_low in E by lia. done. Qed.

Lemma lor_pending m k : 0 <= k < 32 -> 0 <= m < 2 ^ 32 -> 0 <= Z.lor m (Z.shiftl 1 k) < 2 ^ 32.
Proof.
  intros Hk Hm. rewrite Z.shiftl_1_l. assert (0 < 2 ^ k < 2 ^ 32) by (split; [lia|apply Z.pow_lt_mono_r; lia]).
  split; [apply Z.lor_nonneg; lia|]. assert (Z.lor m (2 ^ k) <> 0) by (rewrite Z.lor_eq_0_iff; lia). assert (0 <= Z.lor m (2 ^ k)) by (apply Z.lor_nonneg; lia).
  apply Z.log2_lt_pow2; [lia|]. rewrite Z.log2_lor by lia. destruct (decide (m = 0)) as [->|]; [rewrite Z.log2_pow2; cbn; lia|]. pose proof (proj1 (Z.log2_lt_pow2 m 32 ltac:(lia)) ltac:(lia)). rewrite Z.log2_pow2 by lia. lia.
Qed.

Lemma woken_put s i p p' : processes s !! i = Some p -> process_woken p p' -> thread_ids READY p' = thread_ids READY p -> woken s [] (set_processes (<[i := p']> (processes s)) s).
Proof.
  intros Hi Hp Hids. destruct (woken_refl s). split; try done; cbn.
  - rewrite <- (list_insert_id (processes s) i p) at 1 by done. by apply Forall2_insert.
  - rewrite app_nil_r. unfold ids. by rewrite (bind_same (thread_ids READY) _ _ _ _ Hi).
Qed.

Lemma process_woken_sig_wait p : process_woken p (set_threads (set_sig_wait false <$> threads p) p).
Proof.
  exists (set_sig_wait false <$> threads p), (sig_pending p). split; [by destruct p|]. split; [|done]. apply Forall2_fmap_r, Forall_Forall2_diag, list.Forall_forall.
  intros t _. exists (t_state t), false, (should_exit t). split; [by destruct t|]. auto.
Qed.

Lemma thread_ids_fmap st (f : thread -> thread) p : (forall t, t_state (f t) = t_state t /\ t_tid (f t) = t_tid t) ->
  thread_ids st (set_threads (f <$> threads p) p) = thread_ids st p.
Proof.
  intros Hf. unfold thread_ids. cbn. induction (threads p) as [|t ts IH]; [done|]. rewrite fmap_cons, !bind_cons, IH. by destruct (Hf t) as [-> ->].
Qed.

Lemma unblock_sigwait_ok {h} s l i p s1 p1 : sys_ok h s l None -> processes s !! i = Some p -> p_lock p = false -> woken (locked i p s) [] s1 -> processes s1 !! i = Some p1 ->
  exists s' x, unblock_sigwait_threads_and_release i (interrupts s) s1 = Ok ((), s') /\ woken s x s'.
Proof.
  intros H Hi Hpl Hw Hi1. unfold unblock_sigwait_threads_and_release. erewrite bind_Ok by by apply get_process_ok. erewrite bind_Ok by reflexivity. cbv beta.
  assert (woken (locked i p s) [] (set_processes (<[i := set_threads (set_sig_wait false <$> threads p1) p1]> (processes s1)) s1)) as Hw1.
  { eapply (woken_trans _ [] _ []); [exact Hw|]. eapply woken_put; [done|apply process_woken_sig_wait|by apply thread_ids_fmap]. }
  assert (interrupts s1 = false) as Hie by (by apply (wk_interrupts _ _ _ Hw)). assert (i < length (processes s1))%nat as Hlt by (by eapply lookup_lt_Some).
  erewrite bind_Ok by (apply release_process_ok; [done|by apply list_lookup_insert_eq]). erewrite bind_Ok by reflexivity. cbv beta.
  pose proof (woken_locked _ _ _ _ _ _ Hi Hpl Hw1 ltac:(by apply list_lookup_insert_eq) (interrupts s) ltac:(done)) as Hw2.
  edestruct (for_each_woken (h := h) (fun tid => sched_unblock (p_pid p1) tid)) as (s2 & x & E & Hw3); [|intros; by eapply sched_unblock_ok|].
  { eapply woken_sys; [exact H|exact Hw2]. }
  eexists s2, x. split; [exact E|]. by eapply (woken_trans _ [] _ x).
Qed.

Lemma process_trigger_signal_ok {h} s l pid signal : sys_ok h s l None -> sleep_lock s = false -> 0 <= signal < 32 ->
  exists r s' x, process_trigger_signal pid signal s = Ok (r, s') /\ woken s x s'.
Proof.
  intros H Hsl Hsig. unfold process_trigger_signal. mpure. destruct (table_cases s pid) as [(i & p & Hi & <-)|Hno].
  2:{ erewrite bind_Ok by (apply sched_get_process_missing; [apply H|done]). mpure. exists (-1), s, []. split; [unfold set_rflags; mrun; by rewrite set_interrupts_same|apply woken_refl]. }
  pose proof (sys_unlocked _ _ _ _ _ H Hi ltac:(done)) as Hpl. pose proof (sys_lookup _ _ _ _ _ H Hi) as Hok.
  erewrite bind_Ok by (by apply sched_get_process_found; [apply H|apply H|..]). cbv beta iota. pose proof (locked_lookup _ _ _ Hi) as Hli.
  erewrite bind_Ok by by apply get_process_ok. cbn [ign_mask set_p_lock threads sig_pending].
  case (Z.eqb_spec (Z.land (ign_mask p) (Z.shiftl 1 signal)) 0) as [Hign|Hign]; cbn [negb].
  2:{ erewrite bind_Ok by by apply release_process_ok. mpure. eexists 0, _, []. split; [done|]. eapply woken_locked; [done..|apply woken_refl|done|done]. }
  erewrite bind_Ok; [|unfold assertM; rewrite (proj2 (Z.ltb_lt 0 (zlen (threads p)))); [done|]; pose proof (pr_threads _ Hok); unfold zlen; destruct (threads p); [done|cbn; lia]].
  erewrite bind_Ok by done.
  set (p1 := set_sig_pending (Z.lor (sig_pending p) (Z.shiftl 1 signal)) (set_p_lock true p)).
  destruct (unblock_sigwait_ok (h := h) s l i p (set_processes (<[i := p1]> (processes (locked i p s))) (locked i p s)) p1) as (s1 & x & E & Hw); [done..| | |].
  { eapply (woken_put _ i); [by apply locked_lookup| |done]. exists (threads p), (Z.lor (sig_pending p) (Z.shiftl 1 signal)). split; [done|]. split; [done|].
    cbn. split; [intros Hall; rewrite Hall in Hign; by apply land_all_signals in Hign|intros; by apply lor_pending]. }
  { cbn. apply list_lookup_insert_eq. rewrite length_insert. by eapply lookup_lt_Some. }
  erewrite bind_Ok by exact E. pose proof (woken_sys _ _ _ _ _ H Hw) as H1. destruct (sleep_cancel_ok _ _ (p_pid p) 1 H1) as (r & s2 & y & E2 & Hw2); [by rewrite (woken_sleep_lock _ _ _ Hw)|].
  erewrite bind_Ok by exact E2. destruct (sched_unblock_ok _ _ (p_pid p) 1 (woken_sys _ _ _ _ _ H1 Hw2)) as (s3 & z & E3 & Hw3). erewrite bind_Ok by exact E3.
  eexists 0, s3, _. split; [done|]. eapply woken_trans; [exact Hw|]. by eapply woken_trans.
Qed.

(** ** Killing a process *)

Lemma process_woken_kill p : process_ok p -> p_pid p <> KERNEL_PID -> process_woken p (set_threads (set_should_exit true <$> threads p) p).
Proof.
  intros Hok Hk. exists (set_should_exit true <$> threads p), (sig_pending p). split; [by destruct p|]. split; [|done]. apply Forall2_fmap_r, Forall_Forall2_diag.
  eapply list.Forall_impl; [apply (pr_thread _ Hok)|]. intros t Ht. exists (t_state t), (sig_wait t), true. split; [by destruct t|]. split; [auto|]. right. by rewrite (th_pid _ _ Ht).
Qed.

Lemma sched_kill_process_ok {h} s l pid : sys_ok h s l None -> sleep_lock s = false -> interrupts s = true -> pid <> KERNEL_PID ->
  exists r s' x, sched_kill_process pid s = Ok (r, s') /\ woken s x s'.
Proof.
  intros H Hsl Hie Hk. unfold sched_kill_process. erewrite bind_Ok by (mrun; by rewrite Hie). mpure. destruct (table_cases s pid) as [(i & p & Hi & <-)|Hno].
  2:{ erewrite bind_Ok by (apply (sched_get_process_missing (set_interrupts false s)); [apply H|done]). mpure. exists (-1), s, []. split; [|apply woken_refl].
      mrun. unfold set_interrupts. rewrite <- Hie. by destruct s. }
  pose proof (sys_unlocked _ _ _ _ _ H Hi ltac:(done)) as Hpl. pose proof (sys_lookup _ _ _ _ _ H Hi) as Hok.
  erewrite bind_Ok by (eapply (sched_get_process_found (set_interrupts false s)); [apply H|apply H|done|done]). change (locked i p (set_interrupts false s)) with (locked i p s). cbv beta iota.
  pose proof (locked_lookup _ _ _ Hi) as Hli. erewrite bind_Ok by by apply get_process_ok. erewrite bind_Ok by reflexivity. cbv beta.
  assert (i < length (processes s))%nat as Hlt by (by eapply lookup_lt_Some).
  erewrite bind_Ok by (apply release_process_ok; [done|cbn; apply list_lookup_insert_eq; by rewrite length_insert]). erewrite bind_Ok by reflexivity. cbv beta.
  eassert (woken (locked i p s) [] _) as Hw1.
  { eapply (woken_put _ i); [exact Hli|apply process_woken_kill; [by apply process_ok_lock|done]|by apply thread_ids_fmap]. }
  pose proof (woken_locked _ _ _ _ _ _ Hi Hpl Hw1 ltac:(cbn; apply list_lookup_insert_eq; by rewrite length_insert) true ltac:(by rewrite Hie)) as Hw2.
  edestruct (for_each_woken (h := h) (fun tid => sleep_cancel (p_pid p) tid ≫= fun _ => sched_unblock (p_pid p) tid)) as (s2 & x & E & Hw3).
  { eapply woken_sys; [exact H|exact Hw2]. }
  { intros tid s1 l1 H1 Hl1. destruct (sleep_cancel_ok s1 l1 (p_pid p) tid H1) as (r & s3 & y & E3 & Hw3); [by rewrite Hl1|].
    erewrite bind_Ok by exact E3. destruct (sched_unblock_ok _ _ (p_pid p) tid (woken_sys _ _ _ _ _ H1 Hw3)) as (s4 & z & E4 & Hw4). exists s4, (y ++ z). split; [done|]. by eapply woken_trans. }
  erewrite bind_Ok by exact E. eexists 0, s2, x. split; [done|]. by eapply (woken_trans _ [] _ x).
Qed.
