(* ===== verification/SchedSelect.v ===== *)
(** * The choice of the next thread

    [choose_next] takes the oldest ready thread; a thread that is to exit is terminated
    instead of run, its process is removed with its last thread, and the search goes on.  It
    ends with a thread, because the kernel thread is never killed. *)

From S2P Require Import Prelude SchedQueue SchedState Sched SchedSwitch SchedInv SchedWake.





Lemma pop_ready_ok s x l : sched_lock s = false -> pq_holds (pqueue s) (x :: l) -> 0 <= td_pid x <= MAX_PID -> 0 <= td_tid x <= MAX_TID ->
  exists q, pop_ready_thread s = Ok (x, set_n_ready_threads (n_ready_threads s - 1) (set_pqueue q s)) /\ pq_holds q l.
Proof.
  intros Hl Hq Hp Ht. destruct (pqueue_pop_ok _ _ _ Hq) as (q & Eq & Hq'). exists q. split; [|done].
  destruct s; cbn in *. subst. unfold pop_ready_thread. mrun. rewrite Eq. cbn.
  rewrite (proj2 (Z.leb_le 0 (td_pid x))), (proj2 (Z.leb_le (td_pid x) MAX_PID)), (proj2 (Z.leb_le 0 (td_tid x))), (proj2 (Z.leb_le (td_tid x) MAX_TID)) by lia. done.
Qed.

(** ** Replacing a process while no thread runs *)

Lemma ids_insert_same st ps i p p' : ps !! i = Some p -> thread_ids st p' = thread_ids st p -> ids st (<[i := p']> ps) = ids st ps.
Proof.
  intros Hi E. exact (bind_insert_eq _ _ _ _ _ Hi E).
Qed.

Lemma not_running ps i p : ids RUNNING ps = [] -> ps !! i = Some p -> thread_ids RUNNING p = [].
Proof.
  intros H Hi. destruct (thread_ids RUNNING p) as [|y ys] eqn:E; [done|]. assert (y ∈ ids RUNNING ps) as Hy; [|by rewrite H in Hy; apply elem_of_nil in Hy].
  unfold ids. apply list_elem_of_bind. exists p. split; [rewrite E; left|by eapply list_elem_of_lookup_2].
Qed.

Lemma irq_replace {h o} h' s l i p p' q n sl l' o' : irq_mode h o s l -> processes s !! i = Some p -> replaces p p' ->
  thread_ids RUNNING p' = [] -> pq_holds q l' -> h' ++ l' ≡ₚ ids READY (<[i := p']> (processes s)) -> n = zlen l' -> (forall e, e ∈ sl -> e ∈ sleeping_threads s) ->
  locks (upd (<[i := p']> (processes s)) q n sl false s) o' -> irq_mode h' o' (upd (<[i := p']> (processes s)) q n sl false s) l'.
Proof.
  intros [H1 H2 H3 Hsl H4 H5] Hi Hrp Hrun Hq Hr Hn Hss Hlk.
  pose proof (not_running _ _ _ H2 Hi) as Hrp0.
  split; cbn; try done.
  - by eapply sys_replace.
  - rewrite (ids_insert_same _ _ _ _ _ Hi); [done|congruence].
  - intros k pk Hk Hpk. destruct (decide (i = k)) as [<-|Hne].
    + rewrite list_lookup_insert_eq in Hk by (by eapply lookup_lt_Some). injection Hk as <-. destruct (rp_pds _ _ Hrp) as [-> ->]. apply (H5 i p Hi). by rewrite <- (rp_pid _ _ Hrp).
    + rewrite list_lookup_insert_ne in Hk by done. by apply (H5 k pk).
Qed.

(** ** The oldest ready thread *)

(** The kernel thread is ready whenever no thread runs. *)
Lemma irq_kernel_ready {h o} s l : irq_mode h o s l -> Td KERNEL_PID 1 ∈ h ++ l.
Proof.
  intros H. pose proof (im_sys _ _ H) as Hs. rewrite (sys_ready _ _ _ Hs). destruct (sys_kernel _ _ _ Hs) as (i & p & Hi & Hk).
  destruct (pr_kernel _ (sys_lookup _ _ _ _ _ Hs Hi) Hk) as (_ & _ & _ & _ & t & Et & Etid & Hb & _).
  assert (forall st, t_state t = st -> Td KERNEL_PID 1 ∈ ids st (processes s)) as Hin.
  { intros st Hst. apply elem_of_ids. exists i, p, 0%nat, t. rewrite Hk, Etid. split; [done|]. by rewrite Et. }
  destruct (t_state t) eqn:E; [by apply Hin|exfalso|done]. specialize (Hin _ eq_refl). rewrite (im_current _ _ H) in Hin. by apply elem_of_nil in Hin.
Qed.

(** A ready thread in the table. *)
Definition ready_at (s : sched) (i j : nat) (p : process) (t : thread) : Prop :=
  processes s !! i = Some p /\ threads p !! j = Some t /\ t_state t = READY.

Lemma choose_next_ok s x l : irq_mode [] None s (x :: l) -> exists i j p t q, ready_at s i j p t /\ x = Td (p_pid p) (t_tid t) /\
  let s' := set_n_ready_threads (n_ready_threads s - 1) (set_pqueue q s) in choose_next s = Ok ((i, j), locked i p s') /\ irq_mode [x] (Some i) (locked i p s') l.
Proof.
  intros H. pose proof (im_sys _ _ H) as Hs. assert (x ∈ ids READY (processes s)) as Hx by (rewrite <- (sys_ready _ _ _ Hs); left).
  apply elem_of_ids in Hx as (i & p & j & t & Hi & Hj & Hst & ->). pose proof (sys_lookup _ _ _ _ _ Hs Hi) as Hok.
  pose proof (Forall_lookup_1 _ _ _ _ (pr_thread _ Hok) Hj) as Hth. destruct (sys_locks _ _ _ Hs) as [Hsl Hpl].
  destruct (pop_ready_ok s (Td (p_pid p) (t_tid t)) l Hsl (sys_queue _ _ _ Hs)) as (q & Epop & Hq); [apply Hok|pose proof (th_tid _ _ Hth); cbn; lia|].
  exists i, j, p, t, q. split; [done|]. split; [done|]. cbv zeta. set (s' := set_n_ready_threads (n_ready_threads s - 1) (set_pqueue q s)). split.
  - unfold choose_next. erewrite bind_Ok by exact Epop. cbn [td_pid td_tid]. fold s'.
    erewrite bind_Ok by (eapply (sched_get_process_found s'); [done|apply Hs|done|by rewrite (Hpl _ _ Hi)]). cbv beta iota.
    assert (processes (locked i p s') !! i = Some (set_p_lock true p)) as Hli by (by apply (locked_lookup s')).
    erewrite bind_Ok by (eapply sched_get_thread_by_tid_ok; [exact Hli|done]). cbn [threads set_p_lock].
    rewrite (find_thread_Some _ _ _ (pr_tids _ Hok) Hj). erewrite bind_Ok by (by eapply get_thread_ok). by rewrite bool_decide_true.
  - assert (locked i p s' = upd (<[i := set_p_lock true p]> (processes s)) q (n_ready_threads s - 1) (sleeping_threads s) false s) as -> by (by destruct s).
    eapply irq_replace; try done; [by apply replaces_lock|..].
    + by apply (not_running _ _ _ (im_current _ _ H) Hi).
    + rewrite (ids_insert_same READY _ _ _ (set_p_lock true p) Hi) by done. apply (sys_ready _ _ _ Hs).
    + rewrite (sys_count _ _ _ Hs). unfold zlen. cbn. lia.
    + eapply locks_insert; [apply Hs|exact Hi|done|done|by rewrite bool_decide_true|]. intros k Hk. split; congruence.
Qed.

(** ** The mapped memory *)

(** The master entries hold both tables of a process or none. *)
Lemma master_cases {h} s l o i p : sys_ok h s l o -> processes s !! i = Some p ->
  (master_private s = private_pd p <-> master_shared s = shared_pd p) /\ (master_private s = 0 <-> master_shared s = 0).
Proof.
  intros Hs Hi. pose proof (sys_lookup _ _ _ _ _ Hs Hi) as Hok. destruct (sys_maps _ _ _ Hs) as (Hn1 & Hn2 & _ & Hm).
  assert (p ∈ known s) as Hp by (apply elem_of_app; left; by eapply list_elem_of_lookup_2).
  destruct Hm as [[-> ->]|(m & Hm & Hp0 & Hs0 & -> & ->)].
  - split; [|done]. destruct (decide (p_pid p = KERNEL_PID)) as [Hk|Hk]; [destruct (pr_kernel _ Hok Hk) as (-> & -> & _); done|].
    destruct (pr_user _ Hok Hk). split; congruence.
  - split; [|split; congruence]. split; intros E; [by rewrite (NoDup_fmap_elem _ _ _ _ Hn1 Hm Hp E)|by rewrite (NoDup_fmap_elem _ _ _ _ Hn2 Hm Hp E)].
Qed.

Lemma is_process_mapped_ok {h} s l o i p : sys_ok h s l o -> processes s !! i = Some p -> is_process_mapped (Some i) s = Ok (master_private s =? private_pd p, s).
Proof.
  intros Hs Hi. destruct (master_cases _ _ _ _ _ Hs Hi) as [Hm _]. unfold is_process_mapped. erewrite bind_Ok by (erewrite bind_Ok by (by apply get_process_ok); done).
  mrun. replace (master_shared s =? shared_pd p) with (master_private s =? private_pd p) by (destruct (Z.eqb_spec (master_private s) (private_pd p)), (Z.eqb_spec (master_shared s) (shared_pd p)); tauto).
  by rewrite Bool.eqb_reflx.
Qed.

Lemma is_process_mapped_none {h} s l o : sys_ok h s l o -> is_process_mapped None s = Ok (negb (master_private s =? 0), s).
Proof.
  intros Hs. destruct (sys_kernel _ _ _ Hs) as (i & p & Hi & _). destruct (master_cases _ _ _ _ _ Hs Hi) as [_ Hm]. unfold is_process_mapped. mrun.
  replace (master_shared s =? 0) with (master_private s =? 0) by (destruct (Z.eqb_spec (master_private s) 0), (Z.eqb_spec (master_shared s) 0); tauto). by rewrite Bool.eqb_reflx.
Qed.

Definition set_master (a b : Z) (s : sched) : sched := set_master_shared b (set_master_private a s).

Lemma process_map_ok s i p : interrupts s = false -> processes s !! i = Some p -> master_private s <> private_pd p -> master_shared s <> shared_pd p ->
  process_map i s = Ok ((), set_master (private_pd p) (shared_pd p) s).
Proof.
  intros Hie Hi Hp Hs. unfold process_map. erewrite bind_Ok by (mrun; by rewrite Hie). erewrite bind_Ok by (by apply get_process_ok). unfold user_map. mrun.
  rewrite (proj2 (Z.eqb_neq _ _) Hp). cbn. by rewrite (proj2 (Z.eqb_neq _ _) Hs).
Qed.

Lemma process_unmap_ok s : interrupts s = false -> master_private s <> 0 -> master_shared s <> 0 -> process_unmap s = Ok ((), set_master 0 0 s).
Proof.
  intros Hie Hp Hs. unfold process_unmap. erewrite bind_Ok by (mrun; by rewrite Hie). mrun. rewrite (proj2 (Z.eqb_neq _ _) Hp). cbn. by rewrite (proj2 (Z.eqb_neq _ _) Hs).
Qed.

Lemma sys_master {h} s l o a b r : sys_ok h s l o -> (a = 0 /\ b = 0 \/ exists p, p ∈ known s /\ private_pd p <> 0 /\ shared_pd p <> 0 /\ a = private_pd p /\ b = shared_pd p) ->
  sys_ok h (set_released_stacks r (set_master a b s)) l o.
Proof. intros [? ? ? ? ? ? ? ? (? & ? & ? & _) ? ?] Hab. by split. Qed.

Lemma irq_unmapped {h o} s l r : irq_mode h o s l -> irq_mode h o (set_released_stacks r (set_master 0 0 s)) l.
Proof. intros [H1 H2 H3 H4 H5 H6]. split; try done; [apply sys_master; [done|by left]|]. intros i p _ _. by left. Qed.

Lemma irq_released {h o} s l r : irq_mode h o s l -> irq_mode h o (set_released_stacks r s) l.
Proof. intros [[? ? ? ? ? ? ? ? ? ? ?] H2 H3 H4 H5 H6]. by split. Qed.

(** ** The end of a thread *)

Lemma lazy_unmap_ok {h} s l o i j p t : irq_mode h o s l -> processes s !! i = Some p -> threads p !! j = Some t -> p_pid p <> KERNEL_PID -> uninterruptible t = false ->
  exists s', lazy_unmap i j s = Ok ((), s') /\ irq_mode h o s' l /\ processes s' = processes s /\ killed_processes s' = killed_processes s /\
    released_stacks s' = released_stacks s ++ [(stack_base t, private_pd p)].
Proof.
  intros H Hi Hj Hk Hu. pose proof (im_sys _ _ H) as Hs. destruct (pr_user _ (sys_lookup _ _ _ _ _ Hs Hi) Hk) as [Hp0 Hs0].
  unfold lazy_unmap. erewrite bind_Ok by (by eapply is_process_mapped_ok). destruct (Z.eqb_spec (master_private s) (private_pd p)) as [E|E]; cbn [negb when].
  - mpure. unfold thread_terminate. erewrite bind_Ok by (erewrite bind_Ok by (by eapply get_thread_ok); rewrite Hu; mrun; done). eexists. split; [done|].
    split; [by apply irq_released|]. cbn. by rewrite E.
  - destruct (master_cases _ _ _ _ _ Hs Hi) as [Hm _]. erewrite bind_Ok by (apply process_map_ok; [apply H|done|done|tauto]).
    unfold thread_terminate. erewrite bind_Ok by (erewrite bind_Ok by (by eapply get_thread_ok); rewrite Hu; mrun; done).
    rewrite process_unmap_ok; [|apply H|done|done]. eexists. split; [done|]. split; [|done]. by apply (irq_unmapped s l).
Qed.

Lemma thread_ids_swap_remove st p j t : threads p !! j = Some t ->
  thread_ids st p ≡ₚ (if bool_decide (t_state t = st) then [Td (p_pid p) (t_tid t)] else []) ++ thread_ids st (set_threads (swap_remove j (threads p)) p).
Proof. intros Hj. unfold thread_ids. cbn. rewrite (swap_remove_Permutation _ _ _ Hj). exact (bind_lookup _ _ _ _ Hj). Qed.

Lemma swap_remove_lookup {A} (l : list A) j x k y : l !! j = Some x -> swap_remove j l !! k = Some y -> exists k', l !! k' = Some y.
Proof.
  intros Hj Hk. apply list_elem_of_lookup_2 in Hk. rewrite (swap_remove_Permutation _ _ _ Hj) in Hk. apply list_elem_of_lookup.
  rewrite (delete_Permutation l j x Hj). by right.
Qed.

Lemma process_ok_swap_remove p j t : process_ok p -> threads p !! j = Some t -> p_pid p <> KERNEL_PID -> swap_remove j (threads p) <> [] ->
  process_ok (set_threads (swap_remove j (threads p)) p).
Proof.
  intros [H1 H2 H3 H4 H5 H6 H7 H8] Hj Hk Hne. pose proof (swap_remove_Permutation _ _ _ Hj) as HP. split; cbn; try done.
  - rewrite HP. rewrite (delete_Permutation _ _ _ Hj), fmap_cons in H3. by apply list.NoDup_cons in H3 as [_ ?].
  - apply list.Forall_lookup. intros k t' Hk'. destruct (swap_remove_lookup _ _ _ _ _ Hj Hk') as (k' & Hk''). destruct (Forall_lookup_1 _ _ _ _ H4 Hk''). by split.
Qed.

Lemma swap_remove_length {A} (l : list A) j x : l !! j = Some x -> length l = S (length (swap_remove j l)).
Proof. intros Hj. rewrite (Permutation_length (swap_remove_Permutation _ _ _ Hj)). pose proof (lookup_lt_Some _ _ _ Hj). rewrite length_delete by done. lia. Qed.

(** ... when other threads of the process are left, *)
Lemma thread_removed_ok s l i j p t : irq_mode [Td (p_pid p) (t_tid t)] (Some i) s l -> ready_at s i j p t -> p_pid p <> KERNEL_PID -> swap_remove j (threads p) <> [] ->
  irq_mode [] None (set_processes (<[i := set_p_lock false (set_threads (swap_remove j (threads p)) p)]> (processes s)) s) l.
Proof.
  intros H (Hi & Hj & Hst) Hk Hne. pose proof (im_sys _ _ H) as Hs. pose proof (sys_lookup _ _ _ _ _ Hs Hi) as Hok. set (p' := set_threads (swap_remove j (threads p)) p).
  assert (set_processes (<[i := set_p_lock false p']> (processes s)) s = upd (<[i := set_p_lock false p']> (processes s)) (pqueue s) (n_ready_threads s) (sleeping_threads s) false s) as ->.
  { pose proof (im_disabled _ _ H) as Hie. destruct s; cbn in *. by subst. }
  assert (forall st, thread_ids st p ≡ₚ (if bool_decide (t_state t = st) then [Td (p_pid p) (t_tid t)] else []) ++ thread_ids st (set_p_lock false p')) as Hids by (intros st; by apply thread_ids_swap_remove).
  eapply irq_replace; try done.
  - split; cbn; try done.
    + apply process_ok_lock. by eapply process_ok_swap_remove.
    + pose proof (swap_remove_length _ _ _ Hj). lia.
    + intros k t' Hk'. destruct (swap_remove_lookup _ _ _ _ _ Hj Hk') as (k' & ?). eauto 10.
  - specialize (Hids RUNNING). rewrite (not_running _ _ _ (im_current _ _ H) Hi), Hst in Hids. cbn in Hids. by apply Permutation_nil in Hids.
  - apply Hs.
  - cbn. apply (Permutation_cons_inv (a := Td (p_pid p) (t_tid t))). change (Td (p_pid p) (t_tid t) :: l) with ([Td (p_pid p) (t_tid t)] ++ l). rewrite (sys_ready _ _ _ Hs).
    unfold ids. rewrite (bind_lookup _ _ _ _ Hi), (bind_insert _ _ _ _ _ Hi), (Hids READY), Hst, bool_decide_true by done. done.
  - apply Hs.
  - eapply locks_insert; [apply Hs|exact Hi|done|done|by rewrite bool_decide_false|]. intros k Hk'. split; congruence.
Qed.

(** ... and when it was the last one, so that the process is removed. *)
Definition without_process (s : sched) (i : nat) (q : process) : sched :=
  set_processes (swap_remove i (<[i := q]> (processes s))) (set_killed_processes (killed_processes s ++ [q]) s).

Lemma sum_list_Permutation {A} (f : A -> nat) (l k : list A) : l ≡ₚ k -> sum_list (f <$> l) = sum_list (f <$> k).
Proof. intros H. induction H; cbn; lia. Qed.

Lemma process_removed_ok s l i j p t q : irq_mode [Td (p_pid p) (t_tid t)] (Some i) s l -> ready_at s i j p t -> p_pid p <> KERNEL_PID -> threads p = [t] ->
  q = set_p_lock true (set_threads [] p) -> irq_mode [] None (without_process s i q) l.
Proof.
  intros H (Hi & Hj & Hst) Hk Ht ->. pose proof (im_sys _ _ H) as Hs. set (q := set_p_lock true (set_threads [] p)). pose proof (lookup_lt_Some _ _ _ Hi) as Hlt.
  set (ps' := swap_remove i (<[i := q]> (processes s))).
  assert (processes s ≡ₚ p :: ps') as HP.
  { unfold ps'. rewrite (swap_remove_Permutation _ i q) by (by apply list_lookup_insert_eq). rewrite delete_insert_place. by apply delete_Permutation. }
  assert (forall k r, ps' !! k = Some r -> exists k', k' <> i /\ processes s !! k' = Some r) as Hin.
  { intros k r Hk'%list_elem_of_lookup_2. unfold ps' in Hk'. rewrite (swap_remove_Permutation _ i q), delete_insert_place in Hk' by (by apply list_lookup_insert_eq).
    apply list_elem_of_lookup in Hk' as [k' Hk']. destruct (decide (k' < i)%nat); [rewrite list_lookup_delete_lt in Hk' by done; exists k'; split; [lia|done]|].
    rewrite list_lookup_delete_ge in Hk' by lia. exists (S k'). split; [lia|done]. }
  assert (forall st, thread_ids st p = if bool_decide (t_state t = st) then [Td (p_pid p) (t_tid t)] else []) as Hids by (intros st; unfold thread_ids; rewrite Ht; cbn; by rewrite app_nil_r).
  assert (forall st, ids st (processes s) ≡ₚ (if bool_decide (t_state t = st) then [Td (p_pid p) (t_tid t)] else []) ++ ids st ps') as Hids'.
  { intros st. rewrite <- Hids. unfold ids. rewrite HP. by rewrite bind_cons. }
  destruct Hs as [H1 H2 H3 H4 H5 H6 H7 H8 H9 H10 H11]. split; cbn; try (by apply H); fold ps'.
  2:{ specialize (Hids' RUNNING). rewrite (im_current _ _ H), Hst in Hids'. by apply Permutation_nil in Hids'. }
  2:{ intros k r Hk'. destruct (Hin _ _ Hk') as (k' & _ & Hr). by apply (im_mapped _ _ H k' r). }
  split; cbn; fold ps'; try done.
  - rewrite HP in H1. by apply list.NoDup_cons in H1 as [_ ?].
  - rewrite HP in H2. by apply list.Forall_cons in H2 as [_ ?].
  - destruct H3 as (k & r & Hr%list_elem_of_lookup_2 & Er). rewrite HP in Hr. apply elem_of_cons in Hr as [->|Hr]; [done|]. apply list_elem_of_lookup in Hr as [k' ?]. eauto.
  - apply (Permutation_cons_inv (a := Td (p_pid p) (t_tid t))). change (Td (p_pid p) (t_tid t) :: l) with ([Td (p_pid p) (t_tid t)] ++ l). rewrite H5, (Hids' READY), Hst. done.
  - unfold total_threads in *. cbn. fold ps'. rewrite (sum_list_Permutation _ _ _ HP) in H7. cbn in H7. unfold id in *. lia.
  - intros e k r k' t' He Hr. destruct (Hin _ _ Hr) as (m & _ & Hm). by eapply H8.
  - destruct H9 as (M1 & M2 & M3 & M4). unfold maps_ok, known in *. cbn. fold ps'. rewrite !fmap_app in *. cbn [fmap list_fmap].
    change (private_pd q) with (private_pd p). change (shared_pd q) with (shared_pd p).
    assert (forall f : process -> Z, (f <$> ps') ++ (f <$> killed_processes s) ++ [f p] ≡ₚ (f <$> processes s) ++ (f <$> killed_processes s)) as HPm by (intros f; rewrite HP, fmap_cons; solve_Permutation).
    split; [by rewrite HPm|]. split; [by rewrite HPm|]. split; [apply list.Forall_app; split; [done|by constructor]|].
    destruct M4 as [?|(m & Hm & Hpd)]; [by left|right]. rewrite HP in Hm. apply elem_of_app in Hm as [[->|Hm]%elem_of_cons|Hm].
    + exists q. split; [|done]. do 2 (apply elem_of_app; right). by left.
    + exists m. split; [|done]. by apply elem_of_app; left.
    + exists m. split; [|done]. apply elem_of_app; right. by apply elem_of_app; left.
  - destruct H10 as [Hl Hpl]. split; [done|]. cbn. fold ps'. intros k r Hr. destruct (Hin _ _ Hr) as (k' & Hne & Hr'). rewrite (Hpl _ _ Hr'). by rewrite !bool_decide_false by congruence.
Qed.

Lemma first_process_shift pid ps i : first_process pid ps i = (fun k => (i + k)%nat) <$> first_process pid ps 0.
Proof.
  revert i. induction ps as [|p ps IH]; intros i; cbn; [done|]. destruct (p_pid p =? pid); cbn; [f_equal; lia|].
  rewrite IH, (IH 1%nat). destruct (first_process pid ps 0); cbn; [f_equal; lia|done].
Qed.

Lemma first_process_Some ps i p : NoDup (p_pid <$> ps) -> ps !! i = Some p -> first_process (p_pid p) ps 0 = Some i.
Proof.
  revert i. induction ps as [|q ps IH]; intros i Hn Hi; [done|]. cbn in *. apply list.NoDup_cons in Hn as [Hni Hn]. destruct i as [|i]; cbn in Hi.
  - injection Hi as ->. by rewrite Z.eqb_refl.
  - rewrite (proj2 (Z.eqb_neq _ _)); [by rewrite first_process_shift, (IH _ Hn Hi)|]. intros E. apply Hni. rewrite E. apply list_elem_of_fmap. exists p. split; [done|]. by eapply list_elem_of_lookup_2.
Qed.

(** The process leaves the table before its parent is told. *)
Lemma remove_process_eq s i p : processes s !! i = Some p -> NoDup (p_pid <$> processes s) -> sched_lock s = false -> interrupts s = false ->
  remove_process (p_pid p) (set_processes (<[i := set_p_lock false (set_threads [] p)]> (processes s)) s) =
  (_ ← process_trigger_signal (p_ppid p) SIGCHLD; mret true) (without_process s i (set_p_lock true (set_threads [] p))).
Proof.
  intros Hi Hn Hl Hie. pose proof (lookup_lt_Some _ _ _ Hi) as Hlt. unfold remove_process.
  assert (NoDup (p_pid <$> <[i := set_p_lock false (set_threads [] p)]> (processes s))) as Hn' by (by rewrite (fmap_insert_same p_pid _ _ _ _ Hi)).
  pose proof (list_lookup_insert_eq (processes s) i (set_p_lock false (set_threads [] p)) Hlt) as Hi'.
  pose proof (first_process_Some _ _ _ Hn' Hi') as Hf. cbn [p_pid set_p_lock set_threads] in Hf. destruct s; cbn in *. subst. mrun. rewrite Hf.
  unfold acquire_process, get_process, put_process, add_killed_process, get_process. mrun. rewrite Hi'. cbn -[lookup insert swap_remove process_trigger_signal].
  rewrite !list_insert_insert_eq, list_lookup_insert_eq by done. cbn -[lookup insert swap_remove process_trigger_signal].
  rewrite list_lookup_insert_eq by done. cbn -[lookup insert swap_remove process_trigger_signal]. done.
Qed.

Lemma woken_alive s x s' : woken s x s' -> alive (processes s') = alive (processes s).
Proof.
  intros H. pose proof (wk_processes _ _ _ H) as Hp. clear H. unfold alive. induction Hp as [|p p' ? ? (ts & m & -> & Ht & _) _ IH]; [done|].
  rewrite !bind_cons, IH. f_equal. unfold process_alive. cbn. clear - Ht. induction Ht as [|? ? ? ? (? & ? & ? & -> & _) _ IH]; [done|]. rewrite !fmap_cons. by rewrite IH.
Qed.

(** A thread that is to exit is gone after its turn, and the search goes on. *)
Lemma lazy_kill_ok s l i j p t : irq_mode [Td (p_pid p) (t_tid t)] (Some i) s l -> ready_at s i j p t -> p_pid p <> KERNEL_PID -> uninterruptible t = false ->
  exists s' x, lazy_kill i j s = Ok ((), s') /\ irq_mode [] None s' (l ++ x) /\
    alive (processes s) ≡ₚ Td (p_pid p) (t_tid t) :: alive (processes s').
Proof.
  intros H Hr Hk Hu. destruct Hr as (Hi & Hj & Hst). destruct (lazy_unmap_ok _ _ _ _ _ _ _ H Hi Hj Hk Hu) as (s1 & E1 & H1 & Ep & Ek & _).
  unfold lazy_kill. erewrite bind_Ok by exact E1. rewrite <- Ep in Hi. assert (ready_at s1 i j p t) as Hr by done. pose proof (im_sys _ _ H1) as Hs1.
  rewrite <- Ep. pose proof (lookup_lt_Some _ _ _ Hi) as Hlt.
  erewrite bind_Ok by (by apply update_process_ok). set (p' := set_threads (swap_remove j (threads p)) p).
  erewrite bind_Ok by (apply get_process_ok; cbn; by apply list_lookup_insert_eq).
  erewrite bind_Ok by (apply release_process_ok; [apply H1|cbn; by apply list_lookup_insert_eq]).
  replace (set_processes _ (set_processes (<[i := p']> (processes s1)) s1)) with (set_processes (<[i := set_p_lock false p']> (processes s1)) s1) by (cbn; by rewrite list_insert_insert_eq).
  pose proof (swap_remove_length _ _ _ Hj) as Hlen. change (threads p') with (swap_remove j (threads p)). destruct (Z.eqb_spec (zlen (swap_remove j (threads p))) 0) as [E0|E0].
  - assert (threads p = [t]) as Ht.
    { unfold zlen in E0. destruct (threads p) as [|t1 [|t2 ts]]; [done| |cbn in Hlen; lia]. destruct j; [cbn in Hj; congruence|done]. }
    assert (swap_remove j (threads p) = []) as Hsw by (apply length_zero_iff_nil; unfold zlen in E0; lia). unfold p'. rewrite Hsw. change (p_pid (set_threads [] p)) with (p_pid p).
    pose proof (process_removed_ok _ _ _ _ _ _ _ H1 Hr Hk Ht eq_refl) as H2. unfold mbind at 1, M_bind at 1. rewrite remove_process_eq; [|done|apply Hs1|apply (sys_locks _ _ _ Hs1)|apply H1].
    destruct (process_trigger_signal_ok _ _ (p_ppid p) SIGCHLD (im_sys _ _ H2)) as (r & s2 & x & E2 & Hw); [apply H2|done|]. erewrite bind_Ok by exact E2.
    eexists s2, x. split; [done|]. split; [by eapply woken_irq_mode|].
    assert (alive (processes s2) = alive (processes (without_process s1 i (set_p_lock true (set_threads [] p))))) as -> by (by eapply woken_alive).
    unfold alive, without_process. cbn. rewrite (swap_remove_Permutation _ i _ (list_lookup_insert_eq _ _ _ Hlt)), delete_insert_place.
    rewrite (bind_lookup process_alive _ _ _ Hi). unfold process_alive at 1. by rewrite Ht.
  - exists (set_processes (<[i := set_p_lock false p']> (processes s1)) s1), []. split; [done|]. rewrite app_nil_r. split.
    + apply (thread_removed_ok s1 l i j p t); try done. intros E. by rewrite E in E0.
    + unfold alive. cbn. rewrite (bind_lookup process_alive _ _ _ Hi), (bind_insert process_alive _ _ _ _ Hi). unfold process_alive at 1 3. cbn.
      rewrite (swap_remove_Permutation _ _ _ Hj). by rewrite (delete_Permutation _ _ _ Hj) at 1.
Qed.

(** ** The selected thread *)

Lemma kernel_thread p j t : process_ok p -> p_pid p = KERNEL_PID -> threads p !! j = Some t -> should_exit t = false /\ uninterruptible t = false.
Proof. intros Hok Hk Hj. destruct (pr_kernel _ Hok Hk) as (_ & _ & _ & _ & t0 & Et & _ & _ & He & Hu). rewrite Et in Hj. destruct j; [|done]. injection Hj as <-. done. Qed.

(** The threads of the queue in front of the selected one were to exit and are gone; the
    threads behind it keep their order, and newly woken threads come after them. *)
Record selected (s : sched) (l : list td) (i j : nat) (p : process) (t : thread) (s' : sched) (l' : list td) : Prop := {
  sl_ready : ready_at s' i j p t;
  sl_irq : irq_mode [Td (p_pid p) (t_tid t)] (Some i) s' l';
  sl_exit : should_exit t && negb (uninterruptible t) = false;
  sl_order : exists gone new, l ++ new = gone ++ Td (p_pid p) (t_tid t) :: l' /\ forall d, d ∈ gone -> d ∉ alive (processes s');
  sl_alive : forall d, d ∈ alive (processes s') -> d ∈ alive (processes s) }.

Lemma select_thread_ok fuel s l : irq_mode [] None s l -> (total_threads s < fuel)%nat ->
  exists i j p t s' l', select_thread fuel s = Ok ((i, j), s') /\ selected s l i j p t s' l'.
Proof.
  revert s l. induction fuel as [|fuel IH]; intros s l H Hf; [lia|]. cbn [select_thread].
  destruct l as [|x l]; [pose proof (irq_kernel_ready _ _ H) as Hx; by apply elem_of_nil in Hx|].
  destruct (choose_next_ok _ _ _ H) as (i & j & p & t & q & (Hi & Hj & Hst) & -> & E & H1). cbv zeta in E, H1. set (s0 := set_n_ready_threads (n_ready_threads s - 1) (set_pqueue q s)) in *.
  set (s1 := locked i p s0) in *. erewrite bind_Ok by exact E. cbv beta iota. set (p1 := set_p_lock true p) in *.
  assert (processes s1 !! i = Some p1) as Hi1 by (by apply (locked_lookup s0)). assert (ready_at s1 i j p1 t) as Hr by done.
  pose proof (sys_lookup _ _ _ _ _ (im_sys _ _ H1) Hi1) as Hok. pose proof (Forall_lookup_1 _ _ _ _ (pr_thread _ Hok) Hj) as Hth.
  erewrite bind_Ok by (by apply get_process_ok). erewrite bind_Ok by (by eapply get_thread_ok). unfold assertM. rewrite (th_pid _ _ Hth), Z.eqb_refl. mpure.
  rewrite (proj2 (Z.ltb_lt 0 (zlen (threads p1)))) by (unfold zlen; apply lookup_lt_Some in Hj; cbn in *; lia). mpure. rewrite (proj2 (Z.ltb_lt 0 (t_tid t))) by apply Hth. mpure.
  rewrite Hst, bool_decide_true by done. mpure.
  assert (alive (processes s1) = alive (processes s)) as Ea by exact (bind_insert_eq process_alive _ _ _ p1 Hi eq_refl).
  destruct (should_exit t && negb (uninterruptible t)) eqn:Ex.
  - apply andb_true_iff in Ex as [Ex Eu]. apply negb_true_iff in Eu.
    assert (p_pid p1 <> KERNEL_PID) as Hk by (intros Hk; destruct (kernel_thread _ _ _ Hok Hk Hj); congruence).
    destruct (lazy_kill_ok s1 l i j p1 t H1 Hr Hk Eu) as (s2 & y & E2 & H2 & Hal). erewrite bind_Ok by exact E2. rewrite Ea in Hal.
    pose proof (NoDup_alive _ _ _ (im_sys _ _ H)) as Hnd. rewrite Hal in Hnd. apply list.NoDup_cons in Hnd as [Hx _].
    destruct (IH _ _ H2) as (i' & j' & p' & t' & s' & l' & E3 & [R1 R2 R3 (gone & new & Ho & Hg) R5]).
    { rewrite total_alive in *. rewrite (Permutation_length Hal) in Hf. cbn in Hf. lia. }
    exists i', j', p', t', s', l'. split; [done|]. split; try done.
    + exists (Td (p_pid p) (t_tid t) :: gone), (y ++ new). split; [cbn; rewrite app_assoc; cbn in Ho; by rewrite Ho|].
      intros d [->|Hd]%elem_of_cons; [intros Hd; by apply Hx, R5|by apply Hg].
    + intros d Hd. rewrite Hal. right. by apply R5.
  - exists i, j, p1, t, s1, l. split; [done|]. split; try done.
    + exists [], []. rewrite app_nil_r. split; [done|]. intros d Hd. by apply elem_of_nil in Hd.
    + by rewrite Ea.
Qed.

(** * Delivering a signal

    When a process with a pending signal is selected, its main thread is prepared to run the
    handler: the registers it would go on with stay on its kernel stack, and new ones below
    them enter the handler. *)


(** The main thread on its way into the handler, and its process. *)
Definition handler_frame (p : process) (t : thread) (signal : Z) : gp_regs :=
  GpRegs signal (r_others (frame t (t_rsp t - sizeof_gp_regs))) (sighandler p) USER_CS USER_RF (r_rsp (frame t (t_rsp t))) USER_DS.
Definition handler_thread (p : process) (t : thread) (signal : Z) : thread :=
  let rsp := t_rsp t - sizeof_gp_regs in set_t_frames (<[rsp := handler_frame p t signal]> (t_frames t)) (set_t_rsp rsp t).
Definition signalled (p : process) (t : thread) (signal : Z) : process :=
  set_threads (<[0%nat := handler_thread p t signal]> (threads p))
    (set_sig_return_context (t_rsp t) (set_sig_pending (Z.ldiff (sig_pending p) (Z.shiftl 1 signal)) (set_sig_current signal p))).

(** What the delivery needs of the main thread. *)
Record deliverable (p : process) (t : thread) (signal : Z) : Prop := {
  dl_main : threads p !! 0%nat = Some t;
  dl_pending : 0 <= signal < 32 /\ Z.testbit (sig_pending p) signal = true;
  dl_state : t_state t <> RUNNING;
  dl_return : sig_return_context p = 0;
  dl_user : r_cs (frame t (t_rsp t)) = USER_CS /\ r_ss (frame t (t_rsp t)) = USER_DS /\ is_user (r_rsp (frame t (t_rsp t))) = true;
  dl_room : kstack_base t + sizeof_gp_regs <= t_rsp t }.

Lemma testbit_land m k : 0 <= k -> Z.testbit m k = true -> Z.land m (Z.shiftl 1 k) <> 0.
Proof. intros Hk Hb E. apply (f_equal (fun z => Z.testbit z k)) in E. rewrite Z.land_spec, Hb, Z.testbit_0_l, Z.shiftl_1_l, Z.pow2_bits_true in E by lia. done. Qed.

Lemma prepare_process_signal_eq s i p t signal : interrupts s = false -> processes s !! i = Some p -> deliverable p t signal ->
  prepare_process_signal i signal s =
  (_ ← sleep_cancel (p_pid p) (t_tid t); t ← get_thread i 0; _ ← when (bool_decide (t_state t = BLOCKED)) (sched_unblock_thread i 0); mret 0)
    (set_processes (<[i := signalled p t signal]> (processes s)) s).
Proof.
  intros Hie Hi [H0 [Hs Hb] Hst Hret (Hcs & Hss & Hu) Hroom]. pose proof (lookup_lt_Some _ _ _ Hi) as Hlt. pose proof (lookup_lt_Some _ _ _ H0) as Hlt0.
  unfold prepare_process_signal. erewrite bind_Ok by (mrun; by rewrite Hie). erewrite bind_Ok by (by apply update_process_ok).
  set (p1 := set_sig_current signal p). erewrite bind_Ok by (apply get_process_ok; cbn; by apply list_lookup_insert_eq). change (sig_pending p1) with (sig_pending p).
  unfold assertM. rewrite (proj2 (Z.eqb_neq _ 0) (testbit_land _ _ (proj1 Hs) Hb)). mpure. cbn [processes set_processes]. rewrite list_insert_insert_eq.
  set (p2 := set_sig_pending _ p1). erewrite bind_Ok by (apply get_process_ok; cbn; by apply list_lookup_insert_eq). change (threads p2) with (threads p).
  rewrite (proj2 (Z.leb_le 1 (zlen (threads p)))) by (unfold zlen; lia). mpure.
  erewrite bind_Ok by (eapply get_thread_ok; [cbn; by apply list_lookup_insert_eq|exact H0]). rewrite bool_decide_true by done. mpure.
  change (sig_return_context p2) with (sig_return_context p). rewrite Hret. change (0 =? 0) with true. mpure. rewrite Hu, Hcs, Hss, !Z.eqb_refl. mpure.
  erewrite bind_Ok by (eapply update_thread_ok; [cbn; apply list_lookup_insert_eq; by rewrite length_insert|exact H0]). rewrite (proj2 (Z.ltb_ge _ _)) by lia.
  erewrite bind_Ok by (eapply update_thread_ok; [cbn; apply list_lookup_insert_eq; by rewrite !length_insert|cbn; by apply list_lookup_insert_eq]).
  cbn. rewrite !list_insert_insert_eq. done.
Qed.

Lemma ldiff_range m k : 0 <= m < 2 ^ 32 -> 0 <= Z.ldiff m k < 2 ^ 32.
Proof.
  intros Hm. assert (Z.ldiff m k = Z.ldiff m k mod 2 ^ 32) as ->; [|apply Z.mod_pos_bound; lia]. apply Z.bits_inj'. intros n Hn. destruct (decide (n < 32)); [by rewrite Z.mod_pow2_bits_low by lia|].
  rewrite Z.mod_pow2_bits_high, Z.ldiff_spec by lia. rewrite <- (Z.mod_small m (2 ^ 32)) by done. by rewrite Z.mod_pow2_bits_high by lia.
Qed.

Lemma handler_thread_ok p t signal : process_ok p -> deliverable p t signal -> p_pid p <> KERNEL_PID -> uninterruptible t = false ->
  thread_ok (signalled p t signal) (handler_thread p t signal).
Proof.
  intros Hok Hd Hk Hu. destruct (Forall_lookup_1 _ _ _ _ (pr_thread _ Hok) (dl_main _ _ _ Hd)) as [H1 H2 H3 H4 H5 H6 H7].
  pose proof (dl_room _ _ _ Hd). unfold sizeof_gp_regs in *. split; cbn; try done.
  - intros _. unfold sizeof_gp_regs. lia.
  - intros _. unfold context_ok, frame. cbn. rewrite lookup_insert_eq, Hu, (proj2 (Z.eqb_neq _ _) Hk). done.
  - intros _. right. left. cbn. pose proof (proj1 (dl_pending _ _ _ Hd)). unfold NOSIG. lia.
Qed.

Lemma signalled_ok p t signal : process_ok p -> deliverable p t signal -> p_pid p <> KERNEL_PID -> uninterruptible t = false -> process_ok (signalled p t signal).
Proof.
  intros Hok Hd Hk Hu. pose proof (handler_thread_ok _ _ _ Hok Hd Hk Hu) as Ht. pose proof (proj1 (dl_pending _ _ _ Hd)). destruct Hok as [H1 H2 H3 H4 H5 H6 H7 H8].
  pose proof (dl_main _ _ _ Hd) as H0. split; cbn; try done.
  - intros E. apply (f_equal length) in E. rewrite length_insert in E. by destruct (threads p).
  - by rewrite (fmap_insert_same t_tid _ _ _ _ H0).
  - apply Forall_insert; [|done]. eapply list.Forall_impl; [exact H4|]. intros t' [? ? ? ? ? ? ?]. split; try done. intros _. right. left. cbn. unfold NOSIG. lia.
  - by apply ldiff_range.
  - pose proof (th_rsp _ _ (Forall_lookup_1 _ _ _ _ H4 H0) (dl_state _ _ _ Hd)). unfold NOSIG. split; [lia|done].
Qed.

Lemma signalled_replaces p t signal : process_ok p -> deliverable p t signal -> p_pid p <> KERNEL_PID -> uninterruptible t = false -> replaces p (signalled p t signal).
Proof.
  intros Hok Hd Hk Hu. pose proof (dl_main _ _ _ Hd) as H0. split; cbn; try done.
  - by apply signalled_ok.
  - by rewrite length_insert.
  - intros j t' Hj. destruct (decide (j = 0%nat)) as [->|Hne].
    + rewrite list_lookup_insert_eq in Hj by (by eapply lookup_lt_Some). injection Hj as <-. by eauto 10.
    + rewrite list_lookup_insert_ne in Hj by done. eauto 10.
Qed.

Lemma signalled_ids p t signal st : threads p !! 0%nat = Some t -> thread_ids st (signalled p t signal) = thread_ids st p.
Proof. intros H0. unfold thread_ids. cbn. by apply (bind_insert_eq _ _ _ t). Qed.

Lemma find_sleeping_None pid tid l i : (forall e, e ∈ l -> ~ (st_pid e = pid /\ st_tid e = tid)) -> find_sleeping pid tid l i None = None.
Proof.
  revert i. induction l as [|e l IH]; intros i H; cbn; [done|]. destruct ((st_pid e =? pid) && (st_tid e =? tid)) eqn:E.
  - exfalso. apply (H e); [left|lia].
  - apply IH. intros e' He'. apply H. by right.
Qed.

(** A thread that can be signalled does not sleep, so that the lock of its process is not
    taken a second time. *)
Lemma not_sleeping {h} s l o i p j t signal : sys_ok h s l o -> processes s !! i = Some p -> threads p !! j = Some t -> uninterruptible t = false -> sleep_lock s = false ->
  sleep_cancel (p_pid p) (t_tid t) (set_processes (<[i := signal]> (processes s)) s) = Ok (-1, set_processes (<[i := signal]> (processes s)) s).
Proof.
  intros Hs Hi Hj Hu Hsl. apply sleep_cancel_missing; [done|]. cbn. apply find_sleeping_None. intros e He [E1 E2].
  rewrite (sys_sleeping _ _ _ Hs e i p j t) in Hu; congruence.
Qed.

(** The selected thread after the delivery. *)
Definition still_ready (i j : nat) (p : process) (t : thread) (s : sched) : Prop := exists p' t', ready_at s i j p' t' /\ p_pid p' = p_pid p /\ t_tid t' = t_tid t.

Lemma process_handle_signal_ok s l i j p t t0 : irq_mode [Td (p_pid p) (t_tid t)] (Some i) s l -> ready_at s i j p t -> threads p !! 0%nat = Some t0 ->
  sig_pending p <> 0 -> uninterruptible t0 = false -> sig_current p = NOSIG ->
  exists r s' x, process_handle_signal i s = Ok (r, s') /\ irq_mode [Td (p_pid p) (t_tid t)] (Some i) s' (l ++ x) /\ still_ready i j p t s' /\ alive (processes s') = alive (processes s).
Proof.
  intros H (Hi & Hj & Hst) H0 Hpend Hu Hcur. pose proof (im_sys _ _ H) as Hs. pose proof (sys_lookup _ _ _ _ _ Hs Hi) as Hok. pose proof (im_disabled _ _ H) as Hie.
  assert (p_pid p <> KERNEL_PID) as Hk by (intros Hk; destruct (pr_kernel _ Hok Hk) as (_ & _ & _ & ? & _); done).
  assert (p_lock p = true) as Hpl by (destruct (sys_locks _ _ _ Hs) as [_ Hl]; rewrite (Hl _ _ Hi); by apply bool_decide_true).
  pose proof (Forall_lookup_1 _ _ _ _ (pr_thread _ Hok) H0) as Hth. pose proof (lookup_lt_Some _ _ _ H0) as Hlt0.
  assert (t_state t0 <> RUNNING) as Hrun.
  { intros E. assert (Td (p_pid p) (t_tid t0) ∈ ids RUNNING (processes s)) as Hin by (apply elem_of_ids; eauto 10). rewrite (im_current _ _ H) in Hin. by apply elem_of_nil in Hin. }
  unfold process_handle_signal. erewrite bind_Ok by (mrun; by rewrite Hie). erewrite bind_Ok by (by apply get_process_ok). unfold assertM. rewrite Hpl. mpure.
  rewrite (proj2 (Z.ltb_lt 0 (zlen (threads p)))) by (unfold zlen; lia). mpure. rewrite (proj2 (Z.eqb_neq _ _) Hpend), Hcur. change (NOSIG =? NOSIG) with true. cbn [negb].
  erewrite bind_Ok by (by eapply get_thread_ok). rewrite Hu. destruct (ffs_from_spec 32 0 (sig_pending p)) as [[_ Hz]|(k & -> & Hkr & Hbit & _)].
  { exfalso. apply Hpend. apply Z.bits_inj'. intros n Hn. rewrite Z.testbit_0_l. destruct (decide (n < 32)); [apply Hz; lia|].
    pose proof (pr_pending _ Hok). rewrite <- (Z.mod_small (sig_pending p) (2 ^ 32)) by done. apply Z.mod_pow2_bits_high. lia. }
  rewrite (proj2 (Z.eqb_neq (k + 1) 0)) by lia. mpure. replace (k + 1 - 1) with k by lia.
  assert (deliverable p t0 k) as Hd.
  { split; try done; [by apply (pr_signal _ Hok)| |]; pose proof (th_context _ _ Hth Hrun) as Hc; unfold context_ok in Hc; rewrite Hu, (proj2 (Z.eqb_neq _ _) Hk) in Hc; destruct Hc;
      destruct (th_room _ _ Hth Hrun) as [[_ ?]|[?|[?|[? ?]]]]; congruence || done. }
  rewrite (prepare_process_signal_eq _ _ _ _ _ Hie Hi Hd). set (p' := signalled p t0 k). set (s1 := set_processes (<[i := p']> (processes s)) s).
  erewrite bind_Ok by (by eapply not_sleeping; [..|apply H]).
  assert (irq_mode [Td (p_pid p) (t_tid t)] (Some i) s1 l) as H1.
  { assert (s1 = upd (<[i := p']> (processes s)) (pqueue s) (n_ready_threads s) (sleeping_threads s) false s) as -> by (unfold s1; destruct s; cbn in *; by subst).
    eapply irq_replace; try done; [by apply signalled_replaces| |apply Hs| |apply Hs|].
    - unfold p'. rewrite signalled_ids by done. by apply (not_running _ _ _ (im_current _ _ H) Hi).
    - rewrite (ids_insert_same _ _ _ p) by (done || by apply signalled_ids). apply Hs.
    - eapply locks_insert; [apply Hs|exact Hi|done|done|cbn; rewrite Hpl; by rewrite bool_decide_true|]. intros n Hn. split; congruence. }
  assert (processes s1 !! i = Some p') as Hi1 by (unfold s1; cbn; apply list_lookup_insert_eq; by eapply lookup_lt_Some).
  assert (exists t1, ready_at s1 i j p' t1 /\ t_tid t1 = t_tid t) as (t1 & Hr1 & Et1).
  { destruct (decide (j = 0%nat)) as [->|Hne].
    - exists (handler_thread p t0 k). assert (t0 = t) as -> by congruence. split; [|done]. split; [done|]. split; [|done]. cbn. by apply list_lookup_insert_eq.
    - exists t. split; [|done]. split; [done|]. split; [|done]. cbn. by rewrite list_lookup_insert_ne. }
  assert (alive (processes s1) = alive (processes s)) as Ea.
  { apply (bind_insert_eq process_alive _ _ _ p' Hi). unfold process_alive. cbn. by apply (fmap_insert_same _ _ _ t0). }
  assert (threads p' !! 0%nat = Some (handler_thread p t0 k)) as H01 by (cbn; by apply list_lookup_insert_eq).
  erewrite bind_Ok by (by eapply get_thread_ok). unfold when. case_bool_decide as Hb.
  - destruct (sched_unblock_thread_ok _ _ _ _ _ _ _ (im_sys _ _ H1) Hi1 H01) as (s2 & E2 & Hw & _ & Ep). erewrite bind_Ok by exact E2. eexists 0, s2, _. split; [done|].
    split; [by eapply woken_irq_mode|]. rewrite (woken_alive _ _ _ Hw). split; [|done]. destruct Hr1 as (_ & Hj1 & Hst1).
    exists (set_threads (<[0%nat := set_t_state READY (handler_thread p t0 k)]> (threads p')) p'), t1. split; [|done]. split; [rewrite (Ep Hb); apply list_lookup_insert_eq; by eapply lookup_lt_Some|].
    split; [|done]. cbn. rewrite list_lookup_insert_ne; [done|]. intros <-. rewrite H01 in Hj1. congruence.
  - mpure. exists 0, s1, []. split; [done|]. rewrite app_nil_r. split; [done|]. split; [|done]. by exists p', t1.
Qed.
