(* ===== verification/SchedSystem.v ===== *)
(** * The switch to the next thread

    [schedule] never fails an assertion, never waits for a lock and always finds a thread:
    the oldest ready one that is not to exit. *)

From S2P Require Import Prelude SchedQueue SchedState Sched SchedSwitch SchedInv SchedWake SchedSelect.





(** ** The memory of the selected process *)

Definition map_of (p : process) : Z * Z := (private_pd p, shared_pd p).

Lemma set_master_id s a b : master_private s = a -> master_shared s = b -> set_master a b s = s.
Proof. intros <- <-. by destruct s. Qed.

Lemma map_selected_ok h s l i p : irq_mode h (Some i) s l -> processes s !! i = Some p -> map_selected i s = Ok ((), set_master (private_pd p) (shared_pd p) s).
Proof.
  intros H Hi. pose proof (im_sys _ _ H) as Hs. pose proof (sys_lookup _ _ _ _ _ Hs Hi) as Hok. pose proof (im_disabled _ _ H) as Hie.
  destruct (master_cases _ _ _ _ _ Hs Hi) as [Hm Hz]. unfold map_selected. erewrite bind_Ok by (by apply get_process_ok). erewrite bind_Ok by reflexivity. cbv beta.
  assert (p_pid p <> KERNEL_PID -> forall s1, processes s1 = processes s -> interrupts s1 = false -> master_private s1 = 0 -> master_shared s1 = 0 ->
    process_map i s1 = Ok ((), set_master (private_pd p) (shared_pd p) s1)) as Hmap.
  { intros Hk s1 Ep Ei E1 E2. destruct (pr_user _ Hok Hk). apply process_map_ok; [done|by rewrite Ep|congruence..]. }
  destruct (Z.eqb_spec (p_pid p) (current_pid s)) as [Ec|Ec]; cbn [negb].
  - destruct (im_mapped _ _ H i p Hi Ec) as [[E1 E2]|[E1 E2]].
    + destruct (Z.eqb_spec (p_pid p) KERNEL_PID) as [Ek|Ek]; cbn [negb].
      * erewrite bind_Ok by (by eapply is_process_mapped_none). destruct (pr_kernel _ Hok Ek) as (-> & -> & _). rewrite E1. mrun. by rewrite set_master_id.
      * erewrite bind_Ok by (by eapply is_process_mapped_ok). destruct (pr_user _ Hok Ek). rewrite E1, (proj2 (Z.eqb_neq 0 (private_pd p))) by done. cbn [negb when].
        erewrite bind_Ok by (by eapply is_process_mapped_none). rewrite E1. mpure. by apply Hmap.
    + rewrite set_master_id by done. destruct (Z.eqb_spec (p_pid p) KERNEL_PID) as [Ek|Ek]; cbn [negb].
      * erewrite bind_Ok by (by eapply is_process_mapped_none). destruct (pr_kernel _ Hok Ek) as (Ez & _). rewrite E1, Ez. done.
      * erewrite bind_Ok by (by eapply is_process_mapped_ok). rewrite E1, Z.eqb_refl. done.
  - erewrite bind_Ok by (by eapply is_process_mapped_none).
    assert (exists s1, when (negb (master_private s =? 0)) process_unmap s = Ok ((), s1) /\ s1 = set_master 0 0 s) as (s1 & E & ->).
    { destruct (Z.eqb_spec (master_private s) 0) as [E|E]; cbn [negb when]; [|rewrite process_unmap_ok; [by eauto|done|done|tauto]].
      exists s. split; [done|]. by rewrite set_master_id by tauto. }
    erewrite bind_Ok by exact E. destruct (Z.eqb_spec (p_pid p) 0) as [Ek|Ek]; cbn [negb when].
    + destruct (pr_kernel _ Hok Ek) as (-> & -> & _). done.
    + rewrite (Hmap Ek) by done. done.
Qed.

(** ** The dispatch *)

Lemma running_ok p j t : process_ok p -> threads p !! j = Some t -> t_state t = READY -> process_ok (set_p_lock false (set_threads (<[j := set_t_state RUNNING t]> (threads p)) p)).
Proof.
  intros Hok Hj Hst. apply process_ok_lock. destruct Hok as [H1 H2 H3 H4 H5 H6 H7 H8]. split; cbn; try done.
  - intros E. apply (f_equal length) in E. rewrite length_insert in E. by destruct (threads p).
  - by rewrite (fmap_insert_same t_tid _ _ _ _ Hj).
  - apply Forall_insert; [eapply list.Forall_impl; [exact H4|]; intros ? [? ? ? ? ? ? ?]; by split|].
    destruct (Forall_lookup_1 _ _ _ _ H4 Hj) as [? ? ? ? ? ? ?]. split; cbn; done.
  - intros Hk. destruct (H8 Hk) as (? & ? & ? & ? & t0 & Et & ? & ? & ? & ?). repeat (split; [done|]). rewrite Et in Hj |- *. destruct j; [|done]. injection Hj as ->. exists (set_t_state RUNNING t). done.
Qed.

(** The thread leaves the ready threads and is the one that runs. *)
Lemma run_ready p j t : threads p !! j = Some t -> t_state t = READY ->
  thread_ids READY p ≡ₚ Td (p_pid p) (t_tid t) :: thread_ids READY (set_p_lock false (set_threads (<[j := set_t_state RUNNING t]> (threads p)) p)).
Proof.
  intros Hj Hst. unfold thread_ids. cbn. rewrite (bind_insert _ _ _ _ _ Hj). cbn. etrans; [exact (bind_lookup _ _ _ _ Hj)|]. cbv beta. by rewrite Hst.
Qed.

Lemma run_running p j t : threads p !! j = Some t -> t_state t = READY ->
  thread_ids RUNNING (set_p_lock false (set_threads (<[j := set_t_state RUNNING t]> (threads p)) p)) ≡ₚ Td (p_pid p) (t_tid t) :: thread_ids RUNNING p.
Proof.
  intros Hj Hst. unfold thread_ids. cbn. rewrite (bind_insert _ _ _ _ _ Hj). cbn. apply perm_skip. symmetry. etrans; [exact (bind_lookup _ _ _ _ Hj)|]. cbv beta. by rewrite Hst.
Qed.

Lemma irq_end_ok s : interrupts s = false -> currently_in_irq s = true -> currently_in_nested_irq s = 0 -> irq_end s = Ok ((), set_currently_in_irq false s).
Proof. intros H1 H2 H3. unfold irq_end. mrun. rewrite H1. cbn. rewrite H2. cbn. by rewrite H3. Qed.

Lemma sys_set_master {h} s l o a b : sys_ok h s l o -> (a = 0 /\ b = 0 \/ exists p, p ∈ known s /\ private_pd p <> 0 /\ shared_pd p <> 0 /\ a = private_pd p /\ b = shared_pd p) ->
  sys_ok h (set_master a b s) l o.
Proof. intros H Hab. pose proof (sys_master s l o a b (released_stacks s) H Hab) as [? ? ? ? ? ? ? ? ? ? ?]. by split. Qed.

(** The kernel stack of the thread for its next interrupts and system calls. *)
Definition kernel_sp (p : process) (t : thread) : Z := if sig_current p =? NOSIG then kstack_base t + kstack_size t else sig_return_context p.

Lemma dispatch_ok s l i j p t : irq_mode [Td (p_pid p) (t_tid t)] (Some i) s l -> ready_at s i j p t ->
  exists s', (_ ← map_selected i; dispatch i j) s = Ok ((), s') /\ thread_mode s' l /\ current_pid s' = p_pid p /\ current_tid s' = t_tid t /\ alive (processes s') = alive (processes s) /\
    interrupts s' = Z.testbit (r_rflags (frame t (t_rsp t))) 9 /\ syscall_stack s' = kernel_sp p t.
Proof.
  intros H (Hi & Hj & Hst). pose proof (im_sys _ _ H) as Hs. pose proof (sys_lookup _ _ _ _ _ Hs Hi) as Hok. pose proof (im_disabled _ _ H) as Hie.
  pose proof (Forall_lookup_1 _ _ _ _ (pr_thread _ Hok) Hj) as Hth. assert (t_state t <> RUNNING) as Hnr by congruence. pose proof (th_context _ _ Hth Hnr) as Hctx.
  erewrite bind_Ok by (by eapply map_selected_ok). set (s1 := set_master (private_pd p) (shared_pd p) s). assert (i < length (processes s))%nat as Hlt by (by eapply lookup_lt_Some).
  unfold dispatch. erewrite bind_Ok by (by apply (get_process_ok s1)). erewrite bind_Ok by (by eapply (get_thread_ok s1)).
  assert ((if negb (sig_current p =? NOSIG) then _ ← assertM (negb (sig_return_context p =? 0)) "p->sig_return_context"; mret (sig_return_context p)
     else _ ← assertM (negb (kstack_base t + kstack_size t =? 0)) "kernel_sp"; mret (kstack_base t + kstack_size t)) s1 = Ok (kernel_sp p t, s1)) as Esp.
  { pose proof (pr_signal _ Hok). pose proof (th_stack _ _ Hth). unfold kernel_sp. destruct (Z.eqb_spec (sig_current p) NOSIG); cbn [negb]; unfold assertM; rewrite (proj2 (Z.eqb_neq _ 0)) by (tauto || lia); done. }
  erewrite bind_Ok by exact Esp. erewrite bind_Ok by reflexivity. erewrite bind_Ok by reflexivity. cbv beta.
  set (s2 := if negb (p_pid p =? current_pid s1) || negb (t_tid t =? current_tid s1) then set_tss_rsp (kernel_sp p t) s1 else s1).
  erewrite (bind_Ok (when _ _) _ _ () s2) by (unfold s2; destruct (_ || _); done).
  assert (exists v, s2 = set_tss_rsp v s1) as (v & Ev) by (unfold s2; destruct (_ || _); [by eauto|exists (tss_rsp s1); by destruct s]). rewrite Ev. clear s2 Ev.
  rewrite Hst, bool_decide_true by done. unfold assertM at 1. mpure. erewrite bind_Ok by (by apply (put_thread_ok (set_tss_rsp v s1) i p)). mpure.
  set (regs := frame t (t_rsp t)) in *. assert ((r_cs regs =? USER_CS) = true -> uninterruptible t = false) as Hcu.
  { intros Hc. apply Z.eqb_eq in Hc. unfold context_ok in Hctx. destruct (uninterruptible t); [|done]. cbn in Hctx. destruct Hctx as [Hc' _]. by rewrite Hc' in Hc. }
  erewrite bind_Ok; [|unfold when; destruct (r_cs regs =? USER_CS) eqn:Ec; [rewrite (Hcu eq_refl)|]; reflexivity].
  erewrite bind_Ok by (apply release_process_ok; [done|cbn; by apply list_lookup_insert_eq]). mpure.
  assert ((r_cs regs =? USER_CS) || (r_cs regs =? KERNEL_CS) = true /\ (r_ss regs =? USER_DS) || (r_ss regs =? KERNEL_DS) = true) as [-> ->].
  { unfold context_ok in Hctx. destruct (uninterruptible t || (p_pid p =? KERNEL_PID)); destruct Hctx as [-> ->]; done. }
  mpure. set (p' := set_p_lock false _). set (s3 := set_syscall_stack (kernel_sp p t) _).
  assert (processes s3 = <[i := p']> (processes s)) as Ep by (cbn; by rewrite list_insert_insert_eq).
  replace (currently_in_irq s3) with true by (cbn; by rewrite (im_irq _ _ H)). unfold when.
  erewrite bind_Ok by (by apply irq_end_ok; [apply H|apply H|apply Hs]). erewrite bind_Ok by (apply get_process_ok; cbn -[s3]; rewrite Ep; by apply list_lookup_insert_eq). mpure.
  eexists. split; [done|]. cbn [current_pid current_tid interrupts processes restore_context set_interrupts set_currently_in_irq].
  assert (sys_ok [] (upd (<[i := p']> (processes s)) (pqueue s) (n_ready_threads s) (sleeping_threads s) (interrupts s) s1) l None) as [S1 S2 S3 S4 S5 S6 S7 S8 S9 S10 S11].
  { eapply (sys_replace [] s1); try done.
    - apply (sys_set_master _ _ _ _ _ Hs). destruct (decide (p_pid p = KERNEL_PID)) as [Hk|Hk].
      + left. destruct (pr_kernel _ Hok Hk) as (? & ? & _). done.
      + right. exists p. destruct (pr_user _ Hok Hk). split; [|done]. apply elem_of_app; left; by eapply list_elem_of_lookup_2.
    - split; cbn; try done; [by apply running_ok|by rewrite length_insert|]. intros k t' Hk. destruct (decide (k = j)) as [->|Hne].
      + rewrite list_lookup_insert_eq in Hk by (by eapply lookup_lt_Some). injection Hk as <-. eauto 10.
      + rewrite list_lookup_insert_ne in Hk by done. eauto 10.
    - apply Hs.
    - apply (Permutation_cons_inv (a := Td (p_pid p) (t_tid t))). change (Td (p_pid p) (t_tid t) :: [] ++ l) with ([Td (p_pid p) (t_tid t)] ++ l). rewrite (sys_ready _ _ _ Hs).
      unfold ids. cbn. rewrite (bind_lookup _ _ _ _ Hi), (bind_insert _ _ _ _ _ Hi). by rewrite (run_ready p j t Hj Hst).
    - apply Hs.
    - eapply locks_insert; [apply Hs|exact Hi|done|done|by rewrite bool_decide_false|]. intros k Hk. split; congruence. }
  split; [|split; [done|split; [done|split; [|done]]]].
  - split; cbn -[s3] in *; rewrite ?Ep; try done.
    + split; cbn -[s3] in *; rewrite ?Ep; try done.
      * unfold maps_ok, known in *. cbn -[s3] in *. by rewrite Ep.
      * unfold locks in *. cbn -[s3] in *. by rewrite Ep.
    + assert (ids RUNNING (<[i := p']> (processes s)) ≡ₚ [Td (p_pid p) (t_tid t)]) as HP; [|by apply Permutation_singleton_r in HP].
      unfold ids. rewrite (bind_insert _ _ _ _ _ Hi). unfold p'. rewrite (run_running p j t Hj Hst). cbn [app]. apply perm_skip.
      etrans; [symmetry; exact (bind_lookup (thread_ids RUNNING) _ _ _ Hi)|]. change (ids RUNNING (processes s) ≡ₚ []). by rewrite (im_current _ _ H).
    + apply H.
    + intros k pk Hk Hpk. assert (k = i) as ->; [|rewrite list_lookup_insert_eq in Hk by done; by injection Hk as <-].
      eapply NoDup_lookup; [exact S1|rewrite list_lookup_fmap, Hk; cbn; rewrite Hpk; done|]. by rewrite list_lookup_fmap, list_lookup_insert_eq.
  - cbn -[s3]. rewrite Ep. apply (bind_insert_eq process_alive _ _ _ p' Hi). unfold process_alive. cbn. by apply (fmap_insert_same _ _ _ t).
Qed.

(** ** The switch *)

(** What [schedule] does to the queue: the first thread that is still there runs, those in
    front of it are gone, those behind it keep their places, and woken threads come last. *)
Record switched (s : sched) (l : list td) (s' : sched) (l' : list td) : Prop := {
  sw_mode : thread_mode s' l';
  sw_order : exists gone new, l ++ new = gone ++ Td (current_pid s') (current_tid s') :: l' /\ forall d, d ∈ gone -> d ∉ alive (processes s');
  sw_alive : forall d, d ∈ alive (processes s') -> d ∈ alive (processes s) }.

Lemma schedule_ok s l : irq_mode [] None s l -> exists s' l', schedule s = Ok ((), s') /\ switched s l s' l'.
Proof.
  intros H. pose proof (im_sys _ _ H) as Hs. destruct (sys_running _ _ _ Hs) as (Hr & Hk & Hn). unfold schedule. erewrite bind_Ok by reflexivity.
  assert (set_interrupts false s = s) as -> by (rewrite <- (im_disabled _ _ H); apply set_interrupts_same). unfold assertM. mpure. rewrite Hk. mpure. rewrite Hr. mpure. rewrite Hn. mpure.
  destruct (select_thread_ok (S (total_threads s)) s l H ltac:(lia)) as (i & j & p & t & s1 & l1 & E & [Hrdy H1 _ (gone & new & Ho & Hg) Ha]). erewrite bind_Ok by exact E. cbv beta iota.
  destruct Hrdy as (Hi & Hj & Hst). pose proof (sys_lookup _ _ _ _ _ (im_sys _ _ H1) Hi) as Hok.
  destruct (threads p !! 0%nat) as [t0|] eqn:H0; [|apply lookup_ge_None in H0; apply lookup_lt_Some in Hj; lia].
  erewrite bind_Ok by (by apply get_process_ok). erewrite bind_Ok by (by eapply get_thread_ok).
  assert (exists s2 x, when (negb (sig_pending p =? 0) && negb (uninterruptible t0) && (sig_current p =? NOSIG)) (_ ← process_handle_signal i; mret ()) s1 = Ok ((), s2) /\
    irq_mode [Td (p_pid p) (t_tid t)] (Some i) s2 (l1 ++ x) /\ still_ready i j p t s2 /\ alive (processes s2) = alive (processes s1)) as (s2 & x & E2 & H2 & (p2 & t2 & Hr2 & Ep2 & Et2) & Ea2).
  { destruct (negb (sig_pending p =? 0) && negb (uninterruptible t0) && (sig_current p =? NOSIG)) eqn:Ec; cbn [when].
    - destruct (process_handle_signal_ok s1 l1 i j p t t0 H1) as (r & s2 & x & E2 & ?); [done|done|lia|by destruct (uninterruptible t0); [lia|]|lia|].
      exists s2, x. split; [|done]. by erewrite bind_Ok by exact E2.
    - exists s1, []. rewrite app_nil_r. split; [done|]. split; [done|]. split; [|done]. by exists p, t. }
  erewrite bind_Ok by exact E2. rewrite <- Ep2, <- Et2 in H2. destruct (dispatch_ok _ _ _ _ _ _ H2 Hr2) as (s3 & E3 & H3 & Ec1 & Ec2 & Ea3 & _). rewrite E3.
  exists s3, (l1 ++ x). split; [done|]. split; [done| |].
  - exists gone, (new ++ x). rewrite Ec1, Ec2, Ep2, Et2, Ea3, Ea2. split; [|done]. rewrite app_assoc, Ho. by rewrite <- app_assoc.
  - intros d. rewrite Ea3, Ea2. apply Ha.
Qed.

(** * The scheduler as a system

    The calls and interrupts that change the state of the scheduler while a thread runs, and
    the invariant for all of them: from a state that satisfies it, each of them returns,
    without a failed assertion or a lock that is waited for forever, in such a state. *)


(** ** The current thread *)

Definition current_at (s : sched) (i j : nat) (p : process) (t : thread) : Prop :=
  processes s !! i = Some p /\ threads p !! j = Some t /\ t_state t = RUNNING /\ p_pid p = current_pid s /\ t_tid t = current_tid s.

Lemma current_exists s l : thread_mode s l -> exists i j p t, current_at s i j p t.
Proof.
  intros H. assert (Td (current_pid s) (current_tid s) ∈ ids RUNNING (processes s)) as Hin by (rewrite (tm_current _ _ H); left).
  apply elem_of_ids in Hin as (i & p & j & t & Hi & Hj & Hst & [= E1 E2]). by exists i, j, p, t.
Qed.

Lemma current_found s l i j p t : thread_mode s l -> current_at s i j p t ->
  find_process (current_pid s) (processes s) 0 None = Some i /\ find_thread (current_tid s) (threads p) 0 = Some j.
Proof.
  intros H (Hi & Hj & _ & <- & <-). pose proof (tm_sys _ _ H) as Hs. split; [by apply find_process_Some; [apply Hs|]|].
  apply find_thread_Some; [|done]. by apply (sys_lookup _ _ _ _ _ Hs Hi).
Qed.

(** The registers that an interrupt saves: those of the kernel in a system call, else those of
    the program, which uses a stack of its own memory; on the kernel stack of the thread, with
    room for another set. *)
Definition trap_ok (s : sched) (rsp : Z) (regs : gp_regs) : Prop :=
  forall i j p t, current_at s i j p t -> rsp <> 0 /\ context_ok (p_pid p) t regs /\ kstack_base t + sizeof_gp_regs <= rsp /\
    (uninterruptible t = true \/ p_pid p = KERNEL_PID \/ is_user (r_rsp regs) = true).

(** ** Saving the current thread *)

(** The thread as [sched_save] leaves it: blocked when it asked for it, else ready. *)
Definition saved (b : bool) (rsp : Z) (regs : gp_regs) (t : thread) : thread :=
  set_t_rsp rsp (set_t_state (if b then BLOCKED else READY) (set_should_block false (set_t_frames (<[rsp := regs]> (t_frames t)) t))).

Lemma saved_ok p t b rsp regs : process_ok p -> thread_ok p t -> rsp <> 0 -> context_ok (p_pid p) t regs -> kstack_base t + sizeof_gp_regs <= rsp ->
  uninterruptible t = true \/ p_pid p = KERNEL_PID \/ is_user (r_rsp regs) = true -> thread_ok p (saved b rsp regs t).
Proof.
  intros Hp [H1 H2 H3 H4 H5 H6 H7] Hr Hc Hk Hu. split; cbn; try done.
  - intros _. unfold frame. cbn. rewrite lookup_insert_eq. exact Hc.
  - intros _. destruct Hu as [?|[Hkp|?]]; [right; right; by left|destruct (pr_kernel _ Hp Hkp) as (_ & _ & ? & ? & _); by left|].
    right. right. right. split; [done|]. unfold frame. cbn. by rewrite lookup_insert_eq.
Qed.

Lemma saved_process_ok p j t b rsp regs : process_ok p -> threads p !! j = Some t -> thread_ok p (saved b rsp regs t) -> (b = true -> p_pid p <> KERNEL_PID) ->
  process_ok (set_threads (<[j := saved b rsp regs t]> (threads p)) p).
Proof.
  intros [H1 H2 H3 H4 H5 H6 H7 H8] Hj Ht Hb. split; cbn; try done.
  - intros E. apply (f_equal length) in E. rewrite length_insert in E. by destruct (threads p).
  - by rewrite (fmap_insert_same t_tid _ _ _ _ Hj).
  - apply Forall_insert; [eapply list.Forall_impl; [exact H4|]; intros ? [? ? ? ? ? ? ?]; by split|]. destruct Ht. by split.
  - intros Hk. destruct (H8 Hk) as (? & ? & ? & ? & t0 & Et & ? & ? & ? & ?). repeat (split; [done|]). rewrite Et in Hj |- *. destruct j; [|done]. injection Hj as ->.
    exists (saved b rsp regs t). split; [done|]. split; [done|]. split; [|done]. destruct b; [by destruct (Hb eq_refl)|done].
Qed.

(** A place in the table that holds the current thread, its locks being free. *)
Record saving (s : sched) (l : list td) (i j : nat) (p : process) (t : thread) : Prop := {
  sv_pids : NoDup (p_pid <$> processes s);
  sv_process : processes s !! i = Some p;
  sv_tids : NoDup (t_tid <$> threads p);
  sv_thread : threads p !! j = Some t;
  sv_current : p_pid p = current_pid s /\ t_tid t = current_tid s;
  sv_locks : sched_lock s = false /\ p_lock p = false;
  sv_range : 0 <= p_pid p <= MAX_PID /\ 0 <= t_tid t <= MAX_TID;
  sv_queue : pq_holds (pqueue s) l /\ zlen l < 2 ^ 30 - 1;
  sv_mode : sched_running s = true /\ currently_in_irq s = false /\ currently_in_nested_irq s = 0 }.

Definition with_thread (i j : nat) (p : process) (t : thread) (s : sched) : sched := set_processes (<[i := set_threads (<[j := t]> (threads p)) p]> (processes s)) s.

Lemma saving_found s l i j p t : saving s l i j p t -> find_process (current_pid s) (processes s) 0 None = Some i /\ find_thread (current_tid s) (threads p) 0 = Some j.
Proof. intros [? ? ? ? [<- <-] ? ? ? ?]. split; [by apply find_process_Some|by apply find_thread_Some]. Qed.

Lemma interrupt_entry_ok s l i j p t rsp regs : saving s l i j p t ->
  interrupt_entry rsp regs s = Ok ((), set_interrupts false (with_thread i j p (set_t_frames (<[rsp := regs]> (t_frames t)) t) s)).
Proof.
  intros H. destruct (saving_found _ _ _ _ _ _ H) as [Ei Ej]. destruct H as [? Hi ? Hj ? ? ? ? ?]. unfold interrupt_entry. mpure. rewrite Ei.
  erewrite bind_Ok; [|erewrite bind_Ok by (by apply get_process_ok); rewrite Ej; by eapply update_thread_ok]. done.
Qed.

Lemma saving_with s l i j p t t' ie : saving s l i j p t -> t_tid t' = t_tid t ->
  saving (set_interrupts ie (with_thread i j p t' s)) l i j (set_threads (<[j := t']> (threads p)) p) t'.
Proof.
  intros [H1 H2 H3 H4 H5 H6 H7 H8 H9] Et. split; cbn; try done.
  - by rewrite (fmap_insert_same p_pid _ _ _ _ H2).
  - apply list_lookup_insert_eq. by eapply lookup_lt_Some.
  - by rewrite (fmap_insert_same t_tid _ _ _ _ H4).
  - apply list_lookup_insert_eq. by eapply lookup_lt_Some.
  - by rewrite Et.
  - by rewrite Et.
Qed.

Lemma sched_save_ok s l i j p t rsp : saving s l i j p t -> interrupts s = false ->
  exists q n l', sched_save rsp s = Ok ((), set_currently_in_irq true (set_pqueue q (set_n_ready_threads n
      (with_thread i j p (set_t_rsp rsp (set_t_state (if should_block t then BLOCKED else READY) (set_should_block false t))) s)))) /\
    l' = l ++ (if should_block t then [] else [Td (current_pid s) (current_tid s)]) /\ pq_holds q l' /\ n = n_ready_threads s + (if should_block t then 0 else 1).
Proof.
  intros H Hie. pose proof (saving_found _ _ _ _ _ _ H) as [Ei Ej]. destruct H as [H1 Hi H3 Hj [Ep Et] [Hsl Hpl] [Hr1 Hr2] [Hq Hb] (Hrun & Hirq & Hn)]. pose proof (lookup_lt_Some _ _ _ Hi) as Hlt. pose proof (lookup_lt_Some _ _ _ Hj) as Hltj.
  unfold sched_save. mpure. rewrite Hirq, Hn. change (0 + 0) with 0. cbn [sched_running set_currently_in_irq set_currently_in_nested_irq]. rewrite Hrun. cbn [negb]. mpure.
  cbn [current_pid current_tid set_currently_in_irq set_currently_in_nested_irq]. rewrite <- Ep. set (s0 := set_currently_in_irq true (set_currently_in_nested_irq 0 s)).
  erewrite bind_Ok by (by apply (sched_get_process_found s0)). cbv beta iota. pose proof (locked_lookup s0 i p Hi) as Hli.
  erewrite bind_Ok by (eapply sched_get_thread_by_tid_ok; [exact Hli|done]). cbn [threads set_p_lock]. rewrite Ej. cbv beta iota.
  erewrite bind_Ok by (by eapply get_thread_ok).
  assert (s0 = set_currently_in_irq true s) as Es0 by (unfold s0; destruct s; cbn in *; by subst).
  destruct (should_block t) eqn:Eb.
  - erewrite bind_Ok by (by eapply put_thread_ok).
    erewrite bind_Ok by (eapply update_thread_ok; [cbn; apply list_lookup_insert_eq; by rewrite length_insert|cbn; by apply list_lookup_insert_eq]).
    rewrite (release_process_ok _ _ (set_threads (<[j := set_t_rsp rsp (set_t_state BLOCKED (set_should_block false t))]> (threads p)) (set_p_lock true p))); [|done|cbn; rewrite list_lookup_insert_eq by (by rewrite !length_insert); by rewrite list_insert_insert_eq].
    eexists (pqueue s), (n_ready_threads s), _. split; [|rewrite app_nil_r; split; [done|]; split; [done|lia]]. rewrite Es0. cbn. rewrite !list_insert_insert_eq. destruct s, p; cbn in *; by subst.
  - set (s1 := set_processes (<[i := set_threads (<[j := set_t_state READY t]> (threads p)) (set_p_lock true p)]> (processes (locked i p s0))) (locked i p s0)).
    destruct (push_ready_ok s1 l (p_pid p) (current_tid s)) as (q & Epush & Hq'); [done|done|done|by rewrite <- Et|done|].
    erewrite bind_Ok; [|erewrite bind_Ok by (by eapply put_thread_ok); exact Epush].
    erewrite bind_Ok by (eapply update_thread_ok; [cbn; apply list_lookup_insert_eq; by rewrite length_insert|cbn; by apply list_lookup_insert_eq]).
    rewrite (release_process_ok _ _ (set_threads (<[j := set_t_rsp rsp (set_t_state READY t)]> (threads p)) (set_p_lock true p))); [|done|cbn; rewrite list_lookup_insert_eq by (by rewrite !length_insert); by rewrite list_insert_insert_eq].
    eexists q, (n_ready_threads s + 1), _. split; [|split; [done|]; split; [done|done]]. unfold s1. rewrite Es0. cbn. rewrite !list_insert_insert_eq. destruct s, p, t; cbn in *; by subst.
Qed.

Lemma saved_ids p j t b rsp regs : threads p !! j = Some t -> t_state t = RUNNING ->
  thread_ids READY (set_threads (<[j := saved b rsp regs t]> (threads p)) p) ≡ₚ thread_ids READY p ++ (if b then [] else [Td (p_pid p) (t_tid t)]) /\
  thread_ids RUNNING p ≡ₚ Td (p_pid p) (t_tid t) :: thread_ids RUNNING (set_threads (<[j := saved b rsp regs t]> (threads p)) p).
Proof.
  intros Hj Hst. split.
  - apply (set_thread_ids READY p j t); [done..|]. rewrite Hst. by destruct b.
  - unfold thread_ids. cbn. rewrite (bind_insert _ _ _ _ _ Hj). cbn. etrans; [exact (bind_lookup _ _ _ _ Hj)|]. cbv beta. rewrite Hst. by destruct b.
Qed.

(** The state that an interrupt of the current thread leaves; [b] tells whether the thread
    asked to be blocked. *)
Lemma save_ok s l i j p t b rsp regs : thread_mode s l -> current_at s i j p t -> trap_ok s rsp regs -> (b = true -> p_pid p <> KERNEL_PID) ->
  exists s', (_ ← interrupt_entry rsp regs; sched_save rsp) (with_thread i j p (set_should_block b t) s) = Ok ((), s') /\
    irq_mode [] None s' (l ++ if b then [] else [Td (current_pid s) (current_tid s)]) /\ alive (processes s') = alive (processes s) /\
    current_pid s' = current_pid s /\ current_tid s' = current_tid s.
Proof.
  intros H Hc Htrap Hb. pose proof (tm_sys _ _ H) as Hs. destruct (Htrap _ _ _ _ Hc) as (Hr0 & Hctx & Hroom & Huser). destruct Hc as (Hi & Hj & Hst & Ep & Et).
  pose proof (sys_lookup _ _ _ _ _ Hs Hi) as Hok. pose proof (Forall_lookup_1 _ _ _ _ (pr_thread _ Hok) Hj) as Hth. pose proof (sys_unlocked _ _ _ _ _ Hs Hi ltac:(done)) as Hpl.
  pose proof (lookup_lt_Some _ _ _ Hi) as Hlt. pose proof (lookup_lt_Some _ _ _ Hj) as Hltj.
  assert (saving s l i j p t) as Hsv.
  { split; try done; [apply Hs|apply Hok|split; [apply Hs|done]|split; [apply Hok|pose proof (th_tid _ _ Hth); lia]|split; [apply Hs|by eapply sys_queue_length]|].
    split; [apply Hs|]. split; [apply H|apply Hs]. }
  pose proof (saving_with _ _ _ _ _ _ (set_should_block b t) (interrupts s) Hsv eq_refl) as Hsv1.
  replace (set_interrupts (interrupts s) (with_thread i j p (set_should_block b t) s)) with (with_thread i j p (set_should_block b t) s) in Hsv1 by (by destruct s).
  erewrite bind_Ok by (by eapply interrupt_entry_ok). set (t2 := set_t_frames _ (set_should_block b t)).
  pose proof (saving_with _ _ _ _ _ _ t2 false Hsv1 eq_refl) as Hsv2. destruct (sched_save_ok _ _ _ _ _ _ rsp Hsv2 eq_refl) as (q & n & l' & -> & El & Hq & En). clear Hsv1 Hsv2.
  change (should_block t2) with b in *. cbn [current_pid current_tid with_thread set_processes set_interrupts] in El. set (p' := set_threads (<[j := saved b rsp regs t]> (threads p)) p).
  eexists. split; [done|]. rewrite <- El. set (s' := set_currently_in_irq true _).
  assert (s' = set_currently_in_irq true (upd (<[i := p']> (processes s)) q n (sleeping_threads s) false s)) as ->.
  { unfold s', with_thread, p'. cbn. rewrite !list_insert_insert_eq. destruct s, p; done. }
  assert (process_ok p') as Hok' by (apply saved_process_ok; try done; by apply saved_ok). pose proof (saved_ids p j t b rsp regs Hj Hst) as [HRd HRn]. fold p' in HRd, HRn. rewrite Ep, Et in HRd, HRn.
  assert (sys_ok [] (upd (<[i := p']> (processes s)) q n (sleeping_threads s) false s) l' None) as HS.
  { eapply (sys_replace []); try done.
    - split; cbn; try done; [by rewrite length_insert|]. intros k t' Hk. destruct (decide (k = j)) as [->|Hne].
      + rewrite list_lookup_insert_eq in Hk by done. injection Hk as <-. eauto 10.
      + rewrite list_lookup_insert_ne in Hk by done. eauto 10.
    - rewrite El. cbn [app]. unfold ids. rewrite (bind_update _ _ _ _ _ _ Hi HRd). f_equiv. apply (sys_ready _ _ _ Hs).
    - rewrite En. cbn [n_ready_threads set_interrupts with_thread set_processes]. rewrite (sys_count _ _ _ Hs), El. unfold zlen. rewrite length_app. destruct b; cbn; lia.
    - eapply locks_insert; [apply Hs|exact Hi|done|done|cbn; rewrite Hpl; by rewrite bool_decide_false|]. intros k Hk. split; congruence. }
  split; [|split; [|done]].
  - split; cbn; try done; [destruct HS; by split|..|apply H|].
    + apply Permutation_nil. apply (Permutation_cons_inv (a := Td (current_pid s) (current_tid s))). rewrite <- (tm_current _ _ H). unfold ids.
      rewrite (bind_lookup _ _ _ _ Hi), (bind_insert _ _ _ _ _ Hi), HRn. done.
    + intros k pk Hk Hpk. right. destruct (decide (i = k)) as [<-|Hne]; [|rewrite list_lookup_insert_ne in Hk by done; by apply (tm_mapped _ _ H k pk)].
      rewrite list_lookup_insert_eq in Hk by done. injection Hk as <-. by apply (tm_mapped _ _ H i p).
  - cbn. apply (bind_insert_eq process_alive _ _ _ p' Hi). unfold process_alive. cbn. by apply (fmap_insert_same _ _ _ t).
Qed.

(** ** Interrupts *)

Lemma bind_inv {A B} (m : M A) (k : A -> M B) s r : (m ≫= k) s = Ok r -> exists a s0, m s = Ok (a, s0) /\ k a s0 = Ok r.
Proof. unfold mbind, M_bind. destruct (m s) as [[a s0]|]; [|done]. eauto. Qed.

(** The current thread is in the table. *)
Definition current_alive (s : sched) : Prop := Td (current_pid s) (current_tid s) ∈ alive (processes s).

Lemma current_alive_inv s : current_alive s -> exists i p j t, processes s !! i = Some p /\ threads p !! j = Some t /\ p_pid p = current_pid s /\ t_tid t = current_tid s.
Proof.
  intros (p & Hx & [i Hi]%list_elem_of_lookup)%list_elem_of_bind. apply list_elem_of_fmap in Hx as (t & [= E1 E2] & [j Hj]%list_elem_of_lookup). by exists i, p, j, t.
Qed.

Lemma unlock_locked_process s i p : interrupts s = false -> processes s !! i = Some p -> p_lock p = false -> release_process i (locked i p s) = Ok ((), s).
Proof.
  intros Hie Hi Hl. rewrite (release_process_ok _ i (set_p_lock true p)); [|done|by apply locked_lookup]. do 2 f_equal. cbn. rewrite list_insert_insert_eq.
  assert (set_p_lock false (set_p_lock true p) = p) as -> by (destruct p; cbn in *; by subst). rewrite list_insert_id by done. destruct s; cbn in *; by subst.
Qed.

Lemma current_process_ok s l i p : sys_ok [] s l None -> processes s !! i = Some p -> p_pid p = current_pid s -> sched_current_process s = Ok (i, locked i p s).
Proof.
  intros Hs Hi Ep. unfold sched_current_process. mpure. rewrite <- Ep. erewrite bind_Ok by (apply sched_get_process_found; [apply Hs|apply Hs|done|by eapply sys_unlocked]). done.
Qed.

(** The check of [int_common_handler] leaves the state as it is. *)
Lemma current_check_ok s l : irq_mode [] None s l -> current_alive s ->
  (i ← sched_current_process; p ← get_process i; pid ← gets current_pid; _ ← assertM (p_pid p =? pid) "p->pid == sched_current_pid()"; release_process i) s = Ok ((), s).
Proof.
  intros H Hc. pose proof (im_sys _ _ H) as Hs. destruct (current_alive_inv _ Hc) as (i & p & _ & _ & Hi & _ & Ep & _).
  erewrite bind_Ok by (by eapply current_process_ok). erewrite bind_Ok by (apply get_process_ok; by apply locked_lookup). mpure. unfold assertM.
  change (current_pid (locked i p s)) with (current_pid s). change (p_pid (set_p_lock true p)) with (p_pid p). rewrite Ep, Z.eqb_refl. mpure.
  apply unlock_locked_process; [apply H|done|by eapply sys_unlocked].
Qed.

Lemma sched_irq_ack_ok s l : irq_mode [] None s l -> current_alive s -> exists s' l', sched_irq_ack s = Ok ((), s') /\ switched s l s' l'.
Proof.
  intros H Hc. pose proof (im_sys _ _ H) as Hs. destruct (sys_running _ _ _ Hs) as (Hr & _ & Hn). destruct (current_alive_inv _ Hc) as (i & p & j & t & Hi & Hj & Ep & Et).
  unfold sched_irq_ack. mpure. unfold assertM. rewrite (im_irq _ _ H). mpure. rewrite Hn. mpure.
  assert (set_interrupts false s = s) as -> by (rewrite <- (im_disabled _ _ H); apply set_interrupts_same). rewrite Hr.
  erewrite bind_Ok by (by eapply current_process_ok). mpure. erewrite bind_Ok by (eapply sched_get_thread_by_tid_ok; [by apply locked_lookup|done]).
  change (current_tid (locked i p s)) with (current_tid s). change (threads (set_p_lock true p)) with (threads p). rewrite <- Et.
  rewrite (find_thread_Some _ _ _ (pr_tids _ (sys_lookup _ _ _ _ _ Hs Hi)) Hj). erewrite bind_Ok by (apply unlock_locked_process; [apply H|done|by eapply sys_unlocked]). by apply schedule_ok.
Qed.

Lemma irq_timer {h o} s l c : irq_mode h o s l -> irq_mode h o (set_timer_count c s) l.
Proof. intros [[? ? ? ? ? ? ? ? ? ? ?] H2 H3 H4 H5 H6]. by split. Qed.

(** A handler either switches to another thread or only wakes threads. *)
Definition handler_ok (handler : M bool) : Prop := forall s l, irq_mode [] None s l -> exists b s', handler s = Ok (b, s') /\
  if b : bool then exists l', switched s l s' l' else exists x s1 c, woken s x s1 /\ s' = set_timer_count c s1.

Lemma woken_current s x s' : woken s x s' -> current_alive s -> current_alive s'.
Proof. intros Hw. unfold current_alive. rewrite (woken_alive _ _ _ Hw). by rewrite (wk_upd _ _ _ Hw). Qed.

Lemma switched_woken s l x s1 s2 l2 : woken s x s1 -> switched s1 (l ++ x) s2 l2 -> switched s l s2 l2.
Proof.
  intros Hw [H1 (gone & new & Ho & Hg) H3]. split; [done|exists gone, (x ++ new); by rewrite app_assoc|]. by rewrite <- (woken_alive _ _ _ Hw).
Qed.

Lemma interrupt_ok s l i j p t b rsp regs handler : thread_mode s l -> current_at s i j p t -> trap_ok s rsp regs -> (b = true -> p_pid p <> KERNEL_PID) -> handler_ok handler ->
  exists s' l', interrupt rsp regs handler (with_thread i j p (set_should_block b t) s) = Ok ((), s') /\ switched s l s' l'.
Proof.
  intros H Hc Htrap Hb Hh. destruct (save_ok _ _ _ _ _ _ b rsp regs H Hc Htrap Hb) as (s1 & E & H1 & Ea & Ep & Et).
  apply bind_inv in E as ([] & s0 & E0 & E1). unfold interrupt. erewrite bind_Ok by exact E0. unfold int_common_handler. erewrite bind_Ok by exact E1. mpure.
  assert (current_alive s1) as Hal. { unfold current_alive. rewrite Ea, Ep, Et. eapply ids_alive. rewrite (tm_current _ _ H). left. }
  rewrite (proj1 (sys_running _ _ _ (im_sys _ _ H1))). unfold when. erewrite bind_Ok by (by eapply current_check_ok).
  assert (forall s' l', switched s1 (l ++ if b then [] else [Td (current_pid s) (current_tid s)]) s' l' -> switched s l s' l') as Hsw.
  { intros s' l' [S1 (gone & new & Ho & Hg) S3]. split; [done|exists gone, ((if b then [] else [Td (current_pid s) (current_tid s)]) ++ new); by rewrite app_assoc|]. by rewrite <- Ea. }
  destruct (Hh _ _ H1) as ([] & s2 & E2 & Hr); erewrite bind_Ok by exact E2.
  - destruct Hr as (l' & Hr). exists s2, l'. split; [done|]. by apply Hsw.
  - destruct Hr as (x & s4 & c & Hw & ->). destruct (sched_irq_ack_ok _ _ (irq_timer _ _ c (woken_irq_mode _ _ _ _ H1 Hw))) as (s3 & l3 & E3 & H3); [by apply (woken_current _ _ _ Hw)|].
    exists s3, l3. split; [done|]. apply Hsw. eapply switched_woken; [exact Hw|]. destruct H3. by split.
Qed.

Lemma yield_handler_ok : handler_ok yield_irq_handler.
Proof.
  intros s l H. destruct (schedule_ok _ _ H) as (s' & l' & E & Hsw). exists true, s'. split; [|by eauto]. unfold yield_irq_handler. by erewrite bind_Ok by exact E.
Qed.

Lemma device_handler_ok waiting : handler_ok (device_irq_handler waiting).
Proof.
  intros s l H. destruct (for_each_woken (h := []) (fun x => sched_unblock (td_pid x) (td_tid x)) waiting s l) as (s' & x & E & Hw); [apply H|intros; by eapply sched_unblock_ok|].
  exists false, s'. split; [unfold device_irq_handler; by erewrite bind_Ok by exact E|]. exists x, s', (timer_count s'). split; [done|by destruct s'].
Qed.

Lemma timer_handler_ok now : handler_ok (lapic_timer_handler now).
Proof.
  intros s l H. destruct (wakeup_threads_ok (h := []) s l now) as (s1 & x & E & Hw); [apply H..|]. pose proof (woken_irq_mode _ _ _ _ H Hw) as H1.
  destruct (sys_running _ _ _ (im_sys _ _ H1)) as (Hr & Hk & Hn). unfold lapic_timer_handler. erewrite bind_Ok by exact E. unfold timer_irq_should_schedule, assertM.
  destruct (timer_count s1 =? RR_TIME_SLICE_MS * LAPIC_IRQ_FREQ / 1000) eqn:Ec.
  - destruct (schedule_ok _ _ (irq_timer _ _ 0 H1)) as (s2 & l2 & E2 & H2). exists true, s2. split.
    + erewrite (bind_Ok _ _ _ true (set_timer_count 0 s1)) by (mrun; rewrite Hn; cbn; rewrite Hr, Hk; cbn; by rewrite Ec). by erewrite bind_Ok by exact E2.
    + exists l2. eapply switched_woken; [exact Hw|]. destruct H2. by split.
  - exists false, (set_timer_count (u64 (timer_count s1 + 1)) s1). split; [|by eauto].
    erewrite (bind_Ok _ _ _ false (set_timer_count (u64 (timer_count s1 + 1)) s1)) by (mrun; rewrite Hn; cbn; rewrite Hr, Hk; cbn; by rewrite Ec). done.
Qed.
