(* ===== verification/SchedEvents.v ===== *)
(** * Every call and interrupt keeps the invariant

    The events of the scheduler, what each of them requires, the safety theorem, and the
    round-robin guarantee that follows from the order of the ready queue. *)

From S2P Require Import Prelude SchedQueue SchedState Sched SchedSwitch SchedInv SchedWake SchedSelect SchedSystem.





(** ** Events *)

Inductive event :=
  | Yield (rsp : Z) (regs : gp_regs)
  | Timer (now rsp : Z) (regs : gp_regs)
  | Device (waiting : list td) (rsp : Z) (regs : gp_regs)
  | Block (rsp : Z) (regs : gp_regs)
  | Unblock (pid tid : Z)
  | Signal (pid signal : Z)
  | Kill (pid : Z)
  | Sleep (wakeup : Z)
  | EnterSyscall
  | LeaveSyscall
  | Reap
  | NewProcess (p : process).

Definition exec (e : event) : M () :=
  match e with
  | Yield rsp regs => sched_yield rsp regs
  | Timer now rsp regs => interrupt rsp regs (lapic_timer_handler now)
  | Device waiting rsp regs => interrupt rsp regs (device_irq_handler waiting)
  | Block rsp regs => sched_block rsp regs
  | Unblock pid tid => sched_unblock pid tid
  | Signal pid signal => _ ← process_trigger_signal pid signal; mret ()
  | Kill pid => _ ← sched_kill_process pid; mret ()
  | Sleep wakeup => pid ← gets current_pid; tid ← gets current_tid; register_sleeping_thread tid pid wakeup
  | EnterSyscall => _ ← syscall_enter; mret ()
  | LeaveSyscall => _ ← syscall_leave; mret ()
  | Reap => _ ← sched_free_killed_processes; mret ()
  | NewProcess p => add_process p
  end.

(** The events after which another thread runs. *)
Definition switches (e : event) : bool := match e with Yield _ _ | Timer _ _ _ | Device _ _ _ | Block _ _ => true | _ => false end.

(** A process that [create_process] made: its pid and its page tables are not in use, and its
    threads are blocked. *)
Record new_process (s : sched) (p : process) : Prop := {
  np_ok : process_ok p;
  np_pid : p_pid p <> KERNEL_PID /\ p_pid p ∉ p_pid <$> processes s;
  np_lock : p_lock p = false;
  np_blocked : Forall (fun t => t_state t = BLOCKED) (threads p);
  np_pds : private_pd p ∉ private_pd <$> known s /\ shared_pd p ∉ shared_pd <$> known s;
  np_sleeping : Forall (fun e => st_pid e <> p_pid p) (sleeping_threads s);
  np_total : Z.of_nat (total_threads s + length (threads p)) < MAX_THREADS }.

Definition current_is (s : sched) (P : thread -> Prop) : Prop := forall i j p t, current_at s i j p t -> P t.

(** When an event can happen: interrupts need the interrupt flag; only threads of processes
    block and make system calls; only the kernel thread frees killed processes, and it is not
    killed itself. *)
Definition event_ok (s : sched) (e : event) : Prop :=
  match e with
  | Yield rsp regs | Timer _ rsp regs | Device _ rsp regs => interrupts s = true /\ trap_ok s rsp regs
  | Block rsp regs => current_pid s <> KERNEL_PID /\ trap_ok s rsp regs
  | Unblock _ _ => True
  | Signal _ signal => 0 <= signal < 32
  | Kill pid => interrupts s = true /\ pid <> KERNEL_PID
  | Sleep _ => current_is s (fun t => uninterruptible t = true)
  | EnterSyscall => interrupts s = false /\ current_pid s <> KERNEL_PID /\ current_is s (fun t => uninterruptible t = false /\ should_exit t = false)
  | LeaveSyscall => interrupts s = true /\ current_pid s <> KERNEL_PID /\ current_is s (fun t => uninterruptible t = true) /\
      Forall (fun e => Td (st_pid e) (st_tid e) <> Td (current_pid s) (current_tid s)) (sleeping_threads s)
  | Reap => interrupts s = true /\ current_pid s = KERNEL_PID
  | NewProcess p => interrupts s = false /\ new_process s p
  end.

(** ** Each event *)

(** An event that does not switch keeps the current thread and only appends to the queue. *)
Definition stays (s : sched) (l : list td) (s' : sched) (l' : list td) : Prop :=
  thread_mode s' l' /\ (exists x, l' = l ++ x) /\ current_pid s' = current_pid s /\ current_tid s' = current_tid s.

Lemma woken_stays s l x s' : thread_mode s l -> woken s x s' -> stays s l s' (l ++ x).
Proof. intros H Hw. split; [by eapply woken_thread_mode|]. split; [by eauto|]. by rewrite (wk_upd _ _ _ Hw). Qed.

Lemma with_thread_same s i j p t b : processes s !! i = Some p -> threads p !! j = Some t -> should_block t = b -> with_thread i j p (set_should_block b t) s = s.
Proof.
  intros Hi Hj <-. unfold with_thread. assert (set_should_block (should_block t) t = t) as -> by (by destruct t). rewrite (list_insert_id (threads p) j t) by done.
  assert (set_threads (threads p) p = p) as -> by (by destruct p). rewrite list_insert_id by done. by destruct s.
Qed.

Lemma trap_switches s l rsp regs handler : thread_mode s l -> trap_ok s rsp regs -> handler_ok handler -> exists s' l', interrupt rsp regs handler s = Ok ((), s') /\ switched s l s' l'.
Proof.
  intros H Ht Hh. destruct (current_exists _ _ H) as (i & j & p & t & Hc). destruct (interrupt_ok _ _ _ _ _ _ false _ _ _ H Hc Ht ltac:(done) Hh) as (s' & l' & E & Hs).
  destruct Hc as (Hi & Hj & _). rewrite with_thread_same in E; [by eauto|done..|].
  exact (th_noblock _ _ (Forall_lookup_1 _ _ _ _ (pr_thread _ (sys_lookup _ _ _ _ _ (tm_sys _ _ H) Hi)) Hj)).
Qed.

Lemma thread_mode_interrupts s l ie : thread_mode s l -> thread_mode (set_interrupts ie s) l.
Proof. intros [[? ? ? ? ? ? ? ? ? ? ?] H2 H3 H4 H5]. by split. Qed.

Lemma yield_ok s l rsp regs : thread_mode s l -> interrupts s = true -> trap_ok s rsp regs -> exists s' l', sched_yield rsp regs s = Ok ((), s') /\ switched s l s' l'.
Proof.
  intros H Hie Ht. pose proof (tm_sys _ _ H) as Hs. unfold sched_yield. erewrite bind_Ok by (mrun; by rewrite Hie). destruct (current_exists _ _ H) as (i & j & p & t & Hi & Hj & _ & Ep & _).
  pose proof (sys_unlocked _ _ _ _ _ Hs Hi ltac:(done)) as Hl. erewrite bind_Ok by (by eapply current_process_ok).
  erewrite bind_Ok by (apply (unlock_locked_process (set_interrupts false s)); done). mpure.
  assert (set_interrupts true (set_interrupts false s) = s) as -> by (rewrite <- Hie; by destruct s). by apply trap_switches; [..|apply yield_handler_ok].
Qed.

Lemma block_ok s l rsp regs : thread_mode s l -> current_pid s <> KERNEL_PID -> trap_ok s rsp regs -> exists s' l', sched_block rsp regs s = Ok ((), s') /\ switched s l s' l'.
Proof.
  intros H Hk Ht. pose proof (tm_sys _ _ H) as Hs. destruct (current_exists _ _ H) as (i & j & p & t & Hc). destruct (current_found _ _ _ _ _ _ H Hc) as [_ Ej].
  pose proof Hc as (Hi & Hj & _ & Ep & _). pose proof (sys_unlocked _ _ _ _ _ Hs Hi ltac:(done)) as Hl. destruct (sys_running _ _ _ Hs) as (Hr & _ & _).
  unfold sched_block, assertM. mpure. rewrite (tm_irq _ _ H). mpure. rewrite Hr. cbn [negb]. mpure. rewrite (proj2 (Z.eqb_neq _ _) Hk). mpure. rewrite <- Ep.
  erewrite bind_Ok by (apply sched_get_process_found; [apply Hs|apply Hs|done..]). mpure. erewrite bind_Ok by (eapply sched_get_thread_by_tid_ok; [by apply locked_lookup|done]).
  change (current_tid (locked i p s)) with (current_tid s). change (threads (set_p_lock true p)) with (threads p). rewrite Ej.
  erewrite bind_Ok by (by eapply update_thread_ok; [apply locked_lookup|]).
  erewrite bind_Ok by (apply release_process_ok; [done|cbn; apply list_lookup_insert_eq; rewrite length_insert; by eapply lookup_lt_Some]). set (s1 := set_interrupts false s).
  destruct (interrupt_ok s1 l i j p t true rsp regs yield_irq_handler) as (s' & l' & E & Hsw); [by apply thread_mode_interrupts|done|done|by rewrite Ep|apply yield_handler_ok|].
  exists s', l'. split; [|destruct Hsw; by split]. rewrite <- E. f_equal. cbn. rewrite !list_insert_insert_eq. unfold with_thread. cbn. destruct p; cbn in *; by subst.
Qed.

(** Entering and leaving a system call change one flag of the current thread. *)
Lemma set_uninterruptible_ok s l i j p t b ie : thread_mode s l -> current_at s i j p t -> current_pid s <> KERNEL_PID ->
  (b = false -> Forall (fun e => Td (st_pid e) (st_tid e) <> Td (current_pid s) (current_tid s)) (sleeping_threads s)) ->
  thread_mode (set_interrupts ie (with_thread i j p (set_uninterruptible b t) s)) l.
Proof.
  intros H (Hi & Hj & Hst & Ep & Et) Hk Hsl. pose proof (tm_sys _ _ H) as Hs. pose proof (sys_lookup _ _ _ _ _ Hs Hi) as Hok. set (p' := set_threads (<[j := set_uninterruptible b t]> (threads p)) p).
  assert (forall st, thread_ids st p' = thread_ids st p) as Hids by (intros st; unfold thread_ids; cbn; by apply (bind_insert_eq _ _ _ t)).
  assert (process_ok p') as Hok'.
  { destruct Hok as [H1 H2 H3 H4 H5 H6 H7 H8]. split; cbn; try done.
    - intros E. apply (f_equal length) in E. rewrite length_insert in E. by destruct (threads p).
    - by rewrite (fmap_insert_same t_tid _ _ _ _ Hj).
    - apply Forall_insert; [eapply list.Forall_impl; [exact H4|]; intros ? [? ? ? ? ? ? ?]; by split|]. destruct (Forall_lookup_1 _ _ _ _ H4 Hj). split; cbn; done.
    - intros Hk'. congruence. }
  assert (sys_ok [] (upd (<[i := p']> (processes s)) (pqueue s) (n_ready_threads s) (sleeping_threads s) ie s) l None) as HS.
  { eapply sys_replace_gen; try done; [by cbn; rewrite length_insert|apply Hs|rewrite (ids_insert_same _ _ _ _ _ Hi) by done; apply Hs|apply Hs| |].
    - intros e k pk m t' He Hk' Hm E1 E2. destruct (decide (i = k)) as [<-|Hne]; [|rewrite list_lookup_insert_ne in Hk' by done; by eapply (sys_sleeping _ _ _ Hs)].
      rewrite list_lookup_insert_eq in Hk' by (by eapply lookup_lt_Some). injection Hk' as <-. cbn in *. destruct (decide (m = j)) as [->|Hnj].
      + rewrite list_lookup_insert_eq in Hm by (by eapply lookup_lt_Some). injection Hm as <-. cbn in *. destruct b; [done|]. rewrite list.Forall_forall in Hsl. destruct (Hsl eq_refl e He). congruence.
      + rewrite list_lookup_insert_ne in Hm by done. by eapply (sys_sleeping _ _ _ Hs e i p m t').
    - eapply locks_insert; [apply Hs|exact Hi|done|done|cbn; by rewrite (sys_unlocked _ _ _ _ _ Hs Hi), bool_decide_false|]. intros k' Hk'. split; congruence. }
  assert (set_interrupts ie (with_thread i j p (set_uninterruptible b t) s) = upd (<[i := p']> (processes s)) (pqueue s) (n_ready_threads s) (sleeping_threads s) ie s) as -> by (by destruct s).
  split; [done|cbn; rewrite (ids_insert_same _ _ _ _ _ Hi) by done; apply H|apply H|apply H|]. intros k pk Hk' Hpk. cbn in *.
  destruct (decide (i = k)) as [<-|Hne]; [|rewrite list_lookup_insert_ne in Hk' by done; by apply (tm_mapped _ _ H k pk)].
  rewrite list_lookup_insert_eq in Hk' by (by eapply lookup_lt_Some). injection Hk' as <-. by apply (tm_mapped _ _ H i p).
Qed.

Lemma syscall_enter_ok s l : thread_mode s l -> interrupts s = false -> current_pid s <> KERNEL_PID -> current_is s (fun t => uninterruptible t = false /\ should_exit t = false) ->
  exists s', syscall_enter s = Ok (true, s') /\ stays s l s' l.
Proof.
  intros H Hie Hk Hcu. pose proof (tm_sys _ _ H) as Hs. destruct (current_exists _ _ H) as (i & j & p & t & Hc). destruct (Hcu _ _ _ _ Hc) as [Hu Hx]. destruct (current_found _ _ _ _ _ _ H Hc) as [_ Ej].
  pose proof Hc as (Hi & Hj & _ & Ep & _). pose proof (sys_unlocked _ _ _ _ _ Hs Hi ltac:(done)) as Hl. pose proof (pr_pid _ (sys_lookup _ _ _ _ _ Hs Hi)) as Hpid.
  assert (i < length (processes s))%nat as Hlt by (by eapply lookup_lt_Some). unfold syscall_enter. erewrite bind_Ok by (mrun; by rewrite Hie). erewrite bind_Ok by (by eapply current_process_ok).
  erewrite bind_Ok by (apply get_process_ok; by apply locked_lookup). unfold assertM. change (p_pid (set_p_lock true p)) with (p_pid p).
  rewrite (proj2 (Z.ltb_lt 0 (p_pid p))), (proj2 (Z.leb_le (p_pid p) MAX_PID)) by (unfold KERNEL_PID in Hk; lia). mpure. unfold thread_enter_syscall.
  erewrite bind_Ok; [|erewrite bind_Ok by (mrun; done); erewrite bind_Ok by (eapply sched_get_thread_by_tid_ok; [by apply locked_lookup|done]);
    change (current_tid (locked i p s)) with (current_tid s); change (threads (set_p_lock true p)) with (threads p); rewrite Ej; erewrite bind_Ok by (by eapply get_thread_ok; [apply locked_lookup|]);
    unfold assertM; rewrite Hu; mpure; rewrite Hx; erewrite bind_Ok by (by eapply put_thread_ok; apply locked_lookup); reflexivity].
  cbv beta iota. erewrite bind_Ok by (apply release_process_ok; [done|cbn; apply list_lookup_insert_eq; by rewrite length_insert]). mpure.
  eexists. split; [done|]. split; [|split; [exists []; by rewrite app_nil_r|done]].
  replace (set_interrupts true _) with (set_interrupts true (with_thread i j p (set_uninterruptible true t) s)); [by apply set_uninterruptible_ok|].
  unfold with_thread. cbn. rewrite !list_insert_insert_eq. destruct p; cbn in *; by subst.
Qed.

Lemma thread_leave_ok s i p j t : processes s !! i = Some p -> threads p !! j = Some t -> find_thread (t_tid t) (threads p) 0 = Some j -> p_lock p = false -> uninterruptible t = true ->
  thread_leave_syscall i (t_tid t) s = Ok ((), set_interrupts false (with_thread i j p (set_uninterruptible false t) s)).
Proof.
  intros Hi Hj Ej Hl Hu. assert (i < length (processes s))%nat as Hlt by (by eapply lookup_lt_Some). unfold thread_leave_syscall. mpure. set (s0 := set_interrupts false s).
  erewrite (bind_Ok _ _ _ () (locked i p s)) by (unfold acquire_process; erewrite bind_Ok by (mrun; done); erewrite bind_Ok by (by apply get_process_ok); by rewrite Hl).
  erewrite bind_Ok by (eapply sched_get_thread_by_tid_ok; [by apply locked_lookup|done]). change (threads (set_p_lock true p)) with (threads p). rewrite Ej.
  erewrite bind_Ok by (by eapply get_thread_ok; [apply locked_lookup|]). unfold assertM. rewrite Hu. mpure. erewrite bind_Ok by (by eapply put_thread_ok; apply locked_lookup).
  rewrite (release_process_ok _ i (set_threads (<[j := set_uninterruptible false t]> (threads p)) (set_p_lock true p))); [|done|cbn; apply list_lookup_insert_eq; by rewrite length_insert].
  do 2 f_equal. unfold with_thread. cbn. rewrite !list_insert_insert_eq. destruct p; cbn in *; by subst.
Qed.

Lemma syscall_leave_ok s l : thread_mode s l -> interrupts s = true -> current_pid s <> KERNEL_PID -> current_is s (fun t => uninterruptible t = true) ->
  Forall (fun e => Td (st_pid e) (st_tid e) <> Td (current_pid s) (current_tid s)) (sleeping_threads s) -> exists r s', syscall_leave s = Ok (r, s') /\ stays s l s' l.
Proof.
  intros H Hie Hk Hcu Hsl. pose proof (tm_sys _ _ H) as Hs. destruct (current_exists _ _ H) as (i & j & p & t & Hc). pose proof (Hcu _ _ _ _ Hc) as Hu. destruct (current_found _ _ _ _ _ _ H Hc) as [Ei Ej].
  pose proof Hc as (Hi & Hj & _ & Ep & Et). pose proof (sys_unlocked _ _ _ _ _ Hs Hi ltac:(done)) as Hl.
  unfold syscall_leave. erewrite bind_Ok by (mrun; by rewrite Hie). mpure. rewrite Ei. erewrite bind_Ok by (by apply get_process_ok). cbv zeta.
  rewrite <- Et in Ej |- *. erewrite bind_Ok by (by apply (thread_leave_ok s i p j t)). eexists _, _. split; [reflexivity|]. split; [|split; [exists []; by rewrite app_nil_r|done]].
  by apply set_uninterruptible_ok.
Qed.

(** Two threads with the same name are the same thread. *)
Lemma same_thread {h} s l o i p j t i' p' j' t' : sys_ok h s l o -> processes s !! i = Some p -> threads p !! j = Some t -> processes s !! i' = Some p' -> threads p' !! j' = Some t' ->
  p_pid p = p_pid p' -> t_tid t = t_tid t' -> t = t'.
Proof.
  intros Hs Hi Hj Hi' Hj' Ep Et.
  assert (i = i') as -> by (eapply NoDup_lookup; [apply Hs|rewrite list_lookup_fmap, Hi; done|rewrite list_lookup_fmap, Hi'; cbn; by rewrite Ep]).
  assert (p = p') as -> by congruence. pose proof (pr_tids _ (sys_lookup _ _ _ _ _ Hs Hi')) as Hn. eapply (NoDup_fmap_elem t_tid); [exact Hn|by eapply list_elem_of_lookup_2..|done].
Qed.

Lemma sleep_ok s l wakeup : thread_mode s l -> current_is s (fun t => uninterruptible t = true) ->
  exists s', register_sleeping_thread (current_tid s) (current_pid s) wakeup s = Ok ((), s') /\ stays s l s' l.
Proof.
  intros H Hcu. pose proof (tm_sys _ _ H) as Hs. destruct (current_exists _ _ H) as (i & j & p & t & Hc). pose proof (Hcu _ _ _ _ Hc) as Hu. destruct Hc as (Hi & Hj & _ & Ep & Et).
  set (k := insert_position wakeup (sleeping_threads s)). set (e := SleepingThread (current_tid s) (current_pid s) wakeup). set (sl := take k (sleeping_threads s) ++ e :: drop k (sleeping_threads s)).
  exists (set_sleeping_threads sl s). split; [pose proof (tm_sleep_lock _ _ H) as Hsl; unfold register_sleeping_thread, sl, k, e; destruct s; cbn in *; subst; mrun; done|].
  split; [|split; [exists []; by rewrite app_nil_r|done]]. destruct H as [_ H2 H3 H4 H5]. split; try done. destruct Hs as [S1 S2 S3 S4 S5 S6 S7 S8 S9 S10 S11] eqn:EHs. split; try done. cbn.
  intros e' i' p' j' t' He Hi' Hj' E1 E2. assert (e' = e \/ e' ∈ sleeping_threads s) as [->|He'].
  { unfold sl in He. apply elem_of_app in He as [He|[->|He]%elem_of_cons]; [right|by left|right]; eapply elem_of_submseteq; [exact He|apply submseteq_take|exact He|apply submseteq_drop]. }
  - cbn in *. by rewrite <- (same_thread _ _ _ _ _ _ _ _ _ _ _ Hs Hi Hj Hi' Hj') by congruence.
  - by eapply S8.
Qed.

Lemma reap_ok s l : thread_mode s l -> interrupts s = true -> current_pid s = KERNEL_PID -> exists s', sched_free_killed_processes s = Ok (killed_processes s, s') /\ stays s l s' l /\ killed_processes s' = [].
Proof.
  intros H Hie Hk. pose proof (tm_sys _ _ H) as Hs. destruct (sys_running _ _ _ Hs) as (_ & _ & Hn). unfold sched_free_killed_processes. erewrite bind_Ok by reflexivity. rewrite Hn.
  erewrite bind_Ok by reflexivity. erewrite bind_Ok by (mrun; by rewrite Hie). mpure. destruct (Z.eqb_spec (zlen (killed_processes s)) 0) as [E|E].
  { assert (killed_processes s = []) as E0 by (apply length_zero_iff_nil; unfold zlen in E; lia). rewrite E0. exists s. split; [done|]. split; [|done]. split; [done|]. split; [exists []; by rewrite app_nil_r|done]. }
  exists (set_killed_processes [] s). destruct (sys_locks _ _ _ Hs) as [Hsl _]. split; [destruct s; cbn in *; subst; mrun; done|]. split; [|done].
  split; [|split; [exists []; by rewrite app_nil_r|done]]. pose proof (tm_mapped _ _ H) as Hm. destruct H as [_ H2 H3 H4 H5]. split; try done.
  pose proof (sys_kernel _ _ _ Hs) as (i & p & Hi & Hpk). destruct (pr_kernel _ (sys_lookup _ _ _ _ _ Hs Hi) Hpk) as (E1 & E2 & _). destruct (Hm i p Hi ltac:(congruence)) as [M1 M2].
  destruct Hs as [S1 S2 S3 S4 S5 S6 S7 S8 (S9 & S9' & _ & _) S10 S11]. split; try done. unfold maps_ok, known in *. cbn. rewrite fmap_app in S9, S9'. rewrite app_nil_r.
  apply list.NoDup_app in S9 as (? & _ & _). apply list.NoDup_app in S9' as (? & _ & _). split; [done|]. split; [done|]. split; [by constructor|]. left. rewrite M1, M2. done.
Qed.

Lemma new_process_ids st s p : new_process s p -> ids st (processes s ++ [p]) = ids st (processes s) ++ (if bool_decide (st = BLOCKED) then thread_ids st p else []).
Proof.
  intros Hp. unfold ids. rewrite bind_app. cbn. rewrite app_nil_r. f_equal. case_bool_decide as Hb; [done|]. pose proof (np_blocked _ _ Hp) as Hbl. unfold thread_ids.
  induction Hbl as [|t ts Ht _ IH]; [done|]. rewrite bind_cons, IH, Ht. by rewrite bool_decide_false by done.
Qed.

Lemma lookup_snoc_inv {A} (l : list A) x i y : (l ++ [x]) !! i = Some y -> l !! i = Some y \/ y = x.
Proof. intros [?|[_ H]]%lookup_app_Some; [by left|]. apply list_lookup_singleton_Some in H as [_ ->]. by right. Qed.

Lemma new_process_ok s l p : thread_mode s l -> interrupts s = false -> new_process s p -> exists s', add_process p s = Ok ((), s') /\ stays s l s' l.
Proof.
  intros H Hie Hp. pose proof (tm_sys _ _ H) as Hs. destruct (sys_locks _ _ _ Hs) as [Hsl Hpl]. exists (set_processes (processes s ++ [p]) s).
  split; [unfold add_process; destruct s; cbn in *; subst; mrun; done|]. split; [|split; [exists []; by rewrite app_nil_r|done]].
  pose proof Hp as [Np1 [Np2 Np3] Np4 Np5 [Np6 Np7] Np8 Np9]. split; cbn.
  - destruct Hs as [S1 S2 S3 S4 S5 S6 S7 S8 S9 S10 S11]. split; cbn; try done.
    + rewrite fmap_app. apply list.NoDup_app. split; [done|]. split; [|by apply NoDup_singleton]. intros x Hx ->%list_elem_of_singleton. done.
    + apply list.Forall_app. split; [done|by constructor].
    + destruct S3 as (i & k & Hi & Hk). exists i, k. split; [|done]. by apply lookup_app_l_Some.
    + rewrite (new_process_ids _ _ _ Hp). cbn. by rewrite app_nil_r.
    + change (Z.of_nat (total_threads (set_processes (processes s ++ [p]) s)) < MAX_THREADS). rewrite total_alive in *. cbn. unfold alive in *. rewrite bind_app, length_app. cbn. rewrite app_nil_r. unfold process_alive at 2. rewrite length_fmap. lia.
    + intros e i q j t He Hi Hj E1 E2. apply lookup_snoc_inv in Hi as [Hi| ->]; [by eapply S8|]. rewrite list.Forall_forall in Np8. by destruct (Np8 e He).
    + destruct S9 as (M1 & M2 & M3 & M4). unfold maps_ok, known in *. cbn. rewrite !fmap_app in *. cbn.
      assert (forall f : process -> Z, ((f <$> processes s) ++ [f p]) ++ (f <$> killed_processes s) ≡ₚ f p :: (f <$> processes s) ++ (f <$> killed_processes s)) as HP by (intros f; solve_Permutation).
      rewrite !HP. split; [by apply list.NoDup_cons|]. split; [by apply list.NoDup_cons|]. split; [done|]. destruct M4 as [?|(m & Hm & ?)]; [by left|right]. exists m. split; [|done].
      rewrite !elem_of_app in *. tauto.
    + split; [done|]. cbn. intros i q [Hi| ->]%lookup_snoc_inv; [by apply Hpl|]. by rewrite bool_decide_false.
  - rewrite (new_process_ids _ _ _ Hp). cbn. rewrite app_nil_r. apply H.
  - apply H.
  - apply H.
  - intros i q [Hi| ->]%lookup_snoc_inv Hq; [by apply (tm_mapped _ _ H i q)|]. exfalso. apply Np3. rewrite Hq. destruct (current_exists _ _ H) as (k & _ & r & _ & Hr & _ & _ & <- & _).
    apply list_elem_of_fmap. exists r. split; [done|by eapply list_elem_of_lookup_2].
Qed.

(** ** All events *)

Definition progressed (e : event) (s : sched) (l : list td) (s' : sched) (l' : list td) : Prop :=
  if switches e then switched s l s' l' else stays s l s' l'.

Lemma exec_ok s l e : thread_mode s l -> event_ok s e -> exists s' l', exec e s = Ok ((), s') /\ progressed e s l s' l'.
Proof.
  intros H He. pose proof (tm_sys _ _ H) as Hs. unfold progressed. destruct e; cbn [switches exec event_ok] in *.
  - destruct He. by apply yield_ok.
  - destruct He. by apply trap_switches; [..|apply timer_handler_ok].
  - destruct He. by apply trap_switches; [..|apply device_handler_ok].
  - destruct He. by apply block_ok.
  - destruct (sched_unblock_ok _ _ pid tid Hs) as (s' & x & E & Hw). exists s', (l ++ x). split; [done|]. by eapply woken_stays.
  - destruct (process_trigger_signal_ok _ _ pid signal Hs (tm_sleep_lock _ _ H) He) as (r & s' & x & E & Hw). exists s', (l ++ x). split; [by erewrite bind_Ok by exact E|]. by eapply woken_stays.
  - destruct He as [Hie Hk]. destruct (sched_kill_process_ok _ _ pid Hs (tm_sleep_lock _ _ H) Hie Hk) as (r & s' & x & E & Hw). exists s', (l ++ x). split; [by erewrite bind_Ok by exact E|]. by eapply woken_stays.
  - destruct (sleep_ok _ _ wakeup H He) as (s' & E & Hst). exists s', l. by split.
  - destruct He as (Hie & Hk & Hu). destruct (syscall_enter_ok _ _ H Hie Hk Hu) as (s' & E & Hst). exists s', l. split; [by erewrite bind_Ok by exact E|done].
  - destruct He as (Hie & Hk & Hu & Hsl). destruct (syscall_leave_ok _ _ H Hie Hk Hu Hsl) as (r & s' & E & Hst). exists s', l. split; [by erewrite bind_Ok by exact E|done].
  - destruct He as [Hie Hk]. destruct (reap_ok _ _ H Hie Hk) as (s' & E & Hst & _). exists s', l. split; [by erewrite bind_Ok by exact E|done].
  - destruct He as [Hie Hp]. destruct (new_process_ok _ _ _ H Hie Hp) as (s' & E & Hst). by exists s', l.
Qed.

Lemma progressed_mode e s l s' l' : progressed e s l s' l' -> thread_mode s' l'.
Proof. unfold progressed. destruct (switches e); [by intros [? _ _]|by intros (? & _)]. Qed.

(** The states that a sequence of events leads through. *)
Inductive run : sched -> list (event * sched) -> Prop :=
  | run_nil s : run s []
  | run_cons s e s' tr : event_ok s e -> exec e s = Ok ((), s') -> run s' tr -> run s ((e, s') :: tr).


(** What a switch does to the place of a thread in the queue. *)
Lemma switch_place (a : list td) x b new gone y l' : (a ++ x :: b) ++ new = gone ++ y :: l' ->
  x ∈ gone \/ x = y \/ exists a' b', l' = a' ++ x :: b' /\ (length a' < length a)%nat.
Proof.
  revert gone. induction a as [|z a IH]; intros gone E; destruct gone as [|g gone]; cbn in E; injection E as -> E.
  - right. by left.
  - left. by left.
  - right. right. exists a, (b ++ new). rewrite <- E. split; [by rewrite <- app_assoc|cbn; lia].
  - destruct (IH _ E) as [?|[?|(a' & b' & ? & ?)]]; [left; by right|right; by left|right; right; exists a', b'; split; [done|cbn; lia]].
Qed.

(** C26: No ready thread starves: with [n] threads in front of it, a thread that is not killed
    runs after at most [n + 1] switches, whatever else happens in between. *)
Theorem round_robin s tr a x b : thread_mode s (a ++ x :: b) -> run s tr -> Forall (fun es => x ∈ alive (processes es.2)) tr ->
  (length a < length (filter (fun es => switches es.1 = true) tr))%nat -> Exists (fun es => Td (current_pid es.2) (current_tid es.2) = x) tr.
Proof.
  intros H Hr. revert a b H. induction Hr as [s|s e s' tr He E Hr IH]; intros a b H Hal Hn; [cbn in Hn; lia|].
  apply list.Forall_cons in Hal as [Hx Hal]. destruct (exec_ok _ _ _ H He) as (s1 & l' & E' & Hp). assert (s1 = s') as -> by congruence. pose proof (progressed_mode _ _ _ _ _ Hp) as H'.
  rewrite filter_cons in Hn. unfold progressed in Hp. cbn [fst] in Hn. destruct (switches e) eqn:Es.
  - rewrite decide_True in Hn by done. cbn in Hn. destruct Hp as [_ (gone & new & Ho & Hg) _]. destruct (switch_place _ _ _ _ _ _ _ Ho) as [Hin|[->|(a' & b' & -> & Hlt)]].
    + destruct (Hg _ Hin). done.
    + left. done.
    + right. apply (IH a' b'); [done|done|lia].
  - rewrite decide_False in Hn by congruence. destruct Hp as (_ & (y & ->) & _). right. apply (IH a (b ++ y)); [|done|done].
    by rewrite <- app_assoc in H'.
Qed.
