(* ===== verification/SchedTheorems.v ===== *)
(** * Unblocking, sleeping and signals, exactly

    What [sched_unblock] changes, the order of the sleeping threads and who is woken when, the
    delivery of a signal and the return from its handler, and where the code is wrong. *)

From stdpp Require Import sorting.
From S2P Require Import Prelude SchedQueue SchedState Sched SchedSwitch SchedInv SchedWake SchedSelect SchedSystem SchedEvents.





(** ** Unblocking *)

Definition unblocked (s : sched) (i j : nat) (p : process) (t : thread) (q : priority_queue) : sched :=
  set_n_ready_threads (n_ready_threads s + 1) (set_pqueue q (with_thread i j p (set_t_state READY t) s)).

Lemma sched_unblock_exact {h} s l i p j t : sys_ok h s l None -> processes s !! i = Some p -> threads p !! j = Some t ->
  if bool_decide (t_state t = BLOCKED) then exists q, sched_unblock (p_pid p) (t_tid t) s = Ok ((), unblocked s i j p t q) /\ pq_holds q (l ++ [Td (p_pid p) (t_tid t)])
  else sched_unblock (p_pid p) (t_tid t) s = Ok ((), s).
Proof.
  intros H Hi Hj. pose proof (sys_unlocked _ _ _ _ _ H Hi ltac:(done)) as Hpl. pose proof (sys_lookup _ _ _ _ _ H Hi) as Hok. pose proof (Forall_lookup_1 _ _ _ _ (pr_thread _ Hok) Hj) as Hth.
  assert (sched_unblock (p_pid p) (t_tid t) s = (_ ← sched_unblock_thread i j; _ ← release_process i; set_rflags (interrupts s)) (locked i p s)) as ->.
  { unfold sched_unblock. mpure. erewrite bind_Ok by (eapply (sched_get_process_found (set_interrupts false s)); [apply H|apply H|done|done]).
    change (locked i p (set_interrupts false s)) with (locked i p s). cbv beta iota.
    erewrite bind_Ok by (eapply sched_get_thread_by_tid_ok; [by apply locked_lookup|done]). cbn [threads set_p_lock]. by rewrite (find_thread_Some _ _ _ (pr_tids _ Hok) Hj). }
  unfold sched_unblock_thread. pose proof (lookup_lt_Some _ _ _ Hi) as Hlt. case_bool_decide as Hb.
  - set (s1 := set_processes (<[i := set_threads (<[j := set_t_state READY t]> (threads p)) (set_p_lock true p)]> (processes (locked i p s))) (locked i p s)).
    destruct (push_ready_ok s1 l (t_pid t) (t_tid t)) as (q & Epush & Hq); [apply H|apply H|rewrite (th_pid _ _ Hth); apply Hok|pose proof (th_tid _ _ Hth); lia|by eapply sys_queue_length|].
    exists q. split; [|by rewrite <- (th_pid _ _ Hth)]. erewrite bind_Ok; [|erewrite bind_Ok by (by eapply get_thread_ok; [apply locked_lookup|]); rewrite bool_decide_true by done;
      erewrite bind_Ok by (by eapply put_thread_ok; apply locked_lookup); exact Epush].
    erewrite bind_Ok by (apply release_process_ok; [done|cbn; apply list_lookup_insert_eq; by rewrite length_insert]). unfold set_rflags, modify. do 2 f_equal.
    unfold unblocked, with_thread, s1. cbn. rewrite !list_insert_insert_eq. destruct s, p; cbn in *; by subst.
  - erewrite bind_Ok; [|erewrite bind_Ok by (by eapply get_thread_ok; [apply locked_lookup|]); rewrite bool_decide_false by done; reflexivity].
    assert (set_processes (<[i := p]> (processes s)) (set_interrupts false s) = set_interrupts false s) as E by (rewrite list_insert_id by done; by destruct s).
    erewrite bind_Ok by (apply release_process_ok; [done|by apply locked_lookup]). unfold set_rflags, modify. do 2 f_equal. cbn. rewrite list_insert_insert_eq.
    assert (set_p_lock false (set_p_lock true p) = p) as -> by (destruct p; cbn in *; by subst). rewrite list_insert_id by done. by destruct s.
Qed.

Lemma woken_not_blocked s x s' d : woken s x s' -> d ∉ ids BLOCKED (processes s) -> d ∉ ids BLOCKED (processes s').
Proof.
  intros Hw Hd Hin. apply Hd. pose proof (wk_processes _ _ _ Hw) as Hp. unfold ids in *. clear - Hin Hp. induction Hp as [|p p' ? ? Hp _ IH]; [done|]. rewrite bind_cons in *.
  apply elem_of_app in Hin as [Hin|Hin]; apply elem_of_app; [left; by eapply process_woken_ids|right; by apply IH].
Qed.

(** A thread that was unblocked is not blocked, and nothing but the thread itself blocks it. *)
Lemma unblock_not_blocked {h} s l pid tid s' : sys_ok h s l None -> sched_unblock pid tid s = Ok ((), s') -> Td pid tid ∉ ids BLOCKED (processes s').
Proof.
  intros H E Hin. destruct (sched_unblock_ok _ _ pid tid H) as (s1 & x & E1 & Hw). assert (s1 = s') as -> by congruence.
  destruct (decide (Td pid tid ∈ ids BLOCKED (processes s))) as [Hin0|Hno]; [|by eapply woken_not_blocked].
  apply elem_of_ids in Hin0 as (i & p & j & t & Hi & Hj & Hst & [= -> ->]). pose proof (sched_unblock_exact _ _ _ _ _ _ H Hi Hj) as Hx. rewrite bool_decide_true in Hx by done.
  destruct Hx as (q & Ex & _). assert (s' = unblocked s i j p t q) as -> by congruence. apply elem_of_ids in Hin as (i' & p' & j' & t' & Hi' & Hj' & Hst' & [= Ep Et]).
  pose proof (woken_sys _ _ _ _ _ H Hw) as H'. assert (t' = set_t_state READY t) as ->; [|done]. cbn in Hi'. pose proof (lookup_lt_Some _ _ _ Hi) as Hlt.
  eapply (same_thread _ _ _ i' p' j' t' i (set_threads (<[j := set_t_state READY t]> (threads p)) p) j); [exact H'|done|done|cbn; by apply list_lookup_insert_eq|cbn; apply list_lookup_insert_eq; by eapply lookup_lt_Some|done|done].
Qed.

(** ** Sleeping threads *)

Definition earlier (a b : sleeping_thread) : Prop := wakeup_time a <= wakeup_time b.
Definition sorted_by_time (l : list sleeping_thread) : Prop := StronglySorted earlier l.

Lemma insert_position_spec w l : sorted_by_time l ->
  Forall (fun e => wakeup_time e <= w) (take (insert_position w l) l) /\ Forall (fun e => w < wakeup_time e) (drop (insert_position w l) l).
Proof.
  intros Hs. induction Hs as [|e l Hs IH He]; [by split; constructor|]. cbn [insert_position]. destruct (Z.ltb_spec w (wakeup_time e)) as [Hlt|Hge].
  - split; [constructor|]. cbn [drop skipn]. constructor; [done|]. eapply list.Forall_impl; [exact He|]. unfold earlier. intros; lia.
  - destruct IH as [IH1 IH2]. split; [|done]. cbn [take]. by constructor.
Qed.

Lemma filter_none {A} (P : A -> Prop) `{!forall x, Decision (P x)} (l : list A) : Forall (fun x => ~ P x) l -> filter P l = [].
Proof. intros Hl. induction Hl as [|x l Hx _ IH]; [done|]. by rewrite filter_cons, decide_False, IH. Qed.

Lemma filter_all {A} (P : A -> Prop) `{!forall x, Decision (P x)} (l : list A) : Forall P l -> filter P l = l.
Proof. intros Hl. induction Hl as [|x l Hx _ IH]; [done|]. by rewrite filter_cons, decide_True, IH. Qed.

Lemma expired_spec now l : sorted_by_time l ->
  take (expired now l) l = filter (fun e => wakeup_time e < now) l /\ drop (expired now l) l = filter (fun e => ~ wakeup_time e < now) l.
Proof.
  intros Hs. induction Hs as [|e l Hs IH He]; [done|]. cbn [expired]. rewrite !filter_cons. destruct (Z.ltb_spec (wakeup_time e) now) as [Hlt|Hge].
  - destruct IH as [IH1 IH2]. rewrite decide_True, decide_False by lia. cbn [take drop firstn skipn]. by rewrite IH1, IH2.
  - rewrite decide_False, decide_True by lia. cbn [take drop firstn skipn]. unfold earlier in He. split.
    + symmetry. apply filter_none. eapply list.Forall_impl; [exact He|]. cbv beta; intros; lia.
    + f_equal. symmetry. apply filter_all. eapply list.Forall_impl; [exact He|]. cbv beta; intros; lia.
Qed.

Lemma unblock_all_ok {h} xs s l : sys_ok h s l None -> exists s' x, for_each xs (fun t => sched_unblock (st_pid t) (st_tid t)) s = Ok ((), s') /\ woken s x s' /\
  forall e, e ∈ xs -> Td (st_pid e) (st_tid e) ∉ ids BLOCKED (processes s').
Proof.
  revert s l. induction xs as [|e xs IH]; intros s l H; cbn [for_each].
  - exists s, []. split; [done|]. split; [apply woken_refl|]. intros e He. by apply elem_of_nil in He.
  - destruct (sched_unblock_ok _ _ (st_pid e) (st_tid e) H) as (s1 & x & E & Hw). erewrite bind_Ok by exact E. destruct (IH _ _ (woken_sys _ _ _ _ _ H Hw)) as (s2 & y & -> & Hw2 & Hb).
    exists s2, (x ++ y). split; [done|]. split; [by eapply woken_trans|]. intros e' [->|He']%elem_of_cons; [|by apply Hb]. eapply woken_not_blocked; [exact Hw2|]. by eapply unblock_not_blocked.
Qed.

(** The threads that sleep are kept in the order of their time, and the timer wakes exactly
    those whose time has come: they are not blocked any more and leave the list, and all others
    stay in it, in order. *)
Theorem wakeup_threads_correct s l now : irq_mode [] None s l -> sorted_by_time (sleeping_threads s) ->
  exists s' x, wakeup_threads now s = Ok ((), s') /\ irq_mode [] None s' (l ++ x) /\
    sleeping_threads s' = filter (fun e => ~ wakeup_time e < now) (sleeping_threads s) /\
    forall e, e ∈ sleeping_threads s -> wakeup_time e < now -> Td (st_pid e) (st_tid e) ∉ ids BLOCKED (processes s').
Proof.
  intros H Hsorted. pose proof (im_sys _ _ H) as Hs. destruct (expired_spec now _ Hsorted) as [Et Ed]. pose proof (im_disabled _ _ H) as Hie. pose proof (im_sleep_lock _ _ H) as Hsl.
  unfold wakeup_threads. mrun. rewrite Hie. cbn. rewrite Hsl. cbn. rewrite Hsl. cbn. set (s0 := set_sleep_lock true (set_interrupts false s)). set (j := expired now (sleeping_threads s)) in *.
  destruct (Nat.eqb_spec j 0) as [Ej|Ej]; cbn [negb].
  { assert (set_interrupts false (set_sleep_lock false s0) = s) as E0 by (unfold s0; destruct s; cbn in *; by subst).
    cbn. exists s, []. rewrite E0, app_nil_r. split; [done|]. split; [done|]. rewrite Ej in Et, Ed. split; [by rewrite <- Ed|]. intros e He Hlt.
    assert (e ∈ filter (fun e => wakeup_time e < now) (sleeping_threads s)) as Hin by (by apply list_elem_of_filter). rewrite <- Et in Hin. by apply elem_of_nil in Hin. }
  rewrite (proj1 (sys_running _ _ _ Hs) : sched_running s0 = true). destruct (unblock_all_ok (h := []) (take j (sleeping_threads s)) s0 l) as (s1 & x & -> & Hw & Hb); [by apply sys_sleep_lock|].
  cbn. rewrite (wk_interrupts _ _ _ Hw eq_refl). cbn. eexists _, x. split; [done|].
  assert (woken s x (set_interrupts false (set_sleep_lock false (set_sleeping_threads (drop j (sleeping_threads s)) s1)))) as Hw'.
  { apply woken_sleep_locked; try done. intros e He. eapply elem_of_submseteq; [exact He|apply submseteq_drop]. }
  split; [by eapply woken_irq_mode|]. split; [done|]. intros e He Hlt. cbn. apply Hb. rewrite Et. by apply list_elem_of_filter.
Qed.

(** Registering a thread keeps the list sorted and adds exactly its entry, behind those of
    the same time. *)
Theorem register_sleeping_thread_correct s tid pid wakeup : sleep_lock s = false -> sorted_by_time (sleeping_threads s) ->
  exists a b, sleeping_threads s = a ++ b /\ Forall (fun e => wakeup_time e <= wakeup) a /\ Forall (fun e => wakeup < wakeup_time e) b /\
    register_sleeping_thread tid pid wakeup s = Ok ((), set_sleeping_threads (a ++ SleepingThread tid pid wakeup :: b) s) /\
    sorted_by_time (a ++ SleepingThread tid pid wakeup :: b).
Proof.
  intros Hsl Hs. destruct (insert_position_spec wakeup _ Hs) as [Ha Hb]. set (k := insert_position wakeup (sleeping_threads s)) in *.
  exists (take k (sleeping_threads s)), (drop k (sleeping_threads s)). split; [by rewrite take_drop|]. split; [done|]. split; [done|]. split.
  - unfold register_sleeping_thread. destruct s; cbn in *. subst. mrun. done.
  - rewrite <- (take_drop k (sleeping_threads s)) in Hs. unfold sorted_by_time in *. apply StronglySorted_app in Hs as (Hab & Hsa & Hsb). apply StronglySorted_app. split; [|split; [done|]].
    + intros e1 e2 H1 [->|H2]%elem_of_cons; [|by apply Hab]. rewrite list.Forall_forall in Ha. by apply Ha.
    + constructor; [done|]. eapply list.Forall_impl; [exact Hb|]. unfold earlier. cbn. intros; lia.
Qed.

(** ** Signals *)

Lemma prepare_ok h s l i p t signal : irq_mode h (Some i) s l -> processes s !! i = Some p -> deliverable p t signal -> p_pid p <> KERNEL_PID -> uninterruptible t = false ->
  exists s1 p1 t1, prepare_process_signal i signal s = Ok (0, s1) /\ processes s1 !! i = Some p1 /\ threads p1 !! 0%nat = Some t1 /\
    t_rsp t1 = t_rsp t - sizeof_gp_regs /\ t_frames t1 = <[t_rsp t1 := handler_frame p t signal]> (t_frames t) /\ t_state t1 = READY /\
    sig_current p1 = signal /\ sig_return_context p1 = t_rsp t /\ sig_pending p1 = Z.ldiff (sig_pending p) (Z.shiftl 1 signal).
Proof.
  intros H Hi Hd Hk Hu. pose proof (im_sys _ _ H) as Hs. pose proof (sys_lookup _ _ _ _ _ Hs Hi) as Hok. pose proof (dl_main _ _ _ Hd) as H0. pose proof (lookup_lt_Some _ _ _ Hi) as Hlt. pose proof (lookup_lt_Some _ _ _ H0) as Hlt0.
  rewrite (prepare_process_signal_eq _ _ _ _ _ (im_disabled _ _ H) Hi Hd). erewrite bind_Ok by (by eapply not_sleeping; [..|apply H]).
  set (s1 := set_processes (<[i := signalled p t signal]> (processes s)) s). assert (processes s1 !! i = Some (signalled p t signal)) as Hi1 by (unfold s1; cbn; by apply list_lookup_insert_eq).
  assert (threads (signalled p t signal) !! 0%nat = Some (handler_thread p t signal)) as H01 by (cbn; by apply list_lookup_insert_eq).
  assert (sys_ok h s1 l (Some i)) as Hs1.
  { assert (s1 = upd (<[i := signalled p t signal]> (processes s)) (pqueue s) (n_ready_threads s) (sleeping_threads s) (interrupts s) s) as -> by (unfold s1; by destruct s).
    eapply sys_replace; try done; [by apply signalled_replaces|apply Hs|rewrite (ids_insert_same _ _ _ p) by (done || by apply signalled_ids); apply Hs|apply Hs|].
    eapply locks_insert; [apply Hs|exact Hi|done|done|cbn; destruct (sys_locks _ _ _ Hs) as [_ Hl]; by rewrite (Hl _ _ Hi)|]. intros n Hn. split; congruence. }
  erewrite bind_Ok by (by eapply get_thread_ok). change (t_state (handler_thread p t signal)) with (t_state t). pose proof (dl_state _ _ _ Hd) as Hnr. unfold when. case_bool_decide as Hb.
  - destruct (sched_unblock_thread_ok _ _ _ _ _ _ _ Hs1 Hi1 H01) as (s2 & E2 & _ & _ & Ep). specialize (Ep Hb). erewrite bind_Ok by exact E2.
    eexists s2, _, _. split; [done|]. rewrite Ep. split; [apply list_lookup_insert_eq; unfold s1; cbn; by rewrite length_insert|]. cbn. split; [apply list_lookup_insert_eq; by rewrite length_insert|]. done.
  - mpure. exists s1, (signalled p t signal), (handler_thread p t signal). repeat (split; [done|]). cbn. split; [by destruct (t_state t)|done].
Qed.

(** C28: A signal interrupts a program without a trace: the main thread enters the handler of the
    process with the number of the signal as its argument, on the stack it was using; the
    signal is not pending any more; and when the handler returns, whatever was saved below on
    the kernel stack in the meantime, the thread goes on with the registers it had. *)
Theorem signal_roundtrip h s l i p t signal : irq_mode h (Some i) s l -> processes s !! i = Some p -> deliverable p t signal -> p_pid p <> KERNEL_PID -> uninterruptible t = false ->
  exists s1 p1 t1, prepare_process_signal i signal s = Ok (0, s1) /\ processes s1 !! i = Some p1 /\ threads p1 !! 0%nat = Some t1 /\
    t_state t1 = READY /\ frame t1 (t_rsp t1) = handler_frame p t signal /\ Z.testbit (sig_pending p1) signal = false /\
    forall s2 p2 t2, interrupts s2 = false -> processes s2 !! i = Some p2 -> threads p2 !! 0%nat = Some t2 -> master_private s2 = private_pd p2 /\ master_shared s2 = shared_pd p2 ->
      sig_current p2 = sig_current p1 /\ sig_return_context p2 = sig_return_context p1 -> (forall a, t_rsp t <= a -> t_frames t2 !! a = t_frames t1 !! a) ->
      exists s3 p3 t3, process_end_of_signal i s2 = Ok (0, s3) /\ processes s3 !! i = Some p3 /\ threads p3 !! 0%nat = Some t3 /\
        sig_current p3 = NOSIG /\ sig_return_context p3 = 0 /\ t_rsp t3 = t_rsp t /\ frame t3 (t_rsp t3) = frame t (t_rsp t).
Proof.
  intros H Hi Hd Hk Hu. destruct (prepare_ok _ _ _ _ _ _ _ H Hi Hd Hk Hu) as (s1 & p1 & t1 & E1 & Hi1 & H01 & Er & Ef & Est & Ec & Ert & Epd). exists s1, p1, t1. repeat (split; [done|]).
  split; [unfold frame; by rewrite Ef, lookup_insert_eq|]. destruct (dl_pending _ _ _ Hd) as [Hsig _]. split; [rewrite Epd, Z.ldiff_spec, Z.shiftl_1_l, Z.pow2_bits_true by lia; by rewrite andb_false_r|].
  intros s2 p2 t2 Hie Hi2 H02 [Hm1 Hm2] [Ec2 Er2] Hfr. pose proof (lookup_lt_Some _ _ _ Hi2) as Hlt. pose proof (lookup_lt_Some _ _ _ H02) as Hlt0.
  assert (t_rsp t <> 0) as Hr0 by (apply (th_rsp _ _ (Forall_lookup_1 _ _ _ _ (pr_thread _ (sys_lookup _ _ _ _ _ (im_sys _ _ H) Hi)) (dl_main _ _ _ Hd))), (dl_state _ _ _ Hd)).
  unfold process_end_of_signal. erewrite bind_Ok by (mrun; by rewrite Hie). unfold is_process_mapped.
  erewrite (bind_Ok _ _ _ true s2) by (erewrite bind_Ok by (erewrite bind_Ok by (by apply get_process_ok); reflexivity); mrun; by rewrite Hm1, Hm2, !Z.eqb_refl). unfold assertM. mpure.
  erewrite bind_Ok by (by apply get_process_ok). rewrite Ec2, Ec, (proj2 (Z.eqb_neq signal NOSIG)) by (unfold NOSIG; lia). rewrite Er2, Ert, (proj2 (Z.eqb_neq _ _) Hr0). mpure.
  erewrite bind_Ok by (by eapply update_thread_ok). erewrite bind_Ok by (apply update_process_ok; cbn; by apply list_lookup_insert_eq). eexists _, _, (set_t_rsp (t_rsp t) t2). split; [done|].
  cbn. rewrite list_insert_insert_eq. split; [by apply list_lookup_insert_eq|]. cbn. split; [by apply list_lookup_insert_eq|]. repeat (split; [done|]).
  unfold frame. cbn. rewrite Hfr by lia. rewrite Ef, lookup_insert_ne by (rewrite Er; unfold sizeof_gp_regs; lia). done.
Qed.

(** While a handler runs, every thread of the process is given the kernel stack of the main
    thread: the address below which the registers of the main thread are saved is the one that
    another thread's interrupts and system calls start from. *)
Theorem signal_shares_kernel_stack s l i j p t : irq_mode [Td (p_pid p) (t_tid t)] (Some i) s l -> ready_at s i j p t -> sig_current p <> NOSIG ->
  exists s', (_ ← map_selected i; dispatch i j) s = Ok ((), s') /\ current_pid s' = p_pid p /\ current_tid s' = t_tid t /\ syscall_stack s' = sig_return_context p.
Proof.
  intros H Hr Hc. destruct (dispatch_ok _ _ _ _ _ _ H Hr) as (s' & E & _ & Ep & Et & _ & _ & Es). exists s'. repeat (split; [done|]). rewrite Es. unfold kernel_sp. by rewrite (proj2 (Z.eqb_neq _ _) Hc).
Qed.

(** Unblocking a thread of a process that is gone returns with the interrupts disabled. *)
Theorem sched_unblock_missing_disables s pid tid : sched_lock s = false -> pid ∉ p_pid <$> processes s -> sched_unblock pid tid s = Ok ((), set_interrupts false s).
Proof. intros Hl Hp. unfold sched_unblock. mpure. by erewrite bind_Ok by (by apply (sched_get_process_missing (set_interrupts false s))). Qed.

(** * Creating threads ([kernel/sched/process.c], [kernel/sched/thread.c], [alloc_pid] of
      [kernel/sched/sched.c])

    New threads: their numbers, the search for their stacks, their first registers, and their
    way into the ready queue. *)



(** ** The code *)

(** [last_pid] and the result of the call. *)
Definition alloc_pid (last_pid : Z) : Z * Z := let last_pid := s32 (last_pid + 1) in (last_pid, Z.land last_pid MAX_PID).

Fixpoint alloc_tid_loop (ts : list thread) (pref alt : Z) : Z * Z :=
  match ts with
  | [] => (pref, alt)
  | t :: ts => alloc_tid_loop ts (if pref <=? t_tid t then t_tid t + 1 else pref) (if t_tid t =? alt then alt + 1 else alt)
  end.
Definition alloc_tid (p : process) : Z :=
  let '(pref, alt) := alloc_tid_loop (threads p) 1 1 in
  if pref <=? MAX_TID then pref else if alt <=? MAX_TID then alt else 0.

Definition USER_PRIVATE_END : Z := 0x0000008000000000.
Definition STACK_SIZE : Z := 32 * 1024.

(** The search for a stack starts again at the first thread after each collision.  The pages
    are then allocated by [alloc_pages]. *)
Fixpoint alloc_stack_loop (fuel : nat) (ts : list thread) (base : Z) : res Z :=
  match fuel with
  | O => Err NoFuel
  | S fuel' => if existsb (fun t => base =? stack_base t) ts then alloc_stack_loop fuel' ts (base - (STACK_SIZE + 0x1000)) else Ok base
  end.
Definition alloc_stack (p : process) : res Z := alloc_stack_loop (S (length (threads p))) (threads p) (USER_PRIVATE_END - STACK_SIZE).

(** [junk] is what the memory of the stack holds where [create_thread] does not write, [kstack]
    the kernel stack that [malloc] returns. *)
Definition create_thread (pid base size tid rip rdi kstack : Z) (junk : list Z) : thread :=
  let rsp := base + size - sizeof_gp_regs - 16 in
  let regs := GpRegs rdi (<[5%nat := u64 (base - 8)]> junk) rip USER_CS USER_RF (base + size) USER_DS in
  Thread pid tid base size kstack KERNEL_THREAD_STACK_SIZE rsp {[rsp := regs]} BLOCKED false false false 0 false false.

Definition process_create_thread (i : nat) (entry argument kstack : Z) (junk : list Z) : M Z :=
  _ ← assert_disabled;
  mapped ← is_process_mapped (Some i); _ ← assertM mapped "is_process_mapped(proc)";
  p ← get_process i;
  let tid := alloc_tid p in
  if tid =? 0 then mret 0
  else
    base ← lift (alloc_stack p);
    if base =? 0 then mret 0
    else
      _ ← put_process i (set_threads (threads p ++ [create_thread (p_pid p) base STACK_SIZE tid entry argument kstack junk]) p);
      _ ← sched_launch_thread i (length (threads p));
      mret tid.

Definition sched_create_thread (pid entry argument kstack : Z) (junk : list Z) : M Z :=
  _ ← assert_enabled;
  proc ← sched_get_process pid;
  match proc with
  | None => mret 0
  | Some i =>
      tid ← gets current_tid;
      th ← sched_get_thread_by_tid (Some i) tid;
      match th with
      | None => lift (Err (Fault "th->should_exit"))
      | Some j =>
          t ← get_thread i j;
          tid ← (if should_exit t then mret (-1) else process_create_thread i entry argument kstack junk);
          _ ← release_process i; _ ← _sti; mret tid
      end
  end.

(** ** Numbers *)

Lemma alloc_tid_loop_pref ts pref alt : 0 < pref ->
  let pref' := (alloc_tid_loop ts pref alt).1 in pref <= pref' /\ Forall (fun t => t_tid t < pref') ts /\ (pref' = pref \/ Exists (fun t => pref' = t_tid t + 1) ts).
Proof.
  revert pref alt. induction ts as [|t ts IH]; intros pref alt Hp; cbn [alloc_tid_loop]; cbv zeta; cbn [fst].
  - split; [lia|]. split; [constructor|by left].
  - destruct (IH (if pref <=? t_tid t then t_tid t + 1 else pref) (if t_tid t =? alt then alt + 1 else alt)) as (H1 & H2 & H3); [zb|]. set (pref' := (alloc_tid_loop _ _ _).1) in *.
    destruct (Z.leb_spec pref (t_tid t)).
    + split; [lia|]. split; [constructor; [lia|done]|]. right. destruct H3 as [->|H3]; [by left|by right].
    + split; [lia|]. split; [constructor; [lia|done]|]. destruct H3 as [->|H3]; [by left|right; by right].
Qed.

(** As long as the largest number of a thread of the process is not the last one, a new
    thread gets a number that no thread of the process has. *)
Theorem alloc_tid_fresh p : Forall (fun t => 0 < t_tid t < MAX_TID) (threads p) -> 0 < alloc_tid p <= MAX_TID /\ alloc_tid p ∉ t_tid <$> threads p.
Proof.
  intros Hr. unfold alloc_tid. pose proof (alloc_tid_loop_pref (threads p) 1 1 ltac:(lia)) as (H1 & H2 & H3). destruct (alloc_tid_loop (threads p) 1 1) as [pref alt]. cbn in *.
  assert (pref <= MAX_TID) as Hm.
  { destruct H3 as [->|[t [Hin ->]]%list.Exists_exists]; [done|]. rewrite list.Forall_forall in Hr. specialize (Hr _ Hin). lia. }
  rewrite (proj2 (Z.leb_le _ _) Hm). split; [lia|]. intros (t & E & Hin)%list_elem_of_fmap. rewrite list.Forall_forall in H2. specialize (H2 _ Hin). cbn in H2. lia.
Qed.

(** Once the last number was given out, the replacement that the loop looks for can be in use:
    the process with the threads 2, 1 and [MAX_TID] gets a second thread 2. *)
Theorem alloc_tid_collides p t1 t2 t3 : threads p = [t1; t2; t3] -> t_tid t1 = 2 -> t_tid t2 = 1 -> t_tid t3 = MAX_TID -> alloc_tid p = 2.
Proof. intros Et E1 E2 E3. unfold alloc_tid. rewrite Et. cbn [alloc_tid_loop]. rewrite E1, E2, E3. done. Qed.

(** The numbers of processes are given out in a circle, the number of the kernel with them. *)
Theorem alloc_pid_repeats last : 0 <= last -> last + 65537 < 2 ^ 31 ->
  (alloc_pid (last + 65536)).2 = (alloc_pid last).2 /\ (last mod 65536 = 65535 -> (alloc_pid last).2 = KERNEL_PID).
Proof.
  intros H0 H1. unfold alloc_pid. rewrite !s32_small by lia. cbn [snd]. change MAX_PID with (Z.ones 16). rewrite !Z.land_ones by lia. change (2 ^ 16) with 65536. unfold KERNEL_PID. split; [|intros; lia].
  replace (last + 65536 + 1) with (last + 1 + 1 * 65536) by lia. by rewrite Z.mod_add.
Qed.

(** ** Stacks *)

(** The [k]-th place for a stack, from the end of the private memory down. *)
Definition stack_place (k : Z) : Z := USER_PRIVATE_END - STACK_SIZE - k * (STACK_SIZE + 0x1000).

Lemma alloc_stack_loop_ok fuel ts k : (length (filter (fun t => (stack_base t <= stack_place k)%Z) ts) < fuel)%nat ->
  exists n, 0 <= n < Z.of_nat fuel /\ alloc_stack_loop fuel ts (stack_place k) = Ok (stack_place (k + n)) /\ Forall (fun t => stack_base t <> stack_place (k + n)) ts.
Proof.
  revert k. induction fuel as [|fuel IH]; intros k Hf; [lia|]. cbn [alloc_stack_loop]. destruct (existsb (fun t => stack_place k =? stack_base t) ts) eqn:E.
  - apply existsb_exists in E as (t & Hin & Et%Z.eqb_eq). replace (stack_place k - (STACK_SIZE + 4096)) with (stack_place (k + 1)) by (unfold stack_place; lia).
    destruct (IH (k + 1)) as (n & Hn & -> & Hfa).
    { assert (length (filter (fun t => (stack_base t <= stack_place (k + 1))%Z) ts) < length (filter (fun t => (stack_base t <= stack_place k)%Z) ts))%nat; [|lia].
      assert (stack_place (k + 1) < stack_place k) as Hlt by (unfold stack_place, STACK_SIZE; lia). clear - Hin Et Hlt.
      assert (forall l, (length (filter (fun t => (stack_base t <= stack_place (k + 1))%Z) l) <= length (filter (fun t => (stack_base t <= stack_place k)%Z) l))%nat) as Hle.
      { induction l as [|u l IHl]; [done|]. rewrite !filter_cons. repeat case_decide; cbn; lia. }
      induction ts as [|u ts IH]; [done|]. rewrite !filter_cons. destruct Hin as [->|Hin].
      - rewrite decide_False, decide_True by lia. cbn. specialize (Hle ts). lia.
      - specialize (IH Hin). repeat case_decide; cbn; lia. }
    exists (n + 1). replace (k + (n + 1)) with (k + 1 + n) by lia. split; [lia|]. done.
  - exists 0. replace (k + 0) with k by lia. split; [lia|]. split; [done|]. apply list.Forall_forall. intros t Hin Et.
    assert (existsb (fun t => stack_place k =? stack_base t) ts = true); [|congruence]. apply existsb_exists. exists t. split; [by apply list_elem_of_In|]. by apply Z.eqb_eq.
Qed.

(** The search for a stack ends, after at most one step per thread, with a place that no
    thread of the process uses, inside of the private memory; stacks at different places do not
    overlap and have an unused page between them. *)
Theorem alloc_stack_correct p : zlen (threads p) <= MAX_TID -> exists k, 0 <= k <= Z.of_nat (length (threads p)) /\ alloc_stack p = Ok (stack_place k) /\
  Forall (fun t => stack_base t <> stack_place k) (threads p) /\ 0 < stack_place k /\ stack_place k + STACK_SIZE <= USER_PRIVATE_END /\
  forall k', k' <> k -> stack_place k + STACK_SIZE + 0x1000 <= stack_place k' \/ stack_place k' + STACK_SIZE + 0x1000 <= stack_place k.
Proof.
  intros Hl. unfold zlen, MAX_TID in Hl. unfold alloc_stack. change (USER_PRIVATE_END - STACK_SIZE) with (stack_place 0).
  destruct (alloc_stack_loop_ok (S (length (threads p))) (threads p) 0) as (k & Hk & -> & Hf).
  { pose proof (length_filter (fun t => (stack_base t <= stack_place 0)%Z) (threads p)). lia. }
  exists k. split; [lia|]. split; [done|]. split; [done|]. unfold stack_place, USER_PRIVATE_END, STACK_SIZE. split; [lia|]. split; [lia|].
  intros k' Hk'. destruct (Z.lt_ge_cases k' k); [left|right]; lia.
Qed.
