(* ===== verification/SchedFutex.v ===== *)
(** * Futexes ([kernel/sched/process.c], [kernel/int/syscall.c], [sleep] of [kernel/lib/time.c])

    The waiters of a process, waking some of them, and the system calls. *)

From S2P Require Import Prelude SchedQueue SchedState Sched SchedSwitch SchedInv SchedWake SchedSelect SchedSystem SchedEvents SchedTheorems.




(** ** The waiters *)

Definition process_futex_push_waiter (i : nat) (uaddr tid : Z) : M () :=
  _ ← assert_disabled;
  update_process i (fun p => set_futex_waiters (futex_waiters p ++ [FutexWaiter uaddr tid]) p).

Definition futex_drop_waiter (k : nat) (fw : list futex_waiter) : list futex_waiter := swap_remove k fw.

(** The loop goes on behind the place that the last waiter was moved to. *)
Fixpoint drop_loop (fuel : nat) (tid : Z) (k : nat) (fw : list futex_waiter) : list futex_waiter :=
  match fuel with
  | O => fw
  | S fuel' =>
      match fw !! k with
      | None => fw
      | Some w => drop_loop fuel' tid (S k) (if fw_tid w =? tid then futex_drop_waiter k fw else fw)
      end
  end.
Definition process_futex_drop_waiter (i : nat) (tid : Z) : M () :=
  _ ← assert_disabled;
  update_process i (fun p => set_futex_waiters (drop_loop (length (futex_waiters p)) tid 0 (futex_waiters p)) p).

(** [woken] are the waiters copied so far; [k] is the index of the loop. *)
Fixpoint futex_wake_loop (fuel i : nat) (uaddr num max_pop : Z) (k : nat) (woken : list futex_waiter) : M (list futex_waiter) :=
  match fuel with
  | O => lift (Err NoFuel)
  | S fuel' =>
      p ← get_process i;
      match futex_waiters p !! k with
      | None => mret woken
      | Some w =>
          if num =? 0 then mret woken
          else if fw_uaddr w =? uaddr then
            _ ← assertM (zlen woken <? max_pop) "j < max_pop";
            thread ← sched_get_thread_by_tid (Some i) (fw_tid w);
            match thread with
            | None => lift (Err (Fault "thread->futex_signaled"))
            | Some j =>
                _ ← update_thread i j (set_futex_signaled true);
                _ ← update_process i (fun p => set_futex_waiters (futex_drop_waiter k (futex_waiters p)) p);
                futex_wake_loop fuel' i uaddr (num - 1) max_pop k (woken ++ [w])
            end
          else futex_wake_loop fuel' i uaddr num max_pop (S k) woken
      end
  end.

(** The lock of the process is released before the threads are woken. *)
Definition process_futex_wake (i : nat) (uaddr num : Z) : M () :=
  _ ← assert_disabled;
  p ← get_process i;
  let num := if num <? 0 then zlen (futex_waiters p) else num in
  let max_pop := Z.min (zlen (futex_waiters p)) num in
  if max_pop =? 0 then release_process i
  else
    waiters ← futex_wake_loop (S (length (futex_waiters p))) i uaddr num max_pop 0 [];
    _ ← release_process i;
    for_each waiters (fun w => res ← sleep_cancel (p_pid p) (fw_tid w); assertM (res =? 0) "!res").

(** ** The system calls *)

(** [sleep] up to the first [sched_block]: the time to wake up, or [None] for the kernel
    process, which yields instead. *)
Definition sleep_begin (now ms : Z) : M (option Z) :=
  _ ← assert_enabled;
  let wakeup := u64 (now + u64 (ms * 1000 * 1000)) in
  pid ← gets current_pid; tid ← gets current_tid;
  if pid =? KERNEL_PID then mret None
  else _ ← _cli; _ ← register_sleeping_thread tid pid wakeup; _ ← _cli; mret (Some wakeup).

(** After each [sched_block]: the result of [sleep], unless it blocks again. *)
Definition sleep_turn (interrupted now wakeup : Z) : option Z :=
  if negb (interrupted =? 0) then Some 1 else if now <? wakeup then None else Some 0.

(** [sc_futex_wait] up to the call of [sleep], for an address that is mapped and holds [held]:
    whether it sleeps; otherwise the result is -1. *)
Definition futex_wait_begin (i : nat) (tid addr held value : Z) : M bool :=
  _ ← _cli; _ ← acquire_process i;
  _ ← when (held =? value) (process_futex_push_waiter i addr tid);
  _ ← release_process i; _ ← _sti; mret (held =? value).

(** From the result of [sleep] on. *)
Definition futex_wait_end (i : nat) (tid res : Z) : M Z :=
  _ ← _cli; _ ← acquire_process i;
  ret ← (if res =? 1 then _ ← process_futex_drop_waiter i tid; mret (-1)
         else if res =? 2 then mret 0
         else _ ← process_futex_drop_waiter i tid; mret (-1));
  _ ← release_process i; _ ← _sti; mret ret.

Definition sc_futex_wake (i : nat) (addr num : Z) : M Z :=
  _ ← _cli; _ ← acquire_process i; _ ← process_futex_wake i addr num; _ ← _sti; mret 0.

(** ** The loop that picks the threads *)

(** The threads whose numbers are in [tids] know that a futex woke them. *)
Definition mark (tids : list Z) (t : thread) : thread := if bool_decide (t_tid t ∈ tids) then set_futex_signaled true t else t.
Definition picked (i : nat) (p : process) (new rest : list futex_waiter) (s : sched) : sched :=
  set_processes (<[i := set_futex_waiters rest (set_threads (mark (fw_tid <$> new) <$> threads p) p)]> (processes s)) s.

Lemma mark_nil (ts : list thread) : mark [] <$> ts = ts.
Proof. induction ts as [|t ts IH]; [done|]. rewrite fmap_cons, IH. unfold mark. by rewrite bool_decide_false by apply not_elem_of_nil. Qed.

Lemma mark_tid tids t : t_tid (mark tids t) = t_tid t.
Proof. unfold mark. by case_bool_decide. Qed.

Lemma mark_tids tids (ts : list thread) : t_tid <$> (mark tids <$> ts) = t_tid <$> ts.
Proof. rewrite <- list_fmap_compose. apply list_fmap_ext. intros ? t _. apply mark_tid. Qed.

Lemma mark_step (ts : list thread) tids j t : NoDup (t_tid <$> ts) -> ts !! j = Some t -> mark tids <$> <[j := set_futex_signaled true t]> ts = mark (t_tid t :: tids) <$> ts.
Proof.
  intros Hn Hj. apply list_eq. intros k. rewrite !list_lookup_fmap. destruct (decide (j = k)) as [<-|Hne].
  - rewrite list_lookup_insert_eq by (by eapply lookup_lt_Some). rewrite Hj. cbn. f_equal. unfold mark. cbn. rewrite (bool_decide_true (t_tid t ∈ t_tid t :: tids)) by left. by case_bool_decide.
  - rewrite list_lookup_insert_ne by done. destruct (ts !! k) as [u|] eqn:Hk; [|done]. cbn. f_equal. unfold mark.
    assert (t_tid u <> t_tid t) as Hu by (intros E; apply Hne; eapply NoDup_lookup; [exact Hn|rewrite list_lookup_fmap, Hj; done|rewrite list_lookup_fmap, Hk; cbn; by rewrite E]).
    erewrite bool_decide_ext; [done|]. rewrite elem_of_cons. naive_solver.
Qed.

Lemma drop_waiter_perm k fw w : fw !! k = Some w -> fw ≡ₚ w :: futex_drop_waiter k fw.
Proof. intros Hk. unfold futex_drop_waiter. rewrite (swap_remove_Permutation _ _ _ Hk). by apply delete_Permutation. Qed.

Lemma drop_waiter_take k fw w : fw !! k = Some w -> take k (futex_drop_waiter k fw) = take k fw.
Proof.
  intros Hk%lookup_lt_Some. unfold futex_drop_waiter, swap_remove. destruct (fw !! (length fw - 1)%nat) as [x|]; [|done].
  rewrite take_take, Nat.min_l by lia. by rewrite take_insert_ge by lia.
Qed.

Lemma futex_wake_loop_ok fuel s i p uaddr num max_pop k woken : processes s !! i = Some p -> p_lock p = true -> NoDup (t_tid <$> threads p) ->
  Forall (fun w => fw_tid w ∈ t_tid <$> threads p) (futex_waiters p) -> 0 <= num -> (length (futex_waiters p) - k < fuel)%nat -> (k <= length (futex_waiters p))%nat ->
  zlen woken + Z.min (zlen (futex_waiters p)) num <= max_pop -> Forall (fun w => fw_uaddr w <> uaddr) (take k (futex_waiters p)) ->
  exists new rest, futex_wake_loop fuel i uaddr num max_pop k woken s = Ok (woken ++ new, picked i p new rest s) /\ new ++ rest ≡ₚ futex_waiters p /\
    Forall (fun w => fw_uaddr w = uaddr) new /\ zlen new <= num /\ (zlen new = num \/ Forall (fun w => fw_uaddr w <> uaddr) rest).
Proof.
  revert s p num k woken. induction fuel as [|fuel IH]; intros s p num k woken Hi Hl Hn Hw Hnum Hf Hk Hm Hpre; [lia|]. cbn [futex_wake_loop]. erewrite bind_Ok by (by apply get_process_ok).
  assert (picked i p [] (futex_waiters p) s = s) as Hid by (unfold picked; cbn; rewrite mark_nil; rewrite list_insert_id; [by destruct s|rewrite Hi; by destruct p]).
  destruct (futex_waiters p !! k) as [w|] eqn:Ek.
  2: { exists [], (futex_waiters p). rewrite app_nil_r, Hid. split; [done|]. split; [done|]. split; [done|]. split; [done|]. right. apply lookup_ge_None in Ek. by rewrite take_ge in Hpre by lia. }
  pose proof (lookup_lt_Some _ _ _ Ek) as Hlt. destruct (Z.eqb_spec num 0) as [->|Hn0].
  { exists [], (futex_waiters p). rewrite app_nil_r, Hid. split; [done|]. split; [done|]. split; [done|]. split; [done|]. by left. }
  destruct (Z.eqb_spec (fw_uaddr w) uaddr) as [Eu|Eu].
  - assert (fw_tid w ∈ t_tid <$> threads p) as (t & Et & [j Hj]%list_elem_of_lookup)%list_elem_of_fmap by (rewrite list.Forall_forall in Hw; apply Hw; by eapply list_elem_of_lookup_2).
    unfold assertM. rewrite (proj2 (Z.ltb_lt _ _)) by (unfold zlen in *; lia). mpure. erewrite bind_Ok by (by eapply sched_get_thread_by_tid_ok). rewrite Et, (find_thread_Some _ _ _ Hn Hj).
    erewrite bind_Ok by (by eapply update_thread_ok). erewrite bind_Ok by (apply update_process_ok; cbn; apply list_lookup_insert_eq; by eapply lookup_lt_Some). cbn [processes set_processes].
    rewrite list_insert_insert_eq. set (p1 := set_futex_waiters (futex_drop_waiter k (futex_waiters p)) (set_threads (<[j := set_futex_signaled true t]> (threads p)) p)).
    pose proof (drop_waiter_perm _ _ _ Ek) as Hperm. pose proof (Permutation_length Hperm) as Hlen. cbn in Hlen.
    assert (t_tid <$> threads p1 = t_tid <$> threads p) as Etids by (cbn; by apply (fmap_insert_same t_tid _ _ t)).
    destruct (IH (set_processes (<[i := p1]> (processes s)) s) p1 (num - 1) k (woken ++ [w])) as (new & rest & E & Hp & Hu & Hz & Hr).
    + cbn. apply list_lookup_insert_eq. by eapply lookup_lt_Some.
    + done.
    + by rewrite Etids.
    + rewrite Etids. cbn. rewrite Hperm in Hw. by apply list.Forall_cons in Hw as [_ ?].
    + lia.
    + cbn. lia.
    + cbn. lia.
    + cbn. unfold zlen in *. rewrite length_app. cbn. lia.
    + cbn. by rewrite (drop_waiter_take _ _ _ Ek).
    + exists (w :: new), rest. split; [|split; [|split; [by constructor|unfold zlen in *; cbn [length]; split; [lia|]; destruct Hr; [left; lia|by right]]]].
      * rewrite <- app_assoc in E. etrans; [exact E|]. do 2 f_equal. unfold picked, p1. cbn. rewrite list_insert_insert_eq, (mark_step _ _ _ _ Hn Hj), Et. by destruct s.
      * cbn. rewrite Hp. by symmetry.
  - apply IH; try (done || lia). erewrite take_S_r by exact Ek. apply list.Forall_app. split; [done|by constructor].
Qed.

(** ** Ending the sleep of the threads *)

Lemma find_sleeping_none pid tid l n o : ~ Exists (fun e => st_pid e = pid /\ st_tid e = tid) l -> find_sleeping pid tid l n o = o.
Proof.
  revert n o. induction l as [|f l IH]; intros n o Hl; [done|]. cbn. rewrite Exists_cons in Hl.
  destruct (Z.eqb_spec (st_pid f) pid), (Z.eqb_spec (st_tid f) tid); cbn; try (apply IH; tauto). tauto.
Qed.

Lemma find_sleeping_found pid tid l i idx : Exists (fun e => st_pid e = pid /\ st_tid e = tid) l ->
  exists k e, find_sleeping pid tid l i idx = Some (i + k)%nat /\ l !! k = Some e /\ st_pid e = pid /\ st_tid e = tid.
Proof.
  revert i idx. induction l as [|e l IH]; intros i idx Hex; [by apply Exists_nil in Hex|]. cbn [find_sleeping].
  destruct (decide (Exists (fun e => st_pid e = pid /\ st_tid e = tid) l)) as [Hl|Hl].
  - destruct (IH (S i) (if (st_pid e =? pid) && (st_tid e =? tid) then Some i else idx) Hl) as (k & e' & -> & ? & ?). exists (S k), e'. split; [f_equal; lia|done].
  - apply Exists_cons in Hex as [[E1 E2]|]; [|done]. rewrite E1, E2, !Z.eqb_refl. exists 0%nat, e. rewrite (find_sleeping_none _ _ _ _ _ Hl), Nat.add_0_r. done.
Qed.

Lemma elem_of_alive x ps : x ∈ alive ps <-> exists i p j t, ps !! i = Some p /\ threads p !! j = Some t /\ x = Td (p_pid p) (t_tid t).
Proof.
  unfold alive, process_alive. rewrite list_elem_of_bind. split.
  - intros (p & (t & -> & [j Hj]%list_elem_of_lookup)%list_elem_of_fmap & [i Hi]%list_elem_of_lookup). by exists i, p, j, t.
  - intros (i & p & j & t & Hi & Hj & ->). exists p. split; [|by eapply list_elem_of_lookup_2]. apply list_elem_of_fmap. exists t. split; [done|by eapply list_elem_of_lookup_2].
Qed.

Definition sleeps (pid tid : Z) (l : list sleeping_thread) : Prop := Exists (fun e => st_pid e = pid /\ st_tid e = tid) l.

Lemma sleep_cancel_wakes {h} s l pid tid : sys_ok h s l None -> sleep_lock s = false -> Td pid tid ∈ alive (processes s) -> sleeps pid tid (sleeping_threads s) ->
  exists s' x, sleep_cancel pid tid s = Ok (0, s') /\ woken s x s' /\ Td pid tid ∉ ids BLOCKED (processes s') /\ interrupts s' = interrupts s /\
    forall tid', tid' <> tid -> sleeps pid tid' (sleeping_threads s) -> sleeps pid tid' (sleeping_threads s').
Proof.
  intros H Hsl (i & p & j & t & Hi & Hj & [= -> ->])%elem_of_alive Hs. destruct (find_sleeping_found (p_pid p) (t_tid t) _ 0 None Hs) as (k & e & Ef & Ek & E1 & E2).
  set (sl := take k (sleeping_threads s) ++ drop (S k) (sleeping_threads s)). set (s1 := set_sleeping_threads sl s).
  assert (woken s [] s1) as Hw1 by (apply woken_sleeping; intros e' [He|He]%elem_of_app; eapply elem_of_submseteq; [exact He|apply submseteq_take|exact He|apply submseteq_drop]).
  pose proof (woken_sys _ _ _ _ _ H Hw1) as H1. rewrite app_nil_r in H1. destruct (sched_unblock_found _ _ _ _ (t_tid t) H1 Hi) as (s2 & x & E & Hw2 & Hie). exists s2, x.
  split; [clear - E Ef Hsl; unfold sleep_cancel, s1, sl in *; clear s1 sl; destruct s; cbn in *; subst; mrun; rewrite Ef; unfold set_sleeping_threads, set_interrupts, set_sleep_lock in *; cbn in *; by rewrite E|].
  split; [by eapply (woken_trans _ [])|]. split; [by eapply unblock_not_blocked|]. split; [by rewrite Hie|]. intros tid' Hne Hex.
  assert (sleeping_threads s2 = sl) as ->.
  { pose proof (sched_unblock_exact _ _ _ _ _ _ H1 Hi Hj) as Hx. case_bool_decide; [destruct Hx as (q & Hx & _)|]; pose proof (eq_trans (eq_sym E) Hx) as [= ->]; done. }
  unfold sleeps, sl in *. rewrite <- (take_drop k (sleeping_threads s)) in Hex. rewrite (drop_S _ e) in Hex by done.
  rewrite !Exists_app, Exists_cons in *. destruct Hex as [?|[[_ ?]|?]]; [by left|congruence|by right].
Qed.

Lemma cancel_all_ok {h} ws s l pid : sys_ok h s l None -> sleep_lock s = false -> NoDup (fw_tid <$> ws) ->
  Forall (fun w => Td pid (fw_tid w) ∈ alive (processes s) /\ sleeps pid (fw_tid w) (sleeping_threads s)) ws ->
  exists s' x, for_each ws (fun w => res ← sleep_cancel pid (fw_tid w); assertM (res =? 0) "!res") s = Ok ((), s') /\ woken s x s' /\ interrupts s' = interrupts s /\
    Forall (fun w => Td pid (fw_tid w) ∉ ids BLOCKED (processes s')) ws.
Proof.
  revert s l. induction ws as [|w ws IH]; intros s l H Hsl Hn Hall; cbn [for_each].
  { exists s, []. split; [done|]. split; [apply woken_refl|]. done. }
  apply list.Forall_cons in Hall as [[Ha Hs] Hall]. rewrite fmap_cons in Hn. apply list.NoDup_cons in Hn as [Hw Hn].
  destruct (sleep_cancel_wakes _ _ _ _ H Hsl Ha Hs) as (s1 & x & E1 & Hw1 & Hb & Hie & Hkeep).
  destruct (IH s1 _ (woken_sys _ _ _ _ _ H Hw1)) as (s2 & y & E2 & Hw2 & Hie2 & Hall2); [by rewrite (woken_sleep_lock _ _ _ Hw1)|done|..].
  { apply list.Forall_forall. intros w' Hw'. rewrite list.Forall_forall in Hall. destruct (Hall _ Hw') as [? ?]. rewrite (woken_alive _ _ _ Hw1). split; [done|]. apply Hkeep; [|done].
    intros Ew. apply Hw. rewrite <- Ew. apply list_elem_of_fmap. by exists w'. }
  exists s2, (x ++ y). split; [erewrite bind_Ok by (erewrite bind_Ok by exact E1; reflexivity); exact E2|]. split; [by eapply woken_trans|]. split; [by rewrite Hie2|].
  constructor; [by eapply woken_not_blocked|done].
Qed.

(** ** Waking *)

(** Each thread waits for at most one futex; the waiting threads are those of the process, and
    they sleep. *)
Record futexes_ok (s : sched) (p : process) : Prop := {
  fx_once : NoDup (fw_tid <$> futex_waiters p);
  fx_threads : Forall (fun w => fw_tid w ∈ t_tid <$> threads p) (futex_waiters p);
  fx_sleep : Forall (fun w => sleeps (p_pid p) (fw_tid w) (sleeping_threads s)) (futex_waiters p) }.

Definition waiting_at (uaddr : Z) (fw : list futex_waiter) : Z := zlen (filter (fun w => fw_uaddr w = uaddr) fw).

Lemma mark_ok p p' tids t : thread_ok p t -> p_pid p' = p_pid p -> ign_mask p' = ign_mask p -> sig_pending p' = sig_pending p -> sig_current p' = sig_current p -> thread_ok p' (mark tids t).
Proof.
  intros [H1 H2 H3 H4 H5 H6 H7] E1 E2 E3 E4. unfold mark. case_bool_decide; split; cbn; unfold signal_room, context_ok, frame in *; cbn; rewrite ?E1, ?E2, ?E3, ?E4; try done.
Qed.

Lemma released_replaces p tids rest : process_ok p -> replaces p (set_p_lock false (set_futex_waiters rest (set_threads (mark tids <$> threads p) p))).
Proof.
  intros [H1 H2 H3 H4 H5 H6 H7 H8]. split; cbn; try done; [|by rewrite length_fmap|].
  - split; cbn; try done.
    + by destruct (threads p).
    + by rewrite mark_tids.
    + apply list.Forall_fmap. eapply list.Forall_impl; [exact H4|]. intros t Ht. by eapply mark_ok.
    + intros Hk. destruct (H8 Hk) as (? & ? & ? & ? & t & -> & Ht). repeat (split; [done|]). exists (mark tids t). split; [done|]. rewrite mark_tid. unfold mark. by case_bool_decide.
  - intros j t'. rewrite list_lookup_fmap. destruct (threads p !! j) as [t|] eqn:Ej; [|done]. intros [= <-]. exists j, t. rewrite mark_tid. split; [done|]. split; [done|]. unfold mark. by case_bool_decide.
Qed.

Lemma released_sys s l i p tids rest : sys_ok [] s l (Some i) -> processes s !! i = Some p ->
  sys_ok [] (set_processes (<[i := set_p_lock false (set_futex_waiters rest (set_threads (mark tids <$> threads p) p))]> (processes s)) s) l None.
Proof.
  intros H Hi. set (p' := set_p_lock false _). pose proof (sys_replace [] s l (Some i) i p p' (pqueue s) (n_ready_threads s) (sleeping_threads s) (interrupts s) l None H Hi) as Hr.
  replace (set_processes _ s) with (upd (<[i := p']> (processes s)) (pqueue s) (n_ready_threads s) (sleeping_threads s) (interrupts s) s) by (by destruct s). apply Hr; try apply H; try done.
  - apply released_replaces. by eapply sys_lookup.
  - rewrite (sys_ready _ _ _ H). unfold ids. symmetry. apply (bind_same _ _ _ p); [done|]. apply (thread_ids_fmap READY (mark tids) p). intros t. rewrite mark_tid. unfold mark. by case_bool_decide.
  - eapply (locks_insert s (Some i) i p); [apply H|done|done|done|done|]. intros k Hk. split; congruence.
Qed.

Lemma waiting_all uaddr ws : Forall (fun w => fw_uaddr w = uaddr) ws -> waiting_at uaddr ws = zlen ws.
Proof. intros H. unfold waiting_at. by rewrite filter_all. Qed.
Lemma waiting_none uaddr ws : Forall (fun w => fw_uaddr w <> uaddr) ws -> waiting_at uaddr ws = 0.
Proof. intros H. unfold waiting_at. by rewrite filter_none. Qed.
Lemma waiting_perm uaddr new rest fw : new ++ rest ≡ₚ fw -> waiting_at uaddr fw = waiting_at uaddr new + waiting_at uaddr rest.
Proof. intros H. unfold waiting_at, zlen. rewrite <- H, list.filter_app, length_app. lia. Qed.
Lemma waiting_bounds uaddr fw : 0 <= waiting_at uaddr fw <= zlen fw.
Proof. unfold waiting_at, zlen. pose proof (length_filter (fun w => fw_uaddr w = uaddr) fw). lia. Qed.

(** Waking a futex takes out of the list as many threads that wait for its address as there
    are, at most the given number and all of them for a negative one; none of them is blocked
    any more and each knows that a futex woke it; the others go on waiting, and the state of
    the scheduler stays consistent. *)
Theorem process_futex_wake_correct s l i p uaddr num : sys_ok [] s l (Some i) -> interrupts s = false -> sleep_lock s = false -> processes s !! i = Some p -> futexes_ok s p ->
  exists s' x p' woken, process_futex_wake i uaddr num s = Ok ((), s') /\ sys_ok [] s' (l ++ x) None /\ processes s' !! i = Some p' /\
    woken ++ futex_waiters p' ≡ₚ futex_waiters p /\ Forall (fun w => fw_uaddr w = uaddr) woken /\
    zlen woken = (if num <? 0 then waiting_at uaddr (futex_waiters p) else Z.min num (waiting_at uaddr (futex_waiters p))) /\
    Forall (fun w => Td (p_pid p) (fw_tid w) ∉ ids BLOCKED (processes s')) woken /\
    Forall (fun t => t_tid t ∈ fw_tid <$> woken -> futex_signaled t = true) (threads p').
Proof.
  intros H Hie Hsl Hi [Hn Hth Hslp]. unfold process_futex_wake. erewrite bind_Ok by (mrun; by rewrite Hie). erewrite bind_Ok by (by apply get_process_ok). cbv zeta.
  set (num' := if num <? 0 then zlen (futex_waiters p) else num). pose proof (waiting_bounds uaddr (futex_waiters p)) as Hwb. pose proof (sys_lookup _ _ _ _ _ H Hi) as Hok.
  assert (0 <= num') as Hnum by (unfold num', zlen; zb). pose proof (lookup_lt_Some _ _ _ Hi) as Hlt.
  assert (forall new rest, new ++ rest ≡ₚ futex_waiters p -> Forall (fun w => fw_uaddr w = uaddr) new -> zlen new <= num' -> (zlen new = num' \/ Forall (fun w => fw_uaddr w <> uaddr) rest) ->
    zlen new = (if num <? 0 then waiting_at uaddr (futex_waiters p) else Z.min num (waiting_at uaddr (futex_waiters p)))) as Hcount.
  { intros new rest Hp Hu Hz Hr. pose proof (waiting_perm uaddr _ _ _ Hp) as Hc. rewrite (waiting_all _ _ Hu) in Hc. pose proof (waiting_bounds uaddr rest).
    destruct Hr as [Hr|Hr%waiting_none]; unfold num' in *; destruct (Z.ltb_spec num 0); lia. }
  destruct (Z.eqb_spec (Z.min (zlen (futex_waiters p)) num') 0) as [E0|E0].
  - rewrite (release_process_ok _ _ _ Hie Hi). pose proof (released_sys s l i p [] (futex_waiters p) H Hi) as H'. rewrite mark_nil in H'.
    replace (set_p_lock false (set_futex_waiters _ _)) with (set_p_lock false p) in H' by (by destruct p).
    eexists _, [], (set_p_lock false p), []. rewrite app_nil_r. split; [done|]. split; [exact H'|]. split; [cbn; by apply list_lookup_insert_eq|]. split; [done|]. split; [done|].
    split; [apply (Hcount [] (futex_waiters p)); try done|]. { destruct (Z.eqb_spec num' 0) as [->|]; [by left|right]. assert (zlen (futex_waiters p) = 0) as Ez by lia. unfold zlen in Ez. destruct (futex_waiters p); [done|cbn in Ez; lia]. }
    split; [done|]. apply list.Forall_forall. intros t _ Ht. by apply elem_of_nil in Ht.
  - destruct (futex_wake_loop_ok (S (length (futex_waiters p))) s i p uaddr num' (Z.min (zlen (futex_waiters p)) num') 0 []) as (new & rest & E & Hp & Hu & Hz & Hr);
      [done|by rewrite (proj2 (sys_locks _ _ _ H) _ _ Hi), bool_decide_true|apply Hok|done|done|lia|lia|unfold zlen; cbn; lia|done|].
    erewrite bind_Ok by exact E. set (p1 := set_futex_waiters rest (set_threads (mark (fw_tid <$> new) <$> threads p) p)).
    erewrite bind_Ok by (apply (release_process_ok _ i p1); [done|cbn; by apply list_lookup_insert_eq]). cbn [picked processes set_processes]. rewrite list_insert_insert_eq.
    pose proof (released_sys s l i p (fw_tid <$> new) rest H Hi) as H2. fold p1 in H2. set (s2 := set_processes (<[i := set_p_lock false p1]> (processes s)) s) in *.
    destruct (cancel_all_ok new s2 l (p_pid p) H2 Hsl) as (s3 & x & E3 & Hw & _ & Hb).
    { rewrite <- Hp, fmap_app in Hn. by apply list.NoDup_app in Hn as (? & _ & _). }
    { rewrite <- Hp in Hth, Hslp. apply list.Forall_app in Hth as [Hth _]. apply list.Forall_app in Hslp as [Hslp _]. rewrite list.Forall_forall in *. intros w Hw'. split; [|by apply Hslp].
      specialize (Hth _ Hw'). cbn in Hth. rewrite <- (mark_tids (fw_tid <$> new)) in Hth. apply list_elem_of_fmap in Hth as (t & -> & [j Hj]%list_elem_of_lookup). apply elem_of_alive.
      exists i, (set_p_lock false p1), j, t. split; [unfold s2; cbn; by apply list_lookup_insert_eq|]. by split. }
    destruct (Forall2_lookup_l _ _ _ i (set_p_lock false p1) (wk_processes _ _ _ Hw)) as (p' & Hi' & (ts & m & -> & Ht & _)); [unfold s2; cbn; by apply list_lookup_insert_eq|].
    eexists s3, x, _, new. split; [exact E3|]. split; [by eapply woken_sys|]. split; [exact Hi'|]. split; [done|]. split; [done|]. split; [by eapply Hcount|]. split; [done|]. cbn.
    apply Forall_lookup_2. intros j t' Hj Hin. destruct (Forall2_lookup_r _ _ _ _ _ Ht Hj) as (u & Hu' & (st & w & e & -> & _)). cbn in Hu', Hin |- *.
    rewrite list_lookup_fmap in Hu'. destruct (threads p !! j) as [t|]; [|done]. injection Hu' as <-. rewrite mark_tid in Hin. unfold mark. by rewrite bool_decide_true.
Qed.

(** ** Waiting *)

Lemma drop_loop_none fuel tid k fw : Forall (fun w => fw_tid w <> tid) (drop k fw) -> drop_loop fuel tid k fw = fw.
Proof.
  revert k. induction fuel as [|fuel IH]; intros k H; [done|]. cbn. destruct (fw !! k) as [w|] eqn:Ek; [|done]. rewrite (drop_S _ _ _ Ek) in H. apply list.Forall_cons in H as [Hw H].
  rewrite (proj2 (Z.eqb_neq _ _) Hw). by apply IH.
Qed.

(** Where each thread waits at most once, a thread that stops to wait leaves the list, and only
    this thread. *)
Lemma drop_loop_ok fuel tid k fw : NoDup (fw_tid <$> fw) -> (length fw - k <= fuel)%nat -> Forall (fun w => fw_tid w <> tid) (take k fw) ->
  drop_loop fuel tid k fw ≡ₚ filter (fun w => fw_tid w <> tid) fw.
Proof.
  revert k. induction fuel as [|fuel IH]; intros k Hn Hf Hk.
  { cbn. rewrite take_ge in Hk by lia. by rewrite filter_all. }
  cbn. destruct (fw !! k) as [w|] eqn:Ek.
  2: { apply lookup_ge_None in Ek. rewrite take_ge in Hk by lia. by rewrite filter_all. }
  destruct (Z.eqb_spec (fw_tid w) tid) as [E|E].
  - pose proof (drop_waiter_perm _ _ _ Ek) as Hp. assert (Forall (fun w => fw_tid w <> tid) (futex_drop_waiter k fw)) as Hrest.
    { rewrite Hp in Hn. cbn in Hn. apply list.NoDup_cons in Hn as [Hw _]. apply list.Forall_forall. intros v Hv Ev. apply Hw. apply list_elem_of_fmap. exists v. split; [congruence|done]. }
    rewrite drop_loop_none by (by apply Forall_drop). transitivity (filter (fun w => fw_tid w <> tid) (w :: futex_drop_waiter k fw)); [|by rewrite <- Hp].
    rewrite filter_cons, decide_False by (intros Hne; by apply Hne). by rewrite filter_all.
  - apply IH; [done|lia|]. erewrite take_S_r by exact Ek. apply list.Forall_app. split; [done|by constructor].
Qed.

(** Whatever ends the sleep of a thread that waits for a futex, the system call returns -1,
    also when the futex woke it: [sleep] never returns the 2 that stands for it. *)
Theorem futex_wait_never_succeeds s i p tid interrupted now wakeup r : processes s !! i = Some p -> p_lock p = false -> sleep_turn interrupted now wakeup = Some r ->
  exists s', futex_wait_end i tid r s = Ok (-1, s') /\ interrupts s' = true.
Proof.
  intros Hi Hl Hr. assert (r = 0 \/ r = 1) as Hr01 by (unfold sleep_turn in Hr; destruct (interrupted =? 0), (now <? wakeup); cbn in Hr; try discriminate Hr; injection Hr; lia).
  pose proof (lookup_lt_Some _ _ _ Hi) as Hlt. unfold futex_wait_end. mpure. set (s0 := set_interrupts false s).
  erewrite (bind_Ok _ _ _ () (locked i p s)) by (unfold acquire_process; erewrite bind_Ok by (mrun; done); erewrite bind_Ok by (by apply get_process_ok); by rewrite Hl).
  set (p1 := set_futex_waiters (drop_loop (length (futex_waiters p)) tid 0 (futex_waiters p)) (set_p_lock true p)).
  erewrite (bind_Ok _ _ _ (-1) (set_processes (<[i := p1]> (processes (locked i p s))) (locked i p s))).
  2: { destruct Hr01 as [-> | ->]; cbn [Z.eqb Pos.eqb]; (erewrite bind_Ok; [|unfold process_futex_drop_waiter; erewrite bind_Ok by (mrun; done); apply update_process_ok; by apply locked_lookup]); done. }
  erewrite bind_Ok by (apply (release_process_ok _ i p1); [done|cbn; apply list_lookup_insert_eq; by rewrite length_insert]). mpure. by eexists.
Qed.

(** The thread that is woken before it sleeps stops the kernel: between [futex_wait_begin] and
    [sleep] the interrupts are enabled, and the waiter is in the list. *)
Theorem futex_wake_early_panics s i p uaddr w j t : interrupts s = false -> sleep_lock s = false -> processes s !! i = Some p -> p_lock p = true -> futex_waiters p = [w] -> fw_uaddr w = uaddr ->
  threads p !! j = Some t -> t_tid t = fw_tid w -> NoDup (t_tid <$> threads p) -> ~ sleeps (p_pid p) (fw_tid w) (sleeping_threads s) ->
  process_futex_wake i uaddr 1 s = Err (Panic "!res").
Proof.
  intros Hie Hsl Hi Hl Hf Hu Hj Et Hn Hns. pose proof (lookup_lt_Some _ _ _ Hi) as Hlt. unfold process_futex_wake. erewrite bind_Ok by (mrun; by rewrite Hie). erewrite bind_Ok by (by apply get_process_ok). cbv zeta.
  rewrite Hf. change (Z.min _ _ =? 0) with false. cbn [Z.ltb Z.compare length futex_wake_loop]. set (p1 := set_futex_waiters [] (set_threads (<[j := set_futex_signaled true t]> (threads p)) p)).
  set (s1 := set_processes (<[i := p1]> (processes s)) s). assert (processes s1 !! i = Some p1) as Hi1 by (unfold s1; cbn; by apply list_lookup_insert_eq).
  erewrite (bind_Ok _ _ _ [w] s1).
  2: { erewrite bind_Ok by (by apply get_process_ok). rewrite Hf. cbn [lookup list_lookup Z.eqb]. rewrite Hu, Z.eqb_refl. mpure. erewrite bind_Ok by (by eapply sched_get_thread_by_tid_ok).
       rewrite <- Et, (find_thread_Some _ _ _ Hn Hj). erewrite bind_Ok by (by eapply update_thread_ok). erewrite bind_Ok by (apply update_process_ok; cbn; by apply list_lookup_insert_eq). cbn [processes set_processes].
       rewrite list_insert_insert_eq. change (futex_waiters (set_threads _ p)) with (futex_waiters p). rewrite Hf. change (set_processes _ (set_processes _ s)) with s1. by erewrite bind_Ok by (by apply get_process_ok). }
  erewrite bind_Ok by (by apply release_process_ok). cbn [for_each]. unfold mbind at 1, M_bind at 1. erewrite bind_Ok by (apply sleep_cancel_missing; [done|by apply find_sleeping_none]). done.
Qed.

(** * The theorems about the scheduler on concrete states *)





(** ** A kernel thread and a program *)

Definition demo_regs (pid : Z) (u : bool) : gp_regs :=
  if u || (pid =? KERNEL_PID) then GpRegs 0 [] 0x1000 KERNEL_CS 0x202 0x9000 KERNEL_DS else GpRegs 0 [] 0x1000 USER_CS USER_RF 0x7000 USER_DS.
Definition demo_thread (pid : Z) (st : tstate) (u : bool) : thread :=
  Thread pid 1 0x6000 0x1000 0x100000 KERNEL_THREAD_STACK_SIZE 0x101000 {[0x101000 := demo_regs pid u]} st false u false 0 false false.
Definition demo_kernel (st : tstate) : process := Process 0 0 0 0 [demo_thread 0 st false] false 0 ALL_SIGNALS 0 0 NOSIG 0 [].
Definition demo_user (st : tstate) (u lock : bool) (pending current context : Z) : process :=
  Process 1 0 0x2000 0x3000 [demo_thread 1 st u] lock 0x4000 0 0 pending current context [].
Definition demo_queue (l : list td) : priority_queue := PQueue (take 3 (l ++ replicate 3 (Td 0 0))) 0 (zlen l) 3.
Definition demo (kernel user : process) (l : list td) (sl : list sleeping_thread) (irq ie : bool) : sched :=
  Sched [kernel; user] [] (demo_queue l) (zlen l) sl 0 1 irq 0 true false false false ie 0 0 0 0 [] 0.

Lemma demo_thread_ok p pid st u : p_pid p = pid -> ign_mask p = ALL_SIGNALS /\ sig_pending p = 0 \/ pid <> KERNEL_PID -> thread_ok p (demo_thread pid st u).
Proof.
  intros <- Hr. split; try done; cbn.
  - intros _. unfold context_ok, frame. cbn. unfold demo_regs. by destruct (u || _).
  - intros _. destruct Hr as [Hr|Hr]; [by left|]. right. right. destruct u; [by left|right]. unfold frame. cbn. unfold demo_regs. rewrite (proj2 (Z.eqb_neq _ _) Hr). done.
Qed.

Lemma demo_kernel_ok st : st <> BLOCKED -> process_ok (demo_kernel st).
Proof. intros Hst. split; try done; cbn; [by apply NoDup_singleton|constructor; [apply demo_thread_ok; [done|by left]|done]|]. intros _. repeat (split; [done|]). by eexists. Qed.

Lemma demo_user_ok st u lock pending current context : 0 <= pending < 2 ^ 32 -> (current = NOSIG <-> context = 0) -> process_ok (demo_user st u lock pending current context).
Proof. intros Hp Hc. split; try done; cbn; [by apply NoDup_singleton|]. constructor; [apply demo_thread_ok; [done|by right]|done]. Qed.

Lemma demo_queue_holds l : (length l <= 2)%nat -> pq_holds (demo_queue l) l.
Proof. intros Hl. destruct l as [|x [|y [|z l]]]; cbn in Hl; [..|lia]; split; try done; cbn; try lia; intros [|[|i]] w Hw; try discriminate Hw; vm_compute in Hw |- *; congruence. Qed.

Lemma demo_sys kst user h l sl irq ie : kst <> BLOCKED -> process_ok user -> p_pid user = 1 -> private_pd user = 0x2000 -> shared_pd user = 0x3000 -> (length (threads user) <= 5)%nat ->
  (length l <= 2)%nat -> h ++ l ≡ₚ ids READY [demo_kernel kst; user] -> sleeping_ok [demo_kernel kst; user] sl ->
  sys_ok h (demo (demo_kernel kst) user l sl irq ie) l (if p_lock user then Some 1%nat else None).
Proof.
  intros Hk Hu Epid Epr Esh Ht Hl Hr Hs. split; cbn [demo processes pqueue n_ready_threads sleeping_threads]; try done.
  - cbn. rewrite Epid. repeat constructor; set_solver.
  - constructor; [by apply demo_kernel_ok|by constructor].
  - by exists 0%nat, (demo_kernel kst).
  - by apply demo_queue_holds.
  - unfold total_threads, MAX_THREADS. cbn. lia.
  - unfold maps_ok, known. cbn. rewrite Epr, Esh. repeat split; try (repeat constructor; set_solver); by left.
  - split; [done|]. intros [|[|i]] p; cbn; [| |done]; intros [= <-]; destruct (p_lock user); by case_bool_decide.
Qed.

(** ** Running, and inside of an interrupt *)

(** The kernel thread runs and the program is ready. *)
Definition demo_running : sched := demo (demo_kernel RUNNING) (demo_user READY false false 0 NOSIG 0) [Td 1 1] [] false true.

Lemma demo_running_ok : thread_mode demo_running [Td 1 1].
Proof.
  split; try done.
  - apply (demo_sys RUNNING (demo_user READY false false 0 NOSIG 0) [] [Td 1 1] [] false true); try done; [by apply demo_user_ok|cbn; lia|cbn; lia|]. intros e i p j t He. by apply elem_of_nil in He.
  - intros [|[|i]] p; cbn; [by intros [= <-]|by intros [= <-]|done].
Qed.

Lemma demo_trap : event_ok demo_running (Yield 0x101000 (demo_regs 0 false)).
Proof.
  split; [done|]. intros i j p t (Hi & Hj & Hst & Ep & Et). destruct i as [|[|i]]; cbn in Hi; [|injection Hi as <-; done|done]. injection Hi as <-.
  destruct j as [|j]; cbn in Hj; [|done]. injection Hj as <-. split; [done|]. split; [done|]. split; [done|]. right. by left.
Qed.


(** After the yield. *)
Definition demo_yielded : sched := match exec (Yield 0x101000 (demo_regs 0 false)) demo_running with Ok (_, s) => s | Err _ => demo_running end.

Lemma demo_run : run demo_running [(Yield 0x101000 (demo_regs 0 false), demo_yielded)].
Proof. constructor; [exact demo_trap|vm_compute; reflexivity|constructor]. Qed.

Lemma demo_alive : Forall (fun es => Td 1 1 ∈ alive (processes es.2)) [(Yield 0x101000 (demo_regs 0 false), demo_yielded)].
Proof. constructor; [|done]. replace (alive _) with [Td 0 1; Td 1 1] by (vm_compute; reflexivity). set_solver. Qed.

Lemma round_robin_witness : Exists (fun es => Td (current_pid es.2) (current_tid es.2) = Td 1 1) [(Yield 0x101000 (demo_regs 0 false), demo_yielded)].
Proof. exact (round_robin demo_running [(Yield 0x101000 (demo_regs 0 false), demo_yielded)] [] (Td 1 1) [] demo_running_ok demo_run demo_alive ltac:(vm_compute; lia)). Defined.

Lemma demo_irq user h l sl : process_ok user -> p_pid user = 1 -> private_pd user = 0x2000 -> shared_pd user = 0x3000 -> (length (threads user) <= 5)%nat ->
  (length l <= 2)%nat -> h ++ l ≡ₚ ids READY [demo_kernel READY; user] -> sleeping_ok [demo_kernel READY; user] sl -> ids RUNNING [demo_kernel READY; user] = [] ->
  irq_mode h (if p_lock user then Some 1%nat else None) (demo (demo_kernel READY) user l sl true false) l.
Proof.
  intros. split; try done; [by apply demo_sys|]. intros [|[|i]] p; cbn; [intros [= <-] _; by left|intros [= <-] E; congruence|done].
Qed.

(** The program sleeps in a system call. *)
Definition demo_sleeping : sched := demo (demo_kernel READY) (demo_user BLOCKED true false 0 NOSIG 0) [Td 0 1] [SleepingThread 1 1 5; SleepingThread 2 1 20] true false.

Lemma demo_sleeping_ok : irq_mode [] None demo_sleeping [Td 0 1].
Proof.
  apply (demo_irq (demo_user BLOCKED true false 0 NOSIG 0) [] [Td 0 1]); try done; [by apply demo_user_ok|cbn; lia|cbn; lia|].
  intros e [|[|i]] p [|j] t He Hi Hj E1 E2; cbn in *; try done; injection Hi as <-; cbn in Hj; try done; injection Hj as <-; [|done].
  apply elem_of_cons in He as [->|He]; [done|]. apply list_elem_of_singleton in He as ->. done.
Qed.

Lemma demo_sorted : sorted_by_time (sleeping_threads demo_sleeping).
Proof. repeat constructor. unfold earlier. cbn. lia. Qed.

Lemma wakeup_threads_witness : exists s' x, wakeup_threads 10 demo_sleeping = Ok ((), s') /\ irq_mode [] None s' ([Td 0 1] ++ x) /\
    sleeping_threads s' = filter (fun e => ~ wakeup_time e < 10) (sleeping_threads demo_sleeping) /\
    forall e, e ∈ sleeping_threads demo_sleeping -> wakeup_time e < 10 -> Td (st_pid e) (st_tid e) ∉ ids BLOCKED (processes s').
Proof. exact (wakeup_threads_correct demo_sleeping [Td 0 1] 10 demo_sleeping_ok demo_sorted). Defined.

(** ** Signals *)

(** The program was selected, and the signal 3 is pending. *)
Definition demo_pending : process := demo_user READY false true 8 NOSIG 0.
Definition demo_signal : sched := demo (demo_kernel READY) demo_pending [Td 0 1] [] true false.

Lemma demo_signal_ok : irq_mode [Td 1 1] (Some 1%nat) demo_signal [Td 0 1].
Proof.
  apply (demo_irq demo_pending [Td 1 1] [Td 0 1]); try done; [by apply demo_user_ok|cbn; lia|cbn; lia|apply Permutation_swap|].
  intros e i p j t He. by apply elem_of_nil in He.
Qed.

Lemma demo_deliverable : deliverable demo_pending (demo_thread 1 READY false) 3.
Proof. by split. Qed.

Lemma signal_roundtrip_witness : exists s1 p1 t1, prepare_process_signal 1 3 demo_signal = Ok (0, s1) /\ processes s1 !! 1%nat = Some p1 /\ threads p1 !! 0%nat = Some t1 /\
    t_state t1 = READY /\ frame t1 (t_rsp t1) = handler_frame demo_pending (demo_thread 1 READY false) 3 /\ Z.testbit (sig_pending p1) 3 = false.
Proof.
  destruct (signal_roundtrip [Td 1 1] demo_signal [Td 0 1] 1 demo_pending (demo_thread 1 READY false) 3 demo_signal_ok eq_refl demo_deliverable ltac:(discriminate) eq_refl)
    as (s1 & p1 & t1 & H1 & H2 & H3 & H4 & H5 & H6 & _).
  exact (ex_intro _ s1 (ex_intro _ p1 (ex_intro _ t1 (conj H1 (conj H2 (conj H3 (conj H4 (conj H5 H6)))))))).
Defined.

(** The program was selected while its handler runs. *)
Definition demo_handling : process := demo_user READY false true 0 3 0x101000.

Lemma demo_handling_ok : irq_mode [Td (p_pid demo_handling) (t_tid (demo_thread 1 READY false))] (Some 1%nat) (demo (demo_kernel READY) demo_handling [Td 0 1] [] true false) [Td 0 1].
Proof.
  apply (demo_irq demo_handling [Td 1 1] [Td 0 1]); try done; [by apply demo_user_ok|cbn; lia|cbn; lia|apply Permutation_swap|].
  intros e i p j t He. by apply elem_of_nil in He.
Qed.

Lemma demo_handling_ready : ready_at (demo (demo_kernel READY) demo_handling [Td 0 1] [] true false) 1 0 demo_handling (demo_thread 1 READY false).
Proof. done. Qed.

Lemma signal_shares_kernel_stack_witness : exists s', (_ ← map_selected 1; dispatch 1 0) (demo (demo_kernel READY) demo_handling [Td 0 1] [] true false) = Ok ((), s') /\
    current_pid s' = p_pid demo_handling /\ current_tid s' = 1 /\ syscall_stack s' = 0x101000.
Proof.
  exact (signal_shares_kernel_stack (demo (demo_kernel READY) demo_handling [Td 0 1] [] true false) [Td 0 1] 1 0 demo_handling (demo_thread 1 READY false)
    demo_handling_ok demo_handling_ready ltac:(discriminate)).
Defined.

(** ** The ready queue and new threads *)

Lemma ready_queue_refines_witness : queue_run [Push (Td 0 1); Push (Td 1 1); Push (Td 1 2); Pop; Push (Td 2 1); Pop] (init_pqueue [Td 9 9; Td 9 9; Td 9 9]) =
  fifo_run [Push (Td 0 1); Push (Td 1 1); Push (Td 1 2); Pop; Push (Td 2 1); Pop] [].
Proof. exact (ready_queue_refines [Td 9 9; Td 9 9; Td 9 9] [Push (Td 0 1); Push (Td 1 1); Push (Td 1 2); Pop; Push (Td 2 1); Pop] eq_refl ltac:(vm_compute; reflexivity)). Defined.

Lemma alloc_tid_fresh_witness : 0 < alloc_tid demo_pending <= MAX_TID /\ alloc_tid demo_pending ∉ t_tid <$> threads demo_pending.
Proof. exact (alloc_tid_fresh demo_pending ltac:(repeat constructor)). Defined.

Lemma alloc_stack_witness : exists k, 0 <= k <= 1 /\ alloc_stack demo_pending = Ok (stack_place k) /\
  Forall (fun t => stack_base t <> stack_place k) (threads demo_pending) /\ 0 < stack_place k /\ stack_place k + STACK_SIZE <= USER_PRIVATE_END /\
  forall k', k' <> k -> stack_place k + STACK_SIZE + 0x1000 <= stack_place k' \/ stack_place k' + STACK_SIZE + 0x1000 <= stack_place k.
Proof. exact (alloc_stack_correct demo_pending ltac:(vm_compute; discriminate)). Defined.

(** ** Futexes *)

(** The program calls the kernel, and its second thread sleeps on the futex at 0x7000. *)
Definition demo_waiting_thread : thread :=
  Thread 1 2 0x8000 0x1000 0x200000 KERNEL_THREAD_STACK_SIZE 0x201000 {[0x201000 := demo_regs 1 true]} BLOCKED false true false 0 false false.
Definition demo_waiting : process := Process 1 0 0x2000 0x3000 [demo_thread 1 READY true; demo_waiting_thread] true 0x4000 0 0 0 NOSIG 0 [FutexWaiter 0x7000 2].
Definition demo_futex : sched := demo (demo_kernel READY) demo_waiting [Td 0 1; Td 1 1] [SleepingThread 2 1 50] true false.

Lemma demo_futex_sys : sys_ok [] demo_futex [Td 0 1; Td 1 1] (Some 1%nat).
Proof.
  apply (demo_sys READY demo_waiting [] [Td 0 1; Td 1 1] [SleepingThread 2 1 50] true false); try done; try (cbn; lia).
  - split; try done; cbn; [repeat constructor; set_solver|]. constructor; [apply demo_thread_ok; [done|by right]|]. constructor; [|done]. split; try done. cbn. intros _. right. right. by left.
  - intros e [|[|i]] p j t ->%list_elem_of_singleton Hi Hj E1 E2; cbn in *; try done; injection Hi as <-; cbn in *; [done|].
    destruct j as [|[|j]]; cbn in Hj; try done; injection Hj as <-; done.
Qed.

Lemma demo_futexes : futexes_ok demo_futex demo_waiting.
Proof. split; cbn; [apply NoDup_singleton|repeat constructor; set_solver|repeat constructor]. Qed.

Lemma process_futex_wake_witness : exists s' x p' woken, process_futex_wake 1 0x7000 (-1) demo_futex = Ok ((), s') /\ sys_ok [] s' ([Td 0 1; Td 1 1] ++ x) None /\ processes s' !! 1%nat = Some p' /\
    woken ++ futex_waiters p' ≡ₚ futex_waiters demo_waiting /\ Forall (fun w => fw_uaddr w = 0x7000) woken /\
    zlen woken = waiting_at 0x7000 (futex_waiters demo_waiting) /\
    Forall (fun w => Td 1 (fw_tid w) ∉ ids BLOCKED (processes s')) woken /\
    Forall (fun t => t_tid t ∈ fw_tid <$> woken -> futex_signaled t = true) (threads p').
Proof. exact (process_futex_wake_correct demo_futex [Td 0 1; Td 1 1] 1 demo_waiting 0x7000 (-1) demo_futex_sys eq_refl eq_refl eq_refl demo_futexes). Defined.

Lemma futex_wait_witness : exists s', futex_wait_end 1 1 1 demo_running = Ok (-1, s') /\ interrupts s' = true.
Proof. exact (futex_wait_never_succeeds demo_running 1 (demo_user READY false false 0 NOSIG 0) 1 2 0 10 1 eq_refl eq_refl eq_refl). Defined.
