(* ===== verification/Mutex.v ===== *)
(** * Mutexes of the C library ([blibc/src/pthread_mutex.c])

    The threads of a process run [pthread_mutex_lock], [pthread_mutex_trylock] and
    [pthread_mutex_unlock] on one mutex.  Every access to the memory of the mutex is a step of
    its own, and the steps of the threads interleave in any order.  A thread calls unlock only
    while it holds the mutex; the rest of its program does not touch it. *)

From S2P Require Import Prelude.




Definition PTHREAD_MUTEX_DEFAULT : Z := 0.
Definition PTHREAD_MUTEX_RECURSIVE : Z := 1.
Definition EBUSY : Z := 16.
Definition EINVAL : Z := 22.
Definition ENOTSUP : Z := 45.
Definition INT_MAX : Z := 2 ^ 31 - 1.

(** [pthread_mutex_t] *)
Record mutex := Mutex { mtaken : Z; mtype : Z; mowner : Z; mrec : Z }.

(** The result and the mutex; [mutexattr] is the type of the attributes, if there are any. *)
Definition pthread_mutex_init (m : mutex) (mutexattr : option Z) : Z * mutex :=
  match mutexattr with
  | None => (0, Mutex 0 PTHREAD_MUTEX_DEFAULT 0 0)
  | Some type =>
      if (type =? PTHREAD_MUTEX_DEFAULT) || (type =? PTHREAD_MUTEX_RECURSIVE) then (0, Mutex 0 type 0 0)
      else (EINVAL, m)
  end.
Definition pthread_mutex_destroy (m : mutex) : Z := 0.

(** ** Attributes: the result, and the type in the attributes *)

(** [attr] is [None] for a null pointer. *)
Definition pthread_mutexattr_init (attr : option Z) : Z * option Z :=
  match attr with None => (EINVAL, None) | Some _ => (0, Some PTHREAD_MUTEX_DEFAULT) end.
Definition pthread_mutexattr_settype (attr type : Z) : Z * Z :=
  if (type =? PTHREAD_MUTEX_DEFAULT) || (type =? PTHREAD_MUTEX_RECURSIVE) then (0, type) else (EINVAL, attr).
Definition pthread_mutexattr_gettype (attr : Z) : Z * Z := (0, attr).
Definition pthread_mutexattr_getpshared (attr : Z) : Z * Z := (0, 0).
Definition pthread_mutexattr_setpshared (pshared : Z) : Z := if pshared =? 0 then 0 else if pshared =? 1 then ENOTSUP else EINVAL.
Definition pthread_mutexattr_getprotocol (attr : Z) : Z * Z := (0, 0).
Definition pthread_mutexattr_setprotocol (protocol : Z) : Z :=
  if protocol =? 0 then 0 else if protocol =? 1 then ENOTSUP else if protocol =? 2 then ENOTSUP else EINVAL.
Definition pthread_mutexattr_getprioceiling (attr : Z) : Z * Z := (0, 0).
Definition pthread_mutexattr_setprioceiling (prioceiling : Z) : Z := if prioceiling =? 0 then 0 else EINVAL.
Definition pthread_mutexattr_setrobust (robustness : Z) : Z := if robustness =? 0 then 0 else if robustness =? 1 then ENOTSUP else EINVAL.
Definition pthread_mutexattr_getrobust (attr : Z) : Z * Z := (0, 0).

(** ** Threads *)

(** Where a thread is.  [try] tells [pthread_mutex_trylock] from [pthread_mutex_lock]; a number
    is what the thread has read of [rec]. *)
Inductive place :=
  | Running                    (* not in the library *)
  | LockTest (try : bool)      (* mutex->type == PTHREAD_MUTEX_RECURSIVE && mutex->owner == _get_tid() *)
  | LockLoad                   (* mutex->rec++: the load *)
  | LockStore (v : Z)          (* and the store *)
  | LockSwap (try : bool)      (* __sync_bool_compare_and_swap(taken, 0, 1) *)
  | LockSleep                  (* sleep(0) *)
  | LockOwner                  (* mutex->owner = _get_tid() *)
  | LockRec                    (* mutex->rec = 1 *)
  | UnlockLoad                 (* mutex->rec--: the load *)
  | UnlockStore (v : Z)        (* and the store *)
  | UnlockTest                 (* if(!mutex->rec) *)
  | UnlockOwner                (* mutex->owner = 0 *)
  | UnlockTaken.               (* mutex->taken = 0 *)

(** [held]: how many calls of lock and trylock have returned 0, less the calls of unlock that
    have returned. [answer]: the result of the last call. *)
Record mthread := MThread { at_ : place; held : Z; answer : Z }.
Record mstate := MState { the_mutex : mutex; mthreads : gmap Z mthread }.

Inductive call := CallLock | CallTrylock | CallUnlock.

Definition is_rec (m : mutex) : bool := mtype m =? PTHREAD_MUTEX_RECURSIVE.
Definition set_taken (m : mutex) (x : Z) : mutex := Mutex x (mtype m) (mowner m) (mrec m).
Definition set_owner (m : mutex) (x : Z) : mutex := Mutex (mtaken m) (mtype m) x (mrec m).
Definition set_rec (m : mutex) (x : Z) : mutex := Mutex (mtaken m) (mtype m) (mowner m) x.

(** One step of the thread [tid]: what it and the mutex become.  [None]: the step is not
    defined, an unlock of a mutex that is not held or the overflow of [rec]. *)
Definition thread_step (tid : Z) (c : call) (m : mutex) (th : mthread) : option (mutex * mthread) :=
  let go m p := Some (m, MThread p (held th) (answer th)) in
  let locked m := Some (m, MThread Running (held th + 1) 0) in
  let unlocked m := Some (m, MThread Running (held th - 1) 0) in
  match at_ th with
  | Running =>
      match c with
      | CallLock => go m (LockTest false)
      | CallTrylock => go m (LockTest true)
      | CallUnlock => if held th =? 0 then None else if is_rec m then go m UnlockLoad else go m UnlockTaken
      end
  | LockTest try => if is_rec m && (mowner m =? tid) then go m LockLoad else go m (LockSwap try)
  | LockLoad => go m (LockStore (mrec m))
  | LockStore v => if v =? INT_MAX then None else locked (set_rec m (v + 1))
  | LockSwap try =>
      if mtaken m =? 0 then if is_rec m then go (set_taken m 1) LockOwner else locked (set_taken m 1)
      else if try then Some (m, MThread Running (held th) EBUSY) else go m LockSleep
  | LockSleep => go m (LockSwap false)
  | LockOwner => go (set_owner m tid) LockRec
  | LockRec => locked (set_rec m 1)
  | UnlockLoad => go m (UnlockStore (mrec m))
  | UnlockStore v => go (set_rec m (v - 1)) UnlockTest
  | UnlockTest => if mrec m =? 0 then go m UnlockOwner else unlocked m
  | UnlockOwner => go (set_owner m 0) UnlockTaken
  | UnlockTaken => unlocked (set_taken m 0)
  end.

Definition mutex_step (s : mstate) (e : Z * call) : option mstate :=
  th ← mthreads s !! e.1;
  '(m, th) ← thread_step e.1 e.2 (the_mutex s) th;
  Some (MState m (<[e.1 := th]> (mthreads s))).

(** The steps of a schedule, in its order. *)
Fixpoint mutex_run (s : mstate) (es : list (Z * call)) : option mstate :=
  match es with [] => Some s | e :: es => s ← mutex_step s e; mutex_run s es end.

(** The threads [tids] around a mutex that was just initialised. *)
Definition mutex_start (type : Z) (tids : list Z) : mstate :=
  MState (pthread_mutex_init (Mutex 0 0 0 0) (Some type)).2 (list_to_map ((fun t => (t, MThread Running 0 0)) <$> tids)).

(** ** The invariant *)

(** Whether the thread has taken the mutex. *)
Definition possesses (th : mthread) : bool :=
  (0 <? held th) || match at_ th with LockOwner | LockRec => true | _ => false end.

(** What a thread relies on. *)
Definition mthread_ok (m : mutex) (t : Z) (th : mthread) : Prop :=
  0 <= held th /\
  match at_ th with
  | Running | LockTest _ =>
      if is_rec m then if 0 <? held th then mowner m = t /\ mrec m = held th else mowner m <> t else held th <= 1
  | LockLoad | UnlockLoad => is_rec m = true /\ 0 < held th /\ mowner m = t /\ mrec m = held th
  | LockStore v | UnlockStore v => is_rec m = true /\ 0 < held th /\ mowner m = t /\ mrec m = held th /\ v = held th
  | LockSwap _ | LockSleep => if is_rec m then held th = 0 /\ mowner m <> t else held th <= 1
  | LockOwner => is_rec m = true /\ held th = 0
  | LockRec => is_rec m = true /\ held th = 0 /\ mowner m = t
  | UnlockTest => is_rec m = true /\ 0 < held th /\ mowner m = t /\ mrec m = held th - 1
  | UnlockOwner => is_rec m = true /\ held th = 1 /\ mowner m = t
  | UnlockTaken => held th = 1 /\ (is_rec m = true -> mowner m <> t)
  end.

Record mutex_ok (s : mstate) : Prop := {
  mo_taken : mtaken (the_mutex s) = 0 \/ mtaken (the_mutex s) = 1;
  mo_tids : mthreads s !! 0 = None;
  mo_threads : forall t th, mthreads s !! t = Some th -> mthread_ok (the_mutex s) t th;
  mo_unique : forall t u th uh, mthreads s !! t = Some th -> mthreads s !! u = Some uh -> possesses th = true -> possesses uh = true -> t = u;
  mo_free : mtaken (the_mutex s) = 0 <-> forall t th, mthreads s !! t = Some th -> possesses th = false }.

(** A thread that does not possess the mutex does not depend on [taken] and [rec], and on
    [owner] only in that it is not its number. *)
Lemma thread_ok_other m m' t th : mthread_ok m t th -> possesses th = false -> mtype m' = mtype m -> (mowner m' = mowner m \/ mowner m' <> t) -> mthread_ok m' t th.
Proof.
  intros [H0 Hok] Hp Ht Ho. split; [done|]. assert (held th = 0) as Hh by (unfold possesses in Hp; lia). assert (is_rec m' = is_rec m) as Er by (unfold is_rec; by rewrite Ht).
  unfold possesses in Hp. destruct (at_ th); rewrite ?Er, ?Hh in *; cbn in *; try done; destruct (is_rec m); intuition (congruence || lia).
Qed.

(** A step of one thread that keeps the type and gives [owner] no other number. *)
Lemma mutex_ok_step s t th m' th' : mutex_ok s -> mthreads s !! t = Some th -> mthread_ok m' t th' -> mtype m' = mtype (the_mutex s) ->
  (possesses th = false -> possesses th' = true -> mtaken (the_mutex s) = 0) ->
  (m' = the_mutex s \/ (possesses th || (mtaken (the_mutex s) =? 0)) = true /\ (mowner m' = mowner (the_mutex s) \/ mowner m' = t \/ mowner m' = 0)) ->
  mtaken m' = (if possesses th' then 1 else if possesses th then 0 else mtaken (the_mutex s)) ->
  mutex_ok (MState m' (<[t := th']> (mthreads s))).
Proof.
  intros [Htk Hid Hth Hun Hfr] Ht Hok' Hty Hacq Hm Htk'. assert (t <> 0) as Ht0 by (intros ->; congruence).
  assert (forall u uh, mthreads s !! u = Some uh -> u <> t -> possesses th = true \/ mtaken (the_mutex s) = 0 -> possesses uh = false) as Hothers.
  { intros u uh Hu Hne [Hp|H0]; [|by apply (proj1 Hfr H0 u)]. destruct (possesses uh) eqn:E; [|done]. by destruct (Hne (Hun _ _ _ _ Hu Ht E Hp)). }
  constructor; cbn.
  - rewrite Htk'. destruct (possesses th'), (possesses th); auto.
  - by rewrite lookup_insert_ne.
  - intros u uh [[<- <-]|[Hne Hu]]%lookup_insert_Some; [done|]. destruct Hm as [-> |[Hp Ho]]; [by apply Hth|].
    assert (possesses uh = false) as Hpu by (apply (Hothers u); [done..|]; destruct (possesses th); [by left|right; lia]).
    apply (thread_ok_other (the_mutex s)); [by apply Hth|done|done|]. destruct Ho as [?|[->| ->]]; [by left|by right; congruence|]. right. intros <-. congruence.
  - assert (forall u uh, mthreads s !! u = Some uh -> u <> t -> possesses th' = true -> possesses uh = true -> False) as Hex.
    { intros u uh Hu Hne Hp' Hpu. rewrite (Hothers u uh Hu Hne) in Hpu; [done|]. destruct (possesses th) eqn:E; [by left|right; by apply Hacq]. }
    intros u v uh vh [[<- <-]|[Hu1 Hu2]]%lookup_insert_Some [[<- <-]|[Hv1 Hv2]]%lookup_insert_Some Hp Hq; [done|exfalso; eapply Hex; eauto..|by eapply Hun].
  - rewrite Htk'. destruct (possesses th') eqn:Ep'; [|destruct (possesses th) eqn:Ep].
    + split; [done|]. intros Hall. specialize (Hall t th'). rewrite lookup_insert_eq in Hall. specialize (Hall eq_refl). congruence.
    + split; [intros _|done]. intros u uh [[<- <-]|[Hne Hu]]%lookup_insert_Some; [done|]. apply (Hothers u); auto.
    + split.
      * intros H0 u uh [[<- <-]|[Hne Hu]]%lookup_insert_Some; [done|]. by apply (proj1 Hfr H0 u).
      * intros Hall. apply Hfr. intros u uh Hu. destruct (decide (u = t)) as [->|Hne]; [congruence|]. apply (Hall u). by rewrite lookup_insert_ne.
Qed.

Lemma possessed_taken s t th : mutex_ok s -> mthreads s !! t = Some th -> possesses th = true -> mtaken (the_mutex s) = 1.
Proof. intros [Htk _ _ _ Hfr] Ht Hp. destruct Htk as [E|E]; [|done]. rewrite (proj1 Hfr E t th Ht) in Hp. done. Qed.

(** What one step does to the thread and the mutex. *)
Lemma thread_step_ok s t c th m' th' : mutex_ok s -> mthreads s !! t = Some th -> thread_step t c (the_mutex s) th = Some (m', th') ->
  mthread_ok m' t th' /\ mtype m' = mtype (the_mutex s) /\ (possesses th = false -> possesses th' = true -> mtaken (the_mutex s) = 0) /\
  (m' = the_mutex s \/ (possesses th || (mtaken (the_mutex s) =? 0)) = true /\ (mowner m' = mowner (the_mutex s) \/ mowner m' = t \/ mowner m' = 0)) /\
  mtaken m' = (if possesses th' then 1 else if possesses th then 0 else mtaken (the_mutex s)).
Proof.
  intros Hok Ht Hs. pose proof (mo_threads _ Hok t th Ht) as [H0 Hth]. pose proof (possessed_taken s t th Hok Ht) as Hpt. assert (t <> 0) as Ht0 by (intros ->; pose proof (mo_tids _ Hok); congruence).
  destruct (the_mutex s) as [tk ty ow rc]. destruct th as [p h a]. unfold thread_step, mthread_ok, possesses, is_rec in *. cbn in *.
  destruct p; cbn in *; repeat case_match; simplify_eq/=; split_and!; try (repeat case_match; lia || intuition (congruence || lia)).
Qed.

Lemma mutex_step_ok s e s' : mutex_ok s -> mutex_step s e = Some s' -> mutex_ok s' /\ mtype (the_mutex s') = mtype (the_mutex s).
Proof.
  destruct e as [t c]. unfold mutex_step. cbn. intros Hok Hs. apply bind_Some in Hs as (th & Ht & Hs). apply bind_Some in Hs as ([m' th'] & Hst & [= <-]).
  destruct (thread_step_ok s t c th m' th' Hok Ht Hst) as (H1 & H2 & H3 & H4 & H5). split; [by eapply mutex_ok_step|done].
Qed.

Lemma mutex_run_ok es : forall s s', mutex_ok s -> mutex_run s es = Some s' -> mutex_ok s' /\ mtype (the_mutex s') = mtype (the_mutex s).
Proof.
  induction es as [|e es IH]; intros s s' Hok Hr; [by injection Hr as <-|]. cbn in Hr. apply bind_Some in Hr as (s1 & Hs & Hr). destruct (mutex_step_ok s e s1 Hok Hs) as [H1 H2].
  destruct (IH s1 s' H1 Hr) as [H3 H4]. split; [done|congruence].
Qed.

Definition mutex_type (type : Z) : Prop := type = PTHREAD_MUTEX_DEFAULT \/ type = PTHREAD_MUTEX_RECURSIVE.

Lemma mutex_start_ok type tids : mutex_type type -> NoDup tids -> 0 ∉ tids -> mutex_ok (mutex_start type tids) /\ mtype (the_mutex (mutex_start type tids)) = type.
Proof.
  intros Hty Hnd H0. unfold mutex_start. assert (pthread_mutex_init (Mutex 0 0 0 0) (Some type) = (0, Mutex 0 type 0 0)) as -> by (destruct Hty as [-> | ->]; done). cbn. split; [|done].
  assert (forall t th, (list_to_map ((fun t => (t, MThread Running 0 0)) <$> tids) : gmap Z mthread) !! t = Some th -> t ∈ tids /\ th = MThread Running 0 0) as Hl.
  { intros t th Hm. apply elem_of_list_to_map_2, list_elem_of_fmap in Hm as (u & [= -> ->] & Hu). done. }
  constructor; cbn; [by left| | | |].
  - destruct (list_to_map _ !! 0) as [th|] eqn:E; [|done]. by destruct (Hl 0 th E).
  - intros t th [Hin ->]%Hl. split; [done|]. cbn. unfold is_rec. destruct (_ =? _); [intros <-; done|done].
  - intros t u th uh [_ ->]%Hl _ Hp. done.
  - split; [|done]. intros _ t th [_ ->]%Hl. done.
Qed.

(** What a schedule of the threads of a process reaches. *)
Definition mutex_reachable (type : Z) (tids : list Z) (s : mstate) : Prop := mutex_type type /\ NoDup tids /\ 0 ∉ tids /\ exists es, mutex_run (mutex_start type tids) es = Some s.

Lemma reachable_ok type tids s : mutex_reachable type tids s -> mutex_ok s /\ mtype (the_mutex s) = type.
Proof.
  intros (Hty & Hnd & H0 & es & Hr). destruct (mutex_start_ok type tids Hty Hnd H0) as [H1 H2]. destruct (mutex_run_ok es _ s H1 Hr) as [H3 H4]. split; [done|congruence].
Qed.

(** ** Theorems *)

(** C29: However the threads of a process interleave, step by step, at most one of them holds the
    mutex; while one does, [taken] is set, a mutex of the default type is held once, and between
    two calls of its holder a recursive one has the holder as its owner and counts how often it
    was taken.  The test of the owner, which takes no lock, never mistakes a thread for it. *)
Theorem mutex_exclusion type tids s : mutex_reachable type tids s ->
  (forall t u th uh, mthreads s !! t = Some th -> mthreads s !! u = Some uh -> 0 < held th -> 0 < held uh -> t = u) /\
  (forall t th, mthreads s !! t = Some th -> 0 < held th -> mtaken (the_mutex s) = 1 /\ (type = PTHREAD_MUTEX_DEFAULT -> held th = 1) /\
     (type = PTHREAD_MUTEX_RECURSIVE -> at_ th = Running -> mowner (the_mutex s) = t /\ mrec (the_mutex s) = held th)) /\
  (forall t th, mthreads s !! t = Some th -> at_ th = LockLoad -> 0 < held th).
Proof.
  intros Hr. destruct (reachable_ok _ _ _ Hr) as [Hok Hty]. assert (forall th, 0 < held th -> possesses th = true) as Hp by (intros th Hh; unfold possesses; lia). split_and!.
  - intros t u th uh Ht Hu H1 H2. eapply (mo_unique _ Hok); eauto.
  - intros t th Ht Hh. split; [eapply possessed_taken; eauto|]. destruct (mo_threads _ Hok t th Ht) as [_ Hth]. unfold is_rec in Hth. rewrite Hty in Hth. split.
    + intros ->. cbn in Hth. destruct (at_ th); cbn in Hth; lia.
    + intros -> Hat. rewrite Hat in Hth. cbn in Hth. by rewrite (proj2 (Z.ltb_lt _ _) Hh) in Hth.
  - intros t th Ht Hat. destruct (mo_threads _ Hok t th Ht) as [_ Hth]. rewrite Hat in Hth. apply Hth.
Qed.

(** The steps of a thread that runs alone. *)
Fixpoint thread_run (n : nat) (t : Z) (c : call) (m : mutex) (th : mthread) : option (mutex * mthread) :=
  match n with O => Some (m, th) | S n => '(m, th) ← thread_step t c m th; thread_run n t c m th end.

Lemma run_alone n t c m' th' : forall s th, mthreads s !! t = Some th -> thread_run n t c (the_mutex s) th = Some (m', th') -> mutex_run s (replicate n (t, c)) = Some (MState m' (<[t := th']> (mthreads s))).
Proof.
  induction n as [|n IH]; intros s th Ht Hr; [injection Hr as <- <-; cbn; rewrite insert_id by done; by destruct s|]. cbn in Hr |- *. unfold mutex_step at 1. cbn. rewrite Ht. cbn.
  destruct (thread_step t c (the_mutex s) th) as [[m1 th1]|]; [|done]. cbn in *. rewrite (IH _ th1); [|cbn; by rewrite lookup_insert_eq|done]. cbn. by rewrite insert_insert_eq.
Qed.

Lemma mutex_run_app a b s : mutex_run s (a ++ b) = (s ← mutex_run s a; mutex_run s b).
Proof. revert s. induction a as [|e a IH]; intros s; [done|]. cbn. destruct (mutex_step s e); [apply IH|done]. Qed.

Lemma unlock_alone m t h a : mutex_type (mtype m) -> (if is_rec m then mrec m = 1 else True) -> h = 1 ->
  exists n, (n <= 6)%nat /\ thread_run n t CallUnlock m (MThread Running h a) = Some (Mutex 0 (mtype m) (if is_rec m then 0 else mowner m) (if is_rec m then 0 else mrec m), MThread Running 0 0).
Proof.
  destruct m as [tk ty ow rc]. unfold is_rec. cbn. intros [-> | ->] Hrc ->; cbn in *; [exists 2%nat|exists 6%nat; rewrite Hrc]; split; lia || done.
Qed.

Lemma lock_alone m u uh : mutex_type (mtype m) -> mtaken m = 0 -> at_ uh = LockSwap false \/ at_ uh = LockSleep ->
  exists n m', (n <= 4)%nat /\ thread_run n u CallLock m uh = Some (m', MThread Running (held uh + 1) 0).
Proof.
  destruct m as [tk ty ow rc], uh as [p h a]. cbn. intros [-> | ->] -> [-> | ->];
    [exists 1%nat|exists 2%nat|exists 3%nat|exists 4%nat]; eexists; (split; [lia|]); cbn; done.
Qed.

(** The holder of a mutex gives it back within 6 of its steps, and then any thread that
    waits for it has it within 4 of its own. *)
Theorem mutex_handover type tids s t u th uh : mutex_reachable type tids s -> mthreads s !! t = Some th -> at_ th = Running -> held th = 1 ->
  mthreads s !! u = Some uh -> (at_ uh = LockSwap false \/ at_ uh = LockSleep) -> u <> t ->
  exists n k s' uh', (n <= 6)%nat /\ (k <= 4)%nat /\ mutex_run s (replicate n (t, CallUnlock) ++ replicate k (u, CallLock)) = Some s' /\
    mthreads s' !! t = Some (MThread Running 0 0) /\ mthreads s' !! u = Some uh' /\ at_ uh' = Running /\ held uh' = 1 /\ answer uh' = 0.
Proof.
  intros Hr Ht Hat Hh Hu Huat Hne. pose proof Hr as (Hmt & _). destruct (reachable_ok _ _ _ Hr) as [Hok Hty]. rewrite <- Hty in Hmt. destruct th as [p h a]. cbn in Hat, Hh. subst p h.
  assert (possesses uh = false) as Hpu by (destruct (possesses uh) eqn:E; [|done]; by destruct (Hne (mo_unique _ Hok _ _ _ _ Hu Ht E eq_refl))).
  destruct (mo_threads _ Hok u uh Hu) as [Hu0 _]. assert (held uh = 0) as Hu1 by (unfold possesses in Hpu; lia). destruct (mo_threads _ Hok t _ Ht) as [_ Hth]. cbn in Hth.
  destruct (unlock_alone (the_mutex s) t 1 a Hmt) as (n & Hn & E1); [destruct (is_rec _); [apply Hth|done]|done|]. pose proof (run_alone n t CallUnlock _ _ s _ Ht E1) as R1.
  destruct (lock_alone (Mutex 0 (mtype (the_mutex s)) (if is_rec (the_mutex s) then 0 else mowner (the_mutex s)) (if is_rec (the_mutex s) then 0 else mrec (the_mutex s))) u uh Hmt eq_refl Huat) as (k & m' & Hk & E2).
  eexists n, k, _, _. split; [done|]. split; [done|]. rewrite mutex_run_app, R1. cbn [mbind option_bind]. split; [eapply (run_alone k u CallLock); [cbn; rewrite lookup_insert_ne by done; exact Hu|exact E2]|]. cbn.
  rewrite lookup_insert_ne, !lookup_insert_eq by done. split_and!; try done. cbn. lia.
Qed.

(** ** Three threads *)

Definition schedule3 : list (Z * call) :=
  replicate 5 (1, CallLock) ++ [(2, CallLock); (2, CallLock); (2, CallLock); (3, CallTrylock); (3, CallTrylock); (3, CallTrylock)].
Definition state3 : mstate := default (MState (Mutex 0 0 0 0) ∅) (mutex_run (mutex_start 1 [1; 2; 3]) schedule3).

Lemma state3_reachable : mutex_reachable 1 [1; 2; 3] state3.
Proof.
  split; [by right|]. split; [apply (bool_decide_unpack _); vm_compute; done|]. split; [apply (bool_decide_unpack _); vm_compute; done|]. exists schedule3. vm_compute. reflexivity.
Qed.

Lemma mutex_exclusion_witness : mtaken (the_mutex state3) = 1 /\ mowner (the_mutex state3) = 1.
Proof.
  destruct (mutex_exclusion 1 [1; 2; 3] state3 state3_reachable) as (_ & H & _). destruct (H 1 (MThread Running 1 0) eq_refl ltac:(cbn; lia)) as (H1 & _ & H3).
  split; [exact H1|]. apply (H3 eq_refl eq_refl).
Defined.

Lemma mutex_handover_witness : exists n k s' uh', (n <= 6)%nat /\ (k <= 4)%nat /\ mutex_run state3 (replicate n (1, CallUnlock) ++ replicate k (2, CallLock)) = Some s' /\
  mthreads s' !! 1 = Some (MThread Running 0 0) /\ mthreads s' !! 2 = Some uh' /\ at_ uh' = Running /\ held uh' = 1 /\ answer uh' = 0.
Proof. exact (mutex_handover 1 [1; 2; 3] state3 1 2 (MThread Running 1 0) (MThread LockSleep 0 0) state3_reachable eq_refl eq_refl eq_refl eq_refl (or_intror eq_refl) ltac:(lia)). Defined.
