(* ===== verification/Nvme.v ===== *)
(** * NVMe driver: queues, commands and transfers ([kernel/drivers/nvme/])

    The input and output queues of one drive, the commands that the driver puts into them, the
    interrupt handler, and a controller that executes the commands of its submission queue in
    their order.  The memory of the kernel that the transfers read and write is a function from
    addresses to bytes; the 64 pages [prps] are the buffers that the controller accesses. *)

From S2P Require Import Prelude Bytes Pmm.




Definition IO_QUEUE_SIZE : Z := 64.
Definition TASK_ID_ASYNC_READ : Z := 0x1000.
Definition TASK_ID_ASYNC_WRITE : Z := 0x3000.
Definition CMD_TASK_ID_MASK : Z := 0xf000.
Definition OPCODE_IO_READ : Z := 0x02.
Definition OPCODE_IO_WRITE : Z := 0x01.

Definition translate_addr (paddr : Z) : Z := Z.lor paddr TRANSLATED_PHYSICAL_MEMORY_BEGIN.
Definition trv2p (vaddr : Z) : Z := Z.ldiff vaddr TRANSLATED_PHYSICAL_MEMORY_BEGIN.

(** ** Queues ([queue.h]) *)

(** [struct queue] without its memory. *)
Record queue := Queue { q_size : Z; q_head : Z; q_tail : Z }.

Definition next_index (q : queue) (index : Z) : Z := (index + 1) mod q_size q.
Definition queue_full (q : queue) : bool := next_index q (q_tail q) =? q_head q.
Definition queue_empty (q : queue) : bool := q_tail q =? q_head q.
Definition queue_produce (q : queue) : res queue :=
  assert_ (negb (queue_full q)) "! queue_full(queue)" ;; Ok (Queue (q_size q) (q_head q) (u16 (next_index q (q_tail q)))).
Definition queue_consume (q : queue) : res queue :=
  assert_ (negb (queue_empty q)) "! queue_empty(queue)" ;; Ok (Queue (q_size q) (u16 (next_index q (q_head q))) (q_tail q)).

(** [struct subqueuee] and [struct compqueuee]. *)
Record subqueuee := Sub { s_cmd : Z; s_nsid : Z; s_prp0 : Z; s_prp1 : Z; s_cdw10 : Z; s_cdw11 : Z; s_cdw12 : Z }.
Record compqueuee := Comp { c_cmd_id : Z; c_phase : Z; c_status : Z }.

Definition make_cmd (opcode fused cmdid : Z) : Z := u32 (Z.lor (Z.lor opcode (Z.shiftl fused 8)) (Z.shiftl cmdid 16)).

(** ** The driver and the controller *)

(** The controller: the sectors of the drive, its places in the two queues, and the phase of
    the entries it writes. *)
Record controller := Ctl { media : Z -> list Z; k_sq_head : Z; k_cq_tail : Z; k_phase : Z }.

(** [struct data] and what the driver shares with the controller: the entries of the queues,
    the doorbells and the pages. *)
Record nvme := Nvme {
  sq : queue; cq : queue; completion_counter : Z; cmd_counter : Z;
  sq_ring : list subqueuee; cq_ring : list compqueuee;
  read_queue : list (Z * Z);
  sq_doorbell : Z; cq_doorbell : Z;
  pages : Z -> list Z;
  memory : Z -> Z;
  ctl : controller }.

Section Nvme.
(** The namespace: [block_size_shift] and [capacity]; the physical addresses of [prps]. *)
Variables (shift capacity : Z) (prps : list Z).

Definition mem_write (m : Z -> Z) (a : Z) (l : list Z) : Z -> Z := fun x => if (a <=? x) && (x <? a + zlen l) then nthZ l (x - a) else m x.

(** The result and the next value of [cmd_counter]. *)
Definition make_cmdid (task_id cmd_counter : Z) : Z * Z := (Z.lor task_id (Z.rem cmd_counter IO_QUEUE_SIZE), s32 (cmd_counter + 1)).

Definition async_command (opcode cmdid nsid prp0 prp1 cdw10 cdw11 cdw12 : Z) (d : nvme) : res nvme :=
  assert_ (negb (queue_full (sq d))) "!queue_full(sq)" ;;
  ring ← st (sq_ring d) (q_tail (sq d)) (Sub (make_cmd opcode 0 (u16 cmdid)) nsid prp0 prp1 cdw10 cdw11 cdw12);
  q ← queue_produce (sq d);
  Ok (Nvme q (cq d) (completion_counter d) (cmd_counter d) ring (cq_ring d) (read_queue d) (q_tail q) (cq_doorbell d) (pages d) (memory d) (ctl d)).

(** [while(1)] of [get_max_count_and_advance]: the count. *)
Fixpoint max_count_loop (fuel : nat) (c vaddr page_base : Z) : res Z :=
  match fuel with
  | O => Err NoFuel
  | S fuel' =>
      let c := u16 (c + 1) in
      let next := u64 (vaddr + Z.shiftl 1 shift) in
      if negb (Z.ldiff next 0xfff =? page_base) then Ok c else max_count_loop fuel' c next page_base
  end.
Definition get_max_count_and_advance (vaddr : Z) : res Z := max_count_loop 4097 0 vaddr (Z.ldiff vaddr 0xfff).

(** The assertions on namespaces hold once one was found; its number is 1. *)
Definition perform_read_command (lba buf_vaddr count cmdid : Z) (d : nvme) : res nvme :=
  assert_ (lba <? capacity) "lba < data->namespaces[0].capacity" ;;
  assert_ (u64 (lba + count) <? capacity) "lba + count < data->namespaces[0].capacity" ;;
  assert_ (Z.land buf_vaddr 3 =? 0) "assert_aligned(_buf, 4)" ;;
  assert_ (Z.ldiff (u64 (buf_vaddr + Z.shiftl 1 shift)) 0xfff =? Z.ldiff buf_vaddr 0xfff) "must not cross a 4K page boundary" ;;
  let paddr := trv2p buf_vaddr in
  c ← get_max_count_and_advance buf_vaddr;
  let c := if count <? c then u16 count else c in
  assert_ (negb (c =? 0)) "c != 0" ;;
  async_command OPCODE_IO_READ cmdid 1 paddr 0 (Z.land lba 0xffffffff) (u32 (Z.shiftr lba 32)) (u32 (c - 1)) d.

Definition perform_write_command (lba buf_vaddr count cmdid : Z) (d : nvme) : res nvme :=
  assert_ (lba <? capacity) "lba < data->namespaces[0].capacity" ;;
  assert_ (u64 (lba + count) <? capacity) "lba + count < data->namespaces[0].capacity" ;;
  assert_ (Z.land buf_vaddr 3 =? 0) "assert_aligned(_buf, 4)" ;;
  assert_ ((count <=? Z.shiftr 0x1000 shift) && negb (count =? 0)) "count <= (0x1000llu >> shift) && count" ;;
  assert_ (Z.ldiff (u64 (buf_vaddr + Z.shiftl 1 shift)) 0xfff =? Z.ldiff buf_vaddr 0xfff) "must not cross a 4K page boundary" ;;
  async_command OPCODE_IO_WRITE cmdid 1 (trv2p buf_vaddr) 0 (Z.land lba 0xffffffff) (u32 (Z.shiftr lba 32)) (u32 (count - 1)) d.

(** ** Transfers *)

(** One transfer: the number of sectors is last; [data] is what the buffer of a write holds. *)
Inductive request := ReadReq (lba buf c : Z) | WriteReq (lba : Z) (data : list Z) (c : Z).

(** [while(count != 0)] of [nvme_async_read] and [nvme_sync_write]: the transfers, one after the
    other.  Before each of them the driver waits for room in the queue. *)
Definition max_count : Z := Z.shiftr 0x1000 shift.
Fixpoint read_requests (fuel : nat) (lba buf count : Z) : list request :=
  match fuel with
  | O => []
  | S fuel' =>
      if count =? 0 then [] else
      let c := if count <? max_count then count else max_count in
      ReadReq lba buf c :: read_requests fuel' (u64 (lba + c)) (u64 (buf + Z.shiftl c shift)) (count - c)
  end.
Fixpoint write_requests (fuel : nat) (lba : Z) (data : list Z) (count : Z) : list request :=
  match fuel with
  | O => []
  | S fuel' =>
      if count =? 0 then [] else
      let c := if count <? max_count then count else max_count in
      WriteReq lba (slice data 0 (Z.shiftl c shift)) c :: write_requests fuel' (u64 (lba + c)) (drop (Z.to_nat (Z.shiftl c shift)) data) (count - c)
  end.

Definition set_counter (d : nvme) (x : Z) : nvme :=
  Nvme (sq d) (cq d) (completion_counter d) x (sq_ring d) (cq_ring d) (read_queue d) (sq_doorbell d) (cq_doorbell d) (pages d) (memory d) (ctl d).
Definition set_read_queue (d : nvme) (x : list (Z * Z)) : nvme :=
  Nvme (sq d) (cq d) (completion_counter d) (cmd_counter d) (sq_ring d) (cq_ring d) x (sq_doorbell d) (cq_doorbell d) (pages d) (memory d) (ctl d).
Definition set_page (d : nvme) (paddr : Z) (x : list Z) : nvme :=
  Nvme (sq d) (cq d) (completion_counter d) (cmd_counter d) (sq_ring d) (cq_ring d) (read_queue d) (sq_doorbell d) (cq_doorbell d) (fun p => if p =? paddr then x else pages d p) (memory d) (ctl d).

(** The body of the loop of [nvme_async_read]. *)
Definition async_read_one (lba buf c : Z) (d : nvme) : res nvme :=
  let '(cmdid, counter) := make_cmdid TASK_ID_ASYNC_READ (cmd_counter d) in
  let d := set_counter d counter in
  let index := Z.ldiff cmdid CMD_TASK_ID_MASK in
  prp_paddr ← ld prps index;
  q ← st (read_queue d) index (buf, u32 (Z.shiftl c shift));
  perform_read_command lba (translate_addr prp_paddr) c cmdid (set_read_queue d q).

(** The body of the loop of [nvme_sync_write]. *)
Definition write_one (lba : Z) (data : list Z) (c : Z) (d : nvme) : res nvme :=
  let '(cmdid, counter) := make_cmdid TASK_ID_ASYNC_WRITE (cmd_counter d) in
  let d := set_counter d counter in
  prp_paddr ← ld prps (q_tail (sq d));
  page ← wr_bytes (pages d prp_paddr) 0 data;
  perform_write_command lba (translate_addr prp_paddr) c cmdid (set_page d prp_paddr page).

Definition submit (r : request) (d : nvme) : res nvme :=
  match r with ReadReq lba buf c => async_read_one lba buf c d | WriteReq lba data c => write_one lba data c d end.

(** ** Interrupts *)

Definition cq_tail_phase (d : nvme) : Z := completion_counter d / q_size (cq d) mod 2.

Fixpoint update_queues (fuel : nat) (d : nvme) : res nvme :=
  match fuel with
  | O => Err NoFuel
  | S fuel' =>
      entry ← ld (cq_ring d) (q_tail (cq d));
      let old_phase := cq_tail_phase d in
      if c_phase entry =? old_phase then Ok d
      else
        c ← queue_produce (cq d);
        s ← queue_consume (sq d);
        update_queues fuel' (Nvme s c (u32 (completion_counter d + 1)) (cmd_counter d) (sq_ring d) (cq_ring d) (read_queue d) (sq_doorbell d) (cq_doorbell d) (pages d) (memory d) (ctl d))
  end.

(** The body of the loop of [handle_queue]. *)
Definition handle_entry (entry : compqueuee) (d : nvme) : res nvme :=
  assert_ (c_status entry =? 0) "NVMe: a problem occured" ;;
  d ← (if Z.land (c_cmd_id entry) CMD_TASK_ID_MASK =? TASK_ID_ASYNC_READ then
         let i := Z.ldiff (c_cmd_id entry) CMD_TASK_ID_MASK in
         '(target, size) ← ld (read_queue d) i;
         assert_ (negb (size =? 0)) "data->read_queue[i].size != 0" ;;
         paddr ← ld prps i;
         data ← rd_bytes (pages d paddr) 0 size;
         q ← st (read_queue d) i (0, size);
         Ok (Nvme (sq d) (cq d) (completion_counter d) (cmd_counter d) (sq_ring d) (cq_ring d) q (sq_doorbell d) (cq_doorbell d) (pages d) (mem_write (memory d) target data) (ctl d))
       else Ok d);
  c ← queue_consume (cq d);
  Ok (Nvme (sq d) c (completion_counter d) (cmd_counter d) (sq_ring d) (cq_ring d) (read_queue d) (sq_doorbell d) (cq_doorbell d) (pages d) (memory d) (ctl d)).

Fixpoint handle_loop (fuel : nat) (d : nvme) : res nvme :=
  match fuel with
  | O => Err NoFuel
  | S fuel' =>
      if queue_empty (cq d) then Ok d
      else entry ← ld (cq_ring d) (q_head (cq d)); d ← handle_entry entry d; handle_loop fuel' d
  end.

(** The fuel: a queue holds less than 64 entries. *)
Definition handle_queue (d : nvme) : res nvme :=
  d ← update_queues 65 d;
  d ← handle_loop 65 d;
  Ok (Nvme (sq d) (cq d) (completion_counter d) (cmd_counter d) (sq_ring d) (cq_ring d) (read_queue d) (sq_doorbell d) (q_head (cq d)) (pages d) (memory d) (ctl d)).

(** ** The controller *)

Definition SZ : Z := 2 ^ shift.
Definition media_read (m : Z -> list Z) (lba c : Z) : list Z := concat (m <$> seqZ lba c).
Definition media_write (m : Z -> list Z) (lba : Z) (data : list Z) (c : Z) : Z -> list Z :=
  fun l => if (lba <=? l) && (l <? lba + c) then slice data ((l - lba) * SZ) SZ else m l.

(** The next command of the submission queue, if there is one and its completion has a place. *)
Definition controller_step (d : nvme) : nvme :=
  let k := ctl d in
  if (k_sq_head k =? sq_doorbell d) || ((k_cq_tail k + 1) mod IO_QUEUE_SIZE =? cq_doorbell d) then d
  else
    match sq_ring d !! Z.to_nat (k_sq_head k) with
    | None => d
    | Some e =>
        let lba := Z.lor (s_cdw10 e) (Z.shiftl (s_cdw11 e) 32) in
        let c := Z.land (s_cdw12 e) 0xffff + 1 in
        let opcode := Z.land (s_cmd e) 0xff in
        let pages := if opcode =? OPCODE_IO_READ then fun p => if p =? s_prp0 e then blit (pages d p) 0 (media_read (media k) lba c) else pages d p else pages d in
        let media := if opcode =? OPCODE_IO_WRITE then media_write (media k) lba (slice (Nvme.pages d (s_prp0 e)) 0 (c * SZ)) c else media k in
        let tail := (k_cq_tail k + 1) mod IO_QUEUE_SIZE in
        let phase := if tail =? 0 then 1 - k_phase k else k_phase k in
        Nvme (sq d) (cq d) (completion_counter d) (cmd_counter d) (sq_ring d)
          (<[Z.to_nat (k_cq_tail k) := Comp (Z.shiftr (s_cmd e) 16) (k_phase k) 0]> (cq_ring d)) (read_queue d) (sq_doorbell d) (cq_doorbell d)
          pages (memory d) (Ctl media ((k_sq_head k + 1) mod IO_QUEUE_SIZE) tail phase)
    end.

(** ** Runs *)

(** The thread that transfers, the controller and the interrupt take turns in any order. *)
Inductive nvme_event := Driver | Controller | Interrupt.

(** [todo]: the transfers that the thread has not submitted yet. *)
Definition nvme_step (s : nvme * list request) (e : nvme_event) : res (nvme * list request) :=
  let '(d, todo) := s in
  match e with
  | Driver =>
      match todo with
      | [] => Ok (d, todo)
      | r :: todo' => if queue_full (sq d) then Ok (d, todo) else d ← submit r d; Ok (d, todo')
      end
  | Controller => Ok (controller_step d, todo)
  | Interrupt => d ← handle_queue d; Ok (d, todo)
  end.
Fixpoint nvme_run (s : nvme * list request) (es : list nvme_event) : res (nvme * list request) :=
  match es with [] => Ok s | e :: es => s ← nvme_step s e; nvme_run s es end.

(** [nvme_sync] returns. *)
Definition nvme_idle (s : nvme * list request) : bool := bool_decide (s.2 = []) && queue_empty (sq s.1) && queue_empty (cq s.1).

(** The drive after its installation. *)
Definition nvme_start (m : Z -> list Z) (mem : Z -> Z) (pg : Z -> list Z) : nvme :=
  Nvme (Queue IO_QUEUE_SIZE 0 0) (Queue IO_QUEUE_SIZE 0 0) 0 0 (replicate 64 (Sub 0 0 0 0 0 0 0)) (replicate 64 (Comp 0 0 0)) (replicate 64 (0, 0)) 0 0 pg mem (Ctl m 0 0 1).

(** ** What the transfers mean *)

(** One transfer after the other. *)
Definition spec_request (r : request) (s : (Z -> list Z) * (Z -> Z)) : (Z -> list Z) * (Z -> Z) :=
  match r with
  | ReadReq lba buf c => (s.1, mem_write s.2 buf (media_read s.1 lba c))
  | WriteReq lba data c => (media_write s.1 lba data c, s.2)
  end.
Definition spec_requests (rs : list request) (s : (Z -> list Z) * (Z -> Z)) : (Z -> list Z) * (Z -> Z) := foldl (fun s r => spec_request r s) s rs.

(** [nvme_async_read] and [nvme_sync_write]: the transfers they submit. *)
Definition nvme_async_read (lba buf count : Z) : res (list request) := assert_ (negb (buf =? 0)) "buf" ;; Ok (read_requests (S (Z.to_nat count)) lba buf count).
Definition nvme_sync_write (lba : Z) (data : list Z) (count : Z) : list request := write_requests (S (Z.to_nat count)) lba data count.

(** The calls of the driver, and what they mean: every one is done at once. *)
Inductive transfer := ReadOp (lba buf n : Z) | WriteOp (lba : Z) (data : list Z) (n : Z).
Definition transfer_requests (t : transfer) : res (list request) :=
  match t with ReadOp lba buf n => nvme_async_read lba buf n | WriteOp lba data n => Ok (nvme_sync_write lba data n) end.
Fixpoint all_requests (ts : list transfer) : res (list request) :=
  match ts with [] => Ok [] | t :: ts => rs ← transfer_requests t; rest ← all_requests ts; Ok (rs ++ rest) end.
Definition spec_transfer (t : transfer) (s : (Z -> list Z) * (Z -> Z)) : (Z -> list Z) * (Z -> Z) :=
  match t with
  | ReadOp lba buf n => (s.1, mem_write s.2 buf (media_read s.1 lba n))
  | WriteOp lba data n => (media_write s.1 lba data n, s.2)
  end.
Definition spec_transfers (ts : list transfer) (s : (Z -> list Z) * (Z -> Z)) : (Z -> list Z) * (Z -> Z) := foldl (fun s t => spec_transfer t s) s ts.

End Nvme.
