(* ===== verification/NvmeProofs.v ===== *)
(** * NVMe driver: every transfer is done, in order

    The invariant of the two queues, and that the thread, the controller and the interrupt
    handler keep it. *)

From S2P Require Import Prelude Bytes Pmm Nvme.




(** ** Numbers of commands *)

Lemma below_64 (P : Z -> bool) : forallb P (seqZ 0 64) = true -> forall j, 0 <= j < 64 -> P j = true.
Proof. intros Hf j Hj. rewrite forallb_forall in Hf. apply Hf. apply list_elem_of_In, elem_of_seqZ. lia. Qed.

Definition id_ok (task j : Z) : bool :=
  (Z.land (Z.lor task j) CMD_TASK_ID_MASK =? task) && (Z.ldiff (Z.lor task j) CMD_TASK_ID_MASK =? j) && (u16 (Z.lor task j) =? Z.lor task j).
Lemma id_read j : 0 <= j < 64 -> id_ok TASK_ID_ASYNC_READ j = true.
Proof. apply below_64. vm_compute. reflexivity. Qed.
Lemma id_write j : 0 <= j < 64 -> id_ok TASK_ID_ASYNC_WRITE j = true.
Proof. apply below_64. vm_compute. reflexivity. Qed.

Lemma id_fields task j : id_ok task j = true -> Z.land (Z.lor task j) CMD_TASK_ID_MASK = task /\ Z.ldiff (Z.lor task j) CMD_TASK_ID_MASK = j /\ u16 (Z.lor task j) = Z.lor task j.
Proof. unfold id_ok. intros H. apply andb_prop in H as [H H3]. apply andb_prop in H as [H1 H2]. split_and!; by apply Z.eqb_eq. Qed.

Lemma make_cmd_fields opcode cmdid : 0 <= opcode < 256 -> 0 <= cmdid < 65536 -> Z.land (make_cmd opcode 0 cmdid) 0xff = opcode /\ Z.shiftr (make_cmd opcode 0 cmdid) 16 = cmdid.
Proof.
  intros Ho Hc. unfold make_cmd. rewrite Z.shiftl_0_l, Z.lor_0_r. assert (Z.lor opcode (Z.shiftl cmdid 16) = opcode + cmdid * 65536) as ->.
  { rewrite <- Z.add_nocarry_lor; [rewrite Z.shiftl_mul_pow2 by lia; lia|]. apply Z.bits_inj'. intros n Hn. rewrite Z.land_spec, Z.bits_0, Z.shiftl_spec by lia.
    destruct (Z.lt_ge_cases n 16); [rewrite (Z.testbit_neg_r cmdid) by lia; apply andb_false_r|].
    rewrite <- (Z.mod_small opcode (2 ^ 8)) by lia. rewrite Z.mod_pow2_bits_high by lia. done. }
  rewrite u32_small by lia. change 0xff with (Z.ones 8). rewrite Z.land_ones, Z.shiftr_div_pow2 by lia. change (2 ^ 16) with 65536. change (2 ^ 8) with 256. split; lia.
Qed.

Lemma lba_fields lba : 0 <= lba < 2 ^ 64 -> Z.lor (Z.land lba 0xffffffff) (Z.shiftl (u32 (Z.shiftr lba 32)) 32) = lba.
Proof.
  intros Hl. rewrite Z.shiftr_div_pow2 by lia. rewrite u32_small by lia. change 0xffffffff with (Z.ones 32). rewrite <- Z.shiftr_div_pow2 by lia.
  apply Z.bits_inj'. intros n Hn. rewrite Z.lor_spec, Z.land_spec, Z.shiftl_spec by lia. destruct (Z.lt_ge_cases n 32).
  - rewrite Z.ones_spec_low by lia. rewrite (Z.testbit_neg_r _ (n - 32)) by lia. by rewrite andb_true_r, orb_false_r.
  - rewrite Z.ones_spec_high by lia. rewrite Z.shiftr_spec by lia. rewrite andb_false_r. cbn. f_equal. lia.
Qed.

Lemma count_field c : 0 < c <= 4096 -> Z.land (u32 (c - 1)) 0xffff + 1 = c.
Proof. intros Hc. rewrite u32_small by lia. change 0xffff with (Z.ones 16). rewrite Z.land_ones by lia. lia. Qed.

(** ** Pages *)

Definition prp_addr (p : Z) : Prop := 0 <= p < 2 ^ 47 /\ p mod 4096 = 0.

Lemma translate_page p : prp_addr p -> translate_addr p = p + TRANSLATED_PHYSICAL_MEMORY_BEGIN /\ trv2p (translate_addr p) = p.
Proof.
  intros [Hp _]. assert (Z.land p TRANSLATED_PHYSICAL_MEMORY_BEGIN = 0) as H0.
  { apply Z.bits_inj'. intros n Hn. rewrite Z.land_spec, Z.bits_0. destruct (Z.lt_ge_cases n 47).
    - change TRANSLATED_PHYSICAL_MEMORY_BEGIN with (Z.shiftl (Z.ones 17) 47). rewrite Z.shiftl_spec by lia. rewrite (Z.testbit_neg_r _ (n - 47)) by lia. apply andb_false_r.
    - rewrite <- (Z.mod_small p (2 ^ 47)) by lia. rewrite Z.mod_pow2_bits_high by lia. done. }
  unfold trv2p, translate_addr. split; [by rewrite Z.add_nocarry_lor|]. apply Z.bits_inj'. intros n Hn. rewrite Z.ldiff_spec, Z.lor_spec.
  assert (Z.testbit (Z.land p TRANSLATED_PHYSICAL_MEMORY_BEGIN) n = false) as Hb by (rewrite H0; apply Z.bits_0). rewrite Z.land_spec in Hb.
  destruct (Z.testbit p n), (Z.testbit TRANSLATED_PHYSICAL_MEMORY_BEGIN n); done.
Qed.

Lemma ldiff_page x : Z.ldiff x 0xfff = x - x mod 4096.
Proof. change 0xfff with (Z.ones 12). rewrite Z.ldiff_ones_r by lia. rewrite Z.shiftl_mul_pow2, Z.shiftr_div_pow2 by lia. change (2 ^ 12) with 4096. lia. Qed.

Section Pages.
Variable shift : Z.
Hypothesis shift_range : 0 <= shift < 12.
Notation SZ := (SZ shift).
Notation MAX := (max_count shift).

Lemma sectors_per_page : 0 < SZ /\ 0 < MAX <= 4096 /\ MAX * SZ = 4096 /\ SZ < 4096 /\ Z.shiftl 1 shift = SZ /\ forall c, Z.shiftl c shift = c * SZ.
Proof.
  unfold Nvme.SZ, max_count. rewrite Z.shiftr_div_pow2 by lia. assert (shift = 0 \/ shift = 1 \/ shift = 2 \/ shift = 3 \/ shift = 4 \/ shift = 5 \/ shift = 6 \/ shift = 7 \/ shift = 8 \/ shift = 9 \/ shift = 10 \/ shift = 11) as Hs by lia.
  split_and!; try (intros c; apply Z.shiftl_mul_pow2; lia); repeat (destruct Hs as [-> |Hs]; [done|]); subst; done.
Qed.

Lemma max_count_loop_ok v base : v mod 4096 = 0 -> 0 <= v <= 2 ^ 64 - 4096 -> base = v -> forall n j, 0 <= j < MAX -> MAX - j < Z.of_nat n -> max_count_loop shift n j (v + j * SZ) base = Ok MAX.
Proof.
  intros Hv Hb ->. destruct sectors_per_page as (H1 & H2 & H3 & H4 & H5 & _). induction n as [|n IH]; intros j Hj Hn; [lia|]. cbn [max_count_loop]. rewrite H5, ldiff_page.
  assert (u16 (j + 1) = j + 1) as -> by (apply wrap_small; lia). replace (v + j * SZ + SZ) with (v + (j + 1) * SZ) by lia.
  destruct (Z.lt_ge_cases (j + 1) MAX) as [Hlt|Hge].
  - assert ((j + 1) * SZ < 4096) by (rewrite <- H3; apply Z.mul_lt_mono_pos_r; lia). assert (0 <= (j + 1) * SZ) by (apply Z.mul_nonneg_nonneg; lia). rewrite u64_small by lia.
    assert ((v + (j + 1) * SZ) mod 4096 = (j + 1) * SZ) as -> by lia. rewrite (proj2 (Z.eqb_eq _ _)) by lia. cbn [negb]. apply IH; lia.
  - replace (j + 1) with MAX by lia. rewrite H3. rewrite (proj2 (Z.eqb_neq _ _)); [done|]. unfold wrap. lia.
Qed.

Lemma get_max_count_page v : v mod 4096 = 0 -> 0 <= v <= 2 ^ 64 - 4096 -> get_max_count_and_advance shift v = Ok MAX.
Proof.
  intros Hv Hb. destruct sectors_per_page as (H1 & H2 & _). unfold get_max_count_and_advance. replace v with (v + 0 * SZ) at 1 by lia. apply max_count_loop_ok; try done; [rewrite ldiff_page; lia|lia|lia].
Qed.

Lemma page_checks p : prp_addr p -> Z.land (translate_addr p) 3 = 0 /\ Z.ldiff (u64 (translate_addr p + Z.shiftl 1 shift)) 0xfff = Z.ldiff (translate_addr p) 0xfff /\
  get_max_count_and_advance shift (translate_addr p) = Ok MAX.
Proof.
  intros Hp. destruct (translate_page p Hp) as [-> _]. destruct Hp as [Hp Hm]. destruct sectors_per_page as (H1 & H2 & H3 & H4 & H5 & _). assert ((p + TRANSLATED_PHYSICAL_MEMORY_BEGIN) mod 4096 = 0) as Hv by (unfold TRANSLATED_PHYSICAL_MEMORY_BEGIN; lia).
  assert (0 <= p + TRANSLATED_PHYSICAL_MEMORY_BEGIN <= 2 ^ 64 - 4096) as Hr by (unfold TRANSLATED_PHYSICAL_MEMORY_BEGIN; lia). set (v := p + TRANSLATED_PHYSICAL_MEMORY_BEGIN) in *. split_and!.
  - change 3 with (Z.ones 2). rewrite Z.land_ones by lia. change (2 ^ 2) with 4. lia.
  - rewrite !ldiff_page, H5, u64_small by lia. lia.
  - by apply get_max_count_page.
Qed.

(** ** Sectors *)

Definition media_ok (m : Z -> list Z) : Prop := forall l, zlen (m l) = SZ.

Lemma zlen_media_read m lba c : media_ok m -> 0 <= c -> zlen (media_read m lba c) = c * SZ.
Proof.
  intros Hm Hc. unfold media_read. assert (forall l, zlen (concat (m <$> l)) = zlen l * SZ) as Hl.
  { induction l as [|x l IH]; [done|]. rewrite fmap_cons. cbn [concat]. rewrite zlen_app, IH, Hm. unfold zlen. cbn [length]. lia. }
  rewrite Hl. unfold zlen. rewrite length_seqZ. f_equal. lia.
Qed.

Lemma media_write_ok m lba data c : media_ok m -> zlen data = c * SZ -> media_ok (media_write shift m lba data c).
Proof.
  intros Hm Hd l. destruct (sectors_per_page) as (Z1 & _). unfold media_write. destruct (Z.leb_spec lba l), (Z.ltb_spec l (lba + c)); cbn; try apply Hm. apply zlen_slice; [apply Z.mul_nonneg_nonneg; lia|lia|].
  rewrite Hd. assert ((l - lba + 1) * SZ <= c * SZ) by (apply Z.mul_le_mono_nonneg_r; lia). lia.
Qed.
End Pages.

(** ** The invariant *)

Section Queues.
Variables (shift capacity : Z) (prps : list Z).
Hypothesis shift_range : 0 <= shift < 12.
Hypothesis capacity_range : 0 <= capacity < 2 ^ 64.
Hypothesis prps_len : zlen prps = 64.
Hypothesis prps_pages : Forall prp_addr prps.
Hypothesis prps_distinct : NoDup prps.
Notation SZ := (SZ shift).
Notation MAX := (max_count shift).

Definition prp_of (k : Z) : Z := nthZ prps (k mod 64).

Lemma prp_lookup j : 0 <= j < 64 -> ld prps j = Ok (nthZ prps j) /\ prp_addr (nthZ prps j).
Proof.
  intros Hj. split; [apply ld_ok; lia|]. unfold nthZ. destruct (lookup_lt_is_Some_2 prps (Z.to_nat j)) as [p Hp]; [unfold zlen in prps_len; lia|]. rewrite Hp. cbn. by eapply Forall_lookup_1.
Qed.

Lemma prp_inj j k : 0 <= j < 64 -> 0 <= k < 64 -> nthZ prps j = nthZ prps k -> j = k.
Proof.
  intros Hj Hk. unfold nthZ. destruct (lookup_lt_is_Some_2 prps (Z.to_nat j)) as [p Hp]; [unfold zlen in prps_len; lia|]. destruct (lookup_lt_is_Some_2 prps (Z.to_nat k)) as [q Hq]; [unfold zlen in prps_len; lia|].
  rewrite Hp, Hq. cbn. intros ->. pose proof (NoDup_lookup _ _ _ _ prps_distinct Hp Hq). lia.
Qed.

Definition req_ok (r : request) : Prop :=
  match r with
  | ReadReq lba buf c => 0 <= lba /\ 0 < c <= MAX /\ lba + c < capacity
  | WriteReq lba data c => 0 <= lba /\ 0 < c <= MAX /\ lba + c < capacity /\ zlen data = c * SZ
  end.

(** The command for the transfer [r], the [k]th. *)
Definition task_of (r : request) : Z := match r with ReadReq _ _ _ => TASK_ID_ASYNC_READ | WriteReq _ _ _ => TASK_ID_ASYNC_WRITE end.
Definition command_of (k : Z) (r : request) : subqueuee :=
  let '(op, lba, c) := match r with ReadReq lba _ c => (OPCODE_IO_READ, lba, c) | WriteReq lba _ c => (OPCODE_IO_WRITE, lba, c) end in
  Sub (make_cmd op 0 (Z.lor (task_of r) (k mod 64))) 1 (prp_of k) 0 (Z.land lba 0xffffffff) (u32 (Z.shiftr lba 32)) (u32 (c - 1)).

(** What the page of a transfer holds while it waits to be executed, and afterwards. *)
Definition waits_ok (pg : Z -> list Z) (k : Z) (r : request) : Prop :=
  match r with ReadReq _ _ _ => True | WriteReq _ data c => slice (pg (prp_of k)) 0 (c * SZ) = data end.
Definition done_ok (pg : Z -> list Z) (m : Z -> list Z) (k : Z) (r : request) : Prop :=
  match r with ReadReq lba _ c => slice (pg (prp_of k)) 0 (c * SZ) = media_read m lba c | WriteReq _ _ _ => True end.

Variables (m0 : Z -> list Z) (mem0 : Z -> Z).
Definition after (rs : list request) (k : Z) : (Z -> list Z) * (Z -> Z) := spec_requests shift (take (Z.to_nat k) rs) (m0, mem0).

(** [rs]: the transfers submitted so far.  [P] of them are executed, the driver has noticed [N],
    has handled [H], and the controller knows that it has handled [B]. *)
Record nvme_inv (rs : list request) (P N H B : Z) (d : nvme) : Prop := {
  ni_order : 0 <= B <= H /\ H <= N /\ N <= P /\ P <= zlen rs /\ zlen rs <= B + 63 /\ zlen rs < 2 ^ 31;
  ni_reqs : Forall req_ok rs;
  ni_sq : sq d = Queue IO_QUEUE_SIZE (N mod 64) (zlen rs mod 64);
  ni_cq : cq d = Queue IO_QUEUE_SIZE (H mod 64) (N mod 64);
  ni_counters : completion_counter d = N /\ cmd_counter d = zlen rs;
  ni_doorbells : sq_doorbell d = zlen rs mod 64 /\ cq_doorbell d = B mod 64;
  ni_lens : zlen (sq_ring d) = 64 /\ zlen (cq_ring d) = 64 /\ zlen (read_queue d) = 64;
  ni_pages : forall j, 0 <= j < 64 -> zlen (pages d (nthZ prps j)) = 4096;
  ni_ctl : k_sq_head (ctl d) = P mod 64 /\ k_cq_tail (ctl d) = P mod 64 /\ k_phase (ctl d) = 1 - (P / 64) mod 2;
  ni_media : media (ctl d) = (after rs P).1 /\ media_ok shift (media (ctl d));
  ni_memory : memory d = (after rs H).2;
  ni_waits : forall k r, P <= k < zlen rs -> rs !! Z.to_nat k = Some r -> sq_ring d !! Z.to_nat (k mod 64) = Some (command_of k r) /\ waits_ok (pages d) k r;
  ni_reads : forall k lba buf c, H <= k < zlen rs -> rs !! Z.to_nat k = Some (ReadReq lba buf c) -> read_queue d !! Z.to_nat (k mod 64) = Some (buf, c * SZ);
  ni_done : forall k r, H <= k < P -> rs !! Z.to_nat k = Some r -> cq_ring d !! Z.to_nat (k mod 64) = Some (Comp (Z.lor (task_of r) (k mod 64)) (1 - (k / 64) mod 2) 0) /\ done_ok (pages d) (after rs k).1 k r;
  ni_fresh : forall k, P <= k < P + 64 -> exists e, cq_ring d !! Z.to_nat (k mod 64) = Some e /\ c_phase e = (k / 64) mod 2 }.

Lemma after_app rs r k : 0 <= k <= zlen rs -> after (rs ++ [r]) k = after rs k.
Proof. intros Hk. unfold after. f_equal. apply take_app_le. unfold zlen in Hk. lia. Qed.

Lemma after_succ rs r k : 0 <= k -> rs !! Z.to_nat k = Some r -> after rs (k + 1) = spec_request shift r (after rs k).
Proof.
  intros Hk Hr. unfold after. rewrite Z2Nat.inj_add by lia. rewrite Nat.add_1_r. rewrite (take_S_r rs _ r Hr). unfold spec_requests. by rewrite foldl_snoc.
Qed.

Lemma full_spec rs P N H B d : nvme_inv rs P N H B d -> queue_full (sq d) = (zlen rs =? N + 63).
Proof. intros [Ho _ Es]. unfold queue_full, next_index. rewrite Es. cbn [q_tail q_size q_head]. unfold IO_QUEUE_SIZE. zb. Qed.

Lemma nvme_inv_start pg : media_ok shift m0 -> (forall j, 0 <= j < 64 -> zlen (pg (nthZ prps j)) = 4096) -> nvme_inv [] 0 0 0 0 (nvme_start m0 mem0 pg).
Proof.
  intros Hm Hp. assert (zlen (@nil request) = 0) as E0 by done. constructor; cbn [nvme_start sq cq completion_counter cmd_counter sq_ring cq_ring read_queue sq_doorbell cq_doorbell pages memory ctl k_sq_head k_cq_tail k_phase media]; try done; try (rewrite E0; lia).
  intros k Hk. exists (Comp 0 0 0). split; [apply lookup_replicate_2; lia|]. cbn. lia.
Qed.

(** ** Submitting a transfer *)

Lemma slot_ne k S : S - 63 <= k < S -> Z.to_nat (k mod 64) <> Z.to_nat (S mod 64).
Proof. lia. Qed.

Lemma waits_ext pg pg' k r : pg' (prp_of k) = pg (prp_of k) -> waits_ok pg k r -> waits_ok pg' k r.
Proof. destruct r; cbn; [done|]. intros ->. done. Qed.
Lemma done_ext pg pg' m k r : pg' (prp_of k) = pg (prp_of k) -> done_ok pg m k r -> done_ok pg' m k r.
Proof. destruct r; cbn; [|done]. intros ->. done. Qed.

Lemma inv_submit rs P H d r rq pg : nvme_inv rs P H H H d -> zlen rs <= H + 62 -> zlen rs + 1 < 2 ^ 31 -> req_ok r -> zlen rq = 64 ->
  (forall j, 0 <= j < 64 -> zlen (pg (nthZ prps j)) = 4096) ->
  (forall j, 0 <= j < 64 -> j <> zlen rs mod 64 -> rq !! Z.to_nat j = read_queue d !! Z.to_nat j /\ pg (nthZ prps j) = pages d (nthZ prps j)) -> waits_ok pg (zlen rs) r ->
  (forall lba buf c, r = ReadReq lba buf c -> rq !! Z.to_nat (zlen rs mod 64) = Some (buf, c * SZ)) ->
  nvme_inv (rs ++ [r]) P H H H (Nvme (Queue IO_QUEUE_SIZE (H mod 64) ((zlen rs + 1) mod 64)) (cq d) (completion_counter d) (zlen rs + 1)
    (<[Z.to_nat (zlen rs mod 64) := command_of (zlen rs) r]> (sq_ring d)) (cq_ring d) rq ((zlen rs + 1) mod 64) (cq_doorbell d) pg (memory d) (ctl d)).
Proof.
  intros Hi Hroom Hmax Hr Hrq Hpg Hsame Hw Hread. destruct Hi as [Ho Hreqs Es Ec [E1 E2] [E3 E4] (L1 & L2 & L3) Hpl [K1 [K2 K3]] [M1 M2] Hm Hwaits Hreads Hdone Hfresh].
  assert (zlen (rs ++ [r]) = zlen rs + 1) as El by (rewrite zlen_app; done).
  assert (forall k, k < zlen rs -> 0 <= k -> (rs ++ [r]) !! Z.to_nat k = rs !! Z.to_nat k) as Hold by (intros k Hk H0; apply lookup_app_l; unfold zlen in Hk; lia).
  assert (forall r', (rs ++ [r]) !! Z.to_nat (zlen rs) = Some r' -> r' = r) as Hlast.
  { intros r' Hl. unfold zlen in Hl. rewrite Nat2Z.id, lookup_app_r, Nat.sub_diag in Hl by lia. by injection Hl. }
  constructor; cbn [sq cq completion_counter cmd_counter sq_ring cq_ring read_queue sq_doorbell cq_doorbell pages memory ctl]; rewrite ?El; try done; try lia.
  - apply list.Forall_app. split; [done|by constructor].
  - unfold zlen in L1 |- *. by rewrite length_insert.
  - rewrite after_app by lia. done.
  - rewrite after_app by lia. done.
  - intros k r' Hk Hl. destruct (Z.eq_dec k (zlen rs)) as [->|Hne].
    + apply Hlast in Hl as ->. split; [|done]. rewrite list_lookup_insert_eq; [done|]. unfold zlen in L1. lia.
    + rewrite Hold in Hl by lia. destruct (Hwaits k r' ltac:(lia) Hl) as [H1 H2]. rewrite list_lookup_insert_ne by (pose proof (slot_ne k (zlen rs)); lia). split; [done|].
      eapply waits_ext; [|exact H2]. apply Hsame; lia.
  - intros k lba buf c Hk Hl. destruct (Z.eq_dec k (zlen rs)) as [->|Hne]; [by eapply Hread; symmetry; eapply Hlast|]. rewrite Hold in Hl by lia.
    rewrite <- (Hreads k lba buf c) by (done || lia). apply Hsame; lia.
  - intros k r' Hk Hl. rewrite Hold in Hl by lia. destruct (Hdone k r' Hk Hl) as [H1 H2]. split; [done|]. rewrite after_app by lia. eapply done_ext; [|exact H2]. apply Hsame; lia.
Qed.

Lemma async_command_ok rs P H d opcode cmdid paddr a b c : nvme_inv rs P H H H d -> zlen rs <= H + 62 -> u16 cmdid = cmdid ->
  forall counter rq pg, async_command opcode cmdid 1 paddr 0 a b c (Nvme (sq d) (cq d) (completion_counter d) counter (sq_ring d) (cq_ring d) rq (sq_doorbell d) (cq_doorbell d) pg (memory d) (ctl d)) =
  Ok (Nvme (Queue IO_QUEUE_SIZE (H mod 64) ((zlen rs + 1) mod 64)) (cq d) (completion_counter d) counter (<[Z.to_nat (zlen rs mod 64) := Sub (make_cmd opcode 0 cmdid) 1 paddr 0 a b c]> (sq_ring d)) (cq_ring d) rq
    ((zlen rs + 1) mod 64) (cq_doorbell d) pg (memory d) (ctl d)).
Proof.
  intros Hi Hroom Hid counter rq pg. pose proof (full_spec _ _ _ _ _ _ Hi) as Hf. destruct Hi as [Ho _ Es _ _ _ (L1 & _) _ _ _ _ _ _ _ _]. unfold async_command, queue_produce. cbn [sq sq_ring]. rewrite Hf, (proj2 (Z.eqb_neq _ _)) by lia.
  cbn [negb assert_ mbind res_bind]. rewrite Es in *. cbn [q_tail q_size q_head]. rewrite st_ok by lia. cbn [mbind res_bind]. unfold next_index. cbn [q_size]. unfold IO_QUEUE_SIZE.
  assert (u16 ((zlen rs mod 64 + 1) mod 64) = (zlen rs + 1) mod 64) as -> by (rewrite Zplus_mod_idemp_l; apply wrap_small; lia). rewrite Hid. done.
Qed.

Lemma submit_ok rs P H d r : nvme_inv rs P H H H d -> zlen rs <= H + 62 -> zlen rs + 1 < 2 ^ 31 -> req_ok r -> exists d', submit shift capacity prps r d = Ok d' /\ nvme_inv (rs ++ [r]) P H H H d'.
Proof.
  intros Hi Hroom Hmax Hr. pose proof Hi as [Ho Hreqs Es Ec [E1 E2] [E3 E4] (L1 & L2 & L3) Hpl [K1 [K2 K3]] [M1 M2] Hm Hwaits Hreads Hdone Hfresh]. set (S := zlen rs) in *.
  destruct (prp_lookup (S mod 64) ltac:(lia)) as [Ep Hp]. destruct (translate_page _ Hp) as [_ Et]. destruct (page_checks shift shift_range _ Hp) as (C1 & C2 & C3).
  destruct (sectors_per_page shift shift_range) as (Z1 & Z2 & Z3 & Z4 & Z5 & Z6).
  assert (forall task, make_cmdid task S = (Z.lor task (S mod 64), S + 1)) as Eid by (intros task; unfold make_cmdid, IO_QUEUE_SIZE; rewrite s32_small by lia; by rewrite Z.rem_mod_nonneg by lia).
  destruct r as [lba buf c|lba data c]; cbn [submit req_ok] in *.
  - destruct Hr as (R1 & R2 & R3). destruct (id_fields _ _ (id_read (S mod 64) ltac:(lia))) as (I1 & I2 & I3). unfold async_read_one. rewrite E2, Eid, I2, Ep. cbn [mbind res_bind]. cbn [set_counter read_queue].
    rewrite st_ok by lia. cbn [mbind res_bind]. assert (c * SZ <= 4096) as Hsz by (rewrite <- Z3; apply Z.mul_le_mono_nonneg_r; lia). assert (0 < c * SZ) by (apply Z.mul_pos_pos; lia). rewrite Z6, u32_small by lia.
    unfold perform_read_command. rewrite C1, C2, C3, Z.eqb_refl. rewrite (proj2 (Z.ltb_lt lba _)) by lia. rewrite u64_small, (proj2 (Z.ltb_lt (lba + c) _)) by lia. cbn [Z.eqb assert_ mbind res_bind].
    assert ((if c <? MAX then u16 c else MAX) = c) as -> by (destruct (Z.ltb_spec c MAX); [apply wrap_small; lia|lia]). rewrite (proj2 (Z.eqb_neq _ _)) by lia. cbn [negb assert_ mbind res_bind]. rewrite Et.
    unfold set_read_queue, set_counter. cbn [sq cq completion_counter cmd_counter sq_ring cq_ring read_queue sq_doorbell cq_doorbell pages memory ctl].
    rewrite (async_command_ok rs P H d) by done. eexists. split; [done|]. fold S. change (Sub _ _ _ _ _ _ _) with (command_of S (ReadReq lba buf c)). apply inv_submit; try done.
    + unfold zlen in *. by rewrite length_insert.
    + intros j Hj Hne. split; [|done]. rewrite list_lookup_insert_ne; [done|]. fold S in Hne. lia.
    + intros lba' buf' c' [= <- <- <-]. fold S. rewrite list_lookup_insert_eq; [done|]. unfold zlen in L3. lia.
  - destruct Hr as (R1 & R2 & R3 & R4). destruct (id_fields _ _ (id_write (S mod 64) ltac:(lia))) as (I1 & I2 & I3). unfold write_one. rewrite E2, Eid. cbn [set_counter sq]. rewrite Es. cbn [q_tail]. rewrite Ep. cbn [mbind res_bind].
    assert (c * SZ <= 4096) as Hsz by (rewrite <- Z3; apply Z.mul_le_mono_nonneg_r; lia). pose proof (Hpl (S mod 64) ltac:(lia)) as Hlen. cbn [set_counter pages]. rewrite wr_bytes_ok by lia. cbn [mbind res_bind].
    unfold perform_write_command. rewrite C1, C2, Z.eqb_refl. rewrite (proj2 (Z.ltb_lt lba _)) by lia. rewrite u64_small, (proj2 (Z.ltb_lt (lba + c) _)) by lia. fold MAX. rewrite (proj2 (Z.leb_le c _)), (proj2 (Z.eqb_neq c 0)) by lia.
    cbn [Z.eqb andb negb assert_ mbind res_bind]. rewrite Et. unfold set_page, set_counter. cbn [sq cq completion_counter cmd_counter sq_ring cq_ring read_queue sq_doorbell cq_doorbell pages memory ctl].
    rewrite (async_command_ok rs P H d) by done. eexists. split; [done|]. fold S. change (Sub _ _ _ _ _ _ _) with (command_of S (WriteReq lba data c)). apply inv_submit; try done.
    + intros j Hj. cbn. destruct (_ =? _); [rewrite zlen_blit by lia; lia|by apply Hpl].
    + intros j Hj Hne. split; [done|]. cbn. rewrite (proj2 (Z.eqb_neq _ _)); [done|]. intros E. apply prp_inj in E; [done|lia|lia].
    + cbn. unfold prp_of. fold S. rewrite Z.eqb_refl. rewrite <- R4. apply (slice_blit_same _ 0); lia.
Qed.

(** ** The controller *)

Lemma command_fields k r : req_ok r -> 0 <= k -> let e := command_of k r in
  let '(lba, c) := match r with ReadReq lba _ c => (lba, c) | WriteReq lba _ c => (lba, c) end in
  Z.lor (s_cdw10 e) (Z.shiftl (s_cdw11 e) 32) = lba /\ Z.land (s_cdw12 e) 0xffff + 1 = c /\ s_prp0 e = prp_of k /\
  Z.land (s_cmd e) 0xff = (match r with ReadReq _ _ _ => OPCODE_IO_READ | _ => OPCODE_IO_WRITE end) /\ Z.shiftr (s_cmd e) 16 = Z.lor (task_of r) (k mod 64).
Proof.
  intros Hr Hk. destruct (sectors_per_page shift shift_range) as (_ & Z2 & _). assert (forall task, id_ok task (k mod 64) = true -> 0 <= Z.lor task (k mod 64) < 65536) as Hid.
  { intros task E. destruct (id_fields _ _ E) as (_ & _ & <-). apply (wrap_range 16). lia. }
  destruct r as [lba buf c|lba data c]; cbn in Hr |- *; (split; [apply lba_fields; lia|]; split; [apply count_field; lia|]; split; [done|]; apply make_cmd_fields; [done|]; apply Hid); [apply id_read|apply id_write]; lia.
Qed.

Definition next_page (pg : Z -> list Z) (m : Z -> list Z) (k : Z) (r : request) : Z -> list Z :=
  match r with ReadReq lba _ c => fun p => if p =? prp_of k then blit (pg p) 0 (media_read m lba c) else pg p | WriteReq _ _ _ => pg end.

Lemma controller_step_eq rs P H d r : nvme_inv rs P H H H d -> P < zlen rs -> rs !! Z.to_nat P = Some r ->
  controller_step shift d = Nvme (sq d) (cq d) (completion_counter d) (cmd_counter d) (sq_ring d) (<[Z.to_nat (P mod 64) := Comp (Z.lor (task_of r) (P mod 64)) (1 - (P / 64) mod 2) 0]> (cq_ring d)) (read_queue d)
    (sq_doorbell d) (cq_doorbell d) (next_page (pages d) (media (ctl d)) P r) (memory d) (Ctl (spec_request shift r (after rs P)).1 ((P + 1) mod 64) ((P + 1) mod 64) (1 - ((P + 1) / 64) mod 2)).
Proof.
  intros [Ho Hreqs Es Ec [E1 E2] [E3 E4] (L1 & L2 & L3) Hpl [K1 [K2 K3]] [M1 M2] Hm Hwaits Hreads Hdone Hfresh] HP Hr. unfold controller_step. rewrite K1, K2, K3, E3, E4. unfold IO_QUEUE_SIZE.
  rewrite (proj2 (Z.eqb_neq _ _)) by lia. rewrite (proj2 (Z.eqb_neq ((P mod 64 + 1) mod 64) _)) by lia. cbn [orb]. destruct (Hwaits P r ltac:(lia) Hr) as [-> Hw].
  assert (req_ok r) as Hro by (by eapply Forall_lookup_1). pose proof (command_fields P r Hro ltac:(lia)) as Hf. cbn zeta in Hf. rewrite Zplus_mod_idemp_l.
  assert ((if (P + 1) mod 64 =? 0 then 1 - (1 - (P / 64) mod 2) else 1 - (P / 64) mod 2) = 1 - ((P + 1) / 64) mod 2) as -> by (destruct (Z.eqb_spec ((P + 1) mod 64) 0); lia).
  destruct r as [lba buf c|lba data c]; destruct Hf as (-> & -> & -> & -> & ->); cbn; [by rewrite M1|]. cbn in Hw. by rewrite Hw, M1.
Qed.

Lemma next_page_ne pg m k r j : 0 <= j < 64 -> j <> k mod 64 -> next_page pg m k r (nthZ prps j) = pg (nthZ prps j).
Proof. intros Hj Hne. destruct r; cbn; [|done]. rewrite (proj2 (Z.eqb_neq _ _)); [done|]. intros E. apply prp_inj in E; lia. Qed.

Lemma controller_ok rs P H d : nvme_inv rs P H H H d -> nvme_inv rs (if P =? zlen rs then P else P + 1) H H H (controller_step shift d).
Proof.
  intros Hi. pose proof Hi as [Ho Hreqs Es Ec [E1 E2] [E3 E4] (L1 & L2 & L3) Hpl [K1 [K2 K3]] [M1 M2] Hm Hwaits Hreads Hdone Hfresh]. destruct (Z.eqb_spec P (zlen rs)) as [->|HP].
  { unfold controller_step. rewrite K1, E3, Z.eqb_refl. done. }
  destruct (lookup_lt_is_Some_2 rs (Z.to_nat P)) as [r Hr]; [unfold zlen in *; lia|]. rewrite (controller_step_eq rs P H d r Hi ltac:(lia) Hr). assert (req_ok r) as Hro by (by eapply Forall_lookup_1).
  destruct (sectors_per_page shift shift_range) as (Z1 & Z2 & Z3 & _).
  assert (forall lba c, 0 < c <= MAX -> zlen (media_read (media (ctl d)) lba c) <= 4096) as Hrd by (intros lba c Hc; rewrite (zlen_media_read shift shift_range) by (done || lia); rewrite <- Z3; apply Z.mul_le_mono_nonneg_r; lia).
  constructor; cbn [sq cq completion_counter cmd_counter sq_ring cq_ring read_queue sq_doorbell cq_doorbell pages memory ctl k_sq_head k_cq_tail k_phase media]; try done; try lia.
  - unfold zlen in *. by rewrite length_insert.
  - intros j Hj. destruct r as [lba buf c|]; cbn; [|by apply Hpl]. destruct (_ =? _); [|by apply Hpl]. pose proof (Hrd lba c). cbn in Hro. rewrite zlen_blit; rewrite ?Hpl by done; lia.
  - rewrite <- (after_succ rs r P) by (done || lia). split; [done|]. rewrite (after_succ rs r P) by (done || lia). rewrite M1 in M2. destruct r as [|lba data c]; cbn; [done|]. apply (media_write_ok shift shift_range); [done|apply Hro].
  - intros k r' Hk Hl. destruct (Hwaits k r' ltac:(lia) Hl) as [H1 H2]. split; [done|]. eapply waits_ext; [|exact H2]. apply next_page_ne; lia.
  - intros k r' Hk Hl. destruct (Z.eq_dec k P) as [->|Hne].
    + rewrite Hr in Hl. injection Hl as <-. split; [apply list_lookup_insert_eq; unfold zlen in L2; lia|]. destruct r as [lba buf c|]; cbn; [|done]. cbn in Hro. rewrite Z.eqb_refl, <- M1.
      rewrite <- (zlen_media_read shift shift_range (media (ctl d)) lba c) by (done || lia). apply (slice_blit_same _ 0); [lia|]. unfold prp_of. rewrite Hpl by lia. apply Hrd. lia.
    + destruct (Hdone k r' ltac:(lia) Hl) as [H1 H2]. rewrite list_lookup_insert_ne by lia. split; [done|]. eapply done_ext; [|exact H2]. apply next_page_ne; lia.
  - intros k Hk. destruct (Z.eq_dec k (P + 64)) as [->|Hne].
    + eexists. replace ((P + 64) mod 64) with (P mod 64) by lia. split; [apply list_lookup_insert_eq; unfold zlen in L2; lia|]. cbn. lia.
    + rewrite list_lookup_insert_ne by lia. apply Hfresh. lia.
Qed.

(** ** Interrupts *)

Lemma update_queues_ok fuel rs P H B : forall N d, nvme_inv rs P N H B d -> P - N < Z.of_nat fuel -> exists d', update_queues fuel d = Ok d' /\ nvme_inv rs P P H B d'.
Proof.
  induction fuel as [|fuel IH]; intros N d Hi Hf; [pose proof (ni_order _ _ _ _ _ _ Hi); lia|].
  pose proof Hi as [Ho Hreqs Es Ec [E1 E2] [E3 E4] (L1 & L2 & L3) Hpl [K1 [K2 K3]] [M1 M2] Hm Hwaits Hreads Hdone Hfresh]. cbn [update_queues]. unfold cq_tail_phase. rewrite Ec, E1. cbn [q_tail q_size]. unfold IO_QUEUE_SIZE.
  destruct (Z.eq_dec N P) as [->|HN].
  - destruct (Hfresh P ltac:(lia)) as (e & He & Hph). rewrite (ld_Some _ _ e) by (lia || done). cbn [mbind res_bind]. rewrite Hph, Z.eqb_refl. by exists d.
  - destruct (lookup_lt_is_Some_2 rs (Z.to_nat N)) as [r Hr]; [unfold zlen in *; lia|]. destruct (Hdone N r ltac:(lia) Hr) as [He _]. rewrite (ld_Some _ (N mod 64) _ ltac:(lia) He). cbn [mbind res_bind c_phase].
    rewrite (proj2 (Z.eqb_neq _ _)) by lia. unfold queue_produce, queue_full, queue_consume, queue_empty, next_index. rewrite Es. cbn [q_tail q_size q_head]. unfold IO_QUEUE_SIZE.
    rewrite (proj2 (Z.eqb_neq ((N mod 64 + 1) mod 64) _)) by lia. cbn [negb assert_ mbind res_bind]. rewrite (proj2 (Z.eqb_neq (zlen rs mod 64) _)) by lia. cbn [negb assert_ mbind res_bind].
    assert (u16 ((N mod 64 + 1) mod 64) = (N + 1) mod 64) as -> by (rewrite Zplus_mod_idemp_l; apply wrap_small; lia). rewrite u32_small by lia. apply IH with (N := N + 1); [|lia].
    constructor; cbn [sq cq completion_counter cmd_counter sq_ring cq_ring read_queue sq_doorbell cq_doorbell pages memory ctl]; done || lia.
Qed.

Lemma handle_entry_ok rs P H B d r : nvme_inv rs P P H B d -> H < P -> rs !! Z.to_nat H = Some r ->
  exists d', handle_entry prps (Comp (Z.lor (task_of r) (H mod 64)) (1 - (H / 64) mod 2) 0) d = Ok d' /\ nvme_inv rs P P (H + 1) B d'.
Proof.
  intros Hi HP Hr. pose proof Hi as [Ho Hreqs Es Ec [E1 E2] [E3 E4] (L1 & L2 & L3) Hpl [K1 [K2 K3]] [M1 M2] Hm Hwaits Hreads Hdone Hfresh].
  assert (queue_consume (cq d) = Ok (Queue IO_QUEUE_SIZE ((H + 1) mod 64) (P mod 64))) as Hc.
  { unfold queue_consume, queue_empty, next_index. rewrite Ec. cbn [q_tail q_size q_head]. unfold IO_QUEUE_SIZE. rewrite (proj2 (Z.eqb_neq _ _)) by lia. cbn [negb assert_ mbind res_bind].
    do 2 f_equal. rewrite Zplus_mod_idemp_l. apply wrap_small; lia. }
  assert (req_ok r) as Hro by (by eapply Forall_lookup_1). destruct (sectors_per_page shift shift_range) as (Z1 & Z2 & Z3 & _). destruct (Hdone H r ltac:(lia) Hr) as [_ Hd].
  pose proof (after_succ rs r H ltac:(lia) Hr) as Ha. unfold handle_entry. cbn [c_status Z.eqb assert_ mbind res_bind c_cmd_id].
  destruct r as [lba buf c|lba data c]; cbn [task_of].
  - destruct (id_fields _ _ (id_read (H mod 64) ltac:(lia))) as (I1 & I2 & I3). rewrite I1, I2, Z.eqb_refl. rewrite (ld_Some _ (H mod 64) _ ltac:(lia) (Hreads H lba buf c ltac:(lia) Hr)). cbn [mbind res_bind]. cbn in Hro.
    assert (0 < c * SZ <= 4096) as Hsz by (rewrite <- Z3; split; [apply Z.mul_pos_pos; lia|apply Z.mul_le_mono_nonneg_r; lia]). rewrite (proj2 (Z.eqb_neq (c * SZ) 0)) by lia. cbn [negb assert_ mbind res_bind].
    destruct (prp_lookup (H mod 64) ltac:(lia)) as [Ep Hp]. rewrite Ep. cbn [mbind res_bind]. rewrite rd_bytes_ok by (rewrite ?Hpl; lia). cbn [mbind res_bind]. rewrite st_ok by lia. cbn [mbind res_bind cq]. rewrite Hc. cbn [mbind res_bind].
    eexists. split; [done|]. constructor; cbn [sq cq completion_counter cmd_counter sq_ring cq_ring read_queue sq_doorbell cq_doorbell pages memory ctl]; try done; try lia.
    + split_and!; [done|done|]. unfold zlen in *. by rewrite length_insert.
    + rewrite Ha. cbn. cbn in Hd. unfold prp_of in Hd. by rewrite Hm, Hd.
    + intros k lba' buf' c' Hk Hl. rewrite list_lookup_insert_ne by lia. apply (Hreads k lba' buf' c'); [lia|done].
    + intros k r' Hk Hl. apply Hdone; [lia|done].
  - destruct (id_fields _ _ (id_write (H mod 64) ltac:(lia))) as (I1 & _). rewrite I1. cbn [Z.eqb Pos.eqb TASK_ID_ASYNC_WRITE TASK_ID_ASYNC_READ mbind res_bind]. rewrite Hc. cbn [mbind res_bind].
    eexists. split; [done|]. constructor; cbn [sq cq completion_counter cmd_counter sq_ring cq_ring read_queue sq_doorbell cq_doorbell pages memory ctl]; try done; try lia.
    + by rewrite Ha.
    + intros k lba' buf' c' Hk Hl. apply (Hreads k lba' buf' c'); [lia|done].
    + intros k r' Hk Hl. apply Hdone; [lia|done].
Qed.

Lemma handle_loop_ok fuel rs P B : forall H d, nvme_inv rs P P H B d -> P - H < Z.of_nat fuel -> exists d', handle_loop prps fuel d = Ok d' /\ nvme_inv rs P P P B d'.
Proof.
  induction fuel as [|fuel IH]; intros H d Hi Hf; [pose proof (ni_order _ _ _ _ _ _ Hi); lia|]. cbn [handle_loop]. unfold queue_empty.
  pose proof (ni_order _ _ _ _ _ _ Hi) as Ho. rewrite (ni_cq _ _ _ _ _ _ Hi). cbn [q_tail q_head]. destruct (Z.eq_dec H P) as [->|HN]; [rewrite Z.eqb_refl; by exists d|]. rewrite (proj2 (Z.eqb_neq _ _)) by lia.
  destruct (lookup_lt_is_Some_2 rs (Z.to_nat H)) as [r Hr]; [unfold zlen in *; lia|]. destruct (ni_done _ _ _ _ _ _ Hi H r ltac:(lia) Hr) as [He _]. rewrite (ld_Some _ (H mod 64) _ ltac:(lia) He). cbn [mbind res_bind].
  destruct (handle_entry_ok rs P H B d r Hi ltac:(lia) Hr) as (d1 & -> & Hi1). cbn [mbind res_bind]. apply (IH (H + 1)); [done|lia].
Qed.

Lemma handle_queue_ok rs P H d : nvme_inv rs P H H H d -> exists d', handle_queue prps d = Ok d' /\ nvme_inv rs P P P P d'.
Proof.
  intros Hi. pose proof (ni_order _ _ _ _ _ _ Hi) as Ho. unfold handle_queue. destruct (update_queues_ok 65 rs P H H H d Hi ltac:(lia)) as (d1 & -> & Hi1). cbn [mbind res_bind].
  destruct (handle_loop_ok 65 rs P H H d1 Hi1 ltac:(lia)) as (d2 & -> & Hi2). cbn [mbind res_bind]. eexists. split; [done|].
  destruct Hi2 as [Ho2 Hreqs Es Ec [E1 E2] [E3 E4] L Hpl K M Hm Hwaits Hreads Hdone Hfresh].
  constructor; cbn [sq cq completion_counter cmd_counter sq_ring cq_ring read_queue sq_doorbell cq_doorbell pages memory ctl]; try done; try lia. rewrite Ec. done.
Qed.

(** ** Runs *)

(** [rs] is submitted, [todo] is not. *)
Definition run_inv (all : list request) (s : nvme * list request) : Prop := exists rs P H, nvme_inv rs P H H H s.1 /\ all = rs ++ s.2.

Lemma step_ok all s e : Forall req_ok all -> zlen all < 2 ^ 31 -> run_inv all s -> exists s', nvme_step shift capacity prps s e = Ok s' /\ run_inv all s'.
Proof.
  intros Hall Hlen (rs & P & H & Hi & Ea). destruct s as [d todo]. cbn in Hi, Ea. destruct e; cbn [nvme_step].
  - destruct todo as [|r todo]; [by eexists (_, _); split; [done|]; exists rs, P, H|]. rewrite (full_spec _ _ _ _ _ _ Hi). destruct (Z.eqb_spec (zlen rs) (H + 63)) as [E|E]; [by eexists (_, _); split; [done|]; exists rs, P, H|].
    pose proof (ni_order _ _ _ _ _ _ Hi) as Ho. rewrite Ea in Hlen, Hall. rewrite zlen_app in Hlen. apply list.Forall_app in Hall as [_ Hall]. apply list.Forall_cons in Hall as [Hr _]. unfold zlen at 2 in Hlen. cbn [length] in Hlen.
    destruct (submit_ok rs P H d r Hi ltac:(lia) ltac:(lia) Hr) as (d' & -> & Hi'). cbn [mbind res_bind]. eexists (_, _). split; [done|]. exists (rs ++ [r]), P, H. split; [done|]. cbn. by rewrite <- app_assoc.
  - eexists (_, _). split; [done|]. eexists rs, _, H. split; [by apply controller_ok|done].
  - destruct (handle_queue_ok rs P H d Hi) as (d' & -> & Hi'). cbn [mbind res_bind]. eexists (_, _). split; [done|]. by exists rs, P, P.
Qed.

Lemma run_ok all es : Forall req_ok all -> zlen all < 2 ^ 31 -> forall s, run_inv all s -> exists s', nvme_run shift capacity prps s es = Ok s' /\ run_inv all s'.
Proof.
  intros Hall Hlen. induction es as [|e es IH]; intros s Hs; [by exists s|]. cbn. destruct (step_ok all s e Hall Hlen Hs) as (s1 & -> & Hs1). cbn [mbind res_bind]. by apply IH.
Qed.

Lemma idle_spec all s : run_inv all s -> nvme_idle s = true -> media (ctl s.1) = (spec_requests shift all (m0, mem0)).1 /\ memory s.1 = (spec_requests shift all (m0, mem0)).2.
Proof.
  intros (rs & P & H & Hi & Ea) Hidle. unfold nvme_idle in Hidle. apply andb_prop in Hidle as [Hidle Hc]. apply andb_prop in Hidle as [Ht Hq]. apply bool_decide_eq_true in Ht. rewrite Ht, app_nil_r in Ea.
  pose proof (ni_order _ _ _ _ _ _ Hi) as Ho. unfold queue_empty in Hq. rewrite (ni_sq _ _ _ _ _ _ Hi) in Hq. cbn in Hq. apply Z.eqb_eq in Hq. assert (H = zlen rs) as EH by lia. assert (P = zlen rs) as EP by lia.
  rewrite (ni_memory _ _ _ _ _ _ Hi), (proj1 (ni_media _ _ _ _ _ _ Hi)), EH, EP. unfold after. rewrite take_ge by (unfold zlen; lia). by rewrite Ea.
Qed.
End Queues.
