(* ===== verification/NvmeTheorems.v ===== *)
(** * NVMe driver: transfers

    Reads and writes of any length, cut into commands of at most a page, against a drive that
    does each of them at once. *)

From S2P Require Import Prelude Bytes Pmm Nvme NvmeProofs.




(** ** Equal drives and memories *)

Definition same_state (s s' : (Z -> list Z) * (Z -> Z)) : Prop := (forall l, s.1 l = s'.1 l) /\ (forall x, s.2 x = s'.2 x).

#[export] Instance same_state_equivalence : Equivalence same_state.
Proof.
  split; [by intros s|by intros s s' [H1 H2]|]. intros s s' s'' [A1 A2] [B1 B2]. split; intros; [by rewrite A1|by rewrite A2].
Qed.

Lemma media_read_ext m m' lba c : (forall l, m l = m' l) -> media_read m lba c = media_read m' lba c.
Proof. intros Hm. unfold media_read. f_equal. apply list_fmap_ext. intros. apply Hm. Qed.

#[export] Instance spec_request_proper shift r : Proper (same_state ==> same_state) (spec_request shift r).
Proof.
  intros s s' [H1 H2]. destruct r as [lba buf c|lba data c]; cbn; split; cbn; intros; try done; [|unfold media_write; by destruct (_ && _)].
  rewrite (media_read_ext _ _ lba c H1). unfold mem_write. by destruct (_ && _).
Qed.

#[export] Instance spec_requests_proper shift rs : Proper (same_state ==> same_state) (spec_requests shift rs).
Proof. unfold spec_requests. induction rs as [|r rs IH]; intros s s' Hs; [done|]. cbn. apply IH. by rewrite Hs. Qed.

#[export] Instance spec_transfer_proper shift t : Proper (same_state ==> same_state) (spec_transfer shift t).
Proof. destruct t as [lba buf n|lba data n]; [exact (spec_request_proper shift (ReadReq lba buf n))|exact (spec_request_proper shift (WriteReq lba data n))]. Qed.

(** ** Cutting a transfer *)

Lemma mem_write_app m a l1 l2 x : mem_write (mem_write m a l1) (a + zlen l1) l2 x = mem_write m a (l1 ++ l2) x.
Proof.
  unfold mem_write. rewrite zlen_app. pose proof (zlen_nonneg l1). pose proof (zlen_nonneg l2). unfold nthZ.
  destruct (Z.leb_spec (a + zlen l1) x), (Z.ltb_spec x (a + zlen l1 + zlen l2)); cbn.
  - rewrite (proj2 (Z.leb_le a x)), (proj2 (Z.ltb_lt x (a + (zlen l1 + zlen l2)))) by lia. cbn. rewrite lookup_app_r by (unfold zlen in *; lia). do 2 f_equal. unfold zlen in *. lia.
  - rewrite (proj2 (Z.ltb_ge x (a + (zlen l1 + zlen l2)))), (proj2 (Z.ltb_ge x (a + zlen l1))) by lia. by rewrite !andb_false_r.
  - destruct (Z.leb_spec a x); cbn; [|done]. rewrite (proj2 (Z.ltb_lt x (a + zlen l1))), (proj2 (Z.ltb_lt x (a + (zlen l1 + zlen l2)))) by lia. rewrite lookup_app_l by (unfold zlen in *; lia). done.
  - lia.
Qed.

Lemma media_read_app m lba c n : 0 <= c -> 0 <= n -> media_read m lba (c + n) = media_read m lba c ++ media_read m (lba + c) n.
Proof. intros. unfold media_read. rewrite seqZ_app by lia. by rewrite fmap_app, concat_app. Qed.

Section Transfers.
Variables (shift capacity : Z) (prps : list Z).
Hypothesis shift_range : 0 <= shift < 12.
Hypothesis capacity_range : 0 <= capacity < 2 ^ 64.
Hypothesis prps_len : zlen prps = 64.
Hypothesis prps_pages : Forall prp_addr prps.
Hypothesis prps_distinct : NoDup prps.
Notation SZ := (SZ shift).
Notation MAX := (max_count shift).

Definition transfer_ok (t : transfer) : Prop :=
  match t with
  | ReadOp lba buf n => 0 <= lba /\ 0 <= n /\ lba + n < capacity /\ 0 < buf /\ buf + n * SZ < 2 ^ 64
  | WriteOp lba data n => 0 <= lba /\ 0 <= n /\ lba + n < capacity /\ zlen data = n * SZ
  end.

Definition chunk (n : Z) : Z := if n <? MAX then n else MAX.
Lemma chunk_range n : 0 < n -> 0 < chunk n <= MAX /\ chunk n <= n /\ (chunk n) * SZ <= n * SZ.
Proof.
  intros Hn. destruct (sectors_per_page shift shift_range) as (Z1 & Z2 & _). assert (0 < chunk n <= MAX /\ chunk n <= n) as Hc by (unfold chunk; destruct (Z.ltb_spec n MAX); lia).
  split_and!; try lia. apply Z.mul_le_mono_nonneg_r; lia.
Qed.

Lemma read_requests_ok m fuel : media_ok shift m -> forall lba buf n mem, (Z.to_nat n < fuel)%nat -> 0 <= lba -> 0 <= n -> lba + n < capacity -> 0 < buf -> buf + n * SZ < 2 ^ 64 ->
  Forall (req_ok shift capacity) (read_requests shift fuel lba buf n) /\ same_state (spec_requests shift (read_requests shift fuel lba buf n) (m, mem)) (m, mem_write mem buf (media_read m lba n)).
Proof.
  intros Hm. destruct (sectors_per_page shift shift_range) as (Z1 & Z2 & _ & _ & _ & Z6). induction fuel as [|fuel IH]; intros lba buf n mem Hf Hl Hn Hc Hb Hb'; [lia|]. cbn [read_requests].
  destruct (Z.eqb_spec n 0) as [->|Hn0]; [split; [done|]; split; [done|]; intros x; cbn; unfold mem_write; change (media_read m lba 0) with (@nil Z); change (zlen []) with 0; destruct (Z.leb_spec buf x), (Z.ltb_spec x (buf + 0)); cbn; lia || done|].
  fold (chunk n). destruct (chunk_range n ltac:(lia)) as (C1 & C2 & C3). assert (0 < chunk n * SZ) by (apply Z.mul_pos_pos; lia). rewrite Z6, !u64_small by lia.
  destruct (IH (lba + chunk n) (buf + chunk n * SZ) (n - chunk n) (mem_write mem buf (media_read m lba (chunk n)))) as [I1 I2]; [lia..|]. split; [constructor; [cbn; lia|done]|].
  change (same_state (spec_requests shift (read_requests shift fuel (lba + chunk n) (buf + chunk n * SZ) (n - chunk n)) (m, mem_write mem buf (media_read m lba (chunk n)))) (m, mem_write mem buf (media_read m lba n))).
  rewrite I2. split; [done|]. intros x. cbn. assert (media_read m lba n = media_read m lba (chunk n) ++ media_read m (lba + chunk n) (n - chunk n)) as -> by (rewrite <- media_read_app by lia; f_equal; lia). rewrite <- mem_write_app.
  by rewrite (zlen_media_read shift shift_range m lba (chunk n)) by (done || lia).
Qed.

Lemma write_requests_ok mem fuel : forall lba data n m, (Z.to_nat n < fuel)%nat -> 0 <= lba -> 0 <= n -> lba + n < capacity -> zlen data = n * SZ ->
  Forall (req_ok shift capacity) (write_requests shift fuel lba data n) /\ same_state (spec_requests shift (write_requests shift fuel lba data n) (m, mem)) (media_write shift m lba data n, mem).
Proof.
  destruct (sectors_per_page shift shift_range) as (Z1 & Z2 & _ & _ & _ & Z6). induction fuel as [|fuel IH]; intros lba data n m Hf Hl Hn Hc Hd; [lia|]. cbn [write_requests].
  destruct (Z.eqb_spec n 0) as [->|Hn0]; [split; [done|]; split; [|done]; intros l; cbn; unfold media_write; destruct (Z.leb_spec lba l), (Z.ltb_spec l (lba + 0)); cbn; lia || done|].
  fold (chunk n). destruct (chunk_range n ltac:(lia)) as (C1 & C2 & C3). assert (0 < chunk n * SZ) by (apply Z.mul_pos_pos; lia). rewrite Z6, !u64_small by lia. set (d1 := slice data 0 (chunk n * SZ)). set (d2 := drop (Z.to_nat (chunk n * SZ)) data).
  assert (zlen d2 = (n - chunk n) * SZ) as Hd2 by (unfold d2; rewrite zlen_drop; lia). assert (zlen d1 = chunk n * SZ) as Hd1 by (unfold d1; rewrite zlen_slice; lia).
  destruct (IH (lba + chunk n) d2 (n - chunk n) (media_write shift m lba d1 (chunk n))) as [I1 I2]; [lia..|]. split; [constructor; [cbn; lia|done]|].
  change (same_state (spec_requests shift (write_requests shift fuel (lba + chunk n) d2 (n - chunk n)) (media_write shift m lba d1 (chunk n), mem)) (media_write shift m lba data n, mem)).
  rewrite I2. split; [|done]. intros l. cbn. unfold media_write. destruct (Z.leb_spec (lba + chunk n) l), (Z.ltb_spec l (lba + chunk n + (n - chunk n))); cbn.
  - rewrite (proj2 (Z.leb_le lba l)), (proj2 (Z.ltb_lt l (lba + n))) by lia. cbn. unfold d2, slice. rewrite drop_drop. do 2 f_equal. replace (l - lba) with (chunk n + (l - (lba + chunk n))) by lia. rewrite Z.mul_add_distr_r.
    rewrite Z2Nat.inj_add; [done|lia|]. apply Z.mul_nonneg_nonneg; lia.
  - rewrite (proj2 (Z.ltb_ge l (lba + n))), (proj2 (Z.ltb_ge l (lba + chunk n))) by lia. by rewrite !andb_false_r.
  - destruct (Z.leb_spec lba l); cbn; [|done]. rewrite (proj2 (Z.ltb_lt l (lba + chunk n))), (proj2 (Z.ltb_lt l (lba + n))) by lia. unfold d1. rewrite slice_slice; [f_equal; lia|lia|apply Z.mul_nonneg_nonneg; lia|lia|].
    assert ((l - lba + 1) * SZ <= chunk n * SZ) by (apply Z.mul_le_mono_nonneg_r; lia). lia.
  - lia.
Qed.

Lemma spec_requests_app rs rs' s : spec_requests shift (rs ++ rs') s = spec_requests shift rs' (spec_requests shift rs s).
Proof. apply foldl_app. Qed.

Lemma transfer_requests_ok t m mem : transfer_ok t -> media_ok shift m -> exists rs, transfer_requests shift t = Ok rs /\ Forall (req_ok shift capacity) rs /\ same_state (spec_requests shift rs (m, mem)) (spec_transfer shift t (m, mem)).
Proof.
  intros Ht Hm. destruct t as [lba buf n|lba data n]; cbn in Ht; cbn [transfer_requests spec_transfer fst snd].
  - unfold nvme_async_read. rewrite (proj2 (Z.eqb_neq _ _)) by lia. cbn [negb assert_ mbind res_bind]. eexists. split; [done|]. apply read_requests_ok; try done; lia.
  - eexists. split; [done|]. apply write_requests_ok; lia.
Qed.

Lemma spec_transfer_media t s : transfer_ok t -> media_ok shift s.1 -> media_ok shift (spec_transfer shift t s).1.
Proof. intros Ht Hm. destruct t; cbn; [done|]. apply (media_write_ok shift shift_range); try done. apply Ht. Qed.

Lemma all_requests_ok ts : forall m mem, Forall transfer_ok ts -> media_ok shift m -> exists rs, all_requests shift ts = Ok rs /\ Forall (req_ok shift capacity) rs /\ same_state (spec_requests shift rs (m, mem)) (spec_transfers shift ts (m, mem)).
Proof.
  induction ts as [|t ts IH]; intros m mem Hts Hm; [by exists []|]. apply list.Forall_cons in Hts as [Ht Hts]. cbn [all_requests]. destruct (transfer_requests_ok t m mem Ht Hm) as (rs & -> & R1 & R2). cbn.
  pose proof (spec_transfer_media t (m, mem) Ht Hm) as Hm'. destruct (spec_transfer shift t (m, mem)) as [m' mem'] eqn:E. destruct (IH m' mem' Hts Hm') as (rest & -> & S1 & S2). cbn. exists (rs ++ rest). split; [done|]. split; [by apply list.Forall_app|].
  rewrite spec_requests_app, R2. done.
Qed.

(** ** Theorems *)

Variables (m0 : Z -> list Z) (mem0 : Z -> Z) (pg : Z -> list Z).
Hypothesis media_len : media_ok shift m0.
Hypothesis pages_len : forall j, 0 <= j < 64 -> zlen (pg (nthZ prps j)) = 4096.

Lemma run_inv_start rs : run_inv shift capacity prps m0 mem0 rs (nvme_start m0 mem0 pg, rs).
Proof. exists [], 0, 0. split; [by apply nvme_inv_start|done]. Qed.


(** One turn of each: a command that was not executed yet is. *)
Definition settled (all : list request) (k : Z) (s : nvme * list request) : Prop := exists rs P, nvme_inv shift capacity prps m0 mem0 rs P P P P s.1 /\ all = rs ++ s.2 /\ zlen all - P <= k.

Lemma driver_turn all rs P d todo : Forall (req_ok shift capacity) all -> zlen all < 2 ^ 31 -> nvme_inv shift capacity prps m0 mem0 rs P P P P d -> all = rs ++ todo ->
  exists d1 rs1 todo1, nvme_step shift capacity prps (d, todo) Driver = Ok (d1, todo1) /\ nvme_inv shift capacity prps m0 mem0 rs1 P P P P d1 /\ all = rs1 ++ todo1 /\ (P < zlen all -> P < zlen rs1).
Proof.
  intros Hall Hlen Hi Ea. cbn [nvme_step]. destruct todo as [|r todo]; [exists d, rs, []; rewrite app_nil_r in Ea; rewrite app_nil_r; by subst|]. pose proof (ni_order _ _ _ _ _ _ _ _ _ _ _ Hi) as Ho.
  rewrite (full_spec shift capacity prps shift_range capacity_range _ _ _ _ _ _ _ _ Hi). destruct (Z.eqb_spec (zlen rs) (P + 63)) as [E|E]; [exists d, rs, (r :: todo); split_and!; try done; lia|].
  rewrite Ea in Hlen, Hall. rewrite zlen_app in Hlen. apply list.Forall_app in Hall as [_ Hr]. apply list.Forall_cons in Hr as [Hr _]. unfold zlen at 2 in Hlen. cbn [length] in Hlen.
  destruct (submit_ok shift capacity prps shift_range capacity_range prps_len prps_pages prps_distinct m0 mem0 rs P P d r Hi ltac:(lia) ltac:(lia) Hr) as (d' & -> & Hi'). cbn [mbind res_bind].
  exists d', (rs ++ [r]), todo. split_and!; try done; [by rewrite <- app_assoc|]. intros _. rewrite zlen_app. unfold zlen at 2. cbn. lia.
Qed.

Lemma step_controller d todo : nvme_step shift capacity prps (d, todo) Controller = Ok (controller_step shift d, todo).
Proof. done. Qed.

Lemma step_interrupt d todo d' : handle_queue prps d = Ok d' -> nvme_step shift capacity prps (d, todo) Interrupt = Ok (d', todo).
Proof. intros E. unfold nvme_step. by rewrite E. Qed.

Lemma run_cons s e es s' : nvme_step shift capacity prps s e = Ok s' -> nvme_run shift capacity prps s (e :: es) = nvme_run shift capacity prps s' es.
Proof. intros E. cbn [nvme_run]. by rewrite E. Qed.

Lemma round_ok all s k : Forall (req_ok shift capacity) all -> zlen all < 2 ^ 31 -> settled all k s ->
  exists s', nvme_run shift capacity prps s [Driver; Controller; Interrupt] = Ok s' /\ settled all (Z.max 0 (k - 1)) s'.
Proof.
  intros Hall Hlen (rs & P & Hi & Ea & Hk). destruct s as [d todo]. cbn [fst snd] in *. destruct (driver_turn all rs P d todo Hall Hlen Hi Ea) as (d1 & rs1 & todo1 & E1 & Hi1 & Ea1 & Hp1).
  pose proof (controller_ok shift capacity prps shift_range capacity_range prps_len prps_distinct m0 mem0 rs1 P P d1 Hi1) as Hi2. destruct (handle_queue_ok shift capacity prps shift_range capacity_range prps_len prps_pages m0 mem0 rs1 _ P _ Hi2) as (d3 & E3 & Hi3).
  exists (d3, todo1). split; [by rewrite (run_cons _ _ _ _ E1), (run_cons _ _ _ _ (step_controller _ _)), (run_cons _ _ _ _ (step_interrupt _ _ _ E3))|]. eexists rs1, _. split; [exact Hi3|]. split; [exact Ea1|].
  pose proof (ni_order _ _ _ _ _ _ _ _ _ _ _ Hi1) as Ho1. assert (zlen rs1 <= zlen all) by (rewrite Ea1, zlen_app; pose proof (zlen_nonneg todo1); lia). destruct (Z.eqb_spec P (zlen rs1)); lia.
Qed.

Fixpoint rounds (n : nat) : list nvme_event := match n with O => [] | S n => Driver :: Controller :: Interrupt :: rounds n end.

Lemma nvme_run_app s es es' : nvme_run shift capacity prps s (es ++ es') = (s ← nvme_run shift capacity prps s es; nvme_run shift capacity prps s es').
Proof. revert s. induction es as [|e es IH]; intros s; [done|]. cbn [app nvme_run]. destruct (nvme_step _ _ _ s e) as [s1|]; [|done]. cbn [mbind res_bind]. apply IH. Qed.

Lemma rounds_ok all n : Forall (req_ok shift capacity) all -> zlen all < 2 ^ 31 -> forall s k, settled all k s -> 0 <= k -> exists s', nvme_run shift capacity prps s (rounds n) = Ok s' /\ settled all (Z.max 0 (k - Z.of_nat n)) s'.
Proof.
  intros Hall Hlen. induction n as [|n IH]; intros s k Hs Hk; [exists s; split; [done|]; by replace (Z.max 0 (k - Z.of_nat 0)) with k by lia|].
  destruct (round_ok all s k Hall Hlen Hs) as (s1 & E1 & Hs1). destruct (IH s1 _ Hs1 ltac:(lia)) as (s2 & E2 & Hs2). exists s2. split.
  - change (rounds (S n)) with ([Driver; Controller; Interrupt] ++ rounds n). by rewrite nvme_run_app, E1.
  - replace (Z.max 0 (k - Z.of_nat (S n))) with (Z.max 0 (Z.max 0 (k - 1) - Z.of_nat n)) by lia. done.
Qed.

Lemma settled_idle all s : settled all 0 s -> nvme_idle s = true.
Proof.
  intros (rs & P & Hi & Ea & Hk). pose proof (ni_order _ _ _ _ _ _ _ _ _ _ _ Hi) as Ho. destruct s as [d todo]. cbn in *. rewrite Ea, zlen_app in Hk.
  assert (todo = []) as -> by (destruct todo; [done|]; unfold zlen in *; cbn in Hk; lia). change (zlen []) with 0 in Hk. unfold nvme_idle, queue_empty. cbn. rewrite (ni_sq _ _ _ _ _ _ _ _ _ _ _ Hi), (ni_cq _ _ _ _ _ _ _ _ _ _ _ Hi). cbn.
  replace (zlen rs) with P by lia. by rewrite !Z.eqb_refl.
Qed.

(** C31: From any state that such a run can be in, as many turns of the driver, the controller
    and the interrupt as there are commands lead to one where [nvme_sync] returns: the driver
    never waits for room that nobody makes. *)
Theorem nvme_sync_returns ts rs es : Forall transfer_ok ts -> all_requests shift ts = Ok rs -> zlen rs < 2 ^ 31 ->
  exists s, nvme_run shift capacity prps (nvme_start m0 mem0 pg, rs) (es ++ Interrupt :: rounds (length rs)) = Ok s /\ nvme_idle s = true.
Proof.
  intros Hts Hall Hlen. destruct (all_requests_ok ts m0 mem0 Hts media_len) as (rs' & E & R1 & _). rewrite Hall in E. injection E as <-.
  destruct (run_ok shift capacity prps shift_range capacity_range prps_len prps_pages prps_distinct m0 mem0 rs es R1 Hlen _ (run_inv_start rs)) as (s & E1 & rs1 & P & H & Hi & Ea). rewrite nvme_run_app, E1. cbn [mbind res_bind].
  destruct s as [d todo]. cbn [fst snd] in *. destruct (handle_queue_ok shift capacity prps shift_range capacity_range prps_len prps_pages m0 mem0 rs1 P H d Hi) as (d2 & E2 & Hi2). rewrite (run_cons _ _ _ _ (step_interrupt d todo d2 E2)).
  pose proof (ni_order _ _ _ _ _ _ _ _ _ _ _ Hi) as Ho. destruct (rounds_ok rs (length rs) R1 Hlen (d2, todo) (zlen rs)) as (s' & E3 & Hs'); [exists rs1, P; split_and!; try done; lia|apply zlen_nonneg|].
  exists s'. split; [done|]. apply (settled_idle rs). by replace (Z.max 0 (zlen rs - Z.of_nat (length rs))) with 0 in Hs' by (unfold zlen; lia).
Qed.
End Transfers.

(** The counter of commands after [n] of them. *)
Definition counter_after (n : nat) : Z := Nat.iter n (fun c => (make_cmdid TASK_ID_ASYNC_READ c).2) 0.
Lemma counter_after_eq n : counter_after n = s32 (Z.of_nat n).
Proof.
  induction n as [|n IH]; [done|]. unfold counter_after in *. cbn [Nat.iter nat_rect]. unfold Nat.iter in IH. rewrite IH. cbn. unfold s32, wrap. repeat case_match; lia.
Qed.

(** [cmd_counter] is an [int]: after 2^31 + 1 commands of the drives of the machine it is
    negative, and so is the index of the page of the next read, which is outside of [prps]. *)
Theorem nvme_counter_overflow shift capacity prps d lba buf c n : Z.of_nat n = 2 ^ 31 + 1 -> cmd_counter d = counter_after n -> async_read_one shift capacity prps lba buf c d = Err (Fault "out of bounds").
Proof.
  intros Hn Hc. unfold async_read_one. rewrite Hc, counter_after_eq, Hn. vm_compute (make_cmdid _ _). cbn [mbind res_bind]. done.
Qed.

(** ** A drive of 1000 sectors *)

Definition prps1 : list Z := (fun j => 0x1000 * (j + 1)) <$> seqZ 0 64.
Definition media1 : Z -> list Z := fun l => replicate 512 (l mod 256).
Definition pages1 : Z -> list Z := fun _ => replicate 4096 0.
Definition zeros : Z -> Z := fun _ => 0.

Lemma prps1_pages : Forall prp_addr prps1.
Proof. apply list.Forall_fmap, list.Forall_forall. intros j Hj%elem_of_seqZ. unfold prp_addr. cbn. lia. Qed.
Lemma prps1_distinct : NoDup prps1.
Proof. apply NoDup_fmap_2; [intros x y; lia|apply NoDup_seqZ]. Qed.
Lemma media1_ok : media_ok 9 media1.
Proof. intros l. unfold media1, zlen. rewrite length_replicate. reflexivity. Qed.
Lemma pages1_len j : 0 <= j < 64 -> zlen (pages1 (nthZ prps1 j)) = 4096.
Proof. intros _. unfold pages1, zlen. rewrite length_replicate. reflexivity. Qed.

(** 20 sectors are written, 30 are read back around them. *)
Definition transfers1 : list transfer := [WriteOp 5 (replicate 10240 7) 20; ReadOp 3 0x10000 30].
Definition requests1 : list request := match all_requests 9 transfers1 with Ok rs => rs | Err _ => [] end.
Lemma transfers1_ok : Forall (transfer_ok 9 1000) transfers1.
Proof. repeat constructor; vm_compute; done. Qed.
Lemma requests1_eq : all_requests 9 transfers1 = Ok requests1.
Proof. vm_compute. reflexivity. Qed.
Lemma requests1_len : zlen requests1 = 7.
Proof. vm_compute. reflexivity. Qed.

Definition schedule1 : list nvme_event := [Driver; Controller; Driver; Driver; Interrupt; Controller].


Lemma nvme_sync_witness : exists s, nvme_run 9 1000 prps1 (nvme_start media1 zeros pages1, requests1) (schedule1 ++ Interrupt :: rounds (length requests1)) = Ok s /\ nvme_idle s = true.
Proof.
  exact (nvme_sync_returns 9 1000 prps1 ltac:(lia) ltac:(lia) eq_refl prps1_pages prps1_distinct media1 zeros pages1 media1_ok pages1_len transfers1 requests1 schedule1 transfers1_ok requests1_eq
    ltac:(rewrite requests1_len; lia)).
Defined.

Definition worn_drive : nvme := set_counter (nvme_start media1 zeros pages1) (s32 (2 ^ 31 + 1)).
Lemma nvme_counter_witness : async_read_one 9 1000 prps1 0 0x10000 1 worn_drive = Err (Fault "out of bounds").
Proof.
  exact (nvme_counter_overflow 9 1000 prps1 worn_drive 0 0x10000 1 (Z.to_nat (2 ^ 31 + 1)) (Z2Nat.id (2 ^ 31 + 1) ltac:(lia))
    (eq_sym (eq_trans (counter_after_eq (Z.to_nat (2 ^ 31 + 1))) (f_equal s32 (Z2Nat.id (2 ^ 31 + 1) ltac:(lia)))))).
Defined.
