(* ===== verification/Sprintf.v ===== *)
(** * Formatted output of the kernel ([kernel/lib/sprintf.c])

    Numbers in decimal and hexadecimal, and [vsprintf].  What is written is the list of the
    characters in front of the final zero; a character is its code. *)

From S2P Require Import Prelude Bytes.




(** A value of [int64_t] in a 64-bit register. *)
Definition int64 (x : Z) : Z := let y := u64 x in if y <? 2 ^ 63 then y else y - 2 ^ 64.

(** ** Numbers *)

(** [while(_x & ~0xf)] and [while(_x > 9)]: the number of digits, at most 20. *)
Fixpoint hex_digits (fuel : nat) (x digits : Z) : Z :=
  match fuel with
  | O => digits
  | S fuel' => if Z.land x (2 ^ 64 - 16) =? 0 then digits else hex_digits fuel' (Z.shiftr x 4) (digits + 1)
  end.
Fixpoint dec_digits (fuel : nat) (x digits : Z) : Z :=
  match fuel with
  | O => digits
  | S fuel' => if 9 <? x then dec_digits fuel' (x / 10) (digits + 1) else digits
  end.

(** [for(int i = digits; i > 0; i--)]: [end] is what was written behind. *)
Fixpoint put_hex (n : nat) (x : Z) (end_ : list Z) : list Z :=
  match n with
  | O => end_
  | S n' => let d := Z.land x 0x0f in put_hex n' (Z.shiftr x 4) ((if d <? 0xa then d + 48 else d + 97 - 10) :: end_)
  end.
Fixpoint put_dec (n : nat) (x : Z) (end_ : list Z) : list Z :=
  match n with O => end_ | S n' => put_dec n' (x / 10) (48 + x mod 10 :: end_) end.

Definition at_least (digits min_digits : Z) : nat := Z.to_nat (if digits <? min_digits then min_digits else digits).
Definition utohex (x min_digits : Z) : list Z := put_hex (at_least (hex_digits 20 x 1) min_digits) x [].
Definition utos (x min_digits : Z) : list Z := put_dec (at_least (dec_digits 20 x 1) min_digits) x [].

(** [x *= -1] wraps around for the smallest number. *)
Definition itos (x min_digits : Z) : list Z := if x <? 0 then 45 :: utos (u64 (- x)) min_digits else utos (u64 x) min_digits.

(** ** [vsprintf] *)

(** An argument: a register or a string. *)
Inductive arg := AInt (x : Z) | AStr (s : list Z).

Definition arg_int (args : list arg) : res (Z * list arg) := match args with AInt x :: args => Ok (x, args) | _ => Err (Fault "va_arg") end.
Definition arg_str (args : list arg) : res (list Z * list arg) := match args with AStr s :: args => Ok (s, args) | _ => Err (Fault "va_arg") end.

(** The [switch]: what is written and the rest of the arguments. *)
Definition convert (cf digits : Z) (long : bool) (args : list arg) : res (list Z * list arg) :=
  if cf =? 117 then '(x, args) ← arg_int args; Ok (utos (if long then u64 x else u32 x) digits, args)
  else if (cf =? 100) || (cf =? 105) then '(x, args) ← arg_int args; Ok (itos (if long then int64 x else s32 x) digits, args)
  else if (cf =? 104) || (cf =? 120) then '(x, args) ← arg_int args; Ok (utohex (if long then u64 x else u32 x) digits, args)
  else if cf =? 115 then
    '(s, args) ← arg_str args;
    Ok (if 0 <=? digits then (if s32 (zlen s) <? digits then s else take (Z.to_nat digits) s) else s, args)
  else if cf =? 99 then '(x, args) ← arg_int args; Ok ([u8 x], args)
  else Ok ([], args).

(** [while(1)] over the characters of the format: what is written and [args_put]. *)
Fixpoint vsprintf_loop (format : list Z) (persent : bool) (digits : Z) (long : bool) (args : list arg) (args_put : Z) : res (list Z * Z) :=
  match format with
  | [] => Ok ([], args_put)
  | cf :: format =>
      if persent then
        if cf =? 46 then vsprintf_loop format persent digits long args args_put
        else if cf =? 108 then vsprintf_loop format persent digits true args args_put
        else
          let i := cf - 48 in
          if (0 <=? i) && (i <=? 9) then
            let digits := if digits <? 0 then 0 else digits in
            vsprintf_loop format persent (s32 (10 * digits + i)) long args args_put
          else
            '(w, args) ← convert cf digits long args;
            '(out, n) ← vsprintf_loop format false (-1) false args (args_put + 1);
            Ok (w ++ out, n)
      else if cf =? 37 then vsprintf_loop format true digits long args args_put
      else '(out, n) ← vsprintf_loop format false digits long args args_put; Ok (cf :: out, n)
  end.
Definition vsprintf (format : list Z) (args : list arg) : res (list Z * Z) := vsprintf_loop format false (-1) false args 0.

(** ** Reading numbers back *)

Definition dec_value (c : Z) : Z := c - 48.
Definition hex_value (c : Z) : Z := if c <? 97 then c - 48 else c - 87.
Definition of_digits (base : Z) (value : Z -> Z) (s : list Z) : Z := foldl (fun n c => base * n + value c) 0 s.

(** [put] in either base writes the lowest [n] digits of a number. *)
Lemma put_dec_app n : forall x e, put_dec n x e = put_dec n x [] ++ e.
Proof. induction n as [|n IH]; intros x e; [done|]. cbn. rewrite IH, (IH _ [_]), <- app_assoc. done. Qed.
Lemma put_hex_app n : forall x e, put_hex n x e = put_hex n x [] ++ e.
Proof. induction n as [|n IH]; intros x e; [done|]. cbn. rewrite IH, (IH _ [_]), <- app_assoc. done. Qed.

Lemma of_digits_snoc base value s c : of_digits base value (s ++ [c]) = base * of_digits base value s + value c.
Proof. unfold of_digits. by rewrite foldl_app. Qed.

Lemma put_dec_ok n : forall x, 0 <= x -> of_digits 10 dec_value (put_dec n x []) = x mod 10 ^ Z.of_nat n /\ zlen (put_dec n x []) = Z.of_nat n /\ Forall (fun c => 48 <= c <= 57) (put_dec n x []).
Proof.
  induction n as [|n IH]; intros x Hx; [cbn; rewrite Z.mod_1_r; done|]. cbn [put_dec]. rewrite put_dec_app, of_digits_snoc, zlen_app. destruct (IH (x / 10)) as (H1 & H2 & H3); [lia|]. rewrite H1, H2. split_and!.
  - rewrite Nat2Z.inj_succ, Z.pow_succ_r by lia. rewrite Z.rem_mul_r by lia. unfold dec_value. lia.
  - unfold zlen. cbn. lia.
  - apply list.Forall_app. split; [done|]. constructor; [lia|done].
Qed.

Lemma land_low4 x : Z.land x 0x0f = x mod 16.
Proof. change 0x0f with (Z.ones 4). by rewrite Z.land_ones. Qed.

Lemma put_hex_ok n : forall x, 0 <= x -> of_digits 16 hex_value (put_hex n x []) = x mod 16 ^ Z.of_nat n /\ zlen (put_hex n x []) = Z.of_nat n /\ Forall (fun c => 48 <= c <= 57 \/ 97 <= c <= 102) (put_hex n x []).
Proof.
  induction n as [|n IH]; intros x Hx; [cbn; rewrite Z.mod_1_r; done|]. cbn [put_hex]. rewrite put_hex_app, of_digits_snoc, zlen_app. rewrite Z.shiftr_div_pow2 by lia. change (2 ^ 4) with 16.
  destruct (IH (x / 16)) as (H1 & H2 & H3); [lia|]. rewrite H1, H2, land_low4. split_and!.
  - rewrite Nat2Z.inj_succ, Z.pow_succ_r by lia. rewrite Z.rem_mul_r by lia. unfold hex_value. destruct (Z.ltb_spec (x mod 16) 10).
    + rewrite (proj2 (Z.ltb_lt _ 97)) by lia. lia.
    + rewrite (proj2 (Z.ltb_ge _ 97)) by lia. lia.
  - unfold zlen. cbn. lia.
  - apply list.Forall_app. split; [done|]. constructor; [|done]. destruct (Z.ltb_spec (x mod 16) 10); lia.
Qed.

(** The loops count enough digits, and none too many. *)
Lemma dec_digits_ok fuel : forall x d, 0 <= x < 10 ^ Z.of_nat fuel -> 0 < Z.of_nat fuel -> exists k, dec_digits fuel x d = d + k /\ 0 <= k /\ x < 10 ^ (k + 1) /\ (0 < k -> 10 ^ k <= x).
Proof.
  induction fuel as [|fuel IH]; intros x d Hx Hf; [lia|]. cbn [dec_digits]. destruct (Z.ltb_spec 9 x); [|exists 0; change (10 ^ (0 + 1)) with 10; split_and!; lia].
  rewrite Nat2Z.inj_succ, Z.pow_succ_r in Hx by lia. destruct (decide (fuel = 0%nat)) as [->|]; [cbn in Hx; lia|]. destruct (IH (x / 10) (d + 1)) as (k & -> & H0 & H1 & H2); [lia|lia|]. exists (k + 1).
  assert (10 ^ (k + 1 + 1) = 10 * 10 ^ (k + 1)) as E1 by (rewrite <- Z.pow_succ_r by lia; f_equal; lia). assert (10 ^ (k + 1) = 10 * 10 ^ k) as E2 by (rewrite <- Z.pow_succ_r by lia; f_equal; lia). split_and!; [lia|lia|lia|].
  intros _. destruct (Z.eq_dec k 0) as [->|]; [lia|]. specialize (H2 ltac:(lia)). lia.
Qed.

Lemma land_high4 x : 0 <= x < 2 ^ 64 -> (Z.land x (2 ^ 64 - 16) =? 0) = (x <? 16).
Proof.
  intros Hx. assert (Z.land x (2 ^ 64 - 16) = Z.shiftl (Z.shiftr x 4) 4) as ->.
  { apply Z.bits_inj'. intros n Hn. change (2 ^ 64 - 16) with (Z.shiftl (Z.ones 60) 4). rewrite Z.land_spec, !Z.shiftl_spec by lia. destruct (Z.lt_ge_cases n 4); [rewrite !(Z.testbit_neg_r _ (n - 4)) by lia; apply andb_false_r|].
    rewrite Z.shiftr_spec by lia. replace (n - 4 + 4) with n by lia. destruct (Z.lt_ge_cases n 64); [rewrite Z.ones_spec_low by lia; apply andb_true_r|]. rewrite <- (Z.mod_small x (2 ^ 64)) by lia. by rewrite Z.mod_pow2_bits_high by lia. }
  rewrite Z.shiftl_mul_pow2, Z.shiftr_div_pow2 by lia. change (2 ^ 4) with 16. zb.
Qed.

Lemma hex_digits_ok fuel : forall x d, 0 <= x < 2 ^ 64 -> x < 16 ^ Z.of_nat fuel -> 0 < Z.of_nat fuel -> exists k, hex_digits fuel x d = d + k /\ 0 <= k /\ x < 16 ^ (k + 1) /\ (0 < k -> 16 ^ k <= x).
Proof.
  induction fuel as [|fuel IH]; intros x d Hx Hp Hf; [lia|]. cbn [hex_digits]. rewrite land_high4 by done. destruct (Z.ltb_spec x 16); [exists 0; change (16 ^ (0 + 1)) with 16; split_and!; lia|].
  rewrite Nat2Z.inj_succ, Z.pow_succ_r in Hp by lia. rewrite Z.shiftr_div_pow2 by lia. change (2 ^ 4) with 16. destruct (decide (fuel = 0%nat)) as [->|]; [cbn in Hp; lia|].
  destruct (IH (x / 16) (d + 1)) as (k & -> & H0 & H1 & H2); [lia|lia|lia|]. exists (k + 1).
  assert (16 ^ (k + 1 + 1) = 16 * 16 ^ (k + 1)) as E1 by (rewrite <- Z.pow_succ_r by lia; f_equal; lia). assert (16 ^ (k + 1) = 16 * 16 ^ k) as E2 by (rewrite <- Z.pow_succ_r by lia; f_equal; lia). split_and!; [lia|lia|lia|].
  intros _. destruct (Z.eq_dec k 0) as [->|]; [lia|]. specialize (H2 ltac:(lia)). lia.
Qed.

(** ** Theorems *)

Lemma at_least_eq d md : 0 <= d -> Z.of_nat (at_least d md) = Z.max d md.
Proof. intros Hd. unfold at_least. destruct (Z.ltb_spec d md); lia. Qed.

Lemma pow_mono base a b : 1 < base -> 0 <= a <= b -> base ^ a <= base ^ b.
Proof. intros. apply Z.pow_le_mono_r; lia. Qed.

Lemma utos_ok x md : 0 <= x < 2 ^ 64 -> of_digits 10 dec_value (utos x md) = x /\ Forall (fun c => 48 <= c <= 57) (utos x md) /\
  exists k, 1 <= k /\ x < 10 ^ k /\ (1 < k -> 10 ^ (k - 1) <= x) /\ zlen (utos x md) = Z.max k md.
Proof.
  intros Hx. unfold utos. destruct (dec_digits_ok 20 x 1) as (k & -> & H0 & H1 & H2); [change (10 ^ Z.of_nat 20) with 100000000000000000000; lia|lia|]. pose proof (at_least_eq (1 + k) md ltac:(lia)) as El.
  destruct (put_dec_ok (at_least (1 + k) md) x ltac:(lia)) as (P1 & P2 & P3). rewrite P1, P2, El. split_and!; [|done|].
  - apply Z.mod_small. pose proof (pow_mono 10 (k + 1) (Z.max (1 + k) md) ltac:(lia) ltac:(lia)). lia.
  - exists (1 + k). split_and!; [lia|by rewrite Z.add_comm|intros Hk; replace (1 + k - 1) with k by lia; apply H2; lia|done].
Qed.

(** A number printed in decimal or hexadecimal reads back as the same number, for every value of 64
    bits and every minimal number of digits; no digit is superfluous unless it was asked for.  A
    negative number is printed as a minus sign and its absolute value, the smallest one too. *)
Theorem printed_numbers_read_back x md : 0 <= x < 2 ^ 64 ->
  (of_digits 10 dec_value (utos x md) = x /\ exists k, 1 <= k /\ x < 10 ^ k /\ (1 < k -> 10 ^ (k - 1) <= x) /\ zlen (utos x md) = Z.max k md) /\
  (of_digits 16 hex_value (utohex x md) = x /\ exists k, 1 <= k /\ x < 16 ^ k /\ (1 < k -> 16 ^ (k - 1) <= x) /\ zlen (utohex x md) = Z.max k md) /\
  (if int64 x <? 0 then exists s, itos (int64 x) md = 45 :: s /\ of_digits 10 dec_value s = - int64 x else of_digits 10 dec_value (itos (int64 x) md) = int64 x).
Proof.
  intros Hx. split; [|split].
  - destruct (utos_ok x md Hx) as (H1 & _ & H2). done.
  - unfold utohex. destruct (hex_digits_ok 20 x 1) as (k & -> & H0 & H1 & H2); [done|change (16 ^ Z.of_nat 20) with (2 ^ 80); lia|lia|]. pose proof (at_least_eq (1 + k) md ltac:(lia)) as El.
    destruct (put_hex_ok (at_least (1 + k) md) x ltac:(lia)) as (P1 & P2 & _). rewrite P1, P2, El. split.
    + apply Z.mod_small. pose proof (pow_mono 16 (k + 1) (Z.max (1 + k) md) ltac:(lia) ltac:(lia)). lia.
    + exists (1 + k). split_and!; [lia|by rewrite Z.add_comm|intros Hk; replace (1 + k - 1) with k by lia; apply H2; lia|done].
  - unfold itos. assert (int64 x = x /\ x < 2 ^ 63 \/ int64 x = x - 2 ^ 64 /\ 2 ^ 63 <= x) as [[-> Hs]|[-> Hs]] by (unfold int64; rewrite u64_small by lia; zb).
    + rewrite (proj2 (Z.ltb_ge _ _)) by lia. rewrite u64_small by lia. by apply utos_ok.
    + rewrite (proj2 (Z.ltb_lt _ _)) by lia. eexists. split; [done|]. rewrite u64_small by lia. apply utos_ok. lia.
Qed.

(** A format: characters, and directives with an optional dot, a width and the mark [l]. *)
Inductive piece := Text (c : Z) | Directive (dot : bool) (width : list Z) (long : bool) (conv : Z).

Definition piece_text (p : piece) : list Z :=
  match p with
  | Text c => [c]
  | Directive dot width long conv => [37] ++ (if dot then [46] else []) ++ (Z.add 48 <$> width) ++ (if long then [108] else []) ++ [conv]
  end.
Definition width_value (width : list Z) : Z := match width with [] => -1 | _ => foldl (fun n i => 10 * n + i) 0 width end.

(** No width overflows, and what ends a directive is none of its parts. *)
Definition piece_ok (p : piece) : Prop :=
  match p with
  | Text c => c <> 37
  | Directive dot width long conv => Forall (fun i => 0 <= i <= 9) width /\ (length width <= 9)%nat /\ conv <> 46 /\ conv <> 108 /\ ~ (48 <= conv <= 57)
  end.

Fixpoint render (ps : list piece) (args : list arg) (n : Z) : res (list Z * Z) :=
  match ps with
  | [] => Ok ([], n)
  | Text c :: ps => '(out, n) ← render ps args n; Ok (c :: out, n)
  | Directive _ width long conv :: ps => '(w, args) ← convert conv (width_value width) long args; '(out, n) ← render ps args (n + 1); Ok (w ++ out, n)
  end.

Lemma width_bound width : forall n, Forall (fun i => 0 <= i <= 9) width -> 0 <= n -> 0 <= foldl (fun n i => 10 * n + i) n width < (n + 1) * 10 ^ Z.of_nat (length width).
Proof.
  induction width as [|i width IH]; intros n Hw Hn; [cbn; lia|]. apply list.Forall_cons in Hw as [Hi Hw]. cbn [foldl length]. destruct (IH (10 * n + i) Hw ltac:(lia)) as [H1 H2]. split; [done|]. eapply Z.lt_le_trans; [exact H2|].
  rewrite Nat2Z.inj_succ, Z.pow_succ_r, Z.mul_assoc by lia. apply Z.mul_le_mono_nonneg_r; [apply Z.pow_nonneg; lia|lia].
Qed.

(** The width of a directive is read digit by digit. *)
Lemma width_loop width rest long args n : forall d, Forall (fun i => 0 <= i <= 9) width -> -1 <= d -> (Z.max d 0 + 1) * 10 ^ Z.of_nat (length width) < 2 ^ 31 ->
  vsprintf_loop ((Z.add 48 <$> width) ++ rest) true d long args n = vsprintf_loop rest true (match width with [] => d | _ => foldl (fun n i => 10 * n + i) (Z.max d 0) width end) long args n.
Proof.
  induction width as [|i width IH]; intros d Hw Hd Hb; [done|]. apply list.Forall_cons in Hw as [Hi Hw]. cbn [fmap list_fmap app vsprintf_loop]. rewrite (proj2 (Z.eqb_neq (48 + i) 46)), (proj2 (Z.eqb_neq (48 + i) 108)) by lia. replace (48 + i - 48) with i by lia.
  rewrite (proj2 (Z.leb_le 0 i)), (proj2 (Z.leb_le i 9)) by lia. cbn [andb]. assert ((if d <? 0 then 0 else d) = Z.max d 0) as -> by (destruct (Z.ltb_spec d 0); lia).
  cbn [length] in Hb. rewrite Nat2Z.inj_succ, Z.pow_succ_r in Hb by lia. assert (1 <= 10 ^ Z.of_nat (length width)) by (apply (Z.pow_le_mono_r 10 0); lia). set (m := Z.max d 0) in *. assert (0 <= m) by (unfold m; lia).
  assert ((m + 1) * 10 <= (m + 1) * (10 * 10 ^ Z.of_nat (length width))) by (apply Z.mul_le_mono_nonneg_l; lia). rewrite s32_small by lia. rewrite IH; [|done|lia|].
  - cbn [foldl]. rewrite Z.max_l by lia. by destruct width.
  - rewrite Z.max_l by lia. eapply Z.le_lt_trans; [|exact Hb]. rewrite Z.mul_assoc. apply Z.mul_le_mono_nonneg_r; lia.
Qed.

Lemma directive_loop dot width long conv rest args n : piece_ok (Directive dot width long conv) ->
  vsprintf_loop (piece_text (Directive dot width long conv) ++ rest) false (-1) false args n =
  ('(w, args) ← convert conv (width_value width) long args; '(out, n) ← vsprintf_loop rest false (-1) false args (n + 1); Ok (w ++ out, n)).
Proof.
  intros (Hw & Hlen & H1 & H2 & H3). unfold piece_text. rewrite <- !app_assoc. cbn [app vsprintf_loop Z.eqb Pos.eqb].
  assert (forall rest', vsprintf_loop ((if dot then [46] else []) ++ rest') true (-1) false args n = vsprintf_loop rest' true (-1) false args n) as -> by (by destruct dot).
  assert (1 * 10 ^ Z.of_nat (length width) < 2 ^ 31) as Hb by (apply Z.le_lt_trans with (1 * 10 ^ 9); [|lia]; rewrite !Z.mul_1_l; apply Z.pow_le_mono_r; lia).
  rewrite width_loop by (done || lia). change (match width with [] => -1 | _ => foldl (fun n i => 10 * n + i) (Z.max (-1) 0) width end) with (width_value width).
  assert (forall rest' d, vsprintf_loop ((if long then [108] else []) ++ rest') true d false args n = vsprintf_loop rest' true d long args n) as -> by (by destruct long).
  cbn [vsprintf_loop app]. rewrite (proj2 (Z.eqb_neq conv 46)), (proj2 (Z.eqb_neq conv 108)) by done. destruct (Z.leb_spec 0 (conv - 48)), (Z.leb_spec (conv - 48) 9); cbn [andb]; try done. lia.
Qed.


Lemma percent_loop s args : 37 ∉ s -> forall n, vsprintf_loop (s ++ [37; 37]) false (-1) false args n = Ok (s, n + 1).
Proof.
  induction s as [|c s IH]; intros Hs n; [done|]. apply not_elem_of_cons in Hs as [Hc Hs]. cbn [app vsprintf_loop]. rewrite (proj2 (Z.eqb_neq c 37)) by done. by rewrite IH.
Qed.

(** A doubled percent sign is a directive that prints nothing, where the comment of the code
    says that it prints one. *)
Theorem vsprintf_percent_lost s args : 37 ∉ s -> vsprintf (s ++ [37; 37]) args = Ok (s, 1).
Proof. intros Hs. exact (percent_loop s args Hs 0). Qed.

(** ** Examples *)

(** [x = %08lx, %d: %.3s] *)
Definition format1 : list piece :=
  [Text 120; Text 32; Text 61; Text 32; Directive false [0; 8] true 120; Text 44; Text 32; Directive false [] false 100; Text 58; Text 32; Directive true [3] false 115].
Definition args1 : list arg := [AInt 0xbeef; AInt (2 ^ 32 - 5); AStr [97; 98; 99; 100]].

Lemma format1_ok : Forall piece_ok format1.
Proof. repeat constructor; cbn; try done; lia. Qed.


Lemma printed_numbers_witness : of_digits 10 dec_value (utos 1234 6) = 1234 /\ utos 1234 6 = [48; 48; 49; 50; 51; 52] /\ of_digits 16 hex_value (utohex (2 ^ 64 - 1) (-1)) = 2 ^ 64 - 1.
Proof. exact (conj (proj1 (proj1 (printed_numbers_read_back 1234 6 ltac:(lia)))) (conj eq_refl (proj1 (proj1 (proj2 (printed_numbers_read_back (2 ^ 64 - 1) (-1) ltac:(lia))))))). Defined.

(** [100%%] *)
Lemma vsprintf_percent_witness : vsprintf [49; 48; 48; 37; 37] [] = Ok ([49; 48; 48], 1).
Proof. exact (vsprintf_percent_lost [49; 48; 48] [] ltac:(rewrite !elem_of_cons, elem_of_nil; lia)). Defined.
