(* ===== verification/Elf.v ===== *)
(** * ELF loader ([kernel/lib/elf/elf.c], [spec.h])

    A file is a list of bytes.  The pages come from any [PageMapper]; the contents of the
    virtual memory are a function from addresses to bytes. *)

From S2P Require Import Prelude Bytes Interfaces HeapFree.




Definition PT_LOAD : Z := 1.
Definition EHDR_SIZE : Z := 64.
Definition PHDR_SIZE : Z := 56.

(** A field of [n] bytes at the offset [off] of a header. *)
Definition field (h : list Z) (off n : Z) : Z := le_bytes (slice h off n).

(** [ehdr_t] *)
Definition eh_magic (h : list Z) : Z := field h 0 4.
Definition eh_arch (h : list Z) : Z := field h 4 1.
Definition eh_endianess (h : list Z) : Z := field h 5 1.
Definition eh_header_version (h : list Z) : Z := field h 6 1.
Definition eh_abi (h : list Z) : Z := field h 7 1.
Definition eh_isa (h : list Z) : Z := field h 18 2.
Definition eh_version (h : list Z) : Z := field h 20 4.
Definition eh_program_entry (h : list Z) : Z := field h 24 8.
Definition eh_phdr_offset (h : list Z) : Z := field h 32 8.
Definition eh_ehdr_size (h : list Z) : Z := field h 52 2.
Definition eh_phdr_entry_size (h : list Z) : Z := field h 54 2.
Definition eh_phdr_table_size (h : list Z) : Z := field h 56 2.

(** [phdr_t] *)
Record phdr := Phdr { p_type : Z; p_flags : Z; p_offset : Z; p_addr : Z; p_filesz : Z; p_memsz : Z }.
Definition read_phdr (h : list Z) : phdr := Phdr (field h 0 4) (field h 4 4) (field h 8 8) (field h 16 8) (field h 32 8) (field h 40 8).

(** [struct elf_segment], [elf_program_t] *)
Record elf_segment := Segment { seg_base : Z; seg_length : Z; seg_flags : Z }.
Record elf_program := Program { prog_entry : Z; prog_segs : list elf_segment }.

Definition check_elf_header (ehdr : list Z) (file_size : Z) : bool :=
  if file_size <? EHDR_SIZE then false
  else
    (eh_magic ehdr =? 0x464c457f) && (eh_arch ehdr =? 2) && (eh_endianess ehdr =? 1) && (eh_header_version ehdr =? 1) && (eh_abi ehdr =? 0) &&
    (eh_version ehdr =? 1) && (eh_isa ehdr =? 0x3E) && (eh_ehdr_size ehdr =? EHDR_SIZE) && (eh_phdr_entry_size ehdr =? PHDR_SIZE).

(** [flags] is an [unsigned]: the bit 63 of [PL_XD] does not fit. *)
Definition convert_flags (p_flags : Z) : Z :=
  let flags := 1 in
  let flags := if Z.land p_flags 1 =? 0 then u32 (Z.lor flags (2 ^ 63)) else flags in
  if Z.land p_flags 2 =? 0 then u32 (Z.lor flags 2) else flags.

Section Elf.
Context {P : Type} `{PageMapper P}.

Definition mem_set (m : Z -> Z) (a : Z) (l : list Z) : Z -> Z := fun x => if (a <=? x) && (x <? a + zlen l) then nthZ l (x - a) else m x.
Definition page_count (base length : Z) : Z := Z.shiftr (u64 (length + Z.land base 0xfff + 0xfff)) 12.
Definition LOAD_FLAGS : Z := 7.

(** [for(unsigned i = 0; i < ehdr->phdr_table_size; i++, j++)]: [segs] are the first [j] segments.
    [None]: a bad file. *)
Fixpoint load_loop (file : list Z) (n : nat) (i : Z) (segs : list elf_segment) (p : P) (m : Z -> Z) : res (option (list elf_segment) * P * (Z -> Z)) :=
  match n with
  | O => Ok (Some segs, p, m)
  | S n' =>
      h ← rd_bytes file (u64 (eh_phdr_offset file + i * PHDR_SIZE)) PHDR_SIZE;
      let ph := read_phdr h in
      if negb (p_type ph =? PT_LOAD) then load_loop file n' (i + 1) segs p m
      else if (zlen file <? u64 (p_offset ph + p_filesz ph)) || (p_memsz ph <? p_filesz ph) then Ok (None, p, m)
      else
        let seg := Segment (p_addr ph) (p_memsz ph) (convert_flags (p_flags ph)) in
        p ← alloc_pages (Z.ldiff (p_addr ph) 0xfff) (page_count (p_addr ph) (p_memsz ph)) LOAD_FLAGS p;
        let m := mem_set m (p_addr ph) (replicate (Z.to_nat (p_memsz ph)) 0) in
        data ← rd_bytes file (p_offset ph) (p_filesz ph);
        load_loop file n' (i + 1) (segs ++ [seg]) p (mem_set m (p_addr ph) data)
  end.

(** [None]: the result is a null pointer. *)
Definition elf_load (file : list Z) (p : P) (m : Z -> Z) : res (option elf_program * P * (Z -> Z)) :=
  if zlen file =? 0 then Ok (None, p, m)
  else if negb (check_elf_header file (zlen file)) then Ok (None, p, m)
  else
    '(r, p, m) ← load_loop file (Z.to_nat (eh_phdr_table_size file)) 0 [] p m;
    match r with
    | None => Ok (None, p, m)
    | Some segs => Ok (Some (Program (eh_program_entry file) segs), p, m)
    end.

(** ** What loading a file means *)

(** The program headers of a file. *)
Definition phdr_at (file : list Z) (i : Z) : phdr := read_phdr (slice file (eh_phdr_offset file + i * PHDR_SIZE) PHDR_SIZE).
Definition phdrs (file : list Z) : list phdr := phdr_at file <$> seqZ 0 (eh_phdr_table_size file).
Definition loads (hs : list phdr) : list phdr := filter (fun h => p_type h = PT_LOAD) hs.

(** The byte [k] of a segment in memory. *)
Definition segment_byte (file : list Z) (h : phdr) (k : Z) : Z := if k <? p_filesz h then nthZ file (p_offset h + k) else 0.

Record load_ok (file : list Z) (h : phdr) : Prop := {
  lo_file : 0 <= p_offset h /\ 0 <= p_filesz h /\ p_offset h + p_filesz h <= zlen file;
  lo_mem : p_filesz h <= p_memsz h;
  lo_addr : 0 <= p_addr h /\ p_addr h + p_memsz h + 0x2000 < 2 ^ 64 }.

Record elf_ok (file : list Z) : Prop := {
  eo_header : check_elf_header file (zlen file) = true;
  eo_size : zlen file < 2 ^ 63;
  eo_table : 0 <= eh_phdr_offset file /\ 0 <= eh_phdr_table_size file /\ eh_phdr_offset file + eh_phdr_table_size file * PHDR_SIZE <= zlen file;
  eo_loads : Forall (load_ok file) (loads (phdrs file)) }.

(** Two segments do not share a byte. *)
Definition apart (h h' : phdr) : Prop := p_addr h + p_memsz h <= p_addr h' \/ p_addr h' + p_memsz h' <= p_addr h.

(** The pages of the segments, allocated one after the other. *)
Fixpoint alloc_all (hs : list phdr) (p : P) : res P :=
  match hs with
  | [] => Ok p
  | h :: hs => p ← alloc_pages (Z.ldiff (p_addr h) 0xfff) (page_count (p_addr h) (p_memsz h)) LOAD_FLAGS p; alloc_all hs p
  end.

Definition segment_of (h : phdr) : elf_segment := Segment (p_addr h) (p_memsz h) (convert_flags (p_flags h)).

(** The memory after the segments were copied. *)
Definition copied (file : list Z) (h : phdr) (m : Z -> Z) : Z -> Z :=
  mem_set (mem_set m (p_addr h) (replicate (Z.to_nat (p_memsz h)) 0)) (p_addr h) (slice file (p_offset h) (p_filesz h)).

Lemma copied_at file h m x : load_ok file h -> copied file h m x = if (p_addr h <=? x) && (x <? p_addr h + p_memsz h) then segment_byte file h (x - p_addr h) else m x.
Proof.
  intros [(F1 & F2 & F3) F4 F5]. unfold copied, mem_set, segment_byte. assert (zlen (slice file (p_offset h) (p_filesz h)) = p_filesz h) as -> by (apply zlen_slice; lia).
  assert (zlen (replicate (Z.to_nat (p_memsz h)) 0) = p_memsz h) as -> by (unfold zlen; rewrite length_replicate; lia).
  destruct (Z.leb_spec (p_addr h) x); cbn; [|done]. destruct (Z.ltb_spec x (p_addr h + p_filesz h)).
  - rewrite (proj2 (Z.ltb_lt x (p_addr h + p_memsz h))), (proj2 (Z.ltb_lt (x - p_addr h) _)) by lia. unfold nthZ. rewrite lookup_slice by lia. do 2 f_equal. lia.
  - rewrite (proj2 (Z.ltb_ge (x - p_addr h) _)) by lia. destruct (Z.ltb_spec x (p_addr h + p_memsz h)); [|done]. unfold nthZ. rewrite lookup_replicate_2 by lia. done.
Qed.

Lemma load_loop_ok file : elf_ok file -> forall n i segs p m p', 0 <= i -> i + Z.of_nat n = eh_phdr_table_size file ->
  let hs := loads (phdr_at file <$> seqZ i (Z.of_nat n)) in Forall (load_ok file) hs -> alloc_all hs p = Ok p' ->
  load_loop file n i segs p m = Ok (Some (segs ++ (segment_of <$> hs)), p', foldl (fun m h => copied file h m) m hs).
Proof.
  intros Hf. pose proof (eo_table _ Hf) as Ht. pose proof (eo_size _ Hf) as Hsz. induction n as [|n IH]; intros i segs p m p' Hi Hn hs Hhs Ha.
  - unfold hs in *. cbn in *. injection Ha as <-. by rewrite app_nil_r.
  - cbn [load_loop]. unfold PHDR_SIZE in *. rewrite u64_small by lia. rewrite rd_bytes_ok by lia. cbn [mbind res_bind]. fold (phdr_at file i).
    assert (hs = loads (phdr_at file i :: (phdr_at file <$> seqZ (i + 1) (Z.of_nat n)))) as Ehs by (unfold hs; rewrite seqZ_cons by lia; rewrite fmap_cons; do 3 f_equal; f_equal; lia).
    unfold loads in Ehs. rewrite filter_cons in Ehs. fold (loads (phdr_at file <$> seqZ (i + 1) (Z.of_nat n))) in Ehs. set (rest := loads (phdr_at file <$> seqZ (i + 1) (Z.of_nat n))) in *. set (h := phdr_at file i) in *. change (read_phdr _) with h.
    destruct (Z.eqb_spec (p_type h) PT_LOAD) as [Et|Et]; [rewrite decide_True in Ehs by done|rewrite decide_False in Ehs by done]; cbn [negb].
    + rewrite Ehs in *. apply list.Forall_cons in Hhs as [[(F1 & F2 & F3) F4 F5] Hrest]. cbn [alloc_all] in Ha. destruct (alloc_pages _ _ _ p) as [p1|] eqn:Ep; [|done]. cbn [mbind res_bind] in Ha.
      rewrite u64_small by lia. rewrite (proj2 (Z.ltb_ge (zlen file) _)), (proj2 (Z.ltb_ge (p_memsz h) _)) by lia. cbn [orb mbind res_bind]. rewrite rd_bytes_ok by lia. cbn [mbind res_bind].
      rewrite (IH (i + 1) _ p1 _ p') by (done || lia). fold rest. cbn [fmap list_fmap foldl]. by rewrite <- app_assoc.
    + rewrite Ehs in *. rewrite (IH (i + 1) _ p _ p') by (done || lia). done.
Qed.

Lemma loaded_others file hs m x : Forall (load_ok file) hs -> (forall h, h ∈ hs -> ~ (p_addr h <= x < p_addr h + p_memsz h)) -> foldl (fun m h => copied file h m) m hs x = m x.
Proof.
  revert m. induction hs as [|h hs IH]; intros m Hok Hx; [done|]. apply list.Forall_cons in Hok as [Hh Hok]. cbn. rewrite IH; [|done|intros h' Hin; apply Hx; set_solver].
  rewrite copied_at by done. specialize (Hx h ltac:(set_solver)). destruct (Z.leb_spec (p_addr h) x), (Z.ltb_spec x (p_addr h + p_memsz h)); cbn; done || lia.
Qed.

Lemma loaded_at file hs : forall m h k, Forall (load_ok file) hs -> ForallOrdPairs apart hs -> h ∈ hs -> 0 <= k < p_memsz h -> foldl (fun m h => copied file h m) m hs (p_addr h + k) = segment_byte file h k.
Proof.
  induction hs as [|h0 hs IH]; intros m h k Hok Hap Hin Hk; [by apply not_elem_of_nil in Hin|]. apply list.Forall_cons in Hok as [Hh Hok]. inversion Hap as [|? ? Ha1 Ha2]; subst. cbn.
  apply elem_of_cons in Hin as [->|Hin]; [|by apply IH]. rewrite loaded_others; [|done|].
  - rewrite copied_at by done. rewrite (proj2 (Z.leb_le _ _)), (proj2 (Z.ltb_lt _ _)) by lia. cbn. f_equal. lia.
  - intros h' Hin'. rewrite list.Forall_forall in Ha1. specialize (Ha1 h' Hin'). unfold apart in Ha1. lia.
Qed.

Lemma alloc_all_mapped file hs : forall p p', Forall (load_ok file) hs -> alloc_all hs p = Ok p' ->
  (forall v, mapped p v -> mapped p' v) /\ forall h k, h ∈ hs -> 0 <= k < p_memsz h -> mapped p' ((p_addr h + k) / 0x1000).
Proof.
  induction hs as [|h hs IH]; intros p p' Hok Ha; [injection Ha as <-; split; [done|]; intros h k Hin; by apply not_elem_of_nil in Hin|]. apply list.Forall_cons in Hok as [[(F1 & F2 & F3) F4 F5] Hok]. cbn [alloc_all] in Ha.
  destruct (alloc_pages _ _ _ p) as [p1|] eqn:Ep; [|done]. cbn [mbind res_bind] in Ha. destruct (IH p1 p' Hok Ha) as [I1 I2].
  assert (Z.ldiff (p_addr h) 0xfff = p_addr h - p_addr h mod 0x1000) as El by (change 0xfff with (Z.ones 12); rewrite Z.ldiff_ones_r by lia; rewrite Z.shiftl_mul_pow2, Z.shiftr_div_pow2 by lia; change (2 ^ 12) with 0x1000; lia).
  assert (Z.land (p_addr h) 0xfff = p_addr h mod 0x1000) as Em by (change 0xfff with (Z.ones 12); by rewrite Z.land_ones by lia).
  assert (page_count (p_addr h) (p_memsz h) = (p_memsz h + p_addr h mod 0x1000 + 0xfff) / 0x1000) as Ec by (unfold page_count; rewrite Em, u64_small by lia; by rewrite Z.shiftr_div_pow2 by lia).
  pose proof (alloc_pages_mapped (Z.ldiff (p_addr h) 0xfff) (page_count (p_addr h) (p_memsz h)) LOAD_FLAGS p p1 ltac:(rewrite El; lia) ltac:(rewrite Ec; lia) Ep) as Hm. split.
  - intros v Hv. apply I1, Hm. by left.
  - intros h' k [->|Hin]%elem_of_cons Hk; [|by apply I2]. apply I1, Hm. right. rewrite El, Ec. lia.
Qed.

(** C33: A well-formed file whose segments lie apart is loaded whenever the paging layer can back
    its segments: the result has the entry point and one segment per loadable header, in their
    order, every byte of a segment is mapped and holds the byte of the file or zero behind it,
    and no other byte of memory changes. *)
Theorem elf_load_correct file p p' m : elf_ok file -> ForallOrdPairs apart (loads (phdrs file)) -> alloc_all (loads (phdrs file)) p = Ok p' ->
  exists m', elf_load file p m = Ok (Some (Program (eh_program_entry file) (segment_of <$> loads (phdrs file))), p', m') /\
    (forall h k, h ∈ loads (phdrs file) -> 0 <= k < p_memsz h -> m' (p_addr h + k) = segment_byte file h k /\ mapped p' ((p_addr h + k) / 0x1000)) /\
    (forall x, (forall h, h ∈ loads (phdrs file) -> ~ (p_addr h <= x < p_addr h + p_memsz h)) -> m' x = m x).
Proof.
  intros Hf Hap Ha. pose proof (eo_table _ Hf) as Ht. pose proof (eo_loads _ Hf) as Hl. unfold elf_load. assert (zlen file <> 0) as H0 by (pose proof (eo_header _ Hf) as Hh; unfold check_elf_header, EHDR_SIZE in Hh; destruct (Z.ltb_spec (zlen file) 64); [done|lia]).
  rewrite (proj2 (Z.eqb_neq _ _) H0), (eo_header _ Hf). cbn [negb]. pose proof (load_loop_ok file Hf (Z.to_nat (eh_phdr_table_size file)) 0 [] p m p' ltac:(lia) ltac:(lia)) as Hloop. rewrite Z2Nat.id in Hloop by lia. cbn zeta in Hloop. fold (phdrs file) in Hloop.
  rewrite (Hloop Hl Ha). cbn [mbind res_bind app]. eexists. split; [done|]. destruct (alloc_all_mapped file _ p p' Hl Ha) as [_ Hm]. split.
  - intros h k Hin Hk. split; [by apply loaded_at|by apply Hm].
  - intros x Hx. by apply loaded_others.
Qed.

(** The check of a segment adds its offset and its size at 64 bits: a file whose sum wraps
    around passes it, and the copy reads outside of the file. *)
Theorem elf_load_offset_overflow file p p1 m h : check_elf_header file (zlen file) = true -> zlen file < 2 ^ 63 -> 0 < eh_phdr_table_size file -> 0 <= eh_phdr_offset file -> eh_phdr_offset file + PHDR_SIZE <= zlen file ->
  phdr_at file 0 = h -> p_type h = PT_LOAD -> zlen file < p_offset h < 2 ^ 64 -> 0 <= p_filesz h <= p_memsz h -> 2 ^ 64 <= p_offset h + p_filesz h <= 2 ^ 64 + zlen file ->
  alloc_pages (Z.ldiff (p_addr h) 0xfff) (page_count (p_addr h) (p_memsz h)) LOAD_FLAGS p = Ok p1 -> elf_load file p m = Err (Fault "read out of bounds").
Proof.
  intros Hh Hsz Hn Hoff Htab Eh Hty Ho Hfs Hsum Hp. unfold elf_load. assert (zlen file <> 0) as H0 by (unfold PHDR_SIZE in Htab; lia). rewrite (proj2 (Z.eqb_neq _ _) H0), Hh. cbn [negb].
  destruct (Z.to_nat (eh_phdr_table_size file)) as [|n] eqn:En; [lia|]. cbn [load_loop]. unfold PHDR_SIZE in *. change (0 * 56) with 0. rewrite Z.add_0_r, u64_small by lia. rewrite rd_bytes_ok by lia. cbn [mbind res_bind].
  unfold phdr_at, PHDR_SIZE in Eh. change (0 * 56) with 0 in Eh. rewrite Z.add_0_r in Eh. rewrite Eh, Hty. cbn [Z.eqb PT_LOAD Pos.eqb negb]. assert (u64 (p_offset h + p_filesz h) = p_offset h + p_filesz h - 2 ^ 64) as -> by (unfold wrap; lia).
  rewrite (proj2 (Z.ltb_ge (zlen file) _)), (proj2 (Z.ltb_ge (p_memsz h) _)) by lia. cbn [orb]. rewrite Hp. cbn [mbind res_bind]. unfold rd_bytes. rewrite (proj2 (Z.leb_gt (p_offset h + p_filesz h) (zlen file))) by lia. by rewrite andb_false_r.
Qed.
End Elf.

(** ** Two small files *)

Definition elf_header : list Z :=
  [0x7f; 0x45; 0x4c; 0x46; 2; 1; 1; 0] ++ replicate 8 0 ++ [2; 0; 0x3e; 0] ++ [1; 0; 0; 0] ++ [0x10; 0; 0x40; 0; 0; 0; 0; 0] ++ [64; 0; 0; 0; 0; 0; 0; 0] ++ replicate 12 0 ++ [64; 0; 56; 0; 1; 0] ++ replicate 6 0.
(** A segment of ten bytes at 0x400010, four of them in the file. *)
Definition elf_file : list Z :=
  elf_header ++ [1; 0; 0; 0; 5; 0; 0; 0] ++ [120; 0; 0; 0; 0; 0; 0; 0] ++ [0x10; 0; 0x40; 0; 0; 0; 0; 0] ++ replicate 8 0 ++ [4; 0; 0; 0; 0; 0; 0; 0] ++ [10; 0; 0; 0; 0; 0; 0; 0] ++ replicate 8 0 ++ [0xde; 0xad; 0xbe; 0xef].
Definition elf_seg : phdr := Phdr 1 5 120 0x400010 4 10.

Lemma elf_file_ok : elf_ok elf_file.
Proof.
  constructor; [vm_compute; reflexivity|vm_compute; reflexivity|vm_compute; split_and!; discriminate|]. change (loads (phdrs elf_file)) with [elf_seg]. constructor; [|done]. assert (zlen elf_file = 124) as El by (vm_compute; reflexivity). constructor; rewrite ?El; cbn; lia.
Qed.
Lemma elf_file_apart : ForallOrdPairs apart (loads (phdrs elf_file)).
Proof. change (loads (phdrs elf_file)) with [elf_seg]. repeat constructor. Qed.

Definition no_pages : gset Z := ∅.
Definition one_page : gset Z := {[0x400]}.
Lemma elf_file_pages : alloc_all (loads (phdrs elf_file)) no_pages = Ok one_page.
Proof. change (loads (phdrs elf_file)) with [elf_seg]. vm_compute. reflexivity. Qed.

Lemma elf_load_witness : exists m', elf_load elf_file no_pages (fun _ => 0x55) = Ok (Some (Program 0x400010 [Segment 0x400010 10 3]), one_page, m') /\ m' 0x400011 = 0xad /\ m' 0x400019 = 0 /\ m' 0x40001a = 0x55.
Proof.
  destruct (elf_load_correct (P := gset Z) elf_file no_pages one_page (fun _ => 0x55) elf_file_ok elf_file_apart elf_file_pages) as (m' & E & H1 & H2). exists m'. change (loads (phdrs elf_file)) with [elf_seg] in *.
  split; [exact E|]. split; [exact (proj1 (H1 elf_seg 1 (proj2 (list_elem_of_singleton _ _) eq_refl) ltac:(cbn; lia)))|]. split; [exact (proj1 (H1 elf_seg 9 (proj2 (list_elem_of_singleton _ _) eq_refl) ltac:(cbn; lia)))|].
  apply H2. intros h ->%list_elem_of_singleton. cbn. lia.
Defined.

(** The offset 2^64 - 8 and the size 16. *)
Definition elf_bad : list Z :=
  elf_header ++ [1; 0; 0; 0; 5; 0; 0; 0] ++ [0xf8; 0xff; 0xff; 0xff; 0xff; 0xff; 0xff; 0xff] ++ [0x10; 0; 0x40; 0; 0; 0; 0; 0] ++ replicate 8 0 ++ [16; 0; 0; 0; 0; 0; 0; 0] ++ [16; 0; 0; 0; 0; 0; 0; 0] ++ replicate 8 0.

Lemma elf_overflow_witness : elf_load elf_bad no_pages (fun _ => 0x55) = Err (Fault "read out of bounds").
Proof.
  exact (elf_load_offset_overflow (P := gset Z) elf_bad no_pages one_page (fun _ => 0x55) (Phdr 1 5 (2 ^ 64 - 8) 0x400010 16 16) ltac:(vm_compute; reflexivity) ltac:(vm_compute; reflexivity) ltac:(vm_compute; reflexivity)
    ltac:(vm_compute; discriminate) ltac:(vm_compute; discriminate) ltac:(vm_compute; reflexivity) eq_refl ltac:(vm_compute; done) ltac:(vm_compute; split; discriminate) ltac:(vm_compute; split; discriminate) ltac:(vm_compute; reflexivity)).
Defined.
