(* ===== verification/Shm.v ===== *)
(** * Shared memory ([kernel/sched/shm.c])

    The table of shared memory objects, and the directories [shared_pd] of the processes, 512
    entries of 1 GB each, where they are mapped.  The directory of an object is what [shm_alloc]
    or [get_pd] returned, an argument here; [freed] records the calls of [free_r1_region].  The
    functions run one after the other: each takes the lock of the table and disables the
    interrupts. *)

From S2P Require Import Prelude.




Definition USER_SHARED_BEGIN : Z := 0x0000010000000000.
Definition USER_SHARED_END : Z := 0x0000018000000000.
Definition PAGE_R1_SIZE : Z := 1024 * 1024 * 1024.
Definition SHM_SIZE_MAX : Z := 1024 * 1024 * 1024.
(** [PL_XD | PL_US | PL_RW | PRESENT_ENTRY] *)
Definition SHM_FLAGS : Z := 2 ^ 63 + 7.

Record shm := Shm { shm_id : Z; n_insts : Z; pd_paddr : Z; shm_size : Z; pfree : Z }.
Record shm_instance := Inst { target : Z; vaddr : Z; ipid : Z }.

(** [shms] (its length is [n_shms]), [cur] of [shm_nextid], the directories by process. *)
Record shm_state := ShmState { shms : list shm; cur_id : Z; shared : gmap Z (list Z); freed : list (Z * Z) }.

Definition set_shms (s : shm_state) (l : list shm) : shm_state := ShmState l (cur_id s) (shared s) (freed s).

(** The result is the number of the object. *)
Definition shm_nextid (s : shm_state) : Z * shm_state := let id := s32 (cur_id s + 1) in (id, ShmState (shms s) id (shared s) (freed s)).

Definition insert_shm (s : shm_state) (e : shm) : shm_state := set_shms s (shms s ++ [e]).

(** [i] is the index of the object. *)
Definition remove_shm (s : shm_state) (i : nat) : shm_state :=
  if bool_decide (i <> (length (shms s) - 1)%nat) then
    match shms s !! (length (shms s) - 1)%nat with None => s | Some e => set_shms s (take (length (shms s) - 1) (<[i := e]> (shms s))) end
  else s.

Definition get_shm (s : shm_state) (id : Z) : option (nat * shm) := list_find (fun e => shm_id e = id) (shms s).

(** [for(int i = 0; i < 512; i++)]: the first entry that is not present. *)
Fixpoint free_slot (pd : list Z) (i : Z) : option Z :=
  match pd with [] => None | e :: pd => if Z.land e 1 =? 0 then Some i else free_slot pd (i + 1) end.

(** The address, 0 when there is none. *)
Definition map_shm (s : shm_state) (target_pd pid : Z) : Z * shm_state :=
  match shared s !! pid with
  | None => (0, s)
  | Some pd =>
      match free_slot pd 0 with
      | None => (0, s)
      | Some i => (Z.lor USER_SHARED_BEGIN (i * PAGE_R1_SIZE),
                   ShmState (shms s) (cur_id s) (<[pid := <[Z.to_nat i := Z.lor SHM_FLAGS target_pd]> pd]> (shared s)) (freed s))
      end
  end.

Definition unmap_shm (s : shm_state) (pid va : Z) : res shm_state :=
  assert_ (USER_SHARED_BEGIN <=? va) "(uint64_t)vaddr >= USER_SHARED_BEGIN" ;;
  assert_ (va <=? USER_SHARED_END - PAGE_R1_SIZE) "(uint64_t)vaddr <= USER_SHARED_END - PAGE_R1_SIZE" ;;
  match shared s !! pid with
  | None => Err (Panic "proc")
  | Some pd =>
      let i := (va - USER_SHARED_BEGIN) / PAGE_R1_SIZE in
      assert_ ((0 <=? i) && (i <? 512)) "i < 512" ;;
      e ← ld pd i;
      assert_ (negb (Z.land e 1 =? 0)) "present" ;;
      Ok (ShmState (shms s) (cur_id s) (<[pid := <[Z.to_nat i := 0]> pd]> (shared s)) (freed s))
  end.

Definition bad_size (size : Z) : bool := (size =? 0) || (SHM_SIZE_MAX <? size).

(** [pd]: the result of [get_pd]. *)
Definition shm_create_from_kernel (size pd pf : Z) (s : shm_state) : option shm_instance * shm_state :=
  if bad_size size then (None, s)
  else if pd =? 0 then (None, s)
  else
    let '(id, s) := shm_nextid s in
    (Some (Inst id 0 0), insert_shm s (Shm id 1 pd (u32 size) pf)).

(** [pd]: the result of [shm_alloc].  The [vaddr] of the block hides the one of the function,
    which stays null. *)
Definition shm_create (size pid pd : Z) (s : shm_state) : option shm_instance * shm_state :=
  if bad_size size then (None, s)
  else if pd =? 0 then (None, s)
  else
    let '(id, s) := shm_nextid s in
    let s := insert_shm s (Shm id 1 pd (u32 size) 1) in
    let '(va, s) := map_shm s pd pid in
    if va =? 0 then (None, remove_shm s (length (shms s) - 1)) else (Some (Inst id 0 pid), s).

Definition set_insts (e : shm) (n : Z) : shm := Shm (shm_id e) n (pd_paddr e) (shm_size e) (pfree e).

Definition shm_open (id pid : Z) (s : shm_state) : option shm_instance * shm_state :=
  match get_shm s id with
  | None => (None, s)
  | Some (i, e) =>
      let '(va, s) := map_shm s (pd_paddr e) pid in
      if va =? 0 then (None, s) else (Some (Inst id va pid), set_shms s (<[i := set_insts e (n_insts e + 1)]> (shms s)))
  end.

(** [proc]: the process, if there is one. *)
Definition shm_close (proc : option Z) (ins : shm_instance) (s : shm_state) : res shm_state :=
  match get_shm s (target ins) with
  | None => Err (Panic "shm")
  | Some (i, e) =>
      assert_ (0 <? n_insts e) "shm->n_insts > 0" ;;
      let s := set_shms s (<[i := set_insts e (n_insts e - 1)]> (shms s)) in
      let s := if n_insts e - 1 =? 0 then remove_shm (ShmState (shms s) (cur_id s) (shared s) ((pd_paddr e, pfree e) :: freed s)) i else s in
      match proc with None => Ok s | Some pid => unmap_shm s pid (vaddr ins) end
  end.

(** ** Runs *)

Inductive shm_op := OpKernel (size pd pf : Z) | OpCreate (size pid pd : Z) | OpOpen (id pid : Z) | OpClose (j : nat).

(** The instances that are open; one of the kernel has no process. *)
Definition shm_step (st : shm_state * list shm_instance) (op : shm_op) : res (shm_state * list shm_instance) :=
  let '(s, insts) := st in
  let add r := match r with (Some ins, s) => Ok (s, insts ++ [ins]) | (None, s) => Ok (s, insts) end in
  match op with
  | OpKernel size pd pf => add (shm_create_from_kernel size pd pf s)
  | OpCreate size pid pd => add (shm_create size pid pd s)
  | OpOpen id pid => add (shm_open id pid s)
  | OpClose j =>
      match insts !! j with
      | None => Ok (s, insts)
      | Some ins => s ← shm_close (if ipid ins =? 0 then None else Some (ipid ins)) ins s; Ok (s, delete j insts)
      end
  end.
Fixpoint shm_run (st : shm_state * list shm_instance) (ops : list shm_op) : res (shm_state * list shm_instance) :=
  match ops with [] => Ok st | op :: ops => st ← shm_step st op; shm_run st ops end.

(** No object, and nothing mapped in the directories of the processes [pids]. *)
Definition shm_start (pids : list Z) : shm_state * list shm_instance :=
  (ShmState [] 0 (list_to_map ((fun pid => (pid, replicate 512 0)) <$> pids)) [], []).

(** ** The invariant *)

Definition live (id : Z) (insts : list shm_instance) : nat := length (filter (fun i => target i = id) insts).

(** The entry of its process where an instance is mapped. *)
Definition slot_of (ins : shm_instance) : Z := (vaddr ins - USER_SHARED_BEGIN) / PAGE_R1_SIZE.
Definition mapped_to (s : shm_state) (ins : shm_instance) (pd : Z) : Prop :=
  0 <= slot_of ins < 512 /\ vaddr ins = USER_SHARED_BEGIN + slot_of ins * PAGE_R1_SIZE /\ exists l, shared s !! ipid ins = Some l /\ l !! Z.to_nat (slot_of ins) = Some (Z.lor SHM_FLAGS pd).

Record shm_ok (s : shm_state) (insts : list shm_instance) : Prop := {
  so_ids : NoDup (shm_id <$> shms s);
  so_range : Forall (fun e => 0 < shm_id e <= cur_id s) (shms s);
  so_counts : forall e, e ∈ shms s -> Z.of_nat (live (shm_id e) insts) <= n_insts e;
  so_live : forall ins, ins ∈ insts -> exists e, e ∈ shms s /\ shm_id e = target ins /\ (vaddr ins <> 0 -> mapped_to s ins (pd_paddr e));
  so_slots : forall i j a b, insts !! i = Some a -> insts !! j = Some b -> vaddr a <> 0 -> vaddr b = vaddr a -> ipid b = ipid a -> i = j;
  so_lens : forall pid l, shared s !! pid = Some l -> length l = 512%nat }.

(** ** Directories *)

Lemma free_slot_ok pd : forall i j, free_slot pd i = Some j -> i <= j < i + zlen pd /\ exists e, pd !! Z.to_nat (j - i) = Some e /\ Z.land e 1 = 0.
Proof.
  induction pd as [|e pd IH]; intros i j Hf; [done|]. cbn in Hf. unfold zlen. cbn [length]. destruct (Z.eqb_spec (Z.land e 1) 0) as [E|E].
  - injection Hf as <-. split; [lia|]. exists e. rewrite Z.sub_diag. done.
  - destruct (IH _ _ Hf) as [H1 (e' & H2 & H3)]. unfold zlen in H1. split; [lia|]. exists e'. split; [|done]. replace (Z.to_nat (j - i)) with (S (Z.to_nat (j - (i + 1)))) by lia. done.
Qed.

Lemma slot_addr i : 0 <= i < 512 -> Z.lor USER_SHARED_BEGIN (i * PAGE_R1_SIZE) = USER_SHARED_BEGIN + i * PAGE_R1_SIZE.
Proof.
  intros Hi. symmetry. apply Z.add_nocarry_lor. apply Z.bits_inj'. intros n Hn. rewrite Z.land_spec, Z.bits_0. change USER_SHARED_BEGIN with (2 ^ 40). rewrite Z.pow2_bits_eqb by lia.
  destruct (Z.eqb_spec 40 n) as [<-|]; [|done]. rewrite andb_true_l. rewrite <- (Z.mod_small (i * PAGE_R1_SIZE) (2 ^ 40)) by (unfold PAGE_R1_SIZE; lia). apply Z.mod_pow2_bits_high. lia.
Qed.

Lemma flags_present pd : negb (Z.land (Z.lor SHM_FLAGS pd) 1 =? 0) = true.
Proof.
  apply negb_true_iff, Z.eqb_neq. intros E. assert (Z.testbit (Z.land (Z.lor SHM_FLAGS pd) 1) 0 = true) as Hb; [|rewrite E in Hb; done]. rewrite Z.land_spec, Z.lor_spec. done.
Qed.

(** What mapping an object changes: one entry that was free. *)
Lemma map_shm_ok s pd pid va s' : (forall p l, shared s !! p = Some l -> length l = 512%nat) -> map_shm s pd pid = (va, s') -> va <> 0 ->
  shms s' = shms s /\ cur_id s' = cur_id s /\ freed s' = freed s /\ exists i l e, 0 <= i < 512 /\ va = USER_SHARED_BEGIN + i * PAGE_R1_SIZE /\ shared s !! pid = Some l /\ l !! Z.to_nat i = Some e /\ Z.land e 1 = 0 /\
    shared s' = <[pid := <[Z.to_nat i := Z.lor SHM_FLAGS pd]> l]> (shared s).
Proof.
  intros Hl Hm Hva. unfold map_shm in Hm. destruct (shared s !! pid) as [l|] eqn:E; [|by injection Hm as <- <-]. destruct (free_slot l 0) as [i|] eqn:Ei; [|by injection Hm as <- <-]. injection Hm as <- <-.
  destruct (free_slot_ok l 0 i Ei) as [Hi (e & He & H0)]. unfold zlen in Hi. rewrite (Hl _ _ E) in Hi. rewrite Z.sub_0_r in He. split_and!; try done. exists i, l, e. split_and!; try done; [lia|lia|]. apply slot_addr. lia.
Qed.

Lemma map_shm_none s pd pid s' : map_shm s pd pid = (0, s') -> s' = s.
Proof.
  unfold map_shm. destruct (shared s !! pid) as [l|]; [|congruence]. destruct (free_slot l 0) as [i|] eqn:Ei; [|congruence]. intros [= E _]. exfalso. assert (Z.testbit (Z.lor USER_SHARED_BEGIN (i * PAGE_R1_SIZE)) 40 = true) as Hb; [by rewrite Z.lor_spec|].
  rewrite E in Hb. done.
Qed.

(** An instance that is mapped stays so while another free entry is taken. *)
Lemma mapped_stays s s' pid i l e pd ins q : shared s !! pid = Some l -> 0 <= i -> l !! Z.to_nat i = Some e -> Z.land e 1 = 0 -> shared s' = <[pid := <[Z.to_nat i := pd]> l]> (shared s) ->
  mapped_to s ins q -> mapped_to s' ins q /\ (ipid ins = pid -> slot_of ins <> i).
Proof.
  intros Hl Hi He H0 Es (Hs & Hv & l' & Hl' & Hq). assert (ipid ins = pid -> slot_of ins <> i) as Hne.
  { intros Ep <-. rewrite Ep, Hl in Hl'. injection Hl' as <-. rewrite Hq in He. injection He as <-. pose proof (flags_present q) as Hf. rewrite H0 in Hf. done. }
  split; [|done]. split; [done|]. split; [done|]. rewrite Es. destruct (decide (ipid ins = pid)) as [Ep|Ep].
  - rewrite Ep, lookup_insert_eq. eexists. split; [done|]. rewrite Ep, Hl in Hl'. injection Hl' as <-. rewrite list_lookup_insert_ne; [done|]. specialize (Hne Ep). lia.
  - rewrite lookup_insert_ne by done. by exists l'.
Qed.

(** ** Objects *)

Lemma live_snoc id insts ins : live id (insts ++ [ins]) = (live id insts + (if decide (target ins = id) then 1 else 0))%nat.
Proof. unfold live. rewrite list.filter_app, length_app. cbn. destruct (decide (target ins = id)); done. Qed.

Lemma live_delete id insts j ins : insts !! j = Some ins -> live id insts = (live id (delete j insts) + (if decide (target ins = id) then 1 else 0))%nat.
Proof.
  intros Hj. unfold live. rewrite <- (take_drop_middle insts j ins Hj) at 1. rewrite delete_take_drop. rewrite !list.filter_app, !length_app, filter_cons. destruct (decide (target ins = id)); cbn; lia.
Qed.

Lemma get_shm_ok s id i e : get_shm s id = Some (i, e) -> shms s !! i = Some e /\ shm_id e = id.
Proof. intros Hg. apply list_find_Some in Hg as (H1 & H2 & _). done. Qed.

(** The members of a list one of whose elements was replaced. *)
Lemma elem_insert (l : list shm) i e x : l !! i = Some x -> forall y, y ∈ <[i := e]> l <-> y = e \/ exists j, j <> i /\ l !! j = Some y.
Proof.
  intros Hi y. rewrite list_elem_of_lookup. split.
  - intros (j & Hj). destruct (decide (i = j)) as [-> |Hne].
    + rewrite list_lookup_insert_eq in Hj by (eapply lookup_lt_Some; eauto). left. congruence.
    + rewrite list_lookup_insert_ne in Hj by done. right. exists j. split; [congruence|done].
  - intros [-> |(j & Hne & Hj)]; [exists i; by rewrite list_lookup_insert_eq by (eapply lookup_lt_Some; eauto)|exists j; by rewrite list_lookup_insert_ne by congruence].
Qed.

Lemma ids_distinct (l : list shm) i j x y : NoDup (shm_id <$> l) -> l !! i = Some x -> l !! j = Some y -> shm_id x = shm_id y -> i = j.
Proof. intros Hn Hi Hj E. apply (NoDup_lookup _ i j (shm_id x) Hn); rewrite list_lookup_fmap; [by rewrite Hi|rewrite Hj; cbn; congruence]. Qed.

(** A new object. *)
Lemma shm_insert_ok s insts e ins : shm_ok s insts -> cur_id s + 1 < 2 ^ 31 -> 0 <= cur_id s -> shm_id e = cur_id s + 1 -> n_insts e = 1 -> target ins = shm_id e -> vaddr ins = 0 ->
  shm_ok (ShmState (shms s ++ [e]) (cur_id s + 1) (shared s) (freed s)) (insts ++ [ins]) /\ shm_ok (ShmState (shms s ++ [e]) (cur_id s + 1) (shared s) (freed s)) insts.
Proof.
  intros [Hid Hr Hc Hl Hs Hn] Hb H0 He1 He2 Ht Hv. rewrite list.Forall_forall in Hr.
  assert (live (shm_id e) insts = 0%nat) as Hz.
  { unfold live. destruct (filter _ insts) as [|i l] eqn:Ef; [done|]. assert (i ∈ filter (fun i => target i = shm_id e) insts) as [Hi Hin]%list_elem_of_filter by (rewrite Ef; set_solver). destruct (Hl i Hin) as (e' & He' & Ee' & _). specialize (Hr e' He'). rewrite Ee', Hi in Hr. lia. }
  assert (NoDup (shm_id <$> shms s ++ [e])) as Hid' by (rewrite fmap_app; apply list.NoDup_app; split; [done|]; split; [|apply list.NoDup_cons; split; [apply not_elem_of_nil|apply NoDup_nil_2]]; intros x Hx ->%list_elem_of_singleton;
    apply list_elem_of_fmap in Hx as (e' & E & Hin); specialize (Hr e' Hin); lia).
  assert (Forall (fun x => 0 < shm_id x <= cur_id s + 1) (shms s ++ [e])) as Hr' by (apply list.Forall_app; split; [apply list.Forall_forall; intros x Hx; specialize (Hr x Hx); lia|constructor; [lia|done]]).
  split; constructor; cbn [shms cur_id shared]; try done.
  - intros x [Hx| ->%list_elem_of_singleton]%elem_of_app; rewrite live_snoc; [|rewrite Hz, decide_True by done; lia]. specialize (Hr x Hx). rewrite decide_False by lia. specialize (Hc x Hx). lia.
  - intros i [Hi| ->%list_elem_of_singleton]%elem_of_app.
    + destruct (Hl i Hi) as (x & Hx & E & Hm). exists x. split; [set_solver|]. done.
    + exists e. split; [set_solver|]. split; [congruence|]. intros Hne. congruence.
  - intros i j a b Hi Hj Hva Evb Epb. apply lookup_app_Some in Hi as [Hi|[_ Hi]]; apply lookup_app_Some in Hj as [Hj|[_ Hj]]; [by eapply Hs| | |].
    + apply list_lookup_singleton_Some in Hj as [_ <-]. congruence.
    + apply list_lookup_singleton_Some in Hi as [_ <-]. congruence.
    + apply list_lookup_singleton_Some in Hi as [_ <-]. congruence.
  - intros x [Hx| ->%list_elem_of_singleton]%elem_of_app; [by apply Hc|]. rewrite Hz. lia.
  - intros i Hi. destruct (Hl i Hi) as (x & Hx & E & Hm). exists x. split; [set_solver|]. done.
Qed.

(** A free entry is taken. *)
Lemma take_slot_ok s insts pid i l e x fr : shm_ok s insts -> shared s !! pid = Some l -> 0 <= i -> l !! Z.to_nat i = Some e -> Z.land e 1 = 0 ->
  shm_ok (ShmState (shms s) (cur_id s) (<[pid := <[Z.to_nat i := x]> l]> (shared s)) fr) insts.
Proof.
  intros [Hid Hr Hc Hl Hs Hn] Hp Hi He H0. constructor; cbn [shms cur_id shared]; try done.
  - intros ins Hin. destruct (Hl ins Hin) as (y & Hy & E & Hm). exists y. split; [done|]. split; [done|]. intros Hv. eapply mapped_stays; eauto.
  - intros p l' [[<- <-]|[Hne Hl']]%lookup_insert_Some; [rewrite length_insert|]; by eapply Hn.
Qed.

Lemma fmap_set_insts (l : list shm) (i : nat) e n : l !! i = Some e -> shm_id <$> <[i := set_insts e n]> l = shm_id <$> l.
Proof. intros Hi. rewrite list_fmap_insert. apply list_insert_id. by rewrite list_lookup_fmap, Hi. Qed.

(** The counter of an object changes. *)
Lemma shm_count_ok s insts insts' i e n : shm_ok s insts -> shms s !! i = Some e -> (forall id, id <> shm_id e -> (live id insts' <= live id insts)%nat) -> Z.of_nat (live (shm_id e) insts') <= n ->
  (forall ins, ins ∈ insts' -> exists y, y ∈ shms s /\ shm_id y = target ins /\ (vaddr ins <> 0 -> mapped_to s ins (pd_paddr y))) ->
  (forall i j a b, insts' !! i = Some a -> insts' !! j = Some b -> vaddr a <> 0 -> vaddr b = vaddr a -> ipid b = ipid a -> i = j) ->
  shm_ok (set_shms s (<[i := set_insts e n]> (shms s))) insts'.
Proof.
  intros [Hid Hr Hc Hl Hs Hn] Hi Hlive Hn' Hl' Hs'. assert (e ∈ shms s) as He by (by eapply list_elem_of_lookup_2). constructor; cbn [set_shms shms cur_id shared]; try done.
  - by rewrite fmap_set_insts.
  - rewrite list.Forall_forall in Hr |- *. intros y [-> |(j & Hne & Hj)]%(elem_insert _ _ _ _ Hi); [by apply (Hr e)|]. apply Hr. by eapply list_elem_of_lookup_2.
  - intros y [-> |(j & Hne & Hj)]%(elem_insert _ _ _ _ Hi); [done|]. assert (y ∈ shms s) as Hy by (by eapply list_elem_of_lookup_2). specialize (Hc y Hy).
    assert (shm_id y <> shm_id e) as Hd by (intros E; apply Hne; by eapply ids_distinct). specialize (Hlive _ Hd). lia.
  - intros ins Hin. destruct (Hl' ins Hin) as (y & Hy & E & Hm). destruct (decide (shm_id y = shm_id e)) as [Ed|Ed].
    + exists (set_insts e n). split; [apply (elem_insert _ _ _ _ Hi); by left|]. assert (y = e) as -> by (apply list_elem_of_lookup in Hy as (j & Hj); assert (j = i) as -> by (by eapply ids_distinct); congruence). done.
    + exists y. split; [|done]. apply (elem_insert _ _ _ _ Hi). right. apply list_elem_of_lookup in Hy as (j & Hj). exists j. split; [|done]. intros ->. congruence.
Qed.

Lemma remove_keeps s i : cur_id (remove_shm s i) = cur_id s /\ shared (remove_shm s i) = shared s /\ freed (remove_shm s i) = freed s.
Proof. unfold remove_shm. case_bool_decide; [|done]. by destruct (shms s !! _). Qed.

(** [remove_shm] of an object without instances. *)
Lemma shm_remove_ok s insts i e : shm_ok s insts -> shms s !! i = Some e -> live (shm_id e) insts = 0%nat -> shm_ok (remove_shm s i) insts.
Proof.
  intros Hok Hi Hz. unfold remove_shm. case_bool_decide as Hne; [|done]. destruct (shms s !! (length (shms s) - 1)%nat) as [z|] eqn:Ez; [|done]. pose proof Hok as [Hid Hr Hc Hl Hs Hn]. set (n := (length (shms s) - 1)%nat) in *.
  pose proof (lookup_lt_Some _ _ _ Hi) as Hlt. assert (length (shms s) = S n) as Hlen by (unfold n; lia).
  assert (forall y, y ∈ take n (<[i := z]> (shms s)) <-> y ∈ shms s /\ y <> e) as Hel.
  { intros y. rewrite list_elem_of_lookup. split.
    - intros (j & Hj). apply lookup_take_Some in Hj as [Hj Hjn]. destruct (decide (i = j)) as [<-|Hij].
      + rewrite list_lookup_insert_eq in Hj by done. injection Hj as <-. split; [by eapply list_elem_of_lookup_2|]. intros ->. pose proof (ids_distinct _ _ _ _ _ Hid Ez Hi eq_refl). lia.
      + rewrite list_lookup_insert_ne in Hj by done. split; [by eapply list_elem_of_lookup_2|]. intros ->. pose proof (ids_distinct _ _ _ _ _ Hid Hj Hi eq_refl). lia.
    - intros [(j & Hj)%list_elem_of_lookup Hye]. pose proof (lookup_lt_Some _ _ _ Hj). destruct (decide (j = n)) as [->|Hjn].
      + exists i. rewrite lookup_take_lt by lia. rewrite list_lookup_insert_eq by done. congruence.
      + exists j. rewrite lookup_take_lt by lia. rewrite list_lookup_insert_ne by congruence. done. }
  constructor; cbn [set_shms shms cur_id shared]; try done.
  - apply NoDup_alt. intros j k x Hj Hk. rewrite list_lookup_fmap in Hj, Hk. destruct (take n (<[i := z]> (shms s)) !! j) as [a|] eqn:Ea; [|done]. destruct (take n (<[i := z]> (shms s)) !! k) as [b|] eqn:Eb; [|done].
    cbn in Hj, Hk. apply lookup_take_Some in Ea as [Ea Hjn]. apply lookup_take_Some in Eb as [Eb Hkn]. assert (forall q c, (q < n)%nat -> <[i := z]> (shms s) !! q = Some c -> shms s !! (if decide (q = i) then n else q) = Some c) as Hq.
    { intros q c Hqn Hc'. destruct (decide (q = i)) as [->|]; [rewrite list_lookup_insert_eq in Hc' by done; congruence|by rewrite list_lookup_insert_ne in Hc' by congruence]. }
    pose proof (ids_distinct _ _ _ _ _ Hid (Hq _ _ Hjn Ea) (Hq _ _ Hkn Eb) ltac:(congruence)) as Hd. destruct (decide (j = i)), (decide (k = i)); lia.
  - rewrite list.Forall_forall in Hr |- *. intros y [Hy _]%Hel. by apply Hr.
  - intros y [Hy _]%Hel. by apply Hc.
  - intros ins Hin. destruct (Hl ins Hin) as (y & Hy & E & Hm). exists y. split; [|done]. apply Hel. split; [done|]. intros ->. assert (0 < live (shm_id e) insts)%nat; [|lia]. unfold live.
    assert (ins ∈ filter (fun i => target i = shm_id e) insts) as Hf by (apply list_elem_of_filter; done). destruct (filter _ insts); [by apply not_elem_of_nil in Hf|cbn; lia].
Qed.

(** An entry that no instance uses is cleared. *)
Lemma clear_slot_ok s insts pid i l fr : shm_ok s insts -> shared s !! pid = Some l -> 0 <= i -> (forall ins, ins ∈ insts -> vaddr ins <> 0 -> ipid ins = pid -> slot_of ins <> i) ->
  shm_ok (ShmState (shms s) (cur_id s) (<[pid := <[Z.to_nat i := 0]> l]> (shared s)) fr) insts.
Proof.
  intros [Hid Hr Hc Hl Hs Hn] Hp Hi Hfree. constructor; cbn [shms cur_id shared]; try done.
  - intros ins Hin. destruct (Hl ins Hin) as (y & Hy & E & Hm). exists y. split; [done|]. split; [done|]. intros Hv. destruct (Hm Hv) as (M1 & M2 & l' & M3 & M4). split; [done|]. split; [done|]. cbn [shared].
    destruct (decide (ipid ins = pid)) as [Ep|Ep]; [|rewrite lookup_insert_ne by done; by exists l']. rewrite Ep, lookup_insert_eq. eexists. split; [done|]. rewrite Ep, Hp in M3. injection M3 as <-. rewrite list_lookup_insert_ne; [done|].
    specialize (Hfree ins Hin Hv Ep). lia.
  - intros p l' [[<- <-]|[Hne Hl']]%lookup_insert_Some; [rewrite length_insert|]; by eapply Hn.
Qed.

(** ** Operations *)

Lemma slot_of_mapped ins i : 0 <= i < 512 -> vaddr ins = USER_SHARED_BEGIN + i * PAGE_R1_SIZE -> slot_of ins = i.
Proof. intros Hi E. unfold slot_of. rewrite E. replace (USER_SHARED_BEGIN + i * PAGE_R1_SIZE - USER_SHARED_BEGIN) with (i * PAGE_R1_SIZE) by lia. apply Z.div_mul. done. Qed.

Lemma shm_kernel_ok s insts size pd pf r s' : shm_ok s insts -> 0 <= cur_id s -> cur_id s + 1 < 2 ^ 31 -> shm_create_from_kernel size pd pf s = (r, s') ->
  0 <= cur_id s' <= cur_id s + 1 /\ shm_ok s' (insts ++ option_list r) /\ freed s' = freed s.
Proof.
  intros Hok H0 Hb Hc. unfold shm_create_from_kernel, shm_nextid in Hc. destruct (bad_size size); [injection Hc as <- <-; cbn; rewrite app_nil_r; split_and!; done || lia|].
  destruct (pd =? 0); [injection Hc as <- <-; cbn; rewrite app_nil_r; split_and!; done || lia|]. rewrite s32_small in Hc by lia. injection Hc as <- <-. cbn. split; [lia|]. split; [|done].
  exact (proj1 (shm_insert_ok s insts (Shm (cur_id s + 1) 1 pd (u32 size) pf) (Inst (cur_id s + 1) 0 0) Hok Hb H0 eq_refl eq_refl eq_refl eq_refl)).
Qed.

Lemma shm_create_ok s insts size pid pd r s' : shm_ok s insts -> 0 <= cur_id s -> cur_id s + 1 < 2 ^ 31 -> shm_create size pid pd s = (r, s') ->
  0 <= cur_id s' <= cur_id s + 1 /\ shm_ok s' (insts ++ option_list r) /\ freed s' = freed s.
Proof.
  intros Hok H0 Hb Hc. unfold shm_create, shm_nextid in Hc. destruct (bad_size size); [injection Hc as <- <-; cbn; rewrite app_nil_r; split_and!; done || lia|].
  destruct (pd =? 0); [injection Hc as <- <-; cbn; rewrite app_nil_r; split_and!; done || lia|]. rewrite s32_small in Hc by lia. set (e := Shm (cur_id s + 1) 1 pd (u32 size) 1) in *. unfold insert_shm, set_shms in Hc. cbn [shms cur_id shared freed] in Hc.
  destruct (shm_insert_ok s insts e (Inst (cur_id s + 1) 0 pid) Hok Hb H0 eq_refl eq_refl eq_refl eq_refl) as [Hi1 Hi2]. destruct (map_shm _ pd pid) as [va s2] eqn:Em. destruct (Z.eqb_spec va 0) as [->|Hva].
  - apply map_shm_none in Em as ->. injection Hc as <- <-. cbn [option_list]. rewrite app_nil_r. unfold remove_shm. cbn [shms]. rewrite bool_decide_false by (intros Hx; apply Hx; done). cbn. split; [lia|]. done.
  - injection Hc as <- <-. destruct (map_shm_ok _ _ _ _ _ (so_lens _ _ Hi1) Em Hva) as (E1 & E2 & E3 & i & l & x & Hir & _ & Hl & Hx & Hx0 & Es). cbn in E1, E2, E3. destruct s2 as [a b c d]. cbn in *. subst. split; [lia|]. split; [|done].
    exact (take_slot_ok _ _ pid i l x _ _ Hi1 Hl ltac:(lia) Hx Hx0).
Qed.

Lemma shm_open_ok s insts id pid r s' : shm_ok s insts -> shm_open id pid s = (r, s') -> cur_id s' = cur_id s /\ shm_ok s' (insts ++ option_list r) /\ freed s' = freed s.
Proof.
  intros Hok Ho. unfold shm_open in Ho. destruct (get_shm s id) as [[i e]|] eqn:Eg; [|injection Ho as <- <-; cbn; by rewrite app_nil_r]. destruct (get_shm_ok _ _ _ _ Eg) as [Hi Hid]. destruct (map_shm s (pd_paddr e) pid) as [va s2] eqn:Em.
  destruct (Z.eqb_spec va 0) as [->|Hva]; [apply map_shm_none in Em as ->; injection Ho as <- <-; cbn; by rewrite app_nil_r|]. injection Ho as <- <-.
  destruct (map_shm_ok _ _ _ _ _ (so_lens _ _ Hok) Em Hva) as (E1 & E2 & E3 & k & l & x & Hk & Ev & Hl & Hx & Hx0 & Es). destruct s2 as [sh cu sr fr]. cbn in E1, E2, E3, Es. subst sh cu fr sr. cbn [option_list set_shms shms cur_id freed].
  split; [done|]. split; [|done]. pose proof (take_slot_ok _ _ pid k l x (Z.lor SHM_FLAGS (pd_paddr e)) (freed s) Hok Hl ltac:(lia) Hx Hx0) as Hok2. set (s2 := ShmState _ _ _ _) in *. set (ins := Inst id va pid). change (insts ++ option_list (Some ins)) with (insts ++ [ins]).
  pose proof (slot_of_mapped ins k Hk Ev) as Ek. eapply (shm_count_ok s2 insts); [done|done| | | |].
  - intros id' Hne. rewrite live_snoc. cbn [target ins]. rewrite decide_False by congruence. lia.
  - rewrite live_snoc. cbn [target ins]. rewrite decide_True by done. pose proof (so_counts _ _ Hok e ltac:(by eapply list_elem_of_lookup_2)). lia.
  - intros a [Ha| ->%list_elem_of_singleton]%elem_of_app; [by apply (so_live _ _ Hok2)|]. exists e. split; [by eapply list_elem_of_lookup_2|]. split; [done|]. intros _. unfold mapped_to. rewrite Ek. split; [done|]. split; [done|].
    cbn [shared s2 ipid ins]. rewrite lookup_insert_eq. eexists. split; [done|]. apply list_lookup_insert_eq. by eapply lookup_lt_Some.
  - assert (forall j a, insts !! j = Some a -> vaddr a = va -> ipid a = pid -> False) as Hfresh.
    { intros j a Ha Eva Epa. assert (a ∈ insts) as Hin by (by eapply list_elem_of_lookup_2). destruct (so_live _ _ Hok a Hin) as (y & _ & _ & Hm). specialize (Hm ltac:(congruence)).
      destruct (mapped_stays s s2 pid k l x _ a _ Hl ltac:(lia) Hx Hx0 eq_refl Hm) as [_ Hne]. apply (Hne Epa). apply slot_of_mapped; [done|congruence]. }
    intros p q a b Hp Hq Hva' Evb Epb. apply lookup_app_Some in Hp as [Hp|[Lp Hp]]; apply lookup_app_Some in Hq as [Hq|[Lq Hq]]; [by eapply (so_slots _ _ Hok)| | |].
    + apply list_lookup_singleton_Some in Hq as [_ <-]. exfalso. eapply Hfresh; [exact Hp|done|done].
    + apply list_lookup_singleton_Some in Hp as [_ <-]. exfalso. eapply Hfresh; [exact Hq|done|done].
    + apply list_lookup_singleton_Some in Hp as [Hp _], Hq as [Hq _]. lia.
Qed.

Lemma delete_lookup (insts : list shm_instance) j p : delete j insts !! p = insts !! (if decide (p < j)%nat then p else S p).
Proof. rewrite list_lookup_delete. by case_decide. Qed.

Lemma shm_close_ok s insts j ins proc s' : shm_ok s insts -> insts !! j = Some ins -> proc = (if ipid ins =? 0 then None else Some (ipid ins)) -> shm_close proc ins s = Ok s' ->
  cur_id s' = cur_id s /\ shm_ok s' (delete j insts) /\ (freed s' <> freed s -> forall other, other ∈ delete j insts -> target other <> target ins).
Proof.
  intros Hok Hj Hproc Hc. unfold shm_close in Hc. destruct (get_shm s (target ins)) as [[i e]|] eqn:Eg; [|done]. destruct (get_shm_ok _ _ _ _ Eg) as [Hi Hid]. destruct (Z.ltb_spec 0 (n_insts e)) as [Hpos|]; [|done]. cbn [assert_ mbind res_bind] in Hc.
  assert (ins ∈ insts) as Hin by (by eapply list_elem_of_lookup_2). pose proof (so_counts _ _ Hok e ltac:(by eapply list_elem_of_lookup_2)) as Hcnt. rewrite (live_delete _ _ _ _ Hj), decide_True in Hcnt by done.
  assert (forall a, a ∈ delete j insts -> a ∈ insts) as Hsub by (intros a [p Hp]%list_elem_of_lookup; rewrite delete_lookup in Hp; by eapply list_elem_of_lookup_2).
  assert (shm_ok (set_shms s (<[i := set_insts e (n_insts e - 1)]> (shms s))) (delete j insts)) as Hok1.
  { eapply (shm_count_ok s insts); [done|done| |lia| |].
    - intros id' Hne. rewrite (live_delete id' _ _ _ Hj). lia.
    - intros a Ha. by apply (so_live _ _ Hok), Hsub.
    - intros p q a b Hp Hq Hv Ev Ep. rewrite delete_lookup in Hp, Hq. pose proof (so_slots _ _ Hok _ _ _ _ Hp Hq Hv Ev Ep). repeat case_decide; lia. }
  set (s1 := set_shms s _) in *. set (s2 := if n_insts e - 1 =? 0 then _ else s1) in Hc.
  assert (shm_ok s2 (delete j insts) /\ cur_id s2 = cur_id s /\ shared s2 = shared s /\ (freed s2 <> freed s -> live (shm_id e) (delete j insts) = 0%nat)) as (Hok2 & Ec & Es & Hfr).
  { unfold s2. destruct (Z.eqb_spec (n_insts e - 1) 0) as [Ez|]; [|done]. assert (live (shm_id e) (delete j insts) = 0%nat) as Hz by lia.
    assert (shm_ok (ShmState (shms s1) (cur_id s1) (shared s1) ((pd_paddr e, pfree e) :: freed s1)) (delete j insts)) as Hok1' by (destruct Hok1; constructor; done).
    split; [eapply shm_remove_ok; [exact Hok1'|cbn; apply list_lookup_insert_eq; by eapply lookup_lt_Some|done]|]. destruct (remove_keeps (ShmState (shms s1) (cur_id s1) (shared s1) ((pd_paddr e, pfree e) :: freed s1)) i) as (K1 & K2 & _). split; [exact K1|]. split; [exact K2|]. by intros _. }
  assert (freed s' = freed s2 /\ cur_id s' = cur_id s2 /\ shm_ok s' (delete j insts)) as (E1 & E2 & Hok').
  { destruct proc as [pid|]; [|by injection Hc as <-]. unfold unmap_shm in Hc. destruct (Z.leb_spec USER_SHARED_BEGIN (vaddr ins)) as [Hva|]; [|done]. cbn [assert_ mbind res_bind] in Hc. destruct (vaddr ins <=? _); [|done]. cbn [assert_ mbind res_bind] in Hc.
    destruct (shared s2 !! pid) as [l|] eqn:El; [|done]. destruct ((0 <=? _) && _) eqn:Er; [|done]. cbn [assert_ mbind res_bind] in Hc. destruct (ld l _) as [x|]; [|done]. cbn [assert_ mbind res_bind] in Hc. destruct (negb _); [|done]. injection Hc as <-.
    cbn. split; [done|]. split; [done|]. fold (slot_of ins). apply clear_slot_ok; [done|done|unfold slot_of; lia|]. intros a Ha Hv Ep Eslot. apply list_elem_of_lookup in Ha as [p Hp]. rewrite delete_lookup in Hp.
    destruct (so_live _ _ Hok ins Hin) as (y & _ & _ & Hm). assert (vaddr ins <> 0) as Hv' by (unfold USER_SHARED_BEGIN in Hva; lia). destruct (Hm Hv') as (_ & Ev' & _).
    destruct (so_live _ _ Hok a ltac:(by eapply list_elem_of_lookup_2)) as (y' & _ & _ & Hm'). destruct (Hm' Hv) as (_ & Eva & _). assert (ipid ins = pid) as Epi by (destruct (ipid ins =? 0); congruence).
    pose proof (so_slots _ _ Hok _ _ _ _ Hj Hp Hv' ltac:(congruence) ltac:(congruence)). case_decide; lia. }
  split; [congruence|]. split; [done|]. intros Hne other Ho Et. rewrite E1 in Hne. specialize (Hfr Hne). rewrite Hid in Hfr. unfold live in Hfr.
  assert (other ∈ filter (fun i => target i = target ins) (delete j insts)) as Hf by (apply list_elem_of_filter; done). destruct (filter _ _); [by apply not_elem_of_nil in Hf|done].
Qed.

(** ** Theorems *)

Lemma shm_start_ok pids : shm_ok (shm_start pids).1 (shm_start pids).2.
Proof.
  constructor; cbn; try done; [constructor|intros e He; by apply not_elem_of_nil in He|intros e He; by apply not_elem_of_nil in He|].
  intros pid l Hl. apply elem_of_list_to_map_2, list_elem_of_fmap in Hl as (p & [= _ ->] & _). reflexivity.
Qed.

Lemma shm_step_ok st op st' : shm_ok st.1 st.2 -> 0 <= cur_id st.1 -> cur_id st.1 + 1 < 2 ^ 31 -> shm_step st op = Ok st' -> 0 <= cur_id st'.1 <= cur_id st.1 + 1 /\ shm_ok st'.1 st'.2.
Proof.
  destruct st as [s insts]. cbn [fst snd]. intros Hok H0 Hb Hs. destruct op as [size pd pf|size pid pd|id pid|j]; cbn [shm_step] in Hs.
  - destruct (shm_create_from_kernel size pd pf s) as [r s'] eqn:E. destruct (shm_kernel_ok _ _ _ _ _ _ _ Hok H0 Hb E) as (H1 & H2 & _). destruct r; injection Hs as <-; cbn in *; [done|]. by rewrite app_nil_r in H2.
  - destruct (shm_create size pid pd s) as [r s'] eqn:E. destruct (shm_create_ok _ _ _ _ _ _ _ Hok H0 Hb E) as (H1 & H2 & _). destruct r; injection Hs as <-; cbn in *; [done|]. by rewrite app_nil_r in H2.
  - destruct (shm_open id pid s) as [r s'] eqn:E. destruct (shm_open_ok _ _ _ _ _ _ Hok E) as (H1 & H2 & _). destruct r; injection Hs as <-; cbn in *; [split; [lia|done]|]. rewrite app_nil_r in H2. split; [lia|done].
  - destruct (insts !! j) as [ins|] eqn:Ej; [|injection Hs as <-; split; [cbn; lia|done]]. destruct (shm_close _ ins s) as [s'|] eqn:E; [|done]. injection Hs as <-. destruct (shm_close_ok _ _ _ _ _ _ Hok Ej eq_refl E) as (H1 & H2 & _). cbn. split; [lia|done].
Qed.

Lemma run_ok_from ops : forall st st', shm_ok st.1 st.2 -> 0 <= cur_id st.1 -> cur_id st.1 + zlen ops < 2 ^ 31 -> shm_run st ops = Ok st' -> shm_ok st'.1 st'.2.
Proof.
  induction ops as [|op ops IH]; intros st st' Hok H0 Hb Hr; [by injection Hr as <-|]. unfold zlen in Hb. cbn [length] in Hb. cbn in Hr. destruct (shm_step st op) as [st1|] eqn:E; [|done]. destruct (shm_step_ok st op st1 Hok H0 ltac:(lia) E) as [H1 H2].
  apply (IH st1 st' H2 ltac:(lia)); [unfold zlen; lia|done].
Qed.

(** After any sequence of creations, openings and closings that fails no assertion, the
    instances of an object are at most as many as its counter says, every instance whose address
    is known is mapped in its process to the directory of its object, so that all of them see the
    same memory, no two of them share an entry, and closing one frees the memory of the object
    only when no other is left. *)
Theorem shm_instances_share pids ops s insts : zlen ops < 2 ^ 31 -> shm_run (shm_start pids) ops = Ok (s, insts) ->
  (forall e, e ∈ shms s -> Z.of_nat (live (shm_id e) insts) <= n_insts e) /\
  (forall ins, ins ∈ insts -> exists e, e ∈ shms s /\ shm_id e = target ins /\ (vaddr ins <> 0 -> mapped_to s ins (pd_paddr e))) /\
  (forall i j a b, insts !! i = Some a -> insts !! j = Some b -> vaddr a <> 0 -> vaddr b = vaddr a -> ipid b = ipid a -> i = j) /\
  (forall j ins s', insts !! j = Some ins -> shm_step (s, insts) (OpClose j) = Ok (s', delete j insts) -> freed s' <> freed s -> forall other, other ∈ delete j insts -> target other <> target ins).
Proof.
  intros Hn Hr. pose proof (run_ok_from ops (shm_start pids) (s, insts) (shm_start_ok pids) ltac:(cbn; lia) ltac:(cbn; lia) Hr) as Hok. cbn in Hok. split_and!; [apply Hok|apply Hok|apply Hok|].
  intros j ins s' Hj Hs Hf. cbn [shm_step] in Hs. rewrite Hj in Hs. destruct (shm_close _ ins s) as [s1|] eqn:E; [|done]. injection Hs as ->. by destruct (shm_close_ok _ _ _ _ _ _ Hok Hj eq_refl E) as (_ & _ & H3); apply H3.
Qed.

(** [remove_shm] does nothing for the last object of the table.  When its last instance is closed
    its memory is freed, the object is still found by its number, and the next process that opens
    it is given the freed directory. *)
Theorem shm_open_after_free s e l pid d : shms s = l ++ [e] -> shm_id e ∉ (shm_id <$> l) -> n_insts e = 1 -> shared s !! pid = Some d -> zlen d = 512 -> free_slot d 0 <> None ->
  exists s1, shm_close None (Inst (shm_id e) 0 0) s = Ok s1 /\ (pd_paddr e, pfree e) ∈ freed s1 /\
    exists ins s2, shm_open (shm_id e) pid s1 = (Some ins, s2) /\ mapped_to s2 ins (pd_paddr e).
Proof.
  intros Es Hnot H1 Hd Hlen Hfree. assert (forall e', shm_id e' = shm_id e -> list_find (fun x => shm_id x = shm_id e) (l ++ [e']) = Some (length l, e')) as Hfind.
  { intros e' E. apply list_find_Some. split; [rewrite lookup_app_r, Nat.sub_diag by lia; done|]. split; [done|]. intros j y Hj Hlt Ey. rewrite lookup_app_l in Hj by lia. apply Hnot. apply list_elem_of_fmap. exists y. split; [done|by eapply list_elem_of_lookup_2]. }
  unfold shm_close, get_shm. cbn [target]. rewrite Es, (Hfind e) by done. rewrite H1. change (1 - 1) with 0. cbn [Z.ltb Z.compare assert_ mbind res_bind Z.eqb]. eexists. split; [done|].
  assert (<[length l := set_insts e 0]> (l ++ [e]) = l ++ [set_insts e 0]) as Ei by (rewrite insert_app_r_alt, Nat.sub_diag by lia; done). unfold remove_shm, set_shms. cbn [shms cur_id shared freed]. rewrite Ei.
  rewrite bool_decide_false by (rewrite length_app; cbn; lia). cbn [freed]. split; [by left|]. unfold shm_open, get_shm. cbn [shms]. rewrite (Hfind (set_insts e 0)) by done. cbn [pd_paddr set_insts]. unfold map_shm. cbn [shared]. rewrite Hd.
  destruct (free_slot d 0) as [i|] eqn:Ef; [|done]. destruct (free_slot_ok d 0 i Ef) as [Hi (x & Hx & _)]. rewrite Z.sub_0_r in Hx. rewrite slot_addr by lia. rewrite (proj2 (Z.eqb_neq _ _)) by (unfold USER_SHARED_BEGIN, PAGE_R1_SIZE; lia).
  eexists _, _. split; [done|]. pose proof (slot_of_mapped (Inst (shm_id e) (USER_SHARED_BEGIN + i * PAGE_R1_SIZE) pid) i ltac:(lia) eq_refl) as Ek. unfold mapped_to. rewrite Ek. split; [lia|]. split; [done|]. cbn.
  rewrite lookup_insert_eq. eexists. split; [done|]. apply list_lookup_insert_eq. by eapply lookup_lt_Some.
Qed.

(** ** Two processes *)

(** The kernel shares a buffer, two processes open it, the first one closes it. *)
Definition ops4 : list shm_op := [OpKernel 4096 0x1000 0; OpOpen 1 5; OpOpen 1 6; OpClose 1].
Definition st4 : shm_state * list shm_instance := match shm_run (shm_start [5; 6]) ops4 with Ok st => st | Err _ => shm_start [] end.
Lemma st4_eq : shm_run (shm_start [5; 6]) ops4 = Ok (st4.1, st4.2).
Proof. vm_compute. reflexivity. Qed.
Definition inst6 : shm_instance := Inst 1 USER_SHARED_BEGIN 6.
Lemma inst6_in : inst6 ∈ st4.2.
Proof. change st4.2 with [Inst 1 0 0; inst6]. set_solver. Qed.

Lemma shm_share_witness : exists e, e ∈ shms st4.1 /\ shm_id e = 1 /\ Z.of_nat (live 1 st4.2) <= n_insts e /\ mapped_to st4.1 inst6 (pd_paddr e).
Proof.
  destruct (shm_instances_share [5; 6] ops4 st4.1 st4.2 ltac:(vm_compute; reflexivity) st4_eq) as (H1 & H2 & _). destruct (H2 inst6 inst6_in) as (e & He & Ee & Hm). exists e. cbn in Ee.
  split; [exact He|]. split; [exact Ee|]. pose proof (H1 e He) as Hc. rewrite Ee in Hc. split; [exact Hc|]. apply Hm. discriminate.
Defined.

(** One object with one instance. *)
Definition obj1 : shm := Shm 1 1 0x1000 4096 0.
Definition shm1 : shm_state := ShmState [obj1] 1 {[5 := replicate 512 0]} [].

Lemma shm_after_free_witness : exists s1, shm_close None (Inst 1 0 0) shm1 = Ok s1 /\ (0x1000, 0) ∈ freed s1 /\ exists ins s2, shm_open 1 5 s1 = (Some ins, s2) /\ mapped_to s2 ins 0x1000.
Proof.
  exact (shm_open_after_free shm1 obj1 [] 5 (replicate 512 0) eq_refl (not_elem_of_nil _) eq_refl (lookup_singleton_eq 5 (replicate 512 0)) eq_refl ltac:(discriminate)).
Defined.
