(* ===== verification/Gpt.v ===== *)
(** * GUID partition tables ([kernel/fs/gpt.c], [gpt.h])

    Scanning the table of a drive, finding partitions, and forgetting those of a drive that is
    removed.  [junk] is what the memory that [realloc] adds to the buffer holds. *)

From S2P Require Import Prelude Bytes Interfaces BlockCacheTheorems FileSystems Fat32 Fat32Proofs CString CStringProofs Paths VfsFiles VfsDirs Fat32Dirs Sprintf.



Record GUID := Guid { g_low : Z; g_high : Z }.

(** [disk_part_t]; of its interface the driver is kept. *)
Record disk_part := Part {
  dp_driver : Z; dp_type : Z; dp_id : Z; dp_guid : GUID; dp_begin : Z; dp_end : Z; dp_attributes : Z;
  dp_mount : option (list Z); dp_name : list Z; dp_sysname : list Z }.

(** The result is an [int]: the upper halves are lost. *)
Definition guidcmp (a b : GUID) : Z := s32 (Z.lor (Z.lxor (g_high a) (g_high b)) (Z.lxor (g_low a) (g_low b))).
Definition same_guid (a b : GUID) : bool := guidcmp a b =? 0.

Definition makeGUID (a b c d e : Z) : GUID := Guid (Z.lor (Z.lor a (Z.shiftl b 32)) (Z.shiftl c 48)) (Z.lor d (Z.shiftl e 16)).

Definition PARTITION_UNKNOWNED : Z := 0.

(** The GUIDs that [get_type] compares with, in its order, and their types. *)
Definition guid_types : list (GUID * Z) :=
  [(makeGUID 0xC12A7328 0xF81F 0x11D2 0x4BBA 0x3bc93ec9a000, 1);
   (makeGUID 0x0FC63DAF 0x8483 0x4772 0x798E 0xE47D47D8693D, 4);
   (makeGUID 0x44479540 0xF297 0x41B2 0xF79A 0x8A45F0D531D1, 4);
   (makeGUID 0x4F68BCE3 0xE8CD 0x4DB1 0xE796 0x09B784F9CAFB, 4);
   (makeGUID 0xBC13C2FF 0x59E6 0x4262 0x52A3 0x72716FFD75B2, 5);
   (makeGUID 0x0657FD6D 0xA4AB 0x43C4 0xE584 0x4F4F4BC83309, 6);
   (makeGUID 0xE6D6D379 0xF507 0x44C2 0x3CA2 0x28F93D2A8F23, 8);
   (makeGUID 0x933AC7E1 0x2EB4 0x4F13 0x44B8 0x15F9AEE2140E, 7);
   (makeGUID 0xE3C9E316 0x0B5C 0x4DB8 0x7D81 0xAE1502F02DF9, 3);
   (makeGUID 0xEBD0A0A2 0xB9E5 0x4433 0xC087 0xC79926B7B668, 3);
   (makeGUID 0x5808C8AA 0x7E8F 0x42E0 0xD285 0xB3CF3404E9E1, 3);
   (makeGUID 0xAF9B60A0 0x1431 0x4F62 0x68BC 0xAD694A711133, 3);
   (makeGUID 0xDE94BBA4 0x06D1 0x4D40 0x6AA1 0xACD67901D5BF, 3);
   (makeGUID 0x37AFFC90 0xEF7D 0x4E96 0xC391 0x74B155E07A2D, 3);
   (makeGUID 0xE75CAF8F 0xF680 0x4CEE 0xA3AF 0x2DFC6EE501B0, 3);
   (makeGUID 0x558D43C5 0xA1AC 0x43C0 0xC8AA 0xD123292B47D1, 3)].
Fixpoint lookup_type (l : list (GUID * Z)) (g : GUID) : Z :=
  match l with [] => PARTITION_UNKNOWNED | (g', t) :: l => if same_guid g g' then t else lookup_type l g end.
Definition get_type (g : GUID) : Z := lookup_type guid_types g.

(** ** The registered partitions *)

Definition register_partition (parts : list disk_part) (p : disk_part) : list disk_part := parts ++ [p].

Definition find_partition (parts : list disk_part) (g : GUID) : option (nat * disk_part) := list_find (fun p => same_guid (dp_guid p) g = true) parts.

Fixpoint search_partition (parts : list disk_part) (name : list Z) : res (option disk_part) :=
  match parts with
  | [] => Ok None
  | p :: parts => b ← str_eq (dp_name p) name; if (b : bool) then Ok (Some p) else search_partition parts name
  end.

(** [for(unsigned i = 0; i < n_partitions; i++)]: the partitions that are left, and the arguments of
    the calls of [vfs_unmount]. *)
Fixpoint remove_loop (fuel : nat) (i : Z) (driver : Z) (parts : list disk_part) (unmounts : list (list Z)) : res (list disk_part * list (list Z)) :=
  match fuel with
  | O => Err NoFuel
  | S fuel' =>
      if i <? zlen parts then
        p ← ld parts i;
        if dp_driver p =? driver then
          let unmounts := match dp_mount p with Some m => unmounts ++ [m] | None => unmounts end in
          remove_loop fuel' (u32 (u32 (i - 1) + 1)) driver (delete (Z.to_nat i) parts) unmounts
        else remove_loop fuel' (u32 (i + 1)) driver parts unmounts
      else Ok (parts, unmounts)
  end.
Definition gpt_remove_drive_parts (driver : Z) (parts : list disk_part) : res (list disk_part * list (list Z)) :=
  remove_loop (S (length parts)) 0 driver parts [].

Definition gpt_cleanup (parts : list disk_part) : list disk_part := [].

(** ** Scanning *)

(** The 16-bit words of a buffer. *)
Fixpoint words_of (l : list Z) : list Z := match l with a :: b :: l => le_bytes [a; b] :: words_of l | _ => [] end.

Definition read_guid (e : list Z) (off : Z) : GUID := Guid (le_bytes (slice e off 8)) (le_bytes (slice e (off + 8) 8)).

(** [EFI PART] *)
Definition magic : list Z := [69; 70; 73; 32; 80; 65; 82; 84].

Section Scan.
Context {D : Type} `{BlockDevice D}.
Notation SZ := (2 ^ dev_lbashift (D := D)).
Variables (driver : Z) (device_name : list Z) (junk : Z -> Z).

Definition new_part (entry : list Z) (i : Z) (name sysname : list Z) : disk_part :=
  Part driver (get_type (read_guid entry 0)) i (read_guid entry 16) (le_bytes (slice entry 32 8)) (le_bytes (slice entry 40 8)) (le_bytes (slice entry 48 8)) None name sysname.

Fixpoint scan_loop (n : nat) (i : Z) (entry_size : Z) (buffer : list Z) (parts : list disk_part) : res (list disk_part) :=
  match n with
  | O => Ok parts
  | S n' =>
      let ptr := i * entry_size in
      entry ← rd_bytes buffer ptr 56;
      let type_guid := read_guid entry 0 in
      if (g_low type_guid =? 0) && (g_high type_guid =? 0) then scan_loop n' (i + 1) entry_size buffer parts
      else
        assert_ (zlen device_name + 2 + 4 <=? 16) "strlen(sti->driver->device->name.ptr) + 2 + 4 <= sizeof(p.sysname)" ;;
        '(sysname, _) ← vsprintf [37; 115; 112; 37; 117] [AStr device_name; AInt (u32 (i + 1))];
        (if zlen sysname <? 16 then Ok () else Err (Fault "sysname")) ;;
        name ← utf16le2ascii 35 (words_of (drop (Z.to_nat (ptr + 56)) buffer)) (replicate 36 0) 0;
        scan_loop n' (i + 1) entry_size buffer (register_partition parts (new_part entry i name sysname))
  end.

Definition gpt_scan (d : D) (parts : list disk_part) : res (list disk_part) :=
  let header := dev_read d 1 1 in
  ok ← str_eq header magic;
  if negb ok then Ok parts
  else
    let lba := le_bytes (slice header 0x48 8) in
    let n := le_bytes (slice header 0x50 4) in
    let entry_size := le_bytes (slice header 0x54 4) in
    let size := u32 (entry_size * n) in
    let old := (fun k => if k <? SZ then nthZ header k else junk k) <$> seqZ 0 size in
    buffer ← wr_bytes old 0 (dev_read d lba (Z.shiftr size (dev_lbashift (D := D))));
    scan_loop (Z.to_nat n) 0 entry_size buffer parts.
End Scan.

(** ** Names *)

Definition ascii_of (w : Z) : Z := let c := Z.land w 0xff in if 127 <? c then 63 else c.

(** The characters before the first zero, in an array of 36. *)
Definition part_name (ws : list Z) : list Z := let s := before_zero (ascii_of <$> ws) in s ++ replicate (36 - length s) 0.


Lemma utf_part n : forall pre ws done, length pre = length done -> (n <= length ws)%nat -> (length done + n <= 35)%nat ->
  utf16le2ascii n (pre ++ ws) (done ++ replicate (36 - length done) 0) (zlen done) =
  Ok (let s := done ++ before_zero (ascii_of <$> take n ws) in s ++ replicate (36 - length s) 0).
Proof.
  induction n as [|n IH]; intros pre ws done Hp Hn Hd; [cbn; by rewrite app_nil_r|]. destruct ws as [|w ws]; [cbn in Hn; lia|]. cbn [utf16le2ascii take fmap list_fmap before_zero].
  assert (ld (pre ++ w :: ws) (zlen done) = Ok w) as -> by (unfold zlen; rewrite <- Hp; apply ld_middle).
  destruct (36 - length done)%nat as [|[|k]] eqn:Ek; [lia|lia|]. cbn [mbind res_bind replicate]. cbv zeta. change (if 127 <? Z.land w 255 then 63 else Z.land w 255) with (ascii_of w).
  assert (st (done ++ 0 :: 0 :: replicate k 0) (zlen done) (ascii_of w) = Ok (done ++ ascii_of w :: 0 :: replicate k 0)) as ->.
  { unfold st. rewrite zlen_app. unfold zlen. cbn [length]. rewrite (proj2 (Z.leb_le _ _)), (proj2 (Z.ltb_lt _ _)), Nat2Z.id, insert_app_r_alt, Nat.sub_diag by lia. done. }
  cbn [mbind res_bind]. destruct (Z.eqb_spec (ascii_of w) 0) as [E|E].
  - unfold st. rewrite zlen_app. unfold zlen. cbn [length]. rewrite (proj2 (Z.leb_le _ _)), (proj2 (Z.ltb_lt _ _)) by lia. cbn [andb]. f_equal. cbn zeta. rewrite app_nil_r, Ek.
    replace (Z.to_nat (Z.of_nat (length done) + 1)) with (S (length done)) by lia. rewrite insert_app_r_alt by lia. replace (S (length done) - length done)%nat with 1%nat by lia. by rewrite E.
  - specialize (IH (pre ++ [w]) ws (done ++ [ascii_of w])). rewrite !length_app, <- !app_assoc in IH. cbn [length app] in IH, Hn. replace (36 - (length done + 1))%nat with (S k) in IH by lia. rewrite zlen_app in IH. cbn zeta. rewrite <- app_assoc. apply IH; lia.
Qed.

Lemma words_of_take n : forall l, words_of (take (2 * n) l) = take n (words_of l).
Proof.
  induction n as [|n IH]; intros l; [done|]. replace (2 * S n)%nat with (S (S (2 * n))) by lia. destruct l as [|a [|b l]]; [done|done|]. cbn [take words_of]. by rewrite IH.
Qed.
Lemma length_words n : forall l, (2 * n <= length l)%nat -> (n <= length (words_of l))%nat.
Proof. induction n as [|n IH]; intros l Hl; [lia|]. destruct l as [|a [|b l]]; [cbn in Hl; lia|cbn in Hl; lia|]. cbn in *. specialize (IH l). lia. Qed.

(** The name of an entry is read from the 35 words at [off]. *)
Lemma entry_name buffer off : 0 <= off -> off + 70 <= zlen buffer ->
  utf16le2ascii 35 (words_of (drop (Z.to_nat off) buffer)) (replicate 36 0) 0 = Ok (part_name (words_of (slice buffer off 70))).
Proof.
  intros Ho Hl. pose proof (utf_part 35 [] (words_of (drop (Z.to_nat off) buffer)) [] eq_refl) as Hu. change (zlen (@nil Z)) with 0 in Hu. cbn zeta in Hu. rewrite !app_nil_l in Hu. cbn [length] in Hu. rewrite Nat.sub_0_r in Hu. rewrite Hu.
  - unfold part_name, slice. change (Z.to_nat 70) with (2 * 35)%nat. by rewrite words_of_take.
  - apply length_words. rewrite length_drop. unfold zlen in Hl. lia.
  - lia.
Qed.

(** ** Finding and removing *)

Lemma remove_loop_ok driver rest : forall kept unmounts fuel, (length rest < fuel)%nat -> zlen kept + zlen rest < 2 ^ 32 ->
  remove_loop fuel (zlen kept) driver (kept ++ rest) unmounts =
  Ok (kept ++ filter (fun p => dp_driver p <> driver) rest, unmounts ++ omap dp_mount (filter (fun p => dp_driver p = driver) rest)).
Proof.
  induction rest as [|p rest IH]; intros kept unmounts fuel Hf Hz; (destruct fuel as [|fuel]; [cbn in Hf; lia|]); cbn [remove_loop]; rewrite zlen_app.
  - rewrite (proj2 (Z.ltb_ge _ _)) by (rewrite zlen_nil; lia). cbn. by rewrite !app_nil_r.
  - cbn [length] in Hf. rewrite (zlen_cons p rest) in Hz |- *. assert (0 <= zlen kept) by (unfold zlen; lia). assert (0 <= zlen rest) by (unfold zlen; lia). rewrite (proj2 (Z.ltb_lt _ _)) by lia.
    rewrite ld_middle. cbn [mbind res_bind]. rewrite !filter_cons. destruct (Z.eqb_spec (dp_driver p) driver) as [E|E].
    + rewrite (decide_True (P := dp_driver p = driver)) by done. rewrite decide_False by (intros H'; done). assert (delete (Z.to_nat (zlen kept)) (kept ++ p :: rest) = kept ++ rest) as ->.
      { unfold zlen. rewrite Nat2Z.id, delete_middle. done. }
      assert (u32 (u32 (zlen kept - 1) + 1) = zlen kept) as -> by (unfold wrap; rewrite Z.add_mod_idemp_l by lia; rewrite Z.mod_small by lia; lia). rewrite IH by lia. f_equal. f_equal. cbn [omap list_omap]. destruct (dp_mount p); [by rewrite <- app_assoc|done].
    + rewrite (decide_False (P := dp_driver p = driver)) by done. rewrite decide_True by done. rewrite u32_small by lia. specialize (IH (kept ++ [p]) unmounts fuel). rewrite zlen_app, <- !app_assoc in IH. apply IH; [lia|]. change (zlen [p]) with 1. lia.
Qed.

(** Forgetting the partitions of a drive leaves exactly those of the other drives, in their order,
    and unmounts exactly those of the drive that are mounted. *)
Theorem gpt_remove_drive_parts_correct driver parts : zlen parts < 2 ^ 32 ->
  gpt_remove_drive_parts driver parts =
  Ok (filter (fun p => dp_driver p <> driver) parts, omap dp_mount (filter (fun p => dp_driver p = driver) parts)).
Proof. intros Hz. unfold gpt_remove_drive_parts. pose proof (remove_loop_ok driver parts [] [] (S (length parts)) ltac:(lia) Hz) as H. exact H. Qed.

(** Only the lower halves of the two words of a GUID are compared. *)
Lemma same_guid_spec a b : 0 <= g_low a -> 0 <= g_high a -> 0 <= g_low b -> 0 <= g_high b ->
  same_guid a b = true <-> u32 (g_low a) = u32 (g_low b) /\ u32 (g_high a) = u32 (g_high b).
Proof.
  intros. assert (forall x, (s32 x =? 0) = (u32 x =? 0)) as Es.
  { intros x. unfold s32. pose proof (wrap_range 32 x ltac:(lia)). cbv zeta. destruct (Z.ltb_spec (u32 x) (2 ^ 31)); [done|]. rewrite !(proj2 (Z.eqb_neq _ _)) by lia. done. }
  unfold same_guid, guidcmp. rewrite Es. rewrite eqb_0_testbit. split.
  - intros Hb. split; apply Z.bits_inj'; intros i Hi; specialize (Hb i Hi); rewrite testbit_wrap in Hb |- * by lia; rewrite testbit_wrap by lia;
      rewrite Z.lor_spec, !Z.lxor_spec in Hb; destruct (i <? 32); [|done| |done]; cbn in *; apply orb_false_iff in Hb; destruct Hb as [Hb1 Hb2];
      first [by apply xorb_eq in Hb2|by apply xorb_eq in Hb1].
  - intros [Hl Hh] i Hi. rewrite testbit_wrap by lia. destruct (i <? 32) eqn:E; [|done]. cbn. rewrite Z.lor_spec, !Z.lxor_spec.
    assert (Z.testbit (g_low a) i = Z.testbit (g_low b) i) as -> by (pose proof (f_equal (fun x => Z.testbit x i) Hl) as Hx; cbn in Hx; rewrite !testbit_wrap, E in Hx by lia; done).
    assert (Z.testbit (g_high a) i = Z.testbit (g_high b) i) as -> by (pose proof (f_equal (fun x => Z.testbit x i) Hh) as Hx; cbn in Hx; rewrite !testbit_wrap, E in Hx by lia; done).
    by rewrite !xorb_nilpotent.
Qed.

(** Looking a partition up by its GUID finds the first one that agrees with it in the lower 32 bits of
    each half, which need not be the partition of that GUID. *)
Theorem find_partition_halves parts g : Forall (fun p => 0 <= g_low (dp_guid p) /\ 0 <= g_high (dp_guid p)) parts -> 0 <= g_low g -> 0 <= g_high g ->
  find_partition parts g = list_find (fun p => u32 (g_low (dp_guid p)) = u32 (g_low g) /\ u32 (g_high (dp_guid p)) = u32 (g_high g)) parts.
Proof.
  intros Hp Hl Hh. unfold find_partition. induction Hp as [|p parts [? ?] Hp IH]; [done|]. cbn [list_find]. rewrite IH.
  pose proof (same_guid_spec (dp_guid p) g ltac:(done) ltac:(done) Hl Hh) as Hs. repeat case_decide; tauto.
Qed.

(** ** The scan *)

Lemma str_eq_spec s : forall buf, zlen s < zlen buf -> str_eq buf s = Ok (bool_decide (take (S (length s)) buf = s ++ [0])).
Proof.
  induction s as [|c s IH]; intros [|b buf] Hz; try (unfold zlen in Hz; cbn in Hz; lia).
  - cbn [str_eq length take app]. f_equal. destruct (Z.eqb_spec b 0); [subst; by rewrite bool_decide_true|rewrite bool_decide_false by congruence; done].
  - cbn [str_eq length]. destruct (Z.eqb_spec b c) as [->|E]; [|f_equal; rewrite bool_decide_false; [done|cbn; congruence]].
    rewrite !zlen_cons in Hz. rewrite IH by lia. f_equal. apply bool_decide_ext. cbn [take app]. split; [intros ->; done|congruence].
Qed.

Section ScanProofs.
Context {D : Type} `{BlockDevice D}.
Notation SZ := (2 ^ dev_lbashift (D := D)).
Variables (driver : Z) (device_name : list Z) (junk : Z -> Z).

(** What entry [i] of a table describes. *)
Definition entry_part (table : list Z) (entry_size i : Z) : disk_part :=
  new_part driver (slice table (i * entry_size) 56) i (part_name (words_of (slice table (i * entry_size + 56) 70))) (device_name ++ 112 :: utos (i + 1) (-1)).
Definition entry_used (table : list Z) (entry_size i : Z) : Prop := read_guid (slice table (i * entry_size) 56) 0 <> Guid 0 0.
#[export] Instance entry_used_dec table entry_size i : Decision (entry_used table entry_size i).
Proof. unfold entry_used. destruct (read_guid _ 0) as [a b]. destruct (decide (a = 0)), (decide (b = 0)); [right|left..]; congruence. Defined.

Lemma sysname_ok i : 0 <= i < 9999 -> zlen device_name <= 10 ->
  exists n, vsprintf [37; 115; 112; 37; 117] [AStr device_name; AInt (u32 (i + 1))] = Ok (device_name ++ 112 :: utos (i + 1) (-1), n) /\ zlen (device_name ++ 112 :: utos (i + 1) (-1)) < 16.
Proof.
  intros Hi Hn. rewrite u32_small by lia. exists 2. split.
  - unfold vsprintf. cbn -[utos]. by rewrite u32_small, app_nil_r by lia.
  - rewrite zlen_app, zlen_cons. destruct (utos_ok (i + 1) (-1) ltac:(lia)) as (_ & _ & k & Hk & _ & Hl & ->). destruct (Z.le_gt_cases k 4); [lia|]. pose proof (pow_mono 10 4 (k - 1) ltac:(lia) ltac:(lia)). change (10 ^ 4) with 10000 in *. lia.
Qed.

Lemma scan_loop_ok es table n : forall i parts, 126 <= es -> 0 <= i -> i + Z.of_nat n <= 9999 -> (i + Z.of_nat n) * es <= zlen table -> zlen device_name <= 10 ->
  scan_loop driver device_name n i es table parts = Ok (parts ++ (entry_part table es <$> filter (entry_used table es) (seqZ i (Z.of_nat n)))).
Proof.
  induction n as [|n IH]; intros i parts Hes Hi Hn Ht Hd; [cbn; by rewrite app_nil_r|]. cbn [scan_loop]. rewrite rd_bytes_ok by nia. cbn [mbind res_bind].
  rewrite seqZ_cons by lia. replace (Z.pred (Z.of_nat (S n))) with (Z.of_nat n) by lia. rewrite filter_cons. replace (Z.succ i) with (i + 1) by lia.
  destruct (_ && _) eqn:E.
  - rewrite decide_False; [apply IH; lia|]. unfold entry_used. destruct (read_guid _ 0) as [a b]. cbn in E. intros Hx. apply Hx. f_equal; lia.
  - rewrite decide_True by (unfold entry_used; intros Hx; rewrite Hx in E; done). unfold assert_. rewrite (proj2 (Z.leb_le _ 16)) by lia. cbn [mbind res_bind].
    destruct (sysname_ok i) as (k & -> & Hl); [lia|done|]. cbn [mbind res_bind]. rewrite (proj2 (Z.ltb_lt _ _)) by done. cbn [mbind res_bind]. rewrite entry_name by nia. cbn [mbind res_bind].
    rewrite IH by lia. unfold register_partition. rewrite <- app_assoc. done.
Qed.

(** C34: Scanning a drive registers exactly the used entries of its partition table, in their order: each
    with the limits, the GUID and the type of its entry, its name up to the first zero and 35
    characters, and the name of the device with its number.  A drive whose first sector does not begin
    with the signature changes nothing. *)
Theorem gpt_scan_correct (d : D) parts n es lba :
  let header := dev_read d 1 1 in let table := dev_read d lba (n * es / SZ) in
  lba = le_bytes (slice header 0x48 8) -> n = le_bytes (slice header 0x50 4) -> es = le_bytes (slice header 0x54 4) ->
  9 <= SZ -> 0 <= n <= 9999 -> 126 <= es -> n * es < 2 ^ 32 -> n * es mod SZ = 0 -> zlen device_name <= 10 ->
  gpt_scan driver device_name junk d parts =
  Ok (if decide (take 9 header = magic ++ [0]) then parts ++ (entry_part table es <$> filter (entry_used table es) (seqZ 0 n)) else parts).
Proof.
  intros header table -> -> -> Hsz Hn Hes Hlt Hmod Hd. unfold gpt_scan. fold header.
  assert (zlen header = SZ) as Hh by (unfold header; rewrite zlen_dev_read; lia). rewrite str_eq_spec by (rewrite Hh; change (zlen magic) with 8; lia). cbn [mbind res_bind].
  change (S (length magic)) with 9%nat. case_bool_decide as Em; [rewrite decide_True by done|by rewrite decide_False by done]. cbn [negb]. set (n := le_bytes (slice header 80 4)) in *. set (es := le_bytes (slice header 84 4)) in *.
  rewrite (Z.mul_comm es), u32_small by nia. pose proof (dev_lbashift_range (D := D)). rewrite Z.shiftr_div_pow2 by lia. set (old := _ <$> seqZ 0 (n * es)). fold table.
  assert (zlen table = n * es) as Ht by (unfold table; rewrite zlen_dev_read by (apply Z.div_pos; nia); pose proof (Z.div_exact (n * es) SZ ltac:(lia)); lia).
  assert (zlen old = n * es) as Ho by (unfold old, zlen; rewrite length_fmap, length_seqZ; nia).
  rewrite wr_bytes_ok by lia. cbn [mbind res_bind]. rewrite blit_0_all by lia. rewrite scan_loop_ok; rewrite ?Z2Nat.id by lia; first [done|lia].
Qed.
End ScanProofs.

(** ** A drive with one partition *)

Definition put64 (x : Z) : list Z := (fun k => Z.land (Z.shiftr x (8 * k)) 255) <$> seqZ 0 8.

(** The second entry of the table is the EFI system partition [boot]. *)
Definition gpt_bytes : list Z :=
  let l := blit (replicate 2048 0) 512 magic in
  let l := blit l (512 + 0x48) (put64 2 ++ put64 (4 + Z.shiftl 128 32)) in
  let g := makeGUID 0xC12A7328 0xF81F 0x11D2 0x4BBA 0x3bc93ec9a000 in
  blit l (1024 + 128) (concat (put64 <$> [g_low g; g_high g; 77; 78; 34; 99; 0]) ++ [98; 0; 111; 0; 111; 0; 116; 0]).
Definition gpt_disk : disk := fun a => nthZ gpt_bytes a.
Definition nvme0 : list Z := [110; 118; 109; 101; 48].
Definition boot_part : disk_part :=
  Part 3 1 1 (Guid 77 78) 34 99 0 None ([98; 111; 111; 116] ++ replicate 32 0) (nvme0 ++ [112; 50]).

Lemma gpt_scan_witness : gpt_scan 3 nvme0 (fun _ => 85) gpt_disk [] = Ok [boot_part].
Proof.
  refine (eq_trans (gpt_scan_correct 3 nvme0 (fun _ => 85) gpt_disk [] 4 128 2 _ _ _ _ _ _ _ _ _) _); first [vm_compute; reflexivity|done].
Defined.

Lemma gpt_remove_witness : gpt_remove_drive_parts 3 [boot_part; Part 5 1 0 (Guid 1 1) 0 1 0 None [] []; Part 3 1 0 (Guid 2 2) 0 1 0 (Some [47]) [] []] =
  Ok ([Part 5 1 0 (Guid 1 1) 0 1 0 None [] []], [[47]]).
Proof. refine (eq_trans (gpt_remove_drive_parts_correct 3 _ _) _); [done|vm_compute; reflexivity]. Defined.

Lemma find_partition_witness : find_partition [boot_part] (Guid (77 + 2 ^ 32) (78 + 2 ^ 40)) = Some (0%nat, boot_part) /\ Guid (77 + 2 ^ 32) (78 + 2 ^ 40) <> dp_guid boot_part.
Proof.
  split; [|done]. refine (eq_trans (find_partition_halves [boot_part] (Guid (77 + 2 ^ 32) (78 + 2 ^ 40)) _ _ _) _); [repeat constructor; done|done|done|vm_compute; reflexivity].
Defined.
