(* ===== verification/Terminal.v ===== *)
(** * The terminal ([kernel/drivers/terminal/terminal.c], [video.c])

    The text buffer, the cursor, the escape sequences and the drawing, with the font that the
    build selects ([BIGGER_FONT]).  Pixel memory is an array of 8-byte words, two pixels each, as the
    drawing writes it; a character is its code.  An endless loop is [Err (Deadlock _)]. *)

From S2P Require Import Prelude Bytes.



Definition TAB_SPACE : Z := 6.
Definition TERMINAL_FONTWIDTH : Z := 12.
Definition TERMINAL_FONTHEIGHT : Z := 16.
Definition TERMINAL_LINE_HEIGHT : Z := 16.
Definition TERMINAL_N_PAGES : Z := 2.

Record Char := MkChar { fg_color : Z; c_code : Z; bg_color : Z }.

(** The framebuffer device. *)
Record fb_dev := FbDev { width : Z; height : Z; pitch : Z }.

(** The fields of [struct data] that [terminal_install] sets and nobody changes. *)
Record term_geometry := Geometry { ncols : Z; nlines : Z; term_nlines : Z; margin_left : Z; margin_top : Z; fb_size : Z }.

(** The other fields, and the pixels of the device. *)
Record term := Term {
  char_buffer : list Char; first_line : Z; cur_col : Z; cur_line : Z; need_refresh : bool; current_fgcolor : Z; current_bgcolor : Z;
  esc_ESC : bool; esc_seq : bool; esc_idx : Z; esc_args : list Z;
  px_buffer0 : list Z; px_buffer1 : list Z; cur_px_buffer : bool; pix : list Z }.

Definition set_text (d : term) (b : list Char) : term :=
  Term b (first_line d) (cur_col d) (cur_line d) (need_refresh d) (current_fgcolor d) (current_bgcolor d) (esc_ESC d) (esc_seq d) (esc_idx d) (esc_args d) (px_buffer0 d) (px_buffer1 d) (cur_px_buffer d) (pix d).
Definition set_cursor (d : term) (first col line : Z) : term :=
  Term (char_buffer d) first col line (need_refresh d) (current_fgcolor d) (current_bgcolor d) (esc_ESC d) (esc_seq d) (esc_idx d) (esc_args d) (px_buffer0 d) (px_buffer1 d) (cur_px_buffer d) (pix d).
Definition set_refresh (d : term) (r : bool) : term :=
  Term (char_buffer d) (first_line d) (cur_col d) (cur_line d) r (current_fgcolor d) (current_bgcolor d) (esc_ESC d) (esc_seq d) (esc_idx d) (esc_args d) (px_buffer0 d) (px_buffer1 d) (cur_px_buffer d) (pix d).
Definition set_colors (d : term) (fg bg : Z) : term :=
  Term (char_buffer d) (first_line d) (cur_col d) (cur_line d) (need_refresh d) fg bg (esc_ESC d) (esc_seq d) (esc_idx d) (esc_args d) (px_buffer0 d) (px_buffer1 d) (cur_px_buffer d) (pix d).
Definition set_esc (d : term) (e s : bool) (idx : Z) (args : list Z) : term :=
  Term (char_buffer d) (first_line d) (cur_col d) (cur_line d) (need_refresh d) (current_fgcolor d) (current_bgcolor d) e s idx args (px_buffer0 d) (px_buffer1 d) (cur_px_buffer d) (pix d).
Definition set_pixels (d : term) (p0 p1 : list Z) (cur : bool) (p : list Z) : term :=
  Term (char_buffer d) (first_line d) (cur_col d) (cur_line d) (need_refresh d) (current_fgcolor d) (current_bgcolor d) (esc_ESC d) (esc_seq d) (esc_idx d) (esc_args d) p0 p1 cur p.

(** [px_buffers[b]]. *)
Definition px_buffer (d : term) (b : bool) : list Z := if b then px_buffer1 d else px_buffer0 d.
Definition set_px_buffer (d : term) (b : bool) (px : list Z) : term :=
  if b then set_pixels d (px_buffer0 d) px (cur_px_buffer d) (pix d) else set_pixels d px (px_buffer1 d) (cur_px_buffer d) (pix d).

(** ** Drawing a character *)

(** [colormap], two pixels of the background and foreground colours. *)
Definition colormap (fg bg index : Z) : Z :=
  if index =? 0 then Z.lor (Z.shiftl bg 32) bg else if index =? 1 then Z.lor (Z.shiftl bg 32) fg
  else if index =? 2 then Z.lor (Z.shiftl fg 32) bg else Z.lor (Z.shiftl fg 32) fg.

Definition pixs_val_low (v : Z) : Z := Z.lor v (u64 (Z.shiftl v 32)).
Definition pixs_val_high (v : Z) : Z := Z.lor v (Z.shiftr v 32).

(** [for(n_col2 = TERMINAL_FONTWIDTH / 4; n_col2 > 0; n_col2--)]. *)
Fixpoint blit_cols (n : nat) (fg bg : Z) (px : list Z) (dst dst2 lines : Z) : res (list Z * Z * Z * Z) :=
  match n with
  | O => Ok (px, dst, dst2, lines)
  | S n' =>
      let v := colormap fg bg (Z.land lines 3) in
      px ← st px dst (pixs_val_low v); px ← st px (dst + 1) (pixs_val_high v);
      px ← st px dst2 (pixs_val_low v); px ← st px (dst2 + 1) (pixs_val_high v);
      blit_cols n' fg bg px (dst + 2) (dst2 + 2) (Z.shiftr lines 2)
  end.

Fixpoint blit_lines (n : nat) (fg bg skip : Z) (px : list Z) (dst dst2 lines : Z) : res (list Z) :=
  match n with
  | O => Ok px
  | S n' =>
      '(px, dst, dst2, lines) ← blit_cols (Z.to_nat (TERMINAL_FONTWIDTH / 4)) fg bg px dst dst2 lines;
      blit_lines n' fg bg skip px (dst + skip) (dst2 + skip) (Z.shiftr lines (8 - TERMINAL_FONTWIDTH / 2))
  end.

(** [dst_ptr] must be a multiple of 8 for the words to be those of the array. *)
Definition blitcharX2 (charset : list Z) (px : list Z) (pitch c fg bg dstx dsty : Z) : res (list Z) :=
  let srcy := u16 (c * TERMINAL_FONTHEIGHT / 2) in
  let start := u32 (u32 (pitch * dsty) + 4 * dstx) in
  let dst_skip := u16 (2 * pitch - TERMINAL_FONTWIDTH * 4) in
  if negb (start mod 8 =? 0) then Err (Fault "dst_ptr")
  else
    glyph ← rd_bytes charset (srcy / 8 * 8) 8;
    blit_lines 8 fg bg (dst_skip / 8) px (start / 8) (start / 8 + pitch / 8) (le_bytes glyph).

Section Terminal.
Variables (charmap : list Z) (dev : fb_dev) (G : term_geometry).

Definition make_Char (d : term) (c : Z) : Char := MkChar (wrap 24 (current_fgcolor d)) c (current_bgcolor d).

(** [error = 1; for(;;)]. *)
Definition hang {A} : res A := Err (Deadlock "for(;;)").

Definition blit_at (px : list Z) (c : Char) (line col : Z) : res (list Z) :=
  blitcharX2 charmap px (pitch dev) (c_code c) (fg_color c) (bg_color c)
    (u16 (margin_left G + col * TERMINAL_FONTWIDTH)) (u16 (margin_top G + line * TERMINAL_LINE_HEIGHT)).

Definition print_char (d : term) (c : Char) (line col : Z) : res term :=
  if term_nlines G <? line then hang
  else if ncols G <? col then hang
  else
    let y := s32 (u32 (margin_top G + line * TERMINAL_LINE_HEIGHT)) in
    let x := s32 (u32 (margin_left G + col * TERMINAL_FONTWIDTH)) in
    if height dev <? y then hang
    else if width dev <? x then hang
    else
      p ← blit_at (pix d) c line col;
      b ← blit_at (px_buffer d (cur_px_buffer d)) c line col;
      Ok (set_px_buffer (set_pixels d (px_buffer0 d) (px_buffer1 d) (cur_px_buffer d) p) (cur_px_buffer d) b).

(** ** The framebuffer *)

Definition cache_line : Z := 8.

(** Whether the eight words differ; the loop stops at the first difference. *)
Fixpoint line_differs (n : nat) (a b : list Z) (i : Z) : res bool :=
  match n with
  | O => Ok false
  | S n' => x ← ld a i; y ← ld b i; if Z.lxor x y =? 0 then line_differs n' a b (i + 1) else Ok true
  end.

(** [for(unsigned i = 0; i < d->fb_size / 8; i += cache_line)]. *)
Fixpoint update_loop (n : nat) (i : Z) (devfb buff otherbuff : list Z) : res (list Z) :=
  match n with
  | O => Err NoFuel
  | S n' =>
      if i <? fb_size G / 8 then
        diff ← line_differs 8 buff otherbuff i;
        devfb ← (if (diff : bool) then words ← rd_bytes buff i cache_line; wr_bytes devfb i words else Ok devfb);
        update_loop n' (i + cache_line) devfb buff otherbuff
      else Ok devfb
  end.
Definition update_framebuffer (d : term) : res term :=
  p ← update_loop (S (Z.to_nat (fb_size G / 8))) 0 (pix d) (px_buffer d (cur_px_buffer d)) (px_buffer d (negb (cur_px_buffer d)));
  Ok (set_pixels d (px_buffer0 d) (px_buffer1 d) (cur_px_buffer d) p).

(** [buff_print_char] for the columns from [c] on, of the lines from [l] on; [curr] is the index of the
    next character. *)
Fixpoint flush_cols (n : nat) (buf : list Char) (px : list Z) (curr l c : Z) : res (list Z) :=
  match n with O => Ok px | S n' => ch ← ld buf curr; px ← blit_at px ch l c; flush_cols n' buf px (curr + 1) l (c + 1) end.
Fixpoint flush_lines (n : nat) (buf : list Char) (px : list Z) (curr l : Z) : res (list Z) :=
  match n with
  | O => Ok px
  | S n' => px ← flush_cols (Z.to_nat (ncols G)) buf px curr l 0; flush_lines n' buf px (curr + ncols G) (l + 1)
  end.
Definition flush_screen (d : term) : res term :=
  let cur := negb (cur_px_buffer d) in
  px ← flush_lines (Z.to_nat (term_nlines G)) (char_buffer d) (px_buffer d cur) (first_line d * ncols G) 0;
  update_framebuffer (set_px_buffer (set_pixels d (px_buffer0 d) (px_buffer1 d) cur (pix d)) cur px).

(** ** The text buffer *)

Definition terminal_clear (d : term) : term :=
  set_refresh (set_text (set_cursor d 0 0 0) (replicate (Z.to_nat (nlines G * ncols G)) (make_Char d 0))) true.

(** [for(unsigned i = 1; i < px; i++)]: the first cell is left alone. *)
Definition move_buffer (d : term) (lines : Z) : res term :=
  let d := set_refresh d true in
  if 0 <? lines then
    let px := ncols G * lines in let buff_px := nlines G * ncols G in
    moved ← rd_bytes (char_buffer d) px (buff_px - px);
    b ← wr_bytes (char_buffer d) 0 moved;
    b ← wr_bytes b (buff_px - px + 1) (replicate (Z.to_nat (px - 1)) (make_Char d 0));
    Ok (set_text d b)
  else Ok d.

Definition next_line (d : term) : res term :=
  let line := u16 (cur_line d + 1) in
  if nlines G <=? line then move_buffer (set_cursor d (u16 (nlines G - term_nlines G)) 0 (u16 (nlines G - 4))) 4
  else if first_line d + term_nlines G <=? line then Ok (set_refresh (set_cursor d (u16 (first_line d + 4)) 0 line) true)
  else Ok (set_cursor d (first_line d) 0 line).

Definition emplace_normal_char (d : term) (c : Z) : res term :=
  let ch := make_Char d c in
  b ← st (char_buffer d) (ncols G * cur_line d + cur_col d) ch;
  let d := set_text d b in
  d ← (if need_refresh d then Ok d else print_char d ch (cur_line d - first_line d) (cur_col d));
  let d := set_cursor d (first_line d) (u16 (cur_col d + 1)) (cur_line d) in
  if ncols G <=? cur_col d then next_line d else Ok d.

(** ** Escape sequences *)

Definition colors : list Z :=
  [0x0c0c1c; 0x400000; 0x13a10e; 0xc19c00; 0x0037da; 0x881798; 0x3a96dd; 0xecec9d;
   0x767676; 0xe74856; 0x16c60c; 0xf9f1a5; 0x3b78ff; 0xb4009e; 0x61d6d6; 0xf2f2f2].

Definition set_color (d : term) (tenth unit : Z) : term :=
  let unit := if 7 <? unit then 7 else unit in
  if tenth =? 3 then set_colors d (nthZ colors unit) (current_bgcolor d)
  else if tenth =? 4 then set_colors d (current_fgcolor d) (nthZ colors unit)
  else if tenth =? 9 then set_colors d (nthZ colors (unit + 8)) (current_bgcolor d)
  else if tenth =? 10 then set_colors d (current_fgcolor d) (nthZ colors (unit + 8))
  else d.

(** [for(unsigned i = 0; i < d->esc.idx; i++)] from [i] on. *)
Fixpoint parse_number (n : nat) (args : list Z) (i num : Z) : res Z :=
  match n with O => Ok num | S n' => x ← ld args i; if x =? 0xff then Ok num else parse_number n' args (i + 1) (s32 (num * 10 + x)) end.
Definition parse_esc_number_single (d : term) : res Z := parse_number (Z.to_nat (esc_idx d)) (esc_args d) 0 0.

(** The two numbers of a cursor position; [None] is the early return. *)
Fixpoint cup_loop (n : nat) (args : list Z) (i j : Z) (vals : list Z) : res (option (list Z)) :=
  match n with
  | O => Ok (Some vals)
  | S n' =>
      x ← ld args i;
      if x =? 0xff then if 1 <? j then Ok None else cup_loop n' args (i + 1) (j + 1) vals
      else v ← ld vals j; vals ← st vals j (s32 (v * 10 + x)); cup_loop n' args (i + 1) j vals
  end.
Definition esc_cup (d : term) : res term :=
  r ← cup_loop (Z.to_nat (esc_idx d)) (esc_args d) 0 0 [0; 0];
  match r with
  | None => Ok d
  | Some vals =>
      let col := u16 (if nthZ vals 1 - 1 <? 0 then 0 else nthZ vals 1 - 1) in
      let line := u16 (if nthZ vals 0 - 1 <? 0 then 0 else nthZ vals 0 - 1) in
      let line := u16 (line + first_line d) in
      let col := if ncols G <=? col then u16 (ncols G - 1) else col in
      let line := if nlines G <=? line then u16 (nlines G - 1 + first_line d) else line in
      assert_ (first_line d <=? line) "d->cur_line >= d->first_line" ;;
      Ok (set_cursor d (first_line d) col line)
  end.

Fixpoint fill (n : nat) (b : list Char) (x : Z) (ch : Char) : res (list Char) :=
  match n with O => Ok b | S n' => b ← st b x ch; fill n' b (x + 1) ch end.
Definition esc_el (d : term) : res term :=
  num ← parse_esc_number_single d;
  let line_begin := ncols G * cur_line d in
  let line_end := ncols G * (cur_line d + 1) in
  let line_cur := line_begin + cur_col d in
  let d := set_refresh d true in
  let range := if num =? 0 then Some (line_cur, line_end) else if num =? 1 then Some (line_begin, line_cur) else if num =? 2 then Some (line_begin, line_end) else None in
  match range with
  | None => Ok d
  | Some (begin, end_) => b ← fill (Z.to_nat (end_ - begin)) (char_buffer d) begin (make_Char d 32); Ok (set_text d b)
  end.

Definition esc_sgr (d : term) : term :=
  let a := nthZ (esc_args d) in
  let d :=
    if esc_idx d =? 2 then set_color d (a 0) (a 1)
    else if (esc_idx d =? 5) && (a 2 =? 0xff) then set_color (set_color d (a 0) (a 1)) (a 3) (a 4)
    else if (esc_idx d =? 1) && (a 0 =? 0) then set_color (set_color d 3 7) 4 0
    else d in
  set_esc d (esc_ESC d) false 0 (esc_args d).

(** A character inside of an escape sequence. *)
Definition emplace_escape (d : term) (c : Z) : res term :=
  if (c <=? 57) && (48 <=? c) then
    if 10 <? esc_idx d then Ok (set_esc d (esc_ESC d) false (esc_idx d) (esc_args d))
    else a ← st (esc_args d) (esc_idx d) (c - 48); Ok (set_esc d (esc_ESC d) true (u8 (esc_idx d + 1)) a)
  else if c =? 59 then
    a ← st (esc_args d) (esc_idx d) 0xff;
    let idx := u8 (esc_idx d + 1) in
    Ok (if 10 <=? idx then set_esc d (esc_ESC d) false 0 a else set_esc d (esc_ESC d) true idx a)
  else
    d ← (if c =? 109 then Ok (esc_sgr d) else if c =? 72 then esc_cup d else if c =? 75 then esc_el d else Ok d);
    Ok (set_esc d (esc_ESC d) false 0 (esc_args d)).

(** [for(unsigned i = d->cur_col; i < d->ncols; i++)] *)
Fixpoint emplace_spaces (n : nat) (d : term) : res term := match n with O => Ok d | S n' => d ← emplace_normal_char d 32; emplace_spaces n' d end.

(** [emplace_char]; [tab] is the loop of a tabulator, which calls [emplace_char] with spaces only. *)
Definition emplace_with (tab : Z -> term -> res term) (d : term) (c : Z) : res term :=
  if esc_seq d then emplace_escape d c
  else if esc_ESC d && (c =? 91) then Ok (set_esc d false true (esc_idx d) (esc_args d))
  else
    let d := set_esc d false (esc_seq d) (esc_idx d) (esc_args d) in
    if c =? 27 then Ok (set_esc d true (esc_seq d) (esc_idx d) (esc_args d))
    else if c =? 10 then emplace_spaces (Z.to_nat (ncols G - cur_col d)) d
    else if c =? 9 then
      let new_col := (cur_col d + TAB_SPACE) / TAB_SPACE * TAB_SPACE in
      tab (if ncols G <? new_col then 0 else new_col) d
    else if c =? 13 then Ok (set_cursor d (first_line d) 0 (cur_line d))
    else if c =? 8 then
      Ok (if 0 <? cur_col d then set_cursor d (first_line d) (cur_col d - 1) (cur_line d)
          else if 0 <? cur_line d then set_cursor d (first_line d) (u16 (ncols G - 1)) (cur_line d - 1) else d)
    else if c =? 12 then Ok (terminal_clear d)
    else emplace_normal_char d c.

Fixpoint tab_loop (fuel : nat) (new_col : Z) (d : term) : res term :=
  match fuel with
  | O => Err NoFuel
  | S fuel' => if cur_col d <? new_col then d ← emplace_with (fun _ _ => Err NoFuel) d 32; tab_loop fuel' new_col d else Ok d
  end.
Definition emplace_char (fuel : nat) (d : term) (c : Z) : res term := emplace_with (tab_loop fuel) d c.

(** [char] is signed: the bytes from 128 on are not greater than 0. *)
Fixpoint write_loop (fuel : nat) (d : term) (s : list Z) : res term :=
  match s with
  | [] => Ok d
  | c :: s => d ← (if (0 <? c) && (c <? 0x7f) then emplace_char fuel d c else Ok d); write_loop fuel d s
  end.
Definition write_string (fuel : nat) (d : term) (s : list Z) : res term :=
  d ← write_loop fuel (set_refresh d false) s;
  if need_refresh d then flush_screen d else Ok d.

(** ** The device file *)

Definition le32_bytes (x : Z) : list Z := (fun k => Z.land (Z.shiftr x (8 * k)) 255) <$> seqZ 0 4.

(** [terminfo_t]. *)
Definition terminfo (d : term) : list Z := concat (le32_bytes <$> [ncols G; term_nlines G; nlines G; cur_col d; cur_line d; first_line d]).
Definition terminal_devfile_read (d : term) (count : Z) : list Z := take (Z.to_nat (Z.min 24 count)) (terminfo d).
Definition terminal_devfile_write (fuel : nat) (d : term) (buffer : list Z) : res (term * Z) :=
  d ← write_string fuel d buffer; Ok (d, s32 (zlen buffer)).
End Terminal.

(** ** Installation *)

Definition install_geometry (dev : fb_dev) : term_geometry :=
  let ncols := u16 (width dev / TERMINAL_FONTWIDTH) in
  let term_nlines := u16 (height dev / TERMINAL_LINE_HEIGHT) in
  Geometry ncols (u16 (TERMINAL_N_PAGES * term_nlines)) term_nlines
    (Z.land (u32 (width dev - ncols * TERMINAL_FONTWIDTH) / 2) (2 ^ 32 - 16)) (u32 (height dev - term_nlines * TERMINAL_FONTHEIGHT) / 2)
    (u32 (height dev * pitch dev)).

(** [bg], [refresh] and [args] are what the allocated memory holds; [pix] is what the screen shows. *)
Definition terminal_install (charmap : list Z) (dev : fb_dev) (bpp : Z) (bg : Z) (refresh : bool) (args : list Z) (pix : list Z) : res (option term) :=
  if negb (bpp =? 32) then Ok None
  else
    let G := install_geometry dev in
    let zeros := replicate (Z.to_nat (fb_size G / 8)) 0 in
    let d := Term [] 0 0 0 refresh 0xffffff bg false false 0 args zeros zeros false pix in
    d ← flush_screen charmap dev G (terminal_clear G d);
    Ok (Some d).
