(* ===== verification/TerminalProofs.v ===== *)
(** * Drawing on the screen

    The words that the drawing of a character changes, and the screen as the picture of the visible
    lines of the text buffer. *)

From S2P Require Import Prelude Bytes CStringProofs Terminal.



Lemma st_word_ok (px : list Z) i v : 0 <= i < zlen px ->
  exists px', st px i v = Ok px' /\ zlen px' = zlen px /\ forall j, 0 <= j -> nthZ px' j = if j =? i then v else nthZ px j.
Proof.
  intros Hi. unfold st. rewrite (proj2 (Z.leb_le _ _)), (proj2 (Z.ltb_lt _ _)) by lia. eexists. split; [done|]. split; [unfold zlen; by rewrite length_insert|].
  intros j Hj. unfold nthZ. destruct (Z.eqb_spec j i) as [->|E].
  - rewrite list_lookup_insert_eq; [done|]. unfold zlen in Hi. lia.
  - rewrite list_lookup_insert_ne by lia. done.
Qed.

(** ** The words of a character *)

(** Word [k] of a line of a glyph whose remaining bits are [lines]. *)
Definition line_word (fg bg lines k : Z) : Z :=
  let v := colormap fg bg (Z.land (Z.shiftr lines (2 * (k / 2))) 3) in if k mod 2 =? 0 then pixs_val_low v else pixs_val_high v.

Lemma line_word_shift fg bg lines k : 2 <= k -> line_word fg bg (Z.shiftr lines 2) (k - 2) = line_word fg bg lines k.
Proof.
  intros Hk. unfold line_word. rewrite Z.shiftr_shiftr by lia. replace (2 + 2 * ((k - 2) / 2)) with (2 * (k / 2)) by lia. replace ((k - 2) mod 2) with (k mod 2) by lia. done.
Qed.

(** The two lines of pixels from [dst] and [dst + P] on hold [2 n] words of the glyph. *)
Definition cols_drawn (fg bg P lines dst n : Z) (px px' : list Z) : Prop :=
  zlen px' = zlen px /\ (forall k, 0 <= k < n -> nthZ px' (dst + k) = line_word fg bg lines k /\ nthZ px' (dst + P + k) = line_word fg bg lines k) /\
  (forall i, 0 <= i -> ~ (dst <= i < dst + n) -> ~ (dst + P <= i < dst + P + n) -> nthZ px' i = nthZ px i).

Lemma four_writes (px : list Z) dst P a b : 2 <= P -> 0 <= dst -> dst + P + 2 <= zlen px ->
  exists p1 p2 p3 p4, st px dst a = Ok p1 /\ st p1 (dst + 1) b = Ok p2 /\ st p2 (dst + P) a = Ok p3 /\ st p3 (dst + P + 1) b = Ok p4 /\ zlen p4 = zlen px /\
  nthZ p4 dst = a /\ nthZ p4 (dst + 1) = b /\ nthZ p4 (dst + P) = a /\ nthZ p4 (dst + P + 1) = b /\
  (forall i, 0 <= i -> ~ (dst <= i < dst + 2) -> ~ (dst + P <= i < dst + P + 2) -> nthZ p4 i = nthZ px i).
Proof.
  intros HP Hd Hl. destruct (st_word_ok px dst a) as (p1 & S1 & L1 & E1); [lia|]. destruct (st_word_ok p1 (dst + 1) b) as (p2 & S2 & L2 & E2); [lia|].
  destruct (st_word_ok p2 (dst + P) a) as (p3 & S3 & L3 & E3); [lia|]. destruct (st_word_ok p3 (dst + P + 1) b) as (p4 & S4 & L4 & E4); [lia|].
  exists p1, p2, p3, p4. split_and!; [done..|lia| | | | |]; try (rewrite E4, E3, E2, E1 by lia; zb). intros i Hi H1 H2. rewrite E4, E3, E2, E1 by lia. zb.
Qed.

Lemma blit_cols_ok fg bg P n : forall px dst lines, 2 * Z.of_nat n <= P -> 0 <= dst -> dst + P + 2 * Z.of_nat n <= zlen px ->
  exists px', blit_cols n fg bg px dst (dst + P) lines = Ok (px', dst + 2 * Z.of_nat n, dst + P + 2 * Z.of_nat n, Z.shiftr lines (2 * Z.of_nat n)) /\
    cols_drawn fg bg P lines dst (2 * Z.of_nat n) px px'.
Proof.
  induction n as [|n IH]; intros px dst lines HP Hd Hl.
  - exists px. cbn. rewrite !Z.add_0_r. split; [done|]. split_and!; [done|intros; lia|done].
  - cbn [blit_cols]. cbv zeta. set (v := colormap fg bg (Z.land lines 3)).
    destruct (four_writes px dst P (pixs_val_low v) (pixs_val_high v)) as (p1 & p2 & p3 & p4 & -> & S2 & S3 & S4 & L4 & E1 & E2 & E3 & E4 & E5); [lia..|]. cbn [mbind res_bind]. rewrite S2. cbn [mbind res_bind]. rewrite S3. cbn [mbind res_bind]. rewrite S4. cbn [mbind res_bind].
    replace (dst + P + 2) with (dst + 2 + P) by lia. destruct (IH p4 (dst + 2) (Z.shiftr lines 2)) as (p5 & -> & L5 & D5 & K5); [lia..|]. exists p5.
    rewrite Z.shiftr_shiftr by lia. replace (2 + 2 * Z.of_nat n) with (2 * Z.of_nat (S n)) by lia. replace (dst + 2 + 2 * Z.of_nat n) with (dst + 2 * Z.of_nat (S n)) by lia. replace (dst + 2 + P + 2 * Z.of_nat n) with (dst + P + 2 * Z.of_nat (S n)) by lia. split; [done|]. split_and!; [lia| |intros i Hi H1 H2; rewrite K5, E5 by lia; done].
    intros k Hk. destruct (decide (2 <= k)) as [H2|H2].
    + destruct (D5 (k - 2)) as [DA DB]; [lia|]. rewrite line_word_shift in DA, DB by lia. rewrite <- DA at 1. rewrite <- DB. split; f_equal; lia.
    + rewrite !K5 by lia. assert (k = 0 \/ k = 1) as [-> | ->] by lia; rewrite ?Z.add_0_r; unfold line_word; rewrite Z.shiftr_0_r; done.
Qed.

(** Word [k] of line [r] of pixels of a glyph. *)
Definition glyph_word (fg bg lines r k : Z) : Z := line_word fg bg (Z.shiftr lines (8 * (r / 2))) k.

Definition lines_drawn (fg bg P lines dst n : Z) (px px' : list Z) : Prop :=
  zlen px' = zlen px /\ (forall r k, 0 <= r < n -> 0 <= k < 6 -> nthZ px' (dst + P * r + k) = glyph_word fg bg lines r k) /\
  (forall i, 0 <= i -> (forall r k, 0 <= r < n -> 0 <= k < 6 -> i <> dst + P * r + k) -> nthZ px' i = nthZ px i).

Lemma blit_lines_ok fg bg P n : forall px dst lines, 6 <= P -> 0 <= dst -> dst + P * (2 * Z.of_nat n - 1) + 6 <= zlen px ->
  exists px', blit_lines n fg bg (2 * P - 6) px dst (dst + P) lines = Ok px' /\ lines_drawn fg bg P lines dst (2 * Z.of_nat n) px px'.
Proof.
  induction n as [|n IH]; intros px dst lines HP Hd Hl.
  - exists px. cbn. split; [done|]. split_and!; [done|intros; lia|done].
  - cbn [blit_lines]. destruct (blit_cols_ok fg bg P 3 px dst lines) as (p1 & E1 & L1 & D1 & K1); [lia|lia|nia|]. change (Z.to_nat (TERMINAL_FONTWIDTH / 4)) with 3%nat. rewrite E1. cbn [mbind res_bind].
    change (2 * Z.of_nat 3) with 6 in *. change (8 - TERMINAL_FONTWIDTH / 2) with 2. rewrite Z.shiftr_shiftr by lia. replace (dst + 6 + (2 * P - 6)) with (dst + 2 * P) by lia. replace (dst + P + 6 + (2 * P - 6)) with (dst + 2 * P + P) by lia.
    destruct (IH p1 (dst + 2 * P) (Z.shiftr lines (6 + 2))) as (p2 & -> & L2 & D2 & K2); [lia|lia|nia|]. exists p2. split; [done|]. split_and!; [lia| |].
    + intros r k Hr Hk. destruct (decide (2 <= r)) as [H2|H2].
      * specialize (D2 (r - 2) k ltac:(lia) Hk). replace (dst + 2 * P + P * (r - 2) + k) with (dst + P * r + k) in D2 by lia. rewrite D2. unfold glyph_word. rewrite Z.shiftr_shiftr by lia. f_equal. f_equal. lia.
      * rewrite K2; [|nia|intros; nia]. destruct (D1 k) as [DA DB]; [lia|]. assert (r = 0 \/ r = 1) as [-> | ->] by lia; unfold glyph_word; rewrite Z.shiftr_0_r.
        -- rewrite <- DA. f_equal. lia.
        -- rewrite <- DB. f_equal. lia.
    + intros i Hi Hn. rewrite K2; [apply K1; [done| |]|done|].
      * intros Hx. apply (Hn 0 (i - dst)); lia.
      * intros Hx. apply (Hn 1 (i - dst - P)); lia.
      * intros r k Hr Hk. specialize (Hn (r + 2) k ltac:(lia) Hk). lia.
Qed.

(** ** The screen *)

Section Screen.
Variables (charmap : list Z) (dev : fb_dev) (G : term_geometry).
Notation P := (pitch dev / 8).
Notation words := (height dev * P).

(** The sizes that the code relies on: a line of pixels is made of whole words, the framebuffer of whole
    cache lines, and the lines and columns fit on the screen. *)
Record screen_ok : Prop := {
  so_cols : 0 < ncols G < 2 ^ 15;
  so_lines : 4 <= term_nlines G < 2 ^ 14;
  so_pages : nlines G = 2 * term_nlines G;
  so_pitch : pitch dev mod 8 = 0 /\ 2 * pitch dev < 2 ^ 16;
  so_size : fb_size G = height dev * pitch dev /\ fb_size G mod 64 = 0 /\ fb_size G < 2 ^ 32;
  so_width : 0 <= margin_left G /\ margin_left G mod 2 = 0 /\ margin_left G + 12 * ncols G <= width dev < 2 ^ 16 /\ 4 * width dev <= pitch dev;
  so_height : 0 <= margin_top G /\ margin_top G + 16 * term_nlines G <= height dev < 2 ^ 16;
  so_charmap : zlen charmap = 2048 }.
Hypothesis SO : screen_ok.

Definition glyph (c : Z) : Z := le_bytes (slice charmap (8 * c) 8).
Definition char_word (ch : Char) (r k : Z) : Z := glyph_word (fg_color ch) (bg_color ch) (glyph (c_code ch)) r k.

(** The index of word [k] of line [r] of pixels of the character at line [l] and column [c]. *)
Definition px_index (l c r k : Z) : Z := P * (margin_top G + 16 * l + r) + margin_left G / 2 + 6 * c + k.
Definition on_screen (l c : Z) : Prop := 0 <= l < term_nlines G /\ 0 <= c < ncols G.

Lemma px_index_range l c r k : on_screen l c -> 0 <= r < 16 -> 0 <= k < 6 -> 0 <= px_index l c r k < words /\ 6 <= P /\ margin_left G / 2 + 6 * c + k < P.
Proof.
  intros [Hl Hc] Hr Hk. destruct SO as [? ? ? [Hp _] _ (Hm & Hm2 & Hw & Hw4) (Ht & Hh) _]. assert (pitch dev = 8 * P) by lia. unfold px_index. set (x := P) in *. assert (margin_left G / 2 + 6 * ncols G <= x) by lia. split; [|lia]. nia.
Qed.

Lemma px_index_inj l c r k l' c' r' k' : on_screen l c -> on_screen l' c' -> 0 <= r < 16 -> 0 <= k < 6 -> 0 <= r' < 16 -> 0 <= k' < 6 ->
  px_index l c r k = px_index l' c' r' k' -> l = l' /\ c = c' /\ r = r' /\ k = k'.
Proof.
  intros H H' Hr Hk Hr' Hk' E. pose proof (px_index_range l c r k H Hr Hk) as (_ & _ & B). pose proof (px_index_range l' c' r' k' H' Hr' Hk') as (_ & _ & B').
  unfold px_index in E. destruct H as [Hl Hc], H' as [Hl' Hc']. destruct SO as [_ _ _ _ _ (Hm & _) _ _]. set (x := P) in *. assert (0 <= margin_left G / 2) by lia. set (m := margin_left G / 2) in *.
  assert (margin_top G + 16 * l + r = margin_top G + 16 * l' + r') by nia. assert (l = l' /\ r = r') as [-> ->] by lia. assert (6 * c + k = 6 * c' + k') by lia. lia.
Qed.

Definition char_ok (ch : Char) : Prop := 0 <= c_code ch < 128.

(** The words of one character change, the others stay. *)
Definition cell_drawn (ch : Char) (l c : Z) (px px' : list Z) : Prop :=
  zlen px' = zlen px /\ (forall r k, 0 <= r < 16 -> 0 <= k < 6 -> nthZ px' (px_index l c r k) = char_word ch r k) /\
  (forall l' c' r k, on_screen l' c' -> (l', c') <> (l, c) -> 0 <= r < 16 -> 0 <= k < 6 -> nthZ px' (px_index l' c' r k) = nthZ px (px_index l' c' r k)).

Lemma blit_at_ok px ch l c : on_screen l c -> char_ok ch -> zlen px = words ->
  exists px', blit_at charmap dev G px ch l c = Ok px' /\ cell_drawn ch l c px px'.
Proof.
  intros H Hch Hz. pose proof (px_index_range l c 0 0 H ltac:(lia) ltac:(lia)) as (R0 & R1 & R2). pose proof (px_index_range l c 15 5 H ltac:(lia) ltac:(lia)) as (R3 & _). pose proof H as [Hl Hc]. pose proof SO as [Hnc Hnl _ [Hp Hp2] (Hs & _ & Hs2) (Hm & Hm2 & Hw & Hw4) (Ht & Hh) Hcm].
  assert (pitch dev = 8 * P) as EP by lia. unfold blit_at, blitcharX2. change TERMINAL_FONTWIDTH with 12. change TERMINAL_FONTHEIGHT with 16. change TERMINAL_LINE_HEIGHT with 16.
  assert (u16 (margin_left G + c * 12) = margin_left G + c * 12) as -> by (apply wrap_small; lia). assert (u16 (margin_top G + l * 16) = margin_top G + l * 16) as -> by (apply wrap_small; lia).
  assert (u32 (u32 (pitch dev * (margin_top G + l * 16)) + 4 * (margin_left G + c * 12)) = 8 * px_index l c 0 0) as ->.
  { unfold px_index in *. set (x := P) in *. rewrite EP. rewrite (u32_small (8 * x * _)) by nia. rewrite u32_small by nia. lia. }
  rewrite (Z.mul_comm 8 (px_index l c 0 0)), Z.mod_mul by lia. cbn [Z.eqb negb]. rewrite Z.div_mul by lia. assert (u16 (c_code ch * 16 / 2) = 8 * c_code ch) as -> by (unfold char_ok in Hch; rewrite (wrap_small 16) by lia; lia).
  rewrite (Z.mul_comm 8 (c_code ch)), Z.div_mul by lia. unfold char_ok in Hch. rewrite rd_bytes_ok by lia. cbn [mbind res_bind]. assert (u16 (2 * pitch dev - 12 * 4) / 8 = 2 * P - 6) as -> by (rewrite (wrap_small 16) by lia; lia).
  destruct (blit_lines_ok (fg_color ch) (bg_color ch) P 8 px (px_index l c 0 0) (le_bytes (slice charmap (c_code ch * 8) 8))) as (px' & -> & L & D & K); [lia|lia| |].
  { change (2 * Z.of_nat 8 - 1) with 15. rewrite Hz. unfold px_index in *. lia. }
  exists px'. split; [done|]. split_and!; [done| |].
  - intros r k Hr Hk. unfold char_word, glyph. rewrite (Z.mul_comm 8 (c_code ch)). rewrite <- (D r k) by lia. f_equal. unfold px_index. lia.
  - intros l' c' r k H' Hne Hr Hk. apply K; [by apply px_index_range|]. intros r' k' Hr' Hk' E. replace (px_index l c 0 0 + P * r' + k') with (px_index l c r' k') in E by (unfold px_index; lia).
    apply px_index_inj in E as (-> & -> & _); [done|done|done|lia|lia|lia|lia].
Qed.

(** The characters [t] at the positions [D] are on the screen. *)
Definition shows (px : list Z) (t : Z -> Z -> Char) (D : Z -> Z -> Prop) : Prop :=
  forall l c r k, on_screen l c -> D l c -> 0 <= r < 16 -> 0 <= k < 6 -> nthZ px (px_index l c r k) = char_word (t l c) r k.

Lemma shows_blit px t D l c : on_screen l c -> char_ok (t l c) -> zlen px = words -> shows px t D ->
  exists px', blit_at charmap dev G px (t l c) l c = Ok px' /\ zlen px' = words /\ shows px' t (fun l' c' => D l' c' \/ (l', c') = (l, c)).
Proof.
  intros H Hch Hz Hs. destruct (blit_at_ok px (t l c) l c H Hch Hz) as (px' & -> & L & Hd & Hk). exists px'. split_and!; [done|lia|]. intros l' c' r k H' Hor Hr Hkk. destruct (decide ((l', c') = (l, c))) as [E|E]; [injection E as -> ->; by apply Hd|].
  rewrite Hk by done. apply Hs; [done| |done|done]. by destruct Hor.
Qed.

Lemma shows_weaken px t D D' : (forall l c, on_screen l c -> D' l c -> D l c) -> shows px t D -> shows px t D'.
Proof. intros HD Hs l c r k H HD'. apply Hs; [done|by apply HD]. Qed.

(** ** Redrawing the screen *)

(** The character at a position, when the first visible line is [first]. *)
Definition visible (buf : list Char) (first l c : Z) : Char := default (MkChar 0 0 0) (buf !! Z.to_nat ((first + l) * ncols G + c)).

Lemma ld_visible buf first l c : on_screen l c -> 0 <= first -> (first + l) * ncols G + c < zlen buf -> ld buf (first * ncols G + (l * ncols G + c)) = Ok (visible buf first l c).
Proof.
  intros [Hl Hc] Hf Hz. unfold ld, visible. rewrite (proj2 (Z.leb_le _ _)) by nia. replace (first * ncols G + (l * ncols G + c)) with ((first + l) * ncols G + c) by lia.
  destruct (lookup_lt_is_Some_2 buf (Z.to_nat ((first + l) * ncols G + c))) as [x Hx]; [unfold zlen in Hz; nia|]. by rewrite Hx.
Qed.

Section Flush.
Variables (buf : list Char) (first : Z).
Hypothesis Hfirst : 0 <= first.
Hypothesis Hlast : (first + term_nlines G) * ncols G <= zlen buf.
Hypothesis Hok : Forall char_ok buf.
Notation t := (visible buf first).

Lemma visible_ok l c : on_screen l c -> char_ok (t l c).
Proof. intros H. unfold visible. destruct (buf !! _) as [x|] eqn:E; [|unfold char_ok; cbn; lia]. by apply (list.Forall_lookup_1 _ _ _ _ Hok E). Qed.

Lemma flush_cols_ok n : forall px l c D, 0 <= l < term_nlines G -> 0 <= c -> c + Z.of_nat n = ncols G -> zlen px = words -> shows px t D ->
  exists px', flush_cols charmap dev G n buf px (first * ncols G + (l * ncols G + c)) l c = Ok px' /\ zlen px' = words /\ shows px' t (fun l' c' => D l' c' \/ l' = l /\ c <= c').
Proof.
  induction n as [|n IH]; intros px l c D Hl Hc Hn Hz Hs.
  - exists px. split_and!; [done|done|]. eapply shows_weaken, Hs. intros l' c' [_ Hc'] [?|[_ ?]]; [done|lia].
  - assert (on_screen l c) as H by (split; lia). cbn [flush_cols]. rewrite ld_visible by (first [done|nia]). cbn [mbind res_bind].
    destruct (shows_blit px t D l c H (visible_ok l c H) Hz Hs) as (p1 & -> & L1 & S1). cbn [mbind res_bind]. replace (first * ncols G + (l * ncols G + c) + 1) with (first * ncols G + (l * ncols G + (c + 1))) by lia.
    destruct (IH p1 l (c + 1) _ Hl ltac:(lia) ltac:(lia) L1 S1) as (p2 & -> & L2 & S2). exists p2. split_and!; [done|done|]. eapply shows_weaken, S2. intros l' c' _ [?|[-> ?]]; [by left; left|]. destruct (decide (c' = c)) as [->|]; [by left; right|right; lia].
Qed.

Lemma flush_lines_ok n : forall px l D, 0 <= l -> l + Z.of_nat n = term_nlines G -> zlen px = words -> shows px t D ->
  exists px', flush_lines charmap dev G n buf px (first * ncols G + l * ncols G) l = Ok px' /\ zlen px' = words /\ shows px' t (fun l' c' => D l' c' \/ l <= l').
Proof.
  induction n as [|n IH]; intros px l D Hl Hn Hz Hs.
  - exists px. split_and!; [done|done|]. eapply shows_weaken, Hs. intros l' c' [? _] [?|?]; [done|lia].
  - cbn [flush_lines]. pose proof (so_cols SO). destruct (flush_cols_ok (Z.to_nat (ncols G)) px l 0 D) as (p1 & E1 & L1 & S1); [lia|lia|lia|done|done|]. rewrite Z.add_0_r in E1. rewrite E1. cbn [mbind res_bind].
    replace (first * ncols G + l * ncols G + ncols G) with (first * ncols G + (l + 1) * ncols G) by lia. destruct (IH p1 (l + 1) _ ltac:(lia) ltac:(lia) L1 S1) as (p2 & -> & L2 & S2). exists p2. split_and!; [done|done|].
    eapply shows_weaken, S2. intros l' c' [_ ?] [?|?]; [by left; left|]. destruct (decide (l' = l)) as [->|]; [left; right; lia|right; lia].
Qed.
End Flush.

(** Only the cache lines that differ are copied; if the screen showed the other buffer, it now shows this
    one. *)
Lemma line_differs_ok n : forall a b i, 0 <= i -> i + Z.of_nat n <= zlen a -> zlen a = zlen b ->
  exists d, line_differs n a b i = Ok d /\ (d = false -> slice a i (Z.of_nat n) = slice b i (Z.of_nat n)).
Proof.
  induction n as [|n IH]; intros a b i Hi Hn Hz; [exists false; by split|]. cbn [line_differs].
  assert (forall l : list Z, i + Z.of_nat (S n) <= zlen l -> exists x, ld l i = Ok x /\ slice l i (Z.of_nat (S n)) = x :: slice l (i + 1) (Z.of_nat n)) as Hl.
  { intros l Hl. destruct (lookup_lt_is_Some_2 l (Z.to_nat i)) as [x Hx]; [unfold zlen in Hl; lia|]. exists x. unfold ld, slice. rewrite (proj2 (Z.leb_le _ _)), Hx by lia. split; [done|]. rewrite (drop_S _ _ _ Hx). replace (Z.to_nat (Z.of_nat (S n))) with (S n) by lia. cbn [take]. replace (Z.to_nat (i + 1)) with (S (Z.to_nat i)) by lia. by rewrite Nat2Z.id. }
  destruct (Hl a) as (x & -> & Ea); [lia|]. destruct (Hl b) as (y & -> & Eb); [lia|]. cbn [mbind res_bind]. destruct (Z.eqb_spec (Z.lxor x y) 0) as [E|E]; [|by exists true].
  apply Z.lxor_eq in E as ->. destruct (IH a b (i + 1)) as (d & -> & Hd); [lia..|]. exists d. split; [done|]. intros ->. rewrite Ea, Eb. f_equal. by apply Hd.
Qed.

Lemma update_loop_ok buff otherbuff n : forall i, zlen buff = words -> zlen otherbuff = words -> 0 <= i <= words -> i mod 8 = 0 -> words - i < Z.of_nat n ->
  update_loop G n i (take (Z.to_nat i) buff ++ drop (Z.to_nat i) otherbuff) buff otherbuff = Ok buff.
Proof.
  pose proof (so_size SO) as (Hs & Hs8 & _). pose proof (so_pitch SO) as [Hp _]. assert (fb_size G / 8 = words) as Ew by (rewrite Hs; replace (height dev * pitch dev) with (words * 8) by lia; apply Z.div_mul; lia).
  induction n as [|n IH]; intros i Hb Ho Hi Hm Hn; [lia|]. cbn [update_loop]. rewrite Ew. destruct (Z.ltb_spec i words) as [Hlt|Hge].
  - assert (i + 8 <= words) by (assert (words mod 8 = 0) by (rewrite <- Ew; lia); lia). destruct (line_differs_ok 8 buff otherbuff i) as (d & -> & Hd); [lia..|]. cbn [mbind res_bind]. change cache_line with 8.
    assert (forall l : list Z, take (Z.to_nat i) buff ++ slice buff i 8 ++ drop (Z.to_nat (i + 8)) l = take (Z.to_nat (i + 8)) buff ++ drop (Z.to_nat (i + 8)) l) as Hj.
    { intros l. rewrite app_assoc. f_equal. unfold slice. replace (Z.to_nat (i + 8)) with (Z.to_nat i + Z.to_nat 8)%nat by lia. by rewrite take_take_drop. }
    destruct d.
    + rewrite rd_bytes_ok by lia. cbn [mbind res_bind]. rewrite wr_bytes_ok.
      2: lia. 2: { rewrite zlen_slice by lia. unfold zlen in *. rewrite length_app, length_take, length_drop. lia. }
      cbn [mbind res_bind]. rewrite <- (IH (i + 8)) by lia. f_equal. unfold blit. rewrite take_app_length' by (rewrite length_take; unfold zlen in *; lia). rewrite <- Hj. do 2 f_equal.
      assert (length (slice buff i 8) = 8%nat) as -> by (pose proof (zlen_slice buff i 8); unfold zlen in *; lia). rewrite drop_app_ge by (rewrite length_take; unfold zlen in *; lia). rewrite length_take, drop_drop. f_equal. unfold zlen in *. lia.
    + cbn [mbind res_bind]. rewrite <- (IH (i + 8)) by lia. f_equal. rewrite <- Hj. f_equal. specialize (Hd eq_refl). change (Z.of_nat 8) with 8 in Hd. rewrite Hd. unfold slice. replace (Z.to_nat (i + 8)) with (Z.to_nat i + 8)%nat by lia. rewrite <- drop_drop. symmetry. apply take_drop.
  - assert (i = words) as -> by lia. rewrite take_ge, drop_ge by (unfold zlen in *; lia). by rewrite app_nil_r.
Qed.
End Screen.
