(* ===== verification/TerminalTheorems.v ===== *)
(** * The terminal shows what was written

    The invariant of the terminal, the text as it flows over the lines, and the escape sequences. *)

From S2P Require Import Prelude Bytes CStringProofs Terminal TerminalProofs.



Lemma Forall_slice {A} (Q : A -> Prop) l off n : Forall Q l -> Forall Q (slice l off n).
Proof. intros H. by apply list.Forall_take, list.Forall_drop. Qed.
Lemma Forall_blit {A} (Q : A -> Prop) l off d : Forall Q l -> Forall Q d -> Forall Q (blit l off d).
Proof. intros H Hd. unfold blit. apply list.Forall_app. split; [by apply list.Forall_take|]. apply list.Forall_app. split; [done|by apply list.Forall_drop]. Qed.

Section Theorems.
Variables (charmap : list Z) (dev : fb_dev) (G : term_geometry).
Notation words := (height dev * (pitch dev / 8)).
Hypothesis SO : screen_ok charmap dev G.
Hypothesis H4 : term_nlines G mod 4 = 0.
Notation shows := (shows charmap dev G).
Notation visible := (visible G).
Notation on_screen := (on_screen G).

Definition everywhere (l c : Z) : Prop := True.

(** The text buffer, the cursor in the visible lines, and the pixel buffers. *)
Record text_ok (d : term) : Prop := {
  tx_buf : zlen (char_buffer d) = nlines G * ncols G;
  tx_chars : Forall char_ok (char_buffer d);
  tx_first : 0 <= first_line d <= nlines G - term_nlines G /\ first_line d mod 4 = 0;
  tx_col : 0 <= cur_col d < ncols G;
  tx_line : first_line d <= cur_line d < first_line d + term_nlines G;
  tx_args : zlen (esc_args d) = 10 }.
Record pixels_ok (d : term) : Prop := {
  px_len : forall b, zlen (px_buffer d b) = words;
  px_pix : pix d = px_buffer d (cur_px_buffer d) }.

(** The screen is the picture of the visible lines. *)
Definition shown (d : term) : Prop := shows (pix d) (visible (char_buffer d) (first_line d)) everywhere.

Record term_ok (d : term) : Prop := {
  to_text : text_ok d;
  to_pixels : pixels_ok d;
  to_shown : need_refresh d = false -> shown d }.

(** Colours and escape sequences are as they were. *)
Definition same_modes (d d' : term) : Prop :=
  current_fgcolor d' = current_fgcolor d /\ current_bgcolor d' = current_bgcolor d /\ esc_ESC d' = esc_ESC d /\ esc_seq d' = esc_seq d /\ esc_idx d' = esc_idx d /\ esc_args d' = esc_args d.

Lemma sizes : 0 < ncols G < 2 ^ 15 /\ 4 <= term_nlines G < 2 ^ 14 /\ nlines G = 2 * term_nlines G.
Proof. destruct SO. auto. Qed.

Lemma px_buffer_set d b px b' : px_buffer (set_px_buffer d b px) b' = if decide (b' = b) then px else px_buffer d b'.
Proof. by destruct b, b'. Qed.

(** ** Drawing *)

Lemma flush_screen_ok d : text_ok d -> pixels_ok d -> exists p0 p1 cur p, let d' := set_pixels d p0 p1 cur p in flush_screen charmap dev G d = Ok d' /\ pixels_ok d' /\ shown d'.
Proof.
  intros Ht Hp. destruct sizes as (Hc & Hl & Hn). destruct (tx_first _ Ht) as [Hf _]. unfold flush_screen. set (cur := negb (cur_px_buffer d)).
  destruct (flush_lines_ok charmap dev G SO (char_buffer d) (first_line d)) with (n := Z.to_nat (term_nlines G)) (px := px_buffer d cur) (l := 0) (D := fun _ _ : Z => False) as (px & E & L & Sh).
  { lia. } { rewrite (tx_buf _ Ht). nia. } { apply Ht. } { lia. } { lia. } { apply Hp. } { intros l c r k _ []. }
  rewrite Z.mul_0_l, Z.add_0_r in E. rewrite E. cbn [mbind res_bind]. unfold update_framebuffer.
  assert (forall b, px_buffer (set_px_buffer (set_pixels d (px_buffer0 d) (px_buffer1 d) cur (pix d)) cur px) b = if decide (b = cur) then px else px_buffer d b) as Hb by (intros b; rewrite px_buffer_set; by destruct b, cur).
  assert (cur_px_buffer (set_px_buffer (set_pixels d (px_buffer0 d) (px_buffer1 d) cur (pix d)) cur px) = cur) as Ec by by destruct cur. assert (pix (set_px_buffer (set_pixels d (px_buffer0 d) (px_buffer1 d) cur (pix d)) cur px) = pix d) as Ep by by destruct cur.
  rewrite Ec, Ep, !Hb, decide_True by done. rewrite decide_False by (by destruct cur). replace (negb cur) with (cur_px_buffer d) by (unfold cur; by rewrite negb_involutive). rewrite <- (px_pix _ Hp).
  pose proof (update_loop_ok charmap dev G SO px (px_buffer d (cur_px_buffer d)) (S (Z.to_nat (fb_size G / 8))) 0) as Hu. rewrite Z2Nat.inj_0, take_0, drop_0, app_nil_l in Hu. pose proof (px_len _ Hp (cur_px_buffer d)) as Lo. rewrite <- (px_pix _ Hp) in Hu, Lo.
  assert (0 <= words) by (rewrite <- L; unfold zlen; lia). assert (fb_size G / 8 = words) as Ew by (destruct (so_size _ _ _ SO) as (-> & _); destruct (so_pitch _ _ _ SO) as [? _]; replace (height dev * pitch dev) with (words * 8) by lia; apply Z.div_mul; lia).
  rewrite Hu by (first [done|lia]). cbn [mbind res_bind]. set (d2 := set_px_buffer _ cur px). exists (px_buffer0 d2), (px_buffer1 d2), cur, px.
  split_and!.
  - f_equal. unfold d2. by destruct cur.
  - split; [|unfold d2; by destruct cur]. intros b. replace (px_buffer (set_pixels d (px_buffer0 d2) (px_buffer1 d2) cur px) b) with (px_buffer d2 b) by (by destruct b). unfold d2. rewrite Hb. case_decide; [done|apply Hp].
  - unfold shown. cbn [pix char_buffer first_line set_pixels]. eapply shows_weaken, Sh. intros l c [? _] _. right. lia.
Qed.

Lemma visible_insert buf first l c ch : on_screen l c -> 0 <= first -> (first + l) * ncols G + c < zlen buf -> forall l' c', on_screen l' c' ->
  visible (<[Z.to_nat ((first + l) * ncols G + c) := ch]> buf) first l' c' = if decide ((l', c') = (l, c)) then ch else visible buf first l' c'.
Proof.
  intros [Hl Hc] Hf Hz l' c' [Hl' Hc']. unfold TerminalProofs.visible. case_decide as E.
  - injection E as -> ->. rewrite list_lookup_insert_eq; [done|]. unfold zlen in Hz. nia.
  - rewrite list_lookup_insert_ne; [done|]. intros Ei. apply E. assert ((first + l) * ncols G + c = (first + l') * ncols G + c') as Ex by nia. assert (l = l') as -> by nia. f_equal. lia.
Qed.

Lemma print_char_ok d ch l c : on_screen l c -> char_ok ch -> pixels_ok d -> exists p0 p1 p, let d' := set_pixels d p0 p1 (cur_px_buffer d) p in
  print_char charmap dev G d ch l c = Ok d' /\ pixels_ok d' /\ cell_drawn charmap dev G ch l c (pix d) p.
Proof.
  intros [Hl Hc] Hch Hp. destruct sizes as (Hnc & Hnl & Hn). destruct (so_width _ _ _ SO) as (M1 & M2 & M3 & M4). destruct (so_height _ _ _ SO) as (N1 & N2). unfold print_char. change TERMINAL_FONTWIDTH with 12. change TERMINAL_LINE_HEIGHT with 16.
  rewrite !(u32_small (_ + _)), !s32_small by lia. rewrite !(proj2 (Z.ltb_ge _ _)) by lia. destruct (blit_at_ok charmap dev G SO (pix d) ch l c (conj Hl Hc) Hch) as (p & Eb & Hd); [rewrite (px_pix _ Hp); apply Hp|]. rewrite Eb, <- (px_pix _ Hp), Eb. cbn [mbind res_bind].
  set (d2 := set_px_buffer _ _ _). exists (px_buffer0 d2), (px_buffer1 d2), p. split_and!; [f_equal; unfold d2; by destruct (cur_px_buffer d)| |done].
  assert (forall b, px_buffer (set_pixels d (px_buffer0 d2) (px_buffer1 d2) (cur_px_buffer d) p) b = if decide (b = cur_px_buffer d) then p else px_buffer d b) as Hb by (intros b; unfold d2; by destruct b, (cur_px_buffer d)).
  split; [intros b; rewrite Hb; case_decide; [destruct Hd as [-> _]; rewrite (px_pix _ Hp)|]; apply Hp|]. rewrite Hb. cbn [cur_px_buffer set_pixels]. by rewrite decide_True by done.
Qed.

(** The pixels are those of a state of which [Hp] is known. *)
Ltac keep_pixels Hp := split; [exact (px_len _ Hp)|exact (px_pix _ Hp)].

(** ** Writing a character *)

(** All that has been written: the cells of the buffer up to the cursor are its last part. *)
Definition paper (t : list Char) (d : term) : Prop :=
  exists o, 0 <= o /\ zlen t = (o + cur_line d) * ncols G + cur_col d /\ forall p, o * ncols G <= p < zlen t -> char_buffer d !! Z.to_nat (p - o * ncols G) = t !! Z.to_nat p.

(** What writing a character or moving to the next line keeps. *)
Definition advanced (d d' : term) : Prop := term_ok d' /\ same_modes d d'.

Lemma next_line_ok d : text_ok (set_cursor d (first_line d) 0 (cur_line d)) -> pixels_ok d -> (need_refresh d = false -> shown d) ->
  exists d', next_line G d = Ok d' /\ advanced d d' /\ (forall t, paper t (set_cursor d (first_line d) (ncols G) (cur_line d)) -> paper t d') /\ cur_col d' = 0.
Proof.
  intros Ht Hp Hs. destruct sizes as (Hc & Hl & Hn). destruct (tx_first _ Ht) as [Hf Hf4]. pose proof (tx_line _ Ht) as Hcl. pose proof (tx_buf _ Ht) as Hbl. cbn [set_cursor char_buffer cur_line cur_col first_line esc_args] in *. unfold next_line.
  assert (u16 (cur_line d + 1) = cur_line d + 1) as -> by (apply wrap_small; lia). destruct (Z.leb_spec (nlines G) (cur_line d + 1)) as [Hend|Hend].
  - unfold move_buffer. cbn [Z.ltb Z.compare set_cursor set_refresh char_buffer first_line cur_col cur_line]. rewrite !(wrap_small 16) by lia. rewrite rd_bytes_ok by nia. cbn [mbind res_bind]. rewrite wr_bytes_ok by (rewrite ?zlen_slice by nia; nia). cbn [mbind res_bind].
    assert (zlen (blit (char_buffer d) 0 (slice (char_buffer d) (ncols G * 4) (nlines G * ncols G - ncols G * 4))) = nlines G * ncols G) as Lb by (rewrite zlen_blit; [done|lia|rewrite zlen_slice by nia; nia]).
    set (blank := replicate _ _). assert (zlen blank = ncols G * 4 - 1) as Lr by (unfold blank, zlen; rewrite length_replicate; lia). rewrite wr_bytes_ok by (rewrite ?Lb, ?Lr; nia). cbn [mbind res_bind]. set (b' := blit (blit _ _ _) _ _). eexists. split; [done|].
    assert (zlen b' = nlines G * ncols G) as Lb' by (unfold b'; rewrite zlen_blit; rewrite ?Lb, ?Lr; nia).
    assert (forall i, 0 <= i < nlines G * ncols G - ncols G * 4 -> b' !! Z.to_nat i = char_buffer d !! Z.to_nat (i + ncols G * 4)) as Hmv.
    { intros i Hi. unfold b', blit at 1. rewrite lookup_app_l by (rewrite length_take; unfold zlen in *; lia). rewrite lookup_take_lt by lia. unfold blit. rewrite take_0, app_nil_l. rewrite lookup_app_l by (pose proof (zlen_slice (char_buffer d) (ncols G * 4) (nlines G * ncols G - ncols G * 4)); unfold zlen in *; nia).
      rewrite lookup_slice by lia. f_equal. lia. }
    assert (cur_line d + 1 = nlines G) as Ecl by lia. split_and!; [split|intros t (o & Ho & Hz & Hb); cbn [set_cursor char_buffer cur_line cur_col first_line] in Hz, Hb; exists (o + 4); split_and!|done].
    + split; [split; cbn [set_text set_cursor set_refresh char_buffer first_line cur_col cur_line esc_args]|keep_pixels Hp|done].
      * done.
      * pose proof (tx_chars _ Ht). apply Forall_blit; [apply Forall_blit; [done|by apply Forall_slice]|]. apply list.Forall_replicate. unfold char_ok. cbn. lia.
      * lia.
      * lia.
      * lia.
      * apply Ht.
    + done.
    + lia.
    + cbn [set_text set_cursor set_refresh char_buffer first_line cur_col cur_line]. nia.
    + cbn [set_text set_cursor set_refresh char_buffer first_line cur_col cur_line]. intros p Hpp. rewrite Hmv by nia. rewrite <- Hb by nia. f_equal. lia.
  - destruct (Z.leb_spec (first_line d + term_nlines G) (cur_line d + 1)) as [Hpg|Hpg]; (eexists; split; [done|]); (split_and!; [split; [split|done]|intros t (o & Ho & Hz & Hb); cbn [set_cursor char_buffer cur_line cur_col first_line] in Hz, Hb; exists o; split_and!|done]); cbn [set_text set_cursor set_refresh char_buffer first_line cur_col cur_line need_refresh].
    + split; cbn [set_text set_cursor set_refresh char_buffer first_line cur_col cur_line esc_args]; [done|apply Ht|rewrite wrap_small; lia|lia|rewrite wrap_small; lia|apply Ht].
    + keep_pixels Hp.
    + done.
    + done.
    + nia.
    + intros p Hpp. apply Hb. lia.
    + split; cbn [set_text set_cursor set_refresh char_buffer first_line cur_col cur_line esc_args]; [done|apply Ht|lia|lia|lia|apply Ht].
    + keep_pixels Hp.
    + exact Hs.
    + done.
    + nia.
    + intros p Hpp. apply Hb. lia.
Qed.

Definition next_col (col : Z) : Z := if col + 1 =? ncols G then 0 else col + 1.

Lemma emplace_normal_char_ok d c : term_ok d -> 0 <= c < 128 ->
  exists d', emplace_normal_char charmap dev G d c = Ok d' /\ advanced d d' /\ (forall t, paper t d -> paper (t ++ [make_Char d c]) d') /\ cur_col d' = next_col (cur_col d).
Proof.
  intros [Ht Hp Hs] Hc. destruct sizes as (Hnc & Hl & Hn). destruct (tx_first _ Ht) as [Hf Hf4]. pose proof (tx_line _ Ht) as Hcl. pose proof (tx_buf _ Ht) as Hbl. pose proof (tx_col _ Ht) as Hcc. unfold emplace_normal_char.
  assert (0 <= ncols G * cur_line d + cur_col d < zlen (char_buffer d)) as Hi by nia. unfold st. rewrite (proj2 (Z.leb_le _ _)), (proj2 (Z.ltb_lt _ _)) by lia. cbn [andb mbind res_bind]. set (ch := make_Char d c). set (b := <[_ := ch]> (char_buffer d)).
  assert (char_ok ch) as Hch by (unfold char_ok; cbn; lia). assert (on_screen (cur_line d - first_line d) (cur_col d)) as Hon by (split; lia).
  assert (exists d1, (if need_refresh (set_text d b) then Ok (set_text d b) else print_char charmap dev G (set_text d b) ch (cur_line (set_text d b) - first_line (set_text d b)) (cur_col (set_text d b))) = Ok d1 /\
    (exists p0 p1 p, d1 = set_pixels (set_text d b) p0 p1 (cur_px_buffer d) p) /\ pixels_ok d1 /\ (need_refresh d1 = false -> shown d1)) as (d1 & -> & (p0 & p1 & p & Ed1) & Hp1 & Hs1).
  { destruct (need_refresh (set_text d b)) eqn:En.
    - eexists. split; [done|]. split; [by exists (px_buffer0 d), (px_buffer1 d), (pix d)|]. split; [keep_pixels Hp|congruence].
    - destruct (print_char_ok (set_text d b) ch _ _ Hon Hch) as (p0 & p1 & p & E & Hp1 & Hdr); [keep_pixels Hp|]. eexists. split; [exact E|]. split; [by exists p0, p1, p|]. split; [done|]. intros _ l' c' r k H' _ Hr Hk.
      cbn [pix char_buffer first_line set_pixels set_text] in *. unfold b. replace (ncols G * cur_line d + cur_col d) with ((first_line d + (cur_line d - first_line d)) * ncols G + cur_col d) by lia. rewrite visible_insert by (first [done|lia|nia]).
      destruct Hdr as (_ & Hd & Hkeep). case_decide as E1; [injection E1 as -> ->; by apply Hd|]. rewrite Hkeep by done. by apply (Hs En). }
  cbn [mbind res_bind]. assert (cur_col d1 = cur_col d /\ cur_line d1 = cur_line d /\ first_line d1 = first_line d /\ char_buffer d1 = b /\ esc_args d1 = esc_args d) as (E1 & E2 & E3 & E4 & E5) by (by subst d1). rewrite E1, E2, E3. rewrite (wrap_small 16) by lia.
  set (d2 := set_cursor d1 (first_line d) (cur_col d + 1) (cur_line d)). assert (same_modes d d2) as Hm by (subst d2 d1; done). assert (zlen b = zlen (char_buffer d)) as Lb by (unfold b, zlen; by rewrite length_insert).
  assert (need_refresh d2 = false -> shown d2) as Hs2 by (intros En l c' r k; specialize (Hs1 En); unfold shown in Hs1; rewrite E3 in Hs1; exact (Hs1 l c' r k)).
  assert (Forall char_ok b) as Fb by (apply list.Forall_insert; [apply Ht|done]).
  assert (forall t, paper t d -> zlen (t ++ [ch]) = zlen t + 1 /\ exists o, 0 <= o /\ zlen t = (o + cur_line d) * ncols G + cur_col d /\ forall p, o * ncols G <= p < zlen t + 1 -> b !! Z.to_nat (p - o * ncols G) = (t ++ [ch]) !! Z.to_nat p) as Hpap.
  { intros t (o & Ho & Hz & Hb). split; [by rewrite zlen_app|]. exists o. split_and!; [done|done|]. intros q Hq. destruct (decide (q < zlen t)) as [Hlt|Hge].
    - unfold b. rewrite list_lookup_insert_ne by nia. rewrite Hb by lia. rewrite lookup_app_l; [done|]. unfold zlen in Hlt. nia.
    - assert (q = zlen t) as -> by lia. replace (zlen t - o * ncols G) with (ncols G * cur_line d + cur_col d) by lia. unfold b. rewrite list_lookup_insert_eq by (unfold zlen in Hi; lia). unfold zlen. rewrite Nat2Z.id, lookup_app_r, Nat.sub_diag by lia. done. }
  change (cur_col d2) with (cur_col d + 1). unfold next_col. destruct (Z.leb_spec (ncols G) (cur_col d + 1)) as [Hw|Hw].
  - destruct (next_line_ok d2) as (d' & -> & [Hok Hm'] & Hpp & Hc'); [|subst d2; keep_pixels Hp1|exact Hs2|].
    { split; subst d2; cbn [set_cursor char_buffer first_line cur_col cur_line esc_args]; rewrite ?E4, ?E5; [lia|done|lia|lia|lia|apply Ht]. }
    exists d'. split_and!; [done|split; [done|]| |rewrite Hc'; zb].
    + destruct Hm as (? & ? & ? & ? & ? & ?), Hm' as (? & ? & ? & ? & ? & ?). split_and!; congruence.
    + intros t Hpt. apply Hpp. destruct (Hpap t Hpt) as (Lt & o & Ho & Hz & Hb). exists o. cbn [set_cursor char_buffer first_line cur_col cur_line d2]. subst d2. cbn [set_cursor char_buffer first_line cur_col cur_line]. rewrite Lt. split_and!; [done|nia|]. rewrite E4. done.
  - exists d2. split_and!; [done|split; [split|done]| |cbn; zb].
    + split; subst d2; cbn [set_cursor char_buffer first_line cur_col cur_line esc_args]; rewrite ?E4, ?E5; [lia|done|lia|lia|lia|apply Ht].
    + subst d2. keep_pixels Hp1.
    + exact Hs2.
    + intros t Hpt. destruct (Hpap t Hpt) as (Lt & o & Ho & Hz & Hb). exists o. subst d2. cbn [set_cursor char_buffer first_line cur_col cur_line]. rewrite Lt. split_and!; [done|nia|]. rewrite E4. done.
Qed.

Lemma advanced_trans d d' d'' : advanced d d' -> advanced d' d'' -> advanced d d''.
Proof. intros [_ Hm] [Hok Hm']. split; [done|]. destruct Hm as (? & ? & ? & ? & ? & ?), Hm' as (? & ? & ? & ? & ? & ?). split_and!; congruence. Qed.

Lemma advanced_Char d d' c : advanced d d' -> make_Char d' c = make_Char d c.
Proof. intros [_ (E1 & E2 & _)]. unfold make_Char. by rewrite E1, E2. Qed.

Lemma emplace_spaces_ok n : forall d, term_ok d ->
  exists d', emplace_spaces charmap dev G n d = Ok d' /\ advanced d d' /\ (forall t, paper t d -> paper (t ++ replicate n (make_Char d 32)) d').
Proof.
  induction n as [|n IH]; intros d Hd; [exists d; split_and!; [done|by split; [|split_and!]|intros t Ht; by rewrite app_nil_r]|]. cbn [emplace_spaces].
  destruct (emplace_normal_char_ok d 32 Hd) as (d1 & -> & A1 & P1 & _); [lia|]. cbn [mbind res_bind]. destruct (IH d1) as (d2 & -> & A2 & P2); [apply A1|]. exists d2. split_and!; [done|by eapply advanced_trans|].
  intros t Ht. specialize (P2 _ (P1 t Ht)). rewrite (advanced_Char _ _ _ A1), <- app_assoc in P2. exact P2.
Qed.

(** ** Characters *)

(** No escape sequence is being read. *)
Definition quiet (d : term) : Prop := esc_ESC d = false /\ esc_seq d = false /\ esc_idx d = 0.

Lemma quiet_set_esc d : quiet d -> set_esc d false (esc_seq d) (esc_idx d) (esc_args d) = d.
Proof. destruct d. intros (E1 & _). cbn in *. by subst. Qed.
Lemma advanced_quiet d d' : advanced d d' -> quiet d -> quiet d'.
Proof. intros [_ (_ & _ & E1 & E2 & E3 & _)] (? & ? & ?). split_and!; congruence. Qed.

(** A character that is not part of an escape sequence. *)
Lemma emplace_quiet tab d c : quiet d -> emplace_with charmap dev G tab d c =
  if c =? 27 then Ok (set_esc d true false 0 (esc_args d)) else if c =? 10 then emplace_spaces charmap dev G (Z.to_nat (ncols G - cur_col d)) d
  else if c =? 9 then tab (let new_col := (cur_col d + 6) / 6 * 6 in if ncols G <? new_col then 0 else new_col) d
  else if c =? 13 then Ok (set_cursor d (first_line d) 0 (cur_line d))
  else if c =? 8 then Ok (if 0 <? cur_col d then set_cursor d (first_line d) (cur_col d - 1) (cur_line d) else if 0 <? cur_line d then set_cursor d (first_line d) (u16 (ncols G - 1)) (cur_line d - 1) else d)
  else if c =? 12 then Ok (terminal_clear G d) else emplace_normal_char charmap dev G d c.
Proof.
  intros Hq. unfold emplace_with. rewrite quiet_set_esc by done. pose proof Hq as (-> & E & Ei). rewrite E, Ei. done.
Qed.

(** The number of spaces of a tabulator; none at the end of a line. *)
Definition tab_width (col : Z) : Z := let new_col := (col + 6) / 6 * 6 in if ncols G <? new_col then 0 else new_col - col.

Lemma tab_loop_ok fuel new_col : forall d, term_ok d -> quiet d -> cur_col d <= new_col < ncols G -> new_col - cur_col d < Z.of_nat fuel ->
  exists d', tab_loop charmap dev G fuel new_col d = Ok d' /\ advanced d d' /\ (forall t, paper t d -> paper (t ++ replicate (Z.to_nat (new_col - cur_col d)) (make_Char d 32)) d').
Proof.
  induction fuel as [|fuel IH]; intros d Hd Hq Hc Hf; [lia|]. cbn [tab_loop]. destruct (Z.ltb_spec (cur_col d) new_col) as [Hlt|Hge].
  - rewrite emplace_quiet by done. cbn [Z.eqb Pos.eqb]. destruct (emplace_normal_char_ok d 32 Hd) as (d1 & -> & A1 & P1 & C1); [lia|]. cbn [mbind res_bind]. unfold next_col in C1. rewrite (proj2 (Z.eqb_neq _ _)) in C1 by lia.
    destruct (IH d1) as (d2 & -> & A2 & P2); [apply A1|by eapply advanced_quiet|lia|lia|]. exists d2. split_and!; [done|by eapply advanced_trans|]. intros t Ht. specialize (P2 _ (P1 t Ht)). rewrite (advanced_Char _ _ _ A1), <- app_assoc in P2.
    replace (Z.to_nat (new_col - cur_col d)) with (S (Z.to_nat (new_col - cur_col d1))) by lia. exact P2.
  - exists d. replace (new_col - cur_col d) with 0 by lia. split_and!; [done|by split; [|split_and!]|intros t Ht; by rewrite app_nil_r].
Qed.

Hypothesis H6 : ncols G mod 6 <> 0.

Lemma tab_ok d : term_ok d -> quiet d ->
  exists d', tab_loop charmap dev G 7 (let new_col := (cur_col d + 6) / 6 * 6 in if ncols G <? new_col then 0 else new_col) d = Ok d' /\ advanced d d' /\ (forall t, paper t d -> paper (t ++ replicate (Z.to_nat (tab_width (cur_col d))) (make_Char d 32)) d').
Proof.
  intros Hd Hq. pose proof (tx_col _ (to_text _ Hd)) as Hc. cbv zeta. unfold tab_width. destruct (Z.ltb_spec (ncols G) ((cur_col d + 6) / 6 * 6)).
  - exists d. cbn [tab_loop]. rewrite (proj2 (Z.ltb_ge _ _)) by lia. split_and!; [done|by split; [|split_and!]|intros t Ht; by rewrite app_nil_r].
  - apply tab_loop_ok; [done|done|lia|lia].
Qed.

Lemma text_cursor d col : term_ok d -> 0 <= col < ncols G -> term_ok (set_cursor d (first_line d) col (cur_line d)).
Proof. intros [Ht Hp Hs] Hc. split; [|keep_pixels Hp|exact Hs]. destruct Ht. by split. Qed.

Lemma clear_ok d : term_ok d -> term_ok (terminal_clear G d).
Proof.
  intros [Ht Hp Hs]. destruct sizes as (Hc & Hl & Hn). split; [|keep_pixels Hp|done]. destruct Ht. split; cbn [terminal_clear set_refresh set_text set_cursor char_buffer first_line cur_col cur_line esc_args]; [|apply list.Forall_replicate; unfold char_ok; cbn; lia|lia..|done].
  unfold zlen. rewrite length_replicate. nia.
Qed.

Lemma emplace_char_ok d c : term_ok d -> quiet d -> 0 < c < 127 -> c <> 27 -> c <> 8 -> exists d', emplace_char charmap dev G 7 d c = Ok d' /\ term_ok d' /\ quiet d'.
Proof.
  intros Hd Hq Hc H27 H8. unfold emplace_char. rewrite emplace_quiet by done. rewrite (proj2 (Z.eqb_neq c 27)), (proj2 (Z.eqb_neq c 8)) by done. pose proof sizes as (Hnc & _).
  assert (forall r, (exists d', r = Ok d' /\ advanced d d') -> exists d', r = Ok d' /\ term_ok d' /\ quiet d') as Ha by (intros r (d' & -> & A); exists d'; split_and!; [done|apply A|by eapply advanced_quiet..]).
  destruct (Z.eqb_spec c 10); [apply Ha; destruct (emplace_spaces_ok (Z.to_nat (ncols G - cur_col d)) d Hd) as (d' & ? & ? & _); by exists d'|]. destruct (Z.eqb_spec c 9); [apply Ha; destruct (tab_ok d Hd Hq) as (d' & ? & ? & _); by exists d'|].
  destruct (Z.eqb_spec c 13); [eexists; split; [done|]; split; [apply text_cursor; [done|lia]|done]|]. destruct (Z.eqb_spec c 12); [eexists; split; [done|]; split; [by apply clear_ok|done]|].
  apply Ha. destruct (emplace_normal_char_ok d c Hd) as (d' & ? & ? & _); [lia|by exists d'].
Qed.

(** ** Escape sequences *)

Definition arg_byte (a : Z) : Z := if a =? 255 then 59 else 48 + a.
Definition arg_ok (a : Z) : Prop := 0 <= a <= 9 \/ a = 255.

Lemma write_loop_app fuel s1 s2 : forall d, write_loop charmap dev G fuel d (s1 ++ s2) = (d' ← write_loop charmap dev G fuel d s1; write_loop charmap dev G fuel d' s2).
Proof. induction s1 as [|c s1 IH]; intros d; [done|]. cbn [write_loop app]. destruct (_ && _); cbn [mbind res_bind]; [destruct (emplace_char _ _ _ _ _ _); cbn [mbind res_bind]; [apply IH|done]|apply IH]. Qed.

Lemma write_one fuel d c : 0 < c < 127 -> write_loop charmap dev G fuel d [c] = emplace_char charmap dev G fuel d c.
Proof. intros Hc. cbn [write_loop]. rewrite (proj2 (Z.ltb_lt 0 c)), (proj2 (Z.ltb_lt c 127)) by lia. cbn [andb]. by destruct (emplace_char _ _ _ _ _ _). Qed.

Lemma arg_step fuel d i x : esc_seq d = true -> esc_ESC d = false -> esc_idx d = i -> zlen (esc_args d) = 10 -> 0 <= i <= 8 -> arg_ok x ->
  emplace_char charmap dev G fuel d (arg_byte x) = Ok (set_esc d false true (i + 1) (<[Z.to_nat i := x]> (esc_args d))).
Proof.
  intros Hs He Hi Hz H0 Hx. unfold emplace_char, emplace_with. rewrite Hs. unfold emplace_escape. rewrite Hi, He.
  assert (st (esc_args d) i x = Ok (<[Z.to_nat i := x]> (esc_args d))) as Est by (unfold st; by rewrite (proj2 (Z.leb_le _ _)), (proj2 (Z.ltb_lt _ _)) by lia). destruct Hx as [Hx| ->].
  - unfold arg_byte. rewrite (proj2 (Z.eqb_neq x 255)) by lia. rewrite (proj2 (Z.leb_le (48 + x) 57)), (proj2 (Z.leb_le 48 (48 + x))), (proj2 (Z.ltb_ge _ _)) by lia. cbn [andb]. replace (48 + x - 48) with x by lia. rewrite Est. cbn [mbind res_bind]. by rewrite u8_small by lia.
  - change (arg_byte 255) with 59. cbn [Z.leb Z.compare Pos.compare Pos.compare_cont andb Z.eqb Pos.eqb]. rewrite Est. cbn [mbind res_bind]. rewrite u8_small by lia. by rewrite (proj2 (Z.leb_gt _ _)) by lia.
Qed.

(** The arguments are stored one after the other. *)
Lemma args_loop fuel l : forall d i, esc_seq d = true -> esc_ESC d = false -> esc_idx d = i -> zlen (esc_args d) = 10 -> 0 <= i -> Forall arg_ok l -> i + zlen l <= 9 ->
  exists a, write_loop charmap dev G fuel d (arg_byte <$> l) = Ok (set_esc d false true (i + zlen l) a) /\ zlen a = 10 /\ take (Z.to_nat (i + zlen l)) a = take (Z.to_nat i) (esc_args d) ++ l.
Proof.
  induction l as [|x l IH]; intros d i Hs He Hi Hz H0 Hl Hn.
  - exists (esc_args d). rewrite Z.add_0_r, app_nil_r. split_and!; [|done|done]. destruct d; cbn in *; by subst.
  - apply Forall_cons_1 in Hl as [Hx Hl]. rewrite zlen_cons in Hn |- *. assert (0 <= zlen l) by (unfold zlen; lia). rewrite fmap_cons, <- (app_nil_l (arg_byte <$> l)), app_comm_cons, write_loop_app. rewrite write_one by (unfold arg_byte; destruct Hx; zb).
    rewrite (arg_step fuel d i x) by (first [done|lia]).
    cbn [mbind res_bind]. destruct (IH (set_esc d false true (i + 1) (<[Z.to_nat i := x]> (esc_args d))) (i + 1)) as (a & -> & La & Ea); [done|done|done|cbn; unfold zlen; by rewrite length_insert|lia|done|lia|]. exists a. split_and!; [f_equal; cbn; f_equal; lia|done|].
    replace (i + (zlen l + 1)) with (i + 1 + zlen l) by lia. rewrite Ea. cbn [esc_args set_esc]. replace (Z.to_nat (i + 1)) with (S (Z.to_nat i)) by lia. rewrite (take_S_r _ _ x) by (rewrite list_lookup_insert_eq; [done|unfold zlen in Hz; lia]). rewrite take_insert by lia. rewrite decide_False by lia. by rewrite <- app_assoc.
Qed.

(** A whole sequence: the arguments are in place when its last character arrives. *)
Lemma sequence_loop d l final : term_ok d -> quiet d -> Forall arg_ok l -> zlen l <= 9 -> 0 < final < 127 ->
  exists a, zlen a = 10 /\ take (length l) a = l /\ write_loop charmap dev G 7 d (27 :: 91 :: (arg_byte <$> l) ++ [final]) = emplace_escape G (set_esc d false true (zlen l) a) final.
Proof.
  intros Hd Hq Hl Hn Hf.
  destruct (args_loop 7 l (set_esc d false true 0 (esc_args d)) 0) as (a & E & La & Ea); [done|done|done|apply Hd|lia|done|lia|]. exists a. rewrite Z.add_0_l in *. split_and!; [done|unfold zlen in Ea; by rewrite Nat2Z.id in Ea|].
  change (27 :: 91 :: (arg_byte <$> l) ++ [final]) with ([27] ++ [91] ++ (arg_byte <$> l) ++ [final]). rewrite write_loop_app, write_one by lia. unfold emplace_char at 1. rewrite emplace_quiet by done. cbn [Z.eqb Pos.eqb mbind res_bind].
  rewrite write_loop_app, write_one by lia. assert (emplace_char charmap dev G 7 (set_esc d true false 0 (esc_args d)) 91 = Ok (set_esc d false true 0 (esc_args d))) as -> by done. cbn [mbind res_bind]. rewrite write_loop_app, E. cbn [mbind res_bind]. rewrite write_one by done. done.
Qed.

(** Reading the arguments and colouring change neither the text nor the screen. *)
Lemma set_esc_ok d e q i a : term_ok d -> zlen a = 10 -> term_ok (set_esc d e q i a).
Proof. intros [Ht Hp Hs] Ha. split; [|keep_pixels Hp|exact Hs]. destruct Ht. by split. Qed.
Lemma set_color_ok d tenth unit : term_ok d -> term_ok (set_color d tenth unit) /\ esc_args (set_color d tenth unit) = esc_args d.
Proof.
  intros [Ht Hp Hs]. assert (forall fg bg, term_ok (set_colors d fg bg)) as Hc by (intros fg bg; split; [destruct Ht; by split|keep_pixels Hp|exact Hs]). unfold set_color. repeat case_match; split; try done; try apply Hc; by split.
Qed.
Lemma esc_sgr_ok d : term_ok d -> term_ok (esc_sgr d).
Proof.
  intros Hd. unfold esc_sgr. pose proof (tx_args _ (to_text _ Hd)) as Ha. cbv zeta. repeat case_match; apply set_esc_ok; try done.
  all: repeat match goal with |- context [set_color ?x ?t ?u] => lazymatch x with set_color _ _ _ => fail | _ => let H1 := fresh in let H2 := fresh in destruct (set_color_ok x t u) as [H1 H2]; [done|]; generalize dependent (set_color x t u); intros end end; congruence.
Qed.

Lemma set_color_ESC d tenth unit : esc_ESC (set_color d tenth unit) = esc_ESC d.
Proof. unfold set_color. by repeat case_match. Qed.
Lemma esc_sgr_ESC d : esc_ESC (esc_sgr d) = esc_ESC d.
Proof. unfold esc_sgr. cbv zeta. cbn [set_esc esc_ESC]. repeat case_match; by rewrite ?set_color_ESC. Qed.

Lemma fill_cells_ok ch n : forall b x, char_ok ch -> Forall char_ok b -> 0 <= x -> x + Z.of_nat n <= zlen b -> exists b', fill n b x ch = Ok b' /\ zlen b' = zlen b /\ Forall char_ok b'.
Proof.
  induction n as [|n IH]; intros b x Hch Hb Hx Hn; [by exists b|]. cbn [fill]. unfold st. rewrite (proj2 (Z.leb_le _ _)), (proj2 (Z.ltb_lt _ _)) by lia. cbn [andb mbind res_bind]. assert (zlen (<[Z.to_nat x := ch]> b) = zlen b) as Lb by (unfold zlen; by rewrite length_insert).
  destruct (IH (<[Z.to_nat x := ch]> b) (x + 1)) as (b' & -> & L & F); [done|by apply list.Forall_insert|lia|lia|]. exists b'. split_and!; [done|lia|done].
Qed.

Lemma parse_number_ok n : forall args i num, 0 <= i -> i + Z.of_nat n <= zlen args -> exists v, parse_number n args i num = Ok v.
Proof.
  induction n as [|n IH]; intros args i num Hi Hn; [by exists num|]. cbn [parse_number]. unfold ld. rewrite (proj2 (Z.leb_le _ _)) by lia. destruct (lookup_lt_is_Some_2 args (Z.to_nat i)) as [x ->]; [unfold zlen in Hn; lia|]. cbn [mbind res_bind].
  destruct (x =? 255); [by eexists|]. apply IH; lia.
Qed.

Lemma esc_el_ok d : term_ok d -> 0 <= esc_idx d <= 10 -> exists d', esc_el G d = Ok d' /\ term_ok d' /\ same_modes d d'.
Proof.
  intros [Ht Hp Hs] Hi. destruct sizes as (Hc & Hl & Hn). destruct (tx_first _ Ht) as [Hf _]. pose proof (tx_line _ Ht) as Hcl. pose proof (tx_buf _ Ht) as Hbl. pose proof (tx_col _ Ht) as Hcc. unfold esc_el, parse_esc_number_single.
  destruct (parse_number_ok (Z.to_nat (esc_idx d)) (esc_args d) 0 0) as (num & ->); [lia|rewrite (tx_args _ Ht); lia|]. cbn [mbind res_bind]. cbv zeta.
  assert (term_ok (set_refresh d true)) as Hr by (split; [destruct Ht; by split|keep_pixels Hp|done]).
  assert (forall b e, 0 <= b -> e <= nlines G * ncols G -> exists d', (b' ← fill (Z.to_nat (e - b)) (char_buffer (set_refresh d true)) b (make_Char (set_refresh d true) 32); Ok (set_text (set_refresh d true) b')) = Ok d' /\ term_ok d' /\ same_modes d d') as Hfill.
  { intros b e Hb He. destruct (decide (b <= e)).
    - destruct (fill_cells_ok (make_Char (set_refresh d true) 32) (Z.to_nat (e - b)) (char_buffer (set_refresh d true)) b) as (b' & -> & L & F); [unfold char_ok; cbn; lia|apply Ht|done|cbn; lia|]. cbn [mbind res_bind]. eexists. split; [done|]. split; [|by split_and!].
      split; [|keep_pixels Hp|done]. destruct Ht. split; [cbn in *; lia|done..].
    - replace (Z.to_nat (e - b)) with 0%nat by lia. cbn [fill mbind res_bind]. eexists. split; [done|]. split; [|by split_and!]. split; [destruct Ht; by split|keep_pixels Hp|done]. }
  destruct (num =? 0); [apply Hfill; nia|]. destruct (num =? 1); [apply Hfill; nia|]. destruct (num =? 2); [apply Hfill; nia|]. eexists. split; [done|]. split; [done|by split_and!].
Qed.

(** ** Moving the cursor *)

Definition dec (v : Z) (l : list Z) : Z := foldl (fun v x => v * 10 + x) v l.

Lemma cup_digits l : forall pre post m j vals v k, Forall (fun x => 0 <= x <= 9) l -> vals !! Z.to_nat j = Some v -> 0 <= j -> 0 <= v < 10 ^ k -> 0 <= k -> k + zlen l <= 9 ->
  cup_loop (length l + m) (pre ++ l ++ post) (zlen pre) j vals = cup_loop m (pre ++ l ++ post) (zlen (pre ++ l)) j (<[Z.to_nat j := dec v l]> vals) /\ 0 <= dec v l < 10 ^ (k + zlen l).
Proof.
  induction l as [|x l IH]; intros pre post m j vals v k Hl Hv Hj Hb Hk Hn.
  - cbn. rewrite app_nil_r, Z.add_0_r, list_insert_id by done. done.
  - apply Forall_cons_1 in Hl as [Hx Hl]. rewrite zlen_cons in Hn |- *. assert (0 <= zlen l) by (unfold zlen; lia). assert (10 ^ (k + 1) = 10 * 10 ^ k) as Ep by (rewrite <- Z.pow_succ_r by lia; f_equal; lia). assert (10 ^ (k + 1) <= 10 ^ 9) by (apply Z.pow_le_mono_r; lia). change (10 ^ 9) with 1000000000 in *.
    cbn [length Nat.add app cup_loop]. rewrite ld_middle. cbn [mbind res_bind]. rewrite (proj2 (Z.eqb_neq _ _)) by lia. assert (ld vals j = Ok v) as -> by (unfold ld; by rewrite (proj2 (Z.leb_le _ _)), Hv by lia). cbn [mbind res_bind]. rewrite s32_small by lia.
    pose proof (lookup_lt_Some _ _ _ Hv). unfold st at 1. rewrite (proj2 (Z.leb_le _ _)), (proj2 (Z.ltb_lt _ _)) by (unfold zlen; lia). cbn [andb mbind res_bind].
    destruct (IH (pre ++ [x]) post m j (<[Z.to_nat j := v * 10 + x]> vals) (v * 10 + x) (k + 1)) as [E B]; [done|by apply list_lookup_insert_eq|done|lia|lia|lia|]. rewrite zlen_app, <- !app_assoc in E. cbn [app] in E. change (zlen [x]) with 1 in E. rewrite E, list_insert_insert_eq. split; [done|]. replace (k + (zlen l + 1)) with (k + 1 + zlen l) by lia. done.
Qed.

Definition digits (l : list Z) : Prop := Forall (fun x => 0 <= x <= 9) l.

Lemma cup_two row col post : digits row -> digits col -> zlen row + zlen col <= 9 -> cup_loop (length (row ++ 255 :: col)) (row ++ 255 :: col ++ post) 0 0 [0; 0] = Ok (Some [dec 0 row; dec 0 col]) /\ 0 <= dec 0 row /\ 0 <= dec 0 col.
Proof.
  intros Hr Hc Hn. assert (0 <= zlen row) by (unfold zlen; lia). assert (0 <= zlen col) by (unfold zlen; lia). rewrite length_app. cbn [length].
  destruct (cup_digits row [] (255 :: col ++ post) (S (length col)) 0 [0; 0] 0 0) as [E B]; [done|done|done|lia|lia|lia|]. rewrite !app_nil_l in E. change (zlen (@nil Z)) with 0 in E. rewrite E. cbn [cup_loop]. rewrite ld_middle. cbn [mbind res_bind]. cbn [Z.eqb Pos.eqb Z.ltb Z.compare].
  destruct (cup_digits col (row ++ [255]) post 0 1 (<[Z.to_nat 0 := dec 0 row]> [0; 0]) 0 0) as [E' B']; [done|done|done|lia|lia|lia|]. rewrite zlen_app, <- !app_assoc in E'. cbn [app] in E'. change (zlen [255]) with 1 in E'. rewrite Nat.add_0_r in E'. change (0 + 1) with 1. rewrite E'. cbn [cup_loop]. split; [done|lia].
Qed.

Lemma esc_cup_ok d row col post : term_ok d -> esc_args d = row ++ 255 :: col ++ post -> esc_idx d = zlen (row ++ 255 :: col) -> digits row -> digits col -> zlen row + zlen col <= 9 -> dec 0 row <= term_nlines G ->
  exists d', esc_cup G d = Ok d' /\ term_ok d' /\ same_modes d d'.
Proof.
  intros Hd Ha Hi Hr Hc Hn Hrow. destruct sizes as (Hnc & Hl & Hnl). destruct (tx_first _ (to_text _ Hd)) as [Hf Hf4]. destruct (cup_two row col post Hr Hc Hn) as (E & B1 & B2). unfold esc_cup. rewrite Hi, Ha. unfold zlen at 1. rewrite Nat2Z.id, E. cbn [mbind res_bind]. cbn zeta. change (nthZ [dec 0 row; dec 0 col] 1) with (dec 0 col). change (nthZ [dec 0 row; dec 0 col] 0) with (dec 0 row).
  set (c := if dec 0 col - 1 <? 0 then 0 else dec 0 col - 1). set (r := if dec 0 row - 1 <? 0 then 0 else dec 0 row - 1). assert (0 <= r < term_nlines G) as Br by (unfold r; zb). pose proof (wrap_range 16 c ltac:(lia)) as Wc.
  rewrite (wrap_small 16 r), (wrap_small 16 (r + first_line d)) by lia. rewrite (proj2 (Z.leb_gt (nlines G) _)) by lia. unfold assert_. rewrite (proj2 (Z.leb_le (first_line d) _)) by lia. cbn [mbind res_bind]. eexists. split; [done|]. split; [|by split_and!].
  destruct Hd as [Ht Hp Hs]. split; [|keep_pixels Hp|exact Hs]. destruct Ht. split; cbn [set_cursor char_buffer first_line cur_col cur_line esc_args]; [done|done|done| |lia|done]. destruct (Z.leb_spec (ncols G) (u16 c)); [rewrite (wrap_small 16) by lia; lia|lia].
Qed.

(** ** What programs write *)

(** Characters, escape sequences that do not move the cursor (an argument is a digit, or 255 for the
    semicolon), and movements to a visible line. *)
Inductive token := TChar (c : Z) | TSeq (args : list Z) (final : Z) | TMove (row col : list Z).

Definition token_bytes (t : token) : list Z :=
  match t with
  | TChar c => [c]
  | TSeq args final => 27 :: 91 :: (arg_byte <$> args) ++ [final]
  | TMove row col => 27 :: 91 :: (arg_byte <$> row ++ 255 :: col) ++ [72]
  end.
Definition token_ok (t : token) : Prop :=
  match t with
  | TChar c => 0 < c < 127 /\ c <> 27 /\ c <> 8
  | TSeq args final => Forall arg_ok args /\ zlen args <= 9 /\ 0 < final < 127 /\ ~ 48 <= final <= 57 /\ final <> 59 /\ final <> 72
  | TMove row col => digits row /\ digits col /\ zlen row + zlen col <= 8 /\ dec 0 row <= term_nlines G
  end.

Definition idle (d : term) : Prop := text_ok d /\ pixels_ok d /\ shown d /\ quiet d.

(** The last character of a sequence. *)
Lemma final_ok d final : term_ok d -> esc_ESC d = false -> 0 <= esc_idx d <= 10 -> ~ 48 <= final <= 57 -> final <> 59 -> (final = 72 -> exists d', esc_cup G d = Ok d' /\ term_ok d' /\ same_modes d d') ->
  exists d', emplace_escape G d final = Ok d' /\ term_ok d' /\ quiet d'.
Proof.
  intros Hd He Hi H1 H2 H72. unfold emplace_escape. replace ((final <=? 57) && (48 <=? final)) with false by lia. rewrite (proj2 (Z.eqb_neq final 59)) by done.
  assert (forall r, (exists d1, r = Ok d1 /\ term_ok d1 /\ esc_ESC d1 = false) -> exists d', (d1 ← r; Ok (set_esc d1 (esc_ESC d1) false 0 (esc_args d1))) = Ok d' /\ term_ok d' /\ quiet d') as Hfin.
  { intros r (d1 & -> & Hd1 & E1). cbn [mbind res_bind]. eexists. split; [done|]. split; [apply set_esc_ok; [done|apply Hd1]|by rewrite E1]. }
  apply Hfin. destruct (final =? 109); [eexists; split; [done|]; split; [by apply esc_sgr_ok|by rewrite esc_sgr_ESC]|]. destruct (Z.eqb_spec final 72) as [E|E].
  - destruct (H72 E) as (d' & -> & Hd' & (_ & _ & E' & _)). exists d'. split_and!; [done|done|congruence].
  - destruct (final =? 75); [|by exists d]. destruct (esc_el_ok d Hd Hi) as (d' & -> & Hd' & (_ & _ & E' & _)). exists d'. split_and!; [done|done|congruence].
Qed.

Lemma write_token d t : term_ok d -> quiet d -> token_ok t -> exists d', write_loop charmap dev G 7 d (token_bytes t) = Ok d' /\ term_ok d' /\ quiet d'.
Proof.
  intros Hd Hq Ht. destruct t as [c|args final|row col]; cbn [token_bytes token_ok] in *.
  - destruct Ht as (Hc & ? & ?). rewrite write_one by done. by apply emplace_char_ok.
  - destruct Ht as (Ha & Hn & Hf & H1 & H2 & H3). destruct (sequence_loop d args final Hd Hq Ha Hn Hf) as (a & La & _ & ->). assert (0 <= zlen args) by (unfold zlen; lia). apply final_ok; [by apply set_esc_ok|done|cbn; lia|done|done|done].
  - destruct Ht as (Hr & Hc & Hn & Hrow). assert (zlen (row ++ 255 :: col) = zlen row + zlen col + 1) as Ln by (rewrite zlen_app, zlen_cons; lia). assert (0 <= zlen row + zlen col) by (unfold zlen; lia).
    assert (forall l, digits l -> Forall arg_ok l) as Hdig by (intros l Hl; eapply list.Forall_impl; [exact Hl|intros x Hx; by left]). destruct (sequence_loop d (row ++ 255 :: col) 72 Hd Hq) as (a & La & Ea & ->).
    { apply list.Forall_app. split; [by apply Hdig|]. constructor; [by right|by apply Hdig]. } { lia. } { lia. }
    apply final_ok; [by apply set_esc_ok|done|cbn; lia|lia|done|]. intros _. apply (esc_cup_ok _ row col (drop (length (row ++ 255 :: col)) a)); [by apply set_esc_ok| |done|done|done|lia|done].
    cbn [set_esc esc_args]. rewrite <- (take_drop (length (row ++ 255 :: col)) a) at 1. rewrite Ea, <- app_assoc. done.
Qed.

Lemma write_tokens ts : forall d, term_ok d -> quiet d -> Forall token_ok ts -> exists d', write_loop charmap dev G 7 d (concat (token_bytes <$> ts)) = Ok d' /\ term_ok d' /\ quiet d'.
Proof.
  induction ts as [|t ts IH]; intros d Hd Hq Hts; [by exists d|]. apply Forall_cons_1 in Hts as [Ht Hts]. rewrite fmap_cons. cbn [concat]. rewrite write_loop_app.
  destruct (write_token d t Hd Hq Ht) as (d1 & -> & H1 & Q1). cbn [mbind res_bind]. by apply IH.
Qed.

Lemma idle_term d : idle d -> term_ok (set_refresh d false) /\ quiet (set_refresh d false).
Proof. intros (Ht & Hp & Hs & Hq). split; [|exact Hq]. split; [destruct Ht; by split|keep_pixels Hp|intros _; exact Hs]. Qed.

(** Redrawing at the end of [write_string] keeps everything but the pixels. *)
Lemma refresh_ok d : term_ok d -> quiet d -> exists d', (if need_refresh d then flush_screen charmap dev G d else Ok d) = Ok d' /\ idle d' /\ (forall t, paper t d -> paper t d').
Proof.
  intros [Ht Hp Hs] Hq. destruct (need_refresh d) eqn:E; [|exists d; split_and!; [done|split_and!; [done|done|by apply Hs|apply Hq..]|done]].
  destruct (flush_screen_ok d Ht Hp) as (p0 & p1 & cur & p & -> & Hp' & Hs'). eexists. split; [done|]. split; [|done]. split_and!; [|done|done|apply Hq..]. destruct Ht. by split.
Qed.

Lemma write_idle d ts : idle d -> Forall token_ok ts -> exists d', write_string charmap dev G 7 d (concat (token_bytes <$> ts)) = Ok d' /\ idle d'.
Proof.
  intros Hd Hts. destruct (idle_term d Hd) as [H1 H2]. unfold write_string. destruct (write_tokens ts _ H1 H2 Hts) as (d1 & -> & Hd1 & Hq1). cbn [mbind res_bind]. destruct (refresh_ok d1 Hd1 Hq1) as (d' & ? & ? & _). by exists d'.
Qed.

(** ** Text *)

(** Printable characters, line feeds and tabulators. *)
Definition text (s : list Z) : Prop := Forall (fun c => c = 9 \/ c = 10 \/ 32 <= c < 127) s.

(** The characters that are put into the cells, when [k] cells have been written. *)
Fixpoint flow (k : Z) (s : list Z) : list Z :=
  match s with
  | [] => []
  | c :: s =>
      let w := if c =? 10 then replicate (Z.to_nat (ncols G - k mod ncols G)) 32 else if c =? 9 then replicate (Z.to_nat (tab_width (k mod ncols G))) 32 else [c] in
      w ++ flow (k + zlen w) s
  end.

Lemma paper_col t d : text_ok d -> paper t d -> cur_col d = zlen t mod ncols G.
Proof. intros Ht (o & _ & Hz & _). pose proof (tx_col _ Ht). rewrite Hz, Z.add_comm, Z.mod_add by lia. by rewrite Z.mod_small by lia. Qed.

Lemma write_flow s : forall d t, term_ok d -> quiet d -> text s -> paper t d ->
  exists d', write_loop charmap dev G 7 d s = Ok d' /\ advanced d d' /\ paper (t ++ (make_Char d <$> flow (zlen t) s)) d'.
Proof.
  induction s as [|c s IH]; intros d t Hd Hq Hs Ht; [exists d; split_and!; [done|by split; [|split_and!]|by rewrite app_nil_r]|]. apply Forall_cons_1 in Hs as [Hc Hs]. cbn [write_loop flow]. rewrite (proj2 (Z.ltb_lt 0 c)), (proj2 (Z.ltb_lt c 127)) by lia. cbn [andb]. unfold emplace_char. rewrite emplace_quiet by done.
  rewrite <- (paper_col t d (to_text _ Hd) Ht). cbv zeta. set (w := if c =? 10 then replicate _ 32 else _).
  assert (forall r, (exists d1, r = Ok d1 /\ advanced d d1 /\ paper (t ++ (make_Char d <$> w)) d1) -> exists d', (d1 ← r; write_loop charmap dev G 7 d1 s) = Ok d' /\ advanced d d' /\ paper (t ++ (make_Char d <$> w ++ flow (zlen t + zlen w) s)) d') as Hgo.
  { intros r (d1 & -> & A & Hp1). cbn [mbind res_bind]. destruct (IH d1 _ (proj1 A) (advanced_quiet _ _ A Hq) Hs Hp1) as (d' & -> & A' & Hp'). exists d'. split_and!; [done|by eapply advanced_trans|].
    rewrite zlen_app in Hp'. replace (zlen (make_Char d <$> w)) with (zlen w) in Hp' by (unfold zlen; by rewrite length_fmap). rewrite fmap_app, app_assoc. rewrite (list_fmap_ext (make_Char d1) (make_Char d) (flow (zlen t + zlen w) s)) in Hp'; [exact Hp'|]. intros i x _. by apply advanced_Char. }
  apply Hgo. rewrite (proj2 (Z.eqb_neq c 27)) by lia. unfold w. destruct (Z.eqb_spec c 10).
  - destruct (emplace_spaces_ok (Z.to_nat (ncols G - cur_col d)) d Hd) as (d1 & E1 & A1 & P1). exists d1. rewrite fmap_replicate. split_and!; [done|done|by apply P1].
  - destruct (Z.eqb_spec c 9).
    + destruct (tab_ok d Hd Hq) as (d1 & E1 & A1 & P1). exists d1. rewrite fmap_replicate. split_and!; [done|done|by apply P1].
    + rewrite (proj2 (Z.eqb_neq c 13)), (proj2 (Z.eqb_neq c 8)), (proj2 (Z.eqb_neq c 12)) by lia. destruct (emplace_normal_char_ok d c Hd) as (d1 & E1 & A1 & P1 & _); [lia|]. exists d1. split_and!; [done|done|by apply P1].
Qed.
End Theorems.

(** ** From installation on *)

(** A display on which nothing goes wrong: the columns are no multiple of a tabulator, and the lines are
    a multiple of the four lines that the terminal scrolls by. *)
Record display_ok (charmap : list Z) (dev : fb_dev) : Prop := {
  do_charmap : zlen charmap = 2048;
  do_width : 12 <= width dev < 2 ^ 16 /\ (width dev / 12) mod 6 <> 0;
  do_height : 64 <= height dev < 2 ^ 16 /\ (height dev / 16) mod 4 = 0;
  do_pitch : 4 * width dev <= pitch dev /\ 2 * pitch dev < 2 ^ 16 /\ pitch dev mod 8 = 0;
  do_size : height dev * pitch dev < 2 ^ 32 /\ (height dev * pitch dev) mod 64 = 0 }.

Lemma margin_aligned x : 0 <= x < 6 -> Z.land x (2 ^ 32 - 16) = 0.
Proof. intros Hx. assert (x = 0 \/ x = 1 \/ x = 2 \/ x = 3 \/ x = 4 \/ x = 5) as [-> |[-> |[-> |[-> |[-> | ->]]]]] by lia; reflexivity. Qed.

Lemma install_screen charmap dev : display_ok charmap dev ->
  let G := install_geometry dev in screen_ok charmap dev G /\ term_nlines G mod 4 = 0 /\ ncols G mod 6 <> 0 /\ ncols G = width dev / 12 /\ term_nlines G = height dev / 16.
Proof.
  intros [Hcm [Hw Hw6] [Hh Hh4] (Hp & Hp2 & Hp8) [Hs Hs64]]. unfold install_geometry. change TERMINAL_FONTWIDTH with 12. change TERMINAL_FONTHEIGHT with 16. change TERMINAL_LINE_HEIGHT with 16. change TERMINAL_N_PAGES with 2.
  rewrite !(wrap_small 16 (width dev / 12)), !(wrap_small 16 (height dev / 16)), !(wrap_small 16 (2 * _)), !u32_small by nia. rewrite margin_aligned by lia.
  cbn zeta. split_and!; [split; cbn [ncols nlines term_nlines margin_left margin_top fb_size]|done..]; first [done|lia|split_and!; lia].
Qed.

Section Installed.
Variables (charmap : list Z) (dev : fb_dev).
Hypothesis DO : display_ok charmap dev.
Notation G := (install_geometry dev).

Lemma terminal_install_ok bg refresh args : zlen args = 10 ->
  exists d, terminal_install charmap dev 32 bg refresh args (replicate (Z.to_nat (height dev * pitch dev / 8)) 0) = Ok (Some d) /\ idle charmap dev G d /\ paper G [] d /\ current_fgcolor d = 0xffffff /\ current_bgcolor d = bg.
Proof.
  intros Ha. destruct (install_screen charmap dev DO) as (SO & H4 & H6 & _). destruct (sizes charmap dev G SO) as (Hc & Hl & Hn). pose proof (do_size _ _ DO) as [Hs Hs64]. pose proof (do_pitch _ _ DO) as (Hp & _ & Hp8). pose proof (do_height _ _ DO) as [Hh _]. pose proof (do_width _ _ DO) as [Hw _].
  unfold terminal_install. cbn [negb Z.eqb Pos.eqb]. assert (fb_size G = height dev * pitch dev) as -> by (apply (so_size _ _ _ SO)). set (zeros := replicate _ 0). assert (zlen zeros = height dev * (pitch dev / 8)) as Lz.
  { unfold zeros, zlen. rewrite length_replicate. assert (height dev * pitch dev / 8 = height dev * (pitch dev / 8)) as -> by (replace (height dev * pitch dev) with (height dev * (pitch dev / 8) * 8) by lia; apply Z.div_mul; lia). nia. }
  set (d := Term _ _ _ _ _ _ _ _ _ _ _ _ _ _ _). destruct (flush_screen_ok charmap dev G SO H4 (terminal_clear G d)) as (p0 & p1 & cur & p & -> & Hp' & Hs').
  - split; cbn [terminal_clear set_refresh set_text set_cursor char_buffer first_line cur_col cur_line esc_args]; [unfold zlen; rewrite length_replicate; nia|apply list.Forall_replicate; unfold char_ok; cbn; lia|lia|lia|lia|done].
  - split; [by intros []|done].
  - cbn [mbind res_bind]. eexists. split; [done|]. split; [split; [|split; [exact Hp'|by split; [exact Hs'|]]]|split_and!; [exists 0; split_and!; [done|done|intros p' Hp''; change (zlen (@nil Char)) with 0 in Hp''; lia]|done|done]].
    split; cbn [terminal_clear set_pixels set_refresh set_text set_cursor char_buffer first_line cur_col cur_line esc_args]; [unfold zlen; rewrite length_replicate; nia|apply list.Forall_replicate; unfold char_ok; cbn; lia|lia|lia|lia|done].
Qed.

Fixpoint write_all (d : term) (ws : list (list Z)) : res term :=
  match ws with [] => Ok d | w :: ws => d ← write_string charmap dev G 7 d w; write_all d ws end.


(** Text flows over the lines: after installation and one write, the cells up to the cursor are the
    last cells of the characters written so far, a line feed filling its line with spaces and a
    tabulator reaching the next multiple of six; older lines have scrolled out. *)
Theorem terminal_text_flows bg refresh args s : zlen args = 10 -> text s ->
  exists d0 d, terminal_install charmap dev 32 bg refresh args (replicate (Z.to_nat (height dev * pitch dev / 8)) 0) = Ok (Some d0) /\
    write_string charmap dev G 7 d0 s = Ok d /\ shown charmap dev G d /\ paper G ((fun c => MkChar 0xffffff c bg) <$> flow G 0 s) d.
Proof.
  intros Ha Hs. destruct (install_screen charmap dev DO) as (SO & H4 & H6 & _). destruct (terminal_install_ok bg refresh args Ha) as (d0 & -> & Hi & Hp & Ef & Eb). exists d0.
  destruct (idle_term charmap dev G d0 Hi) as [H1 H2]. destruct (write_flow charmap dev G SO H4 H6 s (set_refresh d0 false) [] H1 H2 Hs Hp) as (d1 & E1 & [Hd1 Hm1] & Hp1). unfold write_string. rewrite E1. cbn [mbind res_bind].
  destruct (refresh_ok charmap dev G SO H4 d1 Hd1) as (d & -> & Hi' & Hpp); [by eapply advanced_quiet|]. exists d. split_and!; [done|done|apply Hi'|]. specialize (Hpp _ Hp1). rewrite app_nil_l in Hpp. change (zlen []) with 0 in Hpp.
  rewrite (list_fmap_ext _ (fun c => MkChar 0xffffff c bg)) in Hpp; [exact Hpp|]. intros i c _. unfold make_Char. cbn [set_refresh current_fgcolor current_bgcolor]. by rewrite Ef, Eb.
Qed.
End Installed.

(** Where the number of columns is a multiple of six, a tabulator in the last six columns never ends:
    the cursor wraps around before it reaches the column it is to reach. *)
Theorem terminal_tab_hangs charmap dev G d fuel : screen_ok charmap dev G -> term_nlines G mod 4 = 0 -> ncols G mod 6 = 0 ->
  term_ok charmap dev G d -> quiet d -> ncols G - 6 <= cur_col d -> emplace_char charmap dev G fuel d 9 = Err NoFuel.
Proof.
  intros SO H4 H6 Hd Hq Hc. unfold emplace_char. rewrite emplace_quiet by done. cbn [Z.eqb Pos.eqb]. cbv zeta. pose proof (tx_col _ _ (to_text _ _ _ _ Hd)) as Hcc. replace ((cur_col d + 6) / 6 * 6) with (ncols G) by lia. rewrite Z.ltb_irrefl.
  clear Hc Hcc. revert d Hd Hq. induction fuel as [|fuel IH]; intros d Hd Hq; [done|]. cbn [tab_loop]. pose proof (tx_col _ _ (to_text _ _ _ _ Hd)) as Hcc. rewrite (proj2 (Z.ltb_lt _ _)) by lia. rewrite emplace_quiet by done. cbn [Z.eqb Pos.eqb].
  destruct (emplace_normal_char_ok charmap dev G SO H4 d 32 Hd) as (d1 & -> & A1 & _); [lia|]. cbn [mbind res_bind]. apply IH; [apply A1|by eapply advanced_quiet].
Qed.

(** ** A small display *)

Definition charmap1 : list Z := (fun i => i mod 64) <$> seqZ 0 2048.
Definition dev1 : fb_dev := FbDev 96 64 384.
Definition args1 : list Z := replicate 10 0.

Lemma display1 : display_ok charmap1 dev1.
Proof. split; vm_compute; repeat split; discriminate. Qed.


Lemma terminal_text_witness : exists d0 d, terminal_install charmap1 dev1 32 0 false args1 (replicate 3072 0) = Ok (Some d0) /\
  write_string charmap1 dev1 (install_geometry dev1) 7 d0 [104; 105; 10; 9; 97] = Ok d /\ shown charmap1 dev1 (install_geometry dev1) d /\
  paper (install_geometry dev1) ((fun c => MkChar 0xffffff c 0) <$> [104; 105; 32; 32; 32; 32; 32; 32; 32; 32; 32; 32; 32; 32; 97]) d.
Proof.
  refine (terminal_text_flows charmap1 dev1 display1 0 false args1 [104; 105; 10; 9; 97] eq_refl _). repeat constructor; lia.
Defined.

(** Six columns. *)
Definition dev6 : fb_dev := FbDev 72 64 288.
Definition term6 : term :=
  let zeros := replicate (Z.to_nat 2304) 0 in Term (replicate 48 (MkChar 0 0 0)) 0 0 0 true 0 0 false false 0 args1 zeros zeros false zeros.

Lemma terminal_tab_witness : screen_ok charmap1 dev6 (install_geometry dev6) /\ emplace_char charmap1 dev6 (install_geometry dev6) 1000 term6 9 = Err NoFuel.
Proof.
  assert (screen_ok charmap1 dev6 (install_geometry dev6)) as SO by (split; vm_compute; repeat split; discriminate). split; [exact SO|].
  refine (terminal_tab_hangs charmap1 dev6 (install_geometry dev6) term6 1000 SO eq_refl eq_refl _ (conj eq_refl (conj eq_refl eq_refl)) _); [|vm_compute; discriminate].
  split; [|split; [by intros []|done]|done]. split; [done| |done|done|done|done]. repeat constructor; done.
Defined.
