(* ===== verification/Syscalls.v ===== *)
(** * System calls on files ([kernel/int/syscall.c], [kernel/sched/process.c])

    The descriptors of a process, the checks of its arguments, the calls on files and directories,
    and how descriptors are inherited and closed with a process.  Open files and paths are behind
    the interface [OpenFiles].  The memory of a program is a map from addresses to bytes; a handle is a
    number, the null pointer is [None].  The argument structure of a call has the right size. *)

From S2P Require Import Prelude Bytes FileSystems CString Paths VfsFiles VfsDirs.


Definition MAX_FDS : Z := 32.
Definition O_WRONLY : Z := 2.
Definition O_CREAT : Z := 4.
Definition O_TRUNC : Z := 16.
Definition O_APPEND : Z := 32.
Definition O_DIRECTORY : Z := 128.
Definition X_OK : Z := 1.
Definition W_OK : Z := 2.
Definition R_OK : Z := 4.

(** What a call returns as an error, [-1] in 64 bits. *)
Definition FAIL : Z := 2 ^ 64 - 1.

(** [struct DIR]: the number of entries and the array of them as bytes. *)
Record DIR := Dir_ { dir_len : Z; dir_img : list Z }.

(** [file_descriptor_t]. *)
Inductive file_desc := FD_NONE | FD_FILE (file : option Z) | FD_DIR (dir : DIR) (dir_boff : Z).
Definition is_none (f : file_desc) : bool := match f with FD_NONE => true | _ => false end.

(** The fields of [process_t] that these calls use; stacks and segments are bases with sizes. *)
Record uproc := UProc { fds : list file_desc; cwd : list Z; thread_stacks : list (Z * Z); heap_begin : Z; brk : Z; segs : list (Z * Z) }.
Definition set_fds (p : uproc) (l : list file_desc) : uproc := UProc l (cwd p) (thread_stacks p) (heap_begin p) (brk p) (segs p).
Definition set_cwd (p : uproc) (c : list Z) : uproc := UProc (fds p) c (thread_stacks p) (heap_begin p) (brk p) (segs p).

(** The functions of the virtual file system that the calls use, on a state [V] in which the handles
    [live] are open.  [ids_left] is how often a handle may still be made before a counter wraps around. *)
Class OpenFiles (V : Type) := {
  live : V -> gset Z;
  ready : V -> Prop;
  ids_left : V -> Z;
  of_open_file : list Z -> Z -> V -> res (V * option Z);
  of_dup : Z -> V -> res (V * option Z);
  of_close : Z -> V -> res V;
  of_pipe : V -> res (V * (Z * Z));
  of_open_ok : forall path fl v v' r, ready v -> 2 <= ids_left v -> of_open_file path fl v = Ok (v', r) ->
    ready v' /\ ids_left v - 1 <= ids_left v' /\ match r with None => live v' = live v | Some q => q ∉ live v /\ live v' = {[q]} ∪ live v end;
  of_dup_ok : forall p v, ready v -> 2 <= ids_left v -> p ∈ live v -> exists v' r, of_dup p v = Ok (v', r) /\
    ready v' /\ ids_left v - 1 <= ids_left v' /\ match r with None => live v' = live v | Some q => q ∉ live v /\ live v' = {[q]} ∪ live v end;
  of_close_ok : forall p v, ready v -> p ∈ live v -> exists v', of_close p v = Ok v' /\
    ready v' /\ ids_left v <= ids_left v' /\ live v' = live v ∖ {[p]};
  of_pipe_ok : forall v v' o i, ready v -> 3 <= ids_left v -> of_pipe v = Ok (v', (o, i)) ->
    ready v' /\ ids_left v - 2 <= ids_left v' /\ o ∉ live v /\ i ∉ live v /\ o <> i /\ live v' = {[o; i]} ∪ live v
}.

(** The calls that move data and walk directories; reading returns no more than was asked for. *)
Class FileIO (V : Type) := {
  io_read : Z -> Z -> V -> res (V * list Z * Z);
  io_write : list Z -> Z -> V -> res (V * Z);
  io_seek : Z -> Z -> Z -> V -> res (V * Z);
  io_truncate : Z -> Z -> V -> res (V * Z);
  io_rewind : Z -> V -> res V;   (* h->file_offset = 0 *)
  io_opendir : list Z -> V -> res (V * option DIR);
  io_stat : list Z -> V -> res (V * option fast_dirent);
  io_read_len : forall size p v v' data r, 0 <= size -> io_read size p v = Ok (v', data, r) -> zlen data <= size
}.

(** ** Arguments *)

Definition memory := gmap Z Z.

(** Whether [begin, end) is not in any of the ranges. *)
Definition in_range (begin end_ : Z) (r : Z * Z) : bool := (r.1 <=? begin) && (end_ <=? u64 (r.1 + r.2)).
Definition check_args_in_program (p : uproc) (args args_sz : Z) : bool :=
  if 2 ^ 64 <=? args + args_sz then true else negb (existsb (in_range args (args + args_sz)) (segs p)).
Definition check_args (p : uproc) (args args_sz : Z) : bool :=
  if 2 ^ 64 <=? args + args_sz then true
  else if existsb (in_range args (args + args_sz)) (thread_stacks p) then false
  else if (heap_begin p <=? args) && (args + args_sz <=? brk p) then false
  else check_args_in_program p args args_sz.

(** The string at [p]; a page that is not mapped stops the kernel. *)
Fixpoint user_string (n : nat) (m : memory) (p : Z) : res (list Z) :=
  match n with
  | O => Err NoFuel
  | S n' => match m !! p with None => Err (Fault "page fault") | Some c => if c =? 0 then Ok [] else s ← user_string n' m (p + 1); Ok (c :: s) end
  end.
Definition string_at (m : memory) (p : Z) : res (list Z) := user_string (S (size m)) m p.

Fixpoint user_bytes (n : nat) (m : memory) (p : Z) : res (list Z) :=
  match n with
  | O => Ok []
  | S n' => match m !! p with None => Err (Fault "page fault") | Some c => s ← user_bytes n' m (p + 1); Ok (c :: s) end
  end.

(** A [memcpy] into the memory of the program. *)
Fixpoint put_bytes (m : memory) (p : Z) (l : list Z) : memory := match l with [] => m | c :: l => put_bytes (<[p := c]> m) (p + 1) l end.

Definition get_absolute_path (cwd path : list Z) : list Z := if nthZ path 0 =? SLASH then path else cwd ++ SLASH :: path.

(** [for(fd_t i = 0; i < MAX_FDS; i++)]. *)
Fixpoint find_none (l : list file_desc) (i : Z) : option Z := match l with [] => None | f :: l => if is_none f then Some i else find_none l (i + 1) end.
Definition find_available_fd (p : uproc) : option Z := find_none (fds p) 0.

Definition set_fd (p : uproc) (fd : Z) (f : file_desc) : uproc := set_fds p (<[Z.to_nat fd := f]> (fds p)).

Section Calls.
Context {V : Type} `{OpenFiles V} `{FileIO V}.
Variable (DSZ : Z).   (* sizeof(struct dirent) *)

(** The process that calls, the open files and the memory of the program. *)
Record kstate := K { k_proc : uproc; k_files : V; k_mem : memory }.
Definition set_proc (k : kstate) (p : uproc) : kstate := K p (k_files k) (k_mem k).
Definition set_files (k : kstate) (v : V) : kstate := K (k_proc k) v (k_mem k).

Definition dup_fd (f : file_desc) (v : V) : res (V * file_desc) :=
  match f with
  | FD_FILE (Some h) => '(v, r) ← of_dup h v; Ok (v, FD_FILE r)
  | FD_FILE None => Err (Fault "vfs_handle_dup(NULL)")
  | FD_DIR d boff => Ok (v, FD_DIR d boff)
  | FD_NONE => Ok (v, FD_NONE)
  end.

(** The null handle of a descriptor that is not used counts as an error too; what such a descriptor
    holds is not modelled, and nobody closes one. *)
Definition close_fd (f : file_desc) (v : V) : res (V * file_desc) :=
  match f with
  | FD_FILE (Some h) => v ← of_close h v; Ok (v, FD_NONE)
  | FD_FILE None => Ok (v, f)
  | FD_DIR _ _ => Ok (v, FD_NONE)
  | FD_NONE => Err (Panic "0")
  end.

Definition atomic_close_fd (k : kstate) (i : Z) : res (kstate * Z) :=
  assert_ (i <? MAX_FDS) "i < MAX_FDS" ;;
  f ← ld (fds (k_proc k)) i;
  let k := set_proc k (set_fd (k_proc k) i FD_NONE) in
  match f with
  | FD_FILE (Some h) => v ← of_close h (k_files k); Ok (set_files k v, 0)
  | FD_FILE None => Err (Fault "vfs_close_file(NULL)")
  | FD_DIR _ _ => Ok (k, 0)
  | FD_NONE => Ok (k, FAIL)
  end.

Definition sc_open (path path_len flags : Z) (k : kstate) : res (kstate * Z) :=
  let p := k_proc k in
  if check_args p path path_len then Ok (k, FAIL)
  else
    s ← string_at (k_mem k) path;
    let s := get_absolute_path (cwd p) s in
    if MAX_PATH <? zlen s then Ok (k, FAIL)
    else
      match find_available_fd p with
      | None => Ok (k, FAIL)
      | Some fd =>
          if has_flag flags O_DIRECTORY then
            if has_flag flags O_WRONLY || has_flag flags O_TRUNC || has_flag flags O_APPEND || has_flag flags O_CREAT then Ok (k, FAIL)
            else
              '(v, d) ← io_opendir s (k_files k);
              let k := set_files k v in
              match d with
              | Some d => Ok (set_proc k (set_fd p fd (FD_DIR d 0)), fd)
              | None => Ok (k, FAIL)
              end
          else
            '(v, h) ← of_open_file s flags (k_files k);
            match h with
            | None => Ok (set_files k v, FAIL)
            | Some h =>
                v ← (if has_flag flags O_TRUNC then '(v, _) ← io_truncate h 0 v; io_rewind h v else Ok v);
                Ok (set_proc (set_files k v) (set_fd p fd (FD_FILE (Some h))), fd)
            end
      end.

(** [return res = 0 ? 0 : -1]: an assignment. *)
Definition sc_truncate (fd size : Z) (k : kstate) : res (kstate * Z) :=
  if MAX_FDS <=? fd then Ok (k, FAIL)
  else
    f ← ld (fds (k_proc k)) fd;
    match f with
    | FD_FILE (Some h) => '(v, _) ← io_truncate h size (k_files k); Ok (set_files k v, FAIL)
    | FD_FILE None => Err (Fault "vfs_truncate_file(NULL)")
    | _ => Ok (k, FAIL)
    end.

Definition sc_close (fd : Z) (k : kstate) : res (kstate * Z) := if MAX_FDS <=? fd then Ok (k, FAIL) else atomic_close_fd k fd.

(** [dir_boff] is unsigned. *)
Definition seek_dir (d : DIR) (boff offset whence : Z) : Z * Z :=
  let r := if whence =? SEEK_SET then Some (u64 offset) else if whence =? SEEK_CUR then Some (u64 (boff + offset))
    else if whence =? SEEK_END then Some (u64 (offset + dir_len d * DSZ)) else None in
  match r with Some b => (b, b) | None => (boff, FAIL) end.
Definition sc_seek (fd offset whence : Z) (k : kstate) : res (kstate * Z) :=
  if MAX_FDS <=? fd then Ok (k, FAIL)
  else
    f ← ld (fds (k_proc k)) fd;
    match f with
    | FD_NONE => Ok (k, FAIL)
    | FD_FILE (Some h) => '(v, r) ← io_seek h offset whence (k_files k); Ok (set_files k v, r)
    | FD_FILE None => Err (Fault "vfs_seek_file(NULL)")
    | FD_DIR d boff => let '(boff, r) := seek_dir d boff offset whence in Ok (set_proc k (set_fd (k_proc k) fd (FD_DIR d boff)), r)
    end.

Definition sc_access (path path_len type : Z) (k : kstate) : res (kstate * Z) :=
  if check_args (k_proc k) path path_len then Ok (k, FAIL)
  else
    s ← string_at (k_mem k) path;
    let s := get_absolute_path (cwd (k_proc k)) s in
    if MAX_PATH <? zlen s then Ok (k, FAIL)
    else
      '(v, r) ← io_stat s (k_files k);
      Ok (set_files k v,
          match r with
          | None => FAIL
          | Some d =>
              if has_flag type (Z.lor W_OK (Z.lor R_OK X_OK)) && (dirent_type d =? DT_DIR) then FAIL
              else if has_flag type W_OK && negb (right_write d) then FAIL
              else if has_flag type R_OK && negb (right_read d) then FAIL
              else if has_flag type X_OK && negb (right_exec d) then FAIL
              else 0
          end).

(** The bytes that are copied begin at the entry with the number [dir_boff]: the pointer is one to
    entries. *)
Definition sc_read_dir (d : DIR) (boff buf_sz : Z) : res (list Z * Z) :=
  if dir_len d * DSZ <=? boff then Ok ([], boff)
  else
    let n := Z.min (dir_len d * DSZ - boff) buf_sz in
    data ← rd_bytes (dir_img d) (boff * DSZ) n;
    Ok (data, u64 (boff + n)).

Definition sc_read (fd buf count : Z) (k : kstate) : res (kstate * Z) :=
  if MAX_FDS <=? fd then Ok (k, FAIL)
  else
    f ← ld (fds (k_proc k)) fd;
    if is_none f then Ok (k, FAIL)
    else if check_args (k_proc k) buf count then Ok (k, FAIL)
    else
      match f with
      | FD_FILE (Some h) => '(v, data, r) ← io_read count h (k_files k); Ok (K (k_proc k) v (put_bytes (k_mem k) buf data), r)
      | FD_DIR d boff =>
          '(data, boff) ← sc_read_dir d boff count;
          Ok (K (set_fd (k_proc k) fd (FD_DIR d boff)) (k_files k) (put_bytes (k_mem k) buf data), zlen data)
      | _ => Err (Fault "vfs_read_file(NULL)")
      end.

Definition sc_write (fd buf count : Z) (k : kstate) : res (kstate * Z) :=
  if MAX_FDS <=? fd then Ok (k, FAIL)
  else
    f ← ld (fds (k_proc k)) fd;
    if is_none f then Ok (k, FAIL)
    else if check_args (k_proc k) buf count then Ok (k, FAIL)
    else
      match f with
      | FD_FILE (Some h) => data ← user_bytes (Z.to_nat count) (k_mem k) buf; '(v, r) ← io_write data h (k_files k); Ok (set_files k v, r)
      | FD_FILE None => Err (Fault "vfs_write_file(NULL)")
      | _ => Ok (k, FAIL)
      end.

(** The working directory becomes what [simplify_path] writes. *)
Definition sc_chdir (path path_len : Z) (k : kstate) : res (kstate * Z) :=
  if check_args (k_proc k) path path_len then Ok (k, FAIL)
  else
    match k_mem k !! (path + path_len - 1) with
    | None => Err (Fault "page fault")
    | Some c =>
        if negb (c =? 0) then Ok (k, FAIL)
        else if MAX_PATH <? path_len then Ok (k, FAIL)
        else
          s ← string_at (k_mem k) path;
          let s := get_absolute_path (cwd (k_proc k)) s in
          if MAX_PATH <? zlen s then Ok (k, FAIL)
          else
            '(v, r) ← io_stat s (k_files k);
            let k := set_files k v in
            match r with
            | Some d => if dirent_type d =? DT_DIR then Ok (set_proc k (set_cwd (k_proc k) (simplify s)), 0) else Ok (k, FAIL)
            | None => Ok (k, FAIL)
            end
    end.

Definition sc_getcwd (buf buf_sz : Z) (k : kstate) : res (kstate * Z) :=
  let c := cwd (k_proc k) in
  if (buf_sz =? 0) && (buf =? 0) then Ok (k, zlen c + 1)
  else if check_args (k_proc k) buf buf_sz then Ok (k, FAIL)
  else if buf_sz <? zlen c + 1 then Ok (k, 0)
  else Ok (K (k_proc k) (k_files k) (put_bytes (k_mem k) buf (c ++ [0])), buf).

(** [fd2] is [(fd_t)-1] for a plain [dup]. *)
Definition sc_dup (fd fd2 : Z) (k : kstate) : res (kstate * Z) :=
  if MAX_FDS <=? fd then Ok (k, FAIL)
  else
    f ← ld (fds (k_proc k)) fd;
    if is_none f then Ok (k, FAIL)
    else
      '(k, fd2) ←
        (if negb (fd2 =? 2 ^ 32 - 1) then
           if MAX_FDS <=? fd2 then Ok (k, None)
           else
             f2 ← ld (fds (k_proc k)) fd2;
             if is_none f2 then Ok (k, Some fd2)
             else '(v, f2) ← close_fd f2 (k_files k); Ok (set_proc (set_files k v) (set_fd (k_proc k) fd2 f2), Some fd2)
         else Ok (k, find_available_fd (k_proc k)));
      match fd2 with
      | None => Ok (k, FAIL)
      | Some fd2 =>
          f ← ld (fds (k_proc k)) fd;
          '(v, f2) ← dup_fd f (k_files k);
          Ok (set_proc (set_files k v) (set_fd (k_proc k) fd2 f2), fd2)
      end.

Definition sc_pipe (k : kstate) : res (kstate * Z) :=
  '(v, (out, in_)) ← of_pipe (k_files k);
  let k := set_files k v in
  match find_available_fd (k_proc k) with
  | None => v ← of_close in_ (k_files k); v ← of_close out v; Ok (set_files k v, FAIL)
  | Some fd1 =>
      let k := set_proc k (set_fd (k_proc k) fd1 (FD_FILE (Some out))) in
      match find_available_fd (k_proc k) with
      | None => v ← of_close in_ (k_files k); v ← of_close out v; Ok (set_files k v, FAIL)
      | Some fd2 => Ok (set_proc k (set_fd (k_proc k) fd2 (FD_FILE (Some in_))), Z.lor (Z.shiftl fd2 32) fd1)
      end
  end.

(** ** Processes *)

(** The descriptors of a new process, in [create_process]; [done] are those that it has already. *)
Fixpoint inherit_fds (parent : list file_desc) (fd_mask : Z) (done : list file_desc) (v : V) : res (V * list file_desc) :=
  match parent with
  | [] => Ok (v, done)
  | f :: parent =>
      '(v, f) ← (if Z.land fd_mask 1 =? 0 then dup_fd f v else Ok (v, FD_NONE));
      inherit_fds parent (Z.shiftr fd_mask 1) (done ++ [f]) v
  end.

(** The descriptors of a process that ends, in [free_process]. *)
Fixpoint close_fds (l : list file_desc) (v : V) : res V :=
  match l with
  | [] => Ok v
  | f :: l => v ← (if is_none f then Ok v else '(v, _) ← close_fd f v; Ok v); close_fds l v
  end.
End Calls.
Arguments kstate V : clear implicits.
