(* ===== verification/SyscallsTheorems.v ===== *)
(** * Descriptors own their handles

    Whatever calls the processes make, in whatever order, every open descriptor has a handle of its
    own, and every open handle has a descriptor. *)

From S2P Require Import Prelude Bytes FileSystems CStringProofs VfsFiles VfsDirs Syscalls.


(** What a call that returned has done: the cases of its code, with the states put in. *)
Ltac follow E :=
  repeat (cbn [mbind res_bind assert_] in E;
    match type of E with
    | mbind _ ?m = Ok _ => destruct m eqn:?; [|discriminate E]
    | match ?x with _ => _ end = Ok _ => destruct x eqn:?; try discriminate E
    end);
  try (injection E; intros; subst; try reflexivity).

(** ** Ledgers *)

(** [O] says which handle each slot holds, [L] are the open handles, [X] those of the kernel. *)
Record ledger {A : Type} (X : gset Z) (O : A -> option Z) (L : gset Z) : Prop := {
  lg_live : forall h, h ∈ L <-> h ∈ X \/ exists k, O k = Some h;
  lg_others : forall k h, O k = Some h -> h ∉ X;
  lg_inj : forall k k' h, O k = Some h -> O k' = Some h -> k = k' }.

Section Ledger.
Context {A : Type} `{EqDecision A}.
Implicit Types (O : A -> option Z) (L X : gset Z).

Lemma ledger_ext X O O' L : (forall k, O' k = O k) -> ledger X O L -> ledger X O' L.
Proof.
  intros E [H1 H2 H3]. split.
  - intros h. rewrite H1. setoid_rewrite E. done.
  - intros k h. rewrite E. apply H2.
  - intros k k' h. rewrite !E. apply H3.
Qed.

Lemma ledger_acquire X O L k q : ledger X O L -> O k = None -> q ∉ L -> ledger X (fun x => if decide (x = k) then Some q else O x) ({[q]} ∪ L).
Proof.
  intros [H1 H2 H3] Hk Hq. assert (q ∉ X /\ forall x, O x <> Some q) as [HqX HqO].
  { split; [intros ?; apply Hq, H1; by left|intros x Hx; apply Hq, H1; right; by exists x]. }
  split.
  - intros h. rewrite elem_of_union, elem_of_singleton, H1. split.
    + intros [->|[?|[x Hx]]]; [right; exists k; by rewrite decide_True|by left|]. right. exists x. rewrite decide_False; [done|]. intros ->. congruence.
    + intros [?|[x Hx]]; [by right; left|]. case_decide; [left; congruence|right; right; by exists x].
  - intros x h. case_decide; [intros [= <-]; done|apply H2].
  - intros x y h. repeat case_decide; subst; try done; [intros [= <-] ?; by destruct (HqO y)|intros ? [= <-]; by destruct (HqO x)|apply H3].
Qed.

Lemma ledger_release X O L k q : ledger X O L -> O k = Some q -> ledger X (fun x => if decide (x = k) then None else O x) (L ∖ {[q]}).
Proof.
  intros [H1 H2 H3] Hk. split.
  - intros h. rewrite elem_of_difference, not_elem_of_singleton, H1. split.
    + intros [[?|[x Hx]] Hne]; [by left|]. right. exists x. rewrite decide_False; [done|]. intros ->. congruence.
    + intros [Hx|[x Hx]]; [split; [by left|intros ->; by apply (H2 k q)]|]. case_decide; [done|]. split; [right; by exists x|]. intros ->. by destruct (H3 k x q Hk Hx).
  - intros x h. case_decide; [done|apply H2].
  - intros x y h. repeat case_decide; try done. apply H3.
Qed.
End Ledger.

(** ** Slots *)

Definition handle_of (f : file_desc) : option Z := match f with FD_FILE h => h | _ => None end.
Definition slot := (Z * nat)%type.
Definition owner (procs : gmap Z uproc) (k : slot) : option Z := p ← procs !! k.1; f ← fds p !! k.2; handle_of f.

Lemma owner_insert procs pid p k : owner (<[pid := p]> procs) k = if decide (k.1 = pid) then (f ← fds p !! k.2; handle_of f) else owner procs k.
Proof. unfold owner. case_decide as E; [subst; by rewrite lookup_insert_eq|by rewrite lookup_insert_ne]. Qed.

Lemma owner_set_fd procs pid p fd f k : 0 <= fd < zlen (fds p) -> owner (<[pid := set_fd p fd f]> procs) k = if decide (k = (pid, Z.to_nat fd)) then handle_of f else owner (<[pid := p]> procs) k.
Proof.
  intros Hfd. rewrite !owner_insert. destruct k as [x i]. cbn [fst snd]. unfold set_fd, set_fds. cbn [fds]. destruct (decide (x = pid)) as [->|E].
  - destruct (decide ((pid, i) = (pid, Z.to_nat fd))) as [[= ->]|E]; [rewrite list_lookup_insert_eq by (unfold zlen in Hfd; lia); by rewrite decide_True|]. rewrite decide_False by done. rewrite list_lookup_insert_ne by congruence. done.
  - rewrite decide_False by congruence. done.
Qed.

Lemma owner_at procs pid p fd f : fds p !! Z.to_nat fd = Some f -> owner (<[pid := p]> procs) (pid, Z.to_nat fd) = handle_of f.
Proof. intros Hf. rewrite owner_insert. cbn [fst snd]. rewrite decide_True by done. by rewrite Hf. Qed.

Lemma find_none_ok l : forall i r, find_none l i = Some r -> i <= r < i + zlen l /\ l !! Z.to_nat (r - i) = Some FD_NONE.
Proof.
  induction l as [|f l IH]; intros i r Hr; [done|]. cbn [find_none] in Hr. unfold zlen in *. cbn [length]. destruct f; cbn [is_none] in Hr.
  1: { injection Hr as <-. replace (i - i) with 0 by lia. split; [lia|done]. }
  all: destruct (IH _ _ Hr) as [H1 H2]; split; [lia|]; replace (Z.to_nat (r - i)) with (S (Z.to_nat (r - (i + 1)))) by lia; done.
Qed.

Lemma ld_some {A} (l : list A) i x : ld l i = Ok x -> 0 <= i < zlen l /\ l !! Z.to_nat i = Some x.
Proof.
  unfold ld. destruct (Z.leb_spec 0 i); [|done]. destruct (l !! Z.to_nat i) as [y|] eqn:E; [|done]. intros [= ->]. apply lookup_lt_Some in E as E'. unfold zlen. split; [lia|done].
Qed.

Section System.
Context {V : Type} `{OpenFiles V}.

(** The processes and the open files; the handles [X] belong to the kernel. *)
Record desc_ok (X : gset Z) (procs : gmap Z uproc) (v : V) : Prop := {
  dk_ready : ready v;
  dk_len : forall pid p, procs !! pid = Some p -> zlen (fds p) = MAX_FDS;
  dk_ledger : ledger X (owner procs) (live v) }.

Section Call.
Variables (X : gset Z) (procs : gmap Z uproc) (pid : Z).
Definition good (k : kstate V) : Prop := desc_ok X (<[pid := k_proc k]> procs) (k_files k).

Lemma good_len k : good k -> zlen (fds (k_proc k)) = MAX_FDS.
Proof. intros Hk. apply (dk_len _ _ _ Hk pid). apply lookup_insert_eq. Qed.

Lemma good_files k v : good k -> ready v -> live v = live (k_files k) -> good (set_files k v).
Proof. intros [H1 H2 H3] Hr Hl. split; [done|done|]. cbn. by rewrite Hl. Qed.

(** Memory and working directory do not matter. *)
Lemma good_same k k' : good k -> fds (k_proc k') = fds (k_proc k) -> k_files k' = k_files k -> good k'.
Proof.
  intros [H1 H2 H3] Ef Ev. split; [by rewrite Ev| |].
  - intros q p Hq. apply lookup_insert_Some in Hq as [[<- <-]|[Hne Hq]]; [rewrite Ef; apply (H2 pid); apply lookup_insert_eq|]. apply (H2 q). by rewrite lookup_insert_ne.
  - rewrite Ev. eapply ledger_ext, H3. intros x. by rewrite !owner_insert, Ef.
Qed.

Definition sized (k : kstate V) : Prop := forall q p, <[pid := k_proc k]> procs !! q = Some p -> zlen (fds p) = MAX_FDS.

Lemma sized_set k fd f v : sized k -> sized (set_proc (set_files k v) (set_fd (k_proc k) fd f)).
Proof.
  intros H2 q p Hq. cbn [k_proc set_proc set_files] in Hq. apply lookup_insert_Some in Hq as [[<- <-]|[Hne Hq]].
  - cbn. unfold zlen. rewrite length_insert. apply (H2 pid). apply lookup_insert_eq.
  - apply (H2 q). by rewrite lookup_insert_ne.
Qed.

Lemma good_slot k fd f v : sized k -> 0 <= fd < zlen (fds (k_proc k)) -> ready v ->
  ledger X (fun x => if decide (x = (pid, Z.to_nat fd)) then handle_of f else owner (<[pid := k_proc k]> procs) x) (live v) ->
  good (set_proc (set_files k v) (set_fd (k_proc k) fd f)).
Proof.
  intros H2 Hfd Hr Hl. split; [done|by apply sized_set|]. cbn [k_proc k_files set_proc set_files]. eapply ledger_ext, Hl. intros x. by apply owner_set_fd.
Qed.

(** A slot without a handle gets a new one, or something else without a handle. *)
Lemma good_acquire k fd f v q : good k -> fds (k_proc k) !! Z.to_nat fd = Some f -> 0 <= fd -> handle_of f = None -> ready v -> q ∉ live (k_files k) -> live v = {[q]} ∪ live (k_files k) ->
  good (set_proc (set_files k v) (set_fd (k_proc k) fd (FD_FILE (Some q)))).
Proof.
  intros Hk Hf H0 Hh Hr Hq Hl. apply lookup_lt_Some in Hf as Hlt. apply good_slot; [exact (dk_len _ _ _ Hk)|unfold zlen; lia|done|]. rewrite Hl. cbn [handle_of]. apply ledger_acquire; [apply Hk|by rewrite (owner_at _ _ _ _ f)|done].
Qed.

Lemma good_assign k fd f g v : good k -> fds (k_proc k) !! Z.to_nat fd = Some f -> 0 <= fd -> handle_of f = None -> handle_of g = None -> ready v -> live v = live (k_files k) ->
  good (set_proc (set_files k v) (set_fd (k_proc k) fd g)).
Proof.
  intros Hk Hf H0 Hh Hg Hr Hl. apply lookup_lt_Some in Hf as Hlt. apply good_slot; [exact (dk_len _ _ _ Hk)|unfold zlen; lia|done|]. rewrite Hl, Hg. eapply ledger_ext, Hk. intros x. cbn. case_decide as E; [|done]. subst x. by rewrite (owner_at _ _ _ _ f).
Qed.

Lemma good_release k fd q g v : good k -> fds (k_proc k) !! Z.to_nat fd = Some (FD_FILE (Some q)) -> 0 <= fd -> handle_of g = None -> ready v -> live v = live (k_files k) ∖ {[q]} ->
  good (set_proc (set_files k v) (set_fd (k_proc k) fd g)).
Proof.
  intros Hk Hf H0 Hg Hr Hl. apply lookup_lt_Some in Hf as Hlt. apply good_slot; [exact (dk_len _ _ _ Hk)|unfold zlen; lia|done|]. rewrite Hl, Hg. apply ledger_release; [apply Hk|by rewrite (owner_at _ _ _ _ _ Hf)].
Qed.

Lemma good_live k fd q : good k -> fds (k_proc k) !! Z.to_nat fd = Some (FD_FILE (Some q)) -> q ∈ live (k_files k).
Proof. intros Hk Hf. apply (lg_live _ _ _ (dk_ledger _ _ _ Hk)). right. exists (pid, Z.to_nat fd). by rewrite (owner_at _ _ _ _ _ Hf). Qed.

Lemma free_slot_fd k fd : good k -> find_available_fd (k_proc k) = Some fd -> 0 <= fd < MAX_FDS /\ fds (k_proc k) !! Z.to_nat fd = Some FD_NONE.
Proof. intros Hk Hf. apply find_none_ok in Hf as [H1 H2]. rewrite (good_len k Hk) in H1. replace (fd - 0) with fd in H2 by lia. split; [lia|done]. Qed.

(** ** The calls *)

Context `{FileIO V}.

(** Moving data and walking directories opens and closes nothing. *)
Definition quietly (v v' : V) : Prop := ready v -> ready v' /\ live v' = live v /\ ids_left v <= ids_left v'.
Record quiet_io : Prop := {
  qi_read : forall n h v v' d r, io_read n h v = Ok (v', d, r) -> quietly v v';
  qi_write : forall d h v v' r, io_write d h v = Ok (v', r) -> quietly v v';
  qi_seek : forall h o w v v' r, io_seek h o w v = Ok (v', r) -> quietly v v';
  qi_truncate : forall h n v v' r, io_truncate h n v = Ok (v', r) -> quietly v v';
  qi_rewind : forall h v v', io_rewind h v = Ok v' -> quietly v v';
  qi_opendir : forall s v v' r, io_opendir s v = Ok (v', r) -> quietly v v';
  qi_stat : forall s v v' r, io_stat s v = Ok (v', r) -> quietly v v' }.
Hypothesis Q : quiet_io.
Variable DSZ : Z.
Implicit Types k : kstate V.

Lemma good_quiet k v : good k -> quietly (k_files k) v -> good (set_files k v).
Proof. intros Hk Hq. destruct (Hq (dk_ready _ _ _ Hk)) as (? & ? & _). by apply good_files. Qed.

Lemma set_files_id k : set_files k (k_files k) = k.
Proof. by destruct k. Qed.

(** The ready state and the handles behind a quiet call. *)
Lemma good_assign_dir k fd f g : good k -> ld (fds (k_proc k)) fd = Ok f -> handle_of f = None -> handle_of g = None -> good (set_proc k (set_fd (k_proc k) fd g)).
Proof.
  intros Hk Hf Ef Eg. apply ld_some in Hf as [Hr Hf]. rewrite <- (set_files_id k) at 1. apply (good_assign k fd f g); [done|done|lia|done|done|apply Hk|done].
Qed.

Lemma close_good k fd k' r : good k -> sc_close fd k = Ok (k', r) -> good k'.
Proof.
  intros Hk E. unfold sc_close in E. destruct (MAX_FDS <=? fd); [by injection E as <- _|]. unfold atomic_close_fd, assert_ in E. destruct (fd <? MAX_FDS); [|done]. cbn [mbind res_bind] in E.
  destruct (ld (fds (k_proc k)) fd) as [f|] eqn:Ef; [|done]. cbn [mbind res_bind] in E. apply ld_some in Ef as Ef'. destruct Ef' as [Hr Hf]. destruct f as [|[h|]|d boff].
  - injection E as <- _. by eapply good_assign_dir.
  - destruct (of_close_ok h (k_files k)) as (v & Ec & Hrd & _ & Hl); [apply Hk|by eapply good_live|]. change (k_files (set_proc _ _)) with (k_files k) in E. rewrite Ec in E. cbn [mbind res_bind] in E. injection E as <- _.
    apply (good_release k fd h FD_NONE v); [done|done|lia|done|done|done].
  - done.
  - injection E as <- _. by eapply good_assign_dir.
Qed.

Lemma dup_fd_good k fd f g v : good k -> 2 <= ids_left (k_files k) -> ld (fds (k_proc k)) fd = Ok f -> handle_of f = None -> 
  (exists i, fds (k_proc k) !! i = Some g) -> forall g', dup_fd g (k_files k) = Ok (v, g') -> good (set_proc (set_files k v) (set_fd (k_proc k) fd g')).
Proof.
  intros Hk Hleft Hf Ef [i Hi] g' E. apply ld_some in Hf as [Hr Hf]. destruct g as [|[h|]|d boff]; cbn [dup_fd] in E; try done.
  - injection E as <- <-. apply (good_assign k fd f); [done|done|lia|done|done|apply Hk|done].
  - destruct (of_dup_ok h (k_files k)) as (v1 & q & Ed & Hrd & _ & Hq); [apply Hk|done|by apply (good_live k (Z.of_nat i)); [|rewrite Nat2Z.id]|]. rewrite Ed in E. cbn [mbind res_bind] in E. injection E as <- <-. destruct q as [q|].
    + destruct Hq as [Hq Hl]. apply (good_acquire k fd f); [done|done|lia|done|done|done|done].
    + apply (good_assign k fd f); [done|done|lia|done|done|done|done].
  - injection E as <- <-. apply (good_assign k fd f); [done|done|lia|done|done|apply Hk|done].
Qed.

Lemma dup_good fd fd2 k k' r : good k -> 2 <= ids_left (k_files k) -> sc_dup fd fd2 k = Ok (k', r) -> good k'.
Proof.
  intros Hk Hleft E. unfold sc_dup in E. destruct (MAX_FDS <=? fd); [by injection E as <- _|]. destruct (ld (fds (k_proc k)) fd) as [f|] eqn:Ef; [|done]. cbn [mbind res_bind] in E. destruct (is_none f); [by injection E as <- _|].
  assert (forall k1 fd2 f2, good k1 -> 2 <= ids_left (k_files k1) -> ld (fds (k_proc k1)) fd2 = Ok f2 -> handle_of f2 = None ->
    (f ← ld (fds (k_proc k1)) fd; '(v, g) ← dup_fd f (k_files k1); Ok (set_proc (set_files k1 v) (set_fd (k_proc k1) fd2 g), fd2)) = Ok (k', r) -> good k') as Hend.
  { intros k1 x f2 Hk1 Hr1 Hf2 En E1. destruct (ld (fds (k_proc k1)) fd) as [g|] eqn:Eg; [|done]. cbn [mbind res_bind] in E1. destruct (dup_fd g (k_files k1)) as [[v g']|] eqn:Ed; [|done]. cbn [mbind res_bind] in E1. injection E1 as <- _.
    apply ld_some in Eg as [_ Eg]. eapply dup_fd_good; [done|done|exact Hf2|done|by eexists|done]. }
  destruct (negb (fd2 =? 2 ^ 32 - 1)).
  - destruct (Z.leb_spec MAX_FDS fd2); [by injection E as <- _|]. destruct (ld (fds (k_proc k)) fd2) as [f2|] eqn:Ef2; [|done]. cbn [mbind res_bind] in E. apply ld_some in Ef2 as Ef2'. destruct Ef2' as [Hr2 Hf2]. destruct f2 as [|[h|]|d boff]; cbn [is_none close_fd] in E.
    + cbn [mbind res_bind] in E. by eapply (Hend k fd2 FD_NONE).
    + destruct (of_close_ok h (k_files k)) as (v & Ec & Hrd & Hro & Hl); [apply Hk|by eapply good_live|]. rewrite Ec in E. cbn [mbind res_bind] in E. refine (Hend (set_proc (set_files k v) (set_fd (k_proc k) fd2 FD_NONE)) fd2 FD_NONE _ _ _ eq_refl E).
      * apply (good_release k fd2 h FD_NONE v); [done|done|lia|done|done|done].
      * cbn. lia.
      * cbn. unfold ld. rewrite (proj2 (Z.leb_le _ _)) by lia. rewrite list_lookup_insert_eq; [done|]. unfold zlen in Hr2. lia.
    + cbn [mbind res_bind] in E. refine (Hend (set_proc k (set_fd (k_proc k) fd2 (FD_FILE None))) fd2 (FD_FILE None) _ Hleft _ eq_refl E); [by apply (good_assign_dir k fd2 (FD_FILE None))|].
      cbn. unfold ld. rewrite (proj2 (Z.leb_le _ _)) by lia. rewrite list_lookup_insert_eq; [done|]. unfold zlen in Hr2. lia.
    + cbn [mbind res_bind] in E. refine (Hend (set_proc k (set_fd (k_proc k) fd2 FD_NONE)) fd2 FD_NONE _ Hleft _ eq_refl E); [by apply (good_assign_dir k fd2 (FD_DIR d boff))|].
      cbn. unfold ld. rewrite (proj2 (Z.leb_le _ _)) by lia. rewrite list_lookup_insert_eq; [done|]. unfold zlen in Hr2. lia.
  - cbn [mbind res_bind] in E. destruct (find_available_fd (k_proc k)) as [x|] eqn:Ex; [|by injection E as <- _]. destruct (free_slot_fd k x Hk Ex) as [Hx Hn]. eapply (Hend k x FD_NONE); [done|done| |done|exact E]. unfold ld. by rewrite (proj2 (Z.leb_le _ _)), Hn by lia.
Qed.

Lemma open_good path len flags k k' r : good k -> 2 <= ids_left (k_files k) -> sc_open path len flags k = Ok (k', r) -> good k'.
Proof.
  intros Hk Hleft E. unfold sc_open in E. destruct (check_args _ _ _); [by injection E as <- _|]. destruct (string_at _ _) as [s|]; [|done]. cbn [mbind res_bind] in E. destruct (MAX_PATH <? _); [by injection E as <- _|].
  destruct (find_available_fd (k_proc k)) as [fd|] eqn:Ex; [|by injection E as <- _]. destruct (free_slot_fd k fd Hk Ex) as [Hx Hn]. destruct (has_flag flags O_DIRECTORY).
  - destruct (_ || _); [by injection E as <- _|]. destruct (io_opendir _ _) as [[v d]|] eqn:Ed; [|done]. cbn [mbind res_bind] in E. pose proof (qi_opendir Q _ _ _ _ Ed (dk_ready _ _ _ Hk)) as (H1 & H2 & _). destruct d as [d|]; injection E as <- _; [|by apply good_files].
    apply (good_assign k fd FD_NONE (FD_DIR d 0) v); [done|done|lia|done|done|done|done].
  - destruct (of_open_file _ _ _) as [[v h]|] eqn:Eo; [|done]. cbn [mbind res_bind] in E. destruct (of_open_ok _ _ _ _ _ (dk_ready _ _ _ Hk) Hleft Eo) as (H1 & _ & H2). destruct h as [h|]; [|injection E as <- _; by apply good_files]. destruct H2 as [H2 H3].
    assert (forall v', quietly v v' -> good (set_proc (set_files k v') (set_fd (k_proc k) fd (FD_FILE (Some h))))) as Hend.
    { intros v' Hq. destruct (Hq H1) as (Q1 & Q2 & _). apply (good_acquire k fd FD_NONE); [done|done|lia|done|done|done|by rewrite Q2]. }
    destruct (has_flag flags O_TRUNC); [|cbn [mbind res_bind] in E; injection E as <- _; apply Hend; done].
    destruct (io_truncate h 0 v) as [[v1 x]|] eqn:Et; [|done]. cbn [mbind res_bind] in E. destruct (io_rewind h v1) as [v2|] eqn:Er; [|done]. cbn [mbind res_bind] in E. injection E as <- _. apply Hend. intros Hv. destruct (qi_truncate Q _ _ _ _ _ Et Hv) as (A1 & A2 & A3). destruct (qi_rewind Q _ _ _ Er A1) as (B1 & B2 & B3). split_and!; [done|congruence|lia].
Qed.

(** The number of descriptors that are free. *)
Definition n_free (l : list file_desc) : nat := length (filter (fun f => is_none f = true) l).

Lemma find_none_free l : forall i, find_none l i = None <-> n_free l = 0%nat.
Proof. unfold n_free. induction l as [|f l IH]; intros i; [done|]. cbn [find_none]. rewrite filter_cons. destruct f; cbn [is_none]; [rewrite decide_True by done; done|..]; rewrite decide_False by done; apply IH. Qed.

Lemma n_free_insert l i : l !! i = Some FD_NONE -> forall f, is_none f = false -> n_free l = S (n_free (<[i := f]> l)).
Proof.
  intros Hi f Hf. assert (i < length l)%nat as Hlt by (by eapply lookup_lt_Some). rewrite <- (take_drop_middle l i FD_NONE Hi) at 1. rewrite insert_take_drop by done. unfold n_free. rewrite !list.filter_app, !filter_cons. rewrite (decide_True (P := is_none FD_NONE = true)) by done. rewrite decide_False by (by rewrite Hf). rewrite !length_app. cbn [length]. lia.
Qed.

Lemma pipe_good k k' r : good k -> 3 <= ids_left (k_files k) -> n_free (fds (k_proc k)) <> 1%nat -> sc_pipe k = Ok (k', r) -> good k'.
Proof.
  intros Hk Hleft Hfree E. unfold sc_pipe in E. destruct (of_pipe (k_files k)) as [[v [o i]]|] eqn:Ep; [|done]. cbn [mbind res_bind] in E. destruct (of_pipe_ok _ _ _ _ (dk_ready _ _ _ Hk) Hleft Ep) as (H1 & _ & Ho & Hi & Hne & Hl). cbn [k_proc set_files] in E.
  destruct (find_available_fd (k_proc k)) as [fd1|] eqn:E1.
  - destruct (free_slot_fd k fd1 Hk E1) as [Hf1 Hn1]. set (k1 := set_proc (set_files k v) (set_fd (k_proc k) fd1 (FD_FILE (Some o)))) in *. destruct (find_available_fd (k_proc k1)) as [fd2|] eqn:E2.
    + injection E as <- _. assert (sized k1) as Hs1 by (apply sized_set; exact (dk_len _ _ _ Hk)). assert (zlen (fds (k_proc k1)) = MAX_FDS) as Hlen1 by (apply (Hs1 pid), lookup_insert_eq). apply find_none_ok in E2 as [Hf2 Hn2]. replace (fd2 - 0) with fd2 in Hn2 by lia. rewrite Hlen1 in Hf2.
      apply (good_slot k1 fd2 (FD_FILE (Some i)) v); [done|lia|done|]. replace (live v) with ({[i]} ∪ ({[o]} ∪ live (k_files k))) by set_solver. apply ledger_acquire; [|by rewrite (owner_at _ _ _ _ _ Hn2)|set_solver].
      eapply ledger_ext; [intros x; apply owner_set_fd; rewrite (good_len k Hk); lia|]. apply ledger_acquire; [apply Hk|by rewrite (owner_at _ _ _ _ _ Hn1)|done].
    + exfalso. apply find_none_free in E2. apply Hfree. rewrite (n_free_insert _ _ Hn1 (FD_FILE (Some o)) eq_refl). f_equal. exact E2.
  - destruct (of_close_ok i v) as (v1 & C1 & R1 & _ & L1); [done|set_solver|]. cbn [k_files set_files] in E. rewrite C1 in E. cbn [mbind res_bind] in E. destruct (of_close_ok o v1) as (v2 & C2 & R2 & _ & L2); [done|set_solver|]. rewrite C2 in E. cbn [mbind res_bind] in E. injection E as <- _.
    apply (good_files k v2); [done|done|]. rewrite L2, L1, Hl. apply leibniz_equiv. set_solver.
Qed.

(** What a process may call; the arguments are those of the call. *)
Inductive call :=
  | COpen (path path_len flags : Z) | CClose (fd : Z) | CTruncate (fd size : Z) | CSeek (fd offset whence : Z) | CAccess (path path_len type : Z)
  | CRead (fd buf count : Z) | CWrite (fd buf count : Z) | CChdir (path path_len : Z) | CGetcwd (buf buf_sz : Z) | CDup (fd fd2 : Z) | CPipe.
Definition run (c : call) (k : kstate V) : res (kstate V * Z) :=
  match c with
  | COpen a b c => sc_open a b c k | CClose a => sc_close a k | CTruncate a b => sc_truncate a b k | CSeek a b c => sc_seek DSZ a b c k
  | CAccess a b c => sc_access a b c k | CRead a b c => sc_read DSZ a b c k | CWrite a b c => sc_write a b c k
  | CChdir a b => sc_chdir a b k | CGetcwd a b => sc_getcwd a b k | CDup a b => sc_dup a b k | CPipe => sc_pipe k
  end.

(** Nobody makes a pipe with exactly one descriptor left. *)
Definition call_ok (c : call) k : Prop := match c with CPipe => n_free (fds (k_proc k)) <> 1%nat | _ => True end.

Ltac step_io E :=
  match type of E with (mbind _ ?m) = Ok _ => let Eio := fresh "Eio" in destruct m as [?|] eqn:Eio; [|done]; cbn [mbind res_bind] in E end.

Lemma run_good c k k' r : good k -> 3 <= ids_left (k_files k) -> call_ok c k -> run c k = Ok (k', r) -> good k'.
Proof.
  intros Hk Hleft Hc E. pose proof (dk_ready _ _ _ Hk) as Hr. destruct c; cbn [run call_ok] in *.
  - eapply open_good; [done|lia|done].
  - by eapply close_good.
  - unfold sc_truncate in E. destruct (MAX_FDS <=? fd); [by injection E as <- _|]. step_io E. destruct a as [|[h|]|d b]; try done; try (by injection E as <- _). destruct (io_truncate _ _ _) as [[v x]|] eqn:Et; [|done]. cbn [mbind res_bind] in E. injection E as <- _. apply good_quiet; [done|by eapply qi_truncate].
  - unfold sc_seek in E. destruct (MAX_FDS <=? fd); [by injection E as <- _|]. step_io E. destruct a as [|[h|]|d b]; try done; try (by injection E as <- _).
    + destruct (io_seek _ _ _ _) as [[v x]|] eqn:Et; [|done]. cbn [mbind res_bind] in E. injection E as <- _. apply good_quiet; [done|by eapply qi_seek].
    + destruct (seek_dir _ _ _ _ _) as [b' x]. injection E as <- _. by eapply good_assign_dir.
  - unfold sc_access in E. destruct (check_args _ _ _); [by injection E as <- _|]. step_io E. destruct (MAX_PATH <? _); [by injection E as <- _|]. destruct (io_stat _ _) as [[v x]|] eqn:Et; [|done]. cbn [mbind res_bind] in E. injection E as <- _. apply good_quiet; [done|by eapply qi_stat].
  - unfold sc_read in E. destruct (MAX_FDS <=? fd); [by injection E as <- _|]. step_io E. destruct (is_none a) eqn:En; [by injection E as <- _|]. destruct (check_args _ _ _); [by injection E as <- _|]. destruct a as [|[h|]|d b]; try done.
    + destruct (io_read _ _ _) as [[[v x] y]|] eqn:Et; [|done]. cbn [mbind res_bind] in E. injection E as <- _. eapply (good_same (set_files k v)); [apply good_quiet; [done|by eapply qi_read]|done|done].
    + destruct (sc_read_dir _ _ _ _) as [[x b']|] eqn:Et; [|done]. cbn [mbind res_bind] in E. injection E as <- _. eapply (good_same (set_proc k (set_fd (k_proc k) fd (FD_DIR d b')))); [by eapply good_assign_dir|done|done].
  - unfold sc_write in E. destruct (MAX_FDS <=? fd); [by injection E as <- _|]. step_io E. destruct (is_none a) eqn:En; [by injection E as <- _|]. destruct (check_args _ _ _); [by injection E as <- _|]. destruct a as [|[h|]|d b]; try done; try (by injection E as <- _).
    step_io E. destruct (io_write _ _ _) as [[v x]|] eqn:Et; [|done]. cbn [mbind res_bind] in E. injection E as <- _. apply good_quiet; [done|by eapply qi_write].
  - unfold sc_chdir in E. destruct (check_args _ _ _); [by injection E as <- _|]. destruct (k_mem k !! _) as [c|]; [|done]. destruct (negb _); [by injection E as <- _|]. destruct (MAX_PATH <? _); [by injection E as <- _|]. step_io E. destruct (MAX_PATH <? _); [by injection E as <- _|].
    destruct (io_stat _ _) as [[v x]|] eqn:Et; [|done]. cbn [mbind res_bind] in E. assert (good (set_files k v)) as Hg by (apply good_quiet; [done|by eapply qi_stat]). destruct x as [d|]; [|by injection E as <- _]. destruct (_ =? _); [|by injection E as <- _]. injection E as <- _. by eapply (good_same (set_files k v)).
  - unfold sc_getcwd in E. destruct (_ && _); [by injection E as <- _|]. destruct (check_args _ _ _); [by injection E as <- _|]. destruct (_ <? _); [by injection E as <- _|]. injection E as <- _. by eapply (good_same k).
  - eapply dup_good; [done|lia|done].
  - by eapply pipe_good.
Qed.
End Call.

(** ** Processes that begin and end *)

Lemma owner_snoc procs c p l f k : owner (<[c := set_fds p (l ++ [f])]> procs) k = if decide (k = (c, length l)) then handle_of f else owner (<[c := set_fds p l]> procs) k.
Proof.
  rewrite !owner_insert. destruct k as [x i]. cbn [fst snd set_fds fds]. destruct (decide (x = c)) as [->|E]; [|by rewrite decide_False by congruence]. destruct (decide ((c, i) = (c, length l))) as [[= ->]|E]; [rewrite lookup_app_r, Nat.sub_diag by lia; by rewrite decide_True|]. rewrite decide_False by done.
  destruct (decide (i < length l)%nat); [by rewrite lookup_app_l by done|]. rewrite !lookup_ge_None_2; [done|lia|]. rewrite length_app. cbn. assert (i <> length l) by congruence. lia.
Qed.

Lemma owner_end procs c p l : owner (<[c := set_fds p l]> procs) (c, length l) = None.
Proof. rewrite owner_insert. cbn. rewrite decide_True by done. by rewrite lookup_ge_None_2. Qed.

Lemma inherit_ok X procs c p parent : forall mask l v v' l', ready v -> Z.of_nat (length parent) + 2 <= ids_left v -> ledger X (owner (<[c := set_fds p l]> procs)) (live v) ->
  (forall f h, f ∈ parent -> handle_of f = Some h -> h ∈ live v) -> inherit_fds parent mask l v = Ok (v', l') ->
  ready v' /\ ledger X (owner (<[c := set_fds p l']> procs)) (live v') /\ length l' = (length l + length parent)%nat.
Proof.
  induction parent as [|f parent IH]; intros mask l v v' l' Hr Hleft HL Hp E; [injection E as <- <-; split_and!; [done|done|cbn; lia]|]. cbn [inherit_fds length] in *.
  assert (exists g v1, (if Z.land mask 1 =? 0 then dup_fd f v else Ok (v, FD_NONE)) = Ok (v1, g) /\ ready v1 /\ ids_left v - 1 <= ids_left v1 /\ live v ⊆ live v1 /\ ledger X (owner (<[c := set_fds p (l ++ [g])]> procs)) (live v1)) as (g & v1 & E1 & R1 & Ro1 & S1 & L1).
  { assert (forall g, handle_of g = None -> ledger X (owner (<[c := set_fds p (l ++ [g])]> procs)) (live v)) as Hnone.
    { intros g Hg. eapply ledger_ext, HL. intros k. rewrite owner_snoc. case_decide as Ek; [|done]. subst k. by rewrite Hg, owner_end. }
    destruct (Z.land mask 1 =? 0); [|exists FD_NONE, v; split_and!; [done|done|lia|done|by apply Hnone]].
    destruct f as [|[h|]|d b]; cbn [dup_fd] in *; [exists FD_NONE, v; split_and!; [done|done|lia|done|by apply Hnone]| |done|exists (FD_DIR d b), v; split_and!; [done|done|lia|done|by apply Hnone]].
    destruct (of_dup_ok h v) as (v1 & q & E1 & R1 & Ro1 & Hq); [done|lia|apply (Hp (FD_FILE (Some h))); [left|done]|]. rewrite E1. cbn [mbind res_bind]. exists (FD_FILE q), v1. destruct q as [q|].
    - destruct Hq as [Hq Hl]. split_and!; [done|done|lia|set_solver|]. rewrite Hl. eapply ledger_ext; [intros k; apply owner_snoc|]. cbn [handle_of]. apply ledger_acquire; [done|apply owner_end|done].
    - split_and!; [done|done|lia|by rewrite Hq|]. rewrite Hq. by apply Hnone. }
  rewrite E1 in E. cbn [mbind res_bind] in E. destruct (IH _ _ _ _ _ R1 ltac:(lia) L1 ltac:(set_solver) E) as (A & B & C). split_and!; [done|done|]. rewrite C, length_app. cbn. lia.
Qed.

Lemma close_fds_ok X procs pid p l : forall n v, ready v -> ledger X (owner (<[pid := set_fds p (replicate n FD_NONE ++ l)]> procs)) (live v) ->
  exists v', close_fds l v = Ok v' /\ ready v' /\ ids_left v <= ids_left v' /\ ledger X (owner (<[pid := set_fds p (replicate (n + length l) FD_NONE)]> procs)) (live v').
Proof.
  induction l as [|f l IH]; intros n v Hr HL; [exists v; rewrite app_nil_r in HL; cbn; rewrite Nat.add_0_r; split_and!; [done|done|lia|done]|]. cbn [close_fds length].
  assert (forall k, owner (<[pid := set_fds p (replicate (S n) FD_NONE ++ l)]> procs) k = if decide (k = (pid, n)) then None else owner (<[pid := set_fds p (replicate n FD_NONE ++ f :: l)]> procs) k) as Ho.
  { intros [x i]. rewrite !owner_insert. cbn [fst snd set_fds fds]. destruct (decide (x = pid)) as [->|E]; [|by rewrite (decide_False (P := (x, i) = (pid, n))) by congruence]. replace (replicate (S n) FD_NONE ++ l) with (<[n := FD_NONE]> (replicate n FD_NONE ++ f :: l)).
    - destruct (decide ((pid, i) = (pid, n))) as [[= ->]|E]; [rewrite list_lookup_insert_eq; [by rewrite decide_True|]; rewrite length_app, length_replicate; cbn; lia|]. rewrite (decide_False (P := (pid, i) = (pid, n))) by done. rewrite list_lookup_insert_ne by congruence. done.
    - rewrite insert_app_r_alt by (rewrite length_replicate; lia). rewrite length_replicate, Nat.sub_diag. cbn [insert list_insert]. rewrite replicate_S_end, <- app_assoc. done. }
  assert (owner (<[pid := set_fds p (replicate n FD_NONE ++ f :: l)]> procs) (pid, n) = handle_of f) as Hf.
  { rewrite owner_insert. cbn [fst snd set_fds fds]. rewrite decide_True by done. rewrite lookup_app_r, length_replicate, Nat.sub_diag by (rewrite length_replicate; lia). done. }
  assert (exists v1, (if is_none f then Ok v else '(v, _) ← close_fd f v; Ok v) = Ok v1 /\ ready v1 /\ ids_left v <= ids_left v1 /\ ledger X (owner (<[pid := set_fds p (replicate (S n) FD_NONE ++ l)]> procs)) (live v1)) as (v1 & E1 & R1 & Ro1 & L1).
  { assert (handle_of f = None -> ledger X (owner (<[pid := set_fds p (replicate (S n) FD_NONE ++ l)]> procs)) (live v)) as Hnone.
    { intros Eh. eapply ledger_ext, HL. intros k. rewrite Ho. case_decide as Ek; [|done]. subst k. by rewrite Hf, Eh. }
    destruct f as [|[h|]|d b]; cbn [is_none close_fd mbind res_bind]; [exists v; split_and!; [done|done|lia|by apply Hnone]| |exists v; split_and!; [done|done|lia|by apply Hnone]|exists v; split_and!; [done|done|lia|by apply Hnone]].
    destruct (of_close_ok h v) as (v1 & -> & R1 & Ro1 & Hl); [done|apply (lg_live _ _ _ HL); right; by exists (pid, n)|]. exists v1. cbn [mbind res_bind]. split_and!; [done|done|lia|]. rewrite Hl. eapply ledger_ext; [apply Ho|]. by apply ledger_release. }
  rewrite E1. cbn [mbind res_bind]. destruct (IH (S n) v1 R1 L1) as (v' & -> & R2 & Ro2 & L2). exists v'. replace (n + S (length l))%nat with (S n + length l)%nat by lia. split_and!; [done|done|lia|done].
Qed.

(** ** The system *)

Context `{FileIO V}.
Variable DSZ : Z.

Record system := Sys { procs : gmap Z uproc; files : V }.

(** A process makes a call, with the memory [m] that its program has; a process is created with the
    descriptors of its parent; a process ends. *)
Inductive sys_step (s : system) : system -> Prop :=
  | step_call pid p m c k r : procs s !! pid = Some p -> 3 <= ids_left (files s) -> call_ok c (K p (files s) m) -> run DSZ c (K p (files s) m) = Ok (k, r) ->
      sys_step s (Sys (<[pid := k_proc k]> (procs s)) (k_files k))
  | step_create pid p c mask child v l : procs s !! pid = Some p -> procs s !! c = None -> MAX_FDS + 2 <= ids_left (files s) -> inherit_fds (fds p) mask [] (files s) = Ok (v, l) ->
      sys_step s (Sys (<[c := set_fds child l]> (procs s)) v)
  | step_exit pid p v : procs s !! pid = Some p -> close_fds (fds p) (files s) = Ok v -> sys_step s (Sys (delete pid (procs s)) v).

Definition sys_ok (X : gset Z) (s : system) : Prop := desc_ok X (procs s) (files s).

Lemma sys_step_ok X s s' : quiet_io -> sys_ok X s -> sys_step s s' -> sys_ok X s'.
Proof.
  intros Q Hs Hst. unfold sys_ok in *. destruct Hst as [pid p m c k r Hp Hleft Hc E|pid p c mask child v l Hp Hc Hleft E|pid p v Hp E]; cbn [procs files].
  - refine (run_good X (procs s) pid Q DSZ c (K p (files s) m) k r _ Hleft Hc E). unfold good. cbn [k_proc k_files]. by rewrite insert_id.
  - pose proof (dk_len _ _ _ Hs pid p Hp) as Hlen. destruct (inherit_ok X (procs s) c child (fds p) mask [] (files s) v l) as (A & B & C).
    + apply Hs.
    + unfold zlen in Hlen. rewrite Hlen. lia.
    + eapply ledger_ext, Hs. intros [x i]. rewrite owner_insert. cbn [fst snd set_fds fds]. destruct (decide (x = c)) as [->|]; [|done]. unfold owner. cbn [fst snd]. by rewrite Hc.
    + intros f h [i Hi]%list_elem_of_lookup Hf. apply (lg_live _ _ _ (dk_ledger _ _ _ Hs)). right. exists (pid, i). unfold owner. cbn [fst snd]. rewrite Hp. cbn. by rewrite Hi.
    + done.
    + split; [done| |done]. intros q pq Hq. apply lookup_insert_Some in Hq as [[<- <-]|[Hne Hq]]; [|by apply (dk_len _ _ _ Hs q)]. cbn [set_fds fds]. unfold zlen in *. rewrite C. cbn. done.
  - destruct (close_fds_ok X (procs s) pid p (fds p) 0 (files s)) as (v' & E' & A & _ & B); [apply Hs| |].
    + eapply ledger_ext, Hs. intros k. cbn [replicate app]. f_equal. apply insert_id. rewrite Hp. by destruct p.
    + rewrite E' in E. injection E as ->. split; [done| |].
      * intros q pq Hq. apply lookup_delete_Some in Hq as [_ Hq]. by apply (dk_len _ _ _ Hs q).
      * eapply ledger_ext, B. intros [x i]. rewrite owner_insert. unfold owner. cbn [fst snd set_fds fds]. destruct (decide (x = pid)) as [->|E2]; [|by rewrite lookup_delete_ne]. rewrite lookup_delete_eq. cbn.
        destruct (replicate _ FD_NONE !! i) as [f|] eqn:Ei; [|done]. apply lookup_replicate in Ei as [-> _]. done.
Qed.

Lemma sys_run_ok X s s' : quiet_io -> sys_ok X s -> rtc sys_step s s' -> sys_ok X s'.
Proof. intros Q Hs Hr. induction Hr as [|s1 s2 s3 Hst Hr IH]; [done|]. by apply IH, sys_step_ok with s1. Qed.

(** Closing a descriptor closes its handle and nothing else. *)
Lemma close_owner X s pid p fd h m : sys_ok X s -> procs s !! pid = Some p -> fds p !! Z.to_nat fd = Some (FD_FILE (Some h)) -> 0 <= fd ->
  exists k, sc_close fd (K p (files s) m) = Ok (k, 0) /\ live (k_files k) = live (files s) ∖ {[h]} /\ fds (k_proc k) = <[Z.to_nat fd := FD_NONE]> (fds p).
Proof.
  intros Hs Hp Hf Hfd0. apply lookup_lt_Some in Hf as Hlt. pose proof (dk_len _ _ _ Hs pid p Hp) as Hlen. unfold zlen in Hlen. unfold sc_close, atomic_close_fd, assert_. rewrite (proj2 (Z.leb_gt _ _)), (proj2 (Z.ltb_lt _ _)) by lia. cbn [mbind res_bind k_proc].
  unfold ld. rewrite (proj2 (Z.leb_le _ _)), Hf by lia. cbn [mbind res_bind k_files set_proc]. destruct (of_close_ok h (files s)) as (v & -> & _ & _ & Hl); [apply Hs|apply (lg_live _ _ _ (dk_ledger _ _ _ Hs)); right; exists (pid, Z.to_nat fd); unfold owner; cbn [fst snd]; rewrite Hp; cbn; by rewrite Hf|].
  cbn [mbind res_bind]. eexists. split; [done|]. by split.
Qed.

(** Every open descriptor has an open handle that no other descriptor has, every open handle that is not
    one of the kernel has a descriptor, and closing a descriptor closes exactly its handle. *)
Lemma descriptors_own_handles X s0 s : quiet_io -> sys_ok X s0 -> rtc sys_step s0 s ->
  (forall pid p fd h, procs s !! pid = Some p -> 0 <= fd -> fds p !! Z.to_nat fd = Some (FD_FILE (Some h)) ->
    h ∈ live (files s) /\
    (forall pid' p' fd', procs s !! pid' = Some p' -> 0 <= fd' -> fds p' !! Z.to_nat fd' = Some (FD_FILE (Some h)) -> pid' = pid /\ fd' = fd) /\
    (forall m, exists k, sc_close fd (K p (files s) m) = Ok (k, 0) /\ live (k_files k) = live (files s) ∖ {[h]})) /\
  (forall h, h ∈ live (files s) -> h ∉ X -> exists pid p fd, procs s !! pid = Some p /\ 0 <= fd < MAX_FDS /\ fds p !! Z.to_nat fd = Some (FD_FILE (Some h))).
Proof.
  intros Q Hs0 Hr. pose proof (sys_run_ok X s0 s Q Hs0 Hr) as Hs. destruct (dk_ledger _ _ _ Hs) as [L1 L2 L3].
  assert (forall pid p fd h, procs s !! pid = Some p -> fds p !! Z.to_nat fd = Some (FD_FILE (Some h)) -> owner (procs s) (pid, Z.to_nat fd) = Some h) as Hown by (intros pid p fd h Hp Hf; unfold owner; cbn [fst snd]; rewrite Hp; cbn; by rewrite Hf).
  split.
  - intros pid p fd h Hp Hfd0 Hf. split_and!; [apply L1; right; eexists; by eapply Hown| |].
    + intros pid' p' fd' Hp' Hfd' Hf'. pose proof (L3 _ _ _ (Hown _ _ _ _ Hp' Hf') (Hown _ _ _ _ Hp Hf)) as [= -> E]. split; [done|lia].
    + intros m. destruct (close_owner X s pid p fd h m Hs Hp Hf Hfd0) as (k & ? & ? & _). by exists k.
  - intros h Hh Hx. apply L1 in Hh as [?|[[pid i] Hi]]; [done|]. unfold owner in Hi. cbn [fst snd] in Hi. destruct (procs s !! pid) as [p|] eqn:Hp; [|done]. cbn in Hi. destruct (fds p !! i) as [f|] eqn:Hf; [|done]. cbn in Hi. destruct f as [|[h'|]|]; try done. injection Hi as ->.
    exists pid, p, (Z.of_nat i). apply lookup_lt_Some in Hf as Hlt. pose proof (dk_len _ _ _ Hs pid p Hp) as Hlen. unfold zlen in Hlen. rewrite Nat2Z.id. split_and!; [done|lia|lia|done].
Qed.

(** A pipe for which a process has exactly one descriptor left: the call fails and closes both ends,
    but the descriptor keeps the closed one. *)
Theorem sc_pipe_last_descriptor X s pid p m v o i : sys_ok X s -> procs s !! pid = Some p -> 3 <= ids_left (files s) -> n_free (fds p) = 1%nat -> of_pipe (files s) = Ok (v, (o, i)) ->
  exists k fd, sc_pipe (K p (files s) m) = Ok (k, FAIL) /\ 0 <= fd < MAX_FDS /\ fds (k_proc k) !! Z.to_nat fd = Some (FD_FILE (Some o)) /\ o ∉ live (k_files k).
Proof.
  intros Hs Hp Hleft Hfree Ep. assert (good X (procs s) pid (K p (files s) m)) as Hk by (unfold good; cbn [k_proc k_files]; by rewrite insert_id). destruct (of_pipe_ok _ _ _ _ (dk_ready _ _ _ Hs) Hleft Ep) as (H1 & _ & Ho & Hi & Hne & Hl).
  unfold sc_pipe. cbn [k_files]. rewrite Ep. cbn [mbind res_bind k_proc set_files]. destruct (find_available_fd p) as [fd|] eqn:Ef; [|apply find_none_free in Ef; congruence]. destruct (free_slot_fd X (procs s) pid (K p (files s) m) fd Hk Ef) as [Hfd Hn]. cbn [k_proc] in Hn.
  change (k_proc (set_proc _ _)) with (set_fd p fd (FD_FILE (Some o))). assert (find_available_fd (set_fd p fd (FD_FILE (Some o))) = None) as ->.
  { apply find_none_free. cbn [set_fd set_fds fds]. rewrite (n_free_insert _ _ Hn (FD_FILE (Some o)) eq_refl) in Hfree. lia. }
  cbn [k_files set_proc set_files]. destruct (of_close_ok i v) as (v1 & -> & R1 & _ & L1); [done|set_solver|]. cbn [mbind res_bind]. destruct (of_close_ok o v1) as (v2 & -> & R2 & _ & L2); [done|set_solver|]. cbn [mbind res_bind].
  eexists _, fd. split; [done|]. split_and!; [lia|lia| |cbn; set_solver]. cbn. apply list_lookup_insert_eq. by eapply lookup_lt_Some.
Qed.

(** Duplicating a descriptor to itself closes the file: the descriptor is free afterwards, though the call
    returns it. *)
Theorem sc_dup_to_itself_closes X s pid p fd h m : sys_ok X s -> procs s !! pid = Some p -> 0 <= fd < MAX_FDS -> fds p !! Z.to_nat fd = Some (FD_FILE (Some h)) ->
  exists k, sc_dup fd fd (K p (files s) m) = Ok (k, fd) /\ live (k_files k) = live (files s) ∖ {[h]} /\ fds (k_proc k) !! Z.to_nat fd = Some FD_NONE.
Proof.
  intros Hs Hp Hr Hf. assert (Z.to_nat fd < length (fds p))%nat as Hlt by (by eapply lookup_lt_Some). assert (forall (l : list file_desc) f, l !! Z.to_nat fd = Some f -> ld l fd = Ok f) as Hld by (intros l f Hl; unfold ld; by rewrite (proj2 (Z.leb_le _ _)), Hl by lia).
  unfold sc_dup. rewrite (proj2 (Z.leb_gt _ _)) by lia. cbn [k_proc k_files]. rewrite (Hld _ _ Hf). unfold MAX_FDS in Hr. cbn [mbind res_bind is_none]. rewrite (proj2 (Z.eqb_neq fd _)) by lia. cbn [negb]. destruct (of_close_ok h (files s)) as (v & E & _ & _ & Hl); [apply Hs| |].
  { apply (lg_live _ _ _ (dk_ledger _ _ _ Hs)). right. exists (pid, Z.to_nat fd). unfold owner. cbn [fst snd]. rewrite Hp. cbn. by rewrite Hf. }
  cbn [close_fd]. rewrite E. cbn [mbind res_bind k_proc k_files set_proc set_files]. rewrite (Hld _ FD_NONE) by (cbn; by rewrite list_lookup_insert_eq). cbn [mbind res_bind dup_fd]. eexists. split; [reflexivity|]. split; [exact Hl|]. cbn. rewrite list_lookup_insert_eq; [done|by rewrite length_insert].
Qed.

(** Truncating never succeeds. *)
Lemma sc_truncate_fails fd size (k k' : kstate V) r : sc_truncate fd size k = Ok (k', r) -> r = FAIL.
Proof. unfold sc_truncate. intros E. follow E. Qed.

(** ** The memory of the program *)

(** The ranges of a process: its stacks, its heap and its segments. *)
Definition ranges (p : uproc) : list (Z * Z) := thread_stacks p ++ segs p ++ [(heap_begin p, brk p - heap_begin p)].

Lemma check_args_ranges p a n : 0 <= heap_begin p <= brk p -> brk p < 2 ^ 64 -> check_args p a n = false -> exists r, r ∈ ranges p /\ r.1 <= a /\ a + n <= u64 (r.1 + r.2).
Proof.
  intros Hh Hb E. unfold check_args, check_args_in_program in E. destruct (2 ^ 64 <=? a + n); [done|]. assert (forall l, existsb (in_range a (a + n)) l = true -> exists r, r ∈ l /\ r.1 <= a /\ a + n <= u64 (r.1 + r.2)) as Hex.
  { intros l Hl. apply existsb_exists in Hl as (r & Hr & Hin). exists r. unfold in_range in Hin. split; [by apply list_elem_of_In|lia]. }
  unfold ranges. destruct (existsb _ (thread_stacks p)) eqn:E1; [destruct (Hex _ E1) as (r & ? & ?); exists r; split; [set_solver|done]|]. destruct (_ && _) eqn:E2.
  - exists (heap_begin p, brk p - heap_begin p). cbn [fst snd]. split; [set_solver|]. rewrite u64_small by lia. lia.
  - apply negb_false_iff in E. destruct (Hex _ E) as (r & ? & ?). exists r. split; [set_solver|done].
Qed.

Lemma put_bytes_other l : forall m p a, ~ (p <= a < p + zlen l) -> put_bytes m p l !! a = m !! a.
Proof.
  induction l as [|c l IH]; intros m p a Ha; [done|]. cbn [put_bytes]. rewrite zlen_cons in Ha. assert (0 <= zlen l) by (unfold zlen; lia). rewrite IH by lia. apply lookup_insert_ne. lia.
Qed.

(** The calls that do not write to the program. *)
Definition keeps_memory (c : call) : bool := match c with CRead _ _ _ | CGetcwd _ _ => false | _ => true end.

Lemma run_keeps_memory c (k k' : kstate V) r : keeps_memory c = true -> run DSZ c k = Ok (k', r) -> k_mem k' = k_mem k.
Proof.
  intros Hc E. destruct c; try discriminate Hc; cbn [run] in E; unfold sc_open, sc_close, atomic_close_fd, sc_truncate, sc_seek, sc_access, sc_write, sc_chdir, sc_dup, sc_pipe, assert_ in E; follow E.
  all: cbn [k_mem set_proc set_files]; match goal with Hx : _ = Ok (?k, _) |- k_mem ?k = _ => follow Hx end.
Qed.

Lemma read_dir_len d boff n l b : 0 <= n -> sc_read_dir DSZ d boff n = Ok (l, b) -> zlen l <= n.
Proof.
  unfold sc_read_dir. intros Hn E. destruct (Z.leb_spec (dir_len d * DSZ) boff); [by injection E as <- _|]. unfold rd_bytes in E. destruct (_ && _) eqn:Eb; [|done]. cbn [mbind res_bind] in E. injection E as <- _. rewrite zlen_slice by lia. lia.
Qed.

(** C37: Whatever a process calls and whatever pointers it passes, a byte of memory that changes lies in one
    of its own ranges: a stack of its threads, its heap or a segment of its program. *)
Theorem run_memory_safe c (k k' : kstate V) r a : 0 <= heap_begin (k_proc k) <= brk (k_proc k) -> brk (k_proc k) < 2 ^ 64 -> 
  match c with CRead _ _ count => 0 <= count | _ => True end -> run DSZ c k = Ok (k', r) -> k_mem k' !! a <> k_mem k !! a ->
  exists x, x ∈ ranges (k_proc k) /\ x.1 <= a < u64 (x.1 + x.2).
Proof.
  intros Hh Hb Hc E Ha. destruct (keeps_memory c) eqn:Ek; [by rewrite (run_keeps_memory c k k' r Ek E) in Ha|].
  assert (forall p n data, check_args (k_proc k) p n = false -> zlen data <= n -> k_mem k' = put_bytes (k_mem k) p data -> exists x, x ∈ ranges (k_proc k) /\ x.1 <= a < u64 (x.1 + x.2)) as Hput.
  { intros p n data Hca Hn Em. destruct (decide (p <= a < p + zlen data)) as [Hin|Hout]; [|exfalso; apply Ha; rewrite Em; by apply put_bytes_other]. destruct (check_args_ranges _ _ _ Hh Hb Hca) as (x & Hx & H1 & H2). exists x. split; [done|lia]. }
  destruct c; try discriminate Ek; cbn [run] in E.
  - unfold sc_read in E. follow E; subst; try by destruct Ha.
    + eapply Hput; [done| |done]. by eapply io_read_len.
    + eapply Hput; [done| |done]. by eapply read_dir_len.
  - unfold sc_getcwd in E. follow E; subst; try by destruct Ha. eapply Hput; [done| |done]. rewrite zlen_app. unfold zlen in *. cbn. lia.
Qed.
End System.
