(* ===== verification/SyscallsVfs.v ===== *)
(** * The virtual file system behind the system calls

    Files by path, duplicates, closing, pipes and moving data, as the system calls use them, on the
    directories and the table of open files together: they implement [OpenFiles] and [FileIO], and they
    are quiet. *)

From S2P Require Import Prelude Bytes FileSystems CString Paths VfsFiles VfsRead VfsTable VfsTableTheorems VfsDirs Sprintf Syscalls SyscallsTheorems.


(** ** The directories keep the counts of open files *)

Section Dirs.
Context {S : Type} `{DirectoryFS S}.
Implicit Types d : vdirs S.

Notation dcounts d := (snd <$> mounted d).

Lemma put_mounted_counts fs s s' n d : mounted d !! fs = Some (s, n) -> dcounts (put_mounted fs s' n d) = dcounts d.
Proof. intros E. cbn. rewrite fmap_insert. apply insert_id. by rewrite lookup_fmap, E. Qed.

Lemma get_mounted_some fs d s n : get_mounted fs d = Ok (s, n) -> mounted d !! fs = Some (s, n).
Proof. unfold get_mounted. destruct (mounted d !! fs); [by intros [= ->]|done]. Qed.

Lemma add_cache_mounted p fs e d d' : add_cache_entry p fs e d = Ok d' -> mounted d' = mounted d.
Proof. unfold add_cache_entry. intros E. follow E. Qed.

Lemma cache_entries_mounted fs dir l : forall d d', cache_entries fs dir l d = Ok d' -> mounted d' = mounted d.
Proof.
  induction l as [|e l IH]; intros d d' E; cbn [cache_entries] in E; [by injection E as <-|]. unfold assert_ in E. destruct (_ <? _); [|done]. cbn [mbind res_bind] in E.
  destruct (add_cache_entry _ _ _ _) as [d1|] eqn:E1; [|done]. cbn [mbind res_bind] in E. rewrite (IH _ _ E). by eapply add_cache_mounted.
Qed.

Lemma read_dir_counts fs i dir d d' l : read_dir fs i dir d = Ok (d', l) -> dcounts d' = dcounts d.
Proof.
  unfold read_dir, assert_. intros E. destruct (negb _); [|done]. cbn [mbind res_bind] in E. destruct (get_mounted fs d) as [[s n]|] eqn:Em; [|done]. cbn [mbind res_bind] in E. destruct (fs_read_dir i s) as [[s' ents]|]; [|done]. cbn [mbind res_bind] in E.
  destruct (cache_entries _ _ _ _) as [d1|] eqn:Ec; [|done]. injection E as <- <-. rewrite (cache_entries_mounted _ _ _ _ _ Ec). by eapply put_mounted_counts, get_mounted_some.
Qed.

Lemma find_fs_child_counts fs parent name p d d' r : find_fs_child fs parent name p d = Ok (d', r) -> dcounts d' = dcounts d.
Proof.
  unfold find_fs_child, assert_. intros E. destruct (_ =? _); [|done]. cbn [mbind res_bind] in E. destruct (read_dir _ _ _ _) as [[d1 l]|] eqn:Er; [|done]. apply read_dir_counts in Er. follow E; subst; done.
Qed.

Lemma open_loop_counts fuel fs buf : forall ne cur d d' r, open_loop fuel fs buf ne cur d = Ok (d', r) -> dcounts d' = dcounts d.
Proof.
  induction fuel as [|fuel IH]; intros ne cur d d' r E; [done|]. cbn [open_loop] in E. destruct ne as [ns|]; [|by injection E as <- _]. destruct (_ <=? _)%nat; [by injection E as <- _|]. destruct (get_cache_entry _ d) as [[ent|]|]; [| |done]; cbn [mbind res_bind] in E.
  - unfold assert_ in E. destruct (_ =? _); [|done]. cbn [mbind res_bind] in E. by eapply IH.
  - destruct (find_fs_child _ _ _ _ _) as [[d1 c]|] eqn:Ef; [|done]. apply find_fs_child_counts in Ef. cbn [mbind res_bind] in E. destruct c as [c|]; [|injection E as <- _; done]. destruct (if _ =? DT_REG then _ else _); [|done]. cbn [mbind res_bind] in E. rewrite <- Ef. by eapply IH.
Qed.

Lemma vfs_open_counts p d d' r : vfs_open p d = Ok (d', r) -> dcounts d' = dcounts d.
Proof.
  unfold vfs_open, assert_. intros E. destruct (is_absolute _); [|done]. cbn [mbind res_bind] in E. destruct (get_cache_entry _ d) as [[ent|]|]; [by injection E as <- _| |done]. cbn [mbind res_bind] in E.
  destruct (get_fs_vdir _ _) as [vd|]; [|by injection E as <- _]. destruct (vdir_fs vd) as [fs|]; [|done]. destruct (get_mounted fs d) as [[s n]|]; [|done]. cbn [mbind res_bind] in E. destruct (_ && _); [by injection E as <- _|].
  destruct (open_loop _ _ _ _ _ _) as [[d1 x]|] eqn:El; [|done]. apply open_loop_counts in El. cbn [mbind res_bind] in E. destruct x as [x|]; [|by injection E as <- _]. destruct (_ || _); [|done]. cbn [mbind res_bind] in E.
  destruct (add_cache_entry _ _ _ _) as [d2|] eqn:Ea; [|done]. apply add_cache_mounted in Ea. injection E as <- _. by rewrite Ea.
Qed.

Lemma vfs_create_counts p t d d' r : vfs_create p t d = Ok (d', r) -> dcounts d' = dcounts d.
Proof.
  unfold vfs_create, assert_. intros E. destruct (last_slash _) as [i|]; [|by injection E as <- _]. destruct (vfs_open _ d) as [[d1 x]|] eqn:Eo; [|done]. apply vfs_open_counts in Eo. cbn [mbind res_bind] in E. destruct (0 <? _); [|done]. cbn [mbind res_bind] in E.
  destruct x as [[fs parent]|]; [|by injection E as <- _]. destruct (negb _); [by injection E as <- _|]. destruct (get_mounted fs d1) as [[s n]|] eqn:Em; [|done]. cbn [mbind res_bind] in E. destruct (fs_add_dirent _ _ _ s) as [[s1 y]|]; [|done]. cbn [mbind res_bind] in E. destruct (y =? 0); [|done]. cbn [mbind res_bind] in E. injection E as <- _.
  rewrite <- Eo. by eapply put_mounted_counts, get_mounted_some.
Qed.

Lemma vfs_opendir_counts p d d' r : vfs_opendir p d = Ok (d', r) -> dcounts d' = dcounts d.
Proof.
  unfold vfs_opendir. intros E. destruct (vfs_open _ d) as [[d1 x]|] eqn:Eo; [|done]. apply vfs_open_counts in Eo. cbn [mbind res_bind] in E. destruct x as [[fs e]|]; [|by injection E as <- _]. destruct (negb _); [by injection E as <- _|]. destruct (read_dir _ _ _ d1) as [[d2 l]|] eqn:Er; [|done]. apply read_dir_counts in Er. rewrite <- Eo, <- Er. follow E.
Qed.
End Dirs.

(** ** Calls that leave the table of open files as it is *)

Section Table.
Context {S : Type} `{FileSystem S}.
Implicit Types v : vfs S.

Notation counts v := (snd <$> filesystems v).

Definition ent_shape (e : file_ent) : Z * Z * Z := (ent_id e, ent_fs e, n_insts e).
Definition handle_shape (h : file_handle) : Z * Z * Z := (handle_fs h, vfile_id h, handle_id h).

Record alike v v' : Prop := {
  al_ents : ent_shape <$> open_files v' = ent_shape <$> open_files v;
  al_handles : handle_shape <$> handles v' = handle_shape <$> handles v;
  al_counts : counts v' = counts v;
  al_cur : cur_id v' = cur_id v;
  al_next : next_id v' = next_id v }.

#[export] Instance alike_refl : Reflexive alike.
Proof. by constructor. Qed.
#[export] Instance alike_trans : Transitive alike.
Proof. intros a b c [] []. constructor; congruence. Qed.

Lemma alike_handle v v' q h' : alike v v' -> handles v' !! q = Some h' -> exists h, handles v !! q = Some h /\ handle_shape h' = handle_shape h.
Proof.
  intros [_ E _ _ _] Hq. assert ((handle_shape <$> handles v') !! q = Some (handle_shape h')) as Hs by (by rewrite lookup_fmap, Hq). rewrite E, lookup_fmap in Hs. destruct (handles v !! q) as [h|]; [|done]. cbn in Hs. exists h. split; [done|congruence].
Qed.

Lemma alike_sym v v' : alike v v' -> alike v' v.
Proof. intros []. constructor; congruence. Qed.

Lemma alike_ent v v' e' : alike v v' -> e' ∈ open_files v' -> exists e, e ∈ open_files v /\ ent_shape e' = ent_shape e.
Proof.
  intros [E _ _ _ _] He. assert (ent_shape e' ∈ ent_shape <$> open_files v') as Hs by (by apply list_elem_of_fmap_2). rewrite E in Hs. apply list_elem_of_fmap in Hs as (e & ? & ?). by exists e.
Qed.

Lemma count_shape (P : Z * Z * Z -> Prop) `{forall x, Decision (P x)} m m' : handle_shape <$> m' = handle_shape <$> m -> count (fun h => P (handle_shape h)) m' = count (fun h => P (handle_shape h)) m.
Proof.
  intros E. assert (forall m, count (fun h => P (handle_shape h)) m = Z.of_nat (size (filter (fun kv => P kv.2) (handle_shape <$> m)))) as Hc; [|by rewrite !Hc, E].
  intros n. unfold count. f_equal. rewrite map_filter_fmap, map_size_fmap. done.
Qed.

Lemma count_file m m' id : handle_shape <$> m' = handle_shape <$> m -> count (on_file id) m' = count (on_file id) m.
Proof. intros E. exact (count_shape (fun x => x.1.2 = id) m m' E). Qed.
Lemma count_fs m m' p : handle_shape <$> m' = handle_shape <$> m -> count (on_fs p) m' = count (on_fs p) m.
Proof. intros E. exact (count_shape (fun x => x.1.1 = p) m m' E). Qed.

Lemma table_ok_alike v v' : alike v v' -> vfile_lock v' = false -> (forall e, e ∈ open_files v' -> accessed e = false) -> table_ok v -> table_ok v'.
Proof.
  intros Ha Hl' Hacc [Hl Hcur Hnext [H1 H2 H3 H4 H5 H6] Hu]. pose proof Ha as [E1 E2 E3 E4 E5]. constructor; [done|by rewrite E4|by rewrite E5| |].
  - rewrite E3, E4, E5. constructor.
    + replace (ent_id <$> open_files v') with ((fun x : Z * Z * Z => x.1.1) <$> (ent_shape <$> open_files v')) by (by rewrite <- list_fmap_compose). rewrite E1, <- list_fmap_compose. exact H1.
    + intros e' He'. destruct (alike_ent _ _ _ Ha He') as (e & He & [= -> _ _]). by apply H2.
    + intros e' He'. split; [by apply Hacc|]. destruct (alike_ent _ _ _ Ha He') as (e & He & [= _ Ef _]). rewrite Ef. by apply H3.
    + intros q h' Hq. destruct (alike_handle _ _ _ _ Ha Hq) as (h & Hh & [= -> -> ->]). destruct (H4 q h Hh) as (? & ? & e & He & Ei & Ef). split_and!; [lia|lia|done|]. destruct (alike_ent _ _ e (alike_sym _ _ Ha) He) as (e' & He' & [= E6 E7 _]). exists e'. split_and!; [done|congruence|congruence].
    + intros e' He'. destruct (alike_ent _ _ _ Ha He') as (e & He & [= -> _ ->]). rewrite (count_file _ _ _ E2). by apply H5.
    + intros p n Hp. rewrite (count_fs _ _ _ E2). by apply H6.
  - intros e' He'. destruct (alike_ent _ _ _ Ha He') as (e & He & [= _ _ ->]). by apply Hu.
Qed.

(** During a call: at most the file [id] is being accessed. *)
Definition accessing (id : Z) v : Prop := vfile_lock v = false /\ forall e, e ∈ open_files v -> accessed e = true -> ent_id e = id.
Definition at_rest v : Prop := vfile_lock v = false /\ forall e, e ∈ open_files v -> accessed e = false.

Lemma table_rest v : table_ok v -> at_rest v.
Proof. intros [Hl _ _ Hc _]. split; [done|]. intros e He. by apply Hc. Qed.

Lemma rest_accessing id v : at_rest v -> accessing id v.
Proof. intros [Hl Ha]. split; [done|]. intros e He Ht. rewrite (Ha e He) in Ht. done. Qed.

(** [v0] is the table before the call, [v] one in the middle of it. *)
Definition amid v0 (id : Z) v : Prop := alike v0 v /\ accessing id v.

Lemma amid_handle v0 id v p h h' : amid v0 id v -> handles v0 !! p = Some h -> same_handle h h' -> amid v0 id (put_handle p h' v).
Proof.
  intros [[E1 E2 E3 E4 E5] Ha] Hp [S1 S2 S3 S4]. split; [|exact Ha]. constructor; try done. cbn. rewrite fmap_insert, E2. apply insert_id. rewrite lookup_fmap, Hp. cbn. unfold handle_shape. by rewrite S1, S2, S3.
Qed.

Lemma amid_fs v0 id v p s s' n : amid v0 id v -> filesystems v0 !! p = Some (s, n) -> amid v0 id (put_fs p s' n v).
Proof.
  intros [[E1 E2 E3 E4 E5] Ha] Hp. split; [|exact Ha]. constructor; try done. cbn. rewrite fmap_insert, E3. apply insert_id. by rewrite lookup_fmap, Hp.
Qed.

(** Changes of one entry. *)
Lemma amid_ent v0 id v i e e' : amid v0 id v -> open_files v !! i = Some e -> ent_shape e' = ent_shape e -> (accessed e' = true -> ent_id e' = id) -> amid v0 id (put_ent i e' v).
Proof.
  intros [[E1 E2 E3 E4 E5] [Hl Ha]] Hi Es Hacc. split.
  - constructor; try done. cbn. rewrite list_fmap_insert, Es, E1. apply list_insert_id. rewrite <- E1, list_lookup_fmap, Hi. done.
  - split; [done|]. intros x Hx. cbn in Hx. apply list_elem_of_lookup in Hx as [j Hj]. apply list_lookup_insert_Some in Hj as [(<- & <- & _)|[_ Hj]]; [done|]. apply Ha. by eapply list_elem_of_lookup_2.
Qed.

Lemma amid_lock v0 id v b : amid v0 id v -> amid v0 id (release_vfile (set_lock v b)).
Proof. intros [[] [? Ha]]. split; [by constructor|]. by split. Qed.
Lemma alike_nodup v v' : alike v v' -> NoDup (ent_id <$> open_files v) -> NoDup (ent_id <$> open_files v').
Proof.
  intros [E _ _ _ _] Hn. assert (forall l, ent_id <$> l = (fun x : Z * Z * Z => x.1.1) <$> (ent_shape <$> l)) as Hc by (intros l; by rewrite <- list_fmap_compose). rewrite Hc, E, <- Hc. done.
Qed.

Lemma access_start v p h : table_ok v -> handles v !! p = Some h ->
  exists v1 f s n, acquire_file_access (vfile_id h) v = Ok (v1, Some f) /\ amid v (vfile_id h) v1 /\ filesystems v !! handle_fs h = Some (s, n) /\ filesystems v1 = filesystems v.
Proof.
  intros Hok Hp. destruct (handle_entry v p h Hok Hp) as (i & e & s & n & Hi & _ & Eid & _ & Hfs & _). exists (busy v i e), (ent_file e), s, n. split_and!; [by apply acquire_file_access_ok| |done|done].
  apply (amid_ent v (vfile_id h) v i e); [split; [reflexivity|by apply rest_accessing, table_rest]|apply Hi|done|done].
Qed.

Lemma access_end v0 id v v' : table_ok v0 -> amid v0 id v -> release_file_access id v = Ok v' -> table_ok v' /\ alike v0 v'.
Proof.
  intros Hok Hm E. pose proof Hm as [Ha [Hl Hacc]]. unfold release_file_access, acquire_vfile, lock_vfiles in E. rewrite Hl in E. cbn [mbind res_bind] in E. change (find_vfile id (set_lock v true)) with (find_vfile id v) in E. destruct (find_vfile id v) as [i|] eqn:Ef; [|done]. cbn [deref] in E. change (open_files (set_lock v true)) with (open_files v) in E.
  destruct (open_files v !! i) as [e|] eqn:Ei; [|done]. cbn [mbind res_bind] in E. unfold assert_ in E. destruct (accessed e); [|done]. injection E as <-. assert (ent_id e = id) as Eid.
  { unfold find_vfile in Ef. destruct (list_find _ _) as [[j x]|] eqn:El; [|done]. injection Ef as ->. apply list_find_Some in El as (Ej & <- & _). congruence. }
  assert (alike v0 (release_vfile (put_ent i (set_accessed e false) (set_lock v true)))) as Ha'.
  { destruct (amid_ent v0 id v i e (set_accessed e false) Hm Ei eq_refl ltac:(done)) as [[] _]. by constructor. }
  split; [|done]. eapply table_ok_alike; [exact Ha'|done| |done]. intros x Hx. cbn in Hx. apply list_elem_of_lookup in Hx as [j Hj]. apply list_lookup_insert_Some in Hj as [(<- & <- & _)|[Hne Hj]]; [done|]. destruct (accessed x) eqn:Ex; [|done]. exfalso. apply Hne. eapply same_id; [apply (alike_nodup _ _ Ha), Hok|exact Ei|exact Hj|]. rewrite Eid. symmetry. apply Hacc; [by eapply list_elem_of_lookup_2|done].
Qed.

(** ** Reading and writing *)

Lemma read_buffered_same h g c n d h' r : read_buffered h g c n = Ok (d, h', r) -> same_handle h h'.
Proof.
  unfold read_buffered, assert_. intros E. destruct (_ && _); [|by injection E as _ <- _]. destruct (rd_bytes _ _ _); [|done]. cbn [mbind res_bind] in E. destruct (_ <=? g); [|done]. cbn [mbind res_bind] in E.
  match type of E with mbind _ ?m = _ => destruct m; [|done] end. injection E as _ <- _. by destruct (_ =? g).
Qed.

Lemma read_blocks_same f h g c n s s' d h' r : read_blocks f h g c n s = Ok (s', inr (d, h', r)) -> same_handle h h'.
Proof.
  unfold read_blocks, assert_. intros E. destruct (read_file_sectors _ _ _ _) as [[[s1 buf] rd]|]; [|done]. cbn [mbind res_bind] in E. destruct (rd <? 0); [done|]. match type of E with mbind _ ?m = _ => destruct m; [|done] end. cbn [mbind res_bind] in E.
  destruct (if _ <? _ then _ else _) as [x y]. destruct (negb _); [|injection E as _ _ <- _; done]. destruct (c && _).
  - destruct (rd_bytes buf _ g); [|done]. cbn [mbind res_bind] in E. destruct (rd_bytes buf _ y); [|done]. injection E as _ _ <- _. done.
  - cbn [mbind res_bind] in E. destruct (rd_bytes buf _ y); [|done]. injection E as _ _ <- _. done.
Qed.

Lemma write_blocks_same f h g c ptr mem s s' h' r : write_blocks f h g c ptr mem s = Ok (s', h', r) -> same_handle h h'.
Proof.
  unfold write_blocks, assert_. intros E. destruct (_ <=? _); [|done]. cbn [mbind res_bind] in E. destruct (_ && _).
  - destruct (write_file_sectors _ _ _ _ _) as [[[s1 f1] w]|]; [|done]. by injection E as _ <- _.
  - destruct (write_head _ _ _ _ _ _ _) as [[s1 [buf|]]|]; [| |done]; cbn [mbind res_bind] in E; [|by injection E as _ <- _]. destruct (write_tail _ _ _ _ _ _ _ _ _) as [[[s2 h2] buf2]|] eqn:Et; [|done]. cbn [mbind res_bind] in E.
    destruct (wr_bytes _ _ _); [|done]. cbn [mbind res_bind] in E. destruct (write_file_sectors _ _ _ _ _) as [[[s3 f3] w]|]; [|done]. injection E as _ <- _. unfold write_tail in Et. follow Et; by (try destruct c; constructor).
Qed.

(** What a quiet call leaves. *)
Definition calm v v' : Prop := table_ok v' /\ alike v v'.

Lemma amid_rest v0 id v : table_ok v0 -> amid v0 id v -> at_rest v -> calm v0 v.
Proof. intros Hok [Ha _] [Hl Hr]. split; [by eapply table_ok_alike|done]. Qed.

Lemma calm_refl v : table_ok v -> calm v v.
Proof. by split. Qed.

Lemma get_handle_some p v h : get_handle p v = Ok h -> handles v !! p = Some h.
Proof. unfold get_handle. destruct (handles v !! p); [by intros [= ->]|done]. Qed.

Lemma vfs_read_calm size p v v' d r : table_ok v -> vfs_read_file size p v = Ok (v', d, r) -> calm v v'.
Proof.
  intros Hok E. unfold vfs_read_file in E. destruct (get_handle p v) as [h|] eqn:Eh; [|done]. apply get_handle_some in Eh. cbn [mbind res_bind] in E. destruct (negb _); [injection E as <- _ _; by apply calm_refl|].
  destruct (access_start v p h Hok Eh) as (v1 & f & s & n & E1 & Hm & Hfs & Ef1). rewrite (get_fs_ok v _ s n Hfs) in E. cbn [mbind res_bind] in E. rewrite E1 in E. cbn [mbind res_bind] in E.
  assert (forall v2 v3, amid v (vfile_id h) v2 -> release_file_access (vfile_id h) v2 = Ok v3 -> calm v v3) as Hend by (intros; by eapply access_end).
  destruct (_ && _). { destruct (release_file_access _ v1) as [v2|] eqn:Er; [|done]. injection E as <- _ _. by eapply Hend. }
  destruct (_ <=? 0). { destruct (release_file_access _ v1) as [v2|] eqn:Er; [|done]. injection E as <- _ _. by eapply Hend. }
  destruct (read_buffered _ _ _ _) as [[[d1 h1] rest]|] eqn:Eb; [|done]. apply read_buffered_same in Eb. cbn [mbind res_bind] in E. pose proof (amid_handle _ _ _ _ _ h1 Hm Eh Eb) as Hm1.
  destruct (rest =? 0). { destruct (release_file_access _ _) as [v2|] eqn:Er; [|done]. injection E as <- _ _. pose proof (sh_vfile _ _ Eb) as Es. rewrite Es in Er. by eapply Hend. }
  destruct (read_blocks _ _ _ _ _ _) as [[s1 x]|] eqn:Ek; [|done]. cbn [mbind res_bind] in E. rewrite !(sh_vfile _ _ Eb), (sh_fs _ _ Eb) in E. pose proof (amid_fs _ _ _ _ _ s1 _ Hm1 Hfs) as Hm2. destruct x as [rd|[[d2 h2] b2]].
  - destruct (release_file_access _ _) as [v2|] eqn:Er; [|done]. injection E as <- _ _. by eapply Hend.
  - apply read_blocks_same in Ek. destruct (release_file_access _ _) as [v2|] eqn:Er; [|done]. cbn [mbind res_bind assert_] in E. unfold assert_ in E. destruct (b2 <=? _); [|done]. injection E as <- _ _. rewrite (sh_vfile _ _ Ek), (sh_vfile _ _ Eb) in Er. eapply Hend; [|exact Er]. eapply amid_handle; [exact Hm2|done|]. by etransitivity.
Qed.

Lemma invalidate_amid v0 id l self : forall v v', amid v0 id v -> invalidate_loop l self v = Ok v' -> amid v0 id v'.
Proof.
  induction l as [|p l IH]; intros v v' Hm E; cbn [invalidate_loop] in E; [by injection E as <-|]. case_decide; [cbn [mbind res_bind] in E; by eapply IH|]. destruct (get_handle p v) as [h|] eqn:Eh; [|done]. apply get_handle_some in Eh. cbn [mbind res_bind] in E. eapply IH; [|exact E].
  destruct Hm as [[E1 E2 E3 E4 E5] Ha]. split; [|exact Ha]. constructor; try done. cbn. rewrite fmap_insert, <- E2. apply insert_id. by rewrite lookup_fmap, Eh.
Qed.

Lemma invalidate_ents l self : forall v v', invalidate_loop l self v = Ok v' -> open_files v' = open_files v /\ vfile_lock v' = vfile_lock v.
Proof.
  induction l as [|p l IH]; intros v v' E; cbn [invalidate_loop] in E; [by injection E as <-|]. case_decide; [cbn [mbind res_bind] in E; by eapply IH|]. destruct (get_handle p v) as [h|]; [|done]. cbn [mbind res_bind] in E. by apply IH in E.
Qed.

Lemma find_entry_id id v i e : find_vfile id v = Some i -> open_files v !! i = Some e -> ent_id e = id.
Proof.
  unfold find_vfile. intros Ef Ei. destruct (list_find _ _) as [[j x]|] eqn:El; [|done]. injection Ef as ->. apply list_find_Some in El as (Ej & <- & _). congruence.
Qed.

Lemma update_amid v0 id f u v v' : amid v0 id v -> update_vfile id f u v = Ok v' -> amid v0 id v'.
Proof.
  intros Hm E. pose proof Hm as [_ [Hl _]]. unfold update_vfile, acquire_vfile, lock_vfiles in E. rewrite Hl in E. cbn [mbind res_bind] in E. change (find_vfile id (set_lock v true)) with (find_vfile id v) in E. destruct (find_vfile id v) as [i|] eqn:Ef; [|done]. cbn [deref] in E. change (open_files (set_lock v true)) with (open_files v) in E.
  destruct (open_files v !! i) as [e|] eqn:Ei; [|done]. cbn [mbind res_bind] in E. pose proof (find_entry_id _ _ _ _ Ef Ei) as Eid.
  assert (exists v1, open_files v1 = open_files v /\ amid v0 id (release_vfile v1) /\ Ok (release_vfile (put_ent i (set_size e f) v1)) = Ok v') as (v1 & Eo & Hm1 & E1).
  { unfold invalidate_handlers_buffer in E. destruct (get_fs _ _) as [[s n]|]; [|done]. cbn [mbind res_bind] in E. destruct (negb _); cbn [mbind res_bind] in E; [exists (set_lock v true); split_and!; [done|by apply amid_lock|done]|].
    destruct (invalidate_loop _ _ _) as [v1|] eqn:El; [|done]. cbn [mbind res_bind] in E. pose proof (invalidate_ents _ _ _ _ El) as [Eo _]. exists v1. split_and!; [exact Eo| |exact E].
    assert (forall l (w w' : vfs S), invalidate_loop l u w = Ok w' -> invalidate_loop l u (release_vfile w) = Ok (release_vfile w')) as Hlock.
    { induction l as [|q l IH]; intros w w' Ew; cbn [invalidate_loop] in *; [by injection Ew as <-|]. case_decide; [cbn [mbind res_bind] in *; by apply IH|]. change (get_handle q (release_vfile w)) with (get_handle q w). destruct (get_handle q w) as [h|]; [|done]. cbn [mbind res_bind] in *. by apply IH in Ew. }
    eapply invalidate_amid; [|apply Hlock, El]. by apply amid_lock. }
  injection E1 as <-. change (release_vfile (put_ent i (set_size e f) v1)) with (put_ent i (set_size e f) (release_vfile v1)). eapply (amid_ent v0 id (release_vfile v1) i e); [done|by cbn; rewrite Eo|done|done].
Qed.

Lemma vfs_write_calm ptr p mem v v' r : table_ok v -> vfs_write_file ptr p mem v = Ok (v', r) -> calm v v'.
Proof.
  intros Hok E. unfold vfs_write_file in E. destruct (get_handle p v) as [h|] eqn:Eh; [|done]. apply get_handle_some in Eh. cbn [mbind res_bind] in E. unfold assert_ in E. destruct (flags h <? _); [|done]. cbn [mbind res_bind] in E. destruct (negb _); [injection E as <- _; by apply calm_refl|]. destruct (_ =? 0); [injection E as <- _; by apply calm_refl|].
  destruct (access_start v p h Hok Eh) as (v1 & f & s & n & E1 & Hm & Hfs & Ef1). rewrite (get_fs_ok v _ s n Hfs) in E. cbn [mbind res_bind] in E. rewrite E1 in E. cbn [mbind res_bind] in E. set (h0 := if has_flag _ _ then _ else h) in E. assert (same_handle h h0) as Hs0 by (unfold h0; by destruct (has_flag _ _)). clearbody h0.
  destruct (write_blocks _ _ _ _ _ _ _) as [[[s1 h1] x]|] eqn:Ew; [|done]. apply write_blocks_same in Ew. cbn [mbind res_bind] in E. assert (same_handle h h1) as Hs1 by (by etransitivity). rewrite (sh_fs _ _ Hs1), (sh_vfile _ _ Hs1) in E. pose proof (amid_fs _ _ _ _ _ s1 _ Hm Hfs) as Hm1.
  assert (forall v2 v3, amid v (vfile_id h) v2 -> release_file_access (vfile_id h) v2 = Ok v3 -> calm v v3) as Hend by (intros; by eapply access_end). destruct x as [[f' err]|].
  - set (h2 := set_cursor _ _ _ _) in E. assert (same_handle h h2) as Hs2 by (destruct Hs1; by constructor). assert (vfile_id h2 = vfile_id h) as Ev by apply Hs2. change (vfile_id (set_cursor _ _ _ _)) with (vfile_id h1) in E. rewrite ?Ev, ?(sh_vfile _ _ Hs1) in E. pose proof (amid_handle _ _ _ _ _ h2 Hm1 Eh Hs2) as Hm2. clearbody h2.
    match type of E with mbind _ ?m = _ => destruct m as [v2|] eqn:Eu; [|done] end. cbn [mbind res_bind] in E. assert (amid v (vfile_id h) v2) as Hm3 by (destruct (_ || _) in Eu; [by eapply update_amid|by injection Eu as <-]). destruct (release_file_access _ v2) as [v3|] eqn:Er; [|done]. cbn [mbind res_bind] in E. injection E as <- _. by eapply Hend.
  - destruct (release_file_access _ _) as [v3|] eqn:Er; [|done]. cbn [mbind res_bind] in E. injection E as <- _. eapply Hend; [|exact Er]. by eapply amid_handle.
Qed.

Lemma vfs_truncate_calm p size v v' r : table_ok v -> vfs_truncate_file p size v = Ok (v', r) -> calm v v'.
Proof.
  intros Hok E. unfold vfs_truncate_file in E. destruct (get_handle p v) as [h|] eqn:Eh; [|done]. apply get_handle_some in Eh. cbn [mbind res_bind] in E. destruct (_ || _); [injection E as <- _; by apply calm_refl|].
  destruct (access_start v p h Hok Eh) as (v1 & f & s & n & E1 & Hm & Hfs & Ef1). rewrite E1 in E. cbn [mbind res_bind] in E. rewrite (get_fs_ok v1 _ s n) in E by (by rewrite Ef1). cbn [mbind res_bind] in E. destruct (truncate_file f size s) as [[[s1 f1] x]|]; [|done]. cbn [mbind res_bind] in E. pose proof (amid_fs _ _ _ _ _ s1 _ Hm Hfs) as Hm1.
  match type of E with mbind _ ?m = _ => destruct m as [v2|] eqn:Eu; [|done] end. cbn [mbind res_bind] in E. assert (amid v (vfile_id h) v2) as Hm2 by (destruct (x =? 0) in Eu; [by eapply update_amid|by injection Eu as <-]). destruct (release_file_access _ v2) as [v3|] eqn:Er; [|done]. injection E as <- _. by eapply access_end.
Qed.

Lemma handle_calm v p h h' : table_ok v -> handles v !! p = Some h -> same_handle h h' -> calm v (put_handle p h' v).
Proof.
  intros Hok Hp Hs. eapply (amid_rest v 0); [done| |by apply (table_rest v)]. eapply amid_handle; [|done|done]. split; [reflexivity|by apply rest_accessing, table_rest].
Qed.

Lemma vfs_seek_calm p off w v v' r : table_ok v -> vfs_seek_file p off w v = Ok (v', r) -> calm v v'.
Proof.
  intros Hok E. unfold vfs_seek_file in E. destruct (get_handle p v) as [h|] eqn:Eh; [|done]. apply get_handle_some in Eh. cbn [mbind res_bind] in E. destruct (negb _); [injection E as <- _; by apply calm_refl|]. destruct (handle_entry v p h Hok Eh) as (i & e & s & n & Hi & _ & Eid & _ & Hfs & _).
  assert (forall a, ('(v, _) ← acquire_vfile (vfile_id h) v; '(s, _) ← get_fs (handle_fs h) v; Ok (release_vfile (put_handle p (set_stream_offset h (file_access_granularity s) a) v), a)) = Ok (v', r) -> calm v v') as Hend.
  { intros a Ea. rewrite (acquire_vfile_ok v _ i e Hi) in Ea. cbn [mbind res_bind] in Ea. rewrite (get_fs_ok (set_lock v true) _ s n Hfs) in Ea. cbn [mbind res_bind] in Ea. injection Ea as <- _. assert (release_vfile (put_handle p (set_stream_offset h (file_access_granularity s) a) (set_lock v true)) = put_handle p (set_stream_offset h (file_access_granularity s) a) v) as ->.
    { unfold release_vfile, put_handle, set_handles, set_lock. cbn. by rewrite (ie_lock _ _ _ _ Hi). }
    by apply (handle_calm v p h). }
  destruct (w =? SEEK_CUR); [by apply (Hend _ E)|]. destruct (w =? SEEK_END).
  - rewrite (acquire_vfile_ok v _ i e Hi) in E. cbn [mbind res_bind deref] in E. change (open_files (set_lock v true)) with (open_files v) in E. rewrite (ie_ent _ _ _ _ Hi) in E. cbn [mbind res_bind] in E. rewrite (release_locked v (ie_lock _ _ _ _ Hi)) in E. by apply (Hend _ E).
  - destruct (w =? SEEK_SET); [by apply (Hend _ E)|]. injection E as <- _. by apply calm_refl.
Qed.

(** ** The counters of ids *)

Definition ids v : Z * Z := (cur_id v, next_id v).

Lemma acquire_vfile_ids id v v' r : acquire_vfile id v = Ok (v', r) -> ids v' = ids v.
Proof. unfold acquire_vfile, lock_vfiles. destruct (vfile_lock v); [done|]. by intros [= <- _]. Qed.

Lemma acquire_access_ids id v v' r : acquire_file_access id v = Ok (v', r) -> ids v' = ids v.
Proof.
  unfold acquire_file_access. intros E. destruct (acquire_vfile id v) as [[v1 i]|] eqn:Ea; [|done]. apply acquire_vfile_ids in Ea. cbn [mbind res_bind] in E. rewrite <- Ea. destruct i as [i|]; [|by injection E as <- _]. cbn [deref] in E. destruct (open_files v1 !! i) as [e|]; [|done]. cbn [mbind res_bind] in E. destruct (accessed e); [done|]. by injection E as <- _.
Qed.

Lemma release_access_ids id v v' : release_file_access id v = Ok v' -> ids v' = ids v.
Proof.
  unfold release_file_access, assert_. intros E. destruct (acquire_vfile id v) as [[v1 i]|] eqn:Ea; [|done]. apply acquire_vfile_ids in Ea. cbn [mbind res_bind] in E. rewrite <- Ea. destruct (deref i v1) as [[j e]|]; [|done]. cbn [mbind res_bind] in E. destruct (accessed e); [|done]. by injection E as <-.
Qed.

Lemma flush_ids e v : ids (flush e v) = ids v.
Proof. unfold flush. by destruct (negb _). Qed.

Lemma close_ids p v v' : vfs_close_file p v = Ok v' -> ids v' = ids v.
Proof.
  unfold vfs_close_file, assert_. intros E. destruct (get_handle p v) as [h|]; [|done]. cbn [mbind res_bind] in E. destruct (acquire_file_access _ v) as [[v1 f]|] eqn:E1; [|done]. apply acquire_access_ids in E1. cbn [mbind res_bind] in E. rewrite <- E1. destruct f as [f|]; [|by injection E as <-].
  destruct (acquire_vfile _ v1) as [[v2 i]|] eqn:E2; [|done]. apply acquire_vfile_ids in E2. cbn [mbind res_bind] in E. rewrite <- E2. destruct (deref i v2) as [[j e]|]; [|done]. cbn [mbind res_bind] in E. destruct (get_fs _ v2) as [[s n]|]; [|done]. cbn [mbind res_bind] in E.
  match type of E with mbind _ ?m = _ => destruct m as [v3|] eqn:E3; [|done] end. assert (ids v3 = ids v2) as E3' by (destruct (close_instance _ _ _) as [[x|]|]; cbn in E3; congruence || by injection E3 as <-). cbn [mbind res_bind] in E. rewrite <- E3'. clear E1 E2 E3 E3'.
  destruct (0 <=? _); [|done]. cbn [mbind res_bind] in E. set (e' := if has_flag _ _ then _ else _) in E. match type of E with mbind _ ?m = _ => destruct m as [v4|] eqn:E4; [|done] end. assert (ids v4 = ids v3) as E4'.
  { destruct (n_insts e' =? 0).
    - destruct (get_fs _ _) as [[s1 n1]|]; [|done]. cbn [mbind res_bind] in E4. transitivity (ids (flush e' (put_ent j e' v3))); [|exact (flush_ids e' (put_ent j e' v3))]. destruct (close_file _ _) as [[x|]|]; cbn [mbind res_bind] in E4; try done; by injection E4 as <-.
    - by apply release_access_ids in E4. }
  cbn [mbind res_bind] in E. rewrite <- E4'. clear E4 E4'. destruct (get_fs _ _) as [[s2 n2]|]; [|done]. cbn [mbind res_bind] in E. destruct (0 <=? _); [|done]. by injection E as <-.
Qed.

Lemma register_ids id p h v v' : register_handle_to_vfile id p h v = Ok v' -> ids v' = ids v.
Proof.
  unfold register_handle_to_vfile. intros E. destruct (acquire_vfile _ _) as [[v1 i]|] eqn:E1; [|done]. apply acquire_vfile_ids in E1. cbn [mbind res_bind] in E. destruct (deref i v1) as [[j e]|]; [|done]. cbn [mbind res_bind] in E. injection E as <-. exact E1.
Qed.

(** At most one id of each kind is used. *)
Definition used v v' : Prop := cur_id v' <= cur_id v + 1 /\ next_id v' <= next_id v + 1.

Lemma dup_ids p mem v v' r : 0 <= next_id v -> vfs_handle_dup p mem v = Ok (v', r) -> used v v'.
Proof.
  unfold vfs_handle_dup. intros Hn E. destruct (get_handle p v) as [h|]; [|done]. cbn [mbind res_bind handle_next_id] in E. set (v0 := set_ids _ _ _) in E. assert (u64 (next_id v + 1) <= next_id v + 1) as Hu by (unfold wrap; apply Z.mod_le; lia).
  assert (forall w, ids w = ids v0 -> used v w) as Hids by (intros w [= E1 E2]; split; lia). clearbody v0.
  destruct (acquire_vfile _ v0) as [[v1 i]|] eqn:E1; [|done]. apply acquire_vfile_ids in E1. cbn [mbind res_bind] in E. destruct (deref i v1) as [[j e]|]; [|done]. cbn [mbind res_bind] in E. destruct (get_fs _ _) as [[s n]|]; [|done]. cbn [mbind res_bind] in E.
  match type of E with mbind _ ?m = _ => destruct m as [[v2 x]|] eqn:E2; [|done] end. assert (ids v2 = ids v0) as E2' by (rewrite <- E1; destruct (open_instance _ _ _) as [[[s' y]|]|]; cbn [mbind res_bind] in E2; try done; by injection E2 as <- _). cbn [mbind res_bind] in E. destruct (x =? 0); [injection E as <- _; by apply Hids|].
  destruct (get_fs _ v2) as [[s2 n2]|]; [|done]. cbn [mbind res_bind] in E. destruct (register_handle_to_vfile _ _ _ _) as [v3|] eqn:E3; [|done]. apply register_ids in E3. cbn [mbind res_bind] in E. injection E as <- _. apply Hids. by rewrite E3.
Qed.

Lemma open_ids fs d p fl mem v v' r : 0 <= next_id v -> 0 <= cur_id v -> vfs_open_file_from fs d p fl mem v = Ok (v', r) -> used v v'.
Proof.
  unfold vfs_open_file_from, assert_. intros Hn Hc E. assert (used v v) as Hv by (split; lia). destruct (fl <? _); [|done]. cbn [mbind res_bind] in E. destruct (negb _); [by injection E as <- _|]. destruct (_ && _); [by injection E as <- _|]. destruct (_ && _); [by injection E as <- _|].
  destruct (create_handler _ _ _ _ _ v) as [[v1 h]|] eqn:Ec; [|done]. cbn [mbind res_bind] in E. assert (used v v1) as Hv1.
  { clear E. unfold create_handler in Ec. cbn [handle_next_id] in Ec. set (v0 := set_ids _ _ _) in Ec. assert (u64 (next_id v + 1) <= next_id v + 1) as Hu by (unfold wrap; apply Z.mod_le; lia). assert (ids v0 = (cur_id v, u64 (next_id v + 1))) as E0 by done. clearbody v0.
    destruct (get_fs _ _) as [[s n]|]; [|done]. cbn [mbind res_bind] in Ec. match type of Ec with mbind _ ?m = _ => destruct m as [[v2 x]|] eqn:E2; [|done] end. assert (ids v2 = ids v0) as E2' by (destruct (open_instance _ _ _) as [[[s' y]|]|]; cbn [mbind res_bind] in E2; try done; by injection E2 as <- _). cbn [mbind res_bind] in Ec.
    assert (forall w, ids w = ids v0 -> used v w) as Hids by (intros w Ew; rewrite E0 in Ew; injection Ew as E3 E4; split; lia).
    destruct (negb _); [injection Ec as <- _; by apply Hids|]. destruct (search_or_insert_file _ _ _ _ v2) as [[v3 id]|] eqn:E3; [|done]. cbn [mbind res_bind] in Ec. destruct (register_handle_to_vfile _ _ _ _) as [v4|] eqn:E4; [|done]. apply register_ids in E4. cbn [mbind res_bind] in Ec. injection Ec as <- _.
    assert (u64 (cur_id v + 1) <= cur_id v + 1) as Hu2 by (unfold wrap; apply Z.mod_le; lia). assert (ids v3 = ids v0 \/ ids v3 = (u64 (cur_id v + 1), u64 (next_id v + 1))) as Hor.
    { rewrite E0 in E2'. injection E2' as E5 E6. unfold search_or_insert_file, lock_vfiles in E3. destruct (vfile_lock v2); [done|]. cbn [mbind res_bind] in E3. destruct (get_fs _ _) as [[s1 n1]|]; [|done]. cbn [mbind res_bind] in E3. destruct (list_find _ _) as [[k e]|].
      - left. injection E3 as <- _. rewrite E0. unfold ids. cbn. congruence.
      - right. cbn in E3. rewrite E5 in E3. destruct (open_file _ _) as [[x1|]|]; cbn [mbind res_bind] in E3; try done; injection E3 as <- _; unfold ids; cbn; rewrite ?E6; done. }
    destruct Hor as [Ho|Ho]; [apply Hids; congruence|]. rewrite <- E4 in Ho. injection Ho as E5 E6. split; lia. }
  destruct h as [h|]; [|by injection E as <- _]. destruct (has_flag _ _); [|by injection E as <- _]. destruct (get_handle h v1) as [x|]; [|done]. cbn [mbind res_bind] in E. destruct (get_fs fs v1) as [[s n]|]; [|done]. cbn [mbind res_bind] in E. by injection E as <- _.
Qed.
End Table.

(** ** How much a read gives *)

Section ReadLength.
Context {S : Type} `{FileSystem S}.

(** A file system reads no more sectors than it is asked for. *)
Record reads_fit : Prop := {
  rf_granularity : forall s : S, 0 < file_access_granularity s;
  rf_read : forall f b n (s s' : S) data rd, read_file_sectors f b n s = Ok (s', data, rd) -> zlen data <= Z.max 0 (n * file_access_granularity s) }.
Hypothesis F : reads_fit.

Lemma rd_bytes_len (l d : list Z) off n : rd_bytes l off n = Ok d -> zlen d = n /\ 0 <= off /\ 0 <= n /\ off + n <= zlen l.
Proof. unfold rd_bytes. destruct (_ && _) eqn:E; [|done]. intros [= <-]. rewrite zlen_slice by lia. lia. Qed.

Lemma u32_le x : 0 <= x -> 0 <= u32 x <= x.
Proof. intros Hx. unfold wrap. split; [apply Z.mod_pos_bound; lia|apply Z.mod_le; lia]. Qed.

Lemma read_buffered_len h g c n d h' r : 0 <= n -> read_buffered h g c n = Ok (d, h', r) -> zlen d + r = n /\ 0 <= r.
Proof.
  unfold read_buffered, assert_. intros Hn E. destruct (_ && _); [|injection E as <- _ <-; unfold zlen; cbn; lia]. destruct (rd_bytes _ _ _) as [x|] eqn:Er; [|done]. cbn [mbind res_bind] in E. destruct (_ <=? g); [|done]. cbn [mbind res_bind] in E.
  match type of E with mbind _ ?m = _ => destruct m; [|done] end. injection E as <- _ <-. apply rd_bytes_len in Er. lia.
Qed.

Lemma read_blocks_len f h c n (s s' : S) d h' r : 0 <= n -> read_blocks f h (file_access_granularity s) c n s = Ok (s', inr (d, h', r)) -> zlen d <= n.
Proof.
  unfold read_blocks, assert_. intros Hn E. pose proof (rf_granularity F s) as Hg. set (g := file_access_granularity s) in *. set (m := u32 (sector_offset h + n)) in E. destruct (read_file_sectors _ _ _ _) as [[[s1 buf] rd]|] eqn:Er; [|done]. apply (rf_read F) in Er. fold g in Er. cbn [mbind res_bind] in E. destruct (rd <? 0); [done|].
  assert (0 <= m) as Hm by (apply Z.mod_pos_bound; lia). assert (CEIL_DIV m g <= (m + g - 1) / g) as Hb by (unfold CEIL_DIV; apply Z.div_le_mono; [lia|apply u32_le; lia]).
  match type of E with mbind _ ?x = _ => destruct x eqn:Ea; [|done] end. cbn [mbind res_bind] in E. match type of E with (match ?z with _ => _ end) = _ => destruct z as [x y] eqn:Exy end. destruct (Z.eqb_spec (sector_offset h) 0) as [E0|E0]; [destruct (Z.eqb_spec (m mod g) 0) as [E1|E1]|].
  2, 3: cbn [andb negb] in E; match type of E with mbind _ (mbind _ ?x) = _ => destruct x as [h2|] eqn:E2; [|done] end; cbn [mbind res_bind] in E; assert (sector_offset h2 = sector_offset h) by (follow E2; done); destruct (rd_bytes buf _ y) as [d'|] eqn:Ed; [|done]; cbn [mbind res_bind] in E; injection E as _ <- _ <-; apply rd_bytes_len in Ed as (-> & H1 & H2 & H3);
    destruct (rd <? _); injection Exy as <- <-; [|lia]; destruct (Z.eqb_spec g 1) as [Eg|]; [|done]; rewrite Eg in *; rewrite Z.div_1_r in Hb; assert (m <= sector_offset h + n) by (apply u32_le; lia); lia.
  cbn [andb negb] in E. injection E as _ <- _ <-. assert (m <= n) by (unfold m; rewrite E0; apply u32_le; lia). apply Z.div_exact in E1; [|lia]. assert ((m + g - 1) / g = m / g) as Ed.
  { rewrite E1 at 1. replace (g * (m / g) + g - 1) with ((g - 1) + (m / g) * g) by lia. rewrite Z.div_add by lia. rewrite Z.div_small by lia. lia. }
  rewrite Ed in Hb. nia.
Qed.

Lemma vfs_read_len size p (v v' : vfs S) d r : 0 <= size -> vfs_read_file size p v = Ok (v', d, r) -> zlen d <= size.
Proof.
  intros Hsz E. assert (zlen (@nil Z) <= size) as Hnil by (unfold zlen; cbn; lia). unfold vfs_read_file in E. destruct (get_handle p v) as [h|]; [|done]. cbn [mbind res_bind] in E. destruct (negb _); [by injection E as _ <- _|]. destruct (get_fs _ v) as [[s n]|]; [|done]. cbn [mbind res_bind] in E.
  destruct (acquire_file_access _ v) as [[v1 [f|]]|]; [| |done]; cbn [mbind res_bind] in E; [|by injection E as _ <- _]. destruct (_ && _). { destruct (release_file_access _ v1); [|done]. by injection E as _ <- _. }
  set (b := u32 _) in E. assert (0 <= b <= size) as Hb. { assert (0 <= u64 (file_size f - file_offset h)) by (apply Z.mod_pos_bound; lia). pose proof (u32_le (Z.min size (u64 (file_size f - file_offset h)))). unfold b. lia. } clearbody b.
  destruct (_ <=? 0). { destruct (release_file_access _ v1); [|done]. by injection E as _ <- _. } destruct (read_buffered _ _ _ _) as [[[d1 h1] rest]|] eqn:Eb; [|done]. apply read_buffered_len in Eb; [|lia]. cbn [mbind res_bind] in E.
  destruct (rest =? 0). { destruct (release_file_access _ _); [|done]. injection E as _ <- _. lia. }
  destruct (read_blocks _ _ _ _ _ _) as [[s1 [rd|[[d2 h2] b2]]]|] eqn:Ek; [| |done]; cbn [mbind res_bind] in E.
  - destruct (release_file_access _ _); [|done]. injection E as _ <- _. lia.
  - apply read_blocks_len in Ek; [|lia]. destruct (release_file_access _ _); [|done]. cbn [mbind res_bind] in E. unfold assert_ in E. destruct (b2 <=? _); [|done]. injection E as _ <- _. rewrite zlen_app. lia.
Qed.
End ReadLength.

(** ** The implementation *)

(** ["/pipe/out/%u"] and ["/pipe/in/%u"]. *)
Definition PIPE_OUT : list Z := [47; 112; 105; 112; 101; 47; 111; 117; 116; 47; 37; 117].
Definition PIPE_IN : list Z := [47; 112; 105; 112; 101; 47; 105; 110; 47; 37; 117].

Section Implementation.
Context {S : Type} `{FileSystem S} `{DirectoryFS S}.
Variable mem : Z -> list Z.   (* what malloc returns *)
Variable pipefs : Z.
Variable create_file : S -> res (S * Z).   (* the new pipe of the file system and its number *)
Variable dirent_bytes : dirent -> list Z.   (* struct dirent *)

(** [create_pipe] with the table of open files: the out end and the in end. *)
Definition create_pipe_ends (v : vfs S) : res (vfs S * (Z * Z)) :=
  '(s, n) ← get_fs pipefs v;
  '(s, id) ← create_file s;
  let v := put_fs pipefs s n v in
  '(path, _) ← vsprintf PIPE_OUT [AInt id];
  '(v, out) ← vfs_open_file_from pipefs (Dirent id (u64 (-1)) DT_REG true false false false false) path VFS_READ mem v;
  match out with
  | None => Err (Panic "ends->out")
  | Some out =>
      '(path, _) ← vsprintf PIPE_IN [AInt id];
      '(v, in_) ← vfs_open_file_from pipefs (Dirent (Z.lor id (2 ^ 63)) (u64 (-1)) DT_REG false true false false false) path VFS_WRITE mem v;
      match in_ with None => Err (Panic "ends->in") | Some in_ => Ok (v, (out, in_)) end
  end.

(** The directories and the open files; the file systems are those of the open files. *)
Definition files_state : Type := vdirs S * vfs S.
Definition on_files {A} (f : vfs S -> res (vfs S * A)) (x : files_state) : res (files_state * A) := '(v, a) ← f x.2; Ok ((x.1, v), a).
Definition on_dirs {A} (f : vdirs S -> res (vdirs S * A)) (x : files_state) : res (files_state * A) :=
  '(d, a) ← f (set_mounted x.1 (filesystems x.2)); Ok ((d, set_filesystems x.2 (mounted d)), a).

(** [struct DIR] with its entries as bytes. *)
Definition dir_of (l : dir) : DIR := Dir_ (zlen (dir_children l)) (concat (map dirent_bytes (dir_children l))).

Definition ids_left_of (v : vfs S) : Z := 2 ^ 64 - Z.max (cur_id v) (next_id v).

Lemma ids_left_alike (v v' : vfs S) : alike v v' -> ids_left_of v' = ids_left_of v.
Proof. intros []. unfold ids_left_of. congruence. Qed.

Lemma dom_alike (v v' : vfs S) : alike v v' -> dom (handles v') = dom (handles v).
Proof. intros [_ E _ _ _]. rewrite <- (dom_fmap_L handle_shape (handles v')), E. apply dom_fmap_L. Qed.

Lemma table_ok_filesystems (v : vfs S) m : table_ok v -> snd <$> m = snd <$> filesystems v -> calm v (set_filesystems v m).
Proof.
  intros Hok E. assert (alike v (set_filesystems v m)) as Ha by (by constructor). split; [|done]. eapply table_ok_alike; [done|by apply Hok| |done]. intros e He. by apply (table_rest v Hok).
Qed.

(** The handle that a call made is new. *)
Lemma opened_live (v v' : vfs S) fs r on : table_ok v -> opened_handle v v' (next_id v) fs r on ->
  match r with None => dom (handles v') = dom (handles v) | Some q => q ∉ dom (handles v) /\ dom (handles v') = {[q]} ∪ dom (handles v) end.
Proof.
  intros Hok [[-> ->]|(h & e & -> & -> & _)]; [done|]. split; [|by rewrite dom_insert_L]. intros [h' Hh]%elem_of_dom. destruct (ck_handles _ _ _ _ _ (tk_counts _ Hok) _ _ Hh) as [? _]. lia.
Qed.

Hypothesis Hcb : callbacks_return (S := S).

Lemma used_left (v v' : vfs S) : used v v' -> ids_left_of v - 1 <= ids_left_of v'.
Proof. unfold used, ids_left_of. lia. Qed.

Lemma open_from_law fs d p fl (v v' : vfs S) r : table_ok v -> 2 <= ids_left_of v -> vfs_open_file_from fs d p fl mem v = Ok (v', r) ->
  table_ok v' /\ ids_left_of v - 1 <= ids_left_of v' /\ match r with None => dom (handles v') = dom (handles v) | Some q => q ∉ dom (handles v) /\ dom (handles v') = {[q]} ∪ dom (handles v) end.
Proof.
  intros Hok Hl E. assert (ids_left_of v - 1 <= ids_left_of v') as Hu by (apply used_left; eapply open_ids, E; apply Hok). destruct (filesystems v !! fs) as [x|] eqn:Efs.
  - destruct (fl <? 2 * VFS_TRUNCATABLE) eqn:Ef; [|unfold vfs_open_file_from, assert_ in E; rewrite Ef in E; done]. unfold ids_left_of in Hl. destruct (vfs_open_file_from_ok v fs d p fl mem Hcb Hok) as (v1 & r1 & E1 & Hok1 & Ho); [by exists x|lia|lia|lia|]. rewrite E1 in E. injection E as <- <-. split_and!; [done|done|]. by eapply opened_live.
  - assert (v' = v /\ r = None) as [-> ->]; [|by split_and!]. unfold vfs_open_file_from, assert_ in E. destruct (fl <? _); [|done]. cbn [mbind res_bind] in E. destruct (negb _); [by injection E as <- <-|]. destruct (_ && _); [by injection E as <- <-|]. destruct (_ && _); [by injection E as <- <-|].
    exfalso. unfold create_handler, get_fs in E. cbn [handle_next_id] in E. change (filesystems (set_ids _ _ _)) with (filesystems v) in E. rewrite Efs in E. done.
Qed.

Lemma open_file_law path fl (d : vdirs S) (v : vfs S) d' v' r : table_ok v -> 2 <= ids_left_of v -> vfs_open_file path fl mem d v = Ok (d', v', r) ->
  table_ok v' /\ ids_left_of v - 1 <= ids_left_of v' /\ match r with None => dom (handles v') = dom (handles v) | Some q => q ∉ dom (handles v) /\ dom (handles v') = {[q]} ∪ dom (handles v) end.
Proof.
  intros Hok Hl E. unfold vfs_open_file in E. destruct (vfs_open path _) as [[d1 x]|] eqn:Eo; [|done]. apply vfs_open_counts in Eo. cbn [mbind res_bind] in E. change (mounted (set_mounted d (filesystems v))) with (filesystems v) in Eo.
  match type of E with mbind _ ?m = _ => destruct m as [[d2 y]|] eqn:Ey; [|done] end. cbn [mbind res_bind] in E. assert (snd <$> mounted d2 = snd <$> filesystems v) as Ec.
  { rewrite <- Eo. destruct x as [x|]; [injection Ey as <- _; done|]. destruct (negb _); [by injection Ey as <- _|]. destruct (vfs_create _ _ _) as [[d3 e]|] eqn:E3; [|done]. apply vfs_create_counts in E3. cbn [mbind res_bind] in Ey. rewrite <- E3. destruct (negb _); [by injection Ey as <- _|].
    destruct (vfs_open _ _) as [[d4 z]|] eqn:E4; [|done]. apply vfs_open_counts in E4. cbn [mbind res_bind] in Ey. rewrite <- E4. destruct z as [z|]; [|done]. by injection Ey as <- _. }
  destruct (table_ok_filesystems v _ Hok Ec) as [Hok1 Ha]. set (v1 := set_filesystems v (mounted d2)) in *. rewrite <- (ids_left_alike _ _ Ha) in Hl |- *. rewrite <- (dom_alike _ _ Ha). destruct y as [[fs dirent]|]; [|injection E as _ <- <-; split_and!; [done|lia|done]].
  destruct (vfs_open_file_from _ _ _ _ _ _) as [[v2 h]|] eqn:Ef; [|done]. cbn [mbind res_bind] in E. injection E as _ <- <-. by eapply open_from_law.
Qed.

Lemma create_pipe_law v v' o i : table_ok v -> 3 <= ids_left_of v -> create_pipe_ends v = Ok (v', (o, i)) ->
  table_ok v' /\ ids_left_of v - 2 <= ids_left_of v' /\ o ∉ dom (handles v) /\ i ∉ dom (handles v) /\ o <> i /\ dom (handles v') = {[o; i]} ∪ dom (handles v).
Proof.
  intros Hok Hl E. unfold create_pipe_ends in E. destruct (get_fs pipefs v) as [[s n]|] eqn:Eg; [|done]. cbn [mbind res_bind] in E. destruct (create_file s) as [[s1 id]|]; [|done]. cbn [mbind res_bind] in E. assert (snd <$> <[pipefs := (s1, n)]> (filesystems v) = snd <$> filesystems v) as Ec.
  { unfold get_fs in Eg. destruct (filesystems v !! pipefs) as [x|] eqn:Ex; [|done]. injection Eg as ->. rewrite fmap_insert. apply insert_id. by rewrite lookup_fmap, Ex. }
  destruct (table_ok_filesystems v _ Hok Ec) as [Hok1 Ha]. change (put_fs pipefs s1 n v) with (set_filesystems v (<[pipefs := (s1, n)]> (filesystems v))) in E. set (v1 := set_filesystems v _) in *. rewrite <- (ids_left_alike _ _ Ha) in Hl |- *. rewrite <- (dom_alike _ _ Ha). clearbody v1.
  destruct (vsprintf PIPE_OUT _) as [[p1 ?]|]; [|done]. cbn [mbind res_bind] in E. destruct (vfs_open_file_from _ _ _ _ _ v1) as [[v2 [o'|]]|] eqn:E2; [|done|done]. cbn [mbind res_bind] in E. destruct (open_from_law _ _ _ _ _ _ _ Hok1 ltac:(lia) E2) as (Hok2 & Hl2 & Ho & Ed2).
  destruct (vsprintf PIPE_IN _) as [[p2 ?]|]; [|done]. cbn [mbind res_bind] in E. destruct (vfs_open_file_from _ _ _ _ _ v2) as [[v3 [i'|]]|] eqn:E3; [|done|done]. cbn [mbind res_bind] in E. destruct (open_from_law _ _ _ _ _ _ _ Hok2 ltac:(lia) E3) as (Hok3 & Hl3 & Hi & Ed3). injection E as <- <- <-.
  rewrite Ed2 in Hi, Ed3. split_and!; [done|lia|done|set_solver|set_solver|rewrite Ed3; set_solver].
Qed.

#[refine] Definition vfs_open_files : OpenFiles files_state := {|
  live x := dom (handles x.2);
  ready x := table_ok x.2;
  ids_left x := ids_left_of x.2;
  of_open_file path fl x := '(d, v, h) ← vfs_open_file path fl mem x.1 x.2; Ok ((d, v), h);
  of_dup p := on_files (vfs_handle_dup p mem);
  of_close p x := v ← vfs_close_file p x.2; Ok (x.1, v);
  of_pipe := on_files create_pipe_ends
|}.
Proof.
  - intros path fl [d v] [d' v'] r Hok Hl E. cbn [fst snd] in *. destruct (vfs_open_file path fl mem d v) as [[[d1 v1] h]|] eqn:E1; [|done]. injection E as <- <- <-. by eapply open_file_law.
  - intros p [d v] Hok Hl [h Hp]%elem_of_dom. cbn [fst snd] in *. unfold ids_left_of in Hl. destruct (vfs_handle_dup_ok v p h mem Hcb Hok Hp) as (v1 & r & E1 & Hok1 & Ho); [lia|]. exists (d, v1), r. unfold on_files. cbn [fst snd]. rewrite E1. split_and!; [done|done| |by eapply opened_live]. apply used_left. eapply dup_ids, E1. apply Hok.
  - intros p [d v] Hok [h Hp]%elem_of_dom. cbn [fst snd] in *. destruct (vfs_close_file_ok v p h Hcb Hok Hp) as (v1 & E1 & Hok1 & Eh & _). exists (d, v1). rewrite E1. split_and!; [done|done| |cbn; rewrite Eh; apply dom_delete_L]. cbn. apply close_ids in E1 as [= E2 E3]. unfold ids_left_of. rewrite E2, E3. done.
  - intros [d v] [d' v'] o i Hok Hl E. unfold on_files in E. cbn [fst snd] in *. destruct (create_pipe_ends v) as [[v1 [o1 i1]]|] eqn:E1; [|done]. cbn [mbind res_bind] in E. injection E as <- <- <- <-. by eapply create_pipe_law.
Defined.

Hypothesis Hfit : reads_fit (S := S).

#[refine] Definition vfs_file_io : FileIO files_state := {|
  io_read n p x := '(v, data, r) ← vfs_read_file n p x.2; Ok ((x.1, v), data, r);
  io_write data p := on_files (vfs_write_file data p mem);
  io_seek p off whence := on_files (vfs_seek_file p off whence);
  io_truncate p n := on_files (vfs_truncate_file p n);
  io_rewind p x := h ← get_handle p x.2; Ok (x.1, put_handle p (set_cursor h 0 (sector_offset h) (sector_count h)) x.2);
  io_opendir path := on_dirs (fun d => '(d, r) ← vfs_opendir path d; Ok (d, option_map dir_of r));
  io_stat path := on_dirs (fun d => '(d, r) ← vfs_open path d; Ok (d, option_map snd r))
|}.
Proof.
  intros n p [d v] x' data r Hn E. cbn [fst snd] in E. destruct (vfs_read_file n p v) as [[[v1 l] r1]|] eqn:E1; [|done]. cbn [mbind res_bind] in E. injection E as <- <- <-. by eapply vfs_read_len.
Defined.

Lemma calm_quiet d d' v v' : calm v v' -> @quietly _ vfs_open_files (d, v) (d', v').
Proof. intros [Hok Ha] _. cbn. split_and!; [done|by apply dom_alike|by rewrite (ids_left_alike v v')]. Qed.

Lemma on_files_quiet {A} (f : vfs S -> res (vfs S * A)) x x' a : (forall v v' a, table_ok v -> f v = Ok (v', a) -> calm v v') -> on_files f x = Ok (x', a) -> @quietly _ vfs_open_files x x'.
Proof.
  intros Hf E Hr. destruct x as [d v], x' as [d' v']. unfold on_files in E. cbn [fst snd] in E. destruct (f v) as [[v1 b]|] eqn:E1; [|done]. cbn [mbind res_bind] in E. injection E as <- <- <-. apply calm_quiet; [|done]. by eapply Hf.
Qed.

Lemma on_dirs_quiet {A} (f : vdirs S -> res (vdirs S * A)) x x' a : (forall d d' a, f d = Ok (d', a) -> snd <$> mounted d' = snd <$> mounted d) -> on_dirs f x = Ok (x', a) -> @quietly _ vfs_open_files x x'.
Proof.
  intros Hf E Hr. destruct x as [d v], x' as [d' v']. unfold on_dirs in E. cbn [fst snd] in E. destruct (f _) as [[d1 b]|] eqn:E1; [|done]. apply Hf in E1. cbn [mbind res_bind] in E. injection E as <- <- <-. apply calm_quiet; [|done]. by apply table_ok_filesystems.
Qed.

Lemma vfs_quiet : @quiet_io _ vfs_open_files vfs_file_io.
Proof.
  constructor; cbn [io_read io_write io_seek io_truncate io_rewind io_opendir io_stat vfs_file_io].
  - intros n p [d v] x' l r E Hr. cbn [fst snd] in E. destruct (vfs_read_file n p v) as [[[v1 l1] r1]|] eqn:E1; [|done]. injection E as <- <- <-. apply calm_quiet; [|done]. by eapply vfs_read_calm.
  - intros l p x x' r. apply on_files_quiet. intros v v' a. apply vfs_write_calm.
  - intros p o w x x' r. apply on_files_quiet. intros v v' a. apply vfs_seek_calm.
  - intros p n x x' r. apply on_files_quiet. intros v v' a. apply vfs_truncate_calm.
  - intros p [d v] x' E Hr. cbn [fst snd] in E. destruct (get_handle p v) as [h|] eqn:Eh; [|done]. apply get_handle_some in Eh. cbn [mbind res_bind] in E. injection E as <-. apply calm_quiet; [|done]. by apply (handle_calm v p h).
  - intros s x x' r E. refine (on_dirs_quiet _ x x' r _ E). clear E. intros d d' a E. destruct (vfs_opendir s d) as [[d1 y]|] eqn:E1; [|done]. injection E as <- _. by eapply vfs_opendir_counts.
  - intros s x x' r E. refine (on_dirs_quiet _ x x' r _ E). clear E. intros d d' a E. destruct (vfs_open s d) as [[d1 y]|] eqn:E1; [|done]. injection E as <- _. by eapply vfs_open_counts.
Qed.
(** ** The kernel's files *)

#[local] Existing Instance vfs_open_files.
#[local] Existing Instance vfs_file_io.

Notation kernel := (system (V := files_state)).

(** No file is open and no descriptor is one of a file. *)
Definition fresh (s : kernel) : Prop :=
  nothing_open (files s).2 /\ forall pid p, procs s !! pid = Some p -> zlen (fds p) = MAX_FDS /\ forall f, f ∈ fds p -> handle_of f = None.

Lemma fresh_ok s : fresh s -> sys_ok ∅ s.
Proof.
  intros [Hn Hp]. pose proof Hn as (_ & Eh & _). split; [by apply table_ok_start|intros pid p Hq; by destruct (Hp pid p Hq)|]. assert (forall k, owner (procs s) k = None) as Ho.
  { intros [pid i]. unfold owner. cbn [fst snd]. destruct (procs s !! pid) as [p|] eqn:Ep; [|done]. cbn. destruct (fds p !! i) as [f|] eqn:Ef; [|done]. cbn. apply (Hp pid p Ep). by eapply list_elem_of_lookup_2. }
  split.
  - intros h. cbn. rewrite Eh, dom_empty_L. split; [by intros ?%elem_of_empty|]. intros [?%elem_of_empty|[k Hk]]; [done|]. by rewrite Ho in Hk.
  - intros k h Hk. by rewrite Ho in Hk.
  - intros k k' h Hk. by rewrite Ho in Hk.
Qed.

End Implementation.
