(* ===== verification/SyscallsWitness.v ===== *)
(** * System calls: a small kernel

    A file system with one file, and the theorems on descriptors and memory at processes that open it. *)

From S2P Require Import Prelude Bytes FileSystems CString Paths VfsFiles VfsRead VfsTable VfsTableTheorems VfsDirs Sprintf Syscalls SyscallsTheorems SyscallsVfs.


(** A file system with one file, [a], of zeroes; the inodes of pipes are any others. *)
#[local] Instance zero_files : FileSystem unit := {
  file_access_granularity _ := 1;
  cacheable _ := false;
  read_file_sectors _ _ n s := Ok (s, replicate (Z.to_nat n) 0, n);
  write_file_sectors f _ _ n s := Ok (s, f, n);
  truncate_file f n s := Ok (s, File (addr f) n, 0);
  open_file _ _ := None;
  close_file _ _ := None;
  open_instance _ _ _ := None;
  close_instance _ _ _ := None
}.
#[local] Instance zero_dirs : DirectoryFS unit := {
  root_addr _ := 2;
  fs_read_dir _ s := Ok (s, [DirEnt [97] (Dirent 3 100 DT_REG true true false true true)]);
  fs_add_dirent _ _ _ s := Ok (s, 1);
  fs_update_dirent _ _ _ _ s := Ok (s, 1)
}.

Lemma zero_callbacks : callbacks_return (S := unit).
Proof. by constructor. Qed.
Lemma zero_fit : reads_fit (S := unit).
Proof. constructor; [cbn; lia|]. intros f b n s s' data rd [= _ <- _]. unfold zlen. rewrite length_replicate. cbn. lia. Qed.

Definition zero_mem (n : Z) : list Z := [].
Definition zero_create (s : unit) : res (unit * Z) := Ok (s, 7).
Definition zero_bytes (e : dirent) : list Z := [].
#[local] Instance zero_open : OpenFiles (files_state (S := unit)) := vfs_open_files zero_mem 0 zero_create zero_callbacks.
#[local] Instance zero_io : FileIO (files_state (S := unit)) := vfs_file_io zero_mem zero_bytes zero_fit.

(** Two processes; the path "/a" is on the stack of the first. *)
Definition proc1 (l : list file_desc) : uproc := UProc l [47] [(1000, 100)] 0 0 [].
Definition no_fds : list file_desc := replicate 32 FD_NONE.
Definition path_mem : memory := {[1000 := 47; 1001 := 97; 1002 := 0]}.
Definition files0 : files_state (S := unit) := (VDirs (Vdir [] (Some 0) [SLASH]) (replicate 4 None) ∅, Vfs [] 0 1 false [] [] [] ∅ {[0 := (tt, 0)]}).
Definition sys0 : system := Sys {[1 := proc1 no_fds]} files0.
Definition k1 := match sc_open 1000 3 VFS_READ (K (proc1 no_fds) files0 path_mem) with Ok (k, _) => k | Err _ => K (proc1 no_fds) files0 path_mem end.
Definition sys1 : system := Sys (<[1 := k_proc k1]> (procs sys0)) (k_files k1).
Definition inherited : files_state * list file_desc := match inherit_fds (fds (k_proc k1)) 0 [] (k_files k1) with Ok x => x | Err _ => (files0, []) end.
Definition sys2 : system := Sys (<[2 := set_fds (proc1 []) inherited.2]> (procs sys1)) inherited.1.

Lemma open_a : sc_open 1000 3 VFS_READ (K (proc1 no_fds) files0 path_mem) = Ok (k1, 0).
Proof. vm_compute. reflexivity. Qed.
Lemma inherit_a : inherit_fds (fds (k_proc k1)) 0 [] (k_files k1) = Ok (inherited.1, inherited.2).
Proof. vm_compute. reflexivity. Qed.
Lemma left0 : 3 <= ids_left files0.
Proof. vm_compute. discriminate. Qed.
Lemma left1 : MAX_FDS + 2 <= ids_left (k_files k1).
Proof. vm_compute. discriminate. Qed.

Lemma sys_step1 : sys_step 1 sys0 sys1.
Proof. exact (step_call 1 sys0 1 (proc1 no_fds) path_mem (COpen 1000 3 VFS_READ) k1 0 eq_refl left0 I open_a). Qed.
Lemma sys_step2 : sys_step 1 sys1 sys2.
Proof. refine (step_create 1 sys1 1 (k_proc k1) 2 0 (proc1 []) inherited.1 inherited.2 _ _ left1 inherit_a); vm_compute; reflexivity. Qed.

Lemma fresh0 : fresh sys0.
Proof.
  split; [split_and!; try done; intros p s n Hp; cbn in Hp; by apply lookup_singleton_Some in Hp as [_ [= _ <-]]|]. intros pid p Hp. apply (lookup_singleton_Some (M := gmap Z) 1 pid (proc1 no_fds)) in Hp as [_ <-]. split; [reflexivity|]. intros f Hf. apply (elem_of_replicate 32) in Hf as [-> _]. reflexivity.
Qed.


(** A process with 31 directories and one descriptor left. *)
Definition one_left : uproc := proc1 (FD_NONE :: replicate 31 (FD_DIR (Dir_ 0 []) 0)).
Definition sys3 : system := Sys {[1 := one_left]} files0.
Definition piped : files_state * (Z * Z) := match of_pipe files0 with Ok x => x | Err _ => (files0, (0, 0)) end.

Lemma fresh3 : fresh sys3.
Proof.
  split; [apply fresh0|]. intros pid p Hp. apply (lookup_singleton_Some (M := gmap Z) 1 pid one_left) in Hp as [_ <-]. split; [reflexivity|]. intros f [->|Hf]%elem_of_cons; [reflexivity|]. by apply (elem_of_replicate 31) in Hf as [-> _].
Qed.
Lemma piped_ok : of_pipe files0 = Ok (piped.1, (piped.2.1, piped.2.2)).
Proof. vm_compute. reflexivity. Qed.

Lemma sc_pipe_witness : exists k fd, sc_pipe (K one_left files0 ∅) = Ok (k, FAIL) /\ fds (k_proc k) !! Z.to_nat fd = Some (FD_FILE (Some 1)) /\ 1 ∉ live (k_files k).
Proof.
  destruct (sc_pipe_last_descriptor ∅ sys3 1 one_left ∅ piped.1 piped.2.1 piped.2.2 (fresh_ok zero_mem 0 zero_create zero_callbacks sys3 fresh3) eq_refl left0 eq_refl piped_ok) as (k & fd & E & _ & Ef & Hl).
  exists k, fd. split_and!; [exact E|exact Ef|exact Hl].
Defined.

(** The working directory is written to the stack. *)
Definition k2 := match sc_getcwd 1000 50 (K (proc1 no_fds) files0 path_mem) with Ok (k, _) => k | Err _ => K (proc1 no_fds) files0 path_mem end.
Lemma getcwd_ok : sc_getcwd 1000 50 (K (proc1 no_fds) files0 path_mem) = Ok (k2, 1000).
Proof. vm_compute. reflexivity. Qed.

Lemma run_memory_witness : k_mem k2 !! 1001 <> path_mem !! 1001 /\ exists x, x ∈ ranges (proc1 no_fds) /\ x.1 <= 1001 < u64 (x.1 + x.2).
Proof.
  assert (k_mem k2 !! 1001 <> path_mem !! 1001) as Hne by (vm_compute; discriminate). split; [exact Hne|].
  exact (run_memory_safe 1 (CGetcwd 1000 50) (K (proc1 no_fds) files0 path_mem) k2 1000 1001 ltac:(cbn; lia) ltac:(cbn; lia) I getcwd_ok Hne).
Defined.
