(* ===== verification/Devfs.v ===== *)
(** * The device file system ([kernel/fs/devfs/devfs.c])

    Each file is a device: two functions of its driver that read and write.  The table of the files
    changes when drivers register; over a fixed table the devices, with a state [W], are a file system,
    and what a process reads and writes through the virtual file system is what the functions of the
    driver get.  The assertions on the interrupt flag are left out. *)

From S2P Require Import Prelude Bytes FileSystems CString CStringProofs Paths PathsProofs VfsFiles VfsRead VfsTable VfsTableTheorems VfsDirs VfsDirsOpen.

Definition DEVFS_MAX_NAME_LEN : Z := 32.

(** [file_rights_t]. *)
Record rights := Rights { r_read : bool; r_write : bool; r_exec : bool; r_seekable : bool; r_truncatable : bool }.

Section Devfs.
Context {W : Type}.

(** [devfs_file_interface_t]; the functions are applied to [arg].  They get the position, the number of
    bytes, and for a write the bytes. *)
Record device := Device {
  dev_read : Z -> Z -> W -> res (W * list Z * Z);
  dev_write : list Z -> Z -> Z -> W -> res (W * Z);
  dev_size : Z;
  dev_rights : rights }.
Record devfs_file := DevFile { df_id : Z; df_dev : device; df_name : list Z }.

(** [struct devfs_priv], and the static [cur_id] of [devfs_map_device]. *)
Record devfs := Devfs { dev_files : list devfs_file; dev_cur_id : Z }.

Definition devfs_find (t : devfs) (a : Z) : option devfs_file := snd <$> list_find (fun f => df_id f = a) (dev_files t).

Definition devfs_read (t : devfs) (fd : file) (begin n : Z) (w : W) : res (W * list Z * Z) :=
  match devfs_find t (addr fd) with
  | Some f => assert_ (r_read (dev_rights (df_dev f))) "f->rights.read" ;; dev_read (df_dev f) begin n w
  | None => Ok (w, [], -1)
  end.

Definition devfs_write (t : devfs) (fd : file) (buf : list Z) (begin n : Z) (w : W) : res (W * file * Z) :=
  match devfs_find t (addr fd) with
  | Some f => assert_ (r_write (dev_rights (df_dev f))) "f->rights.write" ;; '(w, r) ← dev_write (df_dev f) buf begin n w; Ok (w, fd, r)
  | None => Ok (w, fd, -1)
  end.

Definition devfs_dirent (f : devfs_file) : dirent :=
  let r := dev_rights (df_dev f) in
  DirEnt (df_name f) (Dirent (df_id f) (dev_size (df_dev f)) DT_REG (r_read r) (r_write r) (r_exec r) (r_seekable r) (r_truncatable r)).

(** For another directory than the root the result is null and the number of entries is not set. *)
Definition devfs_read_dir (t : devfs) (dir_addr : Z) (w : W) : res (W * list dirent) :=
  if negb (dir_addr =? 0) then Err (Fault "n") else Ok (w, devfs_dirent <$> dev_files t).

(** 0 on success. *)
Definition devfs_map_device (fi : device) (name : list Z) (t : devfs) : devfs * Z :=
  if r_truncatable (dev_rights fi) then (t, -1)
  else if DEVFS_MAX_NAME_LEN <=? zlen name then (t, -1)
  else
    let cur := if dev_cur_id t =? 0 then 1 else dev_cur_id t in
    (Devfs (dev_files t ++ [DevFile cur fi name]) (u64 (cur + 1)), 0).

(** [free(file)] frees the whole table when the file is the first one, and is a pointer into a block
    otherwise. *)
Definition devfs_unmap_device (name : list Z) (t : devfs) : res (devfs * Z) :=
  match list_find (fun f => df_name f = name) (dev_files t) with
  | None => Ok (t, -1)
  | Some (O, _) => Err (Fault "priv->files")
  | Some _ => Err (Fault "free")
  end.

(** [dev_null]. *)
Definition null_device : device :=
  Device (fun _ _ w => Ok (w, [], 0)) (fun _ _ count w => Ok (w, s32 count)) (u64 (-1)) (Rights true true false true false).
Definition NULL_NAME : list Z := [110; 117; 108; 108].
Definition dev_null (t : devfs) : res devfs := let '(t, r) := devfs_map_device null_device NULL_NAME t in assert_ (r =? 0) "!res" ;; Ok t.

(** [devfs_mount], with what [cur_id] is. *)
Definition devfs_mount (cur : Z) : res devfs := dev_null (Devfs [] cur).

(** ** The table *)

(** Names can be walked to, and are distinct like the numbers. *)
Record devfs_ok (t : devfs) : Prop := {
  do_ids : NoDup (df_id <$> dev_files t);
  do_range : forall f, f ∈ dev_files t -> 0 < df_id f < dev_cur_id t;
  do_names : NoDup (df_name <$> dev_files t);
  do_name : forall f, f ∈ dev_files t -> proper (df_name f) /\ zlen (df_name f) < DEVFS_MAX_NAME_LEN;
  do_rights : forall f, f ∈ dev_files t -> any_right (d_fast (devfs_dirent f)) = true;
  do_truncate : forall f, f ∈ dev_files t -> r_truncatable (dev_rights (df_dev f)) = false }.

Lemma devfs_find_ok t f : devfs_ok t -> f ∈ dev_files t -> devfs_find t (df_id f) = Some f.
Proof.
  intros [Hn _ _ _ _ _] Hf. unfold devfs_find. destruct (list_find_elem_of (fun x => df_id x = df_id f) (dev_files t) f Hf eq_refl) as [[i x] E]. rewrite E. apply list_find_Some in E as (Hi & Ex & _). cbn. f_equal.
  apply list_elem_of_lookup in Hf as [j Hj]. assert (i = j) as ->; [|congruence]. apply (NoDup_lookup (df_id <$> dev_files t) i j (df_id f)); [exact Hn| |]; rewrite list_lookup_fmap; [rewrite Hi|rewrite Hj]; cbn; congruence.
Qed.

Lemma devfs_map_ok fi name t : devfs_ok t -> 0 < dev_cur_id t < 2 ^ 64 - 1 -> proper name -> name ∉ df_name <$> dev_files t -> any_right (d_fast (devfs_dirent (DevFile 0 fi name))) = true ->
  devfs_ok (devfs_map_device fi name t).1 /\ dev_cur_id t <= dev_cur_id (devfs_map_device fi name t).1 <= dev_cur_id t + 1.
Proof.
  intros Hok Hc Hp Hn Hr. pose proof Hok as [H1 H2 H3 H4 H5 H6]. unfold devfs_map_device. destruct (r_truncatable _) eqn:Et; [cbn; split; [done|lia]|]. destruct (Z.leb_spec DEVFS_MAX_NAME_LEN (zlen name)); [cbn; split; [done|lia]|]. rewrite (proj2 (Z.eqb_neq _ _)) by lia. rewrite u64_small by lia. cbn [fst]. split; [|cbn; lia].
  constructor; cbn.
  - rewrite fmap_app. apply list.NoDup_app. split_and!; [done| |apply NoDup_singleton]. intros x (f & -> & Hf)%list_elem_of_fmap Hx%list_elem_of_singleton. specialize (H2 f Hf). cbn in Hx. lia.
  - intros f [Hf| ->%list_elem_of_singleton]%elem_of_app; [specialize (H2 f Hf); lia|cbn; lia].
  - rewrite fmap_app. apply list.NoDup_app. split_and!; [done| |apply NoDup_singleton]. intros x Hx ->%list_elem_of_singleton. done.
  - intros f [Hf| ->%list_elem_of_singleton]%elem_of_app; [by apply H4|done].
  - intros f [Hf| ->%list_elem_of_singleton]%elem_of_app; [by apply H5|exact Hr].
  - intros f [Hf| ->%list_elem_of_singleton]%elem_of_app; [by apply H6|exact Et].
Qed.
End Devfs.
Arguments device : clear implicits.
Arguments devfs_file : clear implicits.
Arguments devfs : clear implicits.

(** ** The file system *)

Section FileSystem.
Context {W : Type} (t : devfs W).

Definition devfs_file_system : FileSystem W := {|
  file_access_granularity _ := 1;
  cacheable _ := false;
  read_file_sectors := devfs_read t;
  write_file_sectors := devfs_write t;
  truncate_file _ _ _ := Err (Panic "truncate not implemented");
  open_file _ _ := None;
  close_file _ _ := None;
  open_instance _ _ _ := None;
  close_instance _ _ _ := None |}.

Definition devfs_directory : DirectoryFS W := {|
  root_addr _ := 0;
  fs_read_dir := devfs_read_dir t;
  fs_add_dirent _ _ _ w := Ok (w, -1);
  fs_update_dirent _ _ _ _ w := Ok (w, 0) |}.

#[local] Existing Instance devfs_file_system.
#[local] Existing Instance devfs_directory.

Hypothesis Hok : devfs_ok t.

#[refine] Definition devfs_tree : DirectoryTree W := {|
  is_dir _ i := i = 0;
  entries _ i := if i =? 0 then devfs_dirent <$> dev_files t else [] |}.
Proof.
  - intros w i ->. exists w. split_and!; done.
  - done.
  - intros w i e -> He Ht. cbn in He. apply list_elem_of_fmap in He as (f & -> & _). done.
  - intros w i e -> He. cbn in He. apply list_elem_of_fmap in He as (f & -> & Hf). right. by apply (do_rights _ Hok).
  - intros w i e -> He. cbn in He. apply list_elem_of_fmap in He as (f & -> & Hf). destruct (do_name _ Hok f Hf) as [[? _] ?]. unfold DEVFS_MAX_NAME_LEN in *. cbn. split; [done|lia].
  - intros w i ->. cbn. rewrite <- list_fmap_compose. apply (do_names _ Hok).
Defined.
#[local] Existing Instance devfs_tree.

(** A registered device is found under its name. *)
Lemma devfs_walk w f : f ∈ dev_files t -> walk w (root_dirent w) [df_name f] = Found (d_fast (devfs_dirent f)).
Proof.
  intros Hf. cbn. destruct (list_find_elem_of (fun e => d_name e = df_name f) (devfs_dirent <$> dev_files t) (devfs_dirent f)) as [[i e] E]; [by apply list_elem_of_fmap_2|done|]. rewrite E. f_equal. apply list_find_Some in E as (Hi & En & _). rewrite list_lookup_fmap in Hi. destruct (dev_files t !! i) as [g|] eqn:Eg; [|done]. cbn in Hi. injection Hi as <-. cbn in En.
  apply list_elem_of_lookup in Hf as [j Hj]. assert (i = j) as ->; [|rewrite Eg in Hj; by injection Hj as ->]. apply (NoDup_lookup (df_name <$> dev_files t) i j (df_name f)); [exact (do_names _ Hok)| |]; rewrite list_lookup_fmap; [rewrite Eg|rewrite Hj]; cbn; congruence.
Qed.

(** ** Reading and writing a device *)

(** The handle [p] is open on the device [f]; a device has no end. *)
Record on_device (v : vfs W) (p : Z) (h : file_handle) (i : nat) (e : file_ent) (w : W) (n : Z) (f : devfs_file W) : Prop := {
  od_handle : handles v !! p = Some h;
  od_entry : idle_entry v (vfile_id h) i e;
  od_fs : filesystems v !! handle_fs h = Some (w, n);
  od_device : devfs_find t (addr (ent_file e)) = Some f;
  od_size : file_size (ent_file e) = 2 ^ 64 - 1;
  od_cursor : cursor_ok h 1 }.

Lemma od_moved v v' p h i e w n f h' w' : on_device v p h i e w n f -> open_files v' = open_files v -> vfile_lock v' = vfile_lock v -> handles v' !! p = Some h' -> filesystems v' !! handle_fs h = Some (w', n) ->
  same_handle h h' -> cursor_ok h' 1 -> on_device v' p h' i e w' n f.
Proof.
  intros [H1 [Hf He Ha Hl] H3 H4 H5 H6] Eo El Eh Efs [S1 S2 S3 S4] Hc. constructor; try done; [|by rewrite S1]. rewrite S2. constructor; [|by rewrite Eo|done|by rewrite El]. rewrite <- Hf. apply find_vfile_ids. by rewrite Eo.
Qed.

Lemma cursor_bytes h : cursor_ok h 1 -> sector_offset h = 0 /\ sector_count h = file_offset h.
Proof. intros [? -> ->]. by rewrite Z.mod_1_r, Z.div_1_r. Qed.

Lemma blocks_bytes m : 0 <= m < 2 ^ 32 - 1 -> CEIL_DIV m 1 = m.
Proof. intros Hm. unfold CEIL_DIV. rewrite u32_small by lia. rewrite Z.div_1_r. lia. Qed.

Lemma device_write v p h i e w n f ptr mem w' r : on_device v p h i e w n f -> has_flag (flags h) VFS_WRITE = true -> has_flag (flags h) VFS_APPEND = false -> flags h < 256 -> r_write (dev_rights (df_dev f)) = true ->
  0 < zlen ptr < 2 ^ 31 -> file_offset h + zlen ptr < 2 ^ 48 -> dev_write (df_dev f) ptr (file_offset h) (zlen ptr) w = Ok (w', r) ->
  exists v' h', vfs_write_file ptr p mem v = Ok (v', if r <? 0 then u64 (-1) else zlen ptr) /\ on_device v' p h' i e w' n f /\ same_handle h h' /\ file_offset h' = file_offset h + zlen ptr.
Proof.
  intros Hd Hw Ha Hfl Hr Hn Ho E. pose proof Hd as [H1 Hi H3 H4 H5 H6]. destruct (cursor_bytes h H6) as [E0 E1]. pose proof (cu_range _ _ H6) as Hoff.
  unfold vfs_write_file, get_handle, assert_. rewrite H1. cbn [mbind res_bind]. rewrite (proj2 (Z.ltb_lt (flags h) _)) by (unfold VFS_TRUNCATABLE; lia). cbn [mbind res_bind]. rewrite Hw. cbn [negb]. rewrite (proj2 (Z.eqb_neq (zlen ptr) 0)) by lia. unfold get_fs. rewrite H3. cbn [mbind res_bind]. rewrite (acquire_file_access_ok v _ i e Hi). cbn [mbind res_bind]. rewrite Ha.
  cbn [file_access_granularity cacheable devfs_file_system]. unfold write_blocks, assert_. rewrite E0, Z.add_0_l, u32_small, blocks_bytes, Z.mod_1_r by lia. rewrite (u64_small (zlen ptr)) by lia. rewrite Z.mul_1_r, Z.leb_refl. cbn [mbind res_bind Z.eqb andb].
  cbn [write_file_sectors devfs_file_system]. unfold devfs_write, assert_. rewrite H4, Hr, E1, E. cbn [mbind res_bind]. rewrite H5. change (2 ^ 64 - 1 =? u64 (-1)) with true. cbn [negb andb orb]. rewrite Z.eqb_refl. cbn [negb mbind res_bind].
  set (h' := set_cursor h _ _ _). set (v1 := put_handle p h' _). change (vfile_id h') with (vfile_id h). rewrite (release_file_access_ok v v1 _ i e Hi); [|done|apply Hi]. cbn [mbind res_bind]. eexists _, h'. split; [reflexivity|]. assert (file_offset h' = file_offset h + zlen ptr) as Eo' by (cbn; rewrite u64_small by lia; done). split_and!; [|done|done].
  eapply od_moved; [exact Hd|done|done|apply lookup_insert_eq|apply lookup_insert_eq|done|]. constructor; [rewrite Eo'; lia|cbn; by rewrite !Z.mod_1_r|done].
Qed.

Lemma device_read v p h i e w n f size w' data r : on_device v p h i e w n f -> has_flag (flags h) VFS_READ = true -> r_read (dev_rights (df_dev f)) = true ->
  0 < size < 2 ^ 31 -> file_offset h + size < 2 ^ 48 -> dev_read (df_dev f) (file_offset h) size w = Ok (w', data, r) -> r <= size ->
  exists v' h', vfs_read_file size p v = Ok (v', if r <? 0 then [] else data, if r <? 0 then u64 r else r) /\ on_device v' p h' i e w' n f /\ same_handle h h' /\ file_offset h' = file_offset h + Z.max 0 r.
Proof.
  intros Hd Hrd Hr Hn Ho E Hle. pose proof Hd as [H1 Hi H3 H4 H5 H6]. destruct (cursor_bytes h H6) as [E0 E1]. pose proof (cu_range _ _ H6) as Hoff.
  unfold vfs_read_file, get_handle. rewrite H1. cbn [mbind res_bind]. rewrite Hrd. cbn [negb]. unfold get_fs at 1. rewrite H3. cbn [mbind res_bind]. rewrite (acquire_file_access_ok v _ i e Hi). cbn [mbind res_bind]. rewrite H5. change (2 ^ 64 - 1 =? u64 (-1)) with true. cbn [negb andb].
  assert (u32 (Z.min size (u64 (2 ^ 64 - 1 - file_offset h))) = size) as -> by (rewrite (u64_small (2 ^ 64 - 1 - file_offset h)), Z.min_l, u32_small by lia; done). rewrite (proj2 (Z.leb_gt size 0)) by lia.
  cbn [file_access_granularity cacheable devfs_file_system]. unfold read_buffered. rewrite andb_false_r. cbn [mbind res_bind]. rewrite (proj2 (Z.eqb_neq size 0)) by lia.
  unfold read_blocks. rewrite E0, Z.add_0_l, (u32_small size), blocks_bytes, Z.mod_1_r by lia. cbn [Z.eqb andb negb]. cbn [read_file_sectors devfs_file_system]. unfold devfs_read, assert_. rewrite H4, Hr, E1, E. cbn [mbind res_bind]. destruct (Z.ltb_spec r 0) as [Hneg|Hpos].
  - cbn [mbind res_bind]. set (v1 := put_fs (handle_fs h) w' n _). rewrite (release_file_access_ok v v1 _ i e Hi); [|done|apply Hi]. cbn [mbind res_bind]. eexists _, h. split; [reflexivity|]. split_and!; [|done|lia]. eapply od_moved; [exact Hd|done|done|apply lookup_insert_eq|apply lookup_insert_eq|done|done].
  - assert (s32 size = size) as Es by (unfold s32, wrap; cbn; rewrite Z.mod_small by lia; by rewrite (proj2 (Z.ltb_lt _ _)) by lia). rewrite Es. change (1 =? 1) with true. cbn [mbind res_bind].
    set (h' := set_cursor h (u64 (file_offset h + r)) 0 (u64 (file_offset h + r) / 1)). assert (file_offset h' = file_offset h + r) as Eo' by (cbn; rewrite u64_small by lia; done).
    assert (release_file_access (vfile_id h) (put_handle p h' (put_fs (handle_fs h) w' n (put_handle p h (busy v i e)))) = Ok (set_open_files (put_handle p h' (put_fs (handle_fs h) w' n (put_handle p h (busy v i e)))) (open_files v))) as Erel
      by (exact (release_file_access_ok v (put_handle p h' (put_fs (handle_fs h) w' n (put_handle p h (busy v i e)))) (vfile_id h) i e Hi eq_refl (ie_lock _ _ _ _ Hi))).
    eexists _, h'. split.
    + destruct (Z.ltb_spec r size).
      * replace (u32 (size - (size - r))) with r by (rewrite u32_small by lia; lia). cbn [Pos.eqb mbind res_bind]. change (vfile_id (set_cursor h _ _ _)) with (vfile_id h). fold h'. rewrite Erel. cbn [mbind res_bind]. rewrite (proj2 (Z.leb_le r (2 ^ 64 - 1))) by lia. rewrite (proj2 (Z.eqb_neq r size)) by lia. done.
      * assert (r = size) as -> by lia. cbn [mbind res_bind]. change (vfile_id (set_cursor h _ _ _)) with (vfile_id h). fold h'. rewrite Erel. cbn [mbind res_bind]. rewrite (proj2 (Z.leb_le size (2 ^ 64 - 1))) by lia. rewrite Z.eqb_refl. done.
    + split_and!; [|done|rewrite Eo'; lia]. eapply od_moved; [exact Hd|done|done|apply lookup_insert_eq|apply lookup_insert_eq|done|]. constructor; [rewrite Eo'; lia|cbn; by rewrite Z.mod_1_r|cbn; by rewrite u64_small by lia].
Qed.

(** ** Opening *)

Lemma devfs_callbacks : callbacks_return (S := W).
Proof. by constructor. Qed.

Lemma search_device fs a len path v v' id w n : filesystems v !! fs = Some (w, n) -> search_or_insert_file fs a len path v = Ok (v', id) ->
  filesystems v' = <[fs := (w, n + 1)]> (filesystems v) /\ (forall e, e ∈ open_files v' -> e ∈ open_files v \/ ent_file e = File a len).
Proof.
  intros Hf E. unfold search_or_insert_file, lock_vfiles in E. destruct (vfile_lock v); [done|]. cbn [mbind res_bind] in E. unfold get_fs in E. cbn [filesystems set_lock] in E. rewrite Hf in E. cbn [mbind res_bind] in E.
  destruct (list_find _ _) as [[i e]|]; injection E as <- _; (split; [done|]); cbn; [by left|]. intros x [Hx| ->%list_elem_of_singleton]%elem_of_app; [by left|by right].
Qed.

Lemma device_open v fs w n f path mem : f ∈ dev_files t -> r_read (dev_rights (df_dev f)) = true -> r_write (dev_rights (df_dev f)) = true -> dev_size (df_dev f) = 2 ^ 64 - 1 ->
  table_ok v -> filesystems v !! fs = Some (w, n) -> (forall e, e ∈ open_files v -> ent_fs e = fs -> file_size (ent_file e) = 2 ^ 64 - 1) -> cur_id v + 1 < 2 ^ 64 -> next_id v + 1 < 2 ^ 64 ->
  exists v' h i e, vfs_open_file_from fs (d_fast (devfs_dirent f)) path (VFS_READ + VFS_WRITE) mem v = Ok (v', Some (next_id v)) /\ on_device v' (next_id v) h i e w (n + 1) f /\
    handle_fs h = fs /\ file_offset h = 0 /\ has_flag (flags h) VFS_READ = true /\ has_flag (flags h) VFS_WRITE = true /\ has_flag (flags h) VFS_APPEND = false /\ flags h < 256.
Proof.
  intros Hf Hr Hw Hsz Hv Hfs Hopen Hb1 Hb2. set (fl := if r_seekable (dev_rights (df_dev f)) then Z.lor (VFS_READ + VFS_WRITE) VFS_SEEKABLE else VFS_READ + VFS_WRITE).
  assert (has_flag fl VFS_READ = true /\ has_flag fl VFS_WRITE = true /\ has_flag fl VFS_APPEND = false /\ fl < 256) as (F1 & F2 & F3 & F4) by (unfold fl; by destruct (r_seekable _)).
  assert (vfs_open_file_from fs (d_fast (devfs_dirent f)) path (VFS_READ + VFS_WRITE) mem v = create_handler fs (d_fast (devfs_dirent f)) path fl mem v) as ->.
  { unfold vfs_open_file_from, devfs_dirent, assert_. cbn [d_fast dirent_type right_write right_read right_seekable right_truncatable]. rewrite Hr, Hw, (do_truncate _ Hok f Hf). cbn [mbind res_bind negb]. rewrite !andb_false_r. fold fl. cbn [Z.eqb DT_REG].
    destruct (create_handler _ _ _ _ _ _) as [[v1 [q|]]|]; cbn [mbind res_bind]; [by rewrite F3|done|done]. }
  destruct (numbered_next v Hv Hb2) as [E Hnu]. unfold create_handler. rewrite E. clear E. set (v1 := set_ids _ _ _) in *. unfold get_fs. cbn [filesystems v1 set_ids]. rewrite Hfs. cbn [mbind res_bind open_instance devfs_file_system]. cbn [negb Z.eqb].
  destruct (search_or_insert_ok v1 fs (df_id f) (dev_size (df_dev f)) path w n devfs_callbacks Hnu Hb1 Hfs) as (v3 & i & e & w3 & E3 & Haw & Ef & Ea & Eh & En & Hfs3).
  destruct (search_device fs _ _ _ v1 v3 _ w n Hfs E3) as [Efs3 He3]. cbn [d_fast devfs_dirent ino dirent_size]. rewrite E3. cbn [mbind res_bind]. set (h := Handle _ _ _ _ _ _ _ _ _).
  assert (next_id v = next_id v3 - 1) as Enext by (rewrite En; cbn; lia). rewrite Enext.
  destruct (register_ok v3 i e _ n h Haw) as (v4 & e' & -> & Hv4 & Eh4 & Efs4 & He' & Eid & Ef' & Efs'); [by rewrite Ef|done|]. cbn [mbind res_bind].
  assert (handles v4 !! (next_id v3 - 1) = Some (set_vfile h (ent_id e))) as Hq by (rewrite Eh4; apply lookup_insert_eq).
  destruct (handle_entry v4 _ _ Hv4 Hq) as (j & x & s & m & Hi & Hx & Exid & Exfs & _ & _).
  assert (x = e') as ->. { destruct (find_entry v4 e' (ck_ids _ _ _ _ _ (tk_counts _ Hv4)) He') as (k & Hk1 & Hk2). rewrite Eid in Hk1. destruct Hi as [Hi1 Hi2 _ _]. change (vfile_id (set_vfile h (ent_id e))) with (ent_id e) in Hi1. rewrite Hk1 in Hi1. injection Hi1 as ->. rewrite Hk2 in Hi2. by injection Hi2. }
  exists v4, (set_vfile h (ent_id e)), j, e'. split_and!; try done. constructor; try done.
  - change (handle_fs (set_vfile h (ent_id e))) with fs. rewrite Efs4, Efs3. apply lookup_insert_eq.
  - rewrite Ef', Ea. by apply devfs_find_ok.
  - rewrite Ef'. destruct (He3 e) as [H| ->]; [by eapply list_elem_of_lookup_2, Haw|by apply Hopen|done].
Qed.

(** ** Calls of a process on a device file *)

Inductive device_call := CallRead (size : Z) | CallWrite (data : list Z).
Definition call_size (c : device_call) : Z := match c with CallRead n => n | CallWrite data => zlen data end.

(** What the functions of the driver are called with at the position [pos], and what the process gets:
    the bytes and the returned value. *)
Definition driver_call (dev : device W) (c : device_call) (pos : Z) (w : W) : res (Z * W * (list Z * Z)) :=
  match c with
  | CallRead size => '(w, data, r) ← dev_read dev pos size w; Ok (pos + Z.max 0 r, w, if r <? 0 then ([], u64 r) else (data, r))
  | CallWrite data => '(w, r) ← dev_write dev data pos (zlen data) w; Ok (pos + zlen data, w, ([], if r <? 0 then u64 (-1) else zlen data))
  end.
Fixpoint driver_calls (dev : device W) (l : list device_call) (pos : Z) (w : W) : res (W * list (list Z * Z)) :=
  match l with
  | [] => Ok (w, [])
  | c :: l => '(pos, w, out) ← driver_call dev c pos w; '(w, outs) ← driver_calls dev l pos w; Ok (w, out :: outs)
  end.

(** The same calls on the handle [p]. *)
Definition file_call (p : Z) (mem : Z -> list Z) (c : device_call) (v : vfs W) : res (vfs W * (list Z * Z)) :=
  match c with
  | CallRead size => '(v, data, r) ← vfs_read_file size p v; Ok (v, (data, r))
  | CallWrite data => '(v, r) ← vfs_write_file data p mem v; Ok (v, ([], r))
  end.
Fixpoint file_calls (p : Z) (mem : Z -> list Z) (l : list device_call) (v : vfs W) : res (vfs W * list (list Z * Z)) :=
  match l with
  | [] => Ok (v, [])
  | c :: l => '(v, out) ← file_call p mem c v; '(v, outs) ← file_calls p mem l v; Ok (v, out :: outs)
  end.

(** Drivers return no more bytes than asked for. *)
Definition device_reads_fit (dev : device W) : Prop := forall pos n w w' data r, dev_read dev pos n w = Ok (w', data, r) -> r <= n.

Record usable (h : file_handle) : Prop := {
  us_read : has_flag (flags h) VFS_READ = true;
  us_write : has_flag (flags h) VFS_WRITE = true;
  us_append : has_flag (flags h) VFS_APPEND = false;
  us_flags : flags h < 256 }.

Lemma usable_same h h' : same_handle h h' -> usable h -> usable h'.
Proof. intros [_ _ _ E] [? ? ? ?]. constructor; by rewrite E. Qed.

Lemma device_call_ok v p h i e w n f c mem pos' w' out : on_device v p h i e w n f -> usable h -> device_reads_fit (df_dev f) -> r_read (dev_rights (df_dev f)) = true -> r_write (dev_rights (df_dev f)) = true ->
  0 < call_size c < 2 ^ 31 -> file_offset h + call_size c < 2 ^ 48 -> driver_call (df_dev f) c (file_offset h) w = Ok (pos', w', out) ->
  exists v' h', file_call p mem c v = Ok (v', out) /\ on_device v' p h' i e w' n f /\ same_handle h h' /\ file_offset h' = pos' /\ pos' <= file_offset h + call_size c.
Proof.
  intros Hd [U1 U2 U3 U4] Hfit Hr Hw Hn Ho E. destruct c as [size|data]; cbn [driver_call call_size] in *.
  - destruct (dev_read _ _ _ _) as [[[w1 data] r]|] eqn:Er; [|done]. cbn [mbind res_bind] in E. injection E as <- <- <-. pose proof (Hfit _ _ _ _ _ _ Er) as Hle.
    destruct (device_read v p h i e w n f size w1 data r Hd U1 Hr Hn Ho Er Hle) as (v' & h' & E' & Hd' & Hs & Eo). exists v', h'. unfold file_call. rewrite E'. cbn [mbind res_bind]. split_and!; [by destruct (r <? 0)|done|done|done|lia].
  - destruct (dev_write _ _ _ _ _) as [[w1 r]|] eqn:Er; [|done]. cbn [mbind res_bind] in E. injection E as <- <- <-.
    destruct (device_write v p h i e w n f data mem w1 r Hd U2 U3 U4 Hw Hn Ho Er) as (v' & h' & E' & Hd' & Hs & Eo). exists v', h'. unfold file_call. rewrite E'. cbn [mbind res_bind]. by split_and!.
Qed.

Definition total_size (l : list device_call) : Z := foldr (fun c n => call_size c + n) 0 l.

Lemma device_calls_ok l : forall v p h i e w n f mem w' outs, on_device v p h i e w n f -> usable h -> device_reads_fit (df_dev f) -> r_read (dev_rights (df_dev f)) = true -> r_write (dev_rights (df_dev f)) = true ->
  Forall (fun c => 0 < call_size c < 2 ^ 31) l -> file_offset h + total_size l < 2 ^ 48 -> driver_calls (df_dev f) l (file_offset h) w = Ok (w', outs) ->
  exists v', file_calls p mem l v = Ok (v', outs) /\ filesystems v' !! handle_fs h = Some (w', n).
Proof.
  induction l as [|c l IH]; intros v p h i e w n f mem w' outs Hd Hu Hfit Hr Hw Hl Ho E.
  { injection E as <- <-. exists v. split; [done|apply Hd]. }
  apply Forall_cons_1 in Hl as [Hc Hl]. cbn [total_size foldr] in Ho. fold (total_size l) in Ho. assert (0 <= total_size l) as Hpos by (clear -Hl; unfold total_size; induction Hl; cbn [foldr]; lia).
  cbn [driver_calls] in E. destruct (driver_call _ _ _ _) as [[[pos1 w1] out]|] eqn:Ec; [|done]. cbn [mbind res_bind] in E. destruct (driver_calls _ _ _ _) as [[w2 outs']|] eqn:El; [|done]. injection E as <- <-.
  destruct (device_call_ok v p h i e w n f c mem pos1 w1 out Hd Hu Hfit Hr Hw Hc ltac:(lia) Ec) as (v1 & h1 & E1 & Hd1 & Hs & <- & Hle).
  destruct (IH v1 p h1 i e w1 n f mem w2 outs' Hd1 (usable_same _ _ Hs Hu) Hfit Hr Hw Hl ltac:(lia) El) as (v2 & E2 & Hf). exists v2. cbn [file_calls]. rewrite E1. cbn [mbind res_bind]. rewrite E2. cbn [mbind res_bind]. split; [done|]. by rewrite <- (sh_fs _ _ Hs).
Qed.

End FileSystem.

(** Removing a device frees a pointer into the table, or the table that is still in use. *)
Theorem devfs_unmap_faults {W} (t : devfs W) name : name ∈ df_name <$> dev_files t -> exists p, devfs_unmap_device name t = Err (Fault p).
Proof.
  intros (f & -> & Hf)%list_elem_of_fmap. unfold devfs_unmap_device. destruct (list_find_elem_of (fun x => df_name x = df_name f) (dev_files t) f Hf eq_refl) as [[[|i] x] ->]; by eexists.
Qed.

(** ** The table after mounting, and a driver *)

Lemma devfs_empty_ok {W} cur : devfs_ok (W := W) (Devfs [] cur).
Proof. constructor; cbn; try (intros f []%not_elem_of_nil); constructor. Qed.

Lemma null_name_proper : proper NULL_NAME.
Proof. unfold proper, name, chars. apply (bool_decide_unpack _). vm_compute. done. Qed.

Lemma devfs_mount_ok {W} cur : 0 <= cur < 2 ^ 64 - 2 -> exists t, devfs_mount (W := W) cur = Ok t /\ devfs_ok t /\ 0 < dev_cur_id t <= cur + 2 /\ df_name <$> dev_files t = [NULL_NAME].
Proof.
  intros Hc. unfold devfs_mount, dev_null. assert (devfs_map_device (W := W) null_device NULL_NAME (Devfs [] cur) = devfs_map_device null_device NULL_NAME (Devfs [] (if cur =? 0 then 1 else cur))) as ->.
  { unfold devfs_map_device. cbn [dev_cur_id dev_files]. destruct (Z.eqb_spec cur 0) as [->|]; [done|]. by rewrite (proj2 (Z.eqb_neq _ _)). }
  set (c := if cur =? 0 then 1 else cur). assert (0 < c <= cur + 1) as Hc' by (unfold c; destruct (Z.eqb_spec cur 0); lia).
  destruct (devfs_map_ok (W := W) null_device NULL_NAME (Devfs [] c) (devfs_empty_ok c) ltac:(cbn; lia) null_name_proper (not_elem_of_nil _) eq_refl) as [Hok Hid]. cbn [dev_cur_id] in Hid.
  exists (devfs_map_device null_device NULL_NAME (Devfs [] c)).1. split; [done|]. split; [done|]. split; [lia|done].
Qed.

(** A driver whose reads return what was written to it; its state is what is not read yet. *)
Definition loop_device : device (list Z) :=
  Device (fun _ n w => let k := Z.min n (zlen w) in Ok (drop (Z.to_nat k) w, take (Z.to_nat k) w, k)) (fun data _ n w => Ok (w ++ data, s32 n)) (2 ^ 64 - 1) (Rights true true false false false).
Definition loop_table : devfs (list Z) := Devfs [DevFile 1 null_device NULL_NAME; DevFile 2 loop_device [108; 111]] 3.

Lemma loop_mapped : exists t, devfs_mount 0 = Ok t /\ devfs_map_device loop_device [108; 111] t = (loop_table, 0).
Proof. eexists. split; reflexivity. Qed.

Lemma loop_table_ok : devfs_ok loop_table.
Proof.
  destruct (devfs_mount_ok (W := list Z) 0 ltac:(lia)) as (t & E & Hok & Hid & Hn). destruct loop_mapped as (t' & E' & Em). assert (t' = t) as -> by congruence.
  destruct (devfs_map_ok loop_device [108; 111] t Hok ltac:(lia)) as [H _]; [unfold proper, name, chars; by apply (bool_decide_unpack _)|rewrite Hn; by apply (bool_decide_unpack _)|done|]. by rewrite Em in H.
Qed.

Lemma loop_fits : device_reads_fit loop_device.
Proof. intros pos n w w' data r [= <- <- <-]. lia. Qed.

Definition no_files : vfs (list Z) := Vfs [] 0 1 false [] [] [] ∅ {[3 := ([], 0)]}.

Lemma no_files_ok : table_ok no_files.
Proof. apply table_ok_start. split_and!; try done. intros p s n Hp. cbn in Hp. apply lookup_singleton_Some in Hp as [_ [= _ <-]]. done. Qed.


Lemma devfs_unmap_witness : exists p, devfs_unmap_device NULL_NAME loop_table = Err (Fault p).
Proof. apply devfs_unmap_faults. left. Defined.
