(* ===== verification/Memfs.v ===== *)
(** * Files of shared memory ([kernel/fs/memfs/memfs.c], and the objects of a process in
    [kernel/sched/process.c])

    A file is a shared memory object; opening it maps the object in the process, reading it gives the
    address.  The instances of objects are stored by pointer; [mf_procs] is the array [shms] of each
    process.  The assertions on the interrupt flag are left out. *)

From S2P Require Import Prelude Bytes FileSystems VfsFiles VfsRead VfsTable VfsTableTheorems VfsDirs Fat32 Shm.

(** [file_instance_t]: the pointer to the [shm_instance], the handle, the process. *)
Record file_instance := FileInst { fi_shm : Z; fi_hid : Z; fi_pid : Z }.
Record memfsf := MemFile { mf_id : Z; mf_name : list Z; mf_insts : list file_instance; mf_kernel : bool }.

(** The files, the objects, the instances in the heap with the next address that [malloc] returns,
    and the processes. *)
Record memfs := Memfs { mf_files : list memfsf; mf_shm : shm_state; mf_heap : list (Z * shm_instance); mf_next : Z; mf_procs : gmap Z (list Z) }.

Definition with_files (m : memfs) (l : list memfsf) : memfs := Memfs l (mf_shm m) (mf_heap m) (mf_next m) (mf_procs m).
Definition with_shm (m : memfs) (s : shm_state) : memfs := Memfs (mf_files m) s (mf_heap m) (mf_next m) (mf_procs m).
Definition with_heap (m : memfs) (h : list (Z * shm_instance)) : memfs := Memfs (mf_files m) (mf_shm m) h (mf_next m) (mf_procs m).
Definition with_procs (m : memfs) (p : gmap Z (list Z)) : memfs := Memfs (mf_files m) (mf_shm m) (mf_heap m) (mf_next m) p.
Definition with_instances (f : memfsf) (l : list file_instance) : memfsf := MemFile (mf_id f) (mf_name f) l (mf_kernel f).

(** [malloc] of an instance that [shm_open] or [shm_create] returns. *)
Definition new_instance (m : memfs) (s : shm_state) (ins : shm_instance) : Z * memfs :=
  (mf_next m, Memfs (mf_files m) s (mf_heap m ++ [(mf_next m, ins)]) (mf_next m + 1) (mf_procs m)).
Definition instance_at (m : memfs) (p : Z) : option shm_instance := (fun r => r.2.2) <$> list_find (fun x => x.1 = p) (mf_heap m).

(** ** The objects of a process *)

(** 0 on success. *)
Definition process_register_shm (l : list Z) (p : Z) : list Z * Z := if bool_decide (p ∈ l) then (l, -1) else (l ++ [p], 0).
(** [shm_close], which frees the instance. *)
Definition close_shm (pid p : Z) (m : memfs) : res memfs :=
  match list_find (fun x => x.1 = p) (mf_heap m) with
  | None => Err (Fault "ins")
  | Some (j, (_, ins)) => s ← shm_close (Some pid) ins (mf_shm m); Ok (with_heap (with_shm m s) (delete j (mf_heap m)))
  end.

(** [for(int i = 0; i < proc->n_shms; i++)] of [process_remove_shm], with [k] rounds left: the number of
    elements stays as it is. *)
Fixpoint process_remove_shm (k : nat) (i pid p : Z) (l : list Z) (m : memfs) : res (list Z * memfs) :=
  match k with
  | O => Ok (l, m)
  | S k =>
      x ← ld l i;
      if x =? p then
        l ← (if negb (i =? zlen l - 1) then y ← ld l (zlen l - 1); st l i y else Ok l);
        m ← close_shm pid p m;
        process_remove_shm k (i + 1) pid p l m
      else process_remove_shm k (i + 1) pid p l m
  end.

(** The address of the object [id] in the process, 0 when it has none; an instance is read through a
    pointer. *)
Fixpoint process_get_shm_vbase (l : list Z) (id : Z) (m : memfs) : res Z :=
  match l with
  | [] => Ok 0
  | p :: l =>
      match instance_at m p with
      | None => Err (Fault "proc->shms[i]")
      | Some ins => if target ins =? id then Ok (vaddr ins) else process_get_shm_vbase l id m
      end
  end.

(** The end of [free_process]: the objects, then the memory. *)
Fixpoint close_shms (pid : Z) (l : list Z) (m : memfs) : res memfs :=
  match l with [] => Ok m | p :: l => m ← close_shm pid p m; close_shms pid l m end.
Definition free_process_shms (pid : Z) (m : memfs) : res memfs :=
  match mf_procs m !! pid with
  | None => Ok m
  | Some l =>
      m ← close_shms pid l m;
      let s := mf_shm m in
      Ok (with_procs (with_shm m (ShmState (shms s) (cur_id s) (delete pid (shared s)) (freed s))) (delete pid (mf_procs m)))
  end.

(** ** The file system *)

Definition memfs_register_file (name : list Z) (id : Z) (m : memfs) : memfs := with_files m (mf_files m ++ [MemFile id name [] true]).

Definition memfs_find_file (m : memfs) (id : Z) : option (nat * memfsf) := list_find (fun f => mf_id f = id) (mf_files m).
Definition find_instance_by_pid (f : memfsf) (pid : Z) : option (nat * file_instance) := list_find (fun i => fi_pid i = pid) (mf_insts f).
Definition find_instance_by_hid (f : memfsf) (hid : Z) : option (nat * file_instance) := list_find (fun i => fi_hid i = hid) (mf_insts f).

(** [cur]: the process that calls. *)
Definition memfs_open_instance (cur a hid : Z) (m : memfs) : res (memfs * Z) :=
  let id := s32 a in
  match memfs_find_file m id with
  | None => Err (Panic "file")
  | Some (i, f) =>
      match find_instance_by_pid f cur with
      | Some _ => Ok (m, -1)
      | None =>
          assert_ (negb (id =? -1)) "id != NO_SHM" ;;
          match shm_open id cur (mf_shm m) with
          | (None, _) => Err (Panic "new_fi.shm")
          | (Some ins, s) =>
              let '(p, m) := new_instance m s ins in
              let m := with_files m (<[i := with_instances f (mf_insts f ++ [FileInst p hid cur])]> (mf_files m)) in
              match mf_procs m !! cur with
              | None => Err (Panic "proc")
              | Some l => Ok (with_procs m (<[cur := (process_register_shm l p).1]> (mf_procs m)), 0)
              end
          end
      end
  end.

Definition memfs_close_instance (a hid : Z) (m : memfs) : res memfs :=
  match memfs_find_file m (s32 a) with
  | None => Err (Fault "file")
  | Some (i, f) =>
      match find_instance_by_hid f hid with
      | None => Err (Panic "instance")
      | Some (j, inst) =>
          let m := match mf_procs m !! fi_pid inst with
                   | None => m
                   | Some l => with_procs m (<[fi_pid inst := (process_register_shm l (fi_shm inst)).1]> (mf_procs m))
                   end in
          Ok (with_files m (<[i := with_instances f (swap_remove j (mf_insts f))]> (mf_files m)))
      end
  end.

Definition memfs_close_file (a : Z) (m : memfs) : res memfs :=
  match memfs_find_file m (s32 a) with
  | None => Err (Panic "file")
  | Some (i, f) =>
      assert_ (bool_decide (mf_insts f = [])) "file->n_instances == 0" ;;
      if mf_kernel f then Ok m else Ok (with_files m (swap_remove i (mf_files m)))
  end.

(** [sizeof(struct mem_desc)]; the structure is one address. *)
Definition MEM_DESC : Z := 8.

Definition memfs_read (cur a begin n : Z) (m : memfs) : res (list Z * Z) :=
  match memfs_find_file m (s32 a) with
  | None => Err (Panic "f")
  | Some (_, f) =>
      match find_instance_by_pid f cur with
      | None => Err (Panic "instance")
      | Some (_, inst) =>
          match instance_at m (fi_shm inst) with
          | None => Err (Fault "instance->shm")
          | Some ins => assert_ (u64 (begin + n) <=? MEM_DESC) "begin + n <= sizeof(struct mem_desc)" ;; data ← rd_bytes (le_enc 8 (vaddr ins)) begin n; Ok (data, s32 n)
          end
      end
  end.

Definition memfs_dirent (f : memfsf) : dirent := DirEnt (mf_name f) (Dirent (mf_id f) MEM_DESC DT_REG true false false true true).
Definition memfs_read_dir (dir_addr : Z) (m : memfs) : res (memfs * list dirent) :=
  if negb (dir_addr =? 0) then Err (Fault "n") else Ok (m, memfs_dirent <$> mf_files m).

(** The address of the new file and 0 on success; [pd] is what [shm_alloc] returns. *)
Definition memfs_add_dirent (cur dir_addr : Z) (name : list Z) (type pd : Z) (m : memfs) : res (memfs * Z * Z) :=
  assert_ (negb (cur =? 0)) "sched_current_pid() != KERNEL_PID" ;;
  if negb (dir_addr =? 0) then Ok (m, 0, -1)
  else if negb (type =? DT_REG) then Ok (m, 0, -1)
  else
    match shm_create 1 cur pd (mf_shm m) with
    | (None, _) => Err (Panic "shm")
    | (Some ins, s) => let '(_, m) := new_instance m s ins in Ok (memfs_register_file name (target ins) m, target ins, 0)
    end.

(** The functions of the file system, called by the process [cur]. *)
Definition memfs_file_system (cur : Z) : FileSystem memfs := {|
  file_access_granularity _ := 1;
  cacheable _ := false;
  read_file_sectors fd begin n m := '(data, r) ← memfs_read cur (addr fd) begin n m; Ok (m, data, r);
  write_file_sectors _ _ _ _ _ := Err (Panic "unreachable");
  truncate_file _ _ _ := Err (Panic "truncate not implemented");
  open_file _ _ := None;
  close_file a m := Some (memfs_close_file a m);
  open_instance a hid m := Some (memfs_open_instance cur a hid m);
  close_instance a hid m := Some (memfs_close_instance a hid m) |}.

(** ** Runs *)

(** The kernel starts a process or shares a buffer as a file; a process creates a file, opens one,
    closes a handle, or exits, which it does when its handles are closed. *)
Inductive memfs_call :=
  | MSpawn (pid : Z) | MShare (size pd pf : Z) (name : list Z) | MCreate (pid : Z) (name : list Z) (pd : Z)
  | MOpen (pid id hid : Z) | MClose (id hid : Z) | MExit (pid : Z).

Definition has_handles (m : memfs) (pid : Z) : bool := existsb (fun f => existsb (fun i => fi_pid i =? pid) (mf_insts f)) (mf_files m).

Definition memfs_step (m : memfs) (c : memfs_call) : res memfs :=
  match c with
  | MSpawn pid =>
      if bool_decide (is_Some (mf_procs m !! pid)) || (pid =? 0) then Ok m
      else let s := mf_shm m in Ok (with_procs (with_shm m (ShmState (shms s) (cur_id s) (<[pid := replicate 512 0]> (shared s)) (freed s))) (<[pid := []]> (mf_procs m)))
  | MShare size pd pf name =>
      match shm_create_from_kernel size pd pf (mf_shm m) with
      | (None, _) => Ok m
      | (Some ins, s) => let '(_, m) := new_instance m s ins in Ok (memfs_register_file name (target ins) m)
      end
  | MCreate pid name pd => '(m, _, _) ← memfs_add_dirent pid 0 name DT_REG pd m; Ok m
  | MOpen pid id hid => '(m, _) ← memfs_open_instance pid id hid m; Ok m
  | MClose id hid => memfs_close_instance id hid m
  | MExit pid => if has_handles m pid then Ok m else free_process_shms pid m
  end.
Fixpoint memfs_run (m : memfs) (l : list memfs_call) : res memfs :=
  match l with [] => Ok m | c :: l => m ← memfs_step m c; memfs_run m l end.

Definition memfs_start : memfs := Memfs [] (ShmState [] 0 ∅ []) [] 1 ∅.

(** ** The invariant *)

Record memfs_ok (m : memfs) : Prop := {
  mo_shm : shm_ok (mf_shm m) (snd <$> mf_heap m);
  mo_cur : 0 <= cur_id (mf_shm m);
  mo_heap : NoDup (fst <$> mf_heap m);
  mo_next : forall x, x ∈ mf_heap m -> x.1 < mf_next m;
  mo_ids : NoDup (mf_id <$> mf_files m);
  mo_range : forall f, f ∈ mf_files m -> 0 < mf_id f <= cur_id (mf_shm m);
  mo_one : forall f, f ∈ mf_files m -> NoDup (fi_pid <$> mf_insts f);
  mo_insts : forall f i, f ∈ mf_files m -> i ∈ mf_insts f -> exists ins, (fi_shm i, ins) ∈ mf_heap m /\ target ins = mf_id f /\ ipid ins = fi_pid i /\ vaddr ins <> 0;
  mo_procs : forall pid l, mf_procs m !! pid = Some l -> pid <> 0 /\ NoDup l /\ forall p, p ∈ l -> exists ins, (p, ins) ∈ mf_heap m /\ ipid ins = pid;
  mo_mapped : forall p ins, (p, ins) ∈ mf_heap m -> vaddr ins <> 0 -> exists l, mf_procs m !! ipid ins = Some l /\ p ∈ l }.

Lemma heap_find (h : list (Z * shm_instance)) p ins : NoDup (fst <$> h) -> (p, ins) ∈ h -> exists j, list_find (fun x => x.1 = p) h = Some (j, (p, ins)).
Proof.
  intros Hn Hin. destruct (list_find_elem_of (fun x => x.1 = p) h (p, ins) Hin eq_refl) as [[j x] E]. exists j. rewrite E. do 2 f_equal. apply list_find_Some in E as (Hj & Ex & _).
  apply list_elem_of_lookup in Hin as [k Hk]. assert (j = k) as ->; [|congruence]. apply (NoDup_lookup _ j k p Hn); rewrite list_lookup_fmap; [rewrite Hj|rewrite Hk]; cbn; congruence.
Qed.

Lemma heap_unique (h : list (Z * shm_instance)) p a b : NoDup (fst <$> h) -> (p, a) ∈ h -> (p, b) ∈ h -> a = b.
Proof. intros Hn Ha Hb. destruct (heap_find h p a Hn Ha) as [i Ei], (heap_find h p b Hn Hb) as [j Ej]. congruence. Qed.

Lemma heap_delete (h : list (Z * shm_instance)) j p ins : NoDup (fst <$> h) -> h !! j = Some (p, ins) -> NoDup (fst <$> delete j h) /\ forall x, x ∈ delete j h <-> x ∈ h /\ x.1 <> p.
Proof.
  intros Hn Hj. rewrite <- (take_drop_middle h j _ Hj) in Hn. rewrite fmap_app, fmap_cons in Hn. cbn in Hn. apply list.NoDup_app in Hn as (H1 & H2 & [H3 H4]%list.NoDup_cons).
  rewrite delete_take_drop, fmap_app. split; [apply list.NoDup_app; split_and!; [done|intros x Hx Hy; apply (H2 x Hx); by right|done]|]. intros x. rewrite <- (take_drop_middle h j _ Hj) at 3. rewrite !elem_of_app, elem_of_cons. split.
  - intros [Hx|Hx]; (split; [tauto|]); intros <-; [apply (H2 x.1); [by apply list_elem_of_fmap_2|left]|apply H3; by apply list_elem_of_fmap_2].
  - intros [[Hx|[->|Hx]] Hne]; [by left|done|by right].
Qed.

(** ** What the functions on objects return *)

Lemma shm_create_shape size pid pd s ins s' : 0 <= cur_id s -> cur_id s + 1 < 2 ^ 31 -> shm_create size pid pd s = (Some ins, s') -> target ins = cur_id s + 1 /\ vaddr ins = 0 /\ ipid ins = pid /\ cur_id s' = cur_id s + 1.
Proof.
  intros H0 Hb Hc. unfold shm_create, shm_nextid in Hc. destruct (bad_size size); [done|]. destruct (pd =? 0); [done|]. rewrite s32_small in Hc by lia. destruct (map_shm _ pd pid) as [va s2] eqn:Em. destruct (va =? 0); [done|]. injection Hc as <- <-. split_and!; try done.
  unfold map_shm in Em. destruct (shared _ !! pid) as [l|]; [destruct (free_slot l 0)|]; by injection Em as _ <-.
Qed.

Lemma shm_kernel_shape size pd pf s ins s' : 0 <= cur_id s -> cur_id s + 1 < 2 ^ 31 -> shm_create_from_kernel size pd pf s = (Some ins, s') -> target ins = cur_id s + 1 /\ vaddr ins = 0 /\ ipid ins = 0 /\ cur_id s' = cur_id s + 1.
Proof. intros H0 Hb Hc. unfold shm_create_from_kernel, shm_nextid in Hc. destruct (bad_size size); [done|]. destruct (pd =? 0); [done|]. rewrite s32_small in Hc by lia. by injection Hc as <- <-. Qed.

Lemma shm_open_shape id pid s ins s' : shm_open id pid s = (Some ins, s') -> target ins = id /\ vaddr ins <> 0 /\ ipid ins = pid.
Proof.
  intros Ho. unfold shm_open in Ho. destruct (get_shm s id) as [[i e]|]; [|done]. destruct (map_shm _ _ _) as [va s2]. destruct (Z.eqb_spec va 0); [done|]. by injection Ho as <- _.
Qed.

(** The directory of a process where nothing is mapped can change. *)
Lemma shm_shared_ok s insts pid sh : shm_ok s insts -> (forall ins, ins ∈ insts -> vaddr ins <> 0 -> ipid ins <> pid) -> (forall p, p <> pid -> sh !! p = shared s !! p) -> (forall l, sh !! pid = Some l -> length l = 512%nat) ->
  shm_ok (ShmState (shms s) (cur_id s) sh (freed s)) insts.
Proof.
  intros [Hid Hr Hc Hl Hs Hn] Hfree Heq Hlen. constructor; try done; cbn.
  - intros ins Hin. destruct (Hl ins Hin) as (e & He & Et & Hm). exists e. split; [done|]. split; [done|]. intros Hv. destruct (Hm Hv) as (M1 & M2 & M3). split; [done|]. split; [done|]. cbn. rewrite Heq by by apply Hfree. done.
  - intros p l Hp. destruct (decide (p = pid)) as [->|Hne]; [by apply Hlen|]. rewrite Heq in Hp by done. by eapply Hn.
Qed.

(** ** Each operation keeps the invariant *)

Lemma fresh_next m ins : memfs_ok m -> (mf_next m, ins) ∉ mf_heap m.
Proof. intros Hok Hin. pose proof (mo_next _ Hok _ Hin). cbn in *. lia. Qed.

Lemma heap_new_nodup m ins : memfs_ok m -> NoDup (fst <$> mf_heap m ++ [(mf_next m, ins)]).
Proof.
  intros Hok. rewrite fmap_app. apply list.NoDup_app. split_and!; [apply Hok| |apply NoDup_singleton]. intros p (x & -> & Hx)%list_elem_of_fmap Hp%list_elem_of_singleton. pose proof (mo_next _ Hok x Hx). cbn in Hp. lia.
Qed.

Lemma heap_new_next m ins x : memfs_ok m -> x ∈ mf_heap m ++ [(mf_next m, ins)] -> x.1 < mf_next m + 1.
Proof. intros Hok [Hx| ->%list_elem_of_singleton]%elem_of_app; [pose proof (mo_next _ Hok x Hx); lia|cbn; lia]. Qed.

(** A new object becomes a file. *)
Lemma register_new_ok m s ins name : memfs_ok m -> shm_ok s ((snd <$> mf_heap m) ++ [ins]) -> target ins = cur_id (mf_shm m) + 1 -> vaddr ins = 0 -> cur_id s = cur_id (mf_shm m) + 1 ->
  memfs_ok (memfs_register_file name (target ins) (new_instance m s ins).2).
Proof.
  intros Hok Hs Ht Hv Hc. pose proof Hok as [M1 M2 M3 M4 M5 M6 M7 M8 M9 M10]. constructor; cbn.
  - by rewrite fmap_app.
  - lia.
  - by apply heap_new_nodup.
  - intros x. by apply heap_new_next.
  - rewrite fmap_app. apply list.NoDup_app. split_and!; [done| |apply NoDup_singleton]. intros x (f & -> & Hf)%list_elem_of_fmap Hx%list_elem_of_singleton. specialize (M6 f Hf). cbn in Hx. lia.
  - intros f [Hf| ->%list_elem_of_singleton]%elem_of_app; [specialize (M6 f Hf); lia|cbn; lia].
  - intros f [Hf| ->%list_elem_of_singleton]%elem_of_app; [by apply M7|constructor].
  - intros f i [Hf| ->%list_elem_of_singleton]%elem_of_app Hi; [|by apply not_elem_of_nil in Hi]. destruct (M8 f i Hf Hi) as (a & Ha & ?). exists a. split; [apply elem_of_app; by left|done].
  - intros pid l Hl. destruct (M9 pid l Hl) as (? & ? & Hp). split; [done|]. split; [done|]. intros p Hin. destruct (Hp p Hin) as (a & Ha & ?). exists a. split; [apply elem_of_app; by left|done].
  - intros p a [Ha| [= -> ->]%list_elem_of_singleton]%elem_of_app Hva; [by eapply M10|done].
Qed.

Lemma memfs_add_dirent_ok cur name pd m m' a r : memfs_ok m -> cur_id (mf_shm m) + 1 < 2 ^ 31 -> memfs_add_dirent cur 0 name DT_REG pd m = Ok (m', a, r) -> memfs_ok m' /\ cur_id (mf_shm m') = cur_id (mf_shm m) + 1.
Proof.
  intros Hok Hb E. unfold memfs_add_dirent in E. destruct (negb (cur =? 0)); [|done]. cbn [assert_ mbind res_bind Z.eqb negb DT_REG] in E. destruct (shm_create 1 cur pd (mf_shm m)) as [[ins|] s] eqn:Ec; [|done].
  destruct (shm_create_shape _ _ _ _ _ _ (mo_cur _ Hok) Hb Ec) as (E1 & E2 & E3 & E4). destruct (shm_create_ok _ _ _ _ _ _ _ (mo_shm _ Hok) (mo_cur _ Hok) Hb Ec) as (_ & Hs & _). cbn [new_instance] in E. injection E as <- _ _. split; [|exact E4].
  by apply (register_new_ok m s ins name).
Qed.

Lemma share_ok size pd pf name m ins s : memfs_ok m -> cur_id (mf_shm m) + 1 < 2 ^ 31 -> shm_create_from_kernel size pd pf (mf_shm m) = (Some ins, s) -> memfs_ok (memfs_register_file name (target ins) (new_instance m s ins).2) /\ cur_id s = cur_id (mf_shm m) + 1.
Proof.
  intros Hok Hb Ec. destruct (shm_kernel_shape _ _ _ _ _ _ (mo_cur _ Hok) Hb Ec) as (E1 & E2 & E3 & E4). destruct (shm_kernel_ok _ _ _ _ _ _ _ (mo_shm _ Hok) (mo_cur _ Hok) Hb Ec) as (_ & Hs & _).
  split; [by apply register_new_ok|exact E4].
Qed.

Lemma memfs_find_file_ok m id i f : memfs_find_file m id = Some (i, f) -> mf_files m !! i = Some f /\ mf_id f = id /\ f ∈ mf_files m.
Proof. intros (H1 & H2 & _)%list_find_Some. split_and!; [done|done|by eapply list_elem_of_lookup_2]. Qed.

Lemma find_pid_none f pid : find_instance_by_pid f pid = None -> pid ∉ fi_pid <$> mf_insts f.
Proof. intros Hf%list_find_None (i & -> & Hi)%list_elem_of_fmap. rewrite list.Forall_forall in Hf. by apply (Hf i). Qed.

(** The files after the instances of one changed. *)
Lemma files_set m i f l : mf_files m !! i = Some f -> mf_id <$> <[i := with_instances f l]> (mf_files m) = mf_id <$> mf_files m /\
  forall g, g ∈ <[i := with_instances f l]> (mf_files m) -> g = with_instances f l \/ g ∈ mf_files m.
Proof.
  intros Hi. split; [rewrite list_fmap_insert; apply list_insert_id; by rewrite list_lookup_fmap, Hi|]. intros g (j & Hj)%list_elem_of_lookup. apply list_lookup_insert_Some in Hj as [(_ & <- & _)|[_ Hj]]; [by left|right]. by eapply list_elem_of_lookup_2.
Qed.

Lemma memfs_open_ok cur a hid m m' r : memfs_ok m -> memfs_open_instance cur a hid m = Ok (m', r) -> memfs_ok m' /\ cur_id (mf_shm m') = cur_id (mf_shm m).
Proof.
  intros Hok E. pose proof Hok as [M1 M2 M3 M4 M5 M6 M7 M8 M9 M10]. unfold memfs_open_instance in E. destruct (memfs_find_file m (s32 a)) as [[i f]|] eqn:Ef; [|done]. destruct (memfs_find_file_ok _ _ _ _ Ef) as (Hi & Hid & Hf).
  destruct (find_instance_by_pid f cur) as [?|] eqn:Ep; [by injection E as <- _|]. destruct (negb _); [|done]. cbn [assert_ mbind res_bind] in E. destruct (shm_open (s32 a) cur (mf_shm m)) as [[ins|] s] eqn:Eo; [|done]. cbn [new_instance] in E.
  destruct (shm_open_shape _ _ _ _ _ Eo) as (E1 & E2 & E3). destruct (shm_open_ok _ _ _ _ _ _ M1 Eo) as (Ec & Hs & _). cbn [mf_procs with_files] in E. destruct (mf_procs m !! cur) as [l|] eqn:El; [|done]. injection E as <- _. split; [|exact Ec].
  destruct (files_set m i f (mf_insts f ++ [FileInst (mf_next m) hid cur]) Hi) as [Hids Hset].
  assert (mf_next m ∉ l) as Hfresh. { intros Hin. destruct (M9 cur l El) as (_ & _ & Hp). destruct (Hp _ Hin) as (b & Hb & _). by apply (fresh_next m b). }
  assert ((process_register_shm l (mf_next m)).1 = l ++ [mf_next m]) as Er by (unfold process_register_shm; by rewrite bool_decide_false). constructor; cbn; rewrite ?Er.
  - by rewrite fmap_app.
  - lia.
  - by apply heap_new_nodup.
  - intros x. by apply heap_new_next.
  - by rewrite Hids.
  - intros g [->|Hg]%Hset; [cbn; specialize (M6 f Hf); lia|specialize (M6 g Hg); lia].
  - intros g [->|Hg]%Hset; [|by apply M7]. cbn. rewrite fmap_app. apply list.NoDup_app. split_and!; [by apply M7| |apply NoDup_singleton]. intros x Hx ->%list_elem_of_singleton. by apply find_pid_none in Ep.
  - assert (forall g x, g ∈ mf_files m -> x ∈ mf_insts g -> exists b, (fi_shm x, b) ∈ mf_heap m ++ [(mf_next m, ins)] /\ target b = mf_id g /\ ipid b = fi_pid x /\ vaddr b <> 0) as Hold
      by (intros g x Hg Hx; destruct (M8 g x Hg Hx) as (b & Hb & ?); exists b; split; [apply elem_of_app; by left|done]).
    intros g x [->|Hg]%Hset Hx; [|by apply Hold]. cbn in Hx |- *. apply elem_of_app in Hx as [Hx| ->%list_elem_of_singleton]; [by apply Hold|]. exists ins. cbn. split; [apply elem_of_app; right; left|]. split_and!; congruence.
  - assert (forall pid k, mf_procs m !! pid = Some k -> pid <> 0 /\ NoDup k /\ forall p, p ∈ k -> exists b, (p, b) ∈ mf_heap m ++ [(mf_next m, ins)] /\ ipid b = pid) as Hold
      by (intros pid k Hk; destruct (M9 pid k Hk) as (? & ? & Hp); split; [done|]; split; [done|]; intros p Hin; destruct (Hp p Hin) as (b & Hb & ?); exists b; split; [apply elem_of_app; by left|done]).
    intros pid k [[<- <-]|[_ Hk]]%lookup_insert_Some; [|by apply Hold]. destruct (Hold cur l El) as (H1 & H2 & H3). split; [done|]. split.
    + apply list.NoDup_app. split_and!; [done| |apply NoDup_singleton]. by intros x Hx ->%list_elem_of_singleton.
    + intros p [Hp| ->%list_elem_of_singleton]%elem_of_app; [by apply H3|]. exists ins. split; [apply elem_of_app; right; left|done].
  - intros p b [Hb|[= -> ->]%list_elem_of_singleton]%elem_of_app Hva.
    + destruct (M10 p b Hb Hva) as (k & Hk & Hp). destruct (decide (ipid b = cur)) as [Eb|Eb]; [|rewrite lookup_insert_ne by done; by exists k]. rewrite Eb, lookup_insert_eq. eexists. split; [done|]. rewrite Eb, El in Hk. injection Hk as <-. apply elem_of_app. by left.
    + rewrite E3, lookup_insert_eq. eexists. split; [done|]. apply elem_of_app. right. left.
Qed.

(** The process keeps the object that the handle had: closing changes the file only. *)
Lemma memfs_close_files a hid m m' : memfs_ok m -> memfs_close_instance a hid m = Ok m' ->
  exists i f j x, mf_files m !! i = Some f /\ mf_insts f !! j = Some x /\ fi_hid x = hid /\ m' = with_files m (<[i := with_instances f (swap_remove j (mf_insts f))]> (mf_files m)).
Proof.
  intros Hok E. unfold memfs_close_instance in E. destruct (memfs_find_file m (s32 a)) as [[i f]|] eqn:Ef; [|done]. destruct (memfs_find_file_ok _ _ _ _ Ef) as (Hi & Hid & Hf). destruct (find_instance_by_hid f hid) as [[j x]|] eqn:Eh; [|done]. apply list_find_Some in Eh as (Hj & Hx & _).
  destruct (mo_insts _ Hok f x Hf ltac:(by eapply list_elem_of_lookup_2)) as (b & Hb & _ & Hp & Hv). destruct (mo_mapped _ Hok _ _ Hb Hv) as (l & Hl & Hin). rewrite <- Hp, Hl in E. unfold process_register_shm in E. rewrite bool_decide_true in E by done. cbn in E.
  exists i, f, j, x. split_and!; try done. injection E as <-. destruct m as [fs s h nx ps]. unfold with_files, with_procs. cbn in *. by rewrite insert_id.
Qed.

Lemma memfs_close_ok a hid m m' : memfs_ok m -> memfs_close_instance a hid m = Ok m' -> memfs_ok m' /\ mf_shm m' = mf_shm m.
Proof.
  intros Hok E. destruct (memfs_close_files a hid m m' Hok E) as (i & f & j & x & Hi & Hj & _ & ->). split; [|done]. pose proof Hok as [M1 M2 M3 M4 M5 M6 M7 M8 M9 M10].
  assert (f ∈ mf_files m) as Hf by (by eapply list_elem_of_lookup_2). destruct (files_set m i f (swap_remove j (mf_insts f)) Hi) as [Hids Hset]. assert (mf_insts f ≡ₚ x :: swap_remove j (mf_insts f)) as Hperm by (rewrite (swap_remove_Permutation _ _ _ Hj); by apply delete_Permutation).
  constructor; cbn; try done.
  - by rewrite Hids.
  - intros g [->|Hg]%Hset; [exact (M6 f Hf)|exact (M6 g Hg)].
  - intros g [->|Hg]%Hset; [|by apply M7]. cbn. specialize (M7 f Hf). rewrite Hperm in M7. cbn in M7. by apply list.NoDup_cons in M7 as [_ ?].
  - intros g y [->|Hg]%Hset Hy; [|by apply M8]. cbn in Hy |- *. apply (M8 f y Hf). rewrite Hperm. by right.
Qed.

(** Closing the objects of a process takes their instances out of the heap and touches nothing else of the
    file system. *)
Record closed_shms (pid : Z) (l : list Z) (m m' : memfs) : Prop := {
  cd_shm : shm_ok (mf_shm m') (snd <$> mf_heap m');
  cd_cur : cur_id (mf_shm m') = cur_id (mf_shm m);
  cd_nodup : NoDup (fst <$> mf_heap m');
  cd_heap : forall x, x ∈ mf_heap m' <-> x ∈ mf_heap m /\ x.1 ∉ l;
  cd_rest : mf_files m' = mf_files m /\ mf_next m' = mf_next m /\ mf_procs m' = mf_procs m }.

Lemma close_shm_ok pid p m m' ins : pid <> 0 -> shm_ok (mf_shm m) (snd <$> mf_heap m) -> NoDup (fst <$> mf_heap m) -> (p, ins) ∈ mf_heap m -> ipid ins = pid -> close_shm pid p m = Ok m' -> closed_shms pid [p] m m'.
Proof.
  intros Hpid Hs Hn Hin Ep E. unfold close_shm in E. destruct (heap_find _ _ _ Hn Hin) as [j Ej]. rewrite Ej in E. destruct (shm_close _ _ _) as [s|] eqn:Ec; [|done]. injection E as <-. apply list_find_Some in Ej as (Hj & _ & _).
  destruct (shm_close_ok (mf_shm m) (snd <$> mf_heap m) j ins (Some pid) s Hs) as (H1 & H2 & _); [by rewrite list_lookup_fmap, Hj|rewrite Ep; by rewrite (proj2 (Z.eqb_neq _ _))|done|]. destruct (heap_delete _ _ _ _ Hn Hj) as [H3 H4].
  assert (snd <$> delete j (mf_heap m) = delete j (snd <$> mf_heap m)) as Ed by (rewrite !delete_take_drop, fmap_app, fmap_take, fmap_drop; done).
  constructor; cbn; try done; [by rewrite Ed|]. intros x. by rewrite H4, list_elem_of_singleton.
Qed.

Lemma close_shms_ok pid l : forall m m', pid <> 0 -> shm_ok (mf_shm m) (snd <$> mf_heap m) -> NoDup (fst <$> mf_heap m) -> NoDup l -> (forall p, p ∈ l -> exists ins, (p, ins) ∈ mf_heap m /\ ipid ins = pid) ->
  close_shms pid l m = Ok m' -> closed_shms pid l m m'.
Proof.
  induction l as [|p l IH]; intros m m' Hpid Hs Hn Hl Hin E.
  { injection E as <-. constructor; try done. intros x. split; [|by intros [? _]]. intros Hx. split; [done|apply not_elem_of_nil]. }
  cbn in E. destruct (close_shm pid p m) as [m1|] eqn:E1; [|done]. cbn [mbind res_bind] in E. apply list.NoDup_cons in Hl as [Hp Hl]. destruct (Hin p ltac:(left)) as (ins & Hi & Ei).
  destruct (close_shm_ok pid p m m1 ins Hpid Hs Hn Hi Ei E1) as [C1 C2 C3 C4 (C5 & C6 & C7)]. destruct (IH m1 m' Hpid C1 C3 Hl) as [D1 D2 D3 D4 (D5 & D6 & D7)]; [|exact E|].
  - intros q Hq. destruct (Hin q ltac:(by right)) as (b & Hb & Eb). exists b. split; [|done]. apply C4. split; [done|]. cbn. intros ->%list_elem_of_singleton. done.
  - constructor; try done; [congruence| |split_and!; congruence]. intros x. rewrite D4, C4, !not_elem_of_cons. pose proof (not_elem_of_nil x.1). tauto.
Qed.

Lemma has_handles_false m pid f i : has_handles m pid = false -> f ∈ mf_files m -> i ∈ mf_insts f -> fi_pid i <> pid.
Proof.
  intros Hh Hf Hi Ep. apply not_true_iff_false in Hh. apply Hh. unfold has_handles. apply existsb_exists. exists f. split; [by apply list_elem_of_In|]. apply existsb_exists. exists i. split; [by apply list_elem_of_In|]. by apply Z.eqb_eq.
Qed.

Lemma memfs_exit_ok pid m m' : memfs_ok m -> has_handles m pid = false -> free_process_shms pid m = Ok m' -> memfs_ok m' /\ cur_id (mf_shm m') = cur_id (mf_shm m).
Proof.
  intros Hok Hh E. pose proof Hok as [M1 M2 M3 M4 M5 M6 M7 M8 M9 M10]. unfold free_process_shms in E. destruct (mf_procs m !! pid) as [l|] eqn:El; [|by injection E as <-]. destruct (close_shms pid l m) as [m1|] eqn:Ec; [|done]. injection E as <-.
  destruct (M9 pid l El) as (Hpid & Hnd & Hp). destruct (close_shms_ok pid l m m1 Hpid M1 M3 Hnd Hp Ec) as [C1 C2 C3 C4 (C5 & C6 & C7)].
  assert (forall p b, (p, b) ∈ mf_heap m1 -> vaddr b <> 0 -> ipid b <> pid) as Hgone.
  { intros p b [Hb Hnot]%C4 Hv Eb. destruct (M10 p b Hb Hv) as (k & Hk & Hin). rewrite Eb, El in Hk. injection Hk as <-. done. }
  assert (forall p b, (p, b) ∈ mf_heap m -> ipid b <> pid -> (p, b) ∈ mf_heap m1) as Hkeep.
  { intros p b Hb Hne. apply C4. split; [exact Hb|]. intros Hin. destruct (Hp p Hin) as (c & Hc & Epc). apply Hne. rewrite <- Epc. f_equal. exact (heap_unique _ _ _ _ M3 Hb Hc). }
  split; [|exact C2]. constructor; cbn; rewrite ?C5, ?C6, ?C7; try done.
  - apply (shm_shared_ok (mf_shm m1) _ pid); [done| |intros q Hq; by rewrite lookup_delete_ne|intros k Hk; by rewrite lookup_delete_eq in Hk]. intros b ([p b'] & -> & Hb)%list_elem_of_fmap. by eapply Hgone.
  - by rewrite C2.
  - intros x [Hx _]%C4. by apply M4.
  - by rewrite C2.
  - intros f i Hf Hi. destruct (M8 f i Hf Hi) as (b & Hb & E1 & E2 & E3). exists b. split; [|done]. apply Hkeep; [done|]. rewrite E2. by eapply has_handles_false.
  - intros q k [Hne Hk]%lookup_delete_Some. destruct (M9 q k Hk) as (H1 & H2 & H3). split; [done|]. split; [done|]. intros p Hin. destruct (H3 p Hin) as (b & Hb & Eb). exists b. split; [apply Hkeep; congruence|done].
  - intros p b Hb Hv. pose proof (Hgone p b Hb Hv). destruct (M10 p b (proj1 (proj1 (C4 _) Hb)) Hv) as (k & Hk & Hin). exists k. split; [by rewrite lookup_delete_ne|done].
Qed.

Lemma memfs_spawn_ok pid m : memfs_ok m -> mf_procs m !! pid = None -> pid <> 0 ->
  memfs_ok (with_procs (with_shm m (ShmState (shms (mf_shm m)) (cur_id (mf_shm m)) (<[pid := replicate 512 0]> (shared (mf_shm m))) (freed (mf_shm m)))) (<[pid := []]> (mf_procs m))).
Proof.
  intros Hok Hno Hpid. pose proof Hok as [M1 M2 M3 M4 M5 M6 M7 M8 M9 M10]. constructor; cbn; try done.
  - apply (shm_shared_ok (mf_shm m) _ pid); [done| |intros q Hq; by rewrite lookup_insert_ne|intros k Hk; rewrite lookup_insert_eq in Hk; by injection Hk as <-]. intros b ([p b'] & -> & Hb)%list_elem_of_fmap Hv Ep. destruct (M10 p b' Hb Hv) as (k & Hk & _). cbn in Ep. congruence.
  - intros q k [[<- <-]|[_ Hk]]%lookup_insert_Some; [|by apply M9]. split; [done|]. split; [constructor|]. by intros p Hp%not_elem_of_nil.
  - intros p b Hb Hv. destruct (M10 p b Hb Hv) as (k & Hk & Hin). exists k. split; [|done]. rewrite lookup_insert_ne; [done|]. congruence.
Qed.

Lemma memfs_step_ok m c m' : memfs_ok m -> cur_id (mf_shm m) + 1 < 2 ^ 31 -> memfs_step m c = Ok m' -> memfs_ok m' /\ cur_id (mf_shm m') <= cur_id (mf_shm m) + 1.
Proof.
  intros Hok Hb E. destruct c as [pid|size pd pf name|pid name pd|pid id hid|id hid|pid]; cbn [memfs_step] in E.
  - destruct (bool_decide (is_Some _)) eqn:Ed; cbn [orb] in E; [injection E as <-; split; [done|lia]|]. destruct (Z.eqb_spec pid 0) as [|Hne]; injection E as <-; (split; [|cbn; lia]); [done|]. apply bool_decide_eq_false in Ed. apply memfs_spawn_ok; [done|by apply eq_None_not_Some|done].
  - destruct (shm_create_from_kernel _ _ _ _) as [[ins|] s] eqn:Ec; cbn [new_instance] in E; injection E as <-; [|split; [done|lia]]. destruct (share_ok _ _ _ name m ins s Hok Hb Ec) as [H1 H2]. split; [exact H1|cbn; lia].
  - destruct (memfs_add_dirent _ _ _ _ _ _) as [[[m1 a] r]|] eqn:Ea; [|done]. injection E as <-. destruct (memfs_add_dirent_ok _ _ _ _ _ _ _ Hok Hb Ea) as [H1 H2]. split; [done|lia].
  - destruct (memfs_open_instance _ _ _ _) as [[m1 r]|] eqn:Eo; [|done]. injection E as <-. destruct (memfs_open_ok _ _ _ _ _ _ Hok Eo) as [H1 H2]. split; [done|lia].
  - destruct (memfs_close_ok _ _ _ _ Hok E) as [H1 H2]. split; [done|rewrite H2; lia].
  - destruct (has_handles m pid) eqn:Eh; [injection E as <-; split; [done|lia]|]. destruct (memfs_exit_ok _ _ _ Hok Eh E) as [H1 H2]. split; [done|lia].
Qed.

Lemma memfs_run_ok l : forall m m', memfs_ok m -> cur_id (mf_shm m) + zlen l < 2 ^ 31 -> memfs_run m l = Ok m' -> memfs_ok m' /\ cur_id (mf_shm m') < 2 ^ 31.
Proof.
  induction l as [|c l IH]; intros m m' Hok Hb E; [injection E as <-; split; [done|unfold zlen in Hb; cbn in Hb; lia]|]. unfold zlen in Hb. cbn [length] in Hb. cbn in E. destruct (memfs_step m c) as [m1|] eqn:E1; [|done]. destruct (memfs_step_ok m c m1 Hok ltac:(lia) E1) as [H1 H2].
  apply (IH m1 m' H1); [unfold zlen; lia|done].
Qed.

Lemma memfs_start_ok : memfs_ok memfs_start.
Proof. constructor; cbn; try done; try constructor; cbn; try done; try constructor; intros; by (exfalso; eapply not_elem_of_nil). Qed.

(** ** Theorems *)

Lemma memfs_find_file_unique m f : memfs_ok m -> f ∈ mf_files m -> exists i, memfs_find_file m (mf_id f) = Some (i, f).
Proof.
  intros Hok Hf. destruct (list_find_elem_of (fun g => mf_id g = mf_id f) (mf_files m) f Hf eq_refl) as [[i g] E]. exists i. unfold memfs_find_file. rewrite E. do 2 f_equal. apply list_find_Some in E as (Hi & Eg & _).
  apply list_elem_of_lookup in Hf as [j Hj]. assert (i = j) as ->; [|congruence]. apply (NoDup_lookup _ i j (mf_id f) (mo_ids _ Hok)); rewrite list_lookup_fmap; [rewrite Hi|rewrite Hj]; cbn; congruence.
Qed.

Lemma instance_at_ok m p ins : memfs_ok m -> (p, ins) ∈ mf_heap m -> instance_at m p = Some ins.
Proof. intros Hok Hin. unfold instance_at. by destruct (heap_find _ _ _ (mo_heap _ Hok) Hin) as [j ->]. Qed.

Lemma read_address m f i ins : memfs_ok m -> cur_id (mf_shm m) < 2 ^ 31 -> f ∈ mf_files m -> i ∈ mf_insts f -> (fi_shm i, ins) ∈ mf_heap m -> memfs_read (fi_pid i) (mf_id f) 0 MEM_DESC m = Ok (le_enc 8 (vaddr ins), MEM_DESC).
Proof.
  intros Hok Hb Hf Hi Hin. pose proof (mo_range _ Hok f Hf). unfold memfs_read. rewrite s32_small by lia. destruct (memfs_find_file_unique m f Hok Hf) as [j ->].
  destruct (list_find_elem_of (fun x => fi_pid x = fi_pid i) (mf_insts f) i Hi eq_refl) as [[k x] E]. unfold find_instance_by_pid. rewrite E. apply list_find_Some in E as (Hk & Ex & _).
  assert (x = i) as ->. { apply list_elem_of_lookup in Hi as [q Hq]. assert (k = q) as ->; [|congruence]. apply (NoDup_lookup _ k q (fi_pid i) (mo_one _ Hok f Hf)); rewrite list_lookup_fmap; [rewrite Hk|rewrite Hq]; cbn; congruence. }
  rewrite (instance_at_ok m _ ins Hok Hin). done.
Qed.


(** Closing a file changes the file only: its object stays mapped in the process until it exits. *)
Theorem memfs_close_keeps_object a hid m m' : memfs_ok m -> memfs_close_instance a hid m = Ok m' -> mf_shm m' = mf_shm m /\ mf_heap m' = mf_heap m /\ mf_procs m' = mf_procs m.
Proof. intros Hok E. by destruct (memfs_close_files a hid m m' Hok E) as (i & f & j & x & _ & _ & _ & ->). Qed.

(** A process that opens and closes a file 512 times has no entry left: one more time fails the assertion
    of [memfs_open_instance]. *)
Definition reopening (n : nat) : list memfs_call := [MSpawn 5; MShare 4096 0x1000 0 [118]] ++ concat (replicate n [MOpen 5 1 7; MClose 1 7]).

Theorem memfs_reopening_fails : (exists m, memfs_run memfs_start (reopening 512) = Ok m) /\ memfs_run memfs_start (reopening 513) = Err (Panic "new_fi.shm").
Proof. split; [eexists|]; vm_compute; reflexivity. Qed.

Section Handles.
Context (cur : Z).
#[local] Instance memfs_fs : FileSystem memfs := memfs_file_system cur.

(** [memfs_open_instance] answers 0 for success, which [vfs_handle_dup] takes for a refusal: the process that has a
    file open always gets a duplicate of its handle, of which the file knows nothing, and the kernel panics when it
    is closed. *)
Theorem memfs_duplicate_panics v p h i e m n k f mem : handles v !! p = Some h -> idle_entry v (vfile_id h) i e -> filesystems v !! handle_fs h = Some (m, n) -> 0 <= next_id v -> next_id v + 1 < 2 ^ 64 ->
  memfs_find_file m (s32 (addr (ent_file e))) = Some (k, f) -> cur ∈ fi_pid <$> mf_insts f -> next_id v ∉ fi_hid <$> mf_insts f ->
  exists v', vfs_handle_dup p mem v = Ok (v', Some (next_id v)) /\ vfs_close_file (next_id v) v' = Err (Panic "instance").
Proof.
  intros Hp Hi Hfs Hn0 Hn Ef Hcur Hhid. pose proof Hi as [Hfi He Ha Hl].
  assert (forall hid, memfs_open_instance cur (addr (ent_file e)) hid m = Ok (m, -1)) as Eo.
  { intros hid. unfold memfs_open_instance. rewrite Ef. apply list_elem_of_fmap in Hcur as (x & Ex & Hx). unfold find_instance_by_pid. by destruct (list_find_elem_of (fun y => fi_pid y = cur) (mf_insts f) x Hx (eq_sym Ex)) as [[j y] ->]. }
  assert (memfs_close_instance (addr (ent_file e)) (next_id v) m = Err (Panic "instance")) as Ec.
  { unfold memfs_close_instance. rewrite Ef. unfold find_instance_by_hid. destruct (list_find _ (mf_insts f)) as [[j x]|] eqn:E; [|done]. apply list_find_Some in E as (Hj & Ex & _). exfalso. apply Hhid. rewrite <- Ex. apply list_elem_of_fmap_2. by eapply list_elem_of_lookup_2. }
  unfold vfs_handle_dup, get_handle. rewrite Hp. cbn [mbind res_bind]. unfold handle_next_id. rewrite u64_small by lia. set (v1 := set_ids _ _ _).
  assert (idle_entry v1 (vfile_id h) i e) as Hi1 by (by constructor). rewrite (acquire_vfile_ok v1 _ i e Hi1). cbn [mbind res_bind deref]. change (open_files (set_lock v1 true)) with (open_files v). rewrite He. cbn [mbind res_bind].
  rewrite release_locked by done. rewrite (get_fs_ok v1 _ m n Hfs). cbn [mbind res_bind open_instance memfs_fs memfs_file_system]. rewrite Eo. cbn [mbind res_bind]. rewrite put_fs_id by done. change (-1 =? 0) with false. cbn beta iota.
  rewrite (get_fs_ok v1 _ m n Hfs). cbn [mbind res_bind]. unfold register_handle_to_vfile. set (g := Handle _ _ _ _ _ _ _ _ _). set (v2 := put_handle (next_id v) g _).
  assert (idle_entry v2 (vfile_id h) i e) as Hi2 by (by constructor). rewrite (acquire_vfile_ok v2 _ i e Hi2). cbn [mbind res_bind deref]. change (open_files (set_lock v2 true)) with (open_files v). rewrite He. cbn [mbind res_bind].
  set (e' := set_fhs e _ _). set (v3 := release_vfile _). exists v3. split; [done|].
  assert (open_files v3 = <[i := e']> (open_files v)) as E3 by done. assert (idle_entry v3 (vfile_id h) i e') as Hi3.
  { constructor; [|rewrite E3; apply list_lookup_insert_eq; by eapply lookup_lt_Some|done|done]. rewrite <- Hfi. apply find_vfile_ids. rewrite E3, list_fmap_insert. apply list_insert_id. by rewrite list_lookup_fmap, He. }
  unfold vfs_close_file, get_handle. assert (handles v3 !! next_id v = Some g) as -> by (cbn; apply lookup_insert_eq). cbn [mbind res_bind]. change (vfile_id g) with (vfile_id h).
  rewrite (acquire_file_access_ok v3 _ i e' Hi3). cbn [mbind res_bind]. rewrite (acquire_busy v3 _ i e' Hi3). cbn [mbind res_bind deref]. change (open_files (set_lock (busy v3 i e') true)) with (<[i := set_accessed e' true]> (open_files v3)).
  rewrite list_lookup_insert_eq by (rewrite E3, length_insert; by eapply lookup_lt_Some). cbn [mbind res_bind]. rewrite (get_fs_ok _ (handle_fs g) m (n + 1)) by (cbn; apply lookup_insert_eq). cbn [mbind res_bind close_instance memfs_fs memfs_file_system].
  change (addr (ent_file (set_accessed e' true))) with (addr (ent_file e)). change (handle_id g) with (next_id v). by rewrite Ec.
Qed.
End Handles.

Lemma close_shm_gone pid p m m' : close_shm pid p m = Ok m' -> exists j ins, mf_heap m !! j = Some (p, ins) /\ mf_heap m' = delete j (mf_heap m).
Proof.
  unfold close_shm. destruct (list_find _ _) as [[j [q ins]]|] eqn:E; [|done]. apply list_find_Some in E as (Hj & Eq & _). cbn in Eq. subst q. destruct (shm_close _ _ _) as [s|]; [|done]. intros [= <-]. by exists j, ins.
Qed.

Lemma close_shms_gone pid l p : forall m m', p ∉ fst <$> mf_heap m -> close_shms pid l m = Ok m' -> p ∉ l /\ p ∉ fst <$> mf_heap m'.
Proof.
  induction l as [|q l IH]; intros m m' Hp E; [injection E as <-; split; [apply not_elem_of_nil|done]|]. cbn in E. destruct (close_shm pid q m) as [m1|] eqn:E1; [|done]. destruct (close_shm_gone _ _ _ _ E1) as (j & ins & Hj & Eh).
  assert (p ∉ fst <$> mf_heap m1) as Hp1. { rewrite Eh. intros (x & -> & (k & Hk)%list_elem_of_lookup)%list_elem_of_fmap. apply Hp, list_elem_of_fmap_2. rewrite list_lookup_delete in Hk. case_decide; by eapply list_elem_of_lookup_2. }
  destruct (IH m1 m' Hp1 E) as [H1 H2]. split; [|done]. apply not_elem_of_cons. split; [|done]. intros ->. apply Hp. apply list_elem_of_fmap. exists (q, ins). split; [done|by eapply list_elem_of_lookup_2].
Qed.

(** [process_remove_shm] keeps the number of objects of the process: after the last one is removed its freed
    instance is still in the array, and the exit of the process never succeeds. *)
Theorem process_remove_shm_dangles pid p l m m1 : memfs_ok m -> p ∉ l -> close_shm pid p m = Ok m1 ->
  process_remove_shm (S (length l)) 0 pid p (l ++ [p]) m = Ok (l ++ [p], m1) /\ forall m2, close_shms pid (l ++ [p]) m1 <> Ok m2.
Proof.
  intros Hok Hp E. split.
  - assert (forall k j, (j + k = length l)%nat -> process_remove_shm (S k) (Z.of_nat j) pid p (l ++ [p]) m = Ok (l ++ [p], m1)) as H; [|exact (H (length l) 0%nat eq_refl)]. induction k as [|k IH]; intros j Hj.
    + cbn [process_remove_shm]. rewrite (ld_nat _ _ p) by (rewrite lookup_app_r by lia; by replace (j - length l)%nat with 0%nat by lia). cbn [mbind res_bind]. rewrite Z.eqb_refl. unfold zlen. rewrite length_app. cbn [length].
      rewrite (proj2 (Z.eqb_eq (Z.of_nat j) _)) by lia. cbn [negb mbind res_bind]. by rewrite E.
    + destruct (lookup_lt_is_Some_2 l j ltac:(lia)) as [x Hx]. cbn [process_remove_shm]. rewrite (ld_nat _ _ x) by (by apply lookup_app_l_Some). cbn [mbind res_bind]. rewrite (proj2 (Z.eqb_neq x p)) by (intros ->; apply Hp; by eapply list_elem_of_lookup_2).
      replace (Z.of_nat j + 1) with (Z.of_nat (S j)) by lia. apply IH. lia.
  - intros m2 E2. destruct (close_shm_gone _ _ _ _ E) as (j & ins & Hj & Eh). destruct (heap_delete _ _ _ _ (mo_heap _ Hok) Hj) as [_ Hd].
    assert (p ∉ fst <$> mf_heap m1) as Hg. { rewrite Eh. intros (x & Ex & Hx)%list_elem_of_fmap. apply Hd in Hx as [_ Hne]. done. }
    destruct (close_shms_gone pid _ p m1 m2 Hg E2) as [Hnot _]. apply Hnot, elem_of_app. right. left.
Qed.

(** ** Two processes share a buffer of the kernel *)

Definition calls2 : list memfs_call := [MSpawn 5; MSpawn 6; MShare 4096 0x1000 0 [118]; MOpen 5 1 7; MOpen 6 1 8; MCreate 5 [120] 0x9000; MOpen 6 2 9].
Definition memfs2 : memfs := match memfs_run memfs_start calls2 with Ok m => m | Err _ => memfs_start end.
Definition video_file : memfsf := MemFile 1 [118] [FileInst 2 7 5; FileInst 3 8 6] true.

Lemma memfs2_run : memfs_run memfs_start calls2 = Ok memfs2.
Proof. vm_compute. reflexivity. Qed.

Lemma video_file_in : video_file ∈ mf_files memfs2.
Proof. apply (list_elem_of_lookup_2 _ 0). vm_compute. reflexivity. Qed.

Lemma memfs2_ok : memfs_ok memfs2.
Proof. by destruct (memfs_run_ok calls2 memfs_start memfs2 memfs_start_ok ltac:(vm_compute; done) memfs2_run). Qed.


Lemma memfs_close_witness : exists m', memfs_close_instance 1 7 memfs2 = Ok m' /\ mf_procs m' = mf_procs memfs2.
Proof.
  destruct (memfs_close_instance 1 7 memfs2) as [m'|] eqn:E; [|vm_compute in E; discriminate]. exists m'. split; [reflexivity|]. exact (proj2 (proj2 (memfs_close_keeps_object 1 7 memfs2 m' memfs2_ok E))).
Defined.

(** Process 5 has the shared buffer open at [p]. *)
Definition memfs_handle : file_handle := Handle 0 false 0 0 0 [] 1 7 (VFS_READ + VFS_SEEKABLE + VFS_TRUNCATABLE).
Definition memfs_entry : file_ent := FileEnt (File 1 8) 0 1 [47; 118] false false 1 [5].
Definition memfs_vfs : vfs memfs := Vfs [memfs_entry] 1 20 false [] [] [] {[5 := memfs_handle]} {[0 := (memfs2, 1)]}.

Lemma memfs_duplicate_witness : exists v', vfs_handle_dup (H := memfs_file_system 5) 5 (fun _ => []) memfs_vfs = Ok (v', Some 20) /\ vfs_close_file (H := memfs_file_system 5) 20 v' = Err (Panic "instance").
Proof.
  apply (memfs_duplicate_panics 5 memfs_vfs 5 memfs_handle 0 memfs_entry memfs2 1 0 video_file (fun _ => []) eq_refl); [by constructor|reflexivity|cbn; lia|cbn; lia|vm_compute; reflexivity|left|apply (bool_decide_unpack _); vm_compute; exact I].
Defined.

Lemma process_remove_shm_witness : exists m1, process_remove_shm 1 0 5 2 [2] memfs2 = Ok ([2], m1) /\ forall m2, close_shms 5 [2] m1 <> Ok m2.
Proof.
  destruct (close_shm 5 2 memfs2) as [m1|] eqn:E; [|vm_compute in E; discriminate]. exists m1. exact (process_remove_shm_dangles 5 2 [] memfs2 m1 memfs2_ok (not_elem_of_nil _) E).
Defined.
